(* ===== verification/_CoqProject ===== *)
-Q . S2P
Prelude.v
Validators.v
FastPath.v
Consensus.v
Agreement.v
Mempool.v
Validation.v
AccessList.v
Strings.v
Floats.v
GasSchedule.v
AccountTypes.v
Blobs.v
NativeRollup.v
Lanes.v
Canonical.v
Executor.v
BlockBuilder.v
Codec.v
Gossip.v
Peers.v
Sync.v
P2pNode.v
Payload.v
Json.v
EthRpc.v
Devnet.v
DaemonHex.v
DaemonState.v
Epbs.v
EpbsViews.v
RawTx.v
DaemonEvm.v
Focil.v
FrozenList.v
Ledger.v
Market.v
ChainQueries.v
LedgerProps.v
DaemonRpc.v
Http.v
DaemonStart.v
TestnetArtifacts.v
NodeInvariant.v
MarketProps.v
DaemonExamples.v
MultidimFees.v
FrameTx.v
Announcements.v
ProofAttestation.v
InclusionLists.v
Spore.v
Registers.v
FloatFacts.v
MeshBench.v
FeeCurves.v
Metadata.v
LoadGenerator.v
Genesis.v
Ceremony.v
Governance.v
Gateway.v
Bootnodes.v
SnapshotSync.v
ChainSpec.v
CitadelPort.v
LaunchReview.v
QuickSlots.v
OneRoundFinality.v
Secrecy.v
EcBroadcast.v
AttesterIncluder.v
MigrationPlan.v
Operations.v
TestBed.v
ZkExecution.v
DataScaling.v
ProofLedgers.v
Backends.v
Planning.v
