(* ===== verification/Prelude.v ===== *)
(** * ETH2077: a verification library for the eth2077 client

    ETH2077 is an experimental Ethereum client in Rust.  A node orders blocks with
    an out-of-band BFT engine ([eth2077-oob-consensus]), executes them on a mempool, a
    block builder and an EVM adapter ([eth2077-execution]), talks to its peers
    ([eth2077-p2p]) and answers an engine API and JSON-RPC ([eth2077-bridge]).  Two
    programs are built from it ([eth2077-node]): [devnet], which joins these crates, and
    [eth2077-devnetd], a self-contained daemon with its own ledger, EVM database,
    inclusion lists (FOCIL), payload-timeliness registries (EIP-7732), market and
    JSON-RPC server.  All paths below are under [src/crates/].

    ** Conventions

    Rust integers are values of [Z] with the saturating, checked or wrapping operation of
    the source written out; bytes are [Z] too, strings of the daemon are their UTF-8
    bytes ([Str]).  Structs are records and enums are inductive types, with the source's
    names; a method [T::m] is the definition [T_m] and a method that takes [&mut self]
    returns the new state.  [Result] is [result], [HashMap] and [BTreeMap] are [gmap],
    [HashSet] is [gset].  Where the source iterates over a hash map, the order is the class
    argument [HashOrder], about which only "a permutation of the entries" is known.
    What can panic (indexing, [ruint] conversions, slices) answers [outcome]: [Done] or
    [Panics]; the overflow behaviour is that of the release profile.  A clock that is read
    is an argument.  Every definition that translates code is preceded by a comment with
    the file, the lines and the name of what it translates.

    ** The parts

    Shared: [Prelude.v] (integers, [outcome] and [result] with their monadic notation, the
    sorts, hash-map orders, list and map lemmas, automation), [Floats.v] ([f64] and its methods), [Strings.v]
    (the [str] and numeral functions of the standard library), [Json.v].

    Consensus ([eth2077-oob-consensus/src]): [Validators.v] is [validator.rs], [FastPath.v]
    is [fast_path.rs], [Consensus.v] is [consensus.rs], one engine as a function from a
    message or a timeout to a new state and the actions it asks for.  [Agreement.v] puts the
    engines of the honest validators on an asynchronous network with Byzantine voters: a
    step relation, with the agreement of a height as its invariant's consequence.
    [Backends.v] ([traits.rs], [types.rs], [mock.rs], [consensus_execution.rs]) has the
    traits as classes and the backend of the repository as a refinement of a contract on the
    history of its calls.

    Execution ([eth2077-execution/src]): [Mempool.v] ([ingress.rs]), [Executor.v], [BlockBuilder.v] ([block_builder.rs], [block_validator.rs],
    [genesis.rs]), and one file per proposal: [AccessList.v] ([eip7928.rs]),
    [GasSchedule.v] ([eip8007.rs]), [AccountTypes.v] ([eip7702.rs],
    [eip7864.rs]), [Blobs.v] ([eip8070.rs], [blob_sidecar.rs]),
    [NativeRollup.v] ([eip8079.rs]), [Lanes.v] ([eip8142.rs]).  [Canonical.v] is
    [eth2077-types/src/canonical.rs] and [state.rs].

    Network ([eth2077-p2p/src]): [Codec.v], [Gossip.v], [Peers.v] ([peer.rs]), [Sync.v]
    ([sync_protocol.rs]); [P2pNode.v] ([node.rs]) is their composition: the dispatcher as a
    function from the shared state and an inbound event to the new state and the messages
    put on channels, in order, and the connection task as a state machine.

    The devnet node: [Payload.v] and [EthRpc.v] ([eth2077-bridge/src]) and [Devnet.v]
    ([eth2077-node/src/bin/devnet.rs]), where the engine, the builder, the executor and the
    broadcasts of [P2pNode.v] meet.

    The daemon ([eth2077-node/src/bin/eth2077-devnetd.rs]): [DaemonHex.v] (reading and
    printing values), [DaemonState.v] ([NodeState], its fields grouped by the handlers that
    use them), [Epbs.v] and [EpbsViews.v] ([engine_7732_*]), [RawTx.v] ([decode_raw_tx]),
    [DaemonEvm.v] ([execute_evm_transaction]), [Focil.v] ([engine_getInclusionListV1],
    [engine_forkchoiceUpdatedV3], [engine_newPayloadV3]), [Ledger.v]
    ([eth_sendRawTransaction] and the ticker), [Market.v], [ChainQueries.v], [DaemonRpc.v]
    ([handle_jsonrpc]), [Http.v] ([handle_connection]), [DaemonStart.v] ([build_state]).
    [FrozenList.v], [LedgerProps.v], [NodeInvariant.v],
    [MarketProps.v] hold their theorems and [DaemonExamples.v] a concrete run.

    Types ([eth2077-types/src]): self-contained modules, each a data model with validation,
    statistics and often a commitment.  They share [Validation.v] (lists of errors, 128-bit
    arithmetic), [Metadata.v] (sorted metadata, injective text encodings) and
    [FloatFacts.v] (what rounding can do to an [f64]).  Fees and transactions:
    [MultidimFees.v] ([eip7999.rs]), [FrameTx.v] ([eip8141.rs]), [Announcements.v] ([eip8077.rs]), [FeeCurves.v] ([eip7919.rs], [eip7938.rs]).  Proofs
    and lists: [ProofAttestation.v] ([eip8025.rs]), [InclusionLists.v] ([focil.rs],
    [epbs.rs]), [Spore.v] ([spore_sync.rs], [witness.rs]), [Registers.v]
    ([theorem_registry.rs], [assumption_checker.rs]).  Launch and operations: [Genesis.v]
    ([genesis_builder.rs]), [Ceremony.v] ([validator_ceremony.rs]), [Governance.v]
    ([upgrade_governance.rs]), [Gateway.v] ([rpc_gateway.rs]), [Bootnodes.v]
    ([bootnode_discovery.rs]), [SnapshotSync.v] ([snapshot_sync.rs]), [ChainSpec.v]
    ([chain_spec.rs]), [CitadelPort.v] ([citadel_port.rs]), [LaunchReview.v]
    ([claim_integrity.rs], [go_nogo_gate.rs]), [TestBed.v]
    ([testnet_cluster.rs], [fault_injection.rs]), [MigrationPlan.v] ([migration_plan.rs]), [Operations.v]
    ([ci_formal_gate.rs], [sre_runbooks.rs]), [Planning.v] ([ef_architecture.rs],
    [eip_delta_review.rs], [strawmap_port.rs], [strawmap_companion.rs]), [ProofLedgers.v] ([placeholder_elimination.rs],
    [theorem_taxonomy.rs]).  Proposals weighed by
    estimates in [f64]: [QuickSlots.v] ([quick_slots.rs]), [OneRoundFinality.v]
    ([one_round_finality.rs]), [Secrecy.v] ([lucid_mempool.rs], [whisk_ssle.rs]),
    [DataScaling.v] ([vops.rs], [blob_streaming.rs], [hyperscale_state.rs],
    [shielded_transfers.rs]), [EcBroadcast.v] ([ec_broadcast.rs]),
    [AttesterIncluder.v] ([attester_includer.rs]), [ZkExecution.v]
    ([riscv_migration.rs], [ntt_crypto.rs]).

    Tools: [TestnetArtifacts.v] ([eth2077-testnet/src/main.rs]) draws the genesis, the
    validators and the boot nodes of a test network; [MeshBench.v]
    ([eth2077-bench/src/main.rs]) simulates batches through ingress, execution and
    consensus; [LoadGenerator.v] ([eth2077-live-bench/src/main.rs]) sends transactions to a
    running node and reports: its theorems put it together with the daemon's handlers.

    ** What the theorems show

    - Consensus.  Agreement for one height with the fast path off and at most [fault_budget]
      Byzantine weight, from the certificate invariants and at-most-once finalization; a
      quorum of precommits finalizes; and two schedules that break what the code intends:
      the fast path finalizes different blocks at one height, and quorums are disjoint for
      total weights that are not [3f + 1].
    - Execution.  The pool's two indices agree with its transactions after every operation;
      [submit] decides exactly as its specification; [drain_batch] takes the best executable
      transactions.  Blocks the builder makes are accepted by the validator, on machines
      with different hash-map orders, unless two codes that meet in one state collide under
      Keccak; this rests on what revm documents of the code of accounts ([revm_codes]: the
      code is the preimage of the account's code hash, or what the database served for it).
      The validator's verdict is characterised by a relation that runs the transactions one
      by one; executing a transaction hands revm the transaction's own fields, and its
      commit refines an abstract account-wise specification.  The structural
      validations of the proposals are equivalent to declarative predicates.
    - Network.  Framing is a round trip on any split of the bytes; the relay caches are a
      window over the history; the peer table, gossip and synchronisation invariants hold in
      every run of the node; messages are forwarded exactly once per new item and never
      back to the sender; synchronisation against a serving peer completes.
    - Devnet node.  Event processing terminates; a lone validator extends the chain at
      every timer tick, with blocks every validator accepts; the chain kept by the RPC state is sound.
    - Daemon.  One invariant ties the ledger, the inclusion list, the registries and the
      market together, from [build_state] through every request and tick; the verdict of
      [engine_newPayloadV3] is characterised; frozen inclusion lists are enforced;
      registries are write-once; slot status and penalties, block sealing, log filters,
      ownership of tokens, batches and reading a request from arbitrary chunks are
      characterised.  The lemmas named by the findings show where it goes wrong.
    - Types.  Each validation accepts exactly what its declarative predicate describes;
      fees are conserved and stay between their bounds whatever [f64] rounds; statistics and
      commitments do not depend on the order of hash maps; commitments bind what they hash
      where the encoding allows it, and counterexamples show where it does not; the cycle
      search ends and is exact; the day count follows the calendar; fingerprints of sets
      cancel what the sets share.
    - Tools.  The generator of test networks is a permutation of its states and its files
      agree with one another; its quorums overlap in an honest validator only for some
      numbers of validators.  The simulation ends, counts every transaction and reports
      latencies it measured.  What the load generator builds the daemon decodes, field by
      field, and executes for the sender that was asked for; jobs are submitted or fail,
      never both, and the report accounts for them.

    ** Code outside the repository

    Each is a class, its laws the documented behaviour the code relies on, with a concrete
    instance wherever a theorem is applied: [HashOrder] and [StdHasher] (hash maps and
    [DefaultHasher]), [SortUnstable] ([sort_unstable_by]), [Sha256] ([sha2]), [Alloy]
    (Keccak and the derived RLP of [alloy]), [RevmTypes], [Revm], [EvmTypes],
    [DaemonEvm] ([revm]), [Serde], [SerdeRoundtrip], [JsonText], [JsonParse]
    ([serde_json]), [HexCrate] ([hex]), [Ruint] ([ruint]), [RlpCrate] ([rlp]).  The derived
    JSON of the payloads that are hashed is a class per module ([PayloadJson],
    [GatewayJson], [SyncJson], [CitadelJson], [GateJson], [RunbooksJson],
    [ScenarioJson], [PortJson], [CompanionJson]); [AlloyText] and [JsonRpsee] are
    the text forms of [alloy] and the parameters of [jsonrpsee], [JsonPretty] the files that
    are written, [RlpWriter] the writer of [rlp]; [Libm] is the platform's
    transcendental functions and [UnicodeCase] the case tables of [char].

    ** Fuel and bounds

    Most recursion is structural.  The rest has fuel that a theorem shows to be enough.
    The event loop of [Devnet.v] is given [events_fuel] steps ([devnet_never_hangs]:
    every processed event lowers a rank).  Relay eviction recurses on the queue and
    answers [None] where the source would spin, which the gossip invariant excludes.
    The frame decoder of [Codec.v] has the length of its buffer as fuel: a frame is at
    least five bytes ([decode_loop_fuel]).  Printing a numeral takes 40 decimal or 64
    hexadecimal digits, enough for 128 and 256 bits ([quantities_roundtrip],
    [payload_roundtrip]).  The depth-first search of [CitadelPort.v] has one step more than
    there are entries: its stack never holds an entry twice; running out of fuel is [None], which
    [find_dependency_cycle_exact] excludes.  In [Planning.v]
    the work list has a step per dependency ([follow_fuel]) and the depth search one per item
    and one more; both are shown to end.
    The loop of [MeshBench.v] has a step per transaction: a batch holds one at least, unless
    the batch size is 0, when the source never ends ([simulation_total]).

    ** Not modelled

    Sockets and transports, threads and channels as such (a handler is atomic: the locks
    it takes make it so), logging, argument parsing of [devnet], the status file;
    [microbench.rs], which times and prints; the configuration and report modules of [eth2077-types] other than
    [canonical.rs] and what is listed above, each a self-contained validation and scoring
    module. *)
From Stdlib Require Export ZArith Lia Sorted Permutation.
From stdpp Require Export base numbers gmap sets list strings.

Local Open Scope Z_scope.

(** ** Machine integers

    Rust's [u64], [u32], [u128] and 64-bit [usize] are values of [Z]; every
    operation of the source that can leave the range is written with the
    saturating or wrapping function below that the source calls. *)
Abbreviation u8_max := 255%Z.
Abbreviation u32_max := 4294967295%Z.
Abbreviation u64_max := 18446744073709551615%Z.
Abbreviation u128_max := 340282366920938463463374607431768211455%Z.
Abbreviation u256_max := 115792089237316195423570985008687907853269984665640564039457584007913129639935%Z.

Definition is_u64 (z : Z) : Prop := 0 ≤ z ≤ u64_max.
Definition is_u32 (z : Z) : Prop := 0 ≤ z ≤ u32_max.
Definition is_byte (z : Z) : Prop := 0 ≤ z ≤ u8_max.

Definition u64_saturating_add (a b : Z) : Z := Z.min (a + b) u64_max.
Definition u64_saturating_sub (a b : Z) : Z := Z.max (a - b) 0.
Definition u64_saturating_mul (a b : Z) : Z := Z.min (a * b) u64_max.
Definition u32_saturating_add (a b : Z) : Z := Z.min (a + b) u32_max.
(** Plain arithmetic of the release profile: wraps modulo [2^64]. *)
Definition u64_wrapping_add (a b : Z) : Z := (a + b) mod (u64_max + 1).
Definition u64_wrapping_mul (a b : Z) : Z := (a * b) mod (u64_max + 1).

(** The length of a [Vec] as the [usize] the source compares it with. *)
Definition len {A} (l : list A) : Z := Z.of_nat (length l).

(** Arithmetic over the saturating operations. *)
Ltac sat_lia :=
  unfold is_u64, is_u32, is_byte, u64_saturating_add, u64_saturating_sub,
    u64_saturating_mul, u32_saturating_add, len in *; lia.

(** Case analysis on the first [if] or [match] of the goal or of a hypothesis. *)
Ltac case_if_goal :=
  match goal with
  | |- context [if ?b then _ else _] => destruct b eqn:?
  end.
Ltac case_if_in H :=
  match type of H with
  | context [if ?b then _ else _] => destruct b eqn:?
  end.
Ltac case_match_in H :=
  match type of H with
  | context [match ?x with _ => _ end] => destruct x eqn:?
  end.
(** Boolean tests into propositions. *)
Ltac bool_to_prop :=
  repeat match goal with
  | H : (_ <? _) = true |- _ => apply Z.ltb_lt in H
  | H : (_ <? _) = false |- _ => apply Z.ltb_ge in H
  | H : (_ <=? _) = true |- _ => apply Z.leb_le in H
  | H : (_ <=? _) = false |- _ => apply Z.leb_gt in H
  | H : (_ =? _) = true |- _ => apply Z.eqb_eq in H
  | H : (_ =? _) = false |- _ => apply Z.eqb_neq in H
  | H : bool_decide _ = true |- _ => apply bool_decide_eq_true in H
  | H : bool_decide _ = false |- _ => apply bool_decide_eq_false in H
  | H : negb _ = true |- _ => apply negb_true_iff in H
  | H : negb _ = false |- _ => apply negb_false_iff in H
  | H : andb _ _ = true |- _ => apply andb_true_iff in H as [? ?]
  | H : orb _ _ = false |- _ => apply orb_false_iff in H as [? ?]
  end.

Lemma u64_saturating_add_u64 a b :
  0 ≤ a → 0 ≤ b → is_u64 (u64_saturating_add a b).
Proof. sat_lia. Qed.
Lemma u64_saturating_sub_u64 a b :
  is_u64 a → 0 ≤ b → is_u64 (u64_saturating_sub a b).
Proof. sat_lia. Qed.
Lemma u64_saturating_add_small a b :
  a + b ≤ u64_max → u64_saturating_add a b = a + b.
Proof. sat_lia. Qed.
Lemma u64_saturating_sub_small a b :
  b ≤ a → u64_saturating_sub a b = a - b.
Proof. sat_lia. Qed.

Create HintDb eth discriminated.
(** Composed encoders are self-delimiting when their parts are. *)
Create HintDb encoding discriminated.
#[export] Hint Resolve u64_saturating_add_u64 u64_saturating_sub_u64 : eth.

(** ** Lists *)

Lemma filter_nil_Forall {A} (P : A → Prop) `{!∀ x, Decision (P x)} l :
  filter P l = [] ↔ Forall (λ x, ¬ P x) l.
Proof.
  induction l as [|x l IH]; [done|]. rewrite Forall_cons, <- IH, filter_cons.
  case_decide; naive_solver.
Qed.
Lemma filter_all_Forall {A} (P : A → Prop) `{!∀ x, Decision (P x)} l :
  Forall P l → filter P l = l.
Proof. induction 1; [done|]. rewrite filter_cons_True by done. by f_equal. Qed.

(** What a loop accumulates, and what it preserves. *)
Lemma foldl_accumulates {S A} (f : S → A → S) (P : S → Prop) (Q : A → Prop) s l :
  (∀ s a, P (f s a) ↔ P s ∨ Q a) → P (foldl f s l) ↔ P s ∨ Exists Q l.
Proof.
  intros Hf. revert s. induction l as [|a l IH]; intros s; simpl.
  - rewrite Exists_nil. tauto.
  - rewrite IH, Hf, Exists_cons. tauto.
Qed.
Lemma foldl_preserves {S A} (f : S → A → S) (P : S → Prop) s l :
  (∀ s a, P s → P (f s a)) → P s → P (foldl f s l).
Proof. intros Hf. revert s. induction l as [|a l IH]; simpl; auto. Qed.

(** ** Results: Rust's [Result<T, E>] *)
Inductive result (A E : Type) : Type :=
| Ok (a : A)
| Err (e : E).
Arguments Ok {A E} a.
Arguments Err {A E} e.

Declare Scope rust_scope.
Delimit Scope rust_scope with rust.
Open Scope rust_scope.

Definition result_bind {A B E} (r : result A E) (k : A → result B E) : result B E :=
  match r with Ok a => k a | Err e => Err e end.
(** [let x = e?; k] *)
Notation "'let?' x ':=' e 'in' k" := (result_bind e (fun x => k))
  (at level 10, x pattern, e at level 200, k at level 200) : rust_scope.

Definition is_ok {A E} (r : result A E) : bool :=
  match r with Ok _ => true | Err _ => false end.
Definition map_err {A E F} (f : E → F) (r : result A E) : result A F :=
  match r with Ok a => Ok a | Err e => Err (f e) end.

Lemma result_bind_ok {A B E} (r : result A E) (k : A → result B E) b :
  result_bind r k = Ok b ↔ ∃ a, r = Ok a ∧ k a = Ok b.
Proof. destruct r as [a|e]; simpl; naive_solver. Qed.

(** A computation of the source that may panic. *)
Inductive outcome (A : Type) : Type :=
| Done (a : A)
| Panics.
Arguments Done {A} a.
Arguments Panics {A}.
#[export] Instance outcome_ret : MRet outcome := λ A a, Done a.
#[export] Instance outcome_bind : MBind outcome := λ A B k m,
  match m with Done a => k a | Panics => Panics end.
#[export] Instance outcome_fmap : FMap outcome := λ A B f m,
  match m with Done a => Done (f a) | Panics => Panics end.

Lemma outcome_bind_done {A B} (m : outcome A) (k : A → outcome B) b :
  m ≫= k = Done b ↔ ∃ a, m = Done a ∧ k a = Done b.
Proof. destruct m as [a|]; simpl; naive_solver. Qed.

Definition from_done {A} (d : A) (m : outcome A) : A := match m with Done a => a | Panics => d end.
Definition is_done {A} (m : outcome A) : bool := match m with Done _ => true | Panics => false end.
Lemma done_from_done {A} (d : A) (m : outcome A) : is_done m = true → m = Done (from_done d m).
Proof. by destruct m. Qed.

Lemma fmap_outcome_done {A B} (f : A → B) (m : outcome A) b :
  f <$> m = Done b ↔ ∃ a, m = Done a ∧ b = f a.
Proof. destruct m as [a|]; simpl; naive_solver. Qed.

(** A validator that pushes errors on a vector answers [Ok] exactly when the vector is empty. *)
Definition errors_to_result {E} (errors : list E) : result unit (list E) :=
  match errors with [] => Ok tt | _ => Err errors end.

Lemma errors_to_result_ok {E} (errors : list E) :
  errors_to_result errors = Ok tt ↔ errors = [].
Proof. destruct errors; simpl; naive_solver. Qed.
Lemma errors_to_result_err {E} (errors es : list E) :
  errors_to_result errors = Err es ↔ es = errors ∧ errors ≠ [].
Proof. destruct errors; simpl; naive_solver. Qed.

(** [if c { errors.push(e) }] *)
Definition push_if {E} (c : bool) (e : E) : list E := if c then [e] else [].
Lemma push_if_nil {E} (c : bool) (e : E) : push_if c e = [] ↔ c = false.
Proof. destruct c; naive_solver. Qed.
Lemma elem_of_push_if {E} (c : bool) (e x : E) : x ∈ push_if c e ↔ c = true ∧ x = e.
Proof. destruct c; simpl; set_solver. Qed.

(** ** Orders: Rust's [Ord] and the comparators given to [sort_by] *)

(** [a.cmp(b).then_with(|| d)] *)
Definition then_with (c d : comparison) : comparison :=
  match c with Eq => d | _ => c end.

Lemma then_with_eq c d : then_with c d = Eq ↔ c = Eq ∧ d = Eq.
Proof. destruct c; simpl; naive_solver. Qed.

(** What [sort_by] asks of a comparator: a total preorder. *)
Class PreorderCmp {A} (c : A → A → comparison) : Prop := {
  cmp_antisym x y : c y x = CompOpp (c x y);
  cmp_le_trans x y z : c x y ≠ Gt → c y z ≠ Gt → c x z ≠ Gt;
}.
Arguments cmp_antisym {A} c {_} x y.
Arguments cmp_le_trans {A} c {_} x y z.
(** [Ord]: a total preorder in which only equal values compare [Eq]. *)
Class OrdCmp {A} (c : A → A → comparison) : Prop := {
  #[global] ordcmp_preorder :: PreorderCmp c;
  cmp_eq x y : c x y = Eq → x = y;
}.
Arguments cmp_eq {A} c {_} x y.

Section preorder_cmp.
Context {A : Type} (c : A → A → comparison) `{!PreorderCmp c}.

Lemma cmp_refl x : c x x = Eq.
Proof. pose proof (cmp_antisym c x x) as H. by destruct (c x x). Qed.
Lemma cmp_total x y : c x y ≠ Gt ∨ c y x ≠ Gt.
Proof. rewrite (cmp_antisym c x y). destruct (c x y); simpl; naive_solver. Qed.
Lemma cmp_gt_flip x y : c x y = Gt → c y x ≠ Gt.
Proof. rewrite (cmp_antisym c x y). by intros ->. Qed.
Lemma cmp_eq_flip x y : c x y = Eq → c y x = Eq.
Proof. rewrite (cmp_antisym c x y). by intros ->. Qed.
Lemma cmp_lt_gt x y : c x y = Lt ↔ c y x = Gt.
Proof. rewrite (cmp_antisym c x y). by destruct (c x y). Qed.
Lemma cmp_lt_le_trans x y z : c x y = Lt → c y z ≠ Gt → c x z = Lt.
Proof.
  intros Hxy Hyz. destruct (c x z) eqn:Hxz; [|done|].
  - exfalso. apply (cmp_le_trans c y z x); [done|by rewrite (cmp_eq_flip _ _ Hxz)|].
    by apply cmp_lt_gt.
  - exfalso. by apply (cmp_le_trans c x y z); [rewrite Hxy|..].
Qed.
Lemma cmp_le_lt_trans x y z : c x y ≠ Gt → c y z = Lt → c x z = Lt.
Proof.
  intros Hxy Hyz. destruct (c x z) eqn:Hxz; [|done|].
  - exfalso. apply (cmp_le_trans c z x y); [by rewrite (cmp_eq_flip _ _ Hxz)|done|].
    by apply cmp_lt_gt.
  - exfalso. by apply (cmp_le_trans c x y z); [|rewrite Hyz|].
Qed.
Lemma cmp_eq_trans x y z : c x y = Eq → c y z = Eq → c x z = Eq.
Proof.
  intros Hxy Hyz. destruct (c x z) eqn:Hxz; [done| |].
  - exfalso. apply cmp_lt_gt in Hxz. apply (cmp_le_trans c z y x); [| |done].
    + by rewrite (cmp_eq_flip _ _ Hyz).
    + by rewrite (cmp_eq_flip _ _ Hxy).
  - exfalso. apply (cmp_le_trans c x y z); [| |done]; congruence.
Qed.

(** Lexicographic composition of two comparators. *)
#[export] Instance then_with_preorder (d : A → A → comparison) `{!PreorderCmp d} :
  PreorderCmp (λ x y, then_with (c x y) (d x y)).
Proof.
  split.
  - intros x y. rewrite (cmp_antisym c x y). destruct (c x y); simpl; [apply cmp_antisym; apply _|done..].
  - intros x y z Hxy Hyz. unfold then_with in *.
    destruct (c x y) eqn:E1; [|..|done]; destruct (c y z) eqn:E2; try done.
    + rewrite (cmp_eq_trans x y z) by done. by apply (cmp_le_trans d x y z).
    + rewrite (cmp_le_lt_trans x y z); [done|by rewrite E1|done].
    + rewrite (cmp_lt_le_trans x y z); [done|done|by rewrite E2].
    + rewrite (cmp_lt_le_trans x y z); [done|done|by rewrite E2].
Qed.
End preorder_cmp.

(** Comparing through a key, and the reversed order [b.cmp(a)]: lemmas, since as
    instances they would apply to every comparator. *)
Lemma preorder_on {A B} (f : B → A) (c : A → A → comparison) `{!PreorderCmp c} :
  PreorderCmp (λ x y, c (f x) (f y)).
Proof. split; intros *; [apply (cmp_antisym c)|apply (cmp_le_trans c)]. Qed.
Lemma preorder_flip {A} (c : A → A → comparison) `{!PreorderCmp c} :
  PreorderCmp (λ x y, c y x).
Proof.
  split; [intros x y; apply (cmp_antisym c)|].
  intros x y z Hxy Hyz. by apply (cmp_le_trans c z y x).
Qed.
#[export] Instance Zcompare_ord : OrdCmp Z.compare.
Proof.
  split; [split|].
  - intros x y. apply Z.compare_antisym.
  - intros x y z. rewrite !Z.compare_ngt_iff. lia.
  - intros x y. apply Z.compare_eq.
Qed.

(** Byte arrays and [Vec<u8>] compare lexicographically. *)
Fixpoint bytes_cmp (a b : list Z) : comparison :=
  match a, b with
  | [], [] => Eq
  | [], _ :: _ => Lt
  | _ :: _, [] => Gt
  | x :: a, y :: b => then_with (Z.compare x y) (bytes_cmp a b)
  end.

#[export] Instance bytes_cmp_ord : OrdCmp bytes_cmp.
Proof.
  split; [split|].
  - intros a. induction a as [|x a IH]; intros [|y b]; simpl; try done.
    rewrite (cmp_antisym Z.compare x y). destruct (x ?= y); simpl; [apply IH|done..].
  - intros a. induction a as [|x a IH]; intros [|y b] [|z c]; simpl; try done.
    unfold then_with. intros H1 H2.
    destruct (Z.compare_spec x y), (Z.compare_spec y z), (Z.compare_spec x z);
      subst; try done; try lia. by eapply IH.
  - intros a. induction a as [|x a IH]; intros [|y b]; simpl; try done.
    unfold then_with. destruct (Z.compare_spec x y); try done. intros ?%IH. congruence.
Qed.

(** ** Sorting *)

Abbreviation cmp_le c := (λ x y, c x y ≠ Gt).

(** [slice::sort_by]: the stable sort. *)
Fixpoint insert_by {A} (c : A → A → comparison) (x : A) (l : list A) : list A :=
  match l with
  | [] => [x]
  | y :: l' => match c x y with Gt => y :: insert_by c x l' | _ => x :: l end
  end.
Definition sort_by {A} (c : A → A → comparison) (l : list A) : list A :=
  foldr (insert_by c) [] l.

(** [slice::sort_unstable_by]: the result is a sorted permutation; the order of
    elements that compare [Eq] is left open, so it is an argument of every
    definition that sorts this way. *)
Class SortUnstable := {
  sort_unstable_by {A} : (A → A → comparison) → list A → list A;
  sort_unstable_perm {A} (c : A → A → comparison) l : sort_unstable_by c l ≡ₚ l;
  sort_unstable_sorted {A} (c : A → A → comparison) `{!PreorderCmp c} l :
    StronglySorted (cmp_le c) (sort_unstable_by c l);
}.

Section sorting.
Context {A : Type} (c : A → A → comparison).

Lemma insert_by_perm x l : insert_by c x l ≡ₚ x :: l.
Proof.
  induction l as [|y l IH]; simpl; [done|].
  destruct (c x y); [done..|]. rewrite IH. apply Permutation_swap.
Qed.
Lemma sort_by_perm l : sort_by c l ≡ₚ l.
Proof. induction l as [|x l IH]; simpl; [done|]. by rewrite insert_by_perm, IH. Qed.

Context `{!PreorderCmp c}.

Lemma insert_by_sorted x l :
  StronglySorted (cmp_le c) l → StronglySorted (cmp_le c) (insert_by c x l).
Proof.
  induction 1 as [|y l Hl IH Hy]; simpl; [by repeat constructor|].
  destruct (c x y) eqn:E.
  3: { constructor; [done|]. rewrite insert_by_perm. constructor; [|done].
       by apply cmp_gt_flip. }
  all: constructor; [by constructor|]; constructor; [congruence|].
  all: eapply Forall_impl; [exact Hy|]; intros z Hz;
    apply (cmp_le_trans c x y z); [congruence|done].
Qed.
Lemma sort_by_sorted l : StronglySorted (cmp_le c) (sort_by c l).
Proof. induction l; simpl; [constructor|]. by apply insert_by_sorted. Qed.

(** A sorted list is determined by its elements when distinct elements never
    compare [Eq]: unstable sorting is then deterministic. *)
Lemma sorted_perm_unique l1 l2 :
  (∀ x y, x ∈ l1 → y ∈ l1 → c x y = Eq → x = y) →
  StronglySorted (cmp_le c) l1 → StronglySorted (cmp_le c) l2 →
  l1 ≡ₚ l2 → l1 = l2.
Proof.
  intros Heq Hl1. revert l2 Heq.
  induction Hl1 as [|x l1 Hl1 IH Hx]; intros l2 Heq Hl2 Hp.
  { by apply Permutation_nil_l in Hp. }
  destruct Hl2 as [|y l2 Hl2 Hy]; [by apply Permutation_nil_r in Hp|].
  assert (x = y) as <-.
  { assert (x ∈ y :: l2) as Hxy by (rewrite <- Hp; left).
    assert (y ∈ x :: l1) as Hyx by (rewrite Hp; left).
    apply elem_of_cons in Hxy as [->|Hxin]; [done|].
    apply elem_of_cons in Hyx as [->|Hyin]; [done|].
    rewrite Forall_forall in Hx, Hy.
    specialize (Hx _ Hyin). specialize (Hy _ Hxin). simpl in Hx, Hy.
    apply Heq; [left|by right|].
    rewrite (cmp_antisym c y x) in *. destruct (c y x); simpl in *; congruence. }
  f_equal. apply IH; [|done|by eapply Permutation_cons_inv].
  intros ????. apply Heq; by right.
Qed.
End sorting.

Lemma StronglySorted_fmap {A B} (f : A → B) (R : B → B → Prop) (l : list A) :
  StronglySorted (λ x y, R (f x) (f y)) l → StronglySorted R (f <$> l).
Proof.
  induction 1 as [|x l Hl IH Hx]; csimpl; constructor; [done|]. by apply Forall_fmap.
Qed.
Lemma fmap_eq_Forall2 {A B} (f : A → B) (l1 l2 : list A) :
  f <$> l1 = f <$> l2 ↔ Forall2 (λ x y, f x = f y) l1 l2.
Proof.
  split.
  - revert l2. induction l1 as [|x l1 IH]; intros [|y l2]; csimpl; intros [=]; constructor; auto.
  - induction 1; csimpl; congruence.
Qed.
(** Members of a list without repeated keys are equal when their keys are. *)
Lemma NoDup_key_eq {A B} (f : A → B) (l : list A) x y :
  NoDup (f <$> l) → x ∈ l → y ∈ l → f x = f y → x = y.
Proof.
  intros Hnd [i Hi]%list_elem_of_lookup [j Hj]%list_elem_of_lookup Heq.
  assert (i = j) as ->.
  { eapply (NoDup_lookup _ _ _ (f x) Hnd); rewrite list_lookup_fmap; [by rewrite Hi|].
    by rewrite Hj, Heq. }
  congruence.
Qed.

(** One admissible unstable sort: the stable one. *)
Definition stable_sort_unstable : SortUnstable := {|
  sort_unstable_by A := sort_by;
  sort_unstable_perm A := sort_by_perm;
  sort_unstable_sorted A c _ := sort_by_sorted c;
|}.

(** ** Iteration orders of the standard collections *)

(** [BTreeMap] iterates in key order. *)
Definition btree_entries {K V} `{Countable K} (c : K → K → comparison) (m : gmap K V)
  : list (K * V) := sort_by (λ p q, c p.1 q.1) (map_to_list m).
Definition btree_values {K V} `{Countable K} (c : K → K → comparison) (m : gmap K V)
  : list V := (btree_entries c m).*2.

(** [HashMap] and [HashSet] iterate in an order the program cannot rely on: it is
    an argument of every definition that iterates over one. *)
Class HashOrder := {
  hash_iter {K V} `{Countable K} : gmap K V → list (K * V);
  hash_iter_perm {K V} `{Countable K} (m : gmap K V) : hash_iter m ≡ₚ map_to_list m;
}.
Definition map_to_list_order : HashOrder := {|
  hash_iter K V _ _ m := map_to_list m;
  hash_iter_perm K V _ _ m := Permutation_refl _;
|}.
Definition hash_values `{HashOrder} {K V} `{Countable K} (m : gmap K V) : list V :=
  (hash_iter m).*2.
Definition hash_set_iter `{HashOrder} {K} `{Countable K} (X : gset K) : list K :=
  (hash_iter (gset_to_gmap tt X)).*1.

Section iteration.
Context {K V : Type} `{Countable K}.

Lemma btree_entries_perm (c : K → K → comparison) (m : gmap K V) :
  btree_entries c m ≡ₚ map_to_list m.
Proof. apply sort_by_perm. Qed.
Lemma elem_of_btree_entries (c : K → K → comparison) (m : gmap K V) k v :
  (k, v) ∈ btree_entries c m ↔ m !! k = Some v.
Proof. by rewrite btree_entries_perm, elem_of_map_to_list. Qed.
Lemma elem_of_btree_values (c : K → K → comparison) (m : gmap K V) v :
  v ∈ btree_values c m ↔ ∃ k, m !! k = Some v.
Proof.
  unfold btree_values. rewrite list_elem_of_fmap. split.
  - intros ([k v'] & -> & Hk). exists k. by apply elem_of_btree_entries in Hk.
  - intros [k Hk]. exists (k, v). by rewrite elem_of_btree_entries.
Qed.
Lemma length_btree_values (c : K → K → comparison) (m : gmap K V) :
  length (btree_values c m) = size m.
Proof.
  unfold btree_values. rewrite length_fmap, (Permutation_length (btree_entries_perm c m)).
  apply length_map_to_list.
Qed.

Context `{HashOrder}.
Lemma elem_of_hash_iter (m : gmap K V) k v :
  (k, v) ∈ hash_iter m ↔ m !! k = Some v.
Proof. by rewrite hash_iter_perm, elem_of_map_to_list. Qed.
Lemma length_hash_iter (m : gmap K V) : length (hash_iter m) = size m.
Proof. rewrite (Permutation_length (hash_iter_perm m)). apply length_map_to_list. Qed.
Lemma NoDup_hash_iter (m : gmap K V) : NoDup (hash_iter m).*1.
Proof. rewrite hash_iter_perm. apply NoDup_fst_map_to_list. Qed.
End iteration.

Lemma elem_of_hash_set_iter `{HashOrder} {K} `{Countable K} (X : gset K) x :
  x ∈ hash_set_iter X ↔ x ∈ X.
Proof.
  unfold hash_set_iter. rewrite list_elem_of_fmap. split.
  - intros ([k []] & -> & Hk). apply elem_of_hash_iter in Hk.
    by apply lookup_gset_to_gmap_Some in Hk as [? _].
  - intros Hx. exists (x, tt). split; [done|]. apply elem_of_hash_iter.
    by apply lookup_gset_to_gmap_Some.
Qed.

(** ** Fixed-width byte encodings *)

(** [to_le_bytes] and [to_be_bytes] of an [n]-byte integer. *)
Fixpoint to_le_bytes (n : nat) (z : Z) : list Z :=
  match n with O => [] | S n => z mod 256 :: to_le_bytes n (z / 256) end.
Definition to_be_bytes (n : nat) (z : Z) : list Z := reverse (to_le_bytes n z).
Fixpoint le_value (l : list Z) : Z :=
  match l with [] => 0 | b :: l => b + 256 * le_value l end.
(** [from_be_bytes] *)
Definition be_value (l : list Z) : Z := le_value (reverse l).

Definition zero_bytes (n : nat) : list Z := replicate n 0.

Lemma length_to_le_bytes n z : length (to_le_bytes n z) = n.
Proof. revert z; induction n as [|n IH]; intros z; simpl; [done|]. by rewrite IH. Qed.
Lemma length_to_be_bytes n z : length (to_be_bytes n z) = n.
Proof. unfold to_be_bytes. by rewrite length_reverse, length_to_le_bytes. Qed.
Lemma to_le_bytes_range n z : Forall is_byte (to_le_bytes n z).
Proof.
  revert z; induction n as [|n IH]; intros z; simpl; constructor; [|done].
  pose proof (Z.mod_pos_bound z 256). sat_lia.
Qed.
Lemma to_be_bytes_range n z : Forall is_byte (to_be_bytes n z).
Proof. unfold to_be_bytes. rewrite Forall_reverse. apply to_le_bytes_range. Qed.

Lemma pow256_pos n : 0 < 256 ^ Z.of_nat n.
Proof. apply Z.pow_pos_nonneg; lia. Qed.
Lemma pow256_succ n : 256 ^ Z.of_nat (S n) = 256 * 256 ^ Z.of_nat n.
Proof. rewrite Nat2Z.inj_succ, Z.pow_succ_r by lia. done. Qed.

Lemma le_value_to_le_bytes n z : 0 ≤ z < 256 ^ Z.of_nat n → le_value (to_le_bytes n z) = z.
Proof.
  revert z; induction n as [|n IH]; intros z Hz.
  - simpl in *. lia.
  - rewrite pow256_succ in Hz. cbn [to_le_bytes le_value]. rewrite IH.
    + pose proof (Z.div_mod z 256). lia.
    + split; [apply Z.div_pos; lia|]. apply Z.div_lt_upper_bound; lia.
Qed.
Lemma le_value_range l : Forall is_byte l → 0 ≤ le_value l < 256 ^ len l.
Proof.
  unfold len. induction 1 as [|b l Hb Hl IH]; [simpl; lia|].
  cbn [length le_value]. rewrite pow256_succ. sat_lia.
Qed.
Lemma le_value_inj l1 l2 :
  Forall is_byte l1 → Forall is_byte l2 → length l1 = length l2 →
  le_value l1 = le_value l2 → l1 = l2.
Proof.
  intros H1. revert l2. induction H1 as [|b l1 Hb Hl IH]; intros [|b2 l2] H2 Hlen Heq;
    simplify_eq/=; [done|].
  apply Forall_cons in H2 as [Hb2 Hl2]. unfold is_byte in *.
  assert (b = b2) as <- by lia. f_equal. apply IH; [done..|lia].
Qed.

Lemma be_value_to_be_bytes n z : 0 ≤ z < 256 ^ Z.of_nat n → be_value (to_be_bytes n z) = z.
Proof.
  intros Hz. unfold be_value, to_be_bytes. rewrite reverse_involutive.
  by apply le_value_to_le_bytes.
Qed.
Lemma to_be_bytes_inj n a b :
  0 ≤ a < 256 ^ Z.of_nat n → 0 ≤ b < 256 ^ Z.of_nat n →
  to_be_bytes n a = to_be_bytes n b → a = b.
Proof.
  intros Ha Hb Heq. by rewrite <- (be_value_to_be_bytes n a), Heq, be_value_to_be_bytes.
Qed.
Lemma be_value_range l : Forall is_byte l → 0 ≤ be_value l < 256 ^ len l.
Proof.
  intros Hl. unfold be_value. pose proof (le_value_range (reverse l)) as H.
  unfold len in *. rewrite length_reverse in H. apply H. by apply Forall_reverse.
Qed.
Lemma to_be_bytes_be_value l : Forall is_byte l → to_be_bytes (length l) (be_value l) = l.
Proof.
  intros Hl. pose proof (be_value_range l Hl) as Hr.
  apply (inj reverse), le_value_inj.
  - rewrite Forall_reverse. apply to_be_bytes_range.
  - by rewrite Forall_reverse.
  - by rewrite !length_reverse, length_to_be_bytes.
  - by apply be_value_to_be_bytes.
Qed.

Lemma le_value_app l1 l2 : le_value (l1 ++ l2) = le_value l1 + 256 ^ len l1 * le_value l2.
Proof.
  unfold len. induction l1 as [|b l1 IH]; [simpl; lia|].
  cbn [length app le_value]. rewrite pow256_succ, IH. lia.
Qed.
Lemma be_value_cons b l : be_value (b :: l) = b * 256 ^ len l + be_value l.
Proof.
  unfold be_value. rewrite reverse_cons, le_value_app. unfold len. rewrite length_reverse.
  cbn [le_value]. lia.
Qed.

(** On arrays of one length the lexicographic order is the order of the
    big-endian values. *)
Lemma bytes_cmp_be_value a b :
  Forall is_byte a → Forall is_byte b → length a = length b →
  bytes_cmp a b = Z.compare (be_value a) (be_value b).
Proof.
  intros Ha. revert b. induction Ha as [|x a Hx Ha IH]; intros [|y b] Hb Hlen; simplify_eq/=; [done|].
  apply Forall_cons in Hb as [Hy Hb]. rewrite !be_value_cons.
  pose proof (be_value_range a Ha). pose proof (be_value_range b Hb).
  unfold len in *. rewrite Hlen in *. rewrite IH by done.
  pose proof (pow256_pos (length b)). unfold is_byte in *.
  destruct (Z.compare_spec x y) as [->|?|?]; simpl; symmetry.
  - destruct (Z.compare_spec (be_value a) (be_value b));
      [apply Z.compare_eq_iff|apply Z.compare_lt_iff|apply Z.compare_gt_iff]; lia.
  - apply Z.compare_lt_iff. nia.
  - apply Z.compare_gt_iff. nia.
Qed.

(** ** Sums *)

Fixpoint Zsum (l : list Z) : Z :=
  match l with [] => 0 | z :: l => z + Zsum l end.

Lemma Zsum_app l1 l2 : Zsum (l1 ++ l2) = Zsum l1 + Zsum l2.
Proof. induction l1 as [|x l1 IH]; simpl; [done|]. rewrite IH. lia. Qed.
#[export] Instance Zsum_perm : Proper ((≡ₚ) ==> (=)) Zsum.
Proof. intros l1 l2. induction 1; simpl; lia. Qed.
Lemma Zsum_nonneg l : Forall (λ z, 0 ≤ z) l → 0 ≤ Zsum l.
Proof. induction 1; simpl; lia. Qed.
Lemma Zsum_replicate n z : Zsum (replicate n z) = Z.of_nat n * z.
Proof. induction n as [|n IH]; [done|]. cbn [replicate Zsum]. rewrite IH. lia. Qed.
Lemma Zsum_map_le {A} (f g : A → Z) l :
  Forall (λ x, f x ≤ g x) l → Zsum (f <$> l) ≤ Zsum (g <$> l).
Proof. induction 1; csimpl; lia. Qed.

Lemma foldl_map {A B C} (g : C → B → C) (f : A → B) acc l :
  foldl (λ acc x, g acc (f x)) acc l = foldl g acc (f <$> l).
Proof. revert acc; induction l; intros acc; csimpl; auto. Qed.

(** A loop of saturating additions computes the saturated sum. *)
Lemma foldl_saturating_add l acc :
  Forall (λ z, 0 ≤ z) l → 0 ≤ acc ≤ u64_max →
  foldl u64_saturating_add acc l = Z.min (acc + Zsum l) u64_max.
Proof.
  intros Hl. revert acc. induction Hl as [|x l Hx Hl IH]; intros acc Hacc; simpl; [lia|].
  rewrite IH by sat_lia. pose proof (Zsum_nonneg l Hl). simpl in *. sat_lia.
Qed.

(** The weight of a finite set. *)
Definition set_weight (w : Z → Z) (X : gset Z) : Z := Zsum (w <$> elements X).

Section set_weight.
Context (w : Z → Z) (Hw : ∀ x, 0 ≤ w x).
Implicit Types X Y : gset Z.

Lemma set_weight_nonneg X : 0 ≤ set_weight w X.
Proof. apply Zsum_nonneg, Forall_fmap, Forall_true. intros; apply Hw. Qed.
Lemma set_weight_empty : set_weight w ∅ = 0.
Proof. unfold set_weight. by rewrite elements_empty. Qed.
Lemma set_weight_disj_union X Y :
  X ## Y → set_weight w (X ∪ Y) = set_weight w X + set_weight w Y.
Proof.
  intros HXY. unfold set_weight.
  by rewrite elements_disj_union, fmap_app, Zsum_app.
Qed.
Lemma set_weight_singleton x : set_weight w {[x]} = w x.
Proof. unfold set_weight. rewrite elements_singleton. simpl. lia. Qed.
Lemma set_weight_insert x X :
  x ∉ X → set_weight w ({[x]} ∪ X) = w x + set_weight w X.
Proof. intros ?. rewrite set_weight_disj_union by set_solver. by rewrite set_weight_singleton. Qed.
Lemma set_weight_split X Y : set_weight w X = set_weight w (X ∩ Y) + set_weight w (X ∖ Y).
Proof.
  rewrite <- set_weight_disj_union by set_solver. f_equal.
  apply set_eq. intros x. destruct (decide (x ∈ Y)); set_solver.
Qed.
Lemma set_weight_mono X Y : X ⊆ Y → set_weight w X ≤ set_weight w Y.
Proof.
  intros HXY. rewrite (set_weight_split Y X).
  replace (Y ∩ X) with X by set_solver. pose proof (set_weight_nonneg (Y ∖ X)). lia.
Qed.
(** Inclusion-exclusion against a bound on the whole weight. *)
Lemma set_weight_intersection X Y total :
  set_weight w (X ∪ Y) ≤ total →
  set_weight w X + set_weight w Y - total ≤ set_weight w (X ∩ Y).
Proof.
  intros Htot. rewrite (set_weight_split X Y).
  assert (set_weight w (X ∪ Y) = set_weight w (X ∖ Y) + set_weight w Y).
  { rewrite <- set_weight_disj_union by set_solver. f_equal.
    apply set_eq. intros x. destruct (decide (x ∈ Y)); set_solver. }
  lia.
Qed.
(** A set heavier than the Byzantine weight holds a member outside it. *)
Lemma set_weight_exists_outside X B :
  set_weight w B < set_weight w X → ∃ x, x ∈ X ∧ x ∉ B ∧ 0 < w x.
Proof.
  intros Hlt. destruct (decide (set_Exists (λ x, x ∉ B ∧ 0 < w x) X)) as [(x&?&?&?)|Hno];
    [eauto|].
  exfalso. rewrite (set_weight_split X B) in Hlt.
  assert (set_weight w (X ∖ B) ≤ 0) as Hz.
  { unfold set_weight. transitivity (Zsum ((λ _, 0) <$> elements (X ∖ B))).
    - apply Zsum_map_le, Forall_forall. intros x Hx%elem_of_elements.
      apply Z.nlt_ge. intros Hpos. apply Hno. exists x. set_solver.
    - induction (elements (X ∖ B)); csimpl; lia. }
  assert (set_weight w (X ∩ B) ≤ set_weight w B) by (apply set_weight_mono; set_solver).
  lia.
Qed.
End set_weight.

(** ** Self-delimiting encodings

    [prefix_inj P enc]: from an encoding followed by anything, both the encoded
    value and the rest can be told, for values satisfying [P]. *)
Definition prefix_inj {A} (P : A → Prop) (enc : A → list Z) : Prop :=
  ∀ a b r1 r2, P a → P b → enc a ++ r1 = enc b ++ r2 → a = b ∧ r1 = r2.

Lemma prefix_inj_eq {A} (P : A → Prop) enc a b :
  prefix_inj P enc → P a → P b → enc a = enc b → a = b.
Proof.
  intros Hp Ha Hb Heq. apply (Hp a b [] []); [done..|]. by rewrite !app_nil_r.
Qed.
Lemma prefix_inj_fixed n : prefix_inj (λ l, length l = n) id.
Proof. intros a b r1 r2 Ha Hb Heq. apply app_inj_1; [congruence|done]. Qed.
Lemma prefix_inj_be_bytes n : prefix_inj (λ z, 0 ≤ z < 256 ^ Z.of_nat n) (to_be_bytes n).
Proof.
  intros a b r1 r2 Ha Hb Heq. apply app_inj_1 in Heq as [Heq ?].
  - split; [by eapply to_be_bytes_inj|done].
  - by rewrite !length_to_be_bytes.
Qed.
Lemma prefix_inj_u64 : prefix_inj is_u64 (to_be_bytes 8).
Proof. intros a b r1 r2 ??. apply (prefix_inj_be_bytes 8); sat_lia. Qed.
Definition encode_pair {A B} (ea : A → list Z) (eb : B → list Z) (p : A * B) : list Z :=
  ea p.1 ++ eb p.2.
Definition both {A B} (P : A → Prop) (Q : B → Prop) (p : A * B) : Prop := P p.1 ∧ Q p.2.
Lemma prefix_inj_pair {A B} (P : A → Prop) (Q : B → Prop) ea eb :
  prefix_inj P ea → prefix_inj Q eb → prefix_inj (both P Q) (encode_pair ea eb).
Proof.
  intros Ha Hb [a b] [a' b'] r1 r2 [??] [??]. unfold encode_pair. simpl in *. rewrite <- !app_assoc.
  intros [-> Heq]%Ha; [|done..]. apply Hb in Heq as [-> ->]; done.
Qed.
(** Encoding the value [f a] of an injective [f]. *)
Lemma prefix_inj_map {A B} (P : A → Prop) (Q : B → Prop) (f : A → B) eb :
  (∀ a b, P a → P b → f a = f b → a = b) → (∀ a, P a → Q (f a)) →
  prefix_inj Q eb → prefix_inj P (λ a, eb (f a)).
Proof.
  intros Hf Hpq Hb a b r1 r2 Ha Hb'. intros [Heq ->]%Hb; [|by apply Hpq..]. split; [by apply Hf|done].
Qed.
(** A tag byte [0], or [1] and the value. *)
Definition encode_option {A} (enc : A → list Z) (o : option A) : list Z :=
  match o with Some a => [1] ++ enc a | None => [0] end.
Lemma prefix_inj_option {A} (P : A → Prop) enc :
  prefix_inj P enc → prefix_inj (from_option P True) (encode_option enc).
Proof.
  intros He [a|] [b|] r1 r2 Ha Hb Heq; simplify_eq/=; [|done].
  apply He in Heq as [-> ->]; done.
Qed.
(** The number of elements as eight bytes, then the elements. *)
Definition encode_list {A} (enc : A → list Z) (l : list A) : list Z :=
  to_be_bytes 8 (len l) ++ concat (enc <$> l).
Lemma prefix_inj_list {A} (P : A → Prop) enc :
  prefix_inj P enc → prefix_inj (λ l, Forall P l ∧ is_u64 (len l)) (encode_list enc).
Proof.
  intros He l1 l2 r1 r2 [H1 Hn1] [H2 Hn2]. unfold encode_list. rewrite <- !app_assoc.
  intros [Hlen Heq]%prefix_inj_u64; [|done..]. unfold len in Hlen. clear Hn1 Hn2.
  revert l2 H2 Hlen Heq. induction H1 as [|a l1 Ha H1 IH]; intros [|b l2] H2 Hlen Heq;
    simplify_eq/=; [done|lia..|].
  apply Forall_cons in H2 as [Hb H2]. csimpl in *. rewrite <- !app_assoc in Heq.
  apply He in Heq as [-> Heq]; [|done..]. destruct (IH l2) as [-> ->]; [done|lia|done|done].
Qed.
(** The number of bytes as eight bytes, then the bytes. *)
Definition encode_bytes (l : list Z) : list Z := to_be_bytes 8 (len l) ++ l.
Lemma prefix_inj_bytes : prefix_inj (λ l, is_u64 (len l)) encode_bytes.
Proof.
  intros l1 l2 r1 r2 H1 H2. unfold encode_bytes. rewrite <- !app_assoc.
  intros [Hlen Heq]%prefix_inj_u64; [|done..]. apply app_inj_1; [unfold len in Hlen; lia|done].
Qed.

#[export] Hint Resolve prefix_inj_bytes prefix_inj_fixed prefix_inj_be_bytes prefix_inj_u64 prefix_inj_pair
  prefix_inj_option prefix_inj_list : encoding.

(** SHA-256 of the [sha2] crate: an arbitrary function of the hashed bytes. *)
Class Sha256 := sha256 : list Z → list Z.
