(* ===== verification/Validators.v ===== *)
(** * Validator sets ([eth2077-oob-consensus/src/validator.rs])

    The weighted validator set of the out-of-band consensus engine: total and
    quorum weight, round-robin leader selection, and the arithmetic of quorum
    intersection on which the agreement theorem of [Agreement.v] rests. *)
From S2P Require Import Prelude.
Local Open Scope Z_scope.

(* eth2077-oob-consensus/src/validator.rs:2-6 Validator *)
Record Validator := {
  v_index : Z;
  v_weight : Z;
  v_public_key : list Z;
}.

(* eth2077-oob-consensus/src/validator.rs:9-12 ValidatorSet *)
Record ValidatorSet := {
  vs_validators : list Validator;
  vs_total_weight : Z;
}.

(* eth2077-oob-consensus/src/validator.rs:15-24 ValidatorSet::new *)
Definition ValidatorSet_new (validators : list Validator) : ValidatorSet := {|
  vs_validators := validators;
  vs_total_weight :=
    foldl (λ acc validator, u64_saturating_add acc (v_weight validator)) 0 validators;
|}.

(* eth2077-oob-consensus/src/validator.rs:26-30 ValidatorSet::get *)
Definition ValidatorSet_get (vs : ValidatorSet) (index : Z) : option Validator :=
  List.find (λ validator, v_index validator =? index) (vs_validators vs).

(* eth2077-oob-consensus/src/validator.rs:36-39 ValidatorSet::quorum_weight *)
Definition ValidatorSet_quorum_weight (vs : ValidatorSet) : Z :=
  let f := u64_saturating_sub (vs_total_weight vs) 1 / 3 in
  u64_saturating_add (2 * f) 1.

(* eth2077-oob-consensus/src/validator.rs:41-49 ValidatorSet::leader_for_round *)
Definition ValidatorSet_leader_for_round (vs : ValidatorSet) (height round : Z) : Z :=
  match vs_validators vs with
  | [] => 0
  | _ =>
      let leader_position := u64_saturating_add height round mod len (vs_validators vs) in
      match vs_validators vs !! Z.to_nat leader_position with
      | Some validator => v_index validator
      | None => 0
      end
  end.

(* eth2077-oob-consensus/src/validator.rs:59-61 ValidatorSet::weight_of *)
Definition ValidatorSet_weight_of (vs : ValidatorSet) (index : Z) : Z :=
  match ValidatorSet_get vs index with
  | Some validator => v_weight validator
  | None => 0
  end.

(** The fields have the range of [u64], and the total is the one [new] computes. *)
Record ValidatorSet_wf (vs : ValidatorSet) : Prop := {
  vs_wf_weights : Forall (λ v, is_u64 (v_weight v)) (vs_validators vs);
  vs_wf_total : vs = ValidatorSet_new (vs_validators vs);
}.
(** The exact weight, before saturation. *)
Definition ValidatorSet_exact_weight (vs : ValidatorSet) : Z :=
  Zsum (v_weight <$> vs_validators vs).

Section validators.
Context (vs : ValidatorSet) (Hwf : ValidatorSet_wf vs).

Lemma weights_nonneg : Forall (λ z, 0 ≤ z) (v_weight <$> vs_validators vs).
Proof. apply Forall_fmap. eapply Forall_impl; [apply Hwf|]. intros v Hv. apply Hv. Qed.

Lemma total_weight_exact :
  vs_total_weight vs = Z.min (ValidatorSet_exact_weight vs) u64_max.
Proof.
  rewrite (vs_wf_total _ Hwf) at 1. unfold ValidatorSet_exact_weight. simpl.
  rewrite foldl_map, foldl_saturating_add by (apply weights_nonneg || lia). done.
Qed.

Lemma total_weight_range : is_u64 (vs_total_weight vs).
Proof.
  rewrite total_weight_exact. pose proof (Zsum_nonneg _ weights_nonneg).
  unfold ValidatorSet_exact_weight. sat_lia.
Qed.

Lemma weight_of_range i : is_u64 (ValidatorSet_weight_of vs i).
Proof.
  unfold ValidatorSet_weight_of, ValidatorSet_get.
  destruct (List.find _ _) as [v|] eqn:Hf; [|sat_lia].
  apply List.find_some in Hf as [Hin _]. apply list_elem_of_In in Hin.
  pose proof (vs_wf_weights _ Hwf) as Hall. rewrite Forall_forall in Hall. by apply Hall.
Qed.
Lemma weight_of_nonneg i : 0 ≤ ValidatorSet_weight_of vs i.
Proof. apply weight_of_range. Qed.

(** No set of voters weighs more than the set itself, repeated indices included. *)
Lemma voters_weight_bound (X : gset Z) :
  set_weight (ValidatorSet_weight_of vs) X ≤ ValidatorSet_exact_weight vs.
Proof.
  unfold ValidatorSet_exact_weight, ValidatorSet_weight_of, ValidatorSet_get.
  pose proof (vs_wf_weights _ Hwf) as Hall. clear Hwf.
  revert X. induction Hall as [|v l Hv Hall IH]; intros X; csimpl.
  - unfold set_weight. induction (elements X); csimpl; lia.
  - set (w' := λ i, match List.find (λ v, v_index v =? i) l with
                    | Some v => v_weight v | None => 0 end) in IH.
    set (w := λ i, match (if v_index v =? i then Some v else List.find _ l) with
                   | Some v => v_weight v | None => 0 end).
    assert (Hw : ∀ i, 0 ≤ w i).
    { intros i. unfold w. destruct (_ =? _); [apply Hv|].
      destruct (List.find _ _) as [v'|] eqn:Hf; [|lia].
      apply List.find_some in Hf as [Hin _]. apply list_elem_of_In in Hin.
      rewrite Forall_forall in Hall. apply Hall in Hin. apply Hin. }
    assert (Hrest : ∀ Y, v_index v ∉ Y → set_weight w Y ≤ Zsum (v_weight <$> l)).
    { intros Y HY. transitivity (set_weight w' Y); [|apply IH].
      unfold set_weight. apply Zsum_map_le, Forall_forall. intros i Hi%elem_of_elements.
      unfold w, w'. destruct (Z.eqb_spec (v_index v) i); [set_solver|done]. }
    destruct (decide (v_index v ∈ X)) as [Hin|Hnin].
    + replace X with ({[v_index v]} ∪ (X ∖ {[v_index v]})).
      2: { apply set_eq. intros i. destruct (decide (i = v_index v)); set_solver. }
      rewrite set_weight_insert by set_solver.
      specialize (Hrest (X ∖ {[v_index v]})). unfold w at 1. rewrite Z.eqb_refl.
      assert (v_index v ∉ X ∖ {[v_index v]}) as Hout by set_solver.
      specialize (Hrest Hout). lia.
    + specialize (Hrest X Hnin). destruct Hv. lia.
Qed.
End validators.

(** ** Quorums *)

(** A set of voters is a quorum when it weighs at least [quorum_weight]. *)
Definition is_quorum (vs : ValidatorSet) (X : gset Z) : Prop :=
  ValidatorSet_quorum_weight vs ≤ set_weight (ValidatorSet_weight_of vs) X.
(** The fault budget [f] of [quorum_weight]. *)
Definition fault_budget (vs : ValidatorSet) : Z := (vs_total_weight vs - 1) / 3.

Lemma quorum_weight_value vs :
  1 ≤ vs_total_weight vs ≤ u64_max →
  ValidatorSet_quorum_weight vs = 2 * fault_budget vs + 1.
Proof.
  intros Ht. unfold ValidatorSet_quorum_weight, fault_budget.
  rewrite u64_saturating_sub_small by lia.
  rewrite u64_saturating_add_small; [done|].
  pose proof (Z.mul_div_le (vs_total_weight vs - 1) 3). lia.
Qed.
Lemma quorum_weight_pos vs :
  0 ≤ vs_total_weight vs ≤ u64_max → 1 ≤ ValidatorSet_quorum_weight vs.
Proof.
  intros Ht. unfold ValidatorSet_quorum_weight.
  assert (0 ≤ u64_saturating_sub (vs_total_weight vs) 1 / 3) by (apply Z.div_pos; sat_lia).
  sat_lia.
Qed.

(** The weight at which the quorum arithmetic of [validator.rs] is that of a
    BFT protocol: [3f + 1], and no saturation of the total. *)
Record bft_weight (vs : ValidatorSet) : Prop := {
  bft_exact : ValidatorSet_exact_weight vs ≤ u64_max;
  bft_mod : ValidatorSet_exact_weight vs mod 3 = 1;
}.

Section quorums.
Context (vs : ValidatorSet) (Hwf : ValidatorSet_wf vs).

Lemma bft_total : bft_weight vs → vs_total_weight vs = ValidatorSet_exact_weight vs.
Proof. intros [He Hm]. rewrite total_weight_exact by done. lia. Qed.
Lemma exact_weight_nonneg : 0 ≤ ValidatorSet_exact_weight vs.
Proof. apply Zsum_nonneg, weights_nonneg; done. Qed.
Lemma bft_total_value :
  bft_weight vs → ValidatorSet_exact_weight vs = 3 * fault_budget vs + 1.
Proof.
  intros Hb. unfold fault_budget. rewrite bft_total by done.
  pose proof (bft_mod _ Hb). pose proof exact_weight_nonneg.
  pose proof (Z.div_mod (ValidatorSet_exact_weight vs) 3).
  pose proof (Z.div_mod (ValidatorSet_exact_weight vs - 1) 3).
  pose proof (Z.mod_pos_bound (ValidatorSet_exact_weight vs - 1) 3). lia.
Qed.
Lemma bft_quorum_value :
  bft_weight vs → ValidatorSet_quorum_weight vs = 2 * fault_budget vs + 1.
Proof.
  intros Hb. apply quorum_weight_value. rewrite bft_total by done.
  pose proof (bft_exact _ Hb). pose proof (bft_mod _ Hb).
  pose proof exact_weight_nonneg.
  destruct (decide (ValidatorSet_exact_weight vs = 0)) as [Hz|]; [|lia].
  rewrite Hz in *. done.
Qed.

(** Two quorums share more weight than the fault budget. *)
Lemma quorum_intersection_weight X Y :
  bft_weight vs → is_quorum vs X → is_quorum vs Y →
  fault_budget vs < set_weight (ValidatorSet_weight_of vs) (X ∩ Y).
Proof.
  unfold is_quorum. intros Hb HX HY. rewrite bft_quorum_value in * by done.
  pose proof (set_weight_intersection (ValidatorSet_weight_of vs) (weight_of_nonneg vs Hwf) X Y
    (ValidatorSet_exact_weight vs) (voters_weight_bound vs Hwf _)) as Hi.
  rewrite bft_total_value in Hi by done. lia.
Qed.

(** Two quorums share a weighty validator outside any set within the fault budget. *)
Lemma quorum_common_honest X Y B :
  bft_weight vs → is_quorum vs X → is_quorum vs Y →
  set_weight (ValidatorSet_weight_of vs) B ≤ fault_budget vs →
  ∃ v, v ∈ X ∧ v ∈ Y ∧ v ∉ B ∧ 0 < ValidatorSet_weight_of vs v.
Proof.
  intros Hb HX HY HB.
  pose proof (quorum_intersection_weight X Y Hb HX HY) as Hi.
  destruct (set_weight_exists_outside (ValidatorSet_weight_of vs)
    (weight_of_nonneg vs Hwf) (X ∩ Y) B) as (v & Hv & HnB & Hpos); [lia|].
  exists v. set_solver.
Qed.

Lemma fault_budget_nonneg : bft_weight vs → 0 ≤ fault_budget vs.
Proof. intros Hb. pose proof (bft_total_value Hb). pose proof exact_weight_nonneg. lia. Qed.

(** A validator with weight is in the set. *)
Lemma weight_of_pos_member i :
  0 < ValidatorSet_weight_of vs i → i ∈ (v_index <$> vs_validators vs).
Proof.
  unfold ValidatorSet_weight_of, ValidatorSet_get.
  destruct (List.find _ _) as [v|] eqn:Hf; [|lia].
  apply List.find_some in Hf as [Hin Hi]. apply list_elem_of_In in Hin. bool_to_prop.
  intros _. apply list_elem_of_fmap. eauto.
Qed.
End quorums.

(** A validator set of [n] unit-weight validators with indices [0 .. n-1]. *)
Definition unit_validators (n : nat) : ValidatorSet :=
  ValidatorSet_new ((λ i, {| v_index := Z.of_nat i; v_weight := 1; v_public_key := zero_bytes 32 |})
    <$> seq 0 n).
Lemma unit_validators_wf n : ValidatorSet_wf (unit_validators n).
Proof. split; [|done]. simpl. apply Forall_fmap, Forall_true. intros i. simpl. sat_lia. Qed.

(** With a total weight of [3f + 1] that fits [u64], two quorums of
    [quorum_weight] always share a validator outside any Byzantine set of weight
    at most [f], whatever the weights and even when indices repeat. *)
Theorem quorum_intersection_honest (vs : ValidatorSet) (X Y B : gset Z) :
  ValidatorSet_wf vs → bft_weight vs →
  is_quorum vs X → is_quorum vs Y →
  set_weight (ValidatorSet_weight_of vs) B ≤ fault_budget vs →
  ∃ v, v ∈ X ∧ v ∈ Y ∧ v ∉ B.
Proof.
  intros Hwf Hb HX HY HB.
  destruct (quorum_common_honest vs Hwf X Y B Hb HX HY HB) as (v & ? & ? & ? & _). by exists v.
Qed.

Lemma quorum_intersection_honest_witness :
  ∃ v : Z, v ∈ ({[0; 1; 2]} : gset Z) ∧ v ∈ ({[1; 2; 3]} : gset Z) ∧ v ∉ ({[1]} : gset Z).
Proof.
  apply (quorum_intersection_honest (unit_validators 4)).
  - apply unit_validators_wf.
  - split; vm_compute; congruence.
  - vm_compute; congruence.
  - vm_compute; congruence.
  - vm_compute; congruence.
Defined.

(** When the total weight is not [3f + 1] the guarantee is lost: with three
    or six unit-weight validators and no Byzantine one, two disjoint sets of
    voters both reach [quorum_weight]. *)
Theorem quorum_disjoint_when_not_3f_plus_1 :
  ∀ n, n = 3%nat ∨ n = 6%nat →
  ∃ X Y : gset Z, X ## Y ∧ is_quorum (unit_validators n) X ∧ is_quorum (unit_validators n) Y.
Proof.
  intros n [-> | ->].
  - exists {[0]}, {[1]}. split; [set_solver|]. split; vm_compute; congruence.
  - exists {[0; 1; 2]}, {[3; 4; 5]}. split; [set_solver|]. split; vm_compute; congruence.
Qed.
Lemma quorum_disjoint_when_not_3f_plus_1_witness :
  ∃ X Y : gset Z, X ## Y ∧ is_quorum (unit_validators 3) X ∧ is_quorum (unit_validators 3) Y.
Proof. apply (quorum_disjoint_when_not_3f_plus_1 3). by left. Defined.

(** Round robin: over as many consecutive rounds as there are validators
    every validator leads exactly once, as long as [height + round] stays in
    [u64]. *)
Theorem leader_rotation_fair (vs : ValidatorSet) (height round : Z) :
  0 ≤ height → 0 ≤ round →
  height + round + len (vs_validators vs) ≤ u64_max →
  ((λ i, ValidatorSet_leader_for_round vs height (round + Z.of_nat i))
     <$> seq 0 (length (vs_validators vs)))
  ≡ₚ v_index <$> vs_validators vs.
Proof.
  intros Hh Hr Hmax.
  set (k := Z.to_nat (height + round)).
  trans (v_index <$> rotate k (vs_validators vs)).
  2: { apply fmap_Permutation. unfold rotate. rewrite Permutation_app_comm.
       by rewrite take_drop. }
  apply reflexive_eq, list_eq_same_length with (n := length (vs_validators vs)).
  - by rewrite length_fmap, length_rotate.
  - by rewrite length_fmap, length_seq.
  - intros i x y Hi. rewrite !list_lookup_fmap, lookup_rotate_r by done.
    rewrite lookup_seq_lt by done. unfold rotate_nat_add. simpl. intros Hx Hy.
    unfold ValidatorSet_leader_for_round in Hx.
    rewrite u64_saturating_add_small in Hx by (unfold len in *; lia).
    replace (Z.of_nat k + Z.of_nat i) with (height + (round + Z.of_nat i)) in Hy by lia.
    unfold len in Hx.
    destruct (vs_validators vs) as [|v0 l]; [simpl in Hi; lia|].
    destruct (_ !! _) as [v|]; simplify_eq/=; done.
Qed.
Lemma leader_rotation_fair_witness :
  ((λ i, ValidatorSet_leader_for_round (unit_validators 3) 7 (2 + Z.of_nat i)) <$> seq 0 3)
  ≡ₚ [0; 1; 2].
Proof. apply (leader_rotation_fair (unit_validators 3) 7 2); vm_compute; congruence. Defined.
