(* ===== verification/FastPath.v ===== *)
(** * The fast-path attestation accumulator ([eth2077-oob-consensus/src/fast_path.rs])

    Optimistic finality: attestations of one round are collected until
    [optimistic_threshold] of them agree, a conflict is seen or the round times
    out.  [FastPathAccumulator_add_attestation] is the whole handler; the
    invariant says what the vector of attestations holds in every reachable
    state, and the theorems what each outcome certifies. *)
From S2P Require Import Prelude.
Local Open Scope Z_scope.

(* eth2077-oob-consensus/src/types.rs:4-11 CommitmentEnvelope *)
Record CommitmentEnvelope := {
  ce_block_hash : list Z;
  ce_block_number : Z;
  ce_state_root : list Z;
  ce_timestamp : Z;
  ce_signature : list Z;
  ce_proposer_index : Z;
}.

(* eth2077-oob-consensus/src/types.rs:14-18 FinalityProof *)
Record FinalityProof := {
  fp_commitment : CommitmentEnvelope;
  fp_proof_data : list Z;
  fp_finalized_at : Z;
}.

(* eth2077-oob-consensus/src/fast_path.rs:4-8 FastPathConfig *)
Record FastPathConfig := {
  fpc_quorum_threshold : Z;
  fpc_timeout_ms : Z;
  fpc_optimistic_threshold : Z;
}.

(* eth2077-oob-consensus/src/fast_path.rs:11-16 FastPathAttestation *)
Record FastPathAttestation := {
  fa_block_hash : list Z;
  fa_attester_index : Z;
  fa_signature : list Z;
  fa_received_at_ms : Z;
}.

(* eth2077-oob-consensus/src/fast_path.rs:19-24 FastPathOutcome *)
Inductive FastPathOutcome :=
| FastFinalized (proof : FinalityProof)
| SlowPath
| Timeout
| ConflictDetected.

(* eth2077-oob-consensus/src/fast_path.rs:27-33 FastPathAccumulator *)
Record FastPathAccumulator := FPA {
  fpa_config : FastPathConfig;
  fpa_attestations : list FastPathAttestation;
  fpa_round_block_hash : option (list Z);
  fpa_round_start_ms : option Z;
  fpa_conflict_detected : bool;
}.

(* eth2077-oob-consensus/src/fast_path.rs:36-44 FastPathAccumulator::new *)
Definition FastPathAccumulator_new (config : FastPathConfig) : FastPathAccumulator :=
  FPA config [] None None false.

(* eth2077-oob-consensus/src/fast_path.rs:112-117 FastPathAccumulator::reset *)
Definition FastPathAccumulator_reset (acc : FastPathAccumulator) : FastPathAccumulator :=
  FPA (fpa_config acc) [] None None false.

(* eth2077-oob-consensus/src/fast_path.rs:119-128 FastPathAccumulator::agreement_count *)
Definition FastPathAccumulator_agreement_count (acc : FastPathAccumulator) : Z :=
  match fpa_round_block_hash acc with
  | None => 0
  | Some round_hash => len (filter (λ a, fa_block_hash a = round_hash) (fpa_attestations acc))
  end.

(* eth2077-oob-consensus/src/fast_path.rs:100-102 FastPathAccumulator::has_quorum *)
Definition FastPathAccumulator_has_quorum (acc : FastPathAccumulator) : bool :=
  negb (fpa_conflict_detected acc) &&
  (fpc_quorum_threshold (fpa_config acc) <=? FastPathAccumulator_agreement_count acc).

(* eth2077-oob-consensus/src/fast_path.rs:130-135 FastPathAccumulator::is_timed_out *)
Definition FastPathAccumulator_is_timed_out (acc : FastPathAccumulator) (now_ms : Z) : bool :=
  match fpa_round_start_ms acc with
  | Some start_ms => fpc_timeout_ms (fpa_config acc) <? u64_saturating_sub now_ms start_ms
  | None => false
  end.

(* eth2077-oob-consensus/src/fast_path.rs:137-165 FastPathAccumulator::build_fast_proof *)
Definition FastPathAccumulator_build_fast_proof (acc : FastPathAccumulator)
    (block_hash : list Z) (finalized_at : Z) : FinalityProof :=
  let '(proof_data, first_signature) :=
    foldl (λ '(proof_data, first_signature) att,
      (proof_data ++ to_le_bytes 8 (fa_attester_index att),
       match first_signature with [] => fa_signature att | _ => first_signature end))
      ([], []) (filter (λ a, fa_block_hash a = block_hash) (fpa_attestations acc)) in
  {| fp_commitment := {|
       ce_block_hash := block_hash;
       ce_block_number := 0;
       ce_state_root := zero_bytes 32;
       ce_timestamp := finalized_at;
       ce_signature := first_signature;
       ce_proposer_index := 0 |};
     fp_proof_data := proof_data;
     fp_finalized_at := finalized_at |}.

(** [iter_mut().find(..)] by attester, with the in-place assignment to what was found. *)
Definition find_attester (index : Z) (l : list FastPathAttestation) : option FastPathAttestation :=
  List.find (λ a, fa_attester_index a =? index) l.
Fixpoint replace_attester (att : FastPathAttestation) (l : list FastPathAttestation)
  : list FastPathAttestation :=
  match l with
  | [] => []
  | a :: l => if fa_attester_index a =? fa_attester_index att then att :: l
              else a :: replace_attester att l
  end.

(** The tail of [add_attestation]: the two thresholds. *)
(* eth2077-oob-consensus/src/fast_path.rs:85-97 FastPathAccumulator::add_attestation *)
Definition fast_path_verdict (acc : FastPathAccumulator) (attestation : FastPathAttestation)
  : option FastPathOutcome :=
  let threshold := fpc_optimistic_threshold (fpa_config acc) in
  if (0 <? threshold) && (threshold <=? FastPathAccumulator_agreement_count acc) then
    let block_hash := default (fa_block_hash attestation) (fpa_round_block_hash acc) in
    Some (FastFinalized (FastPathAccumulator_build_fast_proof acc block_hash
      (fa_received_at_ms attestation)))
  else if FastPathAccumulator_has_quorum acc then Some SlowPath
  else None.

(* eth2077-oob-consensus/src/fast_path.rs:46-98 FastPathAccumulator::add_attestation *)
Definition FastPathAccumulator_add_attestation (acc : FastPathAccumulator)
    (attestation : FastPathAttestation) : FastPathAccumulator * option FastPathOutcome :=
  if fpa_conflict_detected acc then (acc, Some ConflictDetected) else
  let start := default (fa_received_at_ms attestation) (fpa_round_start_ms acc) in
  let acc := FPA (fpa_config acc) (fpa_attestations acc) (fpa_round_block_hash acc)
               (Some start) false in
  if FastPathAccumulator_is_timed_out acc (fa_received_at_ms attestation)
  then (acc, Some Timeout) else
  let conflict := (FPA (fpa_config acc) (fpa_attestations acc ++ [attestation])
                     (fpa_round_block_hash acc) (Some start) true, Some ConflictDetected) in
  match find_attester (fa_attester_index attestation) (fpa_attestations acc) with
  | Some existing =>
      if bool_decide (fa_block_hash existing ≠ fa_block_hash attestation) then conflict
      else
        let acc := FPA (fpa_config acc) (replace_attester attestation (fpa_attestations acc))
                     (fpa_round_block_hash acc) (Some start) false in
        (acc, fast_path_verdict acc attestation)
  | None =>
      match fpa_round_block_hash acc with
      | Some round_hash =>
          if bool_decide (round_hash ≠ fa_block_hash attestation) then conflict
          else
            let acc := FPA (fpa_config acc) (fpa_attestations acc ++ [attestation])
                         (Some round_hash) (Some start) false in
            (acc, fast_path_verdict acc attestation)
      | None =>
          let acc := FPA (fpa_config acc) (fpa_attestations acc ++ [attestation])
                       (Some (fa_block_hash attestation)) (Some start) false in
          (acc, fast_path_verdict acc attestation)
      end
  end.

(** ** The invariant of the accumulator *)

Abbreviation attesters l := (fa_attester_index <$> l).

(** While no conflict was seen, the attestations are those of distinct attesters
    for the one hash of the round. *)
Record FastPathAccumulator_inv (acc : FastPathAccumulator) : Prop := {
  fpa_inv_nodup : fpa_conflict_detected acc = false → NoDup (attesters (fpa_attestations acc));
  fpa_inv_hash : fpa_conflict_detected acc = false →
    Forall (λ a, fpa_round_block_hash acc = Some (fa_block_hash a)) (fpa_attestations acc);
}.

Lemma find_attester_some i l a :
  find_attester i l = Some a → a ∈ l ∧ fa_attester_index a = i.
Proof.
  intros [Hin Hi]%List.find_some. apply list_elem_of_In in Hin. bool_to_prop. done.
Qed.
Lemma find_attester_none i l : find_attester i l = None → i ∉ attesters l.
Proof.
  intros Hf Hin. apply list_elem_of_fmap in Hin as (a & -> & Ha).
  apply list_elem_of_In in Ha. pose proof (List.find_none _ _ Hf _ Ha) as Hne.
  simpl in Hne. bool_to_prop. done.
Qed.
Lemma attesters_replace att l : attesters (replace_attester att l) = attesters l.
Proof.
  induction l as [|a l IH]; simpl; [done|].
  destruct (Z.eqb_spec (fa_attester_index a) (fa_attester_index att)); csimpl; congruence.
Qed.
Lemma Forall_replace (P : FastPathAttestation → Prop) att l :
  P att → Forall P l → Forall P (replace_attester att l).
Proof.
  intros Hatt. induction 1 as [|a l Ha Hl IH]; simpl; [constructor|].
  destruct (_ =? _); by constructor.
Qed.

Lemma FastPathAccumulator_inv_new cfg : FastPathAccumulator_inv (FastPathAccumulator_new cfg).
Proof. split; simpl; constructor. Qed.
Lemma FastPathAccumulator_inv_reset acc : FastPathAccumulator_inv (FastPathAccumulator_reset acc).
Proof. split; simpl; constructor. Qed.

(** The three ways [add_attestation] ends. *)
Inductive add_attestation_spec (acc : FastPathAccumulator) (att : FastPathAttestation)
  : FastPathAccumulator → option FastPathOutcome → Prop :=
| add_conflicted :
    fpa_conflict_detected acc = true →
    add_attestation_spec acc att acc (Some ConflictDetected)
| add_timeout acc' :
    fpa_conflict_detected acc = false →
    fpa_attestations acc' = fpa_attestations acc →
    fpa_round_block_hash acc' = fpa_round_block_hash acc →
    fpa_conflict_detected acc' = false →
    add_attestation_spec acc att acc' (Some Timeout)
| add_conflict acc' :
    fpa_conflict_detected acc' = true →
    fpa_attestations acc' = fpa_attestations acc ++ [att] →
    add_attestation_spec acc att acc' (Some ConflictDetected)
| add_accepted acc' :
    fpa_conflict_detected acc = false →
    fpa_conflict_detected acc' = false →
    fpa_round_block_hash acc' = Some (fa_block_hash att) →
    (∀ h, fpa_round_block_hash acc = Some h → h = fa_block_hash att) →
    (∀ i, i ∈ attesters (fpa_attestations acc') →
       i = fa_attester_index att ∨ i ∈ attesters (fpa_attestations acc)) →
    FastPathAccumulator_inv acc' →
    add_attestation_spec acc att acc' (fast_path_verdict acc' att).

Lemma add_attestation_cases acc att :
  FastPathAccumulator_inv acc →
  fpa_config (FastPathAccumulator_add_attestation acc att).1 = fpa_config acc ∧
  add_attestation_spec acc att (FastPathAccumulator_add_attestation acc att).1
    (FastPathAccumulator_add_attestation acc att).2.
Proof.
  intros Hinv. unfold FastPathAccumulator_add_attestation.
  destruct (fpa_conflict_detected acc) eqn:Hc; [split; [done|]; by constructor|].
  pose proof (fpa_inv_nodup _ Hinv Hc) as Hnd. pose proof (fpa_inv_hash _ Hinv Hc) as Hhash.
  case_if_goal; [split; [done|]; by constructor|]. cbn [fpa_attestations fpa_round_block_hash].
  destruct (find_attester _ _) as [existing|] eqn:Hf; cbn [fpa_config].
  - apply find_attester_some in Hf as [Hin Hi].
    case_bool_decide as Hne; [split; [done|]; by constructor|]. split; [done|].
    rewrite Forall_forall in Hhash.
    pose proof (Hhash _ Hin) as Hround. rewrite Hne in Hround.
    apply add_accepted; simpl; [done..|congruence| |].
    + intros i. rewrite attesters_replace. by right.
    + split; simpl; [by rewrite attesters_replace|]. intros _.
      apply Forall_replace; [done|]. by apply Forall_forall.
  - apply find_attester_none in Hf.
    assert (Hnd' : NoDup (attesters (fpa_attestations acc ++ [att]))).
    { rewrite fmap_app. apply NoDup_app. split; [done|]. csimpl.
      split; [|apply NoDup_singleton]. intros i Hi ->%list_elem_of_singleton. done. }
    assert (Hatt : ∀ i, i ∈ attesters (fpa_attestations acc ++ [att]) →
       i = fa_attester_index att ∨ i ∈ attesters (fpa_attestations acc)).
    { intros i. rewrite fmap_app, elem_of_app. csimpl. rewrite list_elem_of_singleton. tauto. }
    destruct (fpa_round_block_hash acc) as [h|] eqn:Hround.
    + case_bool_decide as Hne; [split; [done|]; by constructor|]. split; [done|].
      subst h.
      apply add_accepted; simpl; [done..|congruence|done|].
      split; simpl; [done|]. intros _. apply Forall_app; split; [done|by repeat constructor].
    + split; [done|]. apply add_accepted; simpl; [done..|congruence|done|].
      split; simpl; [done|]. intros _. apply Forall_app; split; [|by repeat constructor].
      destruct (fpa_attestations acc); [done|]. by apply Forall_cons in Hhash as [? _].
Qed.

Lemma FastPathAccumulator_inv_add acc att :
  FastPathAccumulator_inv acc →
  FastPathAccumulator_inv (FastPathAccumulator_add_attestation acc att).1.
Proof.
  intros Hinv. destruct (add_attestation_cases acc att Hinv) as [_ Hspec].
  destruct Hspec as [Hc|acc' Hc Ha Hr Hc'|acc' Hc' Ha|acc' _ _ _ _ _ Hinv']; [done| | |done].
  - split; rewrite Ha, ?Hr; intros _; by apply Hinv.
  - split; congruence.
Qed.

Lemma add_attestation_config acc att :
  fpa_config (FastPathAccumulator_add_attestation acc att).1 = fpa_config acc.
Proof. unfold FastPathAccumulator_add_attestation. by repeat case_match. Qed.

(** The first attestation of a round is accepted. *)
Lemma add_first_attestation cfg att :
  0 ≤ fpc_timeout_ms cfg →
  let acc := FPA cfg [att] (Some (fa_block_hash att)) (Some (fa_received_at_ms att)) false in
  FastPathAccumulator_add_attestation (FastPathAccumulator_new cfg) att
    = (acc, fast_path_verdict acc att).
Proof.
  intros Ht. unfold FastPathAccumulator_add_attestation, FastPathAccumulator_new,
    FastPathAccumulator_is_timed_out, find_attester, default, from_option, id.
  cbn [fpa_conflict_detected fpa_round_start_ms fpa_config fpa_attestations fpa_round_block_hash
       List.find app].
  by rewrite (proj2 (Z.ltb_ge _ _)) by sat_lia.
Qed.

(** States the accumulator can be in. *)
Inductive FastPathAccumulator_reachable (cfg : FastPathConfig) : FastPathAccumulator → Prop :=
| reach_new : FastPathAccumulator_reachable cfg (FastPathAccumulator_new cfg)
| reach_add acc att :
    FastPathAccumulator_reachable cfg acc →
    FastPathAccumulator_reachable cfg (FastPathAccumulator_add_attestation acc att).1
| reach_reset acc :
    FastPathAccumulator_reachable cfg acc →
    FastPathAccumulator_reachable cfg (FastPathAccumulator_reset acc).

Lemma FastPathAccumulator_reachable_inv cfg acc :
  FastPathAccumulator_reachable cfg acc →
  FastPathAccumulator_inv acc ∧ fpa_config acc = cfg.
Proof.
  induction 1 as [|acc att _ [IH Hcfg]|acc _ [IH Hcfg]].
  - split; [apply FastPathAccumulator_inv_new|done].
  - split; [by apply FastPathAccumulator_inv_add|].
    by destruct (add_attestation_cases acc att IH) as [-> _].
  - split; [apply FastPathAccumulator_inv_reset|done].
Qed.

Lemma build_fast_proof_data acc h t :
  fp_proof_data (FastPathAccumulator_build_fast_proof acc h t) =
  concat (to_le_bytes 8 <$> attesters (filter (λ a, fa_block_hash a = h) (fpa_attestations acc))).
Proof.
  unfold FastPathAccumulator_build_fast_proof.
  set (l := filter _ _). clearbody l.
  assert (∀ p s, (foldl (λ '(proof_data, first_signature) att,
      (proof_data ++ to_le_bytes 8 (fa_attester_index att),
       match first_signature with [] => fa_signature att | _ => first_signature end)) (p, s) l).1
      = p ++ concat (to_le_bytes 8 <$> attesters l)) as Hgen.
  { induction l as [|a l IH]; intros p s; csimpl; [by rewrite app_nil_r|].
    rewrite IH. by rewrite <- app_assoc. }
  specialize (Hgen [] []). by destruct (foldl _ _ _) as [p s].
Qed.
Lemma build_fast_proof_hash acc h t :
  ce_block_hash (fp_commitment (FastPathAccumulator_build_fast_proof acc h t)) = h.
Proof. unfold FastPathAccumulator_build_fast_proof. by destruct (foldl _ _ _). Qed.

(** In a state that accepts attestations every one of them agrees. *)
Lemma inv_filter_all acc h :
  FastPathAccumulator_inv acc → fpa_conflict_detected acc = false →
  fpa_round_block_hash acc = Some h →
  filter (λ a, fa_block_hash a = h) (fpa_attestations acc) = fpa_attestations acc.
Proof.
  intros Hinv Hc Hr. pose proof (fpa_inv_hash _ Hinv Hc) as Hall.
  induction Hall as [|a l Ha Hl IH]; [done|].
  rewrite filter_cons_True by congruence. by rewrite IH.
Qed.

(** ** What the outcomes certify *)

(** A [FastFinalized] answer comes with an accepting state whose attestations are
    at least [optimistic_threshold], all for the finalized hash. *)
Lemma fast_finalized_state acc att proof :
  FastPathAccumulator_inv acc →
  (FastPathAccumulator_add_attestation acc att).2 = Some (FastFinalized proof) →
  let acc' := (FastPathAccumulator_add_attestation acc att).1 in
  FastPathAccumulator_inv acc' ∧ fpa_conflict_detected acc' = false ∧
  fpa_round_block_hash acc' = Some (fa_block_hash att) ∧
  0 < fpc_optimistic_threshold (fpa_config acc) ≤ len (fpa_attestations acc') ∧
  proof = FastPathAccumulator_build_fast_proof acc' (fa_block_hash att) (fa_received_at_ms att).
Proof.
  intros Hinv Hout. destruct (add_attestation_cases acc att Hinv) as [Hcfg Hspec].
  rewrite Hout in Hspec. inversion Hspec as [|?| |acc' Hc Hc' Hr Hr' Hatt Hinv' Heq Hv]. subst acc'.
  split_and!; try done.
  - unfold fast_path_verdict in Hv. case_if_in Hv; [|by case_if_in Hv]. bool_to_prop. by rewrite <- Hcfg.
  - unfold fast_path_verdict in Hv. case_if_in Hv; [|by case_if_in Hv]. bool_to_prop.
    unfold FastPathAccumulator_agreement_count in *. rewrite Hr, inv_filter_all in * by done.
    by rewrite <- Hcfg.
  - unfold fast_path_verdict in Hv. case_if_in Hv; [|by case_if_in Hv].
    rewrite Hr in Hv. by simplify_eq/=.
Qed.

(** C38: A fast-path finality proof is a certificate: in every reachable state, a
    [FastFinalized] outcome is for the hash of the attestation just added, no
    conflict was seen, and the proof data are the little-endian indices of at
    least [optimistic_threshold] pairwise distinct attesters, every one of them
    recorded with that hash. *)
Theorem fast_finalized_certificate cfg acc att proof :
  FastPathAccumulator_reachable cfg acc →
  (FastPathAccumulator_add_attestation acc att).2 = Some (FastFinalized proof) →
  ∃ voters : list FastPathAttestation,
    voters = fpa_attestations (FastPathAccumulator_add_attestation acc att).1 ∧
    NoDup (attesters voters) ∧
    Forall (λ a, fa_block_hash a = fa_block_hash att) voters ∧
    0 < fpc_optimistic_threshold cfg ≤ len voters ∧
    ce_block_hash (fp_commitment proof) = fa_block_hash att ∧
    fp_proof_data proof = concat (to_le_bytes 8 <$> attesters voters) ∧
    fpa_conflict_detected (FastPathAccumulator_add_attestation acc att).1 = false.
Proof.
  intros Hreach Hout. apply FastPathAccumulator_reachable_inv in Hreach as [Hinv <-].
  pose proof (fast_finalized_state acc att proof Hinv Hout) as (Hinv' & Hc & Hr & Hlen & ->).
  eexists. split; [done|]. split_and!; try apply Hlen; try done.
  - by apply Hinv'.
  - pose proof (fpa_inv_hash _ Hinv' Hc) as Hall. eapply Forall_impl; [exact Hall|].
    simpl. congruence.
  - apply build_fast_proof_hash.
  - by rewrite build_fast_proof_data, inv_filter_all.
Qed.

Definition example_attestation (h : list Z) (i t : Z) : FastPathAttestation :=
  {| fa_block_hash := h; fa_attester_index := i; fa_signature := [i]; fa_received_at_ms := t |}.
Definition example_config : FastPathConfig :=
  {| fpc_quorum_threshold := 4; fpc_timeout_ms := 100; fpc_optimistic_threshold := 2 |}.
Definition example_accumulator : FastPathAccumulator :=
  (FastPathAccumulator_add_attestation (FastPathAccumulator_new example_config)
     (example_attestation [11] 1 0)).1.

Lemma fast_finalized_certificate_witness :
  ∃ proof, ce_block_hash (fp_commitment proof) = [11] ∧
    fp_proof_data proof = [1; 0; 0; 0; 0; 0; 0; 0; 2; 0; 0; 0; 0; 0; 0; 0].
Proof.
  set (r := (FastPathAccumulator_add_attestation example_accumulator
               (example_attestation [11] 2 1)).2).
  destruct r as [[proof| | |]|] eqn:Hr; try discriminate Hr.
  exists proof.
  destruct (fast_finalized_certificate example_config example_accumulator
    (example_attestation [11] 2 1) proof) as (voters & -> & _ & _ & _ & Hh & Hd & _).
  - apply reach_add, reach_new.
  - exact Hr.
  - split; [exact Hh|exact Hd].
Defined.

(** A conflict is final for the round: once an attestation contradicts an
    earlier one, every further attestation answers [ConflictDetected], changes
    nothing and finalizes nothing, until [reset]. *)
Theorem conflict_blocks_round (acc : FastPathAccumulator) (atts : list FastPathAttestation) :
  fpa_conflict_detected acc = true →
  foldl (λ st att, (FastPathAccumulator_add_attestation st.1 att)) (acc, None) atts
  = (acc, match atts with [] => None | _ => Some ConflictDetected end).
Proof.
  intros Hc.
  assert (∀ o, foldl (λ st att, FastPathAccumulator_add_attestation st.1 att) (acc, o) atts
    = (acc, match atts with [] => o | _ => Some ConflictDetected end)) as Hgen; [|apply Hgen].
  induction atts as [|att atts IH]; intros o; [done|]. simpl.
  unfold FastPathAccumulator_add_attestation at 2. rewrite Hc, IH. by destruct atts.
Qed.
Lemma conflict_blocks_round_witness :
  let acc := (FastPathAccumulator_add_attestation
                (FastPathAccumulator_add_attestation (FastPathAccumulator_new example_config)
                   (example_attestation [9] 1 0)).1 (example_attestation [10] 2 1)).1 in
  foldl (λ st att, (FastPathAccumulator_add_attestation st.1 att)) (acc, None)
    [example_attestation [9] 3 2; example_attestation [9] 4 2] = (acc, Some ConflictDetected).
Proof. apply conflict_blocks_round. reflexivity. Defined.
