(* ===== verification/Consensus.v ===== *)
(** * The BFT consensus engine ([eth2077-oob-consensus/src/consensus.rs])

    One validator's engine for one height at a time: proposals, prevotes and
    precommits are collected per round, a prevote quorum locks a block and asks
    for a precommit, a precommit quorum (or the fast path) finalizes.  The
    [HashMap]s of the round state are [gmap]s; where the code iterates over one
    the order is the class argument [HashOrder]. *)
From S2P Require Import Prelude Validators FastPath.
Local Open Scope Z_scope.

Abbreviation hash := (list Z) (only parsing).

(* eth2077-oob-consensus/src/consensus.rs:7-12 Step *)
Inductive Step := StepPropose | StepPrevote | StepPrecommit | StepCommitted.
#[export] Instance Step_eq_dec : EqDecision Step.
Proof. solve_decision. Defined.

(* eth2077-oob-consensus/src/consensus.rs:15-34 ConsensusMessage *)
Inductive ConsensusMessage :=
| Proposal (height round : Z) (block_hash : hash) (proposer : Z)
| Prevote (height round : Z) (block_hash : option hash) (voter : Z)
| Precommit (height round : Z) (block_hash : option hash) (voter : Z).
#[export] Instance ConsensusMessage_eq_dec : EqDecision ConsensusMessage.
Proof. solve_decision. Defined.

(* eth2077-oob-consensus/src/consensus.rs:37-62 ConsensusEvent *)
Inductive ConsensusEvent :=
| BlockFinalized (height : Z) (block_hash : hash) (round : Z)
| RoundTimeout (height round : Z)
| NeedProposal (height round leader : Z)
| SendPrevote (height round : Z) (block_hash : option hash)
| SendPrecommit (height round : Z) (block_hash : option hash).
#[export] Instance ConsensusEvent_eq_dec : EqDecision ConsensusEvent.
Proof. solve_decision. Defined.

Abbreviation votes := (gmap (Z * Z) (option hash)).

(* eth2077-oob-consensus/src/consensus.rs:65-74 RoundState *)
Record RoundState := MkRoundState {
  rs_height : Z;
  rs_round : Z;
  rs_step : Step;
  rs_proposals : gmap Z hash;
  rs_prevotes : votes;
  rs_precommits : votes;
  rs_locked_round : option Z;
  rs_locked_hash : option hash;
}.

(* eth2077-oob-consensus/src/consensus.rs:77-88 RoundState::new *)
Definition RoundState_new : RoundState := MkRoundState 0 0 StepPropose ∅ ∅ ∅ None None.

(* eth2077-oob-consensus/src/consensus.rs:90-99 RoundState::reset_for_height *)
Definition RoundState_reset_for_height (height : Z) (st : RoundState) : RoundState :=
  MkRoundState height 0 StepPropose ∅ ∅ ∅ None None.

(** Field updates. *)
Definition with_step (s : Step) (st : RoundState) : RoundState :=
  MkRoundState (rs_height st) (rs_round st) s (rs_proposals st) (rs_prevotes st)
    (rs_precommits st) (rs_locked_round st) (rs_locked_hash st).
Definition with_proposals (p : gmap Z hash) (st : RoundState) : RoundState :=
  MkRoundState (rs_height st) (rs_round st) (rs_step st) p (rs_prevotes st)
    (rs_precommits st) (rs_locked_round st) (rs_locked_hash st).
Definition with_prevotes (v : votes) (st : RoundState) : RoundState :=
  MkRoundState (rs_height st) (rs_round st) (rs_step st) (rs_proposals st) v
    (rs_precommits st) (rs_locked_round st) (rs_locked_hash st).
Definition with_precommits (v : votes) (st : RoundState) : RoundState :=
  MkRoundState (rs_height st) (rs_round st) (rs_step st) (rs_proposals st) (rs_prevotes st)
    v (rs_locked_round st) (rs_locked_hash st).
Definition with_lock (r : Z) (h : hash) (st : RoundState) : RoundState :=
  MkRoundState (rs_height st) (rs_round st) (rs_step st) (rs_proposals st) (rs_prevotes st)
    (rs_precommits st) (Some r) (Some h).

(* eth2077-oob-consensus/src/consensus.rs:101-104 RoundState::advance_round *)
Definition RoundState_advance_round (st : RoundState) : RoundState :=
  MkRoundState (rs_height st) (u32_saturating_add (rs_round st) 1) StepPropose (rs_proposals st)
    (rs_prevotes st) (rs_precommits st) (rs_locked_round st) (rs_locked_hash st).

(* eth2077-oob-consensus/src/consensus.rs:106-113 RoundState::insert_prevote *)
Definition RoundState_insert_prevote (round voter : Z) (block_hash : option hash)
    (st : RoundState) : RoundState * bool :=
  match rs_prevotes st !! (round, voter) with
  | Some _ => (st, false)
  | None => (with_prevotes (<[(round, voter) := block_hash]> (rs_prevotes st)) st, true)
  end.

(* eth2077-oob-consensus/src/consensus.rs:115-122 RoundState::insert_precommit *)
Definition RoundState_insert_precommit (round voter : Z) (block_hash : option hash)
    (st : RoundState) : RoundState * bool :=
  match rs_precommits st !! (round, voter) with
  | Some _ => (st, false)
  | None => (with_precommits (<[(round, voter) := block_hash]> (rs_precommits st)) st, true)
  end.

(** One iteration of the loop that [tally_prevotes] and [tally_precommits] share. *)
(* eth2077-oob-consensus/src/consensus.rs:127-143 RoundState::tally_prevotes *)
Definition tally_step (vs : ValidatorSet) (round : Z) (tally : gmap hash Z)
    (vote : (Z * Z) * option hash) : gmap hash Z :=
  let '((vote_round, voter), block_hash) := vote in
  if bool_decide (vote_round ≠ round) then tally else
  match block_hash with
  | None => tally
  | Some h =>
      let weight := ValidatorSet_weight_of vs voter in
      if weight =? 0 then tally
      else <[h := u64_saturating_add (default 0 (tally !! h)) weight]> tally
  end.

Section engine.
Context `{HO : HashOrder}.

(* eth2077-oob-consensus/src/consensus.rs:124-146 RoundState::tally_prevotes *)
Definition RoundState_tally_prevotes (round : Z) (vs : ValidatorSet) (st : RoundState)
  : gmap hash Z := foldl (tally_step vs round) ∅ (hash_iter (rs_prevotes st)).

(* eth2077-oob-consensus/src/consensus.rs:148-170 RoundState::tally_precommits *)
Definition RoundState_tally_precommits (round : Z) (vs : ValidatorSet) (st : RoundState)
  : gmap hash Z := foldl (tally_step vs round) ∅ (hash_iter (rs_precommits st)).

(* eth2077-oob-consensus/src/consensus.rs:172-176 RoundState::quorum_hash *)
Definition RoundState_quorum_hash (tally : gmap hash Z) (quorum_weight : Z) : option hash :=
  fst <$> List.find (λ '(_, weight), quorum_weight <=? weight) (hash_iter tally).

End engine.

(* eth2077-oob-consensus/src/consensus.rs:180-184 ConsensusEngine *)
Record ConsensusEngine := MkEngine {
  ce_validator_set : ValidatorSet;
  ce_state : RoundState;
  ce_fast_path : FastPathAccumulator;
}.

(* eth2077-oob-consensus/src/consensus.rs:187-193 ConsensusEngine::new *)
Definition ConsensusEngine_new (vs : ValidatorSet) (cfg : FastPathConfig) : ConsensusEngine :=
  MkEngine vs RoundState_new (FastPathAccumulator_new cfg).

(* eth2077-oob-consensus/src/consensus.rs:195-204 ConsensusEngine::start_height *)
Definition ConsensusEngine_start_height (height : Z) (e : ConsensusEngine)
  : ConsensusEngine * list ConsensusEvent :=
  (MkEngine (ce_validator_set e) (RoundState_reset_for_height height (ce_state e))
     (FastPathAccumulator_reset (ce_fast_path e)),
   [NeedProposal height 0 (ValidatorSet_leader_for_round (ce_validator_set e) height 0)]).

(* eth2077-oob-consensus/src/consensus.rs:233-255 ConsensusEngine::on_timeout *)
Definition ConsensusEngine_on_timeout (e : ConsensusEngine)
  : ConsensusEngine * list ConsensusEvent :=
  if bool_decide (rs_step (ce_state e) = StepCommitted) then (e, []) else
  let timed_out_round := rs_round (ce_state e) in
  let st := RoundState_advance_round (ce_state e) in
  (MkEngine (ce_validator_set e) st (FastPathAccumulator_reset (ce_fast_path e)),
   [RoundTimeout (rs_height st) timed_out_round;
    NeedProposal (rs_height st) (rs_round st)
      (ValidatorSet_leader_for_round (ce_validator_set e) (rs_height st) (rs_round st))]).

(* eth2077-oob-consensus/src/consensus.rs:265-291 ConsensusEngine::on_proposal *)
Definition ConsensusEngine_on_proposal (height round : Z) (block_hash : hash) (proposer : Z)
    (e : ConsensusEngine) : ConsensusEngine * list ConsensusEvent :=
  let st := ce_state e in
  if bool_decide (height ≠ rs_height st) || bool_decide (round ≠ rs_round st) then (e, []) else
  if bool_decide (proposer ≠ ValidatorSet_leader_for_round (ce_validator_set e) height round)
  then (e, []) else
  let st := with_step StepPrevote (with_proposals (<[round := block_hash]> (rs_proposals st)) st) in
  let vote_hash := match rs_locked_hash st with Some h => Some h | None => Some block_hash end in
  (MkEngine (ce_validator_set e) st (ce_fast_path e), [SendPrevote height round vote_hash]).

Section engine_handlers.
Context `{HO : HashOrder}.

(** The quorum half of [on_prevote]: lock and ask for a precommit. *)
(* eth2077-oob-consensus/src/consensus.rs:335-356 ConsensusEngine::on_prevote *)
Definition prevote_quorum_step (height round : Z) (e : ConsensusEngine)
  : ConsensusEngine * list ConsensusEvent :=
  let st := ce_state e in
  let tally := RoundState_tally_prevotes round (ce_validator_set e) st in
  let quorum_weight := ValidatorSet_quorum_weight (ce_validator_set e) in
  match RoundState_quorum_hash tally quorum_weight with
  | None => (e, [])
  | Some quorum_hash =>
      let should_emit :=
        negb (bool_decide (rs_step st = StepPrecommit))
        || bool_decide (rs_locked_hash st ≠ Some quorum_hash)
        || bool_decide (rs_locked_round st ≠ Some round) in
      (MkEngine (ce_validator_set e) (with_step StepPrecommit (with_lock round quorum_hash st))
         (ce_fast_path e),
       if should_emit then [SendPrecommit height round (Some quorum_hash)] else [])
  end.

(* eth2077-oob-consensus/src/consensus.rs:293-357 ConsensusEngine::on_prevote *)
Definition ConsensusEngine_on_prevote (height round : Z) (block_hash : option hash) (voter : Z)
    (e : ConsensusEngine) : ConsensusEngine * list ConsensusEvent :=
  let st := ce_state e in
  if bool_decide (height ≠ rs_height st) || bool_decide (round ≠ rs_round st) then (e, []) else
  let '(st, inserted) := RoundState_insert_prevote round voter block_hash st in
  if negb inserted then (e, []) else
  match block_hash with
  | None => prevote_quorum_step height round (MkEngine (ce_validator_set e) st (ce_fast_path e))
  | Some h =>
      let attestation := {|
        fa_block_hash := h;
        fa_attester_index := voter;
        fa_signature := [];
        fa_received_at_ms :=
          u64_saturating_add (u64_saturating_mul (rs_height st) 1000) (rs_round st) |} in
      let '(fast_path, outcome) :=
        FastPathAccumulator_add_attestation (ce_fast_path e) attestation in
      match outcome with
      | Some (FastFinalized _) =>
          (MkEngine (ce_validator_set e) (with_step StepCommitted st) fast_path,
           [BlockFinalized height h round])
      | _ => prevote_quorum_step height round (MkEngine (ce_validator_set e) st fast_path)
      end
  end.

(* eth2077-oob-consensus/src/consensus.rs:359-388 ConsensusEngine::on_precommit *)
Definition ConsensusEngine_on_precommit (height round : Z) (block_hash : option hash) (voter : Z)
    (e : ConsensusEngine) : ConsensusEngine * list ConsensusEvent :=
  let st := ce_state e in
  if bool_decide (height ≠ rs_height st) || bool_decide (round ≠ rs_round st) then (e, []) else
  let '(st, inserted) := RoundState_insert_precommit round voter block_hash st in
  if negb inserted then (e, []) else
  let tally := RoundState_tally_precommits round (ce_validator_set e) st in
  let quorum_weight := ValidatorSet_quorum_weight (ce_validator_set e) in
  match RoundState_quorum_hash tally quorum_weight with
  | None => (MkEngine (ce_validator_set e) st (ce_fast_path e), [])
  | Some quorum_hash =>
      (MkEngine (ce_validator_set e) (with_step StepCommitted st) (ce_fast_path e),
       [BlockFinalized height quorum_hash round])
  end.

(* eth2077-oob-consensus/src/consensus.rs:206-231 ConsensusEngine::on_message *)
Definition ConsensusEngine_on_message (msg : ConsensusMessage) (e : ConsensusEngine)
  : ConsensusEngine * list ConsensusEvent :=
  if bool_decide (rs_step (ce_state e) = StepCommitted) then (e, []) else
  match msg with
  | Proposal height round block_hash proposer =>
      ConsensusEngine_on_proposal height round block_hash proposer e
  | Prevote height round block_hash voter =>
      ConsensusEngine_on_prevote height round block_hash voter e
  | Precommit height round block_hash voter =>
      ConsensusEngine_on_precommit height round block_hash voter e
  end.

(** What the node does to its engine within one height. *)
Inductive EngineInput := InMessage (msg : ConsensusMessage) | InTimeout.
Definition engine_step (e : ConsensusEngine) (i : EngineInput)
  : ConsensusEngine * list ConsensusEvent :=
  match i with
  | InMessage msg => ConsensusEngine_on_message msg e
  | InTimeout => ConsensusEngine_on_timeout e
  end.
(** A run: the events of all steps in order. *)
Fixpoint engine_run (e : ConsensusEngine) (ins : list EngineInput)
  : ConsensusEngine * list ConsensusEvent :=
  match ins with
  | [] => (e, [])
  | i :: ins =>
      let '(e, evs) := engine_step e i in
      let '(e, evs') := engine_run e ins in (e, evs ++ evs')
  end.

(** ** Tallies *)

(** The voters of a round whose recorded vote is for [h]. *)
Definition voters_for (v : votes) (round : Z) (h : hash) : gset Z :=
  list_to_set ((λ p, p.1.2) <$> filter (λ p, p.1.1 = round ∧ p.2 = Some h) (map_to_list v)).

Lemma elem_of_voters_for v round h i :
  i ∈ voters_for v round h ↔ v !! (round, i) = Some (Some h).
Proof.
  unfold voters_for. rewrite elem_of_list_to_set, list_elem_of_fmap. split.
  - intros ([[r j] o] & -> & Hf). apply list_elem_of_filter in Hf as [[Hr Ho] Hin]. simpl in *.
    subst. by apply elem_of_map_to_list in Hin.
  - intros Hv. exists ((round, i), Some h). split; [done|].
    apply list_elem_of_filter. split; [done|]. by apply elem_of_map_to_list.
Qed.

Section tallies.
Context (vs : ValidatorSet) (Hwf : ValidatorSet_wf vs).
Abbreviation w := (ValidatorSet_weight_of vs).
Abbreviation counted round h l := (filter (λ p : (Z * Z) * option hash, p.1.1 = round ∧ p.2 = Some h) l).

Lemma tally_foldl round l t h :
  (∀ h, is_u64 (default 0 (t !! h))) →
  default 0 (foldl (tally_step vs round) t l !! h) =
    Z.min (default 0 (t !! h) + Zsum ((λ p, w p.1.2) <$> counted round h l)) u64_max.
Proof.
  revert t. induction l as [|[[r i] o] l IH]; intros t Ht.
  { simpl. specialize (Ht h). sat_lia. }
  cbn [foldl tally_step].
  assert (Hnn : 0 ≤ Zsum ((λ p, w p.1.2) <$> counted round h l)).
  { apply Zsum_nonneg, Forall_fmap, Forall_true. intros p. apply (weight_of_nonneg vs Hwf). }
  rewrite filter_cons. simpl. pose proof (weight_of_range vs Hwf i) as Hi.
  destruct (decide (r = round)) as [->|Hr].
  2: { rewrite bool_decide_true by done. rewrite decide_False by naive_solver. by apply IH. }
  rewrite bool_decide_false by congruence. destruct o as [h'|].
  2: { rewrite decide_False by naive_solver. by apply IH. }
  destruct (Z.eqb_spec (w i) 0) as [Hz|Hnz].
  { case_decide; csimpl; rewrite IH by done; [|done]. rewrite Hz. lia. }
  rewrite IH.
  - case_decide as Hd; csimpl.
    + destruct Hd as [_ ?]; simplify_eq. rewrite lookup_insert_eq. simpl.
      specialize (Ht h). sat_lia.
    + rewrite lookup_insert_ne by naive_solver. done.
  - intros h0. rewrite lookup_insert. case_decide; subst; simpl; [|apply Ht].
    specialize (Ht h0). sat_lia.
Qed.

Lemma tally_weight (v : votes) round h :
  default 0 (foldl (tally_step vs round) ∅ (hash_iter v) !! h) =
    Z.min (set_weight w (voters_for v round h)) u64_max.
Proof.
  rewrite tally_foldl by (intros h0; rewrite lookup_empty; simpl; sat_lia).
  rewrite lookup_empty. simpl. f_equal. unfold set_weight, voters_for.
  rewrite elements_list_to_set.
  - rewrite <- list_fmap_compose. by rewrite hash_iter_perm.
  - apply NoDup_fmap_2_strong; [|apply NoDup_filter, NoDup_map_to_list].
    intros [[r1 i1] o1] [[r2 i2] o2] [[??] ?]%list_elem_of_filter [[??] ?]%list_elem_of_filter.
    naive_solver.
Qed.

(** What [quorum_hash] finds on a tally is a hash whose voters are a quorum,
    and it finds one whenever there is one. *)
Lemma quorum_hash_some (v : votes) round h :
  RoundState_quorum_hash (foldl (tally_step vs round) ∅ (hash_iter v))
    (ValidatorSet_quorum_weight vs) = Some h →
  is_quorum vs (voters_for v round h).
Proof.
  unfold RoundState_quorum_hash. intros Hf.
  destruct (List.find _ _) as [[h' wt]|] eqn:Hfind; simplify_eq/=.
  apply List.find_some in Hfind as [Hin Hwt]. apply list_elem_of_In in Hin. bool_to_prop.
  apply elem_of_hash_iter in Hin. pose proof (tally_weight v round h) as Hw.
  rewrite Hin in Hw. simpl in Hw. unfold is_quorum. lia.
Qed.
Lemma quorum_hash_exists (v : votes) round h :
  is_quorum vs (voters_for v round h) →
  is_Some (RoundState_quorum_hash (foldl (tally_step vs round) ∅ (hash_iter v))
    (ValidatorSet_quorum_weight vs)).
Proof.
  unfold is_quorum, RoundState_quorum_hash. intros Hq.
  pose proof (tally_weight v round h) as Hw.
  set (t := foldl (tally_step vs round) ∅ (hash_iter v)) in *.
  assert (Hqr : 1 ≤ ValidatorSet_quorum_weight vs ≤ u64_max).
  { split; [apply quorum_weight_pos, total_weight_range; done|].
    unfold ValidatorSet_quorum_weight. sat_lia. }
  destruct (t !! h) as [wt|] eqn:Ht; simpl in Hw; [|lia].
  destruct (List.find _ _) as [p|] eqn:Hfind; [done|].
  assert ((h, wt) ∈ hash_iter t) as Hin by (by apply elem_of_hash_iter).
  apply list_elem_of_In in Hin. pose proof (List.find_none _ _ Hfind _ Hin) as Hno.
  simpl in Hno. bool_to_prop. lia.
Qed.
End tallies.

(** ** The cases of a step *)

(** The fast-path accumulator after a prevote, and whether it finalized. *)
Definition prevote_attestation (st : RoundState) (voter : Z) (h : hash) : FastPathAttestation := {|
  fa_block_hash := h;
  fa_attester_index := voter;
  fa_signature := [];
  fa_received_at_ms := u64_saturating_add (u64_saturating_mul (rs_height st) 1000) (rs_round st);
|}.
Definition fast_path_after (e : ConsensusEngine) (voter : Z) (o : option hash)
  : FastPathAccumulator :=
  match o with
  | None => ce_fast_path e
  | Some h => (FastPathAccumulator_add_attestation (ce_fast_path e)
                 (prevote_attestation (ce_state e) voter h)).1
  end.

Inductive step_spec (e : ConsensusEngine) : EngineInput → ConsensusEngine →
    list ConsensusEvent → Prop :=
| step_ignored i : step_spec e i e []
| step_timeout :
    rs_step (ce_state e) ≠ StepCommitted →
    let st := RoundState_advance_round (ce_state e) in
    step_spec e InTimeout
      (MkEngine (ce_validator_set e) st (FastPathAccumulator_reset (ce_fast_path e)))
      [RoundTimeout (rs_height st) (rs_round (ce_state e));
       NeedProposal (rs_height st) (rs_round st)
         (ValidatorSet_leader_for_round (ce_validator_set e) (rs_height st) (rs_round st))]
| step_proposal b p :
    rs_step (ce_state e) ≠ StepCommitted →
    let st := ce_state e in
    step_spec e (InMessage (Proposal (rs_height st) (rs_round st) b p))
      (MkEngine (ce_validator_set e)
         (with_step StepPrevote (with_proposals (<[rs_round st := b]> (rs_proposals st)) st))
         (ce_fast_path e))
      [SendPrevote (rs_height st) (rs_round st) (Some (default b (rs_locked_hash st)))]
| step_prevote_fast h i proof :
    rs_step (ce_state e) ≠ StepCommitted →
    let st := ce_state e in
    rs_prevotes st !! (rs_round st, i) = None →
    (FastPathAccumulator_add_attestation (ce_fast_path e) (prevote_attestation st i h)).2
      = Some (FastFinalized proof) →
    step_spec e (InMessage (Prevote (rs_height st) (rs_round st) (Some h) i))
      (MkEngine (ce_validator_set e)
         (with_step StepCommitted
            (with_prevotes (<[(rs_round st, i) := Some h]> (rs_prevotes st)) st))
         (fast_path_after e i (Some h)))
      [BlockFinalized (rs_height st) h (rs_round st)]
| step_prevote_pending o i :
    rs_step (ce_state e) ≠ StepCommitted →
    let st := ce_state e in
    rs_prevotes st !! (rs_round st, i) = None →
    step_spec e (InMessage (Prevote (rs_height st) (rs_round st) o i))
      (MkEngine (ce_validator_set e)
         (with_prevotes (<[(rs_round st, i) := o]> (rs_prevotes st)) st)
         (fast_path_after e i o)) []
| step_prevote_lock o i q evs :
    rs_step (ce_state e) ≠ StepCommitted →
    let st := ce_state e in
    let prevotes := <[(rs_round st, i) := o]> (rs_prevotes st) in
    rs_prevotes st !! (rs_round st, i) = None →
    RoundState_quorum_hash (foldl (tally_step (ce_validator_set e) (rs_round st)) ∅
      (hash_iter prevotes)) (ValidatorSet_quorum_weight (ce_validator_set e)) = Some q →
    evs = [] ∨ evs = [SendPrecommit (rs_height st) (rs_round st) (Some q)] →
    step_spec e (InMessage (Prevote (rs_height st) (rs_round st) o i))
      (MkEngine (ce_validator_set e)
         (with_step StepPrecommit (with_lock (rs_round st) q (with_prevotes prevotes st)))
         (fast_path_after e i o)) evs
| step_precommit_pending o i :
    rs_step (ce_state e) ≠ StepCommitted →
    let st := ce_state e in
    rs_precommits st !! (rs_round st, i) = None →
    step_spec e (InMessage (Precommit (rs_height st) (rs_round st) o i))
      (MkEngine (ce_validator_set e)
         (with_precommits (<[(rs_round st, i) := o]> (rs_precommits st)) st)
         (ce_fast_path e)) []
| step_precommit_commit o i q :
    rs_step (ce_state e) ≠ StepCommitted →
    let st := ce_state e in
    let precommits := <[(rs_round st, i) := o]> (rs_precommits st) in
    rs_precommits st !! (rs_round st, i) = None →
    RoundState_quorum_hash (foldl (tally_step (ce_validator_set e) (rs_round st)) ∅
      (hash_iter precommits)) (ValidatorSet_quorum_weight (ce_validator_set e)) = Some q →
    step_spec e (InMessage (Precommit (rs_height st) (rs_round st) o i))
      (MkEngine (ce_validator_set e)
         (with_step StepCommitted (with_precommits precommits st)) (ce_fast_path e))
      [BlockFinalized (rs_height st) q (rs_round st)].

(** Every step of the engine is one of these cases. *)
Lemma engine_step_spec e i : step_spec e i (engine_step e i).1 (engine_step e i).2.
Proof.
  destruct i as [msg|]; simpl.
  2: { unfold ConsensusEngine_on_timeout. case_bool_decide; by constructor. }
  unfold ConsensusEngine_on_message. case_bool_decide as Hstep; [constructor|].
  destruct msg as [h r b p|h r o i|h r o i].
  - unfold ConsensusEngine_on_proposal.
    case_bool_decide as Hh; [constructor|]. case_bool_decide as Hr; [constructor|]. simpl.
    case_bool_decide; [constructor|]. subst h r.
    pose proof (step_proposal e b p Hstep) as Hs. revert Hs. simpl.
    destruct (rs_locked_hash (ce_state e)); exact id.
  - unfold ConsensusEngine_on_prevote.
    case_bool_decide as Hh; [constructor|]. case_bool_decide as Hr; [constructor|]. simplify_eq/=.
    unfold RoundState_insert_prevote. destruct (rs_prevotes _ !! _) as [|] eqn:Hv; [constructor|]. simpl.
    assert (Hquorum : step_spec e
      (InMessage (Prevote (rs_height (ce_state e)) (rs_round (ce_state e)) o i))
      (prevote_quorum_step (rs_height (ce_state e)) (rs_round (ce_state e))
        (MkEngine (ce_validator_set e) (with_prevotes (<[(rs_round (ce_state e), i) := o]>
           (rs_prevotes (ce_state e))) (ce_state e)) (fast_path_after e i o))).1
      (prevote_quorum_step (rs_height (ce_state e)) (rs_round (ce_state e))
        (MkEngine (ce_validator_set e) (with_prevotes (<[(rs_round (ce_state e), i) := o]>
           (rs_prevotes (ce_state e))) (ce_state e)) (fast_path_after e i o))).2).
    { unfold prevote_quorum_step, RoundState_tally_prevotes. simpl.
      destruct (RoundState_quorum_hash _ _) as [q|] eqn:Hq; simpl; [|by constructor].
      eapply step_prevote_lock; [done..|]. case_if_goal; [by right|by left]. }
    destruct o as [h|]; [|exact Hquorum].
    change (Build_FastPathAttestation h i [] _) with (prevote_attestation (ce_state e) i h).
    destruct (FastPathAccumulator_add_attestation _ _) as [fp out] eqn:Hadd.
    unfold fast_path_after in Hquorum. rewrite Hadd in Hquorum. simpl in Hquorum.
    destruct out as [[proof| | |]|]; try exact Hquorum.
    pose proof (step_prevote_fast e h i proof Hstep Hv) as Hs.
    unfold fast_path_after in Hs. rewrite Hadd in Hs. by apply Hs.
  - unfold ConsensusEngine_on_precommit.
    case_bool_decide as Hh; [constructor|]. case_bool_decide as Hr; [constructor|]. simplify_eq/=.
    unfold RoundState_insert_precommit. destruct (rs_precommits _ !! _) as [|] eqn:Hv; [constructor|]. simpl.
    unfold RoundState_tally_precommits. simpl.
    destruct (RoundState_quorum_hash _ _) as [q|] eqn:Hq; simpl; by constructor.
Qed.

(** ** Invariants of a height *)

Record engine_inv (e : ConsensusEngine) : Prop := {
  einv_wf : ValidatorSet_wf (ce_validator_set e);
  einv_round : is_u32 (rs_round (ce_state e));
  einv_fast : FastPathAccumulator_inv (ce_fast_path e);
  einv_fast_votes : Forall (λ a, rs_prevotes (ce_state e) !!
      (rs_round (ce_state e), fa_attester_index a) = Some (Some (fa_block_hash a)))
    (fpa_attestations (ce_fast_path e));
  einv_prevote_rounds r i :
    is_Some (rs_prevotes (ce_state e) !! (r, i)) → r ≤ rs_round (ce_state e);
  einv_lock r : rs_locked_round (ce_state e) = Some r →
    r ≤ rs_round (ce_state e) ∧ ∃ h, rs_locked_hash (ce_state e) = Some h ∧
    is_quorum (ce_validator_set e) (voters_for (rs_prevotes (ce_state e)) r h);
  einv_lock_hash h : rs_locked_hash (ce_state e) = Some h →
    is_Some (rs_locked_round (ce_state e));
}.

Lemma engine_inv_start e h :
  ValidatorSet_wf (ce_validator_set e) → engine_inv (ConsensusEngine_start_height h e).1.
Proof.
  intros Hwf. split; simpl; try done.
  - apply FastPathAccumulator_inv_reset.
  - intros r i. rewrite lookup_empty. by intros [? ?].
Qed.

Lemma voters_for_mono (v v' : votes) r h : v ⊆ v' → voters_for v r h ⊆ voters_for v' r h.
Proof. intros Hv i. rewrite !elem_of_voters_for. intros Hi. by eapply lookup_weaken. Qed.
Lemma is_quorum_mono vs X Y : ValidatorSet_wf vs → X ⊆ Y → is_quorum vs X → is_quorum vs Y.
Proof.
  unfold is_quorum. intros Hwf HXY HX.
  pose proof (set_weight_mono _ (weight_of_nonneg vs Hwf) X Y HXY). lia.
Qed.

(** The attestations after a prevote are recorded prevotes. *)
Lemma fast_path_after_inv e i o :
  engine_inv e → FastPathAccumulator_inv (fast_path_after e i o).
Proof. intros Hinv. destruct o; simpl; [apply FastPathAccumulator_inv_add|]; apply Hinv. Qed.
Lemma fast_path_after_votes e i o :
  engine_inv e → rs_prevotes (ce_state e) !! (rs_round (ce_state e), i) = None →
  Forall (λ a, <[(rs_round (ce_state e), i) := o]> (rs_prevotes (ce_state e)) !!
      (rs_round (ce_state e), fa_attester_index a) = Some (Some (fa_block_hash a)))
    (fpa_attestations (fast_path_after e i o)).
Proof.
  intros Hinv Hnone. pose proof (einv_fast_votes _ Hinv) as Hall.
  assert (Hold : Forall (λ a, <[(rs_round (ce_state e), i) := o]> (rs_prevotes (ce_state e)) !!
      (rs_round (ce_state e), fa_attester_index a) = Some (Some (fa_block_hash a)))
    (fpa_attestations (ce_fast_path e))).
  { eapply Forall_impl; [exact Hall|]. intros a Ha. simpl in *.
    rewrite lookup_insert_ne; [done|]. congruence. }
  destruct o as [h|]; [|exact Hold]. simpl. unfold FastPathAccumulator_add_attestation.
  assert (Hnew : Forall (λ a, <[(rs_round (ce_state e), i) := Some h]> (rs_prevotes (ce_state e)) !!
      (rs_round (ce_state e), fa_attester_index a) = Some (Some (fa_block_hash a)))
    [prevote_attestation (ce_state e) i h]).
  { constructor; [|constructor]. simpl. by rewrite lookup_insert_eq. }
  repeat case_match; simpl; try done; try (apply Forall_app; by split).
  apply Forall_replace; [|done]. by apply Forall_cons in Hnew as [? _].
Qed.

Lemma fast_path_after_config e i o :
  fpa_config (fast_path_after e i o) = fpa_config (ce_fast_path e).
Proof. destruct o; simpl; [apply add_attestation_config|done]. Qed.

Lemma engine_step_inv e i : engine_inv e → engine_inv (engine_step e i).1.
Proof.
  intros Hinv. pose proof Hinv as [Hwf Hrd Hf Hfv Hpr Hl Hlh].
  destruct (engine_step_spec e i); simpl in *; [done|split; simpl; try done..].
  - sat_lia.
  - apply FastPathAccumulator_inv_reset.
  - intros r j Hj%Hpr. sat_lia.
  - intros r (? & Hr)%Hl. split; [sat_lia|done].
  - by apply (fast_path_after_inv e i (Some h)).
  - by apply (fast_path_after_votes e i (Some h)).
  - intros r j. rewrite lookup_insert_is_Some'. intros [?|?%Hpr]; [naive_solver lia|done].
  - intros r (? & q & Hq & Hquo)%Hl. split; [done|]. exists q. split; [done|].
    eapply is_quorum_mono; [done| |exact Hquo]. by apply voters_for_mono, insert_subseteq.
  - by apply fast_path_after_inv.
  - by apply fast_path_after_votes.
  - intros r j. rewrite lookup_insert_is_Some'. intros [?|?%Hpr]; [naive_solver lia|done].
  - intros r (? & q & Hq & Hquo)%Hl. split; [done|]. exists q. split; [done|].
    eapply is_quorum_mono; [done| |exact Hquo]. by apply voters_for_mono, insert_subseteq.
  - by apply fast_path_after_inv.
  - by apply fast_path_after_votes.
  - intros r j. unfold prevotes. rewrite lookup_insert_is_Some'. intros [?|?%Hpr]; [naive_solver lia|done].
  - intros r Hr; simplify_eq. split; [done|]. exists q. split; [done|].
    by apply (quorum_hash_some _ Hwf).
Qed.

(** What a step never does: change the validator set or the height, go back a
    round, or overwrite a recorded vote. *)
Lemma engine_step_mono e i :
  is_u32 (rs_round (ce_state e)) →
  ce_validator_set (engine_step e i).1 = ce_validator_set e ∧
  rs_height (ce_state (engine_step e i).1) = rs_height (ce_state e) ∧
  rs_round (ce_state e) ≤ rs_round (ce_state (engine_step e i).1) ∧
  rs_prevotes (ce_state e) ⊆ rs_prevotes (ce_state (engine_step e i).1) ∧
  rs_precommits (ce_state e) ⊆ rs_precommits (ce_state (engine_step e i).1) ∧
  fpa_config (ce_fast_path (engine_step e i).1) = fpa_config (ce_fast_path e) .
Proof.
  intros Hr. destruct (engine_step_spec e i); simpl in *; split_and!; try done;
    try (by apply insert_subseteq); try apply add_attestation_config;
    try apply fast_path_after_config. sat_lia.
Qed.

(** ** One finalization per height *)

Definition is_finalized (ev : ConsensusEvent) : bool :=
  match ev with BlockFinalized _ _ _ => true | _ => false end.

Lemma committed_step e i :
  rs_step (ce_state e) = StepCommitted → engine_step e i = (e, []).
Proof.
  intros Hc. destruct i as [msg|]; simpl.
  - unfold ConsensusEngine_on_message. by rewrite bool_decide_true.
  - unfold ConsensusEngine_on_timeout. by rewrite bool_decide_true.
Qed.
Lemma committed_run e ins :
  rs_step (ce_state e) = StepCommitted → engine_run e ins = (e, []).
Proof.
  intros Hc. induction ins as [|i ins IH]; [done|]. simpl. by rewrite committed_step, IH.
Qed.
Lemma finalized_step_committed e i :
  Exists is_finalized (engine_step e i).2 →
  rs_step (ce_state (engine_step e i).1) = StepCommitted.
Proof.
  destruct (engine_step_spec e i); simpl; try done;
    repeat match goal with
    | |- Exists _ [] → _ => intros He; by apply Exists_nil in He
    | |- Exists _ (_ :: _) → _ => rewrite Exists_cons; intros [Hx|He]; [done|revert He]
    end.
  match goal with H : _ ∨ _ |- _ => destruct H as [-> | ->] end;
    rewrite ?Exists_cons, ?Exists_nil; naive_solver.
Qed.

Lemma engine_run_cons e i ins :
  engine_run e (i :: ins) =
  ((engine_run (engine_step e i).1 ins).1,
   (engine_step e i).2 ++ (engine_run (engine_step e i).1 ins).2).
Proof. simpl. destruct (engine_step e i) as [e' evs]. simpl. by destruct (engine_run e' ins). Qed.
Lemma engine_run_app e ins1 ins2 :
  engine_run e (ins1 ++ ins2) =
  ((engine_run (engine_run e ins1).1 ins2).1,
   (engine_run e ins1).2 ++ (engine_run (engine_run e ins1).1 ins2).2).
Proof.
  revert e. induction ins1 as [|i ins1 IH]; intros e.
  - simpl. by destruct (engine_run e ins2).
  - rewrite <- app_comm_cons, !engine_run_cons, IH. simpl. by rewrite app_assoc.
Qed.

Lemma engine_run_inv e ins : engine_inv e → engine_inv (engine_run e ins).1.
Proof.
  revert e. induction ins as [|i ins IH]; intros e He; [done|].
  rewrite engine_run_cons. simpl. by apply IH, engine_step_inv.
Qed.

(** C7: Whatever messages arrive and however often the timer fires, an engine
    finalizes at most one block per height: a run from any state emits at most
    one [BlockFinalized], and after it the engine is inert. *)
Theorem finalizes_at_most_once (e : ConsensusEngine) (ins : list EngineInput) :
  (length (filter (λ ev, is_finalized ev) (engine_run e ins).2) ≤ 1)%nat ∧
  (Exists is_finalized (engine_run e ins).2 →
   ∀ more, engine_run (engine_run e ins).1 more = ((engine_run e ins).1, [])).
Proof.
  revert e. induction ins as [|i ins IH]; intros e.
  { simpl. split; [lia|]. by intros He%Exists_nil. }
  rewrite engine_run_cons. simpl. destruct (IH (engine_step e i).1) as [IHlen IHrun].
  rewrite filter_app, length_app, Exists_app.
  destruct (decide (Exists is_finalized (engine_step e i).2)) as [Hfin|Hno].
  - pose proof (finalized_step_committed e i Hfin) as Hc. rewrite committed_run by done. simpl.
    split; [|intros _ more; by apply committed_run].
    clear -Hfin. destruct (engine_step_spec e i); simpl; try lia;
      repeat case_decide; simpl; try lia.
    match goal with H : _ ∨ _ |- _ => destruct H as [-> | ->] end; simpl; lia.
  - assert (filter (λ ev, is_finalized ev) (engine_step e i).2 = []) as ->.
    { apply filter_nil_Forall. by apply not_Exists_Forall in Hno; [|apply _]. }
    split; [done|]. intros [?|?]; [done|]. by apply IHrun.
Qed.

(** ** What the emitted events certify *)

(** The fast-path half of a certificate: at least [optimistic_threshold] distinct
    recorded prevoters of the round, counted without their weights. *)
Definition fast_certificate (e : ConsensusEngine) (round : Z) (h : hash) : Prop :=
  ∃ X : gset Z, X ⊆ voters_for (rs_prevotes (ce_state e)) round h ∧
    0 < fpc_optimistic_threshold (fpa_config (ce_fast_path e)) ≤ Z.of_nat (size X).
Definition slow_certificate (e : ConsensusEngine) (round : Z) (h : hash) : Prop :=
  is_quorum (ce_validator_set e) (voters_for (rs_precommits (ce_state e)) round h).

Lemma elem_of_list2 {A} (x y z : A) : x ∈ [y; z] → x = y ∨ x = z.
Proof. set_solver. Qed.

(** Case analysis on a step of the engine and on which of its events is meant. *)
Ltac engine_cases e i Hev :=
  destruct (engine_step_spec e i); simpl in *;
  repeat match goal with H : _ ∨ _ |- _ => destruct H as [-> | ->] end;
  try (by apply elem_of_nil in Hev);
  (apply list_elem_of_singleton in Hev || apply elem_of_list2 in Hev as [Hev|Hev]);
  simplify_eq/=.

Lemma fast_step_certificate e i h proof :
  engine_inv e → rs_prevotes (ce_state e) !! (rs_round (ce_state e), i) = None →
  (FastPathAccumulator_add_attestation (ce_fast_path e)
     (prevote_attestation (ce_state e) i h)).2 = Some (FastFinalized proof) →
  ∃ X : gset Z,
    X ⊆ voters_for (<[(rs_round (ce_state e), i) := Some h]> (rs_prevotes (ce_state e)))
          (rs_round (ce_state e)) h ∧
    0 < fpc_optimistic_threshold (fpa_config (ce_fast_path e)) ≤ Z.of_nat (size X).
Proof.
  intros Hinv Hnone Hfast.
  pose proof (fast_finalized_state _ _ _ (einv_fast _ Hinv) Hfast) as (Hinv' & Hc & Hr & Hlen & _).
  pose proof (fast_path_after_votes e i (Some h) Hinv Hnone) as Hvotes. simpl in Hvotes.
  set (acc := (FastPathAccumulator_add_attestation _ _).1) in *.
  exists (list_to_set (attesters (fpa_attestations acc))). split.
  - intros j Hj. apply elem_of_list_to_set, list_elem_of_fmap in Hj as (a & -> & Ha).
    rewrite Forall_forall in Hvotes. apply elem_of_voters_for. rewrite (Hvotes _ Ha).
    pose proof (fpa_inv_hash _ Hinv' Hc) as Hh. rewrite Forall_forall in Hh.
    specialize (Hh _ Ha). simpl in Hh. rewrite Hr in Hh. by simplify_eq/=.
  - rewrite size_list_to_set by (by apply Hinv'). rewrite length_fmap. unfold len in Hlen. lia.
Qed.

Lemma finalized_step_certificate e i h q r :
  engine_inv e → BlockFinalized h q r ∈ (engine_step e i).2 →
  h = rs_height (ce_state e) ∧ r = rs_round (ce_state e) ∧
  rs_step (ce_state (engine_step e i).1) = StepCommitted ∧
  (slow_certificate (engine_step e i).1 r q ∨ fast_certificate (engine_step e i).1 r q).
Proof.
  intros Hinv Hev. unfold slow_certificate, fast_certificate. engine_cases e i Hev.
  - split_and!; [done..|]. right. rewrite add_attestation_config.
    eapply fast_step_certificate; done.
  - split_and!; [done..|]. left. by apply (quorum_hash_some _ (einv_wf _ Hinv)).
Qed.

(** A precommit is asked for only with a prevote quorum of the round behind it,
    and the block is then the locked one. *)
Lemma send_precommit_step e i h r o :
  engine_inv e → SendPrecommit h r o ∈ (engine_step e i).2 →
  h = rs_height (ce_state e) ∧ r = rs_round (ce_state e) ∧
  r = rs_round (ce_state (engine_step e i).1) ∧
  ∃ q, o = Some q ∧ rs_locked_round (ce_state (engine_step e i).1) = Some r ∧
    rs_locked_hash (ce_state (engine_step e i).1) = Some q ∧
    is_quorum (ce_validator_set e) (voters_for (rs_prevotes (ce_state (engine_step e i).1)) r q).
Proof.
  intros Hinv Hev. engine_cases e i Hev. split_and!; try done. eexists. split_and!; try done.
  by apply (quorum_hash_some _ (einv_wf _ Hinv)).
Qed.
(** A prevote asked for is for the locked block if there is one. *)
Lemma send_prevote_step e i h r o :
  SendPrevote h r o ∈ (engine_step e i).2 →
  h = rs_height (ce_state e) ∧ r = rs_round (ce_state e) ∧
  rs_round (ce_state (engine_step e i).1) = r ∧
  rs_locked_hash (ce_state (engine_step e i).1) = rs_locked_hash (ce_state e) ∧
  rs_locked_round (ce_state (engine_step e i).1) = rs_locked_round (ce_state e) ∧
  (∃ b p, i = InMessage (Proposal h r b p) ∧ o = Some (default b (rs_locked_hash (ce_state e)))).
Proof. intros Hev. engine_cases e i Hev. split_and!; eauto. Qed.

(** The lock changes only by taking a prevote quorum of the current round. *)
Lemma lock_step e i :
  engine_inv e →
  let st' := ce_state (engine_step e i).1 in
  (rs_locked_round st' = rs_locked_round (ce_state e) ∧
   rs_locked_hash st' = rs_locked_hash (ce_state e)) ∨
  (∃ q, rs_locked_round st' = Some (rs_round st') ∧ rs_locked_hash st' = Some q ∧
     rs_round st' = rs_round (ce_state e) ∧
     is_quorum (ce_validator_set e) (voters_for (rs_prevotes st') (rs_round st') q)).
Proof.
  intros Hinv. destruct (engine_step_spec e i); simpl in *; [by left..| |by left|by left].
  right. eexists. split_and!; [done..|]. by apply (quorum_hash_some _ (einv_wf _ Hinv)).
Qed.

(** A recorded vote was recorded before or arrived with the step. *)
Lemma step_prevotes e i r u o :
  rs_prevotes (ce_state (engine_step e i).1) !! (r, u) = Some o →
  rs_prevotes (ce_state e) !! (r, u) = Some o ∨
  i = InMessage (Prevote (rs_height (ce_state e)) r o u).
Proof.
  intros Hv. destruct (engine_step_spec e i); simpl in *; try (by left);
    (apply lookup_insert_Some in Hv as [[[= <- <-] <-]|[_ ?]]; [by right|by left]).
Qed.
Lemma step_precommits e i r u o :
  rs_precommits (ce_state (engine_step e i).1) !! (r, u) = Some o →
  rs_precommits (ce_state e) !! (r, u) = Some o ∨
  i = InMessage (Precommit (rs_height (ce_state e)) r o u).
Proof.
  intros Hv. destruct (engine_step_spec e i); simpl in *; try (by left);
    (apply lookup_insert_Some in Hv as [[[= <- <-] <-]|[_ ?]]; [by right|by left]).
Qed.

(** Every run keeps the set, the height, the configuration and the votes. *)
Lemma engine_run_mono e ins :
  engine_inv e →
  ce_validator_set (engine_run e ins).1 = ce_validator_set e ∧
  rs_height (ce_state (engine_run e ins).1) = rs_height (ce_state e) ∧
  rs_round (ce_state e) ≤ rs_round (ce_state (engine_run e ins).1) ∧
  rs_prevotes (ce_state e) ⊆ rs_prevotes (ce_state (engine_run e ins).1) ∧
  rs_precommits (ce_state e) ⊆ rs_precommits (ce_state (engine_run e ins).1) ∧
  fpa_config (ce_fast_path (engine_run e ins).1) = fpa_config (ce_fast_path e).
Proof.
  revert e. induction ins as [|i ins IH]; intros e Hinv; [done|].
  rewrite engine_run_cons. simpl.
  pose proof (engine_step_mono e i (einv_round _ Hinv)) as (?&?&?&?&?&?).
  destruct (IH (engine_step e i).1) as (?&?&?&?&?&?); [by apply engine_step_inv|].
  split_and!; try congruence; [lia|by etrans..].
Qed.

(** C8: A finalized block has a certificate: whatever the engine receives after
    [start_height], a [BlockFinalized] it emits is for its height, and its state
    then records either precommits of [quorum_weight] for that block in that
    round or, on the fast path, at least [optimistic_threshold] distinct
    prevoters of the block in that round. *)
Theorem finalized_block_certificate (e : ConsensusEngine) (height : Z) (ins : list EngineInput)
    (h r : Z) (q : hash) :
  ValidatorSet_wf (ce_validator_set e) →
  let start := (ConsensusEngine_start_height height e).1 in
  BlockFinalized h q r ∈ (engine_run start ins).2 →
  h = height ∧ r ≤ rs_round (ce_state (engine_run start ins).1) ∧
  (slow_certificate (engine_run start ins).1 r q ∨ fast_certificate (engine_run start ins).1 r q).
Proof.
  intros Hwf start. assert (Hinv : engine_inv start) by (by apply engine_inv_start).
  assert (Hh : rs_height (ce_state start) = height) by done.
  clearbody start. revert start Hinv Hh. induction ins as [|i ins IH]; intros s Hinv Hh.
  { simpl. by intros ?%elem_of_nil. }
  rewrite engine_run_cons. simpl. rewrite elem_of_app. intros [Hev|Hev].
  - destruct (finalized_step_certificate _ _ _ _ _ Hinv Hev) as (-> & -> & Hc & Hcert).
    rewrite committed_run by done. simpl. split_and!; [done| |done].
    apply (engine_step_mono s i (einv_round _ Hinv)).
  - apply IH; [by apply engine_step_inv| |done].
    pose proof (engine_step_mono s i (einv_round _ Hinv)). naive_solver congruence.
Qed.

(** ** One quorum per round, and progress *)

(** One recorded vote per voter: the voter sets of two hashes are disjoint, so
    with BFT weights at most one hash of a round has a quorum. *)
Lemma quorum_unique (vs : ValidatorSet) (v : votes) (round : Z) (h1 h2 : hash) :
  ValidatorSet_wf vs → bft_weight vs →
  is_quorum vs (voters_for v round h1) → is_quorum vs (voters_for v round h2) → h1 = h2.
Proof.
  intros Hwf Hb H1 H2.
  destruct (quorum_common_honest vs Hwf _ _ ∅ Hb H1 H2) as (i & Hi1 & Hi2 & _ & _).
  - rewrite set_weight_empty. by apply fault_budget_nonneg.
  - rewrite elem_of_voters_for in Hi1, Hi2. congruence.
Qed.

Lemma voters_for_insert (v : votes) round i h :
  v !! (round, i) = None →
  voters_for (<[(round, i) := Some h]> v) round h = {[i]} ∪ voters_for v round h.
Proof.
  intros Hnone. apply set_eq. intros j.
  rewrite elem_of_union, elem_of_singleton, !elem_of_voters_for, lookup_insert_Some.
  split; [naive_solver|]. intros [->|Hj]; [by left|]. right. split; [|done].
  intros [= ->]. congruence.
Qed.
Lemma voters_for_insert_ne (v : votes) round i h q :
  v !! (round, i) = None → q ≠ h →
  voters_for (<[(round, i) := Some h]> v) round q = voters_for v round q.
Proof.
  intros Hnone Hne. apply set_eq. intros j. rewrite !elem_of_voters_for, lookup_insert_Some.
  split; [naive_solver|]. intros Hj. right. split; [|done]. intros [= ->]. congruence.
Qed.

(** No hash has a precommit quorum in the round. *)
Definition no_commit_quorum (e : ConsensusEngine) : Prop :=
  ∀ q, ¬ is_quorum (ce_validator_set e)
           (voters_for (rs_precommits (ce_state e)) (rs_round (ce_state e)) q).

(** A fresh precommit of the current round finalizes exactly when it completes a quorum. *)
Lemma precommit_step e h i :
  engine_inv e → rs_step (ce_state e) ≠ StepCommitted → no_commit_quorum e →
  let st := ce_state e in
  rs_precommits st !! (rs_round st, i) = None →
  let e1 := MkEngine (ce_validator_set e)
    (with_precommits (<[(rs_round st, i) := Some h]> (rs_precommits st)) st) (ce_fast_path e) in
  let '(e', evs) := engine_step e (InMessage (Precommit (rs_height st) (rs_round st) (Some h) i)) in
  (rs_step (ce_state e') = StepCommitted ∧ evs = [BlockFinalized (rs_height st) h (rs_round st)]) ∨
  (e' = e1 ∧ evs = [] ∧ no_commit_quorum e1).
Proof.
  intros Hinv Hstep Hno st Hnone. simpl. unfold ConsensusEngine_on_message.
  rewrite bool_decide_false by done. unfold ConsensusEngine_on_precommit, RoundState_insert_precommit.
  rewrite !bool_decide_false by naive_solver. simpl. subst st. rewrite Hnone. simpl.
  unfold RoundState_tally_precommits. simpl.
  destruct (RoundState_quorum_hash _ _) as [q|] eqn:Hq.
  - left. apply (quorum_hash_some _ (einv_wf _ Hinv)) in Hq.
    destruct (decide (q = h)) as [->|Hne]; [done|].
    rewrite voters_for_insert_ne in Hq by done. by apply Hno in Hq.
  - right. split_and!; [done..|]. intros q Hquo.
    apply (quorum_hash_exists _ (einv_wf _ Hinv)) in Hquo as [q' Hq']. simpl in Hq'. congruence.
Qed.

Definition precommits_from (e : ConsensusEngine) (h : hash) (voters : list Z) : list EngineInput :=
  (λ i, InMessage (Precommit (rs_height (ce_state e)) (rs_round (ce_state e)) (Some h) i)) <$> voters.

(** C9: Progress: precommits for one block from distinct validators whose weight,
    with those already recorded, is a quorum make the engine finalize exactly that
    block, whatever the order in which they arrive and whatever other votes it
    has recorded, provided no block had a quorum before. *)
Theorem precommit_quorum_finalizes (voters : list Z) (e : ConsensusEngine) (h : hash) :
  engine_inv e → rs_step (ce_state e) ≠ StepCommitted → no_commit_quorum e → NoDup voters →
  Forall (λ i, rs_precommits (ce_state e) !! (rs_round (ce_state e), i) = None) voters →
  is_quorum (ce_validator_set e)
    (voters_for (rs_precommits (ce_state e)) (rs_round (ce_state e)) h ∪ list_to_set voters) →
  (engine_run e (precommits_from e h voters)).2 =
    [BlockFinalized (rs_height (ce_state e)) h (rs_round (ce_state e))].
Proof.
  revert e. induction voters as [|i voters IH]; intros e Hinv Hstep Hno Hnd Hfresh Hquo.
  { simpl in Hquo. rewrite (right_id_L ∅ (∪)) in Hquo. by apply Hno in Hquo. }
  apply NoDup_cons in Hnd as [Hi Hnd]. apply Forall_cons in Hfresh as [Hnone Hfresh].
  pose proof (precommit_step e h i Hinv Hstep Hno Hnone) as Hcase.
  unfold precommits_from. rewrite fmap_cons, engine_run_cons. cbn [snd].
  pose proof (engine_step_inv e
    (InMessage (Precommit (rs_height (ce_state e)) (rs_round (ce_state e)) (Some h) i)) Hinv) as Hinv'.
  destruct (engine_step e _) as [e' evs]. cbn [fst snd] in *.
  destruct Hcase as [(Hc & ->)|(-> & -> & Hno')]; [by rewrite committed_run|]. simpl.
  apply (IH _ Hinv' Hstep Hno' Hnd).
  - rewrite Forall_forall in Hfresh |- *. intros j Hj. simpl.
    rewrite lookup_insert_ne; [by apply Hfresh|]. intros [= ->]. done.
  - simpl. rewrite voters_for_insert by done. simpl in Hquo.
    by rewrite <- (assoc_L (∪)), (comm_L (∪) {[i]}), <- (assoc_L (∪)), (comm_L (∪) _ {[i]}).
Qed.

End engine_handlers.

(** A concrete height: four unit validators, the fast path off. *)
Definition slow_config : FastPathConfig :=
  {| fpc_quorum_threshold := 3; fpc_timeout_ms := 5000; fpc_optimistic_threshold := 0 |}.
Definition example_engine : ConsensusEngine :=
  (ConsensusEngine_start_height 7 (ConsensusEngine_new (unit_validators 4) slow_config)).1.
Lemma example_engine_inv : engine_inv example_engine.
Proof. apply engine_inv_start, unit_validators_wf. Qed.

Lemma finalized_block_certificate_witness :
  let e := example_engine in
  let ins := precommits_from e [5] [2; 0; 3] in
  slow_certificate (engine_run (HO := map_to_list_order) e ins).1 0 [5] ∨
  fast_certificate (engine_run (HO := map_to_list_order) e ins).1 0 [5].
Proof.
  apply (finalized_block_certificate (HO := map_to_list_order)
    (ConsensusEngine_new (unit_validators 4) slow_config) 7
    (precommits_from example_engine [5] [2; 0; 3]) 7 0 [5] (unit_validators_wf 4)).
  vm_compute. left.
Defined.

Lemma precommit_quorum_finalizes_witness :
  (engine_run (HO := map_to_list_order) example_engine
     (precommits_from example_engine [5] [2; 0; 3])).2 = [BlockFinalized 7 [5] 0].
Proof.
  apply (precommit_quorum_finalizes (HO := map_to_list_order) [2; 0; 3] example_engine [5]).
  - apply example_engine_inv.
  - discriminate.
  - intros q Hq. vm_compute in Hq. by apply Hq.
  - by apply (bool_decide_unpack _).
  - repeat constructor.
  - vm_compute. congruence.
Defined.
