(* ===== verification/Agreement.v ===== *)
(** * Agreement of the validators of one height

    The engines of the honest validators of one height, the log of what they
    emitted, and a network that delivers in any order, any number of times or
    never.  A node turns [SendPrevote] and [SendPrecommit] into messages with its
    own index as voter ([eth2077-node/src/bin/devnet.rs], [process_consensus_events]);
    voters without an honest engine are Byzantine: any message in their name can
    be delivered, and any proposal whatsoever.  With the fast path off and at most
    [fault_budget] Byzantine weight two honest engines never finalize different
    blocks; with the fast path on they do, even when everyone is honest. *)
From S2P Require Import Prelude Validators FastPath Consensus.
Local Open Scope Z_scope.

(** The engines of the honest validators and everything they emitted, oldest first. *)
Record Network := {
  nw_engines : gmap Z ConsensusEngine;
  nw_log : list (Z * ConsensusEvent);
}.

(** The message a node broadcasts for an event of its engine. *)
(* eth2077-node/src/bin/devnet.rs:111-138 process_consensus_events *)
Definition message_of (self : Z) (ev : ConsensusEvent) : option ConsensusMessage :=
  match ev with
  | SendPrevote height round block_hash => Some (Prevote height round block_hash self)
  | SendPrecommit height round block_hash => Some (Precommit height round block_hash self)
  | _ => None
  end.

(** What can be delivered: proposals, votes of validators without an honest
    engine, and what was broadcast. *)
Definition deliverable (s : Network) (msg : ConsensusMessage) : bool :=
  match msg with
  | Proposal _ _ _ _ => true
  | Prevote h r o voter =>
      bool_decide (nw_engines s !! voter = None ∨ (voter, SendPrevote h r o) ∈ nw_log s)
  | Precommit h r o voter =>
      bool_decide (nw_engines s !! voter = None ∨ (voter, SendPrecommit h r o) ∈ nw_log s)
  end.

Section network.
Context `{HO : HashOrder}.

(** One step: the engine of [v] takes a deliverable message or its timer fires. *)
Definition net_step_at (s : Network) (v : Z) (i : EngineInput) : option Network :=
  match nw_engines s !! v with
  | None => None
  | Some e =>
      if match i with InMessage msg => deliverable s msg | InTimeout => true end then
        let '(e', evs) := engine_step e i in
        Some {| nw_engines := <[v := e']> (nw_engines s);
                nw_log := nw_log s ++ (pair v <$> evs) |}
      else None
  end.
Fixpoint net_run (s : Network) (steps : list (Z * EngineInput)) : option Network :=
  match steps with
  | [] => Some s
  | (v, i) :: steps => match net_step_at s v i with
                       | Some s' => net_run s' steps | None => None end
  end.

(** All honest validators start the height with the same set and configuration. *)
Definition net_start (vs : ValidatorSet) (cfg : FastPathConfig) (height : Z) (honest : gset Z)
  : Network := {|
  nw_engines := gset_to_gmap
    (ConsensusEngine_start_height height (ConsensusEngine_new vs cfg)).1 honest;
  nw_log := [];
|}.

(** ** The invariant *)

Section safety.
Context (vs : ValidatorSet) (cfg : FastPathConfig) (H : Z) (honest : gset Z).
Hypothesis Hwf : ValidatorSet_wf vs.
Hypothesis Hbft : bft_weight vs.
Hypothesis Hoff : fpc_optimistic_threshold cfg = 0.
Hypothesis Hfault : set_weight (ValidatorSet_weight_of vs)
  (list_to_set (v_index <$> vs_validators vs) ∖ honest) ≤ fault_budget vs.

Lemma common_honest_voter X Y :
  is_quorum vs X → is_quorum vs Y → ∃ u, u ∈ X ∧ u ∈ Y ∧ u ∈ honest.
Proof.
  intros HX HY. destruct (quorum_common_honest vs Hwf X Y _ Hbft HX HY Hfault)
    as (u & ? & ? & Hu & Hpos). exists u. split_and!; [done..|].
  apply weight_of_pos_member in Hpos. destruct (decide (u ∈ honest)); set_solver.
Qed.

(** [A] can no longer get a precommit quorum in round [r]: every quorum holds an
    honest engine that left the round without a precommit for [A]. *)
Definition excluded (s : Network) (r : Z) (A : hash) : Prop :=
  ∀ X, is_quorum vs X → ∃ u e, u ∈ X ∧ nw_engines s !! u = Some e ∧
    r < rs_round (ce_state e) ∧ (u, SendPrecommit H r (Some A)) ∉ nw_log s.
(** [B] is safe in round [r]: everything else is excluded in earlier rounds. *)
Definition safe_at (s : Network) (r : Z) (B : hash) : Prop :=
  ∀ r' A, r' < r → A ≠ B → excluded s r' A.

(** What holds of one engine [e] of validator [u] in a network state. *)
Record node_inv (s : Network) (u : Z) (e : ConsensusEngine) : Prop := {
  ni_engine : engine_inv e;
  ni_set : ce_validator_set e = vs;
  ni_height : rs_height (ce_state e) = H;
  ni_off : fpc_optimistic_threshold (fpa_config (ce_fast_path e)) = 0;
  ni_prevotes r w o : rs_prevotes (ce_state e) !! (r, w) = Some o → w ∈ honest →
    (w, SendPrevote H r o) ∈ nw_log s;
  ni_precommits r w o : rs_precommits (ce_state e) !! (r, w) = Some o → w ∈ honest →
    (w, SendPrecommit H r o) ∈ nw_log s;
  ni_prevote_sent h r o : (u, SendPrevote h r o) ∈ nw_log s → r ≤ rs_round (ce_state e);
  ni_precommit_sent h r o : (u, SendPrecommit h r o) ∈ nw_log s →
    r ≤ rs_round (ce_state e) ∧ ∃ q lr, o = Some q ∧
      is_quorum vs (voters_for (rs_prevotes (ce_state e)) r q) ∧
      rs_locked_round (ce_state e) = Some lr ∧ r ≤ lr ∧
      (lr = r → rs_locked_hash (ce_state e) = Some q);
  ni_lock r q : rs_locked_round (ce_state e) = Some r → rs_locked_hash (ce_state e) = Some q →
    safe_at s r q;
  ni_finalized h r q : (u, BlockFinalized h q r) ∈ nw_log s →
    is_quorum vs (voters_for (rs_precommits (ce_state e)) r q);
}.

Record net_inv (s : Network) : Prop := {
  nv_dom u : is_Some (nw_engines s !! u) ↔ u ∈ honest;
  nv_log u ev : (u, ev) ∈ nw_log s → u ∈ honest;
  nv_node u e : nw_engines s !! u = Some e → node_inv s u e;
  nv_precommit_safe u h r q : (u, SendPrecommit h r (Some q)) ∈ nw_log s → safe_at s r q;
  (** an honest prevote respects the validator's own earlier precommits *)
  nv_prevote_safe u h h' r r' A B :
    (u, SendPrevote h' r' (Some B)) ∈ nw_log s → (u, SendPrecommit h r (Some A)) ∈ nw_log s →
    r < r' → A ≠ B → excluded s r A;
}.

Lemma net_inv_start : net_inv (net_start vs cfg H honest).
Proof.
  split; simpl; try by intros * ?%elem_of_nil.
  - intros u. rewrite lookup_gset_to_gmap. case_guard; naive_solver.
  - intros u e [_ <-]%lookup_gset_to_gmap_Some. split; simpl; try done;
      try (intros *; rewrite lookup_empty; done); try by intros * ?%elem_of_nil.
    + split; simpl; try done; [split; simpl; constructor|].
      intros r i. rewrite lookup_empty. by intros [? ?].
Qed.

(** ** One step *)

Section step.
Context (s : Network) (v : Z) (e : ConsensusEngine) (i : EngineInput).
Context (Hs : net_inv s) (He : nw_engines s !! v = Some e).
Context (Hok : match i with InMessage msg => deliverable s msg | InTimeout => true end = true).
Abbreviation e' := (engine_step e i).1.
Abbreviation s' := ({| nw_engines := <[v := e']> (nw_engines s);
                       nw_log := nw_log s ++ (pair v <$> (engine_step e i).2) |}).

Lemma step_log u ev :
  (u, ev) ∈ nw_log s' ↔ (u, ev) ∈ nw_log s ∨ (u = v ∧ ev ∈ (engine_step e i).2).
Proof. simpl. rewrite elem_of_app, list_elem_of_fmap. naive_solver. Qed.

Lemma step_engine : node_inv s v e ∧ engine_inv e' ∧ ce_validator_set e' = vs ∧
  rs_height (ce_state e') = H ∧ rs_round (ce_state e) ≤ rs_round (ce_state e') ∧
  rs_prevotes (ce_state e) ⊆ rs_prevotes (ce_state e') ∧
  rs_precommits (ce_state e) ⊆ rs_precommits (ce_state e') ∧
  fpa_config (ce_fast_path e') = fpa_config (ce_fast_path e).
Proof.
  pose proof (nv_node _ Hs _ _ He) as Hn. split; [done|].
  pose proof (engine_step_mono e i (einv_round _ (ni_engine _ _ _ Hn))) as (Ev & Eh & Er & Ep & Ec & Ef).
  rewrite (ni_set _ _ _ Hn) in Ev. rewrite (ni_height _ _ _ Hn) in Eh.
  split; [|done]. by apply engine_step_inv, Hn.
Qed.

(** A round once excluded stays excluded. *)
Lemma excluded_step r A : excluded s r A → excluded s' r A.
Proof.
  intros Hex X HX. destruct (Hex X HX) as (u & eu & Hu & Heu & Hr & Hno).
  destruct step_engine as (Hn & _ & _ & _ & Hround & _).
  destruct (decide (u = v)) as [->|Hne].
  - simplify_eq. exists v, e'. rewrite step_log. simpl. rewrite lookup_insert_eq.
    split_and!; [done..|lia|]. intros [?|[_ Hev]]; [done|].
    apply send_precommit_step in Hev as (_ & -> & _); [lia|apply Hn].
  - exists u, eu. rewrite step_log. simpl. rewrite lookup_insert_ne by done. naive_solver.
Qed.
Lemma safe_at_step r B : safe_at s r B → safe_at s' r B.
Proof. intros Hsafe r' A ??. by apply excluded_step, Hsafe. Qed.

(** The votes of honest validators that an engine records were sent. *)
Lemma prevotes_step r w o :
  rs_prevotes (ce_state e') !! (r, w) = Some o → w ∈ honest → (w, SendPrevote H r o) ∈ nw_log s.
Proof.
  pose proof step_engine as (Hn & _).
  intros [Hold|Hi]%step_prevotes Hw; [by apply (ni_prevotes _ _ _ Hn)|].
  subst i. simpl in Hok. apply bool_decide_eq_true in Hok as [Hno|Hsent].
  - apply (nv_dom _ Hs) in Hw as [? ?]. congruence.
  - by rewrite (ni_height _ _ _ Hn) in Hsent.
Qed.
Lemma precommits_step r w o :
  rs_precommits (ce_state e') !! (r, w) = Some o → w ∈ honest →
  (w, SendPrecommit H r o) ∈ nw_log s.
Proof.
  pose proof step_engine as (Hn & _).
  intros [Hold|Hi]%step_precommits Hw; [by apply (ni_precommits _ _ _ Hn)|].
  subst i. simpl in Hok. apply bool_decide_eq_true in Hok as [Hno|Hsent].
  - apply (nv_dom _ Hs) in Hw as [? ?]. congruence.
  - by rewrite (ni_height _ _ _ Hn) in Hsent.
Qed.

(** A prevote quorum that an engine sees makes its block safe in the round. *)
Lemma quorum_safe r q :
  is_quorum vs (voters_for (rs_prevotes (ce_state e')) r q) → safe_at s r q.
Proof.
  intros Hq r' A Hr HA X HX. destruct (common_honest_voter _ _ Hq HX) as (u & Hu & HuX & Hh).
  apply elem_of_voters_for in Hu. pose proof (prevotes_step _ _ _ Hu Hh) as Hsent.
  apply (nv_dom _ Hs) in Hh as [eu Heu]. pose proof (nv_node _ Hs _ _ Heu) as Hnu.
  pose proof (ni_prevote_sent _ _ _ Hnu _ _ _ Hsent) as Hround.
  destruct (decide ((u, SendPrecommit H r' (Some A)) ∈ nw_log s)) as [Hpc|Hno].
  - by apply (nv_prevote_safe _ Hs u H H r' r A q).
  - exists u, eu. split_and!; [done..|lia|done].
Qed.

Lemma lock_safe_step r q :
  rs_locked_round (ce_state e') = Some r → rs_locked_hash (ce_state e') = Some q →
  safe_at s r q.
Proof.
  pose proof step_engine as (Hn & _). intros Hr Hq.
  destruct (lock_step e i (ni_engine _ _ _ Hn)) as [[Hr' Hq']|(q' & Hr' & Hq' & _ & Hquo)].
  - apply (ni_lock _ _ _ Hn); congruence.
  - rewrite (ni_set _ _ _ Hn) in Hquo. apply quorum_safe. congruence.
Qed.

(** The lock after an honest precommit is for its block, or of a later round. *)
Lemma precommit_sent_step h r o :
  (v, SendPrecommit h r o) ∈ nw_log s' →
  r ≤ rs_round (ce_state e') ∧ ∃ q lr, o = Some q ∧
    is_quorum vs (voters_for (rs_prevotes (ce_state e')) r q) ∧
    rs_locked_round (ce_state e') = Some lr ∧ r ≤ lr ∧
    (lr = r → rs_locked_hash (ce_state e') = Some q).
Proof.
  pose proof step_engine as (Hn & Hinv' & Hvs & _ & Hround & Hpv & _).
  rewrite step_log. intros [Hold|[_ Hev]].
  - destruct (ni_precommit_sent _ _ _ Hn _ _ _ Hold) as (Hr & q & lr & -> & Hquo & Hlr & Hle & Hlh).
    assert (Hquo' : is_quorum vs (voters_for (rs_prevotes (ce_state e')) r q)).
    { eapply is_quorum_mono; [done| |exact Hquo]. by apply voters_for_mono. }
    split; [lia|]. destruct (lock_step e i (ni_engine _ _ _ Hn)) as [[Hr' Hq']|(q' & Hr' & Hq' & Hsame & Hquo2)].
    + exists q, lr. rewrite Hr', Hq'. done.
    + exists q, (rs_round (ce_state e')). split_and!; [done..|lia|].
      intros Heq. rewrite Hq'. f_equal. rewrite (ni_set _ _ _ Hn), Heq in Hquo2.
      by eapply (quorum_unique vs).
  - apply send_precommit_step in Hev as (_ & -> & Hsame & q & -> & Hlr & Hlh & Hquo); [|apply Hn].
    rewrite (ni_set _ _ _ Hn) in Hquo. split; [lia|]. exists q, (rs_round (ce_state e)). done.
Qed.

Lemma prevote_sent_step h r o :
  (v, SendPrevote h r o) ∈ nw_log s' → r ≤ rs_round (ce_state e').
Proof.
  pose proof step_engine as (Hn & _ & _ & _ & Hround & _).
  rewrite step_log. intros [Hold%(ni_prevote_sent _ _ _ Hn)|[_ Hev]]; [lia|].
  apply send_prevote_step in Hev as (_ & -> & _). lia.
Qed.

(** With the fast path off a finalized block has a precommit quorum. *)
Lemma finalized_step h r q :
  (v, BlockFinalized h q r) ∈ nw_log s' →
  is_quorum vs (voters_for (rs_precommits (ce_state e')) r q).
Proof.
  pose proof step_engine as (Hn & _ & Hvs & _ & _ & _ & Hpc & Hcfg).
  rewrite step_log. intros [Hold|[_ Hev]].
  - eapply is_quorum_mono; [done| |by apply (ni_finalized _ _ _ Hn _ _ _ Hold)].
    by apply voters_for_mono.
  - apply finalized_step_certificate in Hev as (_ & _ & _ & [Hslow|Hfast]); [| |apply Hn].
    + unfold slow_certificate in Hslow. by rewrite Hvs in Hslow.
    + destruct Hfast as (X & _ & Hpos). rewrite Hcfg, (ni_off _ _ _ Hn) in Hpos. lia.
Qed.

Lemma node_inv_self : node_inv s' v e'.
Proof.
  pose proof step_engine as (Hn & Hinv' & Hvs & Hh & Hround & Hpv & Hpc & Hcfg).
  split; [done..| | | | | | |].
  - by rewrite Hcfg, (ni_off _ _ _ Hn).
  - intros r w o Hv Hw. apply step_log. left. by apply (prevotes_step r w o).
  - intros r w o Hv Hw. apply step_log. left. by apply (precommits_step r w o).
  - apply prevote_sent_step.
  - apply precommit_sent_step.
  - intros r q Hr Hq. apply safe_at_step. by apply lock_safe_step.
  - apply finalized_step.
Qed.
Lemma node_inv_other u eu : u ≠ v → nw_engines s !! u = Some eu → node_inv s' u eu.
Proof.
  intros Hne Heu. pose proof (nv_node _ Hs _ _ Heu) as Hn. destruct Hn.
  split; [done..| | | | | | |].
  - done.
  - intros r w o Hv Hw. apply step_log. left. eauto.
  - intros r w o Hv Hw. apply step_log. left. eauto.
  - intros h r o [?|[? _]]%step_log; eauto; done.
  - intros h r o [?|[? _]]%step_log; eauto; done.
  - intros r q Hr Hq. apply safe_at_step. eauto.
  - intros h r q [?|[? _]]%step_log; eauto; done.
Qed.

(** A prevote for another block than an earlier precommit's is cast only once
    that block is excluded. *)
Lemma prevote_safe_step u h h' r r' A B :
  (u, SendPrevote h' r' (Some B)) ∈ nw_log s' → (u, SendPrecommit h r (Some A)) ∈ nw_log s' →
  r < r' → A ≠ B → excluded s r A.
Proof.
  pose proof step_engine as (Hn & _). rewrite !step_log.
  intros [Hpv|[-> Hpv]] [Hpc|[Heq Hpc]] Hr HA.
  - by apply (nv_prevote_safe _ Hs u h h' r r' A B).
  - subst u. apply send_precommit_step in Hpc as (_ & -> & _); [|apply Hn].
    apply (ni_prevote_sent _ _ _ Hn) in Hpv. lia.
  - apply send_prevote_step in Hpv as (_ & -> & _ & _ & _ & (b & p & _ & Hdef)).
    destruct (ni_precommit_sent _ _ _ Hn _ _ _ Hpc) as (_ & q & lr & [= <-] & _ & Hlr & Hle & Hlh).
    destruct (einv_lock _ (ni_engine _ _ _ Hn) _ Hlr) as (_ & lh & Hlocked & _).
    rewrite Hlocked in Hdef. simplify_eq/=.
    assert (lr ≠ r) by (intros ->; specialize (Hlh eq_refl); congruence).
    apply (ni_lock _ _ _ Hn _ _ Hlr Hlocked); [lia|done].
  - apply send_precommit_step in Hpc as (_ & -> & _); [|apply Hn].
    apply send_prevote_step in Hpv as (_ & -> & _). lia.
Qed.

Lemma net_inv_step : net_inv s'.
Proof.
  pose proof step_engine as (Hn & _). split.
  - intros u. simpl. rewrite <- (nv_dom _ Hs), lookup_insert_is_Some'. naive_solver.
  - intros u ev [?|[-> _]]%step_log; [by eapply nv_log|]. apply (nv_dom _ Hs). by exists e.
  - intros u eu. simpl. rewrite lookup_insert_Some. intros [[<- <-]|[Hne Heu]].
    + apply node_inv_self.
    + by apply node_inv_other.
  - intros u h r q [Hold|[-> Hev]]%step_log; apply safe_at_step.
    + by apply (nv_precommit_safe _ Hs u h).
    + apply send_precommit_step in Hev as (_ & _ & _ & q' & [= <-] & Hlr & Hlh & _); [|apply Hn].
      by apply lock_safe_step.
  - intros u h h' r r' A B Hpv Hpc Hr HA. apply excluded_step.
    by apply (prevote_safe_step u h h' r r' A B).
Qed.
End step.

Lemma net_run_inv steps s s' : net_inv s → net_run s steps = Some s' → net_inv s'.
Proof.
  revert s. induction steps as [|[v i] steps IH]; intros s Hs Hrun; simplify_eq/=; [done|].
  destruct (net_step_at s v i) as [s1|] eqn:Hstep; [|done].
  unfold net_step_at in Hstep. destruct (nw_engines s !! v) as [e|] eqn:He; [|done].
  destruct (match i with InMessage msg => deliverable s msg | InTimeout => true end) eqn:Hok; [|done].
  pose proof (net_inv_step s v e i Hs He Hok) as Hs1.
  destruct (engine_step e i) as [e1 evs]. simplify_eq/=. by eapply IH.
Qed.

(** Two finalized blocks of reachable states are one block. *)
Lemma net_inv_agreement s u1 u2 h1 h2 r1 r2 A B :
  net_inv s → (u1, BlockFinalized h1 A r1) ∈ nw_log s → (u2, BlockFinalized h2 B r2) ∈ nw_log s →
  r1 ≤ r2 → A = B.
Proof.
  intros Hs H1 H2 Hr.
  pose proof (nv_log _ Hs _ _ H1) as [e1 He1]%(nv_dom _ Hs).
  pose proof (nv_log _ Hs _ _ H2) as [e2 He2]%(nv_dom _ Hs).
  pose proof (nv_node _ Hs _ _ He1) as Hn1. pose proof (nv_node _ Hs _ _ He2) as Hn2.
  pose proof (ni_finalized _ _ _ Hn1 _ _ _ H1) as HA.
  pose proof (ni_finalized _ _ _ Hn2 _ _ _ H2) as HB.
  destruct (common_honest_voter _ _ HA HB) as (u & HuA & HuB & Hu).
  apply elem_of_voters_for in HuA, HuB.
  apply (ni_precommits _ _ _ Hn1) in HuA; [|done]. apply (ni_precommits _ _ _ Hn2) in HuB; [|done].
  destruct (decide (A = B)) as [|Hne]; [done|]. exfalso.
  destruct (decide (r1 = r2)) as [->|Hlt].
  - pose proof (proj2 (nv_dom _ Hs u) Hu) as [eu Heu]. pose proof (nv_node _ Hs _ _ Heu) as Hnu.
    destruct (ni_precommit_sent _ _ _ Hnu _ _ _ HuA) as (_ & qa & _ & [= <-] & Hqa & _).
    destruct (ni_precommit_sent _ _ _ Hnu _ _ _ HuB) as (_ & qb & _ & [= <-] & Hqb & _).
    by apply Hne, (quorum_unique vs (rs_prevotes (ce_state eu)) r2).
  - destruct (nv_precommit_safe _ Hs _ _ _ _ HuB r1 A ltac:(lia) Hne _ HA)
      as (w & ew & Hw & Hew & _ & Hno).
    apply elem_of_voters_for in Hw. apply Hno. apply (ni_precommits _ _ _ Hn1); [done|].
    apply (nv_dom _ Hs). by exists ew.
Qed.
End safety.

(** C1: Agreement.  Start the honest validators at one height with the fast path
    off, a total weight of [3f + 1] and validators of weight at most [f]
    Byzantine.  However messages are delayed, lost, repeated and reordered,
    whatever the Byzantine validators say, including proposals in the leader's
    name, and whenever timers fire: all [BlockFinalized] events of honest
    engines name the same block, in whatever rounds they occur. *)
Theorem agreement (vs : ValidatorSet) (cfg : FastPathConfig) (height : Z) (honest : gset Z)
    (steps : list (Z * EngineInput)) (s : Network) (u1 u2 h1 h2 r1 r2 : Z) (A B : hash) :
  ValidatorSet_wf vs → bft_weight vs → fpc_optimistic_threshold cfg = 0 →
  set_weight (ValidatorSet_weight_of vs)
    (list_to_set (v_index <$> vs_validators vs) ∖ honest) ≤ fault_budget vs →
  net_run (net_start vs cfg height honest) steps = Some s →
  (u1, BlockFinalized h1 A r1) ∈ nw_log s → (u2, BlockFinalized h2 B r2) ∈ nw_log s →
  A = B.
Proof.
  intros Hwf Hbft Hoff Hfault Hrun H1 H2.
  pose proof (net_run_inv vs cfg height honest Hwf Hbft Hoff Hfault steps _ _
    (net_inv_start vs cfg height honest Hwf Hoff) Hrun) as Hs.
  destruct (decide (r1 ≤ r2)).
  - by eapply net_inv_agreement.
  - symmetry. eapply net_inv_agreement; [done..|lia].
Qed.

End network.

(** ** Concrete heights *)

#[local] Existing Instance map_to_list_order.

Definition to_each (msgs : list ConsensusMessage) (nodes : list Z) : list (Z * EngineInput) :=
  v ← nodes; (λ m, (v, InMessage m)) <$> msgs.
(** The proposal of round 0 and the votes of three validators, delivered to two of them. *)
Definition example_steps : list (Z * EngineInput) :=
  to_each [Proposal 7 0 [10] 3] [0; 1; 2] ++
  to_each ((λ i, Prevote 7 0 (Some [10]) i) <$> [0; 1; 2]) [0; 1; 2] ++
  to_each ((λ i, Precommit 7 0 (Some [10]) i) <$> [0; 1; 2]) [0; 1].

(** Whether a run goes through and its log ends up holding the two events. *)
Definition run_logs (s : Network) (steps : list (Z * EngineInput)) (evs : list (Z * ConsensusEvent))
  : bool :=
  match net_run s steps with
  | Some s' => bool_decide (Forall (λ ev, ev ∈ nw_log s') evs)
  | None => false
  end.
Lemma run_logs_two s steps p q :
  run_logs s steps [p; q] = true →
  ∃ s', net_run s steps = Some s' ∧ p ∈ nw_log s' ∧ q ∈ nw_log s'.
Proof.
  unfold run_logs. destruct (net_run s steps) as [s'|]; [|done].
  intros Hall%bool_decide_eq_true. exists s'.
  apply Forall_cons in Hall as [? [? _]%Forall_cons]. done.
Qed.

Lemma agreement_witness :
  run_logs (net_start (unit_validators 4) slow_config 7 {[0; 1; 2]}) example_steps
    [(0, BlockFinalized 7 [10] 0); (1, BlockFinalized 7 [10] 0)] = true ∧
  ([10] = [10] :> list Z).
Proof.
  assert (Hrun : run_logs (net_start (unit_validators 4) slow_config 7 {[0; 1; 2]}) example_steps
    [(0, BlockFinalized 7 [10] 0); (1, BlockFinalized 7 [10] 0)] = true)
    by (vm_compute; reflexivity).
  split; [exact Hrun|]. apply run_logs_two in Hrun as (s & Hrun & H0 & H1).
  apply (agreement (unit_validators 4) slow_config 7 {[0; 1; 2]} example_steps s 0 1 7 7 0 0 [10] [10]).
  - apply unit_validators_wf.
  - split; vm_compute; congruence.
  - reflexivity.
  - vm_compute. congruence.
  - exact Hrun.
  - exact H0.
  - exact H1.
Defined.

(** The strictest fast path: every one of the four validators has to attest. *)
Definition unanimous_config : FastPathConfig :=
  {| fpc_quorum_threshold := 4; fpc_timeout_ms := 5000; fpc_optimistic_threshold := 4 |}.
(** All four prevote for [10]; validator 0 sees the four votes, the others none
    before their timers fire twice; they then agree on the next leader's block. *)
Definition split_steps : list (Z * EngineInput) :=
  to_each [Proposal 7 0 [10] 3] [0; 1; 2; 3] ++
  to_each ((λ i, Prevote 7 0 (Some [10]) i) <$> [0; 1; 2; 3]) [0] ++
  ((., InTimeout) <$> [1; 2; 3; 1; 2; 3]) ++
  to_each [Proposal 7 2 [20] 1] [1; 2; 3] ++
  to_each ((λ i, Prevote 7 2 (Some [20]) i) <$> [1; 2; 3]) [1; 2; 3] ++
  to_each ((λ i, Precommit 7 2 (Some [20]) i) <$> [1; 2; 3]) [1].

(** The fast path costs agreement: even if it needs every validator's
    attestation and every validator is honest, a delivery schedule exists in
    which two honest engines finalize different blocks at one height, because an
    engine that timed out keeps no trace of its fast-path prevote. *)
Theorem fast_path_breaks_agreement :
  ∃ steps s, net_run (net_start (unit_validators 4) unanimous_config 7 {[0; 1; 2; 3]}) steps = Some s ∧
    (0, BlockFinalized 7 [10] 0) ∈ nw_log s ∧ (1, BlockFinalized 7 [20] 2) ∈ nw_log s.
Proof.
  exists split_steps. apply run_logs_two. vm_compute. reflexivity.
Qed.

(** The fast path counts attesters, not weights: under the devnet's
    configuration, where the node is the only validator, one prevote in the name
    of any index at all, a validator's or not, finalizes any block hash. *)
Theorem fast_path_counts_unknown_voters (self height voter : Z) (h : hash) :
  let vs := ValidatorSet_new [{| v_index := self; v_weight := 1; v_public_key := zero_bytes 32 |}] in
  let cfg := {| fpc_quorum_threshold := 1; fpc_timeout_ms := 5000; fpc_optimistic_threshold := 1 |} in
  let e := (ConsensusEngine_start_height height (ConsensusEngine_new vs cfg)).1 in
  (ConsensusEngine_on_message (Prevote height 0 (Some h) voter) e).2 = [BlockFinalized height h 0].
Proof.
  intros vs cfg e. unfold ConsensusEngine_on_message, ConsensusEngine_on_prevote.
  rewrite !bool_decide_false by (simpl; naive_solver).
  change (ce_fast_path e) with (FastPathAccumulator_new cfg).
  unfold RoundState_insert_prevote. cbn -[FastPathAccumulator_add_attestation FastPathAccumulator_new].
  rewrite lookup_empty. cbn -[FastPathAccumulator_add_attestation FastPathAccumulator_new].
  rewrite add_first_attestation by done. unfold fast_path_verdict, FastPathAccumulator_agreement_count.
  cbn [fpa_round_block_hash fpa_attestations fa_block_hash].
  rewrite filter_cons_True by done. done.
Qed.
