(* ===== verification/Mempool.v ===== *)
(** * The transaction pool and its ingress pipeline ([eth2077-execution/src/ingress.rs])

    The pool is a [BTreeMap] by hash with two derived indices per sender, the
    number of its transactions and the set of their nonces.  The invariant ties
    the indices to the map; every operation preserves it.  The unstable sorts of
    [peek_best] and [evict_lowest_gas] take the class argument [SortUnstable]. *)
From S2P Require Import Prelude.
Local Open Scope Z_scope.

Abbreviation hash := (list Z) (only parsing).
Abbreviation address := (list Z) (only parsing).

(* eth2077-execution/src/ingress.rs:6-15 Transaction *)
Record Transaction := {
  t_hash : hash;
  t_from : address;
  t_to : address;
  t_nonce : Z;
  t_gas_limit : Z;
  t_gas_price : Z;
  t_value : Z;
  t_data : list Z;
}.
#[export] Instance Transaction_eq_dec : EqDecision Transaction.
Proof. solve_decision. Defined.

(* eth2077-execution/src/ingress.rs:18-24 IngressError *)
Inductive IngressError :=
| DuplicateTransaction
| InvalidNonce
| InsufficientGas
| MempoolFull
| ValidationFailed (reason : string).
#[export] Instance IngressError_eq_dec : EqDecision IngressError.
Proof. solve_decision. Defined.

(* eth2077-execution/src/ingress.rs:27-32 MempoolConfig *)
Record MempoolConfig := {
  mc_max_size : Z;
  mc_max_per_account : Z;
  mc_min_gas_price : Z;
  mc_eviction_threshold_percent : Z;
}.

(* eth2077-execution/src/ingress.rs:35-40 Mempool *)
Record Mempool := MkMempool {
  mp_config : MempoolConfig;
  mp_transactions : gmap hash Transaction;
  mp_account_counts : gmap address Z;
  mp_account_nonces : gmap address (gset Z);
}.

(* eth2077-execution/src/ingress.rs:43-50 Mempool::new *)
Definition Mempool_new (config : MempoolConfig) : Mempool := MkMempool config ∅ ∅ ∅.

(* eth2077-execution/src/ingress.rs:97-99 Mempool::len *)
Definition Mempool_len (mp : Mempool) : Z := Z.of_nat (size (mp_transactions mp)).

(* eth2077-execution/src/ingress.rs:105-107 Mempool::is_full *)
Definition Mempool_is_full (mp : Mempool) : bool := mc_max_size (mp_config mp) <=? Mempool_len mp.

(* eth2077-execution/src/ingress.rs:109-113 Mempool::clear *)
Definition Mempool_clear (mp : Mempool) : Mempool := MkMempool (mp_config mp) ∅ ∅ ∅.

(* eth2077-execution/src/ingress.rs:115-145 Mempool::validate_candidate *)
Definition Mempool_validate_candidate (mp : Mempool) (tx : Transaction) : result unit IngressError :=
  if bool_decide (is_Some (mp_transactions mp !! t_hash tx)) then Err DuplicateTransaction else
  if (t_gas_limit tx =? 0) || (t_gas_price tx <? mc_min_gas_price (mp_config mp))
  then Err InsufficientGas else
  if match mp_account_nonces mp !! t_from tx with
     | Some nonces => bool_decide (t_nonce tx ∈ nonces)
     | None => false
     end then Err InvalidNonce else
  if mc_max_per_account (mp_config mp) <=? default 0 (mp_account_counts mp !! t_from tx)
  then Err (ValidationFailed "account mempool limit reached") else
  Ok tt.

(** [usize] arithmetic of the release profile: the product wraps. *)
(* eth2077-execution/src/ingress.rs:147-155 Mempool::suggested_eviction_count *)
Definition Mempool_suggested_eviction_count (mp : Mempool) : Z :=
  let percent := Z.min (mc_eviction_threshold_percent (mp_config mp)) 100 in
  if percent =? 0 then 0 else
  let max_size := Z.max (mc_max_size (mp_config mp)) 1 in
  Z.max (u64_wrapping_mul max_size percent / 100) 1.

(* eth2077-execution/src/ingress.rs:178-196 Mempool::decrement_account_state *)
Definition Mempool_decrement_account_state (mp : Mempool) (tx : Transaction) : Mempool :=
  let counts :=
    match mp_account_counts mp !! t_from tx with
    | Some count =>
        let count := u64_saturating_sub count 1 in
        if count =? 0 then delete (t_from tx) (mp_account_counts mp)
        else <[t_from tx := count]> (mp_account_counts mp)
    | None => mp_account_counts mp
    end in
  let nonces :=
    match mp_account_nonces mp !! t_from tx with
    | Some nonces =>
        let nonces := nonces ∖ {[t_nonce tx]} in
        if bool_decide (nonces = ∅) then delete (t_from tx) (mp_account_nonces mp)
        else <[t_from tx := nonces]> (mp_account_nonces mp)
    | None => mp_account_nonces mp
    end in
  MkMempool (mp_config mp) (mp_transactions mp) counts nonces.

(* eth2077-execution/src/ingress.rs:79-83 Mempool::remove *)
Definition Mempool_remove (mp : Mempool) (tx_hash : hash) : Mempool * option Transaction :=
  match mp_transactions mp !! tx_hash with
  | None => (mp, None)
  | Some tx =>
      (Mempool_decrement_account_state
         (MkMempool (mp_config mp) (delete tx_hash (mp_transactions mp))
            (mp_account_counts mp) (mp_account_nonces mp)) tx, Some tx)
  end.

(** [a.1.cmp(&b.1).then_with(|| b.2.cmp(&a.2))] *)
(* eth2077-execution/src/ingress.rs:167-167 Mempool::evict_lowest_gas *)
Definition eviction_cmp (a b : hash * Z * Z) : comparison :=
  then_with (Z.compare a.1.2 b.1.2) (Z.compare b.2 a.2).

(** The loop of [evict_lowest_gas], with both its breaks. *)
(* eth2077-execution/src/ingress.rs:169-175 Mempool::evict_lowest_gas *)
Fixpoint evict_loop (mp : Mempool) (to_evict : Z) (candidates : list (hash * Z * Z)) : Mempool :=
  match candidates with
  | [] => mp
  | (h, _, _) :: candidates =>
      if negb (Mempool_is_full mp) || (to_evict =? 0) then mp
      else evict_loop (Mempool_remove mp h).1 (to_evict - 1) candidates
  end.

(** Best first: price descending, then nonce, then hash. *)
(* eth2077-execution/src/ingress.rs:87-92 Mempool::peek_best *)
Definition best_cmp (a b : Transaction) : comparison :=
  then_with (Z.compare (t_gas_price b) (t_gas_price a))
    (then_with (Z.compare (t_nonce a) (t_nonce b)) (bytes_cmp (t_hash a) (t_hash b))).

Section sorted.
Context `{SU : SortUnstable}.

(* eth2077-execution/src/ingress.rs:157-176 Mempool::evict_lowest_gas *)
Definition Mempool_evict_lowest_gas (mp : Mempool) (to_evict : Z) : Mempool :=
  if (to_evict =? 0) || bool_decide (mp_transactions mp = ∅) then mp else
  let candidates := (λ tx, (t_hash tx, t_gas_price tx, t_nonce tx)) <$>
    btree_values bytes_cmp (mp_transactions mp) in
  evict_loop mp to_evict (sort_unstable_by eviction_cmp candidates).

(* eth2077-execution/src/ingress.rs:85-95 Mempool::peek_best *)
Definition Mempool_peek_best (mp : Mempool) (count : nat) : list Transaction :=
  take count (sort_unstable_by best_cmp (btree_values bytes_cmp (mp_transactions mp))).

(* eth2077-execution/src/ingress.rs:52-77 Mempool::insert *)
Definition Mempool_insert (mp : Mempool) (tx : Transaction) : Mempool * result unit IngressError :=
  match Mempool_validate_candidate mp tx with
  | Err e => (mp, Err e)
  | Ok _ =>
      let evictions := Mempool_suggested_eviction_count mp in
      if Mempool_is_full mp && (evictions =? 0) then (mp, Err MempoolFull) else
      let mp := if Mempool_is_full mp then Mempool_evict_lowest_gas mp evictions else mp in
      if Mempool_is_full mp then (mp, Err MempoolFull) else
      let count := match mp_account_counts mp !! t_from tx with
                   | Some count => count + 1 | None => 1 end in
      (MkMempool (mp_config mp)
         (<[t_hash tx := tx]> (mp_transactions mp))
         (<[t_from tx := count]> (mp_account_counts mp))
         (<[t_from tx := {[t_nonce tx]} ∪ default ∅ (mp_account_nonces mp !! t_from tx)]>
            (mp_account_nonces mp)), Ok tt)
  end.

(** ** The pipeline in front of the pool *)

(* eth2077-execution/src/ingress.rs:200-202 IngressPipeline *)
Record IngressPipeline := { ip_mempool : Mempool }.

(* eth2077-execution/src/ingress.rs:209-211 IngressPipeline::validate_transaction *)
Definition IngressPipeline_validate_transaction (p : IngressPipeline) (tx : Transaction)
  : result unit IngressError := Mempool_validate_candidate (ip_mempool p) tx.

(* eth2077-execution/src/ingress.rs:213-216 IngressPipeline::submit *)
Definition IngressPipeline_submit (p : IngressPipeline) (tx : Transaction)
  : IngressPipeline * result unit IngressError :=
  match IngressPipeline_validate_transaction p tx with
  | Err e => (p, Err e)
  | Ok _ =>
      let '(mp, r) := Mempool_insert (ip_mempool p) tx in ({| ip_mempool := mp |}, r)
  end.

(** [filter_map(|hash| self.mempool.remove(&hash))], which removes as it goes. *)
(* eth2077-execution/src/ingress.rs:226-229 IngressPipeline::drain_batch *)
Fixpoint remove_all (mp : Mempool) (hashes : list hash) : Mempool * list Transaction :=
  match hashes with
  | [] => (mp, [])
  | h :: hashes =>
      let '(mp, tx) := Mempool_remove mp h in
      let '(mp, txs) := remove_all mp hashes in
      (mp, match tx with Some tx => tx :: txs | None => txs end)
  end.

(* eth2077-execution/src/ingress.rs:218-230 IngressPipeline::drain_batch *)
Definition IngressPipeline_drain_batch (p : IngressPipeline) (max_count : nat)
  : IngressPipeline * list Transaction :=
  let best_hashes := t_hash <$> Mempool_peek_best (ip_mempool p) max_count in
  let '(mp, txs) := remove_all (ip_mempool p) best_hashes in
  ({| ip_mempool := mp |}, txs).

End sorted.

(** ** The invariant *)

Definition sender_txs (txs : gmap hash Transaction) (a : address) : gmap hash Transaction :=
  filter (λ p, t_from p.2 = a) txs.
Definition MempoolConfig_wf (c : MempoolConfig) : Prop :=
  is_u64 (mc_max_size c) ∧ is_u64 (mc_max_per_account c) ∧
  is_u64 (mc_eviction_threshold_percent c).

(** The indices are those of the map: the counts of the senders, no entry for a
    sender without transactions, and their nonces, no two equal. *)
Record Mempool_inv (mp : Mempool) : Prop := {
  mi_config : MempoolConfig_wf (mp_config mp);
  mi_keys : map_Forall (λ h tx, t_hash tx = h) (mp_transactions mp);
  mi_gas : map_Forall (λ _ tx, t_gas_limit tx ≠ 0 ∧
    mc_min_gas_price (mp_config mp) ≤ t_gas_price tx) (mp_transactions mp);
  mi_counts a : default 0 (mp_account_counts mp !! a) =
    Z.of_nat (size (sender_txs (mp_transactions mp) a));
  mi_counts_pos a : mp_account_counts mp !! a ≠ Some 0;
  mi_nonces a n : n ∈ default ∅ (mp_account_nonces mp !! a) ↔
    ∃ h tx, mp_transactions mp !! h = Some tx ∧ t_from tx = a ∧ t_nonce tx = n;
  mi_nonces_nonempty a : mp_account_nonces mp !! a ≠ Some ∅;
  mi_unique h1 h2 tx1 tx2 :
    mp_transactions mp !! h1 = Some tx1 → mp_transactions mp !! h2 = Some tx2 →
    t_from tx1 = t_from tx2 → t_nonce tx1 = t_nonce tx2 → h1 = h2;
  mi_per_account a : Z.of_nat (size (sender_txs (mp_transactions mp) a)) ≤
    mc_max_per_account (mp_config mp);
  mi_size : Mempool_len mp ≤ mc_max_size (mp_config mp);
}.

Lemma Mempool_inv_empty c : MempoolConfig_wf c → Mempool_inv (MkMempool c ∅ ∅ ∅).
Proof.
  intros Hc. pose proof Hc as ([??]&[??]&?).
  assert (He : ∀ a, sender_txs ∅ a = ∅) by (intros a; apply map_filter_empty).
  split; simpl; try done; try apply map_Forall_empty;
    intros *; rewrite ?lookup_empty, ?He, ?map_size_empty; try done.
  - simpl. split; [set_solver|]. intros (h & tx & Hh & _). by rewrite lookup_empty in Hh.
Qed.

(** ** Removal *)

Lemma sender_txs_delete txs h tx a :
  txs !! h = Some tx →
  size (sender_txs (delete h txs) a) =
    (size (sender_txs txs a) - if decide (t_from tx = a) then 1 else 0)%nat.
Proof.
  intros Hh. unfold sender_txs. rewrite map_filter_delete. case_decide as Ha.
  - rewrite map_size_delete_Some; [lia|]. exists tx. by apply map_lookup_filter_Some.
  - rewrite delete_id; [lia|]. apply map_lookup_filter_None. right. naive_solver.
Qed.
Lemma sender_txs_pos txs h tx : txs !! h = Some tx → (1 ≤ size (sender_txs txs (t_from tx)))%nat.
Proof.
  intros Hh. assert (sender_txs txs (t_from tx) !! h = Some tx) as Hf
    by (by apply map_lookup_filter_Some).
  assert (sender_txs txs (t_from tx) ≠ ∅) by (intros He; by rewrite He, lookup_empty in Hf).
  assert (size (sender_txs txs (t_from tx)) ≠ 0%nat) by (by rewrite map_size_non_empty_iff). lia.
Qed.

(** The nonce index after [decrement_account_state] lacks exactly the removed nonce. *)
Lemma elem_of_nonces_decrement mp tx a n :
  n ∈ default ∅ (mp_account_nonces (Mempool_decrement_account_state mp tx) !! a) ↔
  n ∈ default ∅ (mp_account_nonces mp !! a) ∧ (a, n) ≠ (t_from tx, t_nonce tx).
Proof.
  simpl. destruct (mp_account_nonces mp !! t_from tx) as [ns|] eqn:Hns.
  - case_bool_decide as Hemp.
    + rewrite lookup_delete. case_decide as Ha; simpl; [subst a; rewrite Hns; simpl|naive_solver].
      split; [set_solver|]. intros [Hin Hneq]. exfalso.
      assert (n ∈ ns ∖ {[t_nonce tx]}) as H1; [|by rewrite Hemp in H1].
      apply elem_of_difference. split; [done|]. rewrite elem_of_singleton. congruence.
    + rewrite lookup_insert. case_decide as Ha; simpl; [subst a; rewrite Hns; simpl|naive_solver].
      rewrite elem_of_difference, elem_of_singleton. naive_solver.
  - split; [|naive_solver]. intros Hin. split; [done|]. intros [= -> ->].
    rewrite Hns in Hin. by apply elem_of_empty in Hin.
Qed.

Lemma Mempool_remove_spec mp h :
  Mempool_inv mp →
  Mempool_inv (Mempool_remove mp h).1 ∧
  mp_config (Mempool_remove mp h).1 = mp_config mp ∧
  mp_transactions (Mempool_remove mp h).1 = delete h (mp_transactions mp) ∧
  (Mempool_remove mp h).2 = mp_transactions mp !! h.
Proof.
  intros Hinv. unfold Mempool_remove. destruct (mp_transactions mp !! h) as [tx|] eqn:Hh.
  2: { split_and!; [done..|by rewrite delete_id|done]. }
  split_and!; [|done..]. destruct Hinv as [Hcfg Hk Hg Hc Hcp Hn Hne Hu Hpa Hsz].
  assert (Hlen : Z.of_nat (size (delete h (mp_transactions mp))) ≤ mc_max_size (mp_config mp)).
  { rewrite map_size_delete_Some by eauto. unfold Mempool_len in Hsz. lia. }
  split; simpl; [done|by apply map_Forall_delete|by apply map_Forall_delete| | | | | | |done].
  - intros a. rewrite (sender_txs_delete _ _ _ a Hh). specialize (Hc a).
    pose proof (sender_txs_pos _ _ _ Hh). case_decide as Ha; [subst a|].
    + destruct (mp_account_counts mp !! t_from tx) as [c|]; simpl in *; [|lia].
      case_if_goal; bool_to_prop; [rewrite lookup_delete_eq|rewrite lookup_insert_eq]; simpl; sat_lia.
    + destruct (mp_account_counts mp !! t_from tx) as [c|]; simpl in *; [|lia].
      case_if_goal; [rewrite lookup_delete_ne by done|rewrite lookup_insert_ne by done]; lia.
  - intros a. destruct (mp_account_counts mp !! t_from tx) as [c|]; [|done].
    case_if_goal; bool_to_prop.
    + rewrite lookup_delete. case_decide; [done|apply Hcp].
    + rewrite lookup_insert. case_decide; [congruence|apply Hcp].
  - intros a n. etrans; [apply (elem_of_nonces_decrement mp tx a n)|]. rewrite Hn. split.
    + intros [(h' & tx' & Hh' & Hf & Hnn) Hneq]. exists h', tx'. split_and!; [|done..].
      rewrite lookup_delete_ne; [done|]. intros ->. simplify_eq/=.
    + intros (h' & tx' & [Hd Hh']%lookup_delete_Some & Hf & Hnn). split; [eauto|].
      intros [= -> ->]. apply Hd. symmetry. by eapply Hu.
  - intros a. destruct (mp_account_nonces mp !! t_from tx) as [ns|]; [|done].
    case_bool_decide.
    + rewrite lookup_delete. case_decide; [done|apply Hne].
    + rewrite lookup_insert. case_decide; [congruence|apply Hne].
  - intros h1 h2 tx1 tx2 [_ H1]%lookup_delete_Some [_ H2]%lookup_delete_Some. by eapply Hu.
  - intros a. rewrite (sender_txs_delete _ _ _ a Hh). specialize (Hpa a). lia.
Qed.

(** ** Eviction *)

(** [h] is what eviction prefers to drop: no transaction has a lower price, and
    none of its price a higher nonce. *)
Definition evictable (mp : Mempool) (h : hash) : Prop :=
  ∃ tx, mp_transactions mp !! h = Some tx ∧ map_Forall (λ _ tx',
    t_gas_price tx < t_gas_price tx' ∨
    (t_gas_price tx = t_gas_price tx' ∧ t_nonce tx' ≤ t_nonce tx)) (mp_transactions mp).

#[export] Instance eviction_cmp_preorder : PreorderCmp eviction_cmp.
Proof.
  assert (PreorderCmp (λ a b : hash * Z * Z, Z.compare a.1.2 b.1.2)).
  { apply (preorder_on (λ p : hash * Z * Z, p.1.2) Z.compare). }
  assert (PreorderCmp (λ a b : hash * Z * Z, Z.compare b.2 a.2)).
  { pose proof (preorder_on (λ p : hash * Z * Z, p.2) Z.compare).
    by apply (preorder_flip (λ a b : hash * Z * Z, Z.compare a.2 b.2)). }
  unfold eviction_cmp. apply _.
Qed.
Lemma eviction_cmp_le a b :
  eviction_cmp a b ≠ Gt → a.1.2 < b.1.2 ∨ (a.1.2 = b.1.2 ∧ b.2 ≤ a.2).
Proof.
  unfold eviction_cmp, then_with.
  destruct (Z.compare_spec a.1.2 b.1.2); [|lia|done].
  destruct (Z.compare_spec b.2 a.2); try done; lia.
Qed.
Lemma Mempool_is_full_spec mp :
  Mempool_inv mp →
  Mempool_is_full mp = bool_decide (Mempool_len mp = mc_max_size (mp_config mp)).
Proof.
  intros Hinv. pose proof (mi_size _ Hinv). unfold Mempool_is_full.
  destruct (Z.leb_spec (mc_max_size (mp_config mp)) (Mempool_len mp));
    case_bool_decide; try done; lia.
Qed.
Lemma Mempool_remove_not_full mp h tx :
  Mempool_inv mp → mp_transactions mp !! h = Some tx →
  Mempool_is_full (Mempool_remove mp h).1 = false.
Proof.
  intros Hinv Hh. pose proof (Mempool_remove_spec mp h Hinv) as (_ & Hc & Ht & _).
  unfold Mempool_is_full, Mempool_len. rewrite Hc, Ht, map_size_delete_Some by eauto.
  pose proof (mi_size _ Hinv). unfold Mempool_len in *. apply Z.leb_gt.
  assert (size (mp_transactions mp) ≠ 0%nat).
  { rewrite map_size_non_empty_iff. intros He. by rewrite He, lookup_empty in Hh. } lia.
Qed.

Section sorted_lemmas.
Context `{SU : SortUnstable}.

(** A full pool that may evict drops exactly one transaction, whatever the
    number it suggests: after one removal it is not full. *)
Lemma Mempool_evict_spec mp to_evict :
  Mempool_inv mp → Mempool_is_full mp = true → 1 ≤ to_evict → mp_transactions mp ≠ ∅ →
  ∃ h, evictable mp h ∧ Mempool_evict_lowest_gas mp to_evict = (Mempool_remove mp h).1.
Proof.
  intros Hinv Hfull Hev Hne. unfold Mempool_evict_lowest_gas.
  rewrite bool_decide_false by done. rewrite (proj2 (Z.eqb_neq to_evict 0)) by lia. simpl.
  set (key := λ tx, (t_hash tx, t_gas_price tx, t_nonce tx)).
  set (cs := key <$> btree_values bytes_cmp (mp_transactions mp)).
  pose proof (sort_unstable_perm eviction_cmp cs) as Hp.
  pose proof (sort_unstable_sorted eviction_cmp cs) as Hsorted.
  assert (Hin : ∀ c, c ∈ sort_unstable_by eviction_cmp cs ↔
    ∃ h tx, mp_transactions mp !! h = Some tx ∧ c = key tx).
  { intros c. rewrite Hp. unfold cs. rewrite list_elem_of_fmap. setoid_rewrite elem_of_btree_values.
    naive_solver. }
  destruct (sort_unstable_by eviction_cmp cs) as [|[[h p] n] cs'] eqn:Hcs.
  { destruct (map_choose _ Hne) as (h & tx & Hh).
    exfalso. apply (not_elem_of_nil (key tx)), Hin. eauto. }
  destruct (proj1 (Hin (h, p, n)) ltac:(left)) as (h' & tx & Hh & [= -> -> ->]).
  pose proof (mi_keys _ Hinv _ _ Hh) as Hk. simpl in Hk. subst h'.
  exists (t_hash tx). simpl. rewrite Hfull, (proj2 (Z.eqb_neq to_evict 0)) by lia. simpl. split.
  - exists tx. split; [done|]. intros h' tx' Hh'.
    assert (key tx' ∈ key tx :: cs') as Hin' by (apply Hin; eauto).
    apply elem_of_cons in Hin' as [Heq|Hin']; [right; unfold key in Heq; simplify_eq; lia|].
    apply StronglySorted_inv in Hsorted as [_ Hall]. rewrite Forall_forall in Hall.
    by apply (eviction_cmp_le (key tx) (key tx')), Hall.
  - destruct cs' as [|[[? ?] ?] ?]; [done|]. simpl.
    by rewrite (Mempool_remove_not_full _ _ _ Hinv Hh).
Qed.

(** ** Insertion *)

Lemma validate_candidate_ok mp tx :
  Mempool_validate_candidate mp tx = Ok tt ↔
  mp_transactions mp !! t_hash tx = None ∧ t_gas_limit tx ≠ 0 ∧
  mc_min_gas_price (mp_config mp) ≤ t_gas_price tx ∧
  t_nonce tx ∉ default ∅ (mp_account_nonces mp !! t_from tx) ∧
  default 0 (mp_account_counts mp !! t_from tx) < mc_max_per_account (mp_config mp).
Proof.
  unfold Mempool_validate_candidate. case_bool_decide as Hdup.
  { split; [done|]. intros [Hn _]. destruct Hdup as [? Hd]. congruence. }
  apply eq_None_not_Some in Hdup.
  destruct (Z.eqb_spec (t_gas_limit tx) 0) as [|Hgas]; [naive_solver|]. simpl.
  destruct (Z.ltb_spec (t_gas_price tx) (mc_min_gas_price (mp_config mp))).
  { split; [done|]. intros (_ & _ & ? & _). lia. }
  destruct (mp_account_nonces mp !! t_from tx) as [ns|]; simpl; [case_bool_decide; [naive_solver|]|];
    (destruct (Z.leb_spec (mc_max_per_account (mp_config mp))
       (default 0 (mp_account_counts mp !! t_from tx)));
     [split; [done|]; intros (_ & _ & _ & _ & ?); lia|]); split; try done; set_solver.
Qed.

(** The writes at the end of [insert]. *)
Definition admit_tx (mp : Mempool) (tx : Transaction) : Mempool :=
  MkMempool (mp_config mp) (<[t_hash tx := tx]> (mp_transactions mp))
    (<[t_from tx := match mp_account_counts mp !! t_from tx with
                    | Some count => count + 1 | None => 1 end]> (mp_account_counts mp))
    (<[t_from tx := {[t_nonce tx]} ∪ default ∅ (mp_account_nonces mp !! t_from tx)]>
       (mp_account_nonces mp)).

Lemma sender_txs_insert txs tx a :
  txs !! t_hash tx = None →
  size (sender_txs (<[t_hash tx := tx]> txs) a) =
    (size (sender_txs txs a) + if decide (t_from tx = a) then 1 else 0)%nat.
Proof.
  intros Hh. unfold sender_txs. case_decide as Ha.
  - rewrite map_filter_insert_True by done. rewrite map_size_insert_None; [lia|].
    apply map_lookup_filter_None. by left.
  - rewrite map_filter_insert_not' by naive_solver. lia.
Qed.

Lemma admit_tx_inv mp tx :
  Mempool_inv mp → Mempool_validate_candidate mp tx = Ok tt → Mempool_is_full mp = false →
  Mempool_inv (admit_tx mp tx).
Proof.
  intros Hinv (Hh & Hgas & Hprice & Hnonce & Hcount)%validate_candidate_ok Hfull.
  destruct Hinv as [Hcfg Hk Hg Hc Hcp Hn Hne Hu Hpa Hsz].
  assert (Hold : ∀ h tx', mp_transactions mp !! h = Some tx' →
    t_from tx' = t_from tx → t_nonce tx' ≠ t_nonce tx).
  { intros h tx' Hh' Hf Hnn. apply Hnonce, Hn. eauto. }
  split; simpl; [done|by apply map_Forall_insert_2|by apply map_Forall_insert_2| | | | | | |].
  - intros a. rewrite sender_txs_insert by done. rewrite lookup_insert.
    pose proof (Hc a). case_decide as Ha; [subst a; simpl|lia].
    destruct (mp_account_counts mp !! t_from tx); simpl in *; lia.
  - intros a. rewrite lookup_insert. case_decide as Ha; [|apply Hcp].
    pose proof (Hc (t_from tx)). destruct (mp_account_counts mp !! t_from tx); simpl in *; [|done].
    intros [=]. lia.
  - intros a n. rewrite lookup_insert. setoid_rewrite lookup_insert_Some. case_decide as Ha; simpl.
    + subst a. rewrite elem_of_union, elem_of_singleton, Hn. split.
      * intros [->|(h & tx' & ? & ? & ?)]; [by eauto 10|].
        exists h, tx'. split_and!; [right; split; [congruence|done]|done..].
      * intros (h & tx' & [[_ <-]|[_ ?]] & ? & ?); [by left|right; eauto].
    + rewrite Hn. split; [|naive_solver].
      intros (h & tx' & ? & ? & ?). exists h, tx'. split_and!; [right; split; [congruence|done]|done..].
  - intros a. rewrite lookup_insert. case_decide; [|apply Hne]. intros [=]. set_solver.
  - intros h1 h2 tx1 tx2 [[<- <-]|[? H1]]%lookup_insert_Some [[<- <-]|[? H2]]%lookup_insert_Some;
      [done| | |by eapply Hu].
    + intros Hf Hnn. by destruct (Hold _ _ H2).
    + intros Hf Hnn. by destruct (Hold _ _ H1).
  - intros a. rewrite sender_txs_insert by done. pose proof (Hc a). pose proof (Hpa a).
    case_decide; [subst a|]; lia.
  - unfold Mempool_is_full, Mempool_len in *. bool_to_prop. simpl. rewrite map_size_insert_None by done. lia.
Qed.

(** Dropping a transaction never invalidates a candidate. *)
Lemma validate_after_remove mp h tx :
  Mempool_inv mp → Mempool_validate_candidate mp tx = Ok tt →
  Mempool_validate_candidate (Mempool_remove mp h).1 tx = Ok tt.
Proof.
  intros Hinv Hval. pose proof (Mempool_remove_spec mp h Hinv) as (Hinv' & Hc & Ht & _).
  apply validate_candidate_ok in Hval as (Hh & Hgas & Hprice & Hnonce & Hcount).
  apply validate_candidate_ok. rewrite Hc, Ht. split_and!; [|done|done| |].
  - by rewrite lookup_delete_None; right.
  - rewrite (mi_nonces _ Hinv'), Ht. rewrite (mi_nonces _ Hinv) in Hnonce.
    intros (h' & tx' & [_ ?]%lookup_delete_Some & ?). eauto 10.
  - rewrite (mi_counts _ Hinv'), Ht. rewrite (mi_counts _ Hinv) in Hcount.
    destruct (mp_transactions mp !! h) as [tx'|] eqn:Hh'.
    + rewrite (sender_txs_delete _ _ _ _ Hh'). lia.
    + by rewrite delete_id.
Qed.

(** What [submit] does of a candidate, by the state of the pool. *)
Inductive submit_spec (mp : Mempool) (tx : Transaction) : Mempool → result unit IngressError → Prop :=
| submit_invalid e :
    Mempool_validate_candidate mp tx = Err e → submit_spec mp tx mp (Err e)
| submit_full :
    Mempool_validate_candidate mp tx = Ok tt →
    Mempool_len mp = mc_max_size (mp_config mp) →
    mc_eviction_threshold_percent (mp_config mp) = 0 ∨ mc_max_size (mp_config mp) = 0 →
    submit_spec mp tx mp (Err MempoolFull)
| submit_room :
    Mempool_validate_candidate mp tx = Ok tt →
    Mempool_len mp < mc_max_size (mp_config mp) →
    submit_spec mp tx (admit_tx mp tx) (Ok tt)
| submit_evict h :
    Mempool_validate_candidate mp tx = Ok tt →
    Mempool_len mp = mc_max_size (mp_config mp) →
    mc_eviction_threshold_percent (mp_config mp) ≠ 0 →
    evictable mp h →
    submit_spec mp tx (admit_tx (Mempool_remove mp h).1 tx) (Ok tt).

Lemma suggested_eviction_count_range mp :
  Mempool_inv mp →
  if decide (mc_eviction_threshold_percent (mp_config mp) = 0)
  then Mempool_suggested_eviction_count mp = 0 else 1 ≤ Mempool_suggested_eviction_count mp.
Proof.
  intros Hinv. pose proof (mi_config _ Hinv) as (_ & _ & ?). unfold Mempool_suggested_eviction_count.
  case_decide as Hp; [by rewrite Hp|]. rewrite (proj2 (Z.eqb_neq _ 0)) by sat_lia. lia.
Qed.

Lemma submit_cases p tx :
  Mempool_inv (ip_mempool p) →
  submit_spec (ip_mempool p) tx (ip_mempool (IngressPipeline_submit p tx).1)
    (IngressPipeline_submit p tx).2.
Proof.
  destruct p as [mp]. intros Hinv. simpl in *.
  unfold IngressPipeline_submit, IngressPipeline_validate_transaction, Mempool_insert. simpl.
  destruct (Mempool_validate_candidate mp tx) as [[]|e] eqn:Hval; [|by constructor].
  pose proof (Mempool_is_full_spec mp Hinv) as Hfull.
  pose proof (suggested_eviction_count_range mp Hinv) as Hcount.
  case_bool_decide as Hlen; rewrite Hfull; simpl.
  2: { rewrite Hfull. simpl. pose proof (mi_size _ Hinv). constructor; [done|lia]. }
  case_decide as Hpct.
  { rewrite Hcount. simpl. apply submit_full; auto. }
  rewrite (proj2 (Z.eqb_neq _ 0)) by lia.
  destruct (decide (mp_transactions mp = ∅)) as [Hemp|Hne].
  - unfold Mempool_evict_lowest_gas. rewrite (bool_decide_true _ Hemp), orb_true_r, Hfull. simpl.
    apply submit_full; [done..|]. right. rewrite <- Hlen. unfold Mempool_len.
    by rewrite Hemp, map_size_empty.
  - destruct (Mempool_evict_spec mp _ Hinv Hfull Hcount Hne) as (h & Hh & ->).
    pose proof Hh as (tx' & Htx' & _). rewrite (Mempool_remove_not_full _ _ _ Hinv Htx'). simpl.
    by apply submit_evict.
Qed.

Lemma submit_inv p tx :
  Mempool_inv (ip_mempool p) → Mempool_inv (ip_mempool (IngressPipeline_submit p tx).1).
Proof.
  intros Hinv. destruct (submit_cases p tx Hinv) as [| |Hval Hlen|h Hval Hlen _ (tx' & Hh & _)]; [done..| |].
  - apply admit_tx_inv; [done..|]. by apply Z.leb_gt.
  - apply admit_tx_inv.
    + by apply Mempool_remove_spec.
    + by apply validate_after_remove.
    + by eapply Mempool_remove_not_full.
Qed.

(** C17: Submitting is exactly specified: an invalid candidate is refused with the
    first failing check and nothing changes; with room it is added; a full pool
    with eviction enabled drops exactly one transaction, one of lowest price and
    among those of highest nonce, however large the configured percentage, and
    adds the candidate; otherwise the pool is unchanged and full. *)
Theorem submit_functional (p : IngressPipeline) (tx : Transaction) :
  Mempool_inv (ip_mempool p) →
  submit_spec (ip_mempool p) tx (ip_mempool (IngressPipeline_submit p tx).1)
    (IngressPipeline_submit p tx).2 ∧
  ((IngressPipeline_submit p tx).2 = Ok tt ↔
   Mempool_validate_candidate (ip_mempool p) tx = Ok tt ∧
   (Mempool_len (ip_mempool p) < mc_max_size (mp_config (ip_mempool p)) ∨
    mc_eviction_threshold_percent (mp_config (ip_mempool p)) ≠ 0 ∧
    mc_max_size (mp_config (ip_mempool p)) ≠ 0)).
Proof.
  intros Hinv. pose proof (submit_cases p tx Hinv) as Hspec. split; [done|].
  destruct Hspec as [e Hval|Hval Hlen Hno|Hval Hlen|h Hval Hlen Hpct (tx' & Hh & _)].
  - rewrite Hval. naive_solver.
  - split; [done|]. intros [_ [?|[??]]]; [lia|naive_solver].
  - naive_solver.
  - split; [|done]. intros _. split; [done|]. right. split; [done|]. rewrite <- Hlen.
    unfold Mempool_len. assert (size (mp_transactions (ip_mempool p)) ≠ 0%nat); [|lia].
    rewrite map_size_non_empty_iff. intros He. by rewrite He, lookup_empty in Hh.
Qed.

End sorted_lemmas.

(** ** Draining *)

#[export] Instance best_cmp_preorder : PreorderCmp best_cmp.
Proof.
  assert (PreorderCmp (λ a b, Z.compare (t_gas_price b) (t_gas_price a))).
  { pose proof (preorder_on t_gas_price Z.compare).
    by apply (preorder_flip (λ a b, Z.compare (t_gas_price a) (t_gas_price b))). }
  pose proof (preorder_on t_nonce Z.compare). pose proof (preorder_on t_hash bytes_cmp).
  unfold best_cmp. apply _.
Qed.
Lemma best_cmp_eq a b : best_cmp a b = Eq → t_hash a = t_hash b.
Proof.
  unfold best_cmp, then_with. destruct (_ ?= _); try done. destruct (_ ?= _); try done.
  apply (cmp_eq bytes_cmp).
Qed.

(** The transactions of the pool as [values()] lists them. *)
Definition pool_values (mp : Mempool) : list Transaction :=
  btree_values bytes_cmp (mp_transactions mp).

Lemma elem_of_pool_values mp tx :
  Mempool_inv mp → tx ∈ pool_values mp ↔ mp_transactions mp !! t_hash tx = Some tx.
Proof.
  intros Hinv. unfold pool_values. rewrite elem_of_btree_values. split; [|by eauto].
  intros [h Hh]. pose proof (mi_keys _ Hinv _ _ Hh) as Hk. simpl in Hk. by subst.
Qed.
Lemma pool_values_keys mp :
  Mempool_inv mp → t_hash <$> pool_values mp = (btree_entries bytes_cmp (mp_transactions mp)).*1.
Proof.
  intros Hinv. unfold pool_values, btree_values. rewrite <- list_fmap_compose.
  apply list_fmap_ext. intros i [h tx] Hi%list_elem_of_lookup_2%elem_of_btree_entries.
  by apply (mi_keys _ Hinv) in Hi.
Qed.
Lemma NoDup_pool_hashes mp : Mempool_inv mp → NoDup (t_hash <$> pool_values mp).
Proof.
  intros Hinv. rewrite pool_values_keys by done. rewrite btree_entries_perm.
  apply NoDup_fst_map_to_list.
Qed.
Lemma pool_values_eq mp tx1 tx2 :
  Mempool_inv mp → tx1 ∈ pool_values mp → tx2 ∈ pool_values mp → t_hash tx1 = t_hash tx2 → tx1 = tx2.
Proof. intros Hinv. rewrite !elem_of_pool_values by done. congruence. Qed.

(** Removing some of the pool's transactions one by one. *)
Lemma remove_all_spec mp (l : list Transaction) :
  Mempool_inv mp → Forall (λ tx, mp_transactions mp !! t_hash tx = Some tx) l →
  NoDup (t_hash <$> l) →
  let '(mp', out) := remove_all mp (t_hash <$> l) in
  Mempool_inv mp' ∧ mp_config mp' = mp_config mp ∧ out = l ∧
  ∀ tx, mp_transactions mp' !! t_hash tx = Some tx ↔
    mp_transactions mp !! t_hash tx = Some tx ∧ t_hash tx ∉ t_hash <$> l.
Proof.
  revert mp. induction l as [|tx l IH]; intros mp Hinv Hin Hnd; csimpl.
  { split_and!; [done..|]. set_solver. }
  apply Forall_cons in Hin as [Htx Hin]. apply NoDup_cons in Hnd as [Hnew Hnd].
  pose proof (Mempool_remove_spec mp (t_hash tx) Hinv) as (Hinv' & Hc & Ht & Hout).
  destruct (Mempool_remove mp (t_hash tx)) as [mp1 o]. simpl in *.
  specialize (IH mp1 Hinv'). destruct (remove_all mp1 (t_hash <$> l)) as [mp' out].
  destruct IH as (Hinv'' & Hc' & Hout' & Hmem); [|done|].
  { rewrite Forall_forall in Hin |- *. intros tx' Htx'. rewrite Ht, lookup_delete_ne; [by apply Hin|].
    intros Heq. apply Hnew. rewrite Heq. by apply list_elem_of_fmap_2. }
  split_and!; [done|congruence|by rewrite Hout, Htx, Hout'|]. intros tx'. rewrite Hmem, Ht, lookup_delete_Some.
  rewrite not_elem_of_cons. naive_solver.
Qed.

Section draining.
Context `{SU : SortUnstable}.
Context (mp : Mempool) (Hinv : Mempool_inv mp).
Abbreviation sorted_pool := (sort_unstable_by best_cmp (pool_values mp)).

Lemma sorted_pool_nodup : NoDup (t_hash <$> sorted_pool).
Proof. rewrite sort_unstable_perm. by apply NoDup_pool_hashes. Qed.
Lemma sorted_pool_member : Forall (λ tx, mp_transactions mp !! t_hash tx = Some tx) sorted_pool.
Proof.
  rewrite sort_unstable_perm. apply Forall_forall. intros tx. by apply elem_of_pool_values.
Qed.

(** The batch and the rest: the sorted pool, cut at [max_count]. *)
Lemma drain_batch_cut n :
  let '(p', batch) := IngressPipeline_drain_batch {| ip_mempool := mp |} n in
  batch = take n sorted_pool ∧ Mempool_inv (ip_mempool p') ∧
  pool_values (ip_mempool p') ≡ₚ drop n sorted_pool.
Proof.
  unfold IngressPipeline_drain_batch, Mempool_peek_best. simpl.
  pose proof sorted_pool_nodup as Hnd. pose proof sorted_pool_member as Hmem.
  rewrite <- (take_drop n sorted_pool), fmap_app in Hnd.
  apply NoDup_app in Hnd as (Hnd1 & Hdisj & Hnd2).
  assert (Hmem' := Hmem). rewrite <- (take_drop n sorted_pool) in Hmem'.
  apply Forall_app in Hmem' as [Hin1 Hin2].
  pose proof (remove_all_spec mp (take n sorted_pool) Hinv Hin1 Hnd1) as Hrem.
  unfold pool_values in *. destruct (remove_all mp _) as [mp' out].
  destruct Hrem as (Hinv' & _ & -> & Hrest). split_and!; [done..|].
  simpl. apply NoDup_Permutation.
  - apply (NoDup_fmap_1 t_hash). by apply NoDup_pool_hashes.
  - by apply (NoDup_fmap_1 t_hash).
  - intros tx. rewrite (elem_of_pool_values mp' tx Hinv'), Hrest.
    rewrite Forall_forall in Hin1, Hin2. split.
    + intros [Htx Hnot]. apply (elem_of_pool_values mp tx Hinv) in Htx. unfold pool_values in Htx.
      rewrite <- (sort_unstable_perm best_cmp), <- (take_drop n (sort_unstable_by _ _)) in Htx.
      apply elem_of_app in Htx as [Htx|Htx]; [|done].
      exfalso. apply Hnot. by apply list_elem_of_fmap_2.
    + intros Htx. split; [by apply Hin2|]. intros Hh. apply (Hdisj _ Hh). by apply list_elem_of_fmap_2.
Qed.
End draining.

(** A sorted list cut in two: the front is sorted and below the back. *)
Lemma sorted_cut {A} (c : A → A → comparison) (l : list A) n :
  StronglySorted (cmp_le c) l →
  StronglySorted (cmp_le c) (take n l) ∧ ∀ x y, x ∈ take n l → y ∈ drop n l → c x y ≠ Gt.
Proof.
  intros Hl. revert n. induction Hl as [|x l Hl IH Hx]; intros [|n]; simpl;
    try (split; [constructor|]; set_solver).
  destruct (IH n) as [IH1 IH2]. rewrite Forall_forall in Hx. split.
  - constructor; [done|]. apply Forall_forall. intros y Hy. apply Hx. by eapply subseteq_take.
  - intros a b [->|Ha]%elem_of_cons Hb; [|by apply IH2]. apply Hx. by eapply subseteq_drop.
Qed.

(** Draining takes the best: the batch is sorted by price descending, then
    nonce, then hash; with what stays in the pool it is a permutation of the pool;
    its length is the smaller of [max_count] and the pool's; and no transaction
    that stays is better than one taken. *)
Theorem drain_batch_takes_best `{SU : SortUnstable} (p p' : IngressPipeline) (max_count : nat)
    (batch : list Transaction) :
  Mempool_inv (ip_mempool p) → IngressPipeline_drain_batch p max_count = (p', batch) →
  StronglySorted (cmp_le best_cmp) batch ∧
  pool_values (ip_mempool p) ≡ₚ batch ++ pool_values (ip_mempool p') ∧
  length batch = (max_count `min` length (pool_values (ip_mempool p)))%nat ∧
  (∀ tx tx', tx ∈ batch → tx' ∈ pool_values (ip_mempool p') → best_cmp tx tx' ≠ Gt).
Proof.
  destruct p as [mp]. simpl. intros Hinv Hdrain.
  pose proof (drain_batch_cut mp Hinv max_count) as Hcut. rewrite Hdrain in Hcut.
  destruct Hcut as (-> & Hinv' & Hrest).
  destruct (sorted_cut best_cmp _ max_count (sort_unstable_sorted best_cmp (pool_values mp)))
    as [Hsorted Hbest].
  split_and!; [done| | |].
  - by rewrite Hrest, take_drop, sort_unstable_perm.
  - by rewrite length_take, (Permutation_length (sort_unstable_perm best_cmp _)).
  - intros tx tx' Htx Htx'. rewrite Hrest in Htx'. by apply Hbest.
Qed.

(** The order [peek_best] shows does not depend on the unstable sort: the
    hash breaks every tie, so any two sorting routines give the same list. *)
Theorem peek_best_deterministic (SU1 SU2 : SortUnstable) (mp : Mempool) (count : nat) :
  Mempool_inv mp →
  Mempool_peek_best (SU := SU1) mp count = Mempool_peek_best (SU := SU2) mp count.
Proof.
  intros Hinv. unfold Mempool_peek_best. f_equal.
  apply (sorted_perm_unique best_cmp).
  - intros tx1 tx2 H1 H2 Heq%best_cmp_eq. rewrite sort_unstable_perm in H1, H2.
    by eapply pool_values_eq.
  - apply sort_unstable_sorted, _.
  - apply sort_unstable_sorted, _.
  - by rewrite !sort_unstable_perm.
Qed.

(** ** All reachable pools *)

Inductive PipelineCall :=
| CallSubmit (tx : Transaction)
| CallRemove (h : hash)
| CallDrain (max_count : nat)
| CallClear.

Section reachable.
Context `{SU : SortUnstable}.

Definition pipeline_step (p : IngressPipeline) (c : PipelineCall) : IngressPipeline :=
  match c with
  | CallSubmit tx => (IngressPipeline_submit p tx).1
  | CallRemove h => {| ip_mempool := (Mempool_remove (ip_mempool p) h).1 |}
  | CallDrain n => (IngressPipeline_drain_batch p n).1
  | CallClear => {| ip_mempool := Mempool_clear (ip_mempool p) |}
  end.

(** C16: From the empty pool, whatever is submitted, removed, drained or cleared,
    the indices stay those of the map: every sender's count is the number of its
    transactions and its nonces are theirs, no nonce of a sender occurs twice, and
    the limits on the pool, on each sender and on the gas price hold. *)
Theorem mempool_invariant (config : MempoolConfig) (calls : list PipelineCall) :
  MempoolConfig_wf config →
  Mempool_inv (ip_mempool (foldl pipeline_step {| ip_mempool := Mempool_new config |} calls)).
Proof.
  intros Hc. pose proof (Mempool_inv_empty config Hc) as Hinv.
  change (MkMempool config ∅ ∅ ∅) with (ip_mempool {| ip_mempool := Mempool_new config |}) in Hinv.
  revert Hinv. generalize ({| ip_mempool := Mempool_new config |}).
  induction calls as [|c calls IH]; intros p Hinv; [done|]. simpl. apply IH.
  destruct c as [tx|h|n|]; simpl.
  - by apply submit_inv.
  - by apply Mempool_remove_spec.
  - destruct p as [mp]. pose proof (drain_batch_cut mp Hinv n) as Hcut.
    destruct (IngressPipeline_drain_batch _ _) as [p' batch]. apply Hcut.
  - by apply Mempool_inv_empty, Hinv.
Qed.
End reachable.

(** ** A concrete pool *)

#[local] Existing Instance stable_sort_unstable.

Definition example_tx (h from nonce price : Z) : Transaction :=
  {| t_hash := [h]; t_from := [from]; t_to := [0]; t_nonce := nonce; t_gas_limit := 21000;
     t_gas_price := price; t_value := 0; t_data := [] |}.
Definition example_mempool_config : MempoolConfig :=
  {| mc_max_size := 2; mc_max_per_account := 2; mc_min_gas_price := 1;
     mc_eviction_threshold_percent := 100 |}.
Definition example_pool : IngressPipeline :=
  foldl pipeline_step {| ip_mempool := Mempool_new example_mempool_config |}
    [CallSubmit (example_tx 1 1 0 50); CallSubmit (example_tx 2 2 0 70)].
Lemma example_config_wf : MempoolConfig_wf example_mempool_config.
Proof. repeat split; simpl; lia. Qed.
Lemma example_pool_inv : Mempool_inv (ip_mempool example_pool).
Proof.
  unfold example_pool. simpl foldl. apply submit_inv, submit_inv, Mempool_inv_empty, example_config_wf.
Qed.

Lemma mempool_invariant_witness : Mempool_inv (ip_mempool example_pool).
Proof. apply mempool_invariant, example_config_wf. Defined.
Lemma submit_functional_witness :
  (IngressPipeline_submit example_pool (example_tx 3 3 0 60)).2 = Ok tt.
Proof.
  apply (submit_functional example_pool (example_tx 3 3 0 60) example_pool_inv).
  split; [reflexivity|]. right. split; vm_compute; discriminate.
Defined.
Lemma drain_batch_takes_best_witness :
  StronglySorted (cmp_le best_cmp) [example_tx 2 2 0 70; example_tx 1 1 0 50].
Proof.
  apply (drain_batch_takes_best example_pool (IngressPipeline_drain_batch example_pool 5).1 5
           _ example_pool_inv).
  vm_compute. reflexivity.
Defined.
Lemma peek_best_deterministic_witness :
  Mempool_peek_best (SU := stable_sort_unstable) (ip_mempool example_pool) 1 = [example_tx 2 2 0 70].
Proof.
  etrans; [apply (peek_best_deterministic stable_sort_unstable stable_sort_unstable _ 1 example_pool_inv)|].
  vm_compute. reflexivity.
Defined.

(** A full pool gives up a transaction for any valid newcomer: with eviction
    enabled the newcomer's own price is not compared, so one at the minimum price
    is admitted and a better-paying transaction is dropped for it. *)
Theorem eviction_admits_worse_paying :
  ∃ (p : IngressPipeline) (old new : Transaction),
    Mempool_inv (ip_mempool p) ∧
    mp_transactions (ip_mempool p) !! t_hash old = Some old ∧
    t_gas_price new < t_gas_price old ∧
    (IngressPipeline_submit p new).2 = Ok tt ∧
    mp_transactions (ip_mempool (IngressPipeline_submit p new).1) !! t_hash old = None.
Proof.
  exists example_pool, (example_tx 1 1 0 50), (example_tx 3 3 0 2).
  split_and!; [apply example_pool_inv|done..].
Qed.
