(* ===== verification/Validation.v ===== *)
(** * Validators and statistics

    What the validation modules of [eth2077-types] share: the 128-bit saturating
    arithmetic, duplicate detection with a [HashSet], and keeping first occurrences. *)
From stdpp Require Export finite.
From S2P Require Import Prelude.
Local Open Scope Z_scope.

(** ** [u128] *)

Definition is_u128 (z : Z) : Prop := 0 ≤ z ≤ u128_max.
Definition u128_saturating_add (a b : Z) : Z := Z.min (a + b) u128_max.
Definition u128_saturating_sub (a b : Z) : Z := Z.max (a - b) 0.
Definition u128_saturating_mul (a b : Z) : Z := Z.min (a * b) u128_max.
Ltac sat128_lia :=
  unfold is_u128, u128_saturating_add, u128_saturating_sub, u128_saturating_mul in *; sat_lia.

Lemma u128_saturating_add_u128 a b : 0 ≤ a → 0 ≤ b → is_u128 (u128_saturating_add a b).
Proof. sat128_lia. Qed.
Lemma u128_saturating_mul_u128 a b : 0 ≤ a → 0 ≤ b → is_u128 (u128_saturating_mul a b).
Proof. intros. assert (0 ≤ a * b) by nia. sat128_lia. Qed.
#[export] Hint Resolve u128_saturating_add_u128 u128_saturating_mul_u128 : eth.

(** A loop of saturating additions computes the saturated sum. *)
Lemma foldl_u128_saturating_add l acc :
  Forall (λ z, 0 ≤ z) l → is_u128 acc →
  foldl u128_saturating_add acc l = Z.min (acc + Zsum l) u128_max.
Proof.
  intros Hl. revert acc. induction Hl as [|x l Hx Hl IH]; intros acc Hacc; simpl; [sat128_lia|].
  rewrite IH by sat128_lia. pose proof (Zsum_nonneg l Hl). simpl in *. sat128_lia.
Qed.

(** ** Duplicates *)

(** [if !seen.insert(x) { errors.push(e) }] over a list: an error for every
    element seen before. *)
Fixpoint duplicate_errors {A E} `{Countable A} (err : A → E) (seen : gset A) (l : list A) : list E :=
  match l with
  | [] => []
  | x :: l => push_if (bool_decide (x ∈ seen)) (err x) ++ duplicate_errors err ({[x]} ∪ seen) l
  end.

Lemma duplicate_errors_nil {A E} `{Countable A} (err : A → E) seen l :
  duplicate_errors err seen l = [] ↔ NoDup l ∧ Forall (λ x, x ∉ seen) l.
Proof.
  revert seen. induction l as [|x l IH]; intros seen; simpl; [repeat constructor|].
  rewrite app_nil, push_if_nil, IH, bool_decide_eq_false, NoDup_cons, Forall_cons, !Forall_forall.
  set_solver.
Qed.

Lemma Forall_not_seen {A B} `{Countable B} (f : A → B) (x : B) (seen : gset B) (l : list A) :
  Forall (λ b, f b ∉ {[x]} ∪ seen) l ↔ x ∉ f <$> l ∧ Forall (λ b, f b ∉ seen) l.
Proof. rewrite !Forall_forall, list_elem_of_fmap. set_solver. Qed.
Lemma Forall_not_empty {A B} `{Countable B} (f : A → B) (l : list A) :
  Forall (λ b, f b ∉ (∅ : gset B)) l.
Proof. apply Forall_forall. set_solver. Qed.

(** Every element contributes no error. *)
Lemma list_bind_nil {A B} (f : A → list B) l : l ≫= f = [] ↔ Forall (λ x, f x = []) l.
Proof.
  induction l as [|x l IH]; [done|]. csimpl. rewrite app_nil, Forall_cons, IH. done.
Qed.

(** ** First occurrences *)

(** [if seen.insert(key) { out.push(x) }] over a list. *)
Fixpoint keep_first {A K} `{Countable K} (key : A → K) (seen : gset K) (l : list A) : list A :=
  match l with
  | [] => []
  | x :: l =>
      if bool_decide (key x ∈ seen) then keep_first key seen l
      else x :: keep_first key ({[key x]} ∪ seen) l
  end.

Section keep_first.
Context {A K : Type} `{Countable K} (key : A → K).
Implicit Types (l : list A) (seen : gset K).

Lemma keep_first_not_seen seen l : Forall (λ x, key x ∉ seen) (keep_first key seen l).
Proof.
  revert seen. induction l as [|x l IH]; intros seen; simpl; [done|]. case_bool_decide; [done|].
  constructor; [done|]. eapply Forall_impl; [apply IH|]. set_solver.
Qed.
Lemma keep_first_NoDup seen l : NoDup (key <$> keep_first key seen l).
Proof.
  revert seen. induction l as [|x l IH]; intros seen; simpl; [constructor|]. case_bool_decide; [done|].
  csimpl. apply NoDup_cons. split; [|done].
  pose proof (keep_first_not_seen ({[key x]} ∪ seen) l) as Hns. rewrite Forall_forall in Hns.
  rewrite list_elem_of_fmap. intros (y & Hy & Hin). apply Hns in Hin. set_solver.
Qed.
Lemma keep_first_sublist seen l : keep_first key seen l `sublist_of` l.
Proof.
  revert seen. induction l as [|x l IH]; intros seen; simpl; [done|].
  case_bool_decide; [by apply sublist_cons|by apply sublist_skip].
Qed.
Lemma keep_first_elem seen l x : x ∈ keep_first key seen l → x ∈ l.
Proof. apply sublist_subseteq, keep_first_sublist. Qed.
Lemma keep_first_keys seen l k :
  k ∈ key <$> keep_first key seen l ↔ k ∈ key <$> l ∧ k ∉ seen.
Proof.
  revert seen. induction l as [|x l IH]; intros seen; simpl; [set_solver|].
  case_bool_decide as Hx; csimpl; rewrite ?elem_of_cons, IH; [|rewrite elem_of_union, elem_of_singleton].
  - destruct (decide (k = key x)); naive_solver.
  - destruct (decide (k = key x)); naive_solver.
Qed.
Lemma keep_first_id seen l :
  NoDup (key <$> l) → Forall (λ x, key x ∉ seen) l → keep_first key seen l = l.
Proof.
  revert seen. induction l as [|x l IH]; intros seen; simpl; [done|].
  rewrite NoDup_cons, Forall_cons. intros [Hx Hl] [Hs Hls].
  rewrite bool_decide_eq_false_2 by done. f_equal. apply IH; [done|]. by apply Forall_not_seen.
Qed.
End keep_first.
