(* ===== verification/AccessList.v ===== *)
(** * Block access lists, EIP-7928 ([eth2077-execution/src/eip7928.rs])

    Validation, the commitment hash, statistics and the merge of access lists.
    [HashSet]s are [gset]s, the [BTreeMap]s of the merge are [gmap]s read in key
    order; SHA-256 is the class argument [Sha256]. *)
From S2P Require Import Prelude Validation.
Local Open Scope Z_scope.

Abbreviation hash := (list Z) (only parsing).
Abbreviation address := (list Z) (only parsing).

(* eth2077-execution/src/eip7928.rs:7-13 AccessedAccount *)
Record AccessedAccount := {
  aa_address : address;
  aa_storage_keys : list hash;
  aa_post_balance : option Z;
  aa_post_nonce : option Z;
  aa_post_code_hash : option hash;
}.

(* eth2077-execution/src/eip7928.rs:16-20 StorageAccess *)
Record StorageAccess := {
  sa_key : hash;
  sa_pre_value : hash;
  sa_post_value : hash;
}.

(* eth2077-execution/src/eip7928.rs:23-27 BlockAccessList *)
Record BlockAccessList := {
  bal_block_number : Z;
  bal_accessed_accounts : list AccessedAccount;
  bal_storage_accesses : list (address * StorageAccess);
}.

(* eth2077-execution/src/eip7928.rs:30-35 BlockAccessListError *)
Inductive BlockAccessListError :=
| DuplicateAccount (addr : address)
| DuplicateStorageKey (addr : address) (key : hash)
| EmptyAccessList
| StorageAccessWithoutAccount (addr : address).

(* eth2077-execution/src/eip7928.rs:38-44 AccessListStats *)
Record AccessListStats := {
  als_block_number : Z;
  als_unique_account_count : Z;
  als_total_storage_accesses : Z;
  als_modified_storage_count : Z;
  als_read_only_storage_count : Z;
}.

(** ** Validation *)

(* eth2077-execution/src/eip7928.rs:55-73 validate_block_access_list *)
Fixpoint account_errors (seen_accounts : gset address) (accounts : list AccessedAccount)
  : list BlockAccessListError :=
  match accounts with
  | [] => []
  | account :: accounts =>
      push_if (bool_decide (aa_address account ∈ seen_accounts))
        (DuplicateAccount (aa_address account)) ++
      duplicate_errors (DuplicateStorageKey (aa_address account)) ∅ (aa_storage_keys account) ++
      account_errors ({[aa_address account]} ∪ seen_accounts) accounts
  end.

(* eth2077-execution/src/eip7928.rs:75-87 validate_block_access_list *)
Fixpoint storage_access_errors (known_accounts : gset address)
    (seen_storage_access_keys : gset (address * hash)) (l : list (address * StorageAccess))
  : list BlockAccessListError :=
  match l with
  | [] => []
  | (addr, storage_access) :: l =>
      push_if (bool_decide (addr ∉ known_accounts)) (StorageAccessWithoutAccount addr) ++
      push_if (bool_decide ((addr, sa_key storage_access) ∈ seen_storage_access_keys))
        (DuplicateStorageKey addr (sa_key storage_access)) ++
      storage_access_errors known_accounts
        ({[(addr, sa_key storage_access)]} ∪ seen_storage_access_keys) l
  end.

(* eth2077-execution/src/eip7928.rs:46-94 validate_block_access_list *)
Definition validate_block_access_list (l : BlockAccessList)
  : result unit (list BlockAccessListError) :=
  let known_accounts := list_to_set (aa_address <$> bal_accessed_accounts l) in
  errors_to_result (
    push_if (bool_decide (bal_accessed_accounts l = [])) EmptyAccessList ++
    account_errors ∅ (bal_accessed_accounts l) ++
    storage_access_errors known_accounts ∅ (bal_storage_accesses l)).

(** ** The commitment *)

(* eth2077-execution/src/eip7928.rs:141-149 compute_access_list_hash *)
Definition storage_access_cmp (l r : address * StorageAccess) : comparison :=
  then_with (then_with (then_with (bytes_cmp l.1 r.1) (bytes_cmp (sa_key l.2) (sa_key r.2)))
    (bytes_cmp (sa_pre_value l.2) (sa_pre_value r.2)))
    (bytes_cmp (sa_post_value l.2) (sa_post_value r.2)).

(* eth2077-execution/src/eip7928.rs:152-157 compute_access_list_hash *)
Definition encode_storage_access (a : address * StorageAccess) : list Z :=
  a.1 ++ sa_key a.2 ++ sa_pre_value a.2 ++ sa_post_value a.2.

Section hashing.
Context `{SU : SortUnstable} `{Sha256}.

(* eth2077-execution/src/eip7928.rs:105-138 compute_access_list_hash *)
Definition encode_account (account : AccessedAccount) : list Z :=
  let storage_keys := sort_unstable_by bytes_cmp (aa_storage_keys account) in
  aa_address account ++
  encode_list id storage_keys ++
  encode_option (to_be_bytes 16) (aa_post_balance account) ++
  encode_option (to_be_bytes 8) (aa_post_nonce account) ++
  encode_option id (aa_post_code_hash account).

(** What the hasher is fed. *)
(* eth2077-execution/src/eip7928.rs:97-157 compute_access_list_hash *)
Definition access_list_preimage (l : BlockAccessList) : list Z :=
  let accounts := sort_by (λ x y, bytes_cmp (aa_address x) (aa_address y)) (bal_accessed_accounts l) in
  let storage_accesses := sort_by storage_access_cmp (bal_storage_accesses l) in
  (* b"eip7928" *)
  [101; 105; 112; 55; 57; 50; 56] ++
  to_be_bytes 8 (bal_block_number l) ++
  encode_list encode_account accounts ++
  encode_list encode_storage_access storage_accesses.

(* eth2077-execution/src/eip7928.rs:96-160 compute_access_list_hash *)
Definition compute_access_list_hash (l : BlockAccessList) : hash := sha256 (access_list_preimage l).

End hashing.

(** ** Statistics *)

(* eth2077-execution/src/eip7928.rs:162-183 compute_access_list_stats *)
Definition compute_access_list_stats (l : BlockAccessList) : AccessListStats :=
  let unique_account_count :=
    Z.of_nat (size (list_to_set (aa_address <$> bal_accessed_accounts l) : gset address)) in
  let total_storage_accesses := len (bal_storage_accesses l) in
  let modified_storage_count :=
    len (filter (λ a, sa_pre_value a.2 ≠ sa_post_value a.2) (bal_storage_accesses l)) in
  {| als_block_number := bal_block_number l;
     als_unique_account_count := unique_account_count;
     als_total_storage_accesses := total_storage_accesses;
     als_modified_storage_count := modified_storage_count;
     als_read_only_storage_count :=
       u64_saturating_sub total_storage_accesses modified_storage_count |}.

(** ** Merging *)

(* eth2077-execution/src/eip7928.rs:198-204 merge_access_lists *)
Definition empty_account (addr : address) : AccessedAccount :=
  {| aa_address := addr; aa_storage_keys := []; aa_post_balance := None;
     aa_post_nonce := None; aa_post_code_hash := None |}.

(** The state of the merge loops. *)
(* eth2077-execution/src/eip7928.rs:186-189 merge_access_lists *)
Record MergeState := {
  ms_accounts : gmap address AccessedAccount;
  ms_accesses : gmap (address * hash) StorageAccess;
  ms_block_number : Z;
}.

(* eth2077-execution/src/eip7928.rs:194-212 merge_access_lists *)
Definition merge_account (s : MergeState) (account : AccessedAccount) : MergeState :=
  let merged := default (empty_account (aa_address account)) (ms_accounts s !! aa_address account) in
  {| ms_accounts := <[aa_address account := {|
         aa_address := aa_address merged;
         aa_storage_keys := aa_storage_keys merged ++ aa_storage_keys account;
         aa_post_balance := aa_post_balance account;
         aa_post_nonce := aa_post_nonce account;
         aa_post_code_hash := aa_post_code_hash account |}]> (ms_accounts s);
     ms_accesses := ms_accesses s;
     ms_block_number := ms_block_number s |}.

(* eth2077-execution/src/eip7928.rs:214-225 merge_access_lists *)
Definition merge_storage_access (s : MergeState) (a : address * StorageAccess) : MergeState :=
  let merged := default (empty_account a.1) (ms_accounts s !! a.1) in
  {| ms_accounts := <[a.1 := {|
         aa_address := aa_address merged;
         aa_storage_keys := aa_storage_keys merged ++ [sa_key a.2];
         aa_post_balance := aa_post_balance merged;
         aa_post_nonce := aa_post_nonce merged;
         aa_post_code_hash := aa_post_code_hash merged |}]> (ms_accounts s);
     ms_accesses := <[(a.1, sa_key a.2) := a.2]> (ms_accesses s);
     ms_block_number := ms_block_number s |}.

(* eth2077-execution/src/eip7928.rs:191-226 merge_access_lists *)
Definition merge_list (s : MergeState) (l : BlockAccessList) : MergeState :=
  let s := {| ms_accounts := ms_accounts s; ms_accesses := ms_accesses s;
              ms_block_number := bal_block_number l |} in
  foldl merge_storage_access (foldl merge_account s (bal_accessed_accounts l))
    (bal_storage_accesses l).

(** [Vec::dedup]: consecutive repetitions go. *)
Fixpoint dedup {A} `{EqDecision A} (l : list A) : list A :=
  match l with
  | [] => []
  | x :: l => match dedup l with
              | y :: l' => if decide (x = y) then y :: l' else x :: y :: l'
              | [] => [x]
              end
  end.

(** Addresses paired with keys, as the tuple [Ord] compares them. *)
Definition address_key_cmp (a b : address * hash) : comparison :=
  then_with (bytes_cmp a.1 b.1) (bytes_cmp a.2 b.2).

Section merging.
Context `{SU : SortUnstable}.

(* eth2077-execution/src/eip7928.rs:228-231 merge_access_lists *)
Definition sort_storage_keys (account : AccessedAccount) : AccessedAccount :=
  {| aa_address := aa_address account;
     aa_storage_keys := dedup (sort_unstable_by bytes_cmp (aa_storage_keys account));
     aa_post_balance := aa_post_balance account;
     aa_post_nonce := aa_post_nonce account;
     aa_post_code_hash := aa_post_code_hash account |}.

(* eth2077-execution/src/eip7928.rs:185-241 merge_access_lists *)
Definition merge_access_lists (lists : list BlockAccessList) : BlockAccessList :=
  let s := foldl merge_list {| ms_accounts := ∅; ms_accesses := ∅; ms_block_number := 0 |} lists in
  {| bal_block_number := ms_block_number s;
     bal_accessed_accounts := sort_storage_keys <$> btree_values bytes_cmp (ms_accounts s);
     bal_storage_accesses :=
       (λ p, (p.1.1, p.2)) <$> btree_entries address_key_cmp (ms_accesses s) |}.
End merging.

(** ** What validation accepts *)

Lemma account_errors_nil seen accounts :
  account_errors seen accounts = [] ↔
  NoDup (aa_address <$> accounts) ∧ Forall (λ a, aa_address a ∉ seen) accounts ∧
  Forall (λ a, NoDup (aa_storage_keys a)) accounts.
Proof.
  revert seen. induction accounts as [|a l IH]; intros seen; csimpl; [repeat constructor|].
  rewrite !app_nil, push_if_nil, duplicate_errors_nil, IH, bool_decide_eq_false, NoDup_cons,
    !Forall_cons.
  assert (Forall (λ x, x ∉ (∅ : gset hash)) (aa_storage_keys a)) by (apply Forall_forall; set_solver).
  rewrite (Forall_not_seen aa_address). tauto.
Qed.

Abbreviation access_key := (λ a : address * StorageAccess, (a.1, sa_key a.2)).

Lemma storage_access_errors_nil known seen l :
  storage_access_errors known seen l = [] ↔
  Forall (λ a, a.1 ∈ known) l ∧ NoDup (access_key <$> l) ∧ Forall (λ a, access_key a ∉ seen) l.
Proof.
  revert seen. induction l as [|[addr a] l IH]; intros seen; csimpl; [repeat constructor|].
  rewrite !app_nil, !push_if_nil, IH, !bool_decide_eq_false, NoDup_cons, !Forall_cons. simpl.
  rewrite (Forall_not_seen access_key).
  destruct (decide (addr ∈ known)); tauto.
Qed.

(** A well-formed access list. *)
Record access_list_valid (l : BlockAccessList) : Prop := {
  alv_nonempty : bal_accessed_accounts l ≠ [];
  alv_accounts : NoDup (aa_address <$> bal_accessed_accounts l);
  alv_keys : Forall (λ a, NoDup (aa_storage_keys a)) (bal_accessed_accounts l);
  alv_known : Forall (λ a, a.1 ∈ aa_address <$> bal_accessed_accounts l) (bal_storage_accesses l);
  alv_accesses : NoDup (access_key <$> bal_storage_accesses l);
}.

(** [validate_block_access_list] accepts exactly the well-formed lists: at
    least one account, no address twice, no storage key twice within an account,
    every storage access of a listed account and none for the same slot twice. *)
Theorem validate_block_access_list_ok (l : BlockAccessList) :
  validate_block_access_list l = Ok tt ↔ access_list_valid l.
Proof.
  unfold validate_block_access_list.
  rewrite errors_to_result_ok, !app_nil, push_if_nil, account_errors_nil,
    storage_access_errors_nil, bool_decide_eq_false.
  assert (Forall (λ a, aa_address a ∉ (∅ : gset address)) (bal_accessed_accounts l))
    by (apply Forall_forall; set_solver).
  assert (Forall (λ a, access_key a ∉ (∅ : gset (address * hash))) (bal_storage_accesses l))
    by (apply Forall_forall; set_solver).
  assert (Forall (λ a, a.1 ∈ (list_to_set (aa_address <$> bal_accessed_accounts l) : gset address))
      (bal_storage_accesses l) ↔
    Forall (λ a, a.1 ∈ aa_address <$> bal_accessed_accounts l) (bal_storage_accesses l)) as ->.
  { rewrite !Forall_forall. setoid_rewrite elem_of_list_to_set. done. }
  split; [intros; split; tauto|]. intros []; tauto.
Qed.

(** The statistics count consistently: modified and read-only accesses add up
    to all of them, and a validated list has as many unique accounts as entries. *)
Theorem access_list_stats_consistent (l : BlockAccessList) :
  als_modified_storage_count (compute_access_list_stats l) +
    als_read_only_storage_count (compute_access_list_stats l) =
    als_total_storage_accesses (compute_access_list_stats l) ∧
  (validate_block_access_list l = Ok tt →
   als_unique_account_count (compute_access_list_stats l) = len (bal_accessed_accounts l)).
Proof.
  simpl. split.
  - pose proof (length_filter (λ a, sa_pre_value a.2 ≠ sa_post_value a.2) (bal_storage_accesses l)).
    sat_lia.
  - intros Hv%validate_block_access_list_ok. rewrite size_list_to_set by apply Hv.
    by rewrite length_fmap.
Qed.

(** ** The commitment binds the list up to order *)

(** Equal up to the order of the keys. *)
Definition account_equiv (a b : AccessedAccount) : Prop :=
  aa_address a = aa_address b ∧ aa_storage_keys a ≡ₚ aa_storage_keys b ∧
  aa_post_balance a = aa_post_balance b ∧ aa_post_nonce a = aa_post_nonce b ∧
  aa_post_code_hash a = aa_post_code_hash b.
Definition access_list_equiv (l1 l2 : BlockAccessList) : Prop :=
  bal_block_number l1 = bal_block_number l2 ∧
  (∃ accounts, Forall2 account_equiv (bal_accessed_accounts l1) accounts ∧
     accounts ≡ₚ bal_accessed_accounts l2) ∧
  bal_storage_accesses l1 ≡ₚ bal_storage_accesses l2.

(** The widths of the Rust types. *)
Record account_wf (a : AccessedAccount) : Prop := {
  aw_address : length (aa_address a) = 20%nat;
  aw_keys : Forall (λ k, length k = 32%nat) (aa_storage_keys a) ∧ is_u64 (len (aa_storage_keys a));
  aw_balance : from_option (λ b, 0 ≤ b ≤ u128_max) True (aa_post_balance a);
  aw_nonce : from_option is_u64 True (aa_post_nonce a);
  aw_code : from_option (λ h, length h = 32%nat) True (aa_post_code_hash a);
}.
Definition storage_access_wf (a : address * StorageAccess) : Prop :=
  length a.1 = 20%nat ∧ length (sa_key a.2) = 32%nat ∧ length (sa_pre_value a.2) = 32%nat ∧
  length (sa_post_value a.2) = 32%nat.
Record access_list_wf (l : BlockAccessList) : Prop := {
  alw_number : is_u64 (bal_block_number l);
  alw_accounts : Forall account_wf (bal_accessed_accounts l) ∧ is_u64 (len (bal_accessed_accounts l));
  alw_accesses : Forall storage_access_wf (bal_storage_accesses l) ∧
    is_u64 (len (bal_storage_accesses l));
}.

Lemma storage_access_cmp_eq a b : storage_access_cmp a b = Eq → a = b.
Proof.
  destruct a as [a1 [a2 a3 a4]], b as [b1 [b2 b3 b4]]. unfold storage_access_cmp. simpl.
  rewrite !then_with_eq. intros [[[H1 H2] H3] H4].
  apply (cmp_eq bytes_cmp) in H1, H2, H3, H4. by subst.
Qed.
#[export] Instance storage_access_cmp_preorder : PreorderCmp storage_access_cmp.
Proof.
  pose proof (preorder_on (λ a : address * StorageAccess, a.1) bytes_cmp).
  pose proof (preorder_on (λ a : address * StorageAccess, sa_key a.2) bytes_cmp).
  pose proof (preorder_on (λ a : address * StorageAccess, sa_pre_value a.2) bytes_cmp).
  pose proof (preorder_on (λ a : address * StorageAccess, sa_post_value a.2) bytes_cmp).
  unfold storage_access_cmp. apply _.
Qed.
Abbreviation address_cmp := (λ x y, bytes_cmp (aa_address x) (aa_address y)).
#[export] Instance address_cmp_preorder : PreorderCmp address_cmp.
Proof. apply (preorder_on aa_address bytes_cmp). Qed.

Lemma prefix_inj_storage_access : prefix_inj storage_access_wf encode_storage_access.
Proof.
  apply (prefix_inj_map storage_access_wf
    (both (λ l, length l = 20%nat) (both (λ l, length l = 32%nat)
       (both (λ l, length l = 32%nat) (λ l, length l = 32%nat))))
    (λ a, (a.1, (sa_key a.2, (sa_pre_value a.2, sa_post_value a.2))))
    (encode_pair id (encode_pair id (encode_pair id id)))).
  - intros [? []] [? []] _ _ [=]. by subst.
  - intros a. exact id.
  - auto 10 with encoding.
Qed.

Section binding.
Context `{SU : SortUnstable}.

(** An account with its keys in order: what the encoding shows of it. *)
Definition sorted_account (a : AccessedAccount)
  : address * (list hash * (option Z * (option Z * option hash))) :=
  (aa_address a, (sort_unstable_by bytes_cmp (aa_storage_keys a),
    (aa_post_balance a, (aa_post_nonce a, aa_post_code_hash a)))).
Abbreviation sorted_account_wf :=
  (both (λ l, length l = 20%nat) (both (λ l, Forall (λ k, length k = 32%nat) l ∧ is_u64 (len l))
    (both (from_option (λ z, 0 ≤ z < 256 ^ Z.of_nat 16) True)
      (both (from_option is_u64 True) (from_option (λ h, length h = 32%nat) True))))).
Abbreviation encode_sorted_account :=
  (encode_pair id (encode_pair (encode_list id) (encode_pair (encode_option (to_be_bytes 16))
    (encode_pair (encode_option (to_be_bytes 8)) (encode_option id))))).

Lemma encode_account_sorted a : encode_account a = encode_sorted_account (sorted_account a).
Proof. done. Qed.
Lemma prefix_inj_sorted_account : prefix_inj sorted_account_wf encode_sorted_account.
Proof. auto 10 with encoding. Qed.
Lemma sorted_account_wf_intro a : account_wf a → sorted_account_wf (sorted_account a).
Proof.
  intros [Ha [Hk Hl] Hb Hn Hc]. unfold both. simpl. split_and!; [done| | |by destruct (aa_post_balance a); simpl in *; [lia|]|done..].
  - by rewrite sort_unstable_perm.
  - unfold len. by rewrite (Permutation_length (sort_unstable_perm _ _)).
Qed.

Lemma sort_keys_equiv (l1 l2 : list hash) :
  sort_unstable_by bytes_cmp l1 = sort_unstable_by bytes_cmp l2 ↔ l1 ≡ₚ l2.
Proof.
  split.
  - intros Heq. by rewrite <- (sort_unstable_perm bytes_cmp l1), Heq, sort_unstable_perm.
  - intros Hp. apply (sorted_perm_unique bytes_cmp); [| | |by rewrite !sort_unstable_perm].
    + intros x y _ _. apply (cmp_eq bytes_cmp).
    + apply sort_unstable_sorted, _.
    + apply sort_unstable_sorted, _.
Qed.
Lemma account_equiv_sorted a b : account_equiv a b ↔ sorted_account a = sorted_account b.
Proof.
  unfold account_equiv, sorted_account. rewrite <- sort_keys_equiv. split; [naive_solver congruence|].
  intros [=]. done.
Qed.

Lemma sorted_accounts_equiv (l1 l2 : list AccessedAccount) :
  NoDup (aa_address <$> l1) →
  sorted_account <$> sort_by address_cmp l1 = sorted_account <$> sort_by address_cmp l2 ↔
  ∃ accounts, Forall2 account_equiv l1 accounts ∧ accounts ≡ₚ l2.
Proof.
  intros Hnd. split.
  - intros Heq. assert (sorted_account <$> l1 ≡ₚ sorted_account <$> l2) as Hp.
    { by rewrite <- (sort_by_perm address_cmp l1), Heq, (sort_by_perm address_cmp l2). }
    apply Permutation_map_inv in Hp as (l3 & Hl3 & Hp). exists l3. split; [|by symmetry].
    apply (fmap_eq_Forall2 sorted_account) in Hl3. eapply Forall2_impl; [exact Hl3|]. intros a b. by rewrite account_equiv_sorted.
  - intros (l3 & Heq & Hp).
    assert (sorted_account <$> l1 = sorted_account <$> l3) as Heq'.
    { apply (fmap_eq_Forall2 sorted_account). eapply Forall2_impl; [exact Heq|].
      intros a b Hab. by apply account_equiv_sorted. }
    pose proof (preorder_on (λ x : address * (list hash * (option Z * (option Z * option hash))), x.1) bytes_cmp).
    apply (sorted_perm_unique (λ x y, bytes_cmp x.1 y.1)).
    + intros x y Hx Hy Hxy%(cmp_eq bytes_cmp).
      rewrite (sort_by_perm address_cmp) in Hx, Hy.
      apply (NoDup_key_eq fst (sorted_account <$> l1)); [|done..].
      by rewrite <- list_fmap_compose.
    + apply (StronglySorted_fmap sorted_account (cmp_le (λ x y, bytes_cmp x.1 y.1))).
      apply (sort_by_sorted address_cmp).
    + apply (StronglySorted_fmap sorted_account (cmp_le (λ x y, bytes_cmp x.1 y.1))).
      apply (sort_by_sorted address_cmp).
    + by rewrite (sort_by_perm address_cmp l1), (sort_by_perm address_cmp l2), Heq', Hp.
Qed.
Lemma sorted_accesses_equiv l1 l2 :
  sort_by storage_access_cmp l1 = sort_by storage_access_cmp l2 ↔ l1 ≡ₚ l2.
Proof.
  split.
  - intros Heq. by rewrite <- (sort_by_perm storage_access_cmp l1), Heq, sort_by_perm.
  - intros Hp. apply (sorted_perm_unique storage_access_cmp); [| | |by rewrite !sort_by_perm].
    + intros x y _ _. apply storage_access_cmp_eq.
    + apply (sort_by_sorted storage_access_cmp).
    + apply (sort_by_sorted storage_access_cmp).
Qed.

(** The preimage, in terms of the sorted accounts. *)
Lemma access_list_preimage_sorted l :
  access_list_preimage l = [101; 105; 112; 55; 57; 50; 56] ++
    encode_pair (to_be_bytes 8) (encode_pair (encode_list encode_sorted_account)
      (encode_list encode_storage_access))
    (bal_block_number l, (sorted_account <$> sort_by address_cmp (bal_accessed_accounts l),
       sort_by storage_access_cmp (bal_storage_accesses l))).
Proof.
  unfold access_list_preimage, encode_pair, encode_list. cbn [fst snd]. unfold len.
  rewrite !length_fmap, <- !list_fmap_compose. rewrite <- !app_assoc. done.
Qed.

Lemma access_list_preimage_inj l1 l2 :
  access_list_wf l1 → access_list_wf l2 → NoDup (aa_address <$> bal_accessed_accounts l1) →
  access_list_preimage l1 = access_list_preimage l2 ↔ access_list_equiv l1 l2.
Proof.
  intros Hw1 Hw2 Hnd. unfold access_list_equiv.
  rewrite <- sorted_accounts_equiv, <- sorted_accesses_equiv by done.
  rewrite !access_list_preimage_sorted. split; [|by intros (-> & -> & ->)].
  intros Heq%(inj (app _)).
  apply (prefix_inj_eq (both is_u64 (both (λ l, Forall sorted_account_wf l ∧ is_u64 (len l))
    (λ l, Forall storage_access_wf l ∧ is_u64 (len l))))) in Heq.
  - by simplify_eq/=.
  - pose proof prefix_inj_sorted_account. pose proof prefix_inj_storage_access. auto 10 with encoding.
  - destruct Hw1 as [Hn [Ha Hla] [Hs Hls]]. unfold both, len in *. simpl.
    rewrite length_fmap, !(Permutation_length (sort_by_perm _ _)), !sort_by_perm, Forall_fmap.
    split_and!; try done. eapply Forall_impl; [exact Ha|]. apply sorted_account_wf_intro.
  - destruct Hw2 as [Hn [Ha Hla] [Hs Hls]]. unfold both, len in *. simpl.
    rewrite length_fmap, !(Permutation_length (sort_by_perm _ _)), !sort_by_perm, Forall_fmap.
    split_and!; try done. eapply Forall_impl; [exact Ha|]. apply sorted_account_wf_intro.
Qed.

(** The commitment identifies a validated list up to order: reordering
    accounts, keys or storage accesses does not change the hash, and two validated
    lists with one hash differ only so, unless their two preimages are a SHA-256
    collision. *)
Theorem access_list_hash_binding `{Sha256} (l1 l2 : BlockAccessList) :
  access_list_wf l1 → access_list_wf l2 →
  validate_block_access_list l1 = Ok tt → validate_block_access_list l2 = Ok tt →
  (access_list_equiv l1 l2 → compute_access_list_hash l1 = compute_access_list_hash l2) ∧
  (compute_access_list_hash l1 = compute_access_list_hash l2 →
   access_list_equiv l1 l2 ∨
   (access_list_preimage l1 ≠ access_list_preimage l2 ∧
    sha256 (access_list_preimage l1) = sha256 (access_list_preimage l2))).
Proof.
  intros Hw1 Hw2 [_ Hnd _ _ _]%validate_block_access_list_ok _. unfold compute_access_list_hash.
  pose proof (access_list_preimage_inj l1 l2 Hw1 Hw2 Hnd) as Hinj. split.
  - intros Heq%Hinj. by rewrite Heq.
  - intros Heq. destruct (decide (access_list_preimage l1 = access_list_preimage l2)) as [Hp|Hp];
      [left; by apply Hinj|by right].
Qed.
End binding.

(** ** Merging *)

Record merge_inv (s : MergeState) : Prop := {
  mg_address a acc : ms_accounts s !! a = Some acc → aa_address acc = a;
  mg_access a k sa : ms_accesses s !! (a, k) = Some sa → sa_key sa = k ∧ is_Some (ms_accounts s !! a);
}.
Definition merge_has_key (addr : address) (k : hash) (s : MergeState) : Prop :=
  ∃ acc, ms_accounts s !! addr = Some acc ∧ k ∈ aa_storage_keys acc.

Lemma default_address s a :
  merge_inv s → aa_address (default (empty_account a) (ms_accounts s !! a)) = a.
Proof. intros Hs. destruct (ms_accounts s !! a) eqn:Ha; [by apply (mg_address _ Hs)|done]. Qed.
Lemma merge_account_inv s account : merge_inv s → merge_inv (merge_account s account).
Proof.
  intros Hs. split; simpl.
  - intros a acc. rewrite lookup_insert_Some. intros [[<- <-]|[_ ?]]; [by apply default_address|].
    by apply (mg_address _ Hs).
  - intros a k sa [? ?]%(mg_access _ Hs). split; [done|]. rewrite lookup_insert_is_Some'. by right.
Qed.
Lemma merge_storage_access_inv s a : merge_inv s → merge_inv (merge_storage_access s a).
Proof.
  intros Hs. split; simpl.
  - intros addr acc. rewrite lookup_insert_Some. intros [[<- <-]|[_ ?]]; [by apply default_address|].
    by apply (mg_address _ Hs).
  - intros addr k sa. rewrite lookup_insert_Some, lookup_insert_is_Some'.
    intros [[[= <- <-] <-]|[_ [? ?]%(mg_access _ Hs)]]; split; auto.
Qed.
Lemma merge_list_inv s l : merge_inv s → merge_inv (merge_list s l).
Proof.
  intros Hs. unfold merge_list. apply foldl_preserves; [apply merge_storage_access_inv|].
  apply foldl_preserves; [apply merge_account_inv|]. destruct Hs. by split.
Qed.

Lemma merge_account_key addr k s account :
  merge_has_key addr k (merge_account s account) ↔
  merge_has_key addr k s ∨ (aa_address account = addr ∧ k ∈ aa_storage_keys account).
Proof.
  unfold merge_has_key. simpl. setoid_rewrite lookup_insert_Some. split.
  - intros (acc & [[<- <-]|[_ ?]] & Hk); simpl in *; [|eauto].
    apply elem_of_app in Hk as [Hk|?]; [|auto].
    destruct (ms_accounts s !! aa_address account) as [acc|] eqn:Ha; simpl in Hk; [eauto|].
    by apply elem_of_nil in Hk.
  - destruct (decide (aa_address account = addr)) as [<-|Hne]; [|naive_solver].
    intros Hk. eexists. split; [by left|]. simpl. apply elem_of_app.
    destruct Hk as [(acc & -> & Hk)|[_ Hk]]; [by left|by right].
Qed.
Lemma merge_storage_access_key addr k s a :
  merge_has_key addr k (merge_storage_access s a) ↔
  merge_has_key addr k s ∨ (a.1 = addr ∧ sa_key a.2 = k).
Proof.
  unfold merge_has_key. simpl. setoid_rewrite lookup_insert_Some. split.
  - intros (acc & [[<- <-]|[_ ?]] & Hk); simpl in *; [|eauto].
    apply elem_of_app in Hk as [Hk|Hk%list_elem_of_singleton]; [|auto].
    destruct (ms_accounts s !! a.1) as [acc|] eqn:Ha; simpl in Hk; [eauto|].
    by apply elem_of_nil in Hk.
  - destruct (decide (a.1 = addr)) as [<-|Hne]; [|naive_solver].
    intros Hk. eexists. split; [by left|]. simpl. apply elem_of_app. rewrite list_elem_of_singleton.
    destruct Hk as [(acc & -> & Hk)|[_ Hk]]; [by left|by right].
Qed.

(** The slots a list touches. *)
Definition touches (addr : address) (k : hash) (l : BlockAccessList) : Prop :=
  Exists (λ a, aa_address a = addr ∧ k ∈ aa_storage_keys a) (bal_accessed_accounts l) ∨
  Exists (λ a, a.1 = addr ∧ sa_key a.2 = k) (bal_storage_accesses l).

Lemma merge_list_key addr k s l :
  merge_has_key addr k (merge_list s l) ↔ merge_has_key addr k s ∨ touches addr k l.
Proof.
  unfold merge_list.
  rewrite (foldl_accumulates merge_storage_access (merge_has_key addr k) _ _ _ (merge_storage_access_key addr k)),
    (foldl_accumulates merge_account (merge_has_key addr k) _ _ _ (merge_account_key addr k)).
  unfold touches, merge_has_key. simpl. tauto.
Qed.
Lemma merge_accounts_accesses s l :
  ms_accesses (foldl merge_account s l) = ms_accesses s.
Proof. revert s. induction l as [|a l IH]; intros s; simpl; [done|]. by rewrite IH. Qed.

(** The last of the accesses to each slot. *)
Definition last_accesses (l : list (address * StorageAccess)) : gmap (address * hash) StorageAccess :=
  foldl (λ m a, <[access_key a := a.2]> m) ∅ l.
Lemma merge_accesses lists s :
  ms_accesses (foldl merge_list s lists) =
  foldl (λ m a, <[access_key a := a.2]> m) (ms_accesses s) (mjoin (bal_storage_accesses <$> lists)).
Proof.
  revert s. induction lists as [|l lists IH]; intros s; csimpl; [done|].
  rewrite IH, foldl_app. f_equal. unfold merge_list.
  set (s1 := foldl merge_account _ _).
  replace (ms_accesses s) with (ms_accesses s1) by (unfold s1; by rewrite merge_accounts_accesses).
  clearbody s1. revert s1. induction (bal_storage_accesses l) as [|a al IHa]; intros s1; simpl; [done|].
  by rewrite IHa.
Qed.

Section merge_result.
Context `{SU : SortUnstable} (lists : list BlockAccessList).
Abbreviation merged := (merge_access_lists lists).
Abbreviation final := (foldl merge_list {| ms_accounts := ∅; ms_accesses := ∅; ms_block_number := 0 |} lists).

Lemma final_inv : merge_inv final.
Proof.
  apply foldl_preserves; [apply merge_list_inv|]. split; simpl; intros *; rewrite lookup_empty; done.
Qed.
Lemma merged_account addr acc :
  acc ∈ bal_accessed_accounts merged ∧ aa_address acc = addr ↔
  ∃ acc', ms_accounts final !! addr = Some acc' ∧ acc = sort_storage_keys acc'.
Proof.
  pose proof final_inv as Hinv. simpl. rewrite list_elem_of_fmap. setoid_rewrite elem_of_btree_values.
  split.
  - intros [(acc' & -> & [a Ha]) <-]. exists acc'. simpl. by rewrite (mg_address _ Hinv _ _ Ha).
  - intros (acc' & Ha & ->). split; [by eauto|].
    pose proof (mg_address _ Hinv _ _ Ha) as Haddr. exact Haddr.
Qed.
Lemma merged_addresses :
  aa_address <$> bal_accessed_accounts merged = (btree_entries bytes_cmp (ms_accounts final)).*1.
Proof.
  simpl. unfold btree_values. rewrite <- !list_fmap_compose. apply list_fmap_ext.
  intros i [a acc] Ha%list_elem_of_lookup_2%elem_of_btree_entries. simpl.
  by apply (mg_address _ final_inv).
Qed.
Lemma merged_access addr sa :
  (addr, sa) ∈ bal_storage_accesses merged ↔ ms_accesses final !! (addr, sa_key sa) = Some sa.
Proof.
  simpl. rewrite list_elem_of_fmap. split.
  - intros ([[a k] sa'] & [= -> ->] & Hin%elem_of_btree_entries). simpl in *.
    by destruct (mg_access _ final_inv _ _ _ Hin) as [<- _].
  - intros Hin. exists ((addr, sa_key sa), sa). by rewrite elem_of_btree_entries.
Qed.
Lemma merged_access_keys :
  access_key <$> bal_storage_accesses merged = (btree_entries address_key_cmp (ms_accesses final)).*1.
Proof.
  simpl. rewrite <- list_fmap_compose. apply list_fmap_ext.
  intros i [[a k] sa] Ha%list_elem_of_lookup_2%elem_of_btree_entries. simpl.
  by destruct (mg_access _ final_inv _ _ _ Ha) as [-> _].
Qed.

Lemma elem_of_dedup_list (l : list hash) x : x ∈ dedup l ↔ x ∈ l.
Proof.
  induction l as [|y l IH]; simpl; [done|]. rewrite elem_of_cons, <- IH.
  destruct (dedup l) as [|z l']; [set_solver|]. case_decide; set_solver.
Qed.
Lemma dedup_sorted (l : list hash) :
  StronglySorted (cmp_le bytes_cmp) l → StronglySorted (cmp_le bytes_cmp) (dedup l).
Proof.
  induction 1 as [|z l Hl IH Hz]; simpl; [constructor|].
  assert (Forall (cmp_le bytes_cmp z) (dedup l)) as Hz'.
  { rewrite Forall_forall in Hz |- *. intros w Hw. apply Hz. by rewrite elem_of_dedup_list in Hw. }
  destruct (dedup l) as [|w l']; [repeat constructor|]. case_decide; [done|]. by constructor.
Qed.
(** Dropping repetitions of a sorted list leaves no key twice. *)
Lemma NoDup_dedup_sorted (l : list hash) :
  StronglySorted (cmp_le bytes_cmp) l → NoDup (dedup l).
Proof.
  induction 1 as [|x l Hl IH Hx]; simpl; [constructor|].
  destruct (dedup l) as [|y l'] eqn:Hd; [repeat constructor; set_solver|].
  case_decide as Hxy; [done|]. constructor; [|done]. rewrite <- Hd, elem_of_dedup_list. intros Hin.
  (* [x] recurs, so the head [y] of the rest is between [x] and itself *)
  assert (y ∈ l) as Hy by (rewrite <- elem_of_dedup_list, Hd; left).
  pose proof (dedup_sorted l Hl) as Hle.
  rewrite Hd in Hle. apply StronglySorted_inv in Hle as [_ Hall].
  rewrite Forall_forall in Hx, Hall.
  assert (x ∈ y :: l') as Hin' by (by rewrite <- Hd, elem_of_dedup_list).
  apply elem_of_cons in Hin' as [?|Hin']; [done|]. apply Hxy.
  pose proof (Hx y Hy) as H1. pose proof (Hall x Hin') as H2. simpl in *.
  apply (cmp_eq bytes_cmp). rewrite (cmp_antisym bytes_cmp x y) in H2.
  by destruct (bytes_cmp x y).
Qed.

Lemma merged_valid : bal_accessed_accounts merged ≠ [] → access_list_valid merged.
Proof.
  intros Hne. split; [done| | | |].
  - rewrite merged_addresses, btree_entries_perm. apply NoDup_fst_map_to_list.
  - apply Forall_forall. intros acc Hacc.
    destruct (proj1 (merged_account (aa_address acc) acc)) as (acc' & _ & ->); [done|]. simpl.
    apply NoDup_dedup_sorted, sort_unstable_sorted, _.
  - apply Forall_forall. intros [addr sa] Hin%merged_access. simpl.
    destruct (mg_access _ final_inv _ _ _ Hin) as [_ [acc Hacc]].
    destruct (proj2 (merged_account addr (sort_storage_keys acc))) as [H1 H2]; [by eauto|].
    rewrite <- H2. by apply list_elem_of_fmap_2.
  - rewrite merged_access_keys, btree_entries_perm. apply NoDup_fst_map_to_list.
Qed.

(** Merging any lists, valid or not, gives a list that validates unless
    nothing was accessed.  It lists exactly the slots that some of them lists as
    a key or a storage access, and of the accesses to a slot it keeps the last. *)
Theorem merge_access_lists_sound :
  (bal_accessed_accounts merged ≠ [] → validate_block_access_list merged = Ok tt) ∧
  (∀ addr k, (∃ acc, acc ∈ bal_accessed_accounts merged ∧ aa_address acc = addr ∧
       k ∈ aa_storage_keys acc) ↔ ∃ l, l ∈ lists ∧ touches addr k l) ∧
  (∀ addr sa, (addr, sa) ∈ bal_storage_accesses merged ↔
     last_accesses (mjoin (bal_storage_accesses <$> lists)) !! (addr, sa_key sa) = Some sa).
Proof.
  split_and!.
  - intros Hne. by apply validate_block_access_list_ok, merged_valid.
  - intros addr k. transitivity (merge_has_key addr k final).
    + unfold merge_has_key. split.
      * intros (acc & Hin & Ha & Hk).
        destruct (proj1 (merged_account addr acc)) as (acc' & Hacc' & ->); [done|].
        exists acc'. split; [done|]. simpl in Hk.
        by rewrite elem_of_dedup_list, sort_unstable_perm in Hk.
      * intros (acc & Hacc & Hk).
        destruct (proj2 (merged_account addr (sort_storage_keys acc))) as [H1 H2]; [by eauto|].
        exists (sort_storage_keys acc). split_and!; [done..|]. simpl.
        by rewrite elem_of_dedup_list, sort_unstable_perm.
    + rewrite (foldl_accumulates merge_list (merge_has_key addr k) _ _ _ (merge_list_key addr k)).
      rewrite Exists_exists. split; [|by right].
      intros [(acc & Hacc & _)|?]; [|done]. simpl in Hacc. by rewrite lookup_empty in Hacc.
  - intros addr sa. by rewrite merged_access, merge_accesses.
Qed.
End merge_result.

(** ** Concrete lists *)

#[local] Existing Instance stable_sort_unstable.
#[local] Instance example_sha256 : Sha256 := λ l, l.

Definition example_account (i : Z) (keys : list Z) : AccessedAccount :=
  {| aa_address := repeat i 20; aa_storage_keys := (λ k, repeat k 32) <$> keys;
     aa_post_balance := Some 5; aa_post_nonce := None; aa_post_code_hash := None |}.
Definition example_access_list (keys : list Z) : BlockAccessList :=
  {| bal_block_number := 9; bal_accessed_accounts := [example_account 1 keys];
     bal_storage_accesses := [] |}.
Lemma example_access_list_wf keys :
  is_u64 (len keys) → access_list_wf (example_access_list keys).
Proof.
  intros Hlen. split.
  - simpl. sat_lia.
  - split; [|unfold len; simpl; sat_lia]. apply Forall_singleton. split; simpl; try done.
    split; [|unfold len in *; by rewrite length_fmap].
    apply Forall_fmap, Forall_true. done.
  - split; [constructor|]. unfold len. simpl. sat_lia.
Qed.

Lemma access_list_hash_binding_witness :
  compute_access_list_hash (example_access_list [3; 4]) =
  compute_access_list_hash (example_access_list [4; 3]).
Proof.
  apply (access_list_hash_binding (example_access_list [3; 4]) (example_access_list [4; 3])).
  - by apply example_access_list_wf.
  - by apply example_access_list_wf.
  - vm_compute. reflexivity.
  - vm_compute. reflexivity.
  - split; [done|]. split; [|done]. eexists. split; [|done]. constructor; [|constructor].
    split_and!; try done. simpl. apply Permutation_swap.
Defined.
