(* ===== verification/Strings.v ===== *)
(** * Strings and numerals of the standard library

    Strings are their UTF-8 bytes.  The functions are those of Rust's [str] and
    integer types the source calls on request data: prefixes, trimming, parsing and
    printing of numerals, with the round trips the codecs rest on. *)
From S2P Require Import Prelude.
Local Open Scope Z_scope.

Abbreviation Str := (list Z) (only parsing).
(** The bytes of an ASCII literal. *)
Fixpoint str (s : string) : Str :=
  match s with
  | EmptyString => []
  | String c s => Z.of_nat (Ascii.nat_of_ascii c) :: str s
  end.

(** ** What the standard library does to strings *)

(** [str::strip_prefix] *)
Fixpoint strip_prefix (p s : Str) : option Str :=
  match p, s with
  | [], s => Some s
  | _ :: _, [] => None
  | a :: p, b :: s => if a =? b then strip_prefix p s else None
  end.
(** The characters with the [White_Space] property, in UTF-8. *)
Definition whitespace : list Str :=
  [[9]; [10]; [11]; [12]; [13]; [32]; [0xC2; 0x85]; [0xC2; 0xA0]; [0xE1; 0x9A; 0x80]] ++
  ((λ n, [0xE2; 0x80; n]) <$> seqZ 0x80 11) ++
  [[0xE2; 0x80; 0xA8]; [0xE2; 0x80; 0xA9]; [0xE2; 0x80; 0xAF]; [0xE2; 0x81; 0x9F]; [0xE3; 0x80; 0x80]].
Definition strip_one (ws : list Str) (s : Str) : option Str :=
  foldr (λ w k, match strip_prefix w s with Some s => Some s | None => k end) None ws.
Fixpoint strip_all (ws : list Str) (fuel : nat) (s : Str) : Str :=
  match fuel with
  | O => s
  | S fuel => match strip_one ws s with Some s => strip_all ws fuel s | None => s end
  end.
(** [str::trim] *)
Definition trim (s : Str) : Str :=
  let s := strip_all whitespace (length s) s in
  reverse (strip_all (reverse <$> whitespace) (length s) (reverse s)).

(** One digit of [from_str_radix] and of [{:x}]. *)
Definition digit_value (b : Z) : option Z :=
  if (48 <=? b) && (b <=? 57) then Some (b - 48) else
  if (97 <=? b) && (b <=? 102) then Some (b - 97 + 10) else
  if (65 <=? b) && (b <=? 70) then Some (b - 65 + 10) else None.
Definition hex_digit (n : Z) : Z := if n <? 10 then 48 + n else 97 + (n - 10).
(** The digits are accumulated with checked arithmetic. *)
Fixpoint radix16_loop (max acc : Z) (s : Str) : option Z :=
  match s with
  | [] => Some acc
  | b :: s =>
      d ← digit_value b;
      if max <? acc * 16 then None else
      if max <? acc * 16 + d then None else radix16_loop max (acc * 16 + d) s
  end.
(** [u64::from_str_radix(_, 16)], [u128::from_str_radix(_, 16)]: a leading plus sign is
    accepted, an empty string and a lone sign are not. *)
Definition from_str_radix16 (max : Z) (s : Str) : option Z :=
  match s with
  | [] => None
  | b :: digits =>
      if b =? 43 then (if bool_decide (digits = []) then None else radix16_loop max 0 digits)
      else radix16_loop max 0 s
  end.
(** [{value:x}] of an unsigned integer of at most 64 digits, enough for [U256]. *)
Fixpoint lower_hex_loop (fuel : nat) (n : Z) : Str :=
  match fuel with
  | O => []
  | S fuel => if n <? 16 then [hex_digit n] else lower_hex_loop fuel (n / 16) ++ [hex_digit (n mod 16)]
  end.
Definition lower_hex (n : Z) : Str := lower_hex_loop 64 n.

(** ** Round trips *)

(** Digits and letters: no byte of a whitespace character. *)
Definition plain (b : Z) : Prop := 48 <= b <= 122.

Lemma strip_all_plain ws fuel s :
  forallb (λ w, match w with a :: _ => (a <? 48) || (122 <? a) | [] => false end) ws = true →
  Forall plain s → strip_all ws fuel s = s.
Proof.
  intros Hws Hs. destruct fuel as [|fuel]; [done|]. simpl.
  assert (strip_one ws s = None) as ->; [|done]. unfold strip_one.
  induction ws as [|w ws IH]; simpl in *; [done|]. apply andb_true_iff in Hws as [Ha Hws].
  destruct w as [|a w]; [done|]. rewrite IH by done. destruct Hs as [|b s Hb Hs]; [done|].
  unfold plain in Hb. simpl. destruct (Z.eqb_spec a b) as [->|]; [lia|done].
Qed.
Lemma trim_plain s : Forall plain s → trim s = s.
Proof.
  intros Hs. unfold trim. rewrite (strip_all_plain whitespace) by done.
  rewrite strip_all_plain; [apply reverse_involutive|done|by apply Forall_reverse].
Qed.
Lemma hex_digit_plain n : 0 <= n < 16 → plain (hex_digit n).
Proof. intros ?. unfold hex_digit, plain. destruct (Z.ltb_spec n 10); lia. Qed.
Lemma digit_value_hex_digit n : 0 <= n < 16 → digit_value (hex_digit n) = Some n.
Proof.
  intros Hn. assert (Hall : Forall (λ n, digit_value (hex_digit n) = Some n) (seqZ 0 16))
    by (vm_compute; repeat constructor).
  rewrite Forall_forall in Hall. apply Hall, elem_of_seqZ. lia.
Qed.
(** The two digits of a byte. *)
Definition byte_codes (b : Z) : Prop :=
  digit_value (hex_digit (Z.shiftr b 4)) = Some (Z.shiftr b 4) ∧
  digit_value (hex_digit (Z.land b 15)) = Some (Z.land b 15) ∧
  Z.lor (Z.shiftl (Z.shiftr b 4) 4) (Z.land b 15) = b ∧
  0 <= Z.shiftr b 4 < 16 ∧ 0 <= Z.land b 15 < 16.
Lemma is_byte_codes b : is_byte b → byte_codes b.
Proof.
  intros Hb. assert (Hall : Forall byte_codes (seqZ 0 256)).
  { apply Forall_forall. intros x Hx. unfold byte_codes.
    assert (Hx' : forallb (λ b, bool_decide (byte_codes b)) (seqZ 0 256) = true) by (vm_compute; reflexivity).
    rewrite forallb_forall in Hx'. specialize (Hx' x ltac:(by apply list_elem_of_In)).
    by apply bool_decide_eq_true in Hx'. }
  rewrite Forall_forall in Hall. apply Hall, elem_of_seqZ. unfold is_byte in Hb. lia.
Qed.

Lemma radix16_loop_app max acc s b :
  radix16_loop max acc (s ++ [b]) = a ← radix16_loop max acc s; radix16_loop max a [b].
Proof.
  revert acc. induction s as [|c s IH]; intros acc; [done|]. cbn [app radix16_loop].
  destruct (digit_value c) as [d|]; [|done]. cbn [mbind option_bind].
  destruct (max <? acc * 16); [done|]. destruct (max <? acc * 16 + d); [done|]. apply IH.
Qed.
Lemma lower_hex_loop_spec max fuel n :
  0 <= n <= max → n < 16 ^ Z.of_nat fuel →
  radix16_loop max 0 (lower_hex_loop fuel n) = Some n ∧ Forall plain (lower_hex_loop fuel n) ∧
  ((0 < fuel)%nat → ∃ b s, lower_hex_loop fuel n = b :: s ∧ b ≠ 43).
Proof.
  revert n. induction fuel as [|fuel IH]; intros n Hn Hlt.
  { simpl in Hlt. assert (n = 0) as -> by lia. split; [done|]. split; [constructor|lia]. }
  cbn [lower_hex_loop]. destruct (Z.ltb_spec n 16) as [Hs|Hb].
  - split_and!.
    + cbn [radix16_loop]. rewrite digit_value_hex_digit by lia. cbn [mbind option_bind].
      destruct (Z.ltb_spec max (0 * 16)); [lia|]. destruct (Z.ltb_spec max (0 * 16 + n)); [lia|].
      do 2 f_equal; lia.
    + constructor; [apply hex_digit_plain; lia|constructor].
    + intros _. eexists _, _. split; [done|].
      pose proof (hex_digit_plain n ltac:(lia)). unfold plain in *. lia.
  - rewrite Nat2Z.inj_succ, Z.pow_succ_r in Hlt by lia.
    pose proof (Z.div_mod n 16 ltac:(lia)). pose proof (Z.mod_pos_bound n 16 ltac:(lia)).
    assert (0 <= n / 16) by (apply Z.div_pos; lia).
    destruct (IH (n / 16)) as (Hr & Hp & Hne); [lia|apply Z.div_lt_upper_bound; lia|]. split_and!.
    + rewrite radix16_loop_app, Hr. cbn [mbind option_bind radix16_loop].
      rewrite digit_value_hex_digit by lia. cbn [mbind option_bind].
      destruct (Z.ltb_spec max (n / 16 * 16)); [lia|].
      destruct (Z.ltb_spec max (n / 16 * 16 + n mod 16)); [lia|]. f_equal; lia.
    + apply Forall_app. split; [done|]. constructor; [apply hex_digit_plain; lia|constructor].
    + intros _. destruct fuel as [|fuel]; [simpl in Hlt; lia|].
      destruct Hne as (b & s & -> & Hb'); [lia|]. simpl. eexists _, _. by split.
Qed.
Lemma from_str_radix16_lower_hex max n :
  0 <= n <= max → max <= u128_max →
  from_str_radix16 max (lower_hex n) = Some n ∧ Forall plain (lower_hex n) ∧ lower_hex n ≠ [].
Proof.
  intros Hn Hmax. destruct (lower_hex_loop_spec max 64 n) as (Hr & Hp & b & s & Heq & Hb); [done|simpl; lia|lia|].
  unfold from_str_radix16, lower_hex in *. rewrite Heq in *. split_and!; [|done|done].
  by destruct (Z.eqb_spec b 43).
Qed.
Lemma digit_value_range b d : digit_value b = Some d → 0 <= d < 16.
Proof. unfold digit_value. repeat case_if_goal; intros [= <-]; bool_to_prop; lia. Qed.
Lemma radix16_loop_range max acc s v :
  0 <= acc <= max → radix16_loop max acc s = Some v → 0 <= v <= max.
Proof.
  revert acc. induction s as [|b s IH]; intros acc Hacc; simpl; [by intros [= <-]|].
  destruct (digit_value b) as [d|] eqn:Hd; simpl; [|done]. apply digit_value_range in Hd.
  repeat case_if_goal; try done. bool_to_prop. apply IH. lia.
Qed.
Lemma from_str_radix16_range max s : 0 <= max → 0 <= default 0 (from_str_radix16 max s) <= max.
Proof.
  intros Hmax. destruct (from_str_radix16 max s) as [v|] eqn:Hv; [|simpl; lia]. simpl.
  unfold from_str_radix16 in Hv. destruct s as [|b s]; [done|]. repeat case_if_in Hv; try done;
    (eapply (radix16_loop_range max 0); [lia|exact Hv]).
Qed.
Lemma nibbles_byte hi lo : 0 <= hi < 16 → 0 <= lo < 16 → is_byte (Z.lor (Z.shiftl hi 4) lo).
Proof.
  intros Hhi Hlo.
  assert (Hall : forallb (λ hi, forallb (λ lo, let b := Z.lor (Z.shiftl hi 4) lo in
    (0 <=? b) && (b <=? 255)) (seqZ 0 16)) (seqZ 0 16) = true) by reflexivity.
  rewrite forallb_forall in Hall. specialize (Hall hi ltac:(apply list_elem_of_In, elem_of_seqZ; lia)).
  rewrite forallb_forall in Hall. specialize (Hall lo ltac:(apply list_elem_of_In, elem_of_seqZ; lia)).
  cbv zeta in Hall. bool_to_prop. by split.
Qed.

(** ** Hexadecimal byte strings *)

(** Two lower-case digits per byte. *)
Definition hex_of_bytes (bytes : list Z) : Str :=
  byte ← bytes; [hex_digit (Z.shiftr byte 4); hex_digit (Z.land byte 0x0f)].
(** The inverse, on digits of either case; [None] at another character.  A lone last
    digit is dropped: the callers ask for an even length first. *)
Fixpoint hex_pairs (raw : Str) : option (list Z) :=
  match raw with
  | a :: b :: raw =>
      hi ← digit_value a;
      lo ← digit_value b;
      out ← hex_pairs raw;
      Some (Z.lor (Z.shiftl hi 4) lo :: out)
  | _ => Some []
  end.

Lemma hex_of_bytes_plain l : Forall is_byte l → Forall plain (hex_of_bytes l).
Proof.
  intros Hl. unfold hex_of_bytes. induction Hl as [|b l Hb Hl IH]; [done|]. csimpl.
  destruct (is_byte_codes b Hb) as (_ & _ & _ & Rhi & Rlo).
  repeat constructor; try by apply hex_digit_plain. done.
Qed.
Lemma length_hex_of_bytes l : length (hex_of_bytes l) = (2 * length l)%nat.
Proof. unfold hex_of_bytes. induction l as [|b l IH]; [done|]. csimpl in *. lia. Qed.
Lemma hex_pairs_of_bytes l : Forall is_byte l → hex_pairs (hex_of_bytes l) = Some l.
Proof.
  intros Hl. unfold hex_of_bytes. induction Hl as [|b l Hb Hl IH]; [done|]. csimpl.
  destruct (is_byte_codes b Hb) as (Hhi & Hlo & Hor & _). rewrite Hhi, Hlo. simpl. csimpl in IH.
  rewrite IH. simpl. by rewrite Hor.
Qed.
Lemma hex_pairs_bytes n raw out :
  (length raw <= n)%nat → hex_pairs raw = Some out → Forall is_byte out.
Proof.
  revert raw out. induction n as [|n IH]; intros [|a [|b raw]] out Hlen; simpl in *;
    try (intros [= <-]; constructor); try lia.
  destruct (digit_value a) as [hi|] eqn:Hhi; simpl; [|done].
  destruct (digit_value b) as [lo|] eqn:Hlo; simpl; [|done].
  destruct (hex_pairs raw) as [out'|] eqn:Hout; simpl; [|done]. intros [= <-].
  apply digit_value_range in Hhi, Hlo. constructor; [by apply nibbles_byte|].
  by eapply IH; [|exact Hout]; lia.
Qed.

(** ** More of [str] and of the numerals *)

(** [str::trim_start_matches] with a string pattern. *)
Fixpoint trim_start_loop (fuel : nat) (p s : Str) : Str :=
  match fuel with
  | O => s
  | S fuel => match strip_prefix p s with Some s => trim_start_loop fuel p s | None => s end
  end.
Definition trim_start_matches (p s : Str) : Str := trim_start_loop (length s) p s.
(** [char::is_ascii_hexdigit], on a byte. *)
Definition is_ascii_hexdigit (b : Z) : bool :=
  match digit_value b with Some _ => true | None => false end.
Definition to_ascii_lowercase (s : Str) : Str :=
  (λ b, if (65 <=? b) && (b <=? 90) then b + 32 else b) <$> s.
(** [str::parse] of an unsigned decimal: a plus sign is accepted, an empty string is not. *)
Fixpoint radix10_loop (max acc : Z) (s : Str) : option Z :=
  match s with
  | [] => Some acc
  | b :: s =>
      if negb ((48 <=? b) && (b <=? 57)) then None else
      if max <? acc * 10 + (b - 48) then None else radix10_loop max (acc * 10 + (b - 48)) s
  end.
Definition parse_decimal (max : Z) (s : Str) : option Z :=
  match s with
  | [] => None
  | b :: digits =>
      if b =? 43 then (if bool_decide (digits = []) then None else radix10_loop max 0 digits)
      else radix10_loop max 0 s
  end.
(** [{value}] of an unsigned integer of at most 40 digits, enough for [u128]. *)
Fixpoint decimal_loop (fuel : nat) (n : Z) : Str :=
  match fuel with
  | O => []
  | S fuel => if n <? 10 then [48 + n] else decimal_loop fuel (n / 10) ++ [48 + n mod 10]
  end.
Definition decimal (n : Z) : Str := decimal_loop 40 n.
(** [{value:0<width>x}] *)
Definition padded_hex (width : nat) (n : Z) : Str :=
  replicate (width - length (lower_hex n)) 48 ++ lower_hex n.
(** [str::split] on one ASCII character. *)
Fixpoint split_byte (sep : Z) (s : Str) : list Str :=
  match s with
  | [] => [[]]
  | b :: s =>
      if b =? sep then [] :: split_byte sep s
      else match split_byte sep s with piece :: rest => (b :: piece) :: rest | [] => [[b]] end
  end.
(** [slice::join] *)
Fixpoint join (sep : Str) (l : list Str) : Str :=
  match l with
  | [] => []
  | [s] => s
  | s :: l => s ++ sep ++ join sep l
  end.

(** ** The value of a hexadecimal numeral *)

Definition hex_value (acc : Z) (s : Str) : Z :=
  foldl (λ acc b, acc * 16 + default 0 (digit_value b)) acc s.
Definition hexdigits (s : Str) : Prop := forallb is_ascii_hexdigit s = true.

Lemma hexdigits_cons b s : hexdigits (b :: s) ↔ is_Some (digit_value b) ∧ hexdigits s.
Proof.
  unfold hexdigits, is_ascii_hexdigit. simpl. rewrite andb_true_iff.
  destruct (digit_value b); split; intros [? ?]; split; try done; by eapply is_Some_None.
Qed.
Lemma hexdigits_app s t : hexdigits (s ++ t) ↔ hexdigits s ∧ hexdigits t.
Proof. unfold hexdigits. by rewrite forallb_app, andb_true_iff. Qed.
Lemma hexdigits_hex_digit n : 0 <= n < 16 → hexdigits [hex_digit n].
Proof. intros Hn. apply hexdigits_cons. by rewrite digit_value_hex_digit. Qed.
Lemma radix16_loop_value max acc s v :
  radix16_loop max acc s = Some v → hexdigits s ∧ v = hex_value acc s.
Proof.
  revert acc. induction s as [|b s IH]; intros acc; simpl; [by intros [= <-]|].
  destruct (digit_value b) as [d|] eqn:Hd; simpl; [|done].
  repeat case_if_goal; try done. intros [Hs ->]%IH. by rewrite hexdigits_cons, Hd.
Qed.
Lemma hex_value_ge acc s : 0 <= acc → acc <= hex_value acc s.
Proof.
  unfold hex_value. revert acc. induction s as [|b s IH]; intros acc Hacc; simpl; [lia|].
  assert (0 <= default 0 (digit_value b)).
  { destruct (digit_value b) eqn:Hd; [|done]. apply digit_value_range in Hd. simpl. lia. }
  etrans; [|apply IH; lia]. lia.
Qed.
Lemma radix16_loop_hexdigits max acc s :
  0 <= acc → hexdigits s → hex_value acc s <= max → radix16_loop max acc s = Some (hex_value acc s).
Proof.
  revert acc. induction s as [|b s IH]; intros acc Hacc; [done|].
  rewrite hexdigits_cons. intros [[d Hd] Hs] Hmax. pose proof (digit_value_range _ _ Hd).
  simpl in *. rewrite Hd in *. simpl in *.
  pose proof (hex_value_ge (acc * 16 + d) s ltac:(lia)) as Hge. unfold hex_value in *.
  destruct (Z.ltb_spec max (acc * 16)); [lia|]. destruct (Z.ltb_spec max (acc * 16 + d)); [lia|].
  apply IH; [lia|done|done].
Qed.
Lemma lower_hex_value n :
  0 <= n <= u256_max → hexdigits (lower_hex n) ∧ hex_value 0 (lower_hex n) = n.
Proof.
  intros Hn. destruct (lower_hex_loop_spec n 64 n) as (Hr & _); [lia|simpl; lia|].
  apply radix16_loop_value in Hr as [? Hv]. split; [done|]. unfold lower_hex. by symmetry.
Qed.
Lemma nibbles_value hi lo : 0 <= hi < 16 → 0 <= lo < 16 → Z.lor (Z.shiftl hi 4) lo = hi * 16 + lo.
Proof.
  intros Hhi Hlo.
  assert (Hall : forallb (λ hi, forallb (λ lo, Z.lor (Z.shiftl hi 4) lo =? hi * 16 + lo)
    (seqZ 0 16)) (seqZ 0 16) = true) by reflexivity.
  rewrite forallb_forall in Hall. specialize (Hall hi ltac:(apply list_elem_of_In, elem_of_seqZ; lia)).
  rewrite forallb_forall in Hall. specialize (Hall lo ltac:(apply list_elem_of_In, elem_of_seqZ; lia)).
  by apply Z.eqb_eq.
Qed.
(** Pairs of digits are bytes of the same value. *)
Lemma hex_pairs_value n acc s :
  (length s <= n)%nat → hexdigits s → len s mod 2 = 0 →
  ∃ out, hex_pairs s = Some out ∧ hex_value acc s = acc * 256 ^ len out + be_value out.
Proof.
  revert acc s. induction n as [|n IH]; intros acc [|a [|b s]] Hlen Hs Hmod; simpl in Hlen; try lia.
  - exists []. split; [done|]. unfold len, be_value. simpl. lia.
  - exists []. split; [done|]. unfold len, be_value. simpl. lia.
  - done.
  - rewrite !hexdigits_cons in Hs. destruct Hs as ([hi Hhi] & [lo Hlo] & Hs).
    pose proof (digit_value_range _ _ Hhi). pose proof (digit_value_range _ _ Hlo).
    simpl. rewrite Hhi, Hlo. simpl.
    destruct (IH ((acc * 16 + hi) * 16 + lo) s) as (out & -> & Hv); [lia|done| |].
    { unfold len in *. simpl length in Hmod.
      replace (Z.of_nat (S (S (length s)))) with (Z.of_nat (length s) + 1 * 2) in Hmod by lia.
      by rewrite Z.mod_add in Hmod by lia. }
    simpl. eexists. split; [done|]. rewrite nibbles_value, be_value_cons by done.
    unfold hex_value in *. rewrite Hv. unfold len. simpl length.
    rewrite Nat2Z.inj_succ, Z.pow_succ_r by lia. lia.
Qed.
Lemma hexdigits_hex_of_bytes l : Forall is_byte l → hexdigits (hex_of_bytes l).
Proof.
  intros Hl. unfold hex_of_bytes. induction Hl as [|b l Hb Hl IH]; [done|]. csimpl.
  destruct (is_byte_codes b Hb) as (_ & _ & _ & Rhi & Rlo).
  rewrite !hexdigits_cons, !digit_value_hex_digit by done. done.
Qed.
Lemma hex_of_bytes_value l : Forall is_byte l → hex_value 0 (hex_of_bytes l) = be_value l.
Proof.
  intros Hl. destruct (hex_pairs_value _ 0 (hex_of_bytes l) (le_n _)) as (out & Hout & Hv).
  - by apply hexdigits_hex_of_bytes.
  - unfold len. rewrite length_hex_of_bytes, Nat2Z.inj_mul, Z.mul_comm. by apply Z.mod_mul.
  - rewrite hex_pairs_of_bytes in Hout by done. simplify_eq. lia.
Qed.
Lemma to_ascii_lowercase_hex acc s :
  hexdigits s → hexdigits (to_ascii_lowercase s) ∧ hex_value acc (to_ascii_lowercase s) = hex_value acc s ∧
  to_ascii_lowercase (to_ascii_lowercase s) = to_ascii_lowercase s.
Proof.
  unfold hex_value, to_ascii_lowercase. revert acc.
  induction s as [|b s IH]; intros acc; csimpl; [done|]. rewrite hexdigits_cons. intros [[d Hd] Hs].
  assert (Hlow : let b' := if (65 <=? b) && (b <=? 90) then b + 32 else b in
    digit_value b' = digit_value b ∧ (if (65 <=? b') && (b' <=? 90) then b' + 32 else b') = b').
  { cbv zeta. unfold digit_value in *. repeat case_if_goal; bool_to_prop; try lia; split; try lia; try done.
    all: repeat case_if_goal; bool_to_prop; try lia; try done; f_equal; lia. }
  destruct Hlow as [Hd' Hid]. rewrite hexdigits_cons, Hd', Hid.
  destruct (IH (acc * 16 + default 0 (digit_value b)) Hs) as (? & -> & ->). naive_solver.
Qed.
