(* ===== verification/Floats.v ===== *)
(** * [f64] arithmetic

    Rust's [f64] is IEEE-754 binary64.  The Standard Library's [SpecFloat] computes
    it on exact integers, so every statistic of the source evaluates in the kernel.  The
    methods of [f64] that the statistics modules of [eth2077-types] call follow: rounding,
    clamping, comparing, bit patterns.  The functions of the C mathematics library, whose
    results are not specified to the last bit, are the class [Libm].  A NaN has no sign
    here; the sign of a zero that [min] and [max] may choose freely is that of the second
    argument. *)
From Stdlib Require Export SpecFloat.
From S2P Require Import Prelude Strings.
Local Open Scope Z_scope.

Abbreviation f64 := spec_float.
Definition f64_add : f64 → f64 → f64 := SFadd 53 1024.
Definition f64_sub : f64 → f64 → f64 := SFsub 53 1024.
Definition f64_mul : f64 → f64 → f64 := SFmul 53 1024.
Definition f64_div : f64 → f64 → f64 := SFdiv 53 1024.
Definition f64_neg : f64 → f64 := SFopp.
(** [a < b]; [false] when one of them is NaN. *)
Definition f64_lt : f64 → f64 → bool := SFltb.
(** [z as f64]: rounds to nearest, ties to even. *)
Definition f64_of_u64 (z : Z) : f64 := binary_normalize 53 1024 z 0 false.
Definition f64_zero : f64 := S754_zero false.
(** [x as u64]: truncates and saturates; NaN gives 0. *)
Definition f64_to_u64 (x : f64) : Z :=
  match x with
  | S754_zero _ | S754_nan => 0
  | S754_infinity s => if s then 0 else u64_max
  | S754_finite s m e =>
      if s then 0
      else Z.min (if 0 <=? e then Z.pos m * 2 ^ e else Z.pos m / 2 ^ (- e)) u64_max
  end.
(** [a] in [a * 2^e], for the literals of the source. *)
Definition f64_literal (m : positive) (e : Z) : f64 := S754_finite false m e.

(** ** Rounding, clamping and comparing *)

(** The double nearest to a decimal literal [n / d], for [n] and [d] below 2^53. *)
Definition dec (n d : Z) : f64 := f64_div (f64_of_u64 n) (f64_of_u64 d).
(** A literal without a fraction. *)
Abbreviation int := f64_of_u64 (only parsing).

Definition f64_is_finite (x : f64) : bool :=
  match x with S754_zero _ | S754_finite _ _ _ => true | _ => false end.
Definition f64_is_nan (x : f64) : bool := match x with S754_nan => true | _ => false end.
(** [a <= b] and [a == b]. *)
Definition f64_le : f64 → f64 → bool := SFleb.
Definition f64_eq : f64 → f64 → bool := SFeqb.
Definition f64_abs : f64 → f64 := SFabs.
Definition f64_sqrt : f64 → f64 := SFsqrt 53 1024.
(** [f64::min] and [f64::max]: a NaN gives way to a number. *)
Definition f64_min (a b : f64) : f64 :=
  if f64_is_nan a then b else if f64_is_nan b then a else if f64_lt a b then a else b.
Definition f64_maximum (a b : f64) : f64 :=
  if f64_is_nan a then b else if f64_is_nan b then a else if f64_lt b a then a else b.
(** [f64::clamp], whose assertion [lo <= hi] holds of the constants it is called with;
    where it is called with other values, the panic is written at the call. *)
Definition f64_clamp (x lo hi : f64) : f64 :=
  let x := if f64_lt x lo then lo else x in
  if f64_lt hi x then hi else x.

(** An integer of a sign, as a float; zero keeps the sign. *)
Definition signed_float (s : bool) (n : Z) : f64 := binary_normalize 53 1024 (if s then - n else n) 0 s.
(** [f64::round]: to the nearest integer, halves away from zero. *)
Definition f64_round (x : f64) : f64 :=
  match x with
  | S754_finite s m e => if 0 <=? e then x else signed_float s ((Z.pos m + 2 ^ (- e - 1)) / 2 ^ (- e))
  | _ => x
  end.
(** [f64::ceil] and [f64::floor]. *)
Definition f64_ceil (x : f64) : f64 :=
  match x with
  | S754_finite s m e =>
      if 0 <=? e then x
      else signed_float s (if s then Z.pos m / 2 ^ (- e) else (Z.pos m + 2 ^ (- e) - 1) / 2 ^ (- e))
  | _ => x
  end.
Definition f64_floor (x : f64) : f64 :=
  match x with
  | S754_finite s m e =>
      if 0 <=? e then x
      else signed_float s (if s then (Z.pos m + 2 ^ (- e) - 1) / 2 ^ (- e) else Z.pos m / 2 ^ (- e))
  | _ => x
  end.

(** [f64::total_cmp]: the numbers in order, [-0] below [+0], NaN above all. *)
Definition total_rank (x : f64) : Z :=
  match x with S754_nan => 1 | _ => 0 end.
Definition zero_rank (x : f64) : Z := match x with S754_zero true => 0 | _ => 1 end.
Definition f64_total_cmp (a b : f64) : comparison :=
  match SFcompare a b with
  | Some Eq => Z.compare (zero_rank a) (zero_rank b)
  | Some c => c
  | None => Z.compare (total_rank a) (total_rank b)
  end.
(** [iter.sum::<f64>()], from [+0]; the standard library starts from [-0] since Rust 1.83,
    which shows only in the sign of a sum that is zero. *)
Definition f64_sum (l : list f64) : f64 := foldl f64_add f64_zero l.

(** [f64::to_bits]; the NaN that has no sign or payload here has those of the quiet NaN that
    arithmetic produces. *)
Definition f64_to_bits (x : f64) : Z :=
  let sign (s : bool) := if s then 2 ^ 63 else 0 in
  match x with
  | S754_zero s => sign s
  | S754_infinity s => sign s + 2047 * 2 ^ 52
  | S754_nan => 2047 * 2 ^ 52 + 2 ^ 51
  | S754_finite s m e => sign s + (e + 1074) * 2 ^ 52 + Z.pos m
  end.

(** [format!("{:.digits$}")]: the exact value, rounded to the digits, halves to even. *)
Definition round_half_even (n d : Z) : Z :=
  let q := n / d in let r := n mod d in
  if 2 * r <? d then q else if d <? 2 * r then q + 1 else if Z.even q then q else q + 1.
(** The digits of a number, at least [width] of them; no double has 400. *)
Definition padded_decimal (width : nat) (n : Z) : Str :=
  let digits := decimal_loop 400 n in replicate (width - length digits) 48 ++ digits.
Definition f64_fixed (digits : nat) (x : f64) : Str :=
  match x with
  | S754_nan => str "NaN"
  | S754_infinity s => if s then str "-inf" else str "inf"
  | _ =>
      let '(s, n, d) :=
        match x with
        | S754_finite s m e => if 0 <=? e then (s, Z.pos m * 2 ^ e, 1) else (s, Z.pos m, 2 ^ (- e))
        | S754_zero s => (s, 0, 1)
        | _ => (false, 0, 1)
        end in
      let scaled := round_half_even (n * 10 ^ Z.of_nat digits) d in
      let text := padded_decimal (S digits) scaled in
      let whole := take (length text - digits) text in
      (if s then str "-" else []) ++ whole ++
      match digits with O => [] | _ => str "." ++ drop (length text - digits) text end
  end.

(** [f64::powf], [log10], [ln], [log2], [exp]. *)
Class Libm := {
  f64_powf : f64 → f64 → f64;
  f64_log10 : f64 → f64;
  f64_ln : f64 → f64;
  f64_log2 : f64 → f64;
  f64_exp : f64 → f64;
}.

Example fixed_examples :
  f64_fixed 3 (dec 2 3) = str "0.667" ∧ f64_fixed 6 (dec 1 8) = str "0.125000" ∧
  f64_fixed 0 (dec 5 2) = str "2" ∧ f64_fixed 2 (f64_neg (dec 667 10)) = str "-66.70" ∧
  f64_fixed 3 f64_zero = str "0.000".
Proof. split_and!; vm_compute; reflexivity. Qed.
Example round_examples :
  f64_round (dec 5 2) = int 3 ∧ f64_round (f64_neg (dec 5 2)) = f64_neg (int 3) ∧
  f64_ceil (dec 21 10) = int 3 ∧ f64_floor (f64_neg (dec 21 10)) = f64_neg (int 3) ∧
  f64_round (dec 1 3) = S754_zero false.
Proof. split_and!; vm_compute; reflexivity. Qed.
Example bits_examples :
  f64_to_bits (dec 1 1) = 0x3FF0000000000000 ∧ f64_to_bits (f64_neg (dec 1 10)) = 0xBFB999999999999A ∧
  f64_to_bits (S754_finite false 1 (-1074)) = 1.
Proof. split_and!; vm_compute; reflexivity. Qed.
