(* ===== verification/GasSchedule.v ===== *)
(** * Gas repricing schedules, EIP-8007 ([eth2077-execution/src/eip8007.rs])

    Validation, the two ways to read a schedule ([lookup_gas_cost] scans the rules,
    [build_gas_table] folds them into a map) and the impact statistics. *)
From S2P Require Import Prelude Floats.
Local Open Scope Z_scope.

(* eth2077-execution/src/eip8007.rs:5-14 OpcodeCategory *)
Inductive OpcodeCategory :=
| Computation | Memory | Storage | Call | Create | Log | Hash | Environment.
#[export] Instance OpcodeCategory_eq_dec : EqDecision OpcodeCategory.
Proof. solve_decision. Defined.

(* eth2077-execution/src/eip8007.rs:17-23 GasRepricingRule *)
Record GasRepricingRule := Rule {
  gr_opcode : Z;
  gr_category : OpcodeCategory;
  gr_old_gas : Z;
  gr_new_gas : Z;
  gr_rationale : string;
}.

(* eth2077-execution/src/eip8007.rs:26-30 GasRepricingSchedule *)
Record GasRepricingSchedule := {
  gs_rules : list GasRepricingRule;
  gs_activation_block : Z;
  gs_name : string;
}.

(* eth2077-execution/src/eip8007.rs:33-38 GasRepricingError *)
Inductive GasRepricingError :=
| DuplicateOpcode (opcode : Z)
| ZeroGasCost (opcode : Z)
| NoRules
| InvalidActivationBlock.

(* eth2077-execution/src/eip8007.rs:41-47 RepricingImpact *)
Record RepricingImpact := {
  ri_total_opcodes_affected : Z;
  ri_avg_cost_change_percent : f64;
  ri_max_increase_percent : f64;
  ri_max_decrease_percent : f64;
  ri_categories_affected : list OpcodeCategory;
}.

(* eth2077-execution/src/eip8007.rs:49-140 glamsterdam_default_schedule *)
Definition glamsterdam_default_schedule : GasRepricingSchedule := {|
  gs_rules := [
    Rule 0x55 Storage 20000 5000 "Reduce storage write bottleneck costs";
    Rule 0x54 Storage 2100 800 "Reduce storage read bottleneck costs";
    Rule 0x31 Environment 2600 400 "Lower account state access overhead";
    Rule 0x3B Environment 2600 400 "Lower external code size access overhead";
    Rule 0x3C Environment 2600 400 "Lower external code copy access overhead";
    Rule 0x3F Environment 2600 400 "Lower external code hash access overhead";
    Rule 0xF1 Call 2600 700 "Rebalance call overhead for throughput";
    Rule 0xFA Call 2600 700 "Rebalance static call overhead for throughput";
    Rule 0xF4 Call 2600 700 "Rebalance delegate call overhead for throughput";
    Rule 0x20 Hash 30 36 "Align hashing cost with observed execution pressure";
    Rule 0xF0 Create 32000 48000 "Increase contract creation cost for global balance";
    Rule 0xF5 Create 32000 48000 "Increase deterministic creation cost for global balance"];
  gs_activation_block := 0;
  gs_name := "glamsterdam";
|}.

(* eth2077-execution/src/eip8007.rs:151-164 validate_repricing_schedule *)
Fixpoint rule_errors (seen_opcodes : gmap Z bool) (rules : list GasRepricingRule)
  : list GasRepricingError :=
  match rules with
  | [] => []
  | rule :: rules =>
      push_if (bool_decide (is_Some (seen_opcodes !! gr_opcode rule))) (DuplicateOpcode (gr_opcode rule)) ++
      push_if ((gr_old_gas rule =? 0) || (gr_new_gas rule =? 0)) (ZeroGasCost (gr_opcode rule)) ++
      rule_errors (<[gr_opcode rule := true]> seen_opcodes) rules
  end.

(* eth2077-execution/src/eip8007.rs:142-171 validate_repricing_schedule *)
Definition validate_repricing_schedule (schedule : GasRepricingSchedule)
  : result unit (list GasRepricingError) :=
  errors_to_result (push_if (bool_decide (gs_rules schedule = [])) NoRules ++
                    rule_errors ∅ (gs_rules schedule)).

(* eth2077-execution/src/eip8007.rs:192-196 compute_repricing_impact *)
Definition change_percent (rule : GasRepricingRule) : f64 :=
  if gr_old_gas rule =? 0 then f64_zero
  else f64_mul (f64_div (f64_sub (f64_of_u64 (gr_new_gas rule)) (f64_of_u64 (gr_old_gas rule)))
                  (f64_of_u64 (gr_old_gas rule))) (f64_of_u64 100).

(** The accumulators of the loop. *)
(* eth2077-execution/src/eip8007.rs:186-189 compute_repricing_impact *)
Record ImpactState := {
  is_sum : f64;
  is_max_increase : f64;
  is_max_decrease : f64;
  is_categories : list OpcodeCategory;
}.

(* eth2077-execution/src/eip8007.rs:191-213 compute_repricing_impact *)
Definition impact_step (s : ImpactState) (rule : GasRepricingRule) : ImpactState :=
  let change := change_percent rule in
  {| is_sum := f64_add (is_sum s) change;
     is_max_increase := if f64_lt (is_max_increase s) change then change else is_max_increase s;
     is_max_decrease :=
       if f64_lt change f64_zero then
         let decrease := f64_neg change in
         if f64_lt (is_max_decrease s) decrease then decrease else is_max_decrease s
       else is_max_decrease s;
     is_categories :=
       if bool_decide (gr_category rule ∈ is_categories s) then is_categories s
       else is_categories s ++ [gr_category rule] |}.

(* eth2077-execution/src/eip8007.rs:173-222 compute_repricing_impact *)
Definition compute_repricing_impact (schedule : GasRepricingSchedule) : RepricingImpact :=
  let total := len (gs_rules schedule) in
  if total =? 0 then
    {| ri_total_opcodes_affected := 0; ri_avg_cost_change_percent := f64_zero;
       ri_max_increase_percent := f64_zero; ri_max_decrease_percent := f64_zero;
       ri_categories_affected := [] |}
  else
    let s := foldl impact_step
      {| is_sum := f64_zero; is_max_increase := f64_zero; is_max_decrease := f64_zero;
         is_categories := [] |} (gs_rules schedule) in
    {| ri_total_opcodes_affected := total;
       ri_avg_cost_change_percent := f64_div (is_sum s) (f64_of_u64 total);
       ri_max_increase_percent := is_max_increase s;
       ri_max_decrease_percent := is_max_decrease s;
       ri_categories_affected := is_categories s |}.

(* eth2077-execution/src/eip8007.rs:224-234 lookup_gas_cost *)
Definition lookup_gas_cost (schedule : GasRepricingSchedule) (opcode block_number : Z) : Z :=
  (fix go (rules : list GasRepricingRule) : Z :=
    match rules with
    | [] => 0
    | rule :: rules =>
        if gr_opcode rule =? opcode then
          if gs_activation_block schedule <=? block_number then gr_new_gas rule else gr_old_gas rule
        else go rules
    end) (gs_rules schedule).

(* eth2077-execution/src/eip8007.rs:239-243 build_gas_table *)
Definition effective_cost (schedule : GasRepricingSchedule) (block_number : Z) (rule : GasRepricingRule) : Z :=
  if gs_activation_block schedule <=? block_number then gr_new_gas rule else gr_old_gas rule.

(* eth2077-execution/src/eip8007.rs:236-247 build_gas_table *)
Definition build_gas_table (schedule : GasRepricingSchedule) (block_number : Z) : gmap Z Z :=
  foldl (λ gas_table rule,
    <[gr_opcode rule := effective_cost schedule block_number rule]> gas_table) ∅ (gs_rules schedule).

(** ** Validation *)

Record schedule_valid (schedule : GasRepricingSchedule) : Prop := {
  sv_nonempty : gs_rules schedule ≠ [];
  sv_opcodes : NoDup (gr_opcode <$> gs_rules schedule);
  sv_costs : Forall (λ r, gr_old_gas r ≠ 0 ∧ gr_new_gas r ≠ 0) (gs_rules schedule);
}.

Lemma rule_errors_nil seen rules :
  rule_errors seen rules = [] ↔
  NoDup (gr_opcode <$> rules) ∧ Forall (λ r, seen !! gr_opcode r = None) rules ∧
  Forall (λ r, gr_old_gas r ≠ 0 ∧ gr_new_gas r ≠ 0) rules.
Proof.
  revert seen. induction rules as [|r rules IH]; intros seen; csimpl; [repeat constructor|].
  rewrite !app_nil, !push_if_nil, IH, bool_decide_eq_false, <- eq_None_not_Some, orb_false_iff,
    !Z.eqb_neq, NoDup_cons, !Forall_cons.
  assert (Forall (λ r', <[gr_opcode r := true]> seen !! gr_opcode r' = None) rules ↔
    gr_opcode r ∉ gr_opcode <$> rules ∧ Forall (λ r', seen !! gr_opcode r' = None) rules) as ->;
    [|tauto].
  rewrite !Forall_forall, list_elem_of_fmap. setoid_rewrite lookup_insert_None. naive_solver.
Qed.
Lemma validate_repricing_schedule_ok schedule :
  validate_repricing_schedule schedule = Ok tt ↔ schedule_valid schedule.
Proof.
  unfold validate_repricing_schedule.
  rewrite errors_to_result_ok, app_nil, push_if_nil, bool_decide_eq_false, rule_errors_nil.
  assert (Forall (λ r, (∅ : gmap Z bool) !! gr_opcode r = None) (gs_rules schedule))
    by (apply Forall_forall; intros; apply lookup_empty).
  split; [intros; split; tauto|intros []; tauto].
Qed.

(** The default schedule is valid, and its statistics are those of its rules:
    twelve opcodes, the largest increase 50 percent, five categories. *)
Theorem default_schedule_valid :
  validate_repricing_schedule glamsterdam_default_schedule = Ok tt ∧
  let impact := compute_repricing_impact glamsterdam_default_schedule in
  ri_total_opcodes_affected impact = 12 ∧
  f64_to_u64 (ri_max_increase_percent impact) = 50 ∧
  f64_to_u64 (ri_max_decrease_percent impact) = 84 ∧
  ri_categories_affected impact = [Storage; Environment; Call; Hash; Create].
Proof. vm_compute. done. Qed.

(** ** The two readings agree *)

Lemma lookup_gas_cost_list_to_map schedule opcode block_number :
  lookup_gas_cost schedule opcode block_number =
  default 0 (list_to_map (M := gmap Z Z)
    ((λ r, (gr_opcode r, effective_cost schedule block_number r)) <$> gs_rules schedule) !! opcode).
Proof.
  unfold lookup_gas_cost. induction (gs_rules schedule) as [|r rules IH]; csimpl.
  - by rewrite lookup_empty.
  - destruct (Z.eqb_spec (gr_opcode r) opcode) as [->|Hne].
    + by rewrite lookup_insert_eq.
    + by rewrite lookup_insert_ne.
Qed.
Lemma build_gas_table_list_to_map schedule block_number :
  NoDup (gr_opcode <$> gs_rules schedule) →
  build_gas_table schedule block_number = list_to_map (M := gmap Z Z)
    ((λ r, (gr_opcode r, effective_cost schedule block_number r)) <$> gs_rules schedule).
Proof.
  unfold build_gas_table. induction (gs_rules schedule) as [|r rules IH] using rev_ind; [done|].
  rewrite fmap_app, NoDup_app. intros (Hnd & Hdisj & _).
  rewrite foldl_snoc, IH by done. rewrite fmap_app. csimpl. rewrite list_to_map_snoc; [done|].
  rewrite <- list_fmap_compose. intros Hin. apply (Hdisj _ Hin). csimpl. left.
Qed.

(** Scanning and tabulating agree: for a validated schedule, at any block,
    [lookup_gas_cost] answers what [build_gas_table] holds, with 0 exactly for the
    opcodes no rule mentions; and what it answers for a rule's opcode is the rule's
    new cost from the activation block on, its old cost before. *)
Theorem lookup_agrees_with_table (schedule : GasRepricingSchedule) (opcode block_number : Z) :
  validate_repricing_schedule schedule = Ok tt →
  lookup_gas_cost schedule opcode block_number =
    default 0 (build_gas_table schedule block_number !! opcode) ∧
  (lookup_gas_cost schedule opcode block_number = 0 ↔ opcode ∉ gr_opcode <$> gs_rules schedule) ∧
  (∀ rule, rule ∈ gs_rules schedule → gr_opcode rule = opcode →
     lookup_gas_cost schedule opcode block_number =
       if gs_activation_block schedule <=? block_number then gr_new_gas rule else gr_old_gas rule).
Proof.
  intros [_ Hnd Hcost]%validate_repricing_schedule_ok.
  set (pairs := (λ r, (gr_opcode r, effective_cost schedule block_number r)) <$> gs_rules schedule).
  assert (Hkeys : pairs.*1 = gr_opcode <$> gs_rules schedule).
  { unfold pairs. by rewrite <- list_fmap_compose. }
  assert (Hrule : ∀ rule, rule ∈ gs_rules schedule → gr_opcode rule = opcode →
    lookup_gas_cost schedule opcode block_number = effective_cost schedule block_number rule).
  { intros rule Hin <-. rewrite lookup_gas_cost_list_to_map. fold pairs.
    rewrite (elem_of_list_to_map_1 pairs _ (effective_cost schedule block_number rule)); [done| |].
    - by rewrite Hkeys.
    - apply list_elem_of_fmap. eauto. }
  split_and!; [|split|done].
  - by rewrite lookup_gas_cost_list_to_map, build_gas_table_list_to_map.
  - intros Hz (rule & -> & Hin)%list_elem_of_fmap. rewrite (Hrule rule) in Hz by done.
    rewrite Forall_forall in Hcost. destruct (Hcost _ Hin). unfold effective_cost in Hz.
    by case_if_in Hz.
  - intros Hno. rewrite lookup_gas_cost_list_to_map. fold pairs.
    rewrite not_elem_of_list_to_map_1; [done|]. by rewrite Hkeys.
Qed.
Lemma lookup_agrees_with_table_witness :
  lookup_gas_cost glamsterdam_default_schedule 0x55 7 =
  default 0 (build_gas_table glamsterdam_default_schedule 7 !! 0x55).
Proof.
  refine (proj1 (lookup_agrees_with_table glamsterdam_default_schedule 0x55 7 _)).
  vm_compute. reflexivity.
Defined.
