(* ===== verification/AccountTypes.v ===== *)
(** * Authorization lists and state access requests ([eth2077-execution/src/eip7702.rs], [eip7864.rs])

    Part 1. Authorization lists, EIP-7702 ([eth2077-execution/src/eip7702.rs])

    The structural validation of set-code authorizations.  The signature bounds
    are checked on big-endian byte arrays; the theorems read them as integers.

    Part 2. Historical state access requests, EIP-7864 ([eth2077-execution/src/eip7864.rs]) *)
From S2P Require Import Prelude.
Local Open Scope Z_scope.

(* eth2077-execution/src/eip7702.rs:6-13 AuthorizationEntry *)
Record AuthorizationEntry := {
  ae_chain_id : Z;
  ae_address : list Z;
  ae_nonce : Z;
  ae_y_parity : Z;
  ae_r : list Z;
  ae_s : list Z;
}.

(* eth2077-execution/src/eip7702.rs:16-40 AuthorizationError *)
Inductive AuthorizationError :=
| EmptyAuthorizationList
| InvalidChainId (index chain_id expected : Z)
| InvalidYParity (index value : Z)
| ZeroAddress (index : Z)
| DuplicateAuthorization (index : Z) (addr : list Z)
| SignatureRTooLarge (index : Z)
| SignatureSInUpperHalf (index : Z).

(* eth2077-execution/src/eip7702.rs:43-46 SECP256K1_N *)
Definition SECP256K1_N : list Z := [
  0xFF; 0xFF; 0xFF; 0xFF; 0xFF; 0xFF; 0xFF; 0xFF; 0xFF; 0xFF; 0xFF; 0xFF; 0xFF; 0xFF; 0xFF; 0xFE;
  0xBA; 0xAE; 0xDC; 0xE6; 0xAF; 0x48; 0xA0; 0x3B; 0xBF; 0xD2; 0x5E; 0x8C; 0xD0; 0x36; 0x41; 0x41].

(* eth2077-execution/src/eip7702.rs:49-52 SECP256K1_N_DIV_2 *)
Definition SECP256K1_N_DIV_2 : list Z := [
  0x7F; 0xFF; 0xFF; 0xFF; 0xFF; 0xFF; 0xFF; 0xFF; 0xFF; 0xFF; 0xFF; 0xFF; 0xFF; 0xFF; 0xFF; 0xFF;
  0x5D; 0x57; 0x6E; 0x73; 0x57; 0xA4; 0x50; 0x1D; 0xDF; 0xE9; 0x2F; 0x46; 0x68; 0x1B; 0x20; 0xA0].

(* eth2077-execution/src/eip7702.rs:112-122 bytes32_less_than *)
Fixpoint bytes32_less_than (a b : list Z) : bool :=
  match a, b with
  | x :: a, y :: b =>
      if x <? y then true else if y <? x then false else bytes32_less_than a b
  | _, _ => false
  end.

(* eth2077-execution/src/eip7702.rs:124-126 bytes32_less_than_or_equal *)
Definition bytes32_less_than_or_equal (a b : list Z) : bool :=
  bool_decide (a = b) || bytes32_less_than a b.

(* eth2077-execution/src/eip7702.rs:68-102 validate_authorization_list *)
Fixpoint authorization_errors (expected_chain_id index : Z) (seen_addresses : gset (list Z))
    (authorizations : list AuthorizationEntry) : list AuthorizationError :=
  match authorizations with
  | [] => []
  | a :: authorizations =>
      push_if (negb (ae_chain_id a =? 0) && negb (ae_chain_id a =? expected_chain_id))
        (InvalidChainId index (ae_chain_id a) expected_chain_id) ++
      push_if (negb (ae_y_parity a =? 0) && negb (ae_y_parity a =? 1))
        (InvalidYParity index (ae_y_parity a)) ++
      push_if (bool_decide (ae_address a = zero_bytes 20)) (ZeroAddress index) ++
      push_if (bool_decide (ae_address a ∈ seen_addresses))
        (DuplicateAuthorization index (ae_address a)) ++
      push_if (negb (bytes32_less_than (ae_r a) SECP256K1_N)) (SignatureRTooLarge index) ++
      push_if (negb (bytes32_less_than_or_equal (ae_s a) SECP256K1_N_DIV_2))
        (SignatureSInUpperHalf index) ++
      authorization_errors expected_chain_id (index + 1) ({[ae_address a]} ∪ seen_addresses)
        authorizations
  end.

(* eth2077-execution/src/eip7702.rs:57-109 validate_authorization_list *)
Definition validate_authorization_list (authorizations : list AuthorizationEntry)
    (expected_chain_id : Z) : result unit (list AuthorizationError) :=
  errors_to_result (push_if (bool_decide (authorizations = [])) EmptyAuthorizationList ++
    authorization_errors expected_chain_id 0 ∅ authorizations).

(** ** The byte comparisons are integer comparisons *)

Definition is_bytes32 (l : list Z) : Prop := Forall is_byte l ∧ length l = 32%nat.
Definition AuthorizationEntry_wf (a : AuthorizationEntry) : Prop :=
  is_bytes32 (ae_r a) ∧ is_bytes32 (ae_s a).

Lemma bytes32_less_than_cmp a b :
  length a = length b →
  bytes32_less_than a b = match bytes_cmp a b with Lt => true | _ => false end.
Proof.
  revert b. induction a as [|x a IH]; intros [|y b] Hlen; simplify_eq/=; [done|].
  destruct (Z.compare_spec x y) as [->|Hlt|Hlt]; simpl.
  - by rewrite Z.ltb_irrefl, IH.
  - by rewrite (proj2 (Z.ltb_lt x y)).
  - rewrite (proj2 (Z.ltb_ge x y)) by lia. by rewrite (proj2 (Z.ltb_lt y x)).
Qed.
Lemma bytes32_less_than_value a b :
  is_bytes32 a → is_bytes32 b → bytes32_less_than a b = (be_value a <? be_value b).
Proof.
  intros [Ha Hla] [Hb Hlb]. rewrite bytes32_less_than_cmp, bytes_cmp_be_value by congruence.
  unfold Z.ltb. by destruct (be_value a ?= be_value b).
Qed.
Lemma bytes32_less_than_or_equal_value a b :
  is_bytes32 a → is_bytes32 b → bytes32_less_than_or_equal a b = (be_value a <=? be_value b).
Proof.
  intros Ha Hb. unfold bytes32_less_than_or_equal. rewrite bytes32_less_than_value by done.
  case_bool_decide as Heq; simpl.
  - subst. symmetry. apply Z.leb_refl.
  - destruct Ha as [Ha Hla], Hb as [Hb Hlb].
    assert (be_value a ≠ be_value b).
    { intros Hv. apply Heq. rewrite <- (to_be_bytes_be_value a), <- (to_be_bytes_be_value b) by done.
      by rewrite Hla, Hlb, Hv. }
    destruct (Z.ltb_spec (be_value a) (be_value b)), (Z.leb_spec (be_value a) (be_value b)); lia.
Qed.

(** The order of secp256k1. *)
Definition secp256k1_n : Z := 0xFFFFFFFFFFFFFFFFFFFFFFFFFFFFFFFEBAAEDCE6AF48A03BBFD25E8CD0364141.

Lemma SECP256K1_N_value : is_bytes32 SECP256K1_N ∧ be_value SECP256K1_N = secp256k1_n.
Proof. split; [split; [repeat constructor; done|done]|done]. Qed.
Lemma SECP256K1_N_DIV_2_value :
  is_bytes32 SECP256K1_N_DIV_2 ∧ be_value SECP256K1_N_DIV_2 = secp256k1_n / 2.
Proof. split; [split; [repeat constructor; done|done]|done]. Qed.

(** ** What validation accepts *)

(** An entry the chain [expected] may execute, its signature in the low half. *)
Record authorization_valid (expected : Z) (a : AuthorizationEntry) : Prop := {
  av_chain : ae_chain_id a = 0 ∨ ae_chain_id a = expected;
  av_parity : ae_y_parity a = 0 ∨ ae_y_parity a = 1;
  av_address : ae_address a ≠ zero_bytes 20;
  av_r : be_value (ae_r a) < secp256k1_n;
  av_s : be_value (ae_s a) ≤ secp256k1_n / 2;
}.

Lemma neq_pair_false (x a b : Z) : negb (x =? a) && negb (x =? b) = false ↔ x = a ∨ x = b.
Proof. destruct (Z.eqb_spec x a), (Z.eqb_spec x b); simpl; naive_solver. Qed.

Lemma authorization_errors_nil expected index seen l :
  Forall AuthorizationEntry_wf l →
  authorization_errors expected index seen l = [] ↔
  Forall (authorization_valid expected) l ∧ NoDup (ae_address <$> l) ∧
  Forall (λ a, ae_address a ∉ seen) l.
Proof.
  intros Hwf. revert index seen. induction Hwf as [|a l [Hr Hs] Hwf IH]; intros index seen; csimpl.
  { repeat constructor. }
  rewrite !app_nil, !push_if_nil, IH, !neq_pair_false, !bool_decide_eq_false, !negb_false_iff,
    NoDup_cons, !Forall_cons.
  destruct SECP256K1_N_value as [HN HNv], SECP256K1_N_DIV_2_value as [H2 H2v].
  rewrite bytes32_less_than_value, bytes32_less_than_or_equal_value, Z.ltb_lt, Z.leb_le, HNv, H2v by done.
  assert (Forall (λ b, ae_address b ∉ {[ae_address a]} ∪ seen) l ↔
    ae_address a ∉ ae_address <$> l ∧ Forall (λ b, ae_address b ∉ seen) l) as ->.
  { rewrite !Forall_forall, list_elem_of_fmap. set_solver. }
  split.
  - intros (?&?&?&?&?&?&?&?&?&?). done.
  - intros ([[]?]&[]&[]). split_and!; done.
Qed.

(** Validation accepts exactly the non-empty lists of distinct, non-zero
    addresses whose entries are for this chain or any, have parity 0 or 1, an [r]
    below the secp256k1 order and an [s] in its lower half, as integers. *)
Theorem validate_authorization_list_ok (l : list AuthorizationEntry) (expected : Z) :
  Forall AuthorizationEntry_wf l →
  validate_authorization_list l expected = Ok tt ↔
  l ≠ [] ∧ NoDup (ae_address <$> l) ∧ Forall (authorization_valid expected) l.
Proof.
  intros Hwf. unfold validate_authorization_list.
  rewrite errors_to_result_ok, app_nil, push_if_nil, authorization_errors_nil, bool_decide_eq_false by done.
  assert (Forall (λ a, ae_address a ∉ (∅ : gset (list Z))) l) by (apply Forall_forall; set_solver).
  tauto.
Qed.

Definition example_authorization : AuthorizationEntry :=
  {| ae_chain_id := 1; ae_address := repeat 7 20; ae_nonce := 0; ae_y_parity := 1;
     ae_r := repeat 1 32; ae_s := SECP256K1_N_DIV_2 |}.
Lemma validate_authorization_list_ok_witness :
  [example_authorization] ≠ [] ∧ NoDup (ae_address <$> [example_authorization]) ∧
  Forall (authorization_valid 1) [example_authorization].
Proof.
  apply (validate_authorization_list_ok [example_authorization] 1); [|vm_compute; reflexivity].
  repeat constructor; done.
Defined.

(** ** Part 2 *)

(* eth2077-execution/src/eip7864.rs:3-3 BASE_GAS_COST *)
Definition BASE_GAS_COST : Z := 3000.
(* eth2077-execution/src/eip7864.rs:4-4 PROOF_BYTE_GAS_COST *)
Definition PROOF_BYTE_GAS_COST : Z := 16.

(* eth2077-execution/src/eip7864.rs:7-12 StateAccessType *)
Inductive StateAccessType := AccountBalance | StorageSlot | CodeHash | AccountNonce.

(* eth2077-execution/src/eip7864.rs:15-21 StateAccessRequest *)
Record StateAccessRequest := {
  sr_access_type : StateAccessType;
  sr_target_address : list Z;
  sr_storage_slot : option (list Z);
  sr_block_number : Z;
  sr_proof_data : list Z;
}.

(* eth2077-execution/src/eip7864.rs:31-38 StateAccessError *)
Inductive StateAccessError :=
| InvalidProofEncoding
| BlockTooOld (requested oldest_allowed : Z)
| BlockInFuture (requested current : Z)
| StorageSlotRequiredForType
| StorageSlotNotAllowedForType
| ProofTooLarge (size max : Z).

(* eth2077-execution/src/eip7864.rs:61-72 validate_state_access_request *)
Definition check_slot (request : StateAccessRequest) : result unit StateAccessError :=
  match sr_access_type request, sr_storage_slot request with
  | StorageSlot, None => Err StorageSlotRequiredForType
  | StorageSlot, Some _ => Ok tt
  | _, Some _ => Err StorageSlotNotAllowedForType
  | _, None => Ok tt
  end.

(* eth2077-execution/src/eip7864.rs:40-88 validate_state_access_request *)
Definition validate_state_access_request (request : StateAccessRequest)
    (current_block lookback_window max_proof_size : Z) : result unit StateAccessError :=
  if current_block <? sr_block_number request
  then Err (BlockInFuture (sr_block_number request) current_block) else
  let oldest_allowed := u64_saturating_sub current_block lookback_window in
  if sr_block_number request <? oldest_allowed
  then Err (BlockTooOld (sr_block_number request) oldest_allowed) else
  let? _ := check_slot request in
  let proof_size := len (sr_proof_data request) in
  if max_proof_size <? proof_size then Err (ProofTooLarge proof_size max_proof_size) else
  if (proof_size =? 0) || negb (proof_size mod 32 =? 0) then Err InvalidProofEncoding else
  Ok tt.

(* eth2077-execution/src/eip7864.rs:90-93 estimate_gas_cost *)
Definition estimate_gas_cost (request : StateAccessRequest) : Z :=
  u64_saturating_add BASE_GAS_COST
    (u64_saturating_mul (len (sr_proof_data request)) PROOF_BYTE_GAS_COST).

Lemma check_slot_ok request :
  check_slot request = Ok tt ↔
  (sr_access_type request = StorageSlot ↔ is_Some (sr_storage_slot request)).
Proof.
  unfold check_slot, is_Some.
  destruct (sr_access_type request), (sr_storage_slot request); naive_solver.
Qed.
(** A non-empty proof of whole nodes. *)
Lemma proof_nodes (size : Z) :
  0 ≤ size →
  (size =? 0) || negb (size mod 32 =? 0) = false ↔ ∃ nodes, 1 ≤ nodes ∧ size = 32 * nodes.
Proof.
  intros Hs. rewrite orb_false_iff, negb_false_iff, Z.eqb_neq, Z.eqb_eq. split.
  - intros [Hz Hm]. exists (size / 32). pose proof (Z.div_mod size 32). lia.
  - intros (n & Hn & ->). split; [lia|]. rewrite Z.mul_comm. by apply Z.mod_mul.
Qed.

Lemma validate_state_access_request_ok request current lookback max_size :
  is_u64 current → is_u64 lookback → is_u64 (sr_block_number request) →
  validate_state_access_request request current lookback max_size = Ok tt ↔
  (current - lookback ≤ sr_block_number request ≤ current) ∧
  (sr_access_type request = StorageSlot ↔ is_Some (sr_storage_slot request)) ∧
  (∃ nodes, 1 ≤ nodes ∧ len (sr_proof_data request) = 32 * nodes) ∧
  len (sr_proof_data request) ≤ max_size.
Proof.
  intros Hc Hl Hb. rewrite <- check_slot_ok, <- proof_nodes by (unfold len; lia).
  unfold validate_state_access_request.
  destruct (Z.ltb_spec current (sr_block_number request)); [split; [done|lia]|].
  destruct (Z.ltb_spec (sr_block_number request) (u64_saturating_sub current lookback));
    [split; [done|sat_lia]|].
  assert (current - lookback ≤ sr_block_number request ≤ current) by sat_lia.
  destruct (check_slot request) as [[]|]; simpl; [|split; [done|by intros (_ & ? & _)]].
  destruct (Z.ltb_spec max_size (len (sr_proof_data request))); [split; [done|lia]|].
  destruct (_ || _); (split; [done|]); [by intros (_ & _ & ? & _)|done].
Qed.

(** A request is accepted exactly when its block is in the lookback window,
    it has a slot just when its type is a storage slot, and its proof is a
    non-empty sequence of 32-byte nodes of at most [max_proof_size] bytes; the gas
    of an accepted request is then [3000 + 16] per proof byte, exactly and
    without saturation when the size limit is below [2^59]. *)
Theorem state_access_request_ok (request : StateAccessRequest) (current lookback max_size : Z) :
  is_u64 current → is_u64 lookback → is_u64 (sr_block_number request) →
  (validate_state_access_request request current lookback max_size = Ok tt ↔
   (current - lookback ≤ sr_block_number request ≤ current) ∧
   (sr_access_type request = StorageSlot ↔ is_Some (sr_storage_slot request)) ∧
   (∃ nodes, 1 ≤ nodes ∧ len (sr_proof_data request) = 32 * nodes) ∧
   len (sr_proof_data request) ≤ max_size) ∧
  (validate_state_access_request request current lookback max_size = Ok tt → max_size < 2 ^ 59 →
   estimate_gas_cost request = 3000 + 16 * len (sr_proof_data request)).
Proof.
  intros Hc Hl Hb.
  pose proof (validate_state_access_request_ok request current lookback max_size Hc Hl Hb) as Hiff.
  split; [done|]. intros Hok%Hiff Hmax. destruct Hok as (_ & _ & _ & Hlen).
  unfold estimate_gas_cost, BASE_GAS_COST, PROOF_BYTE_GAS_COST. change (2 ^ 59) with 576460752303423488 in Hmax.
  sat_lia.
Qed.

Lemma state_access_request_ok_witness :
  let request := {| sr_access_type := StorageSlot; sr_target_address := [];
    sr_storage_slot := Some (zero_bytes 32); sr_block_number := 90; sr_proof_data := zero_bytes 64 |} in
  estimate_gas_cost request = 4024.
Proof.
  intros request.
  refine (proj2 (state_access_request_ok request 100 50 1024 _ _ _) _ _); vm_compute; done.
Defined.
