(* ===== verification/Blobs.v ===== *)
(** * Blobs: sparse sampling (EIP-8070) and sidecars (EIP-4844)

    [eth2077-execution/src/eip8070.rs]: custody groups of blob cells, the validation of
    sampling requests and the sampling statistics.
    [eth2077-execution/src/blob_sidecar.rs]: structural validation of a blob bundle and the
    check of its versioned hashes against the commitments (with the source's SHA-256
    stand-in for KZG). *)
From S2P Require Import Prelude Floats.
Local Open Scope Z_scope.

(** ** Sparse sampling *)

(* eth2077-execution/src/eip8070.rs:6-6 CELLS_PER_BLOB *)
Definition CELLS_PER_BLOB : Z := 128.
(* eth2077-execution/src/eip8070.rs:7-7 DEFAULT_CUSTODY_GROUPS *)
Definition DEFAULT_CUSTODY_GROUPS : Z := 8.
(** The binary64 nearest to 0.15. *)
(* eth2077-execution/src/eip8070.rs:8-8 FULL_SAMPLE_PROBABILITY *)
Definition FULL_SAMPLE_PROBABILITY : f64 := f64_literal 5404319552844595 (-55).

(* eth2077-execution/src/eip8070.rs:11-15 BlobCell *)
Record BlobCell := { bc_blob_index : Z; bc_cell_index : Z; bc_data : list Z }.

(* eth2077-execution/src/eip8070.rs:18-22 CustodyAssignment *)
Record CustodyAssignment := { ca_node_id : list Z; ca_custody_group : Z; ca_total_groups : Z }.

(* eth2077-execution/src/eip8070.rs:25-29 SparseBlobRequest *)
Record SparseBlobRequest := {
  sbr_blob_index : Z;
  sbr_requested_cells : list Z;
  sbr_custody_assignment : CustodyAssignment;
}.

(* eth2077-execution/src/eip8070.rs:32-38 SparseBlobError *)
Inductive SparseBlobError :=
| InvalidCellIndex (cell_index max : Z)
| CustodyGroupOutOfRange (group total : Z)
| EmptyCellRequest
| CellNotInCustody (cell_index custody_group : Z)
| DuplicateCellIndex (cell_index : Z).

(* eth2077-execution/src/eip8070.rs:41-47 SparseBlobStats *)
Record SparseBlobStats := {
  sbs_total_cells : Z;
  sbs_sampled_cells : Z;
  sbs_sampling_ratio : f64;
  sbs_bandwidth_reduction_percent : f64;
  sbs_custody_group : Z;
}.

(* eth2077-execution/src/eip8070.rs:65-80 cells_for_custody_group *)
Definition cells_for_custody_group (custody_group total_groups cells_per_blob : Z) : list Z :=
  if total_groups =? 0 then []
  else filter (λ cell, cell mod total_groups = custody_group) (seqZ 0 cells_per_blob).

(* eth2077-execution/src/eip8070.rs:102-121 validate_sparse_blob_request *)
Fixpoint cell_errors (custody_group total_groups : Z) (custody_group_valid : bool)
    (seen : gset Z) (cells : list Z) : list SparseBlobError :=
  match cells with
  | [] => []
  | cell_index :: cells =>
      push_if (bool_decide (cell_index ∈ seen)) (DuplicateCellIndex cell_index) ++
      push_if (CELLS_PER_BLOB <=? cell_index)
        (InvalidCellIndex cell_index (u64_saturating_sub CELLS_PER_BLOB 1)) ++
      push_if (custody_group_valid && negb (cell_index mod total_groups =? custody_group))
        (CellNotInCustody cell_index custody_group) ++
      cell_errors custody_group total_groups custody_group_valid ({[cell_index]} ∪ seen) cells
  end.

(* eth2077-execution/src/eip8070.rs:82-128 validate_sparse_blob_request *)
Definition validate_sparse_blob_request (request : SparseBlobRequest)
  : result unit (list SparseBlobError) :=
  let custody_group := ca_custody_group (sbr_custody_assignment request) in
  let total_groups := ca_total_groups (sbr_custody_assignment request) in
  let custody_group_valid := negb (total_groups =? 0) && (custody_group <? total_groups) in
  errors_to_result (
    push_if (bool_decide (sbr_requested_cells request = [])) EmptyCellRequest ++
    push_if (negb custody_group_valid) (CustodyGroupOutOfRange custody_group total_groups) ++
    cell_errors custody_group total_groups custody_group_valid ∅ (sbr_requested_cells request)).

(* eth2077-execution/src/eip8070.rs:130-147 compute_sparse_blob_stats *)
Definition compute_sparse_blob_stats (custody_group total_groups : Z) : SparseBlobStats :=
  let total_cells := CELLS_PER_BLOB in
  let sampled_cells := len (cells_for_custody_group custody_group total_groups CELLS_PER_BLOB) in
  let sampling_ratio :=
    if total_cells =? 0 then f64_zero
    else f64_div (f64_of_u64 sampled_cells) (f64_of_u64 total_cells) in
  {| sbs_total_cells := total_cells;
     sbs_sampled_cells := sampled_cells;
     sbs_sampling_ratio := sampling_ratio;
     sbs_bandwidth_reduction_percent :=
       f64_mul (f64_sub (f64_of_u64 1) sampling_ratio) (f64_of_u64 100);
     sbs_custody_group := custody_group |}.

Section hashing.
Context `{Sha256}.

(* eth2077-execution/src/eip8070.rs:49-63 compute_custody_assignment *)
Definition compute_custody_assignment (node_id : list Z) (total_groups : Z) : CustodyAssignment :=
  let hash_value := be_value (take 8 (sha256 node_id)) in
  {| ca_node_id := node_id;
     ca_custody_group := if total_groups =? 0 then 0 else hash_value mod total_groups;
     ca_total_groups := total_groups |}.

(* eth2077-execution/src/eip8070.rs:149-155 compute_cell_commitment *)
Definition compute_cell_commitment (cell : BlobCell) : list Z :=
  sha256 (to_be_bytes 8 (bc_blob_index cell) ++ to_be_bytes 8 (bc_cell_index cell) ++ bc_data cell).

(* eth2077-execution/src/eip8070.rs:157-166 should_full_sample *)
Definition should_full_sample (node_id : list Z) : bool :=
  (* b"full_sample" *)
  let digest := sha256 ([102; 117; 108; 108; 95; 115; 97; 109; 112; 108; 101] ++ node_id) in
  let value := be_value (take 8 digest) in
  let threshold := f64_to_u64 (f64_mul FULL_SAMPLE_PROBABILITY (f64_of_u64 100)) in
  value mod 100 <? threshold.
End hashing.

(** ** Custody *)

Lemma elem_of_cells group total cells c :
  0 < total → c ∈ cells_for_custody_group group total cells ↔ 0 ≤ c < cells ∧ c mod total = group.
Proof.
  intros Ht. unfold cells_for_custody_group. rewrite (proj2 (Z.eqb_neq total 0)) by lia.
  rewrite list_elem_of_filter, elem_of_seqZ. split; intros; lia || naive_solver lia.
Qed.

(** The custody groups partition the cells of a blob: every cell is in exactly
    one group, the one of its index modulo the number of groups, no group holds a
    cell twice, and groups out of range hold nothing; every node is assigned a
    group in range. *)
Theorem custody_groups_partition `{Sha256} (total cells : Z) (node_id : list Z) :
  0 < total →
  (∀ c, 0 ≤ c < cells → ∀ g, c ∈ cells_for_custody_group g total cells ↔ g = c mod total) ∧
  (∀ g, NoDup (cells_for_custody_group g total cells)) ∧
  (∀ g, g < 0 ∨ total ≤ g → cells_for_custody_group g total cells = []) ∧
  0 ≤ ca_custody_group (compute_custody_assignment node_id total) < total.
Proof.
  intros Ht. split_and!.
  - intros c Hc g. rewrite elem_of_cells by done. naive_solver.
  - intros g. unfold cells_for_custody_group. case_if_goal; [constructor|].
    apply NoDup_filter, NoDup_seqZ.
  - intros g Hg. apply elem_of_nil_inv. intros c [_ Hm]%elem_of_cells; [|done].
    pose proof (Z.mod_pos_bound c total). lia.
  - simpl. rewrite (proj2 (Z.eqb_neq total 0)) by lia. apply Z.mod_pos_bound. lia.
  - simpl. rewrite (proj2 (Z.eqb_neq total 0)) by lia. apply Z.mod_pos_bound. lia.
Qed.
Lemma custody_groups_partition_witness :
  ∀ g, 5 ∈ cells_for_custody_group g 8 128 ↔ g = 5.
Proof.
  pose proof (@custody_groups_partition (λ l, l) 8 128 [1]) as H.
  destruct H as [H _]; [lia|]. intros g. exact (H 5 ltac:(lia) g).
Defined.

Lemma cell_errors_nil group total valid seen cells :
  cell_errors group total valid seen cells = [] ↔
  NoDup cells ∧ Forall (λ c, c ∉ seen) cells ∧ Forall (λ c, c < CELLS_PER_BLOB) cells ∧
  (valid = true → Forall (λ c, c mod total = group) cells).
Proof.
  revert seen. induction cells as [|c cells IH]; intros seen; cbn [cell_errors]; [repeat constructor|].
  rewrite !app_nil, !push_if_nil, IH, bool_decide_eq_false, Z.leb_gt, NoDup_cons, !Forall_cons.
  assert (Forall (λ d, d ∉ {[c]} ∪ seen) cells ↔ c ∉ cells ∧ Forall (λ d, d ∉ seen) cells) as ->.
  { rewrite !Forall_forall. set_solver. }
  destruct valid; simpl; [rewrite negb_false_iff, Z.eqb_eq; tauto|].
  naive_solver.
Qed.

(** A sampling request is accepted exactly when it asks for at least one cell,
    none twice, its custody group is in range, and every cell is one of that
    group's cells of the blob. *)
Theorem validate_sparse_blob_request_ok (request : SparseBlobRequest) :
  Forall is_u64 (sbr_requested_cells request) →
  let a := sbr_custody_assignment request in
  is_u64 (ca_custody_group a) → is_u64 (ca_total_groups a) →
  validate_sparse_blob_request request = Ok tt ↔
  sbr_requested_cells request ≠ [] ∧ NoDup (sbr_requested_cells request) ∧
  ca_custody_group a < ca_total_groups a ∧
  sbr_requested_cells request ⊆
    cells_for_custody_group (ca_custody_group a) (ca_total_groups a) CELLS_PER_BLOB.
Proof.
  intros Hu64 a Hg Ht. unfold validate_sparse_blob_request. fold a.
  rewrite errors_to_result_ok, !app_nil, !push_if_nil, cell_errors_nil, bool_decide_eq_false,
    negb_false_iff, andb_true_iff, negb_true_iff, Z.eqb_neq, Z.ltb_lt.
  assert (Hseen : Forall (λ c, c ∉ (∅ : gset Z)) (sbr_requested_cells request))
    by (apply Forall_forall; set_solver).
  rewrite Forall_forall in Hu64. rewrite !Forall_forall. split.
  - intros (Hne & [Ht0 Hlt] & Hnd & _ & Hmax & Hmod). split_and!; [done..|].
    intros c Hc. apply elem_of_cells; [sat_lia|]. pose proof (Hu64 c Hc).
    split; [split; [sat_lia|by apply Hmax]|]. by apply Hmod.
  - intros (Hne & Hnd & Hlt & Hsub). assert (Ht0 : 0 < ca_total_groups a) by sat_lia.
    split_and!; try done; [lia| |].
    + intros c Hc%Hsub%elem_of_cells; [lia|done].
    + intros _ c Hc%Hsub%elem_of_cells; [lia|done].
Qed.
Lemma validate_sparse_blob_request_ok_witness :
  let request := {| sbr_blob_index := 0; sbr_requested_cells := [3; 11; 19];
    sbr_custody_assignment :=
      {| ca_node_id := []; ca_custody_group := 3; ca_total_groups := 8 |} |} in
  sbr_requested_cells request ⊆ cells_for_custody_group 3 8 CELLS_PER_BLOB.
Proof.
  intros request.
  refine (proj2 (proj2 (proj2 (proj1 (validate_sparse_blob_request_ok request _ _ _) _)))).
  - repeat constructor; done.
  - done.
  - done.
  - vm_compute. reflexivity.
Defined.

(** The literal [0.15] yields the threshold 15: about fifteen nodes in a hundred
    sample everything. *)
Lemma full_sample_threshold :
  f64_to_u64 (f64_mul FULL_SAMPLE_PROBABILITY (f64_of_u64 100)) = 15.
Proof. vm_compute. reflexivity. Qed.

(** ** Sidecars *)

(* eth2077-execution/src/blob_sidecar.rs:5-5 MAX_BLOBS_PER_BLOCK *)
Definition MAX_BLOBS_PER_BLOCK : Z := 6.
(* eth2077-execution/src/blob_sidecar.rs:7-7 BLOB_SIZE *)
Definition BLOB_SIZE : Z := 131072.
(* eth2077-execution/src/blob_sidecar.rs:11-11 VERSIONED_HASH_VERSION_KZG *)
Definition VERSIONED_HASH_VERSION_KZG : Z := 0x01.

(* eth2077-execution/src/blob_sidecar.rs:14-36 BlobValidationError *)
Inductive BlobValidationError :=
| TooManyBlobs (count max : Z)
| BlobSizeMismatch (index actual expected : Z)
| CommitmentMismatch (index : Z)
| ProofVerificationFailed (index : Z)
| VersionedHashMismatch (index : Z) (expected actual : list Z)
| EmptyBlobSidecar.

(* eth2077-execution/src/blob_sidecar.rs:39-44 BlobSidecar *)
Record BlobSidecar := {
  bs_index : Z;
  bs_blob : list Z;
  bs_kzg_commitment : list Z;
  bs_kzg_proof : list Z;
}.

(* eth2077-execution/src/blob_sidecar.rs:47-50 BlobBundle *)
Record BlobBundle := {
  bb_blobs : list BlobSidecar;
  bb_versioned_hashes : list (list Z);
}.

(** The loop over the sidecars, stopping at the first mismatch. *)
(* eth2077-execution/src/blob_sidecar.rs:73-85 validate_blob_bundle_structure *)
Fixpoint check_sidecars (index : Z) (blobs : list BlobSidecar) : result unit BlobValidationError :=
  match blobs with
  | [] => Ok tt
  | sidecar :: blobs =>
      if negb (bs_index sidecar =? index) then Err (CommitmentMismatch index) else
      if negb (len (bs_blob sidecar) =? BLOB_SIZE)
      then Err (BlobSizeMismatch index (len (bs_blob sidecar)) BLOB_SIZE) else
      check_sidecars (index + 1) blobs
  end.

(** [versioned_hash[0]] of a 32-byte array. *)
Definition version_byte (h : list Z) : Z := default 0 (h !! 0%nat).

(* eth2077-execution/src/blob_sidecar.rs:87-97 validate_blob_bundle_structure *)
Fixpoint check_versions (index : Z) (hashes : list (list Z)) : result unit BlobValidationError :=
  match hashes with
  | [] => Ok tt
  | versioned_hash :: hashes =>
      if negb (version_byte versioned_hash =? VERSIONED_HASH_VERSION_KZG)
      then Err (VersionedHashMismatch index
                  (<[0%nat := VERSIONED_HASH_VERSION_KZG]> versioned_hash) versioned_hash)
      else check_versions (index + 1) hashes
  end.

(* eth2077-execution/src/blob_sidecar.rs:54-100 validate_blob_bundle_structure *)
Definition validate_blob_bundle_structure (bundle : BlobBundle) : result unit BlobValidationError :=
  if bool_decide (bb_blobs bundle = []) then Err EmptyBlobSidecar else
  let blob_count := len (bb_blobs bundle) in
  if MAX_BLOBS_PER_BLOCK <? blob_count then Err (TooManyBlobs blob_count MAX_BLOBS_PER_BLOCK) else
  if negb (len (bb_versioned_hashes bundle) =? blob_count)
  then Err (CommitmentMismatch (Z.min (len (bb_versioned_hashes bundle)) blob_count)) else
  let? _ := check_sidecars 0 (bb_blobs bundle) in
  check_versions 0 (bb_versioned_hashes bundle).

Section hashing.
Context `{Sha256}.

(* eth2077-execution/src/blob_sidecar.rs:105-111 mock_versioned_hash *)
Definition mock_versioned_hash (kzg_commitment : list Z) : list Z :=
  VERSIONED_HASH_VERSION_KZG :: drop 1 (sha256 kzg_commitment).

(* eth2077-execution/src/blob_sidecar.rs:122-136 validate_versioned_hashes *)
Fixpoint check_hashes (index : Z) (pairs : list (BlobSidecar * list Z))
  : result unit BlobValidationError :=
  match pairs with
  | [] => Ok tt
  | (sidecar, expected_hash) :: pairs =>
      let actual_hash := mock_versioned_hash (bs_kzg_commitment sidecar) in
      if bool_decide (actual_hash ≠ expected_hash)
      then Err (VersionedHashMismatch index expected_hash actual_hash)
      else check_hashes (index + 1) pairs
  end.

(* eth2077-execution/src/blob_sidecar.rs:115-139 validate_versioned_hashes *)
Definition validate_versioned_hashes (bundle : BlobBundle) : result unit BlobValidationError :=
  if negb (len (bb_versioned_hashes bundle) =? len (bb_blobs bundle))
  then Err (CommitmentMismatch (Z.min (len (bb_versioned_hashes bundle)) (len (bb_blobs bundle))))
  else check_hashes 0 (zip (bb_blobs bundle) (bb_versioned_hashes bundle)).
End hashing.

(* eth2077-execution/src/blob_sidecar.rs:143-148 BlobBundleStats *)
Record BlobBundleStats := {
  bbs_blob_count : Z;
  bbs_total_blob_bytes : Z;
  bbs_total_commitment_bytes : Z;
  bbs_versioned_hash_version : Z;
}.

(* eth2077-execution/src/blob_sidecar.rs:150-165 compute_bundle_stats *)
Definition compute_bundle_stats (bundle : BlobBundle) : BlobBundleStats := {|
  bbs_blob_count := len (bb_blobs bundle);
  bbs_total_blob_bytes := Zsum ((λ s, len (bs_blob s)) <$> bb_blobs bundle);
  bbs_total_commitment_bytes := Zsum ((λ s, len (bs_kzg_commitment s)) <$> bb_blobs bundle);
  bbs_versioned_hash_version :=
    match bb_versioned_hashes bundle with
    | h :: _ => version_byte h
    | [] => VERSIONED_HASH_VERSION_KZG
    end;
|}.

(** ** What the two validations accept *)

Lemma check_sidecars_ok index blobs :
  check_sidecars index blobs = Ok tt ↔
  bs_index <$> blobs = seqZ index (len blobs) ∧ Forall (λ s, len (bs_blob s) = BLOB_SIZE) blobs.
Proof.
  revert index. induction blobs as [|s blobs IH]; intros index.
  { split; [by repeat constructor|done]. }
  cbn [check_sidecars]. rewrite Forall_cons.
  replace (len (s :: blobs)) with (Z.succ (len blobs)) by (unfold len; simpl; lia).
  rewrite seqZ_cons by (unfold len; lia). rewrite Z.pred_succ. csimpl.
  destruct (Z.eqb_spec (bs_index s) index) as [->|Hne]; simpl.
  2: { split; [done|]. intros [[=] _]. done. }
  destruct (Z.eqb_spec (len (bs_blob s)) BLOB_SIZE); simpl.
  2: { split; [done|]. intros (_ & ? & _). done. }
  rewrite IH. split; [intros [-> ?]; done|]. intros ([= ?] & _ & ?). done.
Qed.
Lemma check_versions_ok index hashes :
  check_versions index hashes = Ok tt ↔
  Forall (λ h, version_byte h = VERSIONED_HASH_VERSION_KZG) hashes.
Proof.
  revert index. induction hashes as [|h hashes IH]; intros index; simpl; [by repeat constructor|].
  rewrite Forall_cons. destruct (Z.eqb_spec (version_byte h) VERSIONED_HASH_VERSION_KZG); simpl.
  - rewrite IH. tauto.
  - split; [done|]. by intros [? _].
Qed.

Lemma validate_blob_bundle_structure_ok bundle :
  validate_blob_bundle_structure bundle = Ok tt ↔
  1 ≤ len (bb_blobs bundle) ≤ MAX_BLOBS_PER_BLOCK ∧
  len (bb_versioned_hashes bundle) = len (bb_blobs bundle) ∧
  bs_index <$> bb_blobs bundle = seqZ 0 (len (bb_blobs bundle)) ∧
  Forall (λ s, len (bs_blob s) = BLOB_SIZE) (bb_blobs bundle) ∧
  Forall (λ h, version_byte h = VERSIONED_HASH_VERSION_KZG) (bb_versioned_hashes bundle).
Proof.
  unfold validate_blob_bundle_structure. case_bool_decide as Hemp.
  { rewrite Hemp. unfold len at 1. simpl. split; [done|lia]. }
  assert (1 ≤ len (bb_blobs bundle)).
  { unfold len. destruct (bb_blobs bundle); [done|simpl; lia]. }
  destruct (Z.ltb_spec MAX_BLOBS_PER_BLOCK (len (bb_blobs bundle))); [split; [done|lia]|].
  destruct (Z.eqb_spec (len (bb_versioned_hashes bundle)) (len (bb_blobs bundle))); simpl;
    [|split; [done|tauto]].
  rewrite result_bind_ok. split.
  - intros ([] & [??]%check_sidecars_ok & ?%check_versions_ok). done.
  - intros (_ & _ & ? & ? & ?). exists tt. by rewrite check_sidecars_ok, check_versions_ok.
Qed.

Section hash_check.
Context `{Sha256}.

Lemma check_hashes_ok index blobs hashes :
  length blobs = length hashes →
  check_hashes index (zip blobs hashes) = Ok tt ↔
  hashes = (λ s, mock_versioned_hash (bs_kzg_commitment s)) <$> blobs.
Proof.
  revert index hashes. induction blobs as [|s blobs IH]; intros index [|h hashes] Hlen; simplify_eq/=;
    [done|]. case_bool_decide as Hh.
  - split; [done|]. intros [=]. congruence.
  - rewrite IH by done. rewrite Hh. split; [by intros ->|by intros [=]].
Qed.

(** The two checks accept exactly the bundles of one to six full-size blobs,
    numbered from 0, whose versioned hashes are, in order, those of their
    commitments; in particular a bundle that passes the hash check has the version
    byte the structural check asks for, so that check adds only the counts, sizes
    and numbering, and its statistics are [blobs * 131072] bytes and version 1. *)
Theorem blob_bundle_validation (bundle : BlobBundle) :
  (validate_blob_bundle_structure bundle = Ok tt ∧ validate_versioned_hashes bundle = Ok tt ↔
   1 ≤ len (bb_blobs bundle) ≤ MAX_BLOBS_PER_BLOCK ∧
   bs_index <$> bb_blobs bundle = seqZ 0 (len (bb_blobs bundle)) ∧
   Forall (λ s, len (bs_blob s) = BLOB_SIZE) (bb_blobs bundle) ∧
   bb_versioned_hashes bundle =
     (λ s, mock_versioned_hash (bs_kzg_commitment s)) <$> bb_blobs bundle) ∧
  (validate_blob_bundle_structure bundle = Ok tt →
   bbs_total_blob_bytes (compute_bundle_stats bundle) = len (bb_blobs bundle) * BLOB_SIZE ∧
   bbs_versioned_hash_version (compute_bundle_stats bundle) = VERSIONED_HASH_VERSION_KZG).
Proof.
  rewrite validate_blob_bundle_structure_ok. split.
  - unfold validate_versioned_hashes.
    destruct (Z.eqb_spec (len (bb_versioned_hashes bundle)) (len (bb_blobs bundle))) as [Hl|Hl]; simpl.
    + rewrite check_hashes_ok by (unfold len in Hl; lia). split; [tauto|].
      intros (? & ? & ? & Hh). split_and!; try done; try lia.
      rewrite Hh. by apply Forall_fmap, Forall_true.
    + split; [by intros [_ ?]|]. intros (_ & _ & _ & Hh). exfalso. apply Hl. rewrite Hh.
      unfold len. by rewrite length_fmap.
  - intros (Hlen & Hl & _ & Hsize & Hver). simpl. split.
    + clear -Hsize. unfold len at 2. induction Hsize as [|s l Hs Hsize IH]; csimpl; [done|].
      rewrite Hs, IH. lia.
    + destruct (bb_versioned_hashes bundle) as [|h l]; [done|].
      by apply Forall_cons in Hver as [? _].
Qed.
End hash_check.

Lemma blob_bundle_validation_witness :
  let bundle := {| bb_blobs := [{| bs_index := 0; bs_blob := repeat 0 (Z.to_nat BLOB_SIZE);
                     bs_kzg_commitment := [9; 8; 7]; bs_kzg_proof := [] |}];
                   bb_versioned_hashes := [[1; 8; 7]] |} in
  bbs_total_blob_bytes (compute_bundle_stats bundle) = 131072.
Proof.
  intros bundle.
  refine (proj1 (proj2 (blob_bundle_validation (H := λ l, l) bundle) _)).
  vm_compute. reflexivity.
Defined.
