(* ===== verification/NativeRollup.v ===== *)
(** * Native rollup execution, EIP-8079 ([eth2077-execution/src/eip8079.rs]) *)
From S2P Require Import Prelude Floats.
Local Open Scope Z_scope.

(* eth2077-execution/src/eip8079.rs:4-8 EXECUTE_PRECOMPILE_ADDRESS *)
Definition EXECUTE_PRECOMPILE_ADDRESS : list Z := <[19%nat := 0x20]> (zero_bytes 20).

(* eth2077-execution/src/eip8079.rs:11-16 RollupAnchor *)
Record RollupAnchor := {
  ra_l1_state_root : list Z;
  ra_message_root : list Z;
  ra_rolling_hash : list Z;
  ra_l1_block_number : Z;
}.

(* eth2077-execution/src/eip8079.rs:19-24 NativeRollupConfig *)
Record NativeRollupConfig := {
  nrc_rollup_id : list Z;
  nrc_anchor_frequency : Z;
  nrc_max_gas_per_execution : Z;
  nrc_precompile_address : list Z;
}.

(* eth2077-execution/src/eip8079.rs:27-31 ExecutePrecompileInput *)
Record ExecutePrecompileInput := {
  epi_pre_state_root : list Z;
  epi_transactions : list (list Z);
  epi_anchor : RollupAnchor;
}.

(* eth2077-execution/src/eip8079.rs:34-38 ExecutePrecompileOutput *)
Record ExecutePrecompileOutput := {
  epo_post_state_root : list Z;
  epo_gas_used : Z;
  epo_success : bool;
}.

(* eth2077-execution/src/eip8079.rs:41-59 NativeRollupError *)
Inductive NativeRollupError :=
| InvalidAnchor (reason : string)
| ExceedsGasLimit (used limit : Z)
| EmptyTransactions
| InvalidPreStateRoot
| AnchorFrequencyViolation (expected_block actual_block : Z)
| RollupIdMismatch (expected actual : list Z).

(* eth2077-execution/src/eip8079.rs:62-68 RollupExecutionStats *)
Record RollupExecutionStats := {
  res_rollup_id : list Z;
  res_executions_count : Z;
  res_total_gas_used : Z;
  res_total_transactions : Z;
  res_avg_gas_per_execution : f64;
}.

(* eth2077-execution/src/eip8079.rs:70-77 default_rollup_config *)
Definition default_rollup_config (rollup_id : list Z) : NativeRollupConfig := {|
  nrc_rollup_id := rollup_id;
  nrc_anchor_frequency := 32;
  nrc_max_gas_per_execution := 30000000;
  nrc_precompile_address := EXECUTE_PRECOMPILE_ADDRESS;
|}.

(* eth2077-execution/src/eip8079.rs:79-111 validate_execute_input *)
Definition validate_execute_input (input : ExecutePrecompileInput) (config : NativeRollupConfig)
  : result unit (list NativeRollupError) :=
  let frequency := nrc_anchor_frequency config in
  let block := ra_l1_block_number (epi_anchor input) in
  errors_to_result (
    push_if (bool_decide (epi_transactions input = [])) EmptyTransactions ++
    push_if (bool_decide (epi_pre_state_root input = zero_bytes 32)) InvalidPreStateRoot ++
    (if frequency =? 0 then [AnchorFrequencyViolation 0 block]
     else push_if (negb (block mod frequency =? 0))
            (AnchorFrequencyViolation (block / frequency * frequency) block))).

Section hashing.
Context `{Sha256}.

(* eth2077-execution/src/eip8079.rs:113-145 mock_execute *)
Definition mock_execute (input : ExecutePrecompileInput) (config : NativeRollupConfig)
  : result ExecutePrecompileOutput NativeRollupError :=
  if bool_decide (epi_transactions input = []) then Err EmptyTransactions else
  if bool_decide (epi_pre_state_root input = zero_bytes 32) then Err InvalidPreStateRoot else
  let tx_count := Z.min (len (epi_transactions input)) u64_max in
  let gas_used := u64_saturating_mul 21000 tx_count in
  if nrc_max_gas_per_execution config <? gas_used
  then Err (ExceedsGasLimit gas_used (nrc_max_gas_per_execution config)) else
  Ok {| epo_post_state_root := sha256 (epi_pre_state_root input ++
          ra_l1_state_root (epi_anchor input) ++ to_be_bytes 8 tx_count);
        epo_gas_used := gas_used;
        epo_success := true |}.

(* eth2077-execution/src/eip8079.rs:147-154 compute_anchor_hash *)
Definition compute_anchor_hash (anchor : RollupAnchor) : list Z :=
  sha256 (ra_l1_state_root anchor ++ ra_message_root anchor ++ ra_rolling_hash anchor ++
          to_be_bytes 8 (ra_l1_block_number anchor)).
End hashing.

(* eth2077-execution/src/eip8079.rs:156-179 compute_execution_stats *)
Definition compute_execution_stats
    (executions : list (ExecutePrecompileInput * ExecutePrecompileOutput)) : RollupExecutionStats :=
  let executions_count := len executions in
  let total_gas_used :=
    foldl (λ acc p, u64_saturating_add acc (epo_gas_used p.2)) 0 executions in
  let total_transactions :=
    foldl (λ acc p, u64_saturating_add acc (len (epi_transactions p.1))) 0 executions in
  {| res_rollup_id := zero_bytes 32;
     res_executions_count := executions_count;
     res_total_gas_used := total_gas_used;
     res_total_transactions := total_transactions;
     res_avg_gas_per_execution :=
       if executions_count =? 0 then f64_zero
       else f64_div (f64_of_u64 total_gas_used) (f64_of_u64 executions_count) |}.

(** ** Execution and its statistics *)

Lemma validate_execute_input_ok input config :
  validate_execute_input input config = Ok tt ↔
  epi_transactions input ≠ [] ∧ epi_pre_state_root input ≠ zero_bytes 32 ∧
  nrc_anchor_frequency config ≠ 0 ∧
  ra_l1_block_number (epi_anchor input) mod nrc_anchor_frequency config = 0.
Proof.
  unfold validate_execute_input.
  rewrite errors_to_result_ok, !app_nil, !push_if_nil, !bool_decide_eq_false.
  destruct (Z.eqb_spec (nrc_anchor_frequency config) 0).
  - split; [by intros (_ & _ & ?)|naive_solver].
  - rewrite push_if_nil, negb_false_iff, Z.eqb_eq. tauto.
Qed.

(** The mock execution succeeds on a validated input exactly when 21000 gas per
    transaction is within the configured limit; the limit error reports that very
    amount.  Over any executions the statistics' gas is 21000 per counted
    transaction, saturating at the 64-bit limit with them. *)
Theorem mock_execute_gas `{Sha256} (input : ExecutePrecompileInput) (config : NativeRollupConfig) :
  validate_execute_input input config = Ok tt →
  21000 * len (epi_transactions input) ≤ u64_max →
  let gas := 21000 * len (epi_transactions input) in
  (is_ok (mock_execute input config) = true ↔ gas ≤ nrc_max_gas_per_execution config) ∧
  (∀ e, mock_execute input config = Err e → e = ExceedsGasLimit gas (nrc_max_gas_per_execution config)) ∧
  (∀ out, mock_execute input config = Ok out → epo_gas_used out = gas ∧ epo_success out = true ∧
     ∀ n, res_total_gas_used (compute_execution_stats (replicate n (input, out))) =
        Z.min (21000 * (Z.of_nat n * len (epi_transactions input))) u64_max).
Proof.
  intros (Htx & Hroot & _)%validate_execute_input_ok Hsmall gas. unfold mock_execute.
  rewrite !bool_decide_false by done.
  assert (0 ≤ len (epi_transactions input)) by (unfold len; lia).
  assert (Hgas : u64_saturating_mul 21000 (Z.min (len (epi_transactions input)) u64_max) = gas) by sat_lia.
  rewrite Hgas. destruct (Z.ltb_spec (nrc_max_gas_per_execution config) gas) as [Hlt|Hle]; simpl.
  - split_and!; [split; [done|lia]|congruence|done].
  - split_and!; [split; [lia|done]|done|]. intros out [= <-]. simpl. split_and!; [done..|].
    intros n. rewrite (foldl_map u64_saturating_add
      (λ p : ExecutePrecompileInput * ExecutePrecompileOutput, epo_gas_used p.2)), foldl_saturating_add.
    + f_equal. rewrite fmap_replicate, Zsum_replicate. simpl. unfold gas. lia.
    + apply Forall_fmap, Forall_replicate. simpl. lia.
    + lia.
Qed.

Definition example_rollup_input : ExecutePrecompileInput := {|
  epi_pre_state_root := [1]; epi_transactions := [[1]; [2]];
  epi_anchor := {| ra_l1_state_root := []; ra_message_root := []; ra_rolling_hash := [];
                   ra_l1_block_number := 64 |} |}.
Lemma mock_execute_gas_witness :
  is_ok (mock_execute (H := λ l, l) example_rollup_input (default_rollup_config [])) = true.
Proof.
  refine (proj2 (proj1 (mock_execute_gas (H := λ l, l) example_rollup_input (default_rollup_config [])
    _ _)) _).
  - vm_compute. reflexivity.
  - vm_compute. discriminate.
  - vm_compute. discriminate.
Defined.
