(* ===== verification/Lanes.v ===== *)
(** * Execution lanes, EIP-8142 ([eth2077-execution/src/eip8142.rs])

    Transactions are classified into lanes, assigned under per-lane limits with
    conflict detection on state keys, and measured.  [HashSet] and [HashMap]
    iteration takes the class argument [HashOrder]. *)
From S2P Require Import Prelude Floats.
Local Open Scope Z_scope.

Abbreviation hash := (list Z) (only parsing).

(* eth2077-execution/src/eip8142.rs:6-14 LaneId *)
Inductive LaneId :=
| Transfer | TokenOps | DeFi | StateHeavy | SystemOps | BlobCarrying | Uncategorized.
#[export] Instance LaneId_eq_dec : EqDecision LaneId.
Proof. solve_decision. Defined.

(* eth2077-execution/src/eip8142.rs:345-355 lane_discriminant *)
Definition lane_discriminant (lane : LaneId) : Z :=
  match lane with
  | Transfer => 0 | TokenOps => 1 | DeFi => 2 | StateHeavy => 3 | SystemOps => 4
  | BlobCarrying => 5 | Uncategorized => 6
  end.
Definition lane_of_discriminant (z : Z) : LaneId :=
  nth (Z.to_nat z) [Transfer; TokenOps; DeFi; StateHeavy; SystemOps; BlobCarrying] Uncategorized.
#[export] Program Instance LaneId_countable : Countable LaneId :=
  inj_countable' lane_discriminant lane_of_discriminant _.
Next Obligation. by intros []. Qed.

(* eth2077-execution/src/eip8142.rs:17-23 LaneAssignment *)
Record LaneAssignment := {
  la_tx_hash : hash;
  la_assigned_lane : LaneId;
  la_state_keys_accessed : list hash;
  la_conflict_set : gset hash;
  la_gas_estimate : Z;
}.

(* eth2077-execution/src/eip8142.rs:26-39 LaneAssignmentError *)
Inductive LaneAssignmentError :=
| EmptyTransaction
| ConflictDetected (tx_a tx_b conflicting_key : hash)
| LaneCapacityExceeded (lane : LaneId) (current max : Z)
| InvalidStateKeys.

(* eth2077-execution/src/eip8142.rs:42-47 LaneConfig *)
Record LaneConfig := {
  lc_max_txs_per_lane : Z;
  lc_max_total_gas_per_lane : Z;
  lc_enable_conflict_detection : bool;
  lc_parallel_lanes : Z;
}.

(* eth2077-execution/src/eip8142.rs:50-57 LaneExecutionStats *)
Record LaneExecutionStats := {
  les_total_transactions : Z;
  les_lanes_used : Z;
  les_max_lane_depth : Z;
  les_conflict_count : Z;
  les_parallelism_ratio : f64;
  les_gas_by_lane : gmap string Z;
}.

(* eth2077-execution/src/eip8142.rs:59-66 default_lane_config *)
Definition default_lane_config : LaneConfig := {|
  lc_max_txs_per_lane := 128;
  lc_max_total_gas_per_lane := 15000000;
  lc_enable_conflict_detection := true;
  lc_parallel_lanes := 4;
|}.

(** ** Classification *)

(* eth2077-execution/src/eip8142.rs:267-270 is_system_address *)
Definition is_system_address (addr : list Z) : bool :=
  forallb (λ byte, byte =? 0) (take 19 addr) &&
  (let last := default 0 (addr !! 19%nat) in (1 <=? last) && (last <=? 0x20)).

(* eth2077-execution/src/eip8142.rs:272-283 is_token_selector *)
Definition is_token_selector (selector : list Z) : bool :=
  bool_decide (selector ∈ [
    [0x09; 0x5E; 0xA7; 0xB3]; [0xA9; 0x05; 0x9C; 0xBB]; [0x23; 0xB8; 0x72; 0xDD];
    [0xA2; 0x2C; 0xB4; 0x65]; [0x42; 0x84; 0x2E; 0x0E]; [0xB8; 0x8D; 0x4F; 0xDE];
    [0xF2; 0x42; 0x43; 0x2A]]).

(* eth2077-execution/src/eip8142.rs:285-295 is_defi_selector *)
Definition is_defi_selector (selector : list Z) : bool :=
  bool_decide (selector ∈ [
    [0x38; 0xED; 0x17; 0x39]; [0x18; 0xCB; 0xAF; 0xE5]; [0x7F; 0xF3; 0x6A; 0xB5];
    [0x41; 0x4B; 0xF3; 0x89]; [0x5C; 0x11; 0xD7; 0x95]; [0xAC; 0x96; 0x50; 0xD8]]).

(* eth2077-execution/src/eip8142.rs:68-109 classify_transaction *)
Definition classify_transaction (to_address calldata : list Z) (value tx_type : Z) : LaneId :=
  if tx_type =? 0x03 then BlobCarrying else
  if is_system_address to_address then SystemOps else
  if bool_decide (calldata = []) && (0 <? value) then Transfer else
  if 1024 <? len calldata then StateHeavy else
  let selector := take 4 calldata in
  if (4 <=? len calldata) && is_token_selector selector then TokenOps else
  if (4 <=? len calldata) && is_defi_selector selector then DeFi else
  let byte0 := default 0 (to_address !! 0%nat) in
  let byte1 := default 0 (to_address !! 1%nat) in
  if (byte0 =? 0xDE) && (byte1 =? 0xF1) then DeFi else
  if (byte0 =? 0x7E) && (byte1 =? 0x20) then TokenOps else
  Uncategorized.

(* eth2077-execution/src/eip8142.rs:297-314 normalize_keys *)
Definition normalize_keys (assignment : LaneAssignment) : result (gset hash) LaneAssignmentError :=
  if bool_decide (zero_bytes 32 ∈ la_state_keys_accessed assignment) ||
     bool_decide (zero_bytes 32 ∈ la_conflict_set assignment)
  then Err InvalidStateKeys
  else Ok (list_to_set (la_state_keys_accessed assignment) ∪ la_conflict_set assignment).

(** ** Assignment *)

(** The maps and the errors of the loop of [assign_to_lanes]. *)
(* eth2077-execution/src/eip8142.rs:115-118 assign_to_lanes *)
Record AssignState := MkAssign {
  as_grouped : gmap LaneId (list nat);
  as_lane_gas : gmap LaneId Z;
  as_lane_keys : gmap LaneId (gmap hash hash);
  as_errors : list LaneAssignmentError;
}.

(** One key of a transaction against the keys its lane has seen. *)
(* eth2077-execution/src/eip8142.rs:155-167 assign_to_lanes *)
Definition key_step (tx_hash : hash) (s : gmap hash hash * list LaneAssignmentError) (key : hash)
  : gmap hash hash * list LaneAssignmentError :=
  let '(key_index, errors) := s in
  match key_index !! key with
  | Some existing_tx =>
      (key_index, errors ++ push_if (bool_decide (existing_tx ≠ tx_hash))
                              (ConflictDetected existing_tx tx_hash key))
  | None => (<[key := tx_hash]> key_index, errors)
  end.

Section assignment.
Context `{HO : HashOrder} `{SU : SortUnstable}.

(* eth2077-execution/src/eip8142.rs:120-173 assign_to_lanes *)
Definition assign_step (config : LaneConfig) (s : AssignState) (p : nat * LaneAssignment) : AssignState :=
  let '(index, assignment) := p in
  let lane := la_assigned_lane assignment in
  let fail e := MkAssign (as_grouped s) (as_lane_gas s) (as_lane_keys s) (as_errors s ++ [e]) in
  if bool_decide (la_tx_hash assignment = zero_bytes 32) then fail EmptyTransaction else
  match normalize_keys assignment with
  | Err e => fail e
  | Ok normalized_keys =>
      let lane_entries := default [] (as_grouped s !! lane) in
      let next_count := u64_saturating_add (len lane_entries) 1 in
      let next_gas :=
        u64_saturating_add (default 0 (as_lane_gas s !! lane)) (la_gas_estimate assignment) in
      let errors := as_errors s ++
        push_if (lc_max_txs_per_lane config <? next_count)
          (LaneCapacityExceeded lane next_count (lc_max_txs_per_lane config)) ++
        push_if (lc_max_total_gas_per_lane config <? next_gas)
          (LaneCapacityExceeded lane next_gas (lc_max_total_gas_per_lane config)) in
      let key_index := default ∅ (as_lane_keys s !! lane) in
      let '(lane_keys, errors) :=
        if lc_enable_conflict_detection config then
          let '(key_index, errors) :=
            foldl (key_step (la_tx_hash assignment)) (key_index, errors)
              (hash_set_iter normalized_keys) in
          (<[lane := key_index]> (as_lane_keys s), errors)
        else (as_lane_keys s, errors) in
      MkAssign (<[lane := lane_entries ++ [index]]> (as_grouped s))
        (<[lane := next_gas]> (as_lane_gas s)) lane_keys errors
  end.

(* eth2077-execution/src/eip8142.rs:111-180 assign_to_lanes *)
Definition assign_to_lanes (assignments : list LaneAssignment) (config : LaneConfig)
  : result (gmap LaneId (list nat)) (list LaneAssignmentError) :=
  let s := foldl (assign_step config) (MkAssign ∅ ∅ ∅ []) (imap pair assignments) in
  match as_errors s with [] => Ok (as_grouped s) | errors => Err errors end.

(** The keys [detect_cross_lane_conflicts] compares: none for an invalid set. *)
(* eth2077-execution/src/eip8142.rs:188-193 detect_cross_lane_conflicts *)
Definition conflict_keys (assignment : LaneAssignment) : gset hash :=
  match normalize_keys assignment with Ok keys => keys | Err _ => ∅ end.

(* eth2077-execution/src/eip8142.rs:197-206 detect_cross_lane_conflicts *)
Definition cross_lane_conflict (i j : nat) (a b : LaneAssignment) : list (nat * nat * hash) :=
  if decide (la_assigned_lane a = la_assigned_lane b) then [] else
  let keys := sort_unstable_by bytes_cmp (hash_set_iter (conflict_keys a)) in
  match List.find (λ key, bool_decide (key ∈ conflict_keys b)) keys with
  | Some key => [(i, j, key)]
  | None => []
  end.

(* eth2077-execution/src/eip8142.rs:182-210 detect_cross_lane_conflicts *)
Definition detect_cross_lane_conflicts (assignments : list LaneAssignment) : list (nat * nat * hash) :=
  p ← imap pair assignments; q ← imap pair assignments;
  if decide (p.1 < q.1)%nat then cross_lane_conflict p.1 q.1 p.2 q.2 else [].

(** ** Statistics *)

(** [workers.iter().enumerate().min_by_key(|(_, load)| **load)]: the first least loaded. *)
(* eth2077-execution/src/eip8142.rs:332-334 compute_parallelism_ratio *)
Fixpoint min_load_index (workers : list Z) : nat :=
  match workers with
  | [] => O
  | load :: workers =>
      match workers with
      | [] => O
      | _ => let i := min_load_index workers in
             if default 0 (workers !! i) <? load then S i else O
      end
  end.

(* eth2077-execution/src/eip8142.rs:316-343 compute_parallelism_ratio *)
Definition compute_parallelism_ratio (total_transactions : Z) (lane_depths : gmap LaneId Z)
    (config : LaneConfig) : f64 :=
  if (total_transactions =? 0) || bool_decide (lane_depths = ∅) then f64_zero else
  let workers := replicate (Z.to_nat (Z.max (lc_parallel_lanes config) 1)) 0 in
  let depths := sort_unstable_by (λ a b, Z.compare b a) (hash_values lane_depths) in
  let workers := foldl (λ workers depth,
    alter (λ load, u64_saturating_add load depth) (min_load_index workers) workers) workers depths in
  let makespan := foldr Z.max 0 workers in
  if makespan =? 0 then f64_zero
  else f64_div (f64_of_u64 total_transactions) (f64_of_u64 makespan).

(** [format!("{lane:?}")] *)
Definition lane_name (lane : LaneId) : string :=
  match lane with
  | Transfer => "Transfer" | TokenOps => "TokenOps" | DeFi => "DeFi"
  | StateHeavy => "StateHeavy" | SystemOps => "SystemOps" | BlobCarrying => "BlobCarrying"
  | Uncategorized => "Uncategorized"
  end.

(* eth2077-execution/src/eip8142.rs:212-253 compute_lane_stats *)
Definition compute_lane_stats (assignments : list LaneAssignment) (config : LaneConfig)
  : LaneExecutionStats :=
  let lane_depths := foldl (λ m a,
    <[la_assigned_lane a := default 0 (m !! la_assigned_lane a) + 1]> m) ∅ assignments in
  let gas_by_lane_id := foldl (λ m a,
    <[la_assigned_lane a :=
        u64_saturating_add (default 0 (m !! la_assigned_lane a)) (la_gas_estimate a)]> m) ∅ assignments in
  let total_transactions := len assignments in
  let conflict_count :=
    if lc_enable_conflict_detection config then len (detect_cross_lane_conflicts assignments) else 0 in
  {| les_total_transactions := total_transactions;
     les_lanes_used := Z.of_nat (size lane_depths);
     les_max_lane_depth := foldr Z.max 0 (hash_values lane_depths);
     les_conflict_count := conflict_count;
     les_parallelism_ratio :=
       f64_div (compute_parallelism_ratio total_transactions lane_depths config)
         (f64_add (f64_of_u64 1)
            (f64_div (f64_of_u64 conflict_count) (f64_of_u64 (Z.max total_transactions 1))));
     les_gas_by_lane := foldl (λ m p, <[lane_name p.1 := p.2]> m) ∅ (hash_iter gas_by_lane_id) |}.

(* eth2077-execution/src/eip8142.rs:255-265 compute_lane_commitment *)
Definition compute_lane_commitment `{Sha256} (lane : LaneId) (tx_hashes : list hash) : hash :=
  sha256 ([lane_discriminant lane] ++ concat (sort_unstable_by bytes_cmp tx_hashes)).

End assignment.

(** ** What an assignment guarantees *)

Definition state_keys (a : LaneAssignment) : gset hash :=
  list_to_set (la_state_keys_accessed a) ∪ la_conflict_set a.
Lemma normalize_keys_ok a keys :
  normalize_keys a = Ok keys ↔ zero_bytes 32 ∉ state_keys a ∧ keys = state_keys a.
Proof.
  unfold normalize_keys, state_keys. rewrite not_elem_of_union, elem_of_list_to_set.
  repeat case_bool_decide; simpl; naive_solver.
Qed.

(** The members of a lane, and their positions. *)
Definition in_lane (lane : LaneId) (l : list LaneAssignment) : list LaneAssignment :=
  filter (λ a, la_assigned_lane a = lane) l.
Definition lane_positions (lane : LaneId) (l : list LaneAssignment) : list nat :=
  fst <$> filter (λ p, la_assigned_lane p.2 = lane) (imap pair l).

(** Two transactions of one lane may share a state key only under one hash. *)
Definition compatible (a b : LaneAssignment) : Prop :=
  la_assigned_lane a = la_assigned_lane b → la_tx_hash a ≠ la_tx_hash b → state_keys a ## state_keys b.

Record lanes_ok (config : LaneConfig) (l : list LaneAssignment) : Prop := {
  lo_tx : Forall (λ a, la_tx_hash a ≠ zero_bytes 32 ∧ zero_bytes 32 ∉ state_keys a) l;
  lo_count a : a ∈ l → len (in_lane (la_assigned_lane a) l) ≤ lc_max_txs_per_lane config;
  lo_gas a : a ∈ l → Z.min (Zsum (la_gas_estimate <$> in_lane (la_assigned_lane a) l)) u64_max
    ≤ lc_max_total_gas_per_lane config;
  lo_compatible : lc_enable_conflict_detection config = true →
    ∀ a b, a ∈ l → b ∈ l → compatible a b;
}.

Lemma in_lane_snoc lane l a :
  in_lane lane (l ++ [a]) = in_lane lane l ++ (if decide (la_assigned_lane a = lane) then [a] else []).
Proof. unfold in_lane. rewrite filter_app. by rewrite filter_cons, filter_nil. Qed.
Lemma lane_positions_snoc lane l a :
  lane_positions lane (l ++ [a]) =
  lane_positions lane l ++ (if decide (la_assigned_lane a = lane) then [length l] else []).
Proof.
  unfold lane_positions. rewrite imap_app, filter_app, fmap_app. f_equal. simpl.
  rewrite Nat.add_0_r, filter_cons, filter_nil. simpl. repeat case_decide; done.
Qed.

(** One more transaction. *)
Lemma lanes_ok_snoc config l a :
  Forall (λ b, 0 ≤ la_gas_estimate b) (l ++ [a]) →
  lanes_ok config (l ++ [a]) ↔
  lanes_ok config l ∧ la_tx_hash a ≠ zero_bytes 32 ∧ zero_bytes 32 ∉ state_keys a ∧
  len (in_lane (la_assigned_lane a) l) + 1 ≤ lc_max_txs_per_lane config ∧
  Z.min (Zsum (la_gas_estimate <$> in_lane (la_assigned_lane a) l) + la_gas_estimate a) u64_max
    ≤ lc_max_total_gas_per_lane config ∧
  (lc_enable_conflict_detection config = true → ∀ b, b ∈ l → compatible b a).
Proof.
  intros [Hgas Hga]%Forall_app. rewrite Forall_singleton in Hga.
  assert (Hsame : ∀ b, la_assigned_lane a = la_assigned_lane b →
    len (in_lane (la_assigned_lane b) (l ++ [a])) = len (in_lane (la_assigned_lane a) l) + 1 ∧
    Zsum (la_gas_estimate <$> in_lane (la_assigned_lane b) (l ++ [a])) =
      Zsum (la_gas_estimate <$> in_lane (la_assigned_lane a) l) + la_gas_estimate a).
  { intros b Hb. rewrite in_lane_snoc, decide_True by done. rewrite <- Hb, fmap_app, Zsum_app.
    unfold len. rewrite length_app. simpl. lia. }
  split.
  - intros [Htx Hc Hg Hk]. apply Forall_app in Htx as [Htx [Ha Ha']%Forall_singleton].
    destruct (Hsame a eq_refl) as [Hlen Hsum].
    split_and!; [split|done|done| | |].
    + done.
    + intros b Hb. transitivity (len (in_lane (la_assigned_lane b) (l ++ [a]))).
      * rewrite in_lane_snoc. unfold len. rewrite length_app. lia.
      * apply Hc, elem_of_app. by left.
    + intros b Hb. etrans; [|apply (Hg b), elem_of_app; by left].
      rewrite in_lane_snoc, fmap_app, Zsum_app. case_decide; csimpl; lia.
    + intros Hen b c Hb Hcin. apply Hk; [done|apply elem_of_app; by left..].
    + rewrite <- Hlen. apply Hc. set_solver.
    + rewrite <- Hsum. apply Hg. set_solver.
    + intros Hen b Hb. apply Hk; set_solver.
  - intros ([Htx Hc Hg Hk] & Ha & Ha' & Hlen & Hsum & Hcomp). split.
    + apply Forall_app. split; [done|]. by apply Forall_singleton.
    + intros b Hb. destruct (decide (la_assigned_lane a = la_assigned_lane b)) as [Heq|Hne].
      * destruct (Hsame b Heq) as [-> _]. lia.
      * rewrite in_lane_snoc, decide_False by done. rewrite app_nil_r. apply Hc. set_solver.
    + intros b Hb. destruct (decide (la_assigned_lane a = la_assigned_lane b)) as [Heq|Hne].
      * destruct (Hsame b Heq) as [_ ->]. lia.
      * rewrite in_lane_snoc, decide_False by done. rewrite app_nil_r. apply Hg. set_solver.
    + intros Hen b c. rewrite !elem_of_app, !list_elem_of_singleton.
      intros [Hb| ->] [Hc'| ->]; [by apply Hk|by apply Hcomp| |intros _ []; done].
      intros Hl Hh. specialize (Hcomp Hen c Hc'). symmetry. apply Hcomp; congruence.
Qed.

(** ** The loop of [assign_to_lanes] *)

Lemma key_step_spec h ks m errs :
  let '(m', errs') := foldl (key_step h) (m, errs) ks in
  (errs' = [] ↔ errs = [] ∧ ∀ k t, k ∈ ks → m !! k = Some t → t = h) ∧
  (errs' = [] → ∀ k, m' !! k = match m !! k with
                               | Some t => Some t
                               | None => if decide (k ∈ ks) then Some h else None end).
Proof.
  revert m errs. induction ks as [|k ks IH]; intros m errs; simpl.
  { split; [set_solver|]. intros _ k. destruct (m !! k); [done|].
    try (case_decide; set_solver). done. }
  destruct (m !! k) as [t|] eqn:Hk.
  - specialize (IH m (errs ++ push_if (bool_decide (t ≠ h)) (ConflictDetected t h k))).
    destruct (foldl _ _ ks) as [m' errs']. destruct IH as [IH1 IH2].
    rewrite app_nil, push_if_nil, bool_decide_eq_false in IH1. split.
    + rewrite IH1. setoid_rewrite elem_of_cons. split.
      * intros [[-> Ht] Hks]. split; [done|]. intros k' t' [->|?]; [|by eauto].
        rewrite Hk. intros [= <-]. by apply dec_stable.
      * intros [-> Hks]. split; [split; [done|]|eauto]. intros Hne. apply Hne. eauto.
    + intros He k'. rewrite (IH2 He). destruct (m !! k') eqn:Hk'; [done|].
      assert (k' ≠ k) by congruence. repeat case_decide; set_solver.
  - specialize (IH (<[k := h]> m) errs). destruct (foldl _ _ ks) as [m' errs'].
    destruct IH as [IH1 IH2]. split.
    + rewrite IH1. setoid_rewrite elem_of_cons. split; intros [-> Hks]; split; try done.
      * intros k' t' [->|Hin] Ht; [congruence|]. apply (Hks k'); [done|].
        rewrite lookup_insert_ne; [done|congruence].
      * intros k' t' Hin [[<- <-]|[Hne Ht]]%lookup_insert_Some; [done|eauto].
    + intros He k'. rewrite (IH2 He), lookup_insert. case_decide; subst.
      * rewrite Hk, decide_True by set_solver. done.
      * destruct (m !! k'); [done|]. repeat case_decide; set_solver.
Qed.

(** The maps of the loop after the transactions [l], none of which was refused. *)
Record assign_inv (config : LaneConfig) (l : list LaneAssignment) (s : AssignState) : Prop := {
  ai_grouped lane : default [] (as_grouped s !! lane) = lane_positions lane l;
  ai_gas lane : default 0 (as_lane_gas s !! lane) =
    Z.min (Zsum (la_gas_estimate <$> in_lane lane l)) u64_max;
  ai_keys lane k t : lc_enable_conflict_detection config = true →
    (default ∅ (as_lane_keys s !! lane) !! k = Some t →
       ∃ a, a ∈ in_lane lane l ∧ k ∈ state_keys a ∧ la_tx_hash a = t) ∧
    (∀ a, a ∈ in_lane lane l → k ∈ state_keys a →
       default ∅ (as_lane_keys s !! lane) !! k = Some (la_tx_hash a));
}.

Lemma length_lane_positions lane l : length (lane_positions lane l) = length (in_lane lane l).
Proof.
  induction l as [|a l IH] using rev_ind; [done|].
  rewrite lane_positions_snoc, in_lane_snoc, !length_app, IH. by case_decide.
Qed.
Lemma elem_of_in_lane lane l a : a ∈ in_lane lane l ↔ la_assigned_lane a = lane ∧ a ∈ l.
Proof. unfold in_lane. by rewrite list_elem_of_filter. Qed.

Section assign_loop.
Context `{HO : HashOrder} (config : LaneConfig) (l : list LaneAssignment) (a : LaneAssignment).
Context (s : AssignState) (Hs : assign_inv config l s) (Hnil : as_errors s = []).
Context (Hgas : Forall (λ b, 0 ≤ la_gas_estimate b) (l ++ [a])).
Context (Hlen : len (l ++ [a]) ≤ u64_max).
Abbreviation lane := (la_assigned_lane a).
Abbreviation s' := (assign_step config s (length l, a)).

Lemma lane_len : u64_saturating_add (len (default [] (as_grouped s !! lane))) 1 = len (in_lane lane l) + 1.
Proof.
  rewrite (ai_grouped _ _ _ Hs). unfold len in *. rewrite length_lane_positions.
  rewrite length_app in Hlen. simpl in Hlen.
  pose proof (length_filter (λ a0, la_assigned_lane a0 = lane) l). unfold in_lane. sat_lia.
Qed.
Lemma lane_gas_sum :
  u64_saturating_add (default 0 (as_lane_gas s !! lane)) (la_gas_estimate a) =
  Z.min (Zsum (la_gas_estimate <$> in_lane lane l) + la_gas_estimate a) u64_max.
Proof.
  rewrite (ai_gas _ _ _ Hs). apply Forall_app in Hgas as [Hl Ha]. rewrite Forall_singleton in Ha.
  assert (0 ≤ Zsum (la_gas_estimate <$> in_lane lane l)); [|sat_lia].
  apply Zsum_nonneg, Forall_fmap, Forall_forall. intros b [_ Hb]%elem_of_in_lane.
  rewrite Forall_forall in Hl. by apply Hl.
Qed.

(** The key check finds a conflict exactly with an incompatible earlier transaction. *)
Lemma key_check :
  lc_enable_conflict_detection config = true →
  (∀ k t, k ∈ hash_set_iter (state_keys a) → default ∅ (as_lane_keys s !! lane) !! k = Some t →
     t = la_tx_hash a) ↔
  ∀ b, b ∈ l → compatible b a.
Proof.
  intros Hen. setoid_rewrite elem_of_hash_set_iter. split.
  - intros Hk b Hb Hlane Hh k Hkb Hka. apply Hh.
    pose proof (ai_keys _ _ _ Hs lane k (la_tx_hash b) Hen) as [_ Hall].
    apply (Hk k); [done|]. apply Hall; [by apply elem_of_in_lane|done].
  - intros Hcomp k t Hka Ht.
    pose proof (ai_keys _ _ _ Hs lane k t Hen) as [Hex _].
    destruct (Hex Ht) as (b & [Hbl Hb]%elem_of_in_lane & Hkb & <-).
    destruct (decide (la_tx_hash b = la_tx_hash a)) as [|Hne]; [done|].
    exfalso. by apply (Hcomp b Hb Hbl Hne k).
Qed.

Lemma assign_step_ok :
  (as_errors s' = [] ↔
   la_tx_hash a ≠ zero_bytes 32 ∧ zero_bytes 32 ∉ state_keys a ∧
   len (in_lane lane l) + 1 ≤ lc_max_txs_per_lane config ∧
   Z.min (Zsum (la_gas_estimate <$> in_lane lane l) + la_gas_estimate a) u64_max
     ≤ lc_max_total_gas_per_lane config ∧
   (lc_enable_conflict_detection config = true → ∀ b, b ∈ l → compatible b a)).
Proof.
  unfold assign_step. rewrite Hnil, lane_len, lane_gas_sum.
  case_bool_decide as Hz; [split; [done|by intros [? _]]|].
  destruct (normalize_keys a) as [keys|e] eqn:Hnorm; simpl.
  2: { split; [done|]. intros (_ & Hk & _).
       assert (normalize_keys a = Ok (state_keys a)) by (by apply normalize_keys_ok). congruence. }
  apply normalize_keys_ok in Hnorm as [Hzero ->].
  destruct (lc_enable_conflict_detection config) eqn:Hen; simpl.
  - pose proof (key_step_spec (la_tx_hash a) (hash_set_iter (state_keys a))
      (default ∅ (as_lane_keys s !! lane))
      (push_if (lc_max_txs_per_lane config <? len (in_lane lane l) + 1)
         (LaneCapacityExceeded lane (len (in_lane lane l) + 1) (lc_max_txs_per_lane config)) ++
       push_if (lc_max_total_gas_per_lane config <?
            Z.min (Zsum (la_gas_estimate <$> in_lane lane l) + la_gas_estimate a) u64_max)
         (LaneCapacityExceeded lane
            (Z.min (Zsum (la_gas_estimate <$> in_lane lane l) + la_gas_estimate a) u64_max)
            (lc_max_total_gas_per_lane config)))) as Hspec.
    destruct (foldl (key_step _) _ _) as [m errs]. destruct Hspec as [Hspec _]. simpl.
    rewrite Hspec, (key_check Hen), app_nil, !push_if_nil, !Z.ltb_ge. tauto.
  - rewrite app_nil, !push_if_nil, !Z.ltb_ge. naive_solver.
Qed.

Lemma assign_step_inv : as_errors s' = [] → assign_inv config (l ++ [a]) s'.
Proof.
  intros Hok. pose proof Hok as (Hz & Hzk & _ & _ & Hcomp)%assign_step_ok. revert Hok.
  unfold assign_step. rewrite lane_gas_sum, bool_decide_false by done.
  assert (Hnorm : normalize_keys a = Ok (state_keys a)) by (by apply normalize_keys_ok).
  rewrite Hnorm.
  set (keys_out := if lc_enable_conflict_detection config then _ else _).
  assert (Hkeys : lc_enable_conflict_detection config = true → keys_out.2 = [] →
    ∀ lane' k, default ∅ (keys_out.1 !! lane') !! k =
      match default ∅ (as_lane_keys s !! lane') !! k with
      | Some t => Some t
      | None => if decide (lane' = lane ∧ k ∈ state_keys a) then Some (la_tx_hash a) else None end).
  { intros Hen. unfold keys_out. rewrite Hen.
    match goal with |- context [foldl (key_step ?h) (?m, ?e) ?ks] =>
      pose proof (key_step_spec h ks m e) as Hspec; destruct (foldl (key_step h) (m, e) ks) as [m' errs] end.
    destruct Hspec as [_ Hspec]. simpl. intros Herr lane' k. rewrite lookup_insert.
    case_decide as Hl; [subst lane'; simpl; rewrite Hspec by done|]; destruct (_ !! k); try done;
      repeat case_decide; rewrite ?elem_of_hash_set_iter in *; naive_solver. }
  destruct keys_out as [lane_keys errs]. simpl in *. intros ->. split; simpl.
  - intros lane'. rewrite lookup_insert, lane_positions_snoc. case_decide as Hl; simpl.
    + subst lane'. by rewrite (ai_grouped _ _ _ Hs).
    + by rewrite app_nil_r, (ai_grouped _ _ _ Hs).
  - intros lane'. rewrite lookup_insert, in_lane_snoc, fmap_app, Zsum_app. case_decide as Hl; csimpl.
    + subst lane'. f_equal. lia.
    + by rewrite Z.add_0_r, (ai_gas _ _ _ Hs).
  - intros lane' k t Hen. pose proof (ai_keys _ _ _ Hs lane' k) as Hold.
    rewrite (Hkeys Hen eq_refl). setoid_rewrite elem_of_in_lane. setoid_rewrite elem_of_app.
    setoid_rewrite list_elem_of_singleton. setoid_rewrite elem_of_in_lane in Hold. split.
    + destruct (default ∅ (as_lane_keys s !! lane') !! k) as [t'|] eqn:Ht'.
      * intros [= ->]. destruct (proj1 (Hold t Hen) eq_refl) as (b & ? & ? & ?). naive_solver.
      * case_decide; [|done]. intros [= <-]. exists a. naive_solver.
    + intros b [Hbl [Hb| ->]] Hk.
      * by rewrite (proj2 (Hold t Hen) b).
      * destruct (default ∅ (as_lane_keys s !! lane') !! k) as [t'|] eqn:Ht'.
        -- f_equal. subst lane'. apply (proj2 (key_check Hen) (Hcomp Hen) k); [|done].
           by apply elem_of_hash_set_iter.
        -- rewrite decide_True; done.
Qed.
End assign_loop.

Section assign_result.
Context `{HO : HashOrder}.

(** Errors never go away. *)
Lemma key_step_errors h ks m errs :
  (foldl (key_step h) (m, errs) ks).2 = [] → errs = [].
Proof.
  pose proof (key_step_spec h ks m errs) as Hs. destruct (foldl _ _ ks) as [m' errs'].
  intros He. by apply (proj1 Hs).
Qed.
Lemma assign_step_errors config s p : as_errors (assign_step config s p) = [] → as_errors s = [].
Proof.
  destruct p as [i a]. unfold assign_step. case_bool_decide; simpl; [by intros [? _]%app_nil|].
  destruct (normalize_keys a) as [keys|e]; simpl; [|by intros [? _]%app_nil].
  destruct (lc_enable_conflict_detection config); simpl; [|by intros [? _]%app_nil].
  match goal with |- context [foldl (key_step ?h) (?m, ?e) ?ks] =>
    pose proof (key_step_errors h ks m e) as He; destruct (foldl (key_step h) (m, e) ks) end.
  simpl in *. intros [? _]%He%app_nil. done.
Qed.

Lemma assign_loop_spec config l :
  Forall (λ b, 0 ≤ la_gas_estimate b) l → len l ≤ u64_max →
  let s := foldl (assign_step config) (MkAssign ∅ ∅ ∅ []) (imap pair l) in
  (as_errors s = [] ↔ lanes_ok config l) ∧ (as_errors s = [] → assign_inv config l s).
Proof.
  induction l as [|a l IH] using rev_ind; intros Hgas Hlen.
  { simpl. split.
    - split; [|done]. intros _. split; try (intros; set_solver); constructor.
    - intros _. split; simpl; intros *; rewrite ?lookup_empty; simpl; try done.
      intros _. split; [by rewrite lookup_empty|]. set_solver. }
  assert (Hlen' : len l ≤ u64_max) by (unfold len in *; rewrite length_app in Hlen; lia).
  pose proof (proj1 (proj1 (Forall_app _ l [a]) Hgas)) as Hgas'.
  destruct (IH Hgas' Hlen') as [IHok IHinv]. rewrite imap_app, foldl_app.
  cbn [imap foldl compose]. unfold compose. rewrite Nat.add_0_r. cbv zeta.
  set (s := foldl (assign_step config) _ _) in *.
  destruct (decide (as_errors s = [])) as [Hnil|Herr].
  - specialize (IHinv Hnil). split.
    + rewrite (assign_step_ok config l a s IHinv Hnil Hgas Hlen), lanes_ok_snoc by done.
      rewrite <- IHok. tauto.
    + by apply assign_step_inv.
  - split; [|by intros ?%assign_step_errors].
    split; [by intros ?%assign_step_errors|]. rewrite lanes_ok_snoc by done. tauto.
Qed.

(** The assignment is sound and complete: it succeeds exactly when every
    transaction has a non-zero hash and non-zero keys, every used lane is within
    its limits on transactions and (saturating) gas, and, with detection on, no two
    transactions of a lane with different hashes share a state key; the lanes are
    then the positions of their transactions, in order, whatever order the sets
    of keys are iterated in. *)
Theorem assign_to_lanes_exact (assignments : list LaneAssignment) (config : LaneConfig) :
  Forall (λ b, 0 ≤ la_gas_estimate b) assignments → len assignments ≤ u64_max →
  (is_ok (assign_to_lanes assignments config) = true ↔ lanes_ok config assignments) ∧
  (∀ grouped, assign_to_lanes assignments config = Ok grouped →
     ∀ lane, default [] (grouped !! lane) = lane_positions lane assignments).
Proof.
  intros Hgas Hlen. pose proof (assign_loop_spec config assignments Hgas Hlen) as [Hok Hinv].
  unfold assign_to_lanes. destruct (as_errors _) eqn:Herr; split.
  - rewrite <- Hok. done.
  - intros grouped [= <-] lane. by apply (ai_grouped _ _ _ (Hinv eq_refl)).
  - rewrite <- Hok. done.
  - done.
Qed.
End assign_result.

(** ** Conflicts between lanes *)

Section cross_lane.
Context `{HO : HashOrder} `{SU : SortUnstable}.

Lemma elem_of_conflict_keys a k :
  k ∈ conflict_keys a ↔ k ∈ state_keys a ∧ zero_bytes 32 ∉ state_keys a.
Proof.
  unfold conflict_keys. destruct (normalize_keys a) as [keys|e] eqn:Hn.
  - apply normalize_keys_ok in Hn as [? ->]. naive_solver.
  - split; [set_solver|]. intros [_ Hz].
    assert (normalize_keys a = Ok (state_keys a)) by (by apply normalize_keys_ok). congruence.
Qed.

(** The first match of a sorted list is its least one. *)
Lemma find_sorted (c : hash → hash → comparison) `{!PreorderCmp c} (f : hash → bool) l k :
  StronglySorted (cmp_le c) l →
  List.find f l = Some k → k ∈ l ∧ f k = true ∧ ∀ k', k' ∈ l → f k' = true → c k k' ≠ Gt.
Proof.
  induction 1 as [|x l Hl IH Hx]; simpl; [done|]. destruct (f x) eqn:Hfx.
  - intros [= <-]. split_and!; [left|done|]. intros k' [->|Hk']%elem_of_cons _.
    + by rewrite (cmp_refl c).
    + rewrite Forall_forall in Hx. by apply Hx.
  - intros Hf%IH. destruct Hf as (Hin & Hfk & Hmin). split_and!; [by right|done|].
    intros k' [->|Hk']%elem_of_cons Hfk'; [congruence|by apply Hmin].
Qed.

(** A reported key is the least of the common ones. *)
Definition least_common_key (a b : LaneAssignment) (k : hash) : Prop :=
  k ∈ conflict_keys a ∧ k ∈ conflict_keys b ∧
  ∀ k', k' ∈ conflict_keys a → k' ∈ conflict_keys b → bytes_cmp k k' ≠ Gt.

Lemma elem_of_cross_lane_conflict i j a b i' j' k :
  (i', j', k) ∈ cross_lane_conflict i j a b ↔
  i' = i ∧ j' = j ∧ la_assigned_lane a ≠ la_assigned_lane b ∧ least_common_key a b k.
Proof.
  unfold cross_lane_conflict, least_common_key. case_decide; [set_solver|].
  set (keys := sort_unstable_by bytes_cmp (hash_set_iter (conflict_keys a))).
  assert (Hkeys : ∀ x, x ∈ keys ↔ x ∈ conflict_keys a).
  { intros x. unfold keys. rewrite sort_unstable_perm. apply elem_of_hash_set_iter. }
  destruct (List.find _ keys) as [key|] eqn:Hf.
  - apply (find_sorted bytes_cmp) in Hf as (Hin & Hfk & Hmin); [|apply sort_unstable_sorted, _].
    apply bool_decide_eq_true in Hfk. rewrite Hkeys in Hin.
    rewrite list_elem_of_singleton. split.
    + intros [= -> -> ->]. split_and!; try done. intros k' Hk' Hkb. apply Hmin; [by apply Hkeys|].
      by apply bool_decide_eq_true.
    + intros (-> & -> & _ & Hka & Hkb & Hle). f_equal.
      pose proof (Hmin k ltac:(by apply Hkeys) ltac:(by apply bool_decide_eq_true)) as Hle'.
      specialize (Hle key Hin Hfk). rewrite (cmp_antisym bytes_cmp k key) in Hle'.
      apply (cmp_eq bytes_cmp). by destruct (bytes_cmp k key).
  - split; [set_solver|]. intros (_ & _ & _ & Hka & Hkb & _).
    apply Hkeys, list_elem_of_In in Hka. pose proof (List.find_none _ _ Hf _ Hka) as Hno.
    by apply bool_decide_eq_false in Hno.
Qed.

(** Conflict detection across lanes is exact: it reports a pair of positions,
    earlier first, exactly when the transactions are in different lanes and share
    a state key (sets with a zero key count as empty), and the key reported is the
    least common one, so the answer does not depend on any iteration order. *)
Theorem cross_lane_conflicts_exact (assignments : list LaneAssignment) (i j : nat) (k : hash) :
  (i, j, k) ∈ detect_cross_lane_conflicts assignments ↔
  ∃ a b, assignments !! i = Some a ∧ assignments !! j = Some b ∧ (i < j)%nat ∧
    la_assigned_lane a ≠ la_assigned_lane b ∧ least_common_key a b k.
Proof.
  unfold detect_cross_lane_conflicts. rewrite list_elem_of_bind. split.
  - intros ([i' a] & ([j' b] & Hin & Hq)%list_elem_of_bind & Hp). simpl in *.
    apply elem_of_lookup_imap in Hp as (? & ? & [= -> ->] & Hp).
    apply elem_of_lookup_imap in Hq as (? & ? & [= -> ->] & Hq).
    case_decide; [|by apply elem_of_nil in Hin].
    apply elem_of_cross_lane_conflict in Hin as (-> & -> & Hlane & Hk). eauto 10.
  - intros (a & b & Ha & Hb & Hij & Hlane & Hk). exists (i, a). split.
    + apply list_elem_of_bind. exists (j, b). split.
      * simpl. rewrite decide_True by done. by apply elem_of_cross_lane_conflict.
      * apply elem_of_lookup_imap. eauto.
    + apply elem_of_lookup_imap. eauto.
Qed.

(** The commitment of a lane does not depend on the order of its
    transactions, and binds them: commitments of two lists of 32-byte hashes are
    equal only for one lane and a permutation, up to a SHA-256 collision of the
    two preimages. *)
Theorem lane_commitment_binding `{Sha256} (lane1 lane2 : LaneId) (l1 l2 : list hash) :
  Forall (λ h, length h = 32%nat) l1 → Forall (λ h, length h = 32%nat) l2 →
  (lane1 = lane2 ∧ l1 ≡ₚ l2 →
   compute_lane_commitment lane1 l1 = compute_lane_commitment lane2 l2) ∧
  (compute_lane_commitment lane1 l1 = compute_lane_commitment lane2 l2 →
   (lane1 = lane2 ∧ l1 ≡ₚ l2) ∨
   ∃ x y, x = lane_discriminant lane1 :: concat (sort_unstable_by bytes_cmp l1) ∧
     y = lane_discriminant lane2 :: concat (sort_unstable_by bytes_cmp l2) ∧
     x ≠ y ∧ sha256 x = sha256 y).
Proof.
  intros H1 H2. unfold compute_lane_commitment. simpl. split.
  - intros [-> Hp]. do 3 f_equal.
    apply (sorted_perm_unique bytes_cmp); [| | |by rewrite !sort_unstable_perm].
    + intros x y _ _. apply (cmp_eq bytes_cmp).
    + apply sort_unstable_sorted, _.
    + apply sort_unstable_sorted, _.
  - intros Hsha. set (x := _ :: _) in Hsha. set (y := _ :: _) in Hsha.
    destruct (decide (x = y)) as [Heq|Hne]; [left|right; by exists x, y].
    unfold x, y in Heq. injection Heq as Hlane Hconcat. split.
    + destruct lane1, lane2; try done.
    + rewrite <- (sort_unstable_perm bytes_cmp l1), <- (sort_unstable_perm bytes_cmp l2).
      rewrite <- (sort_unstable_perm bytes_cmp l1) in H1. rewrite <- (sort_unstable_perm bytes_cmp l2) in H2.
      revert H1 H2 Hconcat. clear. generalize (sort_unstable_by bytes_cmp l1), (sort_unstable_by bytes_cmp l2).
      intros m1 m2 H1. revert m2. induction H1 as [|h1 m1 Hh1 H1 IH]; intros m2 H2 Hc.
      * destruct H2 as [|h2 m2 Hh2]; [done|]. destruct h2; simplify_eq/=.
      * destruct H2 as [|h2 m2 Hh2 H2]; [destruct h1; simplify_eq/=|].
        simpl in Hc. apply app_inj_1 in Hc as [-> Hc]; [|congruence]. constructor. by apply IH.
Qed.
End cross_lane.

(** ** Concrete lanes *)

#[local] Existing Instance map_to_list_order.
#[local] Existing Instance stable_sort_unstable.

Definition example_assignment (h : Z) (lane : LaneId) (key gas : Z) : LaneAssignment :=
  {| la_tx_hash := repeat h 32; la_assigned_lane := lane; la_state_keys_accessed := [repeat key 32];
     la_conflict_set := ∅; la_gas_estimate := gas |}.
Definition example_assignments : list LaneAssignment :=
  [example_assignment 1 Transfer 7 21000; example_assignment 2 DeFi 7 50000;
   example_assignment 3 Transfer 8 21000].

Lemma assign_to_lanes_exact_witness :
  lanes_ok default_lane_config example_assignments.
Proof.
  refine (proj1 (proj1 (assign_to_lanes_exact example_assignments default_lane_config _ _)) _).
  - repeat constructor; discriminate.
  - discriminate.
  - vm_compute. reflexivity.
Defined.
Lemma lane_commitment_binding_witness :
  compute_lane_commitment (H := λ l, l) Transfer [repeat 1 32; repeat 2 32] =
  compute_lane_commitment (H := λ l, l) Transfer [repeat 2 32; repeat 1 32].
Proof.
  refine (proj1 (lane_commitment_binding (H := λ l, l) Transfer Transfer
    [repeat 1 32; repeat 2 32] [repeat 2 32; repeat 1 32] _ _) _).
  - repeat constructor.
  - repeat constructor.
  - split; [reflexivity|]. apply Permutation_swap.
Defined.
