(* ===== verification/Canonical.v ===== *)
(** * Canonical data and the state database ([eth2077-types/src/canonical.rs], [eth2077-execution/src/state.rs])

    Part 1. Canonical block types ([eth2077-types/src/canonical.rs])

    Headers, transactions, blocks and receipts.  Fixed-size byte arrays are lists
    of bytes, [U256] and the integers are [Z].  What the [alloy] crates provide
    (Keccak-256, the derived RLP encoding of headers, log blooms) is the class
    [Alloy].

    Part 2. The in-memory state database ([eth2077-execution/src/state.rs]) *)
From S2P Require Import Prelude.
Local Open Scope Z_scope.

Abbreviation B256 := (list Z) (only parsing).
Abbreviation Address := (list Z) (only parsing).
Abbreviation Bloom := (list Z) (only parsing).
Abbreviation Bytes := (list Z) (only parsing).
Abbreviation U256 := Z (only parsing).

Definition B256_ZERO : B256 := zero_bytes 32.
Definition Address_ZERO : Address := zero_bytes 20.

(* eth2077-types/src/canonical.rs:13-37 Header *)
Record Header := {
  parent_hash : B256;
  ommers_hash : B256;
  beneficiary : Address;
  state_root : B256;
  transactions_root : B256;
  receipts_root : B256;
  logs_bloom : Bloom;
  difficulty : U256;
  number : Z;
  gas_limit : Z;
  gas_used : Z;
  timestamp : Z;
  extra_data : Bytes;
  mix_hash : B256;
  nonce : Z;
  base_fee_per_gas : option Z;
  blob_gas_used : option Z;
  excess_blob_gas : option Z;
  parent_beacon_block_root : option B256;
}.
#[export] Instance Header_eq_dec : EqDecision Header.
Proof. solve_decision. Defined.

(* eth2077-types/src/canonical.rs:41-55 Transaction *)
Record Transaction := {
  tx_hash : B256;
  tx_nonce : Z;
  tx_from : Address;
  tx_to : option Address;
  tx_value : U256;
  tx_gas_limit : Z;
  tx_max_fee_per_gas : Z;
  tx_max_priority_fee_per_gas : Z;
  tx_input : Bytes;
  tx_chain_id : Z;
  tx_signature_r : U256;
  tx_signature_s : U256;
  tx_signature_v : Z;
}.
#[export] Instance Transaction_eq_dec : EqDecision Transaction.
Proof. solve_decision. Defined.

(* eth2077-types/src/canonical.rs:59-63 Block *)
Record Block := {
  header : Header;
  transactions : list Transaction;
  ommers : list Header;
}.
#[export] Instance Block_eq_dec : EqDecision Block.
Proof. solve_decision. Defined.

(* eth2077-types/src/canonical.rs:77-81 Log *)
Record Log := {
  log_address : Address;
  log_topics : list B256;
  log_data : Bytes;
}.
#[export] Instance Log_eq_dec : EqDecision Log.
Proof. solve_decision. Defined.

(* eth2077-types/src/canonical.rs:67-73 Receipt *)
Record Receipt := {
  rc_tx_hash : B256;
  rc_status : bool;
  rc_cumulative_gas_used : Z;
  rc_logs_bloom : Bloom;
  rc_logs : list Log;
}.
#[export] Instance Receipt_eq_dec : EqDecision Receipt.
Proof. solve_decision. Defined.

(** What the [alloy] crates compute. *)
Class Alloy := {
  keccak256 : list Z → B256;
  header_encode : Header → list Z;
  Bloom_ZERO : Bloom;
  accrue_bloom : Bloom → Bloom → Bloom;
  bloom_of_logs : list Log → Bloom;
}.

Section hashes.
Context `{Alloy}.

(* eth2077-types/src/canonical.rs:94-99 Header::hash *)
Definition Header_hash (h : Header) : B256 := keccak256 (header_encode h).

(* eth2077-types/src/canonical.rs:104-106 Block::hash *)
Definition Block_hash (b : Block) : B256 := Header_hash (header b).
End hashes.

(* eth2077-types/src/canonical.rs:109-111 Block::number *)
Definition Block_number (b : Block) : Z := number (header b).

(** An instance for the examples: the identity for a hash. *)
Definition example_alloy : Alloy := {|
  keccak256 l := l;
  header_encode h := parent_hash h ++ state_root h ++ transactions_root h ++ to_be_bytes 8 (number h);
  Bloom_ZERO := [0];
  accrue_bloom a b := [Z.lor (hd 0 a) (hd 0 b)];
  bloom_of_logs logs := [len logs];
|}.

(** ** Part 2 *)

(* eth2077-execution/src/state.rs:9-14 AccountInfo *)
Record AccountInfo := {
  ai_balance : U256;
  ai_nonce : Z;
  ai_code_hash : B256;
  ai_code : option (list Z);
}.
(** [AccountInfo::default()] *)
Definition AccountInfo_default : AccountInfo :=
  {| ai_balance := 0; ai_nonce := 0; ai_code_hash := B256_ZERO; ai_code := None |}.

(* eth2077-execution/src/state.rs:21-25 InMemoryStateDB *)
Record InMemoryStateDB := MkStateDB {
  db_accounts : gmap Address AccountInfo;
  db_storage : gmap Address (gmap U256 U256);
  db_block_hashes : gmap Z B256;
}.

(* eth2077-execution/src/state.rs:28-30 InMemoryStateDB::new *)
Definition InMemoryStateDB_new : InMemoryStateDB := MkStateDB ∅ ∅ ∅.

(* eth2077-execution/src/state.rs:33-35 InMemoryStateDB::insert_account *)
Definition InMemoryStateDB_insert_account (db : InMemoryStateDB) (addr : Address) (info : AccountInfo)
  : InMemoryStateDB :=
  MkStateDB (<[addr := info]> (db_accounts db)) (db_storage db) (db_block_hashes db).

(* eth2077-execution/src/state.rs:38-40 InMemoryStateDB::get_account *)
Definition InMemoryStateDB_get_account (db : InMemoryStateDB) (addr : Address) : AccountInfo :=
  default AccountInfo_default (db_accounts db !! addr).

(* eth2077-execution/src/state.rs:43-45 InMemoryStateDB::set_storage *)
Definition InMemoryStateDB_set_storage (db : InMemoryStateDB) (addr : Address) (slot value : U256)
  : InMemoryStateDB :=
  MkStateDB (db_accounts db)
    (<[addr := <[slot := value]> (default ∅ (db_storage db !! addr))]> (db_storage db))
    (db_block_hashes db).

(* eth2077-execution/src/state.rs:48-54 InMemoryStateDB::get_storage *)
Definition InMemoryStateDB_get_storage (db : InMemoryStateDB) (addr : Address) (slot : U256) : U256 :=
  default 0 (db_storage db !! addr ≫= λ s, s !! slot).

(* eth2077-execution/src/state.rs:57-59 InMemoryStateDB::insert_block_hash *)
Definition InMemoryStateDB_insert_block_hash (db : InMemoryStateDB) (n : Z) (h : B256)
  : InMemoryStateDB :=
  MkStateDB (db_accounts db) (db_storage db) (<[n := h]> (db_block_hashes db)).

(* eth2077-execution/src/state.rs:62-67 InMemoryStateDB::get_block_hash *)
Definition InMemoryStateDB_get_block_hash (db : InMemoryStateDB) (n : Z) : B256 :=
  default B256_ZERO (db_block_hashes db !! n).

(* eth2077-execution/src/state.rs:70-72 InMemoryStateDB::account_exists *)
Definition InMemoryStateDB_account_exists (db : InMemoryStateDB) (addr : Address) : bool :=
  bool_decide (is_Some (db_accounts db !! addr)).

(* eth2077-execution/src/state.rs:75-78 InMemoryStateDB::remove_account *)
Definition InMemoryStateDB_remove_account (db : InMemoryStateDB) (addr : Address) : InMemoryStateDB :=
  MkStateDB (delete addr (db_accounts db)) (delete addr (db_storage db)) (db_block_hashes db).

(* eth2077-execution/src/state.rs:81-83 InMemoryStateDB::clear_storage *)
Definition InMemoryStateDB_clear_storage (db : InMemoryStateDB) (addr : Address) : InMemoryStateDB :=
  MkStateDB (db_accounts db) (delete addr (db_storage db)) (db_block_hashes db).

(** [accounts()]: the addresses, in the order of the [HashMap]. *)
(* eth2077-execution/src/state.rs:86-88 InMemoryStateDB::accounts *)
Definition InMemoryStateDB_accounts `{HashOrder} (db : InMemoryStateDB) : list Address :=
  (hash_iter (db_accounts db)).*1.

Lemma elem_of_accounts `{HashOrder} db addr :
  addr ∈ InMemoryStateDB_accounts db ↔ is_Some (db_accounts db !! addr).
Proof.
  unfold InMemoryStateDB_accounts. rewrite list_elem_of_fmap. split.
  - intros ([a info] & -> & Hin%elem_of_hash_iter). by exists info.
  - intros [info Hin]. exists (addr, info). by rewrite elem_of_hash_iter.
Qed.
Lemma accounts_perm `{HashOrder} db :
  InMemoryStateDB_accounts db ≡ₚ (map_to_list (db_accounts db)).*1.
Proof. unfold InMemoryStateDB_accounts. by rewrite hash_iter_perm. Qed.
