(* ===== verification/Executor.v ===== *)
(** * Transaction execution over revm ([eth2077-execution/src/executor.rs])

    The adapter that shows the state database to revm, the execution of one
    transaction and the commit of revm's state changes.  revm itself is the class
    [Revm]: a function of what it can read through the [Database] trait and of the
    transaction environment.  revm's state is a [HashMap], so the changes are
    applied in an arbitrary order: the theorems show the order does not matter. *)
From S2P Require Import Prelude Canonical.
Local Open Scope Z_scope.

(* eth2077-execution/src/executor.rs:18-21 ExecutionError *)
Inductive ExecutionError :=
| EvmError (msg : string)
| InvalidTransaction (msg : string).
#[export] Instance ExecutionError_eq_dec : EqDecision ExecutionError.
Proof. solve_decision. Defined.

(** ** revm's types, as far as the source reads and writes them *)

Inductive TxKind := TxCall (to : Address) | TxCreate.
(** The fields given to [TxEnv::builder()]. *)
Record TxEnvFields := {
  te_caller : Address;
  te_gas_limit : Z;
  te_max_fee_per_gas : Z;
  te_gas_priority_fee : option Z;
  te_kind : TxKind;
  te_value : U256;
  te_data : Bytes;
  te_nonce : Z;
  te_chain_id : option Z;
}.

Inductive ExecutionKind := Success | Revert | Halt (reason : string).
Record ExecutionResult := {
  er_kind : ExecutionKind;
  er_gas_used : Z;
  er_logs : list Log;
}.
Definition ExecutionResult_is_success (r : ExecutionResult) : bool :=
  match er_kind r with Success => true | _ => false end.

Class RevmTypes := { Bytecode : Type; TxEnv : Type }.

Section types.
Context `{RevmTypes}.
(** revm's [AccountInfo], [Account] and the [Database] trait. *)
Record RevmAccountInfo := {
  ri_balance : U256;
  ri_nonce : Z;
  ri_code_hash : B256;
  ri_code : option Bytecode;
}.
Record Account := {
  acc_info : RevmAccountInfo;
  acc_is_selfdestructed : bool;
  acc_is_created : bool;
  acc_changed_storage_slots : gmap U256 U256;
}.
Record Database := {
  dbt_basic : Address → option RevmAccountInfo;
  dbt_code_by_hash : B256 → Bytecode;
  dbt_storage : Address → U256 → U256;
  dbt_block_hash : Z → B256;
}.
(** Databases that answer alike. *)
Record database_equiv (d1 d2 : Database) : Prop := {
  de_basic addr : dbt_basic d1 addr = dbt_basic d2 addr;
  de_code h : dbt_code_by_hash d1 h = dbt_code_by_hash d2 h;
  de_storage addr slot : dbt_storage d1 addr slot = dbt_storage d2 addr slot;
  de_block_hash n : dbt_block_hash d1 n = dbt_block_hash d2 n;
}.
Abbreviation EvmState := (gmap Address Account).

(** The operations of revm the source calls.  [transact] sees the database only
    through the trait, so it answers alike on databases that answer alike. *)
Class Revm := {
  Bytecode_new_raw : Bytes → Bytecode;
  Bytecode_default : Bytecode;
  Bytecode_original_bytes : Bytecode → Bytes;
  TxEnv_build : TxEnvFields → result TxEnv string;
  transact : Database → TxEnv → result (ExecutionResult * EvmState) string;
  transact_proper d1 d2 env : database_equiv d1 d2 → transact d1 env = transact d2 env;
}.
End types.

Abbreviation EvmState := (gmap Address Account).

(* eth2077-execution/src/executor.rs:88-90 BlockExecutor *)
Record BlockExecutor := { be_state : InMemoryStateDB }.

Section execution.
Context `{HO : HashOrder} `{AL : Alloy} `{RT : RevmTypes} `{RV : !Revm}.

(* eth2077-execution/src/executor.rs:48-62 RevmDatabase::basic *)
Definition RevmDatabase_basic (st : InMemoryStateDB) (addr : Address) : option RevmAccountInfo :=
  if InMemoryStateDB_account_exists st addr then
    let account := InMemoryStateDB_get_account st addr in
    Some {| ri_balance := ai_balance account; ri_nonce := ai_nonce account;
            ri_code_hash := ai_code_hash account; ri_code := Bytecode_new_raw <$> ai_code account |}
  else None.

(* eth2077-execution/src/executor.rs:64-75 RevmDatabase::code_by_hash *)
Definition RevmDatabase_code_by_hash (st : InMemoryStateDB) (code_hash : B256) : Bytecode :=
  (fix go (addresses : list Address) : Bytecode :=
    match addresses with
    | [] => Bytecode_default
    | addr :: addresses =>
        let account := InMemoryStateDB_get_account st addr in
        if decide (ai_code_hash account = code_hash) then
          match ai_code account with
          | Some code => Bytecode_new_raw code
          | None => go addresses
          end
        else go addresses
    end) (InMemoryStateDB_accounts st).

(* eth2077-execution/src/executor.rs:45-84 RevmDatabase *)
Definition RevmDatabase (st : InMemoryStateDB) : Database := {|
  dbt_basic := RevmDatabase_basic st;
  dbt_code_by_hash := RevmDatabase_code_by_hash st;
  dbt_storage := InMemoryStateDB_get_storage st;
  dbt_block_hash := InMemoryStateDB_get_block_hash st;
|}.

(* eth2077-execution/src/executor.rs:176-205 BlockExecutor::apply_account_change *)
Definition BlockExecutor_apply_account_change (addr : Address) (account : Account)
    (st : InMemoryStateDB) : InMemoryStateDB :=
  if acc_is_selfdestructed account then InMemoryStateDB_remove_account st addr else
  let info := acc_info account in
  let st := InMemoryStateDB_insert_account st addr
    {| ai_balance := ri_balance info; ai_nonce := ri_nonce info; ai_code_hash := ri_code_hash info;
       ai_code := Bytecode_original_bytes <$> ri_code info |} in
  let st := if acc_is_created account then InMemoryStateDB_clear_storage st addr else st in
  foldl (λ st p, InMemoryStateDB_set_storage st addr p.1 p.2) st
    (hash_iter (acc_changed_storage_slots account)).

(* eth2077-execution/src/executor.rs:170-174 BlockExecutor::apply_state_changes *)
Definition BlockExecutor_apply_state_changes (changes : EvmState) (st : InMemoryStateDB)
  : InMemoryStateDB :=
  foldl (λ st p, BlockExecutor_apply_account_change p.1 p.2 st) st (hash_iter changes).

(* eth2077-execution/src/executor.rs:106-168 BlockExecutor::execute_tx *)
Definition BlockExecutor_execute_tx (ex : BlockExecutor) (tx : Transaction)
  : BlockExecutor * result Receipt ExecutionError :=
  if tx_max_fee_per_gas tx <? tx_max_priority_fee_per_gas tx
  then (ex, Err (InvalidTransaction "max_priority_fee_per_gas exceeds max_fee_per_gas")) else
  if tx_gas_limit tx =? 0
  then (ex, Err (InvalidTransaction "gas_limit must be greater than zero")) else
  let tx_kind := match tx_to tx with Some to => TxCall to | None => TxCreate end in
  let fields := {|
    te_caller := tx_from tx;
    te_gas_limit := tx_gas_limit tx;
    te_max_fee_per_gas := tx_max_fee_per_gas tx;
    te_gas_priority_fee := Some (tx_max_priority_fee_per_gas tx);
    te_kind := tx_kind;
    te_value := tx_value tx;
    te_data := tx_input tx;
    te_nonce := tx_nonce tx;
    te_chain_id := Some (tx_chain_id tx) |} in
  match map_err InvalidTransaction (TxEnv_build fields) with
  | Err e => (ex, Err e)
  | Ok tx_env =>
      match map_err EvmError (transact (RevmDatabase (be_state ex)) tx_env) with
      | Err e => (ex, Err e)
      | Ok (r, changes) =>
          match er_kind r with
          | Halt reason => (ex, Err (EvmError ("transaction halted: " +:+ reason)))
          | _ =>
              ({| be_state := BlockExecutor_apply_state_changes changes (be_state ex) |},
               Ok {| rc_tx_hash := tx_hash tx;
                     rc_status := ExecutionResult_is_success r;
                     rc_cumulative_gas_used := er_gas_used r;
                     rc_logs_bloom := bloom_of_logs (er_logs r);
                     rc_logs := er_logs r |})
          end
      end
  end.
End execution.

(** ** The committed state, slot by slot *)

Section commit.
Context `{RT : RevmTypes} `{RV : !Revm}.

(** What a change makes of an account and of its storage. *)
Definition account_after (account : Account) : option AccountInfo :=
  if acc_is_selfdestructed account then None
  else let info := acc_info account in
    Some {| ai_balance := ri_balance info; ai_nonce := ri_nonce info;
            ai_code_hash := ri_code_hash info;
            ai_code := Bytecode_original_bytes <$> ri_code info |}.
Definition storage_after (account : Account) (old : option (gmap U256 U256))
  : option (gmap U256 U256) :=
  if acc_is_selfdestructed account then None
  else let kept := if acc_is_created account then None else old in
    if decide (acc_changed_storage_slots account = ∅) then kept
    else Some (acc_changed_storage_slots account ∪ default ∅ kept).

Lemma set_storage_fold addr (l : list (U256 * U256)) st :
  foldl (λ st p, InMemoryStateDB_set_storage st addr p.1 p.2) st l =
  MkStateDB (db_accounts st)
    (partial_alter (λ o, if decide (l = []) then o
       else Some (list_to_map (reverse l) ∪ default ∅ o)) addr (db_storage st)) (db_block_hashes st).
Proof.
  induction l as [|[slot v] l IH] using rev_ind.
  { destruct st as [ac sto bh]. simpl. f_equal. apply map_eq. intros a.
    rewrite lookup_partial_alter. by case_decide; subst. }
  rewrite foldl_snoc, IH. unfold InMemoryStateDB_set_storage. cbn [db_accounts db_storage db_block_hashes fst snd].
  f_equal. apply map_eq. intros a. destruct (decide (addr = a)) as [<-|Hne].
  2: { by rewrite lookup_insert_ne, !lookup_partial_alter_ne. }
  rewrite lookup_insert_eq, !lookup_partial_alter_eq.
  rewrite (decide_False (P := l ++ _ = _)) by (by destruct l).
  rewrite reverse_snoc. csimpl. f_equal. rewrite <- insert_union_l. f_equal.
  case_decide as Hl; [subst l; simpl|done]. by rewrite (left_id_L ∅ (∪)).
Qed.

Section with_order.
Context `{HO : HashOrder}.

Lemma hash_iter_map {K V} `{Countable K} (m : gmap K V) :
  list_to_map (reverse (hash_iter m)) = m ∧ (hash_iter m = [] ↔ m = ∅).
Proof.
  split.
  - rewrite <- (list_to_map_to_list m) at 2. apply list_to_map_proper.
    + rewrite reverse_Permutation, hash_iter_perm. apply NoDup_fst_map_to_list.
    + by rewrite reverse_Permutation, hash_iter_perm.
  - rewrite <- map_to_list_empty_iff. pose proof (hash_iter_perm m) as Hp. split; intros He;
      rewrite He in Hp.
    + by apply Permutation_nil_l in Hp.
    + by apply Permutation_nil_r in Hp.
Qed.

Lemma apply_account_change_eq addr account st :
  BlockExecutor_apply_account_change addr account st =
  MkStateDB (partial_alter (λ _, account_after account) addr (db_accounts st))
    (partial_alter (storage_after account) addr (db_storage st)) (db_block_hashes st).
Proof.
  unfold BlockExecutor_apply_account_change, account_after, storage_after.
  destruct (acc_is_selfdestructed account); [done|]. rewrite set_storage_fold.
  destruct (hash_iter_map (acc_changed_storage_slots account)) as [-> Hempty].
  destruct (acc_is_created account); simpl; f_equal; apply map_eq; intros a;
    (destruct (decide (addr = a)) as [<-|Hne];
     [rewrite ?lookup_partial_alter_eq, ?lookup_delete_eq
     |rewrite ?lookup_partial_alter_ne, ?lookup_delete_ne by done]);
    repeat case_decide; naive_solver.
Qed.

(** After all changes every account and every storage slot is what its own change
    says, or as before. *)
Lemma apply_changes_lookup (l : list (Address * Account)) st :
  NoDup l.*1 →
  let st' := foldl (λ st p, BlockExecutor_apply_account_change p.1 p.2 st) st l in
  db_block_hashes st' = db_block_hashes st ∧
  ∀ addr, match list_to_map (M := gmap Address Account) l !! addr with
          | Some account => db_accounts st' !! addr = account_after account ∧
              db_storage st' !! addr = storage_after account (db_storage st !! addr)
          | None => db_accounts st' !! addr = db_accounts st !! addr ∧
              db_storage st' !! addr = db_storage st !! addr
          end.
Proof.
  revert st. induction l as [|[a account] l IH]; intros st Hnd; csimpl in *; [done|].
  apply NoDup_cons in Hnd as [Ha Hnd].
  destruct (IH (BlockExecutor_apply_account_change a account st) Hnd) as [IHb IHa].
  rewrite apply_account_change_eq in *. split; [exact IHb|]. intros addr.
  specialize (IHa addr). simpl in IHa. rewrite lookup_insert.
  case_decide as Haddr; [subst addr|].
  - rewrite (not_elem_of_list_to_map_1 l a) in IHa by done. destruct IHa as [-> ->].
    by rewrite !lookup_partial_alter_eq.
  - rewrite !lookup_partial_alter_ne in IHa by done. exact IHa.
Qed.

Lemma apply_state_changes_lookup changes st addr :
  let st' := BlockExecutor_apply_state_changes changes st in
  db_block_hashes st' = db_block_hashes st ∧
  db_accounts st' !! addr = match changes !! addr with
    | Some account => account_after account | None => db_accounts st !! addr end ∧
  db_storage st' !! addr = match changes !! addr with
    | Some account => storage_after account (db_storage st !! addr) | None => db_storage st !! addr end.
Proof.
  unfold BlockExecutor_apply_state_changes.
  pose proof (apply_changes_lookup (hash_iter changes) st (NoDup_hash_iter changes)) as [Hb Ha].
  split; [exact Hb|]. specialize (Ha addr).
  assert (Hm : list_to_map (M := gmap Address Account) (hash_iter changes) = changes).
  { rewrite <- (list_to_map_to_list changes) at 2. apply list_to_map_proper; [apply NoDup_hash_iter|].
    apply hash_iter_perm. }
  rewrite Hm in Ha. by destruct (changes !! addr).
Qed.
End with_order.

(** The order of revm's state map does not matter. *)
Lemma apply_state_changes_order (HO1 HO2 : HashOrder) changes st :
  BlockExecutor_apply_state_changes (HO := HO1) changes st =
  BlockExecutor_apply_state_changes (HO := HO2) changes st.
Proof.
  pose proof (λ a, apply_state_changes_lookup (HO := HO1) changes st a) as H1.
  pose proof (λ a, apply_state_changes_lookup (HO := HO2) changes st a) as H2. simpl in *.
  destruct (BlockExecutor_apply_state_changes (HO := HO1) changes st) as [a1 s1 b1].
  destruct (BlockExecutor_apply_state_changes (HO := HO2) changes st) as [a2 s2 b2]. simpl in *.
  f_equal; [apply map_eq; intros a..|].
  - destruct (H1 a) as (_ & -> & _), (H2 a) as (_ & -> & _). done.
  - destruct (H1 a) as (_ & _ & ->), (H2 a) as (_ & _ & ->). done.
  - destruct (H1 []) as (-> & _), (H2 []) as (-> & _). done.
Qed.

(** ** What a transaction commits *)

(** [st'] is [st] with revm's [changes] written in: block hashes stay; an account
    revm did not touch stays with its storage; a self-destructed one is gone with
    its storage; any other one has revm's balance, nonce and code, its changed slots
    have revm's values, and the others are kept, or zero if the account is new. *)
Definition committed (changes : EvmState) (st st' : InMemoryStateDB) : Prop :=
  (∀ n, InMemoryStateDB_get_block_hash st' n = InMemoryStateDB_get_block_hash st n) ∧
  ∀ addr, match changes !! addr with
  | None =>
      db_accounts st' !! addr = db_accounts st !! addr ∧
      ∀ slot, InMemoryStateDB_get_storage st' addr slot = InMemoryStateDB_get_storage st addr slot
  | Some account =>
      if acc_is_selfdestructed account then
        InMemoryStateDB_account_exists st' addr = false ∧
        ∀ slot, InMemoryStateDB_get_storage st' addr slot = 0
      else
        (let info := acc_info account in
         db_accounts st' !! addr =
           Some {| ai_balance := ri_balance info; ai_nonce := ri_nonce info;
                   ai_code_hash := ri_code_hash info;
                   ai_code := Bytecode_original_bytes <$> ri_code info |}) ∧
        ∀ slot, InMemoryStateDB_get_storage st' addr slot =
          match acc_changed_storage_slots account !! slot with
          | Some v => v
          | None => if acc_is_created account then 0 else InMemoryStateDB_get_storage st addr slot
          end
  end.

Lemma apply_state_changes_committed `{HO : HashOrder} changes st :
  committed changes st (BlockExecutor_apply_state_changes changes st).
Proof.
  split.
  { intros n. unfold InMemoryStateDB_get_block_hash.
    by destruct (apply_state_changes_lookup changes st []) as [-> _]. }
  intros addr. destruct (apply_state_changes_lookup changes st addr) as (_ & Ha & Hs).
  unfold InMemoryStateDB_get_storage, InMemoryStateDB_account_exists. rewrite Ha, Hs. clear Ha Hs.
  destruct (changes !! addr) as [account|]; [|done].
  unfold account_after, storage_after. destruct (acc_is_selfdestructed account).
  { split; [|done]. by apply bool_decide_eq_false_2, is_Some_None. }
  split; [done|]. intros slot. case_decide as He.
  - rewrite He, lookup_empty. by destruct (acc_is_created account).
  - simpl. rewrite lookup_union. destruct (acc_changed_storage_slots account !! slot) as [v|].
    + by rewrite union_Some_l.
    + rewrite (left_id_L None (∪)). destruct (acc_is_created account); [done|].
      by destruct (db_storage st !! addr).
Qed.

(** C14: Executing a transaction gives revm the transaction's own sender, target, value, data,
    gas limit, fees, nonce and chain, on the executor's state.  It commits exactly the changes
    revm computes from them: slot by slot the new state is the old one with the changes
    written in ([committed]), in whatever order the change map is traversed, and the receipt
    carries the transaction's hash, revm's gas, logs and their bloom, and success exactly
    when revm succeeded.  It fails, and leaves the state as it was, exactly when the priority
    fee exceeds the fee cap, the gas limit is zero, the environment is not valid, revm
    fails, or revm halts, with the error of the first of these. *)
Theorem execute_tx_commits `{HO : HashOrder} `{AL : Alloy} ex tx :
  let fields := {|
    te_caller := tx_from tx; te_gas_limit := tx_gas_limit tx; te_max_fee_per_gas := tx_max_fee_per_gas tx;
    te_gas_priority_fee := Some (tx_max_priority_fee_per_gas tx);
    te_kind := from_option TxCall TxCreate (tx_to tx);
    te_value := tx_value tx; te_data := tx_input tx; te_nonce := tx_nonce tx; te_chain_id := Some (tx_chain_id tx) |} in
  let database := RevmDatabase (be_state ex) in
  match BlockExecutor_execute_tx ex tx with
  | (ex', Ok rc) =>
      tx_max_priority_fee_per_gas tx <= tx_max_fee_per_gas tx ∧ tx_gas_limit tx ≠ 0 ∧
      ∃ env r changes, TxEnv_build fields = Ok env ∧ transact database env = Ok (r, changes) ∧
        (∀ reason, er_kind r ≠ Halt reason) ∧
        committed changes (be_state ex) (be_state ex') ∧
        rc_tx_hash rc = tx_hash tx ∧ rc_cumulative_gas_used rc = er_gas_used r ∧
        rc_logs rc = er_logs r ∧ rc_logs_bloom rc = bloom_of_logs (er_logs r) ∧
        (rc_status rc = true ↔ er_kind r = Success)
  | (ex', Err e) =>
      ex' = ex ∧
      if decide (tx_max_fee_per_gas tx < tx_max_priority_fee_per_gas tx)
      then e = InvalidTransaction "max_priority_fee_per_gas exceeds max_fee_per_gas"
      else if decide (tx_gas_limit tx = 0) then e = InvalidTransaction "gas_limit must be greater than zero"
      else match TxEnv_build fields with
           | Err m => e = InvalidTransaction m
           | Ok env =>
               match transact database env with
               | Err m => e = EvmError m
               | Ok (r, _) => ∃ reason, er_kind r = Halt reason ∧ e = EvmError ("transaction halted: " +:+ reason)
               end
           end
  end.
Proof.
  cbv zeta. unfold BlockExecutor_execute_tx.
  destruct (Z.ltb_spec (tx_max_fee_per_gas tx) (tx_max_priority_fee_per_gas tx)) as [Hfee|Hfee].
  { split; [done|]. by rewrite decide_True. }
  destruct (Z.eqb_spec (tx_gas_limit tx) 0) as [Hgas|Hgas].
  { split; [done|]. by rewrite decide_False, decide_True by lia. }
  unfold from_option. destruct (TxEnv_build _) as [env|m] eqn:Henv; cbn [map_err].
  2: { split; [done|]. by rewrite !decide_False by lia. }
  destruct (transact _ env) as [[r changes]|m] eqn:Ht; cbn [map_err].
  2: { split; [done|]. by rewrite !decide_False by lia. }
  pose proof (apply_state_changes_committed changes (be_state ex)) as Hcom.
  destruct (er_kind r) eqn:Hk; [| |split; [done|rewrite !decide_False by lia; by eexists]]; (split; [lia|]; split; [lia|]; exists env, r, changes;
    unfold ExecutionResult_is_success; rewrite Hk; split_and!; done).
Qed.
End commit.

(** ** Determinism of execution *)

(** Stored code is the preimage [code_of] of its hash: accounts with one code hash
    have one code. *)
Definition code_consistent (code_of : B256 → Bytes) (st : InMemoryStateDB) : Prop :=
  map_Forall (λ _ info, ∀ c, ai_code info = Some c → c = code_of (ai_code_hash info)) (db_accounts st).

Section determinism.
Context `{AL : Alloy} `{RT : RevmTypes} `{RV : !Revm}.
Context (code_of : B256 → Bytes).

Lemma code_by_hash_spec `{HO : HashOrder} st h :
  code_consistent code_of st →
  RevmDatabase_code_by_hash st h =
    if decide (map_Exists (λ _ info, ai_code_hash info = h ∧ is_Some (ai_code info)) (db_accounts st))
    then Bytecode_new_raw (code_of h) else Bytecode_default.
Proof.
  intros Hc. unfold RevmDatabase_code_by_hash.
  assert (Hall : Forall (λ a, is_Some (db_accounts st !! a)) (InMemoryStateDB_accounts st)).
  { apply Forall_forall. intros a. apply elem_of_accounts. }
  assert (Hex : map_Exists (λ _ info, ai_code_hash info = h ∧ is_Some (ai_code info)) (db_accounts st) ↔
    Exists (λ a, ai_code_hash (InMemoryStateDB_get_account st a) = h ∧
      is_Some (ai_code (InMemoryStateDB_get_account st a))) (InMemoryStateDB_accounts st)).
  { rewrite Exists_exists. unfold InMemoryStateDB_get_account. split.
    - intros (a & info & Ha & ?). exists a. rewrite elem_of_accounts, Ha. by eauto.
    - intros (a & [info Ha]%elem_of_accounts & Hinfo). rewrite Ha in Hinfo. by exists a, info. }
  transitivity (if decide (Exists (λ a, ai_code_hash (InMemoryStateDB_get_account st a) = h ∧
      is_Some (ai_code (InMemoryStateDB_get_account st a))) (InMemoryStateDB_accounts st))
    then Bytecode_new_raw (code_of h) else Bytecode_default);
    [|by repeat case_decide; try done; exfalso; tauto].
  clear Hex.
  induction Hall as [|a l [info Ha] Hall IH]; [done|].
  rewrite IH. clear IH. rename l into rest.
  match goal with |- context [Exists ?P (a :: rest)] => pose proof (Exists_cons P a rest) as Hcons end.
  assert (Hget : InMemoryStateDB_get_account st a = info) by (unfold InMemoryStateDB_get_account; by rewrite Ha).
  cbv beta in Hcons. rewrite Hget in Hcons |- *.
  destruct (decide (ai_code_hash info = h)) as [Hh|Hh].
  - destruct (ai_code info) as [c|] eqn:Hcode.
    + rewrite decide_True by (rewrite Hcons; eauto). by rewrite (Hc _ _ Ha c Hcode), Hh.
    + assert (Hno : ¬ is_Some (@None (list Z))) by by intros [].
      repeat case_decide; try done; exfalso; tauto.
  - repeat case_decide; try done; exfalso; tauto.
Qed.

Lemma RevmDatabase_order (HO1 HO2 : HashOrder) st :
  code_consistent code_of st →
  database_equiv (RevmDatabase (HO := HO1) st) (RevmDatabase (HO := HO2) st).
Proof.
  intros Hc. split; try done. intros h. simpl.
  by rewrite (code_by_hash_spec (HO := HO1)), (code_by_hash_spec (HO := HO2)).
Qed.

Lemma execute_tx_order (HO1 HO2 : HashOrder) ex tx :
  code_consistent code_of (be_state ex) →
  BlockExecutor_execute_tx (HO := HO1) ex tx = BlockExecutor_execute_tx (HO := HO2) ex tx.
Proof.
  intros Hc. unfold BlockExecutor_execute_tx.
  destruct (_ <? _); [done|]. destruct (_ =? 0); [done|].
  destruct (map_err _ (TxEnv_build _)) as [env|]; [|done].
  rewrite (transact_proper _ _ env (RevmDatabase_order HO1 HO2 _ Hc)).
  destruct (map_err _ (transact _ env)) as [[r changes]|]; [|done].
  by rewrite (apply_state_changes_order HO1 HO2).
Qed.

End determinism.

(** ** Where code comes from *)

Section codes.
Context `{AL : Alloy} `{RT : RevmTypes} `{RV : !Revm}.

(** The code [b] a database has for the hash [h] of one of its accounts: with the account, or
    under the hash when the account comes without code. *)
Definition code_served (d : Database) (h : B256) (b : Bytecode) : Prop :=
  ∃ a info, dbt_basic d a = Some info ∧ ri_code_hash info = h ∧
    (ri_code info = Some b ∨ (ri_code info = None ∧ b = dbt_code_by_hash d h)).
(** What revm documents of code: [Bytecode] keeps the bytes it is made of, and the default is
    empty; an account [transact] returns with code has it under its Keccak hash, as created
    contracts do, or as the database served it for that hash; one returned without code has
    the hash of empty code, or an account the database served with that hash has none. *)
Record revm_codes : Prop := {
  original_bytes_raw c : Bytecode_original_bytes (Bytecode_new_raw c) = c;
  original_bytes_default : Bytecode_original_bytes Bytecode_default = [];
  returned_code d env r changes a account :
    transact d env = Ok (r, changes) → changes !! a = Some account →
    let h := ri_code_hash (acc_info account) in
    match ri_code (acc_info account) with
    | Some b => h = keccak256 (Bytecode_original_bytes b) ∨ code_served d h b
    | None => h = keccak256 [] ∨ ∃ a' info, dbt_basic d a' = Some info ∧ ri_code_hash info = h ∧ ri_code info = None
    end;
}.

(** Every account holds the code of its hash, or is one of a genesis block, without code under
    the zero hash. *)
Definition account_coded (info : AccountInfo) : Prop :=
  match ai_code info with
  | Some c => ai_code_hash info = keccak256 c ∨ (ai_code_hash info = B256_ZERO ∧ c = [])
  | None => ai_code_hash info = B256_ZERO ∨ ai_code_hash info = keccak256 []
  end.
Definition coded (st : InMemoryStateDB) : Prop := map_Forall (λ _ info, account_coded info) (db_accounts st).

Lemma code_by_hash_cases `{HO : HashOrder} st h :
  RevmDatabase_code_by_hash st h = Bytecode_default ∨
  ∃ a info c, db_accounts st !! a = Some info ∧ ai_code_hash info = h ∧ ai_code info = Some c ∧
    RevmDatabase_code_by_hash st h = Bytecode_new_raw c.
Proof.
  unfold RevmDatabase_code_by_hash.
  assert (Hall : Forall (λ a, is_Some (db_accounts st !! a)) (InMemoryStateDB_accounts st))
    by (apply Forall_forall; intros a; apply elem_of_accounts).
  induction Hall as [|a l [info Ha] _ IH]; [by left|].
  assert (InMemoryStateDB_get_account st a = info) as -> by (unfold InMemoryStateDB_get_account; by rewrite Ha).
  case_decide as Hh; [|exact IH]. destruct (ai_code info) as [c|] eqn:Hc; [|exact IH]. right. by exists a, info, c.
Qed.
Lemma basic_served `{HO : HashOrder} st a info :
  dbt_basic (RevmDatabase st) a = Some info →
  ∃ account, db_accounts st !! a = Some account ∧ ri_code_hash info = ai_code_hash account ∧
    ri_code info = Bytecode_new_raw <$> ai_code account.
Proof.
  cbn. unfold RevmDatabase_basic, InMemoryStateDB_account_exists, InMemoryStateDB_get_account.
  destruct (db_accounts st !! a) as [account|] eqn:Ha; [|rewrite bool_decide_false by (by intros [? ?]); done].
  rewrite bool_decide_true by done. intros [= <-]. by exists account.
Qed.
Lemma returned_coded `{HO : HashOrder} st env r changes a account info :
  revm_codes → coded st → transact (RevmDatabase st) env = Ok (r, changes) → changes !! a = Some account →
  account_after account = Some info → account_coded info.
Proof.
  intros Hrevm Hc Ht Ha. unfold account_after. destruct (acc_is_selfdestructed account); [done|]. intros [= <-].
  pose proof (returned_code Hrevm _ _ _ _ _ _ Ht Ha) as Hcode. cbv zeta in Hcode. unfold account_coded. cbn [ai_code ai_code_hash].
  destruct (ri_code (acc_info account)) as [b|]; cbn [fmap option_fmap option_map].
  - destruct Hcode as [Hh|(a' & info & Hinfo & Hh & Hserved)]; [by left|].
    apply basic_served in Hinfo as (acc & Hacc & Hhash & Hcode). rewrite <- Hh, Hhash in *. pose proof (Hc _ _ Hacc) as Hcoded.
    unfold account_coded in Hcoded. rewrite Hcode in Hserved. destruct (ai_code acc) as [c|]; cbn in Hserved.
    + destruct Hserved as [[= <-]|[? _]]; [|done]. by rewrite (original_bytes_raw Hrevm).
    + destruct Hserved as [?|[_ ->]]; [done|]. destruct (code_by_hash_cases st (ai_code_hash acc)) as [->|(a2 & i2 & c2 & H2 & Hh2 & Hc2 & ->)].
      * rewrite (original_bytes_default Hrevm). tauto.
      * rewrite (original_bytes_raw Hrevm). pose proof (Hc _ _ H2) as Hcoded2. unfold account_coded in Hcoded2.
        rewrite Hc2, Hh2 in Hcoded2. exact Hcoded2.
  - destruct Hcode as [->|(a' & info & Hinfo & Hh & Hnone)]; [by right|].
    apply basic_served in Hinfo as (acc & Hacc & Hhash & Hcode). rewrite <- Hh, Hhash. pose proof (Hc _ _ Hacc) as Hcoded.
    unfold account_coded in Hcoded. rewrite Hcode in Hnone. by destruct (ai_code acc).
Qed.
Lemma execute_tx_coded `{HO : HashOrder} ex tx :
  revm_codes → coded (be_state ex) → coded (be_state (BlockExecutor_execute_tx ex tx).1).
Proof.
  intros Hrevm Hc. unfold BlockExecutor_execute_tx.
  destruct (_ <? _); [done|]. destruct (_ =? 0); [done|].
  destruct (map_err _ (TxEnv_build _)) as [env|]; [|done].
  destruct (transact _ env) as [[r changes]|] eqn:Ht; [|done]. simpl.
  assert (coded (BlockExecutor_apply_state_changes changes (be_state ex))).
  { intros a info Ha. destruct (apply_state_changes_lookup changes (be_state ex) a) as (_ & Hacc & _). simpl in Hacc.
    rewrite Hacc in Ha. destruct (changes !! a) as [account|] eqn:Hchg; [by eapply returned_coded|by eapply Hc]. }
  by destruct (er_kind r).
Qed.

(** Two accounts with one code hash and different codes: a collision of Keccak, or a preimage
    of the zero hash. *)
Definition code_clash (st : InMemoryStateDB) : Prop :=
  ∃ a1 a2 i1 i2 c1 c2, db_accounts st !! a1 = Some i1 ∧ db_accounts st !! a2 = Some i2 ∧
    ai_code i1 = Some c1 ∧ ai_code i2 = Some c2 ∧ ai_code_hash i1 = ai_code_hash i2 ∧ c1 ≠ c2 ∧
    (keccak256 c1 = keccak256 c2 ∨ keccak256 c1 = B256_ZERO ∨ keccak256 c2 = B256_ZERO).
Lemma no_clash code_of st : code_consistent code_of st → ¬ code_clash st.
Proof.
  intros Hc (a1 & a2 & i1 & i2 & c1 & c2 & H1 & H2 & Hc1 & Hc2 & Hh & Hne & _). apply Hne.
  by rewrite (Hc _ _ H1 c1 Hc1), (Hc _ _ H2 c2 Hc2), Hh.
Qed.
(** The code the accounts hold under a hash, if they agree. *)
Definition held_code (st : InMemoryStateDB) (h : B256) : Bytes :=
  default [] (list_find (λ p, ai_code_hash p.2 = h ∧ is_Some (ai_code p.2)) (map_to_list (db_accounts st)) ≫= λ p, ai_code p.2.2).
Lemma clash_or_consistent st : coded st → code_clash st ∨ ∃ code_of, code_consistent code_of st.
Proof.
  intros Hc.
  destruct (decide (map_Forall (λ _ info, default (held_code st (ai_code_hash info)) (ai_code info) =
    held_code st (ai_code_hash info)) (db_accounts st))) as [Hall|Hno].
  { right. exists (held_code st). intros a info Ha c Hcode. specialize (Hall a info Ha). cbn in Hall. by rewrite Hcode in Hall. }
  left. apply map_not_Forall in Hno as (a1 & i1 & H1 & Hn); [|apply _]. cbv beta in Hn.
  destruct (ai_code i1) as [c1|] eqn:Hc1; [|done]. change (default _ (Some c1)) with c1 in Hn. unfold held_code in Hn.
  destruct (list_find_elem_of (λ p, ai_code_hash p.2 = ai_code_hash i1 ∧ is_Some (ai_code p.2)) (map_to_list (db_accounts st)) (a1, i1))
    as [[k [a2 i2]] Hf]; [by apply elem_of_map_to_list|split; [done|simpl; destruct (ai_code i1); [by eauto|done]]|].
  rewrite Hf in Hn. apply list_find_Some in Hf as (Hk & [Hh [c2 Hc2]] & _). cbn [mbind option_bind snd] in *. rewrite Hc2 in Hn.
  apply list_elem_of_lookup_2, elem_of_map_to_list in Hk.
  exists a1, a2, i1, i2, c1, c2. split_and!; try done. pose proof (Hc _ _ H1) as K1. pose proof (Hc _ _ Hk) as K2.
  unfold account_coded in K1, K2. rewrite Hc1 in K1. rewrite Hc2 in K2. cbn in Hn.
  destruct K1 as [K1|[K1 ->]], K2 as [K2|[K2 ->]]; [left; congruence|right; left; congruence|right; right; congruence|done].
Qed.
End codes.

(** ** A concrete machine

    A revm that moves value and deploys the data of a creation as code, with bytecode as
    bytes: it instantiates the classes in the examples below and in the files above. *)
Definition example_types : RevmTypes := {| Bytecode := list Z; TxEnv := TxEnvFields |}.

#[local] Existing Instance example_types.
#[local] Existing Instance example_alloy.

Definition example_touch (info : RevmAccountInfo) : Account :=
  {| acc_info := info; acc_is_selfdestructed := false; acc_is_created := false;
     acc_changed_storage_slots := ∅ |}.
Definition example_account (d : Database) (a : Address) : RevmAccountInfo :=
  default {| ri_balance := 0; ri_nonce := 0; ri_code_hash := keccak256 []; ri_code := Some [] |}
    (dbt_basic d a).
Definition example_credit (info : RevmAccountInfo) (value : U256) : RevmAccountInfo :=
  {| ri_balance := ri_balance info + value; ri_nonce := ri_nonce info; ri_code_hash := ri_code_hash info;
     ri_code := ri_code info |}.
Definition example_transact (d : Database) (env : TxEnvFields)
  : result (ExecutionResult * EvmState) string :=
  let caller := example_account d (te_caller env) in
  if ri_balance caller <? te_value env then Err "lack of funds" else
  let sent := {| ri_balance := ri_balance caller - te_value env; ri_nonce := ri_nonce caller + 1;
                 ri_code_hash := ri_code_hash caller; ri_code := ri_code caller |} in
  let '(target, received) := match te_kind env with
    | TxCreate => (te_nonce env :: drop 1 (te_caller env),
        {| ri_balance := te_value env; ri_nonce := 1; ri_code_hash := keccak256 (te_data env); ri_code := Some (te_data env) |})
    | TxCall to => (to, example_credit (example_account d to) (te_value env))
    end in
  Ok ({| er_kind := Success; er_gas_used := 21000; er_logs := [] |},
      <[target := example_touch received]> {[te_caller env := example_touch sent]}).
Lemma example_transact_proper d1 d2 env :
  database_equiv d1 d2 → example_transact d1 env = example_transact d2 env.
Proof.
  intros [Hb _ _ _]. unfold example_transact, example_account. rewrite Hb.
  destruct (te_kind env); by rewrite ?Hb.
Qed.
Definition example_revm : Revm := {|
  Bytecode_new_raw := id;
  Bytecode_default := [];
  Bytecode_original_bytes := id;
  TxEnv_build := Ok;
  transact := example_transact;
  transact_proper := example_transact_proper;
|}.

#[local] Existing Instance example_revm.
Lemma example_revm_codes : revm_codes.
Proof.
  split; [done..|]. intros d env r changes a account Ht Ha. cbn in Ht. unfold example_transact in Ht.
  assert (Hkept : ∀ x, match ri_code (example_account d x) with
    | Some b => ri_code_hash (example_account d x) = keccak256 b ∨ code_served d (ri_code_hash (example_account d x)) b
    | None => ri_code_hash (example_account d x) = keccak256 [] ∨
        ∃ a' info, dbt_basic d a' = Some info ∧ ri_code_hash info = ri_code_hash (example_account d x) ∧ ri_code info = None
    end).
  { intros x. unfold example_account. destruct (dbt_basic d x) as [info|] eqn:Hx; [|by left]. change (default _ (Some info)) with info.
    destruct (ri_code info) as [b|] eqn:Hb; right; exists x, info; tauto. }
  destruct (_ <? _); [done|]. destruct (te_kind env) as [to|]; injection Ht as <- <-;
    apply lookup_insert_Some in Ha as [[_ <-]|[_ [_ <-]%lookup_singleton_Some]]; try apply Hkept. by left.
Qed.
