(* ===== verification/BlockBuilder.v ===== *)
(** * Building and validating blocks ([eth2077-execution/src/block_builder.rs],
      [block_validator.rs], [genesis.rs])

    The builder executes the pending transactions on a state and commits to the
    outcome in a header; the validator re-executes a block's transactions on the
    same state and compares the commitments.  The builder and the validator are
    different machines: the theorems give them different hash-map orders. *)
From S2P Require Import Prelude Canonical Executor.
Local Open Scope Z_scope.

(* eth2077-execution/src/block_builder.rs:12-16 BlockBuilderConfig *)
Record BlockBuilderConfig := {
  bc_beneficiary : Address;
  bc_timestamp : option Z;
  bc_gas_limit : option Z;
}.
(* eth2077-execution/src/block_builder.rs:19-25 BlockBuilderConfig::default *)
Definition BlockBuilderConfig_default : BlockBuilderConfig :=
  {| bc_beneficiary := Address_ZERO; bc_timestamp := None; bc_gas_limit := None |}.

(* eth2077-execution/src/block_builder.rs:34-38 BuiltBlock *)
Record BuiltBlock := {
  bb_block : Block;
  bb_receipts : list Receipt;
  bb_state : InMemoryStateDB;
}.

(* eth2077-execution/src/block_builder.rs:41-47 BlockBuildError *)
Inductive BlockBuildError :=
| BuildTransactionExecutionFailed (index : Z) (tx_hash : B256) (source : ExecutionError).

(* eth2077-execution/src/block_validator.rs:13-39 ValidationError *)
Inductive ValidationError :=
| TransactionExecutionFailed (index : Z) (tx_hash : B256) (source : ExecutionError)
| StateRootMismatch (expected actual : B256)
| TransactionsRootMismatch (expected actual : B256)
| ReceiptsRootMismatch (expected actual : B256)
| GasUsedMismatch (expected actual : Z)
| LogsBloomMismatch (expected actual : Bloom).

(** ** Commitments *)

(** One account of the state root's payload. *)
(* eth2077-execution/src/block_builder.rs:154-166 compute_state_root *)
Definition account_payload (address : Address) (account : AccountInfo) : list Z :=
  address ++ to_be_bytes 8 (ai_nonce account) ++ to_be_bytes 32 (ai_balance account) ++
  ai_code_hash account ++
  match ai_code account with
  | Some code => [1] ++ to_be_bytes 8 (len code) ++ code
  | None => [0]
  end.

(* eth2077-execution/src/block_builder.rs:209-215 encode_receipt *)
Definition encode_log (log : Log) : list Z :=
  log_address log ++ to_be_bytes 8 (len (log_topics log)) ++ concat (log_topics log) ++
  to_be_bytes 8 (len (log_data log)) ++ log_data log.

(* eth2077-execution/src/block_builder.rs:200-219 encode_receipt *)
Definition encode_receipt (receipt : Receipt) : list Z :=
  rc_tx_hash receipt ++ [if rc_status receipt then 1 else 0] ++
  to_be_bytes 8 (rc_cumulative_gas_used receipt) ++ rc_logs_bloom receipt ++
  to_be_bytes 8 (len (rc_logs receipt)) ++ concat (encode_log <$> rc_logs receipt).

Section roots.
Context `{AL : Alloy}.

(* eth2077-execution/src/block_builder.rs:146-167 compute_state_root *)
Definition state_root_payload `{HO : HashOrder} `{SU : SortUnstable} (state : InMemoryStateDB)
  : list Z :=
  let addresses := sort_unstable_by bytes_cmp (InMemoryStateDB_accounts state) in
  to_be_bytes 8 (len addresses) ++
  concat ((λ address, account_payload address (InMemoryStateDB_get_account state address)) <$>
            addresses).
(* eth2077-execution/src/block_builder.rs:145-170 compute_state_root *)
Definition compute_state_root `{HO : HashOrder} `{SU : SortUnstable} (state : InMemoryStateDB)
  : B256 := keccak256 (state_root_payload state).

(* eth2077-execution/src/block_builder.rs:174-181 compute_transactions_root *)
Definition compute_transactions_root (transactions : list Transaction) : B256 :=
  keccak256 (to_be_bytes 8 (len transactions) ++ concat (tx_hash <$> transactions)).

(* eth2077-execution/src/block_builder.rs:185-194 compute_receipts_root *)
Definition compute_receipts_root (receipts : list Receipt) : B256 :=
  keccak256 (to_be_bytes 8 (len receipts) ++
             concat ((λ receipt, keccak256 (encode_receipt receipt)) <$> receipts)).

(* eth2077-execution/src/block_builder.rs:196-198 empty_ommers_hash *)
Definition empty_ommers_hash : B256 := keccak256 [0xc0].
End roots.

(** ** The execution loop, the builder and the validator *)

Section blocks.
Context `{HO : HashOrder} `{SU : SortUnstable} `{AL : Alloy} `{RT : RevmTypes} `{RV : !Revm}.

(** The variables of the loop over the transactions. *)
(* eth2077-execution/src/block_builder.rs:81-84 BlockBuilder::build_block *)
Record Executed := {
  ex_executor : BlockExecutor;
  ex_receipts : list Receipt;
  ex_gas_used : Z;
  ex_logs_bloom : Bloom;
}.
(** The loop, the same in the builder and in the validator but for the error. *)
(* eth2077-execution/src/block_builder.rs:86-97 BlockBuilder::build_block *)
Fixpoint execute_transactions {E} (failed : Z → B256 → ExecutionError → E) (index : Z)
    (txs : list Transaction) (s : Executed) : result Executed E :=
  match txs with
  | [] => Ok s
  | tx :: txs =>
      let '(executor, r) := BlockExecutor_execute_tx (ex_executor s) tx in
      let? receipt := map_err (failed index (tx_hash tx)) r in
      execute_transactions failed (index + 1) txs
        {| ex_executor := executor;
           ex_receipts := ex_receipts s ++ [receipt];
           ex_gas_used := u64_saturating_add (ex_gas_used s) (rc_cumulative_gas_used receipt);
           ex_logs_bloom := accrue_bloom (ex_logs_bloom s) (rc_logs_bloom receipt) |}
  end.
(** The loop from the start. *)
(* eth2077-execution/src/block_builder.rs:81-97 BlockBuilder::build_block *)
Definition execute_all {E} (failed : Z → B256 → ExecutionError → E) (txs : list Transaction)
    (state : InMemoryStateDB) : result Executed E :=
  execute_transactions failed 0 txs
    {| ex_executor := {| be_state := state |}; ex_receipts := []; ex_gas_used := 0;
       ex_logs_bloom := Bloom_ZERO |}.

(* eth2077-execution/src/block_builder.rs:75-140 BlockBuilder::build_block *)
Definition BlockBuilder_build_block (config : BlockBuilderConfig) (parent : Header)
    (pending_transactions : list Transaction) (state : InMemoryStateDB)
  : result BuiltBlock BlockBuildError :=
  let? s := execute_all BuildTransactionExecutionFailed pending_transactions state in
  let post_state := be_state (ex_executor s) in
  let block := {|
    header := {|
      parent_hash := Header_hash parent;
      ommers_hash := empty_ommers_hash;
      beneficiary := bc_beneficiary config;
      state_root := compute_state_root post_state;
      transactions_root := compute_transactions_root pending_transactions;
      receipts_root := compute_receipts_root (ex_receipts s);
      logs_bloom := ex_logs_bloom s;
      difficulty := difficulty parent;
      number := u64_saturating_add (number parent) 1;
      gas_limit := default (gas_limit parent) (bc_gas_limit config);
      gas_used := ex_gas_used s;
      timestamp := default (u64_saturating_add (timestamp parent) 12) (bc_timestamp config);
      extra_data := [];
      mix_hash := B256_ZERO;
      nonce := 0;
      base_fee_per_gas := base_fee_per_gas parent;
      blob_gas_used := None;
      excess_blob_gas := None;
      parent_beacon_block_root := None |};
    transactions := pending_transactions;
    ommers := [] |} in
  Ok {| bb_block := block;
        bb_receipts := ex_receipts s;
        bb_state := InMemoryStateDB_insert_block_hash post_state (number (header block))
                      (Block_hash block) |}.

(* eth2077-execution/src/block_validator.rs:91-153 BlockValidator::validate_block *)
Definition BlockValidator_validate_block (block : Block) (pre_state : InMemoryStateDB)
  : result unit ValidationError :=
  let? s := execute_all TransactionExecutionFailed (transactions block) pre_state in
  let h := header block in
  let actual := compute_state_root (be_state (ex_executor s)) in
  if bool_decide (actual ≠ state_root h) then Err (StateRootMismatch (state_root h) actual) else
  let actual := compute_transactions_root (transactions block) in
  if bool_decide (actual ≠ transactions_root h)
  then Err (TransactionsRootMismatch (transactions_root h) actual) else
  let actual := compute_receipts_root (ex_receipts s) in
  if bool_decide (actual ≠ receipts_root h)
  then Err (ReceiptsRootMismatch (receipts_root h) actual) else
  if negb (ex_gas_used s =? gas_used h)
  then Err (GasUsedMismatch (gas_used h) (ex_gas_used s)) else
  if bool_decide (ex_logs_bloom s ≠ logs_bloom h)
  then Err (LogsBloomMismatch (logs_bloom h) (ex_logs_bloom s)) else
  Ok tt.

(* eth2077-execution/src/genesis.rs:13-13 DEFAULT_GENESIS_GAS_LIMIT *)
Definition DEFAULT_GENESIS_GAS_LIMIT : Z := 30000000.

(* eth2077-execution/src/genesis.rs:16-27 create_genesis_block *)
Definition genesis_state (allocs : list (Address * U256)) : InMemoryStateDB :=
  foldl (λ state '(address, balance), InMemoryStateDB_insert_account state address
    {| ai_balance := balance; ai_nonce := 0; ai_code_hash := B256_ZERO; ai_code := None |})
    InMemoryStateDB_new allocs.

(* eth2077-execution/src/genesis.rs:15-60 create_genesis_block *)
Definition create_genesis_block (allocs : list (Address * U256)) : Block * InMemoryStateDB :=
  let state := genesis_state allocs in
  let block := {|
    header := {|
      parent_hash := B256_ZERO;
      ommers_hash := empty_ommers_hash;
      beneficiary := Address_ZERO;
      state_root := compute_state_root state;
      transactions_root := compute_transactions_root [];
      receipts_root := compute_receipts_root [];
      logs_bloom := Bloom_ZERO;
      difficulty := 0;
      number := 0;
      gas_limit := DEFAULT_GENESIS_GAS_LIMIT;
      gas_used := 0;
      timestamp := 0;
      extra_data := [];
      mix_hash := B256_ZERO;
      nonce := 0;
      base_fee_per_gas := Some 1000000000;
      blob_gas_used := Some 0;
      excess_blob_gas := Some 0;
      parent_beacon_block_root := None |};
    transactions := [];
    ommers := [] |} in
  (block, InMemoryStateDB_insert_block_hash state 0 (Block_hash block)).
End blocks.

(** ** The builder and the validator agree *)

(** The state root does not depend on the map's or the sort's order. *)
Lemma state_root_payload_order (HO1 HO2 : HashOrder) (SU1 SU2 : SortUnstable) st :
  state_root_payload (HO := HO1) (SU := SU1) st = state_root_payload (HO := HO2) (SU := SU2) st.
Proof.
  unfold state_root_payload. cbv zeta.
  assert (Hsort : sort_unstable_by (SortUnstable := SU1) bytes_cmp (InMemoryStateDB_accounts (H := HO1) st) =
    sort_unstable_by (SortUnstable := SU2) bytes_cmp (InMemoryStateDB_accounts (H := HO2) st)).
  { apply (sorted_perm_unique bytes_cmp).
    - intros x y _ _. apply (cmp_eq bytes_cmp).
    - apply sort_unstable_sorted, _.
    - apply sort_unstable_sorted, _.
    - by rewrite !sort_unstable_perm, !accounts_perm. }
  by rewrite Hsort.
Qed.
Lemma compute_state_root_order `{AL : Alloy} (HO1 HO2 : HashOrder) (SU1 SU2 : SortUnstable) st :
  compute_state_root (HO := HO1) (SU := SU1) st = compute_state_root (HO := HO2) (SU := SU2) st.
Proof. unfold compute_state_root. by rewrite (state_root_payload_order HO1 HO2 SU1 SU2). Qed.

Section agreement.
Context `{AL : Alloy} `{RT : RevmTypes} `{RV : !Revm}.

(** Execution keeps every account holding the code of its hash. *)
Lemma execute_transactions_coded `{HO : HashOrder} {E} (f : _ → _ → _ → E) index txs s s' :
  revm_codes → coded (be_state (ex_executor s)) → execute_transactions f index txs s = Ok s' →
  coded (be_state (ex_executor s')).
Proof.
  intros Hrevm. revert index s. induction txs as [|tx txs IH]; intros index s Hc; simpl; [by intros [= <-]|].
  pose proof (execute_tx_coded (ex_executor s) tx Hrevm Hc) as Hc'.
  destruct (BlockExecutor_execute_tx (ex_executor s) tx) as [executor [r|e]]; simpl; [|done].
  apply IH, Hc'.
Qed.

(** The loop answers alike whatever the order and the error constructor, unless two codes
    clash in a state it goes through. *)
Lemma execute_transactions_order (HO1 HO2 : HashOrder) {E1 E2} (f1 : _ → _ → _ → E1)
    (f2 : _ → _ → _ → E2) index txs s s' :
  revm_codes → coded (be_state (ex_executor s)) →
  execute_transactions (HO := HO1) f1 index txs s = Ok s' →
  execute_transactions (HO := HO2) f2 index txs s = Ok s' ∨
  ∃ n s1, execute_transactions (HO := HO1) f1 index (take n txs) s = Ok s1 ∧ code_clash (be_state (ex_executor s1)).
Proof.
  intros Hrevm. revert index s. induction txs as [|tx txs IH]; intros index s Hc.
  { intros [= <-]. by left. }
  destruct (clash_or_consistent _ Hc) as [Hclash|[code_of Hcode]]; [intros _; right; by exists 0%nat, s|].
  cbn [execute_transactions]. rewrite <- (execute_tx_order code_of HO1 HO2) by done.
  pose proof (execute_tx_coded (HO := HO1) (ex_executor s) tx Hrevm Hc) as Hc'.
  destruct (BlockExecutor_execute_tx (HO := HO1) (ex_executor s) tx) as [executor [r|e]] eqn:Htx; simpl; [|done].
  intros Hex. destruct (λ Hc, IH _ _ Hc Hex) as [Hok|(n & s1 & Hn & Hclash)]; [exact Hc'|by left|right].
  exists (S n), s1. cbn [take execute_transactions]. by rewrite Htx.
Qed.

(** Two codes clash in the state before or after one of the transactions. *)
Definition clash_during `{HO : HashOrder} (txs : list Transaction) (st : InMemoryStateDB) : Prop :=
  ∃ n s, execute_all BuildTransactionExecutionFailed (take n txs) st = Ok s ∧ code_clash (be_state (ex_executor s)).

(** A block the builder makes passes the validator on the state it was built on, also on a machine whose hash maps iterate and whose sorts order ties
    differently, unless two codes clash on the way. *)
Lemma built_block_validates (HO1 HO2 : HashOrder) (SU1 SU2 : SortUnstable)
    config parent txs st built :
  revm_codes → coded st →
  BlockBuilder_build_block (HO := HO1) (SU := SU1) config parent txs st = Ok built →
  BlockValidator_validate_block (HO := HO2) (SU := SU2) (bb_block built) st = Ok tt ∨ clash_during (HO := HO1) txs st.
Proof.
  intros Hrevm Hc (s & Hex & [= <-])%result_bind_ok.
  destruct (execute_transactions_order HO1 HO2 _ TransactionExecutionFailed 0 txs
    (Build_Executed {| be_state := st |} [] 0 Bloom_ZERO) s Hrevm Hc Hex) as [Hok|Hclash];
    [left|by right].
  unfold BlockValidator_validate_block, execute_all. simpl. rewrite Hok.
  simpl. rewrite (compute_state_root_order HO2 HO1 SU2 SU1).
  rewrite !bool_decide_false by (intros ?; done). by rewrite Z.eqb_refl.
Qed.
(** An empty block executes nothing, so it passes whatever revm does. *)
Lemma built_empty_validates (HO1 HO2 : HashOrder) (SU1 SU2 : SortUnstable) config parent st built :
  BlockBuilder_build_block (HO := HO1) (SU := SU1) config parent [] st = Ok built →
  BlockValidator_validate_block (HO := HO2) (SU := SU2) (bb_block built) st = Ok tt.
Proof.
  intros [= <-]. unfold BlockValidator_validate_block. simpl.
  rewrite (compute_state_root_order HO2 HO1 SU2 SU1).
  rewrite !bool_decide_false by (intros ?; done). done.
Qed.
End agreement.

(** ** What the validator does not check *)

Section validator.
Context `{HO : HashOrder} `{SU : SortUnstable} `{AL : Alloy} `{RT : RevmTypes} `{RV : !Revm}.

(** [h] with the fields of [h'] that link a block to its chain. *)
Definition relinked (h h' : Header) : Header := {|
  parent_hash := parent_hash h'; ommers_hash := ommers_hash h'; beneficiary := beneficiary h';
  state_root := state_root h; transactions_root := transactions_root h;
  receipts_root := receipts_root h; logs_bloom := logs_bloom h; difficulty := difficulty h';
  number := number h'; gas_limit := gas_limit h'; gas_used := gas_used h; timestamp := timestamp h';
  extra_data := extra_data h'; mix_hash := mix_hash h'; nonce := nonce h';
  base_fee_per_gas := base_fee_per_gas h'; blob_gas_used := blob_gas_used h';
  excess_blob_gas := excess_blob_gas h';
  parent_beacon_block_root := parent_beacon_block_root h' |}.

(** The validator checks nothing else: replacing a block's parent hash, number,
    timestamp, gas limit, base fee, beneficiary and other linking fields by those of
    any header, and its ommers by any list, does not change the verdict. *)
Lemma validate_block_ignores_linkage (block : Block) (h' : Header) (ommers' : list Header) st :
  BlockValidator_validate_block
    {| header := relinked (header block) h'; transactions := transactions block;
       ommers := ommers' |} st = BlockValidator_validate_block block st.
Proof. reflexivity. Qed.
End validator.

(** ** What the roots commit to *)

#[local] Opaque to_be_bytes.
#[local] Arguments Z.pow : simpl never.

(** Sizes the program's types guarantee. *)
Definition wf_account (address : Address) (info : AccountInfo) : Prop :=
  length address = 20%nat ∧ is_u64 (ai_nonce info) ∧ 0 <= ai_balance info < 256 ^ 32 ∧
  length (ai_code_hash info) = 32%nat ∧ from_option (λ c, is_u64 (len c)) True (ai_code info).
Definition wf_state (st : InMemoryStateDB) : Prop :=
  map_Forall wf_account (db_accounts st) ∧ is_u64 (Z.of_nat (size (db_accounts st))).
Definition wf_log (l : Log) : Prop :=
  length (log_address l) = 20%nat ∧ Forall (λ t, length t = 32%nat) (log_topics l) ∧
  is_u64 (len (log_topics l)) ∧ is_u64 (len (log_data l)).
Definition wf_receipt (r : Receipt) : Prop :=
  length (rc_tx_hash r) = 32%nat ∧ is_u64 (rc_cumulative_gas_used r) ∧
  length (rc_logs_bloom r) = 256%nat ∧ Forall wf_log (rc_logs r) ∧ is_u64 (len (rc_logs r)).

Lemma prefix_inj_account :
  prefix_inj (λ p, wf_account p.1 p.2) (λ p, account_payload p.1 p.2).
Proof.
  intros [a1 [b1 n1 h1 c1]] [a2 [b2 n2 h2 c2]] r1 r2 (Ha1 & Hn1 & Hb1 & Hh1 & Hc1)
    (Ha2 & Hn2 & Hb2 & Hh2 & Hc2). unfold account_payload. simpl in *. rewrite <- !app_assoc.
  intros [-> Heq]%app_inj_1; [|congruence].
  apply prefix_inj_u64 in Heq as [-> Heq]; [|done..].
  apply (prefix_inj_be_bytes 32) in Heq as [-> Heq]; [|done..].
  apply app_inj_1 in Heq as [-> Heq]; [|congruence].
  change (encode_option encode_bytes c1 ++ r1 = encode_option encode_bytes c2 ++ r2) in Heq.
  apply (prefix_inj_option _ _ prefix_inj_bytes) in Heq as [-> ->]; done.
Qed.
Lemma prefix_inj_log : prefix_inj wf_log encode_log.
Proof.
  intros [a1 t1 d1] [a2 t2 d2] r1 r2 (Ha1 & Ht1 & Hn1 & Hd1) (Ha2 & Ht2 & Hn2 & Hd2).
  unfold encode_log. simpl in *. rewrite <- !app_assoc.
  intros [-> Heq]%app_inj_1; [|congruence].
  rewrite <- (list_fmap_id t1), <- (list_fmap_id t2) in Heq.
  rewrite !(app_assoc (to_be_bytes 8 (len (_ <$> _)))) in Heq.
  unfold len in Heq at 1 3. rewrite !length_fmap in Heq.
  apply (prefix_inj_list _ _ (prefix_inj_fixed 32)) in Heq as [-> Heq]; [|done..].
  apply (prefix_inj_bytes d1 d2) in Heq as [-> ->]; try done.
Qed.
Lemma encode_receipt_inj r1 r2 :
  wf_receipt r1 → wf_receipt r2 → encode_receipt r1 = encode_receipt r2 → r1 = r2.
Proof.
  destruct r1 as [h1 s1 g1 b1 l1], r2 as [h2 s2 g2 b2 l2].
  intros (Hh1 & Hg1 & Hb1 & Hl1 & Hn1) (Hh2 & Hg2 & Hb2 & Hl2 & Hn2).
  unfold encode_receipt. simpl in *.
  intros [-> Heq]%app_inj_1; [|congruence].
  change (?x :: ?l = ?y :: ?k) with ([x] ++ l = [y] ++ k) in Heq.
  apply app_inj_1 in Heq as [Hs Heq]; [|done].
  assert (s1 = s2) as -> by by destruct s1, s2.
  apply prefix_inj_u64 in Heq as [-> Heq]; [|done..].
  apply app_inj_1 in Heq as [-> Heq]; [|congruence].
  apply (prefix_inj_eq _ _ _ _ (prefix_inj_list _ _ prefix_inj_log)) in Heq as ->; done.
Qed.

Section binding.
Context `{HO : HashOrder} `{SU : SortUnstable} `{AL : Alloy}.

(** The accounts in the order of the state root. *)
Definition sorted_accounts (st : InMemoryStateDB) : list (Address * AccountInfo) :=
  (λ a, (a, InMemoryStateDB_get_account st a)) <$>
    sort_unstable_by bytes_cmp (InMemoryStateDB_accounts st).
Lemma sorted_accounts_perm st : sorted_accounts st ≡ₚ map_to_list (db_accounts st).
Proof.
  unfold sorted_accounts. rewrite sort_unstable_perm, accounts_perm, <- list_fmap_compose.
  rewrite <- (list_fmap_id (map_to_list _)) at 2. apply Permutation_refl', list_fmap_ext.
  intros i [a info] Hi%list_elem_of_lookup_2%elem_of_map_to_list. simpl.
  unfold InMemoryStateDB_get_account. by rewrite Hi.
Qed.
Lemma state_root_payload_encode st :
  state_root_payload st = encode_list (λ p, account_payload p.1 p.2) (sorted_accounts st).
Proof.
  unfold state_root_payload, encode_list, sorted_accounts. cbv zeta. unfold len.
  by rewrite length_fmap, <- list_fmap_compose.
Qed.
Lemma sorted_accounts_wf st :
  wf_state st →
  Forall (λ p, wf_account p.1 p.2) (sorted_accounts st) ∧ is_u64 (len (sorted_accounts st)).
Proof.
  intros [Hwf Hsize]. unfold len. rewrite sorted_accounts_perm, length_map_to_list. split; [|done].
  apply Forall_forall. intros [a info] Hin%elem_of_map_to_list. by apply Hwf.
Qed.

(** C39: The state root is a function of the accounts alone, and binds them: states
    with the same accounts have one root whatever their storage (the root does not
    commit to storage), and states with one root have the same accounts, up to a
    Keccak collision of the two payloads. *)
Theorem state_root_binding (st1 st2 : InMemoryStateDB) :
  wf_state st1 → wf_state st2 →
  (db_accounts st1 = db_accounts st2 → compute_state_root st1 = compute_state_root st2) ∧
  (compute_state_root st1 = compute_state_root st2 →
   db_accounts st1 = db_accounts st2 ∨
   (state_root_payload st1 ≠ state_root_payload st2 ∧
    keccak256 (state_root_payload st1) = keccak256 (state_root_payload st2))).
Proof.
  intros Hwf1 Hwf2. split.
  - destruct st1 as [a1 s1 b1], st2 as [a2 s2 b2]. simpl. by intros ->.
  - intros Hroot. destruct (decide (state_root_payload st1 = state_root_payload st2)) as [Heq|Hne];
      [left|by right].
    rewrite !state_root_payload_encode in Heq.
    apply (prefix_inj_eq _ _ _ _ (prefix_inj_list _ _ prefix_inj_account)) in Heq;
      [|by apply sorted_accounts_wf..].
    apply map_to_list_inj. by rewrite <- !sorted_accounts_perm, Heq.
Qed.

(** The receipts root binds the receipts, in order and in full (status, gas,
    bloom and every log): equal roots mean equal receipts, up to a Keccak collision
    of the two root payloads or of the encodings of two receipts at one position. *)
Theorem receipts_root_binding (l1 l2 : list Receipt) :
  (∀ l, length (keccak256 l) = 32%nat) →
  Forall wf_receipt l1 → Forall wf_receipt l2 → is_u64 (len l1) → is_u64 (len l2) →
  compute_receipts_root l1 = compute_receipts_root l2 →
  l1 = l2 ∨
  (∃ i r1 r2, l1 !! i = Some r1 ∧ l2 !! i = Some r2 ∧ encode_receipt r1 ≠ encode_receipt r2 ∧
     keccak256 (encode_receipt r1) = keccak256 (encode_receipt r2)) ∨
  (let payload l := to_be_bytes 8 (len l) ++ concat ((λ r, keccak256 (encode_receipt r)) <$> l) in
   payload l1 ≠ payload l2 ∧ keccak256 (payload l1) = keccak256 (payload l2)).
Proof.
  intros Hk H1 H2 Hn1 Hn2 Hroot. cbv zeta.
  destruct (decide (to_be_bytes 8 (len l1) ++ concat ((λ r, keccak256 (encode_receipt r)) <$> l1) =
    to_be_bytes 8 (len l2) ++ concat ((λ r, keccak256 (encode_receipt r)) <$> l2))) as [Heq|Hne];
    [|by right; right].
  set (leaf r := keccak256 (encode_receipt r)) in Heq.
  assert (Hleaf : leaf <$> l1 = leaf <$> l2).
  { apply (prefix_inj_eq _ _ _ _ (prefix_inj_list _ _ (prefix_inj_fixed 32))).
    - split; [|unfold len; by rewrite length_fmap]. apply Forall_fmap, Forall_true. intros; apply Hk.
    - split; [|unfold len; by rewrite length_fmap]. apply Forall_fmap, Forall_true. intros; apply Hk.
    - unfold encode_list, len. rewrite !length_fmap, !list_fmap_id. exact Heq. }
  apply or_assoc. left. apply fmap_eq_Forall2 in Hleaf. clear Heq Hroot Hn1 Hn2.
  revert H1 H2. induction Hleaf as [|r1 r2 l1 l2 Hr Hl IH]; intros H1 H2; [by left|].
  apply Forall_cons in H1 as [Hr1 H1]. apply Forall_cons in H2 as [Hr2 H2].
  destruct (decide (encode_receipt r1 = encode_receipt r2)) as [Henc|Henc].
  - apply encode_receipt_inj in Henc as ->; [|done..].
    destruct (IH H1 H2) as [->|(i & x & y & ?)]; [by left|right]. by exists (S i), x, y.
  - right. by exists 0%nat, r1, r2.
Qed.
End binding.

(** ** Exactly what the validator checks *)

Section runs.
Context `{HO : HashOrder} `{AL : Alloy} `{RT : RevmTypes} `{RV : !Revm}.

(** The transactions execute one after the other on [st], each on the state the one before
    left, with these receipts, and leave [st']. *)
Inductive runs : InMemoryStateDB → list Transaction → list Receipt → InMemoryStateDB → Prop :=
| runs_none st : runs st [] [] st
| runs_tx st tx receipt st1 txs receipts st' :
    BlockExecutor_execute_tx {| be_state := st |} tx = ({| be_state := st1 |}, Ok receipt) →
    runs st1 txs receipts st' → runs st (tx :: txs) (receipt :: receipts) st'.

(** The loop runs the transactions and sums up their receipts, or stops at the first one that
    fails. *)
Lemma execute_transactions_runs {E} (f : Z → B256 → ExecutionError → E) index txs s :
  match execute_transactions f index txs s with
  | Ok s' => ∃ receipts, runs (be_state (ex_executor s)) txs receipts (be_state (ex_executor s')) ∧
      ex_receipts s' = ex_receipts s ++ receipts ∧
      ex_gas_used s' = foldl u64_saturating_add (ex_gas_used s) (rc_cumulative_gas_used <$> receipts) ∧
      ex_logs_bloom s' = foldl accrue_bloom (ex_logs_bloom s) (rc_logs_bloom <$> receipts)
  | Err err => ∃ pre tx post receipts st1 e, txs = pre ++ tx :: post ∧
      runs (be_state (ex_executor s)) pre receipts st1 ∧
      (BlockExecutor_execute_tx {| be_state := st1 |} tx).2 = Err e ∧ err = f (index + len pre) (tx_hash tx) e
  end.
Proof.
  revert index s. induction txs as [|tx txs IH]; intros index s; cbn [execute_transactions].
  { exists []. rewrite app_nil_r. split_and!; try done. constructor. }
  destruct s as [[st] rcs gas bloom]. cbn [ex_executor be_state].
  destruct (BlockExecutor_execute_tx {| be_state := st |} tx) as [[st1] [rc|e]] eqn:Htx; cbn [map_err result_bind].
  - specialize (IH (index + 1) (Build_Executed {| be_state := st1 |} (rcs ++ [rc])
      (u64_saturating_add gas (rc_cumulative_gas_used rc)) (accrue_bloom bloom (rc_logs_bloom rc)))).
    cbn [ex_executor be_state ex_receipts ex_gas_used ex_logs_bloom] in *.
    destruct (execute_transactions f (index + 1) txs _) as [s'|err].
    + destruct IH as (receipts & Hruns & -> & -> & ->). exists (rc :: receipts). rewrite <- app_assoc.
      split_and!; try done. by econstructor.
    + destruct IH as (pre & tx' & post & receipts & st2 & e & -> & Hruns & He & ->).
      exists (tx :: pre), tx', post, (rc :: receipts), st2, e. split_and!; try done; [by econstructor|].
      f_equal. unfold len. cbn [length]. lia.
  - exists [], tx, txs, [], st, e. split_and!; try done; [constructor|by rewrite Htx|]. f_equal. unfold len. simpl. lia.
Qed.

(** [root] commits to the accounts of [st], in the order of their addresses. *)
Definition state_commitment (st : InMemoryStateDB) (root : B256) : Prop :=
  ∃ accounts, StronglySorted (cmp_le bytes_cmp) accounts.*1 ∧ accounts ≡ₚ map_to_list (db_accounts st) ∧
    root = keccak256 (to_be_bytes 8 (len accounts) ++ concat ((λ p, account_payload p.1 p.2) <$> accounts)).
Lemma state_commitment_root `{SU : SortUnstable} st root : state_commitment st root ↔ root = compute_state_root st.
Proof.
  assert (Hs : StronglySorted (cmp_le bytes_cmp) (sorted_accounts st).*1).
  { unfold sorted_accounts. rewrite <- list_fmap_compose. setoid_rewrite list_fmap_id. apply sort_unstable_sorted, _. }
  unfold compute_state_root. rewrite state_root_payload_encode. unfold encode_list. split.
  - intros (accounts & Hsorted & Hperm & ->). replace accounts with (sorted_accounts st); [done|].
    assert (Hkeys : (sorted_accounts st).*1 = accounts.*1).
    { apply (sorted_perm_unique bytes_cmp); [intros x y _ _; apply (cmp_eq bytes_cmp)|done..|].
      by rewrite sorted_accounts_perm, Hperm. }
    assert (Hget : ∀ l : list (Address * AccountInfo), (∀ p, p ∈ l → p ∈ map_to_list (db_accounts st)) →
      l = (λ a, (a, InMemoryStateDB_get_account st a)) <$> l.*1).
    { intros l Hl. rewrite <- list_fmap_compose. symmetry. rewrite <- (list_fmap_id l) at 2. apply list_fmap_ext.
      intros i [a info] Hi%list_elem_of_lookup_2%Hl%elem_of_map_to_list. simpl.
      unfold InMemoryStateDB_get_account. by rewrite Hi. }
    rewrite (Hget (sorted_accounts st)), (Hget accounts), Hkeys; [done|..]; intros p; [by rewrite Hperm|by rewrite sorted_accounts_perm].
  - intros ->. exists (sorted_accounts st). split_and!; [done|apply sorted_accounts_perm|done].
Qed.

(** What a header of a block with these transactions commits to when they run with
    [receipts] to [st']. *)
Record header_commits (h : Header) (txs : list Transaction) (receipts : list Receipt) (st' : InMemoryStateDB) : Prop := {
  hc_state : state_commitment st' (state_root h);
  hc_transactions : transactions_root h = keccak256 (to_be_bytes 8 (len txs) ++ concat (tx_hash <$> txs));
  hc_receipts : receipts_root h =
    keccak256 (to_be_bytes 8 (len receipts) ++ concat ((λ r, keccak256 (encode_receipt r)) <$> receipts));
  hc_gas : gas_used h = foldl u64_saturating_add 0 (rc_cumulative_gas_used <$> receipts);
  hc_bloom : logs_bloom h = foldl accrue_bloom Bloom_ZERO (rc_logs_bloom <$> receipts);
}.
(** The commitment an error names: the header's, and the one of the run, which differs. *)
Definition mismatch (h : Header) (txs : list Transaction) (receipts : list Receipt) (st' : InMemoryStateDB)
    (e : ValidationError) : Prop :=
  match e with
  | TransactionExecutionFailed _ _ _ => False
  | StateRootMismatch expected actual => expected = state_root h ∧ actual ≠ expected ∧ state_commitment st' actual
  | TransactionsRootMismatch expected actual => expected = transactions_root h ∧ actual ≠ expected ∧
      actual = keccak256 (to_be_bytes 8 (len txs) ++ concat (tx_hash <$> txs))
  | ReceiptsRootMismatch expected actual => expected = receipts_root h ∧ actual ≠ expected ∧
      actual = keccak256 (to_be_bytes 8 (len receipts) ++ concat ((λ r, keccak256 (encode_receipt r)) <$> receipts))
  | GasUsedMismatch expected actual => expected = gas_used h ∧ actual ≠ expected ∧
      actual = foldl u64_saturating_add 0 (rc_cumulative_gas_used <$> receipts)
  | LogsBloomMismatch expected actual => expected = logs_bloom h ∧ actual ≠ expected ∧
      actual = foldl accrue_bloom Bloom_ZERO (rc_logs_bloom <$> receipts)
  end.

(** C13: The validator runs the block's transactions in order, each on the state the one
    before left, and accepts exactly when all succeed and the header commits to the run:
    the state root to the resulting accounts sorted by address, the transactions root and
    the receipts root to the transactions and receipts in order, gas used to the saturating
    sum of the receipts' gas, the log bloom to the union of theirs. It stops at the first
    transaction that fails, naming its index, hash and error; and an error that names a
    mismatch comes only after a full run, with the header's value and the run's, which
    differ. *)
Theorem validate_block_exact `{SU : SortUnstable} (block : Block) (st : InMemoryStateDB) :
  match BlockValidator_validate_block block st with
  | Ok _ => ∃ receipts st', runs st (transactions block) receipts st' ∧
      header_commits (header block) (transactions block) receipts st'
  | Err (TransactionExecutionFailed i hash e) => ∃ pre tx post receipts st1,
      transactions block = pre ++ tx :: post ∧ i = len pre ∧ hash = tx_hash tx ∧ runs st pre receipts st1 ∧
      (BlockExecutor_execute_tx {| be_state := st1 |} tx).2 = Err e
  | Err e => ∃ receipts st', runs st (transactions block) receipts st' ∧
      mismatch (header block) (transactions block) receipts st' e ∧
      ¬ header_commits (header block) (transactions block) receipts st'
  end.
Proof.
  unfold BlockValidator_validate_block, execute_all.
  pose proof (execute_transactions_runs TransactionExecutionFailed 0 (transactions block)
    (Build_Executed {| be_state := st |} [] 0 Bloom_ZERO)) as Hruns.
  destruct (execute_transactions _ _ _ _) as [[[st'] receipts gas bloom]|err]; cbn [result_bind].
  2: { destruct Hruns as (pre & tx & post & rcs & st1 & e & Htxs & Hruns & He & ->).
       exists pre, tx, post, rcs, st1. by split_and!. }
  destruct Hruns as (rcs & Hruns & Hrcs & Hgas & Hbloom). cbn [ex_executor be_state ex_receipts ex_gas_used ex_logs_bloom app] in *.
  subst receipts. cbv zeta.
  repeat case_if_goal; bool_to_prop;
    repeat match goal with H : ¬ (_ ≠ _) |- _ => apply dec_stable in H end;
    try (exists rcs, st'; split; [done|]; split; [by split_and!; try apply state_commitment_root|]; intros [H1%state_commitment_root H2 H3 H4 H5]; unfold compute_transactions_root, compute_receipts_root in *; congruence).
  exists rcs, st'. split; [done|]. split; [by apply state_commitment_root|..]; unfold compute_transactions_root, compute_receipts_root in *; congruence.
Qed.
End runs.

(** ** Chains built from genesis *)

Section chain.
Context `{HO : HashOrder} `{SU : SortUnstable} `{AL : Alloy} `{RT : RevmTypes} `{RV : !Revm}.

(** The blocks of a chain, by number, and the state after the last one. *)
Inductive chain (allocs : list (Address * U256)) : list Block → InMemoryStateDB → Prop :=
| chain_genesis :
    chain allocs [(create_genesis_block allocs).1] (create_genesis_block allocs).2
| chain_extend blocks parent st config txs built :
    chain allocs (blocks ++ [parent]) st →
    BlockBuilder_build_block config (header parent) txs st = Ok built →
    chain allocs (blocks ++ [parent; bb_block built]) (bb_state built).

(** A genesis account holds its last allocation; nothing else is set. *)
Lemma genesis_state_spec allocs :
  db_accounts (genesis_state allocs) =
    (λ balance, {| ai_balance := balance; ai_nonce := 0; ai_code_hash := B256_ZERO; ai_code := None |})
      <$> list_to_map (reverse allocs) ∧
  db_storage (genesis_state allocs) = ∅ ∧ db_block_hashes (genesis_state allocs) = ∅.
Proof.
  unfold genesis_state. induction allocs as [|[a b] allocs IH] using rev_ind; [done|].
  rewrite foldl_snoc, reverse_snoc. simpl. destruct IH as (IH & -> & ->).
  by rewrite fmap_insert, IH.
Qed.
Lemma genesis_wf allocs :
  Forall (λ p, length p.1 = 20%nat ∧ 0 <= p.2 < 256 ^ 32) allocs →
  map_Forall wf_account (db_accounts (genesis_state allocs)).
Proof.
  intros Hall a info. rewrite (proj1 (genesis_state_spec allocs)).
  intros (b & <- & Hb%elem_of_list_to_map_2)%lookup_fmap_Some. rewrite elem_of_reverse in Hb.
  rewrite Forall_forall in Hall. destruct (Hall _ Hb) as [??].
  split; [done|]. split; [split; discriminate|]. by split.
Qed.
Lemma genesis_coded allocs : coded (genesis_state allocs).
Proof.
  unfold coded. rewrite (proj1 (genesis_state_spec allocs)).
  intros a info (b & <- & _)%lookup_fmap_Some. by left.
Qed.

Lemma execute_tx_block_hashes ex tx :
  db_block_hashes (be_state (BlockExecutor_execute_tx ex tx).1) = db_block_hashes (be_state ex).
Proof.
  unfold BlockExecutor_execute_tx. repeat case_match; try done; simpl;
    match goal with |- context [BlockExecutor_apply_state_changes ?c ?st] =>
      by destruct (apply_state_changes_lookup c st []) as [-> _] end.
Qed.
Lemma execute_transactions_block_hashes {E} (f : _ → _ → _ → E) index txs s s' :
  execute_transactions f index txs s = Ok s' →
  db_block_hashes (be_state (ex_executor s')) = db_block_hashes (be_state (ex_executor s)).
Proof.
  revert index s. induction txs as [|tx txs IH]; intros index s; simpl; [by intros [= <-]|].
  pose proof (execute_tx_block_hashes (ex_executor s) tx) as Hb.
  destruct (BlockExecutor_execute_tx (ex_executor s) tx) as [ex [r|e]]; simpl; [|done].
  intros ->%IH. done.
Qed.

(** What the last block of a chain and the state after it satisfy. *)
Record chain_ok (blocks : list Block) (st : InMemoryStateDB) : Prop := {
  ck_numbers i b : blocks !! i = Some b → number (header b) = Z.of_nat i;
  ck_hashes i b : blocks !! i = Some b → InMemoryStateDB_get_block_hash st (Z.of_nat i) = Block_hash b;
  ck_linked i b p : blocks !! S i = Some b → blocks !! i = Some p →
    parent_hash (header b) = Block_hash p;
}.

Lemma chain_genesis_ok allocs :
  chain_ok [(create_genesis_block allocs).1] (create_genesis_block allocs).2.
Proof.
  split.
  - intros [|i] b Hb; simplify_eq/=. done.
  - intros [|i] b Hb; simplify_eq/=. unfold InMemoryStateDB_get_block_hash. simpl.
    by rewrite lookup_insert_eq.
  - intros [|i] b p Hb; simplify_eq/=.
Qed.
Lemma chain_extend_ok blocks parent st config txs built :
  len (blocks ++ [parent]) <= u64_max →
  BlockBuilder_build_block config (header parent) txs st = Ok built →
  chain_ok (blocks ++ [parent]) st → chain_ok ((blocks ++ [parent]) ++ [bb_block built]) (bb_state built).
Proof.
  intros Hlen (s & Hex & [= <-])%result_bind_ok [Hnum Hhash Hlink].
  apply execute_transactions_block_hashes in Hex. simpl in Hex.
  assert (Hparent : (blocks ++ [parent]) !! length blocks = Some parent) by by apply list_lookup_middle.
  pose proof (Hnum _ _ Hparent) as Hn. unfold len in Hlen. rewrite length_app in Hlen. simpl in Hlen.
  rewrite Hn. unfold u64_saturating_add. rewrite Z.min_l by lia.
  split; simpl; intros i b.
  - intros [Hi|[? Hi]]%lookup_app_Some; [by apply Hnum|]. rewrite length_app in *. simpl in *.
    apply list_lookup_singleton_Some in Hi as [? <-]. simpl. lia.
  - unfold InMemoryStateDB_get_block_hash in *. simpl. rewrite Hex.
    intros [Hi|[? Hi]]%lookup_app_Some.
    + rewrite lookup_insert_ne; [by apply Hhash|]. apply lookup_lt_Some in Hi.
      rewrite length_app in Hi. simpl in Hi. lia.
    + rewrite length_app in *. simpl in *. apply list_lookup_singleton_Some in Hi as [? <-].
      replace (Z.of_nat i) with (Z.of_nat (length blocks) + 1) by lia. by rewrite lookup_insert_eq.
  - intros p [Hi|[? Hi]]%lookup_app_Some [Hp|[? Hp]]%lookup_app_Some.
    + by eapply Hlink.
    + apply lookup_lt_Some in Hi. lia.
    + rewrite length_app in *. simpl in *. apply list_lookup_singleton_Some in Hi as [? <-].
      replace i with (length blocks) in Hp by lia. simplify_eq. done.
    + apply list_lookup_singleton_Some in Hi as [? <-], Hp as [? <-]. lia.
Qed.

Lemma chain_coded allocs blocks st : revm_codes → chain allocs blocks st → coded st.
Proof.
  intros Hrevm. induction 1 as [|blocks parent st config txs built _ IH Hbuild]; [apply genesis_coded|].
  apply result_bind_ok in Hbuild as (s & Hex & [= <-]). simpl.
  by apply (execute_transactions_coded _ 0 txs (Build_Executed {| be_state := st |} [] 0 Bloom_ZERO) s Hrevm IH Hex).
Qed.

Lemma chain_chain_ok allocs all st : chain allocs all st → len all <= u64_max → chain_ok all st.
Proof.
  intros Hchain. induction Hchain as [|blocks' parent' st config txs built Hchain IH Hbuild]; intros Hlen.
  - apply chain_genesis_ok.
  - change [parent'; bb_block built] with ([parent'] ++ [bb_block built]) in *.
    rewrite (app_assoc blocks') in *. unfold len in Hlen. rewrite length_app in Hlen. simpl in Hlen.
    apply (chain_extend_ok blocks' parent' st config txs); [unfold len; lia|exact Hbuild|].
    apply IH. unfold len; lia.
Qed.

(** C3: Along every chain built from a genesis block: block [i] has number [i], names
    its parent by hash, and its hash is the one the state serves for [BLOCKHASH i];
    and whatever is built next passes the validator on any machine, so two nodes
    that build from one genesis never reject each other's blocks, unless two different
    codes that meet in one state during the execution collide under Keccak (or one hashes
    to zero). The code that revm returns with an account is assumed to be the one it is
    documented to be: the preimage of the account's code hash, or what the database served
    for it. *)
Theorem chain_sound allocs blocks parent st :
  revm_codes → chain allocs (blocks ++ [parent]) st → len (blocks ++ [parent]) <= u64_max →
  chain_ok (blocks ++ [parent]) st ∧
  ∀ config txs built, BlockBuilder_build_block config (header parent) txs st = Ok built →
    chain_ok (blocks ++ [parent; bb_block built]) (bb_state built) ∧
    ∀ (HO2 : HashOrder) (SU2 : SortUnstable),
      BlockValidator_validate_block (HO := HO2) (SU := SU2) (bb_block built) st = Ok tt ∨ clash_during (HO := HO) txs st.
Proof.
  intros Hrevm Hchain Hlen. pose proof (chain_chain_ok _ _ _ Hchain Hlen) as Hok.
  split; [done|]. intros config txs built Hbuild. split.
  - change [parent; bb_block built] with ([parent] ++ [bb_block built]).
    rewrite (app_assoc blocks). by apply (chain_extend_ok blocks parent st config txs).
  - intros HO2 SU2.
    apply (built_block_validates HO HO2 SU SU2 config (header parent) txs st built Hrevm); [|exact Hbuild].
    by apply (chain_coded allocs (blocks ++ [parent])).
Qed.
End chain.

(** ** A concrete chain *)

#[local] Existing Instance map_to_list_order.
#[local] Existing Instance stable_sort_unstable.
#[local] Existing Instance example_alloy.
#[local] Existing Instance example_types.
#[local] Existing Instance example_revm.

(** The hash maps of the validating machine iterate backwards. *)
Lemma reversed_perm {K V} `{Countable K} (m : gmap K V) : reverse (map_to_list m) ≡ₚ map_to_list m.
Proof. apply reverse_Permutation. Qed.
Definition reversed_order : HashOrder :=
  {| hash_iter K V _ _ m := reverse (map_to_list m); hash_iter_perm K V _ _ m := reversed_perm m |}.

Definition example_addr (n : Z) : Address := repeat n 20.
Definition example_transfer (to value : Z) : Transaction := {|
  tx_hash := repeat (to + value) 32; tx_nonce := 0; tx_from := example_addr 1;
  tx_to := Some (example_addr to); tx_value := value; tx_gas_limit := 21000;
  tx_max_fee_per_gas := 10; tx_max_priority_fee_per_gas := 1; tx_input := []; tx_chain_id := 1;
  tx_signature_r := 0; tx_signature_s := 0; tx_signature_v := 0 |}.
Definition example_genesis : Block * InMemoryStateDB :=
  create_genesis_block [(example_addr 1, 1000); (example_addr 2, 5)].
(** A transfer, then a creation that deploys two bytes. *)
Definition example_create : Transaction := {|
  tx_hash := repeat 9 32; tx_nonce := 1; tx_from := example_addr 1; tx_to := None; tx_value := 1;
  tx_gas_limit := 60000; tx_max_fee_per_gas := 10; tx_max_priority_fee_per_gas := 1; tx_input := [96; 1];
  tx_chain_id := 1; tx_signature_r := 0; tx_signature_s := 0; tx_signature_v := 0 |}.
Definition example_txs : list Transaction := [example_transfer 2 100; example_create].
Definition example_build : result BuiltBlock BlockBuildError :=
  BlockBuilder_build_block BlockBuilderConfig_default (header example_genesis.1) example_txs example_genesis.2.
(** Every account of a state holds the code of its hash under the concrete hash. *)
Definition example_consistent (st : InMemoryStateDB) : bool :=
  forallb (λ p, from_option (λ c, bool_decide (c = ai_code_hash p.2)) true (ai_code p.2)) (map_to_list (db_accounts st)).
Lemma example_consistent_ok st : example_consistent st = true → code_consistent id st.
Proof.
  intros Hall a info Ha c Hc. unfold example_consistent in Hall. rewrite forallb_forall in Hall.
  specialize (Hall (a, info) (proj1 (list_elem_of_In _ _) (proj2 (elem_of_map_to_list _ _ _) Ha))). cbn [snd] in Hall.
  rewrite Hc in Hall. by apply bool_decide_eq_true in Hall.
Qed.
Lemma example_no_clash : ¬ clash_during example_txs example_genesis.2.
Proof.
  intros (n & s & Hs & Hclash). revert Hclash. apply (no_clash id), example_consistent_ok.
  destruct n as [|[|n]]; [| |change (take (S (S n)) example_txs) with (example_transfer 2 100 :: example_create :: take n []) in Hs;
    rewrite take_nil in Hs]; vm_compute in Hs; injection Hs as <-; vm_compute; reflexivity.
Qed.

Lemma chain_sound_witness :
  ∃ built, example_build = Ok built ∧ chain_ok [example_genesis.1; bb_block built] (bb_state built) ∧
    BlockValidator_validate_block (HO := reversed_order) (bb_block built) example_genesis.2 = Ok tt.
Proof.
  destruct example_build as [built|e] eqn:Hbuild; [|vm_compute in Hbuild; discriminate].
  exists built. split; [reflexivity|].
  destruct (proj2 (chain_sound [(example_addr 1, 1000); (example_addr 2, 5)] [] example_genesis.1 example_genesis.2
    example_revm_codes (chain_genesis _) ltac:(discriminate))
    BlockBuilderConfig_default example_txs built Hbuild) as [Hok Hvalid].
  split; [exact Hok|].
  destruct (Hvalid reversed_order stable_sort_unstable) as [Hv|Hclash]; [exact Hv|].
  destruct (example_no_clash Hclash).
Defined.

Lemma state_root_binding_witness :
  compute_state_root example_genesis.2 =
  compute_state_root (InMemoryStateDB_set_storage example_genesis.2 (example_addr 1) 7 8).
Proof.
  assert (Hwf : ∀ st, db_accounts st = db_accounts example_genesis.2 → wf_state st).
  { intros st Hst. unfold wf_state. rewrite Hst. split.
    - apply (genesis_wf [(example_addr 1, 1000); (example_addr 2, 5)]).
      repeat constructor; discriminate.
    - vm_compute. split; discriminate. }
  refine (proj1 (state_root_binding _ _ _ _) _).
  - apply Hwf. reflexivity.
  - apply Hwf. reflexivity.
  - reflexivity.
Defined.

(** A 32-byte stand-in for the hash: the first bytes, padded. *)
Definition example_alloy32 : Alloy := {|
  keccak256 l := take 32 (l ++ zero_bytes 32);
  header_encode := header_encode; Bloom_ZERO := Bloom_ZERO; accrue_bloom := accrue_bloom;
  bloom_of_logs := bloom_of_logs |}.
Definition example_receipt (gas : Z) : Receipt := {|
  rc_tx_hash := repeat 1 32; rc_status := true; rc_cumulative_gas_used := gas;
  rc_logs_bloom := zero_bytes 256; rc_logs := [] |}.
Lemma example_receipt_wf : wf_receipt (example_receipt 21000).
Proof. repeat split; try constructor; try discriminate; reflexivity. Qed.

Lemma receipts_root_binding_witness :
  let r := example_receipt 21000 in
  [r; r] = [r; r] ∨
  (∃ i r1 r2, [r; r] !! i = Some r1 ∧ [r; r] !! i = Some r2 ∧ encode_receipt r1 ≠ encode_receipt r2 ∧
     keccak256 (Alloy := example_alloy32) (encode_receipt r1) =
     keccak256 (Alloy := example_alloy32) (encode_receipt r2)) ∨
  (let payload l := to_be_bytes 8 (len l) ++
     concat ((λ r, keccak256 (Alloy := example_alloy32) (encode_receipt r)) <$> l) in
   payload [r; r] ≠ payload [r; r] ∧
   keccak256 (Alloy := example_alloy32) (payload [r; r]) =
   keccak256 (Alloy := example_alloy32) (payload [r; r])).
Proof.
  refine (receipts_root_binding (AL := example_alloy32) [example_receipt 21000; example_receipt 21000]
    [example_receipt 21000; example_receipt 21000] _ _ _ _ _ eq_refl).
  - intros l. unfold keccak256, example_alloy32, zero_bytes.
    rewrite length_take, length_app, length_replicate. lia.
  - repeat constructor; apply example_receipt_wf.
  - repeat constructor; apply example_receipt_wf.
  - split; discriminate.
  - split; discriminate.
Defined.
