(* ===== verification/Codec.v ===== *)
(** * Wire messages and their framing ([eth2077-p2p/src/codec.rs])

    A frame is the payload's length as four big-endian bytes and the payload, the
    message in JSON.  [serde_json] is the class [Serde]; the round trip of the
    types the program derives is the class [SerdeRoundtrip].  The decoder is an
    incremental one: it is called on the bytes received so far. *)
From S2P Require Import Prelude Canonical.
Local Open Scope Z_scope.

(** [serde_json::to_vec] and [serde_json::from_slice] at a type. *)
Class Serde (A : Type) := {
  to_vec : A → result (list Z) string;
  from_slice : list Z → result A string;
}.
(** What is written can be read back. *)
Class SerdeRoundtrip (A : Type) `{!Serde A} : Prop :=
  from_slice_to_vec (a : A) payload : to_vec a = Ok payload → from_slice payload = Ok a.

(* eth2077-p2p/src/codec.rs:7-7 MAX_MESSAGE_SIZE *)
Definition MAX_MESSAGE_SIZE : Z := 16 * 1024 * 1024.

(* eth2077-p2p/src/codec.rs:10-40 WireMessage *)
Inductive WireMessage :=
| Hello (peer_id chain_id best_height : Z) (best_hash : B256)
| NewBlock (height : Z) (block_data : Bytes)
| NewTransaction (tx_data : Bytes)
| ConsensusMsg (msg_data : Bytes)
| GetBlocks (from_height count : Z)
| Blocks (blocks : list Bytes)
| Ping (nonce : Z)
| Pong (nonce : Z).
#[export] Instance WireMessage_eq_dec : EqDecision WireMessage.
Proof. solve_decision. Defined.

(** The [io::Error]s of the codec, all of kind [InvalidData]. *)
Inductive CodecError :=
| MessageTooLarge (len : Z)
| InvalidMessageJson (err : string)
| EncodeFailed (err : string).

Section codec.
Context `{SW : !Serde WireMessage}.

(** [decode]: what is left of the buffer, and the answer. *)
(* eth2077-p2p/src/codec.rs:49-77 MessageCodec::decode *)
Definition MessageCodec_decode (src : list Z)
  : list Z * result (option WireMessage) CodecError :=
  if len src <? 4 then (src, Ok None) else
  let n := be_value (take 4 src) in
  if MAX_MESSAGE_SIZE <? n then (src, Err (MessageTooLarge n)) else
  if len src <? 4 + n then (src, Ok None) else
  let payload := take (Z.to_nat n) (drop 4 src) in
  (drop (Z.to_nat n) (drop 4 src),
   let? msg := map_err InvalidMessageJson (from_slice payload) in Ok (Some msg)).

(* eth2077-p2p/src/codec.rs:83-100 MessageCodec::encode *)
Definition MessageCodec_encode (item : WireMessage) (dst : list Z)
  : list Z * result unit CodecError :=
  match map_err EncodeFailed (to_vec item) with
  | Err e => (dst, Err e)
  | Ok payload =>
      let n := len payload in
      if MAX_MESSAGE_SIZE <? n then (dst, Err (MessageTooLarge n))
      else (dst ++ to_be_bytes 4 n ++ payload, Ok tt)
  end.

(** ** Reading a stream

    What [Framed] does with the decoder: append what arrived to the buffer, then
    decode until the decoder asks for more or fails. *)
Fixpoint decode_loop (fuel : nat) (src : list Z) : list Z * list WireMessage * option CodecError :=
  match fuel with
  | O => (src, [], None)
  | S fuel =>
      match MessageCodec_decode src with
      | (src, Ok None) => (src, [], None)
      | (src, Err e) => (src, [], Some e)
      | (src, Ok (Some msg)) =>
          let '(src, msgs, e) := decode_loop fuel src in (src, msg :: msgs, e)
      end
  end.
(** One frame per five bytes at most, so the length of the buffer is fuel enough. *)
Definition on_bytes (src chunk : list Z) : list Z * list WireMessage * option CodecError :=
  decode_loop (S (length (src ++ chunk))) (src ++ chunk).
(** The messages out of a sequence of chunks. *)
Fixpoint read_chunks (src : list Z) (chunks : list (list Z))
  : list Z * list WireMessage * option CodecError :=
  match chunks with
  | [] => (src, [], None)
  | chunk :: chunks =>
      match on_bytes src chunk with
      | (src, msgs, Some e) => (src, msgs, Some e)
      | (src, msgs, None) =>
          let '(src, msgs', e) := read_chunks src chunks in (src, msgs ++ msgs', e)
      end
  end.

(** The bytes of a sequence of messages, as the encoder writes them. *)
Fixpoint encode_all (msgs : list WireMessage) (dst : list Z) : list Z * result unit CodecError :=
  match msgs with
  | [] => (dst, Ok tt)
  | msg :: msgs =>
      match MessageCodec_encode msg dst with
      | (dst, Ok _) => encode_all msgs dst
      | (dst, Err e) => (dst, Err e)
      end
  end.
End codec.

Section framing.
Context `{SW : !Serde WireMessage}.

(** ** The decoder on more bytes *)

Lemma decode_none src src' : MessageCodec_decode src = (src', Ok None) → src' = src.
Proof.
  unfold MessageCodec_decode. repeat case_if_goal; try (by intros [= <-]).
  destruct (from_slice _); by intros [=].
Qed.
Lemma decode_some_length src src' msg :
  MessageCodec_decode src = (src', Ok (Some msg)) → (length src' < length src)%nat.
Proof.
  unfold MessageCodec_decode. repeat case_if_goal; try (by intros [=]). bool_to_prop.
  intros [= <- _]. rewrite !length_drop. unfold len in *. lia.
Qed.
(** An answer other than "not yet" does not depend on what follows. *)
Lemma decode_app src src' r x :
  r ≠ Ok None → MessageCodec_decode src = (src', r) →
  ∃ src'', MessageCodec_decode (src ++ x) = (src'', r) ∧ (is_ok r = true → src'' = src' ++ x).
Proof.
  intros Hr. unfold MessageCodec_decode.
  destruct (Z.ltb_spec (len src) 4) as [|H4]; [by intros [= _ <-]|]. unfold len in *.
  rewrite length_app. destruct (Z.ltb_spec (Z.of_nat (length src + length x)) 4); [lia|].
  rewrite take_app_le by lia. case_if_goal; [intros [= <- <-]; eauto|].
  destruct (Z.ltb_spec (Z.of_nat (length src)) (4 + be_value (take 4 src))) as [|Hn];
    [by intros [= _ <-]|].
  destruct (Z.ltb_spec (Z.of_nat (length src + length x)) (4 + be_value (take 4 src))); [lia|].
  rewrite drop_app_le by lia. rewrite take_app_le, drop_app_le by (rewrite length_drop; lia).
  intros [= <- <-]. eauto.
Qed.

Lemma decode_loop_fuel f1 f2 src :
  (length src < f1)%nat → (length src < f2)%nat → decode_loop f1 src = decode_loop f2 src.
Proof.
  revert f2 src. induction f1 as [|f1 IH]; intros [|f2] src H1 H2; try lia; simpl.
  destruct (MessageCodec_decode src) as [src' [[msg|]|e]] eqn:Hd; try done.
  apply decode_some_length in Hd. by rewrite (IH f2) by lia.
Qed.
Lemma decode_loop_app f f' src x :
  (length src < f)%nat → (length (src ++ x) < f')%nat →
  match decode_loop f src with
  | (src', msgs, None) =>
      decode_loop f' (src ++ x) =
        (let '(s, msgs', e) := decode_loop f' (src' ++ x) in (s, msgs ++ msgs', e)) ∧
      (length (src' ++ x) < f')%nat
  | (_, msgs, Some e) => ∃ s, decode_loop f' (src ++ x) = (s, msgs, Some e)
  end.
Proof.
  revert f' src. induction f as [|f IH]; intros f' src Hf Hf'; [lia|]. simpl.
  destruct (MessageCodec_decode src) as [src' [[msg|]|e]] eqn:Hd.
  - pose proof (decode_some_length _ _ _ Hd) as Hlt.
    destruct (decode_app src src' (Ok (Some msg)) x ltac:(done) Hd) as (src'' & Hd' & Heq).
    rewrite (Heq eq_refl) in Hd'. clear Heq.
    destruct f' as [|f']; [lia|]. rewrite length_app in Hf'.
    specialize (IH (S f') src' ltac:(lia) ltac:(rewrite length_app; lia)).
    assert (decode_loop (S f') (src ++ x) =
      let '(s, msgs, e) := decode_loop (S f') (src' ++ x) in (s, msg :: msgs, e)) as ->.
    { cbn [decode_loop] in IH |- *. rewrite Hd'.
      by rewrite (decode_loop_fuel f' (S f')) by (rewrite length_app; lia). }
    destruct (decode_loop f src') as [[s1 m1] [e1|]].
    + destruct IH as [s ->]. by exists s.
    + destruct IH as [-> ?]. split; [|done]. by destruct (decode_loop (S f') (s1 ++ x)) as [[??]?].
  - apply decode_none in Hd as ->. split; [|done]. by destruct (decode_loop f' (src ++ x)) as [[??]?].
  - destruct (decode_app src src' (Err e) x ltac:(done) Hd) as (src'' & Hd' & _).
    destruct f' as [|f']; [lia|]. simpl. rewrite Hd'. by exists src''.
Qed.

Lemma decode_loop_length f src src' msgs e :
  decode_loop f src = (src', msgs, e) → is_Some e ∨ (length src' <= length src)%nat.
Proof.
  revert src src' msgs. induction f as [|f IH]; intros src src' msgs; simpl; [intros [= <- _ _]; by right|].
  destruct (MessageCodec_decode src) as [s [[msg|]|e1]] eqn:Hd.
  - apply decode_some_length in Hd. destruct (decode_loop f s) as [[s1 m1] e1'] eqn:Hl.
    intros [= <- _ <-]. apply IH in Hl as [?|?]; [by left|right; lia].
  - apply decode_none in Hd as ->. intros [= <- _ _]. by right.
  - intros [= _ _ <-]. by left.
Qed.
(** Nothing more can be decoded from what a loop leaves. *)
Lemma decode_loop_done f src src' msgs :
  (length src < f)%nat → decode_loop f src = (src', msgs, None) →
  decode_loop f src' = (src', [], None).
Proof.
  revert src src' msgs. induction f as [|f IH]; intros src src' msgs Hf; [lia|]. simpl.
  destruct (MessageCodec_decode src) as [s [[msg|]|e]] eqn:Hd; [|..|done].
  - apply decode_some_length in Hd. destruct (decode_loop f s) as [[s1 m1] e1] eqn:Hl.
    intros [= -> _ ->]. apply IH in Hl; [|lia]. destruct f as [|f]; [lia|]. revert Hl. simpl.
    destruct (MessageCodec_decode src') as [s2 [[msg2|]|e2]]; [|done..].
    by destruct (decode_loop f s2) as [[??]?].
  - intros [= <- _]. pose proof (decode_none _ _ Hd) as ->. by rewrite Hd.
Qed.

(** Reading is independent of how the network cuts the stream: however the bytes
    (well formed or not) are split into chunks, the same messages come out, in the
    same order, followed by the same error, if any, as when the bytes arrive at
    once; and without an error the same bytes are left in the buffer. *)
Lemma read_chunks_concat (chunks : list (list Z)) :
  let '(src, msgs, e) := read_chunks [] chunks in
  let '(src', msgs', e') := on_bytes [] (concat chunks) in
  msgs = msgs' ∧ e = e' ∧ (e = None → src = src').
Proof.
  assert (Hgen : ∀ src, decode_loop (S (length src)) src = (src, [], None) →
    let '(src1, msgs, e) := read_chunks src chunks in
    let '(src2, msgs', e') := on_bytes src (concat chunks) in
    msgs = msgs' ∧ e = e' ∧ (e = None → src1 = src2)); [|by apply Hgen].
  induction chunks as [|chunk chunks IH]; intros src Hsrc; simpl.
  { unfold on_bytes. by rewrite app_nil_r, Hsrc. }
  unfold on_bytes. rewrite (app_assoc src chunk).
  set (f' := S (length ((src ++ chunk) ++ concat chunks))).
  pose proof (decode_loop_app (S (length (src ++ chunk))) f' (src ++ chunk) (concat chunks)
    ltac:(lia) ltac:(lia)) as Happ.
  destruct (decode_loop (S (length (src ++ chunk))) (src ++ chunk)) as [[s1 m1] [e1|]] eqn:Hl.
  - by destruct Happ as [s ->].
  - destruct Happ as [-> Hf]. apply decode_loop_done in Hl as Hdone; [|lia].
    specialize (IH s1). unfold on_bytes in IH.
    rewrite (decode_loop_fuel f' (S (length (s1 ++ concat chunks)))) by lia.
    rewrite (decode_loop_fuel _ (S (length s1))) in Hdone; [|..|lia].
    + specialize (IH Hdone). destruct (read_chunks s1 chunks) as [[??]?].
      destruct (decode_loop _ (s1 ++ concat chunks)) as [[??]?]. destruct IH as (-> & -> & ?). done.
    + apply decode_loop_length in Hl as [[? [=]]|?]. lia.
Qed.

(** ** Round trip *)

Lemma MessageCodec_encode_ok msg dst dst' :
  MessageCodec_encode msg dst = (dst', Ok tt) ↔
  ∃ payload, to_vec msg = Ok payload ∧ len payload <= MAX_MESSAGE_SIZE ∧
    dst' = dst ++ to_be_bytes 4 (len payload) ++ payload.
Proof.
  unfold MessageCodec_encode. destruct (to_vec msg) as [payload|e]; simpl; [|naive_solver].
  destruct (Z.ltb_spec MAX_MESSAGE_SIZE (len payload)); split; [done|..]; try naive_solver lia.
Qed.

Context `{!SerdeRoundtrip WireMessage}.

Lemma decode_frame msg payload rest :
  to_vec msg = Ok payload → len payload <= MAX_MESSAGE_SIZE →
  MessageCodec_decode ((to_be_bytes 4 (len payload) ++ payload) ++ rest) = (rest, Ok (Some msg)).
Proof.
  intros Hto Hmax. unfold MessageCodec_decode. rewrite <- app_assoc.
  assert (H4 : length (to_be_bytes 4 (len payload)) = 4%nat) by apply length_to_be_bytes.
  assert (Hlen : len (to_be_bytes 4 (len payload) ++ payload ++ rest) = 4 + len payload + len rest).
  { unfold len in *. rewrite !length_app. lia. }
  rewrite Hlen. rewrite take_app_length', drop_app_length' by done.
  rewrite be_value_to_be_bytes by (unfold MAX_MESSAGE_SIZE, len in *; lia).
  assert (0 <= len rest ∧ 0 <= len payload) as [??] by (unfold len; lia).
  destruct (Z.ltb_spec (4 + len payload + len rest) 4); [lia|].
  destruct (Z.ltb_spec MAX_MESSAGE_SIZE (len payload)); [lia|].
  destruct (Z.ltb_spec (4 + len payload + len rest) (4 + len payload)); [lia|].
  unfold len at 1 2. rewrite Nat2Z.id, take_app_length, drop_app_length.
  by rewrite (from_slice_to_vec msg payload).
Qed.
Lemma encode_all_decodes msgs dst stream :
  encode_all msgs dst = (stream, Ok tt) →
  ∃ frames, stream = dst ++ frames ∧
    ∀ f, (length frames < f)%nat → decode_loop f frames = ([], msgs, None).
Proof.
  revert dst. induction msgs as [|msg msgs IH]; intros dst; simpl.
  - intros [= <-]. exists []. rewrite app_nil_r. split; [done|]. by intros [|f] ?; [lia|].
  - destruct (MessageCodec_encode msg dst) as [dst' [[]|e]] eqn:Henc; [|done].
    apply MessageCodec_encode_ok in Henc as (payload & Hto & Hmax & ->).
    intros (frames & -> & Hf)%IH. exists ((to_be_bytes 4 (len payload) ++ payload) ++ frames).
    split; [by rewrite <- !app_assoc|]. intros [|f] Hlen; [lia|]. rewrite length_app in Hlen.
    cbn [decode_loop]. rewrite (decode_frame msg), Hf; [done| |done..].
    rewrite length_app, length_to_be_bytes in Hlen. lia.
Qed.

(** C15: A sent stream is read back whatever the network does to its framing: when the
    encoder accepts the messages, every way of cutting the written bytes into chunks
    yields exactly those messages, in order, without an error and with nothing left
    over.  (The encoder refuses only what [serde_json] refuses and payloads of more
    than 16 MiB.) *)
Theorem wire_roundtrip (msgs : list WireMessage) (stream : list Z) (chunks : list (list Z)) :
  encode_all msgs [] = (stream, Ok tt) → concat chunks = stream →
  read_chunks [] chunks = ([], msgs, None).
Proof.
  intros (frames & -> & Hf)%encode_all_decodes Hchunks. simpl in Hchunks.
  pose proof (read_chunks_concat chunks) as Hinv. rewrite Hchunks in Hinv.
  unfold on_bytes in Hinv. rewrite Hf in Hinv by (simpl; lia).
  destruct (read_chunks [] chunks) as [[s m] e]. destruct Hinv as (-> & -> & Hs). by rewrite Hs.
Qed.
End framing.

(** ** A concrete serialisation *)

Definition example_to_vec (msg : WireMessage) : result (list Z) string :=
  match msg with
  | Ping n => Ok [0; n]
  | Pong n => Ok [1; n]
  | NewTransaction d => Ok (2 :: d)
  | ConsensusMsg d => Ok (3 :: d)
  | NewBlock h d => Ok (4 :: h :: d)
  | GetBlocks h n => Ok [5; h; n]
  | Hello p c h hash => Ok (6 :: p :: c :: h :: hash)
  | Blocks [] => Ok [7]
  | Blocks _ => Err "unsupported"
  end.
Definition example_from_slice (l : list Z) : result WireMessage string :=
  match l with
  | [0; n] => Ok (Ping n)
  | [1; n] => Ok (Pong n)
  | 2 :: d => Ok (NewTransaction d)
  | 3 :: d => Ok (ConsensusMsg d)
  | 4 :: h :: d => Ok (NewBlock h d)
  | [5; h; n] => Ok (GetBlocks h n)
  | 6 :: p :: c :: h :: hash => Ok (Hello p c h hash)
  | [7] => Ok (Blocks [])
  | _ => Err "not a message"
  end.
Definition example_serde : Serde WireMessage :=
  {| to_vec := example_to_vec; from_slice := example_from_slice |}.
#[local] Existing Instance example_serde.
Lemma example_serde_roundtrip : SerdeRoundtrip WireMessage.
Proof. intros msg payload. destruct msg as [| | | | |[|]| |]; simpl; intros [= <-]; done. Qed.

Lemma wire_roundtrip_witness :
  read_chunks [] [[0; 0]; [0; 2; 0; 7; 0; 0]; []; [0; 3; 2; 255]; [9]] =
  ([], [Ping 7; NewTransaction [255; 9]], None).
Proof.
  refine (wire_roundtrip (SerdeRoundtrip0 := example_serde_roundtrip) [Ping 7; NewTransaction [255; 9]]
    [0; 0; 0; 2; 0; 7; 0; 0; 0; 3; 2; 255; 9] _ _ _); reflexivity.
Defined.
