(* ===== verification/Gossip.v ===== *)
(** * Gossip with bounded memory ([eth2077-p2p/src/gossip.rs] and the
      [ConsensusRelayCache] of [node.rs])

    A relay cache remembers the hashes it let through in a set and in a queue and
    forgets the oldest.  The source has three copies of it (blocks, transactions,
    consensus payloads); their steps are the functions on [SeenCache].  The eviction
    loop runs while the set is too large and would spin if the queue were empty:
    it answers [None] there, and the theorems show that never happens. *)
From S2P Require Import Prelude Canonical Codec.
Local Open Scope Z_scope.

(** A [HashSet] of hashes and a [VecDeque] of the same in order of arrival. *)
Record SeenCache := MkSeen {
  sc_seen : gset B256;
  sc_order : list B256;
}.
Definition SeenCache_new : SeenCache := MkSeen ∅ [].

(* eth2077-p2p/src/gossip.rs:100-114 GossipEngine::evict_old_blocks *)
Fixpoint evict_old (max_size : Z) (seen : gset B256) (order : list B256) : option SeenCache :=
  if Z.of_nat (size seen) <=? max_size then Some (MkSeen seen order) else
  match order with
  | oldest :: order => evict_old max_size (seen ∖ {[oldest]}) order
  | [] => None
  end.

(* eth2077-p2p/src/gossip.rs:41-50 GossipEngine::should_relay_block *)
Definition should_relay (max_size : Z) (c : SeenCache) (hash : B256) : option (SeenCache * bool) :=
  if decide (hash ∈ sc_seen c) then Some (c, false) else
  c ← evict_old max_size ({[hash]} ∪ sc_seen c) (sc_order c ++ [hash]);
  Some (c, true).

(* eth2077-p2p/src/gossip.rs:9-11 GossipConfig *)
Record GossipConfig := { seen_cache_size : Z }.
(* eth2077-p2p/src/gossip.rs:14-18 GossipConfig::default *)
Definition GossipConfig_default : GossipConfig := {| seen_cache_size := 1024 |}.

(** [seen_blocks] with [seen_block_order], and [seen_txs] with [seen_tx_order]. *)
(* eth2077-p2p/src/gossip.rs:22-28 GossipEngine *)
Record GossipEngine := MkGossip {
  ge_config : GossipConfig;
  ge_blocks : SeenCache;
  ge_txs : SeenCache;
}.
(* eth2077-p2p/src/gossip.rs:31-39 GossipEngine::new *)
Definition GossipEngine_new (config : GossipConfig) : GossipEngine :=
  MkGossip config SeenCache_new SeenCache_new.

(* eth2077-p2p/src/gossip.rs:41-50 GossipEngine::should_relay_block *)
Definition GossipEngine_should_relay_block (g : GossipEngine) (hash : B256)
  : option (GossipEngine * bool) :=
  '(c, b) ← should_relay (seen_cache_size (ge_config g)) (ge_blocks g) hash;
  Some (MkGossip (ge_config g) c (ge_txs g), b).
(* eth2077-p2p/src/gossip.rs:52-61 GossipEngine::should_relay_tx *)
Definition GossipEngine_should_relay_tx (g : GossipEngine) (hash : B256)
  : option (GossipEngine * bool) :=
  '(c, b) ← should_relay (seen_cache_size (ge_config g)) (ge_txs g) hash;
  Some (MkGossip (ge_config g) (ge_blocks g) c, b).

Section engine.
Context `{AL : Alloy} `{SB : !Serde Block} `{ST : !Serde Transaction}.

(* eth2077-p2p/src/gossip.rs:63-81 GossipEngine::on_new_block *)
Definition GossipEngine_on_new_block (g : GossipEngine) (block : Block)
  : option (GossipEngine * option WireMessage) :=
  '(g, relay) ← GossipEngine_should_relay_block g (Block_hash block);
  if negb relay then Some (g, None) else
  match to_vec block with
  | Ok block_data => Some (g, Some (NewBlock (Block_number block) block_data))
  | Err _ => Some (g, None)
  end.
(* eth2077-p2p/src/gossip.rs:83-98 GossipEngine::on_new_tx *)
Definition GossipEngine_on_new_tx (g : GossipEngine) (tx : Transaction)
  : option (GossipEngine * option WireMessage) :=
  '(g, relay) ← GossipEngine_should_relay_tx g (tx_hash tx);
  if negb relay then Some (g, None) else
  match to_vec tx with
  | Ok tx_data => Some (g, Some (NewTransaction tx_data))
  | Err _ => Some (g, None)
  end.
End engine.

(** The relay cache of consensus payloads, keyed by their SHA-256. *)
(* eth2077-p2p/src/node.rs:83-87 ConsensusRelayCache *)
Record ConsensusRelayCache := MkRelay {
  rc_cache : SeenCache;
  rc_max_size : Z;
}.
(* eth2077-p2p/src/node.rs:90-96 ConsensusRelayCache::new *)
Definition ConsensusRelayCache_new (max_size : Z) : ConsensusRelayCache :=
  MkRelay SeenCache_new max_size.
(* eth2077-p2p/src/node.rs:98-116 ConsensusRelayCache::should_relay *)
Definition ConsensusRelayCache_should_relay `{Sha256} (c : ConsensusRelayCache) (payload : list Z)
  : option (ConsensusRelayCache * bool) :=
  '(s, b) ← should_relay (rc_max_size c) (rc_cache c) (sha256 payload);
  Some (MkRelay s (rc_max_size c), b).

(** ** The cache is the window of the last relayed hashes *)

(** The last [n] elements of a list. *)
Definition last_n {A} (n : Z) (l : list A) : list A := drop (length l - Z.to_nat n) l.

Record seen_inv (max_size : Z) (c : SeenCache) : Prop := {
  si_set : sc_seen c = list_to_set (sc_order c);
  si_nodup : NoDup (sc_order c);
  si_size : len (sc_order c) <= max_size;
}.

Lemma seen_new_inv max_size : 0 <= max_size → seen_inv max_size SeenCache_new.
Proof. intros. split; [done|constructor|done]. Qed.

Lemma evict_old_spec max_size order :
  0 <= max_size → NoDup order →
  evict_old max_size (list_to_set order) order =
    Some (MkSeen (list_to_set (last_n max_size order)) (last_n max_size order)).
Proof.
  intros Hmax. induction order as [|h order IH]; intros Hnd.
  { cbn [evict_old]. rewrite size_list_to_set by constructor.
    by destruct (Z.leb_spec (Z.of_nat (length (@nil B256))) max_size); [|simpl in *; lia]. }
  cbn [evict_old]. rewrite size_list_to_set by done.
  destruct (Z.leb_spec (Z.of_nat (length (h :: order))) max_size) as [Hle|Hgt].
  - unfold last_n. replace (_ - _)%nat with 0%nat by (simpl in *; lia). done.
  - apply NoDup_cons in Hnd as [Hh Hnd].
    replace (list_to_set (h :: order) ∖ {[h]}) with (list_to_set (C := gset B256) order) by set_solver.
    rewrite IH by done. unfold last_n.
    replace (length (h :: order) - Z.to_nat max_size)%nat
      with (S (length order - Z.to_nat max_size)) by (simpl in *; lia). done.
Qed.
Lemma length_last_n {A} n (l : list A) : 0 <= n → len (last_n n l) <= n.
Proof. intros. unfold last_n, len. rewrite length_drop. lia. Qed.
Lemma last_n_last_n_app {A} n (l k : list A) : last_n n (last_n n l ++ k) = last_n n (l ++ k).
Proof.
  unfold last_n. rewrite !length_app, length_drop.
  destruct (decide (length l <= Z.to_nat n)%nat) as [Hle|Hgt].
  - by replace (length l - Z.to_nat n)%nat with 0%nat by lia; rewrite drop_0, Nat.sub_0_r.
  - rewrite <- drop_app_le by lia. rewrite drop_drop. f_equal. lia.
Qed.

(** One step is total, and answers by the window. *)
Lemma should_relay_spec max_size c hash :
  0 <= max_size → seen_inv max_size c →
  ∃ c', should_relay max_size c hash = Some (c', bool_decide (hash ∉ sc_order c)) ∧
    seen_inv max_size c' ∧
    sc_order c' = if bool_decide (hash ∉ sc_order c) then last_n max_size (sc_order c ++ [hash])
                  else sc_order c.
Proof.
  intros Hmax [Hset Hnd Hsize]. unfold should_relay.
  assert (Hin : hash ∈ sc_seen c ↔ hash ∈ sc_order c) by (rewrite Hset; apply elem_of_list_to_set).
  case_decide as Hh.
  - rewrite bool_decide_false by tauto. by exists c.
  - rewrite bool_decide_true by tauto.
    replace ({[hash]} ∪ sc_seen c) with (list_to_set (C := gset B256) (sc_order c ++ [hash]))
      by (rewrite Hset; set_solver).
    assert (NoDup (sc_order c ++ [hash])).
    { apply NoDup_app. split; [done|]. split; [set_solver|apply NoDup_singleton]. }
    rewrite evict_old_spec by done. eexists. split; [reflexivity|]. split; [split|]; simpl; try done.
    + eapply sublist_NoDup; [done|apply sublist_drop].
    + by apply length_last_n.
Qed.

(** A run over the hashes presented to a cache. *)
Fixpoint relay_run (max_size : Z) (c : SeenCache) (hashes : list B256)
  : option (SeenCache * list bool) :=
  match hashes with
  | [] => Some (c, [])
  | h :: hashes =>
      '(c, b) ← should_relay max_size c h;
      '(c, bs) ← relay_run max_size c hashes;
      Some (c, b :: bs)
  end.
(** The hashes let through, in order. *)
Fixpoint relayed (hashes : list B256) (bs : list bool) : list B256 :=
  match hashes, bs with
  | h :: hashes, b :: bs => (if b : bool then [h] else []) ++ relayed hashes bs
  | _, _ => []
  end.

(** What a run from a cache holding the window of [before] answers. *)
Definition run_exact (max_size : Z) (before hashes : list B256) (bs : list bool) : Prop :=
  length bs = length hashes ∧
  ∀ k h, hashes !! k = Some h →
    bs !! k = Some (bool_decide (h ∉ last_n max_size (before ++ relayed (take k hashes) (take k bs)))).

Lemma relay_run_spec max_size before c hashes :
  0 <= max_size → seen_inv max_size c → sc_order c = last_n max_size before →
  ∃ c' bs, relay_run max_size c hashes = Some (c', bs) ∧ seen_inv max_size c' ∧
    sc_order c' = last_n max_size (before ++ relayed hashes bs) ∧
    run_exact max_size before hashes bs.
Proof.
  intros Hmax. revert before c. induction hashes as [|h hashes IH]; intros before c Hinv Hord.
  { exists c, []. unfold run_exact. simpl. rewrite app_nil_r. by split_and!. }
  destruct (should_relay_spec max_size c h Hmax Hinv) as (c1 & Hstep & Hinv1 & Hord1).
  set (b := bool_decide (h ∉ sc_order c)) in *.
  destruct (IH (before ++ if b then [h] else []) c1 Hinv1) as (c2 & bs & Hrun & Hinv2 & Hord2 & Hlen & Hbs).
  { rewrite Hord1, Hord. destruct b; [by rewrite last_n_last_n_app|by rewrite app_nil_r]. }
  exists c2, (b :: bs). simpl. rewrite Hstep. simpl. rewrite Hrun. simpl.
  split; [done|]. split; [done|]. split; [by rewrite Hord2, <- app_assoc|].
  split; [simpl; by rewrite Hlen|]. intros [|k] h' Hk; simplify_eq/=.
  - by rewrite app_nil_r, <- Hord.
  - rewrite (Hbs k h' Hk). by rewrite <- app_assoc.
Qed.

(** Hashes let through twice are more than [max_size] apart. *)
Lemma relayed_spaced max_size (hashes : list B256) bs :
  run_exact max_size [] hashes bs →
  ∀ i j h, relayed hashes bs !! i = Some h → relayed hashes bs !! j = Some h → (i < j)%nat →
  max_size < Z.of_nat (j - i).
Proof.
  revert bs. induction hashes as [|h hashes IH] using rev_ind; intros bs [Hlen Hbs] i j x; [done|].
  destruct bs as [|b bs _] using rev_ind; [rewrite length_app in Hlen; simpl in Hlen; lia|].
  rewrite !length_app in Hlen. simpl in Hlen. assert (Hl : length bs = length hashes) by lia.
  assert (Hrel : relayed (hashes ++ [h]) (bs ++ [b]) = relayed hashes bs ++ if b then [h] else []).
  { clear -Hl. revert bs Hl. induction hashes as [|y hashes IH]; intros [|b' bs] Hl; simplify_eq/=.
    - by rewrite app_nil_r.
    - by rewrite IH, app_assoc. }
  assert (Hprev : run_exact max_size [] hashes bs).
  { split; [done|]. intros k y Hk. pose proof (lookup_lt_Some _ _ _ Hk).
    specialize (Hbs k y ltac:(by rewrite lookup_app_l)).
    by rewrite lookup_app_l, !take_app_le in Hbs by lia. }
  rewrite Hrel. intros [Hi|[Hge Hi]]%lookup_app_Some [Hj|[Hgej Hj]]%lookup_app_Some Hij.
  - by eapply (IH bs Hprev).
  - destruct b; [|done]. apply list_lookup_singleton_Some in Hj as [Hj <-].
    specialize (Hbs (length hashes) h ltac:(by apply list_lookup_middle)).
    rewrite <- Hl, take_app_length, Hl, take_app_length in Hbs.
    rewrite lookup_app_r, Hl, Nat.sub_diag in Hbs by lia. simpl in Hbs.
    injection Hbs as Hbs. symmetry in Hbs. apply bool_decide_eq_true in Hbs.
    apply Z.nle_gt. intros Hle. apply Hbs. unfold last_n. apply list_elem_of_lookup.
    pose proof (lookup_lt_Some _ _ _ Hi). exists (i - (length (relayed hashes bs) - Z.to_nat max_size))%nat.
    rewrite lookup_drop. rewrite <- Hi. f_equal. lia.
  - apply lookup_lt_Some in Hj. lia.
  - destruct b; [|done]. apply list_lookup_singleton_Some in Hi as [? _], Hj as [? _]. lia.
Qed.

(** C34: A relay cache is exactly a sliding window.  Whatever hashes are presented to a
    new cache, every step terminates (the eviction loop never spins), and a hash is let
    through exactly when it is not among the last [max_size] ones let through; so a
    new hash is never suppressed, and a hash is let through again only after more than
    [max_size] positions.  The memory is bounded by [max_size] hashes. *)
Theorem relay_window (max_size : Z) (hashes : list B256) :
  0 <= max_size →
  ∃ c bs, relay_run max_size SeenCache_new hashes = Some (c, bs) ∧
    run_exact max_size [] hashes bs ∧
    (∀ i j h, relayed hashes bs !! i = Some h → relayed hashes bs !! j = Some h → (i < j)%nat →
       max_size < Z.of_nat (j - i)) ∧
    sc_order c = last_n max_size (relayed hashes bs) ∧ sc_seen c = list_to_set (sc_order c) ∧
    len (sc_order c) <= max_size.
Proof.
  intros Hmax. destruct (relay_run_spec max_size [] SeenCache_new hashes Hmax
    (seen_new_inv _ Hmax) eq_refl) as (c & bs & Hrun & [] & Hord & Hexact).
  exists c, bs. split; [done|]. split; [done|]. split; [by apply relayed_spaced|]. done.
Qed.
Lemma relay_window_witness :
  0 <= 2 ∧ ∃ c, relay_run 2 SeenCache_new [[1]; [2]; [1]; [3]; [1]] = Some (c, [true; true; false; true; true]).
Proof.
  split; [discriminate|].
  destruct (relay_window 2 [[1]; [2]; [1]; [3]; [1]] ltac:(discriminate)) as (c & bs & Hrun & _).
  exists c. rewrite Hrun. do 2 f_equal. vm_compute in Hrun. by injection Hrun.
Defined.

(** ** The engine *)

Record gossip_inv (g : GossipEngine) : Prop := {
  gi_size : 0 <= seen_cache_size (ge_config g);
  gi_blocks : seen_inv (seen_cache_size (ge_config g)) (ge_blocks g);
  gi_txs : seen_inv (seen_cache_size (ge_config g)) (ge_txs g);
}.
Lemma gossip_new_inv config : 0 <= seen_cache_size config → gossip_inv (GossipEngine_new config).
Proof. intros. split; [done|by apply seen_new_inv..]. Qed.

Section engine_facts.
Context `{AL : Alloy} `{SB : !Serde Block} `{ST : !Serde Transaction}.

(** A cache after a hash was presented to it. *)
Definition window_after (max_size : Z) (order : list B256) (hash : B256) : list B256 :=
  if bool_decide (hash ∉ order) then last_n max_size (order ++ [hash]) else order.
Lemma elem_of_window_after max_size order hash : 0 < max_size → hash ∈ window_after max_size order hash.
Proof.
  intros Hmax. unfold window_after. case_bool_decide as Hh; [|done].
  unfold last_n. rewrite drop_app_le by (rewrite length_app; simpl; lia). set_solver.
Qed.

Lemma on_new_block_spec g block :
  gossip_inv g → ∃ g',
    GossipEngine_on_new_block g block = Some (g',
      if bool_decide (Block_hash block ∉ sc_order (ge_blocks g)) then
        match to_vec block with Ok data => Some (NewBlock (Block_number block) data) | Err _ => None end
      else None) ∧
    gossip_inv g' ∧ ge_config g' = ge_config g ∧ ge_txs g' = ge_txs g ∧
    sc_order (ge_blocks g') =
      window_after (seen_cache_size (ge_config g)) (sc_order (ge_blocks g)) (Block_hash block).
Proof.
  intros [Hs Hb Ht]. unfold GossipEngine_on_new_block, GossipEngine_should_relay_block.
  destruct (should_relay_spec _ _ (Block_hash block) Hs Hb) as (c & -> & Hc & Ho). simpl.
  exists (MkGossip (ge_config g) c (ge_txs g)). split; [|by split_and!].
  case_bool_decide; simpl; [by destruct (to_vec block)|done].
Qed.
Lemma on_new_tx_spec g tx :
  gossip_inv g → ∃ g',
    GossipEngine_on_new_tx g tx = Some (g',
      if bool_decide (tx_hash tx ∉ sc_order (ge_txs g)) then
        match to_vec tx with Ok data => Some (NewTransaction data) | Err _ => None end
      else None) ∧
    gossip_inv g' ∧ ge_config g' = ge_config g ∧ ge_blocks g' = ge_blocks g ∧
    sc_order (ge_txs g') =
      window_after (seen_cache_size (ge_config g)) (sc_order (ge_txs g)) (tx_hash tx).
Proof.
  intros [Hs Hb Ht]. unfold GossipEngine_on_new_tx, GossipEngine_should_relay_tx.
  destruct (should_relay_spec _ _ (tx_hash tx) Hs Ht) as (c & -> & Hc & Ho). simpl.
  exists (MkGossip (ge_config g) (ge_blocks g) c). split; [|by split_and!].
  case_bool_decide; simpl; [by destruct (to_vec tx)|done].
Qed.
End engine_facts.

Definition relay_cache_inv (c : ConsensusRelayCache) : Prop :=
  0 <= rc_max_size c ∧ seen_inv (rc_max_size c) (rc_cache c).
Lemma relay_cache_spec `{Sha256} c payload :
  relay_cache_inv c → ∃ c',
    ConsensusRelayCache_should_relay c payload =
      Some (c', bool_decide (sha256 payload ∉ sc_order (rc_cache c))) ∧
    relay_cache_inv c' ∧ rc_max_size c' = rc_max_size c ∧
    sc_order (rc_cache c') = window_after (rc_max_size c) (sc_order (rc_cache c)) (sha256 payload).
Proof.
  intros [Hs Hc]. unfold ConsensusRelayCache_should_relay.
  destruct (should_relay_spec _ _ (sha256 payload) Hs Hc) as (s & -> & Hs' & Ho). simpl. by eexists.
Qed.
