(* ===== verification/Peers.v ===== *)
(** * The peer table ([eth2077-p2p/src/peer.rs])

    [Instant::now()] is an argument of the operations that read the clock. *)
From S2P Require Import Prelude Canonical.
Local Open Scope Z_scope.

(** [std::net::SocketAddr]: the bytes of the IP address, and the port. *)
Abbreviation SocketAddr := (list Z * Z)%type (only parsing).

(* eth2077-p2p/src/peer.rs:6-11 PeerState *)
Inductive PeerState := Connecting | Handshaking | Connected | Disconnected.
#[export] Instance PeerState_eq_dec : EqDecision PeerState.
Proof. solve_decision. Defined.

(* eth2077-p2p/src/peer.rs:14-22 PeerInfo *)
Record PeerInfo := {
  pi_peer_id : Z;
  pi_addr : SocketAddr;
  pi_state : PeerState;
  pi_best_height : Z;
  pi_best_hash : B256;
  pi_connected_at : Z;
  pi_last_seen : Z;
}.
(* eth2077-p2p/src/peer.rs:25-36 PeerInfo::new *)
Definition PeerInfo_new (now peer_id : Z) (addr : SocketAddr) (state : PeerState) : PeerInfo := {|
  pi_peer_id := peer_id; pi_addr := addr; pi_state := state; pi_best_height := 0;
  pi_best_hash := zero_bytes 32; pi_connected_at := now; pi_last_seen := now |}.

(* eth2077-p2p/src/peer.rs:40-43 PeerManager *)
Record PeerManager := MkPeers {
  pm_peers : gmap Z PeerInfo;
  pm_max_peers : Z;
}.
(* eth2077-p2p/src/peer.rs:46-51 PeerManager::new *)
Definition PeerManager_new (max_peers : Z) : PeerManager := MkPeers ∅ max_peers.

(* eth2077-p2p/src/peer.rs:53-69 PeerManager::add_peer *)
Definition PeerManager_add_peer (pm : PeerManager) (peer : PeerInfo) : PeerManager * bool :=
  let at_capacity := pm_max_peers pm <=? Z.of_nat (size (pm_peers pm)) in
  let inserted := MkPeers (<[pi_peer_id peer := peer]> (pm_peers pm)) (pm_max_peers pm) in
  match pm_peers pm !! pi_peer_id peer with
  | Some _ => (inserted, true)
  | None => if at_capacity then (pm, false) else (inserted, true)
  end.

(* eth2077-p2p/src/peer.rs:71-73 PeerManager::remove_peer *)
Definition PeerManager_remove_peer (pm : PeerManager) (peer_id : Z) : PeerManager * option PeerInfo :=
  (MkPeers (delete peer_id (pm_peers pm)) (pm_max_peers pm), pm_peers pm !! peer_id).

(* eth2077-p2p/src/peer.rs:75-77 PeerManager::get_peer *)
Definition PeerManager_get_peer (pm : PeerManager) (peer_id : Z) : option PeerInfo :=
  pm_peers pm !! peer_id.

(* eth2077-p2p/src/peer.rs:79-85 PeerManager::update_best_height *)
Definition PeerManager_update_best_height (now : Z) (pm : PeerManager) (peer_id height : Z)
    (hash : B256) : PeerManager :=
  match pm_peers pm !! peer_id with
  | Some peer =>
      MkPeers (<[peer_id := {| pi_peer_id := pi_peer_id peer; pi_addr := pi_addr peer;
        pi_state := pi_state peer; pi_best_height := height; pi_best_hash := hash;
        pi_connected_at := pi_connected_at peer; pi_last_seen := now |}]> (pm_peers pm))
        (pm_max_peers pm)
  | None => pm
  end.

(* eth2077-p2p/src/peer.rs:103-107 PeerManager::touch_peer *)
Definition PeerManager_touch_peer (now : Z) (pm : PeerManager) (peer_id : Z) : PeerManager :=
  match pm_peers pm !! peer_id with
  | Some peer =>
      MkPeers (<[peer_id := {| pi_peer_id := pi_peer_id peer; pi_addr := pi_addr peer;
        pi_state := pi_state peer; pi_best_height := pi_best_height peer;
        pi_best_hash := pi_best_hash peer; pi_connected_at := pi_connected_at peer;
        pi_last_seen := now |}]> (pm_peers pm)) (pm_max_peers pm)
  | None => pm
  end.

(** [Iterator::max_by_key]: the last of the maximal elements. *)
Definition max_by_key {A} (key : A → Z) (l : list A) : option A :=
  foldl (λ best x, match best with
    | Some y => if key x <? key y then Some y else Some x
    | None => Some x
    end) None l.

Section queries.
Context `{HO : HashOrder}.

(* eth2077-p2p/src/peer.rs:87-93 PeerManager::connected_peers *)
Definition PeerManager_connected_peers (pm : PeerManager) : list PeerInfo :=
  filter (λ peer, pi_state peer = Connected) (hash_values (pm_peers pm)).

(* eth2077-p2p/src/peer.rs:95-101 PeerManager::best_peer *)
Definition PeerManager_best_peer (pm : PeerManager) : option PeerInfo :=
  max_by_key pi_best_height
    (filter (λ peer, pi_state peer = Connected) (hash_values (pm_peers pm))).

Lemma max_by_key_spec {A} (key : A → Z) l :
  match max_by_key key l with
  | Some x => x ∈ l ∧ ∀ y, y ∈ l → key y <= key x
  | None => l = []
  end.
Proof.
  unfold max_by_key. induction l as [|x l IH] using rev_ind; [done|]. rewrite foldl_snoc.
  destruct (foldl _ None l) as [y|].
  - destruct IH as [Hy Hmax]. destruct (Z.ltb_spec (key x) (key y)).
    + split; [set_solver|]. intros z [Hz| ->%list_elem_of_singleton]%elem_of_app; [by apply Hmax|lia].
    + split; [set_solver|]. intros z [Hz| ->%list_elem_of_singleton]%elem_of_app; [|lia].
      specialize (Hmax z Hz). lia.
  - subst l. split; [set_solver|]. intros z ->%list_elem_of_singleton. lia.
Qed.
Lemma elem_of_hash_values {K V} `{Countable K} (m : gmap K V) v :
  v ∈ hash_values m ↔ ∃ k, m !! k = Some v.
Proof.
  unfold hash_values. rewrite list_elem_of_fmap. split.
  - intros ([k v'] & -> & Hk%elem_of_hash_iter). eauto.
  - intros [k Hk]. exists (k, v). by rewrite elem_of_hash_iter.
Qed.
Lemma elem_of_connected_peers pm peer :
  peer ∈ PeerManager_connected_peers pm ↔
  pi_state peer = Connected ∧ ∃ id, pm_peers pm !! id = Some peer.
Proof. unfold PeerManager_connected_peers. by rewrite list_elem_of_filter, elem_of_hash_values. Qed.
End queries.

(** ** The table's invariant *)

(** Peers are stored under their ids, at most [max_peers] of them. *)
Record peers_inv (pm : PeerManager) : Prop := {
  pv_keys id peer : pm_peers pm !! id = Some peer → pi_peer_id peer = id;
  pv_size : Z.of_nat (size (pm_peers pm)) <= pm_max_peers pm;
}.

Lemma peers_new_inv max_peers : 0 <= max_peers → peers_inv (PeerManager_new max_peers).
Proof. split; simpl; [done|]. by rewrite map_size_empty. Qed.
Lemma add_peer_inv pm peer : peers_inv pm → peers_inv (PeerManager_add_peer pm peer).1.
Proof.
  intros [Hk Hs]. unfold PeerManager_add_peer.
  assert (Hkeys : ∀ id p, <[pi_peer_id peer := peer]> (pm_peers pm) !! id = Some p → pi_peer_id p = id).
  { intros id p [[<- <-]|[_ ?]]%lookup_insert_Some; [done|by apply Hk]. }
  destruct (pm_peers pm !! pi_peer_id peer) eqn:Hp.
  - split; simpl; [done|]. rewrite map_size_insert_Some; by eauto.
  - destruct (Z.leb_spec (pm_max_peers pm) (Z.of_nat (size (pm_peers pm)))); [done|].
    split; simpl; [done|]. rewrite map_size_insert_None by done. lia.
Qed.
Lemma remove_peer_inv pm id : peers_inv pm → peers_inv (PeerManager_remove_peer pm id).1.
Proof.
  intros [Hk Hs]. split; simpl.
  - intros id' p [_ ?]%lookup_delete_Some. by apply Hk.
  - rewrite map_size_delete. destruct (pm_peers pm !! id); simpl; lia.
Qed.
Lemma update_peer_inv pm id peer peer' :
  pm_peers pm !! id = Some peer → pi_peer_id peer' = pi_peer_id peer →
  peers_inv pm → peers_inv (MkPeers (<[id := peer']> (pm_peers pm)) (pm_max_peers pm)).
Proof.
  intros Hp Heq [Hk Hs]. split; simpl.
  - intros id' p [[<- <-]|[_ ?]]%lookup_insert_Some; [|by apply Hk]. rewrite Heq. by apply Hk.
  - rewrite map_size_insert_Some; by eauto.
Qed.
Lemma update_best_height_inv now pm id height hash :
  peers_inv pm → peers_inv (PeerManager_update_best_height now pm id height hash).
Proof.
  intros Hinv. unfold PeerManager_update_best_height. destruct (pm_peers pm !! id) eqn:Hp; [|done].
  by eapply update_peer_inv.
Qed.
Lemma touch_peer_inv now pm id : peers_inv pm → peers_inv (PeerManager_touch_peer now pm id).
Proof.
  intros Hinv. unfold PeerManager_touch_peer. destruct (pm_peers pm !! id) eqn:Hp; [|done].
  by eapply update_peer_inv.
Qed.

(** The best peer is a connected peer of the table with the greatest height, and is
    there as soon as any peer is connected, in whatever order the table is iterated;
    ties are broken by that order only.  A new peer is refused exactly when its id is
    unknown and the table is full. *)
Theorem peer_table_queries `{HO : HashOrder} (pm : PeerManager) (new : PeerInfo) :
  match PeerManager_best_peer pm with
  | Some best =>
      best ∈ PeerManager_connected_peers pm ∧
      ∀ id peer, pm_peers pm !! id = Some peer → pi_state peer = Connected →
        pi_best_height peer <= pi_best_height best
  | None => ∀ id peer, pm_peers pm !! id = Some peer → pi_state peer ≠ Connected
  end ∧
  ((PeerManager_add_peer pm new).2 = false ↔
     pm_peers pm !! pi_peer_id new = None ∧ pm_max_peers pm <= Z.of_nat (size (pm_peers pm))).
Proof.
  split.
  - unfold PeerManager_best_peer. change (filter _ _) with (PeerManager_connected_peers pm).
    pose proof (max_by_key_spec pi_best_height (PeerManager_connected_peers pm)) as Hmax.
    destruct (max_by_key _ _) as [best|].
    + destruct Hmax as [Hin Hmax]. split; [done|]. intros id peer Hp Hc. apply Hmax.
      apply elem_of_connected_peers. eauto.
    + intros id peer Hp Hc. assert (Hin : peer ∈ PeerManager_connected_peers pm)
        by (apply elem_of_connected_peers; eauto). rewrite Hmax in Hin. by apply elem_of_nil in Hin.
  - unfold PeerManager_add_peer. destruct (pm_peers pm !! pi_peer_id new); simpl; [naive_solver|].
    destruct (Z.leb_spec (pm_max_peers pm) (Z.of_nat (size (pm_peers pm)))); simpl; naive_solver lia.
Qed.
