(* ===== verification/Sync.v ===== *)
(** * The block synchronisation state machine ([eth2077-p2p/src/sync_protocol.rs]) *)
From S2P Require Import Prelude Canonical Codec.
Local Open Scope Z_scope.

(* eth2077-p2p/src/sync_protocol.rs:6-13 SyncState *)
Inductive SyncState :=
| Idle
| Syncing (target_height current_height : Z)
| Synced.
#[export] Instance SyncState_eq_dec : EqDecision SyncState.
Proof. solve_decision. Defined.

(* eth2077-p2p/src/sync_protocol.rs:16-20 SyncEngine *)
Record SyncEngine := MkSync {
  sy_local_height : Z;
  sy_state : SyncState;
  sy_batch_size : Z;
}.

(* eth2077-p2p/src/sync_protocol.rs:23-29 SyncEngine::new *)
Definition SyncEngine_new (local_height : Z) : SyncEngine := MkSync local_height Idle 64.

(* eth2077-p2p/src/sync_protocol.rs:31-33 SyncEngine::needs_sync *)
Definition SyncEngine_needs_sync (s : SyncEngine) (network_best_height : Z) : bool :=
  sy_local_height s <? network_best_height.

(* eth2077-p2p/src/sync_protocol.rs:35-45 SyncEngine::start_sync *)
Definition SyncEngine_start_sync (s : SyncEngine) (target_height : Z) : SyncEngine :=
  if target_height <=? sy_local_height s then MkSync (sy_local_height s) Synced (sy_batch_size s)
  else MkSync (sy_local_height s) (Syncing target_height (sy_local_height s)) (sy_batch_size s).

(* eth2077-p2p/src/sync_protocol.rs:47-58 SyncEngine::next_request *)
Definition SyncEngine_next_request (s : SyncEngine) : option WireMessage :=
  match sy_state s with
  | Syncing target_height current_height =>
      if current_height <? target_height
      then Some (GetBlocks (u64_saturating_add current_height 1) (sy_batch_size s))
      else None
  | _ => None
  end.

(* eth2077-p2p/src/sync_protocol.rs:60-79 SyncEngine::on_blocks_received *)
Definition SyncEngine_on_blocks_received (s : SyncEngine) (blocks : list Block) : SyncEngine :=
  match blocks with
  | [] => s
  | _ :: _ =>
      let local_height := foldl Z.max (sy_local_height s) (Block_number <$> blocks) in
      match sy_state s with
      | Syncing target_height _ =>
          if target_height <=? local_height then MkSync local_height Synced (sy_batch_size s)
          else MkSync local_height (Syncing target_height local_height) (sy_batch_size s)
      | state => MkSync local_height state (sy_batch_size s)
      end
  end.

(* eth2077-p2p/src/sync_protocol.rs:81-89 SyncEngine::sync_progress *)
Definition SyncEngine_sync_progress (s : SyncEngine) : Z * Z :=
  match sy_state s with
  | Syncing target_height current_height => (current_height, target_height)
  | Idle | Synced => (sy_local_height s, sy_local_height s)
  end.

(** ** The invariant, and progress *)

(** While syncing, the current height is the local one and short of the target. *)
Definition sync_inv (s : SyncEngine) : Prop :=
  0 <= sy_local_height s ∧ 0 < sy_batch_size s ∧
  match sy_state s with
  | Syncing target_height current_height =>
      current_height = sy_local_height s ∧ current_height < target_height <= u64_max
  | _ => True
  end.

Lemma foldl_max_le acc l : acc <= foldl Z.max acc l.
Proof. revert acc; induction l as [|x l IH]; intros acc; simpl; [lia|]. specialize (IH (Z.max acc x)). lia. Qed.
Lemma foldl_max_elem acc l x : x ∈ l → x <= foldl Z.max acc l.
Proof.
  revert acc; induction l as [|y l IH]; intros acc; simpl; [by intros ?%elem_of_nil|].
  intros [->|Hx]%elem_of_cons; [|by apply IH]. pose proof (foldl_max_le (Z.max acc y) l). lia.
Qed.
Lemma foldl_max_bound acc l b : acc <= b → Forall (λ x, x <= b) l → foldl Z.max acc l <= b.
Proof. intros Ha Hl. revert acc Ha. induction Hl; intros acc Ha; simpl; [done|]. apply IHHl. lia. Qed.

Lemma sync_new_inv h : 0 <= h → sync_inv (SyncEngine_new h).
Proof. by repeat split. Qed.
Lemma start_sync_inv s target : sync_inv s → target <= u64_max → sync_inv (SyncEngine_start_sync s target).
Proof.
  intros (Hl & Hb & _) Ht. unfold SyncEngine_start_sync.
  destruct (Z.leb_spec target (sy_local_height s)); by split_and!.
Qed.
Lemma on_blocks_inv s blocks : sync_inv s → sync_inv (SyncEngine_on_blocks_received s blocks).
Proof.
  destruct blocks as [|b blocks]; [done|]. intros (Hl & Hb & Hs).
  unfold SyncEngine_on_blocks_received.
  pose proof (foldl_max_le (sy_local_height s) (Block_number <$> b :: blocks)) as Hle.
  set (h := foldl Z.max _ _) in *. unfold sync_inv.
  destruct (sy_state s) as [|target current|]; simpl; [by split_and!; try lia| |by split_and!; try lia].
  destruct (Z.leb_spec target h); simpl; split_and!; try done; lia.
Qed.

(** A peer that has the chain up to [best] and answers a request with the blocks it
    asks for. *)
Definition serve (block_at : Z → Block) (best from_height count : Z) : list Block :=
  block_at <$> seqZ from_height (Z.min count (best - from_height + 1)).
(** A request, and its answer. *)
Definition sync_round (block_at : Z → Block) (best : Z) (s : SyncEngine) : SyncEngine :=
  match SyncEngine_next_request s with
  | Some (GetBlocks from_height count) =>
      SyncEngine_on_blocks_received s (serve block_at best from_height count)
  | _ => s
  end.

Section rounds.
Context (block_at : Z → Block) (best : Z) (Hnumbers : ∀ n, Block_number (block_at n) = n).

Lemma on_served s from count target current :
  sync_inv s → sy_state s = Syncing target current → from = current + 1 → count = sy_batch_size s →
  target <= best →
  SyncEngine_on_blocks_received s (serve block_at best from count) =
    let h := Z.min (sy_local_height s + count) best in
    MkSync h (if target <=? h then Synced else Syncing target h) count.
Proof using Hnumbers.
  intros (Hl & Hb & Hs) Hst -> -> Htb. rewrite Hst in Hs. destruct Hs as [-> [Hlt _]].
  set (n := Z.min (sy_batch_size s) (best - (sy_local_height s + 1) + 1)).
  assert (Hn : 0 < n) by lia.
  assert (Hnum : Block_number <$> serve block_at best (sy_local_height s + 1) (sy_batch_size s) =
    seqZ (sy_local_height s + 1) n).
  { unfold serve. fold n. rewrite <- list_fmap_compose.
    rewrite <- (list_fmap_id (seqZ (sy_local_height s + 1) n)) at 2.
    apply list_fmap_ext. intros i x _. apply Hnumbers. }
  assert (Hmax : foldl Z.max (sy_local_height s) (seqZ (sy_local_height s + 1) n) = sy_local_height s + n).
  { apply Z.le_antisymm.
    - apply foldl_max_bound; [lia|]. apply Forall_forall. intros x Hx%elem_of_seqZ. lia.
    - apply foldl_max_elem, elem_of_seqZ. lia. }
  unfold SyncEngine_on_blocks_received. rewrite Hnum, Hmax, Hst.
  destruct (serve _ _ _ _) as [|b bs] eqn:Hserve.
  { simpl in Hnum. symmetry in Hnum. apply (f_equal length) in Hnum. rewrite length_seqZ in Hnum.
    simpl in Hnum. lia. }
  replace (Z.min (sy_local_height s + sy_batch_size s) best) with (sy_local_height s + n) by lia.
  cbv zeta. by destruct (target <=? sy_local_height s + n).
Qed.

(** C40: Synchronisation makes progress and ends: against a peer that has the chain up to
    the target, after [k] request-and-answer rounds the engine is still syncing, at
    height [local + k * batch], as long as that is short of the target, and after
    [ceil ((target - local) / batch)] rounds it is [Synced] at a height between the
    target and the peer's. *)
Theorem sync_completes (s : SyncEngine) (target current : Z) :
  sync_inv s → sy_state s = Syncing target current → target <= best →
  let local := sy_local_height s in
  let batch := sy_batch_size s in
  let rounds := Z.to_nat ((target - local + batch - 1) / batch) in
  (∀ k, (k < rounds)%nat → Nat.iter k (sync_round block_at best) s =
     MkSync (local + Z.of_nat k * batch) (Syncing target (local + Z.of_nat k * batch)) batch) ∧
  let final := Nat.iter rounds (sync_round block_at best) s in
  sy_state final = Synced ∧ target <= sy_local_height final <= best.
Proof using Hnumbers.
  intros Hinv Hst Hbest local batch rounds. pose proof Hinv as (Hl & Hb & Hs).
  rewrite Hst in Hs. destruct Hs as [-> [Hlt Hmax]].
  assert (Hr : batch * ((target - local + batch - 1) / batch) <= target - local + batch - 1 <
    batch * ((target - local + batch - 1) / batch) + batch).
  { pose proof (Z.mul_div_le (target - local + batch - 1) batch Hb).
    pose proof (Z.mul_succ_div_gt (target - local + batch - 1) batch Hb). unfold batch in *. lia. }
  assert (Hpos : 0 < (target - local + batch - 1) / batch).
  { apply Z.div_str_pos. unfold local, batch in *. lia. }
  set (q := (target - local + batch - 1) / batch) in *.
  assert (Hsteps : ∀ k, (k < rounds)%nat → Nat.iter k (sync_round block_at best) s =
     MkSync (local + Z.of_nat k * batch) (Syncing target (local + Z.of_nat k * batch)) batch).
  { induction k as [|k IH]; intros Hk.
    - simpl. rewrite Z.add_0_r. destruct s as [l st b]. simpl in *. by rewrite Hst.
    - cbn [Nat.iter nat_rect]. unfold Nat.iter in IH |- *. cbn [nat_rect]. rewrite IH by lia. clear IH.
      unfold sync_round. cbn [SyncEngine_next_request sy_state sy_batch_size].
      assert (local + Z.of_nat (S k) * batch < target) by (unfold rounds in Hk; nia).
      assert (local + Z.of_nat k * batch < target) by lia.
      destruct (Z.ltb_spec (local + Z.of_nat k * batch) target); [|lia].
      rewrite (on_served _ _ _ target (local + Z.of_nat k * batch)); cbn [sy_local_height sy_batch_size];
        [|repeat split; simpl; unfold local in *; nia|done|rewrite u64_saturating_add_small; lia|done|done].
      cbv zeta. rewrite Z.min_l by lia.
      destruct (Z.leb_spec target (local + Z.of_nat k * batch + batch)); [lia|].
      replace (local + Z.of_nat (S k) * batch) with (local + Z.of_nat k * batch + batch) by lia. done. }
  split; [exact Hsteps|]. cbv zeta.
  assert (Hrounds : ∃ k, rounds = S k) by (exists (pred rounds); unfold rounds; lia).
  destruct Hrounds as [k Hk]. rewrite Hk. specialize (Hsteps k ltac:(lia)).
  unfold Nat.iter in *. cbn [nat_rect]. rewrite Hsteps.
  assert (Hkq : Z.of_nat k = q - 1) by (unfold rounds in Hk; lia).
  unfold sync_round. cbn [SyncEngine_next_request sy_state sy_batch_size].
  assert (local + Z.of_nat k * batch < target) by nia.
  destruct (Z.ltb_spec (local + Z.of_nat k * batch) target); [|lia].
  rewrite (on_served _ _ _ target (local + Z.of_nat k * batch)); cbn [sy_local_height sy_batch_size];
    [|repeat split; simpl; unfold local in *; nia|done|rewrite u64_saturating_add_small; lia|done|done].
  cbv zeta. assert (target <= Z.min (local + Z.of_nat k * batch + batch) best) by nia.
  destruct (Z.leb_spec target (Z.min (local + Z.of_nat k * batch + batch) best)); [|lia].
  simpl. split; [done|]. lia.
Qed.
End rounds.

(** ** A concrete synchronisation *)

Definition example_block (n : Z) : Block := {|
  header := {| parent_hash := []; ommers_hash := []; beneficiary := []; state_root := [];
    transactions_root := []; receipts_root := []; logs_bloom := []; difficulty := 0; number := n;
    gas_limit := 0; gas_used := 0; timestamp := 0; extra_data := []; mix_hash := []; nonce := 0;
    base_fee_per_gas := None; blob_gas_used := None; excess_blob_gas := None;
    parent_beacon_block_root := None |};
  transactions := []; ommers := [] |}.
Lemma sync_completes_witness :
  sy_state (Nat.iter 4 (sync_round example_block 250) (SyncEngine_start_sync (SyncEngine_new 3) 200)) = Synced.
Proof.
  refine (proj1 (proj2 (sync_completes example_block 250 (λ n, eq_refl)
    (SyncEngine_start_sync (SyncEngine_new 3) 200) 200 3 _ _ _))).
  - repeat split; discriminate.
  - reflexivity.
  - discriminate.
Defined.
