(* ===== verification/P2pNode.v ===== *)
(** * The network node ([eth2077-p2p/src/node.rs])

    A node runs one dispatch task, which owns the order in which inbound events take
    effect, and one task per connection.  A dispatch step is a function from the
    shared state to the new state and the list of what it sends on channels, in
    order.  A handler takes each lock that another task also takes at most once, so
    handlers are modelled as atomic.  A channel to a connection task is a number;
    sends on closed channels are ignored by the source and are outputs here too. *)
From S2P Require Import Prelude Canonical Validators FastPath Consensus Codec Gossip Peers Sync.
Local Open Scope Z_scope.

(** [mpsc::Sender<WireMessage>] of one connection. *)
Abbreviation Chan := Z (only parsing).

(* eth2077-p2p/src/node.rs:19-25 P2pConfig *)
Record P2pConfig := {
  cfg_listen_addr : SocketAddr;
  cfg_boot_peers : list SocketAddr;
  cfg_peer_id : Z;
  cfg_chain_id : Z;
  cfg_max_peers : Z;
}.
(* eth2077-p2p/src/node.rs:28-36 P2pConfig::default *)
Definition P2pConfig_default : P2pConfig := {|
  cfg_listen_addr := ([127; 0; 0; 1], 30303); cfg_boot_peers := []; cfg_peer_id := 0;
  cfg_chain_id := 1; cfg_max_peers := 50 |}.

(* eth2077-p2p/src/node.rs:40-62 P2pEvent *)
Inductive P2pEvent :=
| BlockReceived (from_peer : Z) (block : Block)
| TransactionReceived (from_peer : Z) (tx : Transaction)
| ConsensusMessageReceived (from_peer : Z) (msg : ConsensusMessage)
| PeerConnected (peer_id : Z)
| PeerDisconnected (peer_id : Z)
| SyncComplete (height : Z).

(* eth2077-p2p/src/node.rs:65-80 NodeInbound *)
Inductive NodeInbound :=
| NodePeerConnected (peer_id : Z) (addr : SocketAddr) (best_height : Z) (best_hash : B256)
    (sender : Chan)
| NodePeerDisconnected (peer_id : Z)
| NodeMessage (from_peer : Z) (message : WireMessage).

(* eth2077-p2p/src/node.rs:119-128 P2pNode *)
Record P2pNode := MkNode {
  nd_config : P2pConfig;
  nd_peer_manager : PeerManager;
  nd_gossip_engine : GossipEngine;
  nd_sync_engine : SyncEngine;
  nd_peer_senders : gmap Z Chan;
  nd_consensus_cache : ConsensusRelayCache;
}.
(* eth2077-p2p/src/node.rs:148-159 P2pNode::with_transport *)
Definition P2pNode_new (config : P2pConfig) : P2pNode :=
  MkNode config (PeerManager_new (cfg_max_peers config)) (GossipEngine_new GossipConfig_default)
    (SyncEngine_new 0) ∅ (ConsensusRelayCache_new 1024).

(** What a step does outside: an event for the application, or a message on the channel
    of a peer. *)
Inductive Output :=
| Emit (event : P2pEvent)
| SendTo (peer_id : Z) (sender : Chan) (message : WireMessage).

Definition with_peers (f : PeerManager → PeerManager) (n : P2pNode) : P2pNode :=
  MkNode (nd_config n) (f (nd_peer_manager n)) (nd_gossip_engine n) (nd_sync_engine n)
    (nd_peer_senders n) (nd_consensus_cache n).
Definition with_gossip (g : GossipEngine) (n : P2pNode) : P2pNode :=
  MkNode (nd_config n) (nd_peer_manager n) g (nd_sync_engine n) (nd_peer_senders n)
    (nd_consensus_cache n).
Definition with_sync (s : SyncEngine) (n : P2pNode) : P2pNode :=
  MkNode (nd_config n) (nd_peer_manager n) (nd_gossip_engine n) s (nd_peer_senders n)
    (nd_consensus_cache n).
Definition with_senders (f : gmap Z Chan → gmap Z Chan) (n : P2pNode) : P2pNode :=
  MkNode (nd_config n) (nd_peer_manager n) (nd_gossip_engine n) (nd_sync_engine n)
    (f (nd_peer_senders n)) (nd_consensus_cache n).
Definition with_cache (c : ConsensusRelayCache) (n : P2pNode) : P2pNode :=
  MkNode (nd_config n) (nd_peer_manager n) (nd_gossip_engine n) (nd_sync_engine n)
    (nd_peer_senders n) c.

(* eth2077-p2p/src/node.rs:639-648 P2pNode::send_to_peer *)
Definition send_to_peer (senders : gmap Z Chan) (peer_id : Z) (message : WireMessage) : list Output :=
  match senders !! peer_id with
  | Some sender => [SendTo peer_id sender message]
  | None => []
  end.

Section node.
Context `{HO : HashOrder} `{AL : Alloy} `{SH : Sha256}
  `{SB : !Serde Block} `{ST : !Serde Transaction} `{SC : !Serde ConsensusMessage}.

(* eth2077-p2p/src/node.rs:650-662 P2pNode::broadcast_wire *)
Definition broadcast_wire (senders : gmap Z Chan) (message : WireMessage) (except_peer : option Z)
  : list Output :=
  '(peer_id, sender) ← hash_iter senders;
  if bool_decide (except_peer = Some peer_id) then [] else [SendTo peer_id sender message].

(* eth2077-p2p/src/node.rs:195-204 P2pNode::broadcast_block *)
Definition P2pNode_broadcast_block (n : P2pNode) (block : Block) : option (P2pNode * list Output) :=
  '(gossip, message) ← GossipEngine_on_new_block (nd_gossip_engine n) block;
  Some (with_gossip gossip n,
    match message with Some m => broadcast_wire (nd_peer_senders n) m None | None => [] end).
(* eth2077-p2p/src/node.rs:206-215 P2pNode::broadcast_tx *)
Definition P2pNode_broadcast_tx (n : P2pNode) (tx : Transaction) : option (P2pNode * list Output) :=
  '(gossip, message) ← GossipEngine_on_new_tx (nd_gossip_engine n) tx;
  Some (with_gossip gossip n,
    match message with Some m => broadcast_wire (nd_peer_senders n) m None | None => [] end).
(* eth2077-p2p/src/node.rs:217-237 P2pNode::broadcast_consensus_msg *)
Definition P2pNode_broadcast_consensus_msg (n : P2pNode) (msg : ConsensusMessage)
  : option (P2pNode * list Output) :=
  match to_vec msg with
  | Err _ => Some (n, [])
  | Ok msg_data =>
      '(cache, should_relay) ← ConsensusRelayCache_should_relay (nd_consensus_cache n) msg_data;
      Some (with_cache cache n,
        if should_relay : bool then broadcast_wire (nd_peer_senders n) (ConsensusMsg msg_data) None else [])
  end.
(* eth2077-p2p/src/node.rs:239-241 P2pNode::connected_peer_count *)
Definition P2pNode_connected_peer_count (n : P2pNode) : Z :=
  len (PeerManager_connected_peers (nd_peer_manager n)).

(** ** The dispatch loop *)

(** The start of a synchronisation when a peer announces a height. *)
(* eth2077-p2p/src/node.rs:457-475 P2pNode::spawn_dispatch_loop *)
Definition request_sync (sync : SyncEngine) (best_height : Z) : SyncEngine * option WireMessage :=
  if SyncEngine_needs_sync sync best_height then
    let sync :=
      match sy_state sync with
      | Idle | Synced => SyncEngine_start_sync sync best_height
      | Syncing target_height _ =>
          if target_height <? best_height then SyncEngine_start_sync sync best_height else sync
      end in
    (sync, SyncEngine_next_request sync)
  else (sync, None).

(* eth2077-p2p/src/node.rs:433-480 P2pNode::spawn_dispatch_loop *)
Definition on_peer_connected (now : Z) (n : P2pNode) (peer_id : Z) (addr : SocketAddr)
    (best_height : Z) (best_hash : B256) (sender : Chan) : P2pNode * list Output :=
  let info := {| pi_peer_id := peer_id; pi_addr := addr; pi_state := Connected;
                 pi_best_height := best_height; pi_best_hash := best_hash;
                 pi_connected_at := now; pi_last_seen := now |} in
  let '(manager, accepted) := PeerManager_add_peer (nd_peer_manager n) info in
  let n := with_peers (λ _, manager) n in
  if negb accepted then (n, []) else
  let n := with_senders <[peer_id := sender]> n in
  let '(sync, sync_request) := request_sync (nd_sync_engine n) best_height in
  (with_sync sync n,
   [Emit (PeerConnected peer_id)] ++
   match sync_request with Some request => [SendTo peer_id sender request] | None => [] end).

(* eth2077-p2p/src/node.rs:481-485 P2pNode::spawn_dispatch_loop *)
Definition on_peer_disconnected (n : P2pNode) (peer_id : Z) : P2pNode * list Output :=
  (with_senders (delete peer_id) (with_peers (λ pm, (PeerManager_remove_peer pm peer_id).1) n),
   [Emit (PeerDisconnected peer_id)]).

(* eth2077-p2p/src/node.rs:493-526 P2pNode::spawn_dispatch_loop *)
Definition on_new_block_message (now : Z) (n : P2pNode) (from_peer : Z) (block_data : Bytes)
  : option (P2pNode * list Output) :=
  match from_slice (A := Block) block_data with
  | Err _ => Some (n, [])
  | Ok block =>
      let n := with_peers (λ pm, PeerManager_update_best_height now pm from_peer
                                   (Block_number block) (Block_hash block)) n in
      '(gossip, relay) ← GossipEngine_on_new_block (nd_gossip_engine n) block;
      Some (with_gossip gossip n,
        match relay with
        | Some relay_msg => broadcast_wire (nd_peer_senders n) relay_msg (Some from_peer)
        | None => []
        end ++ [Emit (BlockReceived from_peer block)])
  end.

(* eth2077-p2p/src/node.rs:527-554 P2pNode::spawn_dispatch_loop *)
Definition on_new_transaction_message (n : P2pNode) (from_peer : Z) (tx_data : Bytes)
  : option (P2pNode * list Output) :=
  match from_slice (A := Transaction) tx_data with
  | Err _ => Some (n, [])
  | Ok tx =>
      '(gossip, relay) ← GossipEngine_on_new_tx (nd_gossip_engine n) tx;
      Some (with_gossip gossip n,
        match relay with
        | Some relay_msg => broadcast_wire (nd_peer_senders n) relay_msg (Some from_peer)
        | None => []
        end ++ [Emit (TransactionReceived from_peer tx)])
  end.

(* eth2077-p2p/src/node.rs:555-585 P2pNode::spawn_dispatch_loop *)
Definition on_consensus_message (n : P2pNode) (from_peer : Z) (msg_data : Bytes)
  : option (P2pNode * list Output) :=
  '(cache, should_relay) ← ConsensusRelayCache_should_relay (nd_consensus_cache n) msg_data;
  Some (with_cache cache n,
    (if should_relay : bool
     then broadcast_wire (nd_peer_senders n) (ConsensusMsg msg_data) (Some from_peer) else []) ++
    match from_slice (A := ConsensusMessage) msg_data with
    | Ok msg => [Emit (ConsensusMessageReceived from_peer msg)]
    | Err _ => []
    end).

(* eth2077-p2p/src/node.rs:597-622 P2pNode::spawn_dispatch_loop *)
Definition on_blocks_message (n : P2pNode) (blocks : list Bytes) : P2pNode * list Output :=
  let decoded_blocks :=
    encoded ← blocks; match from_slice (A := Block) encoded with Ok block => [block] | Err _ => [] end in
  let was_synced := bool_decide (sy_state (nd_sync_engine n) = Synced) in
  let sync := SyncEngine_on_blocks_received (nd_sync_engine n) decoded_blocks in
  (with_sync sync n,
   if negb was_synced && bool_decide (sy_state sync = Synced)
   then [Emit (SyncComplete (sy_local_height sync))] else []).

(* eth2077-p2p/src/node.rs:486-633 P2pNode::spawn_dispatch_loop *)
Definition on_message (now : Z) (n : P2pNode) (from_peer : Z) (message : WireMessage)
  : option (P2pNode * list Output) :=
  let n := with_peers (λ pm, PeerManager_touch_peer now pm from_peer) n in
  match message with
  | Hello _ _ _ _ => Some (n, [])
  | NewBlock _ block_data => on_new_block_message now n from_peer block_data
  | NewTransaction tx_data => on_new_transaction_message n from_peer tx_data
  | ConsensusMsg msg_data => on_consensus_message n from_peer msg_data
  | GetBlocks _ _ => Some (n, send_to_peer (nd_peer_senders n) from_peer (Blocks []))
  | Blocks blocks => Some (on_blocks_message n blocks)
  | Ping nonce => Some (n, send_to_peer (nd_peer_senders n) from_peer (Pong nonce))
  | Pong _ => Some (n, [])
  end.

(** One iteration of the dispatch loop; [None] only if it never ended. *)
(* eth2077-p2p/src/node.rs:430-636 P2pNode::spawn_dispatch_loop *)
Definition dispatch (now : Z) (n : P2pNode) (inbound : NodeInbound) : option (P2pNode * list Output) :=
  match inbound with
  | NodePeerConnected peer_id addr best_height best_hash sender =>
      Some (on_peer_connected now n peer_id addr best_height best_hash sender)
  | NodePeerDisconnected peer_id => Some (on_peer_disconnected n peer_id)
  | NodeMessage from_peer message => on_message now n from_peer message
  end.

(** What changes a node: an inbound event taken by the dispatch task at some time, or
    one of the broadcasts the application calls, in any interleaving. *)
Inductive NodeOp :=
| OpDispatch (now : Z) (inbound : NodeInbound)
| OpBroadcastBlock (block : Block)
| OpBroadcastTx (tx : Transaction)
| OpBroadcastConsensus (msg : ConsensusMessage).
Definition node_step (n : P2pNode) (op : NodeOp) : option (P2pNode * list Output) :=
  match op with
  | OpDispatch now inbound => dispatch now n inbound
  | OpBroadcastBlock block => P2pNode_broadcast_block n block
  | OpBroadcastTx tx => P2pNode_broadcast_tx n tx
  | OpBroadcastConsensus msg => P2pNode_broadcast_consensus_msg n msg
  end.
Fixpoint node_run (n : P2pNode) (ops : list NodeOp) : option (P2pNode * list Output) :=
  match ops with
  | [] => Some (n, [])
  | op :: ops =>
      '(n, out) ← node_step n op;
      '(n, outs) ← node_run n ops;
      Some (n, out ++ outs)
  end.
End node.

(** ** A connection task *)

(** What wakes a connection task: a message on its channel and whether it could be
    sent, the channel's end, or what the socket gave. *)
Inductive ConnInput :=
| Outbound (message : option WireMessage) (sent : bool)
| Inbound (received : result (option WireMessage) string).

(** The task's state while it runs: [remote_peer_id]. *)
(* eth2077-p2p/src/node.rs:341-409 P2pNode::spawn_connection_task *)
Definition connection_step (chain_id : Z) (peer_addr : SocketAddr) (sender : Chan)
    (remote_peer_id : option Z) (input : ConnInput) : option (option Z) * list NodeInbound :=
  match input with
  | Outbound (Some _) true => (Some remote_peer_id, [])
  | Outbound (Some _) false | Outbound None _ => (None, [])
  | Inbound (Ok (Some (Hello peer_id remote_chain_id best_height best_hash))) =>
      if negb (remote_chain_id =? chain_id) then (None, []) else
      match remote_peer_id with
      | None => (Some (Some peer_id),
                 [NodePeerConnected peer_id peer_addr best_height best_hash sender])
      | Some _ => (Some remote_peer_id, [])
      end
  | Inbound (Ok (Some other)) =>
      match remote_peer_id with
      | Some peer_id => (Some remote_peer_id, [NodeMessage peer_id other])
      | None => (Some remote_peer_id, [])
      end
  | Inbound (Ok None) | Inbound (Err _) => (None, [])
  end.

(** The task after its own hello went out: what it tells the dispatcher while the
    inputs last, and after the loop breaks. *)
(* eth2077-p2p/src/node.rs:338-416 P2pNode::spawn_connection_task *)
Fixpoint connection_task (chain_id : Z) (peer_addr : SocketAddr) (sender : Chan)
    (remote_peer_id : option Z) (inputs : list ConnInput) : list NodeInbound :=
  match inputs with
  | [] => []
  | input :: inputs =>
      match connection_step chain_id peer_addr sender remote_peer_id input with
      | (Some remote_peer_id, out) =>
          out ++ connection_task chain_id peer_addr sender remote_peer_id inputs
      | (None, out) =>
          out ++ match remote_peer_id with Some peer_id => [NodePeerDisconnected peer_id] | None => [] end
      end
  end.

(** ** The node's invariant *)

(** The channels are those of the peers of the table, and the parts are well formed. *)
Record node_inv (n : P2pNode) : Prop := {
  ni_peers : peers_inv (nd_peer_manager n);
  ni_connected id peer : pm_peers (nd_peer_manager n) !! id = Some peer → pi_state peer = Connected;
  ni_senders : dom (nd_peer_senders n) = dom (pm_peers (nd_peer_manager n));
  ni_gossip : gossip_inv (nd_gossip_engine n);
  ni_sync : sync_inv (nd_sync_engine n);
  ni_cache : relay_cache_inv (nd_consensus_cache n);
}.
(** Heights are [u64]s. *)
Definition op_typed (op : NodeOp) : Prop :=
  match op with
  | OpDispatch _ (NodePeerConnected _ _ best_height _ _) => best_height <= u64_max
  | _ => True
  end.

Lemma node_new_inv config : 0 <= cfg_max_peers config → node_inv (P2pNode_new config).
Proof.
  intros. split; simpl; try done.
  - by apply gossip_new_inv.
  - split; [done|by apply seen_new_inv].
Qed.

(** Updating one peer's data keeps the table's domain and states. *)
Lemma update_peer_facts pm pm' :
  (pm' = pm ∨ ∃ id p p', pm_peers pm !! id = Some p ∧ pi_state p' = pi_state p ∧
     pm' = MkPeers (<[id := p']> (pm_peers pm)) (pm_max_peers pm)) →
  (∀ i p, pm_peers pm !! i = Some p → pi_state p = Connected) →
  dom (pm_peers pm') = dom (pm_peers pm) ∧
  ∀ i p, pm_peers pm' !! i = Some p → pi_state p = Connected.
Proof.
  intros [->|(id & p0 & p1 & Hp & Hst & ->)] Hc; [done|]. simpl. split.
  - apply dom_insert_lookup_L. by rewrite Hp.
  - intros i p [[<- <-]|[_ Hi]]%lookup_insert_Some; [rewrite Hst; by apply (Hc id)|by apply (Hc i)].
Qed.

Section node_facts.
Context `{HO : HashOrder} `{AL : Alloy} `{SH : Sha256}
  `{SB : !Serde Block} `{ST : !Serde Transaction} `{SC : !Serde ConsensusMessage}.

Lemma with_gossip_inv g n : gossip_inv g → node_inv n → node_inv (with_gossip g n).
Proof. intros ? []. by split. Qed.
Lemma with_sync_inv s n : sync_inv s → node_inv n → node_inv (with_sync s n).
Proof. intros ? []. by split. Qed.
Lemma with_cache_inv c n : relay_cache_inv c → node_inv n → node_inv (with_cache c n).
Proof. intros ? []. by split. Qed.
Lemma touch_inv now id n :
  node_inv n → node_inv (with_peers (λ pm, PeerManager_touch_peer now pm id) n).
Proof.
  intros [Hp Hc Hs ???]. destruct (update_peer_facts (nd_peer_manager n)
    (PeerManager_touch_peer now (nd_peer_manager n) id)) as [Hd Hc']; [|done|].
  { unfold PeerManager_touch_peer. destruct (pm_peers (nd_peer_manager n) !! id) eqn:Hid;
      [right; eexists _, _, _; split; [exact Hid|]; split; cycle 1; [reflexivity|done]|by left]. }
  split; simpl; try done; [by apply touch_peer_inv|by rewrite Hd].
Qed.
Lemma best_height_inv now id height hash n :
  node_inv n →
  node_inv (with_peers (λ pm, PeerManager_update_best_height now pm id height hash) n).
Proof.
  intros [Hp Hc Hs ???]. destruct (update_peer_facts (nd_peer_manager n)
    (PeerManager_update_best_height now (nd_peer_manager n) id height hash)) as [Hd Hc']; [|done|].
  { unfold PeerManager_update_best_height. destruct (pm_peers (nd_peer_manager n) !! id) eqn:Hid;
      [right; eexists _, _, _; split; [exact Hid|]; split; cycle 1; [reflexivity|done]|by left]. }
  split; simpl; try done; [by apply update_best_height_inv|by rewrite Hd].
Qed.

Lemma request_sync_inv s best :
  sync_inv s → best <= u64_max → sync_inv (request_sync s best).1.
Proof.
  intros Hs Hb. unfold request_sync. destruct (SyncEngine_needs_sync s best); [|done]. simpl.
  pose proof (start_sync_inv s best Hs Hb). by repeat case_match.
Qed.

Lemma on_peer_connected_inv now n id addr height hash sender :
  node_inv n → height <= u64_max → node_inv (on_peer_connected now n id addr height hash sender).1.
Proof.
  intros [Hp Hc Hd Hg Hs Hr] Hh. unfold on_peer_connected.
  set (info := {| pi_peer_id := id |}) at 1.
  pose proof (add_peer_inv _ info Hp) as Hp'. unfold PeerManager_add_peer in *.
  assert (Hc' : ∀ i p, <[id := info]> (pm_peers (nd_peer_manager n)) !! i = Some p → pi_state p = Connected).
  { intros i p [[<- <-]|[_ ?]]%lookup_insert_Some; [done|by eapply Hc]. }
  pose proof (request_sync_inv (nd_sync_engine n) height Hs Hh) as Hs'. simpl in *.
  destruct (request_sync (nd_sync_engine n) height) as [s req] eqn:Hreq. simpl in *.
  destruct (pm_peers (nd_peer_manager n) !! id) eqn:Hid; [|destruct (_ <=? _) eqn:Hfull]; simpl in *;
    rewrite ?Hreq; simpl; split; simpl; try done; by rewrite !dom_insert_L, Hd.
Qed.
Lemma on_peer_disconnected_inv n id : node_inv n → node_inv (on_peer_disconnected n id).1.
Proof.
  intros [Hp Hc Hd Hg Hs Hr]. split; simpl; try done.
  - by apply (remove_peer_inv _ id).
  - intros i p [_ ?]%lookup_delete_Some. by eapply Hc.
  - by rewrite !dom_delete_L, Hd.
Qed.

Lemma node_step_inv n op :
  node_inv n → op_typed op → ∃ n' out, node_step n op = Some (n', out) ∧ node_inv n'.
Proof.
  intros Hn Ht. destruct op as [now [id addr height hash sender|id|from msg]|block|tx|msg]; simpl.
  - pose proof (on_peer_connected_inv now n id addr height hash sender Hn Ht).
    destruct (on_peer_connected _ _ _ _ _ _ _). by eexists _, _.
  - pose proof (on_peer_disconnected_inv n id Hn). destruct (on_peer_disconnected _ _). by eexists _, _.
  - pose proof (touch_inv now from n Hn) as Hn'. unfold on_message.
    set (m := with_peers (λ pm, PeerManager_touch_peer now pm from) n) in *.
    destruct msg as [|h d|d|d| |bs| |]; try (by eexists _, _).
    + unfold on_new_block_message. destruct (from_slice (A := Block) d) as [block|e]; [|by eexists _, _].
      pose proof (best_height_inv now from (Block_number block) (Block_hash block) m Hn') as Hm.
      destruct (on_new_block_spec (nd_gossip_engine m) block (ni_gossip _ Hn')) as (g & Hg & Hgi & _).
      simpl in *. rewrite Hg. simpl. eexists _, _. split; [done|]. by apply with_gossip_inv.
    + unfold on_new_transaction_message. destruct (from_slice (A := Transaction) d) as [tx|e]; [|by eexists _, _].
      destruct (on_new_tx_spec (nd_gossip_engine m) tx (ni_gossip _ Hn')) as (g & -> & Hgi & _).
      simpl. eexists _, _. split; [done|]. by apply with_gossip_inv.
    + unfold on_consensus_message.
      destruct (relay_cache_spec (nd_consensus_cache m) d (ni_cache _ Hn')) as (c & -> & Hci & _).
      simpl. eexists _, _. split; [done|]. by apply with_cache_inv.
    + eexists _, _. split; [done|]. simpl. apply with_sync_inv; [|done]. apply on_blocks_inv, Hn'.
  - unfold P2pNode_broadcast_block.
    destruct (on_new_block_spec (nd_gossip_engine n) block (ni_gossip _ Hn)) as (g & -> & Hgi & _).
    simpl. eexists _, _. split; [done|]. by apply with_gossip_inv.
  - unfold P2pNode_broadcast_tx.
    destruct (on_new_tx_spec (nd_gossip_engine n) tx (ni_gossip _ Hn)) as (g & -> & Hgi & _).
    simpl. eexists _, _. split; [done|]. by apply with_gossip_inv.
  - unfold P2pNode_broadcast_consensus_msg. destruct (to_vec msg) as [d|e]; [|by eexists _, _].
    destruct (relay_cache_spec (nd_consensus_cache n) d (ni_cache _ Hn)) as (c & -> & Hci & _).
    simpl. eexists _, _. split; [done|]. by apply with_cache_inv.
Qed.

(** C32: From a new node, every interleaving of inbound events and broadcasts is
    processed (no handler spins), and afterwards the channels are exactly those of the
    peers of the table, all of them connected and at most [max_peers], the relay
    caches are bounded windows, and a running synchronisation is short of its target. *)
Theorem node_runs (config : P2pConfig) (ops : list NodeOp) :
  0 <= cfg_max_peers config → Forall op_typed ops →
  ∃ n out, node_run (P2pNode_new config) ops = Some (n, out) ∧ node_inv n ∧
    P2pNode_connected_peer_count n = Z.of_nat (size (nd_peer_senders n)) ∧
    P2pNode_connected_peer_count n <= pm_max_peers (nd_peer_manager n).
Proof.
  intros Hmax Htyped. assert (Hgen : ∀ n, node_inv n → ∃ n' out, node_run n ops = Some (n', out) ∧ node_inv n').
  { induction Htyped as [|op ops Hop Htyped IH]; intros n Hn; simpl; [by eexists _, _|].
    destruct (node_step_inv n op Hn Hop) as (n1 & out & -> & Hn1). simpl.
    destruct (IH n1 Hn1) as (n2 & outs & -> & Hn2). simpl. by eexists _, _. }
  destruct (Hgen _ (node_new_inv config Hmax)) as (n & out & Hrun & Hn). exists n, out.
  split; [done|]. split; [done|].
  assert (Hcount : P2pNode_connected_peer_count n = Z.of_nat (size (pm_peers (nd_peer_manager n)))).
  { unfold P2pNode_connected_peer_count, PeerManager_connected_peers, len.
    rewrite filter_all_Forall; [unfold hash_values; by rewrite length_fmap, length_hash_iter|].
    apply Forall_forall. intros p [id Hid]%elem_of_hash_values. by apply (ni_connected _ Hn id). }
  rewrite Hcount. split; [|apply (ni_peers _ Hn)].
  rewrite <- !(size_dom (D := gset Z)). by rewrite (ni_senders _ Hn).
Qed.
End node_facts.

(** ** Forwarding is exact *)

Section forwarding.
Context `{HO : HashOrder} `{AL : Alloy} `{SH : Sha256}
  `{SB : !Serde Block} `{ST : !Serde Transaction} `{SC : !Serde ConsensusMessage}.

(** The message a node passes on when it receives one: a payload it can read and has
    not passed on lately, in its own encoding; consensus payloads as they are. *)
Definition relay_of (n : P2pNode) (message : WireMessage) : option WireMessage :=
  match message with
  | NewBlock _ block_data =>
      match from_slice (A := Block) block_data with
      | Ok block =>
          if bool_decide (Block_hash block ∉ sc_order (ge_blocks (nd_gossip_engine n))) then
            match to_vec block with Ok data => Some (NewBlock (Block_number block) data) | Err _ => None end
          else None
      | Err _ => None
      end
  | NewTransaction tx_data =>
      match from_slice (A := Transaction) tx_data with
      | Ok tx =>
          if bool_decide (tx_hash tx ∉ sc_order (ge_txs (nd_gossip_engine n))) then
            match to_vec tx with Ok data => Some (NewTransaction data) | Err _ => None end
          else None
      | Err _ => None
      end
  | ConsensusMsg msg_data =>
      if bool_decide (sha256 msg_data ∉ sc_order (rc_cache (nd_consensus_cache n)))
      then Some (ConsensusMsg msg_data) else None
  | _ => None
  end.
(** The message a node sends back. *)
Definition answer_of (message : WireMessage) : option WireMessage :=
  match message with
  | GetBlocks _ _ => Some (Blocks [])
  | Ping nonce => Some (Pong nonce)
  | _ => None
  end.
(** What the application is told. *)
Definition events_of (n : P2pNode) (from_peer : Z) (message : WireMessage) : list P2pEvent :=
  match message with
  | NewBlock _ d => match from_slice (A := Block) d with Ok b => [BlockReceived from_peer b] | Err _ => [] end
  | NewTransaction d =>
      match from_slice (A := Transaction) d with Ok tx => [TransactionReceived from_peer tx] | Err _ => [] end
  | ConsensusMsg d =>
      match from_slice (A := ConsensusMessage) d with
      | Ok m => [ConsensusMessageReceived from_peer m] | Err _ => [] end
  | Blocks bs =>
      let sync := nd_sync_engine (on_blocks_message n bs).1 in
      if bool_decide (sy_state (nd_sync_engine n) ≠ Synced) && bool_decide (sy_state sync = Synced)
      then [SyncComplete (sy_local_height sync)] else []
  | _ => []
  end.
Definition emitted (out : list Output) : list P2pEvent :=
  o ← out; match o with Emit e => [e] | SendTo _ _ _ => [] end.

Lemma elem_of_broadcast_wire senders m except q c m' :
  SendTo q c m' ∈ broadcast_wire senders m except ↔
  senders !! q = Some c ∧ except ≠ Some q ∧ m' = m.
Proof.
  unfold broadcast_wire. rewrite list_elem_of_bind. split.
  - intros ([q' c'] & Hin & Hq%elem_of_hash_iter). case_bool_decide; [by apply elem_of_nil in Hin|].
    apply list_elem_of_singleton in Hin. by simplify_eq.
  - intros (Hq & He & ->). exists (q, c). rewrite bool_decide_false by done.
    split; [by left|by apply elem_of_hash_iter].
Qed.
Lemma emitted_app o1 o2 : emitted (o1 ++ o2) = emitted o1 ++ emitted o2.
Proof. apply bind_app. Qed.
Lemma emitted_broadcast_wire senders m except : emitted (broadcast_wire senders m except) = [].
Proof.
  unfold broadcast_wire. induction (hash_iter senders) as [|[q c] l IH]; [done|]. csimpl.
  rewrite emitted_app, IH. by case_bool_decide.
Qed.
Lemma elem_of_relay senders relay from q c m :
  SendTo q c m ∈ match relay with Some r => broadcast_wire senders r (Some from) | None => [] end ↔
  senders !! q = Some c ∧ q ≠ from ∧ relay = Some m.
Proof.
  destruct relay as [r|]; [rewrite elem_of_broadcast_wire; naive_solver|].
  split; [by intros ?%elem_of_nil|naive_solver].
Qed.
Lemma emitted_relay senders relay from :
  emitted match relay with Some r => broadcast_wire senders r (Some from) | None => [] end = [].
Proof. destruct relay; [apply emitted_broadcast_wire|done]. Qed.
Lemma elem_of_send_to_peer senders p m q c m' :
  SendTo q c m' ∈ send_to_peer senders p m ↔ senders !! q = Some c ∧ q = p ∧ m' = m.
Proof.
  unfold send_to_peer. destruct (senders !! p) eqn:Hp; [rewrite list_elem_of_singleton; naive_solver|].
  split; [by intros ?%elem_of_nil|naive_solver].
Qed.
Lemma not_send_emit q c m (es : list P2pEvent) : SendTo q c m ∉ Emit <$> es.
Proof. intros (e & [=] & _)%list_elem_of_fmap. Qed.
Lemma emitted_emit es : emitted (Emit <$> es) = es.
Proof. induction es as [|e es IH]; [done|]. csimpl. unfold emitted in *. by rewrite IH. Qed.

(** A handler that relays and then emits. *)
Definition relay_then_emit (n : P2pNode) (from : Z) (message : WireMessage) (out : list Output) : Prop :=
  out = match relay_of n message with
        | Some r => broadcast_wire (nd_peer_senders n) r (Some from) | None => [] end ++
        match answer_of message with
        | Some r => send_to_peer (nd_peer_senders n) from r | None => [] end ++
        (Emit <$> events_of n from message).

Lemma on_message_out now n from message :
  node_inv n → ∃ n' out, on_message now n from message = Some (n', out) ∧
    relay_then_emit n from message out ∧
    (0 < seen_cache_size (ge_config (nd_gossip_engine n)) → 0 < rc_max_size (nd_consensus_cache n) →
     relay_of n' message = None).
Proof.
  intros Hn. unfold on_message, relay_then_emit.
  destruct message as [| h d|d|d| |bs| |]; try (eexists _, _; split; [done|]; simpl; by rewrite ?app_nil_r).
  - simpl. unfold on_new_block_message. destruct (from_slice (A := Block) d) as [block|e] eqn:Hd;
      [|by eexists _, _]. simpl.
    destruct (on_new_block_spec (nd_gossip_engine n) block (ni_gossip _ Hn)) as (g & Hg & _ & _ & _ & Ho).
    rewrite Hg. simpl. eexists _, _. split; [done|]. split; [done|]. intros Hs _.
    simpl. rewrite Ho, bool_decide_false; [done|]. intros Hno. by apply Hno, elem_of_window_after.
  - simpl. unfold on_new_transaction_message. destruct (from_slice (A := Transaction) d) as [tx|e] eqn:Hd;
      [|by eexists _, _]. simpl.
    destruct (on_new_tx_spec (nd_gossip_engine n) tx (ni_gossip _ Hn)) as (g & Hg & _ & _ & _ & Ho).
    rewrite Hg. simpl. eexists _, _. split; [done|]. split; [done|]. intros Hs _.
    simpl. rewrite Ho, bool_decide_false; [done|]. intros Hno. by apply Hno, elem_of_window_after.
  - simpl. unfold on_consensus_message. simpl.
    destruct (relay_cache_spec (nd_consensus_cache n) d (ni_cache _ Hn)) as (c & -> & _ & _ & Ho).
    simpl. eexists _, _. split; [done|]. split.
    + case_bool_decide; [f_equal|]; by destruct (from_slice (A := ConsensusMessage) d).
    + intros _ Hs. simpl. rewrite Ho, bool_decide_false; [done|]. intros Hno.
      by apply Hno, elem_of_window_after.
  - eexists _, _. split; [done|]. simpl. split; [|done].
    rewrite bool_decide_not. by destruct (_ && _).
Qed.

(** C31: Forwarding is exact.  When a message of peer [p] is dispatched, it is passed on
    to every other connected peer (in the node's own encoding) if it is a readable
    block or transaction, or any consensus payload, that is not in its relay window,
    and to nobody otherwise, never back to [p]; [p] itself gets the answer of a request
    and nothing else; the application is told of every readable payload, relayed or
    not; and a second copy is not passed on. *)
Theorem forwarding_exact (now : Z) (n : P2pNode) (p : Z) (message : WireMessage) :
  node_inv n → ∃ n' out, dispatch now n (NodeMessage p message) = Some (n', out) ∧
    (∀ q c m, SendTo q c m ∈ out ↔ nd_peer_senders n !! q = Some c ∧
       ((q ≠ p ∧ relay_of n message = Some m) ∨ (q = p ∧ answer_of message = Some m))) ∧
    emitted out = events_of n p message ∧
    (0 < seen_cache_size (ge_config (nd_gossip_engine n)) → 0 < rc_max_size (nd_consensus_cache n) →
     relay_of n' message = None).
Proof.
  intros Hn. destruct (on_message_out now n p message Hn) as (n' & out & Hm & -> & Hagain).
  exists n'. eexists. split; [exact Hm|]. split; [|split; [|done]].
  - intros q c m. rewrite !elem_of_app, elem_of_relay.
    pose proof (not_send_emit q c m (events_of n p message)).
    destruct (answer_of message) as [r|]; [rewrite elem_of_send_to_peer|rewrite elem_of_nil]; naive_solver.
  - rewrite !emitted_app, emitted_relay, emitted_emit. simpl.
    destruct (answer_of message) as [r|]; [|done].
    unfold send_to_peer. by destruct (nd_peer_senders n !! p).
Qed.
End forwarding.

(** ** Synchronisation over this network *)

Section sync_over_network.
Context `{HO : HashOrder} `{AL : Alloy} `{SH : Sha256}
  `{SB : !Serde Block} `{ST : !Serde Transaction} `{SC : !Serde ConsensusMessage}.

(** The only batches a node receives are empty. *)
Definition only_empty_batches (op : NodeOp) : Prop :=
  match op with OpDispatch _ (NodeMessage _ (Blocks blocks)) => blocks = [] | _ => True end.
Lemma broadcast_no_emit senders m except e : Emit e ∉ broadcast_wire senders m except.
Proof.
  intros ([q c] & Hin & _)%list_elem_of_bind. case_bool_decide; [by apply elem_of_nil in Hin|].
  by apply list_elem_of_singleton in Hin.
Qed.
Lemma on_new_block_message_kind g block g' m :
  GossipEngine_on_new_block g block = Some (g', Some m) → ∃ h d, m = NewBlock h d.
Proof.
  unfold GossipEngine_on_new_block. destruct (GossipEngine_should_relay_block _ _) as [[? []]|]; simpl; [|done..].
  destruct (to_vec block); [|done]. intros [= _ <-]. eauto.
Qed.
Lemma on_new_tx_message_kind g tx g' m :
  GossipEngine_on_new_tx g tx = Some (g', Some m) → ∃ d, m = NewTransaction d.
Proof.
  unfold GossipEngine_on_new_tx. destruct (GossipEngine_should_relay_tx _ _) as [[? []]|]; simpl; [|done..].
  destruct (to_vec tx); [|done]. intros [= _ <-]. eauto.
Qed.

Lemma next_request_kind s m : SyncEngine_next_request s = Some m → ∃ h k, m = GetBlocks h k.
Proof. unfold SyncEngine_next_request. repeat case_match; try done. intros [= <-]. eauto. Qed.

(** An output is harmless: no batch, no end of synchronisation. *)
Definition harmless (o : Output) : Prop :=
  match o with
  | SendTo _ _ (Blocks blocks) => blocks = []
  | Emit (SyncComplete _) => False
  | _ => True
  end.
Lemma harmless_broadcast senders m except :
  (∀ bs, m ≠ Blocks bs) → Forall harmless (broadcast_wire senders m except).
Proof.
  intros Hm. apply Forall_forall. intros [e|q c m'] Hin; [by apply broadcast_no_emit in Hin|].
  apply elem_of_broadcast_wire in Hin as (_ & _ & ->). by destruct m; try done; edestruct Hm.
Qed.
Lemma harmless_send senders p m : m = Blocks [] ∨ (∀ bs, m ≠ Blocks bs) → Forall harmless (send_to_peer senders p m).
Proof.
  intros Hm. unfold send_to_peer. destruct (senders !! p); constructor; [|constructor].
  destruct Hm as [->|Hm]; [done|]. by destruct m; try done; edestruct Hm.
Qed.

(** Reading an empty batch changes nothing and emits nothing; everything else leaves
    the local height and emits no end of synchronisation. *)
Lemma node_step_stalls n op n' out :
  node_step n op = Some (n', out) →
  (∀ q c blocks, SendTo q c (Blocks blocks) ∈ out → blocks = []) ∧
  (only_empty_batches op →
   sy_local_height (nd_sync_engine n') = sy_local_height (nd_sync_engine n) ∧ Forall harmless out).
Proof.
  intros Hstep.
  assert (Hall : (∃ from bs now, op = OpDispatch now (NodeMessage from (Blocks bs))) ∨
    (sy_local_height (nd_sync_engine n') = sy_local_height (nd_sync_engine n) ∧ Forall harmless out)).
  { destruct op as [now [id addr height hash sender|id|from msg]|block|tx|msg]; simpl in Hstep.
    - right. unfold on_peer_connected in Hstep. simplify_eq/=.
      destruct (PeerManager_add_peer _ _) as [pm []]; simpl in *; [|by simplify_eq/=].
      unfold request_sync in Hstep. destruct (SyncEngine_needs_sync _ _); simplify_eq/=;
        [|split; [done|by repeat constructor]].
      assert (Hl : ∀ s t, sy_local_height (SyncEngine_start_sync s t) = sy_local_height s)
        by (intros s t; unfold SyncEngine_start_sync; by case_if_goal).
      split; [destruct (sy_state (nd_sync_engine n)); rewrite ?Hl; try done; by case_if_goal|].
      constructor; [done|]. destruct (SyncEngine_next_request _) as [m|] eqn:Hm; [|constructor].
      apply next_request_kind in Hm as (? & ? & ->). by repeat constructor.
    - right. unfold on_peer_disconnected in Hstep. simplify_eq/=. split; [done|by repeat constructor].
    - unfold on_message in Hstep. destruct msg as [|h d|d|d| |bs| |]; [right..|left|right|right];
        try (simplify_eq/=; split; [done|constructor]); [..|by eauto|].
      + unfold on_new_block_message in Hstep. destruct (from_slice (A := Block) d) as [block|e];
          [|by simplify_eq/=]. simpl in Hstep.
        destruct (GossipEngine_on_new_block _ _) as [[g relay]|] eqn:Hg; simplify_eq/=.
        split; [done|]. apply Forall_app. split; [|by repeat constructor]. destruct relay as [m|]; [|done].
        apply on_new_block_message_kind in Hg as (? & ? & ->). by apply harmless_broadcast.
      + unfold on_new_transaction_message in Hstep. destruct (from_slice (A := Transaction) d) as [tx|e];
          [|by simplify_eq/=]. simpl in Hstep.
        destruct (GossipEngine_on_new_tx _ _) as [[g relay]|] eqn:Hg; simplify_eq/=.
        split; [done|]. apply Forall_app. split; [|by repeat constructor]. destruct relay as [m|]; [|done].
        apply on_new_tx_message_kind in Hg as (? & ->). by apply harmless_broadcast.
      + unfold on_consensus_message in Hstep.
        destruct (ConsensusRelayCache_should_relay _ _) as [[c b]|]; simplify_eq/=. split; [done|].
        apply Forall_app. split; [destruct b; [by apply harmless_broadcast|done]|].
        destruct (from_slice (A := ConsensusMessage) d); by repeat constructor.
      + simplify_eq/=. split; [done|]. apply harmless_send. by left.
      + simplify_eq/=. split; [done|]. apply harmless_send. by right.
    - right. unfold P2pNode_broadcast_block in Hstep.
      destruct (GossipEngine_on_new_block _ _) as [[g [m|]]|] eqn:Hg; simplify_eq/=; [|done].
      split; [done|]. apply on_new_block_message_kind in Hg as (? & ? & ->). by apply harmless_broadcast.
    - right. unfold P2pNode_broadcast_tx in Hstep.
      destruct (GossipEngine_on_new_tx _ _) as [[g [m|]]|] eqn:Hg; simplify_eq/=; [|done].
      split; [done|]. apply on_new_tx_message_kind in Hg as (? & ->). by apply harmless_broadcast.
    - right. unfold P2pNode_broadcast_consensus_msg in Hstep. destruct (to_vec msg); [|by simplify_eq/=].
      destruct (ConsensusRelayCache_should_relay _ _) as [[c []]|]; simplify_eq/=; (split; [done|]);
        [by apply harmless_broadcast|done]. }
  destruct Hall as [(from & bs & now & ->)|[Hl Hh]].
  - simpl in Hstep. unfold on_message, on_blocks_message in Hstep. simplify_eq/=. split.
    + intros q c blocks Hin. case_match; [by apply list_elem_of_singleton in Hin|by apply elem_of_nil in Hin].
    + intros ->. split; [done|]. simpl. by case_bool_decide.
  - split; [|done]. intros q c blocks Hin. rewrite Forall_forall in Hh. apply (Hh _ Hin).
Qed.

(** Nodes running this code never synchronise from each other.  Whatever happens to
    a node, the only batches of blocks it ever sends are empty; and a node that only
    receives empty batches never changes its local height and never reports the end
    of a synchronisation, whatever else it receives. *)
Theorem sync_never_completes (n n' : P2pNode) (ops : list NodeOp) (out : list Output) :
  node_run n ops = Some (n', out) →
  (∀ q c blocks, SendTo q c (Blocks blocks) ∈ out → blocks = []) ∧
  (Forall only_empty_batches ops →
   sy_local_height (nd_sync_engine n') = sy_local_height (nd_sync_engine n) ∧
   ∀ h, Emit (SyncComplete h) ∉ out).
Proof.
  revert n out. induction ops as [|op ops IH]; intros n out; simpl.
  { intros [= <- <-]. split; [by intros ??? ?%elem_of_nil|]. intros _. split; [done|].
    by intros ? ?%elem_of_nil. }
  destruct (node_step n op) as [[n1 o1]|] eqn:Hstep; simpl; [|done].
  destruct (node_run n1 ops) as [[n2 o2]|] eqn:Hrun; simpl; [|done]. intros [= <- <-].
  apply node_step_stalls in Hstep as [Hb Hs]. destruct (IH n1 o2 Hrun) as [Hb2 Hs2]. split.
  - intros q c blocks [?|?]%elem_of_app; eauto.
  - intros [Hop Hops]%Forall_cons. destruct (Hs Hop) as [<- Hh], (Hs2 Hops) as [-> Hno].
    split; [done|]. intros h [Hin|Hin]%elem_of_app; [|by apply (Hno h)].
    rewrite Forall_forall in Hh. apply (Hh _ Hin).
Qed.
End sync_over_network.

(** ** The handshake *)

(** The messages a connection's socket gave. *)
Definition received_messages (inputs : list ConnInput) : list WireMessage :=
  i ← inputs; match i with Inbound (Ok (Some m)) => [m] | _ => [] end.
Definition is_hello (m : WireMessage) : Prop :=
  match m with Hello _ _ _ _ => True | _ => False end.

Lemma connection_task_after chain_id addr sender p inputs :
  ∃ msgs (ended : bool), connection_task chain_id addr sender (Some p) inputs =
    (NodeMessage p <$> msgs) ++ (if ended then [NodePeerDisconnected p] else []) ∧
    sublist msgs (received_messages inputs) ∧ Forall (λ m, ¬ is_hello m) msgs.
Proof.
  induction inputs as [|input inputs (msgs & ended & Heq & Hsub & Hhello)]; simpl.
  { exists [], false. split_and!; [done|constructor..]. }
  assert (Hstop : ∃ msgs (ended : bool), [NodePeerDisconnected p] =
    (NodeMessage p <$> msgs) ++ (if ended then [NodePeerDisconnected p] else []) ∧
    sublist msgs (received_messages (input :: inputs)) ∧ Forall (λ m, ¬ is_hello m) msgs).
  { exists [], true. split_and!; [done|apply sublist_nil_l|constructor]. }
  assert (Hskip : ∃ msgs (ended : bool), connection_task chain_id addr sender (Some p) inputs =
    (NodeMessage p <$> msgs) ++ (if ended then [NodePeerDisconnected p] else []) ∧
    sublist msgs (received_messages (input :: inputs)) ∧ Forall (λ m, ¬ is_hello m) msgs).
  { exists msgs, ended. split_and!; try done. by apply sublist_inserts_l. }
  destruct input as [[m|] []|[[m|]|e]]; simpl; try done.
  assert (Hmsg : ¬ is_hello m → ∃ msgs (ended : bool),
    NodeMessage p m :: connection_task chain_id addr sender (Some p) inputs =
    (NodeMessage p <$> msgs) ++ (if ended then [NodePeerDisconnected p] else []) ∧
    sublist msgs (received_messages (Inbound (Ok (Some m)) :: inputs)) ∧ Forall (λ m, ¬ is_hello m) msgs).
  { intros Hm. exists (m :: msgs), ended. rewrite Heq. split_and!; [done|by apply sublist_skip|by constructor]. }
  destruct m; try (apply Hmsg; exact id). by destruct (_ =? _).
Qed.

(** Every connection speaks a well-bracketed protocol to the dispatcher: nothing
    before the handshake; then one [PeerConnected], for a received hello of the
    node's own chain; then messages it received, in order, none of them a hello, all
    under the peer id of that hello; and, once the connection ended, one
    [PeerDisconnected] of that id.  A connection that never shows a hello of the chain
    tells nothing. *)
Theorem handshake_protocol (chain_id : Z) (addr : SocketAddr) (sender : Chan) (inputs : list ConnInput) :
  connection_task chain_id addr sender None inputs = [] ∨
  ∃ p height hash msgs (ended : bool),
    connection_task chain_id addr sender None inputs =
      NodePeerConnected p addr height hash sender ::
      (NodeMessage p <$> msgs) ++ (if ended then [NodePeerDisconnected p] else []) ∧
    sublist (Hello p chain_id height hash :: msgs) (received_messages inputs) ∧
    Forall (λ m, ¬ is_hello m) msgs.
Proof.
  induction inputs as [|input inputs IH]; [by left|]. simpl.
  assert (Hskip : connection_task chain_id addr sender None inputs = [] ∨
    ∃ p height hash msgs (ended : bool), connection_task chain_id addr sender None inputs =
      NodePeerConnected p addr height hash sender ::
      (NodeMessage p <$> msgs) ++ (if ended then [NodePeerDisconnected p] else []) ∧
    sublist (Hello p chain_id height hash :: msgs) (received_messages (input :: inputs)) ∧
    Forall (λ m, ¬ is_hello m) msgs).
  { destruct IH as [?|(p & h & hash & msgs & ended & Heq & Hsub & Hh)]; [by left|right].
    exists p, h, hash, msgs, ended. split_and!; try done. by apply sublist_inserts_l. }
  destruct input as [[m|] []|[[m|]|e]]; simpl; try (by left); try done.
  destruct m as [p c h hash| | | | | | |]; simpl; try done.
  destruct (Z.eqb_spec c chain_id) as [->|]; simpl; [|by left]. right.
  destruct (connection_task_after chain_id addr sender p inputs) as (msgs & ended & -> & Hsub & Hh).
  exists p, h, hash, msgs, ended. split_and!; try done. by apply sublist_skip.
Qed.

(** When two connections use one peer id, the end of the first closes the channel of
    the second: its peer is forgotten while it is connected, and no longer answered. *)
Lemma stale_disconnect_drops_live_peer `{HO : HashOrder} `{AL : Alloy} `{SH : Sha256}
    `{SB : !Serde Block} `{ST : !Serde Transaction} `{SC : !Serde ConsensusMessage}
    (n : P2pNode) p addr1 addr2 h1 h2 hash1 hash2 c1 c2 nonce :
  ∃ n' out, node_run n
      [OpDispatch 0 (NodePeerConnected p addr1 h1 hash1 c1);
       OpDispatch 1 (NodePeerConnected p addr2 h2 hash2 c2);
       OpDispatch 2 (NodePeerDisconnected p);
       OpDispatch 3 (NodeMessage p (Ping nonce))] = Some (n', out) ∧
    nd_peer_senders n' !! p = None ∧ pm_peers (nd_peer_manager n') !! p = None ∧
    ∀ c, SendTo p c (Pong nonce) ∉ out.
Proof.
  cbn [node_run node_step dispatch]. unfold on_message.
  destruct (on_peer_connected 0 n p addr1 h1 hash1 c1) as [n1 o1] eqn:H1. simpl.
  destruct (on_peer_connected 1 n1 p addr2 h2 hash2 c2) as [n2 o2] eqn:H2. simpl.
  assert (Hno : ∀ now n a h hash c n' o, on_peer_connected now n p a h hash c = (n', o) →
    ∀ c', SendTo p c' (Pong nonce) ∉ o).
  { intros now m a h hash c n' o. unfold on_peer_connected.
    destruct (PeerManager_add_peer _ _) as [pm []]; simpl; [|intros [= _ <-] ?; apply not_elem_of_nil].
    destruct (request_sync _ _) as [s [r|]] eqn:Hr; intros [= _ <-] c'; [|by set_solver].
    unfold request_sync in Hr. case_if_in Hr; simplify_eq. apply next_request_kind in H0 as (? & ? & ->).
    set_solver. }
  eexists _, _. split; [reflexivity|]. cbn. rewrite lookup_delete_eq. split; [done|].
  unfold PeerManager_touch_peer. simpl. rewrite lookup_delete_eq. split; [simpl; by rewrite lookup_delete_eq|].
  intros c. unfold send_to_peer. rewrite lookup_delete_eq, app_nil_r.
  rewrite !not_elem_of_app. split; [by eapply Hno|]. split; [by eapply Hno|]. set_solver.
Qed.

(** ** A concrete node *)

#[local] Existing Instance map_to_list_order.
(** Blocks are opaque bytes nobody can read; transactions and votes are one byte. *)
#[local] Existing Instance example_alloy.
#[local] Instance example_sha : Sha256 := λ l, l.
#[local] Instance example_block_serde : Serde Block :=
  {| to_vec _ := Err "opaque"%string; from_slice _ := Err "opaque"%string |}.
Definition example_tx (n : Z) : Transaction := {|
  tx_hash := [n]; tx_nonce := n; tx_from := []; tx_to := None; tx_value := 0; tx_gas_limit := 1;
  tx_max_fee_per_gas := 1; tx_max_priority_fee_per_gas := 1; tx_input := []; tx_chain_id := 1;
  tx_signature_r := 0; tx_signature_s := 0; tx_signature_v := 0 |}.
#[local] Instance example_tx_serde : Serde Transaction :=
  {| to_vec tx := Ok [tx_nonce tx];
     from_slice l := match l with [n] => Ok (example_tx n) | _ => Err "not a transaction"%string end |}.
#[local] Instance example_vote_serde : Serde ConsensusMessage :=
  {| to_vec _ := Ok [0]; from_slice _ := Ok (Prevote 1 0 None 0) |}.

Definition example_ops : list NodeOp :=
  [OpDispatch 0 (NodePeerConnected 1 ([127; 0; 0; 1], 1) 9 [] 11);
   OpDispatch 1 (NodePeerConnected 2 ([127; 0; 0; 1], 2) 0 [] 12);
   OpDispatch 2 (NodeMessage 1 (NewTransaction [7]));
   OpDispatch 3 (NodeMessage 2 (NewTransaction [7]));
   OpDispatch 4 (NodeMessage 1 (Blocks []));
   OpDispatch 5 (NodePeerDisconnected 1)].

Lemma node_runs_witness :
  ∃ n out, node_run (P2pNode_new P2pConfig_default) example_ops = Some (n, out) ∧
    P2pNode_connected_peer_count n <= 50.
Proof.
  destruct (node_runs P2pConfig_default example_ops ltac:(discriminate)) as (n & out & Hrun & _ & _ & Hle).
  { repeat constructor; discriminate. }
  exists n, out. split; [exact Hrun|]. vm_compute in Hrun. injection Hrun as <- _. exact Hle.
Defined.

Lemma sync_never_completes_witness :
  match node_run (P2pNode_new P2pConfig_default) example_ops with
  | Some (n, _) => sy_state (nd_sync_engine n) = Syncing 9 0 ∧ sy_local_height (nd_sync_engine n) = 0
  | None => False
  end.
Proof.
  destruct (node_run (P2pNode_new P2pConfig_default) example_ops) as [[n out]|] eqn:Hrun;
    [|vm_compute in Hrun; discriminate].
  split.
  - vm_compute in Hrun. by injection Hrun as <- _.
  - refine (proj1 (proj2 (sync_never_completes _ _ _ _ Hrun) _)). repeat constructor.
Defined.

Lemma forwarding_exact_witness :
  relay_of (P2pNode_new P2pConfig_default) (NewTransaction [7]) = Some (NewTransaction [7]) ∧
  ∃ n' out, dispatch 0 (P2pNode_new P2pConfig_default) (NodeMessage 1 (NewTransaction [7])) = Some (n', out) ∧
    emitted out = [TransactionReceived 1 (example_tx 7)].
Proof.
  split; [reflexivity|].
  destruct (forwarding_exact 0 (P2pNode_new P2pConfig_default) 1 (NewTransaction [7]))
    as (n' & out & Hstep & _ & Hev & _).
  { apply node_new_inv. discriminate. }
  exists n', out. split; [exact Hstep|exact Hev].
Defined.
