(* ===== verification/Payload.v ===== *)
(** * Blocks as engine payloads ([eth2077-bridge/src/payload_converter.rs],
      [engine_api.rs], [forkchoice.rs])

    Hexadecimal encoding and decoding, the conversion of a block to an
    [ExecutionPayloadV3] and back, the engine service and the fork-choice record. *)
From S2P Require Import Prelude Strings.
Local Open Scope Z_scope.

(** ** Hex codecs of the converter *)

(* eth2077-bridge/src/payload_converter.rs:84-96 encode_hex_bytes *)
Definition encode_hex_bytes (bytes : list Z) : Str :=
  str "0x" ++ (byte ← bytes; [hex_digit (Z.shiftr byte 4); hex_digit (Z.land byte 0x0f)]).

(** The prefix is optional, in either case. *)
(* eth2077-bridge/src/payload_converter.rs:99-103 decode_hex_bytes *)
Definition strip_0x (input : Str) : Str :=
  let raw := trim input in
  match strip_prefix (str "0x") raw with
  | Some s => s
  | None => default raw (strip_prefix (str "0X") raw)
  end.

(* eth2077-bridge/src/payload_converter.rs:123-130 decode_hex_nibble *)
Definition decode_hex_nibble (byte : Z) : option Z :=
  if (48 <=? byte) && (byte <=? 57) then Some (byte - 48) else
  if (97 <=? byte) && (byte <=? 102) then Some (byte - 97 + 10) else
  if (65 <=? byte) && (byte <=? 70) then Some (byte - 65 + 10) else None.

(* eth2077-bridge/src/payload_converter.rs:113-120 decode_hex_bytes *)
Fixpoint decode_pairs (raw : Str) : option (list Z) :=
  match raw with
  | a :: b :: raw =>
      hi ← decode_hex_nibble a;
      lo ← decode_hex_nibble b;
      out ← decode_pairs raw;
      Some (Z.lor (Z.shiftl hi 4) lo :: out)
  | _ => Some []
  end.
(* eth2077-bridge/src/payload_converter.rs:98-121 decode_hex_bytes *)
Definition decode_hex_bytes (input : Str) : option (list Z) :=
  let raw := strip_0x input in
  if bool_decide (raw = []) then Some [] else
  if negb (len raw mod 2 =? 0) then None else decode_pairs raw.

(** Too many bytes: the last [n]; too few: zeros in front. *)
(* eth2077-bridge/src/payload_converter.rs:132-143 decode_fixed_hex_bytes *)
Definition decode_fixed_hex_bytes (n : nat) (input : Str) : list Z :=
  let decoded := default [] (decode_hex_bytes input) in
  if bool_decide (n <= length decoded)%nat then drop (length decoded - n) decoded
  else zero_bytes (n - length decoded) ++ decoded.

(* eth2077-bridge/src/payload_converter.rs:145-147 encode_hex_quantity_u64 *)
Definition encode_hex_quantity_u64 (value : Z) : Str := str "0x" ++ lower_hex value.
(* eth2077-bridge/src/payload_converter.rs:149-151 encode_hex_quantity_u128 *)
Definition encode_hex_quantity_u128 (value : Z) : Str := str "0x" ++ lower_hex value.
(* eth2077-bridge/src/payload_converter.rs:153-165 decode_hex_quantity_u64 *)
Definition decode_hex_quantity_u64 (value : Str) : Z :=
  let raw := strip_0x value in
  if bool_decide (raw = []) then 0 else default 0 (from_str_radix16 u64_max raw).
(* eth2077-bridge/src/payload_converter.rs:167-179 decode_hex_quantity_u128 *)
Definition decode_hex_quantity_u128 (value : Str) : Z :=
  let raw := strip_0x value in
  if bool_decide (raw = []) then 0 else default 0 (from_str_radix16 u128_max raw).

(** ** Payloads *)

(** [zero_hex] *)
(* eth2077-bridge/src/engine_api.rs:10-12 zero_hex *)
Definition zero_hex (bytes : nat) : Str := str "0x" ++ concat (replicate bytes (str "00")).

(* eth2077-bridge/src/engine_api.rs:84-89 WithdrawalV1 *)
Record WithdrawalV1 := {
  wd_index : Str;
  wd_validator_index : Str;
  wd_address : Str;
  wd_amount : Str;
}.
(* eth2077-bridge/src/engine_api.rs:93-111 ExecutionPayloadV3 *)
Record ExecutionPayloadV3 := {
  ep_parent_hash : Str;
  ep_fee_recipient : Str;
  ep_state_root : Str;
  ep_receipts_root : Str;
  ep_logs_bloom : Str;
  ep_prev_randao : Str;
  ep_block_number : Str;
  ep_gas_limit : Str;
  ep_gas_used : Str;
  ep_timestamp : Str;
  ep_extra_data : Str;
  ep_base_fee_per_gas : Str;
  ep_block_hash : Str;
  ep_transactions : list Str;
  ep_withdrawals : list WithdrawalV1;
  ep_blob_gas_used : Str;
  ep_excess_blob_gas : Str;
}.
(* eth2077-bridge/src/engine_api.rs:114-134 ExecutionPayloadV3::default *)
Definition ExecutionPayloadV3_default : ExecutionPayloadV3 := {|
  ep_parent_hash := zero_hex 32; ep_fee_recipient := zero_hex 20; ep_state_root := zero_hex 32;
  ep_receipts_root := zero_hex 32; ep_logs_bloom := zero_hex 256; ep_prev_randao := zero_hex 32;
  ep_block_number := str "0x0"; ep_gas_limit := str "0x0"; ep_gas_used := str "0x0";
  ep_timestamp := str "0x0"; ep_extra_data := str "0x"; ep_base_fee_per_gas := str "0x0";
  ep_block_hash := zero_hex 32; ep_transactions := []; ep_withdrawals := [];
  ep_blob_gas_used := str "0x0"; ep_excess_blob_gas := str "0x0" |}.

(* eth2077-bridge/src/payload_converter.rs:6-18 Eth2077Block *)
Record Eth2077Block := {
  eb_parent_hash : list Z;
  eb_fee_recipient : list Z;
  eb_state_root : list Z;
  eb_receipts_root : list Z;
  eb_block_number : Z;
  eb_gas_limit : Z;
  eb_gas_used : Z;
  eb_timestamp : Z;
  eb_base_fee_per_gas : Z;
  eb_transactions : list (list Z);
  eb_withdrawals : list WithdrawalV1;
}.

(* eth2077-bridge/src/payload_converter.rs:21-45 Eth2077Block::to_execution_payload *)
Definition Eth2077Block_to_execution_payload (b : Eth2077Block) : ExecutionPayloadV3 := {|
  ep_parent_hash := encode_hex_bytes (eb_parent_hash b);
  ep_fee_recipient := encode_hex_bytes (eb_fee_recipient b);
  ep_state_root := encode_hex_bytes (eb_state_root b);
  ep_receipts_root := encode_hex_bytes (eb_receipts_root b);
  ep_logs_bloom := encode_hex_bytes (zero_bytes 256);
  ep_prev_randao := encode_hex_bytes (zero_bytes 32);
  ep_block_number := encode_hex_quantity_u64 (eb_block_number b);
  ep_gas_limit := encode_hex_quantity_u64 (eb_gas_limit b);
  ep_gas_used := encode_hex_quantity_u64 (eb_gas_used b);
  ep_timestamp := encode_hex_quantity_u64 (eb_timestamp b);
  ep_extra_data := str "0x";
  ep_base_fee_per_gas := encode_hex_quantity_u128 (eb_base_fee_per_gas b);
  ep_block_hash := encode_hex_bytes (zero_bytes 32);
  ep_transactions := encode_hex_bytes <$> eb_transactions b;
  ep_withdrawals := eb_withdrawals b;
  ep_blob_gas_used := str "0x0";
  ep_excess_blob_gas := str "0x0" |}.

(* eth2077-bridge/src/payload_converter.rs:49-81 Eth2077Block::from *)
Definition Eth2077Block_from (value : ExecutionPayloadV3) : Eth2077Block := {|
  eb_parent_hash := decode_fixed_hex_bytes 32 (ep_parent_hash value);
  eb_fee_recipient := decode_fixed_hex_bytes 20 (ep_fee_recipient value);
  eb_state_root := decode_fixed_hex_bytes 32 (ep_state_root value);
  eb_receipts_root := decode_fixed_hex_bytes 32 (ep_receipts_root value);
  eb_block_number := decode_hex_quantity_u64 (ep_block_number value);
  eb_gas_limit := decode_hex_quantity_u64 (ep_gas_limit value);
  eb_gas_used := decode_hex_quantity_u64 (ep_gas_used value);
  eb_timestamp := decode_hex_quantity_u64 (ep_timestamp value);
  eb_base_fee_per_gas := decode_hex_quantity_u128 (ep_base_fee_per_gas value);
  eb_transactions := (λ tx, default [] (decode_hex_bytes tx)) <$> ep_transactions value;
  eb_withdrawals := ep_withdrawals value |}.

(** ** Hex round trips *)

Lemma strip_0x_plain s : Forall plain s → strip_0x (str "0x" ++ s) = s.
Proof.
  intros Hs. unfold strip_0x. rewrite trim_plain; [done|]. apply Forall_app. split; [|done].
  by repeat (apply Forall_cons; split; [done|]).
Qed.

(** The converter's decoder is that of the standard numerals. *)
Lemma decode_pairs_eq raw : decode_pairs raw = hex_pairs raw.
Proof. reflexivity. Qed.
Lemma decode_encode_hex l : Forall is_byte l → decode_hex_bytes (encode_hex_bytes l) = Some l.
Proof.
  intros Hl. unfold decode_hex_bytes. change (encode_hex_bytes l) with (str "0x" ++ hex_of_bytes l).
  rewrite strip_0x_plain by by apply hex_of_bytes_plain.
  pose proof (length_hex_of_bytes l) as Hlen. case_bool_decide as Hnil.
  { rewrite Hnil in Hlen. by destruct l. }
  unfold len. rewrite Hlen, decode_pairs_eq, hex_pairs_of_bytes by done.
  replace (Z.of_nat (2 * length l) mod 2) with 0; [done|]. symmetry.
  rewrite Nat2Z.inj_mul, Z.mul_comm. apply Z.mod_mul. lia.
Qed.
Lemma decode_fixed_encode_hex n l :
  Forall is_byte l → length l = n → decode_fixed_hex_bytes n (encode_hex_bytes l) = l.
Proof.
  intros Hl Hn. unfold decode_fixed_hex_bytes. rewrite decode_encode_hex by done. simpl.
  rewrite bool_decide_true by lia. by rewrite Hn, Nat.sub_diag.
Qed.
(** Whatever the input, a fixed-size array comes out. *)
Lemma length_decode_fixed n s : length (decode_fixed_hex_bytes n s) = n.
Proof.
  unfold decode_fixed_hex_bytes. case_bool_decide; [rewrite length_drop; lia|].
  rewrite length_app. unfold zero_bytes. rewrite length_replicate. lia.
Qed.

Lemma decode_encode_quantity_u64 n : is_u64 n → decode_hex_quantity_u64 (encode_hex_quantity_u64 n) = n.
Proof.
  intros Hn. unfold decode_hex_quantity_u64, encode_hex_quantity_u64.
  destruct (from_str_radix16_lower_hex u64_max n Hn) as (Hr & Hp & Hne); [lia|].
  by rewrite strip_0x_plain, bool_decide_false, Hr by done.
Qed.
Lemma decode_encode_quantity_u128 n :
  0 <= n <= u128_max → decode_hex_quantity_u128 (encode_hex_quantity_u128 n) = n.
Proof.
  intros Hn. unfold decode_hex_quantity_u128, encode_hex_quantity_u128.
  destruct (from_str_radix16_lower_hex u128_max n Hn) as (Hr & Hp & Hne); [lia|].
  by rewrite strip_0x_plain, bool_decide_false, Hr by done.
Qed.

(** ** The conversion *)

(** The sizes and ranges of the block's Rust types. *)
Record wf_block (b : Eth2077Block) : Prop := {
  wb_parent : length (eb_parent_hash b) = 32%nat ∧ Forall is_byte (eb_parent_hash b);
  wb_recipient : length (eb_fee_recipient b) = 20%nat ∧ Forall is_byte (eb_fee_recipient b);
  wb_state : length (eb_state_root b) = 32%nat ∧ Forall is_byte (eb_state_root b);
  wb_receipts : length (eb_receipts_root b) = 32%nat ∧ Forall is_byte (eb_receipts_root b);
  wb_number : is_u64 (eb_block_number b);
  wb_gas_limit : is_u64 (eb_gas_limit b);
  wb_gas_used : is_u64 (eb_gas_used b);
  wb_timestamp : is_u64 (eb_timestamp b);
  wb_base_fee : 0 <= eb_base_fee_per_gas b <= u128_max;
  wb_transactions : Forall (Forall is_byte) (eb_transactions b);
}.

Lemma decode_quantity_u64_range s : is_u64 (decode_hex_quantity_u64 s).
Proof.
  unfold decode_hex_quantity_u64. case_bool_decide; [by split|].
  by apply (from_str_radix16_range u64_max).
Qed.
Lemma decode_quantity_u128_range s : 0 <= decode_hex_quantity_u128 s <= u128_max.
Proof.
  unfold decode_hex_quantity_u128. case_bool_decide; [by split|].
  by apply (from_str_radix16_range u128_max).
Qed.
Lemma decode_hex_bytes_range s out : decode_hex_bytes s = Some out → Forall is_byte out.
Proof.
  unfold decode_hex_bytes. case_bool_decide; [by intros [= <-]|]. case_if_goal; [done|].
  rewrite decode_pairs_eq. by apply (hex_pairs_bytes (length (strip_0x s))).
Qed.
Lemma decode_default_range s : Forall is_byte (default [] (decode_hex_bytes s)).
Proof. destruct (decode_hex_bytes s) eqn:Hs; [by apply decode_hex_bytes_range in Hs|constructor]. Qed.
Lemma decode_fixed_range n s : Forall is_byte (decode_fixed_hex_bytes n s).
Proof.
  unfold decode_fixed_hex_bytes. pose proof (decode_default_range s) as Hs.
  case_bool_decide; [by apply Forall_drop|]. apply Forall_app. split; [|done].
  apply Forall_replicate. sat_lia.
Qed.
#[local] Hint Resolve decode_encode_quantity_u64 decode_encode_quantity_u128 decode_quantity_u64_range
  decode_quantity_u128_range decode_fixed_range length_decode_fixed : eth.

(** C33: Converting a block to an engine payload and back gives the block, for every block
    of the Rust type; and reading a payload never fails: whatever its strings
    (missing prefix, odd digits, overflow, junk) the result is a block of that type,
    so that one more round trip leaves it unchanged. *)
Theorem payload_roundtrip :
  (∀ b, wf_block b → Eth2077Block_from (Eth2077Block_to_execution_payload b) = b) ∧
  (∀ payload, wf_block (Eth2077Block_from payload) ∧
     Eth2077Block_from (Eth2077Block_to_execution_payload (Eth2077Block_from payload)) =
       Eth2077Block_from payload).
Proof.
  assert (Hround : ∀ b, wf_block b → Eth2077Block_from (Eth2077Block_to_execution_payload b) = b).
  { intros [ph fr sr rr n gl gu ts bf txs ws] [[] [] [] [] ???? ? Htxs]. simpl in *.
    unfold Eth2077Block_from, Eth2077Block_to_execution_payload. simpl.
    rewrite !decode_fixed_encode_hex, !decode_encode_quantity_u64, decode_encode_quantity_u128 by done.
    f_equal. rewrite <- list_fmap_compose. rewrite <- (list_fmap_id txs) at 2.
    apply list_fmap_ext. intros i tx Htx. simpl.
    rewrite decode_encode_hex; [done|]. by eapply Forall_lookup_1. }
  split; [exact Hround|]. intros payload.
  assert (Hwf : wf_block (Eth2077Block_from payload)).
  { split; simpl; auto with eth. apply Forall_fmap, Forall_true. intros. apply decode_default_range. }
  split; [exact Hwf|by apply Hround].
Qed.
Lemma payload_roundtrip_witness :
  let b := {| eb_parent_hash := repeat 17 32; eb_fee_recipient := repeat 34 20;
    eb_state_root := repeat 51 32; eb_receipts_root := repeat 68 32; eb_block_number := 42;
    eb_gas_limit := 30000000; eb_gas_used := 21000; eb_timestamp := 1731234567;
    eb_base_fee_per_gas := 1000000000; eb_transactions := [[2; 170; 187; 204]; [3; 1; 2]];
    eb_withdrawals := [] |} in
  Eth2077Block_from (Eth2077Block_to_execution_payload b) = b.
Proof.
  apply (proj1 payload_roundtrip).
  split; try (split; [reflexivity|]); repeat constructor; discriminate.
Defined.

(** ** The engine service and the fork choice *)

(* eth2077-bridge/src/engine_api.rs:139-143 ForkchoiceStateV1 *)
Record ForkchoiceStateV1 := {
  fc_head_block_hash : Str;
  fc_safe_block_hash : Str;
  fc_finalized_block_hash : Str;
}.
(* eth2077-bridge/src/engine_api.rs:157-164 PayloadExecutionStatus *)
Inductive PayloadExecutionStatus := Valid | Invalid | StatusSyncing | Accepted | InvalidBlockHash.
(* eth2077-bridge/src/engine_api.rs:168-172 PayloadStatusV1 *)
Record PayloadStatusV1 := {
  ps_status : PayloadExecutionStatus;
  ps_latest_valid_hash : option Str;
  ps_validation_error : option Str;
}.
(* eth2077-bridge/src/engine_api.rs:175-181 PayloadStatusV1::valid *)
Definition PayloadStatusV1_valid : PayloadStatusV1 :=
  {| ps_status := Valid; ps_latest_valid_hash := Some (zero_hex 32); ps_validation_error := None |}.
(** The engine accepts every payload. *)
(* eth2077-bridge/src/engine_api.rs:233-235 EngineApiService::new_payload_v3 *)
Definition EngineApiService_new_payload_v3 (execution_payload : ExecutionPayloadV3)
    (expected_blob_versioned_hashes : list Str) (parent_beacon_block_root : Str) : PayloadStatusV1 :=
  PayloadStatusV1_valid.
(** [payload_attributes] only decide whether a payload id is answered. *)
(* eth2077-bridge/src/engine_api.rs:237-245 EngineApiService::forkchoice_updated_v3 *)
Definition EngineApiService_forkchoice_updated_v3 {Attributes} (forkchoice_state : ForkchoiceStateV1)
    (payload_attributes : option Attributes) : PayloadStatusV1 * option Str :=
  (PayloadStatusV1_valid, (λ _, zero_hex 8) <$> payload_attributes).

(* eth2077-bridge/src/forkchoice.rs:11-15 ForkchoiceState *)
Record ForkchoiceState := { fs_head : Str; fs_safe : Str; fs_finalized : Str }.
(* eth2077-bridge/src/forkchoice.rs:18-20 ForkchoiceManager::new *)
Definition ForkchoiceManager_new : ForkchoiceState :=
  {| fs_head := zero_hex 32; fs_safe := zero_hex 32; fs_finalized := zero_hex 32 |}.
(* eth2077-bridge/src/forkchoice.rs:22-25 ForkchoiceManager::update_head *)
Definition ForkchoiceManager_update_head (h : Str) (s : ForkchoiceState) : ForkchoiceState :=
  {| fs_head := h; fs_safe := fs_safe s; fs_finalized := fs_finalized s |}.
(* eth2077-bridge/src/forkchoice.rs:27-30 ForkchoiceManager::mark_safe *)
Definition ForkchoiceManager_mark_safe (h : Str) (s : ForkchoiceState) : ForkchoiceState :=
  {| fs_head := fs_head s; fs_safe := h; fs_finalized := fs_finalized s |}.
(* eth2077-bridge/src/forkchoice.rs:32-35 ForkchoiceManager::mark_finalized *)
Definition ForkchoiceManager_mark_finalized (h : Str) (s : ForkchoiceState) : ForkchoiceState :=
  {| fs_head := fs_head s; fs_safe := fs_safe s; fs_finalized := h |}.
(* eth2077-bridge/src/forkchoice.rs:37-44 ForkchoiceManager::get_state *)
Definition ForkchoiceManager_get_state (s : ForkchoiceState) : ForkchoiceStateV1 :=
  {| fc_head_block_hash := fs_head s; fc_safe_block_hash := fs_safe s;
     fc_finalized_block_hash := fs_finalized s |}.
