(* ===== verification/Json.v ===== *)
(** * JSON values ([serde_json::Value], as [eth2077-node/src/bin/eth2077-devnetd.rs] uses it)

    The tree the daemon's requests are read from and its answers are built in, with the
    accessors the handlers call.  An object is the list of its entries, keys distinct;
    their order is that of the [json!] literal and is never observed, since entries are
    only looked up by key.  Serialization to text is the class [JsonText]. *)
From S2P Require Import Prelude Floats Strings.
Local Open Scope Z_scope.

Inductive JsonNumber := PosInt (n : Z) | NegInt (n : Z) | Float (x : f64).
Inductive Value :=
| VNull
| VBool (b : bool)
| VNumber (n : JsonNumber)
| VString (s : Str)
| VArray (items : list Value)
| VObject (entries : list (Str * Value)).

(** [serde_json::to_string] *)
Class JsonText := json_to_string : Value → result Str Str.

(** ** Accessors *)

Fixpoint str_eqb (a b : Str) : bool :=
  match a, b with
  | [], [] => true
  | x :: a, y :: b => (x =? y) && str_eqb a b
  | _, _ => false
  end.
Lemma str_eqb_eq a b : str_eqb a b = true ↔ a = b.
Proof.
  revert b. induction a as [|x a IH]; intros [|y b]; simpl; try done.
  rewrite andb_true_iff, Z.eqb_eq, IH. naive_solver.
Qed.
Lemma str_eqb_refl a : str_eqb a a = true.
Proof. by apply str_eqb_eq. Qed.
Lemma str_eqb_neq a b : str_eqb a b = false ↔ a ≠ b.
Proof. rewrite <- not_true_iff_false. by rewrite str_eqb_eq. Qed.

Fixpoint entry (key : Str) (entries : list (Str * Value)) : option Value :=
  match entries with
  | [] => None
  | (k, v) :: entries => if str_eqb k key then Some v else entry key entries
  end.
(** [Value::get] with a string: [None] on anything but an object. *)
Definition get (key : string) (v : Value) : option Value :=
  match v with VObject entries => entry (str key) entries | _ => None end.
Definition as_str (v : Value) : option Str := match v with VString s => Some s | _ => None end.
Definition as_u64 (v : Value) : option Z :=
  match v with VNumber (PosInt n) => Some n | _ => None end.
Definition as_bool (v : Value) : option bool := match v with VBool b => Some b | _ => None end.
Definition as_array (v : Value) : option (list Value) :=
  match v with VArray items => Some items | _ => None end.
Definition as_object (v : Value) : option (list (Str * Value)) :=
  match v with VObject entries => Some entries | _ => None end.
Definition is_object (v : Value) : bool := match v with VObject _ => true | _ => false end.
(** [Map::insert] *)
Fixpoint insert_entry (key : Str) (v : Value) (entries : list (Str * Value)) : list (Str * Value) :=
  match entries with
  | [] => [(key, v)]
  | (k, w) :: entries =>
      if str_eqb k key then (k, v) :: entries else (k, w) :: insert_entry key v entries
  end.

(** [a.or_else(|| b)] *)
Definition or_else {A} (a b : option A) : option A :=
  match a with Some _ => a | None => b end.
(** [req.get("params").and_then(Value::as_array).and_then(|p| p.get(i))] *)
Definition param (i : nat) (req : Value) : option Value :=
  params ← get "params" req; items ← as_array params; items !! i.
(** [params.as_array().and_then(|a| a.get(i))] *)
Definition item (i : nat) (params : Value) : option Value := items ← as_array params; items !! i.

(** ** Literals: what [json!] makes of the source's types *)

Definition obj (fields : list (string * Value)) : Value :=
  VObject ((λ '(k, v), (str k, v)) <$> fields).
Notation "k ⟼ v" := (@pair string Value k%string v) (at level 60, no associativity) : rust_scope.
Definition text (s : string) : Value := VString (str s).
Definition num (n : Z) : Value := VNumber (PosInt n).
Definition opt {A} (f : A → Value) (o : option A) : Value := match o with Some a => f a | None => VNull end.
Definition arr {A} (f : A → Value) (l : list A) : Value := VArray (f <$> l).

Lemma entry_insert_entry key v entries : entry key (insert_entry key v entries) = Some v.
Proof.
  induction entries as [|[k w] entries IH]; simpl; [by rewrite str_eqb_refl|].
  destruct (str_eqb k key) eqn:Hk; simpl; by rewrite Hk.
Qed.
Lemma entry_insert_entry_ne key key' v entries :
  key ≠ key' → entry key (insert_entry key' v entries) = entry key entries.
Proof.
  intros Hne. induction entries as [|[k w] entries IH]; simpl.
  { destruct (str_eqb key' key) eqn:Hk; [|done]. apply str_eqb_eq in Hk. congruence. }
  destruct (str_eqb k key') eqn:Hk; simpl; [|by rewrite IH].
  apply str_eqb_eq in Hk as ->.
  destruct (str_eqb key' key) eqn:Hk'; [|done]. apply str_eqb_eq in Hk'. congruence.
Qed.
