(* ===== verification/EthRpc.v ===== *)
(** * The JSON-RPC state of a node ([eth2077-bridge/src/eth_rpc.rs])

    The state and the [eth_*] methods with their parameters and answers.  Reading a
    parameter list ([jsonrpsee]) and a fixed-size byte array ([alloy]) are the classes
    [JsonRpsee] and [AlloyText]. *)
From S2P Require Import Prelude Canonical Floats Strings Json Payload.
Local Open Scope Z_scope.

(* eth2077-bridge/src/eth_rpc.rs:15-21 EthRpcState *)
Record EthRpcState := MkRpc {
  rp_blocks : list Block;
  rp_receipts : gmap B256 Receipt;
  rp_state_db : InMemoryStateDB;
  rp_pending_txs : list Transaction;
  rp_chain_id : Z;
}.
(* eth2077-bridge/src/eth_rpc.rs:24-32 EthRpcState::new *)
Definition EthRpcState_new (chain_id : Z) (genesis_block : Block) (genesis_state : InMemoryStateDB)
  : EthRpcState := MkRpc [genesis_block] ∅ genesis_state [] chain_id.
(* eth2077-bridge/src/eth_rpc.rs:34-45 EthRpcState::append_block *)
Definition EthRpcState_append_block (block : Block) (receipts : list Receipt)
    (new_state : InMemoryStateDB) (s : EthRpcState) : EthRpcState :=
  MkRpc (rp_blocks s ++ [block])
    (foldl (λ m receipt, <[rc_tx_hash receipt := receipt]> m) (rp_receipts s) receipts)
    new_state (rp_pending_txs s) (rp_chain_id s).
(* eth2077-bridge/src/eth_rpc.rs:47-49 EthRpcState::latest_block *)
Definition EthRpcState_latest_block (s : EthRpcState) : option Block := last (rp_blocks s).
(* eth2077-bridge/src/eth_rpc.rs:51-53 EthRpcState::latest_block_number *)
Definition EthRpcState_latest_block_number (s : EthRpcState) : Z :=
  default 0 (Block_number <$> EthRpcState_latest_block s).
(* eth2077-bridge/src/eth_rpc.rs:55-57 EthRpcState::take_pending_txs *)
Definition EthRpcState_take_pending_txs (s : EthRpcState) : EthRpcState * list Transaction :=
  (MkRpc (rp_blocks s) (rp_receipts s) (rp_state_db s) [] (rp_chain_id s), rp_pending_txs s).
(* eth2077-bridge/src/eth_rpc.rs:63-65 EthRpcState::get_block_by_number *)
Definition EthRpcState_get_block_by_number (s : EthRpcState) (num : Z) : option Block :=
  List.find (λ block, Block_number block =? num) (rp_blocks s).

(* eth2077-bridge/src/eth_rpc.rs:68-70 hex_u64 *)
Definition hex_u64 (value : Z) : Str := str "0x" ++ lower_hex value.

(** [ErrorObjectOwned], without data. *)
Record ErrorObject := { eo_code : Z; eo_message : Str }.
(* eth2077-bridge/src/eth_rpc.rs:72-74 invalid_params *)
Definition invalid_params (message : Str) : ErrorObject := {| eo_code := -32602; eo_message := message |}.
(* eth2077-bridge/src/eth_rpc.rs:80-96 parse_block_tag *)
Definition parse_block_tag (tag : Str) (latest : option Z) : result (option Z) ErrorObject :=
  if bool_decide (tag = str "latest") then Ok latest else
  match strip_prefix (str "0x") tag with
  | None => Err (invalid_params (str "unsupported block tag: " ++ tag))
  | Some raw =>
      if bool_decide (raw = []) then Err (invalid_params (str "invalid hex block number")) else
      match from_str_radix16 u64_max raw with
      | Some n => Ok (Some n)
      | None => Err (invalid_params (str "invalid block number: " ++ tag))
      end
  end.
(* eth2077-bridge/src/eth_rpc.rs:191-194 build_eth_rpc_module *)
Definition block_of_tag (s : EthRpcState) (block_tag : Str) : result (option Block) ErrorObject :=
  let? number := parse_block_tag block_tag (Block_number <$> EthRpcState_latest_block s) in
  Ok (number ≫= EthRpcState_get_block_by_number s).

(** ** What alloy and jsonrpsee do

    [from_str] of fixed-size bytes takes two digits per byte with an optional prefix;
    [parse] and [one] read the parameters of a call and fail with an error object of
    their own. *)
Class AlloyText := {
  fixed_from_str : nat → Str → option (list Z);
  fixed_from_str_length n s bytes : fixed_from_str n s = Some bytes → length bytes = n;
  fixed_from_str_hex n bytes : length bytes = n → Forall is_byte bytes →
    fixed_from_str n (str "0x" ++ hex_of_bytes bytes) = Some bytes;
}.
Class JsonRpsee := {
  params_parse_address : Value → result (Str * option Str) ErrorObject;
  params_parse_block : Value → result (Str * bool) ErrorObject;
  params_one : Value → result Str ErrorObject;
  params_parse_address_spec a b : params_parse_address (VArray [VString a; opt VString b]) = Ok (a, b);
  params_parse_block_spec a b : params_parse_block (VArray [VString a; VBool b]) = Ok (a, b);
  params_one_spec a : params_one (VArray [VString a]) = Ok a;
}.
(** [format!("{:#x}", bytes)] *)
Definition hex_of (bytes : list Z) : Value := VString (str "0x" ++ hex_of_bytes bytes).
(** [format!("0x{:x}", balance)]: a 256-bit integer has up to 64 digits. *)
Definition hex_u256 (value : U256) : Str := str "0x" ++ lower_hex_loop 64 value.

Section methods.
Context `{AL : Alloy} `{AT : AlloyText} `{JR : JsonRpsee}.

(* eth2077-bridge/src/eth_rpc.rs:76-78 parse_address *)
Definition parse_address (value : Str) : result Address ErrorObject :=
  match fixed_from_str 20 value with
  | Some address => Ok address
  | None => Err (invalid_params (str "invalid address: " ++ value))
  end.

(** ** Answers *)

(* eth2077-bridge/src/eth_rpc.rs:98-104 log_to_json *)
Definition log_to_json (log : Log) : Value :=
  obj ["address" ⟼ hex_of (log_address log);
       "topics" ⟼ arr hex_of (log_topics log);
       "data" ⟼ hex_of (log_data log)].
(* eth2077-bridge/src/eth_rpc.rs:106-114 receipt_to_json *)
Definition receipt_to_json (receipt : Receipt) : Value :=
  obj ["transactionHash" ⟼ hex_of (rc_tx_hash receipt);
       "status" ⟼ (if rc_status receipt then text "0x1" else text "0x0");
       "cumulativeGasUsed" ⟼ VString (hex_u64 (rc_cumulative_gas_used receipt));
       "logsBloom" ⟼ hex_of (rc_logs_bloom receipt);
       "logs" ⟼ arr log_to_json (rc_logs receipt)].
(* eth2077-bridge/src/eth_rpc.rs:116-128 tx_to_json *)
Definition tx_to_json (tx : Transaction) : Value :=
  obj ["hash" ⟼ hex_of (tx_hash tx);
       "nonce" ⟼ VString (hex_u64 (tx_nonce tx));
       "from" ⟼ hex_of (tx_from tx);
       "to" ⟼ opt hex_of (tx_to tx);
       "value" ⟼ VString (hex_u256 (tx_value tx));
       "gas" ⟼ VString (hex_u64 (tx_gas_limit tx));
       "maxFeePerGas" ⟼ VString (hex_u64 (tx_max_fee_per_gas tx));
       "maxPriorityFeePerGas" ⟼ VString (hex_u64 (tx_max_priority_fee_per_gas tx));
       "input" ⟼ hex_of (tx_input tx)].
(* eth2077-bridge/src/eth_rpc.rs:130-157 block_to_json *)
Definition block_to_json (block : Block) (full_txs : bool) : Value :=
  let transactions :=
    if full_txs then arr tx_to_json (transactions block)
    else arr (λ tx, hex_of (tx_hash tx)) (transactions block) in
  obj ["number" ⟼ VString (hex_u64 (number (header block)));
       "hash" ⟼ hex_of (Block_hash block);
       "parentHash" ⟼ hex_of (parent_hash (header block));
       "timestamp" ⟼ VString (hex_u64 (timestamp (header block)));
       "gasLimit" ⟼ VString (hex_u64 (gas_limit (header block)));
       "gasUsed" ⟼ VString (hex_u64 (gas_used (header block)));
       "miner" ⟼ hex_of (beneficiary (header block));
       "baseFeePerGas" ⟼ opt (λ fee, VString (hex_u64 fee)) (base_fee_per_gas (header block));
       "transactions" ⟼ transactions].

(** ** The methods *)

(* eth2077-bridge/src/eth_rpc.rs:164-169 build_eth_rpc_module *)
Definition eth_chainId (s : EthRpcState) : result Value ErrorObject := Ok (VString (hex_u64 (rp_chain_id s))).
(* eth2077-bridge/src/eth_rpc.rs:171-176 build_eth_rpc_module *)
Definition eth_blockNumber (s : EthRpcState) : result Value ErrorObject :=
  Ok (VString (hex_u64 (EthRpcState_latest_block_number s))).
(* eth2077-bridge/src/eth_rpc.rs:178-186 build_eth_rpc_module *)
Definition eth_getBalance (s : EthRpcState) (params : Value) : result Value ErrorObject :=
  let? (address, _block_tag) := params_parse_address params in
  let? address := parse_address address in
  Ok (VString (hex_u256 (ai_balance (InMemoryStateDB_get_account (rp_state_db s) address)))).
(* eth2077-bridge/src/eth_rpc.rs:188-200 build_eth_rpc_module *)
Definition eth_getBlockByNumber (s : EthRpcState) (params : Value) : result Value ErrorObject :=
  let? (block_tag, full_txs) := params_parse_block params in
  let? block := block_of_tag s block_tag in
  Ok (opt (λ b, block_to_json b full_txs) block).
(* eth2077-bridge/src/eth_rpc.rs:202-214 build_eth_rpc_module *)
Definition eth_getTransactionReceipt (s : EthRpcState) (params : Value) : result Value ErrorObject :=
  let? tx_hash := params_one params in
  match fixed_from_str 32 tx_hash with
  | None => Err (invalid_params (str "invalid tx hash: " ++ tx_hash))
  | Some tx_hash => Ok (opt receipt_to_json (rp_receipts s !! tx_hash))
  end.
(* eth2077-bridge/src/eth_rpc.rs:216-224 build_eth_rpc_module *)
Definition eth_getTransactionCount (s : EthRpcState) (params : Value) : result Value ErrorObject :=
  let? (address, _block_tag) := params_parse_address params in
  let? address := parse_address address in
  Ok (VString (hex_u64 (ai_nonce (InMemoryStateDB_get_account (rp_state_db s) address)))).
(* eth2077-bridge/src/eth_rpc.rs:226-235 build_eth_rpc_module *)
Definition eth_gasPrice (s : EthRpcState) : result Value ErrorObject :=
  Ok (VString (hex_u64 (default 0 (EthRpcState_latest_block s ≫= λ block, base_fee_per_gas (header block))))).
(** A method that is not registered is refused by [jsonrpsee]. *)
(* eth2077-bridge/src/eth_rpc.rs:159-238 build_eth_rpc_module *)
Definition eth_rpc_module (method : Str) (params : Value) (s : EthRpcState)
  : option (result Value ErrorObject) :=
  if str_eqb method (str "eth_chainId") then Some (eth_chainId s) else
  if str_eqb method (str "eth_blockNumber") then Some (eth_blockNumber s) else
  if str_eqb method (str "eth_getBalance") then Some (eth_getBalance s params) else
  if str_eqb method (str "eth_getBlockByNumber") then Some (eth_getBlockByNumber s params) else
  if str_eqb method (str "eth_getTransactionReceipt") then Some (eth_getTransactionReceipt s params) else
  if str_eqb method (str "eth_getTransactionCount") then Some (eth_getTransactionCount s params) else
  if str_eqb method (str "eth_gasPrice") then Some (eth_gasPrice s) else None.
End methods.

(** ** What is served *)

Lemma parse_block_tag_hex n latest : is_u64 n → parse_block_tag (hex_u64 n) latest = Ok (Some n).
Proof.
  intros Hn. destruct (from_str_radix16_lower_hex u64_max n Hn) as (Hr & Hp & Hne); [lia|].
  unfold parse_block_tag, hex_u64. rewrite bool_decide_false by done.
  change (strip_prefix (str "0x") (str "0x" ++ lower_hex n)) with (Some (lower_hex n)).
  cbv beta iota. by rewrite bool_decide_false, Hr by done.
Qed.
Lemma get_block_by_number_numbered s num :
  (∀ i b, rp_blocks s !! i = Some b → Block_number b = Z.of_nat i) → 0 <= num →
  EthRpcState_get_block_by_number s num = rp_blocks s !! Z.to_nat num.
Proof.
  unfold EthRpcState_get_block_by_number. intros Hnum Hpos.
  destruct (rp_blocks s !! Z.to_nat num) as [b|] eqn:Hb.
  - pose proof (Hnum _ _ Hb) as Hn.
    assert (Hgen : ∀ l k, (∀ i x, l !! i = Some x → Block_number x = Z.of_nat (k + i)) →
      ∀ j y, l !! j = Some y → List.find (λ x, Block_number x =? Z.of_nat (k + j)) l = Some y).
    { induction l as [|x l IH]; intros k Hl [|j] y Hy; simplify_eq/=.
      - rewrite (Hl 0%nat y eq_refl). by rewrite Z.eqb_refl.
      - rewrite (Hl 0%nat x eq_refl).
        destruct (Z.eqb_spec (Z.of_nat (k + 0)) (Z.of_nat (k + S j))); [lia|].
        replace (k + S j)%nat with (S k + j)%nat by lia. apply IH; [|done].
        intros i z Hz. rewrite (Hl (S i) z Hz). lia. }
    specialize (Hgen (rp_blocks s) 0%nat Hnum _ _ Hb). simpl in Hgen.
    rewrite Z2Nat.id in Hgen by done. done.
  - apply lookup_ge_None in Hb. destruct (List.find _ _) as [b|] eqn:Hf; [|done].
    apply List.find_some in Hf as [Hin Heq%Z.eqb_eq].
    apply list_elem_of_In, list_elem_of_lookup in Hin as [i Hi].
    pose proof (lookup_lt_Some _ _ _ Hi). rewrite (Hnum _ _ Hi) in Heq. lia.
Qed.
Lemma append_block_receipt block receipts st s r :
  NoDup (rc_tx_hash <$> receipts) → r ∈ receipts →
  rp_receipts (EthRpcState_append_block block receipts st s) !! rc_tx_hash r = Some r.
Proof.
  unfold EthRpcState_append_block. simpl.
  induction receipts as [|x receipts IH] using rev_ind; [by intros _ ?%elem_of_nil|].
  rewrite fmap_app, foldl_snoc. intros Hnd Hin.
  apply NoDup_app in Hnd as (Hnd & Hx & _). apply elem_of_app in Hin as [Hin| ->%list_elem_of_singleton].
  - rewrite lookup_insert_ne; [by apply IH|]. intros Heq.
    apply (Hx (rc_tx_hash r)); [by apply list_elem_of_fmap_2|]. rewrite <- Heq. by left.
  - by rewrite lookup_insert_eq.
Qed.

Section answers.
Context `{AL : Alloy} `{AT : AlloyText} `{JR : JsonRpsee}.

Lemma parse_address_hex address :
  length address = 20%nat → Forall is_byte address →
  parse_address (str "0x" ++ hex_of_bytes address) = Ok address.
Proof. intros. unfold parse_address. by rewrite fixed_from_str_hex. Qed.

(** over the RPC of a node whose block number [i] is number [i], a block is served by its
    printed number, also the newest by [latest]; the receipts of the block just appended are
    served by their printed hashes; balance and nonce of a printed address are those of the
    state; and an address that is not one is refused with the code of invalid parameters. *)
Theorem rpc_answers s :
  (∀ i b, rp_blocks s !! i = Some b → Block_number b = Z.of_nat i) →
  (∀ n full, is_u64 n →
    eth_rpc_module (str "eth_getBlockByNumber") (VArray [VString (hex_u64 n); VBool full]) s =
    Some (Ok (opt (λ b, block_to_json b full) (rp_blocks s !! Z.to_nat n)))) ∧
  (∀ block full, is_u64 (Block_number block) → last (rp_blocks s) = Some block →
    eth_rpc_module (str "eth_getBlockByNumber") (VArray [VString (str "latest"); VBool full]) s =
    Some (Ok (block_to_json block full))) ∧
  (∀ block receipts st r, NoDup (rc_tx_hash <$> receipts) → r ∈ receipts →
    length (rc_tx_hash r) = 32%nat → Forall is_byte (rc_tx_hash r) →
    eth_rpc_module (str "eth_getTransactionReceipt") (VArray [hex_of (rc_tx_hash r)])
      (EthRpcState_append_block block receipts st s) = Some (Ok (receipt_to_json r))) ∧
  (∀ address tag, length address = 20%nat → Forall is_byte address →
    let params := VArray [hex_of address; opt VString tag] in
    let account := InMemoryStateDB_get_account (rp_state_db s) address in
    eth_rpc_module (str "eth_getBalance") params s =
      Some (Ok (VString (hex_u256 (ai_balance account)))) ∧
    eth_rpc_module (str "eth_getTransactionCount") params s =
      Some (Ok (VString (hex_u64 (ai_nonce account))))) ∧
  (∀ text tag, fixed_from_str 20 text = None →
    ∃ message, eth_rpc_module (str "eth_getBalance") (VArray [VString text; opt VString tag]) s =
      Some (Err {| eo_code := -32602; eo_message := message |})).
Proof.
  intros Hnum.
  assert (Hget : ∀ n, is_u64 n → EthRpcState_get_block_by_number s n = rp_blocks s !! Z.to_nat n).
  { intros n [Hn _]. by apply get_block_by_number_numbered. }
  repeat split.
  - intros n full Hn. change (eth_rpc_module _ ?p s) with (Some (eth_getBlockByNumber s p)).
    unfold eth_getBlockByNumber, block_of_tag. rewrite params_parse_block_spec. cbn [result_bind].
    rewrite parse_block_tag_hex by done. cbn [result_bind mbind option_bind]. by rewrite Hget.
  - intros block full Hn Hl. change (eth_rpc_module _ ?p s) with (Some (eth_getBlockByNumber s p)).
    unfold eth_getBlockByNumber, block_of_tag. rewrite params_parse_block_spec. cbn [result_bind].
    unfold parse_block_tag, EthRpcState_latest_block. rewrite bool_decide_true by done. rewrite Hl.
    cbn [result_bind fmap option_fmap option_map mbind option_bind]. rewrite Hget by done.
    pose proof Hl as Hb. rewrite last_lookup in Hb. pose proof (Hnum _ _ Hb) as Heq.
    rewrite Heq, Nat2Z.id. by rewrite Hb.
  - intros block receipts st r Hnd Hin Hlen Hbytes.
    change (eth_rpc_module _ ?p ?s) with (Some (eth_getTransactionReceipt s p)).
    unfold eth_getTransactionReceipt. unfold hex_of at 1. rewrite params_one_spec. cbn [result_bind].
    rewrite fixed_from_str_hex by done. by rewrite append_block_receipt.
  - change (eth_rpc_module _ ?p s) with (Some (eth_getBalance s p)).
    unfold eth_getBalance, hex_of. rewrite params_parse_address_spec. cbn [result_bind].
    by rewrite parse_address_hex.
  - change (eth_rpc_module _ ?p s) with (Some (eth_getTransactionCount s p)).
    unfold eth_getTransactionCount, hex_of. rewrite params_parse_address_spec. cbn [result_bind].
    by rewrite parse_address_hex.
  - intros text tag Hno. exists (str "invalid address: " ++ text).
    change (eth_rpc_module _ ?p s) with (Some (eth_getBalance s p)).
    unfold eth_getBalance. rewrite params_parse_address_spec. cbn [result_bind].
    unfold parse_address. by rewrite Hno.
Qed.
End answers.
