(* ===== verification/Devnet.v ===== *)
(** * The devnet node ([eth2077-node/src/bin/devnet.rs])

    The main loop joins the parts: its timer proposes a block built on the RPC
    state's latest block, the consensus engine's events are processed from a stack
    until it is empty, a finalized block of the node's own becomes the state, and
    what peers send is fed to the engine or appended to the chain.  What the loop
    asks of the network node are the broadcasts of [P2pNode.v]. *)
From S2P Require Import Prelude Canonical Executor BlockBuilder Validators FastPath Consensus Codec Gossip Peers Sync P2pNode Strings Payload EthRpc.
Local Open Scope Z_scope.

(* eth2077-node/src/bin/devnet.rs:21-28 DevnetConfig *)
Record DevnetConfig := {
  dc_peer_id : Z;
  dc_listen_port : Z;
  dc_rpc_port : Z;
  dc_boot_peers : list SocketAddr;
  dc_block_time_ms : Z;
  dc_chain_id : Z;
}.
(* eth2077-node/src/bin/devnet.rs:42-44 DevnetConfig::listen_addr *)
Definition DevnetConfig_listen_addr (config : DevnetConfig) : SocketAddr :=
  ([127; 0; 0; 1], dc_listen_port config).
(* eth2077-node/src/bin/devnet.rs:46-48 DevnetConfig::rpc_bind *)
Definition DevnetConfig_rpc_bind (config : DevnetConfig) : SocketAddr :=
  ([127; 0; 0; 1], dc_rpc_port config).

(** The variables of [main] that the loop changes. *)
Record DevnetNode := MkDevnet {
  dn_consensus : ConsensusEngine;
  dn_rpc_state : EthRpcState;
  dn_proposed_blocks : gmap hash BuiltBlock;
  dn_execution_state : InMemoryStateDB;
  dn_peer_id : Z;
}.
Definition with_consensus (e : ConsensusEngine) (n : DevnetNode) : DevnetNode :=
  MkDevnet e (dn_rpc_state n) (dn_proposed_blocks n) (dn_execution_state n) (dn_peer_id n).
Definition with_rpc (r : EthRpcState) (n : DevnetNode) : DevnetNode :=
  MkDevnet (dn_consensus n) r (dn_proposed_blocks n) (dn_execution_state n) (dn_peer_id n).
Definition with_proposed (p : gmap hash BuiltBlock) (n : DevnetNode) : DevnetNode :=
  MkDevnet (dn_consensus n) (dn_rpc_state n) p (dn_execution_state n) (dn_peer_id n).
Definition with_state (s : InMemoryStateDB) (n : DevnetNode) : DevnetNode :=
  MkDevnet (dn_consensus n) (dn_rpc_state n) (dn_proposed_blocks n) s (dn_peer_id n).

(* eth2077-node/src/bin/devnet.rs:184-193 main *)
Definition devnet_allocs : list (Address * U256) :=
  [(repeat 0x11 20, 1000000000000000000000); (repeat 0x22 20, 1000000000000000000000)].

Section devnet.
Context `{HO : HashOrder} `{SU : SortUnstable} `{AL : Alloy} `{RT : RevmTypes} `{RV : !Revm}.

(** [Vec::pop] *)
Definition pop {A} (l : list A) : option (list A * A) :=
  match reverse l with x :: r => Some (reverse r, x) | [] => None end.

(** One event: the new state, the broadcasts, and the events to push. *)
(* eth2077-node/src/bin/devnet.rs:100-165 process_consensus_events *)
Definition process_event (event : ConsensusEvent) (n : DevnetNode)
  : DevnetNode * list NodeOp * list ConsensusEvent :=
  match event with
  | NeedProposal _ _ _ => (n, [], [])
  | RoundTimeout _ _ => (n, [], [])
  | SendPrevote height round block_hash =>
      let msg := Prevote height round block_hash (dn_peer_id n) in
      let '(consensus, next) := ConsensusEngine_on_message msg (dn_consensus n) in
      (with_consensus consensus n, [OpBroadcastConsensus msg], next)
  | SendPrecommit height round block_hash =>
      let msg := Precommit height round block_hash (dn_peer_id n) in
      let '(consensus, next) := ConsensusEngine_on_message msg (dn_consensus n) in
      (with_consensus consensus n, [OpBroadcastConsensus msg], next)
  | BlockFinalized height block_hash round =>
      let '(n, ops) :=
        match dn_proposed_blocks n !! block_hash with
        | Some built =>
            let n := with_proposed (delete block_hash (dn_proposed_blocks n)) n in
            let n := with_state (bb_state built) n in
            let n := with_rpc (EthRpcState_append_block (bb_block built) (bb_receipts built)
                                 (bb_state built) (dn_rpc_state n)) n in
            (n, [OpBroadcastBlock (bb_block built)])
        | None => (n, [])
        end in
      let '(consensus, next) :=
        ConsensusEngine_start_height (u64_saturating_add height 1) (dn_consensus n) in
      (with_consensus consensus n, ops, next)
  end.
(** The loop, [None] when the fuel runs out. *)
(* eth2077-node/src/bin/devnet.rs:90-168 process_consensus_events *)
Fixpoint process_consensus_events (fuel : nat) (events : list ConsensusEvent) (n : DevnetNode)
  : option (DevnetNode * list NodeOp) :=
  match pop events with
  | None => Some (n, [])
  | Some (events, event) =>
      match fuel with
      | O => None
      | S fuel =>
          let '(n, ops, next) := process_event event n in
          '(n, ops') ← process_consensus_events fuel (events ++ next) n;
          Some (n, ops ++ ops')
      end
  end.

(** How many events an event can still cause, itself included. *)
Definition event_rank (event : ConsensusEvent) : nat :=
  match event with
  | NeedProposal _ _ _ | RoundTimeout _ _ => 1
  | BlockFinalized _ _ _ => 2
  | SendPrecommit _ _ _ => 3
  | SendPrevote _ _ _ => 4
  end.
Definition events_fuel (events : list ConsensusEvent) : nat := sum_list_with event_rank events.

(** [main] up to its loop. *)
(* eth2077-node/src/bin/devnet.rs:195-252 main *)
Definition devnet_start (config : DevnetConfig) (allocs : list (Address * U256))
  : option (DevnetNode * list NodeOp) :=
  let '(genesis_block, genesis_state) := create_genesis_block allocs in
  let rpc_state := EthRpcState_new (dc_chain_id config) genesis_block genesis_state in
  let validator_set := ValidatorSet_new
    [{| v_index := dc_peer_id config; v_weight := 1; v_public_key := zero_bytes 32 |}] in
  let fast_path_config :=
    {| fpc_quorum_threshold := 1; fpc_timeout_ms := 5000; fpc_optimistic_threshold := 1 |} in
  let '(consensus, initial_events) :=
    ConsensusEngine_start_height (u64_saturating_add (Block_number genesis_block) 1)
      (ConsensusEngine_new validator_set fast_path_config) in
  process_consensus_events (events_fuel initial_events) initial_events
    (MkDevnet consensus rpc_state ∅ genesis_state (dc_peer_id config)).

(** The block timer ticks. *)
(* eth2077-node/src/bin/devnet.rs:258-324 main *)
Definition on_block_timer (n : DevnetNode) : option (DevnetNode * list NodeOp) :=
  let st := ce_state (dn_consensus n) in
  let height := rs_height st in
  let round := rs_round st in
  let leader := ValidatorSet_leader_for_round (ce_validator_set (dn_consensus n)) height round in
  if negb (leader =? dn_peer_id n) then Some (n, []) else
  match EthRpcState_latest_block (dn_rpc_state n) with
  | None => Some (n, [])
  | Some parent =>
      let parent_header := header parent in
      let '(rpc, pending_txs) := EthRpcState_take_pending_txs (dn_rpc_state n) in
      let n := with_rpc rpc n in
      let builder := {| bc_beneficiary := Address_ZERO; bc_timestamp := None;
                        bc_gas_limit := Some (gas_limit parent_header) |} in
      match BlockBuilder_build_block builder parent_header pending_txs (dn_execution_state n) with
      | Err _ => Some (n, [])
      | Ok built =>
          let block_hash := Block_hash (bb_block built) in
          let n := with_proposed (<[block_hash := built]> (dn_proposed_blocks n)) n in
          let proposal := Proposal height round block_hash (dn_peer_id n) in
          let '(consensus, events) := ConsensusEngine_on_message proposal (dn_consensus n) in
          '(n, ops) ← process_consensus_events (events_fuel events) events (with_consensus consensus n);
          Some (n, OpBroadcastConsensus proposal :: ops)
      end
  end.

(** An event of the network node. *)
(* eth2077-node/src/bin/devnet.rs:325-375 main *)
Definition on_p2p_event (event : P2pEvent) (n : DevnetNode) : option (DevnetNode * list NodeOp) :=
  match event with
  | BlockReceived _ block =>
      let execution_state := InMemoryStateDB_insert_block_hash (dn_execution_state n)
                               (Block_number block) (Block_hash block) in
      let n := with_state execution_state n in
      Some (with_rpc (EthRpcState_append_block block [] execution_state (dn_rpc_state n)) n, [])
  | ConsensusMessageReceived _ msg =>
      let '(consensus, events) := ConsensusEngine_on_message msg (dn_consensus n) in
      process_consensus_events (events_fuel events) events (with_consensus consensus n)
  | TransactionReceived _ _ | PeerConnected _ | PeerDisconnected _ | SyncComplete _ => Some (n, [])
  end.

Inductive DevnetInput := BlockTimer | NetworkEvent (event : P2pEvent).
Definition devnet_step (input : DevnetInput) (n : DevnetNode) : option (DevnetNode * list NodeOp) :=
  match input with
  | BlockTimer => on_block_timer n
  | NetworkEvent event => on_p2p_event event n
  end.
(* eth2077-node/src/bin/devnet.rs:256-378 main *)
Fixpoint devnet_run (inputs : list DevnetInput) (n : DevnetNode) : option (DevnetNode * list NodeOp) :=
  match inputs with
  | [] => Some (n, [])
  | input :: inputs =>
      '(n, ops) ← devnet_step input n;
      '(n, ops') ← devnet_run inputs n;
      Some (n, ops ++ ops')
  end.

(** ** Every step ends *)

Lemma pop_snoc {A} (l : list A) x : pop (l ++ [x]) = Some (l, x).
Proof. unfold pop. by rewrite reverse_snoc, reverse_involutive. Qed.
Lemma events_fuel_app l1 l2 : events_fuel (l1 ++ l2) = (events_fuel l1 + events_fuel l2)%nat.
Proof. unfold events_fuel. induction l1; simpl; lia. Qed.

(** An engine answers a vote with at most one event of a later stage. *)
Lemma on_prevote_rank h r o v e :
  (events_fuel (ConsensusEngine_on_message (Prevote h r o v) e).2 < 4)%nat.
Proof.
  unfold ConsensusEngine_on_message, ConsensusEngine_on_prevote, prevote_quorum_step.
  repeat (case_match; simplify_eq/=; try lia).
Qed.
Lemma on_precommit_rank h r o v e :
  (events_fuel (ConsensusEngine_on_message (Precommit h r o v) e).2 < 3)%nat.
Proof.
  unfold ConsensusEngine_on_message, ConsensusEngine_on_precommit.
  repeat (case_match; simplify_eq/=; try lia).
Qed.
Lemma process_event_rank event n :
  (events_fuel (process_event event n).2 < event_rank event)%nat.
Proof.
  destruct event as [h b r|h r|h r l|h r o|h r o]; simpl; try lia.
  - destruct (dn_proposed_blocks n !! b); simpl; lia.
  - pose proof (on_prevote_rank h r o (dn_peer_id n) (dn_consensus n)).
    by destruct (ConsensusEngine_on_message _ _).
  - pose proof (on_precommit_rank h r o (dn_peer_id n) (dn_consensus n)).
    by destruct (ConsensusEngine_on_message _ _).
Qed.
Lemma process_total fuel events n :
  (events_fuel events <= fuel)%nat → is_Some (process_consensus_events fuel events n).
Proof.
  revert events n. induction fuel as [|fuel IH]; intros events n Hfuel;
    destruct events as [|event events _] using rev_ind; try by eexists.
  - rewrite events_fuel_app in Hfuel. destruct event; simpl in Hfuel; lia.
  - rewrite events_fuel_app in Hfuel. cbn [process_consensus_events]. rewrite pop_snoc.
    pose proof (process_event_rank event n) as Hr.
    destruct (process_event event n) as [[n' ops] next]. simpl in *.
    destruct (IH (events ++ next) n') as [[n2 ops2] ->]; [|by eexists].
    rewrite events_fuel_app. lia.
Qed.

(** C35: The node never hangs on its own events: the stack of consensus events empties,
    because each event pushes only events of a later stage (prevote, precommit,
    finalization, new height), so every sequence of timer ticks and network events is
    processed to the end. *)
Theorem devnet_never_hangs (inputs : list DevnetInput) (n : DevnetNode) :
  is_Some (devnet_run inputs n).
Proof.
  revert n. induction inputs as [|input inputs IH]; intros n; simpl; [by eexists|].
  assert (is_Some (devnet_step input n)) as [[n1 ops] ->].
  { destruct input as [|[| |from msg| | |]]; simpl; try by eexists.
    - unfold on_block_timer. case_if_goal; [by eexists|]. destruct (EthRpcState_latest_block _); [|by eexists].
      simpl. destruct (BlockBuilder_build_block _ _ _ _) as [built|e]; [|by eexists].
      simpl. destruct (ConsensusEngine_on_message _ _) as [e evs].
      destruct (process_total (events_fuel evs) evs (with_consensus e (with_proposed
        (<[Block_hash (bb_block built) := built]> (dn_proposed_blocks n)) (with_rpc
        (MkRpc (rp_blocks (dn_rpc_state n)) (rp_receipts (dn_rpc_state n)) (rp_state_db (dn_rpc_state n))
           [] (rp_chain_id (dn_rpc_state n))) n)))) as [[n2 o2] Heq]; [done|]. rewrite Heq. by eexists.
    - destruct (ConsensusEngine_on_message msg (dn_consensus n)) as [e evs].
      destruct (process_total (events_fuel evs) evs (with_consensus e n)) as [[n2 o2] ->]; [done|]. by eexists. }
  simpl. destruct (IH n1) as [[n2 o2] ->]. by eexists.
Qed.
End devnet.

(** ** A node alone *)

Section alone.
Context `{HO : HashOrder} `{SU : SortUnstable} `{AL : Alloy} `{RT : RevmTypes} `{RV : !Revm}.
Context (config : DevnetConfig) (allocs : list (Address * U256)).

Definition alone_set : ValidatorSet := ValidatorSet_new
  [{| v_index := dc_peer_id config; v_weight := 1; v_public_key := zero_bytes 32 |}].
Definition alone_fast_path : FastPathConfig :=
  {| fpc_quorum_threshold := 1; fpc_timeout_ms := 5000; fpc_optimistic_threshold := 1 |}.
(** The engine at the start of a height. *)
Definition fresh_engine (height : Z) : ConsensusEngine :=
  MkEngine alone_set (MkRoundState height 0 StepPropose ∅ ∅ ∅ None None)
    (FastPathAccumulator_new alone_fast_path).

(** The node between two ticks: its chain, the state after it, an idle engine. *)
Record alone_inv (blocks : list Block) (n : DevnetNode) : Prop := {
  al_chain : chain allocs blocks (dn_execution_state n);
  al_empty : Forall (λ b, transactions b = []) blocks;
  al_blocks : rp_blocks (dn_rpc_state n) = blocks;
  al_pending : rp_pending_txs (dn_rpc_state n) = [];
  al_state : rp_state_db (dn_rpc_state n) = dn_execution_state n;
  al_engine : dn_consensus n = fresh_engine (len blocks);
  al_self : dn_peer_id n = dc_peer_id config;
}.

Lemma alone_leader height round : ValidatorSet_leader_for_round alone_set height round = dc_peer_id config.
Proof.
  unfold ValidatorSet_leader_for_round, alone_set. simpl. unfold len. simpl.
  by rewrite Z.mod_1_r.
Qed.
(** The engine alone finalizes its own proposal: one prevote is enough for its fast path. *)
Lemma alone_proposal height h :
  ConsensusEngine_on_message (Proposal height 0 h (dc_peer_id config)) (fresh_engine height) =
    (MkEngine alone_set (MkRoundState height 0 StepPrevote {[0 := h]} ∅ ∅ None None)
       (FastPathAccumulator_new alone_fast_path), [SendPrevote height 0 (Some h)]).
Proof.
  unfold ConsensusEngine_on_message, ConsensusEngine_on_proposal, fresh_engine.
  cbn [ce_state rs_step rs_height rs_round ce_validator_set ce_fast_path].
  rewrite alone_leader, !bool_decide_false by (intros ?; done). reflexivity.
Qed.
Lemma alone_prevote height h e :
  e = MkEngine alone_set (MkRoundState height 0 StepPrevote {[0 := h]} ∅ ∅ None None)
       (FastPathAccumulator_new alone_fast_path) →
  ∃ st fp, ConsensusEngine_on_message (Prevote height 0 (Some h) (dc_peer_id config)) e =
    (MkEngine alone_set st fp, [BlockFinalized height h 0]) ∧ fpa_config fp = alone_fast_path.
Proof.
  intros ->. unfold ConsensusEngine_on_message, ConsensusEngine_on_prevote.
  cbn [ce_state rs_step rs_height rs_round ce_validator_set ce_fast_path].
  rewrite !bool_decide_false by (intros ?; done). cbn [orb].
  unfold RoundState_insert_prevote. cbn [rs_prevotes]. rewrite lookup_empty. cbn [negb].
  unfold FastPathAccumulator_add_attestation. cbn [fpa_conflict_detected FastPathAccumulator_new
    fpa_round_start_ms fpa_config fpa_attestations fpa_round_block_hash default from_option
    fa_received_at_ms find_attester List.find fa_block_hash].
  unfold FastPathAccumulator_is_timed_out. cbn [fpa_round_start_ms fpa_config fpc_timeout_ms alone_fast_path].
  set (now := u64_saturating_add _ _).
  destruct (Z.ltb_spec 5000 (u64_saturating_sub now now)); [unfold u64_saturating_sub in *; lia|].
  unfold fast_path_verdict, FastPathAccumulator_agreement_count. cbn [fpa_config fpc_optimistic_threshold
    alone_fast_path fpa_round_block_hash fpa_attestations app].
  rewrite filter_cons_True by done. cbn [filter list_filter len]. unfold len. simpl.
  eexists _, _. split; reflexivity.
Qed.

Lemma process_alone height h st fp built fuel n :
  dn_consensus n = (ConsensusEngine_on_message (Proposal height 0 h (dc_peer_id config))
    (fresh_engine height)).1 →
  dn_peer_id n = dc_peer_id config → dn_proposed_blocks n !! h = Some built →
  height < u64_max → fpa_config fp = alone_fast_path →
  ConsensusEngine_on_message (Prevote height 0 (Some h) (dc_peer_id config)) (dn_consensus n) =
    (MkEngine alone_set st fp, [BlockFinalized height h 0]) →
  process_consensus_events (S (S (S fuel))) [SendPrevote height 0 (Some h)] n =
    Some (MkDevnet (fresh_engine (height + 1))
            (EthRpcState_append_block (bb_block built) (bb_receipts built) (bb_state built) (dn_rpc_state n))
            (delete h (dn_proposed_blocks n)) (bb_state built) (dn_peer_id n),
          [OpBroadcastConsensus (Prevote height 0 (Some h) (dc_peer_id config));
           OpBroadcastBlock (bb_block built)]).
Proof.
  intros He Hself Hbuilt Hmax Hfp Hprevote.
  cbn [process_consensus_events pop reverse rev_append process_event]. rewrite Hself, Hprevote.
  cbn [app pop reverse rev_append process_event with_consensus dn_proposed_blocks dn_consensus].
  rewrite Hbuilt. cbn [app pop reverse rev_append process_event with_consensus with_proposed with_rpc
    with_state ConsensusEngine_start_height dn_consensus dn_rpc_state dn_proposed_blocks
    dn_execution_state dn_peer_id mbind option_bind ce_validator_set ce_state ce_fast_path].
  destruct fuel; cbn [process_consensus_events pop reverse rev_append mbind option_bind app];
    unfold fresh_engine, RoundState_reset_for_height, FastPathAccumulator_reset, FastPathAccumulator_new;
    rewrite Hfp, u64_saturating_add_small by lia;
    unfold with_consensus, with_rpc, with_state, with_proposed; cbn [dn_peer_id dn_consensus
      dn_rpc_state dn_proposed_blocks dn_execution_state]; by rewrite Hself.
Qed.

Lemma alone_tick blocks parent n :
  alone_inv (blocks ++ [parent]) n → len (blocks ++ [parent]) < u64_max →
  ∃ built n' ops, on_block_timer n = Some (n', ops) ∧
    BlockBuilder_build_block {| bc_beneficiary := Address_ZERO; bc_timestamp := None;
      bc_gas_limit := Some (gas_limit (header parent)) |} (header parent) [] (dn_execution_state n) = Ok built ∧
    alone_inv (blocks ++ [parent; bb_block built]) n' ∧
    OpBroadcastBlock (bb_block built) ∈ ops.
Proof.
  intros [Hchain Hempty Hblocks Hpend Hst Heng Hself] Hlen. unfold on_block_timer. rewrite Heng.
  unfold fresh_engine at 1 2 3 4. cbn [ce_state rs_height rs_round ce_validator_set].
  rewrite alone_leader, Hself, Z.eqb_refl. cbn [negb].
  unfold EthRpcState_latest_block. rewrite Hblocks, last_snoc.
  unfold EthRpcState_take_pending_txs. rewrite Hpend. cbv zeta. cbn [with_rpc dn_execution_state dn_consensus].
  destruct (BlockBuilder_build_block _ (header parent) [] (dn_execution_state n)) as [built|e] eqn:Hbuild;
    [|done].
  unfold with_proposed, with_rpc, with_consensus.
  cbn [dn_consensus dn_proposed_blocks dn_peer_id dn_rpc_state dn_execution_state].
  rewrite Hself, Heng. cbn [fresh_engine ce_state rs_height rs_round].
  set (height := len (blocks ++ [parent])) in *. set (hash := Block_hash (bb_block built)).
  change (MkEngine alone_set (MkRoundState height 0 StepPropose ∅ ∅ ∅ None None)
    (FastPathAccumulator_new alone_fast_path)) with (fresh_engine height).
  pose proof (alone_proposal height hash) as Hprop. rewrite Hprop.
  destruct (alone_prevote height hash _ eq_refl) as (st & fp & Hprevote & Hfp).
  change (events_fuel [SendPrevote _ _ _]) with 4%nat.
  rewrite (process_alone height hash st fp built);
    cbn [dn_consensus dn_peer_id dn_proposed_blocks]; rewrite ?Hprop; try done; [|apply lookup_insert_eq].
  cbn [mbind option_bind]. exists built. eexists _, _. split; [reflexivity|]. split; [done|].
  assert (Hsplit : blocks ++ [parent; bb_block built] = (blocks ++ [parent]) ++ [bb_block built])
    by by rewrite <- app_assoc.
  split; [|set_solver]. split; simpl; try done.
  - by apply (chain_extend _ blocks parent (dn_execution_state n)
      {| bc_beneficiary := Address_ZERO; bc_timestamp := None;
         bc_gas_limit := Some (gas_limit (header parent)) |} []).
  - rewrite Hsplit. apply Forall_app. split; [done|]. constructor; [|done].
    by apply result_bind_ok in Hbuild as (s & _ & [= <-]).
  - by rewrite Hblocks, Hsplit.
  - f_equal. rewrite Hsplit. unfold height, len.
    rewrite (length_app (blocks ++ [parent])). simpl. lia.
Qed.

(** The blocks of a chain before any one of them are a chain, whose state that block was
    built on. *)
Lemma chain_built_on blocks st i b :
  chain allocs blocks st → blocks !! S i = Some b →
  ∃ st_i parent cfg built, chain allocs (take (S i) blocks) st_i ∧ blocks !! i = Some parent ∧
    BlockBuilder_build_block cfg (header parent) (transactions b) st_i = Ok built ∧ b = bb_block built.
Proof.
  induction 1 as [|blocks parent st cfg txs built Hchain IH Hbuild]; [done|].
  change [parent; bb_block built] with ([parent] ++ [bb_block built]). rewrite (app_assoc blocks).
  intros [Hb|[Hlen Hb]]%lookup_app_Some.
  - destruct (IH Hb) as (st_i & p & cfg' & built' & Hc & Hp & Hbuild' & ->).
    exists st_i, p, cfg', built'. apply lookup_lt_Some in Hb. rewrite take_app_le by lia.
    split_and!; try done. by apply lookup_app_l_Some.
  - apply list_lookup_singleton_Some in Hb as [Hi <-].
    assert (i = length blocks) as -> by (rewrite length_app in *; simpl in *; lia).
    exists st, parent, cfg, built. split_and!; [|by rewrite <- app_assoc; apply list_lookup_middle| |done].
    + rewrite take_app_length' by (rewrite length_app; simpl; lia). done.
    + by apply result_bind_ok in Hbuild as Hb'; destruct Hb' as (s & _ & [= <-]).
Qed.

(** The node starts alone on its genesis block, and each tick adds a block. *)
Lemma alone_starts : ∃ n0, devnet_start config allocs = Some (n0, []) ∧ alone_inv ([] ++ [(create_genesis_block allocs).1]) n0.
Proof. eexists. split; [reflexivity|]. split; try done; [apply chain_genesis|]. by constructor. Qed.
Lemma alone_ticks k blocks parent n0 :
  alone_inv (blocks ++ [parent]) n0 → Z.of_nat (length blocks + k) < u64_max →
  ∃ n ops blocks' parent', devnet_run (replicate k BlockTimer) n0 = Some (n, ops) ∧
    length (blocks' ++ [parent']) = (length blocks + S k)%nat ∧ alone_inv (blocks' ++ [parent']) n.
Proof.
  revert blocks parent n0. induction k as [|j IH]; intros blocks parent m Hm Hlen.
  - exists m, [], blocks, parent. rewrite length_app. by split_and!.
  - destruct (alone_tick blocks parent m Hm) as (built & m1 & ops1 & Htick & _ & Hm1 & _).
    { unfold len. rewrite length_app. simpl. lia. }
    change [parent; bb_block built] with ([parent] ++ [bb_block built]) in Hm1.
    rewrite app_assoc in Hm1.
    destruct (IH _ _ m1 Hm1) as (n & ops & blocks' & parent' & Hrun & Hl & Hn).
    { rewrite length_app. simpl. lia. }
    exists n, (ops1 ++ ops), blocks', parent'. cbn [replicate devnet_run devnet_step].
    rewrite Htick. simpl. rewrite Hrun. split_and!; [done| |done].
    rewrite Hl, length_app. simpl. lia.
Qed.

(** C6: A devnet node alone makes a chain: started from genesis, after [k] timer ticks
    its RPC state serves exactly [k + 1] blocks, a chain built from genesis, numbered
    and linked, the tag of each number answered with that block and ["latest"] with
    the last one; the node's state is the state of that chain, its engine waits at
    height [k + 1], and every block but genesis holds no transaction and passes the
    validator of any machine on the state the chain had before it. *)
Theorem devnet_alone_extends_chain (k : nat) :
  Z.of_nat k < u64_max →
  ∃ n0 ops0 n ops blocks parent,
    devnet_start config allocs = Some (n0, ops0) ∧
    devnet_run (replicate k BlockTimer) n0 = Some (n, ops) ∧
    length (blocks ++ [parent]) = S k ∧ chain allocs (blocks ++ [parent]) (dn_execution_state n) ∧
    chain_ok (blocks ++ [parent]) (dn_execution_state n) ∧
    (∀ i, (i <= k)%nat → block_of_tag (dn_rpc_state n) (hex_u64 (Z.of_nat i)) =
       Ok ((blocks ++ [parent]) !! i)) ∧
    block_of_tag (dn_rpc_state n) (str "latest") = Ok (Some parent) ∧
    dn_consensus n = fresh_engine (Z.of_nat k + 1) ∧
    (∀ i b, (blocks ++ [parent]) !! S i = Some b → transactions b = [] ∧
       ∃ st_i, chain allocs (take (S i) (blocks ++ [parent])) st_i ∧
         ∀ (HO2 : HashOrder) (SU2 : SortUnstable),
           BlockValidator_validate_block (HO := HO2) (SU := SU2) b st_i = Ok tt).
Proof.
  intros Hk.
  destruct alone_starts as (n0 & Hstart & Hinv).
  destruct (alone_ticks k [] (create_genesis_block allocs).1 n0 Hinv) as (n & ops & blocks & parent & Hrun & Hl & Halone); [done|].
  destruct Halone as [Hchain Hempty Hblocks Hpend Hst Heng Hself].
  change (length (blocks ++ [parent]) = S k) in Hl.
  assert (Hlen : len (blocks ++ [parent]) <= u64_max) by (unfold len; lia).
  pose proof (chain_chain_ok _ _ _ Hchain Hlen) as Hok.
  exists n0, [], n, ops, blocks, parent. split_and!; try done.
  - intros i Hi. unfold block_of_tag. rewrite parse_block_tag_hex by (unfold is_u64; lia).
    simpl. f_equal. rewrite <- Hblocks, get_block_by_number_numbered, Nat2Z.id; [done| |lia].
    intros j b Hb. rewrite Hblocks in Hb. apply (ck_numbers _ _ Hok j b Hb).
  - unfold block_of_tag, parse_block_tag, EthRpcState_latest_block. rewrite Hblocks, last_snoc.
    simpl. f_equal. rewrite get_block_by_number_numbered; rewrite ?Hblocks.
    + unfold Block_number. rewrite (ck_numbers _ _ Hok (length blocks) parent), Nat2Z.id;
        by apply list_lookup_middle.
    + apply (ck_numbers _ _ Hok).
    + unfold Block_number. rewrite (ck_numbers _ _ Hok (length blocks) parent); [lia|].
      by apply list_lookup_middle.
  - rewrite Heng. f_equal. unfold len. lia.
  - intros i b Hb. destruct (chain_built_on _ _ _ _ Hchain Hb) as (st_i & p & cfg & built & Hc & _ & Hbuild & ->).
    assert (Hno : transactions (bb_block built) = []) by by apply (Forall_lookup_1 _ _ _ _ Hempty Hb).
    split; [done|]. exists st_i. split; [done|]. intros HO2 SU2. rewrite Hno in Hbuild.
    by apply (built_empty_validates HO HO2 SU SU2 cfg (header p) st_i built).
Qed.
End alone.

(** ** A concrete node *)

#[local] Existing Instance map_to_list_order.
#[local] Existing Instance stable_sort_unstable.
#[local] Existing Instance example_alloy.
#[local] Existing Instance example_types.
#[local] Existing Instance example_revm.

Definition example_config : DevnetConfig := {|
  dc_peer_id := 7; dc_listen_port := 30303; dc_rpc_port := 8545; dc_boot_peers := [];
  dc_block_time_ms := 2000; dc_chain_id := 2077 |}.
Lemma devnet_alone_extends_chain_witness :
  ∃ n0 ops0 n ops, devnet_start example_config devnet_allocs = Some (n0, ops0) ∧
    devnet_run (replicate 3 BlockTimer) n0 = Some (n, ops) ∧ dn_consensus n = fresh_engine example_config 4.
Proof.
  destruct (devnet_alone_extends_chain example_config devnet_allocs 3) as (n0 & ops0 & n & ops & blocks & parent & Hstart & Hrun & _ & _ &
    _ & _ & _ & Hengine & _); [reflexivity|].
  exists n0, ops0, n, ops. split; [exact Hstart|]. split; [exact Hrun|exact Hengine].
Defined.
