(* ===== verification/DaemonHex.v ===== *)
(** * Hexadecimal and request values of the daemon
      ([eth2077-node/src/bin/eth2077-devnetd.rs])

    Quantities, byte strings, addresses and hashes as the daemon prints and reads them,
    and the readers of JSON request values.  The [hex] crate and the 256-bit integers of
    [ruint] are the classes [HexCrate] and [Ruint], whose laws are their documentation;
    [ruint] panics on more than 256 bits, so readers of [U256] values may panic. *)
From S2P Require Import Prelude Canonical Strings Json.
Local Open Scope Z_scope.

(** [hex::encode] and [hex::decode]. *)
Class HexCrate := {
  hex_encode : list Z → Str;
  hex_decode : Str → option (list Z);
  hex_encode_spec l : hex_encode l = hex_of_bytes l;
  hex_decode_spec s : hex_decode s =
    if len s mod 2 =? 0 then (if forallb is_ascii_hexdigit s then hex_pairs s else None) else None;
}.
(** [U256]: reading from bytes panics when the value does not fit; [*] and [+] wrap. *)
Class Ruint := {
  U256_from_be_slice : list Z → outcome U256;
  U256_mul : U256 → U256 → U256;
  U256_add : U256 → U256 → U256;
  U256_from_be_slice_spec l : U256_from_be_slice l =
    if be_value l <=? u256_max then Done (be_value l) else Panics;
  U256_mul_spec a b : U256_mul a b = (a * b) mod (u256_max + 1);
  U256_add_spec a b : U256_add a b = (a + b) mod (u256_max + 1);
}.

(** ** Printing and reading *)

Section hex.
Context `{HC : HexCrate} `{RU : Ruint}.

(* eth2077-node/src/bin/eth2077-devnetd.rs:333-344 block_hash *)
Definition block_hash (height : Z) : Str :=
  let encoded_height := u64_saturating_add height 1 in
  str "0x" ++ (b ← to_be_bytes 8 encoded_height ++ zero_bytes 24; padded_hex 2 b).
(* eth2077-node/src/bin/eth2077-devnetd.rs:346-348 hex_u64 *)
Definition hex_u64 (v : Z) : Str := str "0x" ++ lower_hex v.
(* eth2077-node/src/bin/eth2077-devnetd.rs:350-352 hex_u128 *)
Definition hex_u128 (v : Z) : Str := str "0x" ++ lower_hex v.

(** [input.strip_prefix("0x").unwrap_or(input)] *)
Definition unprefixed (input : Str) : Str := default input (strip_prefix (str "0x") input).
(* eth2077-node/src/bin/eth2077-devnetd.rs:354-357 parse_hex_u64 *)
Definition parse_hex_u64 (input : Str) : option Z := from_str_radix16 u64_max (unprefixed input).
(* eth2077-node/src/bin/eth2077-devnetd.rs:359-362 parse_hex_u128 *)
Definition parse_hex_u128 (input : Str) : option Z := from_str_radix16 u128_max (unprefixed input).
(* eth2077-node/src/bin/eth2077-devnetd.rs:364-378 parse_hex_bytes *)
Definition parse_hex_bytes (input : Str) : option (list Z) :=
  let raw := unprefixed (trim input) in
  if bool_decide (raw = []) then Some [] else
  if negb (forallb is_ascii_hexdigit raw) then None else
  let normalized := if len raw mod 2 =? 1 then str "0" ++ raw else raw in
  hex_decode normalized.
(* eth2077-node/src/bin/eth2077-devnetd.rs:380-383 parse_hex_u256 *)
Definition parse_hex_u256 (input : Str) : outcome (option U256) :=
  match parse_hex_bytes input with
  | None => mret None
  | Some bytes => v ← U256_from_be_slice bytes; mret (Some v)
  end.
(* eth2077-node/src/bin/eth2077-devnetd.rs:385-391 canonical_address *)
Definition canonical_address (input : Str) : option Str :=
  let raw := trim_start_matches (str "0x") (trim input) in
  if negb (len raw =? 40) || negb (forallb is_ascii_hexdigit raw) then None
  else Some (str "0x" ++ to_ascii_lowercase raw).
(* eth2077-node/src/bin/eth2077-devnetd.rs:393-400 address_from_hex *)
Definition address_from_hex (input : Str) : option Address :=
  canonical ← canonical_address input;
  bytes ← parse_hex_bytes canonical;
  if negb (len bytes =? 20) then None else Some bytes.
(* eth2077-node/src/bin/eth2077-devnetd.rs:402-404 address_to_hex *)
Definition address_to_hex (address : Address) : Str := str "0x" ++ hex_encode address.
(* eth2077-node/src/bin/eth2077-devnetd.rs:406-408 b256_to_hex *)
Definition b256_to_hex (value : B256) : Str := str "0x" ++ hex_encode value.
(* eth2077-node/src/bin/eth2077-devnetd.rs:410-412 bytes_to_hex *)
Definition bytes_to_hex (data : list Z) : Str := str "0x" ++ hex_encode data.
(* eth2077-node/src/bin/eth2077-devnetd.rs:414-416 u256_to_hex *)
Definition u256_to_hex (value : U256) : Str := str "0x" ++ lower_hex value.

(** [(out << 8) | b] over at most eight bytes. *)
(* eth2077-node/src/bin/eth2077-devnetd.rs:418-427 hex_to_u64_be *)
Definition hex_to_u64_be (bytes : list Z) : result Z Str :=
  if 8 <? len bytes then Err (str "integer overflows u64")
  else Ok (foldl (λ out b, Z.lor (Z.land (Z.shiftl out 8) u64_max) b) 0 bytes).
(* eth2077-node/src/bin/eth2077-devnetd.rs:429-438 hex_to_u128_be *)
Definition hex_to_u128_be (bytes : list Z) : result Z Str :=
  if 16 <? len bytes then Err (str "integer overflows u128")
  else Ok (foldl (λ out b, Z.lor (Z.land (Z.shiftl out 8) u128_max) b) 0 bytes).

(** Reverses the [+ 1] of [block_hash]. *)
(* eth2077-node/src/bin/eth2077-devnetd.rs:760-767 block_number_from_hash *)
Definition block_number_from_hash (hash : Str) : option Z :=
  let raw := unprefixed hash in
  if negb (len raw =? 64) || negb (forallb is_ascii_hexdigit raw) then None else
  n ← parse_hex_u64 (take 16 raw);
  if n =? 0 then None else Some (n - 1).
(* eth2077-node/src/bin/eth2077-devnetd.rs:1268-1274 normalize_hash32 *)
Definition normalize_hash32 (input : Str) : option Str :=
  let raw := unprefixed (trim input) in
  if negb (len raw =? 64) || negb (forallb is_ascii_hexdigit raw) then None
  else Some (str "0x" ++ to_ascii_lowercase raw).

(** ** Request values *)

(* eth2077-node/src/bin/eth2077-devnetd.rs:1224-1232 parse_u64_value *)
Definition parse_u64_value (input : Value) : option Z :=
  match as_u64 input with
  | Some n => Some n
  | None => s ← as_str input; or_else (parse_hex_u64 s) (parse_decimal u64_max s)
  end.
(* eth2077-node/src/bin/eth2077-devnetd.rs:1234-1242 parse_u128_value *)
Definition parse_u128_value (input : Value) : option Z :=
  match as_u64 input with
  | Some n => Some n
  | None => s ← as_str input; or_else (parse_hex_u128 s) (parse_decimal u128_max s)
  end.
(* eth2077-node/src/bin/eth2077-devnetd.rs:1244-1256 parse_bool_value *)
Definition parse_bool_value (input : Value) : option bool :=
  match as_bool input with
  | Some b => Some b
  | None =>
      s ← as_str input;
      let s := to_ascii_lowercase s in
      if str_eqb s (str "true") || str_eqb s (str "1") then Some true else
      if str_eqb s (str "false") || str_eqb s (str "0") then Some false else None
  end.
(* eth2077-node/src/bin/eth2077-devnetd.rs:1258-1266 parse_u256_value *)
Definition parse_u256_value (input : Value) : outcome (option U256) :=
  match as_u64 input, as_str input with
  | Some n, _ => mret (Some n)
  | None, Some s => o ← parse_hex_u256 s; mret (or_else o (parse_decimal u128_max s))
  | None, None => mret None
  end.
(* eth2077-node/src/bin/eth2077-devnetd.rs:1447-1449 normalize_hash32_value *)
Definition normalize_hash32_value (value : option Value) : option Str :=
  v ← value; s ← as_str v; normalize_hash32 s.
(** [o.and_then(parse_u256_value)] *)
Definition and_then_u256 (o : option Value) : outcome (option U256) :=
  match o with Some v => parse_u256_value v | None => mret None end.
End hex.

(** ** Round trips *)

Lemma unprefixed_0x s : unprefixed (str "0x" ++ s) = s.
Proof. done. Qed.
Lemma hexdigit_not_x s : hexdigits s → strip_prefix (str "0x") s = None.
Proof.
  change (str "0x") with [48; 120]. destruct s as [|a [|b s]]; rewrite ?hexdigits_cons.
  - done.
  - intros _. cbn [strip_prefix]. by destruct (48 =? a).
  - intros (_ & [d Hd] & _). cbn [strip_prefix]. destruct (48 =? a); [|done].
    by destruct (Z.eqb_spec 120 b) as [<-|].
Qed.
Lemma unprefixed_hexdigits s : hexdigits s → unprefixed s = s.
Proof. intros Hs. unfold unprefixed. by rewrite hexdigit_not_x. Qed.
Lemma hexdigits_plain s : hexdigits s → Forall plain s.
Proof.
  unfold hexdigits. rewrite forallb_forall. intros Hs. apply Forall_forall. intros b Hb.
  specialize (Hs b ltac:(by apply list_elem_of_In)). unfold is_ascii_hexdigit in Hs.
  destruct (digit_value b) as [d|] eqn:Hd; [|done]. unfold digit_value, plain in *.
  repeat case_if_in Hd; try done; bool_to_prop; lia.
Qed.
Lemma plain_0x s : hexdigits s → Forall plain (str "0x" ++ s).
Proof. intros Hs. repeat (apply Forall_cons; split; [done|]). by apply hexdigits_plain. Qed.

Section roundtrips.
Context `{HC : HexCrate} `{RU : Ruint}.

Lemma parse_hex_bytes_hexdigits s :
  hexdigits s → ∃ bytes, parse_hex_bytes (str "0x" ++ s) = Some bytes ∧ be_value bytes = hex_value 0 s.
Proof.
  intros Hs. unfold parse_hex_bytes. rewrite trim_plain, unprefixed_0x by by apply plain_0x.
  case_bool_decide as Hnil; [subst; by exists []|]. rewrite Hs. cbn [negb].
  set (s' := if len s mod 2 =? 1 then _ else _).
  assert (Hs' : hexdigits s' ∧ hex_value 0 s' = hex_value 0 s ∧ len s' mod 2 = 0).
  { pose proof (Z.mod_pos_bound (len s) 2 ltac:(lia)). unfold s'. destruct (Z.eqb_spec (len s mod 2) 1) as [Hodd|].
    - split_and!; [by apply hexdigits_cons|done|]. unfold len in *. rewrite length_app. simpl length.
      rewrite Nat2Z.inj_add, Z.add_mod, Hodd by lia. done.
    - split_and!; [done|done|lia]. }
  destruct Hs' as (Hd & Hv & Hm). rewrite hex_decode_spec, Hm, Hd.
  destruct (hex_pairs_value _ 0 s' (le_n _) Hd Hm) as (out & -> & Hout). exists out.
  split; [done|]. lia.
Qed.
Lemma parse_hex_u256_hexdigits s :
  hexdigits s → parse_hex_u256 (str "0x" ++ s) =
    if hex_value 0 s <=? u256_max then Done (Some (hex_value 0 s)) else Panics.
Proof.
  intros (bytes & Hb & Hv)%parse_hex_bytes_hexdigits. unfold parse_hex_u256.
  rewrite Hb, U256_from_be_slice_spec, Hv. by destruct (hex_value 0 s <=? u256_max).
Qed.
Lemma parse_hex_of_bytes l : Forall is_byte l → parse_hex_bytes (str "0x" ++ hex_of_bytes l) = Some l.
Proof.
  intros Hl. pose proof (hexdigits_hex_of_bytes l Hl) as Hd.
  unfold parse_hex_bytes. rewrite trim_plain, unprefixed_0x by by apply plain_0x.
  case_bool_decide as Hnil.
  { pose proof (length_hex_of_bytes l) as Hlen. rewrite Hnil in Hlen. by destruct l. }
  rewrite Hd. cbn [negb].
  assert (Hm : len (hex_of_bytes l) mod 2 = 0).
  { unfold len. rewrite length_hex_of_bytes, Nat2Z.inj_mul, Z.mul_comm. by apply Z.mod_mul. }
  rewrite Hm. cbn [Z.eqb]. rewrite hex_decode_spec, Hm, Hd. by apply hex_pairs_of_bytes.
Qed.
Lemma trim_start_0x s : hexdigits s → trim_start_matches (str "0x") (str "0x" ++ s) = s.
Proof.
  intros Hs. unfold trim_start_matches. change (length (str "0x" ++ s)) with (S (S (length s))).
  change (trim_start_loop (S (length s)) (str "0x") s = s).
  cbn [trim_start_loop]. by rewrite hexdigit_not_x.
Qed.
Lemma canonical_address_0x s :
  hexdigits s → len s = 40 → canonical_address (str "0x" ++ s) = Some (str "0x" ++ to_ascii_lowercase s).
Proof.
  intros Hs Hlen. unfold canonical_address.
  rewrite trim_plain, trim_start_0x, Hlen, Hs by (try apply plain_0x; done). done.
Qed.
Lemma canonical_address_some input a :
  canonical_address input = Some a → ∃ s, a = str "0x" ++ to_ascii_lowercase s ∧ hexdigits s ∧ len s = 40.
Proof.
  unfold canonical_address. set (s := trim_start_matches _ _). case_if_goal; [done|]. intros [= <-].
  bool_to_prop. by exists s.
Qed.
Lemma canonical_address_idempotent input a :
  canonical_address input = Some a → canonical_address a = Some a.
Proof.
  intros (s & -> & Hs & Hlen)%canonical_address_some.
  destruct (to_ascii_lowercase_hex 0 s Hs) as (Hd & _ & Hid).
  rewrite canonical_address_0x; [by rewrite Hid|done|].
  unfold len, to_ascii_lowercase in *. by rewrite length_fmap.
Qed.
(** A canonical address always names one: 20 bytes. *)
Lemma address_from_hex_canonical input a :
  canonical_address input = Some a →
  ∃ address, address_from_hex a = Some address ∧ address_from_hex input = Some address ∧
    length address = 20%nat ∧ Forall is_byte address.
Proof.
  intros Hc. unfold address_from_hex.
  rewrite (canonical_address_idempotent _ _ Hc), Hc. simpl.
  destruct (canonical_address_some _ _ Hc) as (s & -> & Hs & Hlen).
  destruct (to_ascii_lowercase_hex 0 s Hs) as (Hd & _ & _). set (t := to_ascii_lowercase s) in *.
  assert (Ht : length t = 40%nat).
  { unfold t, to_ascii_lowercase. rewrite length_fmap. unfold len in Hlen. lia. }
  unfold parse_hex_bytes. rewrite trim_plain, unprefixed_0x by by apply plain_0x.
  case_bool_decide as Hnil; [by rewrite Hnil in Ht|]. rewrite Hd. cbn [negb].
  unfold len. rewrite Ht. change (Z.of_nat 40 mod 2 =? 1) with false. cbn iota.
  rewrite hex_decode_spec. unfold len. rewrite Ht, Hd. change (Z.of_nat 40 mod 2 =? 0) with true. cbn iota.
  destruct (hex_pairs t) as [out|] eqn:Hout.
  - assert (Hl : length out = 20%nat).
    { clear -Hout Ht. do 40 (destruct t as [|? t]; [done|]). destruct t; [|done]. simpl in Hout.
      repeat match type of Hout with context [digit_value ?z] =>
        destruct (digit_value z) as [?|]; cbn [mbind option_bind] in Hout; [|done] end.
      by simplify_eq/=. }
    exists out. cbn [mbind option_bind]. rewrite Hl. split_and!; try done. by eapply hex_pairs_bytes.
  - destruct (hex_pairs_value _ 0 t (le_n _) Hd) as (out & Hout' & _); [|congruence].
    unfold len. by rewrite Ht.
Qed.

Lemma parse_hex_u64_hex n : is_u64 n → parse_hex_u64 (hex_u64 n) = Some n.
Proof. intros Hn. apply (from_str_radix16_lower_hex u64_max n); [done|lia]. Qed.
Lemma parse_hex_u128_hex n : 0 <= n <= u128_max → parse_hex_u128 (hex_u128 n) = Some n.
Proof. intros Hn. by apply (from_str_radix16_lower_hex u128_max n). Qed.
Lemma parse_hex_u256_hex n : 0 <= n <= u256_max → parse_hex_u256 (u256_to_hex n) = Done (Some n).
Proof.
  intros Hn. unfold u256_to_hex. destruct (lower_hex_value n Hn) as [Hd Hv].
  rewrite parse_hex_u256_hexdigits, Hv by done. by rewrite (proj2 (Z.leb_le _ _) (proj2 Hn)).
Qed.
Lemma lowercase_hex_of_bytes a : Forall is_byte a → to_ascii_lowercase (hex_of_bytes a) = hex_of_bytes a.
Proof.
  unfold to_ascii_lowercase, hex_of_bytes. induction 1 as [|b l Hb Hl IH]; [done|].
  csimpl in *. rewrite IH. destruct (is_byte_codes b Hb) as (_ & _ & _ & Rhi & Rlo).
  assert (Hdig : ∀ n, 0 <= n < 16 →
    (if (65 <=? hex_digit n) && (hex_digit n <=? 90) then hex_digit n + 32 else hex_digit n) = hex_digit n).
  { intros n Hn. unfold hex_digit. repeat case_if_goal; bool_to_prop; lia. }
  by rewrite !Hdig.
Qed.
Lemma canonical_address_to_hex a :
  length a = 20%nat → Forall is_byte a → canonical_address (address_to_hex a) = Some (address_to_hex a).
Proof.
  intros Hlen Ha. unfold address_to_hex. rewrite hex_encode_spec, canonical_address_0x.
  - by rewrite lowercase_hex_of_bytes.
  - by apply hexdigits_hex_of_bytes.
  - unfold len. rewrite length_hex_of_bytes. lia.
Qed.
Lemma address_roundtrip a :
  length a = 20%nat → Forall is_byte a → address_from_hex (address_to_hex a) = Some a.
Proof.
  intros Hlen Ha. unfold address_from_hex. rewrite canonical_address_to_hex by done. cbn [mbind option_bind].
  unfold address_to_hex. rewrite hex_encode_spec, (parse_hex_of_bytes a Ha). cbn [mbind option_bind].
  unfold len. by rewrite Hlen.
Qed.
Lemma padded_byte b : is_byte b → padded_hex 2 b = hex_of_bytes [b].
Proof.
  intros Hb. assert (Hall : forallb (λ b, bool_decide (padded_hex 2 b = hex_of_bytes [b])) (seqZ 0 256) = true)
    by (vm_compute; reflexivity).
  rewrite forallb_forall in Hall. specialize (Hall b). rewrite bool_decide_eq_true in Hall.
  apply Hall, list_elem_of_In, elem_of_seqZ. unfold is_byte in Hb. lia.
Qed.
Lemma padded_bytes l : Forall is_byte l → (b ← l; padded_hex 2 b) = hex_of_bytes l.
Proof.
  unfold hex_of_bytes. induction 1 as [|b l Hb Hl IH]; [done|]. csimpl. rewrite IH.
  by rewrite padded_byte.
Qed.
Lemma block_hash_eq height :
  block_hash height = str "0x" ++ hex_of_bytes (to_be_bytes 8 (u64_saturating_add height 1) ++ zero_bytes 24).
Proof.
  unfold block_hash. f_equal. apply padded_bytes, Forall_app. split; [apply to_be_bytes_range|].
  apply Forall_replicate. sat_lia.
Qed.
Lemma block_number_from_block_hash n :
  is_u64 n → block_number_from_hash (block_hash n) = Some (Z.min n (u64_max - 1)).
Proof.
  intros Hn. rewrite block_hash_eq. unfold block_number_from_hash. rewrite unprefixed_0x.
  set (be := to_be_bytes 8 (u64_saturating_add n 1)).
  assert (Hbe : Forall is_byte be) by apply to_be_bytes_range.
  assert (Hl : Forall is_byte (be ++ zero_bytes 24)).
  { apply Forall_app. split; [done|]. apply Forall_replicate. sat_lia. }
  assert (Hlen : length be = 8%nat) by apply length_to_be_bytes.
  rewrite hexdigits_hex_of_bytes by done. unfold len. rewrite length_hex_of_bytes, length_app, Hlen. simpl orb.
  assert (Htake : take 16 (hex_of_bytes (be ++ zero_bytes 24)) = hex_of_bytes be).
  { unfold hex_of_bytes. rewrite bind_app. apply take_app_length'.
    change (length (hex_of_bytes be) = 16%nat). rewrite length_hex_of_bytes. lia. }
  cbn iota. rewrite Htake. pose proof (hexdigits_hex_of_bytes be Hbe) as Hd. unfold parse_hex_u64.
  rewrite unprefixed_hexdigits by done.
  assert (Hv : hex_value 0 (hex_of_bytes be) = u64_saturating_add n 1).
  { rewrite hex_of_bytes_value by done. apply be_value_to_be_bytes. simpl. sat_lia. }
  assert (Hr : from_str_radix16 u64_max (hex_of_bytes be) = Some (u64_saturating_add n 1)).
  { assert (Hloop : radix16_loop u64_max 0 (hex_of_bytes be) = Some (u64_saturating_add n 1)).
    { rewrite radix16_loop_hexdigits; [by rewrite Hv|done|done|]. rewrite Hv. sat_lia. }
    unfold from_str_radix16. destruct (hex_of_bytes be) as [|b s] eqn:Hs.
    { pose proof (length_hex_of_bytes be) as Hlen'. rewrite Hs, Hlen in Hlen'. done. }
    destruct (Z.eqb_spec b 43) as [->|]; [|done].
    apply hexdigits_cons in Hd as [[d Hd] _]. vm_compute in Hd. done. }
  rewrite Hr. cbn [mbind option_bind].
  destruct (Z.eqb_spec (u64_saturating_add n 1) 0); [sat_lia|]. f_equal. sat_lia.
Qed.
End roundtrips.

(** ** What the readers promise *)

Lemma decimal_loop_hex k fuel n :
  0 <= n < 10 ^ Z.of_nat k → (k <= fuel)%nat →
  hexdigits (decimal_loop fuel n) ∧ n <= hex_value 0 (decimal_loop fuel n) < 16 ^ Z.of_nat k ∧
  (10 <= n → n < hex_value 0 (decimal_loop fuel n)).
Proof.
  revert fuel n. induction k as [|k IH]; intros fuel n Hn Hk.
  { simpl in Hn. assert (n = 0) as -> by lia. destruct fuel; simpl; split_and!; done || lia. }
  destruct fuel as [|fuel]; [lia|]. cbn [decimal_loop].
  rewrite Nat2Z.inj_succ, Z.pow_succ_r in Hn by lia. rewrite Nat2Z.inj_succ, Z.pow_succ_r by lia.
  assert (Hdig : ∀ d, 0 <= d < 10 → digit_value (48 + d) = Some d).
  { intros d Hd. unfold digit_value.
    rewrite (proj2 (Z.leb_le _ _)), (proj2 (Z.leb_le _ _)) by lia. simpl. f_equal. lia. }
  assert (0 < 16 ^ Z.of_nat k) by (apply Z.pow_pos_nonneg; lia).
  destruct (Z.ltb_spec n 10) as [Hs|Hb].
  - rewrite hexdigits_cons, Hdig by lia. unfold hex_value. simpl. rewrite Hdig by lia. simpl.
    split_and!; try done; lia.
  - pose proof (Z.div_mod n 10 ltac:(lia)). pose proof (Z.mod_pos_bound n 10 ltac:(lia)).
    destruct (IH fuel (n / 10)) as (Hd & Hv & Hlt); [|lia|].
    { split; [apply Z.div_pos; lia|apply Z.div_lt_upper_bound; lia]. }
    rewrite hexdigits_app, hexdigits_cons. unfold hex_value in *. rewrite foldl_app. simpl.
    rewrite Hdig by lia. simpl. assert (1 <= n / 10) by (apply Z.div_le_lower_bound; lia).
    split_and!; try done; lia.
Qed.

Section readers.
Context `{HC : HexCrate} `{RU : Ruint}.

(** C37: Everything the daemon prints it reads back: quantities of 64, 128 and 256 bits,
    addresses, and block hashes, whose number is recovered (except that the two largest
    heights share a hash). *)
Theorem quantities_roundtrip :
  (∀ n, is_u64 n → parse_u64_value (VString (hex_u64 n)) = Some n) ∧
  (∀ n, 0 <= n <= u128_max → parse_u128_value (VString (hex_u128 n)) = Some n) ∧
  (∀ n, 0 <= n <= u256_max → parse_u256_value (VString (u256_to_hex n)) = Done (Some n)) ∧
  (∀ a, length a = 20%nat → Forall is_byte a → address_from_hex (address_to_hex a) = Some a) ∧
  (∀ n, is_u64 n → block_number_from_hash (block_hash n) = Some (Z.min n (u64_max - 1))).
Proof.
  split_and!.
  - intros n Hn. unfold parse_u64_value. cbn [as_u64 as_str mbind option_bind].
    by rewrite parse_hex_u64_hex.
  - intros n Hn. unfold parse_u128_value. cbn [as_u64 as_str mbind option_bind].
    by rewrite parse_hex_u128_hex.
  - intros n Hn. unfold parse_u256_value. cbn [as_u64 as_str mbind].
    by rewrite parse_hex_u256_hex.
  - apply address_roundtrip.
  - apply block_number_from_block_hash.
Qed.

(** A decimal string is misread: with two to sixteen digits the reader takes it for
    hexadecimal, and the value it gives is larger; the decimal reading the code falls
    back to is never reached.  A JSON number of the same value is read correctly. *)
Theorem decimal_strings_misread (n : Z) :
  10 <= n < 10 ^ 16 →
  parse_u64_value (VNumber (PosInt n)) = Some n ∧
  ∃ v, parse_u64_value (VString (decimal n)) = Some v ∧ n < v.
Proof.
  intros Hn. split; [done|]. destruct (decimal_loop_hex 16 40 n) as (Hd & Hv & Hlt); [simpl; lia|lia|].
  exists (hex_value 0 (decimal n)). split; [|apply Hlt; lia]. unfold parse_u64_value.
  cbn [as_u64 as_str mbind option_bind]. unfold parse_hex_u64. rewrite unprefixed_hexdigits by done.
  unfold from_str_radix16. fold (decimal n) in *. destruct (decimal n) as [|b s] eqn:Hs.
  { simpl in Hv. unfold hex_value in Hv. simpl in Hv. lia. }
  rewrite (radix16_loop_hexdigits u64_max 0 (b :: s)); [|done|done|simpl in *; lia].
  destruct (Z.eqb_spec b 43) as [->|]; [|done]. apply hexdigits_cons in Hd as [[d Hd] _].
  vm_compute in Hd. done.
Qed.
End readers.

(** ** Instances: the documented behaviour itself *)

Definition example_hex_crate : HexCrate := {|
  hex_encode := hex_of_bytes;
  hex_decode s := if len s mod 2 =? 0 then (if forallb is_ascii_hexdigit s then hex_pairs s else None) else None;
  hex_encode_spec l := eq_refl; hex_decode_spec s := eq_refl |}.
Definition example_ruint : Ruint := {|
  U256_from_be_slice l := if be_value l <=? u256_max then Done (be_value l) else Panics;
  U256_mul a b := (a * b) mod (u256_max + 1); U256_add a b := (a + b) mod (u256_max + 1);
  U256_from_be_slice_spec l := eq_refl; U256_mul_spec a b := eq_refl; U256_add_spec a b := eq_refl |}.

Lemma decimal_strings_misread_witness :
  parse_u64_value (VNumber (PosInt 12)) = Some 12 ∧
  ∃ v, parse_u64_value (VString (decimal 12)) = Some v ∧ 12 < v.
Proof. refine (decimal_strings_misread 12 _). lia. Defined.
