(* ===== verification/DaemonState.v ===== *)
(** * The daemon's state ([eth2077-node/src/bin/eth2077-devnetd.rs], [NodeState])

    The records of the daemon.  [NodeState] is one struct in the source; here its fields
    are grouped by the handlers that use them: the constants of the node, the ledger
    (transactions, blocks and the EVM database), the inclusion list (FOCIL), the EIP-7732
    registries and the market.  revm's [InMemoryDB] is the type [EvmDb] of the class
    [EvmTypes]; reading it does not change it. *)
From S2P Require Import Prelude Canonical Floats Strings.
Local Open Scope Z_scope.

(** What the daemon uses of revm: its in-memory database and the execution of one
    transaction, with or without commit. *)
Class EvmTypes := { EvmDb : Type; EvmBytecode : Type }.
Record EvmLog := { el_address : Address; el_topics : list B256; el_data : Bytes }.

(* eth2077-node/src/bin/eth2077-devnetd.rs:43-50 EngineTxMeta *)
Record EngineTxMeta := {
  tm_hash : Str;
  tm_from : option Str;
  tm_nonce : option Z;
  tm_gas_limit : option Z;
  tm_gas_price : option Z;
  tm_value : option U256;
}.
(* eth2077-node/src/bin/eth2077-devnetd.rs:53-62 Engine7732HeaderRecord *)
Record Engine7732HeaderRecord := {
  hd_slot : Z;
  hd_payload_header_root : Str;
  hd_parent_beacon_block_root : option Str;
  hd_execution_block_hash : option Str;
  hd_proposer : option Str;
  hd_bid_value_wei : option U256;
  hd_view_id : option Z;
  hd_received_at_unix_s : Z;
}.
(* eth2077-node/src/bin/eth2077-devnetd.rs:65-73 Engine7732EnvelopeRecord *)
Record Engine7732EnvelopeRecord := {
  ev_slot : Z;
  ev_payload_header_root : Str;
  ev_execution_block_hash : option Str;
  ev_payload_body_hash : option Str;
  ev_signer : option Str;
  ev_data_available : bool;
  ev_revealed_at_unix_s : Z;
}.
(* eth2077-node/src/bin/eth2077-devnetd.rs:76-83 Engine7732PenaltyRecord *)
Record Engine7732PenaltyRecord := {
  pn_slot : Z;
  pn_state : Str;
  pn_reason : Str;
  pn_last_status : Str;
  pn_activated_at_unix_s : Z;
  pn_recovered_at_unix_s : option Z;
}.
(* eth2077-node/src/bin/eth2077-devnetd.rs:155-173 TxRecord *)
Record TxRecord := {
  tx_hash : Str;
  tx_from : Str;
  tx_to : option Str;
  tx_nonce : Z;
  tx_gas : Z;
  tx_gas_price : Z;
  tx_max_priority_fee_per_gas : option Z;
  tx_max_fee_per_blob_gas : option Z;
  tx_blob_versioned_hashes : list Str;
  tx_authorization_list_len : Z;
  tx_value : Str;
  tx_input : Str;
  tx_type : Str;
  tx_contract_address : option Str;
  tx_block_number : option Z;
  tx_block_hash : option Str;
  tx_transaction_index : option Z;
}.
(* eth2077-node/src/bin/eth2077-devnetd.rs:176-185 TxLogRecord *)
Record TxLogRecord := {
  tl_address : Str;
  tl_topics : list Str;
  tl_data : Str;
  tl_block_number : option Z;
  tl_block_hash : option Str;
  tl_transaction_hash : option Str;
  tl_transaction_index : option Z;
  tl_log_index : option Z;
}.
(* eth2077-node/src/bin/eth2077-devnetd.rs:188-203 TxReceiptRecord *)
Record TxReceiptRecord := {
  tr_tx_hash : Str;
  tr_from : Str;
  tr_to : option Str;
  tr_contract_address : option Str;
  tr_gas_used : Z;
  tr_cumulative_gas_used : Z;
  tr_effective_gas_price : Z;
  tr_tx_type : Str;
  tr_status : bool;
  tr_logs_bloom : Str;
  tr_block_number : option Z;
  tr_block_hash : option Str;
  tr_transaction_index : option Z;
  tr_logs : list TxLogRecord;
}.
(* eth2077-node/src/bin/eth2077-devnetd.rs:231-241 MarketNft *)
Record MarketNft := {
  mn_token_id : Z;
  mn_name : Str;
  mn_description : Str;
  mn_image : Str;
  mn_owner : Str;
  mn_listed : bool;
  mn_price_wei : Z;
  mn_created_at_unix_s : Z;
  mn_last_tx_hash : option Str;
}.
(* eth2077-node/src/bin/eth2077-devnetd.rs:244-254 MarketReceipt *)
Record MarketReceipt := {
  mr_tx_hash : Str;
  mr_token_id : Z;
  mr_buyer : Str;
  mr_seller : Str;
  mr_price_wei : Z;
  mr_chain_id : Z;
  mr_block_number_hint : Z;
  mr_timestamp_unix_s : Z;
  mr_signature : Str;
}.

(** The fields [engine_7732_*]. *)
(* eth2077-node/src/bin/eth2077-devnetd.rs:133-141 NodeState *)
Record Registry7732 := {
  headers_by_slot : gmap Z (list Str);
  headers_by_root : gmap Str Engine7732HeaderRecord;
  envelopes_by_root : gmap Str Engine7732EnvelopeRecord;
  penalties_by_slot : gmap Z Engine7732PenaltyRecord;
}.
(** The fields [engine_required_il_*] and [engine_focil_*]. *)
(* eth2077-node/src/bin/eth2077-devnetd.rs:115-132 NodeState *)
Record FocilState := {
  required_il_txs : list Str;
  required_il_meta : gmap Str EngineTxMeta;
  required_il_slot : option Z;
  required_il_updated_at_unix_s : option Z;
  focil_committee : list Str;
  focil_view_frozen : bool;
  focil_frozen_slot : option Z;
  focil_frozen_il_root : option Str;
  focil_view_id : option Z;
}.
(* eth2077-node/src/bin/eth2077-devnetd.rs:145-151 NodeState *)
Record MarketState := {
  market_nfts : gmap Z MarketNft;
  next_market_token_id : Z;
  market_receipts : gmap Str MarketReceipt;
}.
(** What [build_state] sets and nothing changes. *)
(* eth2077-node/src/bin/eth2077-devnetd.rs:87-101 NodeState *)
Record NodeInfo := {
  node_id : Z;
  nodes : Z;
  rpc_port : Z;
  p2p_port : Z;
  chain_id : Z;
  network : Str;
  started_at_unix_s : Z;
  peers_target : Z;
  peers_connected : Z;
  ingress_capacity_tps : f64;
  execution_capacity_tps : f64;
  oob_capacity_tps : f64;
  bridge_replay_safe : bool;
}.

Section state.
Context `{EvmTypes}.

(** revm's [AccountInfo]. *)
Record EvmAccountInfo := {
  ea_balance : U256;
  ea_nonce : Z;
  ea_code_hash : B256;
  ea_code : option EvmBytecode;
}.
(** Transactions, blocks and accounts. *)
(* eth2077-node/src/bin/eth2077-devnetd.rs:102-144 NodeState *)
Record Ledger := MkLedger {
  pending_txs : list Str;
  txs : gmap Str TxRecord;
  block_txs : gmap Z (list Str);
  block_timestamps : gmap Z Z;
  nonce_by_address : gmap Str Z;
  pending_nonce_address_hint : option Str;
  tx_counter : Z;
  evm_db : EvmDb;
  tx_receipts : gmap Str TxReceiptRecord;
}.
(* eth2077-node/src/bin/eth2077-devnetd.rs:86-152 NodeState *)
Record NodeState := MkNodeState {
  info : NodeInfo;
  current_height : Z;
  finalized_height : Z;
  ledger : Ledger;
  focil : FocilState;
  registry : Registry7732;
  market : MarketState;
}.

Definition with_ledger (l : Ledger) (st : NodeState) : NodeState :=
  MkNodeState (info st) (current_height st) (finalized_height st) l (focil st) (registry st) (market st).
Definition with_focil (f : FocilState) (st : NodeState) : NodeState :=
  MkNodeState (info st) (current_height st) (finalized_height st) (ledger st) f (registry st) (market st).
Definition with_registry (r : Registry7732) (st : NodeState) : NodeState :=
  MkNodeState (info st) (current_height st) (finalized_height st) (ledger st) (focil st) r (market st).
Definition with_market (m : MarketState) (st : NodeState) : NodeState :=
  MkNodeState (info st) (current_height st) (finalized_height st) (ledger st) (focil st) (registry st) m.
Definition with_evm_db (db : EvmDb) (l : Ledger) : Ledger :=
  MkLedger (pending_txs l) (txs l) (block_txs l) (block_timestamps l) (nonce_by_address l)
    (pending_nonce_address_hint l) (tx_counter l) db (tx_receipts l).
Definition with_hint (hint : option Str) (l : Ledger) : Ledger :=
  MkLedger (pending_txs l) (txs l) (block_txs l) (block_timestamps l) (nonce_by_address l)
    hint (tx_counter l) (evm_db l) (tx_receipts l).
End state.

(** Instances for the examples: accounts are all there is to the database. *)
Definition example_info : NodeInfo := {|
  node_id := 0; nodes := 1; rpc_port := 9545; p2p_port := 30303; chain_id := 2077;
  network := str "eth2077-devnet"; started_at_unix_s := 1000; peers_target := 0; peers_connected := 0;
  ingress_capacity_tps := f64_zero; execution_capacity_tps := f64_zero; oob_capacity_tps := f64_zero;
  bridge_replay_safe := true |}.
Definition example_state `{EvmTypes} (db : EvmDb) : NodeState := {|
  info := example_info; current_height := 0; finalized_height := 0;
  ledger := MkLedger [] ∅ ∅ ∅ ∅ None 0 db ∅;
  focil := {| required_il_txs := []; required_il_meta := ∅; required_il_slot := None;
    required_il_updated_at_unix_s := None; focil_committee := []; focil_view_frozen := false;
    focil_frozen_slot := None; focil_frozen_il_root := None; focil_view_id := None |};
  registry := {| headers_by_slot := ∅; headers_by_root := ∅; envelopes_by_root := ∅; penalties_by_slot := ∅ |};
  market := {| market_nfts := ∅; next_market_token_id := 4; market_receipts := ∅ |} |}.
