(* ===== verification/Epbs.v ===== *)
(** * Payload timeliness of EIP-7732 ([eth2077-node/src/bin/eth2077-devnetd.rs], [engine_7732_*])

    Builders register payload headers, then reveal the payloads as envelopes; a slot whose
    headers are not all revealed by its deadline is a timeliness violation, for which the
    fork choice records a penalty.  Headers and envelopes are kept by root, headers also
    by slot.  Handlers read requests as JSON and answer in JSON; the clock they read when
    the request names no time is the argument [now]. *)
From S2P Require Import Prelude Canonical Strings Json DaemonHex DaemonState.
Local Open Scope Z_scope.

Section epbs.
Context `{ET : EvmTypes} `{HO : HashOrder} `{HC : HexCrate} `{RU : Ruint} `{AL : Alloy} `{JT : JsonText}.

(** ** Reading requests *)

(* eth2077-node/src/bin/eth2077-devnetd.rs:1451-1460 engine_7732_payload_header_source *)
Definition engine_7732_payload_header_source (req : Value) : option Value :=
  or_else (get "payloadHeader" req)
  (or_else (get "signedExecutionPayloadHeader" req)
  (or_else (get "executionPayloadHeader" req) (param 0 req))).
(* eth2077-node/src/bin/eth2077-devnetd.rs:1462-1471 engine_7732_payload_envelope_source *)
Definition engine_7732_payload_envelope_source (req : Value) : option Value :=
  or_else (get "payloadEnvelope" req)
  (or_else (get "signedExecutionPayloadEnvelope" req)
  (or_else (get "executionPayloadEnvelope" req) (param 0 req))).
(* eth2077-node/src/bin/eth2077-devnetd.rs:1473-1483 engine_7732_payload_header_root_from_value *)
Definition engine_7732_payload_header_root_from_value (value : Value) : option Str :=
  let message := default value (get "message" value) in
  normalize_hash32_value
    (or_else (get "payloadHeaderRoot" message)
    (or_else (get "executionPayloadHeaderRoot" message)
    (or_else (get "headerRoot" message)
    (or_else (get "payloadRoot" message) (get "root" message))))).
(** Without a root in the message, the hash of its text. *)
(* eth2077-node/src/bin/eth2077-devnetd.rs:1498-1502 engine_7732_parse_header_record *)
Definition message_root (message : Value) : Str :=
  let encoded := match json_to_string message with Ok s => s | Err _ => str "{}" end in
  bytes_to_hex (keccak256 encoded).
(** [canonical_address(raw).unwrap_or_else(|| raw.to_string())] *)
Definition canonical_or_raw (v : Value) : option Str :=
  raw ← as_str v; Some (default raw (canonical_address raw)).

(* eth2077-node/src/bin/eth2077-devnetd.rs:1485-1537 engine_7732_parse_header_record *)
Definition engine_7732_parse_header_record (now : Z) (req : Value) (fallback_slot : Z)
  : outcome (result Engine7732HeaderRecord Str) :=
  match engine_7732_payload_header_source req with
  | None => mret (Err (str "missing payload header object"))
  | Some source =>
      let message := default source (get "message" source) in
      bid_value ← and_then_u256 (or_else (get "bidValue" message) (get "bidValueWei" message));
      mret (Ok {|
        hd_slot := default fallback_slot
          (or_else (get "slot" message ≫= parse_u64_value) (get "slot" req ≫= parse_u64_value));
        hd_payload_header_root := default (message_root message)
          (engine_7732_payload_header_root_from_value source);
        hd_parent_beacon_block_root := normalize_hash32_value
          (or_else (get "parentBeaconBlockRoot" message) (get "parentRoot" message));
        hd_execution_block_hash := normalize_hash32_value
          (or_else (get "executionBlockHash" message) (get "blockHash" message));
        hd_proposer := or_else (get "proposer" message)
          (or_else (get "proposerAddress" message) (get "builder" message)) ≫= canonical_or_raw;
        hd_bid_value_wei := bid_value;
        hd_view_id := or_else (get "viewId" message) (get "view" message) ≫= parse_u64_value;
        hd_received_at_unix_s := default now
          (or_else (get "receivedAtUnixS" req) (get "receivedAtUnixS" message) ≫= parse_u64_value);
      |})
  end.

(* eth2077-node/src/bin/eth2077-devnetd.rs:1539-1589 engine_7732_parse_envelope_record *)
Definition engine_7732_parse_envelope_record (now : Z) (req : Value) (fallback_slot : Z)
  : result Engine7732EnvelopeRecord Str :=
  match engine_7732_payload_envelope_source req with
  | None => Err (str "missing payload envelope object")
  | Some source =>
      let message := default source (get "message" source) in
      Ok {|
        ev_slot := default fallback_slot
          (or_else (get "slot" message ≫= parse_u64_value) (get "slot" req ≫= parse_u64_value));
        ev_payload_header_root := default (message_root message)
          (engine_7732_payload_header_root_from_value source);
        ev_execution_block_hash := normalize_hash32_value
          (or_else (get "executionBlockHash" message) (get "blockHash" message));
        ev_payload_body_hash := normalize_hash32_value
          (or_else (get "payloadBodyHash" message)
          (or_else (get "payloadHash" message) (get "bodyRoot" message)));
        ev_signer := or_else (get "signer" message)
          (or_else (get "builder" message) (get "revealer" message)) ≫= canonical_or_raw;
        ev_data_available := default true (get "dataAvailable" message ≫= as_bool);
        ev_revealed_at_unix_s := default now
          (or_else (get "revealedAtUnixS" req) (get "revealedAtUnixS" message) ≫= parse_u64_value);
      |}
  end.

(* eth2077-node/src/bin/eth2077-devnetd.rs:1707-1716 engine_7732_current_unix_s_from_req_with_param *)
Definition engine_7732_current_unix_s_from_req_with_param (req : Value) (param_index : nat) : option Z :=
  or_else (get "currentUnixS" req ≫= parse_u64_value) (param param_index req ≫= parse_u64_value).
(* eth2077-node/src/bin/eth2077-devnetd.rs:1718-1720 engine_7732_current_unix_s_from_req *)
Definition engine_7732_current_unix_s_from_req (req : Value) : option Z :=
  engine_7732_current_unix_s_from_req_with_param req 1.

(** ** Records *)

(* eth2077-node/src/bin/eth2077-devnetd.rs:1591-1602 engine_7732_header_to_json *)
Definition engine_7732_header_to_json (header : Engine7732HeaderRecord) : Value := obj
  ["slot" ⟼ VString (hex_u64 (hd_slot header));
   "payloadHeaderRoot" ⟼ VString (hd_payload_header_root header);
   "parentBeaconBlockRoot" ⟼ opt VString (hd_parent_beacon_block_root header);
   "executionBlockHash" ⟼ opt VString (hd_execution_block_hash header);
   "proposer" ⟼ opt VString (hd_proposer header);
   "bidValue" ⟼ opt (λ v, VString (u256_to_hex v)) (hd_bid_value_wei header);
   "viewId" ⟼ opt (λ v, VString (hex_u64 v)) (hd_view_id header);
   "receivedAtUnixS" ⟼ num (hd_received_at_unix_s header)].
(* eth2077-node/src/bin/eth2077-devnetd.rs:1604-1614 engine_7732_envelope_to_json *)
Definition engine_7732_envelope_to_json (envelope : Engine7732EnvelopeRecord) : Value := obj
  ["slot" ⟼ VString (hex_u64 (ev_slot envelope));
   "payloadHeaderRoot" ⟼ VString (ev_payload_header_root envelope);
   "executionBlockHash" ⟼ opt VString (ev_execution_block_hash envelope);
   "payloadBodyHash" ⟼ opt VString (ev_payload_body_hash envelope);
   "signer" ⟼ opt VString (ev_signer envelope);
   "dataAvailable" ⟼ VBool (ev_data_available envelope);
   "revealedAtUnixS" ⟼ num (ev_revealed_at_unix_s envelope)].
(* eth2077-node/src/bin/eth2077-devnetd.rs:1641-1650 engine_7732_penalty_to_json *)
Definition engine_7732_penalty_to_json (record : Engine7732PenaltyRecord) : Value := obj
  ["slot" ⟼ VString (hex_u64 (pn_slot record));
   "state" ⟼ VString (pn_state record);
   "reason" ⟼ VString (pn_reason record);
   "lastStatus" ⟼ VString (pn_last_status record);
   "activatedAtUnixS" ⟼ num (pn_activated_at_unix_s record);
   "recoveredAtUnixS" ⟼ opt num (pn_recovered_at_unix_s record)].

(** Everything but the time of receipt. *)
(* eth2077-node/src/bin/eth2077-devnetd.rs:1616-1627 engine_7732_header_conflicts *)
Definition engine_7732_header_conflicts (existing incoming : Engine7732HeaderRecord) : bool :=
  negb (hd_slot existing =? hd_slot incoming)
  || bool_decide (hd_payload_header_root existing ≠ hd_payload_header_root incoming)
  || bool_decide (hd_parent_beacon_block_root existing ≠ hd_parent_beacon_block_root incoming)
  || bool_decide (hd_execution_block_hash existing ≠ hd_execution_block_hash incoming)
  || bool_decide (hd_proposer existing ≠ hd_proposer incoming)
  || bool_decide (hd_bid_value_wei existing ≠ hd_bid_value_wei incoming)
  || bool_decide (hd_view_id existing ≠ hd_view_id incoming).
(* eth2077-node/src/bin/eth2077-devnetd.rs:1629-1639 engine_7732_envelope_conflicts *)
Definition engine_7732_envelope_conflicts (existing incoming : Engine7732EnvelopeRecord) : bool :=
  negb (ev_slot existing =? ev_slot incoming)
  || bool_decide (ev_payload_header_root existing ≠ ev_payload_header_root incoming)
  || bool_decide (ev_execution_block_hash existing ≠ ev_execution_block_hash incoming)
  || bool_decide (ev_payload_body_hash existing ≠ ev_payload_body_hash incoming)
  || bool_decide (ev_signer existing ≠ ev_signer incoming)
  || negb (Bool.eqb (ev_data_available existing) (ev_data_available incoming)).

(** ** Status of a slot *)

(* eth2077-node/src/bin/eth2077-devnetd.rs:1700-1705 engine_7732_slot_deadline_unix_s *)
Definition engine_7732_slot_deadline_unix_s (st : NodeState) (slot : Z) : Z :=
  u64_saturating_add
    (u64_saturating_add (started_at_unix_s (info st)) (u64_saturating_mul slot 12)) 12.

(** The roots of a slot, and those revealed in time, revealed late and not revealed. *)
(* eth2077-node/src/bin/eth2077-devnetd.rs:1723-1727 engine_7732_slot_status_response *)
Definition header_roots_of (st : NodeState) (slot : Z) : list Str :=
  default [] (headers_by_slot (registry st) !! slot).
(* eth2077-node/src/bin/eth2077-devnetd.rs:1730-1743 engine_7732_slot_status_response *)
Definition revealed_on_time (st : NodeState) (slot : Z) : list Str :=
  filter (λ root, match envelopes_by_root (registry st) !! root with
    | Some env => ev_revealed_at_unix_s env <=? engine_7732_slot_deadline_unix_s st slot
    | None => false end = true) (header_roots_of st slot).
(* eth2077-node/src/bin/eth2077-devnetd.rs:1730-1743 engine_7732_slot_status_response *)
Definition late_reveals (st : NodeState) (slot : Z) : list Str :=
  filter (λ root, match envelopes_by_root (registry st) !! root with
    | Some env => negb (ev_revealed_at_unix_s env <=? engine_7732_slot_deadline_unix_s st slot)
    | None => false end = true) (header_roots_of st slot).
(* eth2077-node/src/bin/eth2077-devnetd.rs:1730-1743 engine_7732_slot_status_response *)
Definition pending_reveals (st : NodeState) (slot : Z) : list Str :=
  filter (λ root, envelopes_by_root (registry st) !! root = None) (header_roots_of st slot).
(* eth2077-node/src/bin/eth2077-devnetd.rs:1745-1755 engine_7732_slot_status_response *)
Definition orphan_roots (st : NodeState) (slot : Z) : list Str :=
  (filter (λ p, ev_slot p.2 = slot ∧
     headers_by_root (registry st) !! ev_payload_header_root p.2 = None)
    (hash_iter (envelopes_by_root (registry st)))).*1.

(* eth2077-node/src/bin/eth2077-devnetd.rs:1757-1773 engine_7732_slot_status_response *)
Definition aggregate_status (st : NodeState) (slot current_unix_s : Z) : Str :=
  let header_roots := header_roots_of st slot in
  let orphans := orphan_roots st slot in
  let deadline_passed := engine_7732_slot_deadline_unix_s st slot <? current_unix_s in
  let on_time := revealed_on_time st slot in
  let late := late_reveals st slot in
  let pending := pending_reveals st slot in
  if bool_decide (header_roots = []) && bool_decide (orphans = []) then str "UNKNOWN" else
  if bool_decide (header_roots = []) && bool_decide (orphans ≠ []) then str "ORPHAN_ENVELOPE" else
  if bool_decide (pending = []) && bool_decide (late ≠ []) then str "LATE_REVEAL" else
  if bool_decide (pending = []) then str "REVEALED" else
  if deadline_passed && bool_decide (on_time = []) && bool_decide (late = []) then str "WITHHELD" else
  if deadline_passed then str "PARTIAL_WITHHOLD" else
  if bool_decide (on_time = []) then str "HEADER_ONLY" else str "PARTIAL_REVEAL".

(* eth2077-node/src/bin/eth2077-devnetd.rs:1722-1810 engine_7732_slot_status_response *)
Definition engine_7732_slot_status_response (st : NodeState) (slot current_unix_s : Z) : Value :=
  let deadline := engine_7732_slot_deadline_unix_s st slot in
  let count {A} (l : list A) := VString (hex_u64 (len l)) in
  obj
  ["slot" ⟼ VString (hex_u64 slot);
   "aggregateStatus" ⟼ VString (aggregate_status st slot current_unix_s);
   "headerRoots" ⟼ arr VString (header_roots_of st slot);
   "revealedOnTime" ⟼ arr VString (revealed_on_time st slot);
   "lateReveals" ⟼ arr VString (late_reveals st slot);
   "pendingReveals" ⟼ arr VString (pending_reveals st slot);
   "orphanEnvelopes" ⟼ arr VString (orphan_roots st slot);
   "headerCount" ⟼ count (header_roots_of st slot);
   "revealedCount" ⟼ count (filter (λ r, is_Some (envelopes_by_root (registry st) !! r))
      (header_roots_of st slot));
   "lateRevealCount" ⟼ count (late_reveals st slot);
   "deadlineUnixS" ⟼ num deadline;
   "currentUnixS" ⟼ num current_unix_s;
   "deadlinePassed" ⟼ VBool (deadline <? current_unix_s);
   "penalty" ⟼ opt engine_7732_penalty_to_json (penalties_by_slot (registry st) !! slot)].

(** ** Penalties *)

(* eth2077-node/src/bin/eth2077-devnetd.rs:1652-1654 engine_7732_is_timeliness_violation *)
Definition engine_7732_is_timeliness_violation (status : Str) : bool :=
  str_eqb status (str "WITHHELD") || str_eqb status (str "PARTIAL_WITHHOLD")
  || str_eqb status (str "LATE_REVEAL").

Definition with_penalties (penalties : gmap Z Engine7732PenaltyRecord) (r : Registry7732) : Registry7732 :=
  {| headers_by_slot := headers_by_slot r; headers_by_root := headers_by_root r;
     envelopes_by_root := envelopes_by_root r; penalties_by_slot := penalties |}.

(* eth2077-node/src/bin/eth2077-devnetd.rs:1656-1698 engine_7732_update_penalty_state *)
Definition engine_7732_update_penalty_state (st : NodeState) (slot : Z) (status reason : Str)
    (current_unix_s : Z) : NodeState * option Engine7732PenaltyRecord :=
  let penalties := penalties_by_slot (registry st) in
  let store record :=
    (with_registry (with_penalties (<[slot := record]> penalties) (registry st)) st, Some record) in
  if engine_7732_is_timeliness_violation status then
    let record := default
      {| pn_slot := slot; pn_state := str "ACTIVE"; pn_reason := reason; pn_last_status := status;
         pn_activated_at_unix_s := current_unix_s; pn_recovered_at_unix_s := None |}
      (penalties !! slot) in
    let was_active := str_eqb (pn_state record) (str "ACTIVE") in
    store
      {| pn_slot := pn_slot record; pn_state := str "ACTIVE"; pn_reason := reason;
         pn_last_status := status;
         pn_activated_at_unix_s := if was_active then pn_activated_at_unix_s record else current_unix_s;
         pn_recovered_at_unix_s := if was_active then pn_recovered_at_unix_s record else None |}
  else
    match penalties !! slot with
    | None => (st, None)
    | Some existing =>
        if str_eqb (pn_state existing) (str "RECOVERED") then
          store {| pn_slot := pn_slot existing; pn_state := pn_state existing;
            pn_reason := pn_reason existing; pn_last_status := status;
            pn_activated_at_unix_s := pn_activated_at_unix_s existing;
            pn_recovered_at_unix_s := pn_recovered_at_unix_s existing |}
        else
          store {| pn_slot := pn_slot existing; pn_state := str "RECOVERED"; pn_reason := reason;
            pn_last_status := status; pn_activated_at_unix_s := pn_activated_at_unix_s existing;
            pn_recovered_at_unix_s := Some current_unix_s |}
    end.

(** ** Registration *)

Definition invalid (error : Str) : Value :=
  obj ["status" ⟼ text "INVALID"; "validationError" ⟼ VString error].
(** [entry(slot).or_default()], then the root unless it is there. *)
(* eth2077-node/src/bin/eth2077-devnetd.rs:1827-1833 engine_7732_register_payload_header_response *)
Definition index_root (slot : Z) (root : Str) (r : Registry7732) : Registry7732 :=
  let slot_roots := default [] (headers_by_slot r !! slot) in
  {| headers_by_slot := <[slot := if bool_decide (root ∈ slot_roots) then slot_roots
                                  else slot_roots ++ [root]]> (headers_by_slot r);
     headers_by_root := headers_by_root r; envelopes_by_root := envelopes_by_root r;
     penalties_by_slot := penalties_by_slot r |}.
Definition accepted_header (r : Registry7732) (replay : string) (root : Str)
    (header : Engine7732HeaderRecord) : Value := obj
  ["status" ⟼ text "ACCEPTED"; "replayStatus" ⟼ text replay;
   "slot" ⟼ VString (hex_u64 (hd_slot header)); "payloadHeaderRoot" ⟼ VString root;
   "knownHeadersAtSlot" ⟼ VString (hex_u64 (len (default [] (headers_by_slot r !! hd_slot header))));
   "header" ⟼ engine_7732_header_to_json header].

(* eth2077-node/src/bin/eth2077-devnetd.rs:1812-1864 engine_7732_register_payload_header_response *)
Definition engine_7732_register_payload_header_response (now : Z) (st : NodeState) (req : Value)
  : outcome (NodeState * Value) :=
  let fallback_slot := u64_saturating_add (current_height st) 1 in
  parsed ← engine_7732_parse_header_record now req fallback_slot;
  mret match parsed with
  | Err err => (st, invalid err)
  | Ok header =>
      let root := hd_payload_header_root header in
      let r := registry st in
      match headers_by_root r !! root with
      | Some existing =>
          if engine_7732_header_conflicts existing header then
            (st, obj
              ["status" ⟼ text "INVALID";
               "validationError" ⟼ VString (str "conflicting header replay for root " ++ root);
               "existingHeader" ⟼ engine_7732_header_to_json existing;
               "incomingHeader" ⟼ engine_7732_header_to_json header])
          else
            let r := index_root (hd_slot existing) root r in
            (with_registry r st, accepted_header r "DUPLICATE" root existing)
      | None =>
          let r := index_root (hd_slot header) root
            {| headers_by_slot := headers_by_slot r;
               headers_by_root := <[root := header]> (headers_by_root r);
               envelopes_by_root := envelopes_by_root r; penalties_by_slot := penalties_by_slot r |} in
          (with_registry r st, accepted_header r "NEW" root header)
      end
  end.

Definition accepted_envelope (replay linkage_status : string) (root : Str)
    (envelope : Engine7732EnvelopeRecord) : Value := obj
  ["status" ⟼ text "ACCEPTED"; "replayStatus" ⟼ text replay;
   "slot" ⟼ VString (hex_u64 (ev_slot envelope)); "payloadHeaderRoot" ⟼ VString root;
   "linkageStatus" ⟼ text linkage_status;
   "envelope" ⟼ engine_7732_envelope_to_json envelope].

(* eth2077-node/src/bin/eth2077-devnetd.rs:1866-1925 engine_7732_register_payload_envelope_response *)
Definition engine_7732_register_payload_envelope_response (now : Z) (st : NodeState) (req : Value)
  : NodeState * Value :=
  let fallback_slot := u64_saturating_add (current_height st) 1 in
  match engine_7732_parse_envelope_record now req fallback_slot with
  | Err err => (st, invalid err)
  | Ok envelope =>
      let root := ev_payload_header_root envelope in
      let slot := ev_slot envelope in
      let r := registry st in
      let register linkage_status :=
        match envelopes_by_root r !! root with
        | Some existing =>
            if engine_7732_envelope_conflicts existing envelope then
              (st, obj
                ["status" ⟼ text "INVALID";
                 "validationError" ⟼ VString (str "conflicting envelope replay for root " ++ root);
                 "existingEnvelope" ⟼ engine_7732_envelope_to_json existing;
                 "incomingEnvelope" ⟼ engine_7732_envelope_to_json envelope])
            else (st, accepted_envelope "DUPLICATE" linkage_status root existing)
        | None =>
            (with_registry {| headers_by_slot := headers_by_slot r; headers_by_root := headers_by_root r;
               envelopes_by_root := <[root := envelope]> (envelopes_by_root r);
               penalties_by_slot := penalties_by_slot r |} st,
             accepted_envelope "NEW" linkage_status root envelope)
        end in
      match headers_by_root r !! root with
      | Some header =>
          if negb (hd_slot header =? slot) then
            (st, invalid (str "envelope slot mismatch for root " ++ root ++ str ": header slot " ++
              decimal (hd_slot header) ++ str ", envelope slot " ++ decimal slot))
          else register "LINKED"
      | None => register "ORPHAN"
      end
  end.

(** ** The registries are write-once *)

(** What holds of the registries of a running daemon. *)
Record registry_inv (r : Registry7732) : Prop := {
  ri_header_root root header : headers_by_root r !! root = Some header → hd_payload_header_root header = root;
  ri_envelope_root root envelope :
    envelopes_by_root r !! root = Some envelope → ev_payload_header_root envelope = root;
  ri_nodup slot : NoDup (default [] (headers_by_slot r !! slot));
  ri_indexed slot root : root ∈ default [] (headers_by_slot r !! slot) ↔
    ∃ header, headers_by_root r !! root = Some header ∧ hd_slot header = slot;
}.

Lemma registry_inv_empty : registry_inv {| headers_by_slot := ∅; headers_by_root := ∅;
  envelopes_by_root := ∅; penalties_by_slot := ∅ |}.
Proof.
  split; simpl.
  - intros ??. by rewrite lookup_empty.
  - intros ??. by rewrite lookup_empty.
  - intros slot. rewrite lookup_empty. constructor.
  - intros slot root. rewrite lookup_empty. simpl. split; [by intros ?%elem_of_nil|].
    intros (h & Hh & _). by rewrite lookup_empty in Hh.
Qed.
(** Indexing a root adds it to its slot, once. *)
Lemma elem_of_index_root slot root r slot' root' :
  root' ∈ default [] (headers_by_slot (index_root slot root r) !! slot') ↔
  root' ∈ default [] (headers_by_slot r !! slot') ∨ (root' = root ∧ slot' = slot).
Proof.
  simpl. destruct (decide (slot' = slot)) as [->|Hne].
  - rewrite lookup_insert_eq. simpl. case_bool_decide as Hin; [naive_solver|].
    rewrite elem_of_app, list_elem_of_singleton. naive_solver.
  - rewrite lookup_insert_ne by done. naive_solver.
Qed.
Lemma NoDup_index_root slot root r slot' :
  (∀ slot, NoDup (default [] (headers_by_slot r !! slot))) →
  NoDup (default [] (headers_by_slot (index_root slot root r) !! slot')).
Proof.
  intros Hnd. simpl. destruct (decide (slot' = slot)) as [->|Hne].
  - rewrite lookup_insert_eq. simpl. case_bool_decide as Hin; [done|].
    apply NoDup_app. split_and!; [done| |apply NoDup_singleton].
    intros x Hx ->%list_elem_of_singleton. done.
  - by rewrite lookup_insert_ne.
Qed.
Lemma index_known_root root header r :
  registry_inv r → headers_by_root r !! root = Some header → registry_inv (index_root (hd_slot header) root r).
Proof.
  intros [Hh He Hnd Hix] Hroot. split; [done|done|by intros; apply NoDup_index_root|].
  intros slot root'. rewrite elem_of_index_root, Hix. naive_solver.
Qed.
Lemma register_new_header root header r :
  registry_inv r → headers_by_root r !! root = None → hd_payload_header_root header = root →
  registry_inv (index_root (hd_slot header) root
    {| headers_by_slot := headers_by_slot r; headers_by_root := <[root := header]> (headers_by_root r);
       envelopes_by_root := envelopes_by_root r; penalties_by_slot := penalties_by_slot r |}).
Proof.
  intros [Hh He Hnd Hix] Hnew Hroot. split.
  - intros root' header'. simpl. intros [[<- <-]|[_ ?]]%lookup_insert_Some; eauto.
  - done.
  - intros slot. by apply NoDup_index_root.
  - intros slot root'. rewrite elem_of_index_root. simpl. rewrite Hix. split.
    + intros [(h & Hh' & <-)|[-> ->]].
      * exists h. split; [|done]. rewrite lookup_insert_ne; [done|]. intros ->. congruence.
      * exists header. by rewrite lookup_insert_eq.
    + intros (h & [[<- <-]|[Hne Hh']]%lookup_insert_Some & Hs); [naive_solver|]. left. eauto.
Qed.

(** Calls that register, and what one of them does to the registries. *)
Inductive RegistryCall := CallHeader (now : Z) (req : Value) | CallEnvelope (now : Z) (req : Value).
Definition registry_step (st : NodeState) (call : RegistryCall) : outcome (NodeState * Value) :=
  match call with
  | CallHeader now req => engine_7732_register_payload_header_response now st req
  | CallEnvelope now req => mret (engine_7732_register_payload_envelope_response now st req)
  end.
Fixpoint registry_run (st : NodeState) (calls : list RegistryCall) : outcome (NodeState * list Value) :=
  match calls with
  | [] => mret (st, [])
  | call :: calls =>
      '(st, answer) ← registry_step st call;
      '(st, answers) ← registry_run st calls;
      mret (st, answer :: answers)
  end.
Definition status_of (answer : Value) : option Str := get "status" answer ≫= as_str.

(** What a registration may change. *)
Record grows (st st' : NodeState) : Prop := {
  gr_headers : headers_by_root (registry st) ⊆ headers_by_root (registry st');
  gr_envelopes : envelopes_by_root (registry st) ⊆ envelopes_by_root (registry st');
  gr_penalties : penalties_by_slot (registry st') = penalties_by_slot (registry st);
  gr_rest : st' = with_registry (registry st') st;
}.
#[export] Instance grows_preorder : PreOrder grows.
Proof.
  split.
  - intros [? ? ? ? ? ? ?]. by split.
  - intros [] [] [] [H1 H2 H3 H4] [H5 H6 H7 H8]. split; simpl in *.
    + by etrans.
    + by etrans.
    + congruence.
    + unfold with_registry in *. simpl in *. congruence.
Qed.

(** The answers, in terms of the records. *)
Definition header_answer (r : Registry7732) (header : Engine7732HeaderRecord) : string :=
  match headers_by_root r !! hd_payload_header_root header with
  | Some existing => if engine_7732_header_conflicts existing header then "INVALID" else "ACCEPTED"
  | None => "ACCEPTED"
  end.
Definition envelope_answer (r : Registry7732) (envelope : Engine7732EnvelopeRecord) : string :=
  if match headers_by_root r !! ev_payload_header_root envelope with
     | Some header => negb (hd_slot header =? ev_slot envelope) | None => false end then "INVALID" else
  match envelopes_by_root r !! ev_payload_header_root envelope with
  | Some existing => if engine_7732_envelope_conflicts existing envelope then "INVALID" else "ACCEPTED"
  | None => "ACCEPTED"
  end.

Lemma header_conflicts_false a b :
  engine_7732_header_conflicts a b = false ↔
  hd_slot a = hd_slot b ∧ hd_payload_header_root a = hd_payload_header_root b ∧
  hd_parent_beacon_block_root a = hd_parent_beacon_block_root b ∧
  hd_execution_block_hash a = hd_execution_block_hash b ∧ hd_proposer a = hd_proposer b ∧
  hd_bid_value_wei a = hd_bid_value_wei b ∧ hd_view_id a = hd_view_id b.
Proof.
  unfold engine_7732_header_conflicts.
  rewrite !orb_false_iff, negb_false_iff, Z.eqb_eq, !bool_decide_eq_false.
  split; [|naive_solver]. intros [[[[[[? ?] ?] ?] ?] ?] ?]. split_and!; try done; by apply dec_stable.
Qed.
Lemma envelope_conflicts_false a b :
  engine_7732_envelope_conflicts a b = false ↔
  ev_slot a = ev_slot b ∧ ev_payload_header_root a = ev_payload_header_root b ∧
  ev_execution_block_hash a = ev_execution_block_hash b ∧
  ev_payload_body_hash a = ev_payload_body_hash b ∧ ev_signer a = ev_signer b ∧
  ev_data_available a = ev_data_available b.
Proof.
  unfold engine_7732_envelope_conflicts.
  rewrite !orb_false_iff, !negb_false_iff, Z.eqb_eq, eqb_true_iff, !bool_decide_eq_false.
  split; [|naive_solver]. intros [[[[[? ?] ?] ?] ?] ?]. split_and!; try done; by apply dec_stable.
Qed.

(** One registration: the answer, the growth, and that an accepted record is in force. *)
Definition header_in_force (r : Registry7732) (header : Engine7732HeaderRecord) : Prop :=
  ∃ stored, headers_by_root r !! hd_payload_header_root header = Some stored ∧
    engine_7732_header_conflicts stored header = false.
Definition envelope_in_force (r : Registry7732) (envelope : Engine7732EnvelopeRecord) : Prop :=
  ∃ stored, envelopes_by_root r !! ev_payload_header_root envelope = Some stored ∧
    engine_7732_envelope_conflicts stored envelope = false.

Lemma header_call_spec now st req header :
  engine_7732_parse_header_record now req (u64_saturating_add (current_height st) 1) = Done (Ok header) →
  ∃ st' answer, registry_step st (CallHeader now req) = Done (st', answer) ∧
    status_of answer = Some (str (header_answer (registry st) header)) ∧ grows st st' ∧
    (registry_inv (registry st) → registry_inv (registry st')) ∧
    if decide (header_answer (registry st) header = "ACCEPTED"%string)
    then header_in_force (registry st') header else st' = st.
Proof.
  intros Hparse. simpl. unfold engine_7732_register_payload_header_response. rewrite Hparse. simpl.
  unfold header_answer, header_in_force.
  destruct (headers_by_root (registry st) !! hd_payload_header_root header) as [existing|] eqn:Hroot.
  - destruct (engine_7732_header_conflicts existing header) eqn:Hc; eexists _, _; (split; [done|]).
    + by split_and!.
    + split_and!; [done| | |]; simpl.
      * by split.
      * intros. by apply index_known_root.
      * by exists existing.
  - eexists _, _. split; [done|]. split_and!; [done| | |]; simpl.
    + split; simpl; [by apply insert_subseteq|done..].
    + intros Hinv. by apply register_new_header.
    + exists header. rewrite lookup_insert_eq. split; [done|]. by apply header_conflicts_false.
Qed.
Lemma envelope_call_spec now st req envelope :
  engine_7732_parse_envelope_record now req (u64_saturating_add (current_height st) 1) = Ok envelope →
  ∃ st' answer, registry_step st (CallEnvelope now req) = Done (st', answer) ∧
    status_of answer = Some (str (envelope_answer (registry st) envelope)) ∧ grows st st' ∧
    (registry_inv (registry st) → registry_inv (registry st')) ∧
    if decide (envelope_answer (registry st) envelope = "ACCEPTED"%string)
    then envelope_in_force (registry st') envelope else st' = st.
Proof.
  intros Hparse. simpl. unfold engine_7732_register_payload_envelope_response. rewrite Hparse. simpl.
  unfold envelope_answer, envelope_in_force.
  set (header := headers_by_root (registry st) !! ev_payload_header_root envelope).
  destruct (match header with Some h => negb (hd_slot h =? ev_slot envelope) | None => false end) eqn:Hslot.
  { destruct header as [h|]; [|done]. rewrite Hslot. eexists _, _. by split_and!. }
  destruct (envelopes_by_root (registry st) !! ev_payload_header_root envelope) as [existing|] eqn:Hroot.
  - destruct (engine_7732_envelope_conflicts existing envelope) eqn:Hc;
      destruct header as [h|]; rewrite ?Hslot; eexists _, _; (split; [done|]); split_and!; try done;
      by exists existing.
  - assert (Hnew : let r := registry st in let st' := with_registry {| headers_by_slot := headers_by_slot r;
        headers_by_root := headers_by_root r;
        envelopes_by_root := <[ev_payload_header_root envelope := envelope]> (envelopes_by_root r);
        penalties_by_slot := penalties_by_slot r |} st in
      grows st st' ∧ (registry_inv r → registry_inv (registry st')) ∧
      ∃ stored, envelopes_by_root (registry st') !! ev_payload_header_root envelope = Some stored ∧
        engine_7732_envelope_conflicts stored envelope = false).
    { cbv zeta. simpl. split_and!.
      - split; simpl; [done|by apply insert_subseteq|done..].
      - intros [Hh He Hnd Hix]. split; try done. intros root e. simpl.
        intros [[<- <-]|[_ ?]]%lookup_insert_Some; eauto.
      - exists envelope. rewrite lookup_insert_eq. split; [done|]. by apply envelope_conflicts_false. }
    cbv zeta in Hnew. destruct Hnew as (Hg & Hi & Hf).
    destruct header as [h|]; rewrite ?Hslot; eexists _, _; (split; [done|]); by split_and!.
Qed.

Lemma parse_envelope_cases now req slot :
  (∃ e, engine_7732_parse_envelope_record now req slot = Ok e) ∨
  (∃ err, engine_7732_parse_envelope_record now req slot = Err err).
Proof. destruct (engine_7732_parse_envelope_record now req slot); eauto. Qed.
Lemma registry_step_grows st call st' answer :
  registry_step st call = Done (st', answer) →
  grows st st' ∧ (registry_inv (registry st) → registry_inv (registry st')).
Proof.
  intros Hstep. destruct call as [now req|now req].
  - destruct (engine_7732_parse_header_record now req (u64_saturating_add (current_height st) 1))
      as [[header|err]|] eqn:Hparse.
    + destruct (header_call_spec now st req header Hparse) as (st1 & a1 & Hs & _ & Hg & Hi & _).
      rewrite Hs in Hstep. by simplify_eq.
    + simpl in Hstep. unfold engine_7732_register_payload_header_response in Hstep.
      rewrite Hparse in Hstep. simpl in Hstep. unfold mret, outcome_ret in Hstep. simplify_eq. split; [reflexivity|done].
    + simpl in Hstep. unfold engine_7732_register_payload_header_response in Hstep. by rewrite Hparse in Hstep.
  - destruct (parse_envelope_cases now req (u64_saturating_add (current_height st) 1)) as [[e He]|[err He]].
    + destruct (envelope_call_spec now st req e He) as (st1 & a1 & Hs & _ & Hg & Hi & _).
      rewrite Hs in Hstep. by simplify_eq.
    + simpl in Hstep. unfold engine_7732_register_payload_envelope_response in Hstep.
      rewrite He in Hstep. simpl in Hstep. unfold mret, outcome_ret in Hstep. simplify_eq. split; [reflexivity|done].
Qed.
Lemma registry_run_grows st calls st' answers :
  registry_run st calls = Done (st', answers) →
  grows st st' ∧ (registry_inv (registry st) → registry_inv (registry st')).
Proof.
  revert st answers. induction calls as [|call calls IH]; intros st answers; simpl.
  { intros [= <- <-]. split; [reflexivity|done]. }
  intros ([st1 a1] & Hstep & ([st2 as2] & Hrun & [= <- <-])%outcome_bind_done)%outcome_bind_done.
  destruct (registry_step_grows _ _ _ _ Hstep) as [Hg Hi], (IH _ _ Hrun) as [Hg' Hi'].
  split; [by etrans|auto].
Qed.
Lemma header_in_force_grows st st' header :
  grows st st' → header_in_force (registry st) header → header_in_force (registry st') header.
Proof. intros [Hh _ _ _] (stored & Hs & Hc). exists stored. split; [by eapply lookup_weaken|done]. Qed.
Lemma envelope_in_force_grows st st' envelope :
  grows st st' → envelope_in_force (registry st) envelope → envelope_in_force (registry st') envelope.
Proof. intros [_ He _ _] (stored & Hs & Hc). exists stored. split; [by eapply lookup_weaken|done]. Qed.
Lemma grows_height st st' : grows st st' → current_height st' = current_height st.
Proof. intros [_ _ _ ->]. done. Qed.

(** C10: The registries are write-once.  Whatever headers and envelopes are registered, in
    whatever order: the indices stay consistent, no stored record ever changes, penalties
    and the rest of the state are untouched, and a registration answered [ACCEPTED] is in
    force ever after: the stored record of its root agrees with it in all but the time of
    receipt, so two accepted registrations of one root never contradict each other. *)
Theorem registry_write_once (st : NodeState) (calls : list RegistryCall) (st' : NodeState)
    (answers : list Value) :
  registry_inv (registry st) → registry_run st calls = Done (st', answers) →
  let slot := u64_saturating_add (current_height st) 1 in
  registry_inv (registry st') ∧ grows st st' ∧
  (∀ i now req header answer, calls !! i = Some (CallHeader now req) → answers !! i = Some answer →
     engine_7732_parse_header_record now req slot = Done (Ok header) →
     status_of answer = Some (str "ACCEPTED") → header_in_force (registry st') header) ∧
  (∀ i now req envelope answer, calls !! i = Some (CallEnvelope now req) → answers !! i = Some answer →
     engine_7732_parse_envelope_record now req slot = Ok envelope →
     status_of answer = Some (str "ACCEPTED") → envelope_in_force (registry st') envelope).
Proof.
  intros Hinv Hrun. cbv zeta. destruct (registry_run_grows _ _ _ _ Hrun) as [Hg Hi].
  split; [by apply Hi|]. split; [done|]. clear Hg Hi.
  revert st answers Hinv Hrun. induction calls as [|call calls IH]; intros st answers Hinv; simpl.
  { intros [= <- <-]. by split. }
  intros ([st1 a1] & Hstep & ([st2 as2] & Hrun & [= <- <-])%outcome_bind_done)%outcome_bind_done.
  destruct (registry_step_grows _ _ _ _ Hstep) as [Hg1 Hi1].
  destruct (registry_run_grows _ _ _ _ Hrun) as [Hg2 _].
  destruct (IH _ _ (Hi1 Hinv) Hrun) as [IHh IHe]. rewrite (grows_height _ _ Hg1) in IHh, IHe.
  split; intros [|i] now req record answer Hcall Hans; simpl in *; simplify_eq; try by eauto.
  - intros Hparse Hacc. destruct (header_call_spec now st req record Hparse) as (st3 & a3 & Hs & Ha & _ & _ & Hf).
    rewrite Hs in Hstep. injection Hstep as <- <-. apply (header_in_force_grows st3); [done|].
    rewrite Ha in Hacc. case_decide as Hd; [done|]. unfold header_answer in *. repeat case_match; done.
  - intros Hparse Hacc. destruct (envelope_call_spec now st req record Hparse) as (st3 & a3 & Hs & Ha & _ & _ & Hf).
    rewrite Hs in Hstep. injection Hstep as <- <-. apply (envelope_in_force_grows st3); [done|].
    rewrite Ha in Hacc. case_decide as Hd; [done|]. unfold envelope_answer in *. repeat case_match; done.
Qed.

End epbs.

(** ** Timeliness *)

Section timeliness.
Context `{ET : EvmTypes} `{HO : HashOrder}.

Definition on_time (st : NodeState) (slot : Z) (root : Str) : Prop :=
  ∃ env, envelopes_by_root (registry st) !! root = Some env ∧
    ev_revealed_at_unix_s env <= engine_7732_slot_deadline_unix_s st slot.
Definition revealed (st : NodeState) (root : Str) : Prop :=
  is_Some (envelopes_by_root (registry st) !! root).

Lemma pending_reveals_nil st slot :
  pending_reveals st slot = [] ↔ Forall (revealed st) (header_roots_of st slot).
Proof.
  unfold pending_reveals. rewrite filter_nil_Forall. apply Forall_iff. intros root.
  unfold revealed. by rewrite not_eq_None_Some.
Qed.
Lemma late_reveals_nil st slot :
  Forall (revealed st) (header_roots_of st slot) →
  late_reveals st slot = [] ↔ Forall (on_time st slot) (header_roots_of st slot).
Proof.
  intros Hr. unfold late_reveals. rewrite filter_nil_Forall.
  assert (Hiff : ∀ root, revealed st root →
    ¬ (match envelopes_by_root (registry st) !! root with
       | Some env => negb (ev_revealed_at_unix_s env <=? engine_7732_slot_deadline_unix_s st slot)
       | None => false end = true) ↔ on_time st slot root).
  { intros root [env Henv]. unfold on_time. rewrite Henv, not_true_iff_false, negb_false_iff, Z.leb_le.
    naive_solver. }
  rewrite Forall_forall in Hr. rewrite !Forall_forall.
  split; intros Hall root Hin; specialize (Hiff root (Hr root Hin)); naive_solver.
Qed.
Lemma reveals_partition st slot :
  revealed_on_time st slot ++ late_reveals st slot ++ pending_reveals st slot ≡ₚ header_roots_of st slot.
Proof.
  unfold revealed_on_time, late_reveals, pending_reveals. induction (header_roots_of st slot) as [|root l IH]; [done|].
  rewrite !filter_cons. destruct (envelopes_by_root (registry st) !! root) as [env|] eqn:Henv.
  - rewrite (decide_False (P := Some env = None)) by done.
    destruct (ev_revealed_at_unix_s env <=? engine_7732_slot_deadline_unix_s st slot); simpl.
    + by rewrite IH.
    + rewrite <- Permutation_middle. by rewrite IH.
  - rewrite (decide_True (P := @None Engine7732EnvelopeRecord = None)) by done.
    rewrite !decide_False by done. rewrite <- !Permutation_middle. by rewrite IH.
Qed.
Lemma orphan_roots_nil_order (HO1 HO2 : HashOrder) st slot :
  orphan_roots (HO := HO1) st slot = [] ↔ orphan_roots (HO := HO2) st slot = [].
Proof.
  unfold orphan_roots.
  assert (Hf : ∀ l : list (Str * Engine7732EnvelopeRecord), l.*1 = [] ↔ l = []) by by intros [].
  rewrite !Hf, !filter_nil_Forall.
  assert (Hp : hash_iter (HashOrder := HO1) (envelopes_by_root (registry st)) ≡ₚ
    hash_iter (HashOrder := HO2) (envelopes_by_root (registry st))) by by rewrite !hash_iter_perm.
  by rewrite Hp.
Qed.

(** C11: The status of a slot is exact.  Its roots are split into those revealed in time,
    revealed late and not revealed; it is [REVEALED] exactly when there are headers and
    all are revealed in time; it is a violation exactly when there are headers and, after
    the deadline, one of them is not revealed in time, or before it, all are revealed but
    one too late.  So a violation never ends by waiting, a slot without headers or with
    all of them revealed in time never becomes one, and the order of the hash map of
    envelopes does not matter. *)
Theorem timeliness_exact (st : NodeState) (slot t : Z) :
  let roots := header_roots_of st slot in
  let deadline := engine_7732_slot_deadline_unix_s st slot in
  let violation t := engine_7732_is_timeliness_violation (aggregate_status st slot t) = true in
  revealed_on_time st slot ++ late_reveals st slot ++ pending_reveals st slot ≡ₚ roots ∧
  (aggregate_status st slot t = str "REVEALED" ↔ roots ≠ [] ∧ Forall (on_time st slot) roots) ∧
  (violation t ↔ roots ≠ [] ∧ ¬ Forall (on_time st slot) roots ∧
     (deadline < t ∨ Forall (revealed st) roots)) ∧
  (∀ t', violation t → t <= t' → violation t') ∧
  (∀ HO2 : HashOrder, aggregate_status (HO := HO2) st slot t = aggregate_status (HO := HO) st slot t).
Proof.
  cbv zeta. set (roots := header_roots_of st slot). set (deadline := engine_7732_slot_deadline_unix_s st slot).
  assert (Hrev : Forall (on_time st slot) roots → Forall (revealed st) roots).
  { intros Hall. eapply Forall_impl; [exact Hall|]. intros root (env & Henv & _). by eexists. }
  assert (Hcases : ∀ t,
    (aggregate_status st slot t = str "REVEALED" ↔ roots ≠ [] ∧ Forall (on_time st slot) roots) ∧
    (engine_7732_is_timeliness_violation (aggregate_status st slot t) = true ↔
      roots ≠ [] ∧ ¬ Forall (on_time st slot) roots ∧ (deadline < t ∨ Forall (revealed st) roots))).
  { clear t. intros t. unfold aggregate_status. fold roots deadline.
    pose proof (pending_reveals_nil st slot) as Hp. pose proof (late_reveals_nil st slot) as Hl. fold roots in Hp, Hl.
    destruct (decide (roots = [])) as [Hnil|Hnil].
    { rewrite (bool_decide_true _ Hnil). destruct (decide (orphan_roots st slot = [])) as [Ho|Ho].
      - rewrite (bool_decide_true _ Ho). split; split; done || naive_solver.
      - rewrite (bool_decide_false _ Ho), bool_decide_true by done. split; split; done || naive_solver. }
    rewrite (bool_decide_false _ Hnil). simpl.
    destruct (decide (pending_reveals st slot = [])) as [Hpe|Hpe].
    - rewrite (bool_decide_true _ Hpe). destruct (decide (late_reveals st slot = [])) as [Hla|Hla].
      + rewrite bool_decide_false by tauto. split; split; done || naive_solver.
      + rewrite bool_decide_true by tauto. split; split; done || naive_solver.
    - rewrite (bool_decide_false _ Hpe). destruct (Z.ltb_spec deadline t); simpl.
      + destruct (bool_decide _ && bool_decide _); split; split; done || naive_solver.
      + destruct (bool_decide _); split; split; done || naive_solver lia. }
  split_and!.
  - apply reveals_partition.
  - apply Hcases.
  - apply Hcases.
  - intros t' (? & ? & ?)%Hcases Hle. apply Hcases. split_and!; [done|done|]. destruct_or!; [left; lia|by right].
  - intros HO2. unfold aggregate_status. fold roots deadline.
    assert (Ho : bool_decide (orphan_roots (HO := HO2) st slot = []) = bool_decide (orphan_roots (HO := HO) st slot = []))
      by apply bool_decide_ext, orphan_roots_nil_order.
    assert (Ho' : bool_decide (orphan_roots (HO := HO2) st slot ≠ []) = bool_decide (orphan_roots (HO := HO) st slot ≠ []))
      by (apply bool_decide_ext, not_iff_compat, orphan_roots_nil_order).
    by rewrite Ho, Ho'.
Qed.

(** ** Penalties follow the assessments *)

(** An assessment of a slot: its status, the reason recorded, the time. *)
Definition assessment : Type := Str * Str * Z.
Definition is_violation (a : assessment) : Prop := engine_7732_is_timeliness_violation a.1.1 = true.
Definition assess (slot : Z) (st : NodeState) (a : assessment) : NodeState :=
  (engine_7732_update_penalty_state st slot a.1.1 a.1.2 a.2).1.

Definition active_penalty (slot : Z) (a b : assessment) : Engine7732PenaltyRecord :=
  {| pn_slot := slot; pn_state := str "ACTIVE"; pn_reason := b.1.2; pn_last_status := b.1.1;
     pn_activated_at_unix_s := a.2; pn_recovered_at_unix_s := None |}.
Definition recovered_penalty (slot : Z) (a n b : assessment) : Engine7732PenaltyRecord :=
  {| pn_slot := slot; pn_state := str "RECOVERED"; pn_reason := n.1.2; pn_last_status := b.1.1;
     pn_activated_at_unix_s := a.2; pn_recovered_at_unix_s := Some n.2 |}.
(** The penalty of [slot] after a run of violations from [a] to [b], or after a recovery at
    [n] since which the last assessment is [b]. *)
Definition penalty_of (slot : Z) (st : NodeState) : option Engine7732PenaltyRecord :=
  penalties_by_slot (registry st) !! slot.

Lemma assess_other slot slot' st a : slot' ≠ slot → penalty_of slot' (assess slot st a) = penalty_of slot' st.
Proof.
  intros Hne. unfold penalty_of, assess, engine_7732_update_penalty_state.
  repeat case_match; simpl; by rewrite ?lookup_insert_ne.
Qed.
Lemma assess_first slot st v :
  is_violation v → (penalty_of slot st = None ∨ ∃ a n b, penalty_of slot st = Some (recovered_penalty slot a n b)) →
  penalty_of slot (assess slot st v) = Some (active_penalty slot v v).
Proof.
  unfold is_violation, penalty_of, assess, engine_7732_update_penalty_state. intros -> Hst. simpl.
  rewrite lookup_insert_eq. destruct Hst as [->|(a & n & b & ->)]; done.
Qed.
Lemma assess_active slot st a b v :
  is_violation v → penalty_of slot st = Some (active_penalty slot a b) →
  penalty_of slot (assess slot st v) = Some (active_penalty slot a v).
Proof.
  unfold is_violation, penalty_of, assess, engine_7732_update_penalty_state. intros -> ->. simpl.
  by rewrite lookup_insert_eq.
Qed.
Lemma assess_recovers slot st a b n :
  ¬ is_violation n → penalty_of slot st = Some (active_penalty slot a b) →
  penalty_of slot (assess slot st n) = Some (recovered_penalty slot a n n).
Proof.
  unfold is_violation, penalty_of, assess, engine_7732_update_penalty_state.
  intros ->%not_true_is_false ->. simpl. by rewrite lookup_insert_eq.
Qed.
Lemma assess_stays slot st n :
  ¬ is_violation n →
  penalty_of slot (assess slot st n) =
    match penalty_of slot st with
    | Some p => if str_eqb (pn_state p) (str "RECOVERED") then
        Some {| pn_slot := pn_slot p; pn_state := pn_state p; pn_reason := pn_reason p;
          pn_last_status := n.1.1; pn_activated_at_unix_s := pn_activated_at_unix_s p;
          pn_recovered_at_unix_s := pn_recovered_at_unix_s p |}
        else penalty_of slot (assess slot st n)
    | None => None
    end.
Proof.
  unfold is_violation, penalty_of, assess, engine_7732_update_penalty_state.
  intros ->%not_true_is_false. destruct (penalties_by_slot (registry st) !! slot) as [p|] eqn:Hp; [|done].
  destruct (str_eqb _ _); [|done]. simpl. by rewrite lookup_insert_eq.
Qed.
(** Between assessments a penalty is absent, active or recovered. *)
Definition penalty_shape (slot : Z) (st : NodeState) : Prop :=
  penalty_of slot st = None ∨ (∃ a b, penalty_of slot st = Some (active_penalty slot a b)) ∨
  (∃ a n b, penalty_of slot st = Some (recovered_penalty slot a n b)).
Lemma assess_shape slot st a : penalty_shape slot st → penalty_shape slot (assess slot st a).
Proof.
  unfold penalty_shape. destruct (decide (is_violation a)) as [Hv|Hv].
  - intros [Hp|[(x & y & Hp)|Hp]].
    + right. left. exists a, a. apply assess_first; auto.
    + right. left. exists x, a. by eapply assess_active.
    + right. left. exists a, a. apply assess_first; auto.
  - intros [Hp|[(x & y & Hp)|(x & n & y & Hp)]].
    + left. by rewrite assess_stays, Hp.
    + right. right. exists x, a, a. by eapply assess_recovers.
    + right. right. exists x, n, a. by rewrite assess_stays, Hp.
Qed.
Lemma last_cons_default {A} (x y : A) l : List.last (x :: l) y = List.last l x.
Proof.
  revert x y. induction l as [|z l IH]; intros x y; [done|].
  change (List.last (z :: l) y = List.last (z :: l) x). by rewrite !IH.
Qed.
Lemma assess_violations slot st a b vs :
  Forall is_violation vs → penalty_of slot st = Some (active_penalty slot a b) →
  penalty_of slot (foldl (assess slot) st vs) = Some (active_penalty slot a (List.last vs b)).
Proof.
  intros Hvs. revert st b. induction Hvs as [|v vs Hv Hvs IH]; intros st b Hp; [done|].
  rewrite last_cons_default. apply IH. by eapply assess_active.
Qed.
Lemma assess_non_violations slot st a n b ns :
  Forall (λ a, ¬ is_violation a) ns → penalty_of slot st = Some (recovered_penalty slot a n b) →
  penalty_of slot (foldl (assess slot) st ns) = Some (recovered_penalty slot a n (List.last ns b)).
Proof.
  intros Hns. revert st b. induction Hns as [|v vs Hv Hvs IH]; intros st b Hp; [done|].
  rewrite last_cons_default. apply IH. by rewrite assess_stays, Hp.
Qed.
Lemma assess_idle slot st pre :
  penalty_of slot st = None → (∀ a, last pre = Some a → ¬ is_violation a) →
  penalty_of slot (foldl (assess slot) st pre) = None ∨
  ∃ a n b, penalty_of slot (foldl (assess slot) st pre) = Some (recovered_penalty slot a n b).
Proof.
  intros Hnone Hlast. destruct pre as [|p pre _] using rev_ind; [by left|].
  rewrite last_snoc in Hlast. rewrite foldl_app. simpl.
  assert (Hshape : penalty_shape slot (foldl (assess slot) st pre)).
  { apply (foldl_preserves _ (penalty_shape slot)); [intros; by apply assess_shape|by left]. }
  specialize (Hlast p eq_refl). destruct Hshape as [Hp|[(x & y & Hp)|(x & n & y & Hp)]].
  - left. by rewrite assess_stays, Hp.
  - right. exists x, p, p. by eapply assess_recovers.
  - right. exists x, n, p. by rewrite assess_stays, Hp.
Qed.

(** C21: A penalty follows the assessments of its slot.  Take any assessments of a slot without
    penalty whose last run of violations is [v :: vs], followed by compliant ones [ns].  If
    [ns] is empty the penalty is active since [v], with the last violation's status and
    reason; otherwise it is recovered at the first assessment of [ns], keeps the time of
    [v] and names the last status.  The penalties of other slots are not touched. *)
Theorem penalty_follows_assessments (slot : Z) (st : NodeState) (pre vs ns : list assessment)
    (v : assessment) :
  penalty_of slot st = None → (∀ a, last pre = Some a → ¬ is_violation a) →
  Forall is_violation (v :: vs) → Forall (λ a, ¬ is_violation a) ns →
  let final := foldl (assess slot) st (pre ++ (v :: vs) ++ ns) in
  penalty_of slot final = Some match ns with
    | [] => active_penalty slot v (List.last vs v)
    | n :: ns => recovered_penalty slot v n (List.last ns n)
    end ∧
  ∀ slot', slot' ≠ slot → penalty_of slot' final = penalty_of slot' st.
Proof.
  intros Hnone Hpre [Hv Hvs]%Forall_cons Hns. cbv zeta. split.
  - rewrite !foldl_app. simpl.
    assert (Hact : penalty_of slot (foldl (assess slot) (assess slot (foldl (assess slot) st pre) v) vs)
      = Some (active_penalty slot v (List.last vs v))).
    { apply assess_violations; [done|]. apply assess_first; [done|]. by apply assess_idle. }
    destruct Hns as [|n ns Hn Hns]; [done|]. simpl. apply assess_non_violations; [done|].
    by eapply assess_recovers.
  - intros slot' Hne. apply (foldl_preserves _ (λ st', penalty_of slot' st' = penalty_of slot' st)); [|done].
    intros st' a <-. by apply assess_other.
Qed.
End timeliness.

(** ** Examples *)

Section examples.
#[local] Existing Instance map_to_list_order.
#[local] Existing Instance example_hex_crate.
#[local] Existing Instance example_ruint.
#[local] Existing Instance example_alloy.
#[local] Instance unit_evm : EvmTypes := {| EvmDb := unit; EvmBytecode := unit |}.
#[local] Instance no_json_text : JsonText := λ _, Err [].

Definition example_node : NodeState := example_state (H := unit_evm) tt.
Definition example_root : Str := str "0x" ++ concat (replicate 32 (str "ab")).
Definition example_header_req (slot : Z) : Value := obj
  ["payloadHeader" ⟼ obj ["slot" ⟼ num slot; "payloadHeaderRoot" ⟼ VString example_root]].
Definition example_envelope_req (slot at_unix_s : Z) : Value := obj
  ["payloadEnvelope" ⟼ obj ["slot" ⟼ num slot; "payloadHeaderRoot" ⟼ VString example_root];
   "revealedAtUnixS" ⟼ num at_unix_s].

(** A header and its envelope, each sent twice. *)
Definition example_calls : list RegistryCall :=
  [CallHeader 1000 (example_header_req 5); CallEnvelope 1000 (example_envelope_req 5 1060);
   CallHeader 1001 (example_header_req 5); CallHeader 1001 (example_header_req 6)].
Lemma registry_write_once_witness :
  ∃ st' answers, registry_run example_node example_calls = Done (st', answers) ∧
    status_of <$> answers = (λ s, Some (str s)) <$> ["ACCEPTED"; "ACCEPTED"; "ACCEPTED"; "INVALID"]%string ∧
    registry_inv (registry st').
Proof.
  destruct (registry_run example_node example_calls) as [[st' answers]|] eqn:Hrun;
    [|vm_compute in Hrun; discriminate].
  exists st', answers. split; [reflexivity|]. split.
  - assert (Ha : answers = match registry_run example_node example_calls with
      | Done (_, answers) => answers | Panics => [] end) by by rewrite Hrun.
    rewrite Ha. vm_compute. reflexivity.
  - exact (proj1 (registry_write_once example_node example_calls st' answers registry_inv_empty Hrun)).
Defined.

Definition late (t : Z) : assessment := (str "WITHHELD", str "violation", t).
Definition fine (t : Z) : assessment := (str "REVEALED", str "recovered", t).
Lemma penalty_follows_assessments_witness :
  penalty_of 5 (foldl (assess 5) example_node ([fine 1] ++ [late 2; late 3] ++ [fine 4; fine 5])) =
    Some (recovered_penalty 5 (late 2) (fine 4) (fine 5)).
Proof.
  refine (proj1 (penalty_follows_assessments 5 example_node [fine 1] [late 3] [fine 4; fine 5]
    (late 2) _ _ _ _)).
  - reflexivity.
  - intros a [= <-]. discriminate.
  - repeat constructor.
  - repeat constructor; discriminate.
Defined.

(** Revealing first and registering the header second is not checked for the slot: the
    envelope of slot 5 counts as the reveal of the header of slot 9, while in the other
    order it is refused. *)
Lemma reveal_before_header_skips_slot_check :
  (∃ st', registry_run example_node
     [CallEnvelope 1000 (example_envelope_req 5 1060); CallHeader 1000 (example_header_req 9)] = Done st' ∧
     status_of <$> st'.2 = (λ s, Some (str s)) <$> ["ACCEPTED"; "ACCEPTED"]%string ∧
     aggregate_status st'.1 9 2000 = str "REVEALED") ∧
  (∃ st', registry_run example_node
     [CallHeader 1000 (example_header_req 9); CallEnvelope 1000 (example_envelope_req 5 1060)] = Done st' ∧
     status_of <$> st'.2 = (λ s, Some (str s)) <$> ["ACCEPTED"; "INVALID"]%string).
Proof. split; (eexists; split; [vm_compute; reflexivity|]); vm_compute; [split|]; reflexivity. Qed.
End examples.
