(* ===== verification/EpbsViews.v ===== *)
(** * Queries on payload timeliness ([eth2077-node/src/bin/eth2077-devnetd.rs])

    The read-only [engine_7732_get_*] handlers: timeliness, penalties, headers and
    envelopes of a slot or of a range of slots.  Every range is cut to a window of
    [MAX_SLOT_WINDOW] slots. *)
From S2P Require Import Prelude Canonical Strings Json DaemonHex DaemonState Epbs.
Local Open Scope Z_scope.

Section views.
Context `{ET : EvmTypes} `{HO : HashOrder} `{HC : HexCrate} `{RU : Ruint} `{AL : Alloy} `{JT : JsonText}.

(** ** The slots a request asks for *)

(** The slot named by the request, or that of the root it names, or the next height. *)
(* eth2077-node/src/bin/eth2077-devnetd.rs:1928-1953 engine_7732_get_payload_timeliness_response *)
Definition requested_slot (st : NodeState) (req : Value) : Z :=
  let slot_from_req := or_else (get "slot" req ≫= parse_u64_value) (param 0 req ≫= parse_u64_value) in
  let root_from_req := normalize_hash32_value (or_else (get "payloadHeaderRoot" req) (param 0 req)) in
  default (u64_saturating_add (current_height st) 1)
    (or_else slot_from_req
    (or_else (root ← root_from_req; hd_slot <$> headers_by_root (registry st) !! root)
             (root ← root_from_req; ev_slot <$> envelopes_by_root (registry st) !! root))).
(* eth2077-node/src/bin/eth2077-devnetd.rs:1959-1978 engine_7732_get_payload_timeliness_by_range_response *)
Definition requested_range (st : NodeState) (req : Value) : Z * Z :=
  let start_slot := default (u64_saturating_add (current_height st) 1)
    (or_else (get "startSlot" req ≫= parse_u64_value) (param 0 req ≫= parse_u64_value)) in
  let end_slot := default start_slot
    (or_else (get "endSlot" req ≫= parse_u64_value) (param 1 req ≫= parse_u64_value)) in
  (start_slot, end_slot).
Definition invalid_range (start_slot end_slot : Z) : Value :=
  invalid (str "invalid range: startSlot " ++ decimal start_slot ++ str " exceeds endSlot " ++
    decimal end_slot).

(* eth2077-node/src/bin/eth2077-devnetd.rs:1986-1986 engine_7732_get_payload_timeliness_by_range_response *)
Definition MAX_SLOT_WINDOW : Z := 256.
(** The numbers of slots requested and answered, and the slots answered. *)
(* eth2077-node/src/bin/eth2077-devnetd.rs:1987-1994 engine_7732_get_payload_timeliness_by_range_response *)
Definition slot_window (start_slot end_slot : Z) : Z * Z * Z * list Z :=
  let requested_slots := u64_saturating_add (u64_saturating_sub end_slot start_slot) 1 in
  let slot_count := Z.min requested_slots MAX_SLOT_WINDOW in
  let effective_end_slot := u64_saturating_add start_slot (u64_saturating_sub slot_count 1) in
  (requested_slots, slot_count, effective_end_slot,
   seqZ start_slot (effective_end_slot - start_slot + 1)).
(** The head of a range answer. *)
Definition range_fields (start_slot end_slot requested_slots slot_count effective_end_slot : Z)
  : list (string * Value) :=
  ["status" ⟼ text "OK";
   "startSlot" ⟼ VString (hex_u64 start_slot);
   "endSlot" ⟼ VString (hex_u64 end_slot);
   "effectiveEndSlot" ⟼ VString (hex_u64 effective_end_slot);
   "requestedSlotCount" ⟼ VString (hex_u64 requested_slots);
   "slotCount" ⟼ VString (hex_u64 slot_count);
   "windowClamped" ⟼ VBool (slot_count <? requested_slots)].

(** ** Timeliness *)

(* eth2077-node/src/bin/eth2077-devnetd.rs:1927-1956 engine_7732_get_payload_timeliness_response *)
Definition engine_7732_get_payload_timeliness_response (now : Z) (st : NodeState) (req : Value) : Value :=
  engine_7732_slot_status_response st (requested_slot st req)
    (default now (engine_7732_current_unix_s_from_req req)).

(* eth2077-node/src/bin/eth2077-devnetd.rs:1958-2006 engine_7732_get_payload_timeliness_by_range_response *)
Definition engine_7732_get_payload_timeliness_by_range_response (now : Z) (st : NodeState)
    (req : Value) : Value :=
  let '(start_slot, end_slot) := requested_range st req in
  if end_slot <? start_slot then invalid_range start_slot end_slot else
  let '(requested_slots, slot_count, effective_end_slot, slots) := slot_window start_slot end_slot in
  let current_unix_s := default now (engine_7732_current_unix_s_from_req_with_param req 2) in
  obj (range_fields start_slot end_slot requested_slots slot_count effective_end_slot ++
  ["currentUnixS" ⟼ num current_unix_s;
   "slots" ⟼ arr (λ slot, engine_7732_slot_status_response st slot current_unix_s) slots]).

(** ** Penalties *)

(* eth2077-node/src/bin/eth2077-devnetd.rs:2008-2028 engine_7732_penalty_slot_snapshot *)
Definition engine_7732_penalty_slot_snapshot (st : NodeState) (slot current_unix_s : Z) : Value :=
  let penalty := opt engine_7732_penalty_to_json (penalties_by_slot (registry st) !! slot) in
  obj
  ["slot" ⟼ VString (hex_u64 slot);
   "penalized" ⟼ VBool (is_object penalty);
   "penaltyState" ⟼ VString (default (str "NONE") (get "state" penalty ≫= as_str));
   "penalty" ⟼ penalty;
   "timeliness" ⟼ engine_7732_slot_status_response st slot current_unix_s].
(* eth2077-node/src/bin/eth2077-devnetd.rs:2030-2059 engine_7732_get_payload_penalty_response *)
Definition engine_7732_get_payload_penalty_response (now : Z) (st : NodeState) (req : Value) : Value :=
  engine_7732_penalty_slot_snapshot st (requested_slot st req)
    (default now (engine_7732_current_unix_s_from_req req)).
(** The slots whose snapshot has a penalty in the given state. *)
(* eth2077-node/src/bin/eth2077-devnetd.rs:2097-2104 engine_7732_get_payload_penalties_by_range_response *)
Definition penalty_count (state : string) (slots : list Value) : Z :=
  len (filter (λ slot, get "penaltyState" slot ≫= as_str = Some (str state)) slots).
(* eth2077-node/src/bin/eth2077-devnetd.rs:2061-2119 engine_7732_get_payload_penalties_by_range_response *)
Definition engine_7732_get_payload_penalties_by_range_response (now : Z) (st : NodeState)
    (req : Value) : Value :=
  let '(start_slot, end_slot) := requested_range st req in
  if end_slot <? start_slot then invalid_range start_slot end_slot else
  let '(requested_slots, slot_count, effective_end_slot, slots) := slot_window start_slot end_slot in
  let current_unix_s := default now (engine_7732_current_unix_s_from_req_with_param req 2) in
  let slots := (λ slot, engine_7732_penalty_slot_snapshot st slot current_unix_s) <$> slots in
  obj (range_fields start_slot end_slot requested_slots slot_count effective_end_slot ++
  ["currentUnixS" ⟼ num current_unix_s;
   "activePenaltyCount" ⟼ VString (hex_u64 (penalty_count "ACTIVE" slots));
   "recoveredPenaltyCount" ⟼ VString (hex_u64 (penalty_count "RECOVERED" slots));
   "slots" ⟼ VArray slots]).

(** ** Headers *)

(* eth2077-node/src/bin/eth2077-devnetd.rs:2121-2134 engine_7732_get_payload_header_response *)
Definition engine_7732_get_payload_header_response (st : NodeState) (req : Value) : Value :=
  let root := normalize_hash32_value (or_else (get "payloadHeaderRoot" req) (param 0 req)) in
  opt engine_7732_header_to_json (r ← root; headers_by_root (registry st) !! r).
(* eth2077-node/src/bin/eth2077-devnetd.rs:2136-2158 engine_7732_headers_by_slot_snapshot *)
Definition engine_7732_headers_by_slot_snapshot (st : NodeState) (slot : Z) : Value :=
  let header_roots := header_roots_of st slot in
  obj
  ["slot" ⟼ VString (hex_u64 slot);
   "headerRoots" ⟼ arr VString header_roots;
   "headers" ⟼ arr engine_7732_header_to_json (omap (λ root, headers_by_root (registry st) !! root) header_roots);
   "headerCount" ⟼ VString (hex_u64 (len header_roots));
   "revealedEnvelopeCount" ⟼ VString (hex_u64 (len (filter
      (λ root, is_Some (envelopes_by_root (registry st) !! root)) header_roots)))].
(** The slot alone, or the next height. *)
(* eth2077-node/src/bin/eth2077-devnetd.rs:2161-2170 engine_7732_get_payload_headers_by_slot_response *)
Definition requested_slot_only (st : NodeState) (req : Value) : Z :=
  default (u64_saturating_add (current_height st) 1)
    (or_else (get "slot" req ≫= parse_u64_value) (param 0 req ≫= parse_u64_value)).
(* eth2077-node/src/bin/eth2077-devnetd.rs:2160-2172 engine_7732_get_payload_headers_by_slot_response *)
Definition engine_7732_get_payload_headers_by_slot_response (st : NodeState) (req : Value) : Value :=
  engine_7732_headers_by_slot_snapshot st (requested_slot_only st req).
(* eth2077-node/src/bin/eth2077-devnetd.rs:2174-2218 engine_7732_get_payload_headers_by_range_response *)
Definition engine_7732_get_payload_headers_by_range_response (st : NodeState) (req : Value) : Value :=
  let '(start_slot, end_slot) := requested_range st req in
  if end_slot <? start_slot then invalid_range start_slot end_slot else
  let '(requested_slots, slot_count, effective_end_slot, slots) := slot_window start_slot end_slot in
  obj (range_fields start_slot end_slot requested_slots slot_count effective_end_slot ++
  ["slots" ⟼ arr (engine_7732_headers_by_slot_snapshot st) slots]).

(** ** Envelopes *)

(* eth2077-node/src/bin/eth2077-devnetd.rs:2220-2233 engine_7732_get_payload_envelope_response *)
Definition engine_7732_get_payload_envelope_response (st : NodeState) (req : Value) : Value :=
  let root := normalize_hash32_value (or_else (get "payloadHeaderRoot" req) (param 0 req)) in
  opt engine_7732_envelope_to_json (r ← root; envelopes_by_root (registry st) !! r).
(** Envelopes of a slot under a root no header has. *)
(* eth2077-node/src/bin/eth2077-devnetd.rs:2255-2262 engine_7732_envelopes_by_slot_snapshot *)
Definition unlinked_envelopes (st : NodeState) (slot : Z) : list (Str * Engine7732EnvelopeRecord) :=
  filter (λ p, ev_slot p.2 = slot ∧ headers_by_root (registry st) !! p.1 = None)
    (hash_iter (envelopes_by_root (registry st))).
(* eth2077-node/src/bin/eth2077-devnetd.rs:2235-2290 engine_7732_envelopes_by_slot_snapshot *)
Definition engine_7732_envelopes_by_slot_snapshot (st : NodeState) (slot : Z) (include_orphans : bool)
  : Value :=
  let header_roots := header_roots_of st slot in
  let envelopes := envelopes_by_root (registry st) in
  let linked := omap (λ root, envelopes !! root) header_roots in
  let missing := filter (λ root, envelopes !! root = None) header_roots in
  let by_root := sort_by (λ a b, bytes_cmp a.1 b.1) (unlinked_envelopes st slot) in
  let orphans := if include_orphans then by_root.*2 else [] in
  obj
  ["slot" ⟼ VString (hex_u64 slot);
   "headerRoots" ⟼ arr VString header_roots;
   "linkedEnvelopes" ⟼ arr engine_7732_envelope_to_json linked;
   "missingReveals" ⟼ arr VString missing;
   "orphanEnvelopes" ⟼ arr engine_7732_envelope_to_json orphans;
   "knownHeadersAtSlot" ⟼ VString (hex_u64 (len header_roots));
   "linkedEnvelopeCount" ⟼ VString (hex_u64 (len (filter (λ root, is_Some (envelopes !! root)) header_roots)));
   "missingRevealCount" ⟼ VString (hex_u64 (len missing));
   "orphanEnvelopeCount" ⟼ VString (hex_u64 (len (unlinked_envelopes st slot)));
   "includeOrphans" ⟼ VBool include_orphans].
(* eth2077-node/src/bin/eth2077-devnetd.rs:2303-2312 engine_7732_get_payload_envelopes_by_slot_response *)
Definition requested_orphans (req : Value) (param_index : nat) : bool :=
  default false (or_else (get "includeOrphans" req ≫= parse_bool_value)
                         (param param_index req ≫= parse_bool_value)).
(* eth2077-node/src/bin/eth2077-devnetd.rs:2292-2314 engine_7732_get_payload_envelopes_by_slot_response *)
Definition engine_7732_get_payload_envelopes_by_slot_response (st : NodeState) (req : Value) : Value :=
  engine_7732_envelopes_by_slot_snapshot st (requested_slot_only st req) (requested_orphans req 1).
(* eth2077-node/src/bin/eth2077-devnetd.rs:2316-2374 engine_7732_get_payload_envelopes_by_range_response *)
Definition engine_7732_get_payload_envelopes_by_range_response (st : NodeState) (req : Value) : Value :=
  let '(start_slot, end_slot) := requested_range st req in
  let include_orphans := requested_orphans req 2 in
  if end_slot <? start_slot then invalid_range start_slot end_slot else
  let '(requested_slots, slot_count, effective_end_slot, slots) := slot_window start_slot end_slot in
  obj (range_fields start_slot end_slot requested_slots slot_count effective_end_slot ++
  ["includeOrphans" ⟼ VBool include_orphans;
   "slots" ⟼ arr (λ slot, engine_7732_envelopes_by_slot_snapshot st slot include_orphans) slots]).
End views.
