(* ===== verification/RawTx.v ===== *)
(** * Decoding raw transactions ([eth2077-node/src/bin/eth2077-devnetd.rs], [decode_raw_tx])

    The five transaction envelopes the daemon accepts: legacy RLP lists and the typed
    transactions 0x01 to 0x04.  The [rlp] crate is the class [RlpCrate]; a 256-bit field of
    more than 32 bytes makes [ruint] panic. *)
From S2P Require Import Prelude Canonical Strings DaemonHex.
Local Open Scope Z_scope.

(** A view into RLP data: [Rlp::new], [is_list], [at], [val_at] for byte strings,
    [item_count]; errors are displayed. *)
Class RlpCrate := {
  Rlp : Type;
  Rlp_new : list Z → Rlp;
  Rlp_is_list : Rlp → bool;
  Rlp_at : Rlp → nat → result Rlp Str;
  Rlp_val_at : Rlp → nat → result (list Z) Str;
  Rlp_item_count : Rlp → result nat Str;
  Rlp_val_at_bytes r idx raw : Rlp_val_at r idx = Ok raw → Forall is_byte raw;
}.

(** alloy's [SignedAuthorization]. *)
Record SignedAuthorization := {
  sa_chain_id : U256;
  sa_address : Address;
  sa_nonce : Z;
  sa_y_parity : Z;
  sa_r : U256;
  sa_s : U256;
}.
(* eth2077-node/src/bin/eth2077-devnetd.rs:206-219 DecodedRawTx *)
Record DecodedRawTx := {
  dr_tx_type : Z;
  dr_chain_id : option Z;
  dr_nonce : Z;
  dr_gas_limit : Z;
  dr_gas_price : Z;
  dr_max_priority_fee_per_gas : option Z;
  dr_max_fee_per_blob_gas : option Z;
  dr_blob_hashes : list B256;
  dr_authorizations : list SignedAuthorization;
  dr_to : option Address;
  dr_value : U256;
  dr_data : Bytes;
}.

(** A fallible computation that may panic, and its [?]. *)
Definition try_bind {A B E} (m : outcome (result A E)) (k : A → outcome (result B E))
  : outcome (result B E) :=
  r ← m; match r with Ok a => k a | Err e => mret (Err e) end.
Notation "'let!' x ':=' e 'in' k" := (try_bind e (fun x => k))
  (at level 10, x pattern, e at level 200, k at level 200) : rust_scope.
Definition pure {A E} (r : result A E) : outcome (result A E) := mret r.
(** Fields, in decimal. *)
Definition field_no (idx : nat) : Str := decimal (Z.of_nat idx).

Section rlp.
Context `{HC : HexCrate} `{RU : Ruint} `{RL : RlpCrate}.

(* eth2077-node/src/bin/eth2077-devnetd.rs:440-445 rlp_u64 *)
Definition rlp_u64 (rlp : Rlp) (idx : nat) : result Z Str :=
  let? raw := map_err (λ e, str "invalid u64 field " ++ field_no idx ++ str ": " ++ e) (Rlp_val_at rlp idx) in
  hex_to_u64_be raw.
(* eth2077-node/src/bin/eth2077-devnetd.rs:447-452 rlp_u128 *)
Definition rlp_u128 (rlp : Rlp) (idx : nat) : result Z Str :=
  let? raw := map_err (λ e, str "invalid u128 field " ++ field_no idx ++ str ": " ++ e) (Rlp_val_at rlp idx) in
  hex_to_u128_be raw.
(* eth2077-node/src/bin/eth2077-devnetd.rs:454-459 rlp_u256 *)
Definition rlp_u256 (rlp : Rlp) (idx : nat) : outcome (result U256 Str) :=
  let! raw := pure (map_err (λ e, str "invalid u256 field " ++ field_no idx ++ str ": " ++ e)
    (Rlp_val_at rlp idx)) in
  v ← U256_from_be_slice raw; mret (Ok v).
(* eth2077-node/src/bin/eth2077-devnetd.rs:461-466 rlp_bytes *)
Definition rlp_bytes (rlp : Rlp) (idx : nat) : result Bytes Str :=
  map_err (λ e, str "invalid bytes field " ++ field_no idx ++ str ": " ++ e) (Rlp_val_at rlp idx).
(* eth2077-node/src/bin/eth2077-devnetd.rs:468-482 rlp_optional_address *)
Definition rlp_optional_address (rlp : Rlp) (idx : nat) : result (option Address) Str :=
  let? raw := map_err (λ e, str "invalid address field " ++ field_no idx ++ str ": " ++ e)
    (Rlp_val_at rlp idx) in
  if bool_decide (raw = []) then Ok None else
  if len raw =? 20 then Ok (Some raw) else
  Err (str "invalid address length at field " ++ field_no idx ++ str ": " ++ decimal (len raw)).

(** [for i in 0..count], pushing what the body gives until it fails. *)
Fixpoint collect_items {A} (body : nat → outcome (result A Str)) (i count : nat)
  : outcome (result (list A) Str) :=
  match count with
  | O => mret (Ok [])
  | S count =>
      let! a := body i in
      let! l := collect_items body (S i) count in
      pure (Ok (a :: l))
  end.

(* eth2077-node/src/bin/eth2077-devnetd.rs:497-506 rlp_b256_list *)
Definition rlp_b256_item (list : Rlp) (idx i : nat) : result B256 Str :=
  let? raw := map_err (λ e, str "invalid b256 element " ++ field_no i ++ str " at field " ++
    field_no idx ++ str ": " ++ e) (Rlp_val_at list i) in
  if negb (len raw =? 32) then
    Err (str "invalid b256 length at field " ++ field_no idx ++ str "[" ++ field_no i ++ str "]: " ++
      decimal (len raw) ++ str " (expected 32)")
  else Ok raw.
(* eth2077-node/src/bin/eth2077-devnetd.rs:484-509 rlp_b256_list *)
Definition rlp_b256_list (rlp : Rlp) (idx : nat) : outcome (result (list B256) Str) :=
  let! list := pure (map_err (λ e, str "invalid list field " ++ field_no idx ++ str ": " ++ e)
    (Rlp_at rlp idx)) in
  if negb (Rlp_is_list list) then pure (Err (str "field " ++ field_no idx ++ str " must be a list")) else
  let! count := pure (map_err (λ e, str "failed counting list items at field " ++ field_no idx ++
    str ": " ++ e) (Rlp_item_count list)) in
  collect_items (λ i, pure (rlp_b256_item list idx i)) 0 count.

(* eth2077-node/src/bin/eth2077-devnetd.rs:527-566 rlp_signed_authorization_list *)
Definition rlp_authorization_item (list : Rlp) (idx i : nat) : outcome (result SignedAuthorization Str) :=
  let! auth := pure (map_err (λ e, str "invalid authorization entry " ++ field_no i ++
    str " in field " ++ field_no idx ++ str ": " ++ e) (Rlp_at list i)) in
  if negb (Rlp_is_list auth) then
    pure (Err (str "authorization entry " ++ field_no i ++ str " in field " ++ field_no idx ++
      str " must be a list"))
  else
  let! chain_id := rlp_u256 auth 0 in
  let! address_raw := pure (map_err (λ e, str "invalid authorization address at field " ++
    field_no idx ++ str "[" ++ field_no i ++ str "]: " ++ e) (Rlp_val_at auth 1)) in
  if negb (len address_raw =? 20) then
    pure (Err (str "invalid authorization address length at field " ++ field_no idx ++ str "[" ++
      field_no i ++ str "]: " ++ decimal (len address_raw)))
  else
  let! nonce := pure (rlp_u64 auth 2) in
  let! y_parity_raw := pure (rlp_u64 auth 3) in
  if 1 <? y_parity_raw then
    pure (Err (str "invalid y_parity at field " ++ field_no idx ++ str "[" ++ field_no i ++ str "]: " ++
      decimal y_parity_raw ++ str " (expected 0 or 1)"))
  else
  let! r := rlp_u256 auth 4 in
  let! s := rlp_u256 auth 5 in
  pure (Ok {| sa_chain_id := chain_id; sa_address := address_raw; sa_nonce := nonce;
    sa_y_parity := y_parity_raw; sa_r := r; sa_s := s |}).
(* eth2077-node/src/bin/eth2077-devnetd.rs:511-570 rlp_signed_authorization_list *)
Definition rlp_signed_authorization_list (rlp : Rlp) (idx : nat)
  : outcome (result (list SignedAuthorization) Str) :=
  let! list := pure (map_err (λ e, str "invalid authorization list field " ++ field_no idx ++
    str ": " ++ e) (Rlp_at rlp idx)) in
  if negb (Rlp_is_list list) then
    pure (Err (str "field " ++ field_no idx ++ str " must be an authorization list"))
  else
  let! count := pure (map_err (λ e, str "failed counting authorization list items at field " ++
    field_no idx ++ str ": " ++ e) (Rlp_item_count list)) in
  collect_items (rlp_authorization_item list idx) 0 count.

(** ** The envelopes *)

(* eth2077-node/src/bin/eth2077-devnetd.rs:583-608 decode_raw_tx *)
Definition decode_legacy (bytes : list Z) : outcome (result DecodedRawTx Str) :=
  let rlp := Rlp_new bytes in
  if negb (Rlp_is_list rlp) then pure (Err (str "legacy transaction is not an RLP list")) else
  let! nonce := pure (rlp_u64 rlp 0) in
  let! gas_price := pure (rlp_u128 rlp 1) in
  let! gas_limit := pure (rlp_u64 rlp 2) in
  let! to := pure (rlp_optional_address rlp 3) in
  let! value := rlp_u256 rlp 4 in
  let! data := pure (rlp_bytes rlp 5) in
  pure (Ok {| dr_tx_type := 0; dr_chain_id := None; dr_nonce := nonce; dr_gas_limit := gas_limit;
    dr_gas_price := gas_price; dr_max_priority_fee_per_gas := None; dr_max_fee_per_blob_gas := None;
    dr_blob_hashes := []; dr_authorizations := []; dr_to := to; dr_value := value; dr_data := data |}).
(* eth2077-node/src/bin/eth2077-devnetd.rs:621-643 decode_raw_tx *)
Definition decode_eip2930 (rlp : Rlp) : outcome (result DecodedRawTx Str) :=
  let! chain_id := pure (rlp_u64 rlp 0) in
  let! nonce := pure (rlp_u64 rlp 1) in
  let! gas_price := pure (rlp_u128 rlp 2) in
  let! gas_limit := pure (rlp_u64 rlp 3) in
  let! to := pure (rlp_optional_address rlp 4) in
  let! value := rlp_u256 rlp 5 in
  let! data := pure (rlp_bytes rlp 6) in
  pure (Ok {| dr_tx_type := 1; dr_chain_id := Some chain_id; dr_nonce := nonce; dr_gas_limit := gas_limit;
    dr_gas_price := gas_price; dr_max_priority_fee_per_gas := None; dr_max_fee_per_blob_gas := None;
    dr_blob_hashes := []; dr_authorizations := []; dr_to := to; dr_value := value; dr_data := data |}).
(* eth2077-node/src/bin/eth2077-devnetd.rs:645-668 decode_raw_tx *)
Definition decode_eip1559 (rlp : Rlp) : outcome (result DecodedRawTx Str) :=
  let! chain_id := pure (rlp_u64 rlp 0) in
  let! nonce := pure (rlp_u64 rlp 1) in
  let! max_priority := pure (rlp_u128 rlp 2) in
  let! max_fee := pure (rlp_u128 rlp 3) in
  let! gas_limit := pure (rlp_u64 rlp 4) in
  let! to := pure (rlp_optional_address rlp 5) in
  let! value := rlp_u256 rlp 6 in
  let! data := pure (rlp_bytes rlp 7) in
  pure (Ok {| dr_tx_type := 2; dr_chain_id := Some chain_id; dr_nonce := nonce; dr_gas_limit := gas_limit;
    dr_gas_price := max_fee; dr_max_priority_fee_per_gas := Some max_priority;
    dr_max_fee_per_blob_gas := None; dr_blob_hashes := []; dr_authorizations := [];
    dr_to := to; dr_value := value; dr_data := data |}).
(** Field 8 must be a list; its items are not read. *)
(* eth2077-node/src/bin/eth2077-devnetd.rs:679-684 decode_raw_tx *)
Definition check_access_list (rlp : Rlp) : result unit Str :=
  let? access_list := map_err (λ e, str "invalid access list field 8: " ++ e) (Rlp_at rlp 8) in
  if negb (Rlp_is_list access_list) then Err (str "invalid access list field 8: expected list") else Ok tt.
(* eth2077-node/src/bin/eth2077-devnetd.rs:670-702 decode_raw_tx *)
Definition decode_eip4844 (rlp : Rlp) : outcome (result DecodedRawTx Str) :=
  let! chain_id := pure (rlp_u64 rlp 0) in
  let! nonce := pure (rlp_u64 rlp 1) in
  let! max_priority := pure (rlp_u128 rlp 2) in
  let! max_fee := pure (rlp_u128 rlp 3) in
  let! gas_limit := pure (rlp_u64 rlp 4) in
  let! to := pure (rlp_optional_address rlp 5) in
  let! value := rlp_u256 rlp 6 in
  let! data := pure (rlp_bytes rlp 7) in
  let! _ := pure (check_access_list rlp) in
  let! max_fee_per_blob_gas := pure (rlp_u128 rlp 9) in
  let! blob_hashes := rlp_b256_list rlp 10 in
  pure (Ok {| dr_tx_type := 3; dr_chain_id := Some chain_id; dr_nonce := nonce; dr_gas_limit := gas_limit;
    dr_gas_price := max_fee; dr_max_priority_fee_per_gas := Some max_priority;
    dr_max_fee_per_blob_gas := Some max_fee_per_blob_gas; dr_blob_hashes := blob_hashes;
    dr_authorizations := []; dr_to := to; dr_value := value; dr_data := data |}).
(* eth2077-node/src/bin/eth2077-devnetd.rs:704-741 decode_raw_tx *)
Definition decode_eip7702 (rlp : Rlp) : outcome (result DecodedRawTx Str) :=
  let! chain_id := pure (rlp_u64 rlp 0) in
  let! nonce := pure (rlp_u64 rlp 1) in
  let! max_priority := pure (rlp_u128 rlp 2) in
  let! max_fee := pure (rlp_u128 rlp 3) in
  let! gas_limit := pure (rlp_u64 rlp 4) in
  let! to := pure (rlp_optional_address rlp 5) in
  if bool_decide (to = None) then
    pure (Err (str "EIP-7702 transaction must include destination address"))
  else
  let! value := rlp_u256 rlp 6 in
  let! data := pure (rlp_bytes rlp 7) in
  let! _ := pure (check_access_list rlp) in
  let! authorizations := rlp_signed_authorization_list rlp 9 in
  if bool_decide (length authorizations = 0%nat) then
    pure (Err (str "EIP-7702 authorization list must not be empty"))
  else
  pure (Ok {| dr_tx_type := 4; dr_chain_id := Some chain_id; dr_nonce := nonce; dr_gas_limit := gas_limit;
    dr_gas_price := max_fee; dr_max_priority_fee_per_gas := Some max_priority;
    dr_max_fee_per_blob_gas := None; dr_blob_hashes := []; dr_authorizations := authorizations;
    dr_to := to; dr_value := value; dr_data := data |}).

(* eth2077-node/src/bin/eth2077-devnetd.rs:576-746 decode_raw_tx *)
Definition decode_raw_tx (raw_tx : Str) : outcome (result DecodedRawTx Str) :=
  match parse_hex_bytes raw_tx with
  | None => pure (Err (str "raw transaction is not valid hex"))
  | Some [] => pure (Err (str "raw transaction payload is empty"))
  | Some (tx_type :: payload) =>
      if 0xc0 <=? tx_type then decode_legacy (tx_type :: payload) else
      let rlp := Rlp_new payload in
      if negb (Rlp_is_list rlp) then
        pure (Err (str "typed transaction 0x" ++ padded_hex 2 tx_type ++ str " is not an RLP list"))
      else
      if tx_type =? 1 then decode_eip2930 rlp else
      if tx_type =? 2 then decode_eip1559 rlp else
      if tx_type =? 3 then decode_eip4844 rlp else
      if tx_type =? 4 then decode_eip7702 rlp else
      pure (Err (str "unsupported typed transaction: 0x" ++ padded_hex 2 tx_type ++
        str " (supported: legacy, 0x01, 0x02, 0x03, 0x04)"))
  end.
End rlp.

(** ** What a decoded transaction is *)

Lemma shift_or_byte max out b :
  is_byte b → 0 <= out → out * 256 + b <= max → (∃ n, 0 <= n ∧ max = Z.ones n) →
  Z.lor (Z.land (Z.shiftl out 8) max) b = out * 256 + b.
Proof.
  intros Hb Hout Hmax (n & Hn & ->). unfold is_byte in Hb.
  rewrite Z.shiftl_mul_pow2, Z.land_ones by lia. rewrite Z.ones_equiv in Hmax.
  change (2 ^ 8) with 256. rewrite Z.mod_small by lia.
  assert (Hland : Z.land (out * 256) b = 0).
  { apply Z.bits_inj'. intros k Hk. rewrite Z.land_spec, Z.bits_0. change 256 with (2 ^ 8).
    destruct (Z.ltb_spec k 8); [by rewrite Z.mul_pow2_bits_low by lia|].
    rewrite andb_false_iff. right. destruct (Z.eq_dec b 0) as [->|]; [apply Z.bits_0|].
    apply Z.bits_above_log2; [lia|]. apply Z.log2_lt_pow2; [lia|].
    apply Z.lt_le_trans with (2 ^ 8); [change (2 ^ 8) with 256; lia|]. apply Z.pow_le_mono_r; lia. }
  rewrite <- Z.lxor_lor by done. by rewrite <- Z.add_nocarry_lxor.
Qed.
Lemma fold_bytes max acc l :
  (∃ n, 0 <= n ∧ max = Z.ones n) → Forall is_byte l → 0 <= acc →
  acc * 256 ^ len l + be_value l <= max →
  foldl (λ out b, Z.lor (Z.land (Z.shiftl out 8) max) b) acc l = acc * 256 ^ len l + be_value l.
Proof.
  intros Hn Hl. revert acc. induction Hl as [|b l Hb Hl IH]; intros acc Hacc Hle.
  { unfold len, be_value. simpl. lia. }
  rewrite be_value_cons in *. pose proof (be_value_range l Hl) as Hr. unfold len in *. cbn [length foldl] in *.
  rewrite Nat2Z.inj_succ, Z.pow_succ_r in * by lia. pose proof (pow256_pos (length l)) as Hpos.
  unfold is_byte in Hb. assert (acc * 256 + b <= max) by nia.
  rewrite shift_or_byte by done. rewrite IH by lia. lia.
Qed.
Lemma pow256_le n m : (n <= m)%nat → 256 ^ Z.of_nat n <= 256 ^ Z.of_nat m.
Proof. intros. apply Z.pow_le_mono_r; lia. Qed.
Lemma hex_to_u64_be_ok l v : Forall is_byte l → hex_to_u64_be l = Ok v → v = be_value l ∧ is_u64 v.
Proof.
  unfold hex_to_u64_be. intros Hl. case_if_goal; [done|]. intros [= <-]. bool_to_prop.
  pose proof (be_value_range l Hl) as Hr. unfold len in *.
  pose proof (pow256_le (length l) 8 ltac:(lia)) as Hp. change (256 ^ Z.of_nat 8) with (u64_max + 1) in Hp.
  rewrite fold_bytes; [|by exists 64|done|lia|unfold len; lia]. unfold len, is_u64. lia.
Qed.
Lemma hex_to_u128_be_ok l v : Forall is_byte l → hex_to_u128_be l = Ok v → v = be_value l ∧ 0 <= v <= u128_max.
Proof.
  unfold hex_to_u128_be. intros Hl. case_if_goal; [done|]. intros [= <-]. bool_to_prop.
  pose proof (be_value_range l Hl) as Hr. unfold len in *.
  pose proof (pow256_le (length l) 16 ltac:(lia)) as Hp. change (256 ^ Z.of_nat 16) with (u128_max + 1) in Hp.
  rewrite fold_bytes; [|by exists 128|done|lia|unfold len; lia]. unfold len. lia.
Qed.

Lemma try_bind_done {A B E} (m : outcome (result A E)) (k : A → outcome (result B E)) b :
  try_bind m k = Done (Ok b) ↔ ∃ a, m = Done (Ok a) ∧ k a = Done (Ok b).
Proof. unfold try_bind. destruct m as [[a|e]|]; simpl; split; naive_solver. Qed.
Lemma pure_done {A E} (r : result A E) a : pure r = Done (Ok a) ↔ r = Ok a.
Proof. unfold pure, mret, outcome_ret. naive_solver. Qed.
Lemma map_err_ok {A E F} (f : E → F) (r : result A E) a : map_err f r = Ok a ↔ r = Ok a.
Proof. destruct r; naive_solver. Qed.

Section decoded.
Context `{HC : HexCrate} `{RU : Ruint} `{RL : RlpCrate}.

Lemma rlp_u64_ok r idx v : rlp_u64 r idx = Ok v → is_u64 v.
Proof.
  unfold rlp_u64. intros (raw & Hraw%map_err_ok & Hv)%result_bind_ok.
  apply Rlp_val_at_bytes in Hraw. by apply (hex_to_u64_be_ok raw).
Qed.
Lemma rlp_u128_ok r idx v : rlp_u128 r idx = Ok v → 0 <= v <= u128_max.
Proof.
  unfold rlp_u128. intros (raw & Hraw%map_err_ok & Hv)%result_bind_ok.
  apply Rlp_val_at_bytes in Hraw. by apply (hex_to_u128_be_ok raw).
Qed.
Lemma rlp_u256_ok r idx v : rlp_u256 r idx = Done (Ok v) → 0 <= v <= u256_max.
Proof.
  unfold rlp_u256. intros (raw & Hraw%pure_done%map_err_ok & (v' & Hv & Hr)%outcome_bind_done)%try_bind_done.
  apply Rlp_val_at_bytes in Hraw. pose proof (be_value_range raw Hraw). rewrite U256_from_be_slice_spec in Hv.
  case_if_in Hv; simplify_eq. unfold mret, outcome_ret in Hr. simplify_eq. bool_to_prop. lia.
Qed.
Lemma rlp_optional_address_ok r idx a :
  rlp_optional_address r idx = Ok (Some a) → length a = 20%nat ∧ Forall is_byte a.
Proof.
  unfold rlp_optional_address. intros (raw & Hraw%map_err_ok & Ha)%result_bind_ok.
  apply Rlp_val_at_bytes in Hraw. repeat case_if_in Ha; simplify_eq. bool_to_prop. unfold len in *. split; [lia|done].
Qed.
Lemma collect_items_ok {A} (body : nat → outcome (result A Str)) (P : A → Prop) i count l :
  (∀ i a, body i = Done (Ok a) → P a) → collect_items body i count = Done (Ok l) →
  Forall P l ∧ length l = count.
Proof.
  intros Hbody. revert i l. induction count as [|count IH]; intros i l; simpl; [by intros [= <-]|].
  intros (a & Ha & (l' & Hl & [= <-]%pure_done)%try_bind_done)%try_bind_done.
  apply IH in Hl as [? <-]. split; [constructor; eauto|done].
Qed.
Lemma rlp_b256_list_ok r idx l :
  rlp_b256_list r idx = Done (Ok l) → Forall (λ h, length h = 32%nat ∧ Forall is_byte h) l.
Proof.
  unfold rlp_b256_list. intros (list & _ & Hl)%try_bind_done. case_if_in Hl; [done|].
  apply try_bind_done in Hl as (count & _ & Hl). eapply collect_items_ok in Hl as [Hall _]; [exact Hall|].
  intros i h Hh%pure_done. unfold rlp_b256_item in Hh.
  apply result_bind_ok in Hh as (raw & Hraw%map_err_ok & Hh). apply Rlp_val_at_bytes in Hraw.
  case_if_in Hh; simplify_eq. bool_to_prop. unfold len in *. split; [lia|done].
Qed.
(** The ranges of the Rust type, and an authorization's parity. *)
Definition authorization_wf (a : SignedAuthorization) : Prop :=
  0 <= sa_chain_id a <= u256_max ∧ length (sa_address a) = 20%nat ∧ is_u64 (sa_nonce a) ∧
  0 <= sa_y_parity a <= 1 ∧ 0 <= sa_r a <= u256_max ∧ 0 <= sa_s a <= u256_max.
Lemma rlp_signed_authorization_list_ok r idx l :
  rlp_signed_authorization_list r idx = Done (Ok l) → Forall authorization_wf l.
Proof.
  unfold rlp_signed_authorization_list. intros (list & _ & Hl)%try_bind_done. case_if_in Hl; [done|].
  apply try_bind_done in Hl as (count & _ & Hl). eapply collect_items_ok in Hl as [Hall _]; [exact Hall|].
  intros i a. unfold rlp_authorization_item. intros (auth & _ & Ha)%try_bind_done.
  case_if_in Ha; [done|]. apply try_bind_done in Ha as (c & Hc%rlp_u256_ok & Ha).
  apply try_bind_done in Ha as (addr & _ & Ha). case_if_in Ha; [done|].
  apply try_bind_done in Ha as (nonce & Hn%pure_done%rlp_u64_ok & Ha).
  apply try_bind_done in Ha as (y & Hy%pure_done%rlp_u64_ok & Ha). case_if_in Ha; [done|].
  apply try_bind_done in Ha as (ar & Hr%rlp_u256_ok & Ha).
  apply try_bind_done in Ha as (s & Hs%rlp_u256_ok & [= <-]%pure_done). bool_to_prop.
  unfold authorization_wf, len, is_u64 in *. simpl. lia.
Qed.

(** The shape of a decoded transaction, by type. *)
Definition decoded_wf (tx : DecodedRawTx) : Prop :=
  is_u64 (dr_nonce tx) ∧ is_u64 (dr_gas_limit tx) ∧ 0 <= dr_gas_price tx <= u128_max ∧
  0 <= dr_value tx <= u256_max ∧
  (∀ a, dr_to tx = Some a → length a = 20%nat ∧ Forall is_byte a) ∧
  (∀ c, dr_chain_id tx = Some c → is_u64 c) ∧
  (dr_chain_id tx = None ↔ dr_tx_type tx = 0) ∧
  (dr_max_priority_fee_per_gas tx = None ↔ dr_tx_type tx < 2) ∧
  (∀ p, dr_max_priority_fee_per_gas tx = Some p → 0 <= p <= u128_max) ∧
  (dr_max_fee_per_blob_gas tx = None ↔ dr_tx_type tx ≠ 3) ∧
  (dr_blob_hashes tx ≠ [] → dr_tx_type tx = 3) ∧
  Forall (λ h, length h = 32%nat ∧ Forall is_byte h) (dr_blob_hashes tx) ∧
  (dr_authorizations tx ≠ [] ↔ dr_tx_type tx = 4) ∧ Forall authorization_wf (dr_authorizations tx) ∧
  (dr_tx_type tx = 4 → is_Some (dr_to tx)).

(** Unfolds a chain of [let!]s that ended well, keeping what each field satisfies. *)
Ltac decode_steps H :=
  repeat match type of H with
  | try_bind _ _ = Done (Ok _) =>
      let a := fresh "a" in let Ha := fresh "Ha" in
      apply try_bind_done in H as (a & Ha & H);
      first [ apply pure_done in Ha | idtac ];
      first [ apply rlp_u64_ok in Ha | apply rlp_u128_ok in Ha | apply rlp_u256_ok in Ha
            | apply rlp_b256_list_ok in Ha | apply rlp_signed_authorization_list_ok in Ha | idtac ]
  | (if ?b then _ else _) = Done (Ok _) => destruct b eqn:?; [done|]
  | pure _ = Done (Ok _) => apply pure_done in H; injection H as <-
  end.

(** C36: Whatever is decoded is well formed: the type is the first byte (0 for a list), at most
    4; every number is in the range of its Rust type, every address and hash has its size;
    the chain id is absent exactly in legacy transactions, the priority fee below type 2,
    the blob fee and hashes outside type 3, and authorizations (with a parity bit) occur
    exactly in type 4, which has a destination. *)
Theorem decode_raw_tx_wf (raw_tx : Str) (tx : DecodedRawTx) :
  decode_raw_tx raw_tx = Done (Ok tx) →
  decoded_wf tx ∧ ∃ b payload, parse_hex_bytes raw_tx = Some (b :: payload) ∧
    dr_tx_type tx = (if 0xc0 <=? b then 0 else b) ∧ 0 <= dr_tx_type tx <= 4.
Proof.
  unfold decode_raw_tx. intros H. destruct (parse_hex_bytes raw_tx) as [[|b payload]|]; [done| |done].
  assert (Hgoal : ∀ P, P ∧ dr_tx_type tx = (if 0xc0 <=? b then 0 else b) ∧ 0 <= dr_tx_type tx <= 4 →
    P ∧ ∃ b' payload', Some (b :: payload) = Some (b' :: payload') ∧
      dr_tx_type tx = (if 0xc0 <=? b' then 0 else b') ∧ 0 <= dr_tx_type tx <= 4) by naive_solver.
  apply Hgoal. clear Hgoal. destruct (0xc0 <=? b) eqn:Hb.
  { unfold decode_legacy in H. decode_steps H.
    split; [|simpl; lia]. unfold decoded_wf. simpl. split_and!; try done; try lia; intros; simplify_eq;
      by eapply rlp_optional_address_ok. }
  destruct (negb _); [done|].
  repeat (case_if_in H;
    [bool_to_prop; subst b; unfold decode_eip2930, decode_eip1559, decode_eip4844, decode_eip7702 in H; decode_steps H;
     (split; [|simpl; lia]); unfold decoded_wf; simpl; bool_to_prop;
     split_and!; intros; simplify_eq; try done; try lia; try (by eapply rlp_optional_address_ok);
     try (by apply not_eq_None_Some); try (split; [done|intros ?; done || lia])|]); try done.
  split; [done|]. intros _ ->. done.
Qed.
End decoded.

(** ** An RLP decoder for the examples: the short forms *)

Inductive RlpTree := RlpBytes (l : list Z) | RlpList (items : list RlpTree).
(** The items of a payload, until it ends or is cut short. *)
Fixpoint rlp_items (fuel : nat) (bytes : list Z) : list RlpTree :=
  match fuel, bytes with
  | S fuel, b :: rest =>
      if b <? 0x80 then RlpBytes [b] :: rlp_items fuel rest else
      if b <? 0xc0 then
        let n := Z.to_nat (b - 0x80) in RlpBytes (take n rest) :: rlp_items fuel (drop n rest)
      else
        let n := Z.to_nat (b - 0xc0) in
        RlpList (rlp_items fuel (take n rest)) :: rlp_items fuel (drop n rest)
  | _, _ => []
  end.
Definition rlp_example_at (r : RlpTree) (idx : nat) : result RlpTree Str :=
  match r with
  | RlpList items => match items !! idx with Some x => Ok x | None => Err (str "RlpIsTooShort") end
  | RlpBytes _ => Err (str "RlpExpectedToBeList")
  end.
Definition rlp_example_val_at (r : RlpTree) (idx : nat) : result (list Z) Str :=
  let? x := rlp_example_at r idx in
  match x with
  | RlpBytes l => if forallb (λ b, (0 <=? b) && (b <=? 255)) l then Ok l else Err (str "not bytes")
  | RlpList _ => Err (str "RlpExpectedToBeData")
  end.
Lemma rlp_example_bytes r idx raw : rlp_example_val_at r idx = Ok raw → Forall is_byte raw.
Proof.
  unfold rlp_example_val_at. intros (x & _ & Hx)%result_bind_ok. destruct x as [l|]; [|done].
  case_if_in Hx; simplify_eq. apply Forall_forall. intros b Hb. rewrite forallb_forall in Heqb.
  specialize (Heqb b ltac:(by apply list_elem_of_In)). bool_to_prop. by split.
Qed.
Definition example_rlp : RlpCrate := {|
  Rlp := RlpTree;
  Rlp_new bytes := hd (RlpBytes []) (rlp_items (length bytes) bytes);
  Rlp_is_list r := match r with RlpList _ => true | RlpBytes _ => false end;
  Rlp_at := rlp_example_at;
  Rlp_val_at := rlp_example_val_at;
  Rlp_item_count r := match r with RlpList items => Ok (length items) | RlpBytes _ => Err [] end;
  Rlp_val_at_bytes := rlp_example_bytes |}.

Section examples.
#[local] Existing Instance example_hex_crate.
#[local] Existing Instance example_ruint.
#[local] Existing Instance example_rlp.

Lemma decode_raw_tx_wf_witness :
  ∃ tx, decode_raw_tx (str "0xc6010203800580") = Done (Ok tx) ∧ dr_nonce tx = 1 ∧ dr_value tx = 5 ∧
    decoded_wf tx.
Proof.
  destruct (decode_raw_tx (str "0xc6010203800580")) as [[tx|]|] eqn:Hdec;
    [|vm_compute in Hdec; discriminate..].
  exists tx. split; [reflexivity|]. split_and!.
  - vm_compute in Hdec. injection Hdec as <-. reflexivity.
  - vm_compute in Hdec. injection Hdec as <-. reflexivity.
  - exact (proj1 (decode_raw_tx_wf _ tx Hdec)).
Defined.
End examples.
