(* ===== verification/DaemonEvm.v ===== *)
(** * Execution on the daemon's EVM database ([eth2077-node/src/bin/eth2077-devnetd.rs])

    The daemon executes every transaction and call on one [InMemoryDB].  revm is the class
    [DaemonEvm]: the database's operations and the two ways to run a transaction; what the
    daemon reads back from the database is all its laws speak of. *)
From S2P Require Import Prelude Canonical Strings DaemonHex RawTx DaemonState.
Local Open Scope Z_scope.

(** What the daemon sets of the environment (PRAGUE rules, no base fee, 30M gas). *)
Record EvmEnv := { ee_chain_id : Z; ee_number : Z; ee_timestamp : Z }.
Record EvmTx := {
  et_tx_type : Z;
  et_caller : Address;
  et_gas_limit : Z;
  et_max_fee_per_gas : Z;
  et_nonce : Z;
  et_chain_id : option Z;
  et_value : U256;
  et_data : Bytes;
  et_gas_priority_fee : option Z;
  et_blobs : option (Z * list B256);
  et_authorization_list : option (list SignedAuthorization);
  et_to : option Address;
}.
Record EvmExecResult := {
  xr_gas_used : Z;
  xr_is_success : bool;
  xr_output : option Bytes;
  xr_created_address : option Address;
  xr_logs : list EvmLog;
}.

Class DaemonEvm `{EvmTypes} := {
  InMemoryDB_default : EvmDb;
  AccountInfo_default : EvmAccountInfo;
  db_basic : EvmDb → Address → result (option EvmAccountInfo) Str;
  db_insert_account_info : EvmDb → Address → EvmAccountInfo → EvmDb;
  db_code_by_hash : EvmDb → B256 → result EvmBytecode Str;
  db_storage : EvmDb → Address → U256 → result U256 Str;
  EvmBytecode_original_bytes : EvmBytecode → Bytes;
  evm_transact : EvmEnv → EvmTx → EvmDb → result (EvmExecResult * EvmDb) Str;
  evm_transact_commit : EvmEnv → EvmTx → EvmDb → result (EvmExecResult * EvmDb) Str;
  calc_blob_gasprice : Z → Z → Z;
  BLOB_BASE_FEE_UPDATE_FRACTION_PRAGUE : Z;
  AccountInfo_default_spec : ea_balance AccountInfo_default = 0 ∧ ea_nonce AccountInfo_default = 0;
  db_basic_default a : db_basic InMemoryDB_default a = Ok None;
  db_basic_insert db a info : ∃ info', db_basic (db_insert_account_info db a info) a = Ok (Some info') ∧
    ea_balance info' = ea_balance info ∧ ea_nonce info' = ea_nonce info;
  db_basic_insert_ne db a a' info :
    a' ≠ a → db_basic (db_insert_account_info db a info) a' = db_basic db a';
}.

Section evm.
Context `{HC : HexCrate} `{ET : EvmTypes} `{DE : !DaemonEvm}.

(** [db.basic(address).ok().flatten()] *)
Definition db_account (db : EvmDb) (address : Address) : option EvmAccountInfo :=
  match db_basic db address with Ok info => info | Err _ => None end.
(* eth2077-node/src/bin/eth2077-devnetd.rs:819-825 account_nonce_from_db *)
Definition account_nonce_from_db (db : EvmDb) (address : Address) : Z :=
  default 0 (ea_nonce <$> db_account db address).
(* eth2077-node/src/bin/eth2077-devnetd.rs:827-833 account_balance_from_db *)
Definition account_balance_from_db (db : EvmDb) (address : Address) : U256 :=
  default 0 (ea_balance <$> db_account db address).
(* eth2077-node/src/bin/eth2077-devnetd.rs:835-839 set_account_balance_in_db *)
Definition set_account_balance_in_db (db : EvmDb) (address : Address) (balance : U256) : EvmDb :=
  let info := default AccountInfo_default (db_account db address) in
  db_insert_account_info db address
    {| ea_balance := balance; ea_nonce := ea_nonce info; ea_code_hash := ea_code_hash info;
       ea_code := ea_code info |}.
(* eth2077-node/src/bin/eth2077-devnetd.rs:841-869 code_hex_from_db *)
Definition code_hex_from_db (db : EvmDb) (address : Address) : Str :=
  let hex_or_empty raw := if bool_decide (raw = []) then str "0x" else bytes_to_hex raw in
  match db_account db address with
  | None => str "0x"
  | Some info =>
      match ea_code info with
      | Some code => hex_or_empty (EvmBytecode_original_bytes code)
      | None =>
          if bool_decide (ea_code_hash info = B256_ZERO) then str "0x" else
          match db_code_by_hash db (ea_code_hash info) with
          | Ok code => hex_or_empty (EvmBytecode_original_bytes code)
          | Err _ => str "0x"
          end
      end
  end.
(* eth2077-node/src/bin/eth2077-devnetd.rs:871-876 storage_hex_from_db *)
Definition storage_hex_from_db (db : EvmDb) (address : Address) (slot : U256) : Str :=
  match db_storage db address slot with
  | Ok value => str "0x" ++ padded_hex 64 value
  | Err _ => str "0x" ++ replicate 64 48
  end.
(* eth2077-node/src/bin/eth2077-devnetd.rs:572-574 blob_base_fee_per_gas *)
Definition blob_base_fee_per_gas : Z := calc_blob_gasprice 0 BLOB_BASE_FEE_UPDATE_FRACTION_PRAGUE.

(* eth2077-node/src/bin/eth2077-devnetd.rs:222-228 EvmExecOutcome *)
Record EvmExecOutcome := {
  eo_gas_used : Z;
  eo_status : bool;
  eo_output : Bytes;
  eo_contract_address : option Address;
  eo_logs : list EvmLog;
}.
(* eth2077-node/src/bin/eth2077-devnetd.rs:911-937 execute_evm_transaction *)
Definition build_tx_env (st : NodeState) (caller : Address) (decoded : DecodedRawTx) : EvmTx := {|
  et_tx_type := dr_tx_type decoded;
  et_caller := caller;
  et_gas_limit := Z.max (dr_gas_limit decoded) 21000;
  et_max_fee_per_gas := dr_gas_price decoded;
  et_nonce := dr_nonce decoded;
  et_chain_id := match dr_chain_id decoded with Some c => Some c | None => Some (chain_id (info st)) end;
  et_value := dr_value decoded;
  et_data := dr_data decoded;
  et_gas_priority_fee := dr_max_priority_fee_per_gas decoded;
  et_blobs := (λ fee, (fee, dr_blob_hashes decoded)) <$> dr_max_fee_per_blob_gas decoded;
  et_authorization_list :=
    if bool_decide (length (dr_authorizations decoded) = 0%nat) then None else Some (dr_authorizations decoded);
  et_to := dr_to decoded |}.

(** The database is taken out of the state, a default one left in its place; it is put
    back only when the transaction was executed. *)
(* eth2077-node/src/bin/eth2077-devnetd.rs:878-957 execute_evm_transaction *)
Definition execute_evm_transaction (st : NodeState) (caller : Address) (decoded : DecodedRawTx)
    (commit : bool) (block_number block_timestamp : Z) : NodeState * result EvmExecOutcome Str :=
  let db := evm_db (ledger st) in
  let put db := with_ledger (with_evm_db db (ledger st)) st in
  match db_basic db caller with
  | Err e => (put InMemoryDB_default, Err (str "failed reading caller account: " ++ e))
  | Ok account =>
      let db := match account with
        | None => db_insert_account_info db caller AccountInfo_default
        | Some _ => db
        end in
      let env := {| ee_chain_id := chain_id (info st); ee_number := block_number;
                    ee_timestamp := block_timestamp |} in
      let tx_env := build_tx_env st caller decoded in
      let exec_result :=
        if commit then map_err (λ e, str "evm transaction failed: " ++ e) (evm_transact_commit env tx_env db)
        else map_err (λ e, str "evm call failed: " ++ e) (evm_transact env tx_env db) in
      match exec_result with
      | Err e => (put InMemoryDB_default, Err e)
      | Ok (r, db) =>
          (put db, Ok {| eo_gas_used := xr_gas_used r; eo_status := xr_is_success r;
             eo_output := default [] (xr_output r); eo_contract_address := xr_created_address r;
             eo_logs := xr_logs r |})
      end
  end.

(** ** What the database shows *)

Lemma balance_default a : account_balance_from_db InMemoryDB_default a = 0.
Proof. unfold account_balance_from_db, db_account. by rewrite db_basic_default. Qed.
Lemma nonce_default a : account_nonce_from_db InMemoryDB_default a = 0.
Proof. unfold account_nonce_from_db, db_account. by rewrite db_basic_default. Qed.
Lemma db_account_insert db a info : ∃ info', db_account (db_insert_account_info db a info) a = Some info' ∧
  ea_balance info' = ea_balance info ∧ ea_nonce info' = ea_nonce info.
Proof.
  unfold db_account. destruct (db_basic_insert db a info) as (info' & -> & ?). by exists info'.
Qed.
Lemma db_account_insert_ne db a a' info :
  a' ≠ a → db_account (db_insert_account_info db a info) a' = db_account db a'.
Proof. intros Hne. unfold db_account. by rewrite db_basic_insert_ne. Qed.
Lemma balance_after_set db a a' balance :
  account_balance_from_db (set_account_balance_in_db db a balance) a' =
    (if decide (a' = a) then balance else account_balance_from_db db a') ∧
  account_nonce_from_db (set_account_balance_in_db db a balance) a' = account_nonce_from_db db a'.
Proof.
  unfold account_balance_from_db, account_nonce_from_db, set_account_balance_in_db.
  case_decide as Ha; [subst a'|by rewrite db_account_insert_ne].
  set (info := {| ea_balance := balance |}).
  destruct (db_account_insert db a info) as (info' & -> & Hb & Hn). simpl. rewrite Hb, Hn. simpl.
  destruct (db_account db a); [done|]. split; [done|]. apply AccountInfo_default_spec.
Qed.
(** A failed execution loses the database. *)
Lemma execute_evm_err st caller decoded commit number timestamp e :
  (execute_evm_transaction st caller decoded commit number timestamp).2 = Err e →
  (execute_evm_transaction st caller decoded commit number timestamp).1 =
    with_ledger (with_evm_db InMemoryDB_default (ledger st)) st.
Proof. unfold execute_evm_transaction. repeat case_match; simpl; intros; simplify_eq; done. Qed.
End evm.

(** A database for the examples: the balances and nonces of accounts.  A transaction moves
    its value when the sender's nonce and balance allow it, and logs its data. *)
Definition example_evm_types : EvmTypes := {| EvmDb := gmap Address (Z * Z); EvmBytecode := unit |}.
Section example_evm.
#[local] Existing Instance example_evm_types.
Definition example_account (a : Z * Z) : EvmAccountInfo :=
  {| ea_balance := a.1; ea_nonce := a.2; ea_code_hash := B256_ZERO; ea_code := None |}.
Definition example_transact (env : EvmEnv) (tx : EvmTx) (db : gmap Address (Z * Z))
  : result (EvmExecResult * gmap Address (Z * Z)) Str :=
  let '(balance, nonce) := default (0, 0) (db !! et_caller tx) in
  if negb (et_nonce tx =? nonce) then Err (str "nonce") else
  if balance <? et_value tx then Err (str "balance") else
  let db := <[et_caller tx := (balance - et_value tx, nonce + 1)]> db in
  let to := default (et_caller tx) (et_to tx) in
  let '(b, n) := default (0, 0) (db !! to) in
  Ok ({| xr_gas_used := 21000; xr_is_success := true; xr_output := None; xr_created_address := None;
         xr_logs := [{| el_address := to; el_topics := []; el_data := et_data tx |}] |},
      <[to := (b + et_value tx, n)]> db).
Lemma example_basic_insert (db : gmap Address (Z * Z)) a info : ∃ info' : EvmAccountInfo,
  Ok (E := Str) (example_account <$> <[a := (ea_balance info, ea_nonce info)]> db !! a) = Ok (Some info') ∧
  ea_balance info' = ea_balance info ∧ ea_nonce info' = ea_nonce info.
Proof. rewrite lookup_insert_eq. by eexists. Qed.
Lemma example_basic_insert_ne (db : gmap Address (Z * Z)) a a' info : a' ≠ a →
  Ok (E := Str) (example_account <$> <[a := info]> db !! a') = Ok (example_account <$> db !! a').
Proof. intros ?. by rewrite lookup_insert_ne. Qed.
Definition example_daemon_evm : DaemonEvm := {|
  InMemoryDB_default := ∅ : gmap Address (Z * Z);
  AccountInfo_default := example_account (0, 0);
  db_basic (db : gmap Address (Z * Z)) a := Ok (example_account <$> db !! a);
  db_insert_account_info (db : gmap Address (Z * Z)) a info := <[a := (ea_balance info, ea_nonce info)]> db;
  db_code_by_hash _ _ := Err [];
  db_storage _ _ _ := Ok 0;
  EvmBytecode_original_bytes _ := [];
  evm_transact env tx db := match example_transact env tx db with Ok (r, _) => Ok (r, db) | Err e => Err e end;
  evm_transact_commit := example_transact;
  calc_blob_gasprice _ _ := 1;
  BLOB_BASE_FEE_UPDATE_FRACTION_PRAGUE := 5007716;
  AccountInfo_default_spec := conj eq_refl eq_refl;
  db_basic_default a := eq_refl;
  db_basic_insert := example_basic_insert;
  db_basic_insert_ne db a a' info := example_basic_insert_ne db a a' (ea_balance info, ea_nonce info) |}.
End example_evm.
