(* ===== verification/Focil.v ===== *)
(** * Inclusion lists and payloads ([eth2077-node/src/bin/eth2077-devnetd.rs], FOCIL)

    [engine_getInclusionListV1] freezes the list of its slot, [engine_forkchoiceUpdatedV3]
    installs a new one unless it is frozen, [engine_newPayloadV3] accepts a payload when it
    satisfies the list.  The two readings of the clock of [engine_forkchoiceUpdatedV3] are
    the arguments [now] and [now']. *)
From S2P Require Import Prelude Canonical Strings Json DaemonHex DaemonState RawTx DaemonEvm Epbs.
Local Open Scope Z_scope.

Section focil.
Context `{HO : HashOrder} `{HC : HexCrate} `{RU : Ruint} `{AL : Alloy} `{ET : EvmTypes} `{DE : !DaemonEvm}.

(** ** Reading requests *)

(** An item of a transaction array: a hash, or an object with a hash. *)
(* eth2077-node/src/bin/eth2077-devnetd.rs:1283-1314 dedup_tx_meta_array *)
Definition tx_meta_of_item (item : Value) : outcome (option EngineTxMeta) :=
  match as_str item ≫= normalize_hash32 with
  | Some hash => mret (Some {| tm_hash := hash; tm_from := None; tm_nonce := None; tm_gas_limit := None;
                               tm_gas_price := None; tm_value := None |})
  | None =>
      let hash := (or_else (get "hash" item)
        (or_else (get "txHash" item) (get "transactionHash" item)) ≫= as_str) ≫= normalize_hash32 in
      match hash with
      | None => mret None
      | Some h =>
          value ← and_then_u256 (get "value" item);
          mret (Some {|
            tm_hash := h;
            tm_from := (get "from" item ≫= as_str) ≫= canonical_address;
            tm_nonce := get "nonce" item ≫= parse_u64_value;
            tm_gas_limit := or_else (get "gas" item) (get "gasLimit" item) ≫= parse_u64_value;
            tm_gas_price := or_else (get "maxFeePerGas" item) (get "gasPrice" item) ≫= parse_u128_value;
            tm_value := value |})
      end
  end.
(* eth2077-node/src/bin/eth2077-devnetd.rs:1282-1322 dedup_tx_meta_array *)
Fixpoint dedup_tx_meta_loop (seen : gset Str) (items : list Value) : outcome (list EngineTxMeta) :=
  match items with
  | [] => mret []
  | item :: items =>
      entry ← tx_meta_of_item item;
      match entry with
      | None => dedup_tx_meta_loop seen items
      | Some meta =>
          if decide (tm_hash meta ∈ seen) then dedup_tx_meta_loop seen items else
          out ← dedup_tx_meta_loop ({[tm_hash meta]} ∪ seen) items; mret (meta :: out)
      end
  end.
(* eth2077-node/src/bin/eth2077-devnetd.rs:1276-1324 dedup_tx_meta_array *)
Definition dedup_tx_meta_array (value : Value) : outcome (list EngineTxMeta) :=
  match as_array value with None => mret [] | Some items => dedup_tx_meta_loop ∅ items end.

(* eth2077-node/src/bin/eth2077-devnetd.rs:1326-1333 payload_attributes_from_engine_request *)
Definition payload_attributes_from_engine_request (req : Value) : option Value :=
  or_else (get "payloadAttributes" req) (param 1 req ≫= get "payloadAttributes").
(* eth2077-node/src/bin/eth2077-devnetd.rs:1335-1342 execution_payload_from_engine_request *)
Definition execution_payload_from_engine_request (req : Value) : option Value :=
  or_else (get "executionPayload" req)
    (payload ← param 0 req; or_else (get "executionPayload" payload) (Some payload)).
(* eth2077-node/src/bin/eth2077-devnetd.rs:1344-1350 engine_request_has_inclusion_list *)
Definition engine_request_has_inclusion_list (req : Value) : bool :=
  match payload_attributes_from_engine_request req with
  | None => false
  | Some attrs => bool_decide (is_Some (get "inclusionListTransactions" attrs))
                  || bool_decide (is_Some (get "inclusionList" attrs))
  end.
(* eth2077-node/src/bin/eth2077-devnetd.rs:1352-1366 engine_collect_inclusion_list_entries *)
Definition engine_collect_inclusion_list_entries (req : Value) : outcome (list EngineTxMeta) :=
  match payload_attributes_from_engine_request req with
  | None => mret []
  | Some attrs =>
      match get "inclusionListTransactions" attrs with
      | Some list => dedup_tx_meta_array list
      | None =>
          match (il ← get "inclusionList" attrs; or_else (get "transactions" il) (Some il)) with
          | Some list => dedup_tx_meta_array list
          | None => mret []
          end
      end
  end.
(* eth2077-node/src/bin/eth2077-devnetd.rs:1368-1378 engine_collect_payload_transaction_entries *)
Definition engine_collect_payload_transaction_entries (req : Value) : outcome (list EngineTxMeta) :=
  match execution_payload_from_engine_request req ≫= get "transactions" with
  | Some txs => dedup_tx_meta_array txs
  | None => match get "transactions" req with Some txs => dedup_tx_meta_array txs | None => mret [] end
  end.
(* eth2077-node/src/bin/eth2077-devnetd.rs:1386-1394 dedup_string_array *)
Fixpoint dedup_string_loop (seen : gset Str) (items : list Value) : list Str :=
  match items with
  | [] => []
  | item :: items =>
      match as_str item with
      | None => dedup_string_loop seen items
      | Some raw =>
          let member := default (to_ascii_lowercase (trim raw)) (canonical_address raw) in
          if decide (member ∈ seen) then dedup_string_loop seen items
          else member :: dedup_string_loop ({[member]} ∪ seen) items
      end
  end.
(* eth2077-node/src/bin/eth2077-devnetd.rs:1380-1396 dedup_string_array *)
Definition dedup_string_array (value : Value) : list Str :=
  match as_array value with None => [] | Some items => dedup_string_loop ∅ items end.
(* eth2077-node/src/bin/eth2077-devnetd.rs:1398-1415 engine_collect_committee_members *)
Definition engine_collect_committee_members (req : Value) : list Str :=
  match payload_attributes_from_engine_request req with
  | None => []
  | Some attrs =>
      match get "inclusionListCommittee" attrs, get "committee" attrs,
            get "inclusionList" attrs ≫= get "committee" with
      | Some committee, _, _ | None, Some committee, _ | None, None, Some committee =>
          dedup_string_array committee
      | None, None, None => []
      end
  end.
(* eth2077-node/src/bin/eth2077-devnetd.rs:1417-1421 engine_slot_from_payload_attributes *)
Definition engine_slot_from_payload_attributes (req : Value) : option Z :=
  (payload_attributes_from_engine_request req ≫= get "slot") ≫= parse_u64_value.
(* eth2077-node/src/bin/eth2077-devnetd.rs:1423-1427 engine_view_id_from_payload_attributes *)
Definition engine_view_id_from_payload_attributes (req : Value) : option Z :=
  attrs ← payload_attributes_from_engine_request req;
  or_else (get "viewId" attrs) (get "view" attrs) ≫= parse_u64_value.
(* eth2077-node/src/bin/eth2077-devnetd.rs:1429-1440 engine_payload_slot *)
Definition engine_payload_slot (req : Value) : option Z :=
  or_else (get "slot" req ≫= parse_u64_value)
  (or_else ((execution_payload_from_engine_request req ≫= get "slot") ≫= parse_u64_value)
           ((execution_payload_from_engine_request req ≫= get "blockNumber") ≫= parse_u64_value)).
(* eth2077-node/src/bin/eth2077-devnetd.rs:1442-1445 engine_inclusion_list_root *)
Definition engine_inclusion_list_root (hashes : list Str) : Str :=
  bytes_to_hex (keccak256 (join (str ",") hashes)).

(** ** The list of a slot *)

(* eth2077-node/src/bin/eth2077-devnetd.rs:2376-2385 engine_tx_meta_to_json *)
Definition engine_tx_meta_to_json (meta : EngineTxMeta) : Value := obj
  ["hash" ⟼ VString (tm_hash meta);
   "from" ⟼ opt VString (tm_from meta);
   "nonce" ⟼ opt (λ v, VString (hex_u64 v)) (tm_nonce meta);
   "gas" ⟼ opt (λ v, VString (hex_u64 v)) (tm_gas_limit meta);
   "maxFeePerGas" ⟼ opt (λ v, VString (hex_u128 v)) (tm_gas_price meta);
   "value" ⟼ opt (λ v, VString (u256_to_hex v)) (tm_value meta)].

(** Freezing the list of its slot. *)
(* eth2077-node/src/bin/eth2077-devnetd.rs:2400-2408 engine_get_inclusion_list_response *)
Definition freeze_view (slot : Z) (f : FocilState) : FocilState := {|
  required_il_txs := required_il_txs f; required_il_meta := required_il_meta f;
  required_il_slot := required_il_slot f;
  required_il_updated_at_unix_s := required_il_updated_at_unix_s f;
  focil_committee := focil_committee f;
  focil_view_frozen := true;
  focil_frozen_slot := Some slot;
  focil_frozen_il_root := Some (engine_inclusion_list_root (required_il_txs f));
  focil_view_id := match focil_view_id f with None => Some slot | Some v => Some v end |}.
(* eth2077-node/src/bin/eth2077-devnetd.rs:2387-2429 engine_get_inclusion_list_response *)
Definition engine_get_inclusion_list_response (st : NodeState) (req : Value) : NodeState * Value :=
  let requested_slot := default (u64_saturating_add (current_height st) 1)
    (or_else (or_else (get "slot" req ≫= parse_u64_value) (param 0 req ≫= parse_u64_value))
       (required_il_slot (focil st))) in
  let f := if bool_decide (required_il_slot (focil st) = Some requested_slot)
           then freeze_view requested_slot (focil st) else focil st in
  (with_focil f st, obj
  ["slot" ⟼ VString (hex_u64 requested_slot);
   "transactions" ⟼ arr VString (required_il_txs f);
   "transactionDetails" ⟼ arr engine_tx_meta_to_json
      (omap (λ h, required_il_meta f !! h) (required_il_txs f));
   "committee" ⟼ arr VString (focil_committee f);
   "viewId" ⟼ opt (λ v, VString (hex_u64 v)) (focil_view_id f);
   "viewFreeze" ⟼ obj
     ["frozen" ⟼ VBool (focil_view_frozen f);
      "slot" ⟼ opt (λ v, VString (hex_u64 v)) (focil_frozen_slot f);
      "inclusionListRoot" ⟼ opt VString (focil_frozen_il_root f)];
   "maxBytesPerInclusionList" ⟼ text "0x2000";
   "updatedAtUnixS" ⟼ opt num (required_il_updated_at_unix_s f)]).

(** ** Fork choice *)

(* eth2077-node/src/bin/eth2077-devnetd.rs:2501-2508 engine_forkchoice_updated_response *)
Definition focil_to_json (f : FocilState) : Value := obj
  ["requiredTransactions" ⟼ VString (hex_u64 (len (required_il_txs f)));
   "slot" ⟼ opt (λ v, VString (hex_u64 v)) (required_il_slot f);
   "viewId" ⟼ opt (λ v, VString (hex_u64 v)) (focil_view_id f);
   "viewFrozen" ⟼ VBool (focil_view_frozen f);
   "committeeSize" ⟼ VString (hex_u64 (len (focil_committee f)));
   "frozenInclusionListRoot" ⟼ opt VString (focil_frozen_il_root f)].
Definition timeliness_violation (slot : Z) (status : Str) : Str :=
  str "EIP-7732 timeliness violation for slot " ++ decimal slot ++ str ": " ++ status.
(** The status of the slot and the penalty it causes or ends. *)
(* eth2077-node/src/bin/eth2077-devnetd.rs:2436-2473 engine_forkchoice_updated_response *)
Definition assess_slot (st : NodeState) (slot now : Z) : NodeState * Value * Str * Value :=
  let timeliness := engine_7732_slot_status_response st slot now in
  let status := default (str "UNKNOWN") (get "aggregateStatus" timeliness ≫= as_str) in
  let reason := if engine_7732_is_timeliness_violation status then timeliness_violation slot status
                else str "EIP-7732 timeliness recovered" in
  let '(st, penalty) := engine_7732_update_penalty_state st slot status reason now in
  (st, timeliness, status, opt engine_7732_penalty_to_json penalty).
Definition payload_status (status : string) (error : Value) : Value := obj
  ["status" ⟼ text status; "latestValidHash" ⟼ text "0x00"; "validationError" ⟼ error].
(** [il_meta.insert(entry.hash.clone(), entry.clone())] for each entry. *)
Definition meta_by_hash (entries : list EngineTxMeta) : gmap Str EngineTxMeta :=
  foldl (λ m entry, <[tm_hash entry := entry]> m) ∅ entries.

(** What an accepted update leaves: the view of another slot is thawed, a committee or a
    list in the request replaces the old one. *)
(* eth2077-node/src/bin/eth2077-devnetd.rs:2512-2533 engine_forkchoice_updated_response *)
Definition update_view (now' : Z) (req : Value) (fc_slot : Z) (il_entries : list EngineTxMeta)
    (f : FocilState) : FocilState :=
  let thaw := focil_view_frozen f && bool_decide (focil_frozen_slot f ≠ Some fc_slot) in
  let committee := engine_collect_committee_members req in
  let has_il_update := engine_request_has_inclusion_list req in
  {| required_il_txs := if has_il_update then tm_hash <$> il_entries else required_il_txs f;
     required_il_meta := if has_il_update then meta_by_hash il_entries else required_il_meta f;
     required_il_slot := if has_il_update then Some fc_slot else required_il_slot f;
     required_il_updated_at_unix_s :=
       if has_il_update then Some now' else required_il_updated_at_unix_s f;
     focil_committee := if bool_decide (committee = []) then focil_committee f else committee;
     focil_view_frozen := if thaw then false else focil_view_frozen f;
     focil_frozen_slot := if thaw then None else focil_frozen_slot f;
     focil_frozen_il_root := if thaw then None else focil_frozen_il_root f;
     focil_view_id := match engine_view_id_from_payload_attributes req with
                      | Some v => Some v | None => Some fc_slot end |}.

(* eth2077-node/src/bin/eth2077-devnetd.rs:2431-2553 engine_forkchoice_updated_response *)
Definition engine_forkchoice_updated_response (now now' : Z) (st : NodeState) (req : Value)
  : outcome (NodeState * Value) :=
  let fc_slot := default (u64_saturating_add (current_height st) 1)
    (or_else (engine_slot_from_payload_attributes req) (required_il_slot (focil st))) in
  let timeliness_now := default now (engine_7732_current_unix_s_from_req req) in
  let '(st, timeliness, status, penalty) := assess_slot st fc_slot timeliness_now in
  if engine_7732_is_timeliness_violation status then
    mret (st, obj
      ["payloadStatus" ⟼ payload_status "INVALID" (VString (timeliness_violation fc_slot status));
       "payloadId" ⟼ VNull; "timeliness" ⟼ timeliness; "penalty" ⟼ penalty])
  else
  let has_il_update := engine_request_has_inclusion_list req in
  il_entries ← if has_il_update then engine_collect_inclusion_list_entries req else mret [];
  let f := focil st in
  let new_il_root := engine_inclusion_list_root (tm_hash <$> il_entries) in
  if focil_view_frozen f && bool_decide (focil_frozen_slot f = Some fc_slot) && has_il_update
     && bool_decide (Some new_il_root ≠ focil_frozen_il_root f)
  then
    mret (st, obj
      ["payloadStatus" ⟼ payload_status "INVALID" (VString (str "FOCIL view frozen for slot " ++
          decimal fc_slot ++ str "; inclusion list is immutable"));
       "payloadId" ⟼ VNull; "focil" ⟼ focil_to_json f])
  else
  let f := update_view now' req fc_slot il_entries f in
  mret (with_focil f st, obj
    ["payloadStatus" ⟼ payload_status "VALID" VNull;
     "payloadId" ⟼ text "0x0000000000000000";
     "timeliness" ⟼ timeliness; "penalty" ⟼ penalty; "focil" ⟼ focil_to_json f]).

(** ** New payloads *)

(* eth2077-node/src/bin/eth2077-devnetd.rs:2556-2556 engine_new_payload_response *)
Definition ENGINE_BLOCK_GAS_LIMIT : Z := 30000000.

(** A field the list requires must be in the payload, with the same value. *)
(* eth2077-node/src/bin/eth2077-devnetd.rs:2660-2668 engine_new_payload_response *)
Definition field_check {A} `{EqDecision A} (required payload : option A)
    (mismatch : A → A → Str) (missing : Str) : list Str :=
  match required with
  | None => []
  | Some r =>
      match payload with
      | Some p => if decide (p = r) then [] else [mismatch r p]
      | None => [missing]
      end
  end.
(** The fields of one required transaction. *)
(* eth2077-node/src/bin/eth2077-devnetd.rs:2660-2709 engine_new_payload_response *)
Definition metadata_checks (req_hash : Str) (req_meta payload_meta : EngineTxMeta) : list Str :=
  let got what r p := req_hash ++ str ": " ++ str what ++ str " mismatch (required " ++ r ++
    str ", got " ++ p ++ str ")" in
  field_check (tm_from req_meta) (tm_from payload_meta)
    (got "sender"%string) (req_hash ++ str ": payload sender missing") ++
  field_check (tm_nonce req_meta) (tm_nonce payload_meta)
    (λ r p, got "nonce"%string (decimal r) (decimal p)) (req_hash ++ str ": payload nonce missing") ++
  field_check (tm_gas_limit req_meta) (tm_gas_limit payload_meta)
    (λ r p, got "gas"%string (decimal r) (decimal p)) (req_hash ++ str ": payload gas missing") ++
  field_check (tm_gas_price req_meta) (tm_gas_price payload_meta)
    (λ r p, got "gas price"%string (hex_u128 r) (hex_u128 p)) (req_hash ++ str ": payload gas price missing") ++
  field_check (tm_value req_meta) (tm_value payload_meta)
    (λ r p, got "value"%string (u256_to_hex r) (u256_to_hex p)) (req_hash ++ str ": payload value missing").
(* eth2077-node/src/bin/eth2077-devnetd.rs:2652-2710 engine_new_payload_response *)
Definition required_checks (f : FocilState) (payload_meta : gmap Str EngineTxMeta) : list Str :=
  required_il_txs f ≫= λ req_hash,
    match required_il_meta f !! req_hash, payload_meta !! req_hash with
    | Some req_meta, Some payload_meta => metadata_checks req_hash req_meta payload_meta
    | _, _ => []
    end.

(** The walk over the payload's transactions. *)
(* eth2077-node/src/bin/eth2077-devnetd.rs:2712-2715 engine_new_payload_response *)
Record Simulation := MkSim {
  simulated_nonce : gmap Str Z;
  simulated_balance : gmap Str U256;
  total_known_gas : Z;
  unknown_gas_count : Z;
  sim_checks : list Str;
}.
Definition sim_push (check : Str) (s : Simulation) : Simulation :=
  MkSim (simulated_nonce s) (simulated_balance s) (total_known_gas s) (unknown_gas_count s)
    (sim_checks s ++ [check]).
Definition sim_set_nonce (from : Str) (n : Z) (s : Simulation) : Simulation :=
  MkSim (<[from := n]> (simulated_nonce s)) (simulated_balance s) (total_known_gas s)
    (unknown_gas_count s) (sim_checks s).
Definition sim_set_balance (from : Str) (b : U256) (s : Simulation) : Simulation :=
  MkSim (simulated_nonce s) (<[from := b]> (simulated_balance s)) (total_known_gas s)
    (unknown_gas_count s) (sim_checks s).
(* eth2077-node/src/bin/eth2077-devnetd.rs:2723-2727 engine_new_payload_response *)
Definition count_gas (payload : EngineTxMeta) (s : Simulation) : Simulation :=
  match tm_gas_limit payload with
  | Some gas_limit => MkSim (simulated_nonce s) (simulated_balance s)
      (u64_saturating_add (total_known_gas s) gas_limit) (unknown_gas_count s) (sim_checks s)
  | None => MkSim (simulated_nonce s) (simulated_balance s) (total_known_gas s)
      (u64_saturating_add (unknown_gas_count s) 1) (sim_checks s)
  end.
(** [U256::from(gas_limit) * U256::from(gas_price) + value] *)
(* eth2077-node/src/bin/eth2077-devnetd.rs:2768-2768 engine_new_payload_response *)
Definition required_wei (gas_limit gas_price : Z) (value : U256) : U256 :=
  U256_add (U256_mul gas_limit gas_price) value.
(* eth2077-node/src/bin/eth2077-devnetd.rs:2762-2779 engine_new_payload_response *)
Definition charge (db : EvmDb) (sender : Address) (from : Str) (payload : EngineTxMeta)
    (s : Simulation) : Simulation :=
  match tm_gas_limit payload, tm_gas_price payload, tm_value payload with
  | Some gas_limit, Some gas_price, Some value =>
      let balance := default (account_balance_from_db db sender) (simulated_balance s !! from) in
      let required := required_wei gas_limit gas_price value in
      if balance <? required then
        sim_push (tm_hash payload ++ str ": insufficient balance (need " ++ u256_to_hex required ++
          str ", have " ++ u256_to_hex balance ++ str ")") (sim_set_balance from balance s)
      else sim_set_balance from (balance - required) s
  | _, _, _ => s
  end.
(* eth2077-node/src/bin/eth2077-devnetd.rs:2722-2784 engine_new_payload_response *)
Definition simulate_step (db : EvmDb) (required : list Str) (s : Simulation) (payload : EngineTxMeta)
  : Simulation :=
  let s := count_gas payload s in
  if negb (bool_decide (tm_hash payload ∈ required)) then s else
  match tm_from payload with
  | None => s
  | Some from =>
      match address_from_hex from with
      | None => sim_push (tm_hash payload ++ str ": sender is not a valid address") s
      | Some sender =>
          let expected_nonce := default (account_nonce_from_db db sender) (simulated_nonce s !! from) in
          let s := sim_set_nonce from expected_nonce s in
          if match tm_nonce payload with Some n => negb (n =? expected_nonce) | None => false end then
            sim_push (tm_hash payload ++ str ": nonce " ++ decimal (default 0 (tm_nonce payload)) ++
              str " does not match expected " ++ decimal expected_nonce) s
          else
          let s := match tm_gas_limit payload with
            | Some gas_limit =>
                if ENGINE_BLOCK_GAS_LIMIT <? gas_limit then
                  sim_push (tm_hash payload ++ str ": gas limit " ++ decimal gas_limit ++
                    str " exceeds block gas limit " ++ decimal ENGINE_BLOCK_GAS_LIMIT) s
                else s
            | None => s
            end in
          let s := charge db sender from payload s in
          match tm_nonce payload with
          | Some _ => sim_set_nonce from (u64_saturating_add expected_nonce 1) s
          | None => s
          end
      end
  end.
(* eth2077-node/src/bin/eth2077-devnetd.rs:2786-2795 engine_new_payload_response *)
Definition total_gas_check (required : list Str) (entries : list EngineTxMeta) (s : Simulation)
  : list Str :=
  if (unknown_gas_count s =? 0) && negb (bool_decide (length entries = 0%nat))
     && (ENGINE_BLOCK_GAS_LIMIT <? total_known_gas s) && negb (bool_decide (required = []))
  then [str "payload gas " ++ decimal (total_known_gas s) ++ str " exceeds block gas limit " ++
        decimal ENGINE_BLOCK_GAS_LIMIT]
  else [].
(* eth2077-node/src/bin/eth2077-devnetd.rs:2651-2795 engine_new_payload_response *)
Definition payload_checks (db : EvmDb) (f : FocilState) (entries : list EngineTxMeta) : list Str :=
  let s := foldl (simulate_step db (required_il_txs f))
    (MkSim ∅ ∅ 0 0 (required_checks f (meta_by_hash entries))) entries in
  sim_checks s ++ total_gas_check (required_il_txs f) entries s.

(** The slot of the frozen view, when the payload is for another one. *)
(* eth2077-node/src/bin/eth2077-devnetd.rs:2634-2649 engine_new_payload_response *)
Definition wrong_frozen_slot (f : FocilState) (payload_slot : Z) : option Z :=
  if focil_view_frozen f then
    match focil_frozen_slot f with
    | Some frozen_slot => if payload_slot =? frozen_slot then None else Some frozen_slot
    | None => None
    end
  else None.

(* eth2077-node/src/bin/eth2077-devnetd.rs:2555-2820 engine_new_payload_response *)
Definition engine_new_payload_response (now : Z) (st : NodeState) (req : Value)
  : outcome (NodeState * Value) :=
  payload_entries ← engine_collect_payload_transaction_entries req;
  let f := focil st in
  let missing := filter (λ tx, tx ∉ tm_hash <$> payload_entries) (required_il_txs f) in
  let latest_valid_hash := default (str "0x00")
    (((execution_payload_from_engine_request req ≫= get "blockHash") ≫= as_str) ≫= normalize_hash32) in
  let payload_slot := default (u64_saturating_add (current_height st) 1)
    (or_else (engine_payload_slot req) (required_il_slot f)) in
  let timeliness_now := default now (engine_7732_current_unix_s_from_req req) in
  let '(st, timeliness, status, penalty) := assess_slot st payload_slot timeliness_now in
  let answer status error := (st, obj
    ["status" ⟼ text status; "latestValidHash" ⟼ VString latest_valid_hash;
     "validationError" ⟼ error; "timeliness" ⟼ timeliness; "penalty" ⟼ penalty]) in
  mret
  (if engine_7732_is_timeliness_violation status then
    answer "INVALID"%string (VString (timeliness_violation payload_slot status))
  else
  if negb (bool_decide (missing = [])) then
    answer "INCLUSION_LIST_UNSATISFIED"%string (VString (str "missing " ++ decimal (len missing) ++
      str " inclusion-list tx(s): " ++ join (str ", ") (take 3 missing)))
  else
  match wrong_frozen_slot f payload_slot with
  | Some frozen_slot =>
      answer "INCLUSION_LIST_UNSATISFIED"%string (VString (str "FOCIL view frozen at slot " ++
        decimal frozen_slot ++ str "; payload targets slot " ++ decimal payload_slot))
  | None =>
      match payload_checks (evm_db (ledger st)) f payload_entries with
      | [] => answer "VALID"%string VNull
      | checks => answer "INCLUSION_LIST_UNSATISFIED"%string (VString (join (str "; ") (take 3 checks)))
      end
  end).

(** ** What a valid payload satisfies *)

(** What the list says of a transaction, the payload says too. *)
Definition fields_agree (required payload : EngineTxMeta) : Prop :=
  (∀ v, tm_from required = Some v → tm_from payload = Some v) ∧
  (∀ v, tm_nonce required = Some v → tm_nonce payload = Some v) ∧
  (∀ v, tm_gas_limit required = Some v → tm_gas_limit payload = Some v) ∧
  (∀ v, tm_gas_price required = Some v → tm_gas_price payload = Some v) ∧
  (∀ v, tm_value required = Some v → tm_value payload = Some v).
(** The cost the walk charges, when all its parts are known: 256-bit arithmetic wraps. *)
Definition tx_cost (p : EngineTxMeta) : option U256 :=
  gas_limit ← tm_gas_limit p; gas_price ← tm_gas_price p; value ← tm_value p;
  Some ((gas_limit * gas_price + value) mod 2 ^ 256).
(** The earlier required transactions of a sender. *)
Definition sent_before (required : list Str) (from : Str) (before : list EngineTxMeta) : list EngineTxMeta :=
  filter (λ q, tm_hash q ∈ required ∧ tm_from q = Some from) before.
Definition expected_nonce (db : EvmDb) (required : list Str) (sender : Address) (from : Str)
    (before : list EngineTxMeta) : Z :=
  Nat.iter (length (omap tm_nonce (sent_before required from before))) (λ n, u64_saturating_add n 1)
    (account_nonce_from_db db sender).
Definition remaining_balance (db : EvmDb) (required : list Str) (sender : Address) (from : Str)
    (before : list EngineTxMeta) : Z :=
  account_balance_from_db db sender - Zsum (omap tx_cost (sent_before required from before)).
(** A required transaction with a sender, after [before]. *)
Definition entry_ok (db : EvmDb) (required : list Str) (before : list EngineTxMeta) (p : EngineTxMeta) : Prop :=
  tm_hash p ∈ required → ∀ from, tm_from p = Some from →
  ∃ sender, address_from_hex from = Some sender ∧
    (∀ n, tm_nonce p = Some n → n = expected_nonce db required sender from before) ∧
    (∀ g, tm_gas_limit p = Some g → g <= ENGINE_BLOCK_GAS_LIMIT) ∧
    (∀ c, tx_cost p = Some c → c <= remaining_balance db required sender from before).
Definition payload_ok (db : EvmDb) (f : FocilState) (entries : list EngineTxMeta) : Prop :=
  (∀ h required payload, h ∈ required_il_txs f → required_il_meta f !! h = Some required →
     meta_by_hash entries !! h = Some payload → fields_agree required payload) ∧
  (∀ i p, entries !! i = Some p → entry_ok db (required_il_txs f) (take i entries) p) ∧
  (required_il_txs f ≠ [] → Forall (λ p, is_Some (tm_gas_limit p)) entries →
     foldl u64_saturating_add 0 (omap tm_gas_limit entries) <= ENGINE_BLOCK_GAS_LIMIT).

(** The items the payload's transactions are read from. *)
Definition payload_items (req : Value) : list Value :=
  default [] (or_else (execution_payload_from_engine_request req ≫= get "transactions") (get "transactions" req) ≫= as_array).
(** An object with a hash whose value is a hexadecimal text of more than 256 bits. *)
Definition oversized_value (item : Value) : Prop :=
  ∃ hash value text bytes, as_str item ≫= normalize_hash32 = None ∧
    ((or_else (get "hash" item) (or_else (get "txHash" item) (get "transactionHash" item)) ≫= as_str) ≫= normalize_hash32) = Some hash ∧
    get "value" item = Some value ∧ as_u64 value = None ∧ as_str value = Some text ∧
    parse_hex_bytes text = Some bytes ∧ 2 ^ 256 <= be_value bytes.

Lemma tx_cost_charged p :
  tx_cost p = (gas_limit ← tm_gas_limit p; gas_price ← tm_gas_price p; value ← tm_value p;
               Some (required_wei gas_limit gas_price value)).
Proof.
  unfold tx_cost, required_wei. destruct (tm_gas_limit p), (tm_gas_price p), (tm_value p); try done.
  cbn [mbind option_bind]. rewrite U256_add_spec, U256_mul_spec. change (u256_max + 1) with (2 ^ 256).
  by rewrite Zplus_mod_idemp_l.
Qed.
Lemma parse_u256_panics v :
  parse_u256_value v = Panics ↔
  ∃ text bytes, as_u64 v = None ∧ as_str v = Some text ∧ parse_hex_bytes text = Some bytes ∧ 2 ^ 256 <= be_value bytes.
Proof.
  unfold parse_u256_value. destruct (as_u64 v); [split; [done|naive_solver]|].
  destruct (as_str v) as [text|]; [|split; [done|naive_solver]]. unfold parse_hex_u256.
  destruct (parse_hex_bytes text) as [bytes|] eqn:Hb; [|split; [done|naive_solver]].
  rewrite U256_from_be_slice_spec. assert (Hmax : u256_max + 1 = 2 ^ 256) by done.
  destruct (Z.leb_spec (be_value bytes) u256_max); cbn [mbind outcome_bind mret outcome_ret].
  - split; [done|]. intros (t' & b' & _ & [= <-] & Hb' & Hle). simplify_eq. lia.
  - split; [|done]. intros _. exists text, bytes. split; [done|]. split; [done|]. split; [done|lia].
Qed.
Lemma tx_meta_panics item : tx_meta_of_item item = Panics ↔ oversized_value item.
Proof.
  unfold tx_meta_of_item, oversized_value.
  destruct (as_str item ≫= normalize_hash32); [split; [done|naive_solver]|].
  destruct (_ ≫= normalize_hash32) as [h|]; [|split; [done|naive_solver]].
  destruct (get "value" item) as [v|]; cbn [and_then_u256]; [|split; [done|naive_solver]].
  pose proof (parse_u256_panics v) as Hv. destruct (parse_u256_value v); cbn [mbind outcome_bind mret outcome_ret].
  - split; [done|]. intros (? & ? & ? & ? & _ & _ & [= <-] & Hrest). exfalso.
    assert (Hp : Done a = Panics) by (apply Hv; eauto). discriminate Hp.
  - split; [|done]. intros _. destruct (proj1 Hv eq_refl) as (t & b & Hrest). by exists h, v, t, b.
Qed.
Lemma dedup_tx_meta_panics seen items : dedup_tx_meta_loop seen items = Panics ↔ Exists oversized_value items.
Proof.
  revert seen. induction items as [|item items IH]; intros seen; cbn [dedup_tx_meta_loop].
  - split; [done|]. by intros ?%Exists_nil.
  - rewrite Exists_cons, <- tx_meta_panics. destruct (tx_meta_of_item item) as [[meta|]|]; cbn [mbind outcome_bind].
    + case_decide; [rewrite IH; naive_solver|]. specialize (IH ({[tm_hash meta]} ∪ seen)).
      destruct (dedup_tx_meta_loop _ items); cbn [mbind outcome_bind mret outcome_ret]; naive_solver.
    + rewrite IH. naive_solver.
    + naive_solver.
Qed.
(** Reading the transactions panics exactly at such an item. *)
Lemma payload_entries_panic req :
  engine_collect_payload_transaction_entries req = Panics ↔ Exists oversized_value (payload_items req).
Proof.
  unfold engine_collect_payload_transaction_entries, payload_items, dedup_tx_meta_array.
  destruct (execution_payload_from_engine_request req ≫= get "transactions") as [txs|]; cbn [or_else mbind option_bind].
  - destruct (as_array txs); [apply dedup_tx_meta_panics|]. split; [done|]. by intros ?%Exists_nil.
  - destruct (get "transactions" req) as [txs|]; cbn [mbind option_bind]; [destruct (as_array txs); [apply dedup_tx_meta_panics|]|];
      (split; [done|]); by intros ?%Exists_nil.
Qed.

Lemma field_check_nil {A} `{EqDecision A} (required payload : option A) mismatch missing :
  field_check required payload mismatch missing = [] ↔ (∀ v, required = Some v → payload = Some v).
Proof.
  unfold field_check. destruct required as [r|]; [|naive_solver].
  destruct payload as [p|]; [|split; [done|intros Hv; by specialize (Hv r eq_refl)]].
  case_decide as Hp; [naive_solver|]. split; [done|]. intros Hv. specialize (Hv r eq_refl). naive_solver.
Qed.
Lemma metadata_checks_nil h required payload :
  metadata_checks h required payload = [] ↔ fields_agree required payload.
Proof.
  unfold metadata_checks, fields_agree.
  by rewrite !app_nil, !field_check_nil.
Qed.
Lemma required_checks_nil f payload_meta :
  required_checks f payload_meta = [] ↔
  ∀ h required payload, h ∈ required_il_txs f → required_il_meta f !! h = Some required →
    payload_meta !! h = Some payload → fields_agree required payload.
Proof.
  unfold required_checks. generalize (required_il_txs f) as l. induction l as [|h l IH]; simpl.
  { split; [|done]. by intros _ ??? ?%elem_of_nil. }
  rewrite app_nil, IH. setoid_rewrite elem_of_cons.
  assert (Hh : match required_il_meta f !! h, payload_meta !! h with
      | Some r, Some p => metadata_checks h r p | _, _ => [] end = [] ↔
    ∀ r p, required_il_meta f !! h = Some r → payload_meta !! h = Some p → fields_agree r p).
  { destruct (required_il_meta f !! h) as [r|]; [|naive_solver].
    destruct (payload_meta !! h) as [p|]; [|naive_solver]. rewrite metadata_checks_nil. naive_solver. }
  rewrite Hh. naive_solver.
Qed.

Record sim_inv (db : EvmDb) (required : list Str) (pre : list EngineTxMeta) (s : Simulation) : Prop := {
  si_nonce from sender : address_from_hex from = Some sender →
    default (account_nonce_from_db db sender) (simulated_nonce s !! from) =
      expected_nonce db required sender from pre;
  si_balance from sender : address_from_hex from = Some sender →
    default (account_balance_from_db db sender) (simulated_balance s !! from) =
      remaining_balance db required sender from pre;
}.

Lemma sent_before_snoc required from pre p :
  sent_before required from (pre ++ [p]) = sent_before required from pre ++
    (if decide (tm_hash p ∈ required ∧ tm_from p = Some from) then [p] else []).
Proof. unfold sent_before. rewrite filter_app, filter_cons, filter_nil. by case_decide. Qed.
Lemma expected_nonce_snoc db required sender from pre p :
  expected_nonce db required sender from (pre ++ [p]) =
    if decide (tm_hash p ∈ required ∧ tm_from p = Some from ∧ is_Some (tm_nonce p))
    then u64_saturating_add (expected_nonce db required sender from pre) 1
    else expected_nonce db required sender from pre.
Proof.
  unfold expected_nonce. rewrite sent_before_snoc, omap_app, length_app.
  destruct (decide (tm_hash p ∈ required ∧ tm_from p = Some from)) as [[? ?]|Hno].
  - simpl. destruct (tm_nonce p); simpl.
    + rewrite decide_True by eauto. by rewrite Nat.add_comm.
    + rewrite decide_False by (intros (_ & _ & [? ?]); done). by rewrite Nat.add_0_r.
  - rewrite decide_False by tauto. simpl. by rewrite Nat.add_0_r.
Qed.
Lemma remaining_balance_snoc db required sender from pre p :
  remaining_balance db required sender from (pre ++ [p]) =
    remaining_balance db required sender from pre -
    (if decide (tm_hash p ∈ required ∧ tm_from p = Some from) then default 0 (tx_cost p) else 0).
Proof.
  unfold remaining_balance. rewrite sent_before_snoc, omap_app, Zsum_app.
  case_decide; simpl; [|lia]. destruct (tx_cost p); simpl; lia.
Qed.
Lemma sim_inv_skip db required pre s p from_nonces :
  sim_inv db required pre s → (∀ from, ¬ (tm_hash p ∈ required ∧ tm_from p = Some from)) →
  sim_inv db required (pre ++ [p]) (MkSim (simulated_nonce s) (simulated_balance s) from_nonces.1.1
    from_nonces.1.2 from_nonces.2).
Proof.
  intros [Hn Hb] Hskip. split; intros from sender Hs; simpl.
  - rewrite expected_nonce_snoc, decide_False by (specialize (Hskip from); tauto). by apply Hn.
  - rewrite remaining_balance_snoc, decide_False by apply Hskip. rewrite Z.sub_0_r. by apply Hb.
Qed.
Lemma count_gas_fields p s :
  simulated_nonce (count_gas p s) = simulated_nonce s ∧
  simulated_balance (count_gas p s) = simulated_balance s ∧ sim_checks (count_gas p s) = sim_checks s.
Proof. unfold count_gas. by case_match. Qed.
(** What charging a transaction does, besides [checks]. *)
Lemma charge_spec db sender from p s :
  let balance := default (account_balance_from_db db sender) (simulated_balance s !! from) in
  simulated_nonce (charge db sender from p s) = simulated_nonce s ∧
  (∀ from', from' ≠ from → simulated_balance (charge db sender from p s) !! from' = simulated_balance s !! from') ∧
  ((∀ c, tx_cost p = Some c → c <= balance) ∧ sim_checks (charge db sender from p s) = sim_checks s ∧
     default (account_balance_from_db db sender) (simulated_balance (charge db sender from p s) !! from)
       = balance - default 0 (tx_cost p) ∨
   ¬ (∀ c, tx_cost p = Some c → c <= balance) ∧
     ∃ e, sim_checks (charge db sender from p s) = sim_checks s ++ [e]).
Proof.
  cbv zeta. rewrite tx_cost_charged. unfold charge. destruct (tm_gas_limit p) as [g|], (tm_gas_price p) as [gp|], (tm_value p) as [v|];
    simpl; try (split; [done|]; split; [done|]; left; split; [done|]; split; [done|lia]).
  destruct (Z.ltb_spec (default (account_balance_from_db db sender) (simulated_balance s !! from))
    (required_wei g gp v)) as [Hlt|Hge]; simpl.
  - split; [done|]. split; [intros; by rewrite lookup_insert_ne|]. right. split; [|by eexists].
    intros Hc. specialize (Hc _ eq_refl). lia.
  - split; [done|]. split; [intros; by rewrite lookup_insert_ne|]. left.
    split; [intros c [= <-]; lia|]. split; [done|]. by rewrite lookup_insert_eq.
Qed.

(** A step that sets the sender's nonce and charges it keeps the invariant. *)
Lemma sim_inv_extend db required pre s p from sender s' :
  sim_inv db required pre s → tm_hash p ∈ required → tm_from p = Some from →
  address_from_hex from = Some sender →
  (∀ from', from' ≠ from → simulated_nonce s' !! from' = simulated_nonce s !! from' ∧
     simulated_balance s' !! from' = simulated_balance s !! from') →
  default (account_nonce_from_db db sender) (simulated_nonce s' !! from) =
    (if decide (is_Some (tm_nonce p)) then u64_saturating_add (expected_nonce db required sender from pre) 1
     else expected_nonce db required sender from pre) →
  default (account_balance_from_db db sender) (simulated_balance s' !! from) =
    remaining_balance db required sender from pre - default 0 (tx_cost p) →
  sim_inv db required (pre ++ [p]) s'.
Proof.
  intros [Hn Hb] Hin Hfrom Hs Hother Hnonce Hbal. split; intros from' sender' Hs';
    rewrite ?expected_nonce_snoc, ?remaining_balance_snoc.
  - destruct (decide (from' = from)) as [->|Hne].
    + simplify_eq. rewrite Hnonce. repeat case_decide; tauto.
    + destruct (Hother from' Hne) as [-> _]. rewrite decide_False by (rewrite Hfrom; naive_solver). by apply Hn.
  - destruct (decide (from' = from)) as [->|Hne].
    + simplify_eq. by rewrite Hbal, decide_True.
    + destruct (Hother from' Hne) as [_ ->]. rewrite decide_False by (rewrite Hfrom; naive_solver).
      rewrite Z.sub_0_r. by apply Hb.
Qed.

Lemma simulate_step_spec db required pre s p :
  sim_inv db required pre s →
  ∃ errs, sim_checks (simulate_step db required s p) = sim_checks s ++ errs ∧
    (errs = [] ↔ entry_ok db required pre p) ∧
    (errs = [] → sim_inv db required (pre ++ [p]) (simulate_step db required s p)).
Proof.
  intros Hinv. unfold simulate_step, entry_ok.
  destruct (count_gas_fields p s) as (Hcn & Hcb & Hcc). set (s0 := count_gas p s) in *.
  assert (Hinv0 : sim_inv db required pre s0).
  { destruct Hinv as [Hn Hb]. split; intros; rewrite ?Hcn, ?Hcb; auto. }
  assert (Hskip : (∀ from, ¬ (tm_hash p ∈ required ∧ tm_from p = Some from)) →
    sim_inv db required (pre ++ [p]) s0).
  { intros Hno. destruct s0 as [sn sb tg ug sc]. by apply (sim_inv_skip db required pre
      (MkSim sn sb tg ug sc) p ((tg, ug), sc)). }
  rewrite <- Hcc. clear Hinv Hcn Hcb Hcc.
  destruct (decide (tm_hash p ∈ required)) as [Hin|Hin]; cycle 1.
  { rewrite bool_decide_false by done. simpl. exists []. rewrite app_nil_r. naive_solver. }
  rewrite bool_decide_true by done. simpl.
  destruct (tm_from p) as [from|] eqn:Hfrom; cycle 1.
  { exists []. rewrite app_nil_r. naive_solver. }
  destruct (address_from_hex from) as [sender|] eqn:Hsender; cycle 1.
  { eexists [_]. split; [done|]. split; [|done]. split; [done|].
    intros Hok. destruct (Hok Hin from eq_refl) as (a & Ha & _). congruence. }
  rewrite (si_nonce _ _ _ _ Hinv0 from sender Hsender).
  set (expected := expected_nonce db required sender from pre).
  assert (Hok : ∀ (P : Prop), (P ↔ (∀ n, tm_nonce p = Some n → n = expected) ∧
      (∀ g, tm_gas_limit p = Some g → g <= ENGINE_BLOCK_GAS_LIMIT) ∧
      (∀ c, tx_cost p = Some c → c <= remaining_balance db required sender from pre)) →
    P ↔ (tm_hash p ∈ required → ∀ from0, Some from = Some from0 → ∃ sender0,
      address_from_hex from0 = Some sender0 ∧
      (∀ n, tm_nonce p = Some n → n = expected_nonce db required sender0 from0 pre) ∧
      (∀ g, tm_gas_limit p = Some g → g <= ENGINE_BLOCK_GAS_LIMIT) ∧
      (∀ c, tx_cost p = Some c → c <= remaining_balance db required sender0 from0 pre))).
  { intros P ->. split.
    - intros Hp _ from0 [= <-]. by exists sender.
    - intros Hp. destruct (Hp Hin from eq_refl) as (sender0 & Hs0 & Hrest). simplify_eq. done. }
  destruct (match tm_nonce p with Some n => negb (n =? expected) | None => false end) eqn:Hnonce.
  { eexists [_]. split; [done|]. split; [|done]. apply Hok. split; [done|]. intros (Hn & _).
    destruct (tm_nonce p) as [n|]; [|done]. bool_to_prop. by specialize (Hn n eq_refl). }
  assert (Hn : ∀ n, tm_nonce p = Some n → n = expected).
  { intros n Hp. rewrite Hp in Hnonce. by bool_to_prop. }
  set (s1 := sim_set_nonce from expected s0).
  set (s2 := match tm_gas_limit p with Some g => _ | None => s1 end).
  assert (Hs2 : simulated_nonce s2 = simulated_nonce s1 ∧ simulated_balance s2 = simulated_balance s0 ∧
    ∃ errs, sim_checks s2 = sim_checks s0 ++ errs ∧
      (errs = [] ↔ ∀ g, tm_gas_limit p = Some g → g <= ENGINE_BLOCK_GAS_LIMIT)).
  { unfold s2. destruct (tm_gas_limit p) as [g|].
    - destruct (Z.ltb_spec ENGINE_BLOCK_GAS_LIMIT g); (split; [done|]; split; [done|]).
      + eexists [_]. split; [done|]. split; [done|]. intros Hg. specialize (Hg g eq_refl). lia.
      + exists []. rewrite app_nil_r. split; [done|]. split; [|done]. intros _ g' [= <-]. done.
    - split; [done|]. split; [done|]. exists []. rewrite app_nil_r. naive_solver. }
  destruct Hs2 as (Hs2n & Hs2b & errs & Hs2c & Hgas).
  destruct (charge_spec db sender from p s2) as (Hcn & Hcb & Hc). set (s3 := charge db sender from p s2) in *.
  rewrite Hs2b, (si_balance _ _ _ _ Hinv0 from sender Hsender) in Hc.
  set (s4 := match tm_nonce p with Some _ => _ | None => s3 end).
  assert (Hs4c : sim_checks s4 = sim_checks s3) by (unfold s4; by case_match).
  rewrite Hs4c. destruct Hc as [(Hcost & Hcc & Hbal)|(Hcost & e & Hcc)]; rewrite Hcc, Hs2c.
  - exists errs. split; [done|]. split; [apply Hok; rewrite Hgas; tauto|]. intros _.
    apply (sim_inv_extend db required pre s0 p from sender); try done.
    + intros from' Hne. assert (Hb4 : simulated_balance s4 = simulated_balance s3) by (unfold s4; by case_match).
      rewrite Hb4, Hcb, Hs2b by done. split; [|done]. unfold s4. case_match; simpl;
        rewrite ?lookup_insert_ne, Hcn, Hs2n by done; simpl; by rewrite lookup_insert_ne.
    + unfold s4. destruct (tm_nonce p) as [n|]; simpl.
      * by rewrite lookup_insert_eq.
      * rewrite Hcn, Hs2n. simpl. by rewrite lookup_insert_eq.
    + assert (Hb4 : simulated_balance s4 = simulated_balance s3) by (unfold s4; by case_match). by rewrite Hb4.
  - exists (errs ++ [e]). rewrite app_assoc. split; [done|].
    assert (Hne : errs ++ [e] ≠ []) by by destruct errs. split; [|done]. apply Hok. tauto.
Qed.

Lemma simulate_step_prefix db required s p : ∃ errs,
  sim_checks (simulate_step db required s p) = sim_checks s ++ errs.
Proof.
  assert (Hcharge : ∀ sender from s, ∃ errs, sim_checks (charge db sender from p s) = sim_checks s ++ errs).
  { intros sender from s'. destruct (charge_spec db sender from p s') as (_ & _ & [(_ & -> & _)|(_ & e & ->)]);
      [by exists []; rewrite app_nil_r|by eexists]. }
  unfold simulate_step. rewrite <- (proj2 (proj2 (count_gas_fields p s))).
  repeat case_match; try (by exists []; rewrite app_nil_r); try (by eexists); simpl;
    match goal with |- context [charge db ?sender ?from p ?s'] =>
      destruct (Hcharge sender from s') as [errs Herrs]; rewrite Herrs; simpl end;
    rewrite <- ?app_assoc; by eexists.
Qed.
Lemma simulate_prefix db required entries s : ∃ errs,
  sim_checks (foldl (simulate_step db required) s entries) = sim_checks s ++ errs.
Proof.
  revert s. induction entries as [|p entries IH]; intros s; simpl; [exists []; by rewrite app_nil_r|].
  destruct (IH (simulate_step db required s p)) as [e2 ->].
  destruct (simulate_step_prefix db required s p) as [e1 ->]. exists (e1 ++ e2). by rewrite app_assoc.
Qed.
(** The walk adds no check exactly when every entry is in order after those before it. *)
Lemma simulate_spec db required pre entries s :
  sim_inv db required pre s →
  sim_checks (foldl (simulate_step db required) s entries) = sim_checks s ↔
  ∀ i p, entries !! i = Some p → entry_ok db required (pre ++ take i entries) p.
Proof.
  revert pre s. induction entries as [|p entries IH]; intros pre s Hinv; simpl; [done|].
  destruct (simulate_step_spec db required pre s p Hinv) as (errs & Hc & Hok & Hnext).
  destruct (simulate_prefix db required entries (simulate_step db required s p)) as [errs' Hc'].
  destruct errs as [|e errs].
  - rewrite app_nil_r in Hc. rewrite <- Hc, (IH (pre ++ [p])) by by apply Hnext. split.
    + intros Hall [|i] q; simpl; [intros [= <-]; rewrite app_nil_r; by apply Hok|].
      intros Hq. specialize (Hall i q Hq). by rewrite <- app_assoc in Hall.
    + intros Hall i q Hq. rewrite <- app_assoc. by apply (Hall (S i)).
  - rewrite Hc', Hc. split.
    + intros Heq. exfalso. rewrite <- app_assoc in Heq. apply (f_equal length) in Heq.
      rewrite !length_app in Heq. simpl in Heq. lia.
    + intros Hall. specialize (Hall 0%nat p eq_refl). simpl in Hall. rewrite app_nil_r in Hall.
      by apply Hok in Hall.
Qed.
Lemma sim_inv_start db required checks tg ug : sim_inv db required [] (MkSim ∅ ∅ tg ug checks).
Proof.
  split; intros from sender _; simpl; rewrite lookup_empty; simpl; [done|].
  unfold remaining_balance. simpl. lia.
Qed.
(** The gas the walk has counted. *)
Lemma simulate_gas db required entries s :
  0 <= unknown_gas_count s →
  let s' := foldl (simulate_step db required) s entries in
  total_known_gas s' = foldl u64_saturating_add (total_known_gas s) (omap tm_gas_limit entries) ∧
  0 <= unknown_gas_count s' ∧
  (unknown_gas_count s' = 0 ↔ unknown_gas_count s = 0 ∧ Forall (λ p, is_Some (tm_gas_limit p)) entries).
Proof.
  assert (Hstep : ∀ s p, total_known_gas (simulate_step db required s p) = total_known_gas (count_gas p s) ∧
    unknown_gas_count (simulate_step db required s p) = unknown_gas_count (count_gas p s)).
  { clear s. intros s p. unfold simulate_step, charge. by repeat case_match. }
  revert s. induction entries as [|p entries IH]; intros s Hs; simpl; [rewrite Forall_nil; naive_solver|].
  destruct (Hstep s p) as [Hg Hu].
  assert (Hu' : 0 <= unknown_gas_count (simulate_step db required s p)).
  { rewrite Hu. unfold count_gas. case_match; simpl; sat_lia. }
  destruct (IH _ Hu') as (-> & ? & ->). rewrite Hg, Hu, Forall_cons. unfold count_gas.
  destruct (tm_gas_limit p) as [g|] eqn:Hgl; simpl.
  - split_and!; [done|done|]. naive_solver.
  - split_and!; [done|done|]. split.
    + intros [Hz _]. sat_lia.
    + intros (_ & [? ?] & _). done.
Qed.
Lemma payload_checks_nil db f entries : payload_checks db f entries = [] ↔ payload_ok db f entries.
Proof.
  unfold payload_checks, payload_ok. set (c0 := required_checks f (meta_by_hash entries)).
  set (s0 := MkSim ∅ ∅ 0 0 c0). set (s := foldl _ s0 entries).
  pose proof (simulate_spec db (required_il_txs f) [] entries s0 (sim_inv_start _ _ _ _ _)) as Hwalk.
  destruct (simulate_prefix db (required_il_txs f) entries s0) as [errs Herrs].
  destruct (simulate_gas db (required_il_txs f) entries s0 ltac:(done)) as (Hgas & _ & Hunknown).
  fold s in Hwalk, Herrs, Hgas, Hunknown. simpl in Hgas, Hunknown, Herrs, Hwalk.
  rewrite app_nil, Herrs, app_nil, <- required_checks_nil. fold c0.
  assert (Hwalk' : errs = [] ↔ ∀ i p, entries !! i = Some p → entry_ok db (required_il_txs f) (take i entries) p).
  { rewrite <- Hwalk, Herrs. split; [intros ->; by rewrite app_nil_r|].
    intros Heq. apply (f_equal length) in Heq. rewrite length_app in Heq. destruct errs; simpl in Heq; [done|lia]. }
  assert (Htotal : total_gas_check (required_il_txs f) entries s = [] ↔
    (required_il_txs f ≠ [] → Forall (λ p, is_Some (tm_gas_limit p)) entries →
       foldl u64_saturating_add 0 (omap tm_gas_limit entries) <= ENGINE_BLOCK_GAS_LIMIT)).
  { unfold total_gas_check. rewrite <- Hgas. destruct entries as [|p entries].
    - rewrite (bool_decide_true (length _ = _)), andb_false_r by done. split; [|done]. intros _ _ _. rewrite Hgas. simpl. unfold ENGINE_BLOCK_GAS_LIMIT. lia.
    - rewrite (bool_decide_false (length _ = _)), andb_true_r by done.
      destruct (Z.eqb_spec (unknown_gas_count s) 0) as [Hu|Hu]; cbn [andb].
      + destruct (Z.ltb_spec ENGINE_BLOCK_GAS_LIMIT (total_known_gas s)); simpl;
          destruct (decide (required_il_txs f = [])) as [Hr|Hr].
        * by rewrite bool_decide_true.
        * rewrite bool_decide_false by done. split; [done|]. intros Hle.
          specialize (Hle Hr ltac:(by apply Hunknown)). lia.
        * naive_solver.
        * split; [intros; lia|done].
      + split; [|done]. intros _ _ Hall. tauto. }
  rewrite Hwalk', Htotal. tauto.
Qed.

(** The slot and the time a payload is judged at. *)
Definition payload_slot_of (st : NodeState) (req : Value) : Z :=
  default (u64_saturating_add (current_height st) 1)
    (or_else (engine_payload_slot req) (required_il_slot (focil st))).
Definition judged_at (now : Z) (req : Value) : Z := default now (engine_7732_current_unix_s_from_req req).

Lemma update_penalty_frame st slot status reason t :
  let st' := (engine_7732_update_penalty_state st slot status reason t).1 in
  st' = with_registry (with_penalties (penalties_by_slot (registry st')) (registry st)) st.
Proof.
  cbv zeta. unfold engine_7732_update_penalty_state. repeat case_match; try done; simpl.
  by destruct st as [? ? ? ? ? [] ?].
Qed.
(** Assessing a slot only touches penalties. *)
Lemma assess_slot_spec st slot t st' timeliness status penalty :
  assess_slot st slot t = (st', timeliness, status, penalty) →
  status = aggregate_status st slot t ∧
  st' = with_registry (with_penalties (penalties_by_slot (registry st')) (registry st)) st.
Proof.
  unfold assess_slot. cbn [get as_str mbind option_bind default engine_7732_slot_status_response].
  change (get "aggregateStatus" (engine_7732_slot_status_response st slot t))
    with (Some (VString (aggregate_status st slot t))). cbn [mbind option_bind as_str default].
  match goal with |- context [engine_7732_update_penalty_state st slot ?a ?r t] =>
    pose proof (update_penalty_frame st slot a r t) as Hf; cbv zeta in Hf;
    destruct (engine_7732_update_penalty_state st slot a r t) as [st1 p] end.
  by intros [= <- <- <- <-].
Qed.
Lemma wrong_frozen_slot_none f slot :
  wrong_frozen_slot f slot = None ↔
  (focil_view_frozen f = true → ∀ s, focil_frozen_slot f = Some s → slot = s).
Proof.
  unfold wrong_frozen_slot. destruct (focil_view_frozen f); [|naive_solver].
  destruct (focil_frozen_slot f) as [s|]; [|naive_solver]. destruct (Z.eqb_spec slot s); naive_solver.
Qed.
Lemma filter_not_in_nil (required hashes : list Str) :
  filter (λ tx, tx ∉ hashes) required = [] ↔ ∀ h, h ∈ required → h ∈ hashes.
Proof.
  rewrite filter_nil_Forall, Forall_forall. split; intros Hall h Hh.
  - apply dec_stable. auto.
  - intros Hno. by apply Hno, Hall.
Qed.

Lemma new_payload_spec (now : Z) (st : NodeState) (req : Value) :
  match engine_collect_payload_transaction_entries req with
  | Panics => engine_new_payload_response now st req = Panics
  | Done entries =>
      ∃ st' answer, engine_new_payload_response now st req = Done (st', answer) ∧
        st' = with_registry (with_penalties (penalties_by_slot (registry st')) (registry st)) st ∧
        (status_of answer = Some (str "VALID") ↔
           engine_7732_is_timeliness_violation
             (aggregate_status st (payload_slot_of st req) (judged_at now req)) = false ∧
           (∀ h, h ∈ required_il_txs (focil st) → h ∈ tm_hash <$> entries) ∧
           (focil_view_frozen (focil st) = true → ∀ s, focil_frozen_slot (focil st) = Some s →
              payload_slot_of st req = s) ∧
           payload_ok (evm_db (ledger st)) (focil st) entries)
  end.
Proof.
  unfold engine_new_payload_response.
  destruct (engine_collect_payload_transaction_entries req) as [entries|]; [|done].
  cbn [mbind outcome_bind]. fold (payload_slot_of st req) (judged_at now req).
  destruct (assess_slot st (payload_slot_of st req) (judged_at now req)) as [[[st' timeliness] status] penalty] eqn:Ha.
  apply assess_slot_spec in Ha as [-> Hframe].
  assert (Hfl : focil st' = focil st ∧ ledger st' = ledger st) by (rewrite Hframe; done).
  destruct (engine_7732_is_timeliness_violation _) eqn:Hv.
  { eexists st', _. split; [done|]. split; [done|]. split; [done|naive_solver]. }
  pose proof (filter_not_in_nil (required_il_txs (focil st)) (tm_hash <$> entries)) as Hmiss.
  match type of Hmiss with ?l = [] ↔ _ => set (missing := l) in * end.
  case_bool_decide as Hm; cbn [negb]; cycle 1.
  { eexists st', _. split; [done|]. split; [done|]. split; [done|naive_solver]. }
  pose proof (wrong_frozen_slot_none (focil st) (payload_slot_of st req)) as Hslot.
  destruct (wrong_frozen_slot (focil st) (payload_slot_of st req)) as [s|].
  { eexists st', _. split; [done|]. split; [done|]. split; [done|]. intros (_ & _ & Hs & _).
    by apply Hslot in Hs. }
  destruct Hfl as [_ ->].
  pose proof (payload_checks_nil (evm_db (ledger st)) (focil st) entries) as Hchecks.
  destruct (payload_checks (evm_db (ledger st)) (focil st) entries) as [|c cs];
    eexists st', _; (split; [done|]); (split; [done|]); split; try done.
  - intros _. by split_and!; [|apply Hmiss|apply Hslot|apply Hchecks].
  - intros (_ & _ & _ & Hok). by apply Hchecks in Hok.
Qed.

End focil.
