(* ===== verification/FrozenList.v ===== *)
(** * Frozen inclusion lists ([eth2077-node/src/bin/eth2077-devnetd.rs], FOCIL)

    The calls that read and write the inclusion list, in any order: once
    [engine_getInclusionListV1] has frozen the list of a slot, fork-choice updates for that
    slot cannot change which transactions a payload must contain. *)
From S2P Require Import Prelude Canonical Strings Json DaemonHex DaemonState RawTx DaemonEvm Epbs Focil.
Local Open Scope Z_scope.

(** [join] on strings of one positive length. *)
Definition join_tail (sep : Str) (l : list Str) : Str := match l with [] => [] | _ => sep ++ join sep l end.
Lemma join_cons sep a l : join sep (a :: l) = a ++ join_tail sep l.
Proof. destruct l; simpl; by rewrite ?app_nil_r. Qed.
Lemma join_inj sep n l1 l2 : (0 < n)%nat →
  Forall (λ h, length h = n) l1 → Forall (λ h, length h = n) l2 →
  join sep l1 = join sep l2 → l1 = l2.
Proof.
  intros Hn H1. revert l2. induction H1 as [|a l1 Ha H1 IH]; intros l2 H2 Heq.
  - destruct H2 as [|b l2 Hb _]; [done|]. rewrite join_cons in Heq. apply (f_equal length) in Heq.
    rewrite length_app in Heq. simpl in Heq. lia.
  - destruct H2 as [|b l2 Hb H2]; rewrite !join_cons in Heq.
    { apply (f_equal length) in Heq. rewrite length_app in Heq. simpl in Heq. lia. }
    apply app_inj_1 in Heq as [-> Htail]; [|lia]. f_equal.
    destruct H1 as [|a' l1' Ha' H1']; destruct H2 as [|b' l2' Hb' H2']; [done| | |].
    1, 2: unfold join_tail in Htail; apply (f_equal length) in Htail;
      rewrite length_app, join_cons, length_app in Htail; cbn [length] in Htail; lia.
    unfold join_tail in Htail. apply app_inv_head in Htail. apply IH; [by constructor|done].
Qed.

Section frozen.
Context `{HO : HashOrder} `{HC : HexCrate} `{RU : Ruint} `{AL : Alloy} `{ET : EvmTypes} `{DE : !DaemonEvm}.

(** A call that reads or writes the inclusion list; the times are the clock's readings. *)
Inductive FocilCall :=
  | GetInclusionList (req : Value)
  | ForkchoiceUpdated (now now' : Z) (req : Value)
  | NewPayload (now : Z) (req : Value).
Definition focil_call (st : NodeState) (c : FocilCall) : outcome NodeState :=
  match c with
  | GetInclusionList req => mret (engine_get_inclusion_list_response st req).1
  | ForkchoiceUpdated now now' req => fst <$> engine_forkchoice_updated_response now now' st req
  | NewPayload now req => fst <$> engine_new_payload_response now st req
  end.
Fixpoint focil_run (st : NodeState) (calls : list FocilCall) : outcome NodeState :=
  match calls with [] => mret st | c :: calls => st ← focil_call st c; focil_run st calls end.
(** The call does not update the fork choice to another slot. *)
Definition stays_on (s : Z) (c : FocilCall) : Prop :=
  match c with
  | ForkchoiceUpdated _ _ req => ∀ s', engine_slot_from_payload_attributes req = Some s' → s' = s
  | _ => True
  end.

(** ** The hashes of a list *)

Definition hash_texts (l : list Str) : Prop := Forall (λ h, length h = 66%nat) l.
Lemma normalize_hash32_length s h : normalize_hash32 s = Some h → length h = 66%nat.
Proof.
  unfold normalize_hash32. case_match eqn:Hc; [done|]. intros [= <-].
  apply orb_false_iff in Hc as [Hlen _]. apply negb_false_iff, Z.eqb_eq in Hlen.
  unfold len, to_ascii_lowercase in *. cbn [length]. rewrite length_fmap. lia.
Qed.
Lemma tx_meta_of_item_hash item meta :
  tx_meta_of_item item = Done (Some meta) → length (tm_hash meta) = 66%nat.
Proof.
  unfold tx_meta_of_item, mret, outcome_ret. destruct (as_str item ≫= normalize_hash32) as [h|] eqn:Hi.
  { intros [= <-]. apply bind_Some in Hi as (s & _ & Hs). by apply normalize_hash32_length in Hs. }
  case_match eqn:Hh; [|done].
  intros (v & _ & [= <-])%outcome_bind_done.
  apply bind_Some in Hh as (s & _ & Hs). by apply normalize_hash32_length in Hs.
Qed.
Lemma dedup_tx_meta_loop_hashes items : ∀ seen out,
  dedup_tx_meta_loop seen items = Done out → hash_texts (tm_hash <$> out).
Proof.
  induction items as [|item items IH]; intros seen out; cbn [dedup_tx_meta_loop].
  { intros [= <-]. constructor. }
  intros (entry & Hentry & Hout)%outcome_bind_done. destruct entry as [meta|]; [|by eapply IH].
  case_decide; [by eapply IH|].
  apply outcome_bind_done in Hout as (out' & Hout' & Hm). unfold mret, outcome_ret in Hm. simplify_eq/=. constructor; [|by eapply IH].
  by eapply tx_meta_of_item_hash.
Qed.
Lemma inclusion_list_hashes req entries :
  engine_collect_inclusion_list_entries req = Done entries → hash_texts (tm_hash <$> entries).
Proof.
  assert (Hd : ∀ v, dedup_tx_meta_array v = Done entries → hash_texts (tm_hash <$> entries)).
  { intros v. unfold dedup_tx_meta_array. destruct (as_array v); [apply dedup_tx_meta_loop_hashes|].
    intros [= <-]. constructor. }
  unfold engine_collect_inclusion_list_entries.
  repeat case_match; try apply Hd; intros [= <-]; constructor.
Qed.

(** ** The invariant of the view *)

(** What holds of the inclusion list: its transactions are hashes, and a frozen view is
    that of the slot of the list, with its root. *)
Record focil_inv (f : FocilState) : Prop := {
  fi_hashes : hash_texts (required_il_txs f);
  fi_frozen : focil_view_frozen f = true → ∃ s, focil_frozen_slot f = Some s ∧ required_il_slot f = Some s ∧
    focil_frozen_il_root f = Some (engine_inclusion_list_root (required_il_txs f));
}.
(** The view is frozen at [s], with the root of [l]. *)
Record frozen_at (s : Z) (l : list Str) (f : FocilState) : Prop := {
  fa_inv : focil_inv f;
  fa_frozen : focil_view_frozen f = true;
  fa_slot : focil_frozen_slot f = Some s;
  fa_root : engine_inclusion_list_root (required_il_txs f) = engine_inclusion_list_root l;
}.
Lemma frozen_at_il_slot s l f : frozen_at s l f →
  required_il_slot f = Some s ∧ focil_frozen_il_root f = Some (engine_inclusion_list_root (required_il_txs f)).
Proof. intros [[_ Hf] Hfr Hs _]. destruct (Hf Hfr) as (s' & Hs' & ? & ?). by simplify_eq. Qed.

Lemma freeze_view_inv s f : required_il_slot f = Some s → focil_inv f → focil_inv (freeze_view s f).
Proof. intros Hs [Hh _]. split; [done|]. intros _. by exists s. Qed.
Lemma get_inclusion_list_focil st req :
  let f' := focil (engine_get_inclusion_list_response st req).1 in
  f' = focil st ∨ ∃ s, required_il_slot (focil st) = Some s ∧ f' = freeze_view s (focil st).
Proof.
  unfold engine_get_inclusion_list_response. cbn [fst]. case_bool_decide; [right|by left]. by eexists.
Qed.

(** What a fork-choice update does to the list. *)
Lemma forkchoice_updated_focil now now' st req st' answer :
  engine_forkchoice_updated_response now now' st req = Done (st', answer) →
  focil st' = focil st ∨
  ∃ slot entries,
    slot = default (u64_saturating_add (current_height st) 1)
      (or_else (engine_slot_from_payload_attributes req) (required_il_slot (focil st))) ∧
    (engine_request_has_inclusion_list req = true → engine_collect_inclusion_list_entries req = Done entries) ∧
    (focil_view_frozen (focil st) = true → focil_frozen_slot (focil st) = Some slot →
     engine_request_has_inclusion_list req = true →
     Some (engine_inclusion_list_root (tm_hash <$> entries)) = focil_frozen_il_root (focil st)) ∧
    focil st' = update_view now' req slot entries (focil st).
Proof.
  unfold engine_forkchoice_updated_response. set (slot := default _ _).
  destruct (assess_slot st slot _) as [[[st1 timeliness] status] penalty] eqn:Ha.
  apply assess_slot_spec in Ha as [_ Hframe].
  assert (Hf : focil st1 = focil st) by by rewrite Hframe.
  destruct (engine_7732_is_timeliness_violation status); [intros [= <- <-]; by left|].
  intros (entries & Hentries & Hrest)%outcome_bind_done. rewrite Hf in Hrest.
  match type of Hrest with (if ?g then _ else _) = _ => destruct g eqn:Hg end; [injection Hrest as <- <-; by left|].
  injection Hrest as <- <-. right. exists slot, entries. split; [done|]. split_and!; [|..|done].
  - intros Hil. by rewrite Hil in Hentries.
  - intros Hfr Hs Hil. rewrite Hfr, Hil in Hg. rewrite (bool_decide_true _ Hs) in Hg. cbn [andb] in Hg.
    apply bool_decide_eq_false in Hg. by apply dec_stable in Hg.
Qed.
Lemma update_view_inv now' req slot entries f :
  hash_texts (if engine_request_has_inclusion_list req then tm_hash <$> entries else required_il_txs f) →
  (focil_view_frozen f = true → focil_frozen_slot f = Some slot →
     engine_request_has_inclusion_list req = true →
     Some (engine_inclusion_list_root (tm_hash <$> entries)) = focil_frozen_il_root f) →
  focil_inv f → focil_inv (update_view now' req slot entries f).
Proof.
  intros Hh Hroot [_ Hf]. split; [done|]. unfold update_view. cbn -[engine_inclusion_list_root].
  case_bool_decide as Hs; rewrite ?andb_true_r, ?andb_false_r.
  { by destruct (focil_view_frozen f). }
  intros Hfr. destruct (Hf Hfr) as (s & Hs' & Hil & Hr). exists s. simplify_eq.
  split; [done|]. destruct (engine_request_has_inclusion_list req) eqn:Hhas; [|done].
  split; [done|]. by rewrite Hroot.
Qed.
Lemma update_view_frozen now' req s entries f l :
  frozen_at s l f →
  focil_inv (update_view now' req s entries f) →
  (engine_request_has_inclusion_list req = true →
     Some (engine_inclusion_list_root (tm_hash <$> entries)) = focil_frozen_il_root f) →
  frozen_at s l (update_view now' req s entries f).
Proof.
  intros Hat Hinv Hroot. destruct (frozen_at_il_slot _ _ _ Hat) as [_ Hr]. destruct Hat as [_ Hfr Hs Hl].
  split; [done| | |]; unfold update_view; cbn -[engine_inclusion_list_root].
  1, 2: by rewrite (bool_decide_false (_ ≠ _)), andb_false_r by tauto.
  case_match; [|done]. rewrite <- Hl. specialize (Hroot eq_refl). congruence.
Qed.
Lemma new_payload_focil now st req st' answer :
  engine_new_payload_response now st req = Done (st', answer) → focil st' = focil st.
Proof.
  unfold engine_new_payload_response. intros (entries & _ & Hrest)%outcome_bind_done.
  destruct (assess_slot st _ _) as [[[st1 timeliness] status] penalty] eqn:Ha.
  apply assess_slot_spec in Ha as [_ Hframe]. assert (Hf : focil st1 = focil st) by by rewrite Hframe.
  unfold mret, outcome_ret in Hrest. by repeat case_match; simplify_eq.
Qed.

Lemma focil_call_inv st c st' : focil_call st c = Done st' → focil_inv (focil st) →
  focil_inv (focil st') ∧
  ∀ s l, frozen_at s l (focil st) → stays_on s c → frozen_at s l (focil st').
Proof.
  intros Hcall Hinv. destruct c as [req|now now' req|now req]; cbn [focil_call] in Hcall.
  - unfold mret, outcome_ret in Hcall. assert (st' = (engine_get_inclusion_list_response st req).1) as -> by congruence.
    destruct (get_inclusion_list_focil st req) as [->|(s' & Hs' & ->)]; [done|].
    split; [by apply freeze_view_inv|]. intros s l Hat _. destruct (frozen_at_il_slot _ _ _ Hat) as [Hil _].
    rewrite Hs' in Hil. injection Hil as ->. split; [by apply freeze_view_inv|done|done|by apply Hat].
  - apply fmap_outcome_done in Hcall as ([st1 answer] & Hresp & ->). cbn [fst].
    destruct (forkchoice_updated_focil _ _ _ _ _ _ Hresp) as [->|(slot & entries & Hslot & Hentries & Hroot & ->)]; [done|].
    assert (Hinv' : focil_inv (update_view now' req slot entries (focil st))).
    { apply update_view_inv; [|done|done]. case_match; [|by apply Hinv]. by eapply inclusion_list_hashes, Hentries. }
    split; [done|]. intros s l Hat Hstay. destruct (frozen_at_il_slot _ _ _ Hat) as [Hil _].
    assert (slot = s) as ->.
    { rewrite Hslot, Hil. simpl in Hstay. destruct (engine_slot_from_payload_attributes req); [by apply Hstay|done]. }
    apply update_view_frozen; [done|done|]. apply Hroot; apply Hat.
  - apply fmap_outcome_done in Hcall as ([st1 answer] & Hresp & ->). cbn [fst].
    by rewrite (new_payload_focil _ _ _ _ _ Hresp).
Qed.
Lemma focil_run_inv st calls st' : focil_run st calls = Done st' → focil_inv (focil st) →
  focil_inv (focil st') ∧
  ∀ s l, frozen_at s l (focil st) → Forall (stays_on s) calls → frozen_at s l (focil st').
Proof.
  revert st. induction calls as [|c calls IH]; intros st; cbn [focil_run].
  { by intros [= <-]. }
  intros (st1 & Hc & Hrun)%outcome_bind_done Hinv. destruct (focil_call_inv _ _ _ Hc Hinv) as [Hinv1 Hstep].
  destruct (IH _ Hrun Hinv1) as [Hinv' Hrest]. split; [done|].
  intros s l Hat [Hstay Hall]%Forall_cons. by apply Hrest; [apply Hstep|].
Qed.

(** C5: After any sequence of calls, once the view is frozen at a slot, no sequence of calls
    that stays on that slot changes which transactions the inclusion list holds, unless two
    different lists have one Keccak root; so a payload accepted as [VALID] then contains every
    transaction of the list that was frozen. *)
Theorem frozen_list_enforced (st0 st1 st2 st3 : NodeState) (history calls : list FocilCall) (s now : Z)
    (req : Value) (entries : list EngineTxMeta) (answer : Value) :
  focil_inv (focil st0) →
  focil_run st0 history = Done st1 →
  focil_view_frozen (focil st1) = true → focil_frozen_slot (focil st1) = Some s →
  focil_run st1 calls = Done st2 → Forall (stays_on s) calls →
  engine_collect_payload_transaction_entries req = Done entries →
  engine_new_payload_response now st2 req = Done (st3, answer) →
  (required_il_txs (focil st2) = required_il_txs (focil st1) ∧
   (status_of answer = Some (str "VALID") →
      ∀ h, h ∈ required_il_txs (focil st1) → h ∈ tm_hash <$> entries)) ∨
  (join (str ",") (required_il_txs (focil st1)) ≠ join (str ",") (required_il_txs (focil st2)) ∧
   bytes_to_hex (keccak256 (join (str ",") (required_il_txs (focil st1)))) =
   bytes_to_hex (keccak256 (join (str ",") (required_il_txs (focil st2))))).
Proof.
  intros Hinv0 Hhist Hfr Hs Hrun Hstay Hent Hresp.
  destruct (focil_run_inv _ _ _ Hhist Hinv0) as [Hinv1 _].
  destruct (focil_run_inv _ _ _ Hrun Hinv1) as [Hinv2 Hframe].
  destruct (Hframe s (required_il_txs (focil st1)) ltac:(done) Hstay) as [_ _ _ Hroot].
  destruct (decide (join (str ",") (required_il_txs (focil st1)) = join (str ",") (required_il_txs (focil st2))))
    as [Heq|Hne]; [left|by right].
  apply (join_inj _ 66) in Heq; [|lia|apply Hinv1|apply Hinv2]. split; [done|].
  intros Hvalid. pose proof (new_payload_spec now st2 req) as Hspec. rewrite Hent in Hspec.
  destruct Hspec as (st' & answer' & Hresp' & _ & Hiff). rewrite Hresp in Hresp'. injection Hresp' as <- <-.
  apply Hiff in Hvalid as (_ & Hall & _). by rewrite Heq.
Qed.
End frozen.

(** ** Examples *)

Section examples.
#[local] Existing Instance map_to_list_order.
#[local] Existing Instance example_hex_crate.
#[local] Existing Instance example_ruint.
#[local] Existing Instance example_alloy.
#[local] Existing Instance example_evm_types.
#[local] Existing Instance example_daemon_evm.

Definition example_tx_hash (b : string) : Str := str "0x" ++ concat (replicate 32 (str b)).
Definition example_update (slot : Z) (items : list Value) : Value := obj
  ["payloadAttributes" ⟼ obj ["slot" ⟼ num slot; "inclusionListTransactions" ⟼ VArray items]].
Definition example_payload (slot : Z) (items : list Value) : Value := obj
  ["executionPayload" ⟼ obj ["slot" ⟼ num slot; "transactions" ⟼ VArray items]].
Definition example_sender : Str := str "0x" ++ concat (replicate 20 (str "11")).
Definition example_item (hash : Str) (nonce : Z) (gas price value : string) : Value := obj
  ["hash" ⟼ VString hash; "from" ⟼ VString example_sender; "nonce" ⟼ num nonce;
   "gas" ⟼ text gas; "maxFeePerGas" ⟼ text price; "value" ⟼ text value].
Definition example_il_node : NodeState := example_state (H := example_evm_types) (∅ : gmap Address (Z * Z)).
Definition freeze_calls : list FocilCall :=
  [ForkchoiceUpdated 0 0 (example_update 5 [VString (example_tx_hash "ab")]);
   GetInclusionList (obj ["slot" ⟼ num 5])].
(** The frozen list is repeated, then a payload with and without its transaction. *)
Definition same_list : list FocilCall :=
  [ForkchoiceUpdated 1 1 (example_update 5 [VString (example_tx_hash "ab")]); NewPayload 2 (example_payload 5 [])].
Definition example_frozen : NodeState := from_done example_il_node (focil_run example_il_node freeze_calls).
Definition example_later : NodeState := from_done example_il_node (focil_run example_frozen same_list).
Definition example_answer (items : list Value) : NodeState * Value :=
  from_done (example_il_node, VNull) (engine_new_payload_response 3 example_later (example_payload 5 items)).
Lemma frozen_list_enforced_witness :
  required_il_txs (focil example_frozen) = [example_tx_hash "ab"] ∧
  Forall (.∈ [example_tx_hash "ab"]) (required_il_txs (focil example_frozen)).
Proof.
  split; [vm_compute; reflexivity|].
  set (items := [VString (example_tx_hash "ab")]). apply Forall_forall.
  destruct (frozen_list_enforced example_il_node example_frozen example_later (example_answer items).1
    freeze_calls same_list 5 3 (example_payload 5 items)
    (from_done [] (engine_collect_payload_transaction_entries (example_payload 5 items)))
    (example_answer items).2) as [[_ Hall]|[Hne _]].
  - by split; [constructor|].
  - vm_compute; reflexivity.
  - vm_compute; reflexivity.
  - vm_compute; reflexivity.
  - vm_compute; reflexivity.
  - repeat constructor. intros s'. vm_compute. by intros [= <-].
  - vm_compute; reflexivity.
  - vm_compute; reflexivity.
  - intros h Hh. specialize (Hall ltac:(vm_compute; reflexivity) h Hh). exact Hall.
  - exfalso. apply Hne. vm_compute. reflexivity.
Defined.

Definition status_after (calls : list FocilCall) (items : list Value) : option Str :=
  match focil_run example_il_node calls ≫= λ st, engine_new_payload_response 3 st (example_payload 5 items) with
  | Done (_, answer) => status_of answer
  | Panics => None
  end.
(** The root covers the hashes alone: an update for the frozen slot with the same hashes
    replaces what the list says of its transactions. *)
Lemma frozen_metadata_replaced :
  let item gas := example_item (example_tx_hash "ab") 0 gas "0x0" "0x0" in
  let frozen := [ForkchoiceUpdated 0 0 (example_update 5 [item "0x5208"%string]);
                 GetInclusionList (obj ["slot" ⟼ num 5])] in
  status_after frozen [item "0x5209"%string] = Some (str "INCLUSION_LIST_UNSATISFIED") ∧
  status_after (frozen ++ [ForkchoiceUpdated 1 1 (example_update 5 [item "0x5209"%string])])
    [item "0x5209"%string] = Some (str "VALID").
Proof. split; vm_compute; reflexivity. Qed.
(** The cost of a transaction is computed modulo 2^256: one that transfers 2^256 - 21000
    wei from an account without any is in order. *)
Lemma unaffordable_payload_valid :
  let item value := example_item (example_tx_hash "ab") 0 "0x5208" "0x1" value in
  status_after freeze_calls [item "0x1"%string] = Some (str "INCLUSION_LIST_UNSATISFIED") ∧
  status_after freeze_calls
    [item "0xffffffffffffffffffffffffffffffffffffffffffffffffffffffffffffadf8"%string] = Some (str "VALID").
Proof. split; vm_compute; reflexivity. Qed.
End examples.
