(* ===== verification/Ledger.v ===== *)
(** * The daemon's ledger ([eth2077-node/src/bin/eth2077-devnetd.rs])

    [eth_sendRawTransaction] executes a transaction at once and queues its hash; the ticker
    seals the queue into the next block.  The clock is an argument of [tick]; the hashes
    of market transactions come from the standard library's [DefaultHasher], whose algorithm
    is unspecified: the class [StdHasher]. *)
From S2P Require Import Prelude Canonical Strings Json DaemonHex DaemonState RawTx DaemonEvm.
Local Open Scope Z_scope.

(* eth2077-node/src/bin/eth2077-devnetd.rs:288-294 jsonrpc_response *)
Definition jsonrpc_response (id result : Value) : Value := obj
  ["jsonrpc" ⟼ text "2.0"; "id" ⟼ id; "result" ⟼ result].
(* eth2077-node/src/bin/eth2077-devnetd.rs:296-305 jsonrpc_error *)
Definition jsonrpc_error (id : Value) (code : Z) (message : Str) : Value := obj
  ["jsonrpc" ⟼ text "2.0"; "id" ⟼ id;
   "error" ⟼ obj ["code" ⟼ VNumber (NegInt code); "message" ⟼ VString message]].

(** What hashing [raw_tx], [counter] and [salt] with a new [DefaultHasher] gives. *)
Class StdHasher := { default_hash : Str → Z → Z → Z; default_hash_u64 s c salt : is_u64 (default_hash s c salt) }.
(* eth2077-node/src/bin/eth2077-devnetd.rs:748-758 pseudo_tx_hash *)
Definition pseudo_tx_hash `{StdHasher} (raw_tx : Str) (counter : Z) : Str :=
  str "0x" ++ concat ((λ salt, padded_hex 16 (default_hash raw_tx counter salt)) <$> [0; 1; 2; 3]).

Section ledger.
Context `{HC : HexCrate} `{RU : Ruint} `{AL : Alloy} `{RL : RlpCrate} `{ET : EvmTypes} `{DE : !DaemonEvm}.

(** ** Sending transactions *)

(* eth2077-node/src/bin/eth2077-devnetd.rs:959-972 tx_logs_from_revm *)
Definition tx_logs_from_revm (tx_hash : Str) (logs : list EvmLog) : list TxLogRecord :=
  (λ log, {| tl_address := address_to_hex (el_address log);
             tl_topics := b256_to_hex <$> el_topics log;
             tl_data := bytes_to_hex (el_data log);
             tl_block_number := None; tl_block_hash := None; tl_transaction_hash := Some tx_hash;
             tl_transaction_index := None; tl_log_index := None |}) <$> logs.
(** [logs_bloom(outcome.logs.iter())] *)
Definition bloom_hex (logs : list EvmLog) : Str :=
  bytes_to_hex (bloom_of_logs
    ((λ l, {| log_address := el_address l; log_topics := el_topics l; log_data := el_data l |}) <$> logs)).

(* eth2077-node/src/bin/eth2077-devnetd.rs:3454-3472 handle_jsonrpc *)
Definition sent_record (tx_hash from : Str) (decoded : DecodedRawTx) (o : EvmExecOutcome) : TxRecord := {|
  tx_hash := tx_hash;
  tx_from := from;
  tx_to := address_to_hex <$> dr_to decoded;
  tx_nonce := dr_nonce decoded;
  tx_gas := dr_gas_limit decoded;
  tx_gas_price := dr_gas_price decoded;
  tx_max_priority_fee_per_gas := dr_max_priority_fee_per_gas decoded;
  tx_max_fee_per_blob_gas := dr_max_fee_per_blob_gas decoded;
  tx_blob_versioned_hashes := b256_to_hex <$> dr_blob_hashes decoded;
  tx_authorization_list_len := len (dr_authorizations decoded);
  tx_value := u256_to_hex (dr_value decoded);
  tx_input := bytes_to_hex (dr_data decoded);
  tx_type := str "0x" ++ lower_hex (dr_tx_type decoded);
  tx_contract_address := address_to_hex <$> eo_contract_address o;
  tx_block_number := None; tx_block_hash := None; tx_transaction_index := None |}.
(* eth2077-node/src/bin/eth2077-devnetd.rs:3473-3489 handle_jsonrpc *)
Definition sent_receipt (tx : TxRecord) (decoded : DecodedRawTx) (o : EvmExecOutcome) : TxReceiptRecord := {|
  tr_tx_hash := tx_hash tx;
  tr_from := tx_from tx;
  tr_to := tx_to tx;
  tr_contract_address := tx_contract_address tx;
  tr_gas_used := eo_gas_used o;
  tr_cumulative_gas_used := eo_gas_used o;
  tr_effective_gas_price := Z.min (dr_gas_price decoded) u64_max;
  tr_tx_type := tx_type tx;
  tr_status := eo_status o;
  tr_logs_bloom := bloom_hex (eo_logs o);
  tr_block_number := None; tr_block_hash := None; tr_transaction_index := None;
  tr_logs := tx_logs_from_revm (tx_hash tx) (eo_logs o) |}.
(* eth2077-node/src/bin/eth2077-devnetd.rs:3448-3493 handle_jsonrpc *)
Definition record_sent (hash from : Str) (decoded : DecodedRawTx) (o : EvmExecOutcome) (l : Ledger) : Ledger :=
  let tx := sent_record hash from decoded o in
  {| pending_txs := pending_txs l ++ [hash];
     txs := <[hash := tx]> (txs l);
     block_txs := block_txs l;
     block_timestamps := block_timestamps l;
     nonce_by_address := <[from := u64_saturating_add (dr_nonce decoded) 1]> (nonce_by_address l);
     pending_nonce_address_hint := None;
     tx_counter := u64_saturating_add (tx_counter l) 1;
     evm_db := evm_db l;
     tx_receipts := <[hash := sent_receipt tx decoded o]> (tx_receipts l) |}.

(** [state.started_at_unix_s.saturating_add(block_number.saturating_mul(12))] *)
Definition nominal_timestamp (st : NodeState) (block_number : Z) : Z :=
  u64_saturating_add (started_at_unix_s (info st)) (u64_saturating_mul block_number 12).

(* eth2077-node/src/bin/eth2077-devnetd.rs:3397-3407 handle_jsonrpc *)
Definition wrong_chain (st : NodeState) (decoded : DecodedRawTx) : bool :=
  match dr_chain_id decoded with
  | Some tx_chain_id => negb (tx_chain_id =? chain_id (info st))
  | None => false
  end.
(** The sender is the address last asked for by [eth_getTransactionCount]. *)
(* eth2077-node/src/bin/eth2077-devnetd.rs:3386-3497 handle_jsonrpc *)
Definition eth_sendRawTransaction (st : NodeState) (id params : Value) : outcome (NodeState * Value) :=
  let raw_tx := default (str "0x") (item 0 params ≫= as_str) in
  decoded ← decode_raw_tx raw_tx;
  match decoded with
  | Err err => mret (st, jsonrpc_error id (-32602) (str "invalid raw tx: " ++ err))
  | Ok decoded =>
      if wrong_chain st decoded then
        mret (st, jsonrpc_error id (-32000) (str "chain id mismatch: tx uses " ++
          decimal (default 0 (dr_chain_id decoded)) ++ str ", node is " ++ decimal (chain_id (info st))))
      else
      match pending_nonce_address_hint (ledger st) with
      | None => mret (st, jsonrpc_error id (-32000) (str "missing sender hint; call eth_getTransactionCount(address) before eth_sendRawTransaction"))
      | Some caller_str =>
          match address_from_hex caller_str with
          | None => mret (st, jsonrpc_error id (-32000) (str "pending sender hint is not a valid address"))
          | Some caller =>
              let raw_bytes := default [] (parse_hex_bytes raw_tx) in
              let hash := bytes_to_hex (keccak256 raw_bytes) in
              let block_number_hint := u64_saturating_add (current_height st) 1 in
              let '(st, executed) := execute_evm_transaction st caller decoded true block_number_hint
                (nominal_timestamp st block_number_hint) in
              match executed with
              | Err err => mret (st, jsonrpc_error id (-32000) (str "transaction rejected: " ++ err))
              | Ok o => mret (with_ledger (record_sent hash caller_str decoded o (ledger st)) st,
                              jsonrpc_response id (VString hash))
              end
          end
      end
  end.

(** ** The ticker *)

(* eth2077-node/src/bin/eth2077-devnetd.rs:4104-4111 main *)
Definition seal_log (block : Z) (hash tx : Str) (idx log_index : Z) (log : TxLogRecord) : TxLogRecord := {|
  tl_address := tl_address log; tl_topics := tl_topics log; tl_data := tl_data log;
  tl_block_number := Some block; tl_block_hash := Some hash; tl_transaction_hash := Some tx;
  tl_transaction_index := Some idx; tl_log_index := Some log_index |}.
(* eth2077-node/src/bin/eth2077-devnetd.rs:4104-4111 main *)
Fixpoint seal_logs (block : Z) (hash tx : Str) (idx next_log_index : Z) (logs : list TxLogRecord)
  : list TxLogRecord * Z :=
  match logs with
  | [] => ([], next_log_index)
  | log :: logs =>
      let '(out, next) := seal_logs block hash tx idx (u64_saturating_add next_log_index 1) logs in
      (seal_log block hash tx idx next_log_index log :: out, next)
  end.
(* eth2077-node/src/bin/eth2077-devnetd.rs:4093-4097 main *)
Definition seal_record (block : Z) (hash : Str) (idx : Z) (tx : TxRecord) : TxRecord := {|
  tx_hash := tx_hash tx; tx_from := tx_from tx; tx_to := tx_to tx; tx_nonce := tx_nonce tx;
  tx_gas := tx_gas tx; tx_gas_price := tx_gas_price tx;
  tx_max_priority_fee_per_gas := tx_max_priority_fee_per_gas tx;
  tx_max_fee_per_blob_gas := tx_max_fee_per_blob_gas tx;
  tx_blob_versioned_hashes := tx_blob_versioned_hashes tx;
  tx_authorization_list_len := tx_authorization_list_len tx;
  tx_value := tx_value tx; tx_input := tx_input tx; tx_type := tx_type tx;
  tx_contract_address := tx_contract_address tx;
  tx_block_number := Some block; tx_block_hash := Some hash; tx_transaction_index := Some idx |}.
(* eth2077-node/src/bin/eth2077-devnetd.rs:4098-4112 main *)
Definition seal_receipt (block : Z) (hash : Str) (idx cumulative : Z) (logs : list TxLogRecord)
    (receipt : TxReceiptRecord) : TxReceiptRecord := {|
  tr_tx_hash := tr_tx_hash receipt; tr_from := tr_from receipt; tr_to := tr_to receipt;
  tr_contract_address := tr_contract_address receipt; tr_gas_used := tr_gas_used receipt;
  tr_cumulative_gas_used := cumulative;
  tr_effective_gas_price := tr_effective_gas_price receipt; tr_tx_type := tr_tx_type receipt;
  tr_status := tr_status receipt; tr_logs_bloom := tr_logs_bloom receipt;
  tr_block_number := Some block; tr_block_hash := Some hash; tr_transaction_index := Some idx;
  tr_logs := logs |}.

(** The loop over the pending hashes: the records, the receipts and the two counters. *)
(* eth2077-node/src/bin/eth2077-devnetd.rs:4090-4091 main *)
Record Sealing := MkSealing {
  sl_txs : gmap Str TxRecord;
  sl_receipts : gmap Str TxReceiptRecord;
  sl_cumulative_gas_used : Z;
  sl_next_log_index : Z;
}.
(* eth2077-node/src/bin/eth2077-devnetd.rs:4092-4113 main *)
Definition seal_tx (block : Z) (hash : Str) (s : Sealing) (entry : nat * Str) : Sealing :=
  let idx := Z.of_nat entry.1 in
  let tx := entry.2 in
  let txs := match sl_txs s !! tx with
    | Some record => <[tx := seal_record block hash idx record]> (sl_txs s)
    | None => sl_txs s
    end in
  match sl_receipts s !! tx with
  | None => MkSealing txs (sl_receipts s) (sl_cumulative_gas_used s) (sl_next_log_index s)
  | Some receipt =>
      let cumulative := u64_saturating_add (sl_cumulative_gas_used s) (tr_gas_used receipt) in
      let '(logs, next) := seal_logs block hash tx idx (sl_next_log_index s) (tr_logs receipt) in
      MkSealing txs (<[tx := seal_receipt block hash idx cumulative logs receipt]> (sl_receipts s))
        cumulative next
  end.
(* eth2077-node/src/bin/eth2077-devnetd.rs:4078-4114 main *)
Definition seal_block (block now : Z) (l : Ledger) : Ledger :=
  let pending := pending_txs l in
  let sealed := foldl (seal_tx block (block_hash block)) (MkSealing (txs l) (tx_receipts l) 0 0)
    (imap pair pending) in
  {| pending_txs := [];
     txs := if bool_decide (pending = []) then txs l else sl_txs sealed;
     block_txs := if bool_decide (pending = []) then block_txs l else <[block := pending]> (block_txs l);
     block_timestamps := <[block := now]> (block_timestamps l);
     nonce_by_address := nonce_by_address l;
     pending_nonce_address_hint := pending_nonce_address_hint l;
     tx_counter := tx_counter l;
     evm_db := evm_db l;
     tx_receipts := if bool_decide (pending = []) then tx_receipts l else sl_receipts sealed |}.
(* eth2077-node/src/bin/eth2077-devnetd.rs:4073-4116 main *)
Definition tick (now : Z) (st : NodeState) : NodeState :=
  let current_height' := u64_saturating_add (current_height st) 1 in
  MkNodeState (info st) current_height' (u64_saturating_sub current_height' 2)
    (seal_block current_height' now (ledger st)) (focil st) (registry st) (market st).
End ledger.
