(* ===== verification/Market.v ===== *)
(** * The NFT market of the daemon ([eth2077-node/src/bin/eth2077-devnetd.rs])

    The [eth2077_market*] methods: minting, buying, transferring and relisting tokens kept
    in the node's state, and the receipts of sales.  No method moves any balance. *)
From S2P Require Import Prelude Canonical Strings Json DaemonHex DaemonState RawTx DaemonEvm Ledger.
Local Open Scope Z_scope.

Section market.
Context `{HO : HashOrder} `{SH : StdHasher} `{HC : HexCrate} `{ET : EvmTypes}.

(* eth2077-node/src/bin/eth2077-devnetd.rs:28-28 MARKET_MERCHANT_ADDRESS *)
Definition MARKET_MERCHANT_ADDRESS : Str := str "0x1111111111111111111111111111111111111111".

(* eth2077-node/src/bin/eth2077-devnetd.rs:1011-1023 market_nft_to_json *)
Definition market_nft_to_json (nft : MarketNft) : Value := obj
  ["tokenId" ⟼ VString (hex_u64 (mn_token_id nft));
   "name" ⟼ VString (mn_name nft);
   "description" ⟼ VString (mn_description nft);
   "image" ⟼ VString (mn_image nft);
   "owner" ⟼ VString (mn_owner nft);
   "listed" ⟼ VBool (mn_listed nft);
   "priceWei" ⟼ VString (hex_u128 (mn_price_wei nft));
   "createdAtUnixS" ⟼ num (mn_created_at_unix_s nft);
   "lastTxHash" ⟼ opt VString (mn_last_tx_hash nft)].
(* eth2077-node/src/bin/eth2077-devnetd.rs:1025-1045 market_receipt_signature *)
Definition market_receipt_signature (r : MarketReceipt) : Str :=
  let payload := str "eth2077:market:receipt:v1:" ++ join (str ":")
    [decimal (mr_chain_id r); mr_tx_hash r; decimal (mr_token_id r); mr_buyer r; mr_seller r;
     decimal (mr_price_wei r); decimal (mr_block_number_hint r); decimal (mr_timestamp_unix_s r)] in
  pseudo_tx_hash payload
    (u64_saturating_add (u64_saturating_add (u64_saturating_add (mr_chain_id r) (mr_token_id r))
       (mr_block_number_hint r)) (mr_timestamp_unix_s r)).
(* eth2077-node/src/bin/eth2077-devnetd.rs:1047-1060 market_receipt_to_json *)
Definition market_receipt_to_json (r : MarketReceipt) : Value := obj
  ["txHash" ⟼ VString (mr_tx_hash r);
   "tokenId" ⟼ VString (hex_u64 (mr_token_id r));
   "buyer" ⟼ VString (mr_buyer r);
   "seller" ⟼ VString (mr_seller r);
   "priceWei" ⟼ VString (hex_u128 (mr_price_wei r));
   "chainId" ⟼ VString (hex_u64 (mr_chain_id r));
   "blockNumberHint" ⟼ VString (hex_u64 (mr_block_number_hint r));
   "timestampUnixS" ⟼ num (mr_timestamp_unix_s r);
   "signature" ⟼ VString (mr_signature r);
   "scheme" ⟼ text "ETH2077-MARKET-RECEIPT-V1"].
(** [nfts.sort_by_key(|n| n.token_id)] *)
Definition by_token_id (a b : MarketNft) : comparison := Z.compare (mn_token_id a) (mn_token_id b).
(* eth2077-node/src/bin/eth2077-devnetd.rs:1062-1066 market_nft_list_json *)
Definition market_nft_list_json (st : NodeState) : Value :=
  arr market_nft_to_json (sort_by by_token_id (hash_values (market_nfts (market st)))).

(* eth2077-node/src/bin/eth2077-devnetd.rs:3917-3962 seed_market_nfts *)
Definition seed_market_nfts (now : Z) : gmap Z MarketNft :=
  foldl (λ out '(token_id, name, description, image, price_wei),
    <[token_id := {| mn_token_id := token_id; mn_name := str name; mn_description := str description;
        mn_image := str image; mn_owner := MARKET_MERCHANT_ADDRESS; mn_listed := true;
        mn_price_wei := price_wei; mn_created_at_unix_s := now; mn_last_tx_hash := None |}]> out) ∅
  [(1, "Citadel Genesis #1", "First generation ETH2077 demo marketplace NFT",
    "https://picsum.photos/seed/eth2077-genesis-1/640/640", 1500000000000000);
   (2, "Citadel Genesis #2", "Proof-of-concept NFT for ETH2077 marketplace flows",
    "https://picsum.photos/seed/eth2077-genesis-2/640/640", 2000000000000000);
   (3, "Citadel Genesis #3", "Live devnet collectible settled through MetaMask",
    "https://picsum.photos/seed/eth2077-genesis-3/640/640", 3000000000000000)]%string.

(** ** Parameters *)

Definition str_param (i : nat) (params : Value) : option Str := item i params ≫= as_str.
Definition nonempty (s : Str) : option Str := if bool_decide (s = []) then None else Some s.
(** [.map(|v| v.trim().to_string()).filter(|v| !v.is_empty())] *)
Definition trimmed_param (i : nat) (params : Value) : option Str :=
  v ← str_param i params; nonempty (trim v).
(** [.map(|v| v.to_ascii_lowercase()).filter(|v| !v.is_empty())] *)
Definition hash_param (i : nat) (params : Value) : option Str :=
  v ← str_param i params; nonempty (to_ascii_lowercase v).
Definition address_param (i : nat) (params : Value) : option Str := str_param i params ≫= canonical_address.

Definition with_nfts (nfts : gmap Z MarketNft) (m : MarketState) : MarketState :=
  {| market_nfts := nfts; next_market_token_id := next_market_token_id m; market_receipts := market_receipts m |}.
Definition put_nft (token_id : Z) (nft : MarketNft) (st : NodeState) : NodeState :=
  with_market (with_nfts (<[token_id := nft]> (market_nfts (market st))) (market st)) st.

(** ** Methods *)

(* eth2077-node/src/bin/eth2077-devnetd.rs:3521-3543 handle_jsonrpc *)
Definition eth2077_marketByOwner (st : NodeState) (id params : Value) : Value :=
  match address_param 0 params with
  | Some owner_addr => jsonrpc_response id (arr market_nft_to_json
      (sort_by by_token_id (filter (λ n, mn_owner n = owner_addr) (hash_values (market_nfts (market st))))))
  | None => jsonrpc_error id (-32602) (str "invalid params: expected [ownerAddress]")
  end.

(* eth2077-node/src/bin/eth2077-devnetd.rs:3589-3607 handle_jsonrpc *)
Definition mint_record (hash owner : Str) (nonce token_id : Z) : TxRecord := {|
  tx_hash := hash; tx_from := owner; tx_to := Some MARKET_MERCHANT_ADDRESS; tx_nonce := nonce;
  tx_gas := 120000; tx_gas_price := 1000000000; tx_max_priority_fee_per_gas := Some 0;
  tx_max_fee_per_blob_gas := None; tx_blob_versioned_hashes := []; tx_authorization_list_len := 0;
  tx_value := str "0x0"; tx_input := str "0x6d696e74" ++ padded_hex 16 token_id;
  tx_type := str "0x2"; tx_contract_address := None;
  tx_block_number := None; tx_block_hash := None; tx_transaction_index := None |}.
(** The pseudo-transaction of a mint: it is queued, but has no receipt. *)
(* eth2077-node/src/bin/eth2077-devnetd.rs:3584-3609 handle_jsonrpc *)
Definition record_mint (hash owner : Str) (token_id : Z) (l : Ledger) : Ledger :=
  let nonce := default 0 (nonce_by_address l !! owner) in
  {| pending_txs := pending_txs l ++ [hash];
     txs := <[hash := mint_record hash owner nonce token_id]> (txs l);
     block_txs := block_txs l;
     block_timestamps := block_timestamps l;
     nonce_by_address := <[owner := u64_saturating_add nonce 1]> (nonce_by_address l);
     pending_nonce_address_hint := pending_nonce_address_hint l;
     tx_counter := u64_saturating_add (tx_counter l) 1;
     evm_db := evm_db l;
     tx_receipts := tx_receipts l |}.
(* eth2077-node/src/bin/eth2077-devnetd.rs:3544-3635 handle_jsonrpc *)
Definition eth2077_marketMint (now : Z) (st : NodeState) (id params : Value) : NodeState * Value :=
  let price_wei := default 1000000000000000 (str_param 4 params ≫= parse_hex_u128) in
  match address_param 0 params with
  | None => (st, jsonrpc_error id (-32602) (str "invalid params: expected [ownerAddress, name?, description?, imageUrl?, priceWeiHex?]"))
  | Some owner_addr =>
      let token_id := next_market_token_id (market st) in
      let hash := pseudo_tx_hash
        (str "market-mint:" ++ owner_addr ++ str ":" ++ decimal token_id ++ str ":" ++ decimal now)
        (u64_wrapping_add (tx_counter (ledger st)) now) in
      let nft := {|
        mn_token_id := token_id;
        mn_name := default (str "ETH2077 NFT #" ++ decimal token_id) (trimmed_param 1 params);
        mn_description := default (str "Minted on ETH2077 devnet marketplace") (trimmed_param 2 params);
        mn_image := default (str "https://picsum.photos/seed/eth2077-" ++ decimal token_id ++ str "/640/640")
          (trimmed_param 3 params);
        mn_owner := owner_addr; mn_listed := true; mn_price_wei := price_wei;
        mn_created_at_unix_s := now; mn_last_tx_hash := Some hash |} in
      let m := market st in
      (with_ledger (record_mint hash owner_addr token_id (ledger st))
         (with_market {| market_nfts := <[token_id := nft]> (market_nfts m);
                         next_market_token_id := u64_saturating_add token_id 1;
                         market_receipts := market_receipts m |} st),
       jsonrpc_response id (market_nft_to_json nft))
  end.

(** What is wrong with the transaction a caller names, if anything. *)
(* eth2077-node/src/bin/eth2077-devnetd.rs:3656-3666 handle_jsonrpc *)
Definition named_tx_error (st : NodeState) (sender : Str) (hash : option Str) (mismatch unknown : string)
  : option Str :=
  match hash with
  | None => None
  | Some hash =>
      match txs (ledger st) !! hash with
      | Some tx => if bool_decide (tx_from tx = sender) then None else Some (str mismatch)
      | None => Some (str unknown)
      end
  end.
(* eth2077-node/src/bin/eth2077-devnetd.rs:3676-3701 handle_jsonrpc *)
Definition sell_nft (now : Z) (st : NodeState) (token_id : Z) (nft : MarketNft) (buyer : Str)
    (hash : option Str) : MarketNft * MarketReceipt :=
  let effective_tx_hash := default (pseudo_tx_hash
      (str "market-buy:" ++ decimal token_id ++ str ":" ++ buyer ++ str ":" ++ decimal now)
      (u64_saturating_add (tx_counter (ledger st)) now)) hash in
  let receipt signature := {|
    mr_tx_hash := effective_tx_hash; mr_token_id := token_id; mr_buyer := buyer;
    mr_seller := mn_owner nft; mr_price_wei := mn_price_wei nft; mr_chain_id := chain_id (info st);
    mr_block_number_hint := u64_saturating_add (current_height st) 1; mr_timestamp_unix_s := now;
    mr_signature := signature |} in
  ({| mn_token_id := mn_token_id nft; mn_name := mn_name nft; mn_description := mn_description nft;
      mn_image := mn_image nft; mn_owner := buyer; mn_listed := false; mn_price_wei := mn_price_wei nft;
      mn_created_at_unix_s := mn_created_at_unix_s nft; mn_last_tx_hash := Some effective_tx_hash |},
   receipt (market_receipt_signature (receipt []))).
(* eth2077-node/src/bin/eth2077-devnetd.rs:3636-3722 handle_jsonrpc *)
Definition eth2077_marketBuy (now : Z) (st : NodeState) (id params : Value) : NodeState * Value :=
  let error message := (st, jsonrpc_error id (-32000) message) in
  match str_param 0 params ≫= parse_hex_u64, address_param 1 params with
  | Some token_id, Some buyer_addr =>
      let hash := hash_param 2 params in
      match named_tx_error st buyer_addr hash "tx sender does not match buyer" "unknown tx hash for market buy" with
      | Some e => error e
      | None =>
          match market_nfts (market st) !! token_id with
          | None => error (str "unknown nft token id")
          | Some nft =>
              if negb (mn_listed nft) then error (str "nft is not listed") else
              if bool_decide (mn_owner nft = buyer_addr) then error (str "buyer already owns this nft") else
              let '(nft, receipt) := sell_nft now st token_id nft buyer_addr hash in
              let st := put_nft token_id nft st in
              let m := market st in
              (with_market {| market_nfts := market_nfts m; next_market_token_id := next_market_token_id m;
                  market_receipts := <[mr_tx_hash receipt := receipt]> (market_receipts m) |} st,
               jsonrpc_response id (obj ["nft" ⟼ market_nft_to_json nft;
                                         "receipt" ⟼ market_receipt_to_json receipt]))
          end
      end
  | _, _ => (st, jsonrpc_error id (-32602) (str "invalid params: expected [tokenIdHex, buyerAddress, txHash?]"))
  end.
(* eth2077-node/src/bin/eth2077-devnetd.rs:3723-3791 handle_jsonrpc *)
Definition eth2077_marketTransfer (st : NodeState) (id params : Value) : NodeState * Value :=
  let error message := (st, jsonrpc_error id (-32000) message) in
  match str_param 0 params ≫= parse_hex_u64, address_param 1 params, address_param 2 params with
  | Some token_id, Some from_addr, Some to_addr =>
      let hash := hash_param 3 params in
      match named_tx_error st from_addr hash "tx sender does not match transfer source"
        "unknown tx hash for market transfer" with
      | Some e => error e
      | None =>
          match market_nfts (market st) !! token_id with
          | None => error (str "unknown nft token id")
          | Some nft =>
              if negb (bool_decide (mn_owner nft = from_addr)) then error (str "only current owner can transfer nft") else
              let nft := {| mn_token_id := mn_token_id nft; mn_name := mn_name nft;
                mn_description := mn_description nft; mn_image := mn_image nft; mn_owner := to_addr;
                mn_listed := false; mn_price_wei := mn_price_wei nft;
                mn_created_at_unix_s := mn_created_at_unix_s nft; mn_last_tx_hash := hash |} in
              (put_nft token_id nft st, jsonrpc_response id (market_nft_to_json nft))
          end
      end
  | _, _, _ => (st, jsonrpc_error id (-32602) (str "invalid params: expected [tokenIdHex, fromAddress, toAddress, txHash?]"))
  end.
(* eth2077-node/src/bin/eth2077-devnetd.rs:3792-3829 handle_jsonrpc *)
Definition eth2077_marketRelist (st : NodeState) (id params : Value) : NodeState * Value :=
  let error message := (st, jsonrpc_error id (-32000) message) in
  match str_param 0 params ≫= parse_hex_u64, address_param 1 params, str_param 2 params ≫= parse_hex_u128 with
  | Some token_id, Some owner_addr, Some new_price =>
      match market_nfts (market st) !! token_id with
      | None => error (str "unknown nft token id")
      | Some nft =>
          if negb (bool_decide (mn_owner nft = owner_addr)) then error (str "only owner can relist nft") else
          let nft := {| mn_token_id := mn_token_id nft; mn_name := mn_name nft;
            mn_description := mn_description nft; mn_image := mn_image nft; mn_owner := mn_owner nft;
            mn_listed := true; mn_price_wei := new_price;
            mn_created_at_unix_s := mn_created_at_unix_s nft; mn_last_tx_hash := mn_last_tx_hash nft |} in
          (put_nft token_id nft st, jsonrpc_response id (market_nft_to_json nft))
      end
  | _, _, _ => (st, jsonrpc_error id (-32602) (str "invalid params: expected [tokenIdHex, ownerAddress, priceWeiHex]"))
  end.
(* eth2077-node/src/bin/eth2077-devnetd.rs:3830-3847 handle_jsonrpc *)
Definition eth2077_marketReceipt (st : NodeState) (id params : Value) : Value :=
  match str_param 0 params with
  | Some v => jsonrpc_response id
      (opt market_receipt_to_json (market_receipts (market st) !! to_ascii_lowercase v))
  | None => jsonrpc_error id (-32602) (str "invalid params: expected [txHash]")
  end.
(* eth2077-node/src/bin/eth2077-devnetd.rs:3848-3864 handle_jsonrpc *)
Definition market_mode : Value := obj
  ["mode" ⟼ text "devnet-native"; "erc721Ready" ⟼ VBool false;
   "plannedContract" ⟼ obj ["name" ⟼ text "ETH2077Market721"; "symbol" ⟼ text "E77NFT";
     "address" ⟼ VNull; "standard" ⟼ text "ERC-721"];
   "migrationNotes" ⟼ VArray
     [text "When full EVM lane is enabled, list/mint/buy/relist/transfer flows map to ERC-721 + market contract calls.";
      text "UI already isolates market RPC calls through marketRpc(), so the backend mode can switch without breaking UX."]].
End market.
