(* ===== verification/ChainQueries.v ===== *)
(** * Reading the chain ([eth2077-node/src/bin/eth2077-devnetd.rs])

    Transactions, receipts, logs and blocks as the [eth_*] methods show them, the status
    report, and the calls that execute without committing. *)
From S2P Require Import Prelude Canonical Floats Strings Json DaemonHex DaemonState RawTx DaemonEvm Ledger Market.
Local Open Scope Z_scope.

Section queries.
Context `{HO : HashOrder} `{HC : HexCrate} `{RU : Ruint} `{ET : EvmTypes} `{DE : !DaemonEvm}.

(** ** Records as JSON *)

Definition hex_or_null (o : option Z) : Value := opt (λ v, VString (hex_u64 v)) o.
(* eth2077-node/src/bin/eth2077-devnetd.rs:769-817 tx_to_json *)
Definition tx_to_json (tx : TxRecord) (chain_id : Z) : Value := obj
  ["hash" ⟼ VString (tx_hash tx);
   "nonce" ⟼ VString (hex_u64 (tx_nonce tx));
   "blockHash" ⟼ opt VString (tx_block_hash tx);
   "blockNumber" ⟼ hex_or_null (tx_block_number tx);
   "transactionIndex" ⟼ hex_or_null (tx_transaction_index tx);
   "from" ⟼ VString (tx_from tx);
   "to" ⟼ opt VString (tx_to tx);
   "value" ⟼ VString (tx_value tx);
   "gas" ⟼ VString (hex_u64 (tx_gas tx));
   "gasPrice" ⟼ VString (hex_u128 (tx_gas_price tx));
   "maxPriorityFeePerGas" ⟼ opt (λ v, VString (hex_u128 v)) (tx_max_priority_fee_per_gas tx);
   "maxFeePerBlobGas" ⟼ opt (λ v, VString (hex_u128 v)) (tx_max_fee_per_blob_gas tx);
   "blobVersionedHashes" ⟼ arr VString (tx_blob_versioned_hashes tx);
   "authorizationListLength" ⟼ VString (hex_u64 (tx_authorization_list_len tx));
   "input" ⟼ VString (tx_input tx);
   "type" ⟼ VString (tx_type tx);
   "chainId" ⟼ VString (hex_u64 chain_id);
   "v" ⟼ text "0x1"; "r" ⟼ text "0x0"; "s" ⟼ text "0x0"].
(* eth2077-node/src/bin/eth2077-devnetd.rs:974-986 tx_log_to_json *)
Definition tx_log_to_json (log : TxLogRecord) : Value := obj
  ["address" ⟼ VString (tl_address log);
   "topics" ⟼ arr VString (tl_topics log);
   "data" ⟼ VString (tl_data log);
   "blockNumber" ⟼ hex_or_null (tl_block_number log);
   "blockHash" ⟼ opt VString (tl_block_hash log);
   "transactionHash" ⟼ opt VString (tl_transaction_hash log);
   "transactionIndex" ⟼ hex_or_null (tl_transaction_index log);
   "logIndex" ⟼ hex_or_null (tl_log_index log);
   "removed" ⟼ VBool false].
(** [None] until the transaction is in a block. *)
(* eth2077-node/src/bin/eth2077-devnetd.rs:988-1009 tx_receipt_json *)
Definition tx_receipt_json (receipt : TxReceiptRecord) : option Value :=
  block_number ← tr_block_number receipt;
  block_hash ← tr_block_hash receipt;
  Some (obj
    ["transactionHash" ⟼ VString (tr_tx_hash receipt);
     "transactionIndex" ⟼ VString (hex_u64 (default 0 (tr_transaction_index receipt)));
     "blockHash" ⟼ VString block_hash;
     "blockNumber" ⟼ VString (hex_u64 block_number);
     "from" ⟼ VString (tr_from receipt);
     "to" ⟼ opt VString (tr_to receipt);
     "cumulativeGasUsed" ⟼ VString (hex_u64 (tr_cumulative_gas_used receipt));
     "gasUsed" ⟼ VString (hex_u64 (tr_gas_used receipt));
     "contractAddress" ⟼ opt VString (tr_contract_address receipt);
     "logs" ⟼ arr tx_log_to_json (tr_logs receipt);
     "logsBloom" ⟼ VString (tr_logs_bloom receipt);
     "status" ⟼ (if tr_status receipt then text "0x1" else text "0x0");
     "type" ⟼ VString (tr_tx_type receipt);
     "effectiveGasPrice" ⟼ VString (hex_u64 (tr_effective_gas_price receipt))]).

(** ** Blocks *)

(* eth2077-node/src/bin/eth2077-devnetd.rs:1151-1179 empty_block_template *)
Definition empty_block_template (number timestamp : Z) : list (Str * Value) :=
  let parent := if number =? 0
    then str "0x0000000000000000000000000000000000000000000000000000000000000000"
    else block_hash (u64_saturating_sub number 1) in
  (λ '(k, v), (str k, v)) <$>
  ["number" ⟼ VString (hex_u64 number);
   "hash" ⟼ VString (block_hash number);
   "parentHash" ⟼ VString parent;
   "nonce" ⟼ text "0x0000000000000000";
   "sha3Uncles" ⟼ text "0x1dcc4de8dec75d7aab85b567b6ccd41ad312451b948a7413f0a142fd40d49347";
   "logsBloom" ⟼ VString (str "0x" ++ replicate 512 48);
   "transactionsRoot" ⟼ text "0x56e81f171bcc55a6ff8345e69d706d3b9f2f4f4b6a4f0f4d8f4f0f4d8f4f0f4d";
   "stateRoot" ⟼ VString (str "0x" ++ replicate 64 48);
   "receiptsRoot" ⟼ VString (str "0x" ++ replicate 64 48);
   "miner" ⟼ text "0x0000000000000000000000000000000000000000";
   "difficulty" ⟼ text "0x0";
   "totalDifficulty" ⟼ text "0x0";
   "extraData" ⟼ text "0x65746832303737";
   "size" ⟼ text "0x0";
   "gasLimit" ⟼ text "0x1c9c380";
   "gasUsed" ⟼ text "0x0";
   "timestamp" ⟼ VString (hex_u64 timestamp);
   "transactions" ⟼ VArray [];
   "uncles" ⟼ VArray [];
   "baseFeePerGas" ⟼ text "0x3b9aca00"].
(* eth2077-node/src/bin/eth2077-devnetd.rs:1181-1188 block_by_tag *)
Definition block_by_tag (st : NodeState) (tag : Str) : option Z :=
  if str_eqb tag (str "latest") || str_eqb tag (str "pending") then Some (current_height st) else
  if str_eqb tag (str "finalized") then Some (finalized_height st) else
  if str_eqb tag (str "earliest") then Some 0 else parse_hex_u64 tag.
(* eth2077-node/src/bin/eth2077-devnetd.rs:1190-1222 build_block_response *)
Definition build_block_response (st : NodeState) (number : Z) (full_txs : bool) : Value :=
  let l := ledger st in
  let ts := default (started_at_unix_s (info st)) (block_timestamps l !! number) in
  let tx_hashes := default [] (block_txs l !! number) in
  let tx_payload := if full_txs
    then arr (λ tx, tx_to_json tx (chain_id (info st))) (omap (λ h, txs l !! h) tx_hashes)
    else arr VString tx_hashes in
  let block := empty_block_template number ts in
  let block := insert_entry (str "transactions") tx_payload block in
  let block := insert_entry (str "gasUsed")
    (VString (hex_u64 (u64_wrapping_mul (len tx_hashes) 21000))) block in
  let block := insert_entry (str "size")
    (VString (hex_u64 (u64_wrapping_add 120 (u64_wrapping_mul (len tx_hashes) 128)))) block in
  VObject block.

(** ** Logs *)

(* eth2077-node/src/bin/eth2077-devnetd.rs:2907-2918 handle_jsonrpc *)
Definition address_filter (filter : Value) : option (list Str) :=
  v ← get "address" filter;
  match v with
  | VString one => a ← canonical_address one; Some [a]
  | VArray many => mapM (λ entry, as_str entry ≫= canonical_address) many
  | _ => None
  end.
(** The alternatives of one position; none means any topic. *)
(* eth2077-node/src/bin/eth2077-devnetd.rs:2926-2948 handle_jsonrpc *)
Definition topic_options (entry : Value) : option (list Str) :=
  match entry with
  | VNull => Some []
  | VString one => Some [to_ascii_lowercase one]
  | VArray any => mapM (λ topic, to_ascii_lowercase <$> as_str topic) any
  | _ => None
  end.
(* eth2077-node/src/bin/eth2077-devnetd.rs:2923-2951 handle_jsonrpc *)
Definition topic_filters (filter : Value) : result (list (list Str)) Str :=
  match get "topics" filter with
  | Some (VArray arr) =>
      match mapM topic_options arr with
      | Some parsed => Ok parsed
      | None => Err (str "invalid topics filter entry")
      end
  | Some _ => Err (str "invalid topics filter")
  | None => Ok []
  end.
(* eth2077-node/src/bin/eth2077-devnetd.rs:2886-2905 handle_jsonrpc *)
Definition log_range (st : NodeState) (filter : Value) : Z * Z :=
  let tag_or d key := default d ((get key filter ≫= as_str) ≫= block_by_tag st) in
  let from_block := tag_or 0 "fromBlock"%string in
  let to_block := tag_or (current_height st) "toBlock"%string in
  match (get "blockHash" filter ≫= as_str) ≫= block_number_from_hash with
  | Some block_hash => (block_hash, block_hash)
  | None => (Z.min from_block to_block, Z.max from_block to_block)
  end.
(* eth2077-node/src/bin/eth2077-devnetd.rs:2963-2986 handle_jsonrpc *)
Definition log_matches (addresses : option (list Str)) (topics : list (list Str)) (log : TxLogRecord) : bool :=
  match addresses with
  | Some addrs => existsb (str_eqb (tl_address log)) addrs
  | None => true
  end &&
  forallb (λ '(idx, options),
    bool_decide (options = []) ||
    match tl_topics log !! idx with
    | None => false
    | Some topic => existsb (str_eqb (to_ascii_lowercase topic)) options
    end) (imap pair topics).
(** The logs of the transactions of the blocks of a range. *)
(* eth2077-node/src/bin/eth2077-devnetd.rs:2954-2962 handle_jsonrpc *)
Definition logs_between (l : Ledger) (range_start range_end : Z) : list TxLogRecord :=
  block_number ← seqZ range_start (range_end - range_start + 1);
  tx ← default [] (block_txs l !! block_number);
  match tx_receipts l !! tx with None => [] | Some receipt => tr_logs receipt end.
(* eth2077-node/src/bin/eth2077-devnetd.rs:2877-2994 handle_jsonrpc *)
Definition eth_getLogs (st : NodeState) (id params : Value) : Value :=
  match (v ← item 0 params; if is_object v then Some v else None) with
  | None => jsonrpc_error id (-32602) (str "invalid params: expected filter object")
  | Some filter =>
      let '(range_start, range_end) := log_range st filter in
      let addresses := address_filter filter in
      if bool_decide (is_Some (get "address" filter)) && bool_decide (addresses = None) then
        jsonrpc_error id (-32602) (str "invalid address filter")
      else
      match topic_filters filter with
      | Err e => jsonrpc_error id (-32602) e
      | Ok topics => jsonrpc_response id (arr tx_log_to_json
          (List.filter (log_matches addresses topics) (logs_between (ledger st) range_start range_end)))
      end
  end.

(** ** The status report *)

(** Transactions and non-empty blocks of [window_start..=head_block]. *)
(* eth2077-node/src/bin/eth2077-devnetd.rs:1080-1093 eth2077_status_json *)
Definition window_counts (st : NodeState) (window_start head_block : Z) : Z * Z :=
  foldl (λ '(window_txs, non_empty_blocks) block,
    let count := default 0 (len <$> block_txs (ledger st) !! block) in
    (u64_saturating_add window_txs count,
     if 0 <? count then u64_saturating_add non_empty_blocks 1 else non_empty_blocks))
    (0, 0) (seqZ window_start (head_block - window_start + 1)).
(* eth2077-node/src/bin/eth2077-devnetd.rs:1068-1149 eth2077_status_json *)
Definition eth2077_status_json (st : NodeState) (now_unix_s : Z) : Value :=
  let i := info st in
  let l := ledger st in
  let head_block := current_height st in
  let finalized_block := finalized_height st in
  let finality_lag_blocks := u64_saturating_sub head_block finalized_block in
  let finality_lag_ms_estimate := u64_saturating_mul finality_lag_blocks 12000 in
  let window_size_blocks := 60 in
  let window_start := u64_saturating_sub head_block (u64_saturating_sub window_size_blocks 1) in
  let window_block_count := u64_saturating_add (u64_saturating_sub head_block window_start) 1 in
  let window_span_seconds := Z.max (u64_saturating_mul window_block_count 12) 1 in
  let '(window_txs, non_empty_blocks) := window_counts st window_start head_block in
  let txs_of block := default 0 (len <$> block_txs l !! block) in
  let avg_tps_window := f64_div (f64_of_u64 window_txs) (f64_of_u64 window_span_seconds) in
  obj
  ["schema" ⟼ text "eth2077/status-v1";
   "timestampUnixS" ⟼ num now_unix_s;
   "nodeId" ⟼ num (node_id i);
   "nodes" ⟼ num (nodes i);
   "chainId" ⟼ VString (hex_u64 (chain_id i));
   "headBlock" ⟼ VString (hex_u64 head_block);
   "finalizedBlock" ⟼ VString (hex_u64 finalized_block);
   "finalityLagBlocks" ⟼ VString (hex_u64 finality_lag_blocks);
   "finalityLagMsEstimate" ⟼ num finality_lag_ms_estimate;
   "latestBlockTimestamp" ⟼ num (default (started_at_unix_s i) (block_timestamps l !! head_block));
   "uptimeSeconds" ⟼ num (u64_saturating_sub now_unix_s (started_at_unix_s i));
   "peersConnected" ⟼ num (peers_connected i);
   "peersTarget" ⟼ num (peers_target i);
   "txPoolPending" ⟼ num (len (pending_txs l));
   "knownTransactions" ⟼ num (Z.of_nat (size (txs l)));
   "window" ⟼ obj
     ["startBlock" ⟼ VString (hex_u64 window_start);
      "endBlock" ⟼ VString (hex_u64 head_block);
      "blockCount" ⟼ num window_block_count;
      "spanSeconds" ⟼ num window_span_seconds;
      "txs" ⟼ num window_txs;
      "nonEmptyBlocks" ⟼ num non_empty_blocks;
      "avgTpsApprox" ⟼ VNumber (Float avg_tps_window)];
   "latestBlockTxs" ⟼ num (txs_of head_block);
   "finalizedBlockTxs" ⟼ num (txs_of finalized_block);
   "capacity" ⟼ obj
     ["ingressTps" ⟼ VNumber (Float (ingress_capacity_tps i));
      "executionTps" ⟼ VNumber (Float (execution_capacity_tps i));
      "oobTps" ⟼ VNumber (Float (oob_capacity_tps i));
      "bridgeReplaySafe" ⟼ VBool (bridge_replay_safe i)];
   "app" ⟼ obj
     ["marketNfts" ⟼ num (Z.of_nat (size (market_nfts (market st))));
      "marketReceipts" ⟼ num (Z.of_nat (size (market_receipts (market st))))]].

(** ** Execution without commit *)

(* eth2077-node/src/bin/eth2077-devnetd.rs:3014-3024 handle_jsonrpc *)
Definition caller_of (st : NodeState) (call : Value) : Address :=
  default Address_ZERO (or_else ((get "from" call ≫= as_str) ≫= address_from_hex)
    (pending_nonce_address_hint (ledger st) ≫= address_from_hex)).
(* eth2077-node/src/bin/eth2077-devnetd.rs:3025-3065 handle_jsonrpc *)
Definition decode_call (st : NodeState) (caller : Address) (call : Value) : outcome DecodedRawTx :=
  let field key := get key call ≫= as_str in
  value ← match field "value"%string with Some v => parse_hex_u256 v | None => mret None end;
  mret {|
    dr_tx_type := 2;
    dr_chain_id := Some (chain_id (info st));
    dr_nonce := account_nonce_from_db (evm_db (ledger st)) caller;
    dr_gas_limit := default 30000000 (field "gas"%string ≫= parse_hex_u64);
    dr_gas_price := default 0 (field "gasPrice"%string ≫= parse_hex_u128);
    dr_max_priority_fee_per_gas := Some 0;
    dr_max_fee_per_blob_gas := None;
    dr_blob_hashes := [];
    dr_authorizations := [];
    dr_to := field "to"%string ≫= address_from_hex;
    dr_value := default 0 value;
    dr_data := default []
      ((or_else (get "data" call) (get "input" call) ≫= as_str) ≫= parse_hex_bytes) |}.
Definition call_object (params : Value) : option Value :=
  v ← item 0 params; if is_object v then Some v else None.
Definition no_call_object (id : Value) : Value :=
  jsonrpc_error id (-32602) (str "invalid params: expected call object as first parameter").
(* eth2077-node/src/bin/eth2077-devnetd.rs:3007-3093 handle_jsonrpc *)
Definition eth_estimateGas (st : NodeState) (id params : Value) : outcome (NodeState * Value) :=
  match call_object params with
  | None => mret (st, no_call_object id)
  | Some call =>
      let caller := caller_of st call in
      decoded ← decode_call st caller call;
      let block_number := current_height st in
      let '(st, executed) := execute_evm_transaction st caller decoded false block_number
        (nominal_timestamp st block_number) in
      mret (st, match executed with
        | Ok o => jsonrpc_response id (VString (hex_u64 (Z.max (eo_gas_used o) 21000)))
        | Err err => jsonrpc_error id (-32000) (str "estimation failed: " ++ err)
        end)
  end.
(* eth2077-node/src/bin/eth2077-devnetd.rs:3094-3186 handle_jsonrpc *)
Definition eth_call (st : NodeState) (id params : Value) : outcome (NodeState * Value) :=
  let block_tag := default (str "latest") (item 1 params ≫= as_str) in
  match call_object params with
  | None => mret (st, no_call_object id)
  | Some call =>
      let caller := caller_of st call in
      decoded ← decode_call st caller call;
      let block_number := default (current_height st) (block_by_tag st block_tag) in
      let '(st, executed) := execute_evm_transaction st caller decoded false block_number
        (nominal_timestamp st block_number) in
      mret (st, match executed with
        | Ok o => jsonrpc_response id (VString (bytes_to_hex (eo_output o)))
        | Err err => jsonrpc_error id (-32000) (str "eth_call failed: " ++ err)
        end)
  end.

(** ** Accounts, transactions and blocks *)

(* eth2077-node/src/bin/eth2077-devnetd.rs:27-27 DEFAULT_ACCOUNT_BALANCE_WEI *)
Definition DEFAULT_ACCOUNT_BALANCE_WEI : Z := 0.
(* eth2077-node/src/bin/eth2077-devnetd.rs:3187-3197 handle_jsonrpc *)
Definition eth_getBalance (st : NodeState) (id params : Value) : Value :=
  let address := str_param 0 params ≫= address_from_hex in
  let balance := match address with
    | Some addr => account_balance_from_db (evm_db (ledger st)) addr
    | None => DEFAULT_ACCOUNT_BALANCE_WEI
    end in
  jsonrpc_response id (VString (u256_to_hex balance)).
(* eth2077-node/src/bin/eth2077-devnetd.rs:3198-3209 handle_jsonrpc *)
Definition eth_getTransactionCount (st : NodeState) (id params : Value) : NodeState * Value :=
  let address_str := str_param 0 params in
  let nonce := match address_str ≫= address_from_hex with
    | Some addr => account_nonce_from_db (evm_db (ledger st)) addr
    | None => 0
    end in
  (with_ledger (with_hint (address_str ≫= canonical_address) (ledger st)) st,
   jsonrpc_response id (VString (hex_u64 nonce))).
(* eth2077-node/src/bin/eth2077-devnetd.rs:3210-3220 handle_jsonrpc *)
Definition eth_getCode (st : NodeState) (id params : Value) : Value :=
  let code := match str_param 0 params ≫= address_from_hex with
    | Some addr => code_hex_from_db (evm_db (ledger st)) addr
    | None => str "0x"
    end in
  jsonrpc_response id (VString code).
(* eth2077-node/src/bin/eth2077-devnetd.rs:3221-3239 handle_jsonrpc *)
Definition eth_getStorageAt (st : NodeState) (id params : Value) : outcome Value :=
  slot ← match str_param 1 params with Some s => parse_hex_u256 s | None => mret None end;
  let out := match str_param 0 params ≫= address_from_hex with
    | Some addr => storage_hex_from_db (evm_db (ledger st)) addr (default 0 slot)
    | None => str "0x0000000000000000000000000000000000000000000000000000000000000000"
    end in
  mret (jsonrpc_response id (VString out)).
(* eth2077-node/src/bin/eth2077-devnetd.rs:3240-3252 handle_jsonrpc *)
Definition eth_getTransactionByHash (st : NodeState) (id params : Value) : Value :=
  jsonrpc_response id (opt (λ tx, tx_to_json tx (chain_id (info st)))
    (maybe_hash ← to_ascii_lowercase <$> str_param 0 params; txs (ledger st) !! maybe_hash)).
(* eth2077-node/src/bin/eth2077-devnetd.rs:3253-3265 handle_jsonrpc *)
Definition eth_getTransactionReceipt (st : NodeState) (id params : Value) : Value :=
  jsonrpc_response id (default VNull
    ((maybe_hash ← to_ascii_lowercase <$> str_param 0 params; tx_receipts (ledger st) !! maybe_hash)
      ≫= tx_receipt_json)).
(* eth2077-node/src/bin/eth2077-devnetd.rs:3266-3276 handle_jsonrpc *)
Definition eth_getBlockTransactionCountByNumber (st : NodeState) (id params : Value) : Value :=
  let block_tag := default (str "latest") (str_param 0 params) in
  jsonrpc_response id (VString (hex_u64 (default 0
    (n ← block_by_tag st block_tag; len <$> block_txs (ledger st) !! n)))).
(* eth2077-node/src/bin/eth2077-devnetd.rs:3277-3286 handle_jsonrpc *)
Definition eth_getBlockTransactionCountByHash (st : NodeState) (id params : Value) : Value :=
  jsonrpc_response id (VString (hex_u64 (default 0
    (n ← str_param 0 params ≫= block_number_from_hash; len <$> block_txs (ledger st) !! n)))).
(* eth2077-node/src/bin/eth2077-devnetd.rs:3289-3308 handle_jsonrpc *)
Definition eth_getBlockReceipts (st : NodeState) (id params : Value) : Value :=
  let block_tag := default (str "latest") (str_param 0 params) in
  let number := or_else (block_number_from_hash block_tag) (block_by_tag st block_tag) in
  let hashes := default [] (n ← number; block_txs (ledger st) !! n) in
  jsonrpc_response id (VArray
    (omap (λ h, (tx_receipts (ledger st) !! h) ≫= tx_receipt_json) hashes)).
(* eth2077-node/src/bin/eth2077-devnetd.rs:3319-3334 handle_jsonrpc *)
Definition eth_feeHistory (st : NodeState) (id : Value) : Value :=
  let latest := current_height st in
  let oldest := u64_saturating_sub latest 9 in
  let blob_base_fee := hex_u128 blob_base_fee_per_gas in
  jsonrpc_response id (obj
    ["oldestBlock" ⟼ VString (hex_u64 oldest);
     "baseFeePerGas" ⟼ VArray (replicate 11 (text "0x3b9aca00"));
     "baseFeePerBlobGas" ⟼ VArray (replicate 11 (VString blob_base_fee));
     "gasUsedRatio" ⟼ VArray (replicate 10 (VNumber (Float f64_zero)));
     "blobGasUsedRatio" ⟼ VArray (replicate 10 (VNumber (Float f64_zero)));
     "reward" ⟼ VArray []]).
(* eth2077-node/src/bin/eth2077-devnetd.rs:2839-2855 handle_jsonrpc *)
Definition eth_getBlockByNumber (st : NodeState) (id params : Value) : Value :=
  let block_tag := default (str "latest") (str_param 0 params) in
  let full_txs := default false (item 1 params ≫= as_bool) in
  jsonrpc_response id (match block_by_tag st block_tag with
    | Some num => build_block_response st num full_txs
    | None => VNull
    end).
(* eth2077-node/src/bin/eth2077-devnetd.rs:2856-2876 handle_jsonrpc *)
Definition eth_getBlockByHash (st : NodeState) (id params : Value) : Value :=
  let maybe_hash := default [] (str_param 0 params) in
  let full_txs := default false (item 1 params ≫= as_bool) in
  jsonrpc_response id (match block_number_from_hash maybe_hash with
    | Some num => if num <=? current_height st then build_block_response st num full_txs else VNull
    | None => VNull
    end).
(* eth2077-node/src/bin/eth2077-devnetd.rs:3496-3518 handle_jsonrpc *)
Definition eth2077_setBalance (st : NodeState) (id params : Value) : outcome (NodeState * Value) :=
  amount ← match str_param 1 params with Some s => parse_hex_u256 s | None => mret None end;
  mret (match str_param 0 params ≫= address_from_hex, amount with
  | Some addr, Some wei =>
      let l := ledger st in
      (with_ledger (with_evm_db (set_account_balance_in_db (evm_db l) addr wei) l) st,
       jsonrpc_response id (VBool true))
  | _, _ => (st, jsonrpc_error id (-32602) (str "invalid params: expected [address, amountWeiHex]"))
  end).
End queries.
