(* ===== verification/LedgerProps.v ===== *)
(** * The ledger's invariant and reading the chain back ([eth2077-node/src/bin/eth2077-devnetd.rs])

    What the ticker writes, and what holds of the ledger whatever is sent and sealed; what
    log filters select, blocks by hash and by number, and what a rejected transaction
    leaves. *)
From S2P Require Import Prelude Canonical Floats Strings Json DaemonHex DaemonState RawTx DaemonEvm Ledger Market ChainQueries.
Local Open Scope Z_scope.

Section sealing.
Context `{HC : HexCrate} `{ET : EvmTypes}.

(** ** The loop of the ticker *)

Lemma seal_logs_spec block hash tx idx n logs :
  0 <= n <= u64_max →
  let '(out, next) := seal_logs block hash tx idx n logs in
  next = Z.min (n + len logs) u64_max ∧ length out = length logs ∧
  ∀ j, out !! j = (λ log, seal_log block hash tx idx (Z.min (n + Z.of_nat j) u64_max) log) <$> logs !! j.
Proof.
  revert n. induction logs as [|log logs IH]; intros n Hn; simpl.
  { split; [unfold len; simpl; lia|]. by split. }
  specialize (IH (u64_saturating_add n 1) ltac:(sat_lia)).
  destruct (seal_logs block hash tx idx (u64_saturating_add n 1) logs) as [out next].
  destruct IH as (-> & <- & Hout). split; [unfold len, u64_saturating_add; simpl; lia|]. split; [done|].
  intros [|j]; simpl.
  - do 2 f_equal. lia.
  - rewrite Hout. unfold u64_saturating_add. destruct (logs !! j); simpl; [|done]. do 2 f_equal. lia.
Qed.

(** A log that says where its transaction is. *)
Definition log_sealed (block : Z) (hash tx : Str) (idx : Z) (log : TxLogRecord) : Prop :=
  ∃ n log0, log = seal_log block hash tx idx n log0.
Lemma seal_logs_sealed block hash tx idx n logs :
  Forall (log_sealed block hash tx idx) (seal_logs block hash tx idx n logs).1.
Proof.
  revert n. induction logs as [|log logs IH]; intros n; simpl; [constructor|].
  specialize (IH (u64_saturating_add n 1)). destruct (seal_logs _ _ _ _ _ logs). constructor; [by eexists _, _|done].
Qed.

(** The records after the hashes [done] have been sealed. *)
Record sealing_inv (block : Z) (hash : Str) (s0 : Sealing) (processed : list Str) (s : Sealing) : Prop := {
  se_txs tx record : sl_txs s !! tx = Some record →
    sl_txs s0 !! tx = Some record ∧ tx ∉ processed ∨
    ∃ i record0, processed !! i = Some tx ∧ sl_txs s0 !! tx = Some record0 ∧
      record = seal_record block hash (Z.of_nat i) record0;
  se_receipts tx receipt : sl_receipts s !! tx = Some receipt →
    sl_receipts s0 !! tx = Some receipt ∧ tx ∉ processed ∨
    ∃ i receipt0 cumulative logs, processed !! i = Some tx ∧ sl_receipts s0 !! tx = Some receipt0 ∧
      receipt = seal_receipt block hash (Z.of_nat i) cumulative logs receipt0 ∧
      Forall (log_sealed block hash tx (Z.of_nat i)) logs;
  se_known tx : is_Some (sl_txs s !! tx) ↔ is_Some (sl_txs s0 !! tx);
}.
Lemma seal_tx_inv block hash s0 processed s tx :
  sealing_inv block hash s0 processed s →
  sealing_inv block hash s0 (processed ++ [tx]) (seal_tx block hash s (length processed, tx)).
Proof.
  intros [Ht Hr Hk].
  assert (Hlast : (processed ++ [tx]) !! length processed = Some tx) by by apply list_lookup_middle.
  assert (Hold : ∀ i t, processed !! i = Some t → (processed ++ [tx]) !! i = Some t).
  { intros i t Hi. by apply lookup_app_l_Some. }
  assert (Htxs : ∀ t record, (match sl_txs s !! tx with
      | Some record => <[tx := seal_record block hash (Z.of_nat (length processed)) record]> (sl_txs s)
      | None => sl_txs s end) !! t = Some record →
    sl_txs s0 !! t = Some record ∧ t ∉ processed ++ [tx] ∨
    ∃ i record0, (processed ++ [tx]) !! i = Some t ∧ sl_txs s0 !! t = Some record0 ∧
      record = seal_record block hash (Z.of_nat i) record0).
  { intros t record Hrec. destruct (decide (t = tx)) as [->|Hne].
    - destruct (sl_txs s !! tx) as [record1|] eqn:H1; [|congruence].
      rewrite lookup_insert_eq in Hrec. injection Hrec as <-. right. exists (length processed).
      destruct (Ht tx record1 H1) as [[H0 _]|(i & record0 & _ & H0 & ->)]; by eexists.
    - assert (Hrec' : sl_txs s !! t = Some record).
      { destruct (sl_txs s !! tx); [by rewrite lookup_insert_ne in Hrec|done]. }
      destruct (Ht t record Hrec') as [[H0 Hno]|(i & record0 & Hi & H0 & ->)]; [left|right; eauto 10].
      split; [done|]. rewrite elem_of_app, list_elem_of_singleton. naive_solver. }
  assert (Hknown : ∀ t, is_Some ((match sl_txs s !! tx with
      | Some record => <[tx := seal_record block hash (Z.of_nat (length processed)) record]> (sl_txs s)
      | None => sl_txs s end) !! t) ↔ is_Some (sl_txs s0 !! t)).
  { intros t. rewrite <- Hk. destruct (sl_txs s !! tx) eqn:H1; [|done]. rewrite lookup_insert_is_Some'.
    split; [intros [<-|?]; [by eexists|done]|by right]. }
  unfold seal_tx. cbn [fst snd]. destruct (sl_receipts s !! tx) as [receipt|] eqn:H1.
  - pose proof (seal_logs_sealed block hash tx (Z.of_nat (length processed)) (sl_next_log_index s) (tr_logs receipt)) as Hlogs.
    destruct (seal_logs _ _ _ _ _ _) as [logs next]. split; simpl; [done| |done].
    intros t r [[<- <-]|[Hne Hr']]%lookup_insert_Some.
    + right. exists (length processed). destruct (Hr tx receipt H1) as [[H0 _]|(i & r0 & cum & l & _ & H0 & -> & _)];
        by eexists _, _, _.
    + destruct (Hr t r Hr') as [[H0 Hno]|(i & r0 & cum & l & Hi & H0 & -> & Hl)]; [left|right; eauto 10].
      split; [done|]. rewrite elem_of_app, list_elem_of_singleton. naive_solver.
  - split; simpl; [done| |done]. intros t r Hr'.
    destruct (Hr t r Hr') as [[H0 Hno]|(i & r0 & cum & l & Hi & H0 & -> & Hl)]; [left|right; eauto 10].
    split; [done|]. rewrite elem_of_app, list_elem_of_singleton. intros [?|Heq]; [done|]. subst t. congruence.
Qed.
Lemma seal_pending_inv block hash s0 pending :
  sealing_inv block hash s0 pending (foldl (seal_tx block hash) s0 (imap pair pending)).
Proof.
  induction pending as [|tx pending IH] using rev_ind.
  - simpl. split; [..|done]; intros; left; (split; [done|apply not_elem_of_nil]).
  - rewrite imap_app, foldl_app. simpl. rewrite Nat.add_0_r. by apply seal_tx_inv.
Qed.

(** ** Sealing distinct transactions *)

(** The gas, and the logs, of the first transactions of a block. *)
Definition gas_upto (receipts : gmap Str TxReceiptRecord) (hashes : list Str) : Z :=
  foldl u64_saturating_add 0 (omap (λ tx, tr_gas_used <$> receipts !! tx) hashes).
Definition logs_upto (receipts : gmap Str TxReceiptRecord) (hashes : list Str) : Z :=
  Z.min (len (mjoin ((λ tx, default [] (tr_logs <$> receipts !! tx)) <$> hashes))) u64_max.
(** What sealing makes of the receipt of the transaction at [i]. *)
Definition sealed_receipt (block : Z) (receipts : gmap Str TxReceiptRecord) (hashes : list Str) (i : nat)
    (tx : Str) (r : TxReceiptRecord) : TxReceiptRecord :=
  let hash := block_hash block in
  seal_receipt block hash (Z.of_nat i) (gas_upto receipts (take (S i) hashes))
    (seal_logs block hash tx (Z.of_nat i) (logs_upto receipts (take i hashes)) (tr_logs r)).1 r.

Lemma seal_exact block txs0 receipts0 hashes : NoDup hashes →
  let s := foldl (seal_tx block (block_hash block)) (MkSealing txs0 receipts0 0 0) (imap pair hashes) in
  sl_cumulative_gas_used s = gas_upto receipts0 hashes ∧
  sl_next_log_index s = logs_upto receipts0 hashes ∧
  (∀ tx, tx ∉ hashes → sl_txs s !! tx = txs0 !! tx ∧ sl_receipts s !! tx = receipts0 !! tx) ∧
  ∀ i tx, hashes !! i = Some tx →
    sl_txs s !! tx = seal_record block (block_hash block) (Z.of_nat i) <$> txs0 !! tx ∧
    sl_receipts s !! tx = sealed_receipt block receipts0 hashes i tx <$> receipts0 !! tx.
Proof.
  cbv zeta. induction hashes as [|tx hashes IH] using rev_ind; [by intros _|].
  intros (Hnd & Hnew & _)%NoDup_app. specialize (IH Hnd).
  assert (Hfresh : tx ∉ hashes) by (intros Hin; apply (Hnew tx Hin); by apply list_elem_of_singleton).
  rewrite imap_app, foldl_app. simpl. rewrite Nat.add_0_r.
  set (s := foldl _ _ _) in *. destruct IH as (Hgas & Hlogs & Hout & Hin).
  destruct (Hout tx Hfresh) as [Htx Hrc].
  assert (Htake : ∀ i t, hashes !! i = Some t →
    take (S i) (hashes ++ [tx]) = take (S i) hashes ∧ take i (hashes ++ [tx]) = take i hashes).
  { intros i t Hi%lookup_lt_Some. by rewrite !take_app_le by lia. }
  assert (Hsame : ∀ i t, hashes !! i = Some t →
    sealed_receipt block receipts0 (hashes ++ [tx]) i t = sealed_receipt block receipts0 hashes i t).
  { intros i t Hi. unfold sealed_receipt. by destruct (Htake i t Hi) as [-> ->]. }
  assert (Hgas' : gas_upto receipts0 (hashes ++ [tx]) = match receipts0 !! tx with
    | Some r => u64_saturating_add (gas_upto receipts0 hashes) (tr_gas_used r) | None => gas_upto receipts0 hashes end).
  { unfold gas_upto. rewrite omap_app, foldl_app. simpl. by destruct (receipts0 !! tx). }
  assert (Hlogs' : logs_upto receipts0 (hashes ++ [tx]) =
    Z.min (logs_upto receipts0 hashes + len (default [] (tr_logs <$> receipts0 !! tx))) u64_max).
  { unfold logs_upto. rewrite fmap_app, join_app. cbn [fmap list_fmap mjoin list_join]. rewrite app_nil_r.
    unfold len. rewrite length_app. lia. }
  assert (Hrange : 0 <= sl_next_log_index s <= u64_max) by (rewrite Hlogs; unfold logs_upto, len; lia).
  set (n := length hashes).
  assert (Hat : ∀ i t, (hashes ++ [tx]) !! i = Some t → i = n ∧ t = tx ∨ hashes !! i = Some t ∧ t ≠ tx).
  { intros i t [Hi|[Hge Hi]]%lookup_app_Some.
    - right. split; [done|]. intros ->. apply Hfresh. by eapply list_elem_of_lookup_2.
    - apply list_lookup_singleton_Some in Hi as [Hi <-]. left. split; [unfold n; lia|done]. }
  unfold seal_tx. cbn [fst snd]. rewrite Htx, Hrc.
  assert (Htxs : ∀ t, (match txs0 !! tx with
      | Some record => <[tx := seal_record block (block_hash block) (Z.of_nat n) record]> (sl_txs s)
      | None => sl_txs s end) !! t =
    if decide (t = tx) then seal_record block (block_hash block) (Z.of_nat n) <$> txs0 !! tx else sl_txs s !! t).
  { intros t. case_decide as Ht; [subst t|].
    - destruct (txs0 !! tx); [by rewrite lookup_insert_eq|done].
    - destruct (txs0 !! tx); [by rewrite lookup_insert_ne|done]. }
  rewrite Hgas', Hlogs'. destruct (receipts0 !! tx) as [r|] eqn:Hr; cbn [fmap option_fmap option_map default].
  - pose proof (seal_logs_spec block (block_hash block) tx (Z.of_nat n) (sl_next_log_index s) (tr_logs r) Hrange) as Hs.
    destruct (seal_logs _ _ _ _ (sl_next_log_index s) _) as [logs next] eqn:Hseal. destruct Hs as (-> & _).
    cbn [sl_cumulative_gas_used sl_next_log_index sl_txs sl_receipts]. rewrite Hgas, Hlogs.
    split; [done|]. split; [done|]. split.
    + intros t [Hno Hne%not_elem_of_cons]%not_elem_of_app. destruct Hne as [Hne _].
      rewrite Htxs, decide_False, lookup_insert_ne by done. by apply Hout.
    + intros i t [[-> ->]|[Hi Hne]]%Hat.
      * rewrite Htxs, decide_True, lookup_insert_eq, Hr by done. split; [done|]. simpl. f_equal.
        unfold sealed_receipt. rewrite (take_ge (hashes ++ [tx])) by (rewrite length_app; simpl; unfold n; lia).
        assert (Htake' : take n (hashes ++ [tx]) = hashes) by apply take_app_length.
        by rewrite Htake', Hgas', <- Hlogs, Hseal.
      * rewrite Htxs, decide_False, lookup_insert_ne, (Hsame i t Hi) by done. by apply Hin.
  - cbn [sl_cumulative_gas_used sl_next_log_index sl_txs sl_receipts]. rewrite Hgas, Hlogs.
    split; [done|]. split; [unfold len; simpl; unfold logs_upto; lia|]. split.
    + intros t [Hno Hne%not_elem_of_cons]%not_elem_of_app. destruct Hne as [Hne _].
      rewrite Htxs, decide_False by done. by apply Hout.
    + intros i t [[-> ->]|[Hi Hne]]%Hat.
      * by rewrite Htxs, decide_True, Hrc, Hr by done.
      * rewrite Htxs, decide_False, (Hsame i t Hi) by done. by apply Hin.
Qed.

(** C12: A tick seals the pending transactions, when they are distinct, into a block of the
    next height: the queue is emptied and becomes the block, the time is recorded, two
    blocks are left to finality, other transactions are untouched, and each sealed
    transaction and receipt gets the block's number and hash and its own index, the receipt
    the gas used by the block so far, and its logs consecutive indices in the block. *)
Theorem tick_seals_pending (now : Z) (st : NodeState) :
  let l := ledger st in
  let st' := tick now st in
  let l' := ledger st' in
  let block := current_height st' in
  let hash := block_hash block in
  NoDup (pending_txs l) →
  block = u64_saturating_add (current_height st) 1 ∧ finalized_height st' = u64_saturating_sub block 2 ∧
  pending_txs l' = [] ∧ block_timestamps l' = <[block := now]> (block_timestamps l) ∧
  block_txs l' = (if bool_decide (pending_txs l = []) then block_txs l
                  else <[block := pending_txs l]> (block_txs l)) ∧
  (∀ tx, tx ∉ pending_txs l → txs l' !! tx = txs l !! tx ∧ tx_receipts l' !! tx = tx_receipts l !! tx) ∧
  ∀ i tx, pending_txs l !! i = Some tx →
    txs l' !! tx = seal_record block hash (Z.of_nat i) <$> txs l !! tx ∧
    (tx_receipts l !! tx = None → tx_receipts l' !! tx = None) ∧
    ∀ r, tx_receipts l !! tx = Some r → ∃ logs,
      tx_receipts l' !! tx = Some (seal_receipt block hash (Z.of_nat i)
        (gas_upto (tx_receipts l) (take (S i) (pending_txs l))) logs r) ∧
      ∀ j, logs !! j = (λ log, seal_log block hash tx (Z.of_nat i)
        (Z.min (logs_upto (tx_receipts l) (take i (pending_txs l)) + Z.of_nat j) u64_max) log) <$> tr_logs r !! j.
Proof.
  cbv zeta. intros Hnd. cbn [tick current_height finalized_height ledger].
  set (block := u64_saturating_add (current_height st) 1). set (l := ledger st) in *.
  destruct (seal_exact block (txs l) (tx_receipts l) (pending_txs l) Hnd) as (_ & _ & Hout & Hin).
  unfold seal_block. cbn [txs tx_receipts pending_txs block_txs block_timestamps].
  do 5 (split; [done|]). case_bool_decide as Hp.
  { split; [done|]. intros i tx. by rewrite Hp. }
  split; [exact Hout|]. intros i tx Hi. destruct (Hin i tx Hi) as [-> ->]. split; [done|].
  split; [by intros ->|]. intros r ->. cbn [fmap option_fmap option_map]. eexists. split; [done|].
  set (n := logs_upto _ _).
  pose proof (seal_logs_spec block (block_hash block) tx (Z.of_nat i) n (tr_logs r)
    ltac:(unfold n, logs_upto, len; lia)) as Hlogs.
  destruct (seal_logs _ _ _ _ _ _) as [logs next]. apply Hlogs.
Qed.

(** ** The invariant *)

(** Where a record says it is: still pending, or at its index in its block. *)
Definition located (l : Ledger) (tx : Str) (number : option Z) (hash : option Str) (idx : option Z) : Prop :=
  number = None ∧ hash = None ∧ idx = None ∧ tx ∈ pending_txs l ∨
  ∃ b hashes i, number = Some b ∧ hash = Some (block_hash b) ∧ idx = Some (Z.of_nat i) ∧
    block_txs l !! b = Some hashes ∧ hashes !! i = Some tx.
(** A log agrees with its receipt. *)
Definition log_agrees (tx : Str) (r : TxReceiptRecord) (log : TxLogRecord) : Prop :=
  tl_transaction_hash log = Some tx ∧ tl_block_number log = tr_block_number r ∧
  tl_block_hash log = tr_block_hash r ∧ tl_transaction_index log = tr_transaction_index r ∧
  (is_Some (tl_log_index log) ↔ is_Some (tr_block_number r)).
(** What holds of the ledger at height [h]. *)
Record ledger_inv (h : Z) (l : Ledger) : Prop := {
  li_blocks b hashes : block_txs l !! b = Some hashes → 1 <= b <= h ∧ hashes ≠ [];
  li_times b : is_Some (block_timestamps l !! b) ↔ 0 <= b <= h;
  li_pending tx : tx ∈ pending_txs l → is_Some (txs l !! tx);
  li_sealed b hashes tx : block_txs l !! b = Some hashes → tx ∈ hashes → is_Some (txs l !! tx);
  li_txs tx record : txs l !! tx = Some record → tx_hash record = tx ∧
    located l tx (tx_block_number record) (tx_block_hash record) (tx_transaction_index record);
  li_receipts tx r : tx_receipts l !! tx = Some r → tr_tx_hash r = tx ∧ is_Some (txs l !! tx) ∧
    located l tx (tr_block_number r) (tr_block_hash r) (tr_transaction_index r) ∧
    Forall (log_agrees tx r) (tr_logs r);
}.
(** Only five of the ledger's fields matter. *)
Lemma ledger_inv_fields h l l' :
  pending_txs l' = pending_txs l → txs l' = txs l → block_txs l' = block_txs l →
  block_timestamps l' = block_timestamps l → tx_receipts l' = tx_receipts l →
  ledger_inv h l → ledger_inv h l'.
Proof.
  intros Hp Ht Hb Hs Hr [Hb0 Hs0 Hp0 Hse0 Ht0 Hr0].
  split; unfold located in *; intros; rewrite ?Hp, ?Ht, ?Hb, ?Hs, ?Hr in *; eauto.
Qed.
Lemma located_push l l' tx hash number bh idx :
  pending_txs l' = pending_txs l ++ [hash] → block_txs l' = block_txs l →
  located l tx number bh idx → located l' tx number bh idx.
Proof.
  intros Hp Hb. unfold located. rewrite Hp, Hb. intros [(?&?&?&?)|?]; [left|by right].
  rewrite elem_of_app. tauto.
Qed.

(** Queueing a new record, with a receipt or without one. *)
Lemma ledger_inv_push h l l' hash record :
  pending_txs l' = pending_txs l ++ [hash] → txs l' = <[hash := record]> (txs l) →
  block_txs l' = block_txs l → block_timestamps l' = block_timestamps l →
  tx_hash record = hash → tx_block_number record = None → tx_block_hash record = None →
  tx_transaction_index record = None →
  (∀ tx r, tx_receipts l' !! tx = Some r → tx_receipts l !! tx = Some r ∨
     tx = hash ∧ tr_tx_hash r = hash ∧ tr_block_number r = None ∧ tr_block_hash r = None ∧
     tr_transaction_index r = None ∧ Forall (log_agrees hash r) (tr_logs r)) →
  ledger_inv h l → ledger_inv h l'.
Proof.
  intros Hp Ht Hb Hs Hhash Hn Hbh Hi Hr [Hb0 Hs0 Hp0 Hse0 Ht0 Hr0].
  assert (Hknown : ∀ tx, is_Some (txs l !! tx) → is_Some (txs l' !! tx)).
  { intros tx [x Hx]. rewrite Ht. destruct (decide (tx = hash)) as [->|]; [rewrite lookup_insert_eq; by eexists|].
    rewrite lookup_insert_ne by done. by eexists. }
  assert (Hhere : located l' hash None None None).
  { left. rewrite Hp, elem_of_app, list_elem_of_singleton. tauto. }
  split.
  - by rewrite Hb.
  - by rewrite Hs.
  - intros tx. rewrite Hp, elem_of_app, list_elem_of_singleton. intros [?|Heq]; [auto|].
    subst tx. rewrite Ht, lookup_insert_eq. by eexists.
  - rewrite Hb. eauto.
  - intros tx rec. rewrite Ht. intros [[<- <-]|[Hne Hrec]]%lookup_insert_Some.
    + by rewrite Hn, Hbh, Hi.
    + destruct (Ht0 _ _ Hrec) as [? ?]. split; [done|]. by eapply located_push.
  - intros tx r [Hold|(Heq & Hrh & Hrn & Hrb & Hri & Hl)]%Hr.
    + destruct (Hr0 _ _ Hold) as (? & ? & ? & ?). split_and!; [done|auto|by eapply located_push|done].
    + subst tx. rewrite Hrn, Hrb, Hri. split_and!; [done|rewrite Ht, lookup_insert_eq; by eexists|done|done].
Qed.

(** Sealing the pending transactions. *)
Lemma ledger_inv_seal h now l : 0 <= h < u64_max → ledger_inv h l →
  ledger_inv (h + 1) (seal_block (h + 1) now l).
Proof.
  intros Hh [Hb0 Hs0 Hp0 Hse0 Ht0 Hr0]. set (l' := seal_block (h + 1) now l).
  pose proof (seal_pending_inv (h + 1) (block_hash (h + 1)) (MkSealing (txs l) (tx_receipts l) 0 0) (pending_txs l))
    as [Htx Hrc Hk]. cbn [sl_txs sl_receipts] in *.
  set (s := foldl _ _ _) in Htx, Hrc, Hk.
  assert (Hfresh : block_txs l !! (h + 1) = None).
  { destruct (block_txs l !! (h + 1)) as [hs|] eqn:Heq; [|done]. apply Hb0 in Heq. lia. }
  assert (Hblocks : ∀ b hs, block_txs l !! b = Some hs → block_txs l' !! b = Some hs).
  { intros b hs Hb. unfold l', seal_block. cbn [block_txs]. case_bool_decide; [done|].
    rewrite lookup_insert_ne; [done|]. intros <-. congruence. }
  assert (Hold : ∀ tx n bh i, located l tx n bh i → tx ∉ pending_txs l → located l' tx n bh i).
  { intros tx n bh i [(_ & _ & _ & ?)|(b & hs & j & ? & ? & ? & Hb & ?)] Hno; [done|]. right. eauto 10. }
  assert (Hnew : ∀ i tx, pending_txs l !! i = Some tx →
    located l' tx (Some (h + 1)) (Some (block_hash (h + 1))) (Some (Z.of_nat i))).
  { intros i tx Hi. right. exists (h + 1), (pending_txs l), i. split_and!; [done..| |done].
    unfold l', seal_block. cbn [block_txs]. case_bool_decide as Hp; [by rewrite Hp in Hi|]. by rewrite lookup_insert_eq. }
  assert (Htxs : txs l' = sl_txs s).
  { unfold l', seal_block. cbn [txs]. case_bool_decide as Hp; [|done]. unfold s. by rewrite Hp. }
  assert (Hrcs : tx_receipts l' = sl_receipts s).
  { unfold l', seal_block. cbn [tx_receipts]. case_bool_decide as Hp; [|done]. unfold s. by rewrite Hp. }
  split.
  - intros b hs. unfold l', seal_block. cbn [block_txs]. case_bool_decide as Hp.
    + intros Hb. destruct (Hb0 _ _ Hb). split; [lia|done].
    + intros [[<- <-]|[_ Hb]]%lookup_insert_Some; [split; [lia|done]|]. destruct (Hb0 _ _ Hb). split; [lia|done].
  - intros b. unfold l', seal_block. cbn [block_timestamps]. rewrite lookup_insert_is_Some', Hs0. lia.
  - intros tx Hin. by apply not_elem_of_nil in Hin.
  - intros b hs tx. rewrite Htxs, Hk. unfold l', seal_block. cbn [block_txs]. case_bool_decide; [eauto|].
    intros [[<- <-]|[_ Hb]]%lookup_insert_Some; eauto.
  - intros tx record. rewrite Htxs. intros [[Hrec Hno]|(i & r0 & Hi & Hrec & ->)]%Htx;
      destruct (Ht0 _ _ Hrec) as [? ?]; (split; [done|]); [by apply Hold|by apply Hnew].
  - intros tx r. rewrite Hrcs, Htxs, Hk. intros [[Hrec Hno]|(i & r0 & cum & logs & Hi & Hrec & -> & Hlogs)]%Hrc;
      destruct (Hr0 _ _ Hrec) as (? & ? & ? & Hl).
    + split_and!; [done|done|by apply Hold|done].
    + split_and!; [done|done|by apply Hnew|]. cbn [tr_logs seal_receipt]. eapply Forall_impl; [exact Hlogs|].
      intros log (n & log0 & ->). unfold log_agrees. simpl. split_and!; done.
Qed.
End sealing.

Section chain.
Context `{HO : HashOrder} `{HC : HexCrate} `{RU : Ruint} `{AL : Alloy} `{RL : RlpCrate} `{ET : EvmTypes} `{DE : !DaemonEvm}.

(** ** Log filters *)

Lemma existsb_str_eqb a l : existsb (str_eqb a) l = true ↔ a ∈ l.
Proof.
  rewrite existsb_exists, list_elem_of_In. split.
  - by intros (x & Hx & ->%str_eqb_eq).
  - intros Ha. exists a. by rewrite str_eqb_eq.
Qed.
(** What a filter says of addresses: it names none, one, or any of a list. *)
Definition address_accepted (filter : Value) (address : Str) : Prop :=
  match get "address" filter with
  | None => True
  | Some (VString one) => canonical_address one = Some address
  | Some (VArray many) => ∃ one, VString one ∈ many ∧ canonical_address one = Some address
  | Some _ => False
  end.
(** And of the topics of each position: none, one, or any of a list, whatever the case. *)
Definition topic_accepted (entry : Value) (topic : option Str) : Prop :=
  match entry with
  | VString one => ∃ t, topic = Some t ∧ to_ascii_lowercase t = to_ascii_lowercase one
  | VArray [] => True
  | VArray any => ∃ t one, topic = Some t ∧ VString one ∈ any ∧ to_ascii_lowercase t = to_ascii_lowercase one
  | _ => True
  end.
Definition topics_accepted (filter : Value) (topics : list Str) : Prop :=
  match get "topics" filter with
  | Some (VArray entries) => ∀ i entry, entries !! i = Some entry → topic_accepted entry (topics !! i)
  | _ => True
  end.
(** The filters that are understood: addresses are 20 bytes in hexadecimal, topics are texts. *)
Definition is_address (v : Value) : Prop := ∃ one, v = VString one ∧ is_Some (canonical_address one).
Definition is_text (v : Value) : Prop := ∃ one, v = VString one.
Definition address_understood (filter : Value) : Prop :=
  match get "address" filter with
  | None => True
  | Some (VArray many) => Forall is_address many
  | Some v => is_address v
  end.
Definition topics_understood (filter : Value) : Prop :=
  match get "topics" filter with
  | None => True
  | Some (VArray entries) =>
      Forall (λ entry, entry = VNull ∨ is_text entry ∨ ∃ any, entry = VArray any ∧ Forall is_text any) entries
  | Some _ => False
  end.
(** A bound of the range: the block a tag names, or the default. *)
Definition range_bound (st : NodeState) (filter : Value) (key : string) (fallback bound : Z) : Prop :=
  (∃ tag, get key filter = Some (VString tag) ∧ block_by_tag st tag = Some bound) ∨
  ((∀ tag, get key filter = Some (VString tag) → block_by_tag st tag = None) ∧ bound = fallback).
(** The blocks of a filter: the one whose hash is named, or those between the bounds. *)
Definition block_in_range (st : NodeState) (filter : Value) (b : Z) : Prop :=
  (∃ hash, get "blockHash" filter = Some (VString hash) ∧ block_number_from_hash hash = Some b) ∨
  ((∀ hash, get "blockHash" filter = Some (VString hash) → block_number_from_hash hash = None) ∧
   ∃ from to, range_bound st filter "fromBlock" 0 from ∧ range_bound st filter "toBlock" (current_height st) to ∧
     (from <= b <= to ∨ to <= b <= from)).

Lemma address_filter_accepted filter :
  match get "address" filter, address_filter filter with
  | None, _ => address_understood filter ∧ ∀ a, address_accepted filter a
  | Some _, None => ¬ address_understood filter
  | Some _, Some addrs => address_understood filter ∧ ∀ a, address_accepted filter a ↔ a ∈ addrs
  end.
Proof.
  unfold address_filter, address_understood, address_accepted, is_address.
  destruct (get "address" filter) as [v|]; [|done]. cbn [mbind option_bind].
  destruct v as [| | |one|many|]; try (by intros (? & ? & _)).
  - destruct (canonical_address one) as [a|] eqn:Ha; cbn [mbind option_bind].
    + split; [by exists one|]. intros b. rewrite list_elem_of_singleton. naive_solver.
    + intros (? & [= <-] & Hs). rewrite Ha in Hs. by destruct Hs.
  - destruct (mapM _ many) as [addrs|] eqn:Hm.
    + apply mapM_Some in Hm. split.
      * apply Forall_forall. intros v [i Hi]%list_elem_of_lookup. destruct (Forall2_lookup_l _ _ _ _ _ Hm Hi) as (a & _ & Ha).
        destruct v; try done. by exists s.
      * intros a. split.
        -- intros (one & [i Hi]%list_elem_of_lookup & Ha). destruct (Forall2_lookup_l _ _ _ _ _ Hm Hi) as (b & Hb & Hab).
           cbn in Hab. simplify_eq. by eapply list_elem_of_lookup_2.
        -- intros [i Hi]%list_elem_of_lookup. destruct (Forall2_lookup_r _ _ _ _ _ Hm Hi) as (v & Hv & Ha).
           destruct v; try done. exists s. split; [by eapply list_elem_of_lookup_2|done].
    + intros Hall. apply mapM_None in Hm. apply Exists_exists in Hm as (v & Hin & Hnone).
      rewrite Forall_forall in Hall. destruct (Hall v Hin) as (one & -> & [a Ha]). cbn in Hnone. congruence.
Qed.
Lemma topic_options_accepted entry :
  match topic_options entry with
  | Some options => (entry = VNull ∨ is_text entry ∨ ∃ any, entry = VArray any ∧ Forall is_text any) ∧
      ∀ topic, topic_accepted entry topic ↔
        (options ≠ [] → ∃ t, topic = Some t ∧ to_ascii_lowercase t ∈ options)
  | None => ¬ (entry = VNull ∨ is_text entry ∨ ∃ any, entry = VArray any ∧ Forall is_text any)
  end.
Proof.
  unfold is_text. destruct entry as [| | |one|any|]; cbn [topic_options topic_accepted]; try naive_solver.
  - split; [naive_solver|]. intros topic. setoid_rewrite list_elem_of_singleton. naive_solver.
  - destruct (mapM _ any) as [options|] eqn:Hm.
    + apply mapM_Some in Hm. split.
      * right; right. exists any. split; [done|]. apply Forall_forall. intros v [i Hi]%list_elem_of_lookup.
        destruct (Forall2_lookup_l _ _ _ _ _ Hm Hi) as (o & _ & Ho). destruct v; try done. by eexists.
      * intros topic. destruct any as [|v any]; [inversion Hm; naive_solver|].
        assert (options ≠ []) by (intros ->; inversion Hm). revert Hm. generalize (v :: any) as l. intros l Hm. split.
        -- intros (t & one & -> & [i Hi]%list_elem_of_lookup & Heq) _.
           destruct (Forall2_lookup_l _ _ _ _ _ Hm Hi) as (o & Ho & Hone). cbn in Hone. simplify_eq.
           exists t. split; [done|]. rewrite Heq. by eapply list_elem_of_lookup_2.
        -- intros Ht. destruct (Ht ltac:(done)) as (t & -> & [i Hi]%list_elem_of_lookup).
           destruct (Forall2_lookup_r _ _ _ _ _ Hm Hi) as (w & Hw & Hone). destruct w as [| | |one| |]; try done.
           cbn in Hone. simplify_eq. exists t, one. split; [done|]. split; [by eapply list_elem_of_lookup_2|congruence].
    + apply mapM_None, Exists_exists in Hm as (v & Hin & Hnone). intros [[=]|[[? [=]]|(any' & [= <-] & Hall)]].
      rewrite Forall_forall in Hall. destruct (Hall v Hin) as [one ->]. done.
Qed.
Lemma topic_filters_accepted filter :
  match topic_filters filter with
  | Ok options => topics_understood filter ∧
      ∀ topics, topics_accepted filter topics ↔
        ∀ i o, options !! i = Some o → o ≠ [] → ∃ t, topics !! i = Some t ∧ to_ascii_lowercase t ∈ o
  | Err _ => ¬ topics_understood filter
  end.
Proof.
  unfold topic_filters, topics_understood, topics_accepted. destruct (get "topics" filter) as [v|]; [|split; [done|]; naive_solver].
  destruct v as [| | | |entries|]; try naive_solver. destruct (mapM topic_options entries) as [options|] eqn:Hm.
  - apply mapM_Some in Hm. split.
    + apply Forall_forall. intros entry [i Hi]%list_elem_of_lookup. destruct (Forall2_lookup_l _ _ _ _ _ Hm Hi) as (o & _ & Ho).
      pose proof (topic_options_accepted entry) as Hacc. rewrite Ho in Hacc. apply Hacc.
    + intros topics. split.
      * intros Hall i o Hi. destruct (Forall2_lookup_r _ _ _ _ _ Hm Hi) as (entry & Hentry & Ho).
        pose proof (topic_options_accepted entry) as Hacc. rewrite Ho in Hacc. apply Hacc, Hall, Hentry.
      * intros Hall i entry Hi. destruct (Forall2_lookup_l _ _ _ _ _ Hm Hi) as (o & Hoi & Ho).
        pose proof (topic_options_accepted entry) as Hacc. rewrite Ho in Hacc. apply Hacc, (Hall i o Hoi).
  - apply mapM_None, Exists_exists in Hm as (entry & Hin & Hnone). rewrite Forall_forall. intros Hall.
    pose proof (topic_options_accepted entry) as Hacc. rewrite Hnone in Hacc. by apply Hacc, Hall.
Qed.
Lemma log_matches_spec addresses options log : log_matches addresses options log = true ↔
  (∀ addrs, addresses = Some addrs → tl_address log ∈ addrs) ∧
  ∀ i o, options !! i = Some o → o ≠ [] → ∃ t, tl_topics log !! i = Some t ∧ to_ascii_lowercase t ∈ o.
Proof.
  unfold log_matches. rewrite andb_true_iff, forallb_forall.
  assert (Ha : match addresses with Some addrs => existsb (str_eqb (tl_address log)) addrs | None => true end = true ↔
    ∀ addrs, addresses = Some addrs → tl_address log ∈ addrs).
  { destruct addresses as [addrs|]; [rewrite existsb_str_eqb|]; naive_solver. }
  rewrite Ha. apply and_iff_compat_l. split.
  - intros Hall i o Hi Hne. specialize (Hall (i, o)).
    rewrite <- list_elem_of_In, elem_of_lookup_imap in Hall. specialize (Hall ltac:(eauto)). simpl in Hall.
    rewrite (bool_decide_false _ Hne) in Hall. cbn [orb] in Hall.
    destruct (tl_topics log !! i) as [topic|]; [|done]. exists topic. by rewrite existsb_str_eqb in Hall.
  - intros Hall [i o] Hin. rewrite <- list_elem_of_In, elem_of_lookup_imap in Hin.
    destruct Hin as (i' & o' & [= -> ->] & Hi).
    case_bool_decide as Hne; [done|]. destruct (Hall i' o' Hi Hne) as (topic & -> & Ht). simpl.
    by apply existsb_str_eqb.
Qed.
Lemma range_bound_default st filter key fallback :
  range_bound st filter key fallback (default fallback ((get key filter ≫= as_str) ≫= block_by_tag st)).
Proof.
  unfold range_bound. destruct (get key filter) as [v|]; [|by right]. cbn [mbind option_bind].
  destruct v as [| | |tag| |]; try (by right). cbn [as_str mbind option_bind].
  destruct (block_by_tag st tag) as [n|] eqn:Hn; [left; by exists tag|right]. split; [|done]. by intros ? [= <-].
Qed.
Lemma range_bound_unique st filter key fallback b1 b2 :
  range_bound st filter key fallback b1 → range_bound st filter key fallback b2 → b1 = b2.
Proof. intros [(t1 & H1 & B1)|[N1 ->]] [(t2 & H2 & B2)|[N2 ->]]; [|apply N2 in H1|apply N1 in H2|]; congruence. Qed.
Lemma log_range_spec st filter b :
  (log_range st filter).1 <= b <= (log_range st filter).2 ↔ block_in_range st filter b.
Proof.
  unfold log_range, block_in_range. cbv zeta.
  pose proof (range_bound_default st filter "fromBlock" 0) as Hfrom.
  pose proof (range_bound_default st filter "toBlock" (current_height st)) as Hto.
  set (from := default 0 _) in *. set (to := default (current_height st) _) in *.
  assert (Hno : (∀ hash, get "blockHash" filter = Some (VString hash) → block_number_from_hash hash = None) →
    (Z.min from to <= b <= Z.max from to ↔
     ∃ from to, range_bound st filter "fromBlock" 0 from ∧ range_bound st filter "toBlock" (current_height st) to ∧
       (from <= b <= to ∨ to <= b <= from))).
  { intros _. split; [intros; exists from, to; split; [done|]; split; [done|lia]|].
    intros (f & t & Hf & Ht & Hb). apply (range_bound_unique _ _ _ _ _ _ Hfrom) in Hf as <-.
    apply (range_bound_unique _ _ _ _ _ _ Hto) in Ht as <-. lia. }
  destruct (get "blockHash" filter) as [v|]; cbn [mbind option_bind].
  - destruct v as [| | |hash| |]; cbn [as_str mbind option_bind fst snd];
      try (rewrite (Hno ltac:(done)); split; [by right|intros [(? & [=] & _)|[_ ?]]; done]).
    destruct (block_number_from_hash hash) as [n|] eqn:Hn; cbn [fst snd].
    + split; [intros; left; exists hash; split; [done|]; rewrite Hn; f_equal; lia|].
      intros [(? & [= <-] & Hb)|[Hnone _]]; [rewrite Hn in Hb; simplify_eq; lia|]. specialize (Hnone _ eq_refl). congruence.
    + assert (Hnone : ∀ h, Some (VString hash) = Some (VString h) → block_number_from_hash h = None) by (by intros ? [= <-]).
      rewrite (Hno Hnone). split; [by right|]. intros [(? & [= <-] & ?)|[_ ?]]; [congruence|done].
  - cbn [fst snd]. rewrite (Hno ltac:(done)). split; [by right|]. intros [(? & [=] & _)|[_ ?]]; done.
Qed.
Lemma elem_of_logs_between l lo hi log : log ∈ logs_between l lo hi ↔
  ∃ b hashes tx r, lo <= b <= hi ∧ block_txs l !! b = Some hashes ∧ tx ∈ hashes ∧
    tx_receipts l !! tx = Some r ∧ log ∈ tr_logs r.
Proof.
  unfold logs_between. rewrite list_elem_of_bind. split.
  - intros (b & Hb & Hr%elem_of_seqZ). apply list_elem_of_bind in Hb as (tx & Hlog & Htx).
    destruct (block_txs l !! b) as [hashes|] eqn:Hhs; [|by apply not_elem_of_nil in Htx].
    destruct (tx_receipts l !! tx) as [r|] eqn:Hrc; [|by apply not_elem_of_nil in Hlog].
    exists b, hashes, tx, r. split_and!; try done; lia.
  - intros (b & hashes & tx & r & Hb & Hhs & Htx & Hrc & Hlog). exists b. split; [|apply elem_of_seqZ; lia].
    rewrite Hhs. apply list_elem_of_bind. exists tx. rewrite Hrc. done.
Qed.


(** ** Blocks by number and by hash *)

Lemma str_eqb_hex_tag n tag : strip_prefix (str "0x") tag = None → str_eqb (hex_u64 n) tag = false.
Proof. intros Ht. apply str_eqb_neq. intros <-. discriminate Ht. Qed.
Lemma block_by_tag_hex st n : is_u64 n → block_by_tag st (hex_u64 n) = Some n.
Proof.
  intros Hn. unfold block_by_tag. rewrite !str_eqb_hex_tag by reflexivity. cbn [orb].
  by apply parse_hex_u64_hex.
Qed.
Lemma two_params s full : str_param 0 (VArray [VString s; VBool full]) = Some s.
Proof. done. Qed.
(** A block that exists is found under its hash as under its number, and shows its
    hash, its parent's, its number, its time, and as many transactions as it holds. *)
Theorem block_lookup_roundtrip (st : NodeState) (id : Value) (n : Z) (full : bool) :
  0 <= n <= current_height st → current_height st < u64_max →
  let by_hash := eth_getBlockByHash st id (VArray [VString (block_hash n); VBool full]) in
  let by_number := eth_getBlockByNumber st id (VArray [VString (hex_u64 n); VBool full]) in
  let hashes := default [] (block_txs (ledger st) !! n) in
  by_hash = by_number ∧
  ∃ block, by_number = jsonrpc_response id block ∧
    get "hash" block = Some (VString (block_hash n)) ∧
    get "number" block = Some (VString (hex_u64 n)) ∧
    (0 < n → get "parentHash" block = Some (VString (block_hash (n - 1)))) ∧
    get "timestamp" block = Some (VString (hex_u64 (default (started_at_unix_s (info st)) (block_timestamps (ledger st) !! n)))) ∧
    get "transactions" block = Some (if full
      then arr (λ tx, tx_to_json tx (chain_id (info st))) (omap (λ h, txs (ledger st) !! h) hashes)
      else arr VString hashes).
Proof.
  intros Hn Hh. cbv zeta.
  assert (Hnum : eth_getBlockByNumber st id (VArray [VString (hex_u64 n); VBool full]) =
    jsonrpc_response id (build_block_response st n full)).
  { unfold eth_getBlockByNumber. rewrite two_params. cbn [default from_option Datatypes.id].
    by rewrite block_by_tag_hex by (split; lia). }
  assert (Hhash : eth_getBlockByHash st id (VArray [VString (block_hash n); VBool full]) =
    jsonrpc_response id (build_block_response st n full)).
  { unfold eth_getBlockByHash. rewrite two_params. cbn [default from_option Datatypes.id].
    rewrite block_number_from_block_hash by (split; lia). rewrite Z.min_l by lia.
    by destruct (Z.leb_spec n (current_height st)); [|lia]. }
  split; [congruence|]. exists (build_block_response st n full). split; [exact Hnum|].
  unfold build_block_response. set (ts := default (started_at_unix_s (info st)) _).
  set (payload := if full then _ else _). cbn [get].
  split_and!.
  - done.
  - done.
  - intros Hpos. change (Some (VString (if n =? 0 then str "0x0000000000000000000000000000000000000000000000000000000000000000"
      else block_hash (u64_saturating_sub n 1))) = Some (VString (block_hash (n - 1)))).
    destruct (Z.eqb_spec n 0); [lia|]. by rewrite u64_saturating_sub_small by lia.
  - done.
  - done.
Qed.

(** ** Rejected transactions *)

(** Nothing is left in the accounts. *)
Definition no_accounts (st : NodeState) : Prop := ∀ a,
  account_balance_from_db (evm_db (ledger st)) a = 0 ∧ account_nonce_from_db (evm_db (ledger st)) a = 0.
(** C22: A transaction or call that revm refuses empties the daemon's accounts: the database
    was taken out of the state and is not put back, so every balance and nonce is zero
    afterwards.  Nothing else of the ledger changes. *)
Theorem refused_execution_erases_accounts (st : NodeState) (caller : Address) (decoded : DecodedRawTx)
    (commit : bool) (number timestamp : Z) (e : Str) :
  (execute_evm_transaction st caller decoded commit number timestamp).2 = Err e →
  let st' := (execute_evm_transaction st caller decoded commit number timestamp).1 in
  no_accounts st' ∧ st' = with_ledger (with_evm_db InMemoryDB_default (ledger st)) st.
Proof.
  intros He. cbv zeta. rewrite (execute_evm_err _ _ _ _ _ _ _ He). split; [|done].
  intros a. split; [apply balance_default|apply nonce_default].
Qed.
End chain.
