(* ===== verification/DaemonRpc.v ===== *)
(** * The JSON-RPC server of the daemon ([eth2077-node/src/bin/eth2077-devnetd.rs])

    The dispatch on the method name, batches and notifications, and what a request does to
    the state.  A [Clock] holds what the calls of [now_unix_s] return while one request is
    handled, in order.  A panic ends the daemon: requests are served on its main thread. *)
From S2P Require Import Prelude Canonical Floats Strings Json DaemonHex DaemonState RawTx DaemonEvm Epbs EpbsViews Focil Ledger Market ChainQueries.
Local Open Scope Z_scope.

Section rpc.
Context `{HO : HashOrder} `{SH : StdHasher} `{HC : HexCrate} `{RU : Ruint} `{AL : Alloy} `{RL : RlpCrate}
  `{JT : JsonText} `{ET : EvmTypes} `{DE : !DaemonEvm}.

(** The readings of the clock while one request is handled. *)
Record Clock := { now1 : Z; now2 : Z; now3 : Z }.

(* eth2077-node/src/bin/eth2077-devnetd.rs:3865-3877 handle_jsonrpc *)
Definition rpc_modules : Value := obj
  ["eth" ⟼ text "1.0"; "net" ⟼ text "1.0"; "web3" ⟼ text "1.0"; "debug" ⟼ text "1.0"; "trace" ⟼ text "1.0";
   "eth2077" ⟼ text "1.0"; "hardhat" ⟼ text "1.0"; "anvil" ⟼ text "1.0"].
(** [jsonrpc_response] around the answer of an engine method. *)
Definition respond (id : Value) (r : outcome (NodeState * Value)) : outcome (NodeState * Value) :=
  '(st, answer) ← r; mret (st, jsonrpc_response id answer).
Definition reads (st : NodeState) (answer : Value) : outcome (NodeState * Value) := mret (st, answer).

(** An arm of [match method]. *)
Definition named (method : Str) (name : string) : bool := str_eqb method (str name).

(* eth2077-node/src/bin/eth2077-devnetd.rs:3335-3385 handle_jsonrpc *)
Definition engine_methods (clock : Clock) (method : Str) (st : NodeState) (req id : Value)
  : option (outcome (NodeState * Value)) :=
  let now := now2 clock in
  let view answer := respond id (mret (st, answer)) in
  if named method "engine_getInclusionListV1" then
    Some (respond id (mret (engine_get_inclusion_list_response st req))) else
  if named method "engine_forkchoiceUpdatedV3" then
    Some (respond id (engine_forkchoice_updated_response now (now3 clock) st req)) else
  if named method "engine_newPayloadV3" then Some (respond id (engine_new_payload_response now st req)) else
  if named method "engine_registerExecutionPayloadHeaderV1" then
    Some (respond id (engine_7732_register_payload_header_response now st req)) else
  if named method "engine_registerExecutionPayloadEnvelopeV1" then
    Some (respond id (mret (engine_7732_register_payload_envelope_response now st req))) else
  if named method "engine_getPayloadTimelinessV1" then
    Some (view (engine_7732_get_payload_timeliness_response now st req)) else
  if named method "engine_getPayloadTimelinessByRangeV1" then
    Some (view (engine_7732_get_payload_timeliness_by_range_response now st req)) else
  if named method "engine_getPayloadPenaltyV1" then
    Some (view (engine_7732_get_payload_penalty_response now st req)) else
  if named method "engine_getPayloadPenaltiesByRangeV1" then
    Some (view (engine_7732_get_payload_penalties_by_range_response now st req)) else
  if named method "engine_getExecutionPayloadHeaderV1" then
    Some (view (engine_7732_get_payload_header_response st req)) else
  if named method "engine_getExecutionPayloadHeadersBySlotV1" then
    Some (view (engine_7732_get_payload_headers_by_slot_response st req)) else
  if named method "engine_getExecutionPayloadHeadersByRangeV1" then
    Some (view (engine_7732_get_payload_headers_by_range_response st req)) else
  if named method "engine_getExecutionPayloadEnvelopeV1" then
    Some (view (engine_7732_get_payload_envelope_response st req)) else
  if named method "engine_getExecutionPayloadEnvelopesBySlotV1" then
    Some (view (engine_7732_get_payload_envelopes_by_slot_response st req)) else
  if named method "engine_getExecutionPayloadEnvelopesByRangeV1" then
    Some (view (engine_7732_get_payload_envelopes_by_range_response st req)) else
  None.
(* eth2077-node/src/bin/eth2077-devnetd.rs:2832-3334 handle_jsonrpc *)
Definition eth_methods (method : Str) (st : NodeState) (id params : Value)
  : option (outcome (NodeState * Value)) :=
  let ok v := reads st (jsonrpc_response id v) in
  let trace := ok (obj ["gas" ⟼ text "0x0"; "returnValue" ⟼ text "0x"; "structLogs" ⟼ VArray []]) in
  if named method "web3_clientVersion" then Some (ok (text "ETH2077/devnetd/0.1")) else
  if named method "net_version" then Some (ok (VString (decimal (chain_id (info st))))) else
  if named method "net_listening" then Some (ok (VBool true)) else
  if named method "eth_chainId" then Some (ok (VString (hex_u64 (chain_id (info st))))) else
  if named method "eth_mining" then Some (ok (VBool true)) else
  if named method "eth_syncing" then Some (ok (VBool false)) else
  if named method "eth_blockNumber" then Some (ok (VString (hex_u64 (current_height st)))) else
  if named method "eth_getBlockByNumber" then Some (reads st (eth_getBlockByNumber st id params)) else
  if named method "eth_getBlockByHash" then Some (reads st (eth_getBlockByHash st id params)) else
  if named method "eth_getLogs" then Some (reads st (eth_getLogs st id params)) else
  if named method "trace_block" || named method "trace_filter" || named method "eth_accounts" then
    Some (ok (VArray [])) else
  if named method "trace_transaction" || named method "debug_traceTransaction" then Some trace else
  if named method "eth_gasPrice" then Some (ok (text "0x3b9aca00")) else
  if named method "eth_maxPriorityFeePerGas" then Some (ok (text "0x59682f00")) else
  if named method "eth_blobBaseFee" then Some (ok (VString (hex_u128 blob_base_fee_per_gas))) else
  if named method "eth_estimateGas" then Some (eth_estimateGas st id params) else
  if named method "eth_call" then Some (eth_call st id params) else
  if named method "eth_getBalance" then Some (reads st (eth_getBalance st id params)) else
  if named method "eth_getTransactionCount" then Some (mret (eth_getTransactionCount st id params)) else
  if named method "eth_getCode" then Some (reads st (eth_getCode st id params)) else
  if named method "eth_getStorageAt" then Some (answer ← eth_getStorageAt st id params; reads st answer) else
  if named method "eth_getTransactionByHash" then Some (reads st (eth_getTransactionByHash st id params)) else
  if named method "eth_getTransactionReceipt" then Some (reads st (eth_getTransactionReceipt st id params)) else
  if named method "eth_getBlockTransactionCountByNumber" then
    Some (reads st (eth_getBlockTransactionCountByNumber st id params)) else
  if named method "eth_getBlockTransactionCountByHash" then
    Some (reads st (eth_getBlockTransactionCountByHash st id params)) else
  if named method "eth_getUncleCountByBlockNumber" then Some (ok (text "0x0")) else
  if named method "eth_getUncleCountByBlockHash" then Some (ok (text "0x0")) else
  if named method "eth_getBlockReceipts" then Some (reads st (eth_getBlockReceipts st id params)) else
  if named method "net_peerCount" then Some (ok (VString (hex_u64 (peers_connected (info st))))) else
  if named method "txpool_content" then Some (ok (obj ["pending" ⟼ obj []; "queued" ⟼ obj []])) else
  if named method "eth_feeHistory" then Some (reads st (eth_feeHistory st id)) else
  None.
(* eth2077-node/src/bin/eth2077-devnetd.rs:3386-3877 handle_jsonrpc *)
Definition node_methods (now : Z) (method : Str) (st : NodeState) (id params : Value)
  : option (outcome (NodeState * Value)) :=
  let ok v := reads st (jsonrpc_response id v) in
  if named method "eth_sendRawTransaction" then Some (eth_sendRawTransaction st id params) else
  if named method "hardhat_setBalance" || named method "anvil_setBalance" || named method "eth2077_setBalance" then
    Some (eth2077_setBalance st id params) else
  if named method "eth2077_status" then Some (ok (eth2077_status_json st now)) else
  if named method "eth2077_marketList" then Some (ok (market_nft_list_json st)) else
  if named method "eth2077_marketByOwner" then Some (reads st (eth2077_marketByOwner st id params)) else
  if named method "eth2077_marketMint" then Some (mret (eth2077_marketMint now st id params)) else
  if named method "eth2077_marketBuy" then Some (mret (eth2077_marketBuy now st id params)) else
  if named method "eth2077_marketTransfer" then Some (mret (eth2077_marketTransfer st id params)) else
  if named method "eth2077_marketRelist" then Some (mret (eth2077_marketRelist st id params)) else
  if named method "eth2077_marketReceipt" then Some (reads st (eth2077_marketReceipt st id params)) else
  if named method "eth2077_marketMode" then Some (ok market_mode) else
  if named method "rpc_modules" then Some (ok rpc_modules) else
  None.
(* eth2077-node/src/bin/eth2077-devnetd.rs:2822-3880 handle_jsonrpc *)
Definition handle_jsonrpc (clock : Clock) (st : NodeState) (req : Value) : outcome (NodeState * Value) :=
  let id := default VNull (get "id" req) in
  let method := default [] (get "method" req ≫= as_str) in
  let params := default (VArray []) (get "params" req) in
  match eth_methods method st id params with
  | Some answer => answer
  | None =>
      match engine_methods clock method st req id with
      | Some answer => answer
      | None =>
          default (reads st (jsonrpc_error id (-32601) (str "method not found: " ++ method)))
            (node_methods (now1 clock) method st id params)
      end
  end.

(** ** Payloads *)

Definition invalid_request : Value := jsonrpc_error VNull (-32600) (str "invalid request").
Definition has_id (req : Value) : bool := bool_decide (is_Some (get "id" req)).
(** The requests of a batch, one after the other, with the readings of the clock for each. *)
(* eth2077-node/src/bin/eth2077-devnetd.rs:3887-3898 handle_jsonrpc_payload *)
Fixpoint handle_batch (st : NodeState) (batch : list (Clock * Value)) : outcome (NodeState * list Value) :=
  match batch with
  | [] => mret (st, [])
  | (clock, req) :: batch =>
      if negb (is_object req) then
        '(st, responses) ← handle_batch st batch; mret (st, invalid_request :: responses)
      else
        '(st, resp) ← handle_jsonrpc clock st req;
        '(st, responses) ← handle_batch st batch;
        mret (st, if has_id req then resp :: responses else responses)
  end.
(* eth2077-node/src/bin/eth2077-devnetd.rs:3882-3915 handle_jsonrpc_payload *)
Definition handle_jsonrpc_payload (clocks : nat → Clock) (st : NodeState) (payload : Value)
  : outcome (NodeState * option Value) :=
  match payload with
  | VArray [] => mret (st, Some invalid_request)
  | VArray batch =>
      '(st, responses) ← handle_batch st (imap (λ i req, (clocks i, req)) batch);
      mret (st, if bool_decide (responses = []) then None else Some (VArray responses))
  | VObject _ =>
      '(st, resp) ← handle_jsonrpc (clocks 0%nat) st payload;
      mret (st, if has_id payload then Some resp else None)
  | _ => mret (st, Some invalid_request)
  end.

End rpc.

(** ** What a request does

    The dispatch taken apart once: a request reads, or runs one of the methods that change
    the state.  Every answer carries the request's id, and a batch is answered in order,
    notifications left out. *)

Section cases.
Context `{HO : HashOrder} `{SH : StdHasher} `{HC : HexCrate} `{RU : Ruint} `{AL : Alloy} `{RL : RlpCrate}
  `{JT : JsonText} `{ET : EvmTypes} `{DE : !DaemonEvm}.

Definition req_id (req : Value) : Value := default VNull (get "id" req).
Definition req_method (req : Value) : Str := default [] (get "method" req ≫= as_str).
Definition req_params (req : Value) : Value := default (VArray []) (get "params" req).

(** A result or an error, with the id. *)
Inductive answers_to (id : Value) : Value → Prop :=
  | answers_result v : answers_to id (jsonrpc_response id v)
  | answers_error code message : answers_to id (jsonrpc_error id code message).
Hint Constructors answers_to : core.

(** What an engine method answers with, before [jsonrpc_response]. *)
Inductive engine_case (clock : Clock) (st : NodeState) (req : Value) : outcome (NodeState * Value) → Prop :=
  | engine_view answer : engine_case clock st req (mret (st, answer))
  | engine_list : engine_case clock st req (mret (engine_get_inclusion_list_response st req))
  | engine_forkchoice : engine_case clock st req
      (engine_forkchoice_updated_response (now2 clock) (now3 clock) st req)
  | engine_payload : engine_case clock st req (engine_new_payload_response (now2 clock) st req)
  | engine_header : engine_case clock st req (engine_7732_register_payload_header_response (now2 clock) st req)
  | engine_envelope : engine_case clock st req
      (mret (engine_7732_register_payload_envelope_response (now2 clock) st req)).
(** What a request comes to. *)
Inductive handled (clock : Clock) (st : NodeState) (req : Value) : outcome (NodeState * Value) → Prop :=
  | handled_read v : answers_to (req_id req) v → handled clock st req (reads st v)
  | handled_storage : handled clock st req
      (answer ← eth_getStorageAt st (req_id req) (req_params req); reads st answer)
  | handled_estimate : handled clock st req (eth_estimateGas st (req_id req) (req_params req))
  | handled_call : handled clock st req (eth_call st (req_id req) (req_params req))
  | handled_count : handled clock st req (mret (eth_getTransactionCount st (req_id req) (req_params req)))
  | handled_engine r : engine_case clock st req r → handled clock st req (respond (req_id req) r)
  | handled_send : handled clock st req (eth_sendRawTransaction st (req_id req) (req_params req))
  | handled_balance : handled clock st req (eth2077_setBalance st (req_id req) (req_params req))
  | handled_mint : named (req_method req) "eth2077_marketMint" = true →
      handled clock st req (mret (eth2077_marketMint (now1 clock) st (req_id req) (req_params req)))
  | handled_buy : named (req_method req) "eth2077_marketBuy" = true →
      handled clock st req (mret (eth2077_marketBuy (now1 clock) st (req_id req) (req_params req)))
  | handled_transfer : named (req_method req) "eth2077_marketTransfer" = true →
      handled clock st req (mret (eth2077_marketTransfer st (req_id req) (req_params req)))
  | handled_relist : named (req_method req) "eth2077_marketRelist" = true →
      handled clock st req (mret (eth2077_marketRelist st (req_id req) (req_params req))).
Hint Constructors engine_case handled : core.

(** The reading methods answer. *)
Lemma get_logs_answers st id params : answers_to id (eth_getLogs st id params).
Proof. unfold eth_getLogs. repeat case_match; auto. Qed.
Lemma market_by_owner_answers st id params : answers_to id (eth2077_marketByOwner st id params).
Proof. unfold eth2077_marketByOwner. case_match; auto. Qed.
Lemma market_receipt_answers st id params : answers_to id (eth2077_marketReceipt st id params).
Proof. unfold eth2077_marketReceipt. case_match; auto. Qed.
Hint Resolve get_logs_answers market_by_owner_answers market_receipt_answers : core.

Lemma handle_jsonrpc_handled clock st req : handled clock st req (handle_jsonrpc clock st req).
Proof.
  unfold handle_jsonrpc. fold (req_id req) (req_method req) (req_params req).
  destruct (eth_methods (req_method req) st (req_id req) (req_params req)) as [r|] eqn:He.
  { revert He. unfold eth_methods.
    repeat (case_match; [intros <-%(inj Some); first [apply handled_read; auto; constructor|by auto]|]). done. }
  destruct (engine_methods clock (req_method req) st req (req_id req)) as [r|] eqn:He'.
  { revert He'. unfold engine_methods.
    repeat (case_match; [intros <-%(inj Some); apply handled_engine; by auto|]). done. }
  destruct (node_methods (now1 clock) (req_method req) st (req_id req) (req_params req)) as [r|] eqn:Hn;
    [|by apply handled_read].
  change (handled clock st req r). revert Hn. unfold node_methods.
  repeat (case_match; [intros <-%(inj Some); first [apply handled_read; by auto|by auto]|]). done.
Qed.

(** ** Answers *)

Lemma handled_answers clock st req r st' a : handled clock st req r → r = Done (st', a) → answers_to (req_id req) a.
Proof.
  destruct 1 as [v Hv| | | | |r Hr| | |Hn|Hn|Hn|Hn]; unfold reads, mret, outcome_ret.
  - by intros [= <- <-].
  - unfold eth_getStorageAt, mret, outcome_ret.
    intros (v & (slot & _ & [= <-])%outcome_bind_done & [= <- <-])%outcome_bind_done. auto.
  - unfold eth_estimateGas, no_call_object, mret, outcome_ret. case_match; [|intros [= <- <-]; auto].
    intros (d & _ & Hd)%outcome_bind_done. repeat case_match; simplify_eq; auto.
  - unfold eth_call, no_call_object, mret, outcome_ret. case_match; [|intros [= <- <-]; auto].
    intros (d & _ & Hd)%outcome_bind_done. repeat case_match; simplify_eq; auto.
  - intros [= <- <-]. auto.
  - intros ([st1 a1] & _ & [= <- <-])%outcome_bind_done. auto.
  - unfold eth_sendRawTransaction, mret, outcome_ret. intros (d & _ & Hd)%outcome_bind_done.
    repeat case_match; simplify_eq; auto.
  - unfold eth2077_setBalance, mret, outcome_ret. intros (d & _ & Hd)%outcome_bind_done.
    repeat case_match; simplify_eq; auto.
  - unfold eth2077_marketMint. case_match; intros [= <- <-]; auto.
  - unfold eth2077_marketBuy. repeat case_match; intros; simplify_eq; auto.
  - unfold eth2077_marketTransfer. repeat case_match; intros; simplify_eq; auto.
  - unfold eth2077_marketRelist. repeat case_match; intros; simplify_eq; auto.
Qed.

(** The id a request of a batch is answered with; [None] for a notification. *)
Definition answered_id (req : Value) : option Value := if is_object req then get "id" req else Some VNull.
Lemma handle_batch_answers st batch st' responses :
  handle_batch st batch = Done (st', responses) → Forall2 answers_to (omap answered_id batch.*2) responses.
Proof.
  revert st responses. induction batch as [|[clock req] batch IH]; intros st responses; cbn [handle_batch].
  { intros [= <- <-]. constructor. }
  cbn [fmap list_fmap omap list_omap snd]. unfold answered_id at 1. destruct (is_object req); cbn [negb].
  - intros ([st1 a1] & Hr & ([st2 rs] & Hb & [= <- <-])%outcome_bind_done)%outcome_bind_done.
    apply IH in Hb. pose proof (handled_answers _ _ _ _ _ _ (handle_jsonrpc_handled clock st req) Hr) as Ha.
    unfold req_id, has_id in *. destruct (get "id" req) as [v|]; cbn [omap list_omap].
    + rewrite bool_decide_true by by eexists. by constructor.
    + by rewrite bool_decide_false by (intros [? ?]; done).
  - intros ([st1 rs] & Hb & [= <- <-])%outcome_bind_done. apply IH in Hb. constructor; [constructor|done].
Qed.
Lemma imap_pair_snd {A B} (f : nat → B) (l : list A) : (imap (λ i x, (f i, x)) l).*2 = l.
Proof. revert f. induction l as [|x l IH]; intros f; cbn; [done|]. f_equal. apply (IH (f ∘ S)). Qed.

(** C18: A payload that is handled is answered as JSON-RPC asks: a request with an id by one
    answer with that id; a notification not at all; a batch by the answers of its requests
    in order, leaving out notifications, and not at all if nothing is left; anything that
    is not a request, and an empty batch, by an error with the id [null]. *)
Theorem payload_answers (clocks : nat → Clock) (st st' : NodeState) (payload : Value) (answer : option Value) :
  handle_jsonrpc_payload clocks st payload = Done (st', answer) →
  match payload with
  | VObject _ =>
      match get "id" payload with
      | Some id => ∃ a, answer = Some a ∧ answers_to id a
      | None => answer = None
      end
  | VArray (req :: batch) => ∃ responses,
      Forall2 answers_to (omap answered_id (req :: batch)) responses ∧
      answer = if bool_decide (responses = []) then None else Some (VArray responses)
  | _ => ∃ a, answer = Some a ∧ answers_to VNull a
  end.
Proof.
  unfold handle_jsonrpc_payload, mret, outcome_ret.
  destruct payload as [|b|n|s|[|v batch]|entries]; try by (intros [= <- <-]; eexists; split; [done|constructor]).
  - intros ([st1 responses] & Hb & [= <- <-])%outcome_bind_done. apply handle_batch_answers in Hb.
    rewrite (imap_pair_snd clocks) in Hb. by exists responses.
  - intros ([st1 a1] & Hr & [= <- <-])%outcome_bind_done.
    pose proof (handled_answers _ _ _ _ _ _ (handle_jsonrpc_handled _ st _) Hr) as Ha.
    unfold req_id, has_id in *. destruct (get "id" (VObject entries)) as [v|].
    + rewrite bool_decide_true by by eexists. eauto.
    + by rewrite bool_decide_false by (intros [? ?]; done).
Qed.
End cases.
