(* ===== verification/Http.v ===== *)
(** * HTTP requests of the daemon ([eth2077-node/src/bin/eth2077-devnetd.rs])

    Reading a request from the chunks a socket yields, extracting its body, and the routes.
    [serde_json::from_str] is the class [JsonParse]; the socket is the list of the chunks
    that [read] returns. *)
From S2P Require Import Prelude Canonical Floats Strings Json DaemonHex DaemonState RawTx DaemonEvm Epbs EpbsViews Focil Ledger Market ChainQueries DaemonRpc.
Local Open Scope Z_scope.

Class JsonParse := json_from_str : Str → option Value.

(** ** [String::from_utf8_lossy] *)

Definition replacement : Str := [239; 191; 189].
Definition between (lo hi b : Z) : bool := (lo <=? b) && (b <=? hi).
Definition continuation (b : Z) : bool := between 128 191 b.
(** The second bytes a first byte allows, for sequences of three and of four bytes. *)
Definition second_of_three (b c : Z) : bool :=
  if b =? 224 then between 160 191 c else if b =? 237 then between 128 159 c else continuation c.
Definition second_of_four (b c : Z) : bool :=
  if b =? 240 then between 144 191 c else if b =? 244 then between 128 143 c else continuation c.
(** Each maximal part of an ill-formed sequence becomes one U+FFFD. *)
Fixpoint from_utf8_lossy (l : list Z) : Str :=
  match l with
  | [] => []
  | b :: l1 =>
      if b <? 128 then b :: from_utf8_lossy l1 else
      if between 194 223 b then
        match l1 with
        | c :: l2 => if continuation c then b :: c :: from_utf8_lossy l2 else replacement ++ from_utf8_lossy l1
        | [] => replacement
        end
      else if between 224 239 b then
        match l1 with
        | c :: l2 => if second_of_three b c then
            match l2 with
            | d :: l3 => if continuation d then b :: c :: d :: from_utf8_lossy l3
                         else replacement ++ from_utf8_lossy l2
            | [] => replacement
            end else replacement ++ from_utf8_lossy l1
        | [] => replacement
        end
      else if between 240 244 b then
        match l1 with
        | c :: l2 => if second_of_four b c then
            match l2 with
            | d :: l3 => if continuation d then
                match l3 with
                | e :: l4 => if continuation e then b :: c :: d :: e :: from_utf8_lossy l4
                             else replacement ++ from_utf8_lossy l3
                | [] => replacement
                end else replacement ++ from_utf8_lossy l2
            | [] => replacement
            end else replacement ++ from_utf8_lossy l1
        | [] => replacement
        end
      else replacement ++ from_utf8_lossy l1
  end.
Lemma from_utf8_lossy_ascii l : Forall (λ b, 0 <= b < 128) l → from_utf8_lossy l = l.
Proof.
  induction 1 as [|b l Hb _ IH]; cbn [from_utf8_lossy]; [done|].
  destruct (Z.ltb_spec b 128); [|lia]. by rewrite IH.
Qed.

(** ** Reading a request *)

(** The first position at or after the current one, [i], where [needle] is. *)
Fixpoint find_at (needle haystack : list Z) (i : Z) : option Z :=
  if bool_decide (needle = take (length needle) haystack) then Some i else
  match haystack with [] => None | _ :: haystack => find_at needle haystack (i + 1) end.
(* eth2077-node/src/bin/eth2077-devnetd.rs:307-312 find_subslice *)
Definition find_subslice (haystack needle : list Z) : option Z :=
  if bool_decide (needle = []) || (len haystack <? len needle) then None
  else find_at needle haystack 0.

(** [str::lines] *)
Fixpoint split_lines (s line : Str) : list Str :=
  match s with
  | [] => if bool_decide (line = []) then [] else [reverse line]
  | b :: s => if b =? 10 then
      match line with
      | 13 :: line => reverse line :: split_lines s []
      | _ => reverse line :: split_lines s []
      end
    else split_lines s (b :: line)
  end.
Definition lines (s : Str) : list Str := split_lines s [].
(** What follows the first colon. *)
Fixpoint after_colon (s : Str) : option Str :=
  match s with [] => None | b :: s => if b =? 58 then Some s else after_colon s end.
Definition starts_with (p s : Str) : bool := match strip_prefix p s with Some _ => true | None => false end.
(* eth2077-node/src/bin/eth2077-devnetd.rs:4152-4162 main *)
Fixpoint content_length_of (header : list Str) : option Z :=
  match header with
  | [] => None
  | line :: header =>
      if starts_with (str "content-length:") (to_ascii_lowercase line)
      then after_colon line ≫= λ rhs, parse_decimal u64_max (trim rhs)
      else content_length_of header
  end.
Record HttpRequest := MkRequest {
  req_bytes : list Z;
  header_end : option Z;
  content_length : option Z;
}.
(* eth2077-node/src/bin/eth2077-devnetd.rs:4146-4164 main *)
Definition receive (r : HttpRequest) (chunk : list Z) : HttpRequest :=
  let bytes := req_bytes r ++ chunk in
  match header_end r with
  | Some _ => MkRequest bytes (header_end r) (content_length r)
  | None =>
      match (λ i, i + 4) <$> find_subslice bytes [13; 10; 13; 10] with
      | Some h_end => MkRequest bytes (Some h_end)
          (content_length_of (lines (from_utf8_lossy (take (Z.to_nat h_end) bytes))))
      | None => MkRequest bytes None (content_length r)
      end
  end.
(** Enough has arrived, or too much. *)
(* eth2077-node/src/bin/eth2077-devnetd.rs:4166-4175 main *)
Definition received_all (r : HttpRequest) : bool :=
  match header_end r with
  | Some h_end => u64_wrapping_add h_end (default 0 (content_length r)) <=? len (req_bytes r)
  | None => false
  end || (2 * 1024 * 1024 <? len (req_bytes r)).
(** The chunks until [read] returns nothing; at the end of the list it does. *)
(* eth2077-node/src/bin/eth2077-devnetd.rs:4140-4176 main *)
Fixpoint read_request (r : HttpRequest) (chunks : list (list Z)) : HttpRequest :=
  match chunks with
  | [] | [] :: _ => r
  | chunk :: chunks =>
      let r := receive r chunk in
      if received_all r then r else read_request r chunks
  end.
Definition no_request : HttpRequest := MkRequest [] None None.

(** The additions of [usize]s wrap (or panic, in a debug build); a slice that ends before
    it starts panics. *)
(* eth2077-node/src/bin/eth2077-devnetd.rs:314-331 request_body_from_http *)
Definition request_body_from_http (r : HttpRequest) : outcome Str :=
  match header_end r with
  | None => mret []
  | Some h_end =>
      let body_end := u64_wrapping_add h_end (default 0 (content_length r)) in
      if body_end <=? len (req_bytes r) then
        if body_end <? h_end then Panics
        else mret (from_utf8_lossy (take (Z.to_nat (body_end - h_end)) (drop (Z.to_nat h_end) (req_bytes r))))
      else if h_end <=? len (req_bytes r) then mret (from_utf8_lossy (drop (Z.to_nat h_end) (req_bytes r)))
      else mret []
  end.

(** ** A request in pieces *)

Definition occurs (needle s : list Z) (k : nat) : Prop := take (length needle) (drop k s) = needle.
Lemma find_at_some needle s i j : find_at needle s i = Some j →
  ∃ k, j = i + Z.of_nat k ∧ occurs needle s k ∧ ∀ k', (k' < k)%nat → ¬ occurs needle s k'.
Proof.
  unfold occurs. revert i. induction s as [|b s IH]; intros i; cbn [find_at]; case_bool_decide as Hn; try done.
  1, 2: intros [= <-]; exists 0%nat; split; [lia|]; split; [by rewrite drop_0|lia].
  intros (k & -> & Hk & Hmin)%IH. exists (S k). split; [lia|]. split; [done|].
  intros [|k'] Hlt; rewrite ?drop_0; [by intros He|]. apply Hmin. lia.
Qed.
Lemma find_at_first needle s i k : occurs needle s k → (∀ k', (k' < k)%nat → ¬ occurs needle s k') →
  (k <= length s)%nat → find_at needle s i = Some (i + Z.of_nat k).
Proof.
  unfold occurs. revert i k. induction s as [|b s IH]; intros i k Hk Hmin Hlen; cbn [find_at]; case_bool_decide as Hn.
  1, 3: destruct k as [|k]; [by rewrite Z.add_0_r|]; exfalso; apply (Hmin 0%nat); [lia|by rewrite drop_0].
  - assert (k = 0%nat) as -> by (simpl in Hlen; lia). by rewrite drop_0 in Hk.
  - destruct k as [|k]; [by rewrite drop_0 in Hk|]. rewrite (IH (i + 1) k); [|done| |simpl in Hlen; lia].
    { replace (i + 1 + Z.of_nat k) with (i + Z.of_nat (S k)) by lia. done. }
    intros k' Hlt. apply (Hmin (S k')). lia.
Qed.
(** An occurrence is one in any longer string, and in any prefix that covers it. *)
Lemma occurs_app needle s t k : (k + length needle <= length s)%nat →
  occurs needle (s ++ t) k ↔ occurs needle s k.
Proof.
  intros Hlen. unfold occurs. rewrite drop_app_le by lia.
  rewrite take_app_le; [done|]. rewrite length_drop. lia.
Qed.
Lemma occurs_length needle s k : needle ≠ [] → occurs needle s k → (k + length needle <= length s)%nat.
Proof.
  intros Hne Ho. apply (f_equal length) in Ho. rewrite length_take, length_drop in Ho.
  assert (0 < length needle)%nat by (destruct needle; [done|simpl; lia]). lia.
Qed.
Lemma find_subslice_first needle s t k :
  needle ≠ [] → find_subslice s needle = Some k → find_subslice (s ++ t) needle = Some k.
Proof.
  unfold find_subslice. intros Hne. rewrite (bool_decide_false _ Hne). cbn [orb].
  destruct (Z.ltb_spec (len s) (len needle)); [done|]. intros (n & -> & Ho & Hmin)%find_at_some.
  pose proof (occurs_length _ _ _ Hne Ho) as Hlen.
  destruct (Z.ltb_spec (len (s ++ t)) (len needle)); [unfold len in *; rewrite length_app in *; lia|].
  apply (find_at_first _ _ 0 n).
  - by apply occurs_app.
  - intros k' Hlt Hk'. apply (Hmin k' Hlt). apply occurs_app in Hk'; [done|lia].
  - rewrite length_app. lia.
Qed.
Lemma find_subslice_before needle s t : needle ≠ [] → t ≠ [] →
  find_subslice (s ++ t) needle = Some (len (s ++ t) - len needle) → find_subslice s needle = None.
Proof.
  intros Hne Ht Hst. destruct (find_subslice s needle) as [k|] eqn:Hs; [exfalso|done].
  pose proof (find_subslice_first _ _ t _ Hne Hs) as Hst'. rewrite Hst in Hst'. injection Hst' as Hk.
  revert Hs. unfold find_subslice. rewrite (bool_decide_false _ Hne). cbn [orb].
  destruct (Z.ltb_spec (len s) (len needle)); [done|]. intros (n & -> & Ho & _)%find_at_some.
  apply occurs_length in Ho; [|done]. unfold len in *. rewrite length_app in Hk.
  assert (0 < length t)%nat by (destruct t; [done|simpl; lia]). lia.
Qed.

Section pieces.
Context (head body : list Z).
Hypothesis Hend : find_subslice head [13; 10; 13; 10] = Some (len head - 4).
Hypothesis Hlength : default 0 (content_length_of (lines (from_utf8_lossy head))) = len body.
Hypothesis Hsmall : len head + len body <= 2 * 1024 * 1024.

(** What has been read after the bytes [p]. *)
Definition after (p : list Z) : HttpRequest :=
  if len head <=? len p then MkRequest p (Some (len head)) (content_length_of (lines (from_utf8_lossy head)))
  else MkRequest p None None.
Lemma receive_after p chunk rest : p ++ chunk ++ rest = head ++ body → chunk ≠ [] →
  receive (after p) chunk = after (p ++ chunk).
Proof.
  intros Hall Hne. unfold receive, after.
  assert (Hlen : len (p ++ chunk) = len p + len chunk) by (unfold len; rewrite length_app; lia).
  destruct (Z.leb_spec (len head) (len p)) as [Hp|Hp]; cbn [header_end req_bytes content_length].
  { destruct (Z.leb_spec (len head) (len (p ++ chunk))); [done|unfold len in *; lia]. }
  rewrite app_assoc in Hall. unfold len in *.
  destruct (Z.leb_spec (Z.of_nat (length head)) (Z.of_nat (length (p ++ chunk)))) as [Hpc|Hpc].
  - assert (∃ u, p ++ chunk = head ++ u) as [u Hu].
    { exists (drop (length head) (p ++ chunk)). rewrite <- (take_drop (length head) (p ++ chunk)) at 1. f_equal.
      rewrite <- (take_app_le (p ++ chunk) rest) by lia. rewrite Hall. by rewrite take_app_length. }
    rewrite Hu, (find_subslice_first [13; 10; 13; 10] head u _ ltac:(done) Hend). cbn [fmap option_fmap option_map].
    unfold len. replace (Z.of_nat (length head) - 4 + 4) with (Z.of_nat (length head)) by lia.
    by rewrite Nat2Z.id, take_app_length.
  - assert (∃ u, head = (p ++ chunk) ++ u ∧ u ≠ []) as (u & Hu & Hne').
    { exists (drop (length (p ++ chunk)) head). split.
      - rewrite <- (take_drop (length (p ++ chunk)) head) at 1. f_equal.
        rewrite <- (take_app_le head body) by lia. rewrite <- Hall. by rewrite take_app_length.
      - intros Hd. apply (f_equal length) in Hd. rewrite length_drop in Hd. simpl in Hd. lia. }
    rewrite (find_subslice_before _ _ u); [done|done|done|]. rewrite <- Hu. exact Hend.
Qed.
Lemma received_all_after p rest : p ++ rest = head ++ body → received_all (after p) = bool_decide (rest = []).
Proof.
  intros Hall. apply (f_equal len) in Hall. unfold len in *. rewrite !length_app in Hall.
  unfold received_all, after, u64_wrapping_add, len.
  destruct (Z.leb_spec (Z.of_nat (length head)) (Z.of_nat (length p))) as [Hp|Hp];
    cbn [header_end req_bytes content_length].
  - rewrite Hlength, Z.mod_small by (unfold len in *; lia).
    case_bool_decide as Hr; [subst rest; simpl in Hall|destruct rest; [done|simpl in Hall]];
      apply eq_true_iff_eq; bool_to_prop; unfold len in *; lia.
  - case_bool_decide as Hr; [subst rest; simpl in Hall; lia|]. apply Z.ltb_ge. lia.
Qed.
Lemma read_request_after p chunks : Forall (λ c, c ≠ []) chunks → p ++ concat chunks = head ++ body →
  chunks ≠ [] → read_request (after p) chunks = after (head ++ body).
Proof.
  intros Hne. revert p. induction Hne as [|c chunks Hc Hne IH]; intros p Hall Hchunks; [done|].
  cbn [concat] in Hall. destruct c as [|b c]; [done|]. cbn [read_request].
  rewrite (receive_after _ _ _ Hall) by done.
  rewrite (received_all_after _ (concat chunks)) by by rewrite <- app_assoc.
  case_bool_decide as Hr; [by rewrite <- Hall, Hr, app_nil_r|].
  apply IH; [by rewrite <- app_assoc|]. by intros ->.
Qed.
Lemma body_after : request_body_from_http (after (head ++ body)) = Done (from_utf8_lossy body).
Proof.
  assert (Hlen : len (head ++ body) = len head + len body) by (unfold len; rewrite length_app; lia).
  assert (0 <= len head ∧ 0 <= len body) by (unfold len; lia).
  unfold after. destruct (Z.leb_spec (len head) (len (head ++ body))); [|lia].
  unfold request_body_from_http, u64_wrapping_add. cbn [header_end req_bytes content_length].
  rewrite Hlength, Z.mod_small by (lia). rewrite Hlen.
  destruct (Z.leb_spec (len head + len body) (len head + len body)); [|lia].
  destruct (Z.ltb_spec (len head + len body) (len head)); [lia|].
  unfold len. rewrite Nat2Z.id, drop_app_length. do 2 f_equal. apply take_ge. lia.
Qed.
End pieces.

(** C19: However a request is cut into chunks, it is read whole and its body is found: the
    header ends at its first empty line and names the length of the body (none means an
    empty body), and both fit two megabytes. *)
Theorem request_read_whole (head body : list Z) (chunks : list (list Z)) :
  find_subslice head [13; 10; 13; 10] = Some (len head - 4) →
  default 0 (content_length_of (lines (from_utf8_lossy head))) = len body →
  len head + len body <= 2 * 1024 * 1024 →
  Forall (λ c, c ≠ []) chunks → concat chunks = head ++ body →
  let r := read_request no_request chunks in
  req_bytes r = head ++ body ∧ request_body_from_http r = Done (from_utf8_lossy body).
Proof.
  intros Hend Hlength Hsmall Hne Hall.
  assert (Hpos : 0 < len head).
  { destruct head; [done|]. unfold len. simpl. lia. }
  assert (Hstart : no_request = after head []).
  { unfold after. destruct (Z.leb_spec (len head) (len (A:=Z) [])); [unfold len in *; simpl in *; lia|done]. }
  cbv zeta. rewrite Hstart, (read_request_after head body Hend Hlength Hsmall) by
    (done || (intros ->; destruct head; [done|discriminate])).
  split; [|by apply body_after]. unfold after. by case_match.
Qed.
Definition example_head : list Z := str "POST / HTTP/1.1" ++ [13; 10] ++ str "Content-Length: 2" ++ [13; 10; 13; 10].
Lemma request_read_whole_witness :
  request_body_from_http (read_request no_request
    [take 20 example_head; drop 20 example_head ++ str "{"; str "}"]) = Done (str "{}").
Proof.
  refine (proj2 (request_read_whole example_head (str "{}") _ _ _ _ _ _)).
  - vm_compute. reflexivity.
  - vm_compute. reflexivity.
  - vm_compute. discriminate.
  - repeat constructor; vm_compute; discriminate.
  - vm_compute. reflexivity.
Defined.
(** A declared length that wraps the end of the body below its start ends the daemon. *)
Lemma content_length_overflow_panics :
  request_body_from_http (read_request no_request
    [str "POST / HTTP/1.1" ++ [13; 10] ++ str "Content-Length: 18446744073709551615" ++ [13; 10; 13; 10]]) = Panics.
Proof. vm_compute. reflexivity. Qed.

(** ** Routes *)

Section http.
Context `{HO : HashOrder} `{SH : StdHasher} `{HC : HexCrate} `{RU : Ruint} `{AL : Alloy} `{RL : RlpCrate}
  `{JT : JsonText} `{JP : JsonParse} `{ET : EvmTypes} `{DE : !DaemonEvm}.

Definition crlf : Str := [13; 10].
Definition cors_headers : Str := str "Access-Control-Allow-Origin: *" ++ crlf ++
  str "Access-Control-Allow-Methods: GET, POST, OPTIONS" ++ crlf ++
  str "Access-Control-Allow-Headers: Content-Type" ++ crlf ++ crlf.
(* eth2077-node/src/bin/eth2077-devnetd.rs:279-286 json_response *)
Definition json_response (status : string) (body : Value) : outcome Str :=
  match json_to_string body with
  | Err _ => Panics
  | Ok payload => mret (str "HTTP/1.1 " ++ str status ++ crlf ++ str "Content-Type: application/json" ++ crlf ++
      str "Content-Length: " ++ decimal (len payload) ++ crlf ++ str "Connection: close" ++ crlf ++
      cors_headers ++ payload)
  end.
(* eth2077-node/src/bin/eth2077-devnetd.rs:4182-4183 main *)
Definition no_content : Str := str "HTTP/1.1 204 No Content" ++ crlf ++ str "Connection: close" ++ crlf ++
  str "Content-Length: 0" ++ crlf ++ cors_headers.
(** The fields of [NodeState] that are serialized. *)
(* eth2077-node/src/bin/eth2077-devnetd.rs:86-101 NodeState *)
Definition snapshot_json (st : NodeState) : Value :=
  let i := info st in obj
  ["node_id" ⟼ num (node_id i); "nodes" ⟼ num (nodes i); "rpc_port" ⟼ num (rpc_port i);
   "p2p_port" ⟼ num (p2p_port i); "chain_id" ⟼ num (chain_id i); "network" ⟼ VString (network i);
   "started_at_unix_s" ⟼ num (started_at_unix_s i);
   "current_height" ⟼ num (current_height st); "finalized_height" ⟼ num (finalized_height st);
   "peers_target" ⟼ num (peers_target i); "peers_connected" ⟼ num (peers_connected i);
   "ingress_capacity_tps" ⟼ VNumber (Float (ingress_capacity_tps i));
   "execution_capacity_tps" ⟼ VNumber (Float (execution_capacity_tps i));
   "oob_capacity_tps" ⟼ VNumber (Float (oob_capacity_tps i));
   "bridge_replay_safe" ⟼ VBool (bridge_replay_safe i)].
(* eth2077-node/src/bin/eth2077-devnetd.rs:4211-4231 main *)
Definition capabilities : Value := obj ["capabilities" ⟼ VArray
  [text "engine_newPayloadV3";
   text "engine_forkchoiceUpdatedV3";
   text "engine_getPayloadV3";
   text "engine_getInclusionListV1";
   text "engine_registerExecutionPayloadHeaderV1";
   text "engine_registerExecutionPayloadEnvelopeV1";
   text "engine_getPayloadTimelinessV1";
   text "engine_getPayloadTimelinessByRangeV1";
   text "engine_getPayloadPenaltyV1";
   text "engine_getPayloadPenaltiesByRangeV1";
   text "engine_getExecutionPayloadHeaderV1";
   text "engine_getExecutionPayloadHeadersBySlotV1";
   text "engine_getExecutionPayloadHeadersByRangeV1";
   text "engine_getExecutionPayloadEnvelopeV1";
   text "engine_getExecutionPayloadEnvelopesBySlotV1";
   text "engine_getExecutionPayloadEnvelopesByRangeV1"]].

(** [POST /engine/v1/...] *)
(* eth2077-node/src/bin/eth2077-devnetd.rs:4233-4354 main *)
Definition engine_route (clocks : nat → Clock) (line : Str) (st : NodeState) (body : Value)
  : option (outcome (NodeState * Value)) :=
  let now := now1 (clocks 0%nat) in
  let posts (name : string) := starts_with (str "POST /engine/v1/" ++ str name ++ str " ") line in
  if posts "getInclusionListV1" then
    Some (mret (engine_get_inclusion_list_response st body)) else
  if posts "newPayloadV3" then
    Some (engine_new_payload_response now st body) else
  if posts "forkchoiceUpdatedV3" then
    Some (engine_forkchoice_updated_response now (now2 (clocks 0%nat)) st body) else
  if posts "registerExecutionPayloadHeaderV1" then
    Some (engine_7732_register_payload_header_response now st body) else
  if posts "registerExecutionPayloadEnvelopeV1" then
    Some (mret (engine_7732_register_payload_envelope_response now st body)) else
  if posts "getPayloadTimelinessV1" then
    Some (mret (st, engine_7732_get_payload_timeliness_response now st body)) else
  if posts "getPayloadTimelinessByRangeV1" then
    Some (mret (st, engine_7732_get_payload_timeliness_by_range_response now st body)) else
  if posts "getPayloadPenaltyV1" then
    Some (mret (st, engine_7732_get_payload_penalty_response now st body)) else
  if posts "getPayloadPenaltiesByRangeV1" then
    Some (mret (st, engine_7732_get_payload_penalties_by_range_response now st body)) else
  if posts "getExecutionPayloadHeaderV1" then
    Some (mret (st, engine_7732_get_payload_header_response st body)) else
  if posts "getExecutionPayloadHeadersBySlotV1" then
    Some (mret (st, engine_7732_get_payload_headers_by_slot_response st body)) else
  if posts "getExecutionPayloadHeadersByRangeV1" then
    Some (mret (st, engine_7732_get_payload_headers_by_range_response st body)) else
  if posts "getExecutionPayloadEnvelopeV1" then
    Some (mret (st, engine_7732_get_payload_envelope_response st body)) else
  if posts "getExecutionPayloadEnvelopesBySlotV1" then
    Some (mret (st, engine_7732_get_payload_envelopes_by_slot_response st body)) else
  if posts "getExecutionPayloadEnvelopesByRangeV1" then
    Some (mret (st, engine_7732_get_payload_envelopes_by_range_response st body)) else
  None.
(* eth2077-node/src/bin/eth2077-devnetd.rs:4190-4208 main *)
Definition jsonrpc_route (clocks : nat → Clock) (st : NodeState) (body : Str) : outcome (NodeState * Str) :=
  match json_from_str body with
  | Some json_req =>
      if is_object json_req || bool_decide (is_Some (as_array json_req)) then
        '(st, rpc_resp) ← handle_jsonrpc_payload clocks st json_req;
        match rpc_resp with
        | Some v => text ← json_response "200 OK" v; mret (st, text)
        | None => mret (st, no_content)
        end
      else text ← json_response "200 OK" invalid_request; mret (st, text)
  | None => text ← json_response "200 OK" (jsonrpc_error VNull (-32700) (str "parse error")); mret (st, text)
  end.
(* eth2077-node/src/bin/eth2077-devnetd.rs:4178-4360 main *)
Definition serve (clocks : nat → Clock) (st : NodeState) (r : HttpRequest) : outcome (NodeState * Str) :=
  let request_line := default [] (head (lines (from_utf8_lossy (req_bytes r)))) in
  let answer status v := text ← json_response status v; mret (st, text) in
  if starts_with (str "OPTIONS / ") request_line then mret (st, no_content) else
  if starts_with (str "GET /healthz ") request_line then answer "200 OK"%string (obj ["ok" ⟼ VBool true]) else
  if starts_with (str "GET /status ") request_line then answer "200 OK"%string (snapshot_json st) else
  if starts_with (str "POST / ") request_line then
    body ← request_body_from_http r; jsonrpc_route clocks st body else
  if starts_with (str "GET /engine/v1/capabilities ") request_line then answer "200 OK"%string capabilities else
  match engine_route clocks request_line st VNull with
  | None => answer "404 Not Found"%string (obj ["error" ⟼ text "not found"; "path" ⟼ VString request_line])
  | Some _ =>
      body ← request_body_from_http r;
      '(st, result) ← default Panics (engine_route clocks request_line st (default VNull (json_from_str body)));
      text ← json_response "200 OK" result; mret (st, text)
  end.
End http.
