(* ===== verification/DaemonStart.v ===== *)
(** * Starting the daemon ([eth2077-node/src/bin/eth2077-devnetd.rs], [eth2077-node/src/lib.rs])

    The configuration from the command line, the capacity plans and the first state. *)
From S2P Require Import Prelude Canonical Floats Strings Json DaemonHex DaemonState RawTx DaemonEvm Ledger Market.
Local Open Scope Z_scope.

(** [a.max(b)]: the other one when one is NaN. *)
Definition f64_max (a b : f64) : f64 :=
  match a with S754_nan => b | _ => if f64_lt a b then b else a end.

(* eth2077-types/src/lib.rs:71-85 ScenarioConfig *)
Record ScenarioConfig := {
  sc_name : Str;
  sc_nodes : Z;
  sc_tx_count : Z;
  sc_seed : Z;
  sc_ingress_tps_per_node : f64;
  sc_execution_tps_per_node : f64;
  sc_oob_tps_per_node : f64;
  sc_mesh_efficiency : f64;
  sc_base_rtt_ms : f64;
  sc_jitter_ms : f64;
  sc_commit_batch_size : Z;
  sc_byzantine_fraction : f64;
  sc_packet_loss_fraction : f64;
}.
(** The plans are records of one field. *)
(* eth2077-execution/src/lib.rs:24-29 plan_execution *)
Definition plan_execution (cfg : ScenarioConfig) : f64 :=
  let base := f64_mul (f64_of_u64 (sc_nodes cfg)) (sc_execution_tps_per_node cfg) in
  f64_max base (f64_of_u64 1).
(* eth2077-oob-consensus/src/lib.rs:16-21 plan_oob *)
Definition plan_oob (cfg : ScenarioConfig) : f64 :=
  let base := f64_mul (f64_mul (f64_of_u64 (sc_nodes cfg)) (sc_oob_tps_per_node cfg)) (sc_mesh_efficiency cfg) in
  f64_max base (f64_of_u64 1).
(* eth2077-bridge/src/lib.rs:14-16 plan_bridge *)
Definition plan_bridge (cfg : ScenarioConfig) : bool := true.
(* eth2077-node/src/lib.rs:6-11 bootstrap *)
Definition bootstrap (cfg : ScenarioConfig) : f64 * f64 * bool :=
  (plan_execution cfg, plan_oob cfg, plan_bridge cfg).

(** ** Configuration *)

(* eth2077-node/src/bin/eth2077-devnetd.rs:31-40 Config *)
Record Config := {
  cf_rpc_host : Str;
  cf_node_id : Z;
  cf_nodes : Z;
  cf_rpc_port : Z;
  cf_p2p_port : Z;
  cf_tick_ms : Z;
  cf_chain_spec_path : Str;
  cf_data_dir : Str;
}.
(* eth2077-node/src/bin/eth2077-devnetd.rs:256-261 arg_value *)
Fixpoint arg_value (args : list Str) (flag dflt : Str) : Str :=
  match args with
  | a :: (b :: _) as rest => if str_eqb a flag then b else arg_value rest flag dflt
  | _ => dflt
  end.
(* eth2077-node/src/bin/eth2077-devnetd.rs:4036-4060 main *)
Definition config_of_args (args : list Str) : Config :=
  let arg flag dflt := arg_value args (str flag) (str dflt) in
  let number max flag dflt := default dflt (parse_decimal max (arg flag "")) in
  {| cf_rpc_host := arg "--rpc-host"%string "127.0.0.1"%string;
     cf_node_id := number u64_max "--node-id"%string 0;
     cf_nodes := number u64_max "--nodes"%string 4;
     cf_rpc_port := number 65535 "--rpc-port"%string 9545;
     cf_p2p_port := number 65535 "--p2p-port"%string 30303;
     cf_tick_ms := number u64_max "--tick-ms"%string 1000;
     cf_chain_spec_path := arg "--chain-spec"%string "artifacts/testnet-alpha/chain-spec.json"%string;
     cf_data_dir := arg "--data-dir"%string "artifacts/devnet-local/node-0"%string |}.

(** ** The first state *)

Section start.
Context `{ET : EvmTypes} `{DE : !DaemonEvm}.

(** [2077 + cfg.node_id as u64] wraps (or panics, in a debug build). *)
(* eth2077-node/src/bin/eth2077-devnetd.rs:3965-3979 build_state *)
Definition scenario_of (cfg : Config) : ScenarioConfig := {|
  sc_name := str "devnet-node-" ++ decimal (cf_node_id cfg);
  sc_nodes := cf_nodes cfg;
  sc_tx_count := 100000;
  sc_seed := u64_wrapping_add 2077 (cf_node_id cfg);
  sc_ingress_tps_per_node := f64_of_u64 55000;
  sc_execution_tps_per_node := f64_of_u64 38000;
  sc_oob_tps_per_node := f64_of_u64 62000;
  sc_mesh_efficiency := f64_div (f64_of_u64 75) (f64_of_u64 100);
  sc_base_rtt_ms := f64_of_u64 18;
  sc_jitter_ms := f64_of_u64 4;
  sc_commit_batch_size := 512;
  sc_byzantine_fraction := f64_zero;
  sc_packet_loss_fraction := f64_div (f64_of_u64 1) (f64_of_u64 100) |}.
(* eth2077-node/src/bin/eth2077-devnetd.rs:3964-4033 build_state *)
Definition build_state (now : Z) (cfg : Config) (chain_spec : Value) : NodeState :=
  let scenario := scenario_of cfg in
  let '(exec, oob, bridge) := bootstrap scenario in
  let peers := u64_saturating_sub (cf_nodes cfg) 1 in
  {| info := {|
       node_id := cf_node_id cfg; nodes := cf_nodes cfg; rpc_port := cf_rpc_port cfg; p2p_port := cf_p2p_port cfg;
       chain_id := default 0 (get "chain_id" chain_spec ≫= as_u64);
       network := default (str "eth2077-devnet") (get "name" chain_spec ≫= as_str);
       started_at_unix_s := now; peers_target := peers; peers_connected := peers;
       ingress_capacity_tps := f64_mul (sc_ingress_tps_per_node scenario) (f64_of_u64 (cf_nodes cfg));
       execution_capacity_tps := exec; oob_capacity_tps := oob; bridge_replay_safe := bridge |};
     current_height := 0;
     finalized_height := 0;
     ledger := {| pending_txs := []; txs := ∅; block_txs := ∅; block_timestamps := {[0 := now]};
       nonce_by_address := ∅; pending_nonce_address_hint := None; tx_counter := 0;
       evm_db := InMemoryDB_default; tx_receipts := ∅ |};
     focil := {| required_il_txs := []; required_il_meta := ∅; required_il_slot := None;
       required_il_updated_at_unix_s := None; focil_committee := []; focil_view_frozen := false;
       focil_frozen_slot := None; focil_frozen_il_root := None; focil_view_id := None |};
     registry := {| headers_by_slot := ∅; headers_by_root := ∅; envelopes_by_root := ∅; penalties_by_slot := ∅ |};
     market := {| market_nfts := seed_market_nfts now; next_market_token_id := 4; market_receipts := ∅ |} |}.
End start.
