(* ===== verification/TestnetArtifacts.v ===== *)
(** * Testnet artifacts ([eth2077-testnet/src/main.rs])

    The program that writes the files a testnet starts from: a xorshift generator, the
    validators, accounts and boot nodes drawn from it, and the four files.  Pretty-printing
    by [serde_json] is the class [JsonPretty]; a count so large that memory runs out is not
    modelled. *)
From S2P Require Import Prelude Canonical Floats Strings Json DaemonHex DaemonState RawTx DaemonEvm Ledger Market DaemonStart.
Local Open Scope Z_scope.

(** ** The generator *)

(** [x << k] and [x >> k] on [u64]. *)
Definition u64_shl (x k : Z) : Z := Z.land (Z.shiftl x k) u64_max.
Definition u64_shr (x k : Z) : Z := Z.shiftr x k.

(* eth2077-testnet/src/main.rs:8-10 XorShift64 *)
Record XorShift64 := { xs_state : Z }.
(* eth2077-testnet/src/main.rs:13-16 XorShift64::new *)
Definition XorShift64_new (seed : Z) : XorShift64 :=
  {| xs_state := if seed =? 0 then 0x9e3779b97f4a7c15 else seed |}.
(** The three steps of [next_u64]. *)
Definition xorshift (x : Z) : Z :=
  let x := Z.lxor x (u64_shl x 13) in
  let x := Z.lxor x (u64_shr x 7) in
  Z.lxor x (u64_shl x 17).
(* eth2077-testnet/src/main.rs:18-25 XorShift64::next_u64 *)
Definition XorShift64_next_u64 (rng : XorShift64) : XorShift64 * Z :=
  let x := xorshift (xs_state rng) in ({| xs_state := x |}, x).

(** ** The files *)

(* eth2077-testnet/src/main.rs:28-34 ValidatorSpec *)
Record ValidatorSpec := {
  vs_id : Z;
  vs_execution_address : Str;
  vs_consensus_pubkey : Str;
  vs_initial_stake_wei : Str;
}.
(* eth2077-testnet/src/main.rs:36-41 AllocAccount *)
Record AllocAccount := { al_address : Str; al_balance_wei : Str; al_role : Str }.
(* eth2077-testnet/src/main.rs:43-54 GenesisSpec *)
Record GenesisSpec := {
  gs_network_name : Str;
  gs_chain_id : Z;
  gs_genesis_timestamp : Z;
  gs_fork_epoch : Z;
  gs_validator_count : Z;
  gs_fault_budget : Z;
  gs_quorum_threshold : Z;
  gs_validators : list ValidatorSpec;
  gs_alloc : list AllocAccount;
}.
(* eth2077-testnet/src/main.rs:56-66 Metadata *)
Record Metadata := {
  md_artifact_version : Str;
  md_seed : Z;
  md_node_count : Z;
  md_bootnode_count : Z;
  md_chain_id : Z;
  md_genesis_timestamp : Z;
  md_fork_epoch : Z;
  md_notes : Str;
}.
(** [serde_json::to_string_pretty] of a [Value] and of the two records. *)
Class JsonPretty := {
  pretty_value : Value → Str;
  pretty_genesis : GenesisSpec → Str;
  pretty_metadata : Metadata → Str;
}.

(* eth2077-testnet/src/main.rs:80-83 random_hex *)
Fixpoint random_bytes (rng : XorShift64) (bytes : nat) : XorShift64 * list Z :=
  match bytes with
  | O => (rng, [])
  | S bytes =>
      let '(rng, x) := XorShift64_next_u64 rng in
      let '(rng, l) := random_bytes rng bytes in (rng, Z.land x 0xff :: l)
  end.
(* eth2077-testnet/src/main.rs:77-85 random_hex *)
Definition random_hex (rng : XorShift64) (bytes : nat) : XorShift64 * Str :=
  let '(rng, l) := random_bytes rng bytes in (rng, str "0x" ++ (b ← l; padded_hex 2 b)).

(* eth2077-testnet/src/main.rs:116-116 main *)
Definition base_stake : Str := str "1000000000000000000".
(* eth2077-testnet/src/main.rs:117-117 main *)
Definition default_balance : Str := str "100000000000000000000000".
(* eth2077-testnet/src/main.rs:122-136 main *)
Fixpoint draw_validators (rng : XorShift64) (id : Z) (count : nat)
  : XorShift64 * list ValidatorSpec * list AllocAccount :=
  match count with
  | O => (rng, [], [])
  | S count =>
      let '(rng, execution_address) := random_hex rng 20 in
      let '(rng, consensus_pubkey) := random_hex rng 48 in
      let '(rng, validators, alloc) := draw_validators rng (id + 1) count in
      (rng,
       {| vs_id := id; vs_execution_address := execution_address;
          vs_consensus_pubkey := consensus_pubkey; vs_initial_stake_wei := base_stake |} :: validators,
       {| al_address := execution_address; al_balance_wei := default_balance;
          al_role := str "validator" |} :: alloc)
  end.
(* eth2077-testnet/src/main.rs:138-144 main *)
Fixpoint draw_users (rng : XorShift64) (count : nat) : XorShift64 * list AllocAccount :=
  match count with
  | O => (rng, [])
  | S count =>
      let '(rng, address) := random_hex rng 20 in
      let '(rng, alloc) := draw_users rng count in
      (rng, {| al_address := address; al_balance_wei := default_balance; al_role := str "user" |} :: alloc)
  end.
(* eth2077-testnet/src/main.rs:153-159 main *)
Fixpoint draw_bootnodes (rng : XorShift64) (i : Z) (count : nat) : XorShift64 * list Str :=
  match count with
  | O => (rng, [])
  | S count =>
      let '(rng, pubkey) := random_hex rng 32 in
      let ip := str "10.207.7." ++ decimal (10 + i) in
      let enode := str "enode://" ++ drop 2 pubkey ++ str "@" ++ ip ++ str ":30303" in
      let '(rng, bootnodes) := draw_bootnodes rng (i + 1) count in (rng, enode :: bootnodes)
  end.

(** The arguments of [main]. *)
(* eth2077-testnet/src/main.rs:95-110 main *)
Record TestnetArgs := {
  ta_output_dir : Str;
  ta_network_name : Str;
  ta_seed : Z;
  ta_chain_id : Z;
  ta_genesis_timestamp : Z;
  ta_fork_epoch : Z;
  ta_validator_count : Z;
  ta_bootnode_count : Z;
  ta_user_alloc_count : Z;
}.
(* eth2077-testnet/src/main.rs:93-110 main *)
Definition parse_testnet_args (args : list Str) : TestnetArgs :=
  let arg flag dflt := arg_value args (str flag) (str dflt) in
  let number flag text dflt := default dflt (parse_decimal u64_max (arg flag text)) in
  {| ta_output_dir := arg "--output-dir" "artifacts/testnet-alpha";
     ta_network_name := arg "--network" "eth2077-alpha";
     ta_seed := number "--seed" "2077" 2077;
     ta_chain_id := number "--chain-id" "2077001" 2077001;
     ta_genesis_timestamp := number "--genesis-ts" "1772409600" 1772409600;
     ta_fork_epoch := number "--fork-epoch" "0" 0;
     ta_validator_count := number "--validators" "48" 48;
     ta_bootnode_count := number "--bootnodes" "8" 8;
     ta_user_alloc_count := number "--alloc-accounts" "512" 512 |}.

(** What [main] has computed before it writes. *)
Record Artifacts := {
  at_genesis : GenesisSpec;
  at_bootnodes : list Str;
  at_chain_spec : Value;
  at_metadata : Metadata;
}.
(* eth2077-testnet/src/main.rs:112-193 main *)
Definition artifacts (a : TestnetArgs) : Artifacts :=
  let rng := XorShift64_new (ta_seed a) in
  let fault_budget := u64_saturating_sub (ta_validator_count a) 1 / 3 in
  let quorum_threshold := 2 * fault_budget + 1 in
  let '(rng, validators, alloc) := draw_validators rng 0 (Z.to_nat (ta_validator_count a)) in
  let '(rng, users) := draw_users rng (Z.to_nat (ta_user_alloc_count a)) in
  let '(rng, faucet_address) := random_hex rng 20 in
  let faucet := {| al_address := faucet_address;
    al_balance_wei := str "100000000000000000000000000"; al_role := str "faucet" |} in
  let alloc := alloc ++ users ++ [faucet] in
  let '(rng, bootnodes) := draw_bootnodes rng 0 (Z.to_nat (ta_bootnode_count a)) in
  {| at_genesis := {|
       gs_network_name := ta_network_name a; gs_chain_id := ta_chain_id a;
       gs_genesis_timestamp := ta_genesis_timestamp a; gs_fork_epoch := ta_fork_epoch a;
       gs_validator_count := ta_validator_count a; gs_fault_budget := fault_budget;
       gs_quorum_threshold := quorum_threshold; gs_validators := validators; gs_alloc := alloc |};
     at_bootnodes := bootnodes;
     at_chain_spec := obj
       ["name" ⟼ VString (ta_network_name a);
        "chain_id" ⟼ num (ta_chain_id a);
        "genesis_timestamp" ⟼ num (ta_genesis_timestamp a);
        "fork_epoch" ⟼ num (ta_fork_epoch a);
        "validator_count" ⟼ num (ta_validator_count a);
        "fault_budget" ⟼ num fault_budget;
        "quorum_threshold" ⟼ num quorum_threshold;
        "bootnodes" ⟼ arr VString bootnodes;
        "alloc_accounts" ⟼ num (len alloc);
        "notes" ⟼ text "Deterministic ETH2077 testnet artifact. Regenerate from seed to verify reproducibility."];
     at_metadata := {|
       md_artifact_version := str "eth2077-testnet-v0"; md_seed := ta_seed a;
       md_node_count := ta_validator_count a; md_bootnode_count := ta_bootnode_count a;
       md_chain_id := ta_chain_id a; md_genesis_timestamp := ta_genesis_timestamp a;
       md_fork_epoch := ta_fork_epoch a;
       md_notes := str "Dev/testnet artifacts only. Deterministic by seed, not production key generation." |} |}.

Section files.
Context `{JP : JsonPretty}.
(** The files, in the order they are written. *)
(* eth2077-testnet/src/main.rs:195-203 main *)
Definition written_files (a : TestnetArgs) : list (Str * Str) :=
  let r := artifacts a in
  [(ta_output_dir a ++ str "/chain-spec.json", pretty_value (at_chain_spec r));
   (ta_output_dir a ++ str "/genesis.json", pretty_genesis (at_genesis r));
   (ta_output_dir a ++ str "/metadata.json", pretty_metadata (at_metadata r));
   (ta_output_dir a ++ str "/bootnodes.txt", join ([10]) (at_bootnodes r) ++ [10])].
End files.

(** ** The generator never dies out *)

Lemma u64_shl_lxor a b k : 0 <= k → u64_shl (Z.lxor a b) k = Z.lxor (u64_shl a k) (u64_shl b k).
Proof.
  intros Hk. unfold u64_shl. rewrite Z.shiftl_lxor. apply Z.bits_inj'. intros n Hn.
  rewrite !Z.land_spec, !Z.lxor_spec, !Z.land_spec. by destruct (Z.testbit u64_max n), (Z.testbit _ n), (Z.testbit _ n).
Qed.
Lemma u64_shr_lxor a b k : u64_shr (Z.lxor a b) k = Z.lxor (u64_shr a k) (u64_shr b k).
Proof. apply Z.shiftr_lxor. Qed.
(** A step that adds a linear shift of the state takes different states to different ones,
    when it takes only 0 to 0. *)
Lemma lxor_shift_inj (g : Z → Z) :
  (∀ a b, g (Z.lxor a b) = Z.lxor (g a) (g b)) →
  (∀ x, is_u64 x → Z.lxor x (g x) = 0 → x = 0) →
  ∀ a b, is_u64 a → is_u64 b → is_u64 (Z.lxor a b) → Z.lxor a (g a) = Z.lxor b (g b) → a = b.
Proof.
  intros Hg H0 a b Ha Hb Hab Heq. apply Z.lxor_eq, H0; [done|]. rewrite Hg.
  transitivity (Z.lxor (Z.lxor a (g a)) (Z.lxor b (g b))).
  - apply Z.bits_inj'. intros n _. rewrite !Z.lxor_spec.
    by destruct (Z.testbit a n), (Z.testbit b n), (Z.testbit (g a) n), (Z.testbit (g b) n).
  - rewrite Heq. apply Z.lxor_nilpotent.
Qed.
Lemma shl_zero k x : 0 < k → is_u64 x → Z.lxor x (u64_shl x k) = 0 → x = 0.
Proof.
  intros Hk _ Hx%Z.lxor_eq. apply Z.bits_inj'. intros n Hn. rewrite Z.bits_0.
  revert Hn. apply (Zlt_0_ind (λ n, Z.testbit x n = false)). clear n. intros n IH Hn. rewrite Hx.
  unfold u64_shl. rewrite Z.land_spec, Z.shiftl_spec by done.
  destruct (Z.ltb_spec n k) as [Hlt|Hge].
  - by rewrite (Z.testbit_neg_r x (n - k)) by lia.
  - by rewrite (IH (n - k)) by lia.
Qed.
Lemma shr_zero k x : 0 < k → is_u64 x → Z.lxor x (u64_shr x k) = 0 → x = 0.
Proof.
  intros Hk [Hx _] Heq%Z.lxor_eq. unfold u64_shr in Heq. rewrite Z.shiftr_div_pow2 in Heq by lia.
  destruct (Z.eq_dec x 0) as [|Hne]; [done|].
  assert (1 < 2 ^ k) by (apply Z.pow_gt_1; lia). pose proof (Z.div_lt x (2 ^ k)). lia.
Qed.
Lemma is_u64_land x : is_u64 x ↔ Z.land x u64_max = x.
Proof.
  change u64_max with (Z.ones 64). rewrite Z.land_ones by done. unfold is_u64. split; intros Hx.
  - apply Z.mod_small. lia.
  - rewrite <- Hx. pose proof (Z.mod_pos_bound x (2 ^ 64) eq_refl). lia.
Qed.
Lemma is_u64_lxor a b : is_u64 a → is_u64 b → is_u64 (Z.lxor a b).
Proof.
  rewrite !is_u64_land. intros Ha Hb. rewrite <- Ha at 2. rewrite <- Hb at 2.
  apply Z.bits_inj'. intros n _. rewrite !Z.land_spec, !Z.lxor_spec, !Z.land_spec.
  by destruct (Z.testbit u64_max n), (Z.testbit a n), (Z.testbit b n).
Qed.
Lemma is_u64_shl x k : is_u64 (u64_shl x k).
Proof. apply is_u64_land. unfold u64_shl. rewrite <- Z.land_assoc. by rewrite Z.land_diag. Qed.
Lemma is_u64_shr x k : 0 <= k → is_u64 x → is_u64 (u64_shr x k).
Proof.
  intros Hk [Hx Hm]. unfold u64_shr. rewrite Z.shiftr_div_pow2 by done.
  assert (0 < 2 ^ k) by (apply Z.pow_pos_nonneg; lia).
  split; [by apply Z.div_pos|]. etransitivity; [|exact Hm]. by apply Z.div_le_upper_bound; [|nia].
Qed.
Lemma shl_step_inj k a b :
  0 < k → is_u64 a → is_u64 b → Z.lxor a (u64_shl a k) = Z.lxor b (u64_shl b k) → a = b.
Proof.
  intros Hk Ha Hb. apply (lxor_shift_inj (λ z, u64_shl z k)); [|intros x; by apply shl_zero|done..|by apply is_u64_lxor].
  intros x y. apply u64_shl_lxor. lia.
Qed.
Lemma shr_step_inj k a b :
  0 < k → is_u64 a → is_u64 b → Z.lxor a (u64_shr a k) = Z.lxor b (u64_shr b k) → a = b.
Proof.
  intros Hk Ha Hb. apply (lxor_shift_inj (λ z, u64_shr z k)); [|intros x; by apply shr_zero|done..|by apply is_u64_lxor].
  intros x y. apply u64_shr_lxor.
Qed.
Lemma shl_step_u64 x k : is_u64 x → is_u64 (Z.lxor x (u64_shl x k)).
Proof. intros Hx. apply is_u64_lxor; [exact Hx|apply is_u64_shl]. Qed.
Lemma shr_step_u64 x k : 0 <= k → is_u64 x → is_u64 (Z.lxor x (u64_shr x k)).
Proof. intros Hk Hx. apply is_u64_lxor; [exact Hx|by apply is_u64_shr]. Qed.
Lemma xorshift_u64 x : is_u64 x → is_u64 (xorshift x).
Proof. intros Hx. by apply shl_step_u64, shr_step_u64, shl_step_u64. Qed.
Lemma xorshift_inj x y : is_u64 x → is_u64 y → xorshift x = xorshift y → x = y.
Proof.
  intros Hx Hy Heq. unfold xorshift in Heq. cbv zeta in Heq.
  apply (shl_step_inj 17) in Heq; [|done|by apply shr_step_u64, shl_step_u64..].
  apply (shr_step_inj 7) in Heq; [|done|by apply shl_step_u64..].
  by apply (shl_step_inj 13) in Heq.
Qed.

(** the generator permutes the nonzero 64-bit states: a nonzero state stays nonzero, and
    different states never meet, so whatever the seed no draw is stuck at zero. *)
Theorem xorshift_permutes x y :
  is_u64 x → is_u64 y →
  (xorshift x = xorshift y → x = y) ∧ (x ≠ 0 → xorshift x ≠ 0) ∧ is_u64 (xorshift x) ∧
  xs_state (XorShift64_new x) ≠ 0.
Proof.
  intros Hx Hy.
  split_and!; [by apply xorshift_inj| |by apply xorshift_u64|].
  - intros Hne H0. by apply Hne, xorshift_inj.
  - unfold XorShift64_new. simpl. case_if_goal; [done|]. by bool_to_prop.
Qed.
Lemma xorshift_permutes_witness : xorshift 2077 ≠ 0 ∧ is_u64 (xorshift 2077).
Proof.
  destruct (xorshift_permutes 2077 1) as (_ & H0 & Hu & _); [done|done|].
  split; [by apply H0|exact Hu].
Defined.

(** ** What is drawn *)

Lemma random_hex_bytes rng n :
  ∃ rng' bytes, random_hex rng n = (rng', str "0x" ++ hex_of_bytes bytes) ∧
    length bytes = n ∧ Forall is_byte bytes.
Proof.
  assert (Hdraw : ∃ rng' bytes, random_bytes rng n = (rng', bytes) ∧ length bytes = n ∧ Forall is_byte bytes).
  { revert rng. induction n as [|n IH]; intros rng; simpl; [by eexists _, _|].
    destruct (IH {| xs_state := xorshift (xs_state rng) |}) as (rng' & l & -> & <- & Hl).
    eexists _, _. split_and!; [done|done|]. constructor; [|done].
    change 255 with (Z.ones 8). rewrite Z.land_ones by done. unfold is_byte.
    pose proof (Z.mod_pos_bound (xorshift (xs_state rng)) (2 ^ 8) eq_refl). lia. }
  destruct Hdraw as (rng' & bytes & Hr & Hn & Hb). exists rng', bytes. unfold random_hex.
  rewrite Hr. by rewrite padded_bytes.
Qed.
(** An address the daemon reads as the 20 bytes it was printed from. *)
Definition well_formed_address `{HexCrate} (address : Str) : Prop :=
  ∃ bytes, address_from_hex address = Some bytes ∧ length bytes = 20%nat ∧ address = address_to_hex bytes.

Section drawn.
Context `{HC : HexCrate}.

Lemma random_address rng : ∃ rng' address, random_hex rng 20 = (rng', address) ∧ well_formed_address address.
Proof.
  destruct (random_hex_bytes rng 20) as (rng' & bytes & -> & Hn & Hb). eexists _, _. split; [done|].
  exists bytes. unfold address_to_hex. rewrite hex_encode_spec. split_and!; [|done|done].
  rewrite <- hex_encode_spec. by apply address_roundtrip.
Qed.
Lemma draw_validators_spec rng id count :
  ∃ rng' validators alloc, draw_validators rng id count = (rng', validators, alloc) ∧
    length validators = count ∧ length alloc = count ∧
    Forall (λ acc, well_formed_address (al_address acc)) alloc ∧
    (∀ i v, validators !! i = Some v → vs_id v = id + Z.of_nat i ∧
       ∃ acc, alloc !! i = Some acc ∧ al_address acc = vs_execution_address v ∧ al_role acc = str "validator").
Proof.
  revert rng id. induction count as [|count IH]; intros rng id; cbn [draw_validators].
  { eexists _, _, _. split_and!; [done..|]. intros i v Hlook. by rewrite lookup_nil in Hlook. }
  destruct (random_address rng) as (rng1 & address & -> & Ha).
  destruct (random_hex_bytes rng1 48) as (rng2 & key & -> & _).
  destruct (IH rng2 (id + 1)) as (rng' & validators & alloc & -> & Hv & Hl & Hw & Hi).
  eexists _, _, _. split_and!; [done|by rewrite length_cons, Hv|by rewrite length_cons, Hl|by constructor|].
  intros [|i] v Hlook; cbn in Hlook; simplify_eq.
  - split; [cbn; lia|]. by eexists.
  - destruct (Hi i v Hlook) as [Hid Hacc]. split; [lia|done].
Qed.
Lemma draw_users_spec rng count :
  ∃ rng' alloc, draw_users rng count = (rng', alloc) ∧ length alloc = count ∧
    Forall (λ acc, well_formed_address (al_address acc)) alloc.
Proof.
  revert rng. induction count as [|count IH]; intros rng; cbn [draw_users]; [by eexists _, _|].
  destruct (random_address rng) as (rng1 & address & -> & Ha).
  destruct (IH rng1) as (rng' & alloc & -> & Hl & Hw).
  eexists _, _. split_and!; [done|by rewrite length_cons, Hl|by constructor].
Qed.
Lemma draw_bootnodes_length rng i count :
  ∃ rng' bootnodes, draw_bootnodes rng i count = (rng', bootnodes) ∧ length bootnodes = count.
Proof.
  revert rng i. induction count as [|count IH]; intros rng i; cbn [draw_bootnodes]; [by eexists _, _|].
  destruct (random_hex rng 32) as [rng1 key]. destruct (IH rng1 (i + 1)) as (rng' & l & -> & <-).
  by eexists _, _.
Qed.

(** the artifacts have the counts that were asked for; the account at position [i] is the
    execution account of validator [i]; every address is one the daemon reads back; and a
    daemon started on the chain specification has its chain id and its name. *)
Theorem artifacts_sound `{ET : EvmTypes} `{DE : !DaemonEvm} a now cfg :
  is_u64 (ta_validator_count a) → is_u64 (ta_bootnode_count a) → is_u64 (ta_user_alloc_count a) →
  let r := artifacts a in
  let g := at_genesis r in
  len (gs_validators g) = ta_validator_count a ∧
  len (gs_alloc g) = ta_validator_count a + ta_user_alloc_count a + 1 ∧
  len (at_bootnodes r) = ta_bootnode_count a ∧
  (∀ i v, gs_validators g !! i = Some v → vs_id v = Z.of_nat i ∧
     ∃ acc, gs_alloc g !! i = Some acc ∧ al_address acc = vs_execution_address v ∧ al_role acc = str "validator") ∧
  (∀ acc, acc ∈ gs_alloc g → well_formed_address (al_address acc)) ∧
  get "alloc_accounts" (at_chain_spec r) = Some (num (len (gs_alloc g))) ∧
  (0 < ta_validator_count a → 3 * gs_fault_budget g < ta_validator_count a) ∧
  let daemon := build_state now cfg (at_chain_spec r) in
  chain_id (info daemon) = ta_chain_id a ∧ network (info daemon) = ta_network_name a.
Proof.
  intros [Hv _] [Hb _] [Hu _]. unfold artifacts. cbv zeta.
  destruct (draw_validators_spec (XorShift64_new (ta_seed a)) 0 (Z.to_nat (ta_validator_count a)))
    as (rng1 & validators & alloc & -> & Hlv & Hla & Hwa & Hiv).
  destruct (draw_users_spec rng1 (Z.to_nat (ta_user_alloc_count a))) as (rng2 & users & -> & Hlu & Hwu).
  destruct (random_address rng2) as (rng3 & faucet & -> & Hf).
  destruct (draw_bootnodes_length rng3 0 (Z.to_nat (ta_bootnode_count a))) as (rng4 & bootnodes & -> & Hlb).
  cbn [at_genesis at_bootnodes at_chain_spec gs_validators gs_alloc gs_fault_budget].
  split_and!; try done.
  - unfold len. lia.
  - unfold len. rewrite !length_app. simpl. lia.
  - unfold len. lia.
  - intros i v Hl. destruct (Hiv i v Hl) as (Hid & acc & Hacc & Hrest). split; [lia|].
    exists acc. split; [by apply lookup_app_l_Some|done].
  - apply Forall_forall, Forall_app. split; [done|]. apply Forall_app. split; [done|by constructor].
  - intros Hpos. pose proof (Z.mul_div_le (u64_saturating_sub (ta_validator_count a) 1) 3 eq_refl). sat_lia.
Qed.
End drawn.

(** ** Quorums of the generated network *)

Lemma size_interval lo n : 0 <= n → size (list_to_set (seqZ lo n) : gset Z) = Z.to_nat n.
Proof. intros Hn. rewrite size_list_to_set by apply NoDup_seqZ. apply length_seqZ. Qed.
Lemma size_overlap (A B : gset Z) : (size A + size B = size (A ∪ B) + size (A ∩ B))%nat.
Proof.
  rewrite size_union_alt, size_difference_alt. pose proof (subseteq_size (B ∩ A) B ltac:(set_solver)).
  rewrite (intersection_comm_L A B). lia.
Qed.

Lemma genesis_thresholds a :
  let g := at_genesis (artifacts a) in
  gs_validator_count g = ta_validator_count a ∧
  gs_fault_budget g = u64_saturating_sub (ta_validator_count a) 1 / 3 ∧
  gs_quorum_threshold g = 2 * gs_fault_budget g + 1.
Proof.
  unfold artifacts. by destruct (draw_validators _ _ _) as [[? ?] ?], (draw_users _ _), (random_hex _ _),
    (draw_bootnodes _ _ _).
Qed.

(** with the quorum threshold of the artifacts, any two quorums of validators share more
    than [fault_budget] of them, so an honest one, exactly when the count of validators is one
    more than a multiple of three. *)
Theorem quorum_overlap_exact a :
  is_u64 (ta_validator_count a) → 0 < ta_validator_count a →
  let n := ta_validator_count a in
  let q := gs_quorum_threshold (at_genesis (artifacts a)) in
  let f := gs_fault_budget (at_genesis (artifacts a)) in
  (∀ A B : gset Z, (∀ i, i ∈ A ∪ B → 0 <= i < n) → Z.of_nat (size A) = q → Z.of_nat (size B) = q →
     f < Z.of_nat (size (A ∩ B))) ↔ n mod 3 = 1.
Proof.
  intros [_ Hmax] Hpos n q f.
  destruct (genesis_thresholds a) as (_ & Hf & Hq). fold n f q in Hf, Hq. clearbody q f.
  unfold u64_saturating_sub in Hf. rewrite Z.max_l in Hf by lia.
  pose proof (Z.div_mod (n - 1) 3 ltac:(lia)). pose proof (Z.mod_pos_bound (n - 1) 3 eq_refl).
  pose proof (Z.div_mod n 3 ltac:(lia)). pose proof (Z.mod_pos_bound n 3 eq_refl).
  rewrite <- Hf in *. split.
  - intros Hall. destruct (Z.eq_dec (n mod 3) 1) as [|Hne]; [done|exfalso].
    assert (Hn : 3 * f + 2 <= n) by lia.
    set (m := Z.min (n - q) q).
    set (A := list_to_set (seqZ 0 q) : gset Z). set (B := list_to_set (seqZ m q) : gset Z).
    assert (HA : size A = Z.to_nat q) by (apply size_interval; lia).
    assert (HB : size B = Z.to_nat q) by (apply size_interval; lia).
    assert (Hunion : size (A ∪ B) = Z.to_nat (m + q)).
    { replace (A ∪ B) with (list_to_set (seqZ 0 (m + q)) : gset Z); [apply size_interval; lia|].
      apply set_eq. intros x. subst A B. rewrite elem_of_union, !elem_of_list_to_set, !elem_of_seqZ. lia. }
    pose proof (size_overlap A B).
    assert (f < Z.of_nat (size (A ∩ B))); [apply Hall; [|lia..]|lia].
    intros x. subst A B. rewrite elem_of_union, !elem_of_list_to_set, !elem_of_seqZ. lia.
  - intros Hmod A B Hin HA HB.
    pose proof (size_overlap A B).
    assert (Hle : (size (A ∪ B) <= Z.to_nat n)%nat).
    { rewrite <- (size_interval 0 n) by lia. apply subseteq_size. intros x Hx%Hin.
      rewrite elem_of_list_to_set, elem_of_seqZ. lia. }
    lia.
Qed.
(** The default of 48 validators is not such a count: 31 make a quorum, and two of them may
    share only 14, while 15 may be faulty. *)
Lemma default_quorums_unsafe :
  let g := at_genesis (artifacts (parse_testnet_args [])) in
  gs_validator_count g = 48 ∧ gs_fault_budget g = 15 ∧ gs_quorum_threshold g = 31 ∧
  2 * gs_quorum_threshold g - gs_validator_count g = 14.
Proof.
  destruct (genesis_thresholds (parse_testnet_args [])) as (Hn & Hf & Hq).
  change (ta_validator_count (parse_testnet_args [])) with 48 in Hn, Hf. revert Hn Hf Hq.
  generalize (at_genesis (artifacts (parse_testnet_args []))). intros g Hn Hf Hq. cbv zeta.
  rewrite Hq, Hn, Hf. by vm_compute.
Qed.
Lemma quorum_overlap_exact_witness :
  ¬ (∀ A B : gset Z, (∀ i, i ∈ A ∪ B → 0 <= i < 48) → Z.of_nat (size A) = 31 → Z.of_nat (size B) = 31 →
     15 < Z.of_nat (size (A ∩ B))).
Proof.
  pose proof (quorum_overlap_exact (parse_testnet_args [])) as H.
  destruct default_quorums_unsafe as (Hn & Hf & Hq & _).
  revert H Hn Hf Hq. generalize (at_genesis (artifacts (parse_testnet_args []))). intros g H _ Hf Hq.
  change (ta_validator_count (parse_testnet_args [])) with 48 in H. cbv zeta in H. rewrite Hq, Hf in H.
  intros Hall. destruct H as [H _]; [split; discriminate|reflexivity|]. discriminate (H Hall).
Defined.
(** The boot nodes are numbered from [10.207.7.10] on: the last byte of the address of the
    247th does not fit a byte. *)
Lemma bootnode_address_overflows :
  ∃ before, nth 246 (draw_bootnodes (XorShift64_new 2077) 0 247).2 [] =
    before ++ str "10.207.7.256:30303".
Proof.
  exists (take 73 (nth 246 (draw_bootnodes (XorShift64_new 2077) 0 247).2 [])). by vm_compute.
Qed.
