(* ===== verification/NodeInvariant.v ===== *)
(** * The daemon's invariant ([eth2077-node/src/bin/eth2077-devnetd.rs])

    Every request and every tick keeps the ledger, the inclusion list, the registries and
    the market consistent, from the state [build_state] makes. *)
From S2P Require Import Prelude Canonical Floats Strings Json DaemonHex DaemonState RawTx DaemonEvm Epbs EpbsViews Focil FrozenList Ledger LedgerProps Market ChainQueries DaemonRpc Http DaemonStart.
Local Open Scope Z_scope.

Section node.
Context `{HO : HashOrder} `{SH : StdHasher} `{HC : HexCrate} `{RU : Ruint} `{AL : Alloy} `{RL : RlpCrate}
  `{JT : JsonText} `{JP : JsonParse} `{ET : EvmTypes} `{DE : !DaemonEvm}.

(** What holds of the market: tokens are filed under their numbers, below the next number
    to be given, and receipts of sales under their transactions, with their signatures. *)
Record market_inv (m : MarketState) : Prop := {
  mi_tokens id nft : market_nfts m !! id = Some nft →
    mn_token_id nft = id ∧ (id < next_market_token_id m ∨ next_market_token_id m = u64_max);
  mi_receipts hash r : market_receipts m !! hash = Some r →
    mr_tx_hash r = hash ∧ mr_signature r = market_receipt_signature r;
  mi_next : 0 <= next_market_token_id m <= u64_max;
}.
Record node_inv (st : NodeState) : Prop := {
  ni_height : 0 <= current_height st;
  ni_finalized : finalized_height st = u64_saturating_sub (current_height st) 2;
  ni_ledger : ledger_inv (current_height st) (ledger st);
  ni_focil : focil_inv (focil st);
  ni_registry : registry_inv (registry st);
  ni_market : market_inv (market st);
}.

(** What a request may change: not the height, nor the constants of the node. *)
Record request_ok (st st' : NodeState) : Prop := {
  ro_info : info st' = info st;
  ro_height : current_height st' = current_height st;
  ro_inv : node_inv st → node_inv st';
}.
#[export] Instance request_ok_preorder : PreOrder request_ok.
Proof.
  split.
  - intros st. by split.
  - intros st1 st2 st3 [H1 H2 H3] [H4 H5 H6]. split; [congruence|congruence|auto].
Qed.

(** ** Changes of one component *)

Lemma with_ledger_ok st l : (ledger_inv (current_height st) (ledger st) → ledger_inv (current_height st) l) →
  request_ok st (with_ledger l st).
Proof. intros Hl. split; [done..|]. intros []. split; simpl; auto. Qed.
Lemma with_focil_ok st f : (focil_inv (focil st) → focil_inv f) → request_ok st (with_focil f st).
Proof. intros Hf. split; [done..|]. intros []. split; simpl; auto. Qed.
Lemma with_registry_ok st r : (registry_inv (registry st) → registry_inv r) → request_ok st (with_registry r st).
Proof. intros Hr. split; [done..|]. intros []. split; simpl; auto. Qed.
Lemma with_market_ok st m : (market_inv (market st) → market_inv m) → request_ok st (with_market m st).
Proof. intros Hm. split; [done..|]. intros []. split; simpl; auto. Qed.
Lemma with_evm_db_ok st db : request_ok st (with_ledger (with_evm_db db (ledger st)) st).
Proof. apply with_ledger_ok. by apply ledger_inv_fields. Qed.
Lemma with_penalties_ok st p : request_ok st (with_registry (with_penalties p (registry st)) st).
Proof. apply with_registry_ok. intros []. by split. Qed.
Lemma grows_ok st st' : grows st st' → (registry_inv (registry st) → registry_inv (registry st')) → request_ok st st'.
Proof. intros [_ _ _ ->]. apply with_registry_ok. Qed.

(** ** Methods that change the state *)

Lemma execute_evm_ok st caller decoded commit number timestamp :
  request_ok st (execute_evm_transaction st caller decoded commit number timestamp).1.
Proof. unfold execute_evm_transaction. repeat case_match; apply with_evm_db_ok. Qed.
Lemma assess_slot_ok st slot t : request_ok st (assess_slot st slot t).1.1.1.
Proof.
  destruct (assess_slot st slot t) as [[[st' timeliness] status] penalty] eqn:Ha.
  apply assess_slot_spec in Ha as [_ Hframe]. cbn [fst]. rewrite Hframe. apply with_penalties_ok.
Qed.
Lemma get_inclusion_list_ok st req : request_ok st (engine_get_inclusion_list_response st req).1.
Proof.
  apply with_focil_ok. intros Hinv. case_bool_decide; [by apply freeze_view_inv|done].
Qed.
Lemma forkchoice_updated_ok now now' st req st' answer :
  engine_forkchoice_updated_response now now' st req = Done (st', answer) → request_ok st st'.
Proof.
  intros Hresp. pose proof (focil_call_inv st (ForkchoiceUpdated now now' req) st') as Hinv.
  cbn [focil_call] in Hinv. rewrite Hresp in Hinv. specialize (Hinv eq_refl).
  assert (∃ p f, st' = with_focil f (with_registry (with_penalties p (registry st)) st)) as (p & f & ->).
  { clear Hinv. revert Hresp. unfold engine_forkchoice_updated_response.
    destruct (assess_slot st _ _) as [[[st1 timeliness] status] penalty] eqn:Ha.
    apply assess_slot_spec in Ha as [_ Hframe]. set (p := penalties_by_slot (registry st1)) in Hframe.
    clearbody p. subst st1.
    assert (Hsame : ∀ p, with_registry (with_penalties p (registry st)) st =
      with_focil (focil st) (with_registry (with_penalties p (registry st)) st)) by done.
    destruct (engine_7732_is_timeliness_violation status); [intros [= <- <-]; eauto|].
    intros (entries & _ & Hrest)%outcome_bind_done. unfold mret, outcome_ret in Hrest.
    case_match; simplify_eq; eauto. }
  etrans; [apply (with_penalties_ok st p)|]. apply with_focil_ok. intros Hf. by apply Hinv.
Qed.
Lemma new_payload_ok now st req st' answer :
  engine_new_payload_response now st req = Done (st', answer) → request_ok st st'.
Proof.
  intros Hresp. pose proof (new_payload_spec now st req) as Hspec.
  destruct (engine_collect_payload_transaction_entries req) as [entries|]; [|congruence].
  destruct Hspec as (st1 & a1 & Hresp' & Hframe & _). rewrite Hresp in Hresp'. simplify_eq.
  rewrite Hframe. apply with_penalties_ok.
Qed.
Lemma register_header_ok now st req st' answer :
  engine_7732_register_payload_header_response now st req = Done (st', answer) → request_ok st st'.
Proof.
  intros Hresp. destruct (registry_step_grows st (CallHeader now req) st' answer Hresp) as [Hg Hi].
  by apply grows_ok.
Qed.
Lemma register_envelope_ok now st req :
  request_ok st (engine_7732_register_payload_envelope_response now st req).1.
Proof.
  destruct (engine_7732_register_payload_envelope_response now st req) as [st' answer] eqn:Hresp.
  destruct (registry_step_grows st (CallEnvelope now req) st' answer) as [Hg Hi].
  { cbn [registry_step]. by rewrite Hresp. }
  by apply grows_ok.
Qed.

Lemma record_sent_inv h hash from decoded o l :
  ledger_inv h l → ledger_inv h (record_sent hash from decoded o l).
Proof.
  eapply ledger_inv_push; try done. intros tx r. cbn [tx_receipts record_sent].
  intros [[<- <-]|[_ ?]]%lookup_insert_Some; [right|by left]. split_and!; try done.
  apply Forall_fmap, Forall_true. intros log. unfold log_agrees. simpl. by split_and!.
Qed.
Lemma record_mint_inv h hash owner token_id l : ledger_inv h l → ledger_inv h (record_mint hash owner token_id l).
Proof. eapply ledger_inv_push; try done. by left. Qed.

Lemma send_raw_transaction_ok st id params st' answer :
  eth_sendRawTransaction st id params = Done (st', answer) → request_ok st st'.
Proof.
  unfold eth_sendRawTransaction. intros (decoded & _ & Hrest)%outcome_bind_done.
  unfold mret, outcome_ret in Hrest. destruct decoded as [decoded|err]; [|by simplify_eq].
  destruct (wrong_chain st decoded); [by simplify_eq|].
  destruct (pending_nonce_address_hint (ledger st)) as [caller_str|]; [|by simplify_eq].
  destruct (address_from_hex caller_str) as [caller|]; [|by simplify_eq].
  match type of Hrest with context [execute_evm_transaction ?a ?b ?c ?d ?e ?f] =>
    pose proof (execute_evm_ok a b c d e f) as Hok;
    destruct (execute_evm_transaction a b c d e f) as [st1 executed] end.
  destruct executed as [o|err]; simplify_eq; [|done].
  etrans; [exact Hok|]. apply with_ledger_ok. apply record_sent_inv.
Qed.
Lemma with_hint_ok st hint : request_ok st (with_ledger (with_hint hint (ledger st)) st).
Proof. apply with_ledger_ok. by apply ledger_inv_fields. Qed.
Lemma estimate_gas_ok st id params st' answer : eth_estimateGas st id params = Done (st', answer) → request_ok st st'.
Proof.
  unfold eth_estimateGas, mret, outcome_ret. destruct (call_object params) as [call|]; [|by intros [= <- <-]].
  intros (decoded & _ & Hrest)%outcome_bind_done.
  match type of Hrest with context [execute_evm_transaction ?a ?b ?c ?d ?e ?f] =>
    pose proof (execute_evm_ok a b c d e f) as Hok;
    destruct (execute_evm_transaction a b c d e f) as [st1 executed] end.
  by simplify_eq.
Qed.
Lemma call_ok st id params st' answer : eth_call st id params = Done (st', answer) → request_ok st st'.
Proof.
  unfold eth_call, mret, outcome_ret. destruct (call_object params) as [call|]; [|by intros [= <- <-]].
  intros (decoded & _ & Hrest)%outcome_bind_done.
  match type of Hrest with context [execute_evm_transaction ?a ?b ?c ?d ?e ?f] =>
    pose proof (execute_evm_ok a b c d e f) as Hok;
    destruct (execute_evm_transaction a b c d e f) as [st1 executed] end.
  by simplify_eq.
Qed.
Lemma set_balance_ok st id params st' answer : eth2077_setBalance st id params = Done (st', answer) → request_ok st st'.
Proof.
  unfold eth2077_setBalance, mret, outcome_ret. intros (amount & _ & Hrest)%outcome_bind_done.
  repeat case_match; simplify_eq; try done. apply with_evm_db_ok.
Qed.
Lemma put_nft_inv id nft nft' m : market_nfts m !! id = Some nft → mn_token_id nft' = mn_token_id nft →
  market_inv m → market_inv (with_nfts (<[id := nft']> (market_nfts m)) m).
Proof.
  intros Hid Heq [Ht Hr Hn]. split; [|done|done]. cbn [market_nfts with_nfts next_market_token_id].
  intros id' nft1 [[<- <-]|[_ ?]]%lookup_insert_Some; [|by apply Ht]. rewrite Heq. by apply Ht.
Qed.
Lemma market_mint_ok now st id params : request_ok st (eth2077_marketMint now st id params).1.
Proof.
  unfold eth2077_marketMint. destruct (address_param 0 params) as [owner|]; [|done]. cbn [fst].
  set (m := {| market_nfts := _ |}). etrans; [apply (with_market_ok st m)|].
  - intros [Ht Hr Hn]. unfold m. split; cbn [market_nfts next_market_token_id market_receipts]; [|done|sat_lia].
    intros id' nft [[<- <-]|[_ Hnft]]%lookup_insert_Some.
    + split; [done|]. sat_lia.
    + destruct (Ht _ _ Hnft) as [? ?]. split; [done|]. sat_lia.
  - apply (with_ledger_ok (with_market m st)). apply record_mint_inv.
Qed.
Lemma market_buy_ok now st id params : request_ok st (eth2077_marketBuy now st id params).1.
Proof.
  unfold eth2077_marketBuy. destruct (str_param 0 params ≫= parse_hex_u64) as [token_id|]; [|done].
  destruct (address_param 1 params) as [buyer|]; [|done].
  destruct (named_tx_error st buyer _ _ _); [done|].
  destruct (market_nfts (market st) !! token_id) as [nft|] eqn:Hnft; [|done].
  destruct (negb (mn_listed nft)); [done|]. case_bool_decide; [done|]. unfold sell_nft. cbn [fst].
  set (r := {| mr_tx_hash := _; mr_signature := market_receipt_signature _ |}).
  set (nft' := {| mn_token_id := _ |}). unfold put_nft. cbn [market with_market market_nfts with_nfts next_market_token_id market_receipts].
  match goal with |- request_ok _ (with_market ?m _) => change (request_ok st (with_market m st)) end.
  apply with_market_ok. intros Hm.
  destruct (put_nft_inv token_id nft nft' (market st) Hnft eq_refl Hm) as [Ht Hr Hn].
  split; [done| |done]. cbn [market_receipts]. intros hash r' [[<- <-]|[_ ?]]%lookup_insert_Some; [done|by apply Hr].
Qed.
Lemma market_transfer_ok st id params : request_ok st (eth2077_marketTransfer st id params).1.
Proof.
  unfold eth2077_marketTransfer. destruct (str_param 0 params ≫= parse_hex_u64) as [token_id|]; [|done].
  destruct (address_param 1 params) as [from|]; [|done]. destruct (address_param 2 params) as [to|]; [|done].
  destruct (named_tx_error st from _ _ _); [done|].
  destruct (market_nfts (market st) !! token_id) as [nft|] eqn:Hnft; [|done].
  destruct (negb _); [done|]. apply with_market_ok. by apply put_nft_inv with nft.
Qed.
Lemma market_relist_ok st id params : request_ok st (eth2077_marketRelist st id params).1.
Proof.
  unfold eth2077_marketRelist. destruct (str_param 0 params ≫= parse_hex_u64) as [token_id|]; [|done].
  destruct (address_param 1 params) as [owner|]; [|done]. destruct (str_param 2 params ≫= parse_hex_u128); [|done].
  destruct (market_nfts (market st) !! token_id) as [nft|] eqn:Hnft; [|done].
  destruct (negb _); [done|]. apply with_market_ok. by apply put_nft_inv with nft.
Qed.

(** ** Requests and ticks *)

Lemma reads_ok st v st' answer : reads st v = Done (st', answer) → request_ok st st'.
Proof. by intros [= <- <-]. Qed.
Lemma mret_ok st (r : NodeState * Value) st' answer : request_ok st r.1 → mret r = Done (st', answer) → request_ok st st'.
Proof. by intros ? [= ->]. Qed.
Lemma respond_ok st id r st' answer : (∀ st1 a, r = Done (st1, a) → request_ok st st1) →
  respond id r = Done (st', answer) → request_ok st st'.
Proof. intros Hr ([st1 a] & Hd & [= <- <-])%outcome_bind_done. by eapply Hr. Qed.
Lemma respond_mret_ok st id r st' answer : request_ok st r.1 →
  respond id (mret r) = Done (st', answer) → request_ok st st'.
Proof. intros Hr. apply respond_ok. intros st1 a [= ->]. done. Qed.

Lemma handle_jsonrpc_ok clock st req st' answer :
  handle_jsonrpc clock st req = Done (st', answer) → request_ok st st'.
Proof.
  destruct (handle_jsonrpc_handled clock st req) as [v Hv| | | | |r Hr| | |Hn|Hn|Hn|Hn].
  - apply reads_ok.
  - intros (? & _ & Hr)%outcome_bind_done. by apply reads_ok in Hr.
  - apply estimate_gas_ok.
  - apply call_ok.
  - apply mret_ok, with_hint_ok.
  - destruct Hr; first
      [apply respond_mret_ok; first [done|apply get_inclusion_list_ok|apply register_envelope_ok]
      |apply respond_ok; intros ??; first [apply forkchoice_updated_ok|apply new_payload_ok|apply register_header_ok]].
  - apply send_raw_transaction_ok.
  - apply set_balance_ok.
  - apply mret_ok, market_mint_ok.
  - apply mret_ok, market_buy_ok.
  - apply mret_ok, market_transfer_ok.
  - apply mret_ok, market_relist_ok.
Qed.
Lemma handle_batch_ok st batch st' answers :
  handle_batch st batch = Done (st', answers) → request_ok st st'.
Proof.
  revert st answers. induction batch as [|[clock req] batch IH]; intros st answers; cbn [handle_batch].
  { by intros [= <- <-]. }
  destruct (negb (is_object req)).
  { intros ([st1 a1] & Hb & [= <- <-])%outcome_bind_done. by eapply IH. }
  intros ([st1 a1] & Hr & ([st2 a2] & Hb & [= <- <-])%outcome_bind_done)%outcome_bind_done.
  etrans; [by eapply handle_jsonrpc_ok|by eapply IH].
Qed.
Lemma handle_jsonrpc_payload_ok clocks st payload st' answer :
  handle_jsonrpc_payload clocks st payload = Done (st', answer) → request_ok st st'.
Proof.
  unfold handle_jsonrpc_payload, mret, outcome_ret.
  destruct payload as [|b|n|s|[|v batch]|entries]; try by intros [= <- <-].
  - intros ([st1 a1] & Hb & [= <- <-])%outcome_bind_done. by eapply handle_batch_ok.
  - intros ([st1 a1] & Hb & [= <- <-])%outcome_bind_done. by eapply handle_jsonrpc_ok.
Qed.
Lemma jsonrpc_route_ok clocks st body st' answer :
  jsonrpc_route clocks st body = Done (st', answer) → request_ok st st'.
Proof.
  unfold jsonrpc_route, mret, outcome_ret. destruct (json_from_str body) as [v|].
  - destruct (is_object v || _).
    + intros ([st1 a1] & Hp & Hrest)%outcome_bind_done. apply handle_jsonrpc_payload_ok in Hp.
      destruct a1 as [v1|]; [|by simplify_eq]. by apply outcome_bind_done in Hrest as (t & _ & [= <- <-]).
    + by intros (t & _ & [= <- <-])%outcome_bind_done.
  - by intros (t & _ & [= <- <-])%outcome_bind_done.
Qed.
Lemma engine_route_ok clocks line st body r st' answer :
  engine_route clocks line st body = Some r → r = Done (st', answer) → request_ok st st'.
Proof.
  intros Hr ->. revert Hr. unfold engine_route.
  repeat (case_match; [intros He%(inj Some); revert He; first
    [apply mret_ok; first [done|apply get_inclusion_list_ok|apply register_envelope_ok]
    |first [apply forkchoice_updated_ok|apply new_payload_ok|apply register_header_ok]]|]).
  done.
Qed.
Lemma serve_ok clocks st r st' answer : serve clocks st r = Done (st', answer) → request_ok st st'.
Proof.
  unfold serve. set (line := default [] _).
  assert (Hanswer : ∀ status v, (text ← json_response status v; mret (st, text)) = Done (st', answer) → request_ok st st').
  { intros status v. by intros (t & _ & [= <- <-])%outcome_bind_done. }
  destruct (starts_with (str "OPTIONS / ") line); [by intros [= <- <-]|].
  destruct (starts_with (str "GET /healthz ") line); [apply Hanswer|].
  destruct (starts_with (str "GET /status ") line); [apply Hanswer|].
  destruct (starts_with (str "POST / ") line).
  { intros (body & _ & Hroute)%outcome_bind_done. by eapply jsonrpc_route_ok. }
  destruct (starts_with (str "GET /engine/v1/capabilities ") line); [apply Hanswer|].
  destruct (engine_route clocks line st VNull); [|apply Hanswer].
  intros (body & _ & ([st1 result] & Hroute & (t & _ & [= <- <-])%outcome_bind_done)%outcome_bind_done)%outcome_bind_done.
  destruct (engine_route clocks line st (default VNull (json_from_str body))) as [r'|] eqn:Hr; [|done].
  eapply engine_route_ok; [exact Hr|exact Hroute].
Qed.

(** What happens to the state: the ticker and the requests take turns under its lock. *)
Inductive DaemonEvent := Ticked (now : Z) | Served (clocks : nat → Clock) (request : HttpRequest).
Definition daemon_step (st : NodeState) (e : DaemonEvent) : outcome NodeState :=
  match e with
  | Ticked now => mret (tick now st)
  | Served clocks request => fst <$> serve clocks st request
  end.
Fixpoint daemon_run (st : NodeState) (events : list DaemonEvent) : outcome NodeState :=
  match events with [] => mret st | e :: events => st ← daemon_step st e; daemon_run st events end.
Definition ticks (events : list DaemonEvent) : Z :=
  len (List.filter (λ e, match e with Ticked _ => true | Served _ _ => false end) events).

Lemma build_state_inv now cfg chain_spec : node_inv (build_state now cfg chain_spec).
Proof.
  unfold build_state, bootstrap. split; cbn [current_height finalized_height ledger focil registry market].
  - done.
  - done.
  - split; cbn [pending_txs txs block_txs block_timestamps tx_receipts]; try by intros ?? ?%lookup_empty_Some.
    + intros b. destruct (decide (b = 0)) as [Hb|Hb].
      * subst b. rewrite lookup_singleton_eq. split; [lia|by eexists].
      * rewrite lookup_singleton_ne by done. split; [by intros [? ?]|lia].
    + by intros tx ?%elem_of_nil.
    + by intros b hashes tx ?%lookup_empty_Some.
  - split; [constructor|done].
  - apply registry_inv_empty.
  - split; cbn [market_nfts next_market_token_id market_receipts]; [|by intros ?? ?%lookup_empty_Some|done].
    intros id nft. unfold seed_market_nfts. cbn [foldl].
    rewrite !lookup_insert_Some, lookup_empty. intros [[<- <-]|[_ [[<- <-]|[_ [[<- <-]|[_ ?]]]]]]; try done;
      simpl; (split; [done|lia]).
Qed.
Lemma tick_inv now st : current_height st < u64_max → node_inv st →
  node_inv (tick now st) ∧ current_height (tick now st) = current_height st + 1 ∧ info (tick now st) = info st.
Proof.
  intros Hlt [Hh Hf Hl Hfo Hr Hm]. unfold tick. rewrite u64_saturating_add_small by lia. split; [|done].
  split; cbn [current_height finalized_height ledger focil registry market]; try done; [lia|].
  by apply ledger_inv_seal.
Qed.
Lemma daemon_run_inv events : ∀ st st', daemon_run st events = Done st' →
  node_inv st → current_height st + ticks events <= u64_max →
  node_inv st' ∧ current_height st' = current_height st + ticks events ∧ info st' = info st.
Proof.
  induction events as [|e events IH]; intros st st'; cbn [daemon_run].
  { intros [= <-] Hinv _. split_and!; [done| |done]. unfold ticks, len. simpl. lia. }
  intros (st1 & He & Hrun)%outcome_bind_done Hinv Hle.
  assert (Hpos : 0 <= ticks events) by (unfold ticks, len; lia).
  destruct e as [now|clocks request]; cbn [daemon_step] in He.
  - injection He as <-.
    assert (Ht : ticks (Ticked now :: events) = 1 + ticks events) by (unfold ticks, len; simpl; lia).
    destruct (tick_inv now st) as (Hinv1 & Hh & Hi); [lia|done|].
    destruct (IH _ _ Hrun Hinv1) as (? & -> & ->); [lia|]. split_and!; [done|lia|done].
  - apply fmap_outcome_done in He as ([st2 answer] & Hs & ->). cbn [fst] in Hrun.
    apply serve_ok in Hs as [Hi Hh Hok].
    assert (Ht : ticks (Served clocks request :: events) = ticks events) by done.
    rewrite Ht in *. destruct (IH _ _ Hrun (Hok Hinv)) as (? & -> & ->); [lia|]. split_and!; [done|lia|done].
Qed.

(** C2: Whatever requests are served and however often the ticker runs, the daemon's state
    stays consistent: two blocks are left to finality; every block and time is at a height
    reached; every pending or sealed hash has its transaction; every transaction and receipt
    is either pending or at the block, block hash and index it states, with its logs saying
    the same; the inclusion list, the registries and the market keep their invariants; the
    height counts the ticks and the constants of the node never change. *)
Theorem daemon_invariant (now : Z) (cfg : Config) (chain_spec : Value) (events : list DaemonEvent) (st' : NodeState) :
  ticks events <= u64_max →
  daemon_run (build_state now cfg chain_spec) events = Done st' →
  node_inv st' ∧ current_height st' = ticks events ∧ info st' = info (build_state now cfg chain_spec).
Proof.
  intros Hle Hrun. destruct (daemon_run_inv events _ _ Hrun (build_state_inv now cfg chain_spec)) as (? & -> & ?).
  - exact Hle.
  - split_and!; done.
Qed.
End node.
