(* ===== verification/MarketProps.v ===== *)
(** * Ownership in the market ([eth2077-node/src/bin/eth2077-devnetd.rs])

    Which requests change the owner of a token, and how. *)
From S2P Require Import Prelude Canonical Floats Strings Json DaemonHex DaemonState RawTx DaemonEvm Epbs EpbsViews Focil Ledger Market ChainQueries DaemonRpc Http DaemonStart NodeInvariant.
Local Open Scope Z_scope.

Section ownership.
Context `{HO : HashOrder} `{SH : StdHasher} `{HC : HexCrate} `{RU : Ruint} `{AL : Alloy} `{RL : RlpCrate}
  `{JT : JsonText} `{ET : EvmTypes} `{DE : !DaemonEvm}.

(** ** Methods that leave the market alone *)

Lemma execute_market st caller decoded commit number timestamp :
  market (execute_evm_transaction st caller decoded commit number timestamp).1 = market st.
Proof. unfold execute_evm_transaction. by repeat case_match. Qed.
Lemma reads_market st v st' a : reads st v = Done (st', a) → market st' = market st.
Proof. by intros [= <- <-]. Qed.
Ltac executed H := match type of H with context [execute_evm_transaction ?a ?b ?c ?d ?e ?f] =>
  pose proof (execute_market a b c d e f) as Hmarket;
  destruct (execute_evm_transaction a b c d e f) as [st1 executed] end.
Lemma estimate_market st id params st' a : eth_estimateGas st id params = Done (st', a) → market st' = market st.
Proof.
  unfold eth_estimateGas, mret, outcome_ret. case_match; [|by intros [= <- <-]].
  intros (d & _ & Hd)%outcome_bind_done. executed Hd. by simplify_eq.
Qed.
Lemma call_market st id params st' a : eth_call st id params = Done (st', a) → market st' = market st.
Proof.
  unfold eth_call, mret, outcome_ret. case_match; [|by intros [= <- <-]].
  intros (d & _ & Hd)%outcome_bind_done. executed Hd. by simplify_eq.
Qed.
Lemma send_market st id params st' a : eth_sendRawTransaction st id params = Done (st', a) → market st' = market st.
Proof.
  unfold eth_sendRawTransaction, mret, outcome_ret. intros (d & _ & Hd)%outcome_bind_done.
  destruct d; [|by simplify_eq]. destruct (wrong_chain st a0); [by simplify_eq|].
  destruct (pending_nonce_address_hint (ledger st)); [|by simplify_eq].
  destruct (address_from_hex l); [|by simplify_eq]. executed Hd. by destruct executed; simplify_eq.
Qed.
Lemma balance_market st id params st' a : eth2077_setBalance st id params = Done (st', a) → market st' = market st.
Proof.
  unfold eth2077_setBalance, mret, outcome_ret. intros (d & _ & Hd)%outcome_bind_done.
  repeat case_match; by simplify_eq.
Qed.
Lemma engine_market clock st req r st' a : engine_case clock st req r → r = Done (st', a) → market st' = market st.
Proof.
  assert (Hg : ∀ st1 st2, grows st1 st2 → market st2 = market st1) by by intros ?? [_ _ _ ->].
  destruct 1; unfold mret, outcome_ret.
  - by intros [= <- <-].
  - by intros [= <- <-].
  - unfold engine_forkchoice_updated_response. destruct (assess_slot st _ _) as [[[st1 t] s] p] eqn:Ha.
    apply assess_slot_spec in Ha as [_ Hframe]. assert (market st1 = market st) by by rewrite Hframe.
    unfold mret, outcome_ret. destruct (engine_7732_is_timeliness_violation s); [intros [= <- <-]; done|].
    intros (es & _ & Hrest)%outcome_bind_done. by case_match; simplify_eq.
  - intros Hresp. pose proof (new_payload_spec (now2 clock) st req) as Hspec.
    destruct (engine_collect_payload_transaction_entries req); [|congruence].
    destruct Hspec as (st1 & a1 & Hresp' & Hframe & _). rewrite Hresp in Hresp'. simplify_eq. by rewrite Hframe.
  - intros Hresp. apply Hg. by apply (registry_step_grows st (CallHeader (now2 clock) req) st' a).
  - intros [= Hresp]. apply Hg. apply (registry_step_grows st (CallEnvelope (now2 clock) req) st' a).
    cbn [registry_step]. by rewrite Hresp.
Qed.

(** ** The methods of the market *)

Section steps.
Context (st st' : NodeState) (answer : Value) (id : Z) (nft : MarketNft) (reqid params : Value).
Context (Hnft : market_nfts (market st) !! id = Some nft).

Definition same_owner : Prop := ∃ nft', market_nfts (market st') !! id = Some nft' ∧ mn_owner nft' = mn_owner nft.
(** The token has a new owner, named by the request, and is not listed. *)
Definition new_owner (rule : MarketNft → Prop) : Prop := ∃ nft', market_nfts (market st') !! id = Some nft' ∧
  mn_listed nft' = false ∧ str_param 0 params ≫= parse_hex_u64 = Some id ∧ rule nft'.
Definition transferred (nft' : MarketNft) : Prop :=
  address_param 1 params = Some (mn_owner nft) ∧ address_param 2 params = Some (mn_owner nft').
Definition sold (nft' : MarketNft) : Prop :=
  mn_listed nft = true ∧ address_param 1 params = Some (mn_owner nft').
Lemma market_unchanged : market st' = market st → same_owner.
Proof. unfold same_owner. intros ->. eauto. Qed.
Lemma mint_owner now : market_inv (market st) → next_market_token_id (market st) < u64_max →
  eth2077_marketMint now st reqid params = (st', answer) → same_owner.
Proof.
  intros Hinv Hnext. unfold eth2077_marketMint, same_owner.
  destruct (address_param 0 params); intros Hresp; [|simplify_eq; by eauto].
  injection Hresp as <- _. cbn [market with_ledger with_market market_nfts].
  destruct (mi_tokens _ Hinv _ _ Hnft) as [_ Hlt]. rewrite lookup_insert_ne by lia. eauto.
Qed.
Lemma buy_owner now : eth2077_marketBuy now st reqid params = (st', answer) → same_owner ∨ new_owner sold.
Proof.
  unfold eth2077_marketBuy, same_owner, new_owner, sold. intros Hresp.
  destruct (str_param 0 params ≫= parse_hex_u64) as [token_id|]; [|simplify_eq; by eauto].
  destruct (address_param 1 params) as [buyer|]; [|simplify_eq; by eauto].
  destruct (named_tx_error st buyer _ _ _); [simplify_eq; by eauto|].
  destruct (market_nfts (market st) !! token_id) as [found|] eqn:Hfound; [|simplify_eq; by eauto].
  destruct (mn_listed found) eqn:Hlisted; cbn [negb] in Hresp; [|simplify_eq; by eauto].
  case_bool_decide; [simplify_eq; by eauto|]. unfold sell_nft in Hresp. injection Hresp as <- _.
  cbn [put_nft market with_market market_nfts with_nfts].
  destruct (decide (token_id = id)) as [->|Hne]; [right|left; rewrite lookup_insert_ne by done; eauto].
  rewrite lookup_insert_eq. eexists. split; [done|]. by simplify_eq.
Qed.
Lemma transfer_owner : eth2077_marketTransfer st reqid params = (st', answer) → same_owner ∨ new_owner transferred.
Proof.
  unfold eth2077_marketTransfer, same_owner, new_owner, transferred. intros Hresp.
  destruct (str_param 0 params ≫= parse_hex_u64) as [token_id|]; [|simplify_eq; by eauto].
  destruct (address_param 1 params) as [from|]; [|simplify_eq; by eauto].
  destruct (address_param 2 params) as [to|]; [|simplify_eq; by eauto].
  destruct (named_tx_error st from _ _ _); [simplify_eq; by eauto|].
  destruct (market_nfts (market st) !! token_id) as [moved|] eqn:Hmoved; [|simplify_eq; by eauto].
  case_bool_decide as Hfrom; cbn [negb] in Hresp; [|simplify_eq; by eauto]. injection Hresp as <- _.
  cbn [put_nft market with_market market_nfts with_nfts].
  destruct (decide (token_id = id)) as [->|Hne]; [right|left; rewrite lookup_insert_ne by done; eauto].
  rewrite lookup_insert_eq. eexists. split; [done|]. by simplify_eq.
Qed.
Lemma relist_owner : eth2077_marketRelist st reqid params = (st', answer) → same_owner.
Proof.
  unfold eth2077_marketRelist, same_owner. intros Hresp.
  destruct (str_param 0 params ≫= parse_hex_u64) as [token_id|]; [|simplify_eq; by eauto].
  destruct (address_param 1 params) as [owner|]; [|simplify_eq; by eauto].
  destruct (str_param 2 params ≫= parse_hex_u128); [|simplify_eq; by eauto].
  destruct (market_nfts (market st) !! token_id) as [kept|] eqn:Hkept; [|simplify_eq; by eauto].
  case_bool_decide; cbn [negb] in Hresp; [|simplify_eq; by eauto]. injection Hresp as <- _.
  cbn [put_nft market with_market market_nfts with_nfts].
  destruct (decide (token_id = id)) as [->|Hne]; [|rewrite lookup_insert_ne by done; eauto].
  rewrite lookup_insert_eq. eexists. split; [done|]. by simplify_eq.
Qed.
End steps.

(** C20: A token never disappears, and a request changes its owner only as a transfer that
    names the old and the new owner, or as a sale of a listed token to the buyer it names;
    either way the token is no longer listed. *)
Theorem market_ownership (clock : Clock) (st st' : NodeState) (req answer : Value) (id : Z) (nft : MarketNft) :
  handle_jsonrpc clock st req = Done (st', answer) →
  market_inv (market st) → next_market_token_id (market st) < u64_max →
  market_nfts (market st) !! id = Some nft →
  same_owner st' id nft ∨
  new_owner st' id (req_params req) (λ nft',
    named (req_method req) "eth2077_marketTransfer" = true ∧ transferred nft (req_params req) nft' ∨
    named (req_method req) "eth2077_marketBuy" = true ∧ sold nft (req_params req) nft').
Proof.
  intros Hresp Hinv Hnext Hnft. revert Hresp. unfold mret, outcome_ret.
  destruct (handle_jsonrpc_handled clock st req) as [v Hv| | | | |r Hr| | |Hn|Hn|Hn|Hn]; intros Hresp.
  1-8: left; eapply market_unchanged; [exact Hnft|].
  - by apply reads_market in Hresp.
  - apply outcome_bind_done in Hresp as (? & _ & Hresp). by apply reads_market in Hresp.
  - by eapply estimate_market.
  - by eapply call_market.
  - by injection Hresp as <- <-.
  - apply outcome_bind_done in Hresp as ([st1 a1] & Hd & Hresp). injection Hresp as <- <-. by eapply engine_market.
  - by eapply send_market.
  - by eapply balance_market.
  - left. injection Hresp as Hresp. by eapply mint_owner.
  - injection Hresp as Hresp. destruct (buy_owner _ _ _ _ _ _ _ Hnft _ Hresp) as [?|(nft' & ? & ? & ? & ?)];
      [by left|right; exists nft'; eauto 10].
  - injection Hresp as Hresp. destruct (transfer_owner _ _ _ _ _ _ _ Hnft Hresp) as [?|(nft' & ? & ? & ? & ?)];
      [by left|right; exists nft'; eauto 10].
  - left. injection Hresp as Hresp. by eapply relist_owner.
Qed.
End ownership.
