(* ===== verification/DaemonExamples.v ===== *)
(** * A run of the daemon

    Instances of the classes, and a short run: an account is funded, sends a transaction,
    and a tick seals it.  The theorems about the daemon are applied to it. *)
From S2P Require Import Prelude Canonical Floats Strings Json DaemonHex DaemonState RawTx DaemonEvm Epbs EpbsViews Focil FrozenList Ledger LedgerProps Market ChainQueries DaemonRpc Http DaemonStart NodeInvariant MarketProps.
Local Open Scope Z_scope.

#[local] Existing Instance map_to_list_order.
#[local] Existing Instance example_hex_crate.
#[local] Existing Instance example_ruint.
#[local] Existing Instance example_alloy.
#[local] Existing Instance example_rlp.
#[local] Existing Instance example_evm_types.
#[local] Existing Instance example_daemon_evm.

Lemma example_hash_u64 (s : Str) (c salt : Z) : is_u64 ((len s + 4 * c + salt) mod (u64_max + 1)).
Proof. pose proof (Z.mod_pos_bound (len s + 4 * c + salt) (u64_max + 1)). unfold is_u64. lia. Qed.
#[local] Instance example_hasher : StdHasher := {|
  default_hash s c salt := (len s + 4 * c + salt) mod (u64_max + 1); default_hash_u64 := example_hash_u64 |}.
(** Answers are printed as nothing; three names stand for requests. *)
#[local] Instance example_json_text : JsonText := λ _, Ok [].
Definition sender : Str := str "0x1111111111111111111111111111111111111111".
Definition receiver : Str := str "0x2222222222222222222222222222222222222222".
Definition call (method : string) (params : list Value) : Value := obj
  ["jsonrpc" ⟼ text "2.0"; "id" ⟼ num 1; "method" ⟼ text method; "params" ⟼ VArray params].
(** A legacy transaction of one wei to [receiver], with one byte of data. *)
Definition raw_tx : Str := str "0xdc80018252089422222222222222222222222222222222222222220" ++ str "12a".
Definition fund : Value := call "eth2077_setBalance" [VString sender; text "0x64"].
Definition ask : Value := call "eth_getTransactionCount" [VString sender].
Definition send : Value := call "eth_sendRawTransaction" [VString raw_tx].
#[local] Instance example_json_parse : JsonParse := λ s,
  if str_eqb s (str "all") then Some (VArray [fund; ask; send]) else None.
Definition post_all : HttpRequest := read_request no_request
  [str "POST / HTTP/1.1" ++ crlf ++ str "Content-Length: 3" ++ crlf ++ crlf; str "all"].
Definition clocks (n : nat) : Clock := {| now1 := 1000; now2 := 1000; now3 := 1000 |}.
Definition example_config : Config := config_of_args [str "--nodes"; str "7"].
Definition example_spec : Value := obj ["chain_id" ⟼ num 2077].
Definition start : NodeState := build_state 900 example_config example_spec.
Definition sent : NodeState := from_done start (daemon_run start [Ticked 950; Served clocks post_all]).
Definition run : list DaemonEvent := [Ticked 950; Served clocks post_all; Ticked 1012].
Definition sealed : NodeState := from_done start (daemon_run start run).

(** ** The theorems on this run *)

Lemma daemon_invariant_witness : node_inv sealed ∧ current_height sealed = 2 ∧ chain_id (info sealed) = 2077.
Proof.
  destruct (daemon_invariant 900 example_config example_spec run sealed) as (Hinv & Hheight & Hinfo);
    [vm_compute; discriminate|apply done_from_done; vm_compute; reflexivity|].
  split; [exact Hinv|]. split; [exact Hheight|]. rewrite Hinfo. reflexivity.
Defined.
Lemma tick_seals_pending_witness :
  length (pending_txs (ledger sent)) = 1%nat ∧ pending_txs (ledger (tick 1012 sent)) = [] ∧
  block_txs (ledger (tick 1012 sent)) !! 2 = Some (pending_txs (ledger sent)).
Proof.
  split; [vm_compute; reflexivity|].
  assert (Hnd : NoDup (pending_txs (ledger sent))) by (apply (bool_decide_unpack _); vm_compute; exact I).
  destruct (tick_seals_pending 1012 sent Hnd) as (_ & _ & Hp & _ & Hb & _).
  split; [exact Hp|]. rewrite Hb. vm_compute. reflexivity.
Defined.

Definition log_filter : Value := obj ["fromBlock" ⟼ text "0x1"; "address" ⟼ VString receiver].
(** One log answers the filter. *)
Lemma get_logs_example :
  eth_getLogs sealed VNull (VArray [log_filter]) = jsonrpc_response VNull (VArray [tx_log_to_json
    {| tl_address := receiver; tl_topics := []; tl_data := str "0x2a"; tl_block_number := Some 2;
       tl_block_hash := Some (block_hash 2); tl_transaction_hash := Some raw_tx;
       tl_transaction_index := Some 0; tl_log_index := Some 0 |}]).
Proof. vm_compute. reflexivity. Qed.

Lemma block_lookup_roundtrip_witness :
  eth_getBlockByHash sealed VNull (VArray [VString (block_hash 2); VBool true]) =
  eth_getBlockByNumber sealed VNull (VArray [VString (hex_u64 2); VBool true]).
Proof.
  refine (proj1 (block_lookup_roundtrip sealed VNull 2 true _ _)); vm_compute; [split|]; done.
Defined.

(** [sender]'s nonce is one by now: sending the transaction again is refused. *)
Definition asked : NodeState := (eth_getTransactionCount sealed VNull (VArray [VString sender])).1.
Definition decoded_tx : DecodedRawTx :=
  match decode_raw_tx raw_tx with Done (Ok d) => d | _ => {| dr_tx_type := 0; dr_chain_id := None; dr_nonce := 0;
    dr_gas_limit := 0; dr_gas_price := 0; dr_max_priority_fee_per_gas := None; dr_max_fee_per_blob_gas := None;
    dr_blob_hashes := []; dr_authorizations := []; dr_to := None; dr_value := 0; dr_data := [] |} end.
Definition sender_address : Address := default [] (address_from_hex sender).
Lemma refused_execution_erases_accounts_witness :
  account_balance_from_db (evm_db (ledger asked)) sender_address = 99 ∧
  no_accounts (execute_evm_transaction asked sender_address decoded_tx true 3 1036).1.
Proof.
  split; [vm_compute; reflexivity|].
  refine (proj1 (refused_execution_erases_accounts asked sender_address decoded_tx true 3 1036
    (str "evm transaction failed: nonce") _)). vm_compute. reflexivity.
Defined.

(** A request, a notification and a number. *)
Definition batch : list Value := [call "net_version" []; obj ["method" ⟼ text "eth_chainId"]; num 5].
Lemma payload_answers_witness : ∃ responses,
  Forall2 answers_to [num 1; VNull] responses ∧ length responses = 2%nat.
Proof.
  destruct (payload_answers clocks start start (VArray batch)
    (Some (VArray [jsonrpc_response (num 1) (text "2077"); invalid_request]))) as (responses & Hall & _).
  - vm_compute. reflexivity.
  - exists responses. split; [exact Hall|]. symmetry. exact (Forall2_length _ _ _ Hall).
Defined.

Definition transfer : Value := call "eth2077_marketTransfer" [text "0x1"; VString MARKET_MERCHANT_ADDRESS; VString receiver].
Lemma market_ownership_witness :
  let st' := from_done (start, VNull) (handle_jsonrpc (clocks 0) start transfer) in
  ∃ nft nft', market_nfts (market start) !! 1 = Some nft ∧ market_nfts (market st'.1) !! 1 = Some nft' ∧
    mn_owner nft' = receiver ∧
    (same_owner st'.1 1 nft ∨ new_owner st'.1 1 (req_params transfer) (λ nft',
      named (req_method transfer) "eth2077_marketTransfer" = true ∧ transferred nft (req_params transfer) nft' ∨
      named (req_method transfer) "eth2077_marketBuy" = true ∧ sold nft (req_params transfer) nft')).
Proof.
  set (nft := default {| mn_token_id := 0; mn_name := []; mn_description := []; mn_image := []; mn_owner := [];
    mn_listed := false; mn_price_wei := 0; mn_created_at_unix_s := 0; mn_last_tx_hash := None |}).
  set (st' := (from_done (start, VNull) (handle_jsonrpc (clocks 0) start transfer)).1).
  exists (nft (market_nfts (market start) !! 1)), (nft (market_nfts (market st') !! 1)).
  do 3 (split; [vm_compute; reflexivity|]).
  refine (market_ownership (clocks 0) start _ transfer
    (from_done (start, VNull) (handle_jsonrpc (clocks 0) start transfer)).2 1 _ _ _ _ _).
  - vm_compute. reflexivity.
  - exact (ni_market _ (build_state_inv 900 example_config example_spec)).
  - vm_compute. reflexivity.
  - vm_compute. reflexivity.
Defined.

(** ** What the code does not prevent *)

Definition request (st : NodeState) (req : Value) : NodeState :=
  (from_done (st, VNull) (handle_jsonrpc (clocks 0) st req)).1.
(** The sender of a raw transaction is whoever was asked about last: the same signed bytes
    are executed for a second account, and the record of the sealed one is overwritten. *)
Lemma same_tx_for_two_senders :
  let hash := bytes_to_hex (default [] (parse_hex_bytes raw_tx)) in
  let again := foldl request sealed
    [call "eth2077_setBalance" [VString receiver; text "0x64"];
     call "eth_getTransactionCount" [VString receiver]; send] in
  (tx_from <$> txs (ledger sealed) !! hash) = Some sender ∧
  (tx_block_number <$> txs (ledger sealed) !! hash) = Some (Some 2) ∧
  (tx_from <$> txs (ledger again) !! hash) = Some receiver ∧
  (tx_block_number <$> txs (ledger again) !! hash) = Some None ∧ pending_txs (ledger again) = [hash].
Proof. vm_compute. done. Qed.
(** A method is advertised that no request reaches. *)
Lemma get_payload_v3_not_served :
  handle_jsonrpc (clocks 0) start (call "engine_getPayloadV3" []) =
    Done (start, jsonrpc_error (num 1) (-32601) (str "method not found: engine_getPayloadV3")).
Proof. vm_compute. reflexivity. Qed.
(** A value of more than 256 bits panics, on the thread that serves requests. *)
Lemma oversized_value_panics :
  handle_jsonrpc (clocks 0) start (call "eth_call"
    [obj ["value" ⟼ VString (str "0x" ++ replicate 66 49)]]) = Panics.
Proof. vm_compute. reflexivity. Qed.
(** A block is answered for any number, however far ahead of the chain. *)
Lemma block_of_the_future :
  ∃ block, eth_getBlockByNumber start VNull (VArray [text "0xffff"]) = jsonrpc_response VNull (VObject block) ∧
    get "hash" (VObject block) = Some (VString (block_hash 65535)) ∧
    eth_getBlockByHash start VNull (VArray [VString (block_hash 65535)]) = jsonrpc_response VNull VNull.
Proof.
  exists (match build_block_response start 65535 false with VObject block => block | _ => [] end).
  split; [vm_compute; reflexivity|]. split; vm_compute; reflexivity.
Qed.
(** A sale needs no payment. *)
Lemma sale_without_payment :
  let bought := request start (call "eth2077_marketBuy" [text "0x1"; VString receiver]) in
  (mn_owner <$> market_nfts (market bought) !! 1) = Some receiver ∧
  evm_db (ledger bought) = evm_db (ledger start).
Proof. vm_compute. done. Qed.
