(* ===== verification/MultidimFees.v ===== *)
(** * Multidimensional fees, EIP-7999 ([eth2077-types/src/eip7999.rs])

    One [max_fee] pays for the usage of several resource dimensions, each with its own base
    fee: the base cost of a transaction, the split of the fee it pays, and the update of
    the base fees after a block. *)
From S2P Require Import Prelude Validation.
Local Open Scope Z_scope.

(* eth2077-types/src/eip7999.rs:5-10 ResourceDimension *)
Inductive ResourceDimension := Computation | Calldata | BlobData | Storage.
#[export] Instance ResourceDimension_eq_dec : EqDecision ResourceDimension.
Proof. solve_decision. Defined.
#[export] Program Instance ResourceDimension_finite : Finite ResourceDimension :=
  {| enum := [Computation; Calldata; BlobData; Storage] |}.
Next Obligation. by apply (bool_decide_unpack _). Qed.
Next Obligation. intros []; set_solver. Qed.

(* eth2077-types/src/eip7999.rs:13-19 DimensionParams *)
Record DimensionParams := {
  dp_dimension : ResourceDimension;
  dp_base_fee : Z;
  dp_target_usage : Z;
  dp_max_usage : Z;
  dp_elasticity_multiplier : Z;
}.
(* eth2077-types/src/eip7999.rs:22-26 MultidimTransaction *)
Record MultidimTransaction := {
  mt_max_fee : Z;
  mt_resource_usage : list (ResourceDimension * Z);
  mt_priority_fee : Z;
}.
(* eth2077-types/src/eip7999.rs:29-34 FeeAllocation *)
Record FeeAllocation := {
  fa_dimension : ResourceDimension;
  fa_base_cost : Z;
  fa_allocated_fee : Z;
  fa_usage : Z;
}.
(* eth2077-types/src/eip7999.rs:37-43 MultidimFeeResult *)
Record MultidimFeeResult := {
  mf_total_base_cost : Z;
  mf_total_fee : Z;
  mf_priority_fee_paid : Z;
  mf_allocations : list FeeAllocation;
  mf_is_sufficient : bool;
}.
(* eth2077-types/src/eip7999.rs:46-63 MultidimFeeError *)
Inductive MultidimFeeError :=
| InsufficientFee (required provided : Z)
| ExceedsMaxUsage (dimension : ResourceDimension) (usage max : Z)
| ZeroBaseFee (dimension : ResourceDimension)
| DuplicateDimension (dimension : ResourceDimension)
| NoResourceUsage.

(* eth2077-types/src/eip7999.rs:65-72 find_params *)
Definition find_params (params : list DimensionParams) (dimension : ResourceDimension) : option DimensionParams :=
  snd <$> list_find (λ candidate, dp_dimension candidate = dimension) params.

(** ** The base cost *)

(* eth2077-types/src/eip7999.rs:85-116 compute_base_cost *)
Fixpoint base_cost_loop (params : list DimensionParams) (seen : gset ResourceDimension) (total : Z)
    (resource_usage : list (ResourceDimension * Z)) : result Z MultidimFeeError :=
  match resource_usage with
  | [] => Ok total
  | (dimension, usage) :: rest =>
      if bool_decide (dimension ∈ seen) then Err (DuplicateDimension dimension) else
      match find_params params dimension with
      | None => Err (ZeroBaseFee dimension)
      | Some dimension_params =>
          if dp_base_fee dimension_params =? 0 then Err (ZeroBaseFee dimension) else
          if dp_max_usage dimension_params <? usage
          then Err (ExceedsMaxUsage dimension usage (dp_max_usage dimension_params)) else
          let base_cost := u128_saturating_mul (dp_base_fee dimension_params) usage in
          base_cost_loop params ({[dimension]} ∪ seen) (u128_saturating_add total base_cost) rest
      end
  end.
(* eth2077-types/src/eip7999.rs:74-117 compute_base_cost *)
Definition compute_base_cost (params : list DimensionParams) (tx : MultidimTransaction)
  : result Z MultidimFeeError :=
  if bool_decide (mt_resource_usage tx = []) then Err NoResourceUsage else
  base_cost_loop params ∅ 0 (mt_resource_usage tx).

(** ** The allocation *)

(** [expect] panics when a dimension is not found. *)
(* eth2077-types/src/eip7999.rs:137-146 compute_fee_allocation *)
Fixpoint base_allocations (params : list DimensionParams) (resource_usage : list (ResourceDimension * Z))
  : outcome (list FeeAllocation) :=
  match resource_usage with
  | [] => Done []
  | (dimension, usage) :: rest =>
      match find_params params dimension with
      | None => Panics
      | Some dimension_params =>
          let base_cost := u128_saturating_mul (dp_base_fee dimension_params) usage in
          allocations ← base_allocations params rest;
          mret ({| fa_dimension := dimension; fa_base_cost := base_cost;
                   fa_allocated_fee := base_cost; fa_usage := usage |} :: allocations)
      end
  end.
Definition add_fee (amount : Z) (a : FeeAllocation) : FeeAllocation :=
  {| fa_dimension := fa_dimension a; fa_base_cost := fa_base_cost a;
     fa_allocated_fee := u128_saturating_add (fa_allocated_fee a) amount; fa_usage := fa_usage a |}.
(** [allocations[0].allocated_fee = ...], on a vector known not to be empty. *)
Definition add_to_first (amount : Z) (allocations : list FeeAllocation) : list FeeAllocation :=
  match allocations with [] => [] | a :: rest => add_fee amount a :: rest end.
(** The divisor is positive where this is used. *)
(* eth2077-types/src/eip7999.rs:152-155 compute_fee_allocation *)
Definition priority_share (priority_fee_paid total_base_cost : Z) (a : FeeAllocation) : Z :=
  u128_saturating_mul priority_fee_paid (fa_base_cost a) / total_base_cost.
(* eth2077-types/src/eip7999.rs:148-167 compute_fee_allocation *)
Definition distribute_priority (priority_fee_paid total_base_cost : Z) (allocations : list FeeAllocation)
  : list FeeAllocation :=
  if (0 <? priority_fee_paid) && negb (bool_decide (allocations = [])) then
    if 0 <? total_base_cost then
      let shares := priority_share priority_fee_paid total_base_cost <$> allocations in
      let distributed := foldl u128_saturating_add 0 shares in
      let remainder := u128_saturating_sub priority_fee_paid distributed in
      add_to_first remainder (zip_with add_fee shares allocations)
    else add_to_first priority_fee_paid allocations
  else allocations.
(* eth2077-types/src/eip7999.rs:119-176 compute_fee_allocation *)
Definition compute_fee_allocation (params : list DimensionParams) (tx : MultidimTransaction)
  : outcome (result MultidimFeeResult MultidimFeeError) :=
  match compute_base_cost params tx with
  | Err e => Done (Err e)
  | Ok total_base_cost =>
      let is_sufficient := total_base_cost <=? mt_max_fee tx in
      if negb is_sufficient then Done (Err (InsufficientFee total_base_cost (mt_max_fee tx))) else
      let remaining := u128_saturating_sub (mt_max_fee tx) total_base_cost in
      let priority_fee_paid := Z.min (mt_priority_fee tx) remaining in
      allocations ← base_allocations params (mt_resource_usage tx);
      mret (Ok {| mf_total_base_cost := total_base_cost;
                  mf_total_fee := u128_saturating_add total_base_cost priority_fee_paid;
                  mf_priority_fee_paid := priority_fee_paid;
                  mf_allocations := distribute_priority priority_fee_paid total_base_cost allocations;
                  mf_is_sufficient := is_sufficient |})
  end.

(** ** Updating the base fees *)

(* eth2077-types/src/eip7999.rs:179-196 update_base_fees *)
Definition update_base_fee (actual_usage : list (ResourceDimension * Z)) (p : DimensionParams) : DimensionParams :=
  let usage := default 0 (snd <$> (snd <$> list_find (λ u, u.1 = dp_dimension p) actual_usage)) in
  let adjustment := dp_base_fee p / 8 in
  let base_fee :=
    if dp_target_usage p <? usage then u128_saturating_add (dp_base_fee p) adjustment
    else if usage <? dp_target_usage p then u128_saturating_sub (dp_base_fee p) adjustment
    else dp_base_fee p in
  {| dp_dimension := dp_dimension p; dp_base_fee := if base_fee =? 0 then 1 else base_fee;
     dp_target_usage := dp_target_usage p; dp_max_usage := dp_max_usage p;
     dp_elasticity_multiplier := dp_elasticity_multiplier p |}.
(* eth2077-types/src/eip7999.rs:178-197 update_base_fees *)
Definition update_base_fees (params : list DimensionParams) (actual_usage : list (ResourceDimension * Z))
  : list DimensionParams := update_base_fee actual_usage <$> params.

(** ** Validation *)

(* eth2077-types/src/eip7999.rs:213-231 validate_multidim_transaction *)
Fixpoint usage_errors (params : list DimensionParams) (seen duplicate_reported : gset ResourceDimension)
    (required : Z) (resource_usage : list (ResourceDimension * Z)) : list MultidimFeeError * Z :=
  match resource_usage with
  | [] => ([], required)
  | (dimension, usage) :: rest =>
      let again := bool_decide (dimension ∈ seen) in
      let report := again && bool_decide (dimension ∉ duplicate_reported) in
      let duplicate_reported := if again then {[dimension]} ∪ duplicate_reported else duplicate_reported in
      let '(errors, required) :=
        match find_params params dimension with
        | Some dimension_params =>
            (push_if (dp_max_usage dimension_params <? usage)
               (ExceedsMaxUsage dimension usage (dp_max_usage dimension_params)),
             u128_saturating_add required (u128_saturating_mul (dp_base_fee dimension_params) usage))
        | None => ([], required)
        end in
      let '(later, required) := usage_errors params ({[dimension]} ∪ seen) duplicate_reported required rest in
      (push_if report (DuplicateDimension dimension) ++ errors ++ later, required)
  end.
(* eth2077-types/src/eip7999.rs:199-245 validate_multidim_transaction *)
Definition validate_multidim_transaction (params : list DimensionParams) (tx : MultidimTransaction)
  : result unit (list MultidimFeeError) :=
  let '(errors, required) := usage_errors params ∅ ∅ 0 (mt_resource_usage tx) in
  errors_to_result (
    push_if (bool_decide (mt_resource_usage tx = [])) NoResourceUsage ++ errors ++
    push_if (mt_max_fee tx <? required) (InsufficientFee required (mt_max_fee tx))).

(** ** What a transaction pays *)

Section fees.
Context (params : list DimensionParams).

Definition usage_cost (u : ResourceDimension * Z) : Z :=
  match find_params params u.1 with Some p => u128_saturating_mul (dp_base_fee p) u.2 | None => 0 end.
(** The dimension has a base fee and the usage is within its limit. *)
Definition priced (u : ResourceDimension * Z) : Prop :=
  ∃ p, find_params params u.1 = Some p ∧ dp_base_fee p ≠ 0 ∧ u.2 ≤ dp_max_usage p.
Definition base_total (usage : list (ResourceDimension * Z)) : Z :=
  Z.min (Zsum (usage_cost <$> usage)) u128_max.
Record payable (tx : MultidimTransaction) : Prop := {
  payable_usage : mt_resource_usage tx ≠ [];
  payable_distinct : NoDup (mt_resource_usage tx).*1;
  payable_priced : Forall priced (mt_resource_usage tx);
  payable_covered : base_total (mt_resource_usage tx) ≤ mt_max_fee tx;
}.
(** The fields are of their Rust types. *)
Record well_typed (tx : MultidimTransaction) : Prop := {
  typed_fees : Forall (λ p, is_u128 (dp_base_fee p)) params;
  typed_usage : Forall (λ u, is_u64 u.2) (mt_resource_usage tx);
  typed_max_fee : is_u128 (mt_max_fee tx);
  typed_priority_fee : is_u128 (mt_priority_fee tx);
}.

Lemma find_params_elem d p : find_params params d = Some p → p ∈ params ∧ dp_dimension p = d.
Proof.
  unfold find_params. destruct (list_find _ _) as [[i q]|] eqn:Hf; [|done]. intros [= <-].
  apply list_find_Some in Hf as (Hi & Hd & _). split; [by eapply list_elem_of_lookup_2|done].
Qed.
Lemma base_cost_loop_ok seen total usage c :
  base_cost_loop params seen total usage = Ok c ↔
  NoDup usage.*1 ∧ Forall (λ u, u.1 ∉ seen) usage ∧ Forall priced usage ∧
  c = foldl u128_saturating_add total (usage_cost <$> usage).
Proof.
  revert seen total. induction usage as [|[d u] usage IH]; intros seen total; csimpl.
  { split; [intros [= <-]; by repeat constructor|by intros (_ & _ & _ & ->)]. }
  rewrite NoDup_cons, !Forall_cons. cbn [fst].
  assert (priced (d, u) ↔ ∃ p, find_params params d = Some p ∧ dp_base_fee p ≠ 0 ∧ u ≤ dp_max_usage p)
    as -> by done.
  case_bool_decide as Hd; [split; [done|tauto]|].
  destruct (find_params params d) as [p|] eqn:Hp; [|split; [done|by intros (_ & _ & [(? & ? & _) _] & _)]].
  destruct (Z.eqb_spec (dp_base_fee p) 0); [split; [done|]; intros (_ & _ & [(? & [= <-] & ? & _) _] & _); lia|].
  destruct (Z.ltb_spec (dp_max_usage p) u) as [Hlt|Hle];
    [split; [done|]; intros (_ & _ & [(? & [= <-] & _ & ?) _] & _); lia|].
  rewrite IH, (Forall_not_seen fst). unfold usage_cost at 2. cbn [fst snd]. rewrite Hp.
  split; [|tauto]. intros (? & [? ?] & ? & ?). split_and!; try done. by exists p.
Qed.

Lemma usage_cost_u128 u :
  Forall (λ p, is_u128 (dp_base_fee p)) params → is_u64 u.2 → is_u128 (usage_cost u).
Proof.
  intros Hp Hu. unfold usage_cost. destruct (find_params params u.1) as [p|] eqn:Hf; [|sat128_lia].
  apply find_params_elem in Hf as [Hf _]. rewrite Forall_forall in Hp. apply Hp in Hf.
  apply u128_saturating_mul_u128; sat128_lia.
Qed.
Lemma usage_costs_u128 usage :
  Forall (λ p, is_u128 (dp_base_fee p)) params → Forall (λ u, is_u64 u.2) usage →
  Forall is_u128 (usage_cost <$> usage).
Proof.
  intros Hp Hu. apply Forall_fmap. eapply Forall_impl; [done|]. intros u. by apply usage_cost_u128.
Qed.
Lemma is_u128_nonneg l : Forall is_u128 l → Forall (λ z, 0 ≤ z) l.
Proof. intros Hl. eapply Forall_impl; [done|]. sat128_lia. Qed.

Lemma compute_base_cost_ok tx c :
  well_typed tx →
  compute_base_cost params tx = Ok c ↔
  mt_resource_usage tx ≠ [] ∧ NoDup (mt_resource_usage tx).*1 ∧
  Forall priced (mt_resource_usage tx) ∧ c = base_total (mt_resource_usage tx).
Proof.
  intros [Hfees Husage _ _]. unfold compute_base_cost. case_bool_decide; [naive_solver|].
  rewrite base_cost_loop_ok, foldl_u128_saturating_add by
    (sat128_lia || by apply is_u128_nonneg, usage_costs_u128).
  pose proof (Forall_not_empty (B := ResourceDimension) fst (mt_resource_usage tx)).
  unfold base_total. rewrite Z.add_0_l. tauto.
Qed.

Definition base_allocation (u : ResourceDimension * Z) : FeeAllocation :=
  {| fa_dimension := u.1; fa_base_cost := usage_cost u; fa_allocated_fee := usage_cost u; fa_usage := u.2 |}.
Lemma base_allocations_done usage :
  Forall priced usage → base_allocations params usage = Done (base_allocation <$> usage).
Proof.
  induction 1 as [|[d u] usage (p & Hp & _) _ IH]; [done|]. cbn [base_allocations].
  unfold base_allocation, usage_cost. csimpl. simpl in Hp. rewrite Hp, IH. done.
Qed.

(** *** Distributing the priority fee *)

Lemma shares_nonneg pf t allocations :
  0 ≤ pf → 0 < t → Forall (λ a, 0 ≤ fa_base_cost a) allocations →
  Forall (λ z, 0 ≤ z) (priority_share pf t <$> allocations).
Proof.
  intros Hpf Ht Ha. apply Forall_fmap. eapply Forall_impl; [done|]. intros a Hb. cbn beta in *.
  apply Z.div_pos; [|done]. assert (0 ≤ pf * fa_base_cost a) by nia. sat128_lia.
Qed.
Lemma shares_sum pf t allocations :
  0 ≤ pf → 0 < t → Forall (λ a, 0 ≤ fa_base_cost a) allocations →
  Zsum (priority_share pf t <$> allocations) * t ≤ pf * Zsum (fa_base_cost <$> allocations).
Proof.
  intros Hpf Ht. induction 1 as [|a l Ha _ IH]; csimpl; [lia|].
  pose proof (Z.mul_div_le (u128_saturating_mul pf (fa_base_cost a)) t Ht) as Hs.
  assert (u128_saturating_mul pf (fa_base_cost a) ≤ pf * fa_base_cost a) by sat128_lia.
  unfold priority_share at 1. nia.
Qed.
Lemma add_fees_sum shares allocations :
  length shares = length allocations →
  Forall (λ z, 0 ≤ z) shares → Forall (λ a, 0 ≤ fa_allocated_fee a) allocations →
  Zsum shares + Zsum (fa_allocated_fee <$> allocations) ≤ u128_max →
  Zsum (fa_allocated_fee <$> zip_with add_fee shares allocations) =
  Zsum shares + Zsum (fa_allocated_fee <$> allocations).
Proof.
  intros Hlen Hs. revert allocations Hlen. induction Hs as [|s shares Hs Hss IH];
    intros [|a l] Hlen Ha Hsum; simplify_eq/=; csimpl in *; [done|].
  apply Forall_cons in Ha as [Ha Hl]. pose proof (Zsum_nonneg _ Hss).
  assert (0 ≤ Zsum (fa_allocated_fee <$> l)) by (apply Zsum_nonneg; by apply Forall_fmap).
  rewrite IH by (done || lia). sat128_lia.
Qed.

(** The allocation of a usage: its base cost and a part of the priority fee. *)
Definition allocated (u : ResourceDimension * Z) (a : FeeAllocation) : Prop :=
  fa_dimension a = u.1 ∧ fa_usage a = u.2 ∧ fa_base_cost a = usage_cost u ∧
  usage_cost u ≤ fa_allocated_fee a ≤ u128_max.

Lemma allocated_base usage :
  Forall (λ u, is_u128 (usage_cost u)) usage → Forall2 allocated usage (base_allocation <$> usage).
Proof.
  induction 1 as [|u l Hu _ IH]; csimpl; constructor; [|done]. repeat split; simpl; sat128_lia.
Qed.
Lemma allocated_add_fee amount u a :
  0 ≤ amount → is_u128 (usage_cost u) → allocated u a → allocated u (add_fee amount a).
Proof. intros ?? (? & ? & ? & ?). repeat split; try done; simpl; sat128_lia. Qed.
Lemma allocated_add_to_first amount usage allocations :
  0 ≤ amount → Forall (λ u, is_u128 (usage_cost u)) usage →
  Forall2 allocated usage allocations → Forall2 allocated usage (add_to_first amount allocations).
Proof.
  intros Ham Hu Ha. revert Hu. destruct Ha as [|u a usage' l Ha Hl]; [by constructor|].
  intros [Hu _]%Forall_cons. constructor; [by apply allocated_add_fee|done].
Qed.
Lemma allocated_add_fees shares usage allocations :
  Forall (λ z, 0 ≤ z) shares → length shares = length allocations →
  Forall (λ u, is_u128 (usage_cost u)) usage →
  Forall2 allocated usage allocations → Forall2 allocated usage (zip_with add_fee shares allocations).
Proof.
  intros Hs Hlen Hu Ha. revert shares Hu Hs Hlen. induction Ha as [|u a usage l Ha Hl IH];
    intros [|s shares] Hu Hs Hlen; simplify_eq/=; constructor; decompose_Forall_hyps.
  - by apply allocated_add_fee.
  - by apply IH.
Qed.
Lemma allocated_distribute pf t usage :
  0 ≤ pf → Forall (λ u, is_u128 (usage_cost u)) usage →
  Forall2 allocated usage (distribute_priority pf t (base_allocation <$> usage)).
Proof.
  intros Hpf Hu. pose proof (allocated_base _ Hu) as Hb.
  unfold distribute_priority. case_if_goal; [|done].
  destruct (Z.ltb_spec 0 t) as [Ht|]; [|by apply allocated_add_to_first].
  apply allocated_add_to_first; [sat128_lia|done|].
  apply allocated_add_fees; [|by rewrite length_fmap|done..].
  apply shares_nonneg; [done..|]. apply Forall_fmap. eapply Forall_impl; [done|].
  intros u. cbn. sat128_lia.
Qed.

Lemma add_to_first_sum amount allocations :
  0 ≤ amount → allocations ≠ [] → Forall (λ a, 0 ≤ fa_allocated_fee a) allocations →
  Zsum (fa_allocated_fee <$> allocations) + amount ≤ u128_max →
  Zsum (fa_allocated_fee <$> add_to_first amount allocations) =
  Zsum (fa_allocated_fee <$> allocations) + amount.
Proof.
  destruct allocations as [|a l]; [done|]. intros ? _ [Ha Hl]%Forall_cons Hsum. csimpl in *.
  assert (0 ≤ Zsum (fa_allocated_fee <$> l)) by (apply Zsum_nonneg; by apply Forall_fmap).
  sat128_lia.
Qed.
(** Nothing is lost in the rounding. *)
Lemma distribute_sum pf usage :
  let t := Zsum (usage_cost <$> usage) in
  0 ≤ pf → usage ≠ [] → Forall (λ u, is_u128 (usage_cost u)) usage → t + pf ≤ u128_max →
  Zsum (fa_allocated_fee <$> distribute_priority pf t (base_allocation <$> usage)) = t + pf.
Proof.
  intros t Hpf Hne Hu Hfit. set (allocations := base_allocation <$> usage).
  assert (fa_allocated_fee <$> allocations = usage_cost <$> usage) as Hall
    by (unfold allocations; by rewrite <- list_fmap_compose).
  assert (fa_base_cost <$> allocations = usage_cost <$> usage) as Hbase
    by (unfold allocations; by rewrite <- list_fmap_compose).
  assert (allocations ≠ []) by (by destruct usage).
  assert (Forall (λ a, 0 ≤ fa_allocated_fee a) allocations) as Hnn.
  { apply Forall_fmap. eapply Forall_impl; [done|]. intros u. cbn. sat128_lia. }
  assert (Forall (λ a, 0 ≤ fa_base_cost a) allocations) as Hnb.
  { apply Forall_fmap. eapply Forall_impl; [done|]. intros u. cbn. sat128_lia. }
  unfold distribute_priority. fold allocations.
  rewrite (bool_decide_eq_false_2 (allocations = [])), andb_true_r by done.
  destruct (Z.ltb_spec 0 pf) as [Hlt|]; [|rewrite Hall; unfold t; lia].
  destruct (Z.ltb_spec 0 t) as [Ht|]; [|rewrite add_to_first_sum, Hall by (rewrite ?Hall; done); done].
  set (shares := priority_share pf t <$> allocations).
  assert (Forall (λ z, 0 ≤ z) shares) as Hsh by (by apply shares_nonneg).
  assert (Zsum shares ≤ pf) as Hle.
  { pose proof (shares_sum pf t allocations Hpf Ht Hnb) as Hs. rewrite Hbase in Hs. fold shares t in Hs. nia. }
  pose proof (Zsum_nonneg _ Hsh).
  rewrite foldl_u128_saturating_add by (done || sat128_lia).
  assert (Zsum (fa_allocated_fee <$> zip_with add_fee shares allocations) = Zsum shares + t) as Hz.
  { rewrite add_fees_sum by (rewrite ?Hall; fold t; done || lia || by unfold shares; rewrite length_fmap).
    by rewrite Hall. }
  rewrite add_to_first_sum.
  - rewrite Hz. sat128_lia.
  - sat128_lia.
  - unfold shares. by destruct allocations.
  - assert (Forall2 allocated usage (zip_with add_fee shares allocations)) as H2.
    { apply allocated_add_fees; [done|by unfold shares; rewrite length_fmap|done|by apply allocated_base]. }
    clear -H2 Hu. induction H2 as [|u a ? ? (_ & _ & _ & ?) _ IH]; constructor; decompose_Forall_hyps;
      [sat128_lia|by apply IH].
  - rewrite Hz. sat128_lia.
Qed.
End fees.

(** C25: [compute_fee_allocation] never panics.  It succeeds exactly for a transaction that
    uses something, names no dimension twice, uses only dimensions with a base fee and
    within their limits, and whose maximum fee covers the base costs.  It then charges the
    base costs and the priority fee, the latter cut to what the maximum fee leaves; every
    used dimension is allocated its base cost and a part of the priority fee, and the
    allocations add up to the fee charged, whatever was lost in dividing it. *)
Theorem fee_allocation_conserves params tx :
  well_typed params tx →
  ∃ answer, compute_fee_allocation params tx = Done answer ∧
  match answer with
  | Err _ => ¬ payable params tx
  | Ok r =>
      payable params tx ∧
      mf_total_base_cost r = base_total params (mt_resource_usage tx) ∧
      mf_total_fee r = Z.min (mt_max_fee tx) (mf_total_base_cost r + mt_priority_fee tx) ∧
      mf_total_fee r = mf_total_base_cost r + mf_priority_fee_paid r ∧
      Forall2 (allocated params) (mt_resource_usage tx) (mf_allocations r) ∧
      Z.min (Zsum (fa_allocated_fee <$> mf_allocations r)) u128_max = mf_total_fee r
  end.
Proof.
  intros Htyped. pose proof (λ c, compute_base_cost_ok params tx c Htyped) as Hcost.
  destruct Htyped as [Hfees Husage Hmax Hprio]. pose proof (usage_costs_u128 _ _ Hfees Husage) as Hu.
  unfold compute_fee_allocation. destruct (compute_base_cost params tx) as [t|e] eqn:Ht; cycle 1.
  { eexists. split; [done|]. intros [????].
    by assert (Err e = Ok (base_total params (mt_resource_usage tx))) by (by apply Hcost). }
  specialize (Hcost t) as [(Hne & Hnd & Hpr & ->) _]; [done|]. clear Ht. set (usage := mt_resource_usage tx) in *.
  destruct (Z.leb_spec (base_total params usage) (mt_max_fee tx)) as [Hle|Hgt]; simpl; cycle 1.
  { eexists. split; [done|]. intros [???]. fold usage in payable_covered0. lia. }
  rewrite base_allocations_done by done. eexists. split; [done|]. simpl.
  pose proof (Zsum_nonneg _ (is_u128_nonneg _ Hu)) as Hnn. rewrite Forall_fmap in Hu.
  set (pf := Z.min _ _). assert (0 ≤ pf) by (unfold pf; sat128_lia).
  assert (base_total params usage + pf = Z.min (mt_max_fee tx) (base_total params usage + mt_priority_fee tx))
    as Hfee by (unfold pf; sat128_lia).
  assert (u128_saturating_add (base_total params usage) pf = base_total params usage + pf) as Hadd
    by (unfold pf; sat128_lia).
  split_and!; [by constructor|done|by rewrite Hadd|done|by apply allocated_distribute|].
  rewrite Hadd. destruct (decide (pf = 0)) as [Hpf|Hpf].
  - unfold distribute_priority. rewrite Hpf. simpl. rewrite Z.add_0_r, <- list_fmap_compose. done.
  - assert (base_total params usage = Zsum (usage_cost params <$> usage)) as Hbt.
    { unfold base_total, pf in *. sat128_lia. }
    rewrite Hbt, distribute_sum by (done || unfold pf in *; sat128_lia). rewrite <- Hbt, Hfee. sat128_lia.
Qed.

(** ** How base fees move *)

Lemma update_base_fee_bounds actual p :
  is_u128 (dp_base_fee p) →
  let p' := update_base_fee actual p in
  1 ≤ dp_base_fee p' ≤ u128_max ∧
  dp_base_fee p - dp_base_fee p / 8 ≤ dp_base_fee p' ≤ Z.max 1 (dp_base_fee p + dp_base_fee p / 8).
Proof.
  intros Hfee. unfold update_base_fee. simpl.
  pose proof (Z.div_pos (dp_base_fee p) 8 ltac:(sat128_lia) ltac:(lia)).
  pose proof (Z.mul_div_le (dp_base_fee p) 8 ltac:(lia)).
  set (usage := default 0 _). destruct (dp_target_usage p <? usage), (usage <? dp_target_usage p); case_if_goal; bool_to_prop; sat128_lia.
Qed.
(** A base fee below 8 never moves again, however congested the dimension is. *)
Lemma small_base_fee_stuck actual p n :
  1 ≤ dp_base_fee p < 8 →
  dp_base_fee (Nat.iter n (update_base_fee actual) p) = dp_base_fee p.
Proof.
  intros Hfee. induction n as [|n IH]; [done|]. rewrite Nat.iter_succ.
  set (q := Nat.iter n (update_base_fee actual) p) in *. unfold update_base_fee. simpl.
  rewrite IH, Z.div_small by lia.
  set (usage := default 0 _). destruct (dp_target_usage q <? usage), (usage <? dp_target_usage q); case_if_goal; bool_to_prop; sat128_lia.
Qed.

(** ** What validation accepts *)

Section validation.
Context (params : list DimensionParams).

(** Nothing is reported before the first duplicate. *)
Lemma usage_errors_spec seen required usage :
  (usage_errors params seen ∅ required usage).1 = [] ↔
  NoDup usage.*1 ∧ Forall (λ u, u.1 ∉ seen) usage ∧
  Forall (λ u, ∀ p, find_params params u.1 = Some p → u.2 ≤ dp_max_usage p) usage.
Proof.
  revert seen required. induction usage as [|[d u] usage IH]; intros seen required.
  { simpl. repeat split; constructor. }
  cbn [usage_errors]. rewrite (bool_decide_eq_true_2 (d ∉ (∅ : gset ResourceDimension))), andb_true_r by set_solver.
  csimpl. rewrite NoDup_cons, !Forall_cons. cbn [fst snd].
  set (step := match find_params params d with Some _ => _ | None => _ end).
  assert (step.1 = [] ↔ ∀ p, find_params params d = Some p → u ≤ dp_max_usage p) as Hstep.
  { unfold step. destruct (find_params params d) as [p|]; [|naive_solver]. simpl.
    rewrite push_if_nil, Z.ltb_ge. naive_solver. }
  destruct step as [errors required']. simpl in Hstep. case_bool_decide as Hd.
  { destruct (usage_errors _ _ _ _ _). simpl. split; [done|tauto]. }
  specialize (IH ({[d]} ∪ seen) required'). destruct (usage_errors _ _ _ _ _) as [later total].
  cbn [fst push_if app] in *. rewrite app_nil, IH, (Forall_not_seen fst). tauto.
Qed.
End validation.

(** [validate_multidim_transaction] passes over what has no base fee, which
    [compute_base_cost] rejects. *)
Definition unpriced_tx : MultidimTransaction :=
  {| mt_max_fee := 0; mt_resource_usage := [(BlobData, u64_max)]; mt_priority_fee := 0 |}.
Lemma validation_accepts_unpriced_dimension :
  validate_multidim_transaction [] unpriced_tx = Ok tt ∧
  compute_base_cost [] unpriced_tx = Err (ZeroBaseFee BlobData).
Proof. split; vm_compute; reflexivity. Qed.

(** ** An example *)

Definition example_params : list DimensionParams :=
  [{| dp_dimension := Computation; dp_base_fee := 7; dp_target_usage := 10; dp_max_usage := 100;
      dp_elasticity_multiplier := 2 |};
   {| dp_dimension := Calldata; dp_base_fee := 3; dp_target_usage := 10; dp_max_usage := 100;
      dp_elasticity_multiplier := 2 |}].
Definition example_multidim_tx : MultidimTransaction :=
  {| mt_max_fee := 100; mt_resource_usage := [(Calldata, 5); (Computation, 9)]; mt_priority_fee := 10 |}.
Lemma fee_allocation_conserves_witness :
  well_typed example_params example_multidim_tx ∧
  ∃ r, compute_fee_allocation example_params example_multidim_tx = Done (Ok r) ∧
    fa_allocated_fee <$> mf_allocations r = [17; 71] ∧
    Z.min (Zsum (fa_allocated_fee <$> mf_allocations r)) u128_max = mf_total_fee r.
Proof.
  assert (well_typed example_params example_multidim_tx) as Htyped
    by (split; repeat constructor; done).
  split; [done|].
  destruct (fee_allocation_conserves _ _ Htyped) as (answer & Hdone & Hr).
  vm_compute in Hdone. injection Hdone as <-. eexists. split; [vm_compute; reflexivity|].
  destruct Hr as (_ & _ & _ & _ & _ & Hsum). split; [vm_compute; reflexivity|exact Hsum].
Defined.
