(* ===== verification/FrameTx.v ===== *)
(** * Frame transactions, EIP-8141 ([eth2077-types/src/eip8141.rs])

    A transaction is a list of frames, one per phase, in the order of the phases.  The
    structural validation, the hash, the statistics and the cost. *)
From S2P Require Import Prelude Validation.
Local Open Scope Z_scope.

(* eth2077-types/src/eip8141.rs:5-12 FramePhase *)
Inductive FramePhase := PhaseValidation | Authorization | Sponsorship | Deployment | Execution.
#[export] Instance FramePhase_eq_dec : EqDecision FramePhase.
Proof. solve_decision. Defined.
#[export] Program Instance FramePhase_finite : Finite FramePhase :=
  {| enum := [PhaseValidation; Authorization; Sponsorship; Deployment; Execution] |}.
Next Obligation. by apply (bool_decide_unpack _). Qed.
Next Obligation. intros []; set_solver. Qed.

(* eth2077-types/src/eip8141.rs:15-21 Frame *)
Record Frame := {
  fr_phase : FramePhase;
  fr_target : list Z;
  fr_calldata : list Z;
  fr_gas_limit : Z;
  fr_value : Z;
}.
(* eth2077-types/src/eip8141.rs:24-31 FrameTransaction *)
Record FrameTransaction := {
  ft_sender : list Z;
  ft_nonce : Z;
  ft_max_fee_per_gas : Z;
  ft_max_priority_fee_per_gas : Z;
  ft_frames : list Frame;
  ft_signature : list Z;
}.
(* eth2077-types/src/eip8141.rs:34-54 FrameTxError *)
Inductive FrameTxError :=
| EmptyFrames
| MissingPhase (phase : FramePhase)
| DuplicatePhase (phase : FramePhase)
| InvalidPhaseOrder (expected found : FramePhase)
| ZeroGasLimit (frame_index : Z)
| ExcessiveTotalGas (total max : Z)
| EmptySignature.
(* eth2077-types/src/eip8141.rs:57-63 FrameTxStats *)
Record FrameTxStats := {
  fs_frame_count : Z;
  fs_total_gas_limit : Z;
  fs_total_value : Z;
  fs_phases_present : list FramePhase;
  fs_total_calldata_bytes : Z;
}.

(* eth2077-types/src/eip8141.rs:65-65 MAX_TOTAL_GAS *)
Definition MAX_TOTAL_GAS : Z := 30000000.
(* eth2077-types/src/eip8141.rs:66-72 REQUIRED_PHASE_ORDER *)
Definition REQUIRED_PHASE_ORDER : list FramePhase :=
  [PhaseValidation; Authorization; Sponsorship; Deployment; Execution].
(* eth2077-types/src/eip8141.rs:74-82 phase_discriminant *)
Definition phase_discriminant (phase : FramePhase) : Z :=
  match phase with
  | PhaseValidation => 0 | Authorization => 1 | Sponsorship => 2 | Deployment => 3 | Execution => 4
  end.
(* eth2077-types/src/eip8141.rs:84-86 phase_index *)
Definition phase_index (phase : FramePhase) : nat := Z.to_nat (phase_discriminant phase).

(** ** Validation *)

(** The previous index is that of a phase, so the table is never read out of range. *)
(* eth2077-types/src/eip8141.rs:113-121 validate_frame_transaction *)
Definition order_errors (previous_phase_index : option nat) (phase : FramePhase) : list FrameTxError :=
  match previous_phase_index with
  | Some prev_index =>
      if (phase_index phase <? prev_index)%nat then
        match REQUIRED_PHASE_ORDER !! prev_index with
        | Some expected => [InvalidPhaseOrder expected phase]
        | None => []
        end
      else []
  | None => []
  end.
(* eth2077-types/src/eip8141.rs:102-123 validate_frame_transaction *)
Fixpoint frame_errors (frame_index : Z) (seen_phases : gset FramePhase) (previous_phase_index : option nat)
    (frames : list Frame) : list FrameTxError :=
  match frames with
  | [] => []
  | frame :: frames =>
      push_if (fr_gas_limit frame =? 0) (ZeroGasLimit frame_index) ++
      push_if (bool_decide (fr_phase frame ∈ seen_phases)) (DuplicatePhase (fr_phase frame)) ++
      order_errors previous_phase_index (fr_phase frame) ++
      frame_errors (frame_index + 1) ({[fr_phase frame]} ∪ seen_phases) (Some (phase_index (fr_phase frame))) frames
  end.
(* eth2077-types/src/eip8141.rs:88-149 validate_frame_transaction *)
Definition validate_frame_transaction (tx : FrameTransaction) : result unit (list FrameTxError) :=
  let seen_phases := list_to_set (C := gset FramePhase) (fr_phase <$> ft_frames tx) in
  let total_gas := foldl (λ total frame, u128_saturating_add total (fr_gas_limit frame)) 0 (ft_frames tx) in
  errors_to_result (
    push_if (bool_decide (ft_frames tx = [])) EmptyFrames ++
    push_if (bool_decide (ft_signature tx = [])) EmptySignature ++
    frame_errors 0 ∅ None (ft_frames tx) ++
    push_if (bool_decide (PhaseValidation ∉ seen_phases)) (MissingPhase PhaseValidation) ++
    push_if (bool_decide (Execution ∉ seen_phases)) (MissingPhase Execution) ++
    push_if (MAX_TOTAL_GAS <? total_gas) (ExcessiveTotalGas (Z.min total_gas u64_max) MAX_TOTAL_GAS)).

(** ** Hash, statistics, cost *)

(* eth2077-types/src/eip8141.rs:157-163 compute_frame_tx_hash *)
Definition frame_preimage (frame : Frame) : list Z :=
  [phase_discriminant (fr_phase frame)] ++ fr_target frame ++ to_be_bytes 8 (fr_gas_limit frame) ++
  to_be_bytes 16 (fr_value frame) ++ fr_calldata frame.
(** What the hasher is fed. *)
(* eth2077-types/src/eip8141.rs:152-163 compute_frame_tx_hash *)
Definition frame_tx_preimage (tx : FrameTransaction) : list Z :=
  ft_sender tx ++ to_be_bytes 8 (ft_nonce tx) ++ to_be_bytes 16 (ft_max_fee_per_gas tx) ++
  concat (frame_preimage <$> ft_frames tx).
(* eth2077-types/src/eip8141.rs:151-169 compute_frame_tx_hash *)
Definition compute_frame_tx_hash `{Sha256} (tx : FrameTransaction) : list Z := sha256 (frame_tx_preimage tx).

(* eth2077-types/src/eip8141.rs:171-195 compute_frame_tx_stats *)
Definition compute_frame_tx_stats (tx : FrameTransaction) : FrameTxStats :=
  {| fs_frame_count := len (ft_frames tx);
     fs_total_gas_limit := foldl (λ total frame, u64_saturating_add total (fr_gas_limit frame)) 0 (ft_frames tx);
     fs_total_value := foldl (λ total frame, u128_saturating_add total (fr_value frame)) 0 (ft_frames tx);
     fs_phases_present := keep_first id ∅ (fr_phase <$> ft_frames tx);
     fs_total_calldata_bytes :=
       foldl (λ total frame, u64_saturating_add total (len (fr_calldata frame))) 0 (ft_frames tx) |}.
(* eth2077-types/src/eip8141.rs:197-203 estimate_frame_tx_cost *)
Definition estimate_frame_tx_cost (tx : FrameTransaction) (base_fee : Z) : Z :=
  foldl (λ total frame,
    u128_saturating_add (u128_saturating_add total (u128_saturating_mul (fr_gas_limit frame) base_fee))
      (fr_value frame)) 0 (ft_frames tx).
(* eth2077-types/src/eip8141.rs:205-210 extract_sponsorship_target *)
Definition extract_sponsorship_target (tx : FrameTransaction) : option (list Z) :=
  (λ p, fr_target p.2) <$> list_find (λ frame, fr_phase frame = Sponsorship) (ft_frames tx).

(** ** What validation accepts *)

Abbreviation phase_lt := (λ p q, (phase_index p < phase_index q)%nat).

Lemma phase_index_inj p q : phase_index p = phase_index q → p = q.
Proof. by destruct p, q. Qed.
Lemma required_phase_index p : REQUIRED_PHASE_ORDER !! phase_index p = Some p.
Proof. by destruct p. Qed.
Lemma order_errors_nil prev p :
  order_errors (phase_index <$> prev) p = [] ↔
  match prev with Some q => (phase_index q ≤ phase_index p)%nat | None => True end.
Proof.
  destruct prev as [q|]; [|done]. unfold order_errors. simpl. rewrite required_phase_index.
  destruct (Nat.ltb_spec (phase_index p) (phase_index q)); split; (done || lia).
Qed.

(** Frames without an error so far: the phases seen are below the next one. *)
Lemma frame_errors_nil (i : Z) (seen : gset FramePhase) (prev : option FramePhase) (frames : list Frame) :
  (∀ p, p ∈ seen → ∃ q, prev = Some q ∧ (phase_index p ≤ phase_index q)%nat) →
  (∀ q, prev = Some q → q ∈ seen) →
  frame_errors i seen (phase_index <$> prev) frames = [] ↔
  Forall (λ f, fr_gas_limit f ≠ 0) frames ∧
  StronglySorted phase_lt (fr_phase <$> frames) ∧
  Forall (λ f, ∀ q, prev = Some q → phase_lt q (fr_phase f)) frames.
Proof.
  revert i seen prev. induction frames as [|f frames IH]; intros i seen prev Hseen Hprev.
  { split; [repeat constructor|done]. }
  cbn [frame_errors]. csimpl. rewrite !app_nil, !push_if_nil, order_errors_nil, Z.eqb_neq, bool_decide_eq_false.
  destruct (decide (fr_phase f ∈ seen)) as [Hin|Hnin].
  { split; [tauto|]. intros (_ & _ & Hlt). apply Forall_cons in Hlt as [Hlt _].
    destruct (Hseen _ Hin) as (q & -> & ?). specialize (Hlt q eq_refl). lia. }
  assert (match prev with Some q => (phase_index q ≤ phase_index (fr_phase f))%nat | None => True end ↔
    ∀ q, prev = Some q → phase_lt q (fr_phase f)) as ->.
  { destruct prev as [q|]; [|naive_solver]. split; [|intros Hlt; specialize (Hlt q eq_refl); lia].
    intros Hle ? [= <-]. assert (phase_index q ≠ phase_index (fr_phase f)); [|lia].
    intros Heq%phase_index_inj. subst. by apply Hnin, Hprev. }
  assert (StronglySorted phase_lt (fr_phase f :: (fr_phase <$> frames)) ↔
    StronglySorted phase_lt (fr_phase <$> frames) ∧ Forall (λ g, phase_lt (fr_phase f) (fr_phase g)) frames) as ->.
  { rewrite <- (Forall_fmap fr_phase (phase_lt (fr_phase f))).
    split; [by inversion 1|]. intros [??]. by constructor. }
  rewrite !Forall_cons.
  split.
  - intros (Hgas & _ & Hlt & Hrest). apply (IH _ _ (Some (fr_phase f))) in Hrest.
    2: { intros p. rewrite elem_of_union, elem_of_singleton. intros [->|Hp]; [by eexists|].
         eexists; split; [done|]. destruct (Hseen p Hp) as (q & -> & ?). specialize (Hlt q eq_refl). lia. }
    2: { intros ? [= <-]. set_solver. }
    destruct Hrest as (Hg & Hs & Hf).
    assert (Forall (λ g, phase_lt (fr_phase f) (fr_phase g)) frames) as Hf'
      by (eapply Forall_impl; [done|]; naive_solver).
    split_and!; try done. eapply Forall_impl; [exact Hf'|]. cbn beta. intros g Hfg q Hq.
    specialize (Hlt q Hq). lia.
  - intros ([Hgas Hg] & [Hs Hf] & [Hlt Hq]). split_and!; try done.
    apply (IH _ _ (Some (fr_phase f))).
    + intros p. rewrite elem_of_union, elem_of_singleton. intros [->|Hp]; [by eexists|].
      eexists; split; [done|]. destruct (Hseen p Hp) as (q & -> & ?). specialize (Hlt q eq_refl). lia.
    + intros ? [= <-]. set_solver.
    + split_and!; [done|done|]. eapply Forall_impl; [exact Hf|]. cbn beta. intros g ? ? [= <-]. done.
Qed.

Lemma StronglySorted_sublist {A} (R : A → A → Prop) l k :
  l `sublist_of` k → StronglySorted R k → StronglySorted R l.
Proof.
  induction 1 as [|x l k Hl IH|x l k Hl IH]; [done| |].
  - inversion_clear 1 as [|?? Hk Hx]. constructor; [by apply IH|].
    rewrite Forall_forall in Hx |- *. intros y Hy. apply Hx. by apply (sublist_subseteq _ _ Hl).
  - inversion_clear 1. by apply IH.
Qed.
Lemma phases_sublist k l :
  StronglySorted phase_lt l → Forall (λ p, (k ≤ phase_index p)%nat) l →
  l `sublist_of` drop k REQUIRED_PHASE_ORDER.
Proof.
  intros Hs. revert k. induction Hs as [|p l Hs IH Hp]; intros k; [intros; apply sublist_nil_l|].
  intros [Hk _]%Forall_cons.
  transitivity (drop (phase_index p) REQUIRED_PHASE_ORDER).
  - rewrite (drop_S _ p) by apply required_phase_index. apply sublist_skip, IH.
    eapply Forall_impl; [exact Hp|]. cbn beta. lia.
  - replace (phase_index p) with (k + (phase_index p - k))%nat by lia.
    rewrite <- drop_drop. apply sublist_drop.
Qed.
(** In the order of the phases, none twice. *)
Lemma phases_sorted l : StronglySorted phase_lt l ↔ l `sublist_of` REQUIRED_PHASE_ORDER.
Proof.
  split.
  - intros Hs. apply (phases_sublist 0); [done|]. apply Forall_true. lia.
  - intros Hl. apply (StronglySorted_sublist _ _ _ Hl). repeat constructor; simpl; lia.
Qed.

Definition total_gas (frames : list Frame) : Z := Zsum (fr_gas_limit <$> frames).

(** [validate_frame_transaction] accepts exactly the transactions with a signature whose
    phases are those of the protocol, in its order and none twice, among them validation
    and execution, whose frames all have gas, and at most [MAX_TOTAL_GAS] together. *)
Theorem validate_frame_transaction_exact tx :
  Forall (λ f, 0 ≤ fr_gas_limit f) (ft_frames tx) →
  let phases := fr_phase <$> ft_frames tx in
  validate_frame_transaction tx = Ok tt ↔
  ft_signature tx ≠ [] ∧
  phases `sublist_of` REQUIRED_PHASE_ORDER ∧ PhaseValidation ∈ phases ∧ Execution ∈ phases ∧
  Forall (λ f, 0 < fr_gas_limit f) (ft_frames tx) ∧ total_gas (ft_frames tx) ≤ MAX_TOTAL_GAS.
Proof.
  intros Hgas phases. unfold validate_frame_transaction. fold phases.
  rewrite errors_to_result_ok, !app_nil, !push_if_nil, !bool_decide_eq_false, Z.ltb_ge.
  rewrite (frame_errors_nil 0 ∅ None) by (set_solver || done).
  rewrite <- phases_sorted, !elem_of_list_to_set, foldl_map.
  assert (Forall (λ f, fr_gas_limit f ≠ 0) (ft_frames tx) ↔ Forall (λ f, 0 < fr_gas_limit f) (ft_frames tx)) as ->.
  { rewrite !Forall_forall in *. split; intros Hf f Hin; specialize (Hgas f Hin); specialize (Hf f Hin); lia. }
  rewrite foldl_u128_saturating_add by (rewrite ?Forall_fmap; done || sat128_lia).
  assert (Z.min (0 + Zsum (fr_gas_limit <$> ft_frames tx)) u128_max ≤ MAX_TOTAL_GAS ↔
    total_gas (ft_frames tx) ≤ MAX_TOTAL_GAS) as -> by (unfold total_gas, MAX_TOTAL_GAS; lia).
  assert (Forall (λ f, ∀ q, None = Some q → phase_lt q (fr_phase f)) (ft_frames tx)) by (by apply Forall_true).
  fold phases. destruct (decide (PhaseValidation ∈ phases)); [|tauto].
  destruct (decide (Execution ∈ phases)); [|tauto].
  assert (ft_frames tx ≠ []) by (intros Hnil; unfold phases in *; rewrite Hnil in *; set_solver).
  tauto.
Qed.

(** ** Examples *)

Definition example_frame (phase : FramePhase) (calldata : list Z) : Frame :=
  {| fr_phase := phase; fr_target := zero_bytes 20; fr_calldata := calldata; fr_gas_limit := 21000; fr_value := 1 |}.
Definition example_frame_tx (priority : Z) (frames : list Frame) : FrameTransaction :=
  {| ft_sender := zero_bytes 20; ft_nonce := 7; ft_max_fee_per_gas := 9; ft_max_priority_fee_per_gas := priority;
     ft_frames := frames; ft_signature := [1] |}.
Definition three_frames : list Frame :=
  [example_frame PhaseValidation [1]; example_frame Sponsorship [2]; example_frame Execution []].
(** The calldata of the first frame ends with what the sponsorship frame is hashed as. *)
Definition two_frames : list Frame :=
  [example_frame PhaseValidation ([1] ++ frame_preimage (example_frame Sponsorship [2]));
   example_frame Execution []].

Lemma validate_frame_transaction_exact_witness :
  Forall (λ f, 0 ≤ fr_gas_limit f) three_frames ∧
  (validate_frame_transaction (example_frame_tx 1 three_frames) = Ok tt) ∧
  PhaseValidation ∈ fr_phase <$> three_frames.
Proof.
  assert (Forall (λ f, 0 ≤ fr_gas_limit f) three_frames) as Hgas by (repeat constructor; done).
  pose proof (validate_frame_transaction_exact (example_frame_tx 1 three_frames) Hgas) as Hex.
  assert (validate_frame_transaction (example_frame_tx 1 three_frames) = Ok tt) as Hok by (vm_compute; reflexivity).
  split; [done|]. split; [done|]. apply Hex in Hok as (_ & _ & Hv & _). exact Hv.
Defined.

(** The hash of a transaction does not tell where a frame ends, nor its priority fee: these
    valid transactions share it, whatever the hash function. *)
Lemma frame_tx_hash_ambiguous :
  validate_frame_transaction (example_frame_tx 1 three_frames) = Ok tt ∧
  validate_frame_transaction (example_frame_tx 2 two_frames) = Ok tt ∧
  extract_sponsorship_target (example_frame_tx 1 three_frames) ≠
    extract_sponsorship_target (example_frame_tx 2 two_frames) ∧
  ∀ hash : Sha256, compute_frame_tx_hash (example_frame_tx 1 three_frames) =
    compute_frame_tx_hash (example_frame_tx 2 two_frames).
Proof. split_and!; [vm_compute; reflexivity..|vm_compute; done|intros hash; vm_compute; reflexivity]. Qed.
