(* ===== verification/Announcements.v ===== *)
(** * Transaction announcements, EIP-8077 ([eth2077-types/src/eip8077.rs])

    Announcements carry the sender and the nonce of each transaction: validation, gaps in
    the nonces of a sender, statistics, the order in which to fetch, and merging. *)
From S2P Require Import Prelude Validation.
Local Open Scope Z_scope.

(* eth2077-types/src/eip8077.rs:5-11 EnhancedTxAnnouncement *)
Record EnhancedTxAnnouncement := {
  an_tx_hash : list Z;
  an_tx_type : Z;
  an_tx_size : Z;
  an_sender : list Z;
  an_nonce : Z;
}.
(* eth2077-types/src/eip8077.rs:14-17 TxAnnouncementBatch *)
Record TxAnnouncementBatch := {
  ab_announcements : list EnhancedTxAnnouncement;
  ab_peer_id : list Z;
}.
(* eth2077-types/src/eip8077.rs:20-36 TxAnnouncementError *)
Inductive TxAnnouncementError :=
| EmptyBatch
| DuplicateTxHash (tx_hash : list Z)
| InvalidTxType (tx_type : Z)
| ZeroSize (tx_hash : list Z)
| NonceGapDetected (sender : list Z) (expected actual : Z).
(* eth2077-types/src/eip8077.rs:39-45 NonceSummary *)
Record NonceSummary := {
  ns_sender : list Z;
  ns_min_nonce : Z;
  ns_max_nonce : Z;
  ns_count : Z;
  ns_has_gaps : bool;
}.
(* eth2077-types/src/eip8077.rs:48-53 AnnouncementBatchStats *)
Record AnnouncementBatchStats := {
  as_total_announcements : Z;
  as_unique_senders : Z;
  as_total_tx_bytes : Z;
  as_nonce_summaries : list NonceSummary;
}.

(** ** Validation *)

(* eth2077-types/src/eip8077.rs:64-83 validate_announcement_batch *)
Fixpoint announcement_errors (seen_hashes : gset (list Z)) (l : list EnhancedTxAnnouncement)
  : list TxAnnouncementError :=
  match l with
  | [] => []
  | a :: l =>
      push_if (bool_decide (an_tx_hash a ∈ seen_hashes)) (DuplicateTxHash (an_tx_hash a)) ++
      push_if (3 <? an_tx_type a) (InvalidTxType (an_tx_type a)) ++
      push_if (an_tx_size a =? 0) (ZeroSize (an_tx_hash a)) ++
      announcement_errors ({[an_tx_hash a]} ∪ seen_hashes) l
  end.
(* eth2077-types/src/eip8077.rs:55-90 validate_announcement_batch *)
Definition validate_announcement_batch (batch : TxAnnouncementBatch) : result unit (list TxAnnouncementError) :=
  errors_to_result (
    push_if (bool_decide (ab_announcements batch = [])) EmptyBatch ++
    announcement_errors ∅ (ab_announcements batch)).

(** ** Nonces by sender *)

(** [by_sender.entry(sender).or_default().push(nonce)] *)
(* eth2077-types/src/eip8077.rs:95-98 detect_nonce_gaps *)
Definition push_nonce (by_sender : gmap (list Z) (list Z)) (a : EnhancedTxAnnouncement) : gmap (list Z) (list Z) :=
  <[an_sender a := default [] (by_sender !! an_sender a) ++ [an_nonce a]]> by_sender.
(* eth2077-types/src/eip8077.rs:93-99 detect_nonce_gaps *)
Definition nonces_by_sender (l : list EnhancedTxAnnouncement) : gmap (list Z) (list Z) := foldl push_nonce ∅ l.
(** [l.windows(2)] *)
Definition windows2 {A} (l : list A) : list (A * A) := zip l (tail l).

Section by_sender.
Context `{SU : SortUnstable} `{HO : HashOrder}.

(* eth2077-types/src/eip8077.rs:102-115 detect_nonce_gaps *)
Definition sender_gaps (entry : list Z * list Z) : list TxAnnouncementError :=
  let '(sender, nonces) := entry in
  windows2 (sort_unstable_by Z.compare nonces) ≫= λ '(previous, actual),
    let expected := u64_saturating_add previous 1 in
    push_if (negb (actual =? expected)) (NonceGapDetected sender expected actual).
(* eth2077-types/src/eip8077.rs:92-118 detect_nonce_gaps *)
Definition detect_nonce_gaps (batch : TxAnnouncementBatch) : list TxAnnouncementError :=
  hash_iter (nonces_by_sender (ab_announcements batch)) ≫= sender_gaps.

(* eth2077-types/src/eip8077.rs:135-151 compute_announcement_stats *)
Definition nonce_summary (entry : list Z * list Z) : NonceSummary :=
  let '(sender, nonces) := entry in
  let nonces := sort_unstable_by Z.compare nonces in
  {| ns_sender := sender;
     ns_min_nonce := default 0 (head nonces);
     ns_max_nonce := default 0 (last nonces);
     ns_count := len nonces;
     ns_has_gaps := existsb (λ w, negb (w.2 =? u64_saturating_add w.1 1)) (windows2 nonces) |}.
(* eth2077-types/src/eip8077.rs:120-160 compute_announcement_stats *)
Definition compute_announcement_stats (batch : TxAnnouncementBatch) : AnnouncementBatchStats :=
  {| as_total_announcements := len (ab_announcements batch);
     as_unique_senders := Z.of_nat (size (list_to_set (C := gset (list Z)) (an_sender <$> ab_announcements batch)));
     as_total_tx_bytes := foldl (λ total a, u64_saturating_add total (an_tx_size a)) 0 (ab_announcements batch);
     as_nonce_summaries := sort_unstable_by (λ x y, bytes_cmp (ns_sender x) (ns_sender y))
       (nonce_summary <$> hash_iter (nonces_by_sender (ab_announcements batch))) |}.

(** ** Priority *)

(** [false < true] *)
Definition bool_cmp (a b : bool) : comparison := Z.compare (Z.b2z a) (Z.b2z b).
Definition known_nonce (known_nonces : gmap (list Z) Z) (a : EnhancedTxAnnouncement) : Z :=
  default 0 (known_nonces !! an_sender a).
(* eth2077-types/src/eip8077.rs:176-187 prioritize_announcements *)
Definition priority_cmp (known_nonces : gmap (list Z) Z) (a b : EnhancedTxAnnouncement) : comparison :=
  let a_exec := an_nonce a =? known_nonce known_nonces a in
  let b_exec := an_nonce b =? known_nonce known_nonces b in
  then_with (then_with (then_with (bool_cmp b_exec a_exec) (Z.compare (an_nonce a) (an_nonce b)))
    (bytes_cmp (an_sender a) (an_sender b))) (bytes_cmp (an_tx_hash a) (an_tx_hash b)).
(* eth2077-types/src/eip8077.rs:162-190 prioritize_announcements *)
Definition prioritize_announcements (batch : TxAnnouncementBatch) (known_nonces : gmap (list Z) Z)
  : list EnhancedTxAnnouncement :=
  sort_unstable_by (priority_cmp known_nonces)
    (filter (λ a, known_nonce known_nonces a ≤ an_nonce a) (ab_announcements batch)).
End by_sender.

(** ** Merging *)

(* eth2077-types/src/eip8077.rs:192-208 merge_announcement_batches *)
Definition merge_announcement_batches (batches : list TxAnnouncementBatch) : TxAnnouncementBatch :=
  {| ab_announcements := keep_first an_tx_hash ∅ (batches ≫= ab_announcements);
     ab_peer_id := zero_bytes 32 |}.

(** ** Properties *)

Definition well_formed_announcement (a : EnhancedTxAnnouncement) : Prop := an_tx_type a ≤ 3 ∧ an_tx_size a ≠ 0.

Lemma announcement_errors_nil seen l :
  announcement_errors seen l = [] ↔
  NoDup (an_tx_hash <$> l) ∧ Forall (λ a, an_tx_hash a ∉ seen) l ∧ Forall well_formed_announcement l.
Proof.
  revert seen. induction l as [|a l IH]; intros seen; csimpl; [repeat constructor|].
  rewrite !app_nil, !push_if_nil, IH, bool_decide_eq_false, Z.ltb_ge, Z.eqb_neq, NoDup_cons, !Forall_cons.
  rewrite (Forall_not_seen an_tx_hash). unfold well_formed_announcement at 2. tauto.
Qed.
Lemma validate_batch_ok batch :
  validate_announcement_batch batch = Ok tt ↔
  ab_announcements batch ≠ [] ∧ NoDup (an_tx_hash <$> ab_announcements batch) ∧
  Forall well_formed_announcement (ab_announcements batch).
Proof.
  unfold validate_announcement_batch.
  rewrite errors_to_result_ok, app_nil, push_if_nil, bool_decide_eq_false, announcement_errors_nil.
  pose proof (Forall_not_empty an_tx_hash (ab_announcements batch)). tauto.
Qed.

(** The merge of batches that validate is a batch that validates: it announces the
    transactions that some batch announces, each once and as the first batch that has it. *)
Theorem merge_announcements_valid batches :
  batches ≠ [] → Forall (λ b, validate_announcement_batch b = Ok tt) batches →
  let merged := merge_announcement_batches batches in
  validate_announcement_batch merged = Ok tt ∧
  (∀ h, h ∈ an_tx_hash <$> ab_announcements merged ↔
    ∃ b, b ∈ batches ∧ h ∈ an_tx_hash <$> ab_announcements b) ∧
  ab_announcements merged `sublist_of` (batches ≫= ab_announcements).
Proof.
  intros Hne Hvalid merged. rewrite Forall_forall in Hvalid.
  assert (∀ h, h ∈ an_tx_hash <$> ab_announcements merged ↔
    ∃ b, b ∈ batches ∧ h ∈ an_tx_hash <$> ab_announcements b) as Hkeys.
  { intros h. unfold merged. simpl. rewrite keep_first_keys, list_elem_of_fmap.
    setoid_rewrite list_elem_of_fmap. setoid_rewrite list_elem_of_bind. set_solver. }
  split_and!; [|done|apply keep_first_sublist].
  apply validate_batch_ok. split_and!.
  - destruct batches as [|b batches]; [done|]. intros Hnil.
    destruct (proj1 (validate_batch_ok b) (Hvalid b ltac:(left))) as (Hb & _).
    destruct (ab_announcements b) as [|a l] eqn:Hab; [done|].
    assert (an_tx_hash a ∈ an_tx_hash <$> ab_announcements merged) as Ha.
    { apply Hkeys. exists b. rewrite Hab. split; csimpl; left. }
    rewrite Hnil in Ha. set_solver.
  - apply keep_first_NoDup.
  - apply Forall_forall. intros a Ha%keep_first_elem. apply list_elem_of_bind in Ha as (b & Ha & Hb).
    apply Hvalid, validate_batch_ok in Hb as (_ & _ & Hwf). rewrite Forall_forall in Hwf. by apply Hwf.
Qed.

Definition sender_nonces (s : list Z) (l : list EnhancedTxAnnouncement) : list Z :=
  an_nonce <$> filter (λ a, an_sender a = s) l.
Lemma lookup_nonces_by_sender l s :
  nonces_by_sender l !! s = match sender_nonces s l with [] => None | nonces => Some nonces end.
Proof.
  unfold nonces_by_sender. induction l as [|a l IH] using rev_ind; [done|].
  rewrite foldl_app. cbn [foldl]. unfold push_nonce at 1, sender_nonces. rewrite filter_app, fmap_app.
  fold (sender_nonces s l). rewrite filter_cons, filter_nil. case_decide as Hs.
  - subst s. rewrite lookup_insert_eq, IH. by destruct (sender_nonces _ l).
  - rewrite lookup_insert_ne by done. rewrite IH. csimpl. by rewrite app_nil_r.
Qed.
Lemma elem_of_hash_nonces `{HashOrder} l s nonces :
  (s, nonces) ∈ hash_iter (nonces_by_sender l) ↔ nonces = sender_nonces s l ∧ nonces ≠ [].
Proof.
  rewrite elem_of_hash_iter, lookup_nonces_by_sender. destruct (sender_nonces s l); naive_solver.
Qed.

(** *** Gaps *)

Lemma windows2_consecutive l :
  Forall (λ w : Z * Z, w.2 = w.1 + 1) (windows2 l) ↔ ∃ n k, l = seqZ n k.
Proof.
  split.
  - induction l as [|x l IH]; [by exists 0, 0|]. unfold windows2. simpl.
    destruct l as [|y l]; [intros _; by exists x, 1|]. simpl. intros [Hy Hl]%Forall_cons. simpl in Hy. subst y.
    destruct IH as (n & k & Hseq); [done|]. exists x, (k + 1).
    destruct (decide (0 < k)) as [Hk|Hk]; [|rewrite seqZ_nil in Hseq by lia; done].
    rewrite seqZ_cons in Hseq by done. injection Hseq as <- Hseq.
    rewrite seqZ_cons by lia. unfold Z.succ. f_equal. rewrite seqZ_cons by lia. unfold Z.succ in *.
    f_equal. rewrite Hseq. f_equal; lia.
  - intros (n & k & ->). destruct (decide (0 ≤ k)) as [Hk|Hk]; [|by rewrite seqZ_nil by lia].
    revert n. pattern k. apply natlike_ind; [done| |done]. clear k Hk. intros k Hk IH n.
    rewrite seqZ_cons by lia. replace (Z.pred (Z.succ k)) with k by lia. unfold windows2. simpl.
    destruct (decide (k = 0)) as [->|]; [done|]. specialize (IH (Z.succ n)).
    rewrite (seqZ_cons (Z.succ n) k) in * by lia. simpl. constructor; [simpl; lia|exact IH].
Qed.
Lemma seqZ_sorted n k : StronglySorted (cmp_le Z.compare) (seqZ n k).
Proof.
  destruct (decide (0 ≤ k)) as [Hk|Hk]; [|rewrite seqZ_nil by lia; constructor].
  revert n. pattern k. apply natlike_ind; [constructor| |done]. clear k Hk. intros k Hk IH n.
  rewrite seqZ_cons by lia. replace (Z.pred (Z.succ k)) with k by lia. constructor; [done|].
  apply Forall_forall. intros x Hx%elem_of_seqZ. rewrite Z.compare_ngt_iff. lia.
Qed.
Lemma sort_numbers_unique `{SortUnstable} l l' :
  l ≡ₚ l' → StronglySorted (cmp_le Z.compare) l' → sort_unstable_by Z.compare l = l'.
Proof.
  intros Hp Hs. apply (sorted_perm_unique Z.compare).
  - intros x y _ _. apply Z.compare_eq.
  - apply sort_unstable_sorted, _.
  - done.
  - by rewrite sort_unstable_perm.
Qed.

Section announcements.
Context `{SU : SortUnstable} `{HO : HashOrder}.

Lemma sender_gaps_nil s nonces :
  Forall (λ n, 0 ≤ n < u64_max) nonces →
  sender_gaps (s, nonces) = [] ↔ ∃ n k, nonces ≡ₚ seqZ n k.
Proof.
  intros Hn. set (sorted := sort_unstable_by Z.compare nonces).
  assert (sender_gaps (s, nonces) = [] ↔ Forall (λ w : Z * Z, w.2 = w.1 + 1) (windows2 sorted)) as ->.
  { unfold sender_gaps. fold sorted. rewrite list_bind_nil.
    assert (Forall (λ w : Z * Z, w.1 < u64_max) (windows2 sorted)) as Hw.
    { apply Forall_forall. intros [a b] Hab. apply elem_of_zip_l in Hab. simpl.
      unfold sorted in Hab. rewrite sort_unstable_perm in Hab. rewrite Forall_forall in Hn.
      specialize (Hn _ Hab). lia. }
    rewrite !Forall_forall in *. split.
    - intros Hf [a b] Hab. specialize (Hf _ Hab). specialize (Hw _ Hab). simpl in *.
      apply push_if_nil, negb_false_iff, Z.eqb_eq in Hf. sat_lia.
    - intros Hf [a b] Hab. specialize (Hf _ Hab). specialize (Hw _ Hab). simpl in *.
      apply push_if_nil, negb_false_iff, Z.eqb_eq. sat_lia. }
  rewrite windows2_consecutive. split; intros (n & k & Hs); exists n, k.
  - rewrite <- Hs. symmetry. apply sort_unstable_perm.
  - apply sort_numbers_unique; [done|apply seqZ_sorted].
Qed.

(** No gap is reported exactly when the nonces announced for each sender are, in some
    order, consecutive numbers without repetition. *)
Theorem nonce_gaps_exact batch :
  Forall (λ a, 0 ≤ an_nonce a < u64_max) (ab_announcements batch) →
  detect_nonce_gaps batch = [] ↔
  ∀ s, ∃ n k, sender_nonces s (ab_announcements batch) ≡ₚ seqZ n k.
Proof.
  intros Hn. set (l := ab_announcements batch) in *.
  assert (∀ s, Forall (λ n, 0 ≤ n < u64_max) (sender_nonces s l)) as Hns.
  { intros s. apply Forall_fmap, Forall_forall. intros a [_ Ha]%list_elem_of_filter.
    rewrite Forall_forall in Hn. by apply Hn. }
  unfold detect_nonce_gaps. rewrite list_bind_nil, Forall_forall. fold l. split.
  - intros Hf s. destruct (decide (sender_nonces s l = [])) as [->|Hne]; [by exists 0, 0|].
    apply (sender_gaps_nil s); [done|]. apply Hf, elem_of_hash_nonces. done.
  - intros Hf [s nonces] [-> Hne]%elem_of_hash_nonces. by apply sender_gaps_nil.
Qed.

(** *** The order in which to fetch *)

#[export] Instance bool_cmp_preorder : PreorderCmp bool_cmp.
Proof. exact (preorder_on Z.b2z Z.compare). Qed.
#[export] Instance priority_cmp_preorder known : PreorderCmp (priority_cmp known).
Proof.
  unfold priority_cmp. repeat apply then_with_preorder.
  - pose proof (preorder_flip bool_cmp).
    exact (preorder_on (λ a, an_nonce a =? known_nonce known a) (λ x y, bool_cmp y x)).
  - exact (preorder_on an_nonce Z.compare).
  - exact (preorder_on an_sender bytes_cmp).
  - exact (preorder_on an_tx_hash bytes_cmp).
Qed.

(** The announcements at or above the known nonce of their sender, those that can be
    executed now first. *)
Lemma prioritize_spec batch known :
  let out := prioritize_announcements batch known in
  out ≡ₚ filter (λ a, known_nonce known a ≤ an_nonce a) (ab_announcements batch) ∧
  StronglySorted (λ a b, an_nonce b = known_nonce known b → an_nonce a = known_nonce known a) out.
Proof.
  split; [apply sort_unstable_perm|].
  assert (StronglySorted (cmp_le (priority_cmp known)) (prioritize_announcements batch known)) as Hs
    by (apply sort_unstable_sorted, _).
  induction Hs as [|a l Hl IH Ha]; constructor; [done|]. eapply Forall_impl; [exact Ha|]. cbn beta.
  intros b Hab Hb. unfold priority_cmp in Hab. rewrite Hb, Z.eqb_refl in Hab.
  destruct (Z.eqb_spec (an_nonce a) (known_nonce known a)); done.
Qed.
End announcements.

(** ** Statistics do not depend on hash-map order *)

(** The statistics of a batch do not depend on the order in which hash maps are walked,
    nor on the sorting algorithm. *)
Theorem announcement_stats_deterministic (SU1 SU2 : SortUnstable) (HO1 HO2 : HashOrder) batch :
  compute_announcement_stats (SU := SU1) (HO := HO1) batch =
  compute_announcement_stats (SU := SU2) (HO := HO2) batch.
Proof.
  unfold compute_announcement_stats. f_equal.
  set (m := nonces_by_sender (ab_announcements batch)).
  assert (∀ e, nonce_summary (SU := SU1) e = nonce_summary (SU := SU2) e) as Hsum.
  { intros [s nonces]. unfold nonce_summary.
    replace (sort_unstable_by (SortUnstable := SU1) Z.compare nonces)
      with (sort_unstable_by (SortUnstable := SU2) Z.compare nonces); [done|].
    symmetry. apply (@sort_numbers_unique SU1); [symmetry; apply sort_unstable_perm|].
    apply sort_unstable_sorted, _. }
  set (c := λ x y, bytes_cmp (ns_sender x) (ns_sender y)).
  assert (PreorderCmp c) by (apply (preorder_on ns_sender), _).
  assert (nonce_summary (SU := SU1) <$> hash_iter (HashOrder := HO1) m ≡ₚ
    nonce_summary (SU := SU2) <$> hash_iter (HashOrder := HO2) m) as Hp.
  { rewrite (hash_iter_perm (HashOrder := HO1)), (hash_iter_perm (HashOrder := HO2)).
    by rewrite (list_fmap_ext _ (nonce_summary (SU := SU2)) (map_to_list m) (λ _ e _, Hsum e)). }
  apply (sorted_perm_unique c); [|apply sort_unstable_sorted, _..|by rewrite !sort_unstable_perm].
  intros x y Hx Hy Heq%(cmp_eq bytes_cmp).
  rewrite sort_unstable_perm in Hx, Hy.
  refine (NoDup_key_eq ns_sender _ x y _ Hx Hy Heq). rewrite <- list_fmap_compose.
  rewrite (list_fmap_ext _ fst); [apply NoDup_hash_iter|]. by intros ? [].
Qed.
