(* ===== verification/ProofAttestation.v ===== *)
(** * Execution proofs, EIP-8025 ([eth2077-types/src/eip8025.rs])

    An attestation collects proofs of one block by different client implementations. *)
From S2P Require Import Prelude Validation.
Local Open Scope Z_scope.

(* eth2077-types/src/eip8025.rs:5-12 ClientImplementation *)
Inductive ClientImplementation := Geth | Nethermind | Besu | Erigon | Reth.
#[export] Instance ClientImplementation_eq_dec : EqDecision ClientImplementation.
Proof. solve_decision. Defined.
#[export] Program Instance ClientImplementation_finite : Finite ClientImplementation :=
  {| enum := [Geth; Nethermind; Besu; Erigon; Reth] |}.
Next Obligation. by apply (bool_decide_unpack _). Qed.
Next Obligation. intros []; set_solver. Qed.

(* eth2077-types/src/eip8025.rs:15-22 ExecutionProof *)
Record ExecutionProof := {
  xp_block_number : Z;
  xp_block_hash : list Z;
  xp_state_root_before : list Z;
  xp_state_root_after : list Z;
  xp_proof_data : list Z;
  xp_prover_client : ClientImplementation;
}.
(* eth2077-types/src/eip8025.rs:25-30 ProofAttestation *)
Record ProofAttestation := {
  pa_block_number : Z;
  pa_block_hash : list Z;
  pa_proofs : list ExecutionProof;
  pa_attester_id : list Z;
}.
(* eth2077-types/src/eip8025.rs:33-51 ProofValidationError *)
Inductive ProofValidationError :=
| InsufficientClientDiversity (unique_clients required : Z)
| BlockHashMismatch (proof_index : Z)
| EmptyProofs
| DuplicateClient (client : ClientImplementation)
| StateRootMismatch (proof_index : Z)
| ProofDataEmpty (proof_index : Z).
(* eth2077-types/src/eip8025.rs:54-57 ProofConsensusConfig *)
Record ProofConsensusConfig := {
  pc_required_client_diversity : Z;
  pc_total_known_clients : Z;
}.
(* eth2077-types/src/eip8025.rs:60-66 ProofAttestationStats *)
Record ProofAttestationStats := {
  ps_block_number : Z;
  ps_unique_clients : Z;
  ps_total_proof_bytes : Z;
  ps_meets_diversity_threshold : bool;
  ps_state_roots_consistent : bool;
}.

(* eth2077-types/src/eip8025.rs:68-73 default_proof_config *)
Definition default_proof_config : ProofConsensusConfig :=
  {| pc_required_client_diversity := 3; pc_total_known_clients := 5 |}.
(* eth2077-types/src/eip8025.rs:75-83 client_discriminant *)
Definition client_discriminant (client : ClientImplementation) : Z :=
  match client with Geth => 0 | Nethermind => 1 | Besu => 2 | Erigon => 3 | Reth => 4 end.

(* eth2077-types/src/eip8025.rs:101-121 validate_proof_attestation *)
Fixpoint proof_errors (block_hash : list Z) (expected_state_root_after : option (list Z)) (proof_index : Z)
    (unique_clients : gset ClientImplementation) (proofs : list ExecutionProof) : list ProofValidationError :=
  match proofs with
  | [] => []
  | proof :: proofs =>
      push_if (bool_decide (xp_block_hash proof ≠ block_hash)) (BlockHashMismatch proof_index) ++
      push_if (bool_decide (xp_prover_client proof ∈ unique_clients)) (DuplicateClient (xp_prover_client proof)) ++
      push_if (bool_decide (xp_proof_data proof = [])) (ProofDataEmpty proof_index) ++
      match expected_state_root_after with
      | Some expected =>
          push_if (bool_decide (xp_state_root_after proof ≠ expected)) (StateRootMismatch proof_index)
      | None => []
      end ++
      proof_errors block_hash expected_state_root_after (proof_index + 1)
        ({[xp_prover_client proof]} ∪ unique_clients) proofs
  end.
Definition unique_clients (proofs : list ExecutionProof) : Z :=
  Z.of_nat (size (list_to_set (C := gset ClientImplementation) (xp_prover_client <$> proofs))).
(* eth2077-types/src/eip8025.rs:85-135 validate_proof_attestation *)
Definition validate_proof_attestation (attestation : ProofAttestation) (config : ProofConsensusConfig)
  : result unit (list ProofValidationError) :=
  let expected_state_root_after := xp_state_root_after <$> head (pa_proofs attestation) in
  let unique := unique_clients (pa_proofs attestation) in
  errors_to_result (
    push_if (bool_decide (pa_proofs attestation = [])) EmptyProofs ++
    proof_errors (pa_block_hash attestation) expected_state_root_after 0 ∅ (pa_proofs attestation) ++
    push_if (unique <? pc_required_client_diversity config)
      (InsufficientClientDiversity unique (pc_required_client_diversity config))).

(* eth2077-types/src/eip8025.rs:137-163 compute_attestation_stats *)
Definition compute_attestation_stats (attestation : ProofAttestation) (config : ProofConsensusConfig)
  : ProofAttestationStats :=
  let proofs := pa_proofs attestation in
  {| ps_block_number := pa_block_number attestation;
     ps_unique_clients := unique_clients proofs;
     ps_total_proof_bytes := foldl (λ total p, u64_saturating_add total (len (xp_proof_data p))) 0 proofs;
     ps_meets_diversity_threshold := pc_required_client_diversity config <=? unique_clients proofs;
     ps_state_roots_consistent :=
       match head proofs with
       | None => true
       | Some first => forallb (λ p, bool_decide (xp_state_root_after p = xp_state_root_after first)) proofs
       end |}.
(* eth2077-types/src/eip8025.rs:165-178 compute_proof_commitment *)
Definition compute_proof_commitment `{Sha256} (proof : ExecutionProof) : list Z :=
  sha256 (to_be_bytes 8 (xp_block_number proof) ++ xp_block_hash proof ++ xp_state_root_before proof ++
    xp_state_root_after proof ++ xp_proof_data proof ++ [client_discriminant (xp_prover_client proof)]).
(* eth2077-types/src/eip8025.rs:180-186 check_client_diversity *)
Definition check_client_diversity (proofs : list ExecutionProof) (required : Z) : bool :=
  required <=? unique_clients proofs.

(** ** What validation accepts *)

Lemma proof_errors_nil (h root : list Z) (i : Z) (seen : gset ClientImplementation) (proofs : list ExecutionProof) :
  proof_errors h (Some root) i seen proofs = [] ↔
  Forall (λ p, xp_block_hash p = h) proofs ∧ Forall (λ p, xp_proof_data p ≠ []) proofs ∧
  Forall (λ p, xp_state_root_after p = root) proofs ∧
  NoDup (xp_prover_client <$> proofs) ∧ Forall (λ p, xp_prover_client p ∉ seen) proofs.
Proof.
  revert i seen. induction proofs as [|p proofs IH]; intros i seen; csimpl; [repeat constructor|].
  rewrite !app_nil, !push_if_nil, IH, !bool_decide_eq_false, NoDup_cons, !Forall_cons.
  rewrite (Forall_not_seen xp_prover_client).
  destruct (decide (xp_block_hash p = h)), (decide (xp_state_root_after p = root)); tauto.
Qed.
Lemma unique_clients_NoDup proofs :
  NoDup (xp_prover_client <$> proofs) → unique_clients proofs = len proofs.
Proof.
  intros Hnd. unfold unique_clients, len. rewrite size_list_to_set by done. by rewrite length_fmap.
Qed.

(** An attestation is accepted exactly when it has proofs with data, all of its block hash
    and of one final state, from distinct clients and from as many as required. *)
Lemma validate_proof_attestation_exact attestation config :
  let proofs := pa_proofs attestation in
  validate_proof_attestation attestation config = Ok tt ↔
  (∃ root, proofs ≠ [] ∧ Forall (λ p, xp_block_hash p = pa_block_hash attestation) proofs ∧
    Forall (λ p, xp_proof_data p ≠ []) proofs ∧ Forall (λ p, xp_state_root_after p = root) proofs) ∧
  NoDup (xp_prover_client <$> proofs) ∧ pc_required_client_diversity config ≤ len proofs.
Proof.
  intros proofs. unfold validate_proof_attestation. fold proofs.
  rewrite errors_to_result_ok, !app_nil, !push_if_nil, bool_decide_eq_false, Z.ltb_ge.
  destruct proofs as [|p l] eqn:Hp; [naive_solver|]. cbn [head fmap option_fmap option_map].
  rewrite proof_errors_nil. pose proof (Forall_not_empty xp_prover_client (p :: l)).
  split.
  - intros (_ & (? & ? & ? & Hnd & _) & Hreq). rewrite unique_clients_NoDup in Hreq by done. eauto 10.
  - intros ((root & ? & ? & ? & Hroot) & Hnd & Hreq). rewrite unique_clients_NoDup by done.
    pose proof Hroot as Hhead. apply Forall_cons in Hhead as [-> _]. tauto.
Qed.
(** The statistics agree with validation. *)
Lemma valid_attestation_stats attestation config :
  validate_proof_attestation attestation config = Ok tt →
  let stats := compute_attestation_stats attestation config in
  ps_unique_clients stats = len (pa_proofs attestation) ∧
  ps_meets_diversity_threshold stats = true ∧ ps_state_roots_consistent stats = true ∧
  check_client_diversity (pa_proofs attestation) (pc_required_client_diversity config) = true.
Proof.
  intros ((root & _ & _ & _ & Hroot) & Hnd & Hreq)%validate_proof_attestation_exact.
  unfold compute_attestation_stats, check_client_diversity. simpl.
  rewrite unique_clients_NoDup, (proj2 (Z.leb_le _ _) Hreq) by done. split_and!; try done.
  destruct (pa_proofs attestation) as [|p l]; [done|]. apply forallb_forall. intros q Hq.
  apply list_elem_of_In in Hq. rewrite Forall_forall in Hroot. apply bool_decide_eq_true.
  rewrite (Hroot q Hq), (Hroot p); [done|left].
Qed.

(** Neither the number of the block nor the state it starts from is compared: proofs of
    different blocks and of different transitions make one valid attestation. *)
Definition example_proof (number : Z) (before : list Z) (client : ClientImplementation) : ExecutionProof :=
  {| xp_block_number := number; xp_block_hash := zero_bytes 32; xp_state_root_before := before;
     xp_state_root_after := zero_bytes 32; xp_proof_data := [1]; xp_prover_client := client |}.
Lemma proof_block_number_unchecked :
  validate_proof_attestation
    {| pa_block_number := 7; pa_block_hash := zero_bytes 32; pa_attester_id := zero_bytes 32;
       pa_proofs := [example_proof 1 (replicate 32 1) Geth; example_proof 2 (replicate 32 2) Besu;
                     example_proof 3 (replicate 32 3) Reth] |} default_proof_config = Ok tt.
Proof. vm_compute. reflexivity. Qed.
