(* ===== verification/InclusionLists.v ===== *)
(** * Inclusion lists and payload envelopes as types
      ([eth2077-types/src/focil.rs], [epbs.rs])

    The stateless checks of FOCIL inclusion lists, and of ePBS payload headers against
    envelopes; the daemon keeps its own versions in [Focil.v] and [Epbs.v]. *)
From S2P Require Import Prelude Validation Strings.
Local Open Scope Z_scope.

(** ** FOCIL *)

(* eth2077-types/src/focil.rs:6-12 InclusionListEntry *)
Record InclusionListEntry := {
  il_validator_index : Z;
  il_tx_hash : list Z;
  il_gas_limit : Z;
  il_max_fee_per_gas : Z;
  il_inclusion_deadline_slot : Z;
}.
(* eth2077-types/src/focil.rs:16-20 InclusionList *)
Record InclusionList := {
  il_slot : Z;
  il_entries : list InclusionListEntry;
  il_aggregate_signature : option (list Z);
}.
(* eth2077-types/src/focil.rs:23-41 InclusionListValidationError *)
Inductive InclusionListValidationError :=
| EmptyList
| DuplicateTxHashes (tx_hash : list Z)
| ExpiredDeadline (tx_hash : list Z) (deadline_slot current_slot : Z)
| GasLimitExceeded (total_requested_gas block_gas_limit : Z)
| TooManyEntries (entry_count max_entries : Z).

(* eth2077-types/src/focil.rs:68-81 validate_inclusion_list *)
Fixpoint entry_errors (current_slot : Z) (seen_hashes duplicate_reported : gset (list Z))
    (entries : list InclusionListEntry) : list InclusionListValidationError :=
  match entries with
  | [] => []
  | entry :: entries =>
      let tx_hash := il_tx_hash entry in
      let again := bool_decide (tx_hash ∈ seen_hashes) in
      push_if (again && bool_decide (tx_hash ∉ duplicate_reported)) (DuplicateTxHashes tx_hash) ++
      push_if (il_inclusion_deadline_slot entry <? current_slot)
        (ExpiredDeadline tx_hash (il_inclusion_deadline_slot entry) current_slot) ++
      entry_errors current_slot ({[tx_hash]} ∪ seen_hashes)
        (if again then {[tx_hash]} ∪ duplicate_reported else duplicate_reported) entries
  end.
(* eth2077-types/src/focil.rs:44-98 validate_inclusion_list *)
Definition validate_inclusion_list (l : InclusionList) (current_slot max_entries block_gas_limit : Z)
  : result unit (list InclusionListValidationError) :=
  let entry_count := len (il_entries l) in
  let total_requested_gas :=
    foldl (λ total entry, u128_saturating_add total (il_gas_limit entry)) 0 (il_entries l) in
  errors_to_result (
    push_if (entry_count =? 0) EmptyList ++
    push_if (max_entries <? entry_count) (TooManyEntries entry_count max_entries) ++
    entry_errors current_slot ∅ ∅ (il_entries l) ++
    push_if (block_gas_limit <? total_requested_gas) (GasLimitExceeded total_requested_gas block_gas_limit)).

(* eth2077-types/src/focil.rs:110-114 check_block_satisfies_inclusion_list *)
Fixpoint missing_hashes (included seen_required : gset (list Z)) (entries : list InclusionListEntry)
  : list (list Z) :=
  match entries with
  | [] => []
  | entry :: entries =>
      let missing := missing_hashes included ({[il_tx_hash entry]} ∪ seen_required) entries in
      if bool_decide (il_tx_hash entry ∉ seen_required) && bool_decide (il_tx_hash entry ∉ included)
      then il_tx_hash entry :: missing else missing
  end.
(* eth2077-types/src/focil.rs:102-117 check_block_satisfies_inclusion_list *)
Definition check_block_satisfies_inclusion_list (included_tx_hashes : list (list Z)) (required : InclusionList)
  : list (list Z) :=
  missing_hashes (list_to_set included_tx_hashes) ∅ (il_entries required).

(* eth2077-types/src/focil.rs:120-130 InclusionListStats *)
Record InclusionListStats := {
  is_slot : Z;
  is_entry_count : Z;
  is_unique_validator_count : Z;
  is_unique_tx_count : Z;
  is_total_gas_limit : Z;
  is_min_deadline_slot : option Z;
  is_max_deadline_slot : option Z;
  is_average_max_fee_per_gas : Z;
  is_has_aggregate_signature : bool;
}.
(** [Iterator::min] and [Iterator::max] of numbers. *)
Definition iter_min (l : list Z) : option Z :=
  match l with [] => None | x :: l => Some (foldl Z.min x l) end.
Definition iter_max (l : list Z) : option Z :=
  match l with [] => None | x :: l => Some (foldl Z.max x l) end.
(* eth2077-types/src/focil.rs:133-172 compute_inclusion_stats *)
Definition compute_inclusion_stats (l : InclusionList) : InclusionListStats :=
  let entries := il_entries l in
  let total_max_fee_per_gas :=
    foldl (λ total entry, u128_saturating_add total (il_max_fee_per_gas entry)) 0 entries in
  {| is_slot := il_slot l;
     is_entry_count := len entries;
     is_unique_validator_count := Z.of_nat (size (list_to_set (C := gset Z) (il_validator_index <$> entries)));
     is_unique_tx_count := Z.of_nat (size (list_to_set (C := gset (list Z)) (il_tx_hash <$> entries)));
     is_total_gas_limit := foldl (λ total entry, u128_saturating_add total (il_gas_limit entry)) 0 entries;
     is_min_deadline_slot := iter_min (il_inclusion_deadline_slot <$> entries);
     is_max_deadline_slot := iter_max (il_inclusion_deadline_slot <$> entries);
     is_average_max_fee_per_gas := if len entries =? 0 then 0 else total_max_fee_per_gas / len entries;
     is_has_aggregate_signature := match il_aggregate_signature l with Some _ => true | None => false end |}.

Lemma entry_errors_nil slot seen entries :
  entry_errors slot seen ∅ entries = [] ↔
  NoDup (il_tx_hash <$> entries) ∧ Forall (λ e, il_tx_hash e ∉ seen) entries ∧
  Forall (λ e, slot ≤ il_inclusion_deadline_slot e) entries.
Proof.
  revert seen. induction entries as [|e entries IH]; intros seen; csimpl; [repeat constructor|].
  rewrite !app_nil, !push_if_nil, (bool_decide_eq_true_2 (_ ∉ (∅ : gset (list Z)))), andb_true_r by set_solver.
  rewrite Z.ltb_ge, NoDup_cons, !Forall_cons.
  case_bool_decide as Hseen; [split; [by intros []|tauto]|].
  rewrite IH, (Forall_not_seen il_tx_hash). tauto.
Qed.
(** A list is accepted exactly when it is neither empty nor too long, names no transaction
    twice, has no deadline in the past and fits the block's gas. *)
Lemma validate_inclusion_list_exact l slot max_entries gas_limit :
  Forall (λ e, 0 ≤ il_gas_limit e) (il_entries l) → is_u64 gas_limit →
  validate_inclusion_list l slot max_entries gas_limit = Ok tt ↔
  0 < len (il_entries l) ≤ max_entries ∧ NoDup (il_tx_hash <$> il_entries l) ∧
  Forall (λ e, slot ≤ il_inclusion_deadline_slot e) (il_entries l) ∧
  Zsum (il_gas_limit <$> il_entries l) ≤ gas_limit.
Proof.
  intros Hgas Hlimit. unfold validate_inclusion_list.
  rewrite errors_to_result_ok, !app_nil, !push_if_nil, entry_errors_nil, Z.eqb_neq, !Z.ltb_ge, foldl_map.
  rewrite foldl_u128_saturating_add by (rewrite ?Forall_fmap; done || sat128_lia).
  pose proof (Forall_not_empty il_tx_hash (il_entries l)).
  assert (len (il_entries l) ≠ 0 ↔ 0 < len (il_entries l)) as -> by (unfold len; lia).
  assert (Z.min (0 + Zsum (il_gas_limit <$> il_entries l)) u128_max ≤ gas_limit ↔
    Zsum (il_gas_limit <$> il_entries l) ≤ gas_limit) as -> by sat128_lia.
  tauto.
Qed.

Lemma missing_hashes_spec included seen entries :
  NoDup (missing_hashes included seen entries) ∧
  ∀ h, h ∈ missing_hashes included seen entries ↔
    h ∈ il_tx_hash <$> entries ∧ h ∉ included ∧ h ∉ seen.
Proof.
  revert seen. induction entries as [|e entries IH]; intros seen; csimpl.
  { split; [constructor|]. set_solver. }
  destruct (IH ({[il_tx_hash e]} ∪ seen)) as [Hnd Hel].
  destruct (decide (il_tx_hash e ∈ seen)) as [Hs|Hs].
  { rewrite bool_decide_eq_false_2 by (by intros ?). simpl. split; [done|]. intros h. rewrite Hel. set_solver. }
  rewrite bool_decide_eq_true_2 by done. simpl. case_bool_decide as Hi.
  - split; [constructor; [|done]; rewrite Hel; set_solver|]. intros h. rewrite !elem_of_cons, Hel.
    destruct (decide (h = il_tx_hash e)) as [->|]; set_solver.
  - split; [done|]. intros h. rewrite Hel, elem_of_cons.
    destruct (decide (h = il_tx_hash e)) as [->|]; set_solver.
Qed.
(** What is answered are the required hashes that are not included, each once. *)
Lemma check_block_exact included required :
  let missing := check_block_satisfies_inclusion_list included required in
  NoDup missing ∧
  ∀ h, h ∈ missing ↔ h ∈ il_tx_hash <$> il_entries required ∧ h ∉ included.
Proof.
  unfold check_block_satisfies_inclusion_list.
  destruct (missing_hashes_spec (list_to_set included) ∅ (il_entries required)) as [Hnd Hel].
  split; [done|]. intros h. rewrite Hel, elem_of_list_to_set. set_solver.
Qed.

(** ** ePBS *)

(* eth2077-types/src/epbs.rs:5-14 PayloadTimeliness *)
Inductive PayloadTimeliness :=
| Unknown | HeaderOnly | PartialReveal | Revealed | LateReveal | Withheld | PartialWithhold | OrphanEnvelope.
(* eth2077-types/src/epbs.rs:18-21 PenaltyState *)
Inductive PenaltyState := Active | Recovered.
(* eth2077-types/src/epbs.rs:25-34 PayloadHeader *)
Record PayloadHeader := {
  ph_slot : Z;
  ph_payload_header_root : Str;
  ph_parent_beacon_block_root : option Str;
  ph_execution_block_hash : option Str;
  ph_proposer : option Str;
  ph_bid_value_wei : Z;
  ph_view_id : option Z;
  ph_received_at_unix_s : Z;
}.
(* eth2077-types/src/epbs.rs:38-46 PayloadEnvelope *)
Record PayloadEnvelope := {
  pe_slot : Z;
  pe_payload_header_root : Str;
  pe_execution_block_hash : option Str;
  pe_payload_body_hash : option Str;
  pe_signer : option Str;
  pe_data_available : bool;
  pe_revealed_at_unix_s : Z;
}.
(* eth2077-types/src/epbs.rs:50-57 PenaltyRecord *)
Record PenaltyRecord := {
  pr_slot : Z;
  pr_state : PenaltyState;
  pr_reason : Str;
  pr_last_status : PayloadTimeliness;
  pr_activated_at_unix_s : Z;
  pr_recovered_at_unix_s : option Z;
}.
(* eth2077-types/src/epbs.rs:60-96 EpbsValidationError *)
Inductive EpbsValidationError :=
| HeaderSlotMismatch (header_slot expected_slot : Z)
| EnvelopeSlotMismatch (envelope_slot header_slot : Z)
| EnvelopeHeaderRootMismatch (envelope_root header_root : Str)
| DuplicateHeaderRegistration (slot : Z) (root : Str)
| ConflictingHeaderRegistration (slot : Z) (root : Str)
| StaleSlot (slot head_slot : Z)
| PenaltyAlreadyActive (slot : Z)
| PenaltyNotActive (slot : Z)
| RevealAfterDeadline (slot revealed_at deadline : Z).

(* eth2077-types/src/epbs.rs:99-118 validate_envelope_against_header *)
Definition validate_envelope_against_header (header : PayloadHeader) (envelope : PayloadEnvelope)
  : result unit EpbsValidationError :=
  if negb (pe_slot envelope =? ph_slot header) then Err (EnvelopeSlotMismatch (pe_slot envelope) (ph_slot header)) else
  if bool_decide (pe_payload_header_root envelope ≠ ph_payload_header_root header)
  then Err (EnvelopeHeaderRootMismatch (pe_payload_header_root envelope) (ph_payload_header_root header)) else
  Ok tt.
(* eth2077-types/src/epbs.rs:121-145 determine_timeliness *)
Definition determine_timeliness (header : option PayloadHeader) (envelope : option PayloadEnvelope)
    (slot_deadline_unix_s : Z) : PayloadTimeliness :=
  match header, envelope with
  | None, None => Unknown
  | Some _, None => HeaderOnly
  | None, Some _ => OrphanEnvelope
  | Some _, Some envelope =>
      let is_late := slot_deadline_unix_s <? pe_revealed_at_unix_s envelope in
      if pe_data_available envelope then if is_late then LateReveal else Revealed
      else if is_late then Withheld
      else PartialReveal
  end.
(* eth2077-types/src/epbs.rs:148-167 check_header_conflict *)
Definition check_header_conflict (existing incoming : PayloadHeader) : result unit EpbsValidationError :=
  if negb (ph_slot incoming =? ph_slot existing) then Err (HeaderSlotMismatch (ph_slot incoming) (ph_slot existing)) else
  if bool_decide (ph_payload_header_root incoming = ph_payload_header_root existing) then Ok tt else
  Err (ConflictingHeaderRegistration (ph_slot incoming) (ph_payload_header_root incoming)).
(* eth2077-types/src/epbs.rs:170-185 validate_slot_range *)
Definition validate_slot_range (start end_ max_window : Z) : result unit Str :=
  if end_ <? start then
    Err (str "invalid slot range: end (" ++ decimal end_ ++ str ") is less than start (" ++ decimal start ++ str ")")
  else
    let window := end_ - start in
    if max_window <? window then
      Err (str "slot range window " ++ decimal window ++ str " exceeds maximum allowed " ++ decimal max_window)
    else Ok tt.

Lemma validate_slot_range_ok start end_ max_window :
  validate_slot_range start end_ max_window = Ok tt ↔ start ≤ end_ ≤ start + max_window.
Proof.
  unfold validate_slot_range. destruct (Z.ltb_spec end_ start); [split; [done|lia]|].
  destruct (Z.ltb_spec max_window (end_ - start)); split; done || lia.
Qed.
(** [PartialWithhold] is never the answer. *)
Lemma determine_timeliness_cases header envelope deadline :
  determine_timeliness header envelope deadline =
  match header, envelope with
  | Some _, Some e =>
      match pe_data_available e, decide (pe_revealed_at_unix_s e ≤ deadline) with
      | true, left _ => Revealed
      | true, right _ => LateReveal
      | false, left _ => PartialReveal
      | false, right _ => Withheld
      end
  | Some _, None => HeaderOnly
  | None, Some _ => OrphanEnvelope
  | None, None => Unknown
  end.
Proof.
  destruct header, envelope as [e|]; try done. unfold determine_timeliness.
  destruct (pe_data_available e), (Z.ltb_spec deadline (pe_revealed_at_unix_s e)), (decide _); done || lia.
Qed.
(** Headers of one slot agree, in the sense of the check, when their roots do: it is an
    equivalence of headers. *)
Lemma check_header_conflict_ok a b :
  check_header_conflict a b = Ok tt ↔
  ph_slot a = ph_slot b ∧ ph_payload_header_root a = ph_payload_header_root b.
Proof.
  unfold check_header_conflict. destruct (Z.eqb_spec (ph_slot b) (ph_slot a)); simpl; [|naive_solver].
  case_bool_decide; naive_solver.
Qed.
