(* ===== verification/Spore.v ===== *)
(** * Witness identifiers and set fingerprints
      ([eth2077-types/src/spore_sync.rs], [witness.rs])

    A SPORE fingerprint summarises a set of witness identifiers as the XOR of their hashes
    and their number; an identifier is the XOR-fold of the serialized witness.  The
    serializer is the class [Serde] of the wire codec. *)
From S2P Require Import Prelude Codec.
Local Open Scope Z_scope.

(** ** Fingerprints *)

(* eth2077-types/src/spore_sync.rs:5-10 SporeFingerprint *)
Record SporeFingerprint := {
  xor_accumulator : list Z;
  fp_count : Z;
}.
#[export] Instance SporeFingerprint_eq_dec : EqDecision SporeFingerprint.
Proof. solve_decision. Defined.

(** The two arrays have 32 bytes. *)
Definition xor_bytes (a b : list Z) : list Z := zip_with Z.lxor a b.

(* eth2077-types/src/spore_sync.rs:14-19 SporeFingerprint::new *)
Definition SporeFingerprint_new : SporeFingerprint := {| xor_accumulator := zero_bytes 32; fp_count := 0 |}.
(** [self.count += 1] wraps. *)
(* eth2077-types/src/spore_sync.rs:22-27 SporeFingerprint::insert *)
Definition SporeFingerprint_insert (self : SporeFingerprint) (cid_hash : list Z) : SporeFingerprint :=
  {| xor_accumulator := xor_bytes (xor_accumulator self) cid_hash;
     fp_count := u64_wrapping_add (fp_count self) 1 |}.
(* eth2077-types/src/spore_sync.rs:30-35 SporeFingerprint::remove *)
Definition SporeFingerprint_remove (self : SporeFingerprint) (cid_hash : list Z) : SporeFingerprint :=
  {| xor_accumulator := xor_bytes (xor_accumulator self) cid_hash;
     fp_count := u64_saturating_sub (fp_count self) 1 |}.
(* eth2077-types/src/spore_sync.rs:38-40 SporeFingerprint::is_synced_with *)
Definition SporeFingerprint_is_synced_with (self other : SporeFingerprint) : bool := bool_decide (self = other).
(* eth2077-types/src/spore_sync.rs:43-53 SporeFingerprint::difference *)
Definition SporeFingerprint_difference (self other : SporeFingerprint) : list Z :=
  xor_bytes (xor_accumulator self) (xor_accumulator other).

(* eth2077-types/src/spore_sync.rs:64-68 SporeSyncRequest *)
Record SporeSyncRequest := {
  sq_local_fingerprint : SporeFingerprint;
  sq_peer_id : list Z;
  sq_requested_range : Z * Z;
}.
(* eth2077-types/src/spore_sync.rs:72-75 SporeSyncResponse *)
Record SporeSyncResponse := {
  sr_missing_cid_hashes : list (list Z);
  sr_peer_fingerprint : SporeFingerprint;
}.
(* eth2077-types/src/spore_sync.rs:79-84 SporeSyncError *)
Inductive SporeSyncError := EmptySet | PeerUnreachable | FingerprintMismatch | RangeOutOfBounds.

(** ** Witnesses *)

(* eth2077-types/src/witness.rs:5-12 WitnessCid *)
Record WitnessCid := { cid_hash : list Z; cid_codec : Z; cid_version : Z }.
#[export] Instance WitnessCid_eq_dec : EqDecision WitnessCid.
Proof. solve_decision. Defined.
(* eth2077-types/src/witness.rs:16-23 WitnessPayload *)
Record WitnessPayload := {
  wp_block_hash : list Z;
  wp_block_number : Z;
  wp_state_root : list Z;
  wp_receipts_root : list Z;
  wp_proof_data : list Z;
  wp_timestamp : Z;
}.
(* eth2077-types/src/witness.rs:27-32 WitnessCommitment *)
Record WitnessCommitment := {
  wc_cid : WitnessCid;
  wc_block_hash : list Z;
  wc_block_number : Z;
  wc_proposer_signature : list Z;
}.
(* eth2077-types/src/witness.rs:36-42 WitnessVerifyResult *)
Inductive WitnessVerifyResult := Valid | InvalidCid | MismatchedStateRoot | MissingProofData | SignatureInvalid.

(** [hash[index % 32] ^= byte] *)
(* eth2077-types/src/witness.rs:48-51 WitnessCid::from_payload *)
Fixpoint fold_bytes (hash : list Z) (index : nat) (bytes : list Z) : list Z :=
  match bytes with
  | [] => hash
  | byte :: bytes => fold_bytes (alter (λ b, Z.lxor b byte) (index mod 32)%nat hash) (S index) bytes
  end.

Section witness.
Context `{Serde WitnessPayload}.

(** A failure to serialize panics. *)
(* eth2077-types/src/witness.rs:45-58 WitnessCid::from_payload *)
Definition WitnessCid_from_payload (payload : WitnessPayload) : outcome WitnessCid :=
  match to_vec payload with
  | Err _ => Panics
  | Ok bytes => Done {| cid_hash := fold_bytes (zero_bytes 32) 0 bytes; cid_codec := 1; cid_version := 1 |}
  end.
(* eth2077-types/src/witness.rs:62-64 WitnessPayload::is_valid *)
Definition WitnessPayload_is_valid (self : WitnessPayload) : bool :=
  negb (bool_decide (wp_proof_data self = [])) && (0 <? wp_block_number self).
(* eth2077-types/src/witness.rs:68-88 WitnessCommitment::verify_binding *)
Definition WitnessCommitment_verify_binding (self : WitnessCommitment) (payload : WitnessPayload)
  : outcome WitnessVerifyResult :=
  if bool_decide (wp_proof_data payload = []) then Done MissingProofData else
  cid ← WitnessCid_from_payload payload;
  if bool_decide (cid ≠ wc_cid self) then Done InvalidCid else
  if bool_decide (wc_proposer_signature self = []) || forallb (λ byte, byte =? 0) (wc_proposer_signature self)
  then Done SignatureInvalid else
  if bool_decide (wc_block_hash self ≠ wp_block_hash payload) then Done MismatchedStateRoot else
  Done Valid.
End witness.

(** ** XOR of byte strings *)

Definition hash32 (h : list Z) : Prop := length h = 32%nat.
(** The XOR of hashes. *)
Definition xor_all (l : list (list Z)) : list Z := foldl xor_bytes (zero_bytes 32) l.

Lemma xor_bytes_comm a b : xor_bytes a b = xor_bytes b a.
Proof.
  unfold xor_bytes. revert b. induction a as [|x a IH]; intros [|y b]; simpl; try done.
  by rewrite IH, Z.lxor_comm.
Qed.
Lemma xor_bytes_assoc a b c : xor_bytes (xor_bytes a b) c = xor_bytes a (xor_bytes b c).
Proof.
  unfold xor_bytes. revert b c. induction a as [|x a IH]; intros [|y b] [|z c]; simpl; try done.
  by rewrite IH, Z.lxor_assoc.
Qed.
Lemma length_xor_bytes a b : hash32 a → hash32 b → hash32 (xor_bytes a b).
Proof. unfold hash32, xor_bytes. intros Ha Hb. rewrite length_zip_with. lia. Qed.
Lemma xor_bytes_zero n a : length a = n → xor_bytes (zero_bytes n) a = a.
Proof.
  intros <-. unfold xor_bytes, zero_bytes. induction a as [|x a IH]; simpl; [done|].
  by rewrite IH, Z.lxor_0_l.
Qed.
Lemma xor_bytes_self a : xor_bytes a a = zero_bytes (length a).
Proof. unfold xor_bytes, zero_bytes. induction a as [|x a IH]; simpl; [done|]. by rewrite IH, Z.lxor_nilpotent. Qed.
(** XOR is its own inverse. *)
Lemma xor_bytes_cancel a b : length a = length b → xor_bytes (xor_bytes a b) b = a.
Proof.
  intros Hlen. rewrite xor_bytes_assoc, xor_bytes_self, <- Hlen, xor_bytes_comm. by apply xor_bytes_zero.
Qed.

Lemma xor_foldl_acc acc l : hash32 acc → Forall hash32 l → foldl xor_bytes acc l = xor_bytes acc (xor_all l).
Proof.
  intros Hacc Hl. unfold xor_all. revert acc Hacc. induction l as [|h l IH]; intros acc Hacc; cbn [foldl].
  - rewrite xor_bytes_comm, xor_bytes_zero; done.
  - apply Forall_cons in Hl as [Hh Hl]. rewrite (xor_bytes_zero 32 h) by done.
    rewrite (IH Hl (xor_bytes acc h)), (IH Hl h) by (done || by apply length_xor_bytes). apply xor_bytes_assoc.
Qed.
Lemma xor_all_hash32 l : Forall hash32 l → hash32 (xor_all l).
Proof.
  unfold xor_all. generalize (zero_bytes 32), (eq_refl : hash32 (zero_bytes 32)). intros acc Hacc Hl.
  revert acc Hacc. induction Hl as [|h l Hh Hl IH]; intros acc Hacc; simpl; [done|].
  by apply IH, length_xor_bytes.
Qed.
Lemma xor_all_app l1 l2 :
  Forall hash32 l1 → Forall hash32 l2 → xor_all (l1 ++ l2) = xor_bytes (xor_all l1) (xor_all l2).
Proof.
  intros H1 H2. unfold xor_all at 1. rewrite foldl_app. fold (xor_all l1).
  apply xor_foldl_acc; [by apply xor_all_hash32|done].
Qed.
#[export] Instance xor_all_perm : Proper ((≡ₚ) ==> (=)) xor_all.
Proof.
  intros l1 l2 Hp. unfold xor_all. generalize (zero_bytes 32).
  induction Hp as [|h l1 l2 _ IH|h k l|l1 l2 l3 _ IH1 _ IH2]; intros acc; simpl; [done|apply IH| |].
  - by rewrite !xor_bytes_assoc, (xor_bytes_comm h k).
  - by rewrite IH1.
Qed.

(** ** What a fingerprint tells *)

(** The fingerprint a node reaches by inserting identifiers one after the other. *)
Definition fingerprint (l : list (list Z)) : SporeFingerprint := foldl SporeFingerprint_insert SporeFingerprint_new l.

Lemma fingerprint_spec l :
  xor_accumulator (fingerprint l) = xor_all l ∧ fp_count (fingerprint l) = len l mod (u64_max + 1).
Proof.
  unfold fingerprint, xor_all. induction l as [|h l IH] using rev_ind; [done|].
  rewrite !foldl_app. simpl. destruct IH as [-> ->]. split; [done|].
  unfold u64_wrapping_add, len. rewrite Z.add_mod_idemp_l, length_app by lia. f_equal. simpl. lia.
Qed.
Lemma fingerprint_remove f h :
  length (xor_accumulator f) = length h → 0 ≤ fp_count f < u64_max →
  SporeFingerprint_remove (SporeFingerprint_insert f h) h = f.
Proof.
  destruct f as [acc n]. unfold SporeFingerprint_remove, SporeFingerprint_insert. simpl. intros Hlen Hn.
  rewrite xor_bytes_cancel by done. f_equal. unfold u64_wrapping_add. rewrite Z.mod_small by lia. sat_lia.
Qed.

(** C27: Two nodes that inserted the identifiers of two sets, each in an order of its own,
    have fingerprints whose difference is the XOR of the identifiers only one of them has,
    so what they share cancels; with the same set they are synced. *)
Theorem fingerprint_difference (X Y : gset (list Z)) l1 l2 :
  set_Forall hash32 (X ∪ Y) → l1 ≡ₚ elements X → l2 ≡ₚ elements Y →
  SporeFingerprint_difference (fingerprint l1) (fingerprint l2) = xor_all (elements ((X ∖ Y) ∪ (Y ∖ X))) ∧
  (X = Y → SporeFingerprint_is_synced_with (fingerprint l1) (fingerprint l2) = true).
Proof.
  intros Hlen H1 H2.
  assert (∀ Z : gset (list Z), Z ⊆ X ∪ Y → Forall hash32 (elements Z)) as Hel.
  { intros Z HZ. apply Forall_forall. intros h Hh%elem_of_elements. by apply Hlen, HZ. }
  destruct (fingerprint_spec l1) as [Hx1 Hc1], (fingerprint_spec l2) as [Hx2 Hc2]. split.
  - unfold SporeFingerprint_difference. rewrite Hx1, Hx2, H1, H2.
    assert (∀ A B, A ⊆ X ∪ Y → xor_all (elements A) = xor_bytes (xor_all (elements (A ∩ B))) (xor_all (elements (A ∖ B))))
      as Hsplit.
    { intros A B HA. rewrite <- xor_all_app by (apply Hel; set_solver).
      rewrite <- elements_disj_union by set_solver. f_equiv. f_equiv.
      apply set_eq. intros h. destruct (decide (h ∈ B)); set_solver. }
    rewrite (Hsplit X Y), (Hsplit Y X), elements_disj_union, xor_all_app by (set_solver || apply Hel; set_solver).
    replace (Y ∩ X) with (X ∩ Y) by set_solver.
    set (c := xor_all (elements (X ∩ Y))). rewrite (xor_bytes_comm c (xor_all (elements (Y ∖ X)))).
    assert (hash32 c) by (apply xor_all_hash32, Hel; set_solver).
    assert (hash32 (xor_all (elements (X ∖ Y)))) by (apply xor_all_hash32, Hel; set_solver).
    assert (hash32 (xor_all (elements (Y ∖ X)))) by (apply xor_all_hash32, Hel; set_solver).
    rewrite (xor_bytes_comm c (xor_all _)), xor_bytes_assoc, (xor_bytes_comm c), xor_bytes_cancel by congruence.
    done.
  - intros ->. unfold SporeFingerprint_is_synced_with. apply bool_decide_eq_true.
    assert (l1 ≡ₚ l2) as Hp by (by rewrite H1, H2).
    destruct (fingerprint l1), (fingerprint l2); simpl in *. subst.
    f_equal; [by rewrite Hp|]. unfold len. by rewrite (Permutation_length Hp).
Qed.

(** Disjoint sets can have one fingerprint. *)
Lemma synced_with_disjoint_set :
  let h n := to_be_bytes 32 n in
  SporeFingerprint_is_synced_with (fingerprint [h 1; h 2]) (fingerprint [h 4; h 7]) = true.
Proof. vm_compute. reflexivity. Qed.

Lemma fingerprint_difference_witness :
  let h n := to_be_bytes 32 n in
  SporeFingerprint_difference (fingerprint [h 1; h 2; h 3]) (fingerprint [h 3; h 1]) = h 2.
Proof.
  intros h. subst h.
  destruct (fingerprint_difference {[to_be_bytes 32 1; to_be_bytes 32 2; to_be_bytes 32 3]}
    {[to_be_bytes 32 1; to_be_bytes 32 3]} [to_be_bytes 32 1; to_be_bytes 32 2; to_be_bytes 32 3]
    [to_be_bytes 32 3; to_be_bytes 32 1]) as [Hd _].
  - intros h Hh. rewrite !elem_of_union, !elem_of_singleton in Hh.
    destruct Hh as [[[->| ->]| ->]|[->| ->]]; reflexivity.
  - apply NoDup_Permutation; [apply (bool_decide_unpack _); vm_compute; reflexivity|apply NoDup_elements|].
    intros x. rewrite elem_of_elements. set_solver.
  - apply NoDup_Permutation; [apply (bool_decide_unpack _); vm_compute; reflexivity|apply NoDup_elements|].
    intros x. rewrite elem_of_elements. set_solver.
  - rewrite Hd. vm_compute. reflexivity.
Defined.

(** ** What an identifier commits to *)

Lemma fold_bytes_block hash pre block n :
  (length pre + length block)%nat = 32%nat → length hash = length block →
  fold_bytes (pre ++ hash) (n * 32 + length pre) block = pre ++ xor_bytes hash block.
Proof.
  revert hash pre. induction block as [|b block IH]; intros [|h hash] pre Hlen Hh; try done.
  cbn [fold_bytes]. simpl in Hlen, Hh.
  replace ((n * 32 + length pre) mod 32)%nat with (length pre).
  2: { rewrite Nat.add_comm, Nat.Div0.mod_add, Nat.mod_small by lia. done. }
  pose proof (alter_app_r (λ x, Z.lxor x b) pre (h :: hash) 0) as Halter. rewrite Nat.add_0_r in Halter.
  rewrite Halter. change (xor_bytes (h :: hash) (b :: block)) with (Z.lxor h b :: xor_bytes hash block).
  cbn [alter list_alter].
  specialize (IH hash (pre ++ [Z.lxor h b])). rewrite length_app in IH. simpl in IH.
  rewrite <- !app_assoc in IH. simpl in IH. rewrite <- IH by lia. f_equal. lia.
Qed.
Lemma fold_bytes_app hash i l1 l2 :
  fold_bytes hash i (l1 ++ l2) = fold_bytes (fold_bytes hash i l1) (i + length l1) l2.
Proof.
  revert hash i. induction l1 as [|b l1 IH]; intros hash i; simpl; [by rewrite Nat.add_0_r|].
  rewrite IH. f_equal. lia.
Qed.
(** Blocks of 32 bytes are XORed. *)
Lemma fold_bytes_blocks hash blocks n :
  hash32 hash → Forall hash32 blocks →
  fold_bytes hash (n * 32) (concat blocks) = foldl xor_bytes hash blocks.
Proof.
  intros Hhash Hb. revert hash n Hhash. induction Hb as [|block blocks Hblock _ IH]; intros hash n Hhash; [done|].
  simpl. rewrite fold_bytes_app. pose proof (fold_bytes_block hash [] block n) as Hf.
  simpl in Hf. rewrite Nat.add_0_r in Hf. rewrite Hf by (done || congruence). rewrite Hblock.
  replace (n * 32 + 32)%nat with (S n * 32)%nat by lia. apply IH. by apply length_xor_bytes.
Qed.
(** The identifier is called a SHA-256 hash, but its bytes are only XORed: payloads whose
    serializations consist of the same 32-byte blocks in another order share it. *)
Lemma cid_blind_to_block_order `{Serde WitnessPayload} p1 p2 blocks1 blocks2 :
  to_vec p1 = Ok (concat blocks1) → to_vec p2 = Ok (concat blocks2) →
  Forall hash32 blocks1 → blocks1 ≡ₚ blocks2 →
  WitnessCid_from_payload p1 = WitnessCid_from_payload p2.
Proof.
  intros H1 H2 Hb Hp. unfold WitnessCid_from_payload. rewrite H1, H2.
  assert (Forall hash32 blocks2) as Hb2 by (by rewrite <- Hp).
  rewrite !(fold_bytes_blocks _ _ 0) by done. fold (xor_all blocks1) (xor_all blocks2). by rewrite Hp.
Qed.
(** When a commitment is accepted: the state root is not compared with anything. *)
Lemma verify_binding_valid `{Serde WitnessPayload} c p :
  WitnessCommitment_verify_binding c p = Done Valid ↔
  wp_proof_data p ≠ [] ∧ WitnessCid_from_payload p = Done (wc_cid c) ∧
  Exists (λ byte, byte ≠ 0) (wc_proposer_signature c) ∧ wc_block_hash c = wp_block_hash p.
Proof.
  unfold WitnessCommitment_verify_binding.
  assert (bool_decide (wc_proposer_signature c = []) || forallb (λ byte, byte =? 0) (wc_proposer_signature c) = false
    ↔ Exists (λ byte, byte ≠ 0) (wc_proposer_signature c)) as Hsig.
  { generalize (wc_proposer_signature c). intros l. induction l as [|b l IH]; [by rewrite Exists_nil|].
    rewrite Exists_cons, bool_decide_eq_false_2 by done. simpl. destruct (Z.eqb_spec b 0); simpl; [|tauto].
    rewrite <- IH. destruct l; [naive_solver|]. rewrite bool_decide_eq_false_2 by done. naive_solver. }
  rewrite <- Hsig. clear Hsig. set (sig := bool_decide (wc_proposer_signature c = []) || _).
  case_bool_decide; [naive_solver|]. destruct (WitnessCid_from_payload p) as [cid|]; [|naive_solver].
  cbn [mbind outcome_bind]. case_bool_decide; [naive_solver|]. destruct sig; [naive_solver|].
  case_bool_decide; naive_solver.
Qed.
