(* ===== verification/Registers.v ===== *)
(** * Registers of theorems and assumptions
      ([eth2077-types/src/theorem_registry.rs], [assumption_checker.rs])

    The client keeps a register of the theorems it relies on and one of its assumptions,
    with a review date each.  Loading and saving them as files is not modelled. *)
From S2P Require Import Prelude Validation Strings.
Local Open Scope Z_scope.

(** ** Theorems *)

(* eth2077-types/src/theorem_registry.rs:9-13 TheoremTier *)
Inductive TheoremTier := Tier1 | Tier2 | Tier3.
#[export] Instance TheoremTier_eq_dec : EqDecision TheoremTier.
Proof. solve_decision. Defined.
(* eth2077-types/src/theorem_registry.rs:16-22 TheoremStatus *)
Inductive TheoremStatus := Proposed | ProofInProgress | ProofComplete | Verified | Rejected.
(* eth2077-types/src/theorem_registry.rs:25-34 TheoremEntry *)
Record TheoremEntry := {
  te_id : Str;
  te_name : Str;
  te_description : Str;
  te_tier : TheoremTier;
  te_status : TheoremStatus;
  te_dependencies : list Str;
  te_proof_artifact_path : option Str;
  te_tags : list Str;
}.
(* eth2077-types/src/theorem_registry.rs:37-40 TheoremRegistry *)
Record TheoremRegistry := { tr_version : Str; tr_entries : list TheoremEntry }.
(* eth2077-types/src/theorem_registry.rs:43-49 TheoremRegistryValidationError *)
Inductive TheoremRegistryValidationError :=
| DuplicateId (id : Str)
| MissingDependency (theorem_id dependency_id : Str).

(* eth2077-types/src/theorem_registry.rs:64-92 TheoremRegistry::validate *)
Definition TheoremRegistry_validate (self : TheoremRegistry) : result unit (list TheoremRegistryValidationError) :=
  let ids := list_to_set (C := gset Str) (te_id <$> tr_entries self) in
  errors_to_result (
    duplicate_errors DuplicateId ∅ (te_id <$> tr_entries self) ++
    (tr_entries self ≫= λ entry, te_dependencies entry ≫= λ dependency,
       push_if (bool_decide (dependency ∉ ids)) (MissingDependency (te_id entry) dependency))).
(* eth2077-types/src/theorem_registry.rs:94-99 TheoremRegistry::get_by_tier *)
Definition TheoremRegistry_get_by_tier (self : TheoremRegistry) (tier : TheoremTier) : list TheoremEntry :=
  filter (λ entry, te_tier entry = tier) (tr_entries self).
(* eth2077-types/src/theorem_registry.rs:101-103 TheoremRegistry::get_by_id *)
Definition TheoremRegistry_get_by_id (self : TheoremRegistry) (id : Str) : option TheoremEntry :=
  snd <$> list_find (λ entry, te_id entry = id) (tr_entries self).

(** ** Assumptions *)

(* eth2077-types/src/assumption_checker.rs:11-19 ValidationMethod *)
Inductive ValidationMethod :=
| FormalProof | UnitTest | IntegrationTest | ManualReview | ExternalAudit | MonitoringAlert | NoMethod.
(* eth2077-types/src/assumption_checker.rs:22-27 AssumptionStatus *)
Inductive AssumptionStatus := Active | UnderReview | Deprecated | Violated.
#[export] Instance AssumptionStatus_eq_dec : EqDecision AssumptionStatus.
Proof. solve_decision. Defined.
(* eth2077-types/src/assumption_checker.rs:30-42 Assumption *)
Record Assumption := {
  as_id : Str;
  as_name : Str;
  as_description : Str;
  as_threat_model_anchor : option Str;
  as_referenced_by : list Str;
  as_owner : Str;
  as_validation_method : ValidationMethod;
  as_revisit_cadence_days : Z;
  as_last_reviewed : option Str;
  as_status : AssumptionStatus;
  as_mitigations : list Str;
}.
(* eth2077-types/src/assumption_checker.rs:45-47 AssumptionRegistry *)
Record AssumptionRegistry := { ar_assumptions : list Assumption }.

(** *** Dates *)

(** Plain arithmetic on [i32], release profile. *)
Definition i32_wrap (z : Z) : Z := (z + 2147483648) mod 4294967296 - 2147483648.
(** [str::parse::<i32>] *)
Definition parse_i32 (s : Str) : option Z :=
  match s with
  | 45 :: [] => None
  | 45 :: digits => Z.opp <$> radix10_loop 2147483648 0 digits
  | _ => parse_decimal 2147483647 s
  end.

(* eth2077-types/src/assumption_checker.rs:135-137 is_leap_year *)
Definition is_leap_year (year : Z) : bool :=
  ((Z.rem year 4 =? 0) && negb (Z.rem year 100 =? 0)) || (Z.rem year 400 =? 0).
(* eth2077-types/src/assumption_checker.rs:124-130 is_valid_ymd *)
Definition max_day (year month : Z) : option Z :=
  if existsb (Z.eqb month) [1; 3; 5; 7; 8; 10; 12] then Some 31 else
  if existsb (Z.eqb month) [4; 6; 9; 11] then Some 30 else
  if month =? 2 then if is_leap_year year then Some 29 else Some 28 else None.
(* eth2077-types/src/assumption_checker.rs:119-133 is_valid_ymd *)
Definition is_valid_ymd (year month day : Z) : bool :=
  if negb ((1 <=? month) && (month <=? 12)) || (day =? 0) then false else
  match max_day year month with Some max_day => day <=? max_day | None => false end.
(* eth2077-types/src/assumption_checker.rs:139-153 days_from_civil *)
Definition days_from_civil (year month day : Z) : Z :=
  let adjusted_year := i32_wrap (year - if month <=? 2 then 1 else 0) in
  let era :=
    if 0 <=? adjusted_year then Z.quot adjusted_year 400
    else Z.quot (i32_wrap (adjusted_year - 399)) 400 in
  let year_of_era := i32_wrap (adjusted_year - era * 400) in
  let month_index := i32_wrap month in
  let day_of_year :=
    i32_wrap (Z.quot (i32_wrap (153 * (month_index + if 2 <? month_index then -3 else 9) + 2)) 5 + day - 1) in
  let day_of_era :=
    i32_wrap (year_of_era * 365 + Z.quot year_of_era 4 - Z.quot year_of_era 100 + day_of_year) in
  era * 146097 + day_of_era - 719468.
(* eth2077-types/src/assumption_checker.rs:106-117 parse_yyyy_mm_dd_to_days *)
Definition parse_yyyy_mm_dd_to_days (value : Str) : option Z :=
  match split_byte 45 value with
  | year :: rest =>
      year ← parse_i32 year;
      match rest with
      | month :: rest =>
          month ← parse_decimal u32_max month;
          match rest with
          | day :: rest =>
              day ← parse_decimal u32_max day;
              if negb (bool_decide (rest = [])) || negb (is_valid_ymd year month day) then None
              else Some (days_from_civil year month day)
          | [] => None
          end
      | [] => None
      end
  | [] => None
  end.

(** *** Queries *)

(* eth2077-types/src/assumption_checker.rs:62-64 AssumptionRegistry::get_by_id *)
Definition AssumptionRegistry_get_by_id (self : AssumptionRegistry) (id : Str) : option Assumption :=
  snd <$> list_find (λ a, as_id a = id) (ar_assumptions self).
(* eth2077-types/src/assumption_checker.rs:77-87 AssumptionRegistry::get_overdue_reviews *)
Definition is_overdue (today_days : Z) (assumption : Assumption) : bool :=
  match as_last_reviewed assumption with
  | None => true
  | Some last_reviewed =>
      match parse_yyyy_mm_dd_to_days last_reviewed with
      | None => true
      | Some last_reviewed_days => last_reviewed_days + as_revisit_cadence_days assumption <? today_days
      end
  end.
(* eth2077-types/src/assumption_checker.rs:66-89 AssumptionRegistry::get_overdue_reviews *)
Definition AssumptionRegistry_get_overdue_reviews (self : AssumptionRegistry) (today : Str) : list Assumption :=
  match parse_yyyy_mm_dd_to_days today with
  | None => filter (λ a, as_last_reviewed a = None) (ar_assumptions self)
  | Some today_days => filter (λ a, is_overdue today_days a = true) (ar_assumptions self)
  end.
(* eth2077-types/src/assumption_checker.rs:91-96 AssumptionRegistry::get_by_owner *)
Definition AssumptionRegistry_get_by_owner (self : AssumptionRegistry) (owner : Str) : list Assumption :=
  filter (λ a, as_owner a = owner) (ar_assumptions self).
(* eth2077-types/src/assumption_checker.rs:98-103 AssumptionRegistry::get_violated *)
Definition AssumptionRegistry_get_violated (self : AssumptionRegistry) : list Assumption :=
  filter (λ a, as_status a = Violated) (ar_assumptions self).

(** *** Coverage *)

(* eth2077-types/src/assumption_checker.rs:156-161 AssumptionCheckResult *)
Inductive AssumptionCheckResult :=
| CheckOk
| MissingAssumptions (ids : list Str)
| OrphanedAssumptions (ids : list Str)
| BrokenAnchors (ids : list Str).

(** The assumptions a theorem's tags refer to. *)
(* eth2077-types/src/assumption_checker.rs:177-179 check_assumption_coverage *)
Definition referred_by (theorem : TheoremEntry) : list Str :=
  trim <$> omap (strip_prefix (str "assumption:")) (te_tags theorem).
(* eth2077-types/src/assumption_checker.rs:201-208 check_assumption_coverage *)
Definition broken_anchor (assumption : Assumption) : option Str :=
  match as_threat_model_anchor assumption with
  | Some anchor => if bool_decide (trim anchor = []) then Some (as_id assumption) else None
  | None => None
  end.
(* eth2077-types/src/assumption_checker.rs:163-237 check_assumption_coverage *)
Definition check_assumption_coverage `{HashOrder} (theorems : TheoremRegistry) (assumptions : AssumptionRegistry)
  : list AssumptionCheckResult :=
  let known_assumptions := list_to_set (C := gset Str) (as_id <$> ar_assumptions assumptions) in
  let referred := tr_entries theorems ≫= referred_by in
  let is_missing id := id = [] ∨ id ∉ known_assumptions in
  let missing_assumptions := list_to_set (C := gset Str) (filter is_missing referred) in
  let referenced_assumptions := list_to_set (C := gset Str) (filter (λ id, ¬ is_missing id) referred) in
  let orphaned_assumptions := sort_by bytes_cmp
    (as_id <$> filter (λ a, as_id a ∉ referenced_assumptions) (ar_assumptions assumptions)) in
  let broken_anchors := sort_by bytes_cmp (omap broken_anchor (ar_assumptions assumptions)) in
  let missing_assumptions := sort_by bytes_cmp (hash_set_iter missing_assumptions) in
  let results :=
    push_if (negb (bool_decide (missing_assumptions = []))) (MissingAssumptions missing_assumptions) ++
    push_if (negb (bool_decide (orphaned_assumptions = []))) (OrphanedAssumptions orphaned_assumptions) ++
    push_if (negb (bool_decide (broken_anchors = []))) (BrokenAnchors broken_anchors) in
  match results with [] => [CheckOk] | _ => results end.

(** ** The calendar *)

(** A date of the proleptic Gregorian calendar in the years that [i32] arithmetic covers. *)
Record valid_date (d : Z * Z * Z) : Prop := {
  date_year : -2147483000 ≤ d.1.1 ≤ 2147483647;
  date_month : 1 ≤ d.1.2 ≤ 12;
  date_day : 1 ≤ d.2 ∧ ∃ m, max_day d.1.1 d.1.2 = Some m ∧ d.2 ≤ m;
}.
Definition next_day (d : Z * Z * Z) : Z * Z * Z :=
  let '(year, month, day) := d in
  if bool_decide (max_day year month = Some day) then
    if month =? 12 then (year + 1, 1, 1) else (year, month + 1, 1)
  else (year, month, day + 1).
Definition days (d : Z * Z * Z) : Z := days_from_civil d.1.1 d.1.2 d.2.

Lemma i32_wrap_small z : -2147483648 ≤ z ≤ 2147483647 → i32_wrap z = z.
Proof. intros. unfold i32_wrap. rewrite Z.mod_small by lia. lia. Qed.
Lemma quot_floor a b : 0 < b → 0 ≤ a → Z.quot a b = a / b.
Proof. intros. apply Z.quot_div_nonneg; lia. Qed.
Lemma is_leap_year_mod y :
  is_leap_year y = ((y mod 4 =? 0) && negb (y mod 100 =? 0)) || (y mod 400 =? 0).
Proof.
  unfold is_leap_year.
  assert (∀ n, 0 < n → (Z.rem y n =? 0) = (y mod n =? 0)) as Heq.
  { intros n Hn. apply eq_true_iff_eq. rewrite !Z.eqb_eq, Z.rem_divide, Z.mod_divide; lia || done. }
  by rewrite !Heq by lia.
Qed.

(** Days before the first of March of a year, and days from there. *)
Definition march_days (a : Z) : Z := 365 * a + a / 4 - a / 100 + a / 400.
Definition day_of_march_year (month day : Z) : Z :=
  (153 * (month + if 2 <? month then -3 else 9) + 2) / 5 + day - 1.
Lemma days_march y m d :
  -2147483000 ≤ y ≤ 2147483647 → 1 ≤ m ≤ 12 → 0 ≤ d ≤ 400 →
  days (y, m, d) = march_days (y - if m <=? 2 then 1 else 0) + day_of_march_year m d - 719468.
Proof.
  intros Hy Hm Hd. unfold days, days_from_civil. cbn [fst snd].
  set (a := y - if m <=? 2 then 1 else 0).
  assert (-2147483001 ≤ a ≤ 2147483647) as Ha by (unfold a; case_if_goal; lia).
  rewrite (i32_wrap_small a), (i32_wrap_small m) by lia.
  assert ((if 0 <=? a then Z.quot a 400 else Z.quot (i32_wrap (a - 399)) 400) = a / 400) as ->.
  { destruct (Z.leb_spec 0 a); [by apply quot_floor; lia|]. rewrite i32_wrap_small by lia.
    Z.to_euclidean_division_equations. lia. }
  pose proof (Z.div_mod a 400 ltac:(lia)) as Hdm. pose proof (Z.mod_pos_bound a 400 ltac:(lia)) as Hmod.
  replace (a - a / 400 * 400) with (a mod 400) by lia. set (yoe := a mod 400) in *.
  rewrite (i32_wrap_small yoe) by lia.
  assert (0 ≤ 153 * (m + if 2 <? m then -3 else 9) + 2 ≤ 1685) as Hdoy.
  { destruct (Z.ltb_spec 2 m); lia. }
  rewrite (i32_wrap_small (153 * _ + 2)), (quot_floor (153 * _ + 2)) by lia.
  fold (day_of_march_year m d).
  assert (-1 ≤ day_of_march_year m d ≤ 2000) by (unfold day_of_march_year; Z.to_euclidean_division_equations; lia).
  rewrite (i32_wrap_small (day_of_march_year m d)), !quot_floor by lia.
  rewrite i32_wrap_small by (Z.to_euclidean_division_equations; lia).
  unfold march_days. assert (a / 4 = a / 400 * 100 + yoe / 4 ∧ a / 100 = a / 400 * 4 + yoe / 100) as [-> ->]
    by (split; Z.to_euclidean_division_equations; lia).
  lia.
Qed.
Lemma march_days_succ a :
  march_days (a + 1) = march_days a + 365 + if is_leap_year (a + 1) then 1 else 0.
Proof.
  unfold march_days. rewrite is_leap_year_mod.
  destruct (Z.eqb_spec ((a + 1) mod 4) 0), (Z.eqb_spec ((a + 1) mod 100) 0), (Z.eqb_spec ((a + 1) mod 400) 0);
    simpl; Z.to_euclidean_division_equations; lia.
Qed.

Lemma max_day_cases y m n :
  max_day y m = Some n → 1 ≤ m ≤ 12 →
  (n = 31 ∧ m ∈ [1; 3; 5; 7; 8; 10; 12]) ∨ (n = 30 ∧ m ∈ [4; 6; 9; 11]) ∨
  (n = (if is_leap_year y then 29 else 28) ∧ m = 2).
Proof.
  intros Hmax Hm.
  assert (m ∈ seqZ 1 12) as Hin by (apply elem_of_seqZ; lia). cbv in Hin.
  repeat (apply elem_of_cons in Hin as [->|Hin]); [cbv -[is_leap_year elem_of] in Hmax..|by apply not_elem_of_nil in Hin];
    simplify_eq; try (left; split; [done|set_solver]); try (right; left; split; [done|set_solver]).
  right; right. destruct (is_leap_year y); by simplify_eq.
Qed.

Ltac compute_day :=
  repeat match goal with
  | |- context [day_of_march_year ?m ?d] =>
      let v := eval vm_compute in (day_of_march_year m d) in change (day_of_march_year m d) with v
  | |- context [if ?m <=? 2 then 1 else 0] =>
      let v := eval vm_compute in (if m <=? 2 then 1 else 0) in change (if m <=? 2 then 1 else 0) with v
  end.
(** [days_from_civil] counts days: 1970-01-01 is day 0, and the day after any valid
    date, over the ends of months and of years and through leap years, has the next number
    and is a valid date again. *)
Theorem days_from_civil_calendar d :
  valid_date d → d.1.1 < 2147483647 →
  days (1970, 1, 1) = 0 ∧ days (next_day d) = days d + 1 ∧ valid_date (next_day d).
Proof.
  destruct d as [[y m] d]. intros [Hy Hm (Hd & n & Hn & Hle)] Hlast. cbn [fst snd] in *.
  split; [reflexivity|]. pose proof (max_day_cases y m n Hn Hm) as Hcases.
  assert (n ≤ 31) as Hn31 by (destruct Hcases as [[? _]|[[? _]|[? _]]]; [lia..|destruct (is_leap_year y); lia]).
  unfold next_day. case_bool_decide as Hend; cycle 1.
  { assert (d ≠ n) by congruence. split.
    - rewrite !days_march by lia. unfold day_of_march_year. lia.
    - constructor; cbn [fst snd]; [lia..|]. split; [lia|]. exists n. split; [done|lia]. }
  rewrite Hn in Hend. injection Hend as ->.
  assert (∀ y m, 1 ≤ m ≤ 12 → -2147483000 ≤ y ≤ 2147483647 → valid_date (y, m, 1)) as Hfirst.
  { intros y' m' Hm' Hy'. constructor; cbn [fst snd]; [lia..|]. split; [lia|].
    unfold max_day. destruct (existsb _ _) eqn:H1; [by eexists|]. destruct (existsb _ [4; _; _; _]) eqn:H2; [by eexists|].
    destruct (Z.eqb_spec m' 2); [destruct (is_leap_year y'); by eexists|]. exfalso.
    cbn in H1, H2. bool_to_prop. lia. }
  destruct (Z.eqb_spec m 12) as [->|Hm12].
  { split; [|apply Hfirst; lia]. rewrite !days_march by lia. cbn. destruct Hcases as [[-> _]|[[_ Hin]|[_ ?]]]; [|set_solver|done].
    change (day_of_march_year 1 1) with 306. change (day_of_march_year 12 31) with 305.
    replace (y + 1 - 1) with (y - 0) by lia. lia. }
  split; [|apply Hfirst; lia]. rewrite !days_march by lia.
  destruct Hcases as [[-> Hin]|[[-> Hin]|[-> ->]]].
  - repeat (apply elem_of_cons in Hin as [->|Hin]); try done; [..|by apply not_elem_of_nil in Hin];
      compute_day; lia.
  - repeat (apply elem_of_cons in Hin as [->|Hin]); [..|by apply not_elem_of_nil in Hin]; compute_day; lia.
  - pose proof (march_days_succ (y - 1)) as Hs. replace (y - 1 + 1) with y in Hs by lia.
    destruct (is_leap_year y); compute_day; rewrite Z.sub_0_r, Hs; lia.
Qed.

Lemma days_from_civil_calendar_witness :
  days (1970, 1, 1) = 0 ∧ days (next_day (2024, 2, 28)) = days (2024, 2, 28) + 1 ∧ next_day (2024, 2, 28) = (2024, 2, 29).
Proof.
  destruct (days_from_civil_calendar (2024, 2, 28)) as (H1 & H2 & _); [|done|].
  - split; cbn; [lia..|]. split; [lia|]. exists 29. split; [reflexivity|lia].
  - split_and!; [exact H1|exact H2|vm_compute; reflexivity].
Defined.

(** ** Reviews *)

(** A review is due when there was none, when its date cannot be read, or when more than
    the cadence has passed since. *)
Lemma overdue_exact self today today_days a :
  parse_yyyy_mm_dd_to_days today = Some today_days →
  a ∈ AssumptionRegistry_get_overdue_reviews self today ↔
  a ∈ ar_assumptions self ∧
  ∀ last reviewed, as_last_reviewed a = Some last → parse_yyyy_mm_dd_to_days last = Some reviewed →
    as_revisit_cadence_days a < today_days - reviewed.
Proof.
  intros Htoday. unfold AssumptionRegistry_get_overdue_reviews. rewrite Htoday, list_elem_of_filter.
  unfold is_overdue. destruct (as_last_reviewed a) as [last|]; [|naive_solver].
  destruct (parse_yyyy_mm_dd_to_days last) as [reviewed|] eqn:Hlast; [|naive_solver].
  rewrite Z.ltb_lt. split.
  - intros [Hlt Ha]. split; [done|]. intros ? r [= <-] Hr. rewrite Hlast in Hr. injection Hr as <-. lia.
  - intros [Ha Hall]. split; [|done]. specialize (Hall last reviewed eq_refl Hlast). lia.
Qed.
(** When the current date cannot be read, reviews that are overdue go unnoticed. *)
Lemma unreadable_today_hides_overdue self today a :
  parse_yyyy_mm_dd_to_days today = None →
  a ∈ AssumptionRegistry_get_overdue_reviews self today → as_last_reviewed a = None.
Proof.
  intros Htoday. unfold AssumptionRegistry_get_overdue_reviews. rewrite Htoday, list_elem_of_filter. tauto.
Qed.

(** ** Registers that validate *)

Lemma validate_registry_exact self :
  TheoremRegistry_validate self = Ok tt ↔
  NoDup (te_id <$> tr_entries self) ∧
  ∀ entry dependency, entry ∈ tr_entries self → dependency ∈ te_dependencies entry →
    ∃ e, e ∈ tr_entries self ∧ te_id e = dependency.
Proof.
  unfold TheoremRegistry_validate. rewrite errors_to_result_ok, app_nil, duplicate_errors_nil.
  pose proof (Forall_not_empty id (te_id <$> tr_entries self)) as Hempty.
  set (entries := tr_entries self) in *.
  set (errors := entries ≫= _).
  assert (errors = [] ↔ ∀ entry dependency, entry ∈ entries → dependency ∈ te_dependencies entry →
    ∃ e, e ∈ entries ∧ te_id e = dependency) as ->; [|unfold id in Hempty; tauto].
  unfold errors. split.
  - intros Hnil entry dependency He Hd.
    destruct (decide (dependency ∈ te_id <$> entries)) as [(e & -> & ?)%list_elem_of_fmap|Hno]; [by exists e|].
    exfalso. apply (not_elem_of_nil (MissingDependency (te_id entry) dependency)). rewrite <- Hnil.
    apply list_elem_of_bind. exists entry. split; [|done]. apply list_elem_of_bind. exists dependency.
    split; [|done]. apply elem_of_push_if. by rewrite bool_decide_eq_true, elem_of_list_to_set.
  - intros Hall. apply elem_of_nil_inv. intros err. rewrite list_elem_of_bind.
    intros (entry & (dependency & Herr & Hd)%list_elem_of_bind & He).
    apply elem_of_push_if in Herr as [Herr _]. apply bool_decide_eq_true in Herr.
    destruct (Hall _ _ He Hd) as (e & ? & <-). apply Herr, elem_of_list_to_set, list_elem_of_fmap_2. done.
Qed.

(** The register of assumptions covers the theorems exactly when every tag refers to a
    registered assumption, every assumption is referred to and no anchor is blank. *)
Lemma sort_by_nil {A} (c : A → A → comparison) l : sort_by c l = [] ↔ l = [].
Proof.
  split; [|by intros ->]. intros Hs. apply Permutation_nil_r. rewrite <- Hs. symmetry. apply sort_by_perm.
Qed.
Lemma omap_nil {A B} (f : A → option B) l : omap f l = [] ↔ Forall (λ x, f x = None) l.
Proof.
  induction l as [|x l IH]; [done|]. cbn [omap list_omap]. rewrite Forall_cons.
  destruct (f x); [naive_solver|]. rewrite <- IH. tauto.
Qed.
Lemma hash_set_iter_nil `{HashOrder} {K} `{Countable K} (X : gset K) : hash_set_iter X = [] ↔ X = ∅.
Proof.
  split.
  - intros Hnil. apply set_eq. intros x. rewrite <- elem_of_hash_set_iter, Hnil. set_solver.
  - intros ->. apply elem_of_nil_inv. intros x. rewrite elem_of_hash_set_iter. set_solver.
Qed.
Lemma list_to_set_nil {K} `{Countable K} (l : list K) : list_to_set (C := gset K) l = ∅ ↔ l = [].
Proof.
  split; [|by intros ->]. intros Hl. apply elem_of_nil_inv. intros x Hx.
  apply (elem_of_list_to_set (C := gset K)) in Hx. rewrite Hl in Hx. set_solver.
Qed.
Lemma fmap_nil {A B} (f : A → B) l : f <$> l = [] ↔ l = [].
Proof. by destruct l. Qed.
Lemma coverage_ok `{HashOrder} theorems assumptions :
  let referred := tr_entries theorems ≫= referred_by in
  let known := as_id <$> ar_assumptions assumptions in
  check_assumption_coverage theorems assumptions = [CheckOk] ↔
  Forall (λ id, id ≠ [] ∧ id ∈ known) referred ∧
  Forall (λ id, id ≠ [] ∧ id ∈ referred) known ∧
  Forall (λ a, ∀ anchor, as_threat_model_anchor a = Some anchor → trim anchor ≠ []) (ar_assumptions assumptions).
Proof.
  intros referred known. unfold check_assumption_coverage. fold referred known.
  set (missing := sort_by bytes_cmp (hash_set_iter _)). set (orphaned := sort_by bytes_cmp (as_id <$> _)).
  set (broken := sort_by bytes_cmp (omap _ _)).
  assert (missing = [] ↔ Forall (λ id, id ≠ [] ∧ id ∈ known) referred) as Hm.
  { unfold missing. rewrite sort_by_nil, hash_set_iter_nil, list_to_set_nil, filter_nil_Forall.
    apply Forall_iff. intros id. rewrite elem_of_list_to_set.
    destruct (decide (id ∈ known)); tauto. }
  assert (Forall (λ id, id ≠ [] ∧ id ∈ known) referred ∧ orphaned = [] ↔
    Forall (λ id, id ≠ [] ∧ id ∈ known) referred ∧ Forall (λ id, id ≠ [] ∧ id ∈ referred) known) as Ho.
  { assert (∀ Q, Forall Q known ↔ Forall (λ a, Q (as_id a)) (ar_assumptions assumptions)) as Hk
      by (intros Q; apply Forall_fmap).
    assert (∀ a, a ∈ ar_assumptions assumptions → as_id a ∈ known) as Hin
      by (intros a Ha; by apply list_elem_of_fmap_2).
    unfold orphaned. rewrite sort_by_nil, fmap_nil, filter_nil_Forall, Hk, !Forall_forall.
    apply and_iff_compat_l. apply forall_proper. intros a. specialize (Hin a).
    rewrite elem_of_list_to_set, list_elem_of_filter, elem_of_list_to_set.
    destruct (decide (as_id a = [])), (decide (as_id a ∈ referred)); tauto. }
  assert (broken = [] ↔ Forall (λ a, ∀ anchor, as_threat_model_anchor a = Some anchor → trim anchor ≠ [])
    (ar_assumptions assumptions)) as <-.
  { unfold broken. rewrite sort_by_nil, omap_nil. apply Forall_iff. intros a. unfold broken_anchor.
    destruct (as_threat_model_anchor a) as [anchor|]; [|naive_solver]. case_bool_decide; naive_solver. }
  transitivity (missing = [] ∧ orphaned = [] ∧ broken = []); [|tauto].
  clear Hm Ho. clearbody missing orphaned broken. destruct missing, orphaned, broken; cbn; naive_solver.
Qed.
