(* ===== verification/FloatFacts.v ===== *)
(** * What binary64 arithmetic guarantees

    The Standard Library defines [SpecFloat] without proofs.  Here is what the bounds of
    the fee computations need: results of the operations are doubles in canonical form,
    they are finite while the magnitudes stay small, comparisons are those of the numbers
    denoted, integers up to 2^53 are exact, and products and quotients stay below every
    double the exact result is below. *)
From S2P Require Import Prelude Floats.
Local Open Scope Z_scope.

Abbreviation fexp64 := (fexp 53 1024).

Lemma fexp64_eq e : fexp64 e = Z.max (e - 53) (-1074).
Proof. reflexivity. Qed.

(** ** Digits and shifts *)

Lemma digits2_log2 p : Z.pos (digits2_pos p) = Z.log2 (Z.pos p) + 1.
Proof.
  induction p as [p IH|p IH|]; [| |reflexivity].
  - cbn [digits2_pos]. rewrite Pos2Z.inj_succ, IH, Pos2Z.inj_xI, Z.log2_succ_double by lia. lia.
  - cbn [digits2_pos]. rewrite Pos2Z.inj_succ, IH, Pos2Z.inj_xO, Z.log2_double by lia. lia.
Qed.
Lemma Zdigits2_bounds m : 0 < m → 1 ≤ Zdigits2 m ∧ 2 ^ (Zdigits2 m - 1) ≤ m < 2 ^ Zdigits2 m.
Proof.
  intros Hm. destruct m as [|p|p]; [lia| |lia]. unfold Zdigits2. rewrite digits2_log2.
  pose proof (Z.log2_nonneg (Z.pos p)). pose proof (Z.log2_spec (Z.pos p) ltac:(lia)) as [H1 H2].
  replace (Z.log2 (Z.pos p) + 1 - 1) with (Z.log2 (Z.pos p)) by lia. unfold Z.succ in H2. lia.
Qed.
Lemma Zdigits2_unique m d : 0 < m → 1 ≤ d → 2 ^ (d - 1) ≤ m < 2 ^ d → Zdigits2 m = d.
Proof.
  intros Hm Hd Hb. destruct (Zdigits2_bounds m Hm) as [Hd' Hb'].
  destruct (Z.lt_trichotomy (Zdigits2 m) d) as [Hlt|[?|Hlt]]; [exfalso|done|exfalso].
  - pose proof (Z.pow_le_mono_r 2 (Zdigits2 m) (d - 1)). lia.
  - pose proof (Z.pow_le_mono_r 2 d (Zdigits2 m - 1)). lia.
Qed.
Lemma Zdigits2_le m d : 0 ≤ m → 0 ≤ d → m < 2 ^ d → Zdigits2 m ≤ d.
Proof.
  intros Hm Hd Hlt. destruct (decide (m = 0)) as [->|]; [simpl; lia|].
  destruct (Zdigits2_bounds m ltac:(lia)) as [? [? _]]. apply Z.nlt_ge. intros Hn.
  pose proof (Z.pow_le_mono_r 2 d (Zdigits2 m - 1)). lia.
Qed.
Lemma Zdigits2_ge m d : 1 ≤ d → 2 ^ (d - 1) ≤ m → d ≤ Zdigits2 m.
Proof.
  intros Hd Hle. assert (0 < m) by (pose proof (Z.pow_pos_nonneg 2 (d - 1)); lia).
  destruct (Zdigits2_bounds m ltac:(lia)) as [? [_ ?]]. apply Z.nlt_ge. intros Hn.
  pose proof (Z.pow_le_mono_r 2 (Zdigits2 m) (d - 1)). lia.
Qed.
Lemma Zdigits2_nonneg m : 0 ≤ Zdigits2 m.
Proof. destruct m; simpl; lia. Qed.
Lemma Zdigits2_shift m k : 0 < m → 0 ≤ k → Zdigits2 (m * 2 ^ k) = Zdigits2 m + k.
Proof.
  intros Hm Hk. destruct (Zdigits2_bounds m Hm) as [? [H1 H2]]. pose proof (Z.pow_pos_nonneg 2 k).
  apply Zdigits2_unique; [nia|lia|].
  replace (Zdigits2 m + k - 1) with (Zdigits2 m - 1 + k) by lia. rewrite !Z.pow_add_r by lia. nia.
Qed.
Lemma Zdigits2_div m k : 0 < m → 0 ≤ k → k < Zdigits2 m → Zdigits2 (m / 2 ^ k) = Zdigits2 m - k.
Proof.
  intros Hm Hk Hd. destruct (Zdigits2_bounds m Hm) as [? [H1 H2]]. pose proof (Z.pow_pos_nonneg 2 k).
  pose proof (Z.pow_pos_nonneg 2 (Zdigits2 m - k - 1)).
  assert (2 ^ (Zdigits2 m - k - 1) ≤ m / 2 ^ k).
  { apply Z.div_le_lower_bound; [lia|]. rewrite <- Z.pow_add_r by lia.
    by replace (k + (Zdigits2 m - k - 1)) with (Zdigits2 m - 1) by lia. }
  apply Zdigits2_unique; [lia..|]. split; [done|].
  apply Z.div_lt_upper_bound; [lia|]. rewrite <- Z.pow_add_r by lia.
  by replace (k + (Zdigits2 m - k)) with (Zdigits2 m) by lia.
Qed.

Lemma shr_1_m r : 0 ≤ shr_m r → shr_m (shr_1 r) = shr_m r / 2.
Proof.
  intros H. rewrite <- Z.div2_div. by destruct r as [[|[p|p|]|p] r s].
Qed.
Lemma iter_pos_shr p r :
  0 ≤ shr_m r → shr_m (iter_pos shr_1 p r) = shr_m r / 2 ^ Z.pos p.
Proof.
  revert r. induction p as [p IH|p IH|]; intros r Hr; cbn [iter_pos].
  - assert (0 ≤ shr_m (shr_1 r)) by (rewrite shr_1_m by done; by apply Z.div_pos).
    assert (0 ≤ shr_m (iter_pos shr_1 p (shr_1 r))) by (rewrite IH by done; apply Z.div_pos; [done|lia]).
    rewrite !IH, shr_1_m, !Z.div_div by (lia || done). f_equal.
    rewrite <- !Z.pow_add_r, (Pos2Z.inj_xI p), <- Z.pow_succ_r by lia. f_equal. lia.
  - assert (0 ≤ shr_m (iter_pos shr_1 p r)) by (rewrite IH by done; apply Z.div_pos; [done|lia]).
    rewrite !IH, Z.div_div by (lia || done). f_equal. rewrite <- Z.pow_add_r by lia. f_equal. lia.
  - by apply shr_1_m.
Qed.
Lemma shr_record_of_loc_m m l : shr_m (shr_record_of_loc m l) = m.
Proof. by destruct l as [|[]]. Qed.
(** Shifting to the exponent of the format. *)
Lemma shr_fexp_spec m e l :
  0 ≤ m →
  let k := Z.max 0 (fexp64 (Zdigits2 m + e) - e) in
  shr_m (shr_fexp 53 1024 m e l).1 = m / 2 ^ k ∧ (shr_fexp 53 1024 m e l).2 = e + k.
Proof.
  intros Hm k. unfold shr_fexp, shr. fold fexp64. unfold k.
  destruct (fexp64 (Zdigits2 m + e) - e) as [|p|p] eqn:Hk; cbn [fst snd]; rewrite ?shr_record_of_loc_m.
  - rewrite Z.div_1_r. lia.
  - rewrite iter_pos_shr by (by rewrite shr_record_of_loc_m). by rewrite shr_record_of_loc_m.
  - change (Z.max 0 (Z.neg p)) with 0. rewrite Z.div_1_r. lia.
Qed.
Lemma round_nearest_even_cases m l : round_nearest_even m l = m ∨ round_nearest_even m l = m + 1.
Proof. destruct l as [|[]]; simpl; [by left| |by left|by right]. destruct (Z.even m); [by left|by right]. Qed.

(** ** Doubles *)

(** A finite double below 2^K. *)
Definition mag_le (K : Z) (x : f64) : Prop :=
  match x with
  | S754_zero _ => True
  | S754_finite _ m e => bounded 53 1024 m e = true ∧ Zdigits2 (Z.pos m) + e ≤ K
  | _ => False
  end.
Lemma bounded_spec m e :
  bounded 53 1024 m e = true ↔ fexp64 (Zdigits2 (Z.pos m) + e) = e ∧ e ≤ 971.
Proof.
  unfold bounded, canonical_mantissa. rewrite andb_true_iff, Z.eqb_eq, Z.leb_le. done.
Qed.
Lemma mag_le_weaken K L x : K ≤ L → mag_le K x → mag_le L x.
Proof. destruct x; simpl; naive_solver lia. Qed.

Lemma binary_round_aux_mag s m e l K :
  0 ≤ m → e ≤ fexp64 (Zdigits2 m + e) → Zdigits2 m + e ≤ K → -1074 ≤ K ≤ 1000 →
  mag_le (K + 1) (binary_round_aux 53 1024 s m e l).
Proof.
  intros Hm He HK Hrange. unfold binary_round_aux.
  destruct (shr_fexp_spec m e l Hm) as [Hm1 He1]. destruct (shr_fexp 53 1024 m e l) as [r1 e1].
  cbn [fst snd] in Hm1, He1. rewrite Z.max_r in Hm1, He1 by lia.
  replace (e + (fexp64 (Zdigits2 m + e) - e)) with (fexp64 (Zdigits2 m + e)) in He1 by lia.
  set (k := fexp64 (Zdigits2 m + e) - e) in *. set (m1 := shr_m r1) in *. clearbody m1.
  assert (0 ≤ k) by (unfold k; lia). assert (k = Z.max (Zdigits2 m + e - 53) (-1074) - e) as Hk by reflexivity.
  rewrite fexp64_eq in He1.
  assert (0 ≤ m1 ∧ m1 < 2 ^ 53 ∧ Zdigits2 m1 + e1 ≤ Z.max K (-1074) ∧ (e1 = -1074 ∨ 2 ^ 52 ≤ m1)) as (Hm1nn & Hm1lt & Hd1 & Hcan).
  { destruct (decide (m = 0)) as [->|Hm0].
    { rewrite Hm1, Z.div_0_l by (pose proof (Z.pow_pos_nonneg 2 k); lia). cbn in *. lia. }
    destruct (decide (k < Zdigits2 m)) as [Hlt|Hge].
    - pose proof (Zdigits2_div m k ltac:(lia) ltac:(done) Hlt) as Hd. rewrite <- Hm1 in Hd.
      assert (0 < m1).
      { destruct (Z.lt_trichotomy m1 0) as [|[->|]]; [|cbn in Hd; lia|done]. rewrite Hm1 in *.
        pose proof (Z.div_pos m (2 ^ k) ltac:(lia) (Z.pow_pos_nonneg 2 k ltac:(lia) ltac:(lia))). lia. }
      destruct (Zdigits2_bounds m1 ltac:(done)) as [? [Hb1 Hb2]].
      pose proof (Z.pow_le_mono_r 2 (Zdigits2 m1) 53 ltac:(lia) ltac:(lia)). split_and!; [lia..|].
      destruct (decide (e1 = -1074)); [by left|right].
      replace (Zdigits2 m1 - 1) with 52 in Hb1 by lia. done.
    - assert (m1 = 0) as ->.
      { rewrite Hm1. apply Z.div_small. destruct (Zdigits2_bounds m ltac:(lia)) as [? [_ Hb]].
        pose proof (Z.pow_le_mono_r 2 (Zdigits2 m) k). lia. }
      cbn. lia. }
  assert (-1074 ≤ e1 ≤ 950) as He1r.
  { pose proof (Zdigits2_nonneg m1). destruct Hcan as [->|Hc]; [lia|].
    pose proof (Zdigits2_ge m1 53 ltac:(lia) Hc). lia. }
  clear He HK Hm1 Hk He1 H k.
  set (m2 := round_nearest_even m1 (loc_of_shr_record r1)).
  assert (m2 = m1 ∨ m2 = m1 + 1) as Hm2 by apply round_nearest_even_cases. clearbody m2.
  destruct (shr_fexp_spec m2 e1 loc_Exact ltac:(lia)) as [Hm3 He3].
  destruct (shr_fexp 53 1024 m2 e1 loc_Exact) as [r3 e3]. cbn [fst snd] in Hm3, He3.
  set (m3 := shr_m r3) in *. clearbody m3. rewrite fexp64_eq in Hm3, He3.
  destruct (decide (m2 = 2 ^ 53)) as [->|Hne].
  { (* the rounding carried into a new digit *)
    change (Zdigits2 (2 ^ 53)) with 54 in Hm3, He3.
    replace (Z.max 0 (Z.max (54 + e1 - 53) (-1074) - e1)) with 1 in Hm3, He3 by lia.
    assert (m1 = 2 ^ 53 - 1) as -> by lia. change (Zdigits2 (2 ^ 53 - 1)) with 53 in Hd1.
    rewrite Hm3. change (2 ^ 53 / 2 ^ 1) with 4503599627370496.
    destruct (Z.leb_spec e3 (1024 - 53)); [|lia]. cbn [mag_le]. rewrite bounded_spec, fexp64_eq.
    change (Zdigits2 4503599627370496) with 53. lia. }
  assert (Zdigits2 m2 ≤ 53) as Hd2 by (apply Zdigits2_le; lia).
  replace (Z.max 0 (Z.max (Zdigits2 m2 + e1 - 53) (-1074) - e1)) with 0 in Hm3, He3 by lia.
  rewrite Z.div_1_r in Hm3. rewrite Z.add_0_r in He3. subst m3 e3.
  destruct m2 as [|p|p]; [done| |lia].
  destruct (Z.leb_spec e1 (1024 - 53)); [|lia]. cbn [mag_le]. rewrite bounded_spec, fexp64_eq.
  assert (Zdigits2 (Z.pos p) ≤ Zdigits2 m1 + 1) as Hgrow.
  { destruct Hm2 as [->| ->]; [lia|]. destruct (decide (m1 = 0)) as [->|]; [done|].
    destruct (Zdigits2_bounds m1 ltac:(lia)) as [? [_ Hb]]. apply Zdigits2_le; [lia..|].
    rewrite Z.pow_add_r by lia. lia. }
  destruct Hcan as [->|Hc]; [lia|].
  pose proof (Zdigits2_ge (Z.pos p) 53 ltac:(lia) ltac:(lia)). lia.
Qed.

(** ** The operations *)

Lemma shl_align_spec p e e' :
  let '(m, e'') := shl_align p e e' in
  Z.pos m = Z.pos p * 2 ^ (Z.max 0 (e - e')) ∧ e'' = Z.min e e'.
Proof.
  unfold shl_align. destruct (e' - e) as [|d|d] eqn:Hd.
  - replace (Z.max 0 (e - e')) with 0 by lia. lia.
  - replace (Z.max 0 (e - e')) with 0 by lia. lia.
  - replace (Z.max 0 (e - e')) with (Z.pos d) by lia. split; [|lia].
    clear Hd. induction d as [|d IH] using Pos.peano_ind; [simpl; lia|].
    rewrite Pos.iter_succ, Pos2Z.inj_xO, IH, Pos2Z.inj_succ, Z.pow_succ_r by lia. lia.
Qed.
Lemma binary_round_mag s p e K :
  Zdigits2 (Z.pos p) + e ≤ K → -1074 ≤ K ≤ 1000 → mag_le (K + 1) (binary_round 53 1024 s p e).
Proof.
  intros Hd HK. unfold binary_round. change (Z.pos (digits2_pos p)) with (Zdigits2 (Z.pos p)).
  set (t := fexp64 (Zdigits2 (Z.pos p) + e)). pose proof (shl_align_spec p e t) as Hs.
  destruct (shl_align p e t) as [m e'']. destruct Hs as [Hm ->].
  assert (Zdigits2 (Z.pos m) + Z.min e t = Zdigits2 (Z.pos p) + e) as Hsum
    by (rewrite Hm, Zdigits2_shift by lia; lia).
  apply binary_round_aux_mag; [lia|rewrite Hsum; fold t; lia|lia|done].
Qed.
Lemma binary_normalize_mag z e s K :
  Z.abs z < 2 ^ (K - e) → e ≤ K → -1074 ≤ K ≤ 1000 → mag_le (K + 1) (binary_normalize 53 1024 z e s).
Proof.
  intros Hz He HK. destruct z as [|p|p]; [done|..]; apply binary_round_mag; try done;
    pose proof (Zdigits2_le (Z.pos p) (K - e) ltac:(lia) ltac:(lia) ltac:(lia)); lia.
Qed.

(** The significand of a double below 2^K, scaled by 2^(e - l), is below 2^(K - l). *)
Lemma scaled_below m e K l :
  Zdigits2 (Z.pos m) + e ≤ K → l ≤ e → Z.pos m * 2 ^ (e - l) < 2 ^ (K - l).
Proof.
  intros Hd Hl. destruct (Zdigits2_bounds (Z.pos m) ltac:(lia)) as [? [_ Hb]].
  apply Z.lt_le_trans with (2 ^ (Zdigits2 (Z.pos m) + (e - l))).
  - rewrite Z.pow_add_r by lia. pose proof (Z.pow_pos_nonneg 2 (e - l)). nia.
  - apply Z.pow_le_mono_r; lia.
Qed.
Lemma aligned m e l : l ≤ e → Z.pos (shl_align m e l).1 = Z.pos m * 2 ^ (e - l).
Proof.
  intros Hl. pose proof (shl_align_spec m e l) as Hs. destruct (shl_align m e l) as [m' e'']. cbn [fst].
  destruct Hs as [-> _]. f_equal. f_equal. lia.
Qed.
Lemma bounded_exponent m e : bounded 53 1024 m e = true → -1074 ≤ e ≤ 971 ∧ Zdigits2 (Z.pos m) ≤ 53.
Proof. rewrite bounded_spec, fexp64_eq. lia. Qed.

Lemma f64_add_mag K x y :
  mag_le K x → mag_le K y → -1074 ≤ K ≤ 990 → mag_le (K + 2) (f64_add x y).
Proof.
  intros Hx Hy HK. unfold f64_add.
  destruct x as [sx|sx| |sx mx ex], y as [sy|sy| |sy my ey]; try done;
    try (eapply mag_le_weaken; [|by cbn [SFadd]]; lia).
  { destruct sx, sy; done. }
  destruct Hx as [Hbx Hx], Hy as [Hby Hy]. unfold SFadd.
  set (l := Z.min ex ey). replace (K + 2) with ((K + 1) + 1) by lia.
  pose proof (scaled_below mx ex K l Hx ltac:(lia)). pose proof (scaled_below my ey K l Hy ltac:(lia)).
  apply bounded_exponent in Hbx, Hby.
  pose proof (Zdigits2_bounds (Z.pos mx) ltac:(lia)). pose proof (Zdigits2_bounds (Z.pos my) ltac:(lia)).
  apply binary_normalize_mag; [|lia..]. rewrite !aligned by lia.
  replace (K + 1 - l) with (K - l + 1) by lia. rewrite (Z.pow_add_r 2 (K - l) 1) by lia.
  destruct sx, sy; cbn [cond_Zopp]; lia.
Qed.
Lemma f64_neg_mag K x : mag_le K x → mag_le K (f64_neg x).
Proof. by destruct x. Qed.
Lemma f64_sub_add x y : f64_sub x y = f64_add x (f64_neg y).
Proof.
  unfold f64_sub, f64_add, f64_neg.
  destruct x as [[]|[]| |sx mx ex], y as [[]|[]| |sy my ey]; try done.
  cbn [SFopp SFsub SFadd]. rewrite <- Z.add_opp_r. by destruct sy.
Qed.
Lemma f64_sub_mag K x y :
  mag_le K x → mag_le K y → -1074 ≤ K ≤ 990 → mag_le (K + 2) (f64_sub x y).
Proof. intros. rewrite f64_sub_add. apply f64_add_mag; [done|by apply f64_neg_mag|done]. Qed.
Lemma Zdigits2_mul m n : 0 < m → 0 < n →
  Zdigits2 m + Zdigits2 n - 1 ≤ Zdigits2 (m * n) ≤ Zdigits2 m + Zdigits2 n.
Proof.
  intros Hm Hn. destruct (Zdigits2_bounds m Hm) as [? [Hm1 Hm2]], (Zdigits2_bounds n Hn) as [? [Hn1 Hn2]].
  pose proof (Z.pow_pos_nonneg 2 (Zdigits2 m - 1)). pose proof (Z.pow_pos_nonneg 2 (Zdigits2 n - 1)).
  split.
  - apply Zdigits2_ge; [lia|].
    replace (Zdigits2 m + Zdigits2 n - 1 - 1) with ((Zdigits2 m - 1) + (Zdigits2 n - 1)) by lia.
    rewrite Z.pow_add_r by lia. nia.
  - apply Zdigits2_le; [nia|lia|]. rewrite Z.pow_add_r by lia. nia.
Qed.
Lemma f64_mul_mag K L x y :
  mag_le K x → mag_le L y → -1074 ≤ K + L ≤ 1000 → mag_le (K + L + 1) (f64_mul x y).
Proof.
  intros Hx Hy HK. unfold f64_mul.
  destruct x as [sx|sx| |sx mx ex], y as [sy|sy| |sy my ey]; try done.
  destruct Hx as [Hbx Hx], Hy as [Hby Hy]. cbn [SFmul]. rewrite bounded_spec in Hbx, Hby.
  rewrite fexp64_eq in Hbx, Hby. rewrite Pos2Z.inj_mul.
  pose proof (Zdigits2_mul (Z.pos mx) (Z.pos my) ltac:(lia) ltac:(lia)).
  pose proof (Zdigits2_bounds (Z.pos mx) ltac:(lia)) as [? _]. pose proof (Zdigits2_bounds (Z.pos my) ltac:(lia)) as [? _].
  apply binary_round_aux_mag; [lia|rewrite fexp64_eq; lia|lia|lia].
Qed.

(** Dividing by a double of at least 1. *)
Lemma div_eucl_div a b : (Z.div_eucl a b).1 = a / b.
Proof. unfold Z.div. by destruct (Z.div_eucl a b). Qed.
(** The quotient of the significands: [q] and the remainder, at an exponent fine enough. *)
Lemma div_core_spec mx ex my ey :
  let '(q, e', l) := SFdiv_core_binary 53 1024 (Z.pos mx) ex (Z.pos my) ey in
  let X := Zdigits2 (Z.pos mx) + ex - (Zdigits2 (Z.pos my) + ey) in
  ∃ r, Z.pos mx * 2 ^ (ex - ey - e') = q * Z.pos my + r ∧ 0 ≤ r < Z.pos my ∧ (l ≠ loc_Exact → r ≠ 0) ∧
    0 ≤ q ∧ e' = Z.min (fexp64 X) (ex - ey) ∧ e' ≤ fexp64 (Zdigits2 q + e') ∧ Zdigits2 q + e' ≤ Z.max e' (X + 1).
Proof.
  unfold SFdiv_core_binary.
  set (X := Zdigits2 (Z.pos mx) + ex - (Zdigits2 (Z.pos my) + ey)).
  set (e' := Z.min (fexp 53 1024 X) (ex - ey)).
  set (m' := match ex - ey - e' with Z0 => Z.pos mx | Z.pos _ => Z.shiftl (Z.pos mx) (ex - ey - e') | Z.neg _ => 0 end).
  assert (m' = Z.pos mx * 2 ^ (ex - ey - e')) as Hm'.
  { unfold m'. destruct (ex - ey - e') as [|q|q] eqn:Hq; [lia| |lia]. rewrite Z.shiftl_mul_pow2; lia. }
  clearbody m'. pose proof (Z_div_mod m' (Z.pos my) ltac:(lia)) as Hqr.
  pose proof (div_eucl_div m' (Z.pos my)) as Hq.
  destruct (Z.div_eucl m' (Z.pos my)) as [q r]. destruct Hqr as [Hdiv Hr]. cbn [fst] in Hq.
  pose proof (Zdigits2_shift (Z.pos mx) (ex - ey - e') ltac:(lia) ltac:(lia)) as Hdm. rewrite <- Hm' in Hdm.
  destruct (Zdigits2_bounds (Z.pos mx) ltac:(lia)) as [? _].
  destruct (Zdigits2_bounds (Z.pos my) ltac:(lia)) as [? [Hl Hu]].
  assert (0 < m') as Hm'pos by (rewrite Hm'; pose proof (Z.pow_pos_nonneg 2 (ex - ey - e')); nia).
  destruct (Zdigits2_bounds m' Hm'pos) as [? [Hl' Hu']].
  assert (0 ≤ q) by (rewrite Hq; apply Z.div_pos; lia).
  assert (Zdigits2 q ≤ Z.max 0 (Zdigits2 m' - Zdigits2 (Z.pos my) + 1)) as Hqu.
  { destruct (decide (q = 0)) as [->|]; [cbn; lia|].
    assert (Zdigits2 (Z.pos my) ≤ Zdigits2 m') as Hdd.
    { apply Z.nlt_ge. intros Hlt. assert (q = 0); [|done]. rewrite Hq. apply Z.div_small.
      pose proof (Z.pow_le_mono_r 2 (Zdigits2 m') (Zdigits2 (Z.pos my) - 1)). lia. }
    rewrite Z.max_r by lia. apply Zdigits2_le; [done|lia|]. rewrite Hq. apply Z.div_lt_upper_bound; [lia|].
    apply Z.lt_le_trans with (2 ^ (Zdigits2 (Z.pos my) - 1) * 2 ^ (Zdigits2 m' - Zdigits2 (Z.pos my) + 1)).
    - rewrite <- Z.pow_add_r by lia. by replace (_ - 1 + _) with (Zdigits2 m') by lia.
    - apply Z.mul_le_mono_nonneg_r; [apply Z.pow_nonneg; lia|lia]. }
  assert (Zdigits2 m' - Zdigits2 (Z.pos my) ≤ Zdigits2 q) as Hql.
  { destruct (decide (1 ≤ Zdigits2 m' - Zdigits2 (Z.pos my))) as [Hge|]; [|pose proof (Zdigits2_nonneg q); lia].
    apply Zdigits2_ge; [done|]. rewrite Hq. apply Z.div_le_lower_bound; [lia|].
    apply Z.le_trans with (2 ^ Zdigits2 (Z.pos my) * 2 ^ (Zdigits2 m' - Zdigits2 (Z.pos my) - 1)).
    - apply Z.mul_le_mono_nonneg_r; [apply Z.pow_nonneg; lia|lia].
    - rewrite <- Z.pow_add_r by lia. by replace (_ + _) with (Zdigits2 m' - 1) by lia. }
  exists r. rewrite <- Hm'. split_and!; [lia|lia|lia| |done|done|rewrite fexp64_eq; subst e'; rewrite fexp64_eq in *; lia|lia].
  intros Hne ->. apply Hne. unfold new_location, new_location_even, new_location_odd. by destruct (Z.even _).
Qed.
Lemma f64_div_mag K x sy my ey :
  mag_le K x → bounded 53 1024 my ey = true → 1 ≤ Zdigits2 (Z.pos my) + ey → -1074 ≤ K ≤ 990 →
  mag_le (K + 2) (f64_div x (S754_finite sy my ey)).
Proof.
  intros Hx Hby Hy HK. unfold f64_div. destruct x as [sx|sx| |sx mx ex]; try done.
  destruct Hx as [Hbx Hx]. cbn [SFdiv]. pose proof (div_core_spec mx ex my ey) as Hcore.
  destruct (SFdiv_core_binary _ _ _ _ _ _) as [[q e'] l].
  destruct Hcore as (r & _ & _ & _ & Hq & He' & Hf & Hd). rewrite fexp64_eq in He'.
  pose proof (Zdigits2_bounds (Z.pos mx) ltac:(lia)) as [? _]. apply bounded_exponent in Hbx, Hby.
  replace (K + 2) with ((K + 1) + 1) by lia. apply binary_round_aux_mag; [done|done|lia|lia].
Qed.

(** ** Comparing the numbers denoted *)

(** A finite double as a multiple of 2^-1074. *)
Definition units (x : f64) : Z :=
  match x with
  | S754_finite s m e => (if s then -1 else 1) * (Z.pos m * 2 ^ (e + 1074))
  | _ => 0
  end.
Definition finite_double (x : f64) : Prop :=
  match x with S754_zero _ => True | S754_finite _ m e => bounded 53 1024 m e = true | _ => False end.
Lemma mag_le_finite K x : mag_le K x → finite_double x.
Proof. destruct x; simpl; naive_solver. Qed.
Lemma finite_double_mag x : finite_double x → mag_le 1024 x.
Proof. destruct x; cbn [finite_double mag_le]; try done. intros Hb. split; [done|]. apply bounded_exponent in Hb. lia. Qed.

Lemma units_exponent m1 e1 m2 e2 :
  bounded 53 1024 m1 e1 = true → bounded 53 1024 m2 e2 = true → e1 < e2 →
  Z.pos m1 * 2 ^ (e1 + 1074) < Z.pos m2 * 2 ^ (e2 + 1074).
Proof.
  intros H1 H2 He. pose proof (bounded_exponent _ _ H1) as [? Hd1].
  rewrite bounded_spec, fexp64_eq in H1, H2.
  destruct (Zdigits2_bounds (Z.pos m1) ltac:(lia)) as [? [_ Hu]].
  destruct (Zdigits2_bounds (Z.pos m2) ltac:(lia)) as [? [Hl _]].
  replace (Zdigits2 (Z.pos m2) - 1) with 52 in Hl by lia.
  apply Z.lt_le_trans with (2 ^ 53 * 2 ^ (e1 + 1074)).
  - apply Z.mul_lt_mono_pos_r; [apply Z.pow_pos_nonneg; lia|].
    pose proof (Z.pow_le_mono_r 2 (Zdigits2 (Z.pos m1)) 53). lia.
  - apply Z.le_trans with (2 ^ 52 * 2 ^ (e2 + 1074)).
    + rewrite <- !Z.pow_add_r by lia. apply Z.pow_le_mono_r; lia.
    + apply Z.mul_le_mono_nonneg_r; [apply Z.pow_nonneg; lia|lia].
Qed.
Lemma units_compare m1 e1 m2 e2 :
  bounded 53 1024 m1 e1 = true → bounded 53 1024 m2 e2 = true →
  match Z.compare e1 e2 with Lt => Lt | Gt => Gt | Eq => Pos.compare_cont Eq m1 m2 end =
  Z.compare (Z.pos m1 * 2 ^ (e1 + 1074)) (Z.pos m2 * 2 ^ (e2 + 1074)).
Proof.
  intros H1 H2. symmetry. destruct (Z.compare_spec e1 e2) as [->|Hlt|Hgt].
  - pose proof (bounded_exponent _ _ H2). change (Pos.compare_cont Eq m1 m2) with (Z.compare (Z.pos m1) (Z.pos m2)).
    symmetry. apply Zmult_compare_compat_r. pose proof (Z.pow_pos_nonneg 2 (e2 + 1074)). lia.
  - apply Z.compare_lt_iff. by apply units_exponent.
  - apply Z.compare_gt_iff. by apply units_exponent.
Qed.
Lemma units_pos m e : -1074 ≤ e → 0 < Z.pos m * 2 ^ (e + 1074).
Proof. intros. pose proof (Z.pow_pos_nonneg 2 (e + 1074)). nia. Qed.
(** Comparison of finite doubles is comparison of what they denote. *)
Lemma SFcompare_units x y :
  finite_double x → finite_double y → SFcompare x y = Some (Z.compare (units x) (units y)).
Proof.
  destruct x as [sx|sx| |sx mx ex], y as [sy|sy| |sy my ey]; try done; cbn [finite_double SFcompare]; intros Hx Hy.
  - pose proof (units_pos my ey ltac:(apply bounded_exponent in Hy; lia)). cbn [units].
    f_equal. symmetry. destruct sy; [apply Z.compare_gt_iff|apply Z.compare_lt_iff]; lia.
  - pose proof (units_pos mx ex ltac:(apply bounded_exponent in Hx; lia)). cbn [units].
    f_equal. symmetry. destruct sx; [apply Z.compare_lt_iff|apply Z.compare_gt_iff]; lia.
  - pose proof (units_pos mx ex ltac:(apply bounded_exponent in Hx; lia)).
    pose proof (units_pos my ey ltac:(apply bounded_exponent in Hy; lia)). cbn [units]. f_equal.
    destruct sx, sy.
    + transitivity (CompOpp (Z.compare (Z.pos mx * 2 ^ (ex + 1074)) (Z.pos my * 2 ^ (ey + 1074)))).
      * rewrite <- units_compare by done. by destruct (ex ?= ey).
      * rewrite <- Z.compare_antisym, <- Z.compare_opp. f_equal; lia.
    + symmetry. apply Z.compare_lt_iff. lia.
    + symmetry. apply Z.compare_gt_iff. lia.
    + rewrite !Z.mul_1_l. by apply units_compare.
Qed.
Lemma f64_lt_units x y : finite_double x → finite_double y → f64_lt x y = true ↔ units x < units y.
Proof.
  intros Hx Hy. unfold f64_lt, SFltb. rewrite SFcompare_units by done.
  destruct (Z.compare_spec (units x) (units y)); split; (done || lia).
Qed.
Lemma f64_le_units x y : finite_double x → finite_double y → f64_le x y = true ↔ units x ≤ units y.
Proof.
  intros Hx Hy. unfold f64_le, SFleb. rewrite SFcompare_units by done.
  destruct (Z.compare_spec (units x) (units y)); split; (done || lia).
Qed.
Lemma f64_lt_not_le x y : finite_double x → finite_double y → f64_lt x y = negb (f64_le y x).
Proof.
  intros Hx Hy. apply eq_true_iff_eq. rewrite negb_true_iff, <- not_true_iff_false.
  rewrite f64_lt_units, f64_le_units by done. lia.
Qed.
(** Clamping a number puts it between the bounds. *)
Lemma f64_clamp_units x lo hi :
  finite_double x → finite_double lo → finite_double hi → units lo ≤ units hi →
  finite_double (f64_clamp x lo hi) ∧ units lo ≤ units (f64_clamp x lo hi) ≤ units hi.
Proof.
  intros Hx Hlo Hhi Hle. unfold f64_clamp.
  destruct (f64_lt x lo) eqn:E1.
  - destruct (f64_lt hi lo) eqn:E2; [split; [done|lia]|split; [done|lia]].
  - apply not_true_iff_false in E1. rewrite f64_lt_units in E1 by done.
    destruct (f64_lt hi x) eqn:E2; [split; [done|lia]|].
    apply not_true_iff_false in E2. rewrite f64_lt_units in E2 by done. split; [done|lia].
Qed.

(** ** Integers *)

(** Integers up to 2^53 are exact, larger ones at least finite. *)
Lemma f64_of_u64_mag z K : 0 ≤ z < 2 ^ K → 0 ≤ K ≤ 1000 → mag_le (K + 1) (f64_of_u64 z).
Proof. intros Hz HK. apply binary_normalize_mag; [|lia..]. rewrite Z.sub_0_r. lia. Qed.
Lemma f64_of_u64_exact z :
  0 ≤ z ≤ 2 ^ 53 → finite_double (f64_of_u64 z) ∧ units (f64_of_u64 z) = z * 2 ^ 1074.
Proof.
  intros Hz. destruct (decide (z = 2 ^ 53)) as [->|Hne]; [by vm_compute|].
  assert (mag_le 55 (f64_of_u64 z)) as Hmag.
  { apply (f64_of_u64_mag z 54); [|lia]. change (2 ^ 54) with (2 * 2 ^ 53). lia. }
  split; [by eapply mag_le_finite|]. destruct z as [|p|p]; [done| |lia].
  assert (Zdigits2 (Z.pos p) ≤ 53) as Hd by (apply Zdigits2_le; lia).
  destruct (Zdigits2_bounds (Z.pos p) ltac:(lia)) as [Hd1 _].
  unfold f64_of_u64 in *. cbn [binary_normalize] in *. unfold binary_round in *.
  change (Z.pos (digits2_pos p)) with (Zdigits2 (Z.pos p)) in *. rewrite Z.add_0_r in *.
  change (fexp 53 1024 (Zdigits2 (Z.pos p))) with (Z.max (Zdigits2 (Z.pos p) - 53) (-1074)) in *.
  rewrite Z.max_l in * by lia. set (t := Zdigits2 (Z.pos p) - 53) in *.
  pose proof (shl_align_spec p 0 t) as Hs. destruct (shl_align p 0 t) as [m e].
  destruct Hs as [Hm ->]. replace (Z.max 0 (0 - t)) with (- t) in Hm by lia. replace (Z.min 0 t) with t in * by lia.
  assert (Zdigits2 (Z.pos m) = 53) as Hdm by (rewrite Hm, Zdigits2_shift by lia; lia).
  unfold binary_round_aux.
  pose proof (shr_fexp_spec (Z.pos m) t loc_Exact ltac:(lia)) as [Hm1 He1].
  assert (∃ r, shr_fexp 53 1024 (Z.pos m) t loc_Exact = (r, t) ∧ shr_m r = Z.pos m ∧ loc_of_shr_record r = loc_Exact)
    as (r & -> & Hr & Hl).
  { unfold shr_fexp. fold fexp64. rewrite Hdm, fexp64_eq.
    replace (Z.max (53 + t - 53) (-1074) - t) with 0 by lia. simpl. by eexists. }
  cbn [fst snd]. rewrite Hr, Hl. cbn [round_nearest_even].
  assert (shr_fexp 53 1024 (Z.pos m) t loc_Exact = (shr_record_of_loc (Z.pos m) loc_Exact, t)) as ->.
  { unfold shr_fexp. fold fexp64. rewrite Hdm, fexp64_eq.
    by replace (Z.max (53 + t - 53) (-1074) - t) with 0 by lia. }
  cbn [shr_record_of_loc shr_m]. destruct (Z.leb_spec t (1024 - 53)); [|lia].
  cbn [units]. rewrite Hm, Z.mul_1_l, <- Z.mul_assoc, <- Z.pow_add_r by lia. f_equal. f_equal. lia.
Qed.

Lemma f64_to_u64_units x :
  finite_double x → 0 ≤ units x → f64_to_u64 x = Z.min (units x / 2 ^ 1074) u64_max.
Proof.
  destruct x as [s|s| |s m e]; try done. intros Hb Hnn. apply bounded_exponent in Hb as [He _].
  pose proof (units_pos m e ltac:(lia)). cbn [units f64_to_u64] in *.
  destruct s; [lia|]. rewrite Z.mul_1_l. f_equal. pose proof (Z.pow_pos_nonneg 2 1074).
  destruct (Z.leb_spec 0 e).
  - rewrite Z.pow_add_r, Z.mul_assoc by lia. by rewrite Z.div_mul by lia.
  - replace (2 ^ 1074) with (2 ^ (e + 1074) * 2 ^ (- e)) by (rewrite <- Z.pow_add_r by lia; f_equal; lia).
    rewrite (Z.mul_comm (Z.pos m)), Z.div_mul_cancel_l by (apply Z.pow_nonzero; lia). done.
Qed.
(** Rounding does not leave an interval of integers. *)
Lemma f64_round_between x lo hi :
  finite_double x → 0 ≤ lo → hi ≤ 2 ^ 53 → lo * 2 ^ 1074 ≤ units x ≤ hi * 2 ^ 1074 →
  lo ≤ f64_to_u64 (f64_round x) ≤ hi.
Proof.
  intros Hx Hlo Hhi Hu. pose proof (Z.pow_pos_nonneg 2 1074) as Hpow.
  assert (∀ y, finite_double y → lo * 2 ^ 1074 ≤ units y ≤ hi * 2 ^ 1074 → lo ≤ f64_to_u64 y ≤ hi) as Hto.
  { intros y Hy Huy. rewrite f64_to_u64_units by (done || nia).
    assert (lo ≤ units y / 2 ^ 1074) by (apply Z.div_le_lower_bound; lia).
    assert (units y / 2 ^ 1074 ≤ hi) by (apply Z.div_le_upper_bound; lia).
    change (2 ^ 53) with 9007199254740992 in Hhi. lia. }
  destruct x as [s|s| |s m e]; try done; [by apply Hto|]. cbn [f64_round].
  destruct (Z.leb_spec 0 e); [by apply Hto|].
  cbn [finite_double] in Hx. apply bounded_exponent in Hx as [He _]. cbn [units] in Hu.
  pose proof (units_pos m e ltac:(lia)). destruct s; [nia|]. rewrite Z.mul_1_l in Hu.
  set (d := 2 ^ (- e)). assert (0 < d) by (apply Z.pow_pos_nonneg; lia).
  assert (2 ^ 1074 = 2 ^ (e + 1074) * d) as Hsplit by (unfold d; rewrite <- Z.pow_add_r by lia; f_equal; lia).
  assert (0 < 2 ^ (e + 1074)) by (apply Z.pow_pos_nonneg; lia).
  rewrite Hsplit in Hu. assert (lo * d ≤ Z.pos m ≤ hi * d) as Hm by nia.
  replace (2 ^ (- e)) with d by done.
  assert (d = 2 * 2 ^ (- e - 1)) as Hhalf by (unfold d; rewrite <- Z.pow_succ_r by lia; f_equal; lia).
  assert (0 < 2 ^ (- e - 1)) by (apply Z.pow_pos_nonneg; lia).
  set (q := (Z.pos m + 2 ^ (- e - 1)) / d).
  assert (lo ≤ q ≤ hi) as Hq.
  { split; [apply Z.div_le_lower_bound; lia|]. apply Z.lt_succ_r, Z.div_lt_upper_bound; lia. }
  destruct (f64_of_u64_exact q) as [Hf Hqu]; [lia|]. unfold signed_float. fold (f64_of_u64 q).
  apply Hto; [done|]. rewrite Hqu. nia.
Qed.

(** Rounding a number of at least 1 does not take it below its binary order of magnitude. *)
Lemma binary_round_aux_ge s m e l :
  0 < m → e ≤ fexp64 (Zdigits2 m + e) → 1 ≤ Zdigits2 m + e ≤ 900 →
  ∃ p e', binary_round_aux 53 1024 s m e l = S754_finite s p e' ∧
    bounded 53 1024 p e' = true ∧ Zdigits2 m + e ≤ Zdigits2 (Z.pos p) + e'.
Proof.
  intros Hm He Hr.
  pose proof (binary_round_aux_mag s m e l (Zdigits2 m + e) ltac:(lia) He ltac:(lia) ltac:(lia)) as Hmag.
  unfold binary_round_aux in *. rewrite fexp64_eq in He.
  destruct (shr_fexp_spec m e l ltac:(lia)) as [Hm1 He1]. destruct (shr_fexp 53 1024 m e l) as [r1 e1].
  cbn [fst snd] in Hm1, He1. rewrite fexp64_eq, (Z.max_l (_ - 53)), Z.max_r in Hm1, He1 by lia.
  pose proof (Zdigits2_div m (Zdigits2 m + e - 53 - e) ltac:(lia) ltac:(lia) ltac:(lia)) as Hd.
  rewrite <- Hm1 in Hd. set (m1 := shr_m r1) in *. clearbody m1.
  assert (0 < m1) as Hm1p.
  { destruct m1 as [|q|q]; [cbn in Hd; lia|lia|]. exfalso.
    pose proof (Z.pow_pos_nonneg 2 (Zdigits2 m + e - 53 - e) ltac:(lia) ltac:(lia)) as Hpow.
    pose proof (Z.div_pos m _ ltac:(lia) Hpow). lia. }
  destruct (Zdigits2_bounds m1 Hm1p) as [_ Hb].
  replace (Zdigits2 m1) with 53 in Hb by lia.
  pose proof (round_nearest_even_cases m1 (loc_of_shr_record r1)) as Hm2.
  set (m2 := round_nearest_even m1 (loc_of_shr_record r1)) in *. clearbody m2.
  destruct (shr_fexp_spec m2 e1 loc_Exact ltac:(lia)) as [Hm3 He3].
  destruct (shr_fexp 53 1024 m2 e1 loc_Exact) as [r3 e3]. cbn [fst snd] in Hm3, He3.
  set (m3 := shr_m r3) in *. clearbody m3. rewrite fexp64_eq in Hm3, He3.
  assert (∃ p, m3 = Z.pos p ∧ Zdigits2 m + e ≤ Zdigits2 (Z.pos p) + e3) as (p & -> & Hp).
  { destruct (decide (m2 = 2 ^ 53)) as [->|Hne].
    - change (Zdigits2 (2 ^ 53)) with 54 in Hm3, He3.
      replace (Z.max 0 (Z.max (54 + e1 - 53) (-1074) - e1)) with 1 in Hm3, He3 by lia.
      exists 4503599627370496%positive. rewrite Hm3. split; [done|].
      change (Zdigits2 4503599627370496) with 53. lia.
    - assert (Zdigits2 m2 = 53) as Hd2 by (apply Zdigits2_unique; change (2 ^ (53 - 1)) with (2 ^ 52) in *; lia).
      rewrite Hd2 in Hm3, He3. replace (Z.max 0 (Z.max (53 + e1 - 53) (-1074) - e1)) with 0 in Hm3, He3 by lia.
      rewrite Z.div_1_r in Hm3. subst m3. destruct m2 as [|p|p]; [lia| |lia]. exists p. split; [done|]. lia. }
  destruct (e3 <=? 1024 - 53); [|done]. exists p, e3. split; [done|]. split; [apply Hmag|done].
Qed.
Lemma binary_round_ge s p e :
  1 ≤ Zdigits2 (Z.pos p) + e ≤ 900 →
  ∃ q e', binary_round 53 1024 s p e = S754_finite s q e' ∧
    bounded 53 1024 q e' = true ∧ Zdigits2 (Z.pos p) + e ≤ Zdigits2 (Z.pos q) + e'.
Proof.
  intros Hr. unfold binary_round. change (Z.pos (digits2_pos p)) with (Zdigits2 (Z.pos p)).
  set (t := fexp64 (Zdigits2 (Z.pos p) + e)). pose proof (shl_align_spec p e t) as Hs.
  destruct (shl_align p e t) as [m e'']. destruct Hs as [Hm ->].
  assert (Zdigits2 (Z.pos m) + Z.min e t = Zdigits2 (Z.pos p) + e) as Hsum
    by (rewrite Hm, Zdigits2_shift by lia; lia).
  rewrite <- Hsum. apply binary_round_aux_ge; [lia|rewrite Hsum; fold t; lia|lia].
Qed.
(** Division by a positive integer. *)
Lemma f64_div_int_mag K x z :
  mag_le K x → 0 < z < 2 ^ 128 → -1074 ≤ K ≤ 990 → mag_le (K + 2) (f64_div x (f64_of_u64 z)).
Proof.
  intros Hx Hz HK. unfold f64_of_u64. destruct z as [|p|p]; [lia| |lia]. cbn [binary_normalize].
  destruct (Zdigits2_bounds (Z.pos p) ltac:(lia)) as [? _].
  pose proof (Zdigits2_le (Z.pos p) 128 ltac:(lia) ltac:(lia) ltac:(lia)).
  destruct (binary_round_ge false p 0) as (q & e & -> & Hb & Hge); [lia|].
  apply f64_div_mag; [done|done|lia|done].
Qed.
Lemma is_finite_double x : valid_binary 53 1024 x = true → f64_is_finite x = true → finite_double x.
Proof. by destruct x as [|[]| |]. Qed.
Lemma f64_maximum_units a b :
  finite_double a → finite_double b →
  finite_double (f64_maximum a b) ∧ units (f64_maximum a b) = Z.max (units a) (units b).
Proof.
  intros Ha Hb. unfold f64_maximum.
  assert (∀ x, finite_double x → f64_is_nan x = false) as Hnan by by intros [].
  rewrite !Hnan by done. destruct (f64_lt b a) eqn:E.
  - apply (f64_lt_units _ _ Hb Ha) in E. split; [done|lia].
  - split; [done|]. destruct (Z.lt_ge_cases (units b) (units a)) as [Hlt|?]; [|lia].
    apply (f64_lt_units _ _ Hb Ha) in Hlt. congruence.
Qed.
(** A range check: [!x.is_finite() || x < lo || x > hi]. *)
Lemma range_check x lo hi :
  valid_binary 53 1024 x = true → finite_double lo → finite_double hi →
  negb (f64_is_finite x) || f64_lt x lo || f64_lt hi x = false ↔ f64_le lo x = true ∧ f64_le x hi = true.
Proof.
  intros Hx Hlo Hhi. destruct (f64_is_finite x) eqn:Hf; cbn [negb orb].
  - apply is_finite_double in Hx; [|done]. rewrite !f64_lt_not_le, orb_false_iff, !negb_false_iff by done. done.
  - split; [done|]. destruct x as [|[]| |], lo as [|[]| |[]], hi as [|[]| |[]]; try done; naive_solver.
Qed.

(** ** Choosing and clamping *)

Lemma units_le_mag x : finite_double x → Z.abs (units x) ≤ 2 ^ 1074 → mag_le 1 x.
Proof.
  destruct x as [s|s| |s m e]; try done. cbn [finite_double mag_le units]. intros Hb Hu. split; [done|].
  apply bounded_exponent in Hb as [He _]. destruct (Zdigits2_bounds (Z.pos m) ltac:(lia)) as [? [Hm _]].
  pose proof (Z.pow_pos_nonneg 2 (e + 1074) ltac:(lia) ltac:(lia)).
  apply Z.nlt_ge. intros Hlt.
  assert (2 ^ 1075 ≤ 2 ^ (Zdigits2 (Z.pos m) - 1) * 2 ^ (e + 1074)) as Hbig
    by (rewrite <- Z.pow_add_r by lia; apply Z.pow_le_mono_r; lia).
  assert (Z.pos m * 2 ^ (e + 1074) ≤ 2 ^ 1074) by (destruct s; lia).
  assert (2 ^ (Zdigits2 (Z.pos m) - 1) * 2 ^ (e + 1074) ≤ Z.pos m * 2 ^ (e + 1074))
    by (apply Z.mul_le_mono_nonneg_r; lia).
  change (2 ^ 1075) with (2 * 2 ^ 1074) in Hbig. pose proof (Z.pow_pos_nonneg 2 1074). lia.
Qed.
Lemma one_units : finite_double (int 1) ∧ units (int 1) = 2 ^ 1074.
Proof. destruct (f64_of_u64_exact 1 ltac:(lia)) as [? ->]. split; [done|]. lia. Qed.
Lemma f64_min_mag K x y : mag_le K x → mag_le K y → mag_le K (f64_min x y).
Proof. unfold f64_min. by destruct (f64_is_nan x), (f64_is_nan y), (f64_lt x y). Qed.
Lemma f64_maximum_mag K x y : mag_le K x → mag_le K y → mag_le K (f64_maximum x y).
Proof. unfold f64_maximum. by destruct (f64_is_nan x), (f64_is_nan y), (f64_lt y x). Qed.
Lemma f64_clamp_mag K x lo hi : mag_le K x → mag_le K lo → mag_le K hi → mag_le K (f64_clamp x lo hi).
Proof. unfold f64_clamp. intros. by destruct (f64_lt x lo), (f64_lt hi _). Qed.
(** The magnitude of a literal. *)
Ltac const_mag := vm_compute; (done || (split; [reflexivity|discriminate])).
(** What a clamp of a number promises. *)
Lemma clamped_between x lo hi :
  finite_double x → finite_double lo → finite_double hi → units lo ≤ units hi →
  finite_double (f64_clamp x lo hi) ∧
  f64_le lo (f64_clamp x lo hi) = true ∧ f64_le (f64_clamp x lo hi) hi = true.
Proof.
  intros Hx Hlo Hhi Hle. destruct (f64_clamp_units x lo hi) as [Hf Hb]; [done..|].
  rewrite !f64_le_units by done. done.
Qed.
Lemma clamped_unit x :
  finite_double x →
  mag_le 1 (f64_clamp x f64_zero (int 1)) ∧
  f64_le f64_zero (f64_clamp x f64_zero (int 1)) = true ∧ f64_le (f64_clamp x f64_zero (int 1)) (int 1) = true.
Proof.
  intros Hx. destruct one_units as [H1 Hu]. pose proof (Z.pow_pos_nonneg 2 1074).
  destruct (f64_clamp_units x f64_zero (int 1)) as [Hf Hb]; [done..|change (units f64_zero) with 0; lia|].
  rewrite !f64_le_units by done. split; [apply units_le_mag; [done|]|];
    rewrite ?Hu in *; change (units f64_zero) with 0 in *; lia.
Qed.

(** ** Rounding keeps order

    What is computed is at most [y] when the exact result is, [y] being a double: the
    exact result is [m * 2^e], or strictly between it and [(m + 1) * 2^e]. *)

#[export] Instance location_eq_dec : EqDecision location.
Proof. solve_decision. Defined.
Lemma shr_1_exact r : (2 | shr_m r) → loc_of_shr_record r = loc_Exact → loc_of_shr_record (shr_1 r) = loc_Exact.
Proof.
  intros [q Hq] Hl. destruct r as [m a b]. cbn [shr_m] in Hq.
  destruct a, b; try done. by destruct m as [|[p|p|]|[p|p|]]; try lia.
Qed.
Lemma iter_shr_exact p r :
  0 ≤ shr_m r → (2 ^ Z.pos p | shr_m r) → loc_of_shr_record r = loc_Exact →
  loc_of_shr_record (iter_pos shr_1 p r) = loc_Exact.
Proof.
  revert r. induction p as [p IH|p IH|]; intros r Hr [q Hq] Hl; cbn [iter_pos].
  - assert (Hm : shr_m r = q * 2 ^ Z.pos p * 2 ^ Z.pos p * 2).
    { rewrite Hq, (Pos2Z.inj_xI p), <- (Z.add_diag (Z.pos p)), !Z.pow_add_r by lia. lia. }
    assert (H1 : shr_m (shr_1 r) = q * 2 ^ Z.pos p * 2 ^ Z.pos p) by (rewrite shr_1_m, Hm, Z.div_mul by (lia || done); done).
    assert (0 < 2 ^ Z.pos p) by (apply Z.pow_pos_nonneg; lia).
    assert (H2 : shr_m (iter_pos shr_1 p (shr_1 r)) = q * 2 ^ Z.pos p)
      by (rewrite iter_pos_shr, H1, Z.div_mul by nia; done).
    apply IH; [rewrite H2; nia|rewrite H2; by exists q|].
    apply IH; [rewrite H1; nia|rewrite H1; by eexists|].
    apply shr_1_exact; [|done]. rewrite Hm. by eexists.
  - assert (Hm : shr_m r = q * 2 ^ Z.pos p * 2 ^ Z.pos p).
    { rewrite Hq, (Pos2Z.inj_xO p), <- (Z.add_diag (Z.pos p)), Z.pow_add_r by lia. lia. }
    assert (0 < 2 ^ Z.pos p) by (apply Z.pow_pos_nonneg; lia).
    assert (H2 : shr_m (iter_pos shr_1 p r) = q * 2 ^ Z.pos p) by (rewrite iter_pos_shr, Hm, Z.div_mul by nia; done).
    apply IH; [rewrite H2; nia|rewrite H2; by exists q|].
    apply IH; [done|rewrite Hm; by eexists|done].
  - apply shr_1_exact; [by exists q|done].
Qed.
(** The shift loses nothing, or the location says that it did. *)
Lemma shr_fexp_exact m e :
  0 ≤ m → let k := Z.max 0 (fexp64 (Zdigits2 m + e) - e) in
  (2 ^ k | m) → loc_of_shr_record (shr_fexp 53 1024 m e loc_Exact).1 = loc_Exact.
Proof.
  intros Hm k Hdiv. unfold shr_fexp, shr. fold fexp64. unfold k in Hdiv.
  destruct (fexp64 (Zdigits2 m + e) - e) as [|p|p] eqn:Hk; cbn [fst]; [done| |done].
  by apply iter_shr_exact.
Qed.
(** A positive double at least [m * 2^e] has no finer exponent than the result. *)
Lemma exponent_above m e my ey :
  0 < m → -2148 ≤ e → bounded 53 1024 my ey = true → m * 2 ^ (e + 2148) ≤ Z.pos my * 2 ^ (ey + 2148) →
  fexp64 (Zdigits2 m + e) ≤ ey.
Proof.
  intros Hm He Hb Hle. rewrite bounded_spec, fexp64_eq in Hb. rewrite fexp64_eq.
  destruct (Zdigits2_bounds m Hm) as [? [Hlo _]], (Zdigits2_bounds (Z.pos my) ltac:(lia)) as [? [_ Hhi]].
  apply Z.nlt_ge. intros Hlt.
  assert (2 ^ (Zdigits2 m - 1 + (e + 2148)) < 2 ^ (Zdigits2 (Z.pos my) + (ey + 2148))) as Hpow.
  { rewrite (Z.pow_add_r 2 (Zdigits2 m - 1)), (Z.pow_add_r 2 (Zdigits2 (Z.pos my))) by lia.
    pose proof (Z.pow_pos_nonneg 2 (e + 2148) ltac:(lia) ltac:(lia)).
    pose proof (Z.pow_pos_nonneg 2 (ey + 2148) ltac:(lia) ltac:(lia)).
    apply Z.le_lt_trans with (m * 2 ^ (e + 2148)); [by apply Z.mul_le_mono_nonneg_r; lia|].
    eapply Z.le_lt_trans; [exact Hle|]. by apply Z.mul_lt_mono_pos_r. }
  apply Z.pow_lt_mono_r_iff in Hpow; lia.
Qed.
(** Rounding up stays below [y]. *)
Lemma round_up_below m e k y :
  0 ≤ m → -2148 ≤ e → k = fexp64 (Zdigits2 m + e) - e → 0 ≤ k → finite_double y → 0 < units y →
  m * 2 ^ (e + 2148) ≤ units y * 2 ^ 1074 → m / 2 ^ k * 2 ^ (e + k + 1074) < units y →
  (m / 2 ^ k + 1) * 2 ^ (e + k + 1074) ≤ units y.
Proof.
  intros Hm He Hk Hk0 Hy Hpos Hle Hlt.
  destruct y as [s|s| |s my ey]; try done. cbn [finite_double units] in *.
  pose proof (bounded_exponent _ _ Hy) as [Hey _]. pose proof (units_pos my ey ltac:(lia)) as Hup.
  destruct s; [lia|]. rewrite Z.mul_1_l in *.
  assert (e + k ≤ ey) as Hexp.
  { destruct (decide (m = 0)) as [->|]; [rewrite fexp64_eq in Hk; cbn in Hk; lia|].
    replace (e + k) with (fexp64 (Zdigits2 m + e)) by lia. apply (exponent_above m e my ey); [lia|done|done|].
    rewrite <- Z.mul_assoc, <- Z.pow_add_r in Hle by lia.
    by replace (ey + 1074 + 1074) with (ey + 2148) in Hle by lia. }
  assert (-1074 ≤ e + k) by (rewrite fexp64_eq in Hk; lia).
  assert (2 ^ (ey + 1074) = 2 ^ (ey - (e + k)) * 2 ^ (e + k + 1074)) as Hs
    by (rewrite <- Z.pow_add_r by lia; f_equal; lia).
  pose proof (Z.pow_pos_nonneg 2 (e + k + 1074) ltac:(lia) ltac:(lia)).
  rewrite Hs, Z.mul_assoc in *. apply Z.mul_le_mono_nonneg_r; [lia|].
  apply Z.mul_lt_mono_pos_r in Hlt; lia.
Qed.

(** What the location says of the exact result, in units of 2^-2148. *)
Definition below (m e : Z) (l : location) (y : f64) : Prop :=
  m * 2 ^ (e + 2148) ≤ units y * 2 ^ 1074 ∧ (l ≠ loc_Exact → m * 2 ^ (e + 2148) < units y * 2 ^ 1074).

Lemma rounded_below m e l y :
  0 ≤ m → -2148 ≤ e ≤ fexp64 (Zdigits2 m + e) → finite_double y → below m e l y →
  let r := shr_fexp 53 1024 m e l in
  0 ≤ round_nearest_even (shr_m r.1) (loc_of_shr_record r.1) ∧
  round_nearest_even (shr_m r.1) (loc_of_shr_record r.1) * 2 ^ (r.2 + 1074) ≤ units y.
Proof.
  intros Hm He Hy [Hle Hlt]. cbv zeta.
  destruct (shr_fexp_spec m e l Hm) as [Hm1 He1].
  set (k := fexp64 (Zdigits2 m + e) - e) in *. rewrite Z.max_r in Hm1, He1 by lia.
  assert (-1074 ≤ e + k) by (unfold k; rewrite fexp64_eq; lia).
  rewrite Hm1, He1. assert (0 < 2 ^ k) by (apply Z.pow_pos_nonneg; lia).
  assert (0 ≤ m / 2 ^ k) by (apply Z.div_pos; lia).
  assert (2 ^ (e + k + 1074) * 2 ^ 1074 = 2 ^ k * 2 ^ (e + 2148)) as Hs by (rewrite <- !Z.pow_add_r by lia; f_equal; lia).
  assert (0 < 2 ^ (e + 2148)) by (apply Z.pow_pos_nonneg; lia).
  assert (0 < 2 ^ 1074) by (by apply Z.pow_pos_nonneg).
  pose proof (Z.mul_div_le m (2 ^ k) ltac:(lia)) as Hfloor.
  set (v := m / 2 ^ k * 2 ^ (e + k + 1074)).
  assert (v * 2 ^ 1074 = m / 2 ^ k * 2 ^ k * 2 ^ (e + 2148)) as Hv by (unfold v; rewrite <- !Z.mul_assoc, Hs; lia).
  assert (v * 2 ^ 1074 ≤ m * 2 ^ (e + 2148)) as Hlow by (rewrite Hv; apply Z.mul_le_mono_nonneg_r; lia).
  destruct (decide (loc_of_shr_record (shr_fexp 53 1024 m e l).1 = loc_Exact)) as [->|Hloc].
  { cbn [round_nearest_even]. fold v. nia. }
  assert (v < units y) as Hstrict.
  { apply (Z.mul_lt_mono_pos_r (2 ^ 1074)); [done|]. destruct l as [|c]; [|pose proof (Hlt ltac:(done)); lia].
    assert (m ≠ m / 2 ^ k * 2 ^ k) as Hne.
    { intros Heq. apply Hloc, shr_fexp_exact; [done|]. fold k. rewrite Z.max_r by lia. by exists (m / 2 ^ k). }
    eapply Z.lt_le_trans; [|exact Hle]. rewrite Hv. apply Z.mul_lt_mono_pos_r; lia. }
  assert (0 ≤ v) by (unfold v; pose proof (Z.pow_nonneg 2 (e + k + 1074)); nia).
  pose proof (round_up_below m e k y Hm ltac:(lia) eq_refl ltac:(lia) Hy ltac:(lia) Hle Hstrict).
  destruct (round_nearest_even_cases (m / 2 ^ k) (loc_of_shr_record (shr_fexp 53 1024 m e l).1)) as [-> | ->];
    fold v; lia.
Qed.
Lemma binary_round_aux_below m e l y :
  0 ≤ m → -2148 ≤ e ≤ fexp64 (Zdigits2 m + e) → Zdigits2 m + e ≤ 1000 → finite_double y → below m e l y →
  let r := binary_round_aux 53 1024 false m e l in finite_double r ∧ 0 ≤ units r ≤ units y.
Proof.
  intros Hm He Hd Hy Hb. pose proof (Zdigits2_nonneg m).
  pose proof (binary_round_aux_mag false m e l 1000 Hm ltac:(lia) ltac:(lia) ltac:(lia)) as Hmag.
  pose proof (rounded_below m e l y Hm He Hy Hb) as [H2 Hu].
  cbv zeta. split; [by eapply mag_le_finite|]. unfold binary_round_aux in *.
  pose proof (shr_fexp_spec m e l Hm) as [_ He1]. rewrite fexp64_eq in He1.
  destruct (shr_fexp 53 1024 m e l) as [r1 e1] eqn:Hs1. cbn [fst snd] in *.
  assert (-1074 ≤ e1) by lia. clear He1.
  set (m2 := round_nearest_even _ _) in *. clearbody m2.
  destruct (shr_fexp_spec m2 e1 loc_Exact H2) as [Hm3 He3].
  destruct (shr_fexp 53 1024 m2 e1 loc_Exact) as [r3 e3]. cbn [fst snd] in Hm3, He3.
  set (k := Z.max 0 (fexp64 (Zdigits2 m2 + e1) - e1)) in *.
  assert (0 < 2 ^ k) by (apply Z.pow_pos_nonneg; lia). pose proof (Z.mul_div_le m2 (2 ^ k) ltac:(lia)).
  assert (0 < 2 ^ (e1 + 1074)) by (apply Z.pow_pos_nonneg; lia).
  rewrite <- Hm3 in *. destruct (shr_m r3) as [|p|p] eqn:Hr3.
  - cbn [units]. nia.
  - destruct (e3 <=? 1024 - 53); [|done]. cbn [units]. rewrite Z.mul_1_l, He3.
    assert (2 ^ (e1 + k + 1074) = 2 ^ k * 2 ^ (e1 + 1074)) as -> by (rewrite <- Z.pow_add_r by lia; f_equal; lia).
    nia.
  - done.
Qed.

Lemma units_nonneg_sign s m e : -1074 ≤ e → 0 ≤ units (S754_finite s m e) → s = false.
Proof. intros He Hu. cbn [units] in Hu. pose proof (units_pos m e He). destruct s; [lia|done]. Qed.

(** The rounded product of two nonnegative numbers is at most a double the product is at
    most. *)
Lemma f64_mul_below K L x p y :
  mag_le K x → mag_le L p → K + L ≤ 1000 → finite_double y → 0 ≤ units x → 0 ≤ units p →
  units x * units p ≤ units y * 2 ^ 1074 →
  finite_double (f64_mul x p) ∧ 0 ≤ units (f64_mul x p) ≤ units y.
Proof.
  intros Hx Hp HKL Hy Hux Hup Hle. pose proof (Z.pow_pos_nonneg 2 1074 ltac:(lia) ltac:(lia)).
  assert (0 ≤ units y) by (apply (Z.mul_le_mono_pos_r _ _ (2 ^ 1074)); [done|]; rewrite Z.mul_0_l;
    etransitivity; [|exact Hle]; by apply Z.mul_nonneg_nonneg).
  destruct x as [sx|sx| |sx mx ex], p as [sp|sp| |sp mp ep]; try done.
  destruct Hx as [Hbx Hx], Hp as [Hbp Hp].
  pose proof (bounded_exponent _ _ Hbx) as [Hex _]. pose proof (bounded_exponent _ _ Hbp) as [Hep _].
  pose proof (units_nonneg_sign sx mx ex ltac:(lia) Hux) as ->.
  pose proof (units_nonneg_sign sp mp ep ltac:(lia) Hup) as ->.
  unfold f64_mul. cbn [SFmul xorb]. rewrite Pos2Z.inj_mul.
  pose proof (Zdigits2_mul (Z.pos mx) (Z.pos mp) ltac:(lia) ltac:(lia)).
  rewrite bounded_spec, fexp64_eq in Hbx, Hbp.
  pose proof (Zdigits2_bounds (Z.pos mx) ltac:(lia)) as [? _]. pose proof (Zdigits2_bounds (Z.pos mp) ltac:(lia)) as [? _].
  apply binary_round_aux_below; [lia|rewrite fexp64_eq; lia|lia|done|]. split; [|done].
  cbn [units] in Hle. rewrite !Z.mul_1_l in Hle.
  replace (Z.pos mx * Z.pos mp * 2 ^ (ex + ep + 2148)) with
    (Z.pos mx * 2 ^ (ex + 1074) * (Z.pos mp * 2 ^ (ep + 1074))); [done|].
  replace (ex + ep + 2148) with (ex + 1074 + (ep + 1074)) by lia. rewrite (Z.pow_add_r 2 (ex + 1074)) by lia. ring.
Qed.
Lemma f64_mul_unit K x p :
  mag_le K x → K ≤ 990 → finite_double p → 0 ≤ units x → 0 ≤ units p ≤ 2 ^ 1074 →
  finite_double (f64_mul x p) ∧ 0 ≤ units (f64_mul x p) ≤ units x.
Proof.
  intros Hx HK Hp Hux Hup. apply (f64_mul_below K 1); [done|apply units_le_mag; [done|lia]|lia| |done|lia|].
  - exact (mag_le_finite _ _ Hx).
  - apply Z.mul_le_mono_nonneg_l; [done|lia].
Qed.

Lemma f64_div_below K x d y :
  mag_le K x → K ≤ 900 → finite_double d → 2 ^ 1074 ≤ units d → finite_double y → 0 ≤ units x →
  units x * 2 ^ 1074 ≤ units y * units d →
  finite_double (f64_div x d) ∧ 0 ≤ units (f64_div x d) ≤ units y.
Proof.
  intros Hx HK Hd Hud Hy Hux Hle. pose proof (Z.pow_pos_nonneg 2 1074 ltac:(lia) ltac:(lia)).
  assert (0 ≤ units y) by (apply (Z.mul_le_mono_pos_r _ _ (units d)); [lia|]; rewrite Z.mul_0_l;
    etransitivity; [|exact Hle]; apply Z.mul_nonneg_nonneg; lia).
  destruct d as [sd|sd| |sd my ey]; try done.
  destruct x as [sx|sx| |sx mx ex]; try done.
  destruct Hx as [Hbx Hx]. pose proof (bounded_exponent _ _ Hbx) as [Hex _].
  cbn [finite_double] in Hd. pose proof (bounded_exponent _ _ Hd) as [Hey _].
  pose proof (units_nonneg_sign sx mx ex ltac:(lia) Hux) as ->.
  pose proof (units_nonneg_sign sd my ey ltac:(lia) ltac:(lia)) as ->.
  unfold f64_div. cbn [SFdiv xorb]. pose proof (div_core_spec mx ex my ey) as Hcore.
  destruct (SFdiv_core_binary _ _ _ _ _ _) as [[q e'] l].
  destruct Hcore as (r & Hdiv & Hr & Hl & Hq & He' & Hf & Hdq). rewrite fexp64_eq in He'.
  cbn [units] in Hle, Hud. rewrite !Z.mul_1_l in Hle, Hud.
  assert (1 ≤ Zdigits2 (Z.pos my) + ey) as Hdy.
  { destruct (Zdigits2_bounds (Z.pos my) ltac:(lia)) as [? [_ Hb]]. apply Z.nlt_ge. intros Hlt.
    pose proof (Z.pow_pos_nonneg 2 (ey + 1074) ltac:(lia) ltac:(lia)).
    assert (Z.pos my * 2 ^ (ey + 1074) < 2 ^ (Zdigits2 (Z.pos my) + (ey + 1074)))
      by (rewrite (Z.pow_add_r 2 (Zdigits2 (Z.pos my))) by lia; by apply Z.mul_lt_mono_pos_r).
    pose proof (Z.pow_le_mono_r 2 (Zdigits2 (Z.pos my) + (ey + 1074)) 1074). lia. }
  apply binary_round_aux_below; [done|lia|lia|done|].
  (* both sides times the divisor *)
  set (D := Z.pos my * 2 ^ (ey + 1074)) in *. rewrite ?(Z.mul_1_l D) in Hle.
  assert (q * 2 ^ (e' + 2148) * D ≤ units y * 2 ^ 1074 * D ∧
    (l ≠ loc_Exact → q * 2 ^ (e' + 2148) * D < units y * 2 ^ 1074 * D)) as [H1 H2].
  { assert (q * 2 ^ (e' + 2148) * D = q * Z.pos my * 2 ^ (e' + 2148 + (ey + 1074))) as ->
      by (unfold D; rewrite (Z.pow_add_r 2 (e' + 2148)) by lia; ring).
    assert (units y * 2 ^ 1074 * D = units y * D * 2 ^ 1074) as -> by ring.
    set (P := 2 ^ (e' + 2148 + (ey + 1074))). assert (0 < P) by (apply Z.pow_pos_nonneg; lia).
    assert (Z.pos mx * 2 ^ (ex - ey - e') * P ≤ units y * D * 2 ^ 1074) as Htop.
    { apply Z.le_trans with (Z.pos mx * 2 ^ (ex + 1074) * 2 ^ 1074 * 2 ^ 1074).
      - apply Z.eq_le_incl. unfold P. rewrite <- !Z.mul_assoc, <- !Z.pow_add_r by lia. f_equal. f_equal. lia.
      - apply Z.mul_le_mono_nonneg_r; [lia|exact Hle]. }
    rewrite Hdiv in Htop. split.
    - etransitivity; [|exact Htop]. apply Z.mul_le_mono_nonneg_r; lia.
    - intros Hne%Hl. eapply Z.lt_le_trans; [|exact Htop]. apply Z.mul_lt_mono_pos_r; lia. }
  assert (0 < D) by lia. split.
  - by apply Z.mul_le_mono_pos_r in H1.
  - intros Hne. apply H2 in Hne. by apply Z.mul_lt_mono_pos_r in Hne.
Qed.

(** ** Bit patterns *)

Lemma finite_bits m e :
  bounded 53 1024 m e = true →
  -1074 ≤ e ≤ 971 ∧ Z.pos m < 2 ^ 53 ∧ (e = -1074 ∨ 2 ^ 52 ≤ Z.pos m).
Proof.
  intros Hb. pose proof (bounded_exponent m e Hb) as [He Hd]. split; [done|].
  destruct (Zdigits2_bounds (Z.pos m) ltac:(lia)) as [H1 [Hl Hu]]. split.
  - eapply Z.lt_le_trans; [done|]. apply Z.pow_le_mono_r; lia.
  - apply bounded_spec in Hb as [Hf _]. rewrite fexp64_eq in Hf. destruct (decide (e = -1074)) as [|Hne]; [by left|].
    right. replace 52 with (Zdigits2 (Z.pos m) - 1) by lia. done.
Qed.
Lemma f64_to_bits_inj x y :
  valid_binary 53 1024 x = true → valid_binary 53 1024 y = true → f64_to_bits x = f64_to_bits y → x = y.
Proof.
  assert (∀ m e, bounded 53 1024 m e = true → ∃ b, (e + 1074) * 2 ^ 52 + Z.pos m = b ∧ 0 < b < 2047 * 2 ^ 52)
    as Hbody.
  { intros m e Hb%finite_bits. eexists. split; [done|].
    change (2 ^ 52) with 4503599627370496 in *. change (2 ^ 53) with 9007199254740992 in *. lia. }
  intros Hx Hy. unfold f64_to_bits. change (2 ^ 63) with 9223372036854775808. change (2 ^ 51) with 2251799813685248.
  destruct x as [s1|s1| |s1 m1 e1], y as [s2|s2| |s2 m2 e2]; cbn [valid_binary] in Hx, Hy;
    repeat match goal with
    | H : bounded _ _ ?m ?e = true |- _ =>
        destruct (Hbody m e H) as (? & ? & ?); apply finite_bits in H; revert H
    end; change (2 ^ 52) with 4503599627370496 in *; change (2 ^ 53) with 9007199254740992 in *;
    try (intros; exfalso; try destruct s1; try destruct s2; lia); intros.
  - destruct s1, s2; (done || lia).
  - destruct s1, s2; (done || lia).
  - done.
  - assert (s1 = s2) as -> by (destruct s1, s2; (done || lia)).
    assert (e1 = e2) as -> by (destruct s2; lia). assert (m1 = m2) as -> by (destruct s2; lia). done.
Qed.
Lemma f64_to_bits_range x : valid_binary 53 1024 x = true → is_u64 (f64_to_bits x).
Proof.
  intros Hx. unfold f64_to_bits, is_u64. change (2 ^ 63) with 9223372036854775808.
  change (2 ^ 51) with 2251799813685248.
  destruct x as [[]|[]| |s m e]; [lia..|]. cbn [valid_binary] in Hx. apply finite_bits in Hx.
  change (2 ^ 52) with 4503599627370496 in *. change (2 ^ 53) with 9007199254740992 in *. destruct s; lia.
Qed.
Lemma prefix_inj_bits_be : prefix_inj (λ x, valid_binary 53 1024 x = true) (λ x, to_be_bytes 8 (f64_to_bits x)).
Proof.
  intros x y r1 r2 Hx Hy Heq. apply prefix_inj_u64 in Heq as [Hbits ->]; [|by apply f64_to_bits_range..].
  split; [|done]. by apply f64_to_bits_inj.
Qed.

(** ** The total order *)

(** [total_cmp] compares the kinds of number, then exponents, then significands. *)
Definition total_key (x : f64) : Z * (Z * Z) :=
  match x with
  | S754_infinity true => (0, (0, 0))
  | S754_finite true m e => (1, (- e, - Z.pos m))
  | S754_zero true => (2, (0, 0))
  | S754_zero false => (3, (0, 0))
  | S754_finite false m e => (4, (e, Z.pos m))
  | S754_infinity false => (5, (0, 0))
  | S754_nan => (6, (0, 0))
  end.
Lemma f64_total_cmp_key a b :
  f64_total_cmp a b =
    then_with (Z.compare (total_key a).1 (total_key b).1)
      (then_with (Z.compare (total_key a).2.1 (total_key b).2.1)
                 (Z.compare (total_key a).2.2 (total_key b).2.2)).
Proof.
  destruct a as [[]|[]| |[] ma ea], b as [[]|[]| |[] mb eb]; try reflexivity; unfold f64_total_cmp; cbn.
  - rewrite !Z.compare_opp, (Z.compare_antisym ea eb), (Z.compare_antisym (Z.pos ma)).
    change (Z.pos ma ?= Z.pos mb) with (ma ?= mb)%positive. destruct (ea ?= eb); try done. cbn.
    change (Pos.compare_cont Eq ma mb) with (ma ?= mb)%positive. by destruct (ma ?= mb)%positive.
  - destruct (ea ?= eb); try done. cbn. change (Pos.compare_cont Eq ma mb) with (ma ?= mb)%positive.
    by destruct (ma ?= mb)%positive.
Qed.
#[export] Instance total_cmp_ord : OrdCmp f64_total_cmp.
Proof.
  set (c3 x y := Z.compare (total_key x).2.2 (total_key y).2.2).
  set (c2 x y := then_with (Z.compare (total_key x).2.1 (total_key y).2.1) (c3 x y)).
  assert (PreorderCmp (λ x y, then_with (Z.compare (total_key x).1 (total_key y).1) (c2 x y))) as Hp.
  { exact (@then_with_preorder _ _ (preorder_on (λ x, (total_key x).1) Z.compare) _
      (@then_with_preorder _ _ (preorder_on (λ x, (total_key x).2.1) Z.compare) _
        (preorder_on (λ x, (total_key x).2.2) Z.compare))). }
  split.
  - split.
    + intros x y. rewrite !f64_total_cmp_key. apply (cmp_antisym _ (PreorderCmp := Hp) x y).
    + intros x y z. rewrite !f64_total_cmp_key. apply (cmp_le_trans _ (PreorderCmp := Hp) x y z).
  - intros x y. rewrite f64_total_cmp_key, !then_with_eq, !Z.compare_eq_iff.
    destruct x as [[]|[]| |[] mx ex], y as [[]|[]| |[] my ey]; cbn; intros (? & ? & ?); try done;
      f_equal; try done; try lia; by simplify_eq.
Qed.

Lemma SFcompare_swap x y : SFcompare y x = CompOpp <$> SFcompare x y.
Proof.
  destruct x as [[]|[]| |[] mx ex], y as [[]|[]| |[] my ey]; try reflexivity; cbn;
    rewrite (Z.compare_antisym ex ey); destruct (ex ?= ey); try done;
    change (Pos.compare_cont Eq my mx) with (my ?= mx)%positive;
    change (Pos.compare_cont Eq mx my) with (mx ?= my)%positive;
    rewrite (Pos.compare_antisym mx my); by destruct (mx ?= my)%positive.
Qed.

(** ** Quotients of counts *)

(** The quotient of a total that is at most [n] for each of [count] by their number. *)
Lemma quotient_between n total count :
  0 < count ≤ 2 ^ 53 → 0 ≤ n ≤ 2 ^ 53 → 0 ≤ total ≤ 2 ^ 53 → total ≤ n * count →
  let q := f64_div (f64_of_u64 total) (f64_of_u64 count) in
  finite_double q ∧ f64_le f64_zero q = true ∧ f64_le q (f64_of_u64 n) = true.
Proof.
  intros Hc Hn Ht Htn. cbv zeta.
  destruct (f64_of_u64_exact total) as [Hft Hut]; [lia|]. destruct (f64_of_u64_exact count) as [Hfc Huc]; [lia|].
  destruct (f64_of_u64_exact n) as [Hfn Hun]; [lia|]. assert (HP : 0 < 2 ^ 1074) by (by apply Z.pow_pos_nonneg).
  set (P := 2 ^ 1074) in *. destruct (f64_div_below 55 (f64_of_u64 total) (f64_of_u64 count) (f64_of_u64 n)) as (Hf & H0 & H1);
    [apply (f64_of_u64_mag _ 54); lia|lia|done|rewrite Huc; fold P; nia|done|rewrite Hut; fold P; nia
    |rewrite Hut, Huc, Hun; fold P; nia|].
  rewrite !f64_le_units by done. by split.
Qed.
(** The fraction of a count is between 0 and 1. *)
Lemma fraction_between part whole :
  0 ≤ part ≤ whole → 0 < whole ≤ 2 ^ 53 →
  let q := f64_div (f64_of_u64 part) (f64_of_u64 whole) in
  finite_double q ∧ f64_le f64_zero q = true ∧ f64_le q (int 1) = true.
Proof. intros ??. apply (quotient_between 1); lia. Qed.
(** Percentages: [part * 100 / whole] and [(part / whole) * 100]. *)
Lemma percent_between part whole :
  0 ≤ part ≤ whole → 0 < whole ≤ 2 ^ 46 →
  let q := f64_div (f64_mul (f64_of_u64 part) (int 100)) (f64_of_u64 whole) in
  f64_le f64_zero q = true ∧ f64_le q (int 100) = true.
Proof.
  intros Hp Hw. cbv zeta. assert (HP : 0 < 2 ^ 1074) by (by apply Z.pow_pos_nonneg).
  destruct (f64_of_u64_exact part) as [Hfp Hup]; [lia|]. destruct (f64_of_u64_exact whole) as [Hfw Huw]; [lia|].
  destruct (f64_of_u64_exact (part * 100)) as [Hft Hut]; [lia|]. destruct (f64_of_u64_exact 100) as [Hfh Huh]; [lia|].
  assert (Hmp : mag_le 55 (f64_of_u64 part)) by (apply (f64_of_u64_mag _ 54); lia).
  assert (Hmh : mag_le 8 (int 100)) by (apply (f64_of_u64_mag _ 7); lia).
  pose proof (f64_mul_mag 55 8 _ _ Hmp Hmh ltac:(lia)) as Hmm.
  set (P := 2 ^ 1074) in *. destruct (f64_mul_below 55 8 (f64_of_u64 part) (int 100) (f64_of_u64 (part * 100))) as (Hf & H0 & H1);
    [done|done|lia|done|rewrite Hup; nia|rewrite Huh; nia|rewrite Hup, Huh, Hut; nia|].
  destruct (f64_div_below 64 (f64_mul (f64_of_u64 part) (int 100)) (f64_of_u64 whole) (int 100)) as (Hfq & Hq0 & Hq1);
    [done|lia|done|rewrite Huw; nia|done|done|rewrite Huw, Huh; nia|].
  rewrite !f64_le_units by done. by split.
Qed.
Lemma fraction_percent part whole :
  0 ≤ part ≤ whole → 0 < whole ≤ 2 ^ 53 →
  let q := f64_mul (f64_div (f64_of_u64 part) (f64_of_u64 whole)) (int 100) in
  f64_le f64_zero q = true ∧ f64_le q (int 100) = true.
Proof.
  intros Hp Hw. cbv zeta. destruct (fraction_between part whole Hp Hw) as (Hf & H0 & H1).
  set (r := f64_div _ _) in *. clearbody r. destruct one_units as [Hone Hu].
  rewrite f64_le_units in H0, H1 by done. rewrite Hu in H1. change (units f64_zero) with 0 in H0.
  assert (HP : 0 < 2 ^ 1074) by (by apply Z.pow_pos_nonneg). destruct (f64_of_u64_exact 100) as [Hfh Huh]; [lia|].
  assert (Hmh : mag_le 8 (int 100)) by (apply (f64_of_u64_mag _ 7); lia).
  assert (Hmr : mag_le 1 r) by (apply units_le_mag; [done|lia]).
  set (P := 2 ^ 1074) in *. destruct (f64_mul_below 1 8 r (int 100) (int 100)) as (Hfq & Hq0 & Hq1);
    [done|done|lia|done|done|rewrite Huh; lia|rewrite Huh; nia|].
  rewrite !f64_le_units by done. by split.
Qed.
Lemma f64_mul_comm x y : f64_mul x y = f64_mul y x.
Proof.
  unfold f64_mul. destruct x as [sx|sx| |sx mx ex], y as [sy|sy| |sy my ey]; cbn [SFmul]; try reflexivity;
    rewrite (xorb_comm sx sy); try reflexivity.
  by rewrite (Pos.mul_comm mx my), (Z.add_comm ex ey).
Qed.
