(* ===== verification/MeshBench.v ===== *)
(** * The mesh benchmark ([eth2077-bench/src/main.rs])

    A deterministic simulation of batches through ingress, execution and consensus, its
    percentiles, the scenarios and the report.  The generator is that of
    [TestnetArtifacts.v], copied in the source; [log2] is the platform's ([Libm]). *)
From S2P Require Import Prelude Canonical Floats Strings Json DaemonHex DaemonState RawTx DaemonEvm Ledger Market DaemonStart TestnetArtifacts FloatFacts.
Local Open Scope Z_scope.

(* eth2077-types/src/lib.rs:87-102 ScenarioResult *)
Record ScenarioResult := {
  sr_name : Str;
  sr_nodes : Z;
  sr_tx_count : Z;
  sr_sustained_tps : f64;
  sr_p50_finality_ms : f64;
  sr_p95_finality_ms : f64;
  sr_p99_finality_ms : f64;
  sr_avg_finality_ms : f64;
  sr_makespan_s : f64;
  sr_ingress_capacity_tps : f64;
  sr_execution_capacity_tps : f64;
  sr_oob_capacity_tps : f64;
  sr_bottleneck : Str;
}.

(* eth2077-bench/src/main.rs:28-30 XorShift64::next_f64 *)
Definition XorShift64_next_f64 (rng : XorShift64) : XorShift64 * f64 :=
  let '(rng, x) := XorShift64_next_u64 rng in
  (rng, f64_div (f64_of_u64 (u64_shr x 11)) (f64_of_u64 (2 ^ 53))).
(** Indexing panics out of range. *)
(* eth2077-bench/src/main.rs:33-39 percentile *)
Definition percentile (sorted : list f64) (p : f64) : outcome f64 :=
  if bool_decide (sorted = []) then Done f64_zero else
  let idx := f64_to_u64 (f64_round (f64_mul (f64_of_u64 (len sorted - 1)) p)) in
  match sorted !! Z.to_nat idx with Some x => Done x | None => Panics end.
(* eth2077-bench/src/main.rs:41-48 scenario_hash *)
Definition scenario_hash (name : Str) : Z :=
  foldl (λ h b, u64_wrapping_mul (Z.lxor h b) 1099511628211) 1469598103934665603 name.

(** What the loop over the batches carries. *)
(* eth2077-bench/src/main.rs:61-66 simulate *)
Record Simulation := {
  sm_start : Z;
  sm_exec_cursor_s : f64;
  sm_oob_cursor_s : f64;
  sm_rng : XorShift64;
  sm_latencies_ms : list f64;
}.

(** The capacities [simulate] derives from the configuration. *)
(* eth2077-bench/src/main.rs:53-53 simulate *)
Definition ingress_capacity_of (cfg : ScenarioConfig) : f64 :=
  f64_max (f64_mul (f64_of_u64 (sc_nodes cfg)) (sc_ingress_tps_per_node cfg)) (int 1).
(* eth2077-bench/src/main.rs:55-56 simulate *)
Definition adversarial_penalty_of (cfg : ScenarioConfig) : f64 :=
  f64_clamp (f64_sub (f64_sub (int 1) (f64_mul (sc_byzantine_fraction cfg) (dec 35 100)))
               (f64_mul (sc_packet_loss_fraction cfg) (dec 5 10))) (dec 30 100) (int 1).
(* eth2077-bench/src/main.rs:58-58 simulate *)
Definition execution_capacity_of (cfg : ScenarioConfig) : f64 :=
  f64_max (f64_mul (bootstrap cfg).1.1 (f64_add (dec 9 10) (f64_mul (dec 1 10) (adversarial_penalty_of cfg)))) (int 1).
(* eth2077-bench/src/main.rs:59-59 simulate *)
Definition oob_capacity_of (cfg : ScenarioConfig) : f64 :=
  f64_max (f64_mul (bootstrap cfg).1.2 (adversarial_penalty_of cfg)) (int 1).

Section simulation.
Context `{LM : Libm}.

(* eth2077-bench/src/main.rs:70-95 simulate *)
Definition simulate_batch (cfg : ScenarioConfig) (s : Simulation) : Simulation :=
  let start := sm_start s in
  let end_ := Z.min (u64_wrapping_add start (sc_commit_batch_size cfg)) (sc_tx_count cfg) in
  let batch_len := u64_wrapping_add end_ (- start) in
  let submit_last_s := f64_div (f64_of_u64 (u64_saturating_sub end_ 1)) (ingress_capacity_of cfg) in
  let exec_start := f64_max (sm_exec_cursor_s s) submit_last_s in
  let exec_cursor_s := f64_add exec_start (f64_div (f64_of_u64 batch_len) (execution_capacity_of cfg)) in
  let oob_start := f64_max (sm_oob_cursor_s s) exec_cursor_s in
  let oob_cursor_s := f64_add oob_start (f64_div (f64_of_u64 batch_len) (oob_capacity_of cfg)) in
  let fanout := f64_add (int 2) (f64_mul (dec 6 10) (f64_log2 (f64_of_u64 (sc_nodes cfg)))) in
  let base_net_delay_ms := f64_mul (f64_mul (sc_base_rtt_ms cfg) fanout)
    (f64_add (int 1) (f64_mul (sc_packet_loss_fraction cfg) (dec 8 10))) in
  let '(rng, x) := XorShift64_next_f64 (sm_rng s) in
  let jitter := f64_mul (f64_sub (f64_mul x (int 2)) (int 1)) (sc_jitter_ms cfg) in
  let byz_drag_ms := f64_mul (sc_byzantine_fraction cfg) (int 150) in
  let finality_delay_s :=
    f64_div (f64_max (f64_add (f64_add base_net_delay_ms jitter) byz_drag_ms) (int 1)) (int 1000) in
  let batch_final_s := f64_add oob_cursor_s finality_delay_s in
  let latency tx := f64_mul (f64_sub batch_final_s (f64_div (f64_of_u64 tx) (ingress_capacity_of cfg))) (int 1000) in
  {| sm_start := end_; sm_exec_cursor_s := exec_cursor_s; sm_oob_cursor_s := oob_cursor_s; sm_rng := rng;
     sm_latencies_ms := sm_latencies_ms s ++ (latency <$> seqZ start (end_ - start)) |}.
(** [None]: the fuel does not reach the end of the loop. *)
(* eth2077-bench/src/main.rs:69-96 simulate *)
Fixpoint simulate_loop (fuel : nat) (cfg : ScenarioConfig) (s : Simulation) : option Simulation :=
  if negb (sm_start s <? sc_tx_count cfg) then Some s else
  match fuel with O => None | S fuel => simulate_loop fuel cfg (simulate_batch cfg s) end.
(* eth2077-bench/src/main.rs:61-68 simulate *)
Definition simulate_start (cfg : ScenarioConfig) : Simulation :=
  {| sm_start := 0; sm_exec_cursor_s := f64_zero; sm_oob_cursor_s := f64_zero;
     sm_rng := XorShift64_new (Z.lxor (sc_seed cfg) (scenario_hash (sc_name cfg))); sm_latencies_ms := [] |}.

(** The numbers of the report, from the latencies. *)
(* eth2077-bench/src/main.rs:98-143 simulate *)
Definition summarize (cfg : ScenarioConfig) (latencies_ms : list f64) : outcome ScenarioResult :=
  let latencies_ms := sort_by f64_total_cmp latencies_ms in
  let sum_latency := f64_sum latencies_ms in
  let avg_latency :=
    if bool_decide (latencies_ms = []) then f64_zero else f64_div sum_latency (f64_of_u64 (len latencies_ms)) in
  let makespan_s := f64_add
    (match last latencies_ms with Some ms => f64_div ms (int 1000) | None => f64_zero end)
    (f64_div (f64_of_u64 (u64_saturating_sub (sc_tx_count cfg) 1)) (ingress_capacity_of cfg)) in
  let sustained_tps :=
    if f64_lt f64_zero makespan_s then f64_div (f64_of_u64 (sc_tx_count cfg)) makespan_s else f64_zero in
  let pairs := sort_by (λ a b : Str * f64, f64_total_cmp a.2 b.2)
    [(str "ingress", ingress_capacity_of cfg); (str "execution", execution_capacity_of cfg);
     (str "oob_consensus", oob_capacity_of cfg)] in
  p50 ← percentile latencies_ms (dec 50 100);
  p95 ← percentile latencies_ms (dec 95 100);
  p99 ← percentile latencies_ms (dec 99 100);
  Done {| sr_name := sc_name cfg; sr_nodes := sc_nodes cfg; sr_tx_count := sc_tx_count cfg;
    sr_sustained_tps := sustained_tps; sr_p50_finality_ms := p50; sr_p95_finality_ms := p95;
    sr_p99_finality_ms := p99; sr_avg_finality_ms := avg_latency; sr_makespan_s := makespan_s;
    sr_ingress_capacity_tps := ingress_capacity_of cfg; sr_execution_capacity_tps := execution_capacity_of cfg;
    sr_oob_capacity_tps := oob_capacity_of cfg;
    sr_bottleneck := match pairs with p :: _ => p.1 | [] => [] end |}.
(* eth2077-bench/src/main.rs:50-144 simulate *)
Definition simulate (fuel : nat) (cfg : ScenarioConfig) : option (outcome ScenarioResult) :=
  s ← simulate_loop fuel cfg (simulate_start cfg); Some (summarize cfg (sm_latencies_ms s)).
End simulation.

(** ** Scenarios *)

(* eth2077-bench/src/main.rs:146-224 default_scenarios *)
Definition mesh_scenario (seed tx_count : Z) (name : string) (nodes : Z)
    (mesh_efficiency base_rtt_ms jitter_ms byzantine_fraction packet_loss_fraction : f64) : ScenarioConfig :=
  {| sc_name := str name; sc_nodes := nodes; sc_tx_count := tx_count; sc_seed := seed;
     sc_ingress_tps_per_node := int 55000; sc_execution_tps_per_node := int 38000;
     sc_oob_tps_per_node := int 62000; sc_mesh_efficiency := mesh_efficiency; sc_base_rtt_ms := base_rtt_ms;
     sc_jitter_ms := jitter_ms; sc_commit_batch_size := 1024; sc_byzantine_fraction := byzantine_fraction;
     sc_packet_loss_fraction := packet_loss_fraction |}.
(* eth2077-bench/src/main.rs:146-224 default_scenarios *)
Definition default_scenarios (seed tx_count : Z) : list ScenarioConfig :=
  let mesh := mesh_scenario seed tx_count in
  [mesh "mesh-8n-baseline"%string 8 (dec 82 100) (int 18) (int 4) f64_zero (dec 1 100);
   mesh "mesh-16n-baseline"%string 16 (dec 78 100) (int 22) (int 6) (dec 2 100) (dec 15 1000);
   mesh "mesh-32n-baseline"%string 32 (dec 73 100) (int 28) (int 9) (dec 3 100) (dec 2 100);
   mesh "mesh-48n-scale"%string 48 (dec 69 100) (int 33) (int 11) (dec 3 100) (dec 25 1000);
   mesh "mesh-32n-adversarial"%string 32 (dec 73 100) (int 35) (int 14) (dec 10 100) (dec 5 100)].
(* eth2077-bench/src/main.rs:226-242 base_48n_scale_scenario *)
Definition base_48n_scale_scenario (seed tx_count : Z) : ScenarioConfig :=
  mesh_scenario seed tx_count "mesh-48n-scale"%string 48 (dec 69 100) (int 33) (int 11) (dec 3 100) (dec 25 1000).
(* eth2077-bench/src/main.rs:248-258 bottleneck_scenarios_48n *)
Definition push_scaled (base : ScenarioConfig) (label : string) (ingress_mult exec_mult oob_mult : f64)
  : ScenarioConfig :=
  {| sc_name := str "mesh-48n-" ++ str label ++ str "-ing" ++ f64_fixed 2 ingress_mult ++ str "-exec" ++
       f64_fixed 2 exec_mult ++ str "-oob" ++ f64_fixed 2 oob_mult;
     sc_nodes := sc_nodes base; sc_tx_count := sc_tx_count base; sc_seed := sc_seed base;
     sc_ingress_tps_per_node := f64_mul (sc_ingress_tps_per_node base) ingress_mult;
     sc_execution_tps_per_node := f64_mul (sc_execution_tps_per_node base) exec_mult;
     sc_oob_tps_per_node := f64_mul (sc_oob_tps_per_node base) oob_mult;
     sc_mesh_efficiency := sc_mesh_efficiency base; sc_base_rtt_ms := sc_base_rtt_ms base;
     sc_jitter_ms := sc_jitter_ms base; sc_commit_batch_size := sc_commit_batch_size base;
     sc_byzantine_fraction := sc_byzantine_fraction base;
     sc_packet_loss_fraction := sc_packet_loss_fraction base |}.
(* eth2077-bench/src/main.rs:244-271 bottleneck_scenarios_48n *)
Definition bottleneck_scenarios_48n (seed tx_count : Z) : list ScenarioConfig :=
  let push := push_scaled (base_48n_scale_scenario seed tx_count) in
  [push "baseline"%string (int 1) (int 1) (int 1);
   push "exec-lift"%string (int 1) (dec 115 100) (int 1);
   push "exec-lift"%string (int 1) (dec 130 100) (int 1);
   push "exec-lift"%string (int 1) (dec 150 100) (int 1);
   push "exec-lift"%string (int 1) (dec 180 100) (int 1);
   push "exec-lift"%string (int 1) (dec 220 100) (int 1);
   push "exec-oob-lift"%string (int 1) (dec 180 100) (dec 130 100);
   push "exec-oob-lift"%string (int 1) (dec 220 100) (dec 160 100);
   push "ingress-exec-oob-lift"%string (dec 130 100) (dec 220 100) (int 2)].

(** The scenarios the arguments ask for; [None]: the program exits with status 2. *)
(* eth2077-bench/src/main.rs:281-309 main *)
Definition requested_scenarios (args : list Str) : option (list ScenarioConfig) :=
  let number flag text dflt := default dflt (parse_decimal u64_max (arg_value args (str flag) (str text))) in
  let seed := number "--seed"%string "2077"%string 2077 in
  let tx_count := number "--tx-count"%string "500000"%string 500000 in
  let scenario_set := arg_value args (str "--scenario-set") (str "default") in
  if str_eqb scenario_set (str "default") then Some (default_scenarios seed tx_count) else
  if str_eqb scenario_set (str "bottleneck-48n") then Some (bottleneck_scenarios_48n seed tx_count) else None.
(** A row of the report. *)
(* eth2077-bench/src/main.rs:330-342 main *)
Definition report_row (r : ScenarioResult) : Str :=
  str "| " ++ sr_name r ++ str " | " ++ decimal (sr_nodes r) ++ str " | " ++ f64_fixed 0 (sr_sustained_tps r) ++
  str " | " ++ f64_fixed 0 (sr_ingress_capacity_tps r) ++ str " | " ++ f64_fixed 0 (sr_execution_capacity_tps r) ++
  str " | " ++ f64_fixed 0 (sr_oob_capacity_tps r) ++ str " | " ++ f64_fixed 1 (sr_p50_finality_ms r) ++
  str " | " ++ f64_fixed 1 (sr_p95_finality_ms r) ++ str " | " ++ f64_fixed 1 (sr_p99_finality_ms r) ++
  str " | " ++ sr_bottleneck r ++ str " |" ++ [10].

(** ** The generator and the percentiles *)

Lemma next_f64_unit rng :
  is_u64 (xs_state rng) →
  let x := (XorShift64_next_f64 rng).2 in finite_double x ∧ 0 <= units x < units (int 1).
Proof.
  intros Hs. cbn [XorShift64_next_f64 XorShift64_next_u64 snd]. set (z := u64_shr _ 11).
  assert (Hz : 0 <= z < 2 ^ 53).
  { unfold z, u64_shr. destruct (xorshift_u64 _ Hs) as [Hlo Hhi]. rewrite Z.shiftr_div_pow2 by done.
    split; [by apply Z.div_pos|]. apply Z.div_lt_upper_bound; [done|].
    change (2 ^ 11 * 2 ^ 53) with (u64_max + 1). lia. }
  destruct (f64_of_u64_exact z) as [Hf Hu]; [lia|].
  destruct (f64_of_u64_exact (2 ^ 53)) as [Hd Hud]; [done|].
  pose proof (Z.pow_pos_nonneg 2 1074 ltac:(lia) ltac:(lia)).
  (* the double just below 1 *)
  set (y := S754_finite false 9007199254740991 (-53)).
  assert (Hy : units y * 2 ^ 53 = (2 ^ 53 - 1) * 2 ^ 1074) by (vm_compute; reflexivity).
  destruct (f64_div_below 55 (f64_of_u64 z) (f64_of_u64 (2 ^ 53)) y) as (Hfin & Hlo & Hhi).
  - apply (f64_of_u64_mag z 54); [|lia]. split; [lia|]. etransitivity; [apply Hz|]. by vm_compute.
  - lia.
  - done.
  - rewrite Hud. lia.
  - by vm_compute.
  - rewrite Hu. apply Z.mul_nonneg_nonneg; lia.
  - rewrite Hu, Hud, Z.mul_assoc, Hy. nia.
  - split; [done|]. destruct one_units as [_ ->]. split; [done|].
    eapply Z.le_lt_trans; [exact Hhi|]. by vm_compute.
Qed.
Lemma percentile_in sorted p :
  sorted ≠ [] → len sorted <= 2 ^ 53 → finite_double p → 0 <= units p <= 2 ^ 1074 →
  ∃ x, percentile sorted p = Done x ∧ x ∈ sorted.
Proof.
  intros Hne Hlen Hp Hup. unfold percentile. rewrite bool_decide_false by done.
  assert (0 < len sorted) by (destruct sorted; [done|unfold len; simpl; lia]).
  destruct (f64_of_u64_exact (len sorted - 1)) as [Hf Hu]; [lia|].
  destruct (f64_mul_unit 55 (f64_of_u64 (len sorted - 1)) p) as (Hfin & Hlo & Hhi).
  - apply (f64_of_u64_mag _ 54); [|lia]. change (2 ^ 54) with (2 * 2 ^ 53). lia.
  - lia.
  - done.
  - rewrite Hu. apply Z.mul_nonneg_nonneg; [lia|by apply Z.pow_nonneg].
  - done.
  - rewrite Hu in Hhi. pose proof (f64_round_between _ 0 (len sorted - 1) Hfin) as Hidx.
    set (idx := f64_to_u64 _) in *. destruct Hidx as [H0 Hi]; [lia..|].
    destruct (sorted !! Z.to_nat idx) as [x|] eqn:Hx.
    + exists x. split; [done|]. by eapply list_elem_of_lookup_2.
    + apply lookup_ge_None in Hx. unfold len in *. lia.
Qed.
(** A capacity is at least 1 whatever the configuration, even when a product is NaN. *)
Lemma at_least_one x : f64_le (int 1) (f64_max x (int 1)) = true.
Proof.
  unfold f64_max. destruct x as [s|s| |s m e] eqn:Hx; try (by destruct s); [done|].
  destruct (f64_lt _ _) eqn:Hlt; [done|]. rewrite <- Hx in *.
  unfold f64_lt, SFltb, f64_le, SFleb in *. rewrite (SFcompare_swap x (int 1)). subst x.
  destruct (SFcompare _ _) as [[]|] eqn:Hc; done.
Qed.

(** ** The simulation *)

Section runs.
Context `{LM : Libm}.

Lemma simulate_batch_spec cfg s :
  0 <= sm_start s < sc_tx_count cfg → 1 <= sc_commit_batch_size cfg →
  sc_tx_count cfg + sc_commit_batch_size cfg <= u64_max →
  let s' := simulate_batch cfg s in
  sm_start s < sm_start s' <= sc_tx_count cfg ∧
  len (sm_latencies_ms s') = len (sm_latencies_ms s) + (sm_start s' - sm_start s).
Proof.
  intros Hs Hb Hmax. unfold simulate_batch. destruct (XorShift64_next_f64 _) as [rng x].
  cbn [sm_start sm_latencies_ms]. unfold u64_wrapping_add. rewrite Z.mod_small by lia.
  set (e := Z.min _ _). assert (sm_start s < e <= sc_tx_count cfg) by (unfold e; lia). split; [done|].
  unfold len. rewrite length_app, length_fmap, length_seqZ. lia.
Qed.
Lemma simulate_loop_total fuel cfg s :
  0 <= sm_start s <= sc_tx_count cfg → 1 <= sc_commit_batch_size cfg →
  sc_tx_count cfg + sc_commit_batch_size cfg <= u64_max → sc_tx_count cfg - sm_start s <= Z.of_nat fuel →
  ∃ s', simulate_loop fuel cfg s = Some s' ∧
    len (sm_latencies_ms s') = len (sm_latencies_ms s) + (sc_tx_count cfg - sm_start s).
Proof.
  revert s. induction fuel as [|fuel IH]; intros s Hs Hb Hmax Hfuel; cbn [simulate_loop];
    destruct (Z.ltb_spec (sm_start s) (sc_tx_count cfg)); cbn [negb]; try lia;
    try (exists s; split; [done|lia]).
  destruct (simulate_batch_spec cfg s) as [Hs' Hl']; [lia..|].
  destruct (IH (simulate_batch cfg s)) as (s' & -> & Hl); [lia..|]. exists s'. split; [done|lia].
Qed.

(** The three capacities a result reports. *)
Definition capacities (r : ScenarioResult) : list (Str * f64) :=
  [(str "ingress", sr_ingress_capacity_tps r); (str "execution", sr_execution_capacity_tps r);
   (str "oob_consensus", sr_oob_capacity_tps r)].

Lemma percentiles_in latencies :
  len latencies <= 2 ^ 53 →
  ∃ p50 p95 p99,
    percentile (sort_by f64_total_cmp latencies) (dec 50 100) = Done p50 ∧
    percentile (sort_by f64_total_cmp latencies) (dec 95 100) = Done p95 ∧
    percentile (sort_by f64_total_cmp latencies) (dec 99 100) = Done p99 ∧
    (latencies ≠ [] → p50 ∈ latencies ∧ p95 ∈ latencies ∧ p99 ∈ latencies).
Proof.
  intros Hlen. pose proof (sort_by_perm f64_total_cmp latencies) as Hp.
  destruct (decide (latencies = [])) as [->|Hne]; [by exists f64_zero, f64_zero, f64_zero|].
  assert (Hin : ∀ p, finite_double p → 0 <= units p <= 2 ^ 1074 →
    ∃ x, percentile (sort_by f64_total_cmp latencies) p = Done x ∧ x ∈ latencies).
  { intros p Hf Hu. destruct (percentile_in (sort_by f64_total_cmp latencies) p) as (x & Hx & Hin);
      [|unfold len; by rewrite Hp|done|done|].
    - intros Hnil. rewrite Hnil in Hp. by apply Permutation_nil in Hp.
    - exists x. split; [done|]. by rewrite <- Hp. }
  destruct (Hin (dec 50 100)) as (p50 & ? & ?); [by vm_compute|by vm_compute|].
  destruct (Hin (dec 95 100)) as (p95 & ? & ?); [by vm_compute|by vm_compute|].
  destruct (Hin (dec 99 100)) as (p99 & ? & ?); [by vm_compute|by vm_compute|].
  by exists p50, p95, p99.
Qed.
Lemma summarize_spec cfg latencies :
  len latencies <= 2 ^ 53 →
  ∃ r, summarize cfg latencies = Done r ∧ sr_tx_count r = sc_tx_count cfg ∧
    (latencies ≠ [] → sr_p50_finality_ms r ∈ latencies ∧ sr_p95_finality_ms r ∈ latencies ∧
       sr_p99_finality_ms r ∈ latencies) ∧
    (∀ p, p ∈ capacities r → f64_le (int 1) p.2 = true) ∧
    (∃ c, (sr_bottleneck r, c) ∈ capacities r ∧ ∀ p, p ∈ capacities r → f64_total_cmp c p.2 ≠ Gt).
Proof.
  intros Hlen. unfold summarize.
  set (pairs := [_; _; _]). set (cmp := λ a b : Str * f64, f64_total_cmp a.2 b.2).
  pose proof (sort_by_perm cmp pairs) as Hperm.
  pose proof (@sort_by_sorted _ cmp (preorder_on snd f64_total_cmp) pairs) as Hsorted.
  destruct (percentiles_in latencies Hlen) as (p50 & p95 & p99 & -> & -> & -> & Hin). cbn [mbind outcome_bind].
  eexists. split; [reflexivity|]. cbn [sr_tx_count sr_p50_finality_ms sr_p95_finality_ms sr_p99_finality_ms].
  split; [done|]. split; [done|]. unfold capacities.
  cbn [sr_ingress_capacity_tps sr_execution_capacity_tps sr_oob_capacity_tps sr_bottleneck].
  fold pairs. split.
  - intros p Hp. repeat (apply elem_of_cons in Hp as [->|Hp]; [apply at_least_one|]). by apply elem_of_nil in Hp.
  - destruct (sort_by cmp pairs) as [|[name c] rest]; [by apply Permutation_nil in Hperm|].
    exists c. cbn [fst]. split; [rewrite <- Hperm; by left|].
    intros p Hp. rewrite <- Hperm in Hp. apply StronglySorted_inv in Hsorted as [_ Hall].
    apply elem_of_cons in Hp as [->|Hp]; [by rewrite (cmp_refl f64_total_cmp)|].
    rewrite Forall_forall in Hall. exact (Hall p Hp).
Qed.

(** the simulation ends for every configuration with a batch size of at least 1, within as
    many batches as transactions: one latency per transaction, percentiles that are among
    them and an index that is never out of range, capacities of at least 1, and the named
    bottleneck has the smallest capacity.  With a batch size of 0 it never ends. *)
Theorem simulation_total cfg :
  0 <= sc_tx_count cfg <= 2 ^ 53 → sc_tx_count cfg + sc_commit_batch_size cfg <= u64_max →
  (1 <= sc_commit_batch_size cfg →
   ∃ s r, simulate_loop (Z.to_nat (sc_tx_count cfg)) cfg (simulate_start cfg) = Some s ∧
     simulate (Z.to_nat (sc_tx_count cfg)) cfg = Some (Done r) ∧
     len (sm_latencies_ms s) = sc_tx_count cfg ∧ sr_tx_count r = sc_tx_count cfg ∧
     (0 < sc_tx_count cfg → sr_p50_finality_ms r ∈ sm_latencies_ms s ∧
        sr_p95_finality_ms r ∈ sm_latencies_ms s ∧ sr_p99_finality_ms r ∈ sm_latencies_ms s) ∧
     (∀ p, p ∈ capacities r → f64_le (int 1) p.2 = true) ∧
     (∃ c, (sr_bottleneck r, c) ∈ capacities r ∧ ∀ p, p ∈ capacities r → f64_total_cmp c p.2 ≠ Gt)) ∧
  (sc_commit_batch_size cfg = 0 → 0 < sc_tx_count cfg → ∀ fuel, simulate fuel cfg = None).
Proof.
  intros Htx Hmax. split.
  - intros Hb. destruct (simulate_loop_total (Z.to_nat (sc_tx_count cfg)) cfg (simulate_start cfg)) as (s & Hs & Hl);
      [cbn [simulate_start sm_start]; lia|done|done|cbn [simulate_start sm_start]; lia|].
    change (len (sm_latencies_ms (simulate_start cfg))) with 0 in Hl. cbn [simulate_start sm_start] in Hl.
    destruct (summarize_spec cfg (sm_latencies_ms s)) as (r & Hr & Hn & Hp & Hc & Hbn); [lia|].
    exists s, r. unfold simulate. rewrite Hs. cbn [mbind option_bind]. rewrite Hr.
    split_and!; try done; [lia|]. intros Hpos. apply Hp. intros Hnil.
    rewrite Hnil in Hl. unfold len in Hl. cbn in Hl. lia.
  - intros Hb Hpos fuel. unfold simulate.
    assert (Hgen : ∀ fuel s, sm_start s = 0 → simulate_loop fuel cfg s = None).
    { clear fuel. induction fuel as [|fuel IH]; intros s Hs; cbn [simulate_loop]; rewrite Hs;
        destruct (Z.ltb_spec 0 (sc_tx_count cfg)); try lia; [done|]. apply IH.
      unfold simulate_batch. destruct (XorShift64_next_f64 _) as [rng x]. cbn [sm_start]. rewrite Hs, Hb.
      unfold u64_wrapping_add. rewrite Z.mod_small by lia. lia. }
    by rewrite Hgen.
Qed.
End runs.
#[local] Instance flat_libm : Libm :=
  {| f64_powf := λ x _, x; f64_log10 := λ x, x; f64_ln := λ x, x; f64_log2 := λ _, int 3; f64_exp := λ x, x |}.
Definition three_transactions : ScenarioConfig :=
  mesh_scenario 2077 3 "mesh"%string 8 (dec 82 100) (int 18) (int 4) f64_zero (dec 1 100).
Lemma simulation_total_witness :
  ∃ r, simulate 3 three_transactions = Some (Done r) ∧ sr_tx_count r = 3.
Proof.
  destruct (simulation_total three_transactions) as [H _]; [split; discriminate|discriminate|].
  destruct H as (s & r & _ & Hr & _ & Hn & _); [discriminate|].
  exists r. split; [exact Hr|exact Hn].
Defined.
