(* ===== verification/FeeCurves.v ===== *)
(** * The blob base fee, EIP-7919, and the gas-limit curve, EIP-7938
      ([eth2077-types/src/eip7919.rs], [eip7938.rs])

    Both are computed in floating point.  The blob base fee is smoothed over a window of
    slots; the gas limit grows exponentially with the epoch, by the [powf] of the class
    [Libm]. *)
From S2P Require Import Prelude Floats FloatFacts.
Local Open Scope Z_scope.

(** ** The blob base fee *)

(* eth2077-types/src/eip7919.rs:4-8 BlobFeeWindow *)
Record BlobFeeWindow := {
  bw_slot_gas_used : list Z;
  bw_window_size : Z;
  bw_target_gas_per_slot : Z;
}.
(* eth2077-types/src/eip7919.rs:11-17 BlobFeeParams *)
Record BlobFeeParams := {
  bp_min_base_fee : Z;
  bp_max_base_fee : Z;
  bp_smoothing_factor : f64;
  bp_adjustment_quotient : Z;
}.
(* eth2077-types/src/eip7919.rs:20-25 BlobFeeError *)
Inductive BlobFeeError :=
| WindowEmpty
| InvalidSmoothingFactor (value : f64)
| TargetGasZero
| MinExceedsMax (min max : Z).
(* eth2077-types/src/eip7919.rs:28-32 AdjustmentDirection *)
Inductive AdjustmentDirection := Up | Down | Stable.
(* eth2077-types/src/eip7919.rs:35-40 BlobFeeSnapshot *)
Record BlobFeeSnapshot := {
  bs_slot : Z;
  bs_computed_fee : Z;
  bs_utilization_ratio : f64;
  bs_adjustment_direction : AdjustmentDirection;
}.

(* eth2077-types/src/eip7919.rs:42-57 validate_fee_params *)
Definition validate_fee_params (params : BlobFeeParams) : result unit BlobFeeError :=
  if negb (f64_le f64_zero (bp_smoothing_factor params) && f64_le (bp_smoothing_factor params) (int 1))
  then Err (InvalidSmoothingFactor (bp_smoothing_factor params)) else
  if bp_max_base_fee params <? bp_min_base_fee params
  then Err (MinExceedsMax (bp_min_base_fee params) (bp_max_base_fee params)) else
  Ok tt.
(* eth2077-types/src/eip7919.rs:59-83 compute_utilization_ratio *)
Definition compute_utilization_ratio (window : BlobFeeWindow) : result f64 BlobFeeError :=
  if (bw_window_size window =? 0) || bool_decide (bw_slot_gas_used window = []) then Err WindowEmpty else
  if bw_target_gas_per_slot window =? 0 then Err TargetGasZero else
  let sample_count := Z.min (len (bw_slot_gas_used window)) (bw_window_size window) in
  if sample_count =? 0 then Err WindowEmpty else
  let start := len (bw_slot_gas_used window) - sample_count in
  let total_gas := Zsum (drop (Z.to_nat start) (bw_slot_gas_used window)) in
  let avg_gas_used := f64_div (f64_of_u64 total_gas) (f64_of_u64 sample_count) in
  Ok (f64_div avg_gas_used (f64_of_u64 (bw_target_gas_per_slot window))).
(** [min_base_fee <= max_base_fee] has been checked, so neither [clamp] panics. *)
(* eth2077-types/src/eip7919.rs:85-105 compute_smoothed_blob_base_fee *)
Definition compute_smoothed_blob_base_fee (window : BlobFeeWindow) (params : BlobFeeParams) (current_base_fee : Z)
  : result Z BlobFeeError :=
  let? _ := validate_fee_params params in
  let? utilization_ratio := compute_utilization_ratio window in
  let clamped_current := Z.min (Z.max current_base_fee (bp_min_base_fee params)) (bp_max_base_fee params) in
  if bp_adjustment_quotient params =? 0 then Ok clamped_current else
  let deviation := f64_sub utilization_ratio (int 1) in
  let adjustment :=
    f64_div (f64_mul (f64_of_u64 clamped_current) deviation) (f64_of_u64 (bp_adjustment_quotient params)) in
  let smoothed_adjustment := f64_mul (bp_smoothing_factor params) adjustment in
  let next_fee := f64_add (f64_of_u64 clamped_current) smoothed_adjustment in
  let bounded_fee :=
    f64_clamp next_fee (f64_of_u64 (bp_min_base_fee params)) (f64_of_u64 (bp_max_base_fee params)) in
  Ok (f64_to_u64 (f64_round bounded_fee)).

(** *** Bounds *)

(** The fields are of their Rust types. *)
Record typed_window (w : BlobFeeWindow) : Prop := {
  typed_gas : Forall is_u64 (bw_slot_gas_used w);
  typed_length : is_u64 (len (bw_slot_gas_used w));
  typed_size : is_u64 (bw_window_size w);
  typed_target : is_u64 (bw_target_gas_per_slot w);
}.
Record typed_params (p : BlobFeeParams) : Prop := {
  typed_min : is_u64 (bp_min_base_fee p);
  typed_max : is_u64 (bp_max_base_fee p);
  typed_factor : valid_binary 53 1024 (bp_smoothing_factor p) = true;
  typed_quotient : is_u64 (bp_adjustment_quotient p);
}.

Lemma Zsum_bound l b : Forall (λ z, 0 ≤ z ≤ b) l → 0 ≤ Zsum l ≤ len l * b.
Proof. unfold len. induction 1; cbn [Zsum length]; lia. Qed.
Lemma utilization_ratio_mag w r :
  typed_window w → compute_utilization_ratio w = Ok r → mag_le 133 r.
Proof.
  intros [Hgas Hlen Hsize Htarget]. unfold compute_utilization_ratio.
  case_if_goal; [done|]. bool_to_prop.
  destruct (Z.eqb_spec (bw_target_gas_per_slot w) 0); [done|]. case_if_goal; [done|]. bool_to_prop.
  intros [= <-]. set (samples := drop _ _).
  assert (0 ≤ Zsum samples < 2 ^ 128) as Hsum.
  { assert (Forall is_u64 samples) as Hs by (by apply Forall_drop).
    apply Zsum_bound in Hs. assert (len samples ≤ u64_max); [|change (2 ^ 128) with (u128_max + 1); nia].
    unfold samples, len in *. rewrite length_drop. sat_lia. }
  pose proof (f64_of_u64_mag _ 128 Hsum ltac:(lia)) as Hm.
  assert (0 < Z.min (len (bw_slot_gas_used w)) (bw_window_size w)).
  { unfold len in *. sat_lia. }
  apply (f64_div_int_mag 131); [|change (2 ^ 128) with (u128_max + 1); sat_lia|lia].
  apply (f64_div_int_mag 129); [done|change (2 ^ 128) with (u128_max + 1); sat_lia|lia].
Qed.
Lemma fee_params_ok p :
  typed_params p → validate_fee_params p = Ok tt →
  mag_le 1 (bp_smoothing_factor p) ∧ bp_min_base_fee p ≤ bp_max_base_fee p.
Proof.
  intros Hp. unfold validate_fee_params. case_if_goal; [done|]. apply negb_false_iff, andb_true_iff in Heqb as [H0 H1].
  destruct (Z.ltb_spec (bp_max_base_fee p) (bp_min_base_fee p)); [done|]. intros _. split; [|done].
  assert (finite_double (bp_smoothing_factor p)) as Hf.
  { pose proof (typed_factor p Hp) as Hv. destruct (bp_smoothing_factor p) as [|[]| |]; done. }
  apply units_le_mag; [done|]. destruct one_units as [Hone Hu].
  rewrite f64_le_units in H0, H1 by done. rewrite Hu in H1. change (units f64_zero) with 0 in H0. lia.
Qed.

(** C23: With valid parameters and a window that holds a slot, [compute_smoothed_blob_base_fee]
    computes a fee, and the fee lies between the minimum and the maximum, however large the
    gas of the slots is and whatever the floating-point operations round, as long as the
    maximum is at most 2^53. *)
Theorem blob_base_fee_bounded window params current :
  typed_window window → typed_params params → is_u64 current →
  validate_fee_params params = Ok tt → bp_max_base_fee params ≤ 2 ^ 53 →
  bw_slot_gas_used window ≠ [] → 0 < bw_window_size window → 0 < bw_target_gas_per_slot window →
  ∃ fee, compute_smoothed_blob_base_fee window params current = Ok fee ∧
    bp_min_base_fee params ≤ fee ≤ bp_max_base_fee params.
Proof.
  intros Hw Hp Hcur Hvalid Hmax Hne Hsize Htarget.
  destruct (fee_params_ok _ Hp Hvalid) as [Hfactor Hle]. destruct Hp as [Hmin Hmaxt _ Hquot].
  unfold compute_smoothed_blob_base_fee. rewrite Hvalid. cbn [result_bind].
  destruct (compute_utilization_ratio window) as [r|e] eqn:Hr; cycle 1.
  { exfalso. unfold compute_utilization_ratio in Hr. rewrite bool_decide_eq_false_2 in Hr by done.
    destruct (Z.eqb_spec (bw_window_size window) 0), (Z.eqb_spec (bw_target_gas_per_slot window) 0); [lia..|].
    assert (0 < len (bw_slot_gas_used window)) by (unfold len; destruct (bw_slot_gas_used window); simpl; [done|lia]).
    destruct (Z.eqb_spec (Z.min (len (bw_slot_gas_used window)) (bw_window_size window)) 0); [lia|done]. }
  apply (utilization_ratio_mag _ _ Hw) in Hr. cbn [result_bind].
  set (clamped := Z.min _ _). assert (bp_min_base_fee params ≤ clamped ≤ bp_max_base_fee params) by lia.
  case_if_goal; [by eexists|]. bool_to_prop. eexists. split; [done|].
  assert (2 ^ 53 ≤ u64_max) by done. assert (∀ z, is_u64 z → z < 2 ^ 64) as H64 by (intros; sat_lia).
  assert (mag_le 65 (f64_of_u64 clamped)) as Hc by (apply (f64_of_u64_mag _ 64); [split; [sat_lia|apply H64; sat_lia]|lia]).
  assert (mag_le 135 (f64_sub r (int 1))) as Hdev.
  { apply (f64_sub_mag 133); [done| |lia]. apply (mag_le_weaken 2); [lia|]. by apply (f64_of_u64_mag 1 1). }
  pose proof (f64_mul_mag _ _ _ _ Hc Hdev ltac:(lia)) as Hprod.
  assert (0 < bp_adjustment_quotient params < 2 ^ 128) as Hq by (change (2 ^ 128) with (u128_max + 1); sat_lia).
  pose proof (f64_div_int_mag _ _ _ Hprod Hq ltac:(lia)) as Hadj.
  pose proof (f64_mul_mag _ _ _ _ Hfactor Hadj ltac:(lia)) as Hsm.
  apply (mag_le_weaken _ 205) in Hsm; [|lia]. apply (mag_le_weaken _ 205) in Hc; [|lia].
  pose proof (f64_add_mag _ _ _ Hc Hsm ltac:(lia)) as Hnext. apply mag_le_finite in Hnext.
  destruct (f64_of_u64_exact (bp_min_base_fee params)) as [Hflo Hulo]; [sat_lia|].
  destruct (f64_of_u64_exact (bp_max_base_fee params)) as [Hfhi Huhi]; [sat_lia|].
  pose proof (Z.pow_pos_nonneg 2 1074).
  destruct (f64_clamp_units _ _ _ Hnext Hflo Hfhi) as [Hfin Hbetween]; [rewrite Hulo, Huhi; nia|].
  rewrite Hulo, Huhi in Hbetween. apply f64_round_between; [done|sat_lia|done|done].
Qed.

Definition example_blob_window : BlobFeeWindow :=
  {| bw_slot_gas_used := [131072; 786432; 786432]; bw_window_size := 2; bw_target_gas_per_slot := 393216 |}.
Definition example_blob_params (min max : Z) : BlobFeeParams :=
  {| bp_min_base_fee := min; bp_max_base_fee := max; bp_smoothing_factor := dec 1 2; bp_adjustment_quotient := 8 |}.
Lemma blob_base_fee_bounded_witness :
  compute_smoothed_blob_base_fee example_blob_window (example_blob_params 1 1000) 160 = Ok 170 ∧ 1 ≤ 170 ≤ 1000.
Proof.
  destruct (blob_base_fee_bounded example_blob_window (example_blob_params 1 1000) 160) as (fee & Hfee & Hb).
  - split; [repeat constructor; done|done..].
  - split; done.
  - done.
  - vm_compute; reflexivity.
  - done.
  - done.
  - done.
  - done.
  - assert (compute_smoothed_blob_base_fee example_blob_window (example_blob_params 1 1000) 160 = Ok 170) as H170
      by (vm_compute; reflexivity).
    rewrite H170 in Hfee. injection Hfee as <-. split; [exact H170|exact Hb].
Defined.

(** Above 2^53 the bounds themselves are rounded, and the fee can leave them. *)
Lemma blob_base_fee_below_minimum :
  compute_smoothed_blob_base_fee example_blob_window (example_blob_params (2 ^ 53 + 1) (2 ^ 53 + 1)) 1 = Ok (2 ^ 53).
Proof. vm_compute. reflexivity. Qed.

(** ** The gas-limit curve *)

(* eth2077-types/src/eip7938.rs:3-3 ACTIVATION_EPOCH *)
Definition ACTIVATION_EPOCH : Z := 369017.
(* eth2077-types/src/eip7938.rs:4-4 INITIAL_GAS_LIMIT *)
Definition INITIAL_GAS_LIMIT : Z := 50000000.
(* eth2077-types/src/eip7938.rs:5-5 EPOCHS_PER_10X *)
Definition EPOCHS_PER_10X : Z := 164250.
(* eth2077-types/src/eip7938.rs:6-6 SLOTS_PER_EPOCH *)
Definition SLOTS_PER_EPOCH : Z := 32.
(* eth2077-types/src/eip7938.rs:9-13 GasLimitCurve *)
Record GasLimitCurve := {
  glc_activation_epoch : Z;
  glc_initial_gas_limit : Z;
  glc_epochs_per_10x : Z;
}.
(* eth2077-types/src/eip7938.rs:16-22 GasLimitSnapshot *)
Record GasLimitSnapshot := {
  gls_epoch : Z;
  gls_slot : Z;
  gls_target_gas_limit : Z;
  gls_growth_factor : f64;
  gls_epochs_since_activation : Z;
}.
(* eth2077-types/src/eip7938.rs:25-29 GasLimitError *)
Inductive GasLimitError :=
| EpochBeforeActivation (epoch activation : Z)
| InvalidCurveParams
| GasLimitOverflow.
(* eth2077-types/src/eip7938.rs:31-39 GasLimitCurve::default *)
Definition default_gas_limit_curve : GasLimitCurve :=
  {| glc_activation_epoch := ACTIVATION_EPOCH;
     glc_initial_gas_limit := INITIAL_GAS_LIMIT;
     glc_epochs_per_10x := EPOCHS_PER_10X |}.
(* eth2077-types/src/eip7938.rs:41-46 validate_curve *)
Definition validate_curve (curve : GasLimitCurve) : result unit GasLimitError :=
  if (glc_initial_gas_limit curve =? 0) || (glc_epochs_per_10x curve =? 0)
  then Err InvalidCurveParams else Ok tt.

Section GasLimit.
Context `{Libm}.

(* eth2077-types/src/eip7938.rs:48-62 growth_factor_for_epoch *)
Definition growth_factor_for_epoch (curve : GasLimitCurve) (epoch : Z) : result (Z * f64) GasLimitError :=
  let? _ := validate_curve curve in
  if epoch <? glc_activation_epoch curve
  then Err (EpochBeforeActivation epoch (glc_activation_epoch curve)) else
  let epochs_since_activation := epoch - glc_activation_epoch curve in
  let exponent := f64_div (f64_of_u64 epochs_since_activation) (f64_of_u64 (glc_epochs_per_10x curve)) in
  Ok (epochs_since_activation, f64_powf (int 10) exponent).
(* eth2077-types/src/eip7938.rs:64-73 compute_target_gas_limit *)
Definition compute_target_gas_limit (curve : GasLimitCurve) (epoch : Z) : result Z GasLimitError :=
  let? growth := growth_factor_for_epoch curve epoch in
  let growth_factor := growth.2 in
  let target := f64_mul (f64_of_u64 (glc_initial_gas_limit curve)) growth_factor in
  if negb (f64_is_finite target) || f64_le (f64_of_u64 u64_max) target
  then Ok u64_max else
  Ok (f64_to_u64 (f64_round target)).
(* eth2077-types/src/eip7938.rs:75-92 compute_gas_limit_snapshot *)
Definition compute_gas_limit_snapshot (curve : GasLimitCurve) (epoch : Z)
  : result GasLimitSnapshot GasLimitError :=
  let? growth := growth_factor_for_epoch curve epoch in
  let '(epochs_since_activation, growth_factor) := growth in
  let? target_gas_limit := compute_target_gas_limit curve epoch in
  if u64_max <? epoch * SLOTS_PER_EPOCH then Err GasLimitOverflow else
  Ok {| gls_epoch := epoch; gls_slot := epoch * SLOTS_PER_EPOCH;
        gls_target_gas_limit := target_gas_limit; gls_growth_factor := growth_factor;
        gls_epochs_since_activation := epochs_since_activation |}.
(* eth2077-types/src/eip7938.rs:94-119 epoch_for_target_gas_limit *)
Definition epoch_for_target_gas_limit (curve : GasLimitCurve) (target : Z) : result Z GasLimitError :=
  let? _ := validate_curve curve in
  if target <=? glc_initial_gas_limit curve then Ok (glc_activation_epoch curve) else
  let ratio := f64_div (f64_of_u64 target) (f64_of_u64 (glc_initial_gas_limit curve)) in
  if negb (f64_is_finite ratio) || f64_le ratio f64_zero then Err InvalidCurveParams else
  let epochs_f64 := f64_ceil (f64_mul (f64_log10 ratio) (f64_of_u64 (glc_epochs_per_10x curve))) in
  if negb (f64_is_finite epochs_f64) || f64_lt (f64_of_u64 u64_max) epochs_f64
  then Err GasLimitOverflow else
  let epoch := glc_activation_epoch curve + f64_to_u64 epochs_f64 in
  if u64_max <? epoch then Err GasLimitOverflow else Ok epoch.
(* eth2077-types/src/eip7938.rs:121-142 validate_proposed_gas_limit *)
Definition validate_proposed_gas_limit (curve : GasLimitCurve) (epoch proposed : Z) (tolerance_pct : f64) : bool :=
  if f64_is_nan tolerance_pct || f64_lt tolerance_pct f64_zero then false else
  match compute_target_gas_limit curve epoch with
  | Err _ => false
  | Ok target =>
      let lower_bound := f64_mul (f64_of_u64 target) (f64_sub (int 1) tolerance_pct) in
      let upper_bound := f64_mul (f64_of_u64 target) (f64_add (int 1) tolerance_pct) in
      f64_le lower_bound (f64_of_u64 proposed) && f64_le (f64_of_u64 proposed) upper_bound
  end.

Lemma f64_to_u64_is_u64 x : is_u64 (f64_to_u64 x).
Proof.
  destruct x as [s|[]| |[] m e]; cbn [f64_to_u64]; [sat_lia|sat_lia|sat_lia|sat_lia|sat_lia|].
  assert (0 ≤ if 0 <=? e then Z.pos m * 2 ^ e else Z.pos m / 2 ^ (- e)).
  { destruct (Z.leb_spec 0 e); [apply Z.mul_nonneg_nonneg; [lia|by apply Z.pow_nonneg]|].
    apply Z.div_pos; [lia|apply Z.pow_pos_nonneg; lia]. }
  sat_lia.
Qed.
Lemma compute_target_total curve epoch :
  glc_initial_gas_limit curve ≠ 0 → glc_epochs_per_10x curve ≠ 0 → glc_activation_epoch curve ≤ epoch →
  ∃ target, compute_target_gas_limit curve epoch = Ok target ∧ is_u64 target.
Proof.
  intros Hi Hp He. unfold compute_target_gas_limit, growth_factor_for_epoch, validate_curve.
  rewrite (proj2 (Z.eqb_neq _ _) Hi), (proj2 (Z.eqb_neq _ _) Hp). cbn [orb result_bind].
  rewrite (proj2 (Z.ltb_ge _ _) He). cbn [result_bind]. case_if_goal; eexists; (split; [reflexivity|]);
    [sat_lia|apply f64_to_u64_is_u64].
Qed.
(** A valid curve gives every epoch from its activation on a snapshot, whatever the
    library computes, unless the epoch's slot number does not fit 64 bits. *)
Lemma snapshot_total curve epoch :
  glc_initial_gas_limit curve ≠ 0 → glc_epochs_per_10x curve ≠ 0 → glc_activation_epoch curve ≤ epoch →
  if epoch * 32 <=? u64_max
  then ∃ snapshot, compute_gas_limit_snapshot curve epoch = Ok snapshot ∧
    gls_slot snapshot = epoch * 32 ∧
    compute_target_gas_limit curve epoch = Ok (gls_target_gas_limit snapshot) ∧
    gls_epochs_since_activation snapshot = epoch - glc_activation_epoch curve
  else compute_gas_limit_snapshot curve epoch = Err GasLimitOverflow.
Proof.
  intros Hi Hp He. destruct (compute_target_total curve epoch Hi Hp He) as (target & Ht & _).
  unfold compute_gas_limit_snapshot. rewrite Ht. unfold growth_factor_for_epoch, validate_curve, SLOTS_PER_EPOCH.
  rewrite (proj2 (Z.eqb_neq _ _) Hi), (proj2 (Z.eqb_neq _ _) Hp). cbn [orb result_bind].
  rewrite (proj2 (Z.ltb_ge _ _) He). cbn [result_bind].
  rewrite Z.ltb_antisym. destruct (Z.leb_spec (epoch * 32) u64_max); [by eexists|done].
Qed.
End GasLimit.

(** A library for which the growth at the activation epoch is evaluated. *)
#[local] Instance example_libm : Libm :=
  {| f64_powf := λ _ e, if f64_eq e f64_zero then int 1 else int 10;
     f64_log10 := λ _, int 1; f64_ln := λ x, x; f64_log2 := λ x, x; f64_exp := λ x, x |}.
Example gas_limit_examples :
  compute_target_gas_limit default_gas_limit_curve 369016 = Err (EpochBeforeActivation 369016 369017) ∧
  compute_target_gas_limit default_gas_limit_curve 369017 = Ok 50000000 ∧
  compute_target_gas_limit default_gas_limit_curve 533267 = Ok 500000000 ∧
  epoch_for_target_gas_limit default_gas_limit_curve 500000000 = Ok 533267 ∧
  validate_proposed_gas_limit default_gas_limit_curve 369017 50049000 (dec 1 1000) = true ∧
  validate_proposed_gas_limit default_gas_limit_curve 369017 50051000 (dec 1 1000) = false.
Proof. split_and!; vm_compute; reflexivity. Qed.
