(* ===== verification/Metadata.v ===== *)
(** * Metadata maps, and what does not depend on their order

    The modules of [eth2077-types] keep annotations in [HashMap]s of strings, and hash them
    in the order of the keys.  The pairs in that order, the labels and messages the modules
    share, and the lemmas that make a result independent of the order of a hash map. *)
From S2P Require Import Prelude Validation Strings.
Local Open Scope Z_scope.

(** A field and what is wrong with it: the error record of the configuration validators. *)
Record FieldError := { fe_field : Str; fe_message : Str }.
Definition field_error (field message : string) : FieldError := {| fe_field := str field; fe_message := str message |}.

(** [u8::from(bool)] *)
Definition u8_of_bool (b : bool) : Z := if b then 1 else 0.
Lemma u8_of_bool_inj a b : u8_of_bool a = u8_of_bool b → a = b.
Proof. by destruct a, b. Qed.

(** [*map.entry(key).or_insert(0) += 1] *)
Definition increment {K} `{Countable K} (m : gmap K Z) (k : K) : gmap K Z := <[k := default 0 (m !! k) + 1]> m.
Lemma foldl_increment {K} `{Countable K} (l : list K) (m : gmap K Z) k :
  default 0 (foldl increment m l !! k) = default 0 (m !! k) + len (filter (λ x, x = k) l).
Proof.
  revert m. induction l as [|x l IH]; intros m; cbn [foldl]; [unfold len; simpl; lia|].
  rewrite IH, filter_cons. unfold increment, len. destruct (decide (x = k)) as [->|Hne].
  - rewrite lookup_insert_eq. simpl. lia.
  - by rewrite lookup_insert_ne.
Qed.

(** Pairs in the order of the keys, then of the values. *)
Definition pair_cmp : Str * Str → Str * Str → comparison :=
  λ p q, then_with (bytes_cmp p.1 q.1) (bytes_cmp p.2 q.2).
Definition sorted_pairs {SU : SortUnstable} {HO : HashOrder} (metadata : gmap Str Str) : list (Str * Str) :=
  sort_unstable_by pair_cmp (hash_iter metadata).

#[export] Instance pair_cmp_ord : OrdCmp pair_cmp.
Proof.
  split.
  - pose proof (preorder_on (A := Str) (B := Str * Str) fst bytes_cmp).
    pose proof (preorder_on (A := Str) (B := Str * Str) snd bytes_cmp). apply then_with_preorder; apply _.
  - intros [k1 v1] [k2 v2] [H1%(cmp_eq bytes_cmp) H2%(cmp_eq bytes_cmp)]%then_with_eq. simpl in *. congruence.
Qed.
Lemma sorted_pairs_unique (SU1 SU2 : SortUnstable) (HO1 HO2 : HashOrder) metadata :
  sorted_pairs (SU := SU1) (HO := HO1) metadata = sorted_pairs (SU := SU2) (HO := HO2) metadata.
Proof.
  unfold sorted_pairs. apply (sorted_perm_unique pair_cmp); [|apply sort_unstable_sorted, _..|].
  - intros x y _ _. apply (cmp_eq pair_cmp).
  - rewrite !sort_unstable_perm. by rewrite (hash_iter_perm (HashOrder := HO1)), (hash_iter_perm (HashOrder := HO2)).
Qed.
Lemma elem_of_sorted_pairs {SU : SortUnstable} {HO : HashOrder} metadata k v :
  (k, v) ∈ sorted_pairs metadata ↔ metadata !! k = Some v.
Proof. unfold sorted_pairs. rewrite sort_unstable_perm. apply elem_of_hash_iter. Qed.
Lemma sorted_strings_unique (SU1 SU2 : SortUnstable) (l1 l2 : list Str) :
  l1 ≡ₚ l2 →
  sort_unstable_by (SortUnstable := SU1) bytes_cmp l1 = sort_unstable_by (SortUnstable := SU2) bytes_cmp l2.
Proof.
  intros Hl. apply (sorted_perm_unique bytes_cmp); [|apply sort_unstable_sorted, _..|].
  - intros x y _ _. apply (cmp_eq bytes_cmp).
  - by rewrite !sort_unstable_perm.
Qed.
Lemma forallb_perm {A} (f : A → bool) l1 l2 : l1 ≡ₚ l2 → forallb f l1 = forallb f l2.
Proof.
  intros Hl. apply eq_true_iff_eq. rewrite !forallb_forall. by setoid_rewrite <- list_elem_of_In; setoid_rewrite Hl.
Qed.
Lemma hex_of_bytes_inj l1 l2 : Forall is_byte l1 → Forall is_byte l2 → hex_of_bytes l1 = hex_of_bytes l2 → l1 = l2.
Proof. intros H1%hex_pairs_of_bytes H2%hex_pairs_of_bytes Heq. rewrite Heq in H1. congruence. Qed.

(** A separator that the text before it does not contain. *)
Lemma separator_inj (d : Z) (l1 l2 r1 r2 : list Z) :
  d ∉ l1 → d ∉ l2 → l1 ++ d :: r1 = l2 ++ d :: r2 → l1 = l2 ∧ r1 = r2.
Proof.
  revert l2. induction l1 as [|x l1 IH]; intros [|y l2] H1 H2 Heq; simplify_eq/=; [done|set_solver..|].
  destruct (IH l2) as [-> ->]; [set_solver..|done|done].
Qed.
Lemma separator_prefix_inj (d : Z) : prefix_inj (λ l, d ∉ l) (λ l, l ++ [d]).
Proof. intros a b r1 r2 Ha Hb. rewrite <- !app_assoc. by apply separator_inj. Qed.
Lemma prefix_inj_concat {A} (P : A → Prop) enc (l1 l2 : list A) :
  prefix_inj P enc → (∀ a, enc a ≠ []) → Forall P l1 → Forall P l2 →
  concat (enc <$> l1) = concat (enc <$> l2) → l1 = l2.
Proof.
  intros Hinj Hne H1. revert l2. induction H1 as [|a l1 Ha _ IH]; intros l2 H2 Heq.
  - destruct l2 as [|b l2]; [done|]. csimpl in *. symmetry in Heq. by apply app_nil in Heq as [?%Hne _].
  - destruct H2 as [|b l2 Hb H2]; csimpl in *; [by apply app_nil in Heq as [?%Hne _]|].
    apply Hinj in Heq as [-> Heq]; [|done..]. f_equal. by apply IH.
Qed.
Lemma prefix_inj_le_u64 : prefix_inj is_u64 (to_le_bytes 8).
Proof.
  intros a b r1 r2 Ha Hb Heq. apply app_inj_1 in Heq as [Heq ->]; [|by rewrite !length_to_le_bytes].
  split; [|done]. rewrite <- (le_value_to_le_bytes 8 a), <- (le_value_to_le_bytes 8 b), Heq by sat_lia. done.
Qed.
(** The sorted pairs determine the map. *)
Lemma sorted_pairs_inj {SU : SortUnstable} {HO : HashOrder} (m1 m2 : gmap Str Str) :
  sorted_pairs m1 = sorted_pairs m2 → m1 = m2.
Proof.
  intros Hpairs. apply map_eq. intros k. apply option_eq. intros v. by rewrite <- !elem_of_sorted_pairs, Hpairs.
Qed.

(** ** More orders *)

(** [Vec::dedup]: one of each run of equal elements. *)
Fixpoint dedup (l : list Z) : list Z :=
  match l with
  | x :: (y :: _) as rest => if x =? y then dedup rest else x :: dedup rest
  | _ => l
  end.

(** [Iterator::max_by], the last of the maximal elements, and [min_by], the first of the
    minimal ones. *)
Definition best_by {A} (pick : A → A → A) (l : list A) : option A :=
  foldl (λ best x, Some (match best with Some y => pick y x | None => x end)) None l.
Definition max_by {A} (c : A → A → comparison) : list A → option A :=
  best_by (λ y x, match c y x with Gt => y | _ => x end).
Definition min_by {A} (c : A → A → comparison) : list A → option A :=
  best_by (λ y x, match c y x with Gt => x | _ => y end).
Lemma best_by_member {A} (pick : A → A → A) (l : list A) :
  (∀ y x, pick y x = y ∨ pick y x = x) → l ≠ [] → ∃ best, best_by pick l = Some best ∧ best ∈ l.
Proof.
  intros Hpick. unfold best_by. induction l as [|x l IH] using rev_ind; [done|]. intros _. rewrite foldl_snoc.
  eexists. split; [done|]. destruct (decide (l = [])) as [->|Hne]; [set_solver|].
  destruct (IH Hne) as (y & -> & Hy). destruct (Hpick y x) as [->| ->]; set_solver.
Qed.
Lemma max_by_member {A} (c : A → A → comparison) (l : list A) : l ≠ [] → ∃ best, max_by c l = Some best ∧ best ∈ l.
Proof. apply best_by_member. intros y x. destruct (c y x); auto. Qed.
Lemma min_by_member {A} (c : A → A → comparison) (l : list A) : l ≠ [] → ∃ best, min_by c l = Some best ∧ best ∈ l.
Proof. apply best_by_member. intros y x. destruct (c y x); auto. Qed.

(** [Option] puts [None] first, [bool] puts [false] first. *)
Definition option_cmp {A} (c : A → A → comparison) (x y : option A) : comparison :=
  match x, y with
  | None, None => Eq
  | None, Some _ => Lt
  | Some _, None => Gt
  | Some x, Some y => c x y
  end.
Definition bool_cmp (x y : bool) : comparison :=
  match x, y with false, true => Lt | true, false => Gt | _, _ => Eq end.
#[export] Instance option_cmp_ord {A} (c : A → A → comparison) `{!OrdCmp c} : OrdCmp (option_cmp c).
Proof.
  split; [split|].
  - intros [x|] [y|]; try done. apply (cmp_antisym c).
  - intros [x|] [y|] [z|]; try done. apply (cmp_le_trans c).
  - intros [x|] [y|]; try done. by intros ->%(cmp_eq c).
Qed.
#[export] Instance bool_cmp_ord : OrdCmp bool_cmp.
Proof. split; [split|]; [intros [] []|intros [] [] []|intros [] []]; done. Qed.
(** Comparing by fields: each comparison on a field, then the rest. *)
Lemma preorder_then {A B} (f : A → B) (c : B → B → comparison) (d : A → A → comparison) :
  PreorderCmp c → PreorderCmp d → PreorderCmp (λ x y, then_with (c (f x) (f y)) (d x y)).
Proof. intros ??. pose proof (preorder_on f c). by apply then_with_preorder. Qed.
(** A stable sort by a total order does not depend on the order of the input. *)
Lemma sort_by_order {A} (c : A → A → comparison) `{!OrdCmp c} l1 l2 : l1 ≡ₚ l2 → sort_by c l1 = sort_by c l2.
Proof.
  intros Hl. apply (sorted_perm_unique c); [|apply sort_by_sorted, _..|by rewrite !sort_by_perm].
  intros x y _ _. apply (cmp_eq c).
Qed.
Lemma sort_unstable_order {A} (c : A → A → comparison) `{!OrdCmp c} (SU1 SU2 : SortUnstable) l1 l2 :
  l1 ≡ₚ l2 → sort_unstable_by (SortUnstable := SU1) c l1 = sort_unstable_by (SortUnstable := SU2) c l2.
Proof.
  intros Hl. apply (sorted_perm_unique c); [|apply sort_unstable_sorted, _..|by rewrite !sort_unstable_perm].
  intros x y _ _. apply (cmp_eq c).
Qed.
(** Sorted without repetitions, a list shows only its members. *)
Lemma elem_of_dedup x l : x ∈ dedup l ↔ x ∈ l.
Proof.
  induction l as [|a [|b l] IH]; [done|done|]. cbn [dedup].
  destruct (Z.eqb_spec a b) as [->|Hne]; [rewrite IH|cbn [dedup] in IH; rewrite elem_of_cons, IH]; set_solver.
Qed.
Lemma dedup_increasing l : StronglySorted Z.le l → StronglySorted Z.lt (dedup l).
Proof.
  induction l as [|a [|b l] IH]; intros Hs; [constructor|by repeat constructor|].
  inversion_clear Hs as [|?? Hs' Ha]. cbn [dedup]. destruct (Z.eqb_spec a b) as [->|Hne]; [by apply IH|].
  constructor; [by apply IH|]. apply Forall_forall. intros x Hx. apply (elem_of_dedup x (b :: l)) in Hx.
  inversion_clear Hs' as [|?? _ Hb]. inversion_clear Ha as [|?? Hab _].
  apply elem_of_cons in Hx as [->|Hx]; [lia|]. rewrite Forall_forall in Hb. specialize (Hb _ Hx). lia.
Qed.
Lemma sorted_lt_unique l1 l2 :
  StronglySorted Z.lt l1 → StronglySorted Z.lt l2 → (∀ x, x ∈ l1 ↔ x ∈ l2) → l1 = l2.
Proof.
  intros H1 H2 Hx.
  assert (∀ l, StronglySorted Z.lt l → NoDup l ∧ StronglySorted (cmp_le Z.compare) l) as Hl.
  { induction 1 as [|a l Hs [IH1 IH2] Ha]; [split; constructor|]. rewrite Forall_forall in Ha. split.
    - constructor; [|done]. intros Hin%Ha. lia.
    - constructor; [done|]. apply Forall_forall. intros y Hy%Ha. apply Z.compare_ngt_iff. lia. }
  destruct (Hl _ H1) as [Hnd1 Hs1], (Hl _ H2) as [Hnd2 Hs2].
  apply (sorted_perm_unique Z.compare); [|done|done|by apply NoDup_Permutation].
  intros x y _ _. apply Z.compare_eq.
Qed.

(** ** Lists of hashes *)

(** Hashes and keys ([[u8; 32]]) are committed to in order: the commitment depends on which
    they are and how often, and on nothing else. *)
Definition key32 (key : list Z) : Prop := length key = 32%nat.
Definition sorted_keys {SU : SortUnstable} (keys : list (list Z)) : list (list Z) := sort_unstable_by bytes_cmp keys.
Lemma sorted_keys_inj (SU1 SU2 : SortUnstable) (l1 l2 : list (list Z)) :
  Forall key32 l1 → Forall key32 l2 →
  concat (sorted_keys (SU := SU1) l1) = concat (sorted_keys (SU := SU2) l2) → l1 ≡ₚ l2.
Proof.
  unfold sorted_keys. intros H1 H2 Heq. rewrite <- (sort_unstable_perm (SortUnstable := SU1) bytes_cmp l1) in H1 |- *.
  rewrite <- (sort_unstable_perm (SortUnstable := SU2) bytes_cmp l2) in H2 |- *.
  assert (∀ (l l' : list (list Z)), Forall key32 l → Forall key32 l' → concat l = concat l' → l = l') as Hinj.
  { clear. intros l l' H. revert l'. induction H as [|k l Hk _ IH]; intros l' H' Heq.
    - destruct H' as [|k' l' Hk' _]; [done|]. by destruct k'.
    - destruct H' as [|k' l' Hk' Hl']; [by destruct k|]. apply app_inj_1 in Heq as [-> Heq]; [|congruence].
      f_equal. by apply IH. }
  by rewrite (Hinj _ _ H1 H2 Heq).
Qed.
Lemma sorted_keys_unique (SU1 SU2 : SortUnstable) (l1 l2 : list (list Z)) :
  l1 ≡ₚ l2 → sorted_keys (SU := SU1) l1 = sorted_keys (SU := SU2) l2.
Proof. apply sorted_strings_unique. Qed.
(** Equal hashes: equal texts or a collision. *)
Definition binds `{Sha256} {A} (preimage : A → list Z) (R : A → A → Prop) (a b : A) : Prop :=
  R a b ∨ (preimage a ≠ preimage b ∧ sha256 (preimage a) = sha256 (preimage b)).
Lemma binds_intro `{Sha256} {A} (preimage : A → list Z) (R : A → A → Prop) a b :
  (preimage a = preimage b → R a b) → sha256 (preimage a) = sha256 (preimage b) → binds preimage R a b.
Proof. intros Hinj Hhash. destruct (decide (preimage a = preimage b)); [left; auto|by right]. Qed.
