(* ===== verification/LoadGenerator.v ===== *)
(** * The load generator ([eth2077-live-bench/src/main.rs])

    The program that measures a running node: its arguments, the senders it derives, the
    transactions it builds, the calls it makes, the jobs of its workers and the report.
    Answers that arrive over HTTP and times that are read are arguments; writing RLP is the
    class [RlpWriter]; error texts of the libraries are left out. *)
From S2P Require Import Prelude Canonical Floats Strings Json DaemonHex DaemonState RawTx DaemonEvm Ledger Market ChainQueries Http DaemonStart FloatFacts Metadata.
Local Open Scope Z_scope.

(** ** Arguments *)

(* eth2077-live-bench/src/main.rs:17-32 Args *)
Record Args := MkArgs {
  ag_rpc_urls : list Str;
  ag_sender : Str;
  ag_to : Str;
  ag_sender_count : Z;
  ag_workers : Z;
  ag_tx_count : Z;
  ag_gas_limit : Z;
  ag_max_priority_fee_per_gas : Z;
  ag_max_fee_per_gas : Z;
  ag_value_wei : Z;
  ag_fund_wei_hex : Str;
  ag_poll_ms : Z;
  ag_deadline_seconds : Z;
  ag_output_json : Str;
  ag_output_md : Str;
}.
(* eth2077-live-bench/src/main.rs:35-54 Args::default_with_timestamp *)
Definition Args_default_with_timestamp (ts : Z) : Args :=
  let base := str "reports/live-tps-" ++ decimal ts in
  {| ag_rpc_urls := [str "http://127.0.0.1:9545"];
     ag_sender := str "0x375249129507aec9309abc1f5c055494200c7c32";
     ag_to := str "0x1111111111111111111111111111111111111111";
     ag_sender_count := 1; ag_workers := 1; ag_tx_count := 2000; ag_gas_limit := 21000;
     ag_max_priority_fee_per_gas := 1000000000; ag_max_fee_per_gas := 2000000000; ag_value_wei := 0;
     ag_fund_wei_hex := str "0x3635c9adc5dea0000000"; ag_poll_ms := 25; ag_deadline_seconds := 120;
     ag_output_json := base ++ str ".json"; ag_output_md := base ++ str ".md" |}.
(* eth2077-live-bench/src/main.rs:259-266 parse_csv_list *)
Definition parse_csv_list (input : Str) : list Str :=
  filter (λ s, s ≠ []) (trim <$> split_byte 44 input).

Inductive ArgError :=
| MissingValue (flag : Str)
| InvalidNumber (flag : Str)
| UnknownArgument (flag : Str)
| NoEndpoint.
(** [val.parse().map_err(..)?] *)
Definition parse_number (flag val : Str) : result Z ArgError :=
  match parse_decimal u64_max val with Some n => Ok n | None => Err (InvalidNumber flag) end.
(** One arm of the [match] on the flag. *)
(* eth2077-live-bench/src/main.rs:275-337 parse_args *)
Definition set_arg (args : Args) (flag val : Str) : result Args ArgError :=
  let '(MkArgs urls sender to senders workers txs gas prio fee value fund poll deadline json md) := args in
  if str_eqb flag (str "--rpc-url") then
    Ok (MkArgs [val] sender to senders workers txs gas prio fee value fund poll deadline json md) else
  if str_eqb flag (str "--rpc-urls") then
    let list := parse_csv_list val in
    if bool_decide (list = []) then Err NoEndpoint else
    Ok (MkArgs list sender to senders workers txs gas prio fee value fund poll deadline json md) else
  if str_eqb flag (str "--sender") then
    Ok (MkArgs urls val to senders workers txs gas prio fee value fund poll deadline json md) else
  if str_eqb flag (str "--to") then
    Ok (MkArgs urls sender val senders workers txs gas prio fee value fund poll deadline json md) else
  if str_eqb flag (str "--sender-count") then
    let? n := parse_number flag val in
    Ok (MkArgs urls sender to (Z.max n 1) workers txs gas prio fee value fund poll deadline json md) else
  if str_eqb flag (str "--workers") then
    let? n := parse_number flag val in
    Ok (MkArgs urls sender to senders (Z.max n 1) txs gas prio fee value fund poll deadline json md) else
  if str_eqb flag (str "--tx-count") then
    let? n := parse_number flag val in
    Ok (MkArgs urls sender to senders workers n gas prio fee value fund poll deadline json md) else
  if str_eqb flag (str "--gas-limit") then
    let? n := parse_number flag val in
    Ok (MkArgs urls sender to senders workers txs n prio fee value fund poll deadline json md) else
  if str_eqb flag (str "--max-priority-fee-per-gas") then
    let? n := parse_number flag val in
    Ok (MkArgs urls sender to senders workers txs gas n fee value fund poll deadline json md) else
  if str_eqb flag (str "--max-fee-per-gas") then
    let? n := parse_number flag val in
    Ok (MkArgs urls sender to senders workers txs gas prio n value fund poll deadline json md) else
  if str_eqb flag (str "--value-wei") then
    let? n := parse_number flag val in
    Ok (MkArgs urls sender to senders workers txs gas prio fee n fund poll deadline json md) else
  if str_eqb flag (str "--fund-wei-hex") then
    Ok (MkArgs urls sender to senders workers txs gas prio fee value val poll deadline json md) else
  if str_eqb flag (str "--poll-ms") then
    let? n := parse_number flag val in
    Ok (MkArgs urls sender to senders workers txs gas prio fee value fund n deadline json md) else
  if str_eqb flag (str "--deadline-seconds") then
    let? n := parse_number flag val in
    Ok (MkArgs urls sender to senders workers txs gas prio fee value fund poll n json md) else
  if str_eqb flag (str "--output-json") then
    Ok (MkArgs urls sender to senders workers txs gas prio fee value fund poll deadline val md) else
  if str_eqb flag (str "--output-md") then
    Ok (MkArgs urls sender to senders workers txs gas prio fee value fund poll deadline json val) else
  Err (UnknownArgument flag).
(* eth2077-live-bench/src/main.rs:271-338 parse_args *)
Fixpoint set_args (args : Args) (rest : list Str) : result Args ArgError :=
  match rest with
  | [] => Ok args
  | [flag] => Err (MissingValue flag)
  | flag :: val :: rest => let? args := set_arg args flag val in set_args args rest
  end.
(** The arguments after the name of the program. *)
(* eth2077-live-bench/src/main.rs:268-345 parse_args *)
Definition parse_args (now : Z) (rest : list Str) : result Args ArgError :=
  let? args := set_args (Args_default_with_timestamp now) rest in
  if bool_decide (ag_rpc_urls args = []) then Err NoEndpoint else Ok args.

(** ** Addresses *)

Section generator.
Context `{HC : HexCrate}.

(* eth2077-live-bench/src/main.rs:102-111 parse_address *)
Definition parse_address (addr : Str) : result Address Str :=
  let raw := default (trim addr) (strip_prefix (str "0x") (trim addr)) in
  if negb (len raw =? 40) || negb (forallb is_ascii_hexdigit raw) then Err (str "invalid address: " ++ addr)
  else match hex_decode raw with Some bytes => Ok bytes | None => Err (str "invalid address hex") end.
(* eth2077-live-bench/src/main.rs:113-116 canonical_address *)
Definition canonical_address (addr : Str) : result Str Str :=
  let? bytes := parse_address addr in Ok (str "0x" ++ hex_encode bytes).
(* eth2077-live-bench/src/main.rs:118-120 address_to_hex *)
Definition address_to_hex (addr : Address) : Str := str "0x" ++ hex_encode addr.

(** The loop over the last eight bytes: [i] rounds are left, at byte [idx]. *)
(* eth2077-live-bench/src/main.rs:124-131 add_u64_to_address *)
Fixpoint add_low (rounds idx : nat) (addr : Address) (n carry : Z) : Address * Z :=
  match rounds with
  | O => (addr, carry)
  | S rounds =>
      let sum := default 0 (addr !! idx) + Z.land n 0xff + carry in
      add_low rounds (idx - 1) (<[idx := Z.land sum 0xff]> addr) (Z.shiftr n 8) (Z.shiftr sum 8)
  end.
(** The loop that carries on, from byte [idx] down to byte 0. *)
(* eth2077-live-bench/src/main.rs:132-141 add_u64_to_address *)
Fixpoint add_carry (idx : nat) (addr : Address) (carry : Z) : Address :=
  if negb (0 <? carry) then addr else
  let sum := default 0 (addr !! idx) + carry in
  let addr := <[idx := Z.land sum 0xff]> addr in
  match idx with O => addr | S idx => add_carry idx addr (Z.shiftr sum 8) end.
(* eth2077-live-bench/src/main.rs:122-142 add_u64_to_address *)
Definition add_u64_to_address (addr : Address) (n : Z) : Address :=
  let '(addr, carry) := add_low 8 19 addr n 0 in add_carry 11 addr carry.
(* eth2077-live-bench/src/main.rs:144-154 derive_senders *)
Definition derive_senders (base : Str) (count : Z) : result (list Str) Str :=
  let? canonical := canonical_address base in
  let? base_addr := parse_address canonical in
  Ok ((λ i, address_to_hex (add_u64_to_address base_addr i)) <$> seqZ 0 (Z.max count 1)).
End generator.

(** The value of an address after the additions. *)
Lemma be_value_insert l i b x :
  l !! i = Some b → be_value (<[i := x]> l) = be_value l + (x - b) * 256 ^ (len l - 1 - Z.of_nat i).
Proof.
  revert i. induction l as [|y l IH]; intros [|i] Hi; simplify_eq/=.
  - rewrite !be_value_cons. unfold len. cbn [length]. rewrite Nat2Z.inj_succ.
    replace (Z.succ (Z.of_nat (length l)) - 1 - Z.of_nat 0) with (Z.of_nat (length l)) by lia. lia.
  - rewrite !be_value_cons, (IH i Hi). unfold len. cbn [length]. rewrite length_insert, Nat2Z.inj_succ.
    replace (Z.succ (Z.of_nat (length l)) - 1 - Z.of_nat (S i)) with (Z.of_nat (length l) - 1 - Z.of_nat i) by lia.
    lia.
Qed.
Lemma add_byte_split sum : 0 <= sum → sum = 256 * Z.shiftr sum 8 + Z.land sum 255 ∧ is_byte (Z.land sum 255) ∧ 0 <= Z.shiftr sum 8.
Proof.
  intros Hs. change 255 with (Z.ones 8). rewrite Z.land_ones, Z.shiftr_div_pow2 by done. change (2 ^ 8) with 256.
  pose proof (Z.div_mod sum 256 ltac:(done)). pose proof (Z.mod_pos_bound sum 256 eq_refl).
  unfold is_byte. split; [done|]. split; [lia|by apply Z.div_pos].
Qed.
Lemma add_low_value rounds idx addr n carry :
  length addr = 20%nat → Forall is_byte addr → (rounds <= idx < 20)%nat → 0 <= n → 0 <= carry →
  let r := add_low rounds idx addr n carry in
  let P := 256 ^ (19 - Z.of_nat idx + Z.of_nat rounds) in
  length r.1 = 20%nat ∧ Forall is_byte r.1 ∧ 0 <= r.2 ∧
  be_value r.1 + (r.2 + Z.shiftr n (8 * Z.of_nat rounds)) * P = be_value addr + (n + carry) * 256 ^ (19 - Z.of_nat idx).
Proof.
  revert idx addr n carry. induction rounds as [|rounds IH]; intros idx addr n carry Hlen Hb Hidx Hn Hc; cbn [add_low]; cbv zeta.
  { cbn [fst snd]. rewrite Z.mul_0_r, Z.shiftr_0_r, Z.add_0_r. split_and!; [done..|lia]. }
  destruct (lookup_lt_is_Some_2 addr idx) as [b Hlook]; [lia|].
  assert (Hbb : is_byte b) by (by eapply Forall_lookup_1). rewrite Hlook. change (default 0 (Some b)) with b.
  destruct (add_byte_split n Hn) as (Hn' & Hlo & Hhi). unfold is_byte in Hbb, Hlo.
  set (sum := b + Z.land n 255 + carry).
  destruct (add_byte_split sum) as (Hs & Hsb & Hsc); [unfold sum; lia|].
  set (addr' := <[idx := Z.land sum 255]> addr).
  destruct (IH (idx - 1)%nat addr' (Z.shiftr n 8) (Z.shiftr sum 8)) as (Hl' & Hb' & Hc' & Heq);
    [by unfold addr'; rewrite length_insert|by apply Forall_insert|lia|done|done|].
  split_and!; [done..|]. assert (Hins : be_value addr' = be_value addr + (Z.land sum 255 - b) * 256 ^ (len addr - 1 - Z.of_nat idx))
    by by apply be_value_insert.
  rewrite Hins in Heq.
  rewrite Z.shiftr_shiftr in Heq by lia. unfold len in Heq. rewrite Hlen in Heq.
  replace (8 + 8 * Z.of_nat rounds) with (8 * Z.of_nat (S rounds)) in Heq by lia.
  replace (19 - Z.of_nat (idx - 1) + Z.of_nat rounds) with (19 - Z.of_nat idx + Z.of_nat (S rounds)) in Heq by lia.
  replace (19 - Z.of_nat (idx - 1)) with (Z.succ (19 - Z.of_nat idx)) in Heq by lia.
  replace (Z.of_nat 20 - 1 - Z.of_nat idx) with (19 - Z.of_nat idx) in Heq by lia.
  rewrite Z.pow_succ_r in Heq by lia. set (Q := 256 ^ (19 - Z.of_nat idx)) in *. rewrite Heq.
  transitivity (be_value addr + (256 * Z.shiftr sum 8 + Z.land sum 255 - b + 256 * Z.shiftr n 8) * Q); [ring|].
  rewrite <- Hs. by replace (sum - b + 256 * Z.shiftr n 8) with (n + carry) by (unfold sum; lia).
Qed.
(** Carrying on never leaves the 20 bytes: what overflows is dropped. *)
Lemma add_carry_value idx addr carry :
  length addr = 20%nat → Forall is_byte addr → (idx < 20)%nat → 0 <= carry →
  let r := add_carry idx addr carry in
  length r = 20%nat ∧ Forall is_byte r ∧
  ∃ k, be_value r + k * 256 ^ 20 = be_value addr + carry * 256 ^ (19 - Z.of_nat idx).
Proof.
  revert addr carry. induction idx as [|idx IH]; intros addr carry Hlen Hb Hidx Hc; cbn [add_carry];
    (destruct (Z.ltb_spec 0 carry); cbn [negb];
     [|split_and!; [done..|]; exists 0; replace carry with 0 by lia; lia]);
    destruct (lookup_lt_is_Some_2 addr _ ltac:(rewrite Hlen; exact Hidx)) as [b Hlook];
    (assert (Hbb : is_byte b) by (by eapply Forall_lookup_1)); rewrite Hlook; change (default 0 (Some b)) with b; unfold is_byte in Hbb;
    (destruct (add_byte_split (b + carry)) as (Hs & Hsb & Hsc); [lia|]).
  - split_and!; [by rewrite length_insert|by apply Forall_insert|].
    rewrite (be_value_insert _ _ b) by done. unfold len. rewrite Hlen. exists (Z.shiftr (b + carry) 8).
    replace (Z.of_nat 20 - 1 - Z.of_nat 0) with 19 by lia. replace (19 - Z.of_nat 0) with 19 by lia.
    change (256 ^ 20) with (256 * 256 ^ 19). set (Q := 256 ^ 19).
    transitivity (be_value addr + (256 * Z.shiftr (b + carry) 8 + Z.land (b + carry) 255 - b) * Q); [ring|].
    rewrite <- Hs. ring.
  - set (addr' := <[S idx := Z.land (b + carry) 255]> addr).
    destruct (IH addr' (Z.shiftr (b + carry) 8)) as (Hl' & Hb' & k & Heq);
      [by unfold addr'; rewrite length_insert|by apply Forall_insert|lia|done|].
    split_and!; [done..|]. exists k. rewrite Heq. unfold addr'. rewrite (be_value_insert _ _ b) by done.
    unfold len. rewrite Hlen. replace (Z.of_nat 20 - 1 - Z.of_nat (S idx)) with (19 - Z.of_nat (S idx)) by lia.
    replace (19 - Z.of_nat idx) with (Z.succ (19 - Z.of_nat (S idx))) by lia.
    rewrite Z.pow_succ_r by lia. set (Q := 256 ^ (19 - Z.of_nat (S idx))).
    transitivity (be_value addr + (256 * Z.shiftr (b + carry) 8 + Z.land (b + carry) 255 - b) * Q); [ring|].
    rewrite <- Hs. ring.
Qed.
(** Adding to an address is addition modulo 2^160. *)
Lemma add_u64_to_address_spec addr n :
  length addr = 20%nat → Forall is_byte addr → is_u64 n →
  length (add_u64_to_address addr n) = 20%nat ∧ Forall is_byte (add_u64_to_address addr n) ∧
  be_value (add_u64_to_address addr n) = (be_value addr + n) mod 2 ^ 160.
Proof.
  intros Hlen Hb [Hn Hmax]. unfold add_u64_to_address.
  destruct (add_low_value 8 19 addr n 0 Hlen Hb ltac:(lia) Hn ltac:(lia)) as (Hl1 & Hb1 & Hc1 & Heq1).
  destruct (add_low 8 19 addr n 0) as [addr1 carry]. cbn [fst snd] in *.
  destruct (add_carry_value 11 addr1 carry Hl1 Hb1 ltac:(lia) Hc1) as (Hl2 & Hb2 & k & Heq2).
  split_and!; [done..|]. pose proof (be_value_range _ Hb2) as Hr. unfold len in Hr. rewrite Hl2 in Hr.
  rewrite Z.shiftr_div_pow2 in Heq1 by done. rewrite Z.div_small in Heq1 by (change (2 ^ (8 * Z.of_nat 8)) with (u64_max + 1); lia).
  apply (Z.mod_unique _ _ k); [left; exact Hr|]. change (2 ^ 160) with (256 ^ 20).
  change (19 - Z.of_nat 11) with 8 in Heq2. change (19 - Z.of_nat 19 + Z.of_nat 8) with 8 in Heq1.
  change (256 ^ (19 - Z.of_nat 19)) with 1 in Heq1. lia.
Qed.

(** ** Transactions *)

(** The [rlp] crate's [RlpStream]: a list of byte strings is written so that [Rlp] reads it
    back; an integer is appended as its big-endian bytes, without leading zeros. *)
Class RlpWriter `{RL : RlpCrate} := {
  rlp_list : list (list Z) → list Z;
  rlp_integer : Z → list Z;
  rlp_list_is_list items : Rlp_is_list (Rlp_new (rlp_list items)) = true;
  rlp_list_bytes items : Forall (Forall is_byte) items → Forall is_byte (rlp_list items);
  rlp_list_at items i raw : Forall (Forall is_byte) items → items !! i = Some raw →
    Rlp_val_at (Rlp_new (rlp_list items)) i = Ok raw;
  rlp_integer_u64 n : is_u64 n →
    Forall is_byte (rlp_integer n) ∧ len (rlp_integer n) <= 8 ∧ be_value (rlp_integer n) = n;
}.
#[global] Hint Mode RlpWriter + : typeclass_instances.

Section calls.
Context `{HC : HexCrate} `{RL : RlpCrate} `{RW : !RlpWriter} `{JT : JsonText} `{JP : JsonParse}.

(* eth2077-live-bench/src/main.rs:156-159 parse_hex_u64 *)
Definition parse_hex_u64 (input : Str) : option Z :=
  from_str_radix16 u64_max (default (trim input) (strip_prefix (str "0x") (trim input))).
(* eth2077-live-bench/src/main.rs:183-188 typed_tx_hex *)
Definition typed_tx_hex (tx_type : Z) (payload : list Z) : Str := str "0x" ++ hex_encode (tx_type :: payload).
(* eth2077-live-bench/src/main.rs:190-209 build_type2_raw_tx *)
Definition build_type2_raw_tx (chain_id nonce : Z) (to : Address)
    (value_wei gas_limit max_priority_fee_per_gas max_fee_per_gas : Z) : Str :=
  typed_tx_hex 2 (rlp_list
    [rlp_integer chain_id; rlp_integer nonce; rlp_integer max_priority_fee_per_gas;
     rlp_integer max_fee_per_gas; rlp_integer gas_limit; to; rlp_integer value_wei; []]).

(** ** Calls *)

(** What comes back over HTTP: a failure to send, a failure to read the body, or a status (its
    text and whether it is a success) with a body. *)
Inductive HttpAnswer :=
| SendFailed (error : Str)
| ReadFailed (error : Str)
| Answered (status : Str) (is_success : bool) (body : Str).
(** [Value]'s [Display] is its compact text. *)
Definition display (v : Value) : Str := match json_to_string v with Ok s => s | Err _ => [] end.
(* eth2077-live-bench/src/main.rs:240-247 rpc_call *)
Definition rpc_result (method : Str) (parsed : Value) : result Value Str :=
  match get "error" parsed with
  | Some err => Err (str "json-rpc error for " ++ method ++ str ": " ++ display err)
  | None => match get "result" parsed with
    | Some v => Ok v
    | None => Err (str "missing result for " ++ method ++ str ": " ++ display parsed)
    end
  end.
(** The next request number, the request, and what is made of the answer. *)
(* eth2077-live-bench/src/main.rs:211-248 rpc_call *)
Definition rpc_call (req_id : Z) (method : Str) (params : Value) (answer : HttpAnswer)
  : Z * Value * result Value Str :=
  let req_id := u64_saturating_add req_id 1 in
  let request := obj ["jsonrpc" ⟼ text "2.0"; "id" ⟼ num req_id; "method" ⟼ VString method; "params" ⟼ params] in
  (req_id, request,
   match answer with
   | SendFailed e => Err (str "http error for " ++ method ++ str ": " ++ e)
   | ReadFailed e => Err (str "failed reading response body for " ++ method ++ str ": " ++ e)
   | Answered status is_success body =>
       if negb is_success then
         Err (str "http status " ++ status ++ str " for " ++ method ++ str ": " ++ body)
       else match json_from_str body with
       | None => Err (str "invalid json-rpc response for " ++ method ++ str ": body=" ++ body)
       | Some parsed => rpc_result method parsed
       end
   end).
(* eth2077-live-bench/src/main.rs:448-452 main *)
Definition read_quantity (v : Value) : option Z := s ← as_str v; parse_hex_u64 s.

(** ** The jobs of the workers *)

(* eth2077-live-bench/src/main.rs:57-61 SubmittedTx *)
Record SubmittedTx := { su_submit_s : f64; su_endpoint_idx : Z }.
(** What the workers share.  A job is one step: a worker holds the lock of its endpoint from
    the count to the transaction, and what it changes under the other locks, one after
    another, commutes with the changes of other jobs. *)
(* eth2077-live-bench/src/main.rs:489-493 main *)
Record Shared := MkShared {
  sh_next_job : Z;
  sh_submitted : gmap Str SubmittedTx;
  sh_send_errors : list Str;
  sh_sender_counts : gmap Str Z;
  sh_endpoint_counts : gmap Str Z;
}.
Definition no_jobs : Shared := MkShared 0 ∅ [] ∅ ∅.
(* eth2077-live-bench/src/main.rs:525-529 main *)
Record Worker := {
  wk_idx : Z;
  wk_sender_addr : Str;
  wk_endpoint_idx : Z;
  wk_endpoint : Str;
}.
(* eth2077-live-bench/src/main.rs:525-528 main *)
Definition start_worker (worker_idx : Z) (senders rpc_urls : list Str) : Worker :=
  let sender_idx := worker_idx mod len senders in
  let endpoint_idx := sender_idx mod len rpc_urls in
  {| wk_idx := worker_idx; wk_sender_addr := default [] (senders !! Z.to_nat sender_idx);
     wk_endpoint_idx := endpoint_idx; wk_endpoint := default [] (rpc_urls !! Z.to_nat endpoint_idx) |}.
(** At most 20 errors are kept. *)
(* eth2077-live-bench/src/main.rs:548-556 main *)
Definition push_error (message : Str) (st : Shared) : Shared :=
  MkShared (sh_next_job st) (sh_submitted st)
    (if len (sh_send_errors st) <? 20 then sh_send_errors st ++ [message] else sh_send_errors st)
    (sh_sender_counts st) (sh_endpoint_counts st).
(** [*map.entry(key).or_insert(0) += 1] *)
Definition count_up (key : Str) (m : gmap Str Z) : gmap Str Z := <[key := default 0 (m !! key) + 1]> m.
(* eth2077-live-bench/src/main.rs:613-632 main *)
Definition record_submitted (w : Worker) (tx_hash : Str) (submit_s : f64) (st : Shared) : Shared :=
  MkShared (sh_next_job st)
    (<[tx_hash := {| su_submit_s := submit_s; su_endpoint_idx := wk_endpoint_idx w |}]> (sh_submitted st))
    (sh_send_errors st) (count_up (wk_sender_addr w) (sh_sender_counts st))
    (count_up (wk_endpoint w) (sh_endpoint_counts st)).
Definition worker_text (w : Worker) : Str := str "worker " ++ decimal (wk_idx w).
Definition at_endpoint (w : Worker) : Str := str " (" ++ wk_endpoint w ++ str ", " ++ wk_sender_addr w ++ str ")".
(** The transaction of a job. *)
(* eth2077-live-bench/src/main.rs:573-581 main *)
Definition job_tx (args : Args) (chain_id : Z) (to_bytes : Address) (job nonce : Z) : Str :=
  build_type2_raw_tx chain_id nonce to_bytes (u64_saturating_add (ag_value_wei args) job) (ag_gas_limit args)
    (ag_max_priority_fee_per_gas args) (ag_max_fee_per_gas args).
(** One round of the loop of a worker: what [eth_getTransactionCount] and
    [eth_sendRawTransaction] give are arguments.  [false]: the worker ends. *)
(* eth2077-live-bench/src/main.rs:531-633 main *)
Definition worker_job (args : Args) (chain_id : Z) (to_bytes : Address) (w : Worker)
    (nonce_answer : result Value Str) (send_answer : Str → result Value Str) (submit_s : f64) (st : Shared)
  : Shared * bool :=
  let job := sh_next_job st in
  let st := MkShared (u64_wrapping_add job 1) (sh_submitted st) (sh_send_errors st) (sh_sender_counts st)
    (sh_endpoint_counts st) in
  if ag_tx_count args <=? job then (st, false) else
  match nonce_answer with
  | Err e => (push_error (worker_text w ++ str " nonce lookup failed" ++ at_endpoint w ++ str ": " ++ e) st, true)
  | Ok nonce_hex =>
      match read_quantity nonce_hex with
      | None => (push_error (worker_text w ++ str " invalid nonce" ++ at_endpoint w ++ str ": " ++ display nonce_hex) st, true)
      | Some nonce =>
          match send_answer (job_tx args chain_id to_bytes job nonce) with
          | Err e => (push_error (worker_text w ++ str " send failed" ++ at_endpoint w ++ str ": " ++ e) st, true)
          | Ok v => match as_str v with
            | None => (push_error (worker_text w ++ str " invalid send result" ++ at_endpoint w ++ str ": " ++ display v) st, true)
            | Some tx_hash => (record_submitted w tx_hash submit_s st, true)
            end
          end
      end
  end.
(** A worker whose HTTP client cannot be built ends at once. *)
(* eth2077-live-bench/src/main.rs:514-523 main *)
Definition client_failed (worker_idx : Z) (e : Str) (st : Shared) : Shared :=
  push_error (str "worker " ++ decimal worker_idx ++ str ": failed to build client: " ++ e) st.
(** Jobs in the order they are taken, whatever the worker. *)
Record Job := {
  jb_worker : Worker;
  jb_nonce_answer : result Value Str;
  jb_send_answer : Str → result Value Str;
  jb_submit_s : f64;
}.
(* eth2077-live-bench/src/main.rs:498-640 main *)
Definition run_jobs (args : Args) (chain_id : Z) (to_bytes : Address) (jobs : list Job) (st : Shared) : Shared :=
  foldl (λ st j, (worker_job args chain_id to_bytes (jb_worker j) (jb_nonce_answer j) (jb_send_answer j)
    (jb_submit_s j) st).1) st jobs.

(** ** Waiting for receipts *)

Record Polling := MkPolling { pl_pending : gset Str; pl_confirm_at_s : gmap Str f64 }.
(** One receipt that was asked for; [now_s] is the time since the start. *)
(* eth2077-live-bench/src/main.rs:669-690 main *)
Definition poll_receipt (answer : result Value Str) (now_s : f64) (p : Polling) : Polling :=
  match answer with
  | Err _ => p
  | Ok receipt =>
      match receipt with VNull => p | _ =>
      match get "blockNumber" receipt with
      | None | Some VNull => p
      | Some _ =>
          match get "transactionHash" receipt ≫= as_str with
          | Some hash_str => MkPolling (pl_pending p ∖ {[hash_str]}) (<[hash_str := now_s]> (pl_confirm_at_s p))
          | None => p
          end
      end
      end
  end.
(** The answers in the order of the questions, over all rounds. *)
(* eth2077-live-bench/src/main.rs:651-697 main *)
Definition poll_receipts (st : Shared) (answers : list (result Value Str * f64)) : Polling :=
  foldl (λ p a, poll_receipt a.1 a.2 p) (MkPolling (dom (sh_submitted st)) ∅) answers.

(** ** The report *)

(** An index out of range panics; [min] keeps it in range. *)
(* eth2077-live-bench/src/main.rs:161-169 percentile *)
Definition percentile (values : list f64) (q : f64) : outcome f64 :=
  if bool_decide (values = []) then Done f64_zero else
  let sorted := sort_by f64_total_cmp values in
  let idx := f64_to_u64 (f64_round (f64_mul (f64_of_u64 (u64_saturating_sub (len sorted) 1)) q)) in
  match sorted !! Z.to_nat (Z.min idx (u64_saturating_sub (len sorted) 1)) with
  | Some x => Done x
  | None => Panics
  end.
(* eth2077-live-bench/src/main.rs:171-177 avg *)
Definition avg (values : list f64) : f64 :=
  if bool_decide (values = []) then f64_zero else f64_div (f64_sum values) (f64_of_u64 (len values)).

Context `{HO : HashOrder}.
(* eth2077-live-bench/src/main.rs:699-705 main *)
Definition latencies (st : Shared) (p : Polling) : list f64 :=
  omap (λ '(hash, submitted_tx),
    confirm_s ← pl_confirm_at_s p !! hash;
    Some (f64_mul (f64_sub confirm_s (su_submit_s submitted_tx)) (int 1000))) (hash_iter (sh_submitted st)).
(** The part of [LiveBenchReport] that is computed from the run. *)
(* eth2077-live-bench/src/main.rs:63-93 LiveBenchReport *)
Record LiveBenchReport := {
  lr_worker_count : Z;
  lr_tx_count_target : Z;
  lr_tx_submitted : Z;
  lr_tx_confirmed : Z;
  lr_submit_tps : f64;
  lr_confirm_window_s : f64;
  lr_confirmed_tps : f64;
  lr_p50_confirmation_ms : f64;
  lr_p95_confirmation_ms : f64;
  lr_p99_confirmation_ms : f64;
  lr_avg_confirmation_ms : f64;
  lr_blocks_spanned : Z;
  lr_sender_submitted_counts : gmap Str Z;
  lr_endpoint_submitted_counts : gmap Str Z;
  lr_send_errors_sample : list Str;
}.
(* eth2077-live-bench/src/main.rs:426-426 main *)
Definition worker_count (args : Args) (senders : list Str) : Z :=
  Z.min (Z.max (ag_workers args) 1) (Z.max (len senders) 1).
(** [entry(key).or_insert(0)] for every key of a list. *)
(* eth2077-live-bench/src/main.rs:777-795 main *)
Definition with_zeros (keys : list Str) (m : gmap Str Z) : gmap Str Z :=
  foldl (λ m key, match m !! key with Some _ => m | None => <[key := 0]> m end) m keys.
(* eth2077-live-bench/src/main.rs:641-834 main *)
Definition report (args : Args) (senders : list Str) (st : Shared) (p : Polling)
    (submit_duration_s : f64) (start_block end_block : Z) : outcome LiveBenchReport :=
  let tx_submitted := Z.of_nat (size (sh_submitted st)) in
  let latencies_ms := latencies st p in
  let tx_confirmed := len latencies_ms in
  let min_submit_s := default f64_zero (min_by f64_total_cmp (su_submit_s <$> hash_values (sh_submitted st))) in
  let max_confirm_s := default min_submit_s (max_by f64_total_cmp (hash_values (pl_confirm_at_s p))) in
  let confirm_window_s := f64_max (f64_sub max_confirm_s min_submit_s) f64_zero in
  p50 ← percentile latencies_ms (dec 50 100);
  p95 ← percentile latencies_ms (dec 95 100);
  p99 ← percentile latencies_ms (dec 99 100);
  Done {|
    lr_worker_count := worker_count args senders; lr_tx_count_target := ag_tx_count args;
    lr_tx_submitted := tx_submitted; lr_tx_confirmed := tx_confirmed;
    lr_submit_tps := if f64_lt f64_zero submit_duration_s
      then f64_div (f64_of_u64 tx_submitted) submit_duration_s else f64_zero;
    lr_confirm_window_s := confirm_window_s;
    lr_confirmed_tps := if f64_lt f64_zero confirm_window_s
      then f64_div (f64_of_u64 tx_confirmed) confirm_window_s else f64_zero;
    lr_p50_confirmation_ms := p50; lr_p95_confirmation_ms := p95; lr_p99_confirmation_ms := p99;
    lr_avg_confirmation_ms := avg latencies_ms;
    lr_blocks_spanned := u64_saturating_sub end_block start_block;
    lr_sender_submitted_counts := with_zeros senders (sh_sender_counts st);
    lr_endpoint_submitted_counts := with_zeros (ag_rpc_urls args) (sh_endpoint_counts st);
    lr_send_errors_sample := sh_send_errors st |}.
(** The transactions of the blocks after [start_block], summed over the answers that could be
    read. *)
(* eth2077-live-bench/src/main.rs:746-763 main *)
Definition chain_txs_in_spanned_blocks (answers : list (result Value Str)) : Z :=
  foldl (λ acc answer, match answer with
    | Ok v => match get "transactions" v ≫= as_array with
      | Some txs => u64_saturating_add acc (len txs)
      | None => acc
      end
    | Err _ => acc
    end) 0 answers.
End calls.

(** ** Senders *)

Section senders.
Context `{HC : HexCrate}.

Lemma hex_pairs_length n raw out :
  (length raw <= n)%nat → hex_pairs raw = Some out → length out = (length raw / 2)%nat.
Proof.
  revert raw out. induction n as [|n IH]; intros [|a [|b raw]] out Hlen; try (by intros [= <-]); cbn in Hlen; try lia.
  cbn [hex_pairs]. destruct (digit_value a), (digit_value b); try done; cbn [mbind option_bind].
  destruct (hex_pairs raw) as [out'|] eqn:Hout; [|done]. intros [= <-]. cbn [length].
  rewrite (IH raw out') by (done || lia).
  replace (S (S (length raw))) with (length raw + 1 * 2)%nat by lia. rewrite Nat.div_add by done. lia.
Qed.
Lemma parse_address_ok addr bytes : parse_address addr = Ok bytes → length bytes = 20%nat ∧ Forall is_byte bytes.
Proof.
  unfold parse_address. set (raw := default _ _). case_if_goal; [done|]. bool_to_prop.
  assert (Hlen : len raw = 40) by done. rewrite hex_decode_spec.
  repeat case_if_goal; try done. destruct (hex_pairs raw) as [out|] eqn:Hout; [|done]. intros [= <-]. split.
  - rewrite (hex_pairs_length (length raw) raw) by done. unfold len in Hlen.
    replace (length raw) with 40%nat by lia. done.
  - by eapply (hex_pairs_bytes (length raw)).
Qed.
Lemma parse_address_to_hex bytes :
  length bytes = 20%nat → Forall is_byte bytes → parse_address (address_to_hex bytes) = Ok bytes.
Proof.
  intros Hlen Hb. unfold parse_address, address_to_hex. rewrite hex_encode_spec.
  pose proof (hexdigits_hex_of_bytes bytes Hb) as Hd. rewrite trim_plain by by apply plain_0x.
  change (default _ (strip_prefix (str "0x") (str "0x" ++ hex_of_bytes bytes))) with (hex_of_bytes bytes).
  assert (Hl : len (hex_of_bytes bytes) = 40) by (unfold len; rewrite length_hex_of_bytes; lia).
  rewrite Hl, Hd. cbn [Z.eqb Pos.eqb negb orb]. rewrite hex_decode_spec, Hl, Hd.
  change (40 mod 2 =? 0) with true. cbv iota. by rewrite hex_pairs_of_bytes.
Qed.

(** the senders are derived from the base address by addition modulo 2^160: there are as
    many as were asked for, at least one, no two are equal, and each is printed as the daemon
    prints and reads an address. *)
Theorem derive_senders_exact base count :
  is_u64 count →
  match parse_address base with
  | Err e => derive_senders base count = Err e
  | Ok bytes => ∃ senders, derive_senders base count = Ok senders ∧ len senders = Z.max count 1 ∧ NoDup senders ∧
      ∀ i s, senders !! i = Some s → ∃ address,
        s = DaemonHex.address_to_hex address ∧ address_from_hex s = Some address ∧
        be_value address = (be_value bytes + Z.of_nat i) mod 2 ^ 160
  end.
Proof.
  intros Hcount. unfold derive_senders, canonical_address.
  destruct (parse_address base) as [bytes|e] eqn:Hparse; [|done]. cbn [result_bind].
  destruct (parse_address_ok _ _ Hparse) as [Hlen Hb].
  change (str "0x" ++ hex_encode bytes) with (address_to_hex bytes). rewrite parse_address_to_hex by done. cbn [result_bind].
  assert (Hadd : ∀ i, 0 <= i < Z.max count 1 → let a := add_u64_to_address bytes i in
    length a = 20%nat ∧ Forall is_byte a ∧ be_value a = (be_value bytes + i) mod 2 ^ 160).
  { intros i Hi. apply add_u64_to_address_spec; [done|done|]. unfold is_u64 in *. lia. }
  eexists. split; [reflexivity|]. split_and!.
  - unfold len. rewrite length_fmap, length_seqZ. lia.
  - apply NoDup_fmap_2_strong; [|apply NoDup_seqZ].
    intros i j Hi%elem_of_seqZ Hj%elem_of_seqZ Heq. unfold address_to_hex in Heq. apply app_inv_head in Heq.
    rewrite !hex_encode_spec in Heq.
    destruct (Hadd i ltac:(lia)) as (Hli & Hbi & Hvi), (Hadd j ltac:(lia)) as (Hlj & Hbj & Hvj).
    apply hex_of_bytes_inj in Heq; [|done..]. rewrite Heq, Hvj in Hvi.
    pose proof (be_value_range bytes Hb) as Hr. unfold len in Hr. rewrite Hlen in Hr.
    change (256 ^ Z.of_nat 20) with (2 ^ 160) in Hr. destruct Hcount as [_ Hmax].
    pose proof (Z.div_mod (be_value bytes + i) (2 ^ 160) ltac:(done)).
    pose proof (Z.div_mod (be_value bytes + j) (2 ^ 160) ltac:(done)).
    assert (u64_max < 2 ^ 160) by done. clear -H H0 H1 Hmax Hi Hj Hvi. lia.
  - intros i s Hs. rewrite list_lookup_fmap in Hs. apply fmap_Some in Hs as (k & Hk & ->).
    apply lookup_seqZ in Hk as [-> Hk]. destruct (Hadd (0 + Z.of_nat i) ltac:(lia)) as (Hl & Hbi & Hv).
    exists (add_u64_to_address bytes (0 + Z.of_nat i)). split; [done|]. split; [|rewrite Hv; f_equal; lia].
    exact (address_roundtrip _ Hl Hbi).
Qed.
End senders.

(** ** The daemon reads what the generator builds *)

Lemma hex_to_u64_be_value l : Forall is_byte l → len l <= 8 → hex_to_u64_be l = Ok (be_value l).
Proof.
  intros Hl Hlen. unfold hex_to_u64_be. case_if_goal; [bool_to_prop; lia|].
  pose proof (be_value_range l Hl) as Hr. unfold len in *.
  pose proof (pow256_le (length l) 8 ltac:(lia)) as Hp. change (256 ^ Z.of_nat 8) with (u64_max + 1) in Hp.
  rewrite fold_bytes; [|by exists 64|done|lia|unfold len; lia]. by rewrite Z.add_0_l.
Qed.
Lemma hex_to_u128_be_value l : Forall is_byte l → len l <= 16 → hex_to_u128_be l = Ok (be_value l).
Proof.
  intros Hl Hlen. unfold hex_to_u128_be. case_if_goal; [bool_to_prop; lia|].
  pose proof (be_value_range l Hl) as Hr. unfold len in *.
  pose proof (pow256_le (length l) 16 ltac:(lia)) as Hp. change (256 ^ Z.of_nat 16) with (u128_max + 1) in Hp.
  rewrite fold_bytes; [|by exists 128|done|lia|unfold len; lia]. by rewrite Z.add_0_l.
Qed.

(** What the daemon is to make of a transaction of the generator. *)
Definition load_tx (chain_id nonce : Z) (to : Address)
    (value_wei gas_limit max_priority_fee_per_gas max_fee_per_gas : Z) : DecodedRawTx := {|
  dr_tx_type := 2; dr_chain_id := Some chain_id; dr_nonce := nonce; dr_gas_limit := gas_limit;
  dr_gas_price := max_fee_per_gas; dr_max_priority_fee_per_gas := Some max_priority_fee_per_gas;
  dr_max_fee_per_blob_gas := None; dr_blob_hashes := []; dr_authorizations := [];
  dr_to := Some to; dr_value := value_wei; dr_data := [] |}.

Section accepted.
Context `{HC : HexCrate} `{RU : Ruint} `{AL : Alloy} `{RL : RlpCrate} `{RW : !RlpWriter}.
Context `{ET : EvmTypes} `{DE : !DaemonEvm} `{JT : JsonText}.

Section fields.
Variables (items : list (list Z)).
Hypothesis items_bytes : Forall (Forall is_byte) items.
Lemma rlp_u64_at i n : is_u64 n → items !! i = Some (rlp_integer n) → rlp_u64 (Rlp_new (rlp_list items)) i = Ok n.
Proof.
  intros Hn Hi. destruct (rlp_integer_u64 n Hn) as (Hb & Hlen & Hv). unfold rlp_u64.
  rewrite (rlp_list_at _ _ _ items_bytes Hi). cbn [map_err result_bind]. by rewrite hex_to_u64_be_value, Hv.
Qed.
Lemma rlp_u128_at i n : is_u64 n → items !! i = Some (rlp_integer n) → rlp_u128 (Rlp_new (rlp_list items)) i = Ok n.
Proof.
  intros Hn Hi. destruct (rlp_integer_u64 n Hn) as (Hb & Hlen & Hv). unfold rlp_u128.
  rewrite (rlp_list_at _ _ _ items_bytes Hi). cbn [map_err result_bind]. rewrite hex_to_u128_be_value, Hv; [done..|lia].
Qed.
Lemma rlp_u256_at i n :
  is_u64 n → items !! i = Some (rlp_integer n) → rlp_u256 (Rlp_new (rlp_list items)) i = Done (Ok n).
Proof.
  intros Hn Hi. destruct (rlp_integer_u64 n Hn) as (Hb & Hlen & Hv). unfold rlp_u256.
  rewrite (rlp_list_at _ _ _ items_bytes Hi). cbn [map_err pure try_bind mret mbind outcome_ret outcome_bind].
  rewrite U256_from_be_slice_spec, Hv. unfold is_u64 in Hn.
  destruct (Z.leb_spec n u256_max) as [|Hbad]; [done|lia].
Qed.
End fields.

Lemma read_quantity_hex n : is_u64 n → read_quantity (VString (hex_u64 n)) = Some n.
Proof.
  intros Hn. unfold read_quantity. cbn [as_str mbind option_bind]. unfold parse_hex_u64, hex_u64.
  destruct (lower_hex_value n) as [Hd _]; [unfold is_u64 in *; lia|].
  rewrite trim_plain by by apply plain_0x. by apply parse_hex_u64_hex.
Qed.
(** A transaction that is built is read back, field by field. *)
Lemma built_tx_decodes chain_id nonce to value gas prio fee :
  is_u64 chain_id → is_u64 nonce → is_u64 value → is_u64 gas → is_u64 prio → is_u64 fee →
  length to = 20%nat → Forall is_byte to →
  decode_raw_tx (build_type2_raw_tx chain_id nonce to value gas prio fee) =
    Done (Ok (load_tx chain_id nonce to value gas prio fee)).
Proof.
  intros Hc Hn Hv Hg Hp Hf Hlen Hto. unfold decode_raw_tx, build_type2_raw_tx, typed_tx_hex.
  set (items := [rlp_integer chain_id; _; _; _; _; _; _; _]).
  assert (Hitems : Forall (Forall is_byte) items)
    by (repeat apply Forall_cons_2; try done; try (by apply rlp_integer_u64); by apply Forall_nil_2).
  rewrite hex_encode_spec, parse_hex_of_bytes by (constructor; [by split|by apply rlp_list_bytes]).
  change (0xc0 <=? 2) with false. cbv iota. rewrite rlp_list_is_list. change (negb true) with false. cbv iota.
  change (2 =? 1) with false. change (2 =? 2) with true. cbv iota. unfold decode_eip1559.
  rewrite (rlp_u64_at items Hitems 0 chain_id), (rlp_u64_at items Hitems 1 nonce), (rlp_u128_at items Hitems 2 prio),
    (rlp_u128_at items Hitems 3 fee), (rlp_u64_at items Hitems 4 gas) by done.
  assert (Ha : rlp_optional_address (Rlp_new (rlp_list items)) 5 = Ok (Some to)).
  { unfold rlp_optional_address. rewrite (rlp_list_at items 5 to) by done. cbn [map_err result_bind].
    rewrite bool_decide_false by (by destruct to). unfold len. by rewrite Hlen. }
  assert (Hd : rlp_bytes (Rlp_new (rlp_list items)) 7 = Ok [])
    by (unfold rlp_bytes; by rewrite (rlp_list_at items 7 []) by done).
  rewrite Ha, Hd, (rlp_u256_at items Hitems 6 value) by done. reflexivity.
Qed.

(** What the daemon makes of a transaction it executes for [caller]. *)
Definition executed_for (caller : Address) (raw_tx : Str) (tx : DecodedRawTx) (st : NodeState) (id : Value)
  : NodeState * Value :=
  let hash := bytes_to_hex (keccak256 (default [] (parse_hex_bytes raw_tx))) in
  let block_number := u64_saturating_add (current_height st) 1 in
  let '(st, executed) := execute_evm_transaction st caller tx true block_number (nominal_timestamp st block_number) in
  match executed with
  | Err err => (st, jsonrpc_error id (-32000) (str "transaction rejected: " ++ err))
  | Ok o => (with_ledger (record_sent hash (DaemonHex.address_to_hex caller) tx o (ledger st)) st,
             jsonrpc_response id (VString hash))
  end.

(** Whoever asked last is the sender. *)
Lemma sent_for_hint (st : NodeState) (sender : Address) (args : Args) (to_bytes : Address) (job nonce : Z) (id : Value) :
  length sender = 20%nat → Forall is_byte sender → length to_bytes = 20%nat → Forall is_byte to_bytes →
  is_u64 (chain_id (info st)) → is_u64 nonce →
  is_u64 (ag_value_wei args) → is_u64 job → is_u64 (ag_gas_limit args) →
  is_u64 (ag_max_priority_fee_per_gas args) → is_u64 (ag_max_fee_per_gas args) →
  pending_nonce_address_hint (ledger st) = Some (DaemonHex.address_to_hex sender) →
  let raw_tx := job_tx args (chain_id (info st)) to_bytes job nonce in
  eth_sendRawTransaction st id (VArray [VString raw_tx]) = Done (executed_for sender raw_tx
    (load_tx (chain_id (info st)) nonce to_bytes (u64_saturating_add (ag_value_wei args) job)
       (ag_gas_limit args) (ag_max_priority_fee_per_gas args) (ag_max_fee_per_gas args)) st id).
Proof.
  intros Hls Hbs Hlt Hbt Hc Hn Hv Hj Hg Hp Hf Hhint. cbv zeta.
  unfold eth_sendRawTransaction, job_tx. set (value := u64_saturating_add (ag_value_wei args) job).
  assert (Hvalue : is_u64 value) by (unfold value, u64_saturating_add, is_u64 in *; lia).
  set (raw := build_type2_raw_tx _ _ _ _ _ _ _).
  change (default (str "0x") (item 0 (VArray [VString raw]) ≫= as_str)) with raw.
  pose proof (built_tx_decodes (chain_id (info st)) nonce to_bytes value (ag_gas_limit args)
    (ag_max_priority_fee_per_gas args) (ag_max_fee_per_gas args) Hc Hn Hvalue Hg Hp Hf Hlt Hbt) as Hdec.
  fold raw in Hdec. rewrite Hdec. cbn [mbind outcome_bind].
  unfold wrong_chain. cbn [dr_chain_id load_tx]. rewrite Z.eqb_refl, Hhint, address_roundtrip by done. cbn [negb].
  unfold executed_for. destruct (execute_evm_transaction _ _ _ _ _ _) as [st' [o|err]]; reflexivity.
Qed.
(** Asking for the count of a derived sender: the answer is its nonce, and it becomes the hint. *)
Lemma asked_for_count st sender id :
  length sender = 20%nat → Forall is_byte sender → is_u64 (account_nonce_from_db (evm_db (ledger st)) sender) →
  ∃ answer nonce_hex,
    eth_getTransactionCount st id (VArray [VString (address_to_hex sender); text "latest"]) =
      (with_ledger (with_hint (Some (DaemonHex.address_to_hex sender)) (ledger st)) st, answer) ∧
    rpc_result (str "eth_getTransactionCount") answer = Ok nonce_hex ∧
    read_quantity nonce_hex = Some (account_nonce_from_db (evm_db (ledger st)) sender).
Proof.
  intros Hls Hbs Hn. unfold eth_getTransactionCount.
  change (str_param 0 _) with (Some (DaemonHex.address_to_hex sender)). cbn [mbind option_bind].
  rewrite address_roundtrip, canonical_address_to_hex by done. cbn [mbind option_bind].
  eexists _, (VString (hex_u64 _)). split; [reflexivity|]. split; [reflexivity|]. by apply read_quantity_hex.
Qed.

(** C28: a job of the generator against the daemon: for a sender the generator derived, the
    answer to [eth_getTransactionCount] is read as the nonce in the database; the
    transaction built from it passes every check of [eth_sendRawTransaction] before
    execution, and exactly the transaction of the arguments is executed, for that sender. *)
Theorem load_job_accepted (st : NodeState) (sender : Address) (args : Args) (to_bytes : Address)
    (job : Z) (id1 id2 : Value) :
  length sender = 20%nat → Forall is_byte sender → length to_bytes = 20%nat → Forall is_byte to_bytes →
  is_u64 (chain_id (info st)) → is_u64 (account_nonce_from_db (evm_db (ledger st)) sender) →
  is_u64 (ag_value_wei args) → is_u64 job → is_u64 (ag_gas_limit args) →
  is_u64 (ag_max_priority_fee_per_gas args) → is_u64 (ag_max_fee_per_gas args) →
  let '(st1, answer1) := eth_getTransactionCount st id1 (VArray [VString (address_to_hex sender); text "latest"]) in
  ∃ nonce_hex nonce, rpc_result (str "eth_getTransactionCount") answer1 = Ok nonce_hex ∧
    read_quantity nonce_hex = Some nonce ∧ nonce = account_nonce_from_db (evm_db (ledger st)) sender ∧
    let raw_tx := job_tx args (chain_id (info st)) to_bytes job nonce in
    eth_sendRawTransaction st1 id2 (VArray [VString raw_tx]) =
      Done (executed_for sender raw_tx
        (load_tx (chain_id (info st)) nonce to_bytes (u64_saturating_add (ag_value_wei args) job)
          (ag_gas_limit args) (ag_max_priority_fee_per_gas args) (ag_max_fee_per_gas args)) st1 id2).
Proof.
  intros Hls Hbs Hlt Hbt Hc Hn Hv Hj Hg Hp Hf.
  destruct (asked_for_count st sender id1 Hls Hbs Hn) as (answer & nonce_hex & -> & Hanswer & Hread).
  exists nonce_hex, (account_nonce_from_db (evm_db (ledger st)) sender). split_and!; [done..|].
  by apply (sent_for_hint (with_ledger _ st)).
Qed.

(** Why a worker holds the lock of its endpoint from the count to the transaction: when a
    second sender's count is asked for in between, by another program or through another
    name of the same node, the transaction of the first is executed for the second's
    sender, with the first's nonce. *)
Theorem interleaved_jobs_swap_senders (st : NodeState) (sender1 sender2 : Address) (args : Args)
    (to_bytes : Address) (job : Z) (id1 id2 id3 : Value) :
  length sender1 = 20%nat → Forall is_byte sender1 → length sender2 = 20%nat → Forall is_byte sender2 →
  length to_bytes = 20%nat → Forall is_byte to_bytes → is_u64 (chain_id (info st)) →
  is_u64 (account_nonce_from_db (evm_db (ledger st)) sender1) →
  is_u64 (account_nonce_from_db (evm_db (ledger st)) sender2) →
  is_u64 (ag_value_wei args) → is_u64 job → is_u64 (ag_gas_limit args) →
  is_u64 (ag_max_priority_fee_per_gas args) → is_u64 (ag_max_fee_per_gas args) →
  let count sender id st := (eth_getTransactionCount st id (VArray [VString (address_to_hex sender); text "latest"])).1 in
  let st2 := count sender2 id2 (count sender1 id1 st) in
  let nonce := account_nonce_from_db (evm_db (ledger st)) sender1 in
  let raw_tx := job_tx args (chain_id (info st)) to_bytes job nonce in
  eth_sendRawTransaction st2 id3 (VArray [VString raw_tx]) =
    Done (executed_for sender2 raw_tx
      (load_tx (chain_id (info st)) nonce to_bytes (u64_saturating_add (ag_value_wei args) job)
        (ag_gas_limit args) (ag_max_priority_fee_per_gas args) (ag_max_fee_per_gas args)) st2 id3).
Proof.
  intros Hl1 Hb1 Hl2 Hb2 Hlt Hbt Hc Hn1 Hn2 Hv Hj Hg Hp Hf. cbv zeta.
  destruct (asked_for_count st sender1 id1 Hl1 Hb1 Hn1) as (a1 & h1 & -> & _). cbn [fst].
  set (st1 := with_ledger _ st).
  destruct (asked_for_count st1 sender2 id2 Hl2 Hb2 Hn2) as (a2 & h2 & -> & _). cbn [fst].
  by apply (sent_for_hint (with_ledger _ st1)).
Qed.
End accepted.

(** ** What the workers count *)

Definition total (m : gmap Str Z) : Z := map_fold (λ _ v acc, v + acc) 0 m.
Lemma total_insert key n m : m !! key = None → total (<[key := n]> m) = n + total m.
Proof. intros Hm. unfold total. rewrite map_fold_insert_L; [done|intros; lia|done]. Qed.
Lemma total_count_up key m : total (count_up key m) = total m + 1.
Proof.
  unfold count_up. destruct (m !! key) as [n|] eqn:Hm.
  - change (default 0 (Some n)) with n. rewrite <- (insert_delete_id m key n) at 2 by done. rewrite <- insert_delete_eq.
    rewrite !total_insert by apply lookup_delete_eq. lia.
  - change (default 0 None) with 0. rewrite total_insert by done. lia.
Qed.

Section jobs.
Context `{HC : HexCrate} `{RL : RlpCrate} `{RW : !RlpWriter} `{JT : JsonText} `{JP : JsonParse}.
Variables (args : Args) (chain_id : Z) (to_bytes : Address).
Hypothesis tx_count_u64 : is_u64 (ag_tx_count args).

(** What becomes of the job number [i]: the hash under which its transaction was accepted, or
    why it failed.  It is submitted when the count is a quantity and the node answers the
    transaction with that nonce by a text. *)
Definition job_result (i : Z) (j : Job) : result Str Str :=
  let w := jb_worker j in
  let fails (what detail : Str) := Err (worker_text w ++ what ++ at_endpoint w ++ str ": " ++ detail) in
  match jb_nonce_answer j with
  | Err e => fails (str " nonce lookup failed") e
  | Ok v =>
      match read_quantity v with
      | None => fails (str " invalid nonce") (display v)
      | Some nonce =>
          match jb_send_answer j (job_tx args chain_id to_bytes i nonce) with
          | Err e => fails (str " send failed") e
          | Ok (VString hash) => Ok hash
          | Ok v => fails (str " invalid send result") (display v)
          end
      end
  end.
(** The jobs that are attempted, in order, with their results; those submitted; the failures. *)
Definition attempts (jobs : list Job) : list (Job * result Str Str) :=
  imap (λ i j, (j, job_result (Z.of_nat i) j)) (take (Z.to_nat (ag_tx_count args)) jobs).
Definition submissions (jobs : list Job) : list (Job * Str) :=
  omap (λ '(j, r), match r with Ok hash => Some (j, hash) | Err _ => None end) (attempts jobs).
Definition failures (jobs : list Job) : list Str :=
  omap (λ '(_, r), match r with Ok _ => None | Err message => Some message end) (attempts jobs).
Definition credited (name : Worker → Str) (who : Str) (sent : list (Job * Str)) : Z :=
  len (filter (λ s, name (jb_worker s.1) = who) sent).

Lemma attempts_snoc jobs j :
  attempts (jobs ++ [j]) = attempts jobs ++ (if len jobs <? ag_tx_count args then [(j, job_result (len jobs) j)] else []).
Proof.
  unfold attempts, len, is_u64 in *. rewrite firstn_app, imap_app. f_equal. destruct (Z.ltb_spec (Z.of_nat (length jobs)) (ag_tx_count args)).
  - rewrite length_take_ge by lia. destruct (Z.to_nat (ag_tx_count args) - length jobs)%nat as [|n] eqn:Hn; [lia|].
    cbn [take imap]. rewrite take_nil. cbn. unfold compose. by rewrite Nat.add_0_r.
  - replace (Z.to_nat (ag_tx_count args) - length jobs)%nat with 0%nat by lia. done.
Qed.
Lemma attempts_length jobs : len (attempts jobs) = Z.min (len jobs) (ag_tx_count args).
Proof. unfold attempts, len, is_u64 in *. rewrite length_imap, length_take. lia. Qed.
Lemma split_attempts jobs : len (submissions jobs) + len (failures jobs) = Z.min (len jobs) (ag_tx_count args).
Proof.
  rewrite <- attempts_length. unfold submissions, failures, len. induction (attempts jobs) as [|[j [hash|e]] l IH]; cbn in *; lia.
Qed.

(** The shared state after some jobs. *)
Record accounted (jobs : list Job) (st : Shared) : Prop := {
  ac_next : sh_next_job st = len jobs;
  ac_submitted : sh_submitted st = list_to_map (reverse ((λ '(j, hash),
    (hash, {| su_submit_s := jb_submit_s j; su_endpoint_idx := wk_endpoint_idx (jb_worker j) |})) <$> submissions jobs));
  ac_errors : sh_send_errors st = take 20 (failures jobs);
  ac_senders who : default 0 (sh_sender_counts st !! who) = credited wk_sender_addr who (submissions jobs);
  ac_endpoints who : default 0 (sh_endpoint_counts st !! who) = credited wk_endpoint who (submissions jobs);
  ac_totals : total (sh_sender_counts st) = len (submissions jobs) ∧ total (sh_endpoint_counts st) = len (submissions jobs);
}.
Lemma no_jobs_accounted : accounted [] no_jobs.
Proof.
  assert (Hnil : attempts [] = []) by (unfold attempts; by rewrite take_nil).
  split; try intros who; unfold submissions, failures; rewrite ?Hnil; done.
Qed.
Lemma worker_job_result j st :
  is_u64 (sh_next_job st) → sh_next_job st < u64_max →
  (worker_job args chain_id to_bytes (jb_worker j) (jb_nonce_answer j) (jb_send_answer j) (jb_submit_s j) st).1 =
  let st' := MkShared (sh_next_job st + 1) (sh_submitted st) (sh_send_errors st) (sh_sender_counts st) (sh_endpoint_counts st) in
  if ag_tx_count args <=? sh_next_job st then st' else
  match job_result (sh_next_job st) j with
  | Ok hash => record_submitted (jb_worker j) hash (jb_submit_s j) st'
  | Err message => push_error message st'
  end.
Proof.
  intros Hr Hn. unfold worker_job, job_result, u64_wrapping_add, is_u64 in *. rewrite Z.mod_small by lia. cbv zeta.
  destruct (_ <=? _); [done|]. destruct (jb_nonce_answer j) as [v|e]; [|done].
  destruct (read_quantity v) as [nonce|]; [|done]. destruct (jb_send_answer j _) as [r|e]; [|done]. by destruct r.
Qed.
Lemma credited_snoc name who sent j hash :
  credited name who (sent ++ [(j, hash)]) = credited name who sent + (if decide (name (jb_worker j) = who) then 1 else 0).
Proof. unfold credited, len. rewrite filter_app, length_app, filter_cons, filter_nil. cbn [fst]. case_decide; cbn [length]; lia. Qed.
Lemma count_up_lookup key who m :
  default 0 (count_up key m !! who) = default 0 (m !! who) + (if decide (key = who) then 1 else 0).
Proof.
  unfold count_up. case_decide as Hk; [subst; by rewrite lookup_insert_eq|]. rewrite lookup_insert_ne by done. lia.
Qed.
Lemma submissions_snoc jobs j :
  submissions (jobs ++ [j]) = submissions jobs ++
    (if len jobs <? ag_tx_count args then match job_result (len jobs) j with Ok hash => [(j, hash)] | Err _ => [] end else []).
Proof. unfold submissions. rewrite attempts_snoc, omap_app. f_equal. case_if_goal; [|done]. cbn. by destruct (job_result _ _). Qed.
Lemma failures_snoc jobs j :
  failures (jobs ++ [j]) = failures jobs ++
    (if len jobs <? ag_tx_count args then match job_result (len jobs) j with Ok _ => [] | Err message => [message] end else []).
Proof. unfold failures. rewrite attempts_snoc, omap_app. f_equal. case_if_goal; [|done]. cbn. by destruct (job_result _ _). Qed.
Lemma take_snoc (l : list Str) x : take 20 (l ++ [x]) = if len (take 20 l) <? 20 then take 20 l ++ [x] else take 20 l.
Proof.
  unfold len. rewrite firstn_app, length_take. destruct (Z.ltb_spec (Z.of_nat (20 `min` length l)) 20).
  - f_equal. destruct (20 - length l)%nat eqn:Hn; [lia|]. cbn [take]. by rewrite take_nil.
  - replace (20 - length l)%nat with 0%nat by lia. apply app_nil_r.
Qed.
Lemma worker_job_accounted jobs j st :
  len jobs < u64_max → accounted jobs st →
  accounted (jobs ++ [j])
    (worker_job args chain_id to_bytes (jb_worker j) (jb_nonce_answer j) (jb_send_answer j) (jb_submit_s j) st).1.
Proof.
  intros Hlen [Hnext Hsub Herr Hs He [Hts Hte]]. assert (Hl : len (jobs ++ [j]) = len jobs + 1) by (unfold len; rewrite length_app; cbn; lia).
  rewrite worker_job_result by (rewrite Hnext; unfold is_u64, len in *; lia). rewrite Hnext. cbv zeta.
  pose proof (submissions_snoc jobs j) as Hss. pose proof (failures_snoc jobs j) as Hfs.
  rewrite Z.leb_antisym. destruct (len jobs <? ag_tx_count args); cbn [negb].
  2: { rewrite app_nil_r in Hss, Hfs. split; cbn; by rewrite ?Hss, ?Hfs, ?Hl. }
  destruct (job_result (len jobs) j) as [hash|message]; rewrite app_nil_r in Hss || rewrite app_nil_r in Hfs; split; cbn;
    rewrite ?Hss, ?Hfs, ?Hl; try done.
  - rewrite Hsub, fmap_app, reverse_app. done.
  - intros who. by rewrite count_up_lookup, Hs, credited_snoc.
  - intros who. by rewrite count_up_lookup, He, credited_snoc.
  - rewrite !total_count_up, Hts, Hte. unfold len. rewrite length_app. cbn [length]. lia.
  - by rewrite Herr, take_snoc.
Qed.

End jobs.

(** ** What is reported *)

Section reported.
Context `{HO : HashOrder}.

Lemma percentile_member values q : ∃ x, percentile values q = Done x ∧ (values ≠ [] → x ∈ values).
Proof.
  unfold percentile. case_bool_decide as Hne; [by eexists|].
  pose proof (sort_by_perm f64_total_cmp values) as Hp. set (sorted := sort_by _ _) in *.
  destruct (sorted !! _) as [x|] eqn:Hx.
  - exists x. split; [done|]. intros _. rewrite <- Hp. by eapply list_elem_of_lookup_2.
  - apply lookup_ge_None in Hx. destruct sorted as [|y l]; [by apply Permutation_nil in Hp|].
    unfold u64_saturating_sub, len in Hx. cbn [length] in Hx. lia.
Qed.
Lemma size_disjoint_union (X Y : gset Str) : X ## Y → size (X ∪ Y) = (size X + size Y)%nat.
Proof. apply size_union. Qed.
(** As many latencies as submitted transactions that were confirmed. *)
Lemma omap_confirmed_length {A B C} (f : A → B → C) (sub : gmap Str A) (conf : gmap Str B) :
  length (omap (λ '(hash, a), b ← conf !! hash; Some (f a b)) (hash_iter sub)) = size (dom sub ∩ dom conf).
Proof.
  rewrite (hash_iter_perm sub). induction sub as [|hash a sub Hnone IH] using map_ind.
  { rewrite map_to_list_empty, dom_empty_L, intersection_empty_l_L, size_empty. done. }
  rewrite map_to_list_insert, dom_insert_L by done. cbn [omap list_omap].
  destruct (conf !! hash) as [b|] eqn:Hb; cbn [mbind option_bind length]; rewrite IH.
  - replace (({[hash]} ∪ dom sub) ∩ dom conf) with ({[hash]} ∪ (dom sub ∩ dom conf))
      by (apply elem_of_dom_2 in Hb; set_solver).
    rewrite size_disjoint_union, (size_singleton (C := gset Str)); [done|]. apply not_elem_of_dom in Hnone. set_solver.
  - f_equal. apply not_elem_of_dom in Hb. set_solver.
Qed.
Lemma total_with_zeros keys m :
  total (with_zeros keys m) = total m ∧ dom (with_zeros keys m) = dom m ∪ list_to_set keys.
Proof.
  unfold with_zeros. revert m. induction keys as [|key keys IH]; intros m; cbn [foldl list_to_set]; [split; [done|set_solver]|].
  destruct (m !! key) as [n|] eqn:Hm.
  - destruct (IH m) as [-> ->]. split; [done|]. apply elem_of_dom_2 in Hm. set_solver.
  - destruct (IH (<[key := 0]> m)) as [-> ->]. split; [by rewrite total_insert|]. rewrite dom_insert_L. set_solver.
Qed.

(** The transactions still waited for are those submitted and not confirmed. *)
Lemma poll_receipts_pending st answers :
  let p := poll_receipts st answers in pl_pending p = dom (sh_submitted st) ∖ dom (pl_confirm_at_s p).
Proof.
  cbv zeta. unfold poll_receipts. set (p := MkPolling _ _).
  assert (Hp : pl_pending p = dom (sh_submitted st) ∖ dom (pl_confirm_at_s p)) by (cbn; set_solver).
  clearbody p. revert p Hp.
  induction answers as [|[a now] answers IH]; intros p Hp; cbn [foldl]; [done|].
  apply IH. unfold poll_receipt. cbn [fst snd]. repeat case_match; try done;
    (cbn [pl_pending pl_confirm_at_s]; rewrite dom_insert_L, Hp; set_solver).
Qed.

(** the report is always produced: no percentile is out of range, each is one of the
    latencies; confirmed and still pending transactions are the submitted ones; the counts
    name every sender and endpoint and sum to what the workers counted. *)
Theorem report_accounts (args : Args) (senders : list Str) (st : Shared)
    (answers : list (result Value Str * f64)) (duration : f64) (start_block end_block : Z) :
  let p := poll_receipts st answers in
  ∃ r, report args senders st p duration start_block end_block = Done r ∧
    lr_tx_confirmed r + Z.of_nat (size (pl_pending p)) = lr_tx_submitted r ∧
    (latencies st p ≠ [] → lr_p50_confirmation_ms r ∈ latencies st p ∧
       lr_p95_confirmation_ms r ∈ latencies st p ∧ lr_p99_confirmation_ms r ∈ latencies st p) ∧
    total (lr_sender_submitted_counts r) = total (sh_sender_counts st) ∧
    total (lr_endpoint_submitted_counts r) = total (sh_endpoint_counts st) ∧
    list_to_set senders ⊆ dom (lr_sender_submitted_counts r) ∧
    list_to_set (ag_rpc_urls args) ⊆ dom (lr_endpoint_submitted_counts r).
Proof.
  cbv zeta. pose proof (poll_receipts_pending st answers) as Hpend. set (p := poll_receipts st answers) in *.
  cbv zeta in Hpend. unfold report.
  destruct (percentile_member (latencies st p) (dec 50 100)) as (p50 & -> & H50).
  destruct (percentile_member (latencies st p) (dec 95 100)) as (p95 & -> & H95).
  destruct (percentile_member (latencies st p) (dec 99 100)) as (p99 & -> & H99).
  cbn [mbind outcome_bind]. eexists. split; [reflexivity|].
  cbn [lr_tx_confirmed lr_tx_submitted lr_p50_confirmation_ms lr_p95_confirmation_ms lr_p99_confirmation_ms
    lr_sender_submitted_counts lr_endpoint_submitted_counts].
  destruct (total_with_zeros senders (sh_sender_counts st)) as [-> ->].
  destruct (total_with_zeros (ag_rpc_urls args) (sh_endpoint_counts st)) as [-> ->].
  split_and!; [|auto|done|done|set_solver|set_solver].
  rewrite Hpend. unfold len, latencies.
  rewrite (omap_confirmed_length (λ tx c, f64_mul (f64_sub c (su_submit_s tx)) (int 1000))).
  rewrite <- Nat2Z.inj_add, <- size_disjoint_union by set_solver. rewrite <- (size_dom (sh_submitted st)).
  do 2 f_equal. apply set_eq. intros k. rewrite elem_of_union, elem_of_intersection, elem_of_difference.
  destruct (decide (k ∈ dom (pl_confirm_at_s p))); tauto.
Qed.
End reported.

(** ** Concrete runs *)

(** A reader and writer of lists for the examples: every byte is preceded by a one, every
    item followed by a zero. *)
Definition example_item (item : list Z) : list Z := (b ← item; [1; b]) ++ [0].
Fixpoint example_items (item bytes : list Z) : list (list Z) :=
  match bytes with
  | [] => []
  | x :: bytes =>
      if x =? 1 then match bytes with b :: bytes => example_items (item ++ [b]) bytes | [] => [] end
      else item :: example_items [] bytes
  end.
Lemma example_items_item item pre rest :
  example_items pre (example_item item ++ rest) = (pre ++ item) :: example_items [] rest.
Proof.
  unfold example_item. revert pre. induction item as [|b item IH]; intros pre; [by rewrite app_nil_r|].
  transitivity (example_items (pre ++ [b]) (((b ← item; [1; b]) ++ [0]) ++ rest)); [reflexivity|].
  rewrite (IH (pre ++ [b])). by rewrite <- app_assoc.
Qed.
Lemma example_items_list items : example_items [] (concat (example_item <$> items)) = items.
Proof.
  induction items as [|item items IH]; [done|].
  change (concat (example_item <$> item :: items)) with (example_item item ++ concat (example_item <$> items)).
  by rewrite example_items_item, IH.
Qed.
Definition example_val_at (r : list (list Z)) (i : nat) : result (list Z) Str :=
  match r !! i with Some raw => if bool_decide (Forall is_byte raw) then Ok raw else Err [] | None => Err [] end.
Lemma example_val_at_bytes r i raw : example_val_at r i = Ok raw → Forall is_byte raw.
Proof. unfold example_val_at. case_match; [|done]. case_bool_decide; [|done]. by intros [= <-]. Qed.
#[local] Instance example_reader : RlpCrate := {|
  Rlp := list (list Z); Rlp_new := example_items []; Rlp_is_list _ := true; Rlp_at _ _ := Err [];
  Rlp_val_at := example_val_at; Rlp_item_count r := Ok (length r); Rlp_val_at_bytes := example_val_at_bytes |}.
Lemma example_list_bytes items : Forall (Forall is_byte) items → Forall is_byte (concat (example_item <$> items)).
Proof.
  induction 1 as [|item items Hitem _ IH]; [constructor|].
  change (concat (example_item <$> item :: items)) with (example_item item ++ concat (example_item <$> items)).
  apply Forall_app; split; [|done]. unfold example_item. apply Forall_app; split; [|by repeat constructor].
  clear IH. induction Hitem as [|b l Hb _ IH]; [constructor|]. constructor; [by split|]. constructor; [done|exact IH].
Qed.
Lemma example_list_at items i raw : Forall (Forall is_byte) items → items !! i = Some raw →
  example_val_at (example_items [] (concat (example_item <$> items))) i = Ok raw.
Proof.
  intros Hitems Hi. unfold example_val_at. rewrite example_items_list, Hi.
  rewrite bool_decide_true; [done|]. by eapply Forall_lookup_1 in Hitems.
Qed.
Fixpoint without_leading_zeros (l : list Z) : list Z :=
  match l with b :: l' => if b =? 0 then without_leading_zeros l' else l | [] => [] end.
Lemma without_leading_zeros_spec l :
  Forall is_byte l → Forall is_byte (without_leading_zeros l) ∧
  len (without_leading_zeros l) <= len l ∧ be_value (without_leading_zeros l) = be_value l.
Proof.
  induction 1 as [|b l Hb Hl IH]; [done|]. cbn [without_leading_zeros]. destruct (Z.eqb_spec b 0) as [->|].
  - rewrite be_value_cons. destruct IH as (? & ? & ->). unfold len in *. cbn [length]. split_and!; [done|lia|lia].
  - split_and!; [by constructor|lia|done].
Qed.
Lemma example_integer n : is_u64 n →
  let bytes := without_leading_zeros (to_be_bytes 8 n) in Forall is_byte bytes ∧ len bytes <= 8 ∧ be_value bytes = n.
Proof.
  intros [Hlo Hhi]. destruct (without_leading_zeros_spec (to_be_bytes 8 n) (to_be_bytes_range 8 n)) as (Hb & Hlen & Hv).
  cbv zeta. split; [done|]. unfold len in *. rewrite length_to_be_bytes in Hlen. split; [lia|].
  rewrite Hv. apply be_value_to_be_bytes. change (256 ^ Z.of_nat 8) with (u64_max + 1). lia.
Qed.
#[local] Instance example_writer : RlpWriter := {|
  rlp_list items := concat (example_item <$> items); rlp_integer n := without_leading_zeros (to_be_bytes 8 n);
  rlp_list_is_list _ := eq_refl; rlp_list_bytes := example_list_bytes; rlp_list_at := example_list_at;
  rlp_integer_u64 := example_integer |}.

#[local] Existing Instance example_hex_crate.
#[local] Existing Instance example_ruint.
#[local] Existing Instance example_alloy.
#[local] Existing Instance example_evm_types.
#[local] Existing Instance example_daemon_evm.
#[local] Existing Instance map_to_list_order.
#[local] Instance no_text : JsonText := λ _, Ok [].
#[local] Instance no_parser : JsonParse := λ _, None.

Definition example_args : Args := Args_default_with_timestamp 0.
Definition sender1 : Address := replicate 20 1.
Definition sender2 : Address := replicate 20 2.
Definition example_node : NodeState := example_state (<[sender1 := (1000, 7)]> (<[sender2 := (1000, 7)]> (∅ : gmap Address (Z * Z)))).
Definition asked (sender : Address) (st : NodeState) : NodeState :=
  (eth_getTransactionCount st VNull (VArray [VString (address_to_hex sender); text "latest"])).1.
Definition nonces (r : outcome (NodeState * Value)) : option (Z * Z) :=
  match r with
  | Done (st, _) => Some (account_nonce_from_db (evm_db (ledger st)) sender1, account_nonce_from_db (evm_db (ledger st)) sender2)
  | Panics => None
  end.
Definition send_job (st : NodeState) : outcome (NodeState * Value) :=
  eth_sendRawTransaction st VNull (VArray [VString (job_tx example_args (chain_id (info st)) (replicate 20 9) 5 7)]).

Lemma derive_senders_exact_witness :
  ∃ senders, derive_senders (str "0xfffffffffffffffffffffffffffffffffffffffe") 3 = Ok senders ∧ len senders = 3 ∧
    senders !! 2%nat = Some (str "0x0000000000000000000000000000000000000000").
Proof.
  pose proof (derive_senders_exact (str "0xfffffffffffffffffffffffffffffffffffffffe") 3 ltac:(split; discriminate)) as H.
  assert (Hp : ∃ bytes, parse_address (str "0xfffffffffffffffffffffffffffffffffffffffe") = Ok bytes)
    by (eexists; vm_compute; reflexivity).
  destruct Hp as [bytes Hp]. rewrite Hp in H. destruct H as (senders & Heq & Hlen & _).
  exists senders. split; [exact Heq|]. split; [exact Hlen|]. vm_compute in Heq. injection Heq as <-. reflexivity.
Defined.
Lemma load_job_accepted_witness : nonces (send_job (asked sender1 example_node)) = Some (8, 7).
Proof.
  pose proof (load_job_accepted example_node sender1 example_args (replicate 20 9) 5 VNull VNull eq_refl
    ltac:(apply (bool_decide_unpack _); exact I) eq_refl ltac:(apply (bool_decide_unpack _); exact I)
    ltac:(split; discriminate) ltac:(split; discriminate) ltac:(split; discriminate) ltac:(split; discriminate)
    ltac:(split; discriminate) ltac:(split; discriminate) ltac:(split; discriminate)) as H.
  destruct (eth_getTransactionCount _ _ _) as [st1 answer1] eqn:Hask.
  destruct H as (nonce_hex & nonce & _ & _ & Hnonce & Hsent).
  assert (Hst : asked sender1 example_node = st1) by (unfold asked; rewrite Hask; reflexivity).
  assert (H7 : nonce = 7) by (rewrite Hnonce; vm_compute; reflexivity).
  assert (Hc : chain_id (info st1) = chain_id (info example_node)) by (rewrite <- Hst; reflexivity).
  unfold send_job. rewrite Hst, Hc. rewrite H7 in Hsent. cbv zeta in Hsent. rewrite Hsent, <- Hst. vm_compute. reflexivity.
Defined.
Lemma interleaved_jobs_swap_senders_witness :
  nonces (send_job (asked sender2 (asked sender1 example_node))) = Some (7, 8).
Proof.
  pose proof (interleaved_jobs_swap_senders example_node sender1 sender2 example_args (replicate 20 9) 5 VNull VNull VNull
    eq_refl ltac:(apply (bool_decide_unpack _); exact I) eq_refl ltac:(apply (bool_decide_unpack _); exact I)
    eq_refl ltac:(apply (bool_decide_unpack _); exact I)
    ltac:(split; discriminate) ltac:(split; discriminate) ltac:(split; discriminate) ltac:(split; discriminate)
    ltac:(split; discriminate) ltac:(split; discriminate) ltac:(split; discriminate) ltac:(split; discriminate)) as H.
  cbv zeta in H. unfold send_job.
  change (chain_id (info (asked sender2 (asked sender1 example_node)))) with (chain_id (info example_node)).
  change 7 with (account_nonce_from_db (evm_db (ledger example_node)) sender1) at 1.
  unfold asked at 1 2. rewrite H. vm_compute. reflexivity.
Defined.
