(* ===== verification/Genesis.v ===== *)
(** * The genesis builder ([eth2077-types/src/genesis_builder.rs])

    Validation of the genesis configuration, the commitment to it, and the statistics and
    the artifact hash of the allocations.  Metadata is a [HashMap], walked in the order of
    the class [HashOrder]; strings are sorted with [sort_unstable]. *)
From S2P Require Import Prelude Validation Strings Metadata.
Local Open Scope Z_scope.

(** ** Data *)

(* eth2077-types/src/genesis_builder.rs:19-19 MIN_SEED_LEN *)
Definition MIN_SEED_LEN : Z := 8.
(* eth2077-types/src/genesis_builder.rs:17-17 CONFIG_DOMAIN *)
Definition CONFIG_DOMAIN : Str := str "eth2077-genesis-builder-config-v1".
(* eth2077-types/src/genesis_builder.rs:18-18 ARTIFACT_DOMAIN *)
Definition ARTIFACT_DOMAIN : Str := str "eth2077-genesis-builder-artifact-v1".
(* eth2077-types/src/genesis_builder.rs:23-30 AllocationKind *)
Inductive AllocationKind := ValidatorDeposit | Faucet | Treasury | Bridge | PreMine | ContractAllocation.
#[export] Instance AllocationKind_eq_dec : EqDecision AllocationKind.
Proof. solve_decision. Defined.
(* eth2077-types/src/genesis_builder.rs:34-41 SigningScheme *)
Inductive SigningScheme := Bls12381 | Ed25519 | Secp256k1 | MultiSig | Threshold | Aggregate.
(* eth2077-types/src/genesis_builder.rs:56-63 ArtifactFormat *)
Inductive ArtifactFormat := Ssz | JsonFormat | Rlp | Binary | HexEncoded | CompressedSsz.
(* eth2077-types/src/genesis_builder.rs:71-77 GenesisAllocation *)
Record GenesisAllocation := {
  ga_address : Str;
  ga_kind : AllocationKind;
  ga_amount_gwei : Z;
  ga_is_validator : bool;
  ga_metadata : gmap Str Str;
}.
(* eth2077-types/src/genesis_builder.rs:84-93 GenesisBuilderConfig *)
Record GenesisBuilderConfig := {
  gb_chain_id : Z;
  gb_genesis_time : Z;
  gb_validator_count : Z;
  gb_signing_scheme : SigningScheme;
  gb_artifact_format : ArtifactFormat;
  gb_deterministic_seed : Str;
  gb_min_deposit_gwei : Z;
  gb_metadata : gmap Str Str;
}.
(* eth2077-types/src/genesis_builder.rs:97-100 GenesisBuilderValidationError *)
Record GenesisBuilderValidationError := { ge_field : Str; ge_reason : Str }.
(* eth2077-types/src/genesis_builder.rs:104-111 GenesisBuilderStats *)
Record GenesisBuilderStats := {
  gs_total_allocations : Z;
  gs_validator_deposits : Z;
  gs_total_gwei : Z;
  gs_unique_addresses : Z;
  gs_signing_complete : bool;
  gs_artifact_hash : Str;
}.

(* eth2077-types/src/genesis_builder.rs:114-137 default_genesis_builder_config *)
Definition default_genesis_builder_config : GenesisBuilderConfig :=
  {| gb_chain_id := 2077;
     gb_genesis_time := 1893456000;
     gb_validator_count := 64;
     gb_signing_scheme := Aggregate;
     gb_artifact_format := Ssz;
     gb_deterministic_seed := str "eth2077-default-seed";
     gb_min_deposit_gwei := 32000000000;
     gb_metadata :=
       <[str "aggregate.domain" := str "eth2077-genesis"]>
       (<[str "artifact_version" := str "v1"]>
       (<[str "release_channel" := str "testnet"]>
       (<[str "phase" := str "Configure"]> ∅))) |}.
(* eth2077-types/src/genesis_builder.rs:268-273 validation_error *)
Definition validation_error (field reason : Str) : GenesisBuilderValidationError :=
  {| ge_field := field; ge_reason := reason |}.
(* eth2077-types/src/genesis_builder.rs:497-503 digest_to_lower_hex *)
Definition digest_to_lower_hex (digest : list Z) : Str := hex_of_bytes digest.
(* eth2077-types/src/genesis_builder.rs:505-514 signing_scheme_discriminant *)
Definition signing_scheme_discriminant (scheme : SigningScheme) : Z :=
  match scheme with
  | Bls12381 => 1 | Ed25519 => 2 | Secp256k1 => 3 | MultiSig => 4 | Threshold => 5 | Aggregate => 6
  end.
(* eth2077-types/src/genesis_builder.rs:516-525 artifact_format_discriminant *)
Definition artifact_format_discriminant (format : ArtifactFormat) : Z :=
  match format with
  | Ssz => 1 | JsonFormat => 2 | Rlp => 3 | Binary => 4 | HexEncoded => 5 | CompressedSsz => 6
  end.
(* eth2077-types/src/genesis_builder.rs:527-536 allocation_kind_name *)
Definition allocation_kind_name (kind : AllocationKind) : Str :=
  match kind with
  | ValidatorDeposit => str "validator_deposit"
  | Faucet => str "faucet"
  | Treasury => str "treasury"
  | Bridge => str "bridge"
  | PreMine => str "premine"
  | ContractAllocation => str "contract"
  end.

(** ** Validation of the configuration *)

Abbreviation Errors := (list GenesisBuilderValidationError) (only parsing).

(** The errors pushed and the value, if it was there and a number. *)
(* eth2077-types/src/genesis_builder.rs:394-415 parse_required_usize *)
Definition parse_required_usize (metadata : gmap Str Str) (key missing_reason : Str) : Errors * option Z :=
  match metadata !! key with
  | None => ([validation_error (str "metadata." ++ key) missing_reason], None)
  | Some value =>
      match parse_decimal u64_max value with
      | Some parsed => ([], Some parsed)
      | None => ([validation_error (str "metadata." ++ key) (str "must be an unsigned integer")], None)
      end
  end.
(* eth2077-types/src/genesis_builder.rs:417-426 require_metadata_key *)
Definition require_metadata_key (metadata : gmap Str Str) (key reason : Str) : Errors :=
  match metadata !! key with Some _ => [] | None => [validation_error (str "metadata." ++ key) reason] end.
(* eth2077-types/src/genesis_builder.rs:292-329 validate_multisig_metadata *)
Definition validate_multisig_metadata (metadata : gmap Str Str) : Errors :=
  let '(e1, participants) :=
    parse_required_usize metadata (str "multisig.participants") (str "must be present for MultiSig") in
  let '(e2, threshold) :=
    parse_required_usize metadata (str "multisig.threshold") (str "must be present for MultiSig") in
  e1 ++ e2 ++
  match participants, threshold with
  | Some participants, Some threshold =>
      push_if (participants =? 0)
        (validation_error (str "metadata.multisig.participants") (str "must be greater than zero")) ++
      push_if (threshold =? 0)
        (validation_error (str "metadata.multisig.threshold") (str "must be greater than zero")) ++
      push_if (participants <? threshold)
        (validation_error (str "metadata.multisig.threshold")
           (str "must be less than or equal to multisig.participants"))
  | _, _ => []
  end.
(* eth2077-types/src/genesis_builder.rs:331-368 validate_threshold_metadata *)
Definition validate_threshold_metadata (metadata : gmap Str Str) : Errors :=
  let '(e1, shares) :=
    parse_required_usize metadata (str "threshold.total_shares") (str "must be present for Threshold") in
  let '(e2, quorum) :=
    parse_required_usize metadata (str "threshold.quorum") (str "must be present for Threshold") in
  e1 ++ e2 ++
  match shares, quorum with
  | Some shares, Some quorum =>
      push_if (shares =? 0)
        (validation_error (str "metadata.threshold.total_shares") (str "must be greater than zero")) ++
      push_if (quorum =? 0)
        (validation_error (str "metadata.threshold.quorum") (str "must be greater than zero")) ++
      push_if (shares <? quorum)
        (validation_error (str "metadata.threshold.quorum")
           (str "must be less than or equal to threshold.total_shares"))
  | _, _ => []
  end.
(* eth2077-types/src/genesis_builder.rs:275-290 validate_signing_metadata *)
Definition validate_signing_metadata (config : GenesisBuilderConfig) : Errors :=
  match gb_signing_scheme config with
  | Bls12381 | Ed25519 | Secp256k1 => []
  | MultiSig => validate_multisig_metadata (gb_metadata config)
  | Threshold => validate_threshold_metadata (gb_metadata config)
  | Aggregate =>
      require_metadata_key (gb_metadata config) (str "aggregate.domain") (str "must be present for Aggregate")
  end.
(* eth2077-types/src/genesis_builder.rs:370-392 validate_artifact_metadata *)
Definition validate_artifact_metadata (config : GenesisBuilderConfig) : Errors :=
  match gb_artifact_format config with
  | CompressedSsz =>
      require_metadata_key (gb_metadata config) (str "compression.codec")
        (str "must be present when artifact_format is CompressedSsz")
  | HexEncoded =>
      require_metadata_key (gb_metadata config) (str "hex.case")
        (str "must be present when artifact_format is HexEncoded")
  | _ => []
  end.
(* eth2077-types/src/genesis_builder.rs:188-195 validate_genesis_builder_config *)
Definition metadata_errors `{HashOrder} (metadata : gmap Str Str) : Errors :=
  hash_iter metadata ≫= λ '(key, value),
    push_if (bool_decide (trim key = [])) (validation_error (str "metadata") (str "contains an empty key")) ++
    push_if (bool_decide (trim value = [])) (validation_error (str "metadata") (str "contains an empty value")).
(* eth2077-types/src/genesis_builder.rs:143-205 validate_genesis_builder_config *)
Definition validate_genesis_builder_config `{HashOrder} (config : GenesisBuilderConfig) : result unit Errors :=
  errors_to_result (
    push_if (gb_chain_id config =? 0) (validation_error (str "chain_id") (str "must be greater than zero")) ++
    push_if (gb_genesis_time config =? 0)
      (validation_error (str "genesis_time") (str "must be greater than zero")) ++
    push_if (gb_validator_count config =? 0)
      (validation_error (str "validator_count") (str "must be greater than zero")) ++
    (if bool_decide (trim (gb_deterministic_seed config) = [])
     then [validation_error (str "deterministic_seed") (str "must not be empty or whitespace")]
     else push_if (len (gb_deterministic_seed config) <? MIN_SEED_LEN)
            (validation_error (str "deterministic_seed") (str "must contain at least 8 characters"))) ++
    (if gb_min_deposit_gwei config =? 0
     then [validation_error (str "min_deposit_gwei") (str "must be greater than zero")]
     else push_if (gb_min_deposit_gwei config <? 1000000000)
            (validation_error (str "min_deposit_gwei") (str "must be at least 1_000_000_000 gwei"))) ++
    metadata_errors (gb_metadata config) ++
    validate_signing_metadata config ++
    validate_artifact_metadata config).

(** ** Commitments *)

(* eth2077-types/src/genesis_builder.rs:492-495 hash_len_prefixed_bytes *)
Definition hash_len_prefixed_bytes (bytes : Str) : list Z := encode_bytes bytes.

Section commitments.
Context {SU : SortUnstable} {HO : HashOrder}.

(* eth2077-types/src/genesis_builder.rs:461-472 hash_sorted_metadata *)
Definition hash_sorted_metadata (metadata : gmap Str Str) : list Z :=
  encode_list (λ p, hash_len_prefixed_bytes p.1 ++ hash_len_prefixed_bytes p.2) (sorted_pairs metadata).
(** What the hasher is fed. *)
(* eth2077-types/src/genesis_builder.rs:255-264 compute_genesis_builder_commitment *)
Definition config_preimage (config : GenesisBuilderConfig) : list Z :=
  CONFIG_DOMAIN ++ to_be_bytes 8 (gb_chain_id config) ++ to_be_bytes 8 (gb_genesis_time config) ++
  to_be_bytes 8 (gb_validator_count config) ++
  [signing_scheme_discriminant (gb_signing_scheme config)] ++
  [artifact_format_discriminant (gb_artifact_format config)] ++
  hash_len_prefixed_bytes (gb_deterministic_seed config) ++
  to_be_bytes 8 (gb_min_deposit_gwei config) ++ hash_sorted_metadata (gb_metadata config).
(* eth2077-types/src/genesis_builder.rs:254-266 compute_genesis_builder_commitment *)
Definition compute_genesis_builder_commitment `{Sha256} (config : GenesisBuilderConfig) : Str :=
  digest_to_lower_hex (sha256 (config_preimage config)).
(* eth2077-types/src/genesis_builder.rs:428-430 is_validator_deposit *)
Definition is_validator_deposit (allocation : GenesisAllocation) : bool :=
  ga_is_validator allocation || bool_decide (ga_kind allocation = ValidatorDeposit).
(* eth2077-types/src/genesis_builder.rs:432-434 normalize_address *)
Definition normalize_address (address : Str) : Str := to_ascii_lowercase (trim address).
(* eth2077-types/src/genesis_builder.rs:474-490 canonical_metadata_fragment *)
Definition canonical_metadata_fragment (metadata : gmap Str Str) : Str :=
  join (str ";") ((λ p, p.1 ++ str "=" ++ p.2) <$> sorted_pairs metadata).
(* eth2077-types/src/genesis_builder.rs:436-448 canonical_allocation_record *)
Definition canonical_allocation_record (allocation : GenesisAllocation) : Str :=
  normalize_address (ga_address allocation) ++ str "|" ++ allocation_kind_name (ga_kind allocation) ++ str "|" ++
  decimal (ga_amount_gwei allocation) ++ str "|" ++ (if ga_is_validator allocation then str "1" else str "0") ++
  str "|" ++ canonical_metadata_fragment (ga_metadata allocation).
(* eth2077-types/src/genesis_builder.rs:450-459 compute_artifact_hash *)
Definition compute_artifact_hash `{Sha256} (config : GenesisBuilderConfig) (canonical_records : list Str) : Str :=
  digest_to_lower_hex (sha256 (ARTIFACT_DOMAIN ++ compute_genesis_builder_commitment config ++
    encode_list hash_len_prefixed_bytes canonical_records)).
(* eth2077-types/src/genesis_builder.rs:211-251 compute_genesis_builder_stats *)
Definition compute_genesis_builder_stats `{Sha256} (allocations : list GenesisAllocation)
    (config : GenesisBuilderConfig) : GenesisBuilderStats :=
  let deposits := filter (λ a, is_validator_deposit a = true) allocations in
  {| gs_total_allocations := len allocations;
     gs_validator_deposits := len deposits;
     gs_total_gwei := foldl (λ total a, u64_saturating_add total (ga_amount_gwei a)) 0 allocations;
     gs_unique_addresses :=
       Z.of_nat (size (list_to_set (C := gset Str) ((λ a, normalize_address (ga_address a)) <$> allocations)));
     gs_signing_complete :=
       is_ok (validate_genesis_builder_config config) && (gb_validator_count config <=? len deposits) &&
       forallb (λ a, gb_min_deposit_gwei config <=? ga_amount_gwei a) deposits;
     gs_artifact_hash :=
       compute_artifact_hash config (sort_unstable_by bytes_cmp (canonical_allocation_record <$> allocations)) |}.
End commitments.

(** ** What validation accepts *)

(** The metadata a scheme and a format ask for. *)
Definition threshold_metadata (metadata : gmap Str Str) (total_key threshold_key : Str) : Prop :=
  ∃ total threshold,
    (metadata !! total_key ≫= parse_decimal u64_max) = Some total ∧
    (metadata !! threshold_key ≫= parse_decimal u64_max) = Some threshold ∧
    total ≠ 0 ∧ threshold ≠ 0 ∧ threshold ≤ total.
Definition scheme_metadata (config : GenesisBuilderConfig) : Prop :=
  match gb_signing_scheme config with
  | MultiSig => threshold_metadata (gb_metadata config) (str "multisig.participants") (str "multisig.threshold")
  | Threshold => threshold_metadata (gb_metadata config) (str "threshold.total_shares") (str "threshold.quorum")
  | Aggregate => is_Some (gb_metadata config !! str "aggregate.domain")
  | _ => True
  end.
Definition format_metadata (config : GenesisBuilderConfig) : Prop :=
  match gb_artifact_format config with
  | CompressedSsz => is_Some (gb_metadata config !! str "compression.codec")
  | HexEncoded => is_Some (gb_metadata config !! str "hex.case")
  | _ => True
  end.
Record genesis_config_ok (config : GenesisBuilderConfig) : Prop := {
  ok_chain_id : gb_chain_id config ≠ 0;
  ok_genesis_time : gb_genesis_time config ≠ 0;
  ok_validator_count : gb_validator_count config ≠ 0;
  ok_seed_text : trim (gb_deterministic_seed config) ≠ [];
  ok_seed_length : 8 ≤ len (gb_deterministic_seed config);
  ok_min_deposit : 1000000000 ≤ gb_min_deposit_gwei config;
  ok_metadata : map_Forall (λ key value, trim key ≠ [] ∧ trim value ≠ []) (gb_metadata config);
  ok_scheme : scheme_metadata config;
  ok_format : format_metadata config;
}.

Lemma parse_required_usize_none metadata key reason :
  (parse_required_usize metadata key reason).1 = [] ↔
  (parse_required_usize metadata key reason).2 ≠ None.
Proof. unfold parse_required_usize. repeat case_match; naive_solver. Qed.
Lemma parse_required_usize_value metadata key reason :
  (parse_required_usize metadata key reason).2 = (metadata !! key ≫= parse_decimal u64_max).
Proof. unfold parse_required_usize. destruct (metadata !! key) as [v|]; simpl; [by case_match|done]. Qed.
(** Either of the two checks of a threshold of a total. *)
Lemma threshold_errors_nil metadata k1 k2 r1 r2 e1 e2 e3 :
  let total := parse_required_usize metadata k1 r1 in
  let threshold := parse_required_usize metadata k2 r2 in
  total.1 ++ threshold.1 ++
    match total.2, threshold.2 with
    | Some t, Some q => push_if (t =? 0) e1 ++ push_if (q =? 0) e2 ++ push_if (t <? q) e3
    | _, _ => []
    end = [] ↔ threshold_metadata metadata k1 k2.
Proof.
  intros total threshold. unfold threshold_metadata.
  rewrite <- (parse_required_usize_value metadata k1 r1), <- (parse_required_usize_value metadata k2 r2).
  rewrite !app_nil. unfold total, threshold at 1 2. rewrite !parse_required_usize_none. fold total threshold.
  destruct total.2 as [t|], threshold.2 as [q|]; [|naive_solver..].
  rewrite !app_nil, !push_if_nil, !Z.eqb_neq, Z.ltb_ge. split; [naive_solver|].
  intros (? & ? & [= <-] & [= <-] & ?). naive_solver.
Qed.
Lemma require_metadata_key_nil metadata key reason :
  require_metadata_key metadata key reason = [] ↔ is_Some (metadata !! key).
Proof. unfold require_metadata_key. case_match; [naive_solver|]. split; [done|intros [? [=]]]. Qed.
Lemma signing_errors_nil config : validate_signing_metadata config = [] ↔ scheme_metadata config.
Proof.
  unfold validate_signing_metadata, scheme_metadata. case_match; try done.
  - rewrite <- (threshold_errors_nil _ _ _ (str "must be present for MultiSig") (str "must be present for MultiSig")).
    unfold validate_multisig_metadata. by repeat case_match; simplify_eq/=.
  - rewrite <- (threshold_errors_nil _ _ _ (str "must be present for Threshold") (str "must be present for Threshold")).
    unfold validate_threshold_metadata. by repeat case_match; simplify_eq/=.
  - apply require_metadata_key_nil.
Qed.
Lemma artifact_errors_nil config : validate_artifact_metadata config = [] ↔ format_metadata config.
Proof.
  unfold validate_artifact_metadata, format_metadata. case_match; try done; apply require_metadata_key_nil.
Qed.
Lemma metadata_errors_nil `{HashOrder} metadata :
  metadata_errors metadata = [] ↔ map_Forall (λ key value, trim key ≠ [] ∧ trim value ≠ []) metadata.
Proof.
  unfold metadata_errors. rewrite list_bind_nil, Forall_forall. split.
  - intros Hf k v Hkv%elem_of_hash_iter. apply Hf in Hkv. cbn beta iota in Hkv.
    by rewrite app_nil, !push_if_nil, !bool_decide_eq_false in Hkv.
  - intros Hm [k v] Hkv%elem_of_hash_iter. apply Hm in Hkv.
    by rewrite app_nil, !push_if_nil, !bool_decide_eq_false.
Qed.
Lemma validate_genesis_exact `{HashOrder} config :
  0 ≤ gb_min_deposit_gwei config →
  validate_genesis_builder_config config = Ok tt ↔ genesis_config_ok config.
Proof.
  intros Hdep. unfold validate_genesis_builder_config, MIN_SEED_LEN. rewrite errors_to_result_ok, !app_nil, !push_if_nil.
  rewrite metadata_errors_nil, signing_errors_nil, artifact_errors_nil, !Z.eqb_neq.
  assert ((if bool_decide (trim (gb_deterministic_seed config) = [])
     then [validation_error (str "deterministic_seed") (str "must not be empty or whitespace")]
     else push_if (len (gb_deterministic_seed config) <? 8)
            (validation_error (str "deterministic_seed") (str "must contain at least 8 characters"))) = [] ↔
    trim (gb_deterministic_seed config) ≠ [] ∧ 8 ≤ len (gb_deterministic_seed config)) as ->.
  { case_bool_decide; [naive_solver|]. rewrite push_if_nil, Z.ltb_ge. naive_solver. }
  assert ((if gb_min_deposit_gwei config =? 0
     then [validation_error (str "min_deposit_gwei") (str "must be greater than zero")]
     else push_if (gb_min_deposit_gwei config <? 1000000000)
            (validation_error (str "min_deposit_gwei") (str "must be at least 1_000_000_000 gwei"))) = [] ↔
    1000000000 ≤ gb_min_deposit_gwei config) as ->.
  { destruct (Z.eqb_spec (gb_min_deposit_gwei config) 0); [split; [done|lia]|].
    by rewrite push_if_nil, Z.ltb_ge. }
  split; [intros (?&?&?&[]&?&?&?&?); by constructor|intros []; tauto].
Qed.

(** ** Determinism *)

Lemma commitment_unique `{Sha256} (SU1 SU2 : SortUnstable) (HO1 HO2 : HashOrder) config :
  compute_genesis_builder_commitment (SU := SU1) (HO := HO1) config =
  compute_genesis_builder_commitment (SU := SU2) (HO := HO2) config.
Proof.
  unfold compute_genesis_builder_commitment, config_preimage, hash_sorted_metadata.
  by rewrite (sorted_pairs_unique SU1 SU2 HO1 HO2).
Qed.
Lemma canonical_record_unique (SU1 SU2 : SortUnstable) (HO1 HO2 : HashOrder) allocation :
  canonical_allocation_record (SU := SU1) (HO := HO1) allocation =
  canonical_allocation_record (SU := SU2) (HO := HO2) allocation.
Proof.
  unfold canonical_allocation_record, canonical_metadata_fragment. by rewrite (sorted_pairs_unique SU1 SU2 HO1 HO2).
Qed.
Lemma is_ok_validate_unique (HO1 HO2 : HashOrder) config :
  0 ≤ gb_min_deposit_gwei config →
  is_ok (@validate_genesis_builder_config HO1 config) = is_ok (@validate_genesis_builder_config HO2 config).
Proof.
  intros Hd. pose proof (@validate_genesis_exact HO1 config Hd) as H1.
  pose proof (@validate_genesis_exact HO2 config Hd) as H2.
  destruct (@validate_genesis_builder_config HO1 config) as [[]|], (@validate_genesis_builder_config HO2 config) as [[]|];
    naive_solver.
Qed.

(** The statistics of the genesis allocations and the artifact hash do not depend on the
    order in which the allocations are listed, nor on the order in which the metadata maps
    are walked, nor on the sorting algorithm. *)
Theorem genesis_stats_deterministic `{Sha256} (SU1 SU2 : SortUnstable) (HO1 HO2 : HashOrder)
    allocations allocations' config :
  allocations ≡ₚ allocations' →
  Forall (λ a, is_u64 (ga_amount_gwei a)) allocations → is_u64 (gb_min_deposit_gwei config) →
  compute_genesis_builder_stats (SU := SU1) (HO := HO1) allocations config =
  compute_genesis_builder_stats (SU := SU2) (HO := HO2) allocations' config.
Proof.
  intros Hp Hamt Hdep. unfold compute_genesis_builder_stats, compute_artifact_hash, len.
  rewrite (commitment_unique SU1 SU2 HO1 HO2), (is_ok_validate_unique HO1 HO2) by sat_lia. f_equal.
  - by rewrite Hp.
  - by rewrite Hp.
  - rewrite !(foldl_map u64_saturating_add ga_amount_gwei).
    assert (Forall (λ z, 0 ≤ z) (ga_amount_gwei <$> allocations)) as Hnn.
    { apply Forall_fmap. eapply Forall_impl; [exact Hamt|]. intros a. cbn. sat_lia. }
    rewrite !foldl_saturating_add; [|by rewrite <- Hp|lia|done|lia].
    by rewrite (Zsum_perm _ (ga_amount_gwei <$> allocations')) by (by rewrite Hp).
  - f_equal. f_equal. apply list_to_set_perm_L. by rewrite Hp.
  - rewrite (forallb_perm _ _ (filter (λ a, is_validator_deposit a = true) allocations')) by (by rewrite Hp).
    by rewrite (Permutation_length (filter_Permutation _ _ _ Hp)).
  - do 5 f_equal. apply sorted_strings_unique. rewrite Hp. apply reflexive_eq, list_fmap_ext.
    intros. apply canonical_record_unique.
Qed.

(** ** The commitment to the configuration binds it *)

Record typed_config (c : GenesisBuilderConfig) : Prop := {
  typed_chain_id : is_u64 (gb_chain_id c);
  typed_time : is_u64 (gb_genesis_time c);
  typed_count : is_u64 (gb_validator_count c);
  typed_seed : is_u64 (len (gb_deterministic_seed c));
  typed_deposit : is_u64 (gb_min_deposit_gwei c);
  typed_entries : is_u64 (Z.of_nat (size (gb_metadata c)));
  typed_strings : map_Forall (λ k v, is_u64 (len k) ∧ is_u64 (len v)) (gb_metadata c);
}.
Lemma metadata_pairs_encoded {SU : SortUnstable} {HO : HashOrder} (m : gmap Str Str) :
  is_u64 (Z.of_nat (size m)) → map_Forall (λ k v, is_u64 (len k) ∧ is_u64 (len v)) m →
  Forall (both (λ k, is_u64 (len k)) (λ v, is_u64 (len v))) (sorted_pairs m) ∧ is_u64 (len (sorted_pairs m)).
Proof.
  intros Hs Hm. split.
  - apply Forall_forall. intros [k v] Hkv%elem_of_sorted_pairs. by apply Hm in Hkv.
  - unfold len, sorted_pairs. by rewrite sort_unstable_perm, length_hash_iter.
Qed.
Lemma config_preimage_inj {SU : SortUnstable} {HO : HashOrder} c1 c2 :
  typed_config c1 → typed_config c2 → config_preimage c1 = config_preimage c2 → c1 = c2.
Proof.
  intros [Hi1 Ht1 Hv1 Hs1 Hd1 He1 Hm1] [Hi2 Ht2 Hv2 Hs2 Hd2 He2 Hm2]. unfold config_preimage.
  intros Heq%app_inv_head. apply prefix_inj_u64 in Heq as [Hid Heq]; [|done..].
  apply prefix_inj_u64 in Heq as [Htime Heq]; [|done..]. apply prefix_inj_u64 in Heq as [Hcount Heq]; [|done..].
  apply app_inj_1 in Heq as [[= Hscheme] Heq]; [|done]. apply app_inj_1 in Heq as [[= Hformat] Heq]; [|done].
  apply prefix_inj_bytes in Heq as [Hseed Heq]; [|done..].
  apply prefix_inj_u64 in Heq as [Hdep Heq]; [|done..]. unfold hash_sorted_metadata in Heq.
  assert (sorted_pairs (gb_metadata c1) = sorted_pairs (gb_metadata c2)) as Hpairs.
  { refine (prefix_inj_eq _ _ _ _ (prefix_inj_list _ _ (prefix_inj_pair _ _ _ _ prefix_inj_bytes prefix_inj_bytes)) _ _ Heq);
      by apply metadata_pairs_encoded. }
  assert (gb_metadata c1 = gb_metadata c2) as Hmeta.
  { by apply sorted_pairs_inj in Hpairs. }
  assert (gb_signing_scheme c1 = gb_signing_scheme c2).
  { by destruct (gb_signing_scheme c1), (gb_signing_scheme c2). }
  assert (gb_artifact_format c1 = gb_artifact_format c2).
  { by destruct (gb_artifact_format c1), (gb_artifact_format c2). }
  destruct c1, c2. simpl in *. congruence.
Qed.

(** C26: The commitment to the configuration binds it: two configurations with the same
    commitment are equal, or their preimages are a collision of SHA-256. *)
Theorem genesis_commitment_binding `{Sha256} {SU : SortUnstable} {HO : HashOrder} c1 c2 :
  (∀ preimage, Forall is_byte (sha256 preimage)) → typed_config c1 → typed_config c2 →
  compute_genesis_builder_commitment c1 = compute_genesis_builder_commitment c2 →
  c1 = c2 ∨ (config_preimage c1 ≠ config_preimage c2 ∧ sha256 (config_preimage c1) = sha256 (config_preimage c2)).
Proof.
  intros Hbytes H1 H2 Heq%hex_of_bytes_inj; [|apply Hbytes..].
  destruct (decide (config_preimage c1 = config_preimage c2)) as [Hpre|Hne]; [left|by right].
  by apply config_preimage_inj.
Qed.

(** ** Examples *)

(** A function of the preimage, in place of SHA-256. *)
Definition length_hash : Sha256 := λ l, to_be_bytes 32 (len l).
Definition example_allocation (address : Str) (amount : Z) (metadata : gmap Str Str) : GenesisAllocation :=
  {| ga_address := address; ga_kind := ValidatorDeposit; ga_amount_gwei := amount; ga_is_validator := true;
     ga_metadata := metadata |}.
Definition example_allocations : list GenesisAllocation :=
  [example_allocation (str " 0xAB ") 32000000000 {[str "a" := str "1"; str "b" := str "2"]};
   example_allocation (str "0xcd") 7 ∅; example_allocation (str "0xab") 5 ∅].
Lemma genesis_stats_deterministic_witness :
  compute_genesis_builder_stats (H := length_hash) (SU := stable_sort_unstable) (HO := map_to_list_order)
    example_allocations default_genesis_builder_config =
  compute_genesis_builder_stats (H := length_hash) (SU := stable_sort_unstable) (HO := map_to_list_order)
    (reverse example_allocations) default_genesis_builder_config.
Proof.
  apply (genesis_stats_deterministic (H := length_hash)).
  - symmetry. apply reverse_Permutation.
  - repeat constructor; done.
  - done.
Defined.
Example genesis_stats_example :
  let stats := compute_genesis_builder_stats (H := length_hash) (SU := stable_sort_unstable)
    (HO := map_to_list_order) example_allocations default_genesis_builder_config in
  gs_total_gwei stats = 32000000012 ∧ gs_unique_addresses stats = 2 ∧ gs_signing_complete stats = false.
Proof. by vm_compute. Qed.
Lemma default_config_typed : typed_config default_genesis_builder_config.
Proof. by split; try apply (bool_decide_unpack _); vm_compute. Qed.
Lemma default_config_valid : @validate_genesis_builder_config map_to_list_order default_genesis_builder_config = Ok tt.
Proof. by vm_compute. Qed.
(** Another seed of the same length, which a hash of the length does not tell apart. *)
Definition other_seed_config : GenesisBuilderConfig :=
  {| gb_chain_id := 2077; gb_genesis_time := 1893456000; gb_validator_count := 64;
     gb_signing_scheme := Aggregate; gb_artifact_format := Ssz;
     gb_deterministic_seed := str "eth2077-another-seed"; gb_min_deposit_gwei := 32000000000;
     gb_metadata := gb_metadata default_genesis_builder_config |}.
Definition example_preimage : GenesisBuilderConfig → list Z :=
  config_preimage (SU := stable_sort_unstable) (HO := map_to_list_order).
Lemma genesis_commitment_binding_witness :
  default_genesis_builder_config = other_seed_config ∨
  (example_preimage default_genesis_builder_config ≠ example_preimage other_seed_config ∧
   @sha256 length_hash (example_preimage default_genesis_builder_config) =
   @sha256 length_hash (example_preimage other_seed_config)).
Proof.
  apply (genesis_commitment_binding (H := length_hash)).
  - intros preimage. apply to_be_bytes_range.
  - apply default_config_typed.
  - split; try apply default_config_typed; by vm_compute.
  - vm_compute. reflexivity.
Defined.

(** The allocation records join the metadata with [=] and [;], which values may contain: two
    tables of allocations that differ have the same artifact hash. *)
Lemma artifact_hash_ambiguous `{Sha256} :
  let stats allocation := compute_genesis_builder_stats (SU := stable_sort_unstable) (HO := map_to_list_order)
    [allocation] default_genesis_builder_config in
  let one := example_allocation (str "0xab") 32000000000 {[str "a" := str "1;b=2"]} in
  let two := example_allocation (str "0xab") 32000000000 {[str "a" := str "1"; str "b" := str "2"]} in
  one ≠ two ∧ gs_artifact_hash (stats one) = gs_artifact_hash (stats two).
Proof.
  intros stats one two. split; [by intros [=]|].
  unfold stats, compute_genesis_builder_stats, gs_artifact_hash. do 2 f_equal.
Qed.
