(* ===== verification/Ceremony.v ===== *)
(** * Validator key ceremonies ([eth2077-types/src/validator_ceremony.rs])

    Validation of the configuration of a ceremony, the statistics of its keys, and the
    commitment to the configuration. *)
From S2P Require Import Prelude Validation Strings Metadata Floats.
Local Open Scope Z_scope.

(* eth2077-types/src/validator_ceremony.rs:58-71 SignerProtocol *)
Inductive SignerProtocol := LocalSigner | RemoteGrpc | RemoteHttp | Hsm | ThresholdBls | Distributed.
#[export] Instance SignerProtocol_eq_dec : EqDecision SignerProtocol.
Proof. solve_decision. Defined.
(* eth2077-types/src/validator_ceremony.rs:75-88 KeyStatus *)
Inductive KeyStatus := KeyGenerated | KeyDistributed | KeyVerified | KeyActive | KeyRevoked | KeyExpired.
#[export] Instance KeyStatus_eq_dec : EqDecision KeyStatus.
Proof. solve_decision. Defined.
(* eth2077-types/src/validator_ceremony.rs:92-105 SecurityLevel *)
Inductive SecurityLevel := Standard | Enhanced | AirGapped | MultiParty | FormallyVerified | PostQuantum.
#[export] Instance SecurityLevel_eq_dec : EqDecision SecurityLevel.
Proof. solve_decision. Defined.
(* eth2077-types/src/validator_ceremony.rs:113-128 ValidatorKey *)
Record ValidatorKey := {
  vk_id : Str;
  vk_pubkey : Str;
  vk_status : KeyStatus;
  vk_signer : SignerProtocol;
  vk_security : SecurityLevel;
  vk_generated_at : Z;
  vk_metadata : gmap Str Str;
}.
(* eth2077-types/src/validator_ceremony.rs:136-151 ValidatorCeremonyConfig *)
Record ValidatorCeremonyConfig := {
  vc_validator_count : Z;
  vc_threshold : Z;
  vc_protocol : SignerProtocol;
  vc_security : SecurityLevel;
  vc_rotation_period_days : Z;
  vc_require_air_gap : bool;
  vc_metadata : gmap Str Str;
}.
(* eth2077-types/src/validator_ceremony.rs:158-163 ValidatorCeremonyValidationError *)
Definition ValidatorCeremonyValidationError : Type := FieldError.
(* eth2077-types/src/validator_ceremony.rs:170-183 ValidatorCeremonyStats *)
Record ValidatorCeremonyStats := {
  vcs_total_keys : Z;
  vcs_active_keys : Z;
  vcs_revoked_keys : Z;
  vcs_avg_key_age_days : f64;
  vcs_protocol_distribution : gmap Str Z;
  vcs_ceremony_complete : bool;
}.

(* eth2077-types/src/validator_ceremony.rs:197-213 default_validator_ceremony_config *)
Definition default_validator_ceremony_config : ValidatorCeremonyConfig :=
  {| vc_validator_count := 128;
     vc_threshold := 86;
     vc_protocol := ThresholdBls;
     vc_security := MultiParty;
     vc_rotation_period_days := 90;
     vc_require_air_gap := true;
     vc_metadata :=
       <[str "profile" := str "eth2077-testnet-default"]>
       (<[str "verification_policy" := str "dual-operator-check"]> ∅) |}.
(* eth2077-types/src/validator_ceremony.rs:425-433 security_meets_air_gap_requirement *)
Definition security_meets_air_gap_requirement (security : SecurityLevel) : bool :=
  match security with AirGapped | MultiParty | FormallyVerified | PostQuantum => true | _ => false end.
(* eth2077-types/src/validator_ceremony.rs:436-441 is_terminal_key_status *)
Definition is_terminal_key_status (status : KeyStatus) : bool :=
  match status with KeyActive | KeyRevoked | KeyExpired => true | _ => false end.
(* eth2077-types/src/validator_ceremony.rs:444-453 protocol_label *)
Definition protocol_label (protocol : SignerProtocol) : Str :=
  match protocol with
  | LocalSigner => str "Local"
  | RemoteGrpc => str "RemoteGrpc"
  | RemoteHttp => str "RemoteHttp"
  | Hsm => str "Hsm"
  | ThresholdBls => str "ThresholdBls"
  | Distributed => str "Distributed"
  end.
(* eth2077-types/src/validator_ceremony.rs:456-465 security_label *)
Definition security_label (security : SecurityLevel) : Str :=
  match security with
  | Standard => str "Standard"
  | Enhanced => str "Enhanced"
  | AirGapped => str "AirGapped"
  | MultiParty => str "MultiParty"
  | FormallyVerified => str "FormallyVerified"
  | PostQuantum => str "PostQuantum"
  end.
(* eth2077-types/src/validator_ceremony.rs:468-474 nibble_to_hex *)
Definition nibble_to_hex (nibble : Z) : Z :=
  if nibble <=? 9 then 48 + nibble else if nibble <=? 15 then 97 + (nibble - 10) else 48.

(* eth2077-types/src/validator_ceremony.rs:232-313 validate_validator_ceremony_config *)
Definition validate_validator_ceremony_config (config : ValidatorCeremonyConfig)
  : result unit (list ValidatorCeremonyValidationError) :=
  errors_to_result (
    push_if (vc_validator_count config =? 0)
      (field_error "validator_count" "validator_count must be greater than zero") ++
    push_if (vc_threshold config =? 0) (field_error "threshold" "threshold must be greater than zero") ++
    push_if (vc_validator_count config <? vc_threshold config)
      (field_error "threshold" "threshold cannot exceed validator_count") ++
    push_if (vc_rotation_period_days config =? 0)
      (field_error "rotation_period_days" "rotation_period_days must be at least 1") ++
    push_if (3650 <? vc_rotation_period_days config)
      (field_error "rotation_period_days" "rotation_period_days must not exceed 3650") ++
    push_if (vc_require_air_gap config && negb (security_meets_air_gap_requirement (vc_security config)))
      (field_error "security"
         "require_air_gap=true requires AirGapped, MultiParty, FormallyVerified, or PostQuantum security") ++
    push_if (bool_decide (vc_security config = AirGapped) && bool_decide (vc_protocol config = RemoteHttp))
      (field_error "protocol" "RemoteHttp is incompatible with AirGapped security") ++
    push_if ((bool_decide (vc_protocol config = ThresholdBls) || bool_decide (vc_protocol config = Distributed)) &&
             (vc_threshold config <? 2))
      (field_error "threshold" "threshold must be at least 2 for ThresholdBls or Distributed protocols") ++
    push_if (bool_decide (vc_security config = PostQuantum) && (180 <? vc_rotation_period_days config))
      (field_error "rotation_period_days" "PostQuantum profile requires rotation_period_days <= 180")).

(* eth2077-types/src/validator_ceremony.rs:330-377 compute_validator_ceremony_stats *)
Definition compute_validator_ceremony_stats (keys : list ValidatorKey) : ValidatorCeremonyStats :=
  let total_keys := len keys in
  let active_keys := len (filter (λ key, vk_status key = KeyActive) keys) in
  let newest_timestamp := foldl Z.max 0 (vk_generated_at <$> keys) in
  let age_days_sum :=
    foldl (λ sum key,
      f64_add sum (f64_div (f64_of_u64 (u64_saturating_sub newest_timestamp (vk_generated_at key))) (int 86400)))
      f64_zero keys in
  {| vcs_total_keys := total_keys;
     vcs_active_keys := active_keys;
     vcs_revoked_keys := len (filter (λ key, vk_status key = KeyRevoked) keys);
     vcs_avg_key_age_days := if total_keys =? 0 then f64_zero else f64_div age_days_sum (f64_of_u64 total_keys);
     vcs_protocol_distribution := foldl increment ∅ ((λ key, protocol_label (vk_signer key)) <$> keys);
     vcs_ceremony_complete :=
       (0 <? total_keys) && forallb (λ key, is_terminal_key_status (vk_status key)) keys && (0 <? active_keys) |}.

(** What the hasher is fed. *)
(* eth2077-types/src/validator_ceremony.rs:392-413 compute_validator_ceremony_commitment *)
Definition ceremony_preimage {SU : SortUnstable} {HO : HashOrder} (config : ValidatorCeremonyConfig) : list Z :=
  to_le_bytes 8 (vc_validator_count config) ++ to_le_bytes 8 (vc_threshold config) ++
  protocol_label (vc_protocol config) ++ [0] ++ security_label (vc_security config) ++ [0] ++
  to_le_bytes 8 (vc_rotation_period_days config) ++ [if vc_require_air_gap config then 1 else 0] ++
  concat ((λ p, p.1 ++ [0] ++ p.2 ++ [0xFF]) <$> sorted_pairs (vc_metadata config)).
(* eth2077-types/src/validator_ceremony.rs:391-422 compute_validator_ceremony_commitment *)
Definition compute_validator_ceremony_commitment `{Sha256} {SU : SortUnstable} {HO : HashOrder}
    (config : ValidatorCeremonyConfig) : Str :=
  sha256 (ceremony_preimage config) ≫= λ byte,
    [nibble_to_hex (Z.land (Z.shiftr byte 4) 15); nibble_to_hex (Z.land byte 15)].

(** ** What validation accepts, and the statistics *)

Record ceremony_config_ok (c : ValidatorCeremonyConfig) : Prop := {
  ok_threshold : 0 < vc_threshold c ≤ vc_validator_count c;
  ok_rotation : 1 ≤ vc_rotation_period_days c ≤ 3650;
  ok_air_gap : vc_require_air_gap c = true → vc_security c ≠ Standard ∧ vc_security c ≠ Enhanced;
  ok_transport : vc_security c = AirGapped → vc_protocol c ≠ RemoteHttp;
  ok_quorum : vc_protocol c = ThresholdBls ∨ vc_protocol c = Distributed → 2 ≤ vc_threshold c;
  ok_post_quantum : vc_security c = PostQuantum → vc_rotation_period_days c ≤ 180;
}.
Lemma air_gap_levels s : security_meets_air_gap_requirement s = true ↔ s ≠ Standard ∧ s ≠ Enhanced.
Proof. by destruct s; simpl; naive_solver. Qed.
Lemma validate_ceremony_exact c :
  is_u64 (vc_validator_count c) → is_u64 (vc_threshold c) → is_u64 (vc_rotation_period_days c) →
  validate_validator_ceremony_config c = Ok tt ↔ ceremony_config_ok c.
Proof.
  intros Hc Ht Hr. unfold validate_validator_ceremony_config. rewrite errors_to_result_ok, !app_nil, !push_if_nil.
  rewrite !andb_false_iff, orb_false_iff, negb_false_iff, air_gap_levels, !bool_decide_eq_false, !Z.eqb_neq, !Z.ltb_ge.
  split.
  - intros (Hn & H0 & Hle & Hr0 & Hr1 & Hg & Ha & Hq & Hpq). split; [sat_lia|sat_lia| | | |].
    + intros Hair. by destruct Hg as [Hg|Hg]; [congruence|].
    + intros Hs. by destruct Ha.
    + intros Hp. destruct Hq as [[??]|Hq]; [by destruct Hp|done].
    + intros Hs. by destruct Hpq.
  - intros [H1 H2 H3 H4 H5 H6]. split_and!; try sat_lia.
    + destruct (vc_require_air_gap c); [right; by apply H3|by left].
    + destruct (decide (vc_security c = AirGapped)); [right; by apply H4|by left].
    + destruct (decide (vc_protocol c = ThresholdBls)), (decide (vc_protocol c = Distributed)); naive_solver.
    + destruct (decide (vc_security c = PostQuantum)); [right; by apply H6|by left].
Qed.
(** The distribution counts the keys of each protocol. *)
Lemma protocol_distribution_counts keys label :
  default 0 (vcs_protocol_distribution (compute_validator_ceremony_stats keys) !! label) =
  len (filter (λ key, protocol_label (vk_signer key) = label) keys).
Proof.
  cbn [vcs_protocol_distribution compute_validator_ceremony_stats].
  rewrite foldl_increment, lookup_empty. cbn [default]. rewrite Z.add_0_l. unfold len.
  f_equal. induction keys as [|key keys IH]; [done|]. csimpl. rewrite !filter_cons.
  destruct (decide (protocol_label (vk_signer key) = label)); simpl; by rewrite IH.
Qed.

(** ** The commitment *)

Lemma nibbles_hex b :
  is_byte b →
  nibble_to_hex (Z.land (Z.shiftr b 4) 15) = hex_digit (Z.shiftr b 4) ∧
  nibble_to_hex (Z.land b 15) = hex_digit (Z.land b 15).
Proof.
  intros Hb. assert (forallb (λ b, (nibble_to_hex (Z.land (Z.shiftr b 4) 15) =? hex_digit (Z.shiftr b 4)) &&
    (nibble_to_hex (Z.land b 15) =? hex_digit (Z.land b 15))) (seqZ 0 256) = true) as Hall by (by vm_compute).
  rewrite forallb_forall in Hall. specialize (Hall b). rewrite <- list_elem_of_In, elem_of_seqZ in Hall.
  apply andb_true_iff in Hall as [?%Z.eqb_eq ?%Z.eqb_eq]; [done|]. unfold is_byte in Hb. lia.
Qed.
Lemma nibbles_hex_of_bytes l :
  Forall is_byte l →
  (l ≫= λ byte, [nibble_to_hex (Z.land (Z.shiftr byte 4) 15); nibble_to_hex (Z.land byte 15)]) = hex_of_bytes l.
Proof.
  unfold hex_of_bytes. induction 1 as [|b l Hb _ IH]; [done|]. csimpl in *.
  destruct (nibbles_hex b Hb) as [-> ->]. by rewrite IH.
Qed.
(** What the types guarantee, UTF-8 strings without the byte 0xFF among it, and keys
    without a NUL, which nothing guarantees. *)
Record plain_ceremony (c : ValidatorCeremonyConfig) : Prop := {
  plain_count : is_u64 (vc_validator_count c);
  plain_threshold : is_u64 (vc_threshold c);
  plain_rotation : is_u64 (vc_rotation_period_days c);
  plain_metadata : map_Forall (λ k v, 0 ∉ k ∧ 0xFF ∉ v) (vc_metadata c);
}.
Lemma entry_prefix_inj :
  prefix_inj (λ p : Str * Str, 0 ∉ p.1 ∧ 0xFF ∉ p.2) (λ p, p.1 ++ [0] ++ p.2 ++ [0xFF]).
Proof.
  intros [k1 v1] [k2 v2] r1 r2 [??] [??]. cbn [fst snd]. rewrite <- !app_assoc. cbn [app].
  intros [-> Heq]%separator_inj; [|done..]. by apply separator_inj in Heq as [-> ->].
Qed.
Lemma label_nul_free p s : 0 ∉ protocol_label p ∧ 0 ∉ security_label s.
Proof. split; [destruct p|destruct s]; by apply (bool_decide_unpack _). Qed.
Lemma ceremony_preimage_inj {SU : SortUnstable} {HO : HashOrder} c1 c2 :
  plain_ceremony c1 → plain_ceremony c2 → ceremony_preimage c1 = ceremony_preimage c2 → c1 = c2.
Proof.
  intros [Hc1 Ht1 Hr1 Hm1] [Hc2 Ht2 Hr2 Hm2]. unfold ceremony_preimage. intros Heq.
  apply prefix_inj_le_u64 in Heq as [Hcount Heq]; [|done..]. apply prefix_inj_le_u64 in Heq as [Hthr Heq]; [|done..].
  apply separator_inj in Heq as [Hproto Heq]; [|apply (label_nul_free _ Standard)..].
  apply separator_inj in Heq as [Hsec Heq]; [|apply (label_nul_free Hsm _)..].
  apply prefix_inj_le_u64 in Heq as [Hrot Heq]; [|done..].
  apply app_inj_1 in Heq as [[= Hgap] Heq]; [|done].
  apply (prefix_inj_concat _ _ _ _ entry_prefix_inj) in Heq; cycle 1.
  { by intros [[|??] ?]. }
  { apply Forall_forall. intros [k v] Hkv%elem_of_sorted_pairs. by apply Hm1 in Hkv. }
  { apply Forall_forall. intros [k v] Hkv%elem_of_sorted_pairs. by apply Hm2 in Hkv. }
  apply sorted_pairs_inj in Heq.
  assert (vc_protocol c1 = vc_protocol c2) by (by destruct (vc_protocol c1), (vc_protocol c2)).
  assert (vc_security c1 = vc_security c2) by (by destruct (vc_security c1), (vc_security c2)).
  assert (vc_require_air_gap c1 = vc_require_air_gap c2)
    by (by destruct (vc_require_air_gap c1), (vc_require_air_gap c2)).
  destruct c1, c2. simpl in *. congruence.
Qed.
(** Without NULs in the keys, equal commitments come from equal configurations or from a
    collision of SHA-256. *)
Lemma ceremony_commitment_binding `{Sha256} {SU : SortUnstable} {HO : HashOrder} c1 c2 :
  (∀ preimage, Forall is_byte (sha256 preimage)) → plain_ceremony c1 → plain_ceremony c2 →
  compute_validator_ceremony_commitment c1 = compute_validator_ceremony_commitment c2 →
  c1 = c2 ∨ (ceremony_preimage c1 ≠ ceremony_preimage c2 ∧ sha256 (ceremony_preimage c1) = sha256 (ceremony_preimage c2)).
Proof.
  intros Hbytes H1 H2. unfold compute_validator_ceremony_commitment.
  rewrite !nibbles_hex_of_bytes by apply Hbytes. intros Heq%hex_of_bytes_inj; [|apply Hbytes..].
  destruct (decide (ceremony_preimage c1 = ceremony_preimage c2)) as [Hpre|Hne]; [left|by right].
  by apply ceremony_preimage_inj.
Qed.
(** With them, the delimiters do not keep entries apart. *)
Definition with_metadata (m : gmap Str Str) : ValidatorCeremonyConfig :=
  {| vc_validator_count := 4; vc_threshold := 3; vc_protocol := ThresholdBls; vc_security := MultiParty;
     vc_rotation_period_days := 90; vc_require_air_gap := true; vc_metadata := m |}.
Lemma ceremony_commitment_ambiguous `{Sha256} :
  let commit := compute_validator_ceremony_commitment (SU := stable_sort_unstable) (HO := map_to_list_order) in
  let one := with_metadata {[str "a" := [98; 0; 99]]} in
  let two := with_metadata {[[97; 0; 98] := str "c"]} in
  validate_validator_ceremony_config one = Ok tt ∧ validate_validator_ceremony_config two = Ok tt ∧
  one ≠ two ∧ commit one = commit two.
Proof. intros commit one two. split_and!; [done|done|by intros [=]|]. unfold commit, compute_validator_ceremony_commitment. f_equal. Qed.
