(* ===== verification/Governance.v ===== *)
(** * Upgrade governance ([eth2077-types/src/upgrade_governance.rs])

    Proposals of upgrades, rehearsals of them on test networks, the policy a proposal must
    meet before it activates, and the statistics with their commitment.  The JSON of the
    commitment's payload is [serde_json]'s, a parameter. *)
From S2P Require Import Prelude Validation Strings Metadata Floats FloatFacts.
Local Open Scope Z_scope.

(** ** Data *)

(* eth2077-types/src/upgrade_governance.rs:7-7 MIN_SIGNAL_THRESHOLD_PCT *)
Definition MIN_SIGNAL_THRESHOLD_PCT : f64 := int 50.
(* eth2077-types/src/upgrade_governance.rs:8-8 MAX_SIGNAL_THRESHOLD_PCT *)
Definition MAX_SIGNAL_THRESHOLD_PCT : f64 := int 100.
(* eth2077-types/src/upgrade_governance.rs:11-19 UpgradePhase *)
Inductive UpgradePhase :=
| Proposal | Discussion | Signaling | Accepted | Rehearsal | Activation | PostMortem.
(* eth2077-types/src/upgrade_governance.rs:22-27 GovernanceModel *)
Inductive GovernanceModel := CoreDevConsensus | TokenVote | MultisigApproval | TimelockExecution.
(* eth2077-types/src/upgrade_governance.rs:30-35 RehearsalOutcome *)
Inductive RehearsalOutcome := RehearsalSuccess | PartialSuccess | RehearsalFailure | RehearsalAborted.
#[export] Instance RehearsalOutcome_eq_dec : EqDecision RehearsalOutcome.
Proof. solve_decision. Defined.
(* eth2077-types/src/upgrade_governance.rs:38-43 ForkStrategy *)
Inductive ForkStrategy := EpochBoundary | BlockHeight | TimestampTrigger | ManualActivation.
#[export] Instance ForkStrategy_eq_dec : EqDecision ForkStrategy.
Proof. solve_decision. Defined.
(* eth2077-types/src/upgrade_governance.rs:46-59 UpgradeProposal *)
Record UpgradeProposal := {
  up_id : Str;
  up_eip_numbers : list Z;
  up_title : Str;
  up_champion : Str;
  up_phase : UpgradePhase;
  up_governance_model : GovernanceModel;
  up_signal_threshold_pct : f64;
  up_current_signal_pct : f64;
  up_fork_strategy : ForkStrategy;
  up_activation_epoch : option Z;
  up_created_at_unix : Z;
  up_approved_at_unix : option Z;
}.
(* eth2077-types/src/upgrade_governance.rs:62-74 RehearsalRun *)
Record RehearsalRun := {
  rr_id : Str;
  rr_proposal_id : Str;
  rr_testnet_name : Str;
  rr_node_count : Z;
  rr_client_diversity : list (Str * f64);
  rr_started_at_unix : Z;
  rr_ended_at_unix : option Z;
  rr_outcome : RehearsalOutcome;
  rr_blocks_post_fork : Z;
  rr_finality_disruption_slots : Z;
  rr_rollback_triggered : bool;
}.
(* eth2077-types/src/upgrade_governance.rs:77-86 UpgradeGovernanceConfig *)
Record UpgradeGovernanceConfig := {
  ug_governance_model : GovernanceModel;
  ug_signal_threshold_pct : f64;
  ug_min_rehearsal_nodes : Z;
  ug_required_client_count : Z;
  ug_min_blocks_post_fork : Z;
  ug_max_finality_disruption_slots : Z;
  ug_cooldown_between_upgrades_days : Z;
  ug_emergency_rollback_enabled : bool;
}.
(* eth2077-types/src/upgrade_governance.rs:89-92 UpgradeGovernanceValidationError *)
Definition UpgradeGovernanceValidationError : Type := FieldError.
(* eth2077-types/src/upgrade_governance.rs:95-103 UpgradeGovernanceStats *)
Record UpgradeGovernanceStats := {
  us_total_proposals : Z;
  us_accepted_proposals : Z;
  us_rehearsals_run : Z;
  us_rehearsal_success_rate : f64;
  us_avg_signal_pct : f64;
  us_avg_rehearsal_duration_s : f64;
  us_commitment : list Z;
}.
(* eth2077-types/src/upgrade_governance.rs:105-118 UpgradeGovernanceConfig::default *)
Definition default_governance_config : UpgradeGovernanceConfig :=
  {| ug_governance_model := CoreDevConsensus;
     ug_signal_threshold_pct := dec 667 10;
     ug_min_rehearsal_nodes := 8;
     ug_required_client_count := 3;
     ug_min_blocks_post_fork := 1000;
     ug_max_finality_disruption_slots := 32;
     ug_cooldown_between_upgrades_days := 90;
     ug_emergency_rollback_enabled := true |}.

(** ** Policy *)

(* eth2077-types/src/upgrade_governance.rs:125-202 UpgradeGovernanceConfig::validate *)
Definition UpgradeGovernanceConfig_validate (self : UpgradeGovernanceConfig)
  : list UpgradeGovernanceValidationError :=
  (if negb (f64_is_finite (ug_signal_threshold_pct self))
   then [field_error "signal_threshold_pct" "must be a finite number"]
   else
     push_if (f64_lt (ug_signal_threshold_pct self) MIN_SIGNAL_THRESHOLD_PCT)
       (field_error "signal_threshold_pct" "must be at least 50.0") ++
     push_if (f64_lt MAX_SIGNAL_THRESHOLD_PCT (ug_signal_threshold_pct self))
       (field_error "signal_threshold_pct" "must be at most 100.0")) ++
  push_if (ug_min_rehearsal_nodes self =? 0) (field_error "min_rehearsal_nodes" "must be greater than zero") ++
  push_if (ug_required_client_count self =? 0) (field_error "required_client_count" "must be greater than zero") ++
  push_if ((ug_min_rehearsal_nodes self <? ug_required_client_count self) && (0 <? ug_min_rehearsal_nodes self))
    (field_error "required_client_count" "must not exceed min_rehearsal_nodes") ++
  push_if (ug_min_blocks_post_fork self =? 0) (field_error "min_blocks_post_fork" "must be greater than zero") ++
  push_if (ug_max_finality_disruption_slots self =? 0)
    (field_error "max_finality_disruption_slots" "must be greater than zero") ++
  push_if ((ug_min_blocks_post_fork self <? ug_max_finality_disruption_slots self) &&
           (0 <? ug_min_blocks_post_fork self))
    (field_error "max_finality_disruption_slots" "must not exceed min_blocks_post_fork") ++
  push_if (ug_cooldown_between_upgrades_days self =? 0)
    (field_error "cooldown_between_upgrades_days" "must be greater than zero").

(* eth2077-types/src/upgrade_governance.rs:567-573 normalized_pct *)
Definition normalized_pct (value : f64) : f64 :=
  if negb (f64_is_finite value) then f64_zero else f64_clamp value f64_zero (int 100).
(* eth2077-types/src/upgrade_governance.rs:586-594 UpgradePhase::is_accepted_or_later *)
Definition is_accepted_or_later (self : UpgradePhase) : bool :=
  match self with Accepted | Rehearsal | Activation | PostMortem => true | _ => false end.
(* eth2077-types/src/upgrade_governance.rs:257-261 UpgradeProposal::effective_signal_threshold *)
Definition effective_signal_threshold (self : UpgradeProposal) (config : UpgradeGovernanceConfig) : f64 :=
  f64_maximum (normalized_pct (up_signal_threshold_pct self)) (normalized_pct (ug_signal_threshold_pct config)).
(* eth2077-types/src/upgrade_governance.rs:266-270 RehearsalRun::duration_s *)
Definition RehearsalRun_duration_s (self : RehearsalRun) : option Z :=
  ended ← rr_ended_at_unix self;
  if rr_started_at_unix self <=? ended then Some (ended - rr_started_at_unix self) else None.
(* eth2077-types/src/upgrade_governance.rs:273-285 RehearsalRun::unique_client_count *)
Definition unique_client_count (self : RehearsalRun) : Z :=
  let clients :=
    foldl (λ clients '(client, share_pct),
      let normalized_name := to_ascii_lowercase (trim client) in
      if bool_decide (normalized_name = []) then clients else
      if f64_is_finite share_pct && f64_lt f64_zero share_pct then {[normalized_name]} ∪ clients else clients)
      (∅ : gset Str) (rr_client_diversity self) in
  Z.of_nat (size clients).
(* eth2077-types/src/upgrade_governance.rs:306-338 RehearsalRun::qualifies_for_activation *)
Definition qualifies_for_activation (self : RehearsalRun) (config : UpgradeGovernanceConfig) : bool :=
  if bool_decide (trim (rr_id self) = []) then false else
  if bool_decide (trim (rr_proposal_id self) = []) then false else
  if bool_decide (trim (rr_testnet_name self) = []) then false else
  if negb (bool_decide (rr_outcome self = RehearsalSuccess)) then false else
  if bool_decide (RehearsalRun_duration_s self = None) then false else
  if rr_node_count self <? ug_min_rehearsal_nodes config then false else
  if unique_client_count self <? ug_required_client_count config then false else
  if rr_blocks_post_fork self <? ug_min_blocks_post_fork config then false else
  if ug_max_finality_disruption_slots config <? rr_finality_disruption_slots self then false else
  if rr_rollback_triggered self && negb (ug_emergency_rollback_enabled config) then false else
  true.
(* eth2077-types/src/upgrade_governance.rs:215-254 UpgradeProposal::is_ready_for_activation *)
Definition is_ready_for_activation (self : UpgradeProposal) (config : UpgradeGovernanceConfig)
    (rehearsals : list RehearsalRun) : bool :=
  if bool_decide (trim (up_id self) = []) then false else
  if negb (is_accepted_or_later (up_phase self)) then false else
  match up_approved_at_unix self with
  | None => false
  | Some approved_at =>
      if approved_at <? up_created_at_unix self then false else
      if negb (bool_decide (UpgradeGovernanceConfig_validate config = [])) then false else
      if f64_lt (normalized_pct (up_current_signal_pct self)) (effective_signal_threshold self config) then false else
      if bool_decide (up_fork_strategy self = EpochBoundary) &&
         match up_activation_epoch self with Some epoch => epoch =? 0 | None => true end then false else
      existsb (λ run, qualifies_for_activation run config)
        (filter (λ run, trim (rr_proposal_id run) = trim (up_id self)) rehearsals)
  end.

(** ** Statistics and their commitment *)

(* eth2077-types/src/upgrade_governance.rs:539-555 average *)
Definition governance_average (values : list f64) : f64 :=
  let finite := filter (λ value, f64_is_finite value = true) values in
  if bool_decide (finite = []) then f64_zero
  else f64_div (foldl f64_add f64_zero finite) (f64_of_u64 (len finite)).
(* eth2077-types/src/upgrade_governance.rs:558-564 ratio *)
Definition governance_ratio (numerator denominator : Z) : f64 :=
  if denominator =? 0 then f64_zero else f64_div (f64_of_u64 numerator) (f64_of_u64 denominator).
(* eth2077-types/src/upgrade_governance.rs:576-582 round_six_decimals *)
Definition round_six_decimals (value : f64) : f64 :=
  if negb (f64_is_finite value) then f64_zero
  else f64_div (f64_round (f64_mul value (int 1000000))) (int 1000000).
(* eth2077-types/src/upgrade_governance.rs:288-303 RehearsalRun::normalized_client_diversity *)
Definition normalized_client_diversity (self : RehearsalRun) : list (Str * f64) :=
  let entries :=
    filter (λ p, p.1 ≠ []) ((λ p : Str * f64, (trim p.1, normalized_pct p.2)) <$> rr_client_diversity self) in
  sort_by (λ p q, then_with (bytes_cmp (to_ascii_lowercase p.1) (to_ascii_lowercase q.1))
                    (f64_total_cmp p.2 q.2)) entries.
(* eth2077-types/src/upgrade_governance.rs:391-396 StatsCommitmentPayload *)
Record StatsCommitmentPayload := {
  scp_version : Str;
  scp_stats : UpgradeGovernanceStats;
  scp_proposals : list UpgradeProposal;
  scp_rehearsals : list RehearsalRun;
}.
(** [serde_json::to_vec(&payload).unwrap_or_default()] *)
Class PayloadJson := payload_json : StatsCommitmentPayload → list Z.

Section commitment.
Context {SU : SortUnstable}.

(** The entries have the fields of the proposals and the rehearsals, normalised. *)
(* eth2077-types/src/upgrade_governance.rs:449-468 compute_stats_commitment *)
Definition canonical_proposal (proposal : UpgradeProposal) : UpgradeProposal :=
  {| up_id := trim (up_id proposal);
     up_eip_numbers := dedup (sort_unstable_by Z.compare (up_eip_numbers proposal));
     up_title := trim (up_title proposal);
     up_champion := trim (up_champion proposal);
     up_phase := up_phase proposal;
     up_governance_model := up_governance_model proposal;
     up_signal_threshold_pct := normalized_pct (up_signal_threshold_pct proposal);
     up_current_signal_pct := normalized_pct (up_current_signal_pct proposal);
     up_fork_strategy := up_fork_strategy proposal;
     up_activation_epoch := up_activation_epoch proposal;
     up_created_at_unix := up_created_at_unix proposal;
     up_approved_at_unix := up_approved_at_unix proposal |}.
(* eth2077-types/src/upgrade_governance.rs:480-492 compute_stats_commitment *)
Definition canonical_rehearsal (run : RehearsalRun) : RehearsalRun :=
  {| rr_id := trim (rr_id run);
     rr_proposal_id := trim (rr_proposal_id run);
     rr_testnet_name := trim (rr_testnet_name run);
     rr_node_count := rr_node_count run;
     rr_client_diversity := normalized_client_diversity run;
     rr_started_at_unix := rr_started_at_unix run;
     rr_ended_at_unix := rr_ended_at_unix run;
     rr_outcome := rr_outcome run;
     rr_blocks_post_fork := rr_blocks_post_fork run;
     rr_finality_disruption_slots := rr_finality_disruption_slots run;
     rr_rollback_triggered := rr_rollback_triggered run |}.
(* eth2077-types/src/upgrade_governance.rs:471-476 compute_stats_commitment *)
Definition proposal_cmp (left right : UpgradeProposal) : comparison :=
  then_with (bytes_cmp (up_id left) (up_id right))
    (then_with (Z.compare (up_created_at_unix left) (up_created_at_unix right))
       (bytes_cmp (up_title left) (up_title right))).
(* eth2077-types/src/upgrade_governance.rs:495-500 compute_stats_commitment *)
Definition rehearsal_cmp (left right : RehearsalRun) : comparison :=
  then_with (bytes_cmp (rr_proposal_id left) (rr_proposal_id right))
    (then_with (bytes_cmp (rr_id left) (rr_id right))
       (Z.compare (rr_started_at_unix left) (rr_started_at_unix right))).
(** The payload carries the statistics without the commitment, which is still zero. *)
(* eth2077-types/src/upgrade_governance.rs:443-524 compute_stats_commitment *)
Definition compute_stats_commitment `{Sha256} `{PayloadJson} (proposals : list UpgradeProposal)
    (rehearsals : list RehearsalRun) (stats : UpgradeGovernanceStats) : list Z :=
  sha256 (payload_json
    {| scp_version := str "upgrade_governance_stats:v1";
       scp_stats :=
         {| us_total_proposals := us_total_proposals stats;
            us_accepted_proposals := us_accepted_proposals stats;
            us_rehearsals_run := us_rehearsals_run stats;
            us_rehearsal_success_rate := round_six_decimals (us_rehearsal_success_rate stats);
            us_avg_signal_pct := round_six_decimals (us_avg_signal_pct stats);
            us_avg_rehearsal_duration_s := round_six_decimals (us_avg_rehearsal_duration_s stats);
            us_commitment := [] |};
       scp_proposals := sort_by proposal_cmp (canonical_proposal <$> proposals);
       scp_rehearsals := sort_by rehearsal_cmp (canonical_rehearsal <$> rehearsals) |}).
(* eth2077-types/src/upgrade_governance.rs:347-386 compute_stats *)
Definition compute_governance_stats `{Sha256} `{PayloadJson} (proposals : list UpgradeProposal)
    (rehearsals : list RehearsalRun) : UpgradeGovernanceStats :=
  let stats commitment :=
    {| us_total_proposals := len proposals;
       us_accepted_proposals := len (filter (λ p, is_accepted_or_later (up_phase p) = true) proposals);
       us_rehearsals_run := len rehearsals;
       us_rehearsal_success_rate :=
         governance_ratio (len (filter (λ r, rr_outcome r = RehearsalSuccess) rehearsals)) (len rehearsals);
       us_avg_signal_pct := governance_average ((λ p, normalized_pct (up_current_signal_pct p)) <$> proposals);
       us_avg_rehearsal_duration_s := governance_average (f64_of_u64 <$> omap RehearsalRun_duration_s rehearsals);
       us_commitment := commitment |} in
  stats (compute_stats_commitment proposals rehearsals (stats (zero_bytes 32))).
End commitment.

(** ** Activation needs a majority and a rehearsal *)

Lemma zero_units : finite_double f64_zero ∧ units f64_zero = 0.
Proof. done. Qed.
Lemma normalized_pct_units x :
  valid_binary 53 1024 x = true →
  finite_double (normalized_pct x) ∧ 0 ≤ units (normalized_pct x) ≤ 100 * 2 ^ 1074.
Proof.
  intros Hx. unfold normalized_pct. destruct (f64_is_finite x) eqn:Hf; cbn [negb].
  - destruct (f64_of_u64_exact 100 ltac:(lia)) as [Hh Hu]. pose proof (Z.pow_pos_nonneg 2 1074).
    destruct (f64_clamp_units x f64_zero (int 100)) as [Hc Hr]; [by apply is_finite_double|done|done| |].
    + rewrite Hu. change (units f64_zero) with 0. lia.
    + rewrite Hu in Hr. by change (units f64_zero) with 0 in Hr.
  - pose proof (Z.pow_pos_nonneg 2 1074). split; [done|]. change (units f64_zero) with 0. lia.
Qed.
(** A percentage in range is its own normal form. *)
Lemma normalized_pct_ge x lo :
  valid_binary 53 1024 x = true → 0 < lo → lo * 2 ^ 1074 ≤ units (normalized_pct x) →
  finite_double x ∧ lo * 2 ^ 1074 ≤ units x.
Proof.
  intros Hx Hlo. pose proof (Z.pow_pos_nonneg 2 1074). unfold normalized_pct.
  destruct (f64_is_finite x) eqn:Hf; cbn [negb]; [|change (units f64_zero) with 0; nia].
  assert (finite_double x) as Hfin by by apply is_finite_double.
  destruct (f64_of_u64_exact 100 ltac:(lia)) as [Hh Hu]. intros Hn. split; [done|]. revert Hn. unfold f64_clamp.
  destruct (f64_lt x f64_zero) eqn:E1.
  - destruct (f64_lt (int 100) f64_zero) eqn:E2; [by vm_compute in E2|]. change (units f64_zero) with 0. nia.
  - destruct (f64_lt (int 100) x) eqn:E2; [|done]. apply (f64_lt_units _ _ Hh Hfin) in E2. lia.
Qed.
Lemma normalized_keeps x lo :
  finite_double x → lo ≤ 100 → lo * 2 ^ 1074 ≤ units x → lo * 2 ^ 1074 ≤ units (normalized_pct x).
Proof.
  intros Hx Hlo Hu. pose proof (Z.pow_pos_nonneg 2 1074). unfold normalized_pct.
  assert (f64_is_finite x = true) as -> by (by destruct x). cbn [negb].
  destruct (f64_of_u64_exact 100 ltac:(lia)) as [Hh Huh]. unfold f64_clamp.
  destruct (f64_lt x f64_zero) eqn:E1.
  - apply (f64_lt_units x f64_zero Hx) in E1; [|done]. change (units f64_zero) with 0 in E1.
    destruct (f64_lt (int 100) f64_zero) eqn:E2; [by vm_compute in E2|]. change (units f64_zero) with 0. lia.
  - destruct (f64_lt (int 100) x) eqn:E2; [rewrite Huh; nia|done].
Qed.

Record governance_config_ok (c : UpgradeGovernanceConfig) : Prop := {
  ok_signal : f64_le (int 50) (ug_signal_threshold_pct c) = true ∧ f64_le (ug_signal_threshold_pct c) (int 100) = true;
  ok_clients : 0 < ug_required_client_count c ≤ ug_min_rehearsal_nodes c;
  ok_blocks : 0 < ug_max_finality_disruption_slots c ≤ ug_min_blocks_post_fork c;
  ok_cooldown : 0 < ug_cooldown_between_upgrades_days c;
}.
Record typed_governance (c : UpgradeGovernanceConfig) : Prop := {
  typed_signal : valid_binary 53 1024 (ug_signal_threshold_pct c) = true;
  typed_nodes : is_u64 (ug_min_rehearsal_nodes c);
  typed_clients : is_u64 (ug_required_client_count c);
  typed_blocks : is_u64 (ug_min_blocks_post_fork c);
  typed_disruption : is_u64 (ug_max_finality_disruption_slots c);
  typed_cooldown : is_u64 (ug_cooldown_between_upgrades_days c);
}.
Lemma signal_range x :
  valid_binary 53 1024 x = true →
  f64_is_finite x = true ∧ f64_lt x (int 50) = false ∧ f64_lt (int 100) x = false ↔
  f64_le (int 50) x = true ∧ f64_le x (int 100) = true.
Proof.
  intros Hx. destruct (f64_is_finite x) eqn:Hf.
  - assert (finite_double x) as Hfin by by apply is_finite_double.
    destruct (f64_of_u64_exact 50 ltac:(lia)) as [Hl _], (f64_of_u64_exact 100 ltac:(lia)) as [Hh _].
    rewrite !f64_lt_not_le, !negb_false_iff by done. naive_solver.
  - split; [naive_solver|]. destruct x as [|[]| |]; try done; intros [H1 H2]; vm_compute in H1, H2; done.
Qed.
Lemma governance_config_exact c :
  typed_governance c → UpgradeGovernanceConfig_validate c = [] ↔ governance_config_ok c.
Proof.
  intros [Hs Hn Hc Hb Hd Hcool]. unfold UpgradeGovernanceConfig_validate, MIN_SIGNAL_THRESHOLD_PCT, MAX_SIGNAL_THRESHOLD_PCT.
  assert (∀ a b : list FieldError, (if negb (f64_is_finite (ug_signal_threshold_pct c))
    then [field_error "signal_threshold_pct" "must be a finite number"] else a ++ b) = [] ↔
    f64_is_finite (ug_signal_threshold_pct c) = true ∧ a = [] ∧ b = []) as Hif.
  { intros a b. destruct (f64_is_finite _); simpl; [rewrite app_nil; naive_solver|naive_solver]. }
  rewrite !app_nil, Hif, !push_if_nil, (signal_range _ Hs), !andb_false_iff, !Z.eqb_neq, !Z.ltb_ge.
  split; [intros (?&?&?&?&?&?&?&?); split; [done|sat_lia..]|intros [[? ?] ? ? ?]; split_and!; try done; sat_lia].
Qed.

(** The gate, as the documentation of the method lists it. *)
Record activation_ready (p : UpgradeProposal) (c : UpgradeGovernanceConfig) (runs : list RehearsalRun) : Prop := {
  ready_id : trim (up_id p) ≠ [];
  ready_phase : is_accepted_or_later (up_phase p) = true;
  ready_approved : ∃ approved_at, up_approved_at_unix p = Some approved_at ∧ up_created_at_unix p ≤ approved_at;
  ready_config : UpgradeGovernanceConfig_validate c = [];
  ready_signal : f64_lt (normalized_pct (up_current_signal_pct p)) (effective_signal_threshold p c) = false;
  ready_epoch : up_fork_strategy p = EpochBoundary → ∃ epoch, up_activation_epoch p = Some epoch ∧ epoch ≠ 0;
  ready_rehearsal : ∃ run, run ∈ runs ∧ trim (rr_proposal_id run) = trim (up_id p) ∧
    qualifies_for_activation run c = true;
}.
Lemma is_ready_exact p c runs : is_ready_for_activation p c runs = true ↔ activation_ready p c runs.
Proof.
  unfold is_ready_for_activation. split.
  - case_bool_decide as Hid; [done|]. destruct (is_accepted_or_later _) eqn:Hph; [|done]. cbn [negb].
    destruct (up_approved_at_unix p) as [a|] eqn:Ha; [|done]. destruct (Z.ltb_spec a (up_created_at_unix p)); [done|].
    case_bool_decide as Hv; [|done]. cbn [negb]. destruct (f64_lt _ _) eqn:Hs; [done|].
    destruct (bool_decide (up_fork_strategy p = EpochBoundary) && _) eqn:He; [done|].
    intros (run & [Hid' Hrun]%list_elem_of_In%list_elem_of_filter & Hq)%existsb_exists.
    split; try done; [by eexists| |by exists run].
    intros Hb. rewrite bool_decide_eq_true_2 in He by done. cbn [andb] in He.
    destruct (up_activation_epoch p) as [e|]; [|done]. exists e. by apply Z.eqb_neq in He.
  - intros [Hid Hph (a & Ha & Hle) Hv Hs He (run & Hrun & Hpid & Hq)].
    rewrite bool_decide_eq_false_2, Hph, Ha, (proj2 (Z.ltb_ge _ _) Hle), bool_decide_eq_true_2, Hs by done. cbn [negb].
    replace (bool_decide (up_fork_strategy p = EpochBoundary) && _) with false; cycle 1.
    { symmetry. apply andb_false_iff. case_bool_decide as Hb; [right|by left].
      destruct (He Hb) as (e & -> & Hne). by apply Z.eqb_neq. }
    apply existsb_exists. exists run. split; [|done]. by apply list_elem_of_In, list_elem_of_filter.
Qed.

(** A proposal that is ready for activation is approved and carries the signal of at least
    half: the current signal is a number of at least 50 percent, whatever thresholds the
    proposal and the policy state.  It has been rehearsed: a run of the proposal succeeded
    with at least as many nodes as distinct clients are required, of which there is at least
    one, and kept producing blocks. *)
Theorem ready_proposal_has_majority p c runs :
  typed_governance c → valid_binary 53 1024 (up_signal_threshold_pct p) = true →
  valid_binary 53 1024 (up_current_signal_pct p) = true →
  is_ready_for_activation p c runs = true →
  f64_le (int 50) (up_current_signal_pct p) = true ∧
  (∃ approved_at, up_approved_at_unix p = Some approved_at ∧ up_created_at_unix p ≤ approved_at) ∧
  ∃ run, run ∈ runs ∧ trim (rr_proposal_id run) = trim (up_id p) ∧ rr_outcome run = RehearsalSuccess ∧
    1 ≤ ug_required_client_count c ≤ unique_client_count run ∧
    ug_required_client_count c ≤ rr_node_count run ∧ 1 ≤ rr_blocks_post_fork run.
Proof.
  intros Hc Hpt Hcur [_ _ Happ Hv Hsig _ (run & Hrun & Hpid & Hq)]%is_ready_exact.
  apply governance_config_exact in Hv as [[Hlo Hhi] Hcl Hbl _]; [|done]. split_and!; [|done|].
  - destruct (f64_of_u64_exact 50 ltac:(lia)) as [H50 Hu50].
    pose proof (typed_signal c Hc) as Hts. destruct (proj2 (signal_range _ Hts) (conj Hlo Hhi)) as (Hfin & _).
    pose proof (is_finite_double _ Hts Hfin) as Hfd.
    destruct (normalized_pct_units _ Hpt) as [Hf1 _], (normalized_pct_units _ Hts) as [Hf2 _].
    destruct (normalized_pct_units _ Hcur) as [Hf3 _]. destruct (f64_maximum_units _ _ Hf1 Hf2) as [Hfm Hum].
    unfold effective_signal_threshold in Hsig. rewrite f64_lt_not_le, negb_false_iff, f64_le_units in Hsig by done.
    rewrite f64_le_units, Hu50 in Hlo by done.
    destruct (normalized_pct_ge _ 50 Hcur) as [Hfin3 Hge]; [lia| |by rewrite f64_le_units, Hu50].
    pose proof (normalized_keeps _ 50 Hfd ltac:(lia) Hlo). lia.
  - exists run. revert Hq. unfold qualifies_for_activation. repeat (case_match; try done).
    bool_to_prop. intros _. split_and!; try done; try lia.
Qed.

Definition example_proposal (champion : Str) (signal : f64) : UpgradeProposal :=
  {| up_id := str "eip-7919"; up_eip_numbers := [7938; 7919; 7919]; up_title := str "Blob fees"; up_champion := champion;
     up_phase := Rehearsal; up_governance_model := CoreDevConsensus; up_signal_threshold_pct := int 60;
     up_current_signal_pct := signal; up_fork_strategy := EpochBoundary; up_activation_epoch := Some 400000;
     up_created_at_unix := 1000; up_approved_at_unix := Some 2000 |}.
Definition example_run : RehearsalRun :=
  {| rr_id := str "run-1"; rr_proposal_id := str " eip-7919"; rr_testnet_name := str "shadow"; rr_node_count := 12;
     rr_client_diversity := [(str "Reth", int 50); (str "reth ", int 10); (str "geth", int 30); (str "nimbus", int 10)];
     rr_started_at_unix := 100; rr_ended_at_unix := Some 900; rr_outcome := RehearsalSuccess;
     rr_blocks_post_fork := 4000; rr_finality_disruption_slots := 3; rr_rollback_triggered := false |}.
Example readiness_examples :
  is_ready_for_activation (example_proposal (str "a") (int 67)) default_governance_config [example_run] = true ∧
  is_ready_for_activation (example_proposal (str "a") (int 66)) default_governance_config [example_run] = false ∧
  is_ready_for_activation (example_proposal (str "a") (int 67)) default_governance_config [] = false.
Proof. by vm_compute. Qed.
Lemma ready_proposal_has_majority_witness :
  f64_le (int 50) (int 67) = true ∧
  (∃ approved_at, Some 2000 = Some approved_at ∧ 1000 ≤ approved_at) ∧
  ∃ run, run ∈ [example_run] ∧ trim (rr_proposal_id run) = str "eip-7919" ∧ rr_outcome run = RehearsalSuccess ∧
    1 ≤ 3 ≤ unique_client_count run ∧ 3 ≤ rr_node_count run ∧ 1 ≤ rr_blocks_post_fork run.
Proof.
  apply (ready_proposal_has_majority (example_proposal (str "a") (int 67)) default_governance_config [example_run]).
  - split; by vm_compute.
  - reflexivity.
  - reflexivity.
  - vm_compute. reflexivity.
Defined.

(** The order of the proposals does not matter to the commitment when no two share the
    fields they are sorted by; with proposals that do, it does. *)
#[export] Instance proposal_cmp_preorder : PreorderCmp proposal_cmp.
Proof.
  pose proof (preorder_on up_id bytes_cmp). pose proof (preorder_on up_created_at_unix Z.compare).
  pose proof (preorder_on up_title bytes_cmp). unfold proposal_cmp.
  apply (then_with_preorder (λ x y, bytes_cmp (up_id x) (up_id y))). apply _.
Qed.
Lemma canonical_proposals_order {SU : SortUnstable} proposals proposals' :
  NoDup ((λ p, (trim (up_id p), up_created_at_unix p, trim (up_title p))) <$> proposals) → proposals ≡ₚ proposals' →
  sort_by proposal_cmp (canonical_proposal <$> proposals) = sort_by proposal_cmp (canonical_proposal <$> proposals').
Proof.
  intros Hnd Hp. apply (sorted_perm_unique proposal_cmp); [|apply sort_by_sorted, _..|by rewrite !sort_by_perm, Hp].
  intros x y. rewrite !sort_by_perm. intros Hx Hy [H1 [H2 H3]%then_with_eq]%then_with_eq.
  refine (NoDup_key_eq (λ p, (up_id p, up_created_at_unix p, up_title p)) (canonical_proposal <$> proposals) x y _ Hx Hy _).
  - by rewrite <- list_fmap_compose.
  - by rewrite (cmp_eq bytes_cmp _ _ H1), (cmp_eq Z.compare _ _ H2), (cmp_eq bytes_cmp _ _ H3).
Qed.
Lemma governance_commitment_order_dependent :
  let commit proposals := us_commitment (@compute_governance_stats stable_sort_unstable (λ bytes, bytes)
    (λ payload, concat (up_champion <$> scp_proposals payload)) proposals []) in
  let one := example_proposal (str "a") (int 67) in
  let two := example_proposal (str "b") (int 67) in
  commit [one; two] ≠ commit [two; one].
Proof. vm_compute. by intros [=]. Qed.
