(* ===== verification/Gateway.v ===== *)
(** * The RPC gateway ([eth2077-types/src/rpc_gateway.rs])

    The configuration of the gateway and its validation, the clients and the namespaces they
    may call, and the statistics with their commitment.  The JSON of the commitment's payload
    is [serde_json]'s, a parameter. *)
From S2P Require Import Prelude Validation Strings Metadata Floats.
Local Open Scope Z_scope.

(* eth2077-types/src/rpc_gateway.rs:20-20 RPC_GATEWAY_HASH_DOMAIN *)
Definition RPC_GATEWAY_HASH_DOMAIN : Str := str "ETH2077-RPC-GATEWAY-STATS-V1".
(* eth2077-types/src/rpc_gateway.rs:23-23 MAX_REASONABLE_TIMEOUT_MS *)
Definition MAX_REASONABLE_TIMEOUT_MS : Z := 10 * 60 * 1000.
(* eth2077-types/src/rpc_gateway.rs:26-26 MAX_REASONABLE_RATE_LIMIT_RPS *)
Definition MAX_REASONABLE_RATE_LIMIT_RPS : Z := 10000000.
(* eth2077-types/src/rpc_gateway.rs:29-29 MAX_REASONABLE_BATCH_SIZE *)
Definition MAX_REASONABLE_BATCH_SIZE : Z := 10000.
(* eth2077-types/src/rpc_gateway.rs:33-42 AuthMethod *)
Inductive AuthMethod := ApiKey | JwtBearer | MutualTls | NoAuth.
#[export] Instance AuthMethod_eq_dec : EqDecision AuthMethod.
Proof. solve_decision. Defined.
(* eth2077-types/src/rpc_gateway.rs:46-55 RateLimitAlgorithm *)
Inductive RateLimitAlgorithm := TokenBucket | SlidingWindow | FixedWindow | LeakyBucket.
(* eth2077-types/src/rpc_gateway.rs:59-74 RpcNamespace *)
Inductive RpcNamespace := Eth | Net | Web3 | Debug | Admin | Engine | CustomNamespace.
#[export] Instance RpcNamespace_eq_dec : EqDecision RpcNamespace.
Proof. solve_decision. Defined.
(* eth2077-types/src/rpc_gateway.rs:91-106 RpcEndpoint *)
Record RpcEndpoint := {
  re_path : Str;
  re_namespace : RpcNamespace;
  re_auth_required : bool;
  re_rate_limit_rps : Z;
  re_timeout_ms : Z;
  re_cache_ttl_seconds : option Z;
  re_enabled : bool;
}.
(* eth2077-types/src/rpc_gateway.rs:129-148 GatewayClient *)
Record GatewayClient := {
  gc_id : Str;
  gc_api_key_hash : list Z;
  gc_auth_method : AuthMethod;
  gc_allowed_namespaces : list RpcNamespace;
  gc_rate_limit_override : option Z;
  gc_created_at_unix : Z;
  gc_last_request_unix : option Z;
  gc_total_requests : Z;
  gc_blocked : bool;
}.
(* eth2077-types/src/rpc_gateway.rs:152-173 RpcGatewayConfig *)
Record RpcGatewayConfig := {
  rg_listen_address : Str;
  rg_listen_port : Z;
  rg_default_auth_method : AuthMethod;
  rg_default_rate_limit_rps : Z;
  rg_rate_limit_algorithm : RateLimitAlgorithm;
  rg_max_connections : Z;
  rg_request_timeout_ms : Z;
  rg_cors_origins : list Str;
  rg_tls_enabled : bool;
  rg_max_batch_size : Z;
}.
(* eth2077-types/src/rpc_gateway.rs:177-182 RpcGatewayValidationError *)
Definition RpcGatewayValidationError : Type := FieldError.
(* eth2077-types/src/rpc_gateway.rs:186-201 RpcGatewayStats *)
Record RpcGatewayStats := {
  rgs_total_endpoints : Z;
  rgs_total_clients : Z;
  rgs_blocked_clients : Z;
  rgs_total_requests : Z;
  rgs_avg_requests_per_client : f64;
  rgs_namespaces_enabled : Z;
  rgs_commitment : list Z;
}.
(* eth2077-types/src/rpc_gateway.rs:203-218 RpcGatewayConfig::default *)
Definition default_gateway_config : RpcGatewayConfig :=
  {| rg_listen_address := str "0.0.0.0";
     rg_listen_port := 8545;
     rg_default_auth_method := ApiKey;
     rg_default_rate_limit_rps := 100;
     rg_rate_limit_algorithm := TokenBucket;
     rg_max_connections := 1000;
     rg_request_timeout_ms := 30000;
     rg_cors_origins := [];
     rg_tls_enabled := true;
     rg_max_batch_size := 100 |}.

(** ** Validation *)

(** [s.chars().any(char::is_whitespace)], on the bytes of the characters. *)
Fixpoint any_whitespace (s : Str) : bool :=
  match s with
  | [] => false
  | _ :: rest => bool_decide (is_Some (strip_one whitespace s)) || any_whitespace rest
  end.
Definition starts_with (p s : Str) : bool := bool_decide (is_Some (strip_prefix p s)).
(* eth2077-types/src/rpc_gateway.rs:402-412 is_valid_cors_origin *)
Definition is_valid_cors_origin (origin : Str) : bool :=
  if bool_decide (origin = str "*") then true else
  if any_whitespace origin then false else
  starts_with (str "http://") origin || starts_with (str "https://") origin.
(* eth2077-types/src/rpc_gateway.rs:305-333 RpcGatewayConfig::validate *)
Fixpoint cors_errors (index : Z) (seen_origins : gset Str) (origins : list Str) : list RpcGatewayValidationError :=
  match origins with
  | [] => []
  | origin :: origins =>
      let trimmed := trim origin in
      let field := str "cors_origins[" ++ decimal index ++ str "]" in
      if bool_decide (trimmed = [])
      then {| fe_field := field; fe_message := str "CORS origin must be non-empty" |} ::
           cors_errors (index + 1) seen_origins origins
      else
        let dedupe_key := to_ascii_lowercase trimmed in
        push_if (negb (is_valid_cors_origin trimmed))
          {| fe_field := field;
             fe_message := str "CORS origin must be '*' or start with http:// or https://" |} ++
        push_if (bool_decide (dedupe_key ∈ seen_origins))
          {| fe_field := field; fe_message := str "duplicate CORS origin" |} ++
        cors_errors (index + 1) ({[dedupe_key]} ∪ seen_origins) origins
  end.
(* eth2077-types/src/rpc_gateway.rs:225-336 RpcGatewayConfig::validate *)
Definition RpcGatewayConfig_validate (self : RpcGatewayConfig) : list RpcGatewayValidationError :=
  push_if (bool_decide (trim (rg_listen_address self) = []))
    (field_error "listen_address" "listen_address must be non-empty") ++
  push_if (rg_listen_port self =? 0) (field_error "listen_port" "listen_port must be greater than zero") ++
  push_if (rg_default_rate_limit_rps self =? 0)
    (field_error "default_rate_limit_rps" "default_rate_limit_rps must be greater than zero") ++
  push_if (MAX_REASONABLE_RATE_LIMIT_RPS <? rg_default_rate_limit_rps self)
    (field_error "default_rate_limit_rps" "default_rate_limit_rps exceeds conservative upper bound") ++
  push_if (rg_max_connections self =? 0)
    (field_error "max_connections" "max_connections must be greater than zero") ++
  push_if (rg_request_timeout_ms self =? 0)
    (field_error "request_timeout_ms" "request_timeout_ms must be greater than zero") ++
  push_if (MAX_REASONABLE_TIMEOUT_MS <? rg_request_timeout_ms self)
    (field_error "request_timeout_ms" "request_timeout_ms exceeds conservative upper bound") ++
  push_if (rg_max_batch_size self =? 0)
    (field_error "max_batch_size" "max_batch_size must be greater than zero") ++
  push_if (MAX_REASONABLE_BATCH_SIZE <? rg_max_batch_size self)
    (field_error "max_batch_size" "max_batch_size exceeds conservative upper bound") ++
  push_if (bool_decide (rg_default_auth_method self = MutualTls) && negb (rg_tls_enabled self))
    (field_error "default_auth_method" "MutualTls requires tls_enabled=true") ++
  cors_errors 0 ∅ (rg_cors_origins self).

(* eth2077-types/src/rpc_gateway.rs:343-349 GatewayClient::is_allowed *)
Definition GatewayClient_is_allowed (self : GatewayClient) (namespace : RpcNamespace) : bool :=
  if gc_blocked self then false else bool_decide (namespace ∈ gc_allowed_namespaces self).

(** ** Statistics *)

(* eth2077-types/src/rpc_gateway.rs:541-548 auth_method_rank *)
Definition auth_method_rank (method : AuthMethod) : Z :=
  match method with ApiKey => 0 | JwtBearer => 1 | MutualTls => 2 | NoAuth => 3 end.
(* eth2077-types/src/rpc_gateway.rs:550-560 namespace_rank *)
Definition namespace_rank (namespace : RpcNamespace) : Z :=
  match namespace with
  | Eth => 0 | Net => 1 | Web3 => 2 | Debug => 3 | Admin => 4 | Engine => 5 | CustomNamespace => 6
  end.
(* eth2077-types/src/rpc_gateway.rs:415-423 CommitmentEndpoint *)
Record CommitmentEndpoint := {
  ce_path : Str;
  ce_namespace : Z;
  ce_auth_required : bool;
  ce_rate_limit_rps : Z;
  ce_timeout_ms : Z;
  ce_cache_ttl_seconds : option Z;
  ce_enabled : bool;
}.
(* eth2077-types/src/rpc_gateway.rs:426-436 CommitmentClient *)
Record CommitmentClient := {
  cc_id : Str;
  cc_api_key_hash : list Z;
  cc_auth_method : Z;
  cc_allowed_namespaces : list Z;
  cc_rate_limit_override : option Z;
  cc_created_at_unix : Z;
  cc_last_request_unix : option Z;
  cc_total_requests : Z;
  cc_blocked : bool;
}.
(* eth2077-types/src/rpc_gateway.rs:439-448 CommitmentPayload *)
Record CommitmentPayload := {
  cp_domain : Str;
  cp_total_endpoints : Z;
  cp_total_clients : Z;
  cp_blocked_clients : Z;
  cp_total_requests : Z;
  cp_namespaces_enabled : Z;
  cp_endpoints : list CommitmentEndpoint;
  cp_clients : list CommitmentClient;
}.
(** [serde_json::to_vec(&payload)], which does not fail on these types. *)
Class GatewayJson := gateway_json : CommitmentPayload → list Z.

(* eth2077-types/src/rpc_gateway.rs:472-481 compute_stats_commitment *)
Definition endpoint_cmp (left right : CommitmentEndpoint) : comparison :=
  then_with (bytes_cmp (ce_path left) (ce_path right))
  (then_with (Z.compare (ce_namespace left) (ce_namespace right))
  (then_with (bool_cmp (ce_auth_required left) (ce_auth_required right))
  (then_with (Z.compare (ce_rate_limit_rps left) (ce_rate_limit_rps right))
  (then_with (Z.compare (ce_timeout_ms left) (ce_timeout_ms right))
  (then_with (option_cmp Z.compare (ce_cache_ttl_seconds left) (ce_cache_ttl_seconds right))
     (bool_cmp (ce_enabled left) (ce_enabled right))))))).
(* eth2077-types/src/rpc_gateway.rs:498-509 compute_stats_commitment *)
Definition client_cmp (left right : CommitmentClient) : comparison :=
  then_with (bytes_cmp (cc_id left) (cc_id right))
  (then_with (bytes_cmp (cc_api_key_hash left) (cc_api_key_hash right))
  (then_with (Z.compare (cc_auth_method left) (cc_auth_method right))
  (then_with (bytes_cmp (cc_allowed_namespaces left) (cc_allowed_namespaces right))
  (then_with (option_cmp Z.compare (cc_rate_limit_override left) (cc_rate_limit_override right))
  (then_with (Z.compare (cc_created_at_unix left) (cc_created_at_unix right))
  (then_with (option_cmp Z.compare (cc_last_request_unix left) (cc_last_request_unix right))
  (then_with (Z.compare (cc_total_requests left) (cc_total_requests right))
     (bool_cmp (cc_blocked left) (cc_blocked right))))))))).
(* eth2077-types/src/rpc_gateway.rs:461-469 compute_stats_commitment *)
Definition endpoint_row (endpoint : RpcEndpoint) : CommitmentEndpoint :=
  {| ce_path := re_path endpoint;
     ce_namespace := namespace_rank (re_namespace endpoint);
     ce_auth_required := re_auth_required endpoint;
     ce_rate_limit_rps := re_rate_limit_rps endpoint;
     ce_timeout_ms := re_timeout_ms endpoint;
     ce_cache_ttl_seconds := re_cache_ttl_seconds endpoint;
     ce_enabled := re_enabled endpoint |}.

Section statistics.
Context {SU : SortUnstable}.

(* eth2077-types/src/rpc_gateway.rs:531-539 sorted_namespace_ranks *)
Definition sorted_namespace_ranks (namespaces : list RpcNamespace) : list Z :=
  dedup (sort_unstable_by Z.compare (namespace_rank <$> namespaces)).
(* eth2077-types/src/rpc_gateway.rs:485-496 compute_stats_commitment *)
Definition client_row (client : GatewayClient) : CommitmentClient :=
  {| cc_id := gc_id client;
     cc_api_key_hash := gc_api_key_hash client;
     cc_auth_method := auth_method_rank (gc_auth_method client);
     cc_allowed_namespaces := sorted_namespace_ranks (gc_allowed_namespaces client);
     cc_rate_limit_override := gc_rate_limit_override client;
     cc_created_at_unix := gc_created_at_unix client;
     cc_last_request_unix := gc_last_request_unix client;
     cc_total_requests := gc_total_requests client;
     cc_blocked := gc_blocked client |}.
(* eth2077-types/src/rpc_gateway.rs:450-529 compute_stats_commitment *)
Definition gateway_stats_commitment `{Sha256} `{GatewayJson} (endpoints : list RpcEndpoint) (clients : list GatewayClient)
    (total_endpoints total_clients blocked_clients total_requests namespaces_enabled : Z) : list Z :=
  sha256 (gateway_json
    {| cp_domain := RPC_GATEWAY_HASH_DOMAIN;
       cp_total_endpoints := total_endpoints;
       cp_total_clients := total_clients;
       cp_blocked_clients := blocked_clients;
       cp_total_requests := total_requests;
       cp_namespaces_enabled := namespaces_enabled;
       cp_endpoints := sort_by endpoint_cmp (endpoint_row <$> endpoints);
       cp_clients := sort_by client_cmp (client_row <$> clients) |}).
(* eth2077-types/src/rpc_gateway.rs:353-393 compute_stats *)
Definition gateway_compute_stats `{Sha256} `{GatewayJson} (endpoints : list RpcEndpoint) (clients : list GatewayClient)
  : RpcGatewayStats :=
  let total_endpoints := len endpoints in
  let total_clients := len clients in
  let blocked_clients := len (filter (λ client, gc_blocked client = true) clients) in
  let total_requests := foldl (λ acc client, u64_saturating_add acc (gc_total_requests client)) 0 clients in
  let namespaces_enabled :=
    Z.of_nat (size (list_to_set (C := gset Z)
      ((λ endpoint, namespace_rank (re_namespace endpoint)) <$>
         filter (λ endpoint, re_enabled endpoint = true) endpoints))) in
  {| rgs_total_endpoints := total_endpoints;
     rgs_total_clients := total_clients;
     rgs_blocked_clients := blocked_clients;
     rgs_total_requests := total_requests;
     rgs_avg_requests_per_client :=
       if total_clients =? 0 then f64_zero else f64_div (f64_of_u64 total_requests) (f64_of_u64 total_clients);
     rgs_namespaces_enabled := namespaces_enabled;
     rgs_commitment :=
       gateway_stats_commitment endpoints clients total_endpoints total_clients blocked_clients total_requests
         namespaces_enabled |}.
End statistics.

(** ** The statistics do not depend on the order of the input *)

#[export] Instance endpoint_cmp_ord : OrdCmp endpoint_cmp.
Proof.
  split.
  - unfold endpoint_cmp. apply (preorder_then ce_path bytes_cmp); [apply _|].
    apply (preorder_then ce_namespace Z.compare); [apply _|]. apply (preorder_then ce_auth_required bool_cmp); [apply _|].
    apply (preorder_then ce_rate_limit_rps Z.compare); [apply _|]. apply (preorder_then ce_timeout_ms Z.compare); [apply _|].
    apply (preorder_then ce_cache_ttl_seconds (option_cmp Z.compare)); [apply _|]. apply (preorder_on ce_enabled bool_cmp).
  - intros [] []. unfold endpoint_cmp. simpl. rewrite !then_with_eq.
    intros (->%(cmp_eq _) & ->%(cmp_eq _) & ->%(cmp_eq _) & ->%(cmp_eq _) & ->%(cmp_eq _) & ->%(cmp_eq _) & ->%(cmp_eq _)).
    done.
Qed.
#[export] Instance client_cmp_ord : OrdCmp client_cmp.
Proof.
  split.
  - unfold client_cmp. apply (preorder_then cc_id bytes_cmp); [apply _|].
    apply (preorder_then cc_api_key_hash bytes_cmp); [apply _|]. apply (preorder_then cc_auth_method Z.compare); [apply _|].
    apply (preorder_then cc_allowed_namespaces bytes_cmp); [apply _|].
    apply (preorder_then cc_rate_limit_override (option_cmp Z.compare)); [apply _|].
    apply (preorder_then cc_created_at_unix Z.compare); [apply _|].
    apply (preorder_then cc_last_request_unix (option_cmp Z.compare)); [apply _|].
    apply (preorder_then cc_total_requests Z.compare); [apply _|]. apply (preorder_on cc_blocked bool_cmp).
  - intros [] []. unfold client_cmp. simpl. rewrite !then_with_eq.
    intros (->%(cmp_eq _) & ->%(cmp_eq _) & ->%(cmp_eq _) & ->%(cmp_eq _) & ->%(cmp_eq _) & ->%(cmp_eq _) & ->%(cmp_eq _)
      & ->%(cmp_eq _) & ->%(cmp_eq _)). done.
Qed.

Lemma sorted_ranks_spec {SU : SortUnstable} namespaces :
  StronglySorted Z.lt (sorted_namespace_ranks namespaces) ∧
  ∀ rank, rank ∈ sorted_namespace_ranks namespaces ↔ ∃ namespace, namespace ∈ namespaces ∧ rank = namespace_rank namespace.
Proof.
  unfold sorted_namespace_ranks. split.
  - apply dedup_increasing. assert (StronglySorted (cmp_le Z.compare)
      (sort_unstable_by Z.compare (namespace_rank <$> namespaces))) as Hs by (apply sort_unstable_sorted, _).
    induction Hs as [|x l Hl IH Hx]; constructor; [done|]. eapply Forall_impl; [exact Hx|]. intros y. cbn.
    intros ?%Z.compare_ngt_iff. lia.
  - intros rank. rewrite elem_of_dedup, sort_unstable_perm, list_elem_of_fmap. naive_solver.
Qed.
(** Two descriptions of a client that allow the same namespaces. *)
Definition same_client (x y : GatewayClient) : Prop :=
  gc_id x = gc_id y ∧ gc_api_key_hash x = gc_api_key_hash y ∧ gc_auth_method x = gc_auth_method y ∧
  (∀ namespace, namespace ∈ gc_allowed_namespaces x ↔ namespace ∈ gc_allowed_namespaces y) ∧
  gc_rate_limit_override x = gc_rate_limit_override y ∧ gc_created_at_unix x = gc_created_at_unix y ∧
  gc_last_request_unix x = gc_last_request_unix y ∧ gc_total_requests x = gc_total_requests y ∧
  gc_blocked x = gc_blocked y.
Lemma client_row_same (SU1 SU2 : SortUnstable) x y :
  same_client x y → client_row (SU := SU1) x = client_row (SU := SU2) y.
Proof.
  intros (H1 & H2 & H3 & Hns & H5 & H6 & H7 & H8 & H9). unfold client_row. f_equal; try congruence.
  destruct (@sorted_ranks_spec SU1 (gc_allowed_namespaces x)) as [Hs1 He1].
  destruct (@sorted_ranks_spec SU2 (gc_allowed_namespaces y)) as [Hs2 He2].
  apply sorted_lt_unique; [done|done|]. intros rank. rewrite He1, He2. by setoid_rewrite Hns.
Qed.
Lemma filter_blocked_length clients clients' :
  Forall2 same_client clients clients' →
  length (filter (λ c, gc_blocked c = true) clients) = length (filter (λ c, gc_blocked c = true) clients').
Proof.
  induction 1 as [|x y l1 l2 (_ & _ & _ & _ & _ & _ & _ & _ & Hb) _ IH]; [done|]. rewrite !filter_cons, Hb.
  by destruct (decide (gc_blocked y = true)); simpl; rewrite IH.
Qed.

(** The statistics of the gateway and their commitment do not depend on the order in which
    the endpoints and the clients are listed, on the order or the repetition of the namespaces
    a client is allowed, or on the sorting algorithm. *)
Theorem gateway_stats_deterministic `{Sha256} `{GatewayJson} (SU1 SU2 : SortUnstable)
    endpoints endpoints' clients clients' reordered :
  endpoints ≡ₚ endpoints' → clients ≡ₚ reordered → Forall2 same_client reordered clients' →
  Forall (λ c, is_u64 (gc_total_requests c)) clients →
  gateway_compute_stats (SU := SU1) endpoints clients = gateway_compute_stats (SU := SU2) endpoints' clients'.
Proof.
  intros He Hc Hsame Htyped. unfold gateway_compute_stats, gateway_stats_commitment, len.
  assert (length clients = length clients') as -> by (rewrite Hc; by eapply Forall2_length).
  assert (length endpoints = length endpoints') as -> by by rewrite He.
  rewrite (Permutation_length (filter_Permutation (λ c, gc_blocked c = true) _ _ Hc)), (filter_blocked_length _ _ Hsame).
  assert (foldl (λ acc c, u64_saturating_add acc (gc_total_requests c)) 0 clients =
    foldl (λ acc c, u64_saturating_add acc (gc_total_requests c)) 0 clients') as ->.
  { rewrite !(foldl_map u64_saturating_add gc_total_requests).
    assert (gc_total_requests <$> reordered = gc_total_requests <$> clients') as Heq.
    { apply fmap_eq_Forall2. eapply Forall2_impl; [exact Hsame|]. by intros x y (_&_&_&_&_&_&_&?&_). }
    rewrite <- Heq. assert (Forall (λ z, 0 ≤ z) (gc_total_requests <$> clients)) as Hnn.
    { apply Forall_fmap. eapply Forall_impl; [exact Htyped|]. intros c. cbn. sat_lia. }
    rewrite !foldl_saturating_add; [|by rewrite <- Hc|lia|done|lia].
    by rewrite (Zsum_perm _ (gc_total_requests <$> reordered)) by by rewrite Hc. }
  assert (list_to_set (C := gset Z) ((λ e, namespace_rank (re_namespace e)) <$> filter (λ e, re_enabled e = true) endpoints) =
    list_to_set ((λ e, namespace_rank (re_namespace e)) <$> filter (λ e, re_enabled e = true) endpoints')) as ->.
  { apply list_to_set_perm_L. by rewrite He. }
  assert (client_row (SU := SU1) <$> reordered = client_row (SU := SU2) <$> clients') as Hrows.
  { clear - Hsame. induction Hsame as [|x y l1 l2 Hxy _ IH]; [done|]. csimpl. by rewrite (client_row_same SU1 SU2 x y Hxy), IH. }
  rewrite (sort_by_order endpoint_cmp _ (endpoint_row <$> endpoints')) by by rewrite He.
  rewrite (sort_by_order client_cmp _ (client_row (SU := SU2) <$> clients')) by (rewrite <- Hrows; by rewrite Hc).
  done.
Qed.

Definition example_client (id : Str) (namespaces : list RpcNamespace) : GatewayClient :=
  {| gc_id := id; gc_api_key_hash := zero_bytes 32; gc_auth_method := ApiKey; gc_allowed_namespaces := namespaces;
     gc_rate_limit_override := None; gc_created_at_unix := 1; gc_last_request_unix := Some 9; gc_total_requests := 7;
     gc_blocked := false |}.
Definition example_endpoint (path : Str) : RpcEndpoint :=
  {| re_path := path; re_namespace := Eth; re_auth_required := true; re_rate_limit_rps := 10; re_timeout_ms := 100;
     re_cache_ttl_seconds := None; re_enabled := true |}.
(** The ranks and the identifiers, in place of the JSON. *)
Definition example_gateway_json : GatewayJson :=
  λ payload, concat (ce_path <$> cp_endpoints payload) ++
    concat ((λ c, cc_id c ++ cc_allowed_namespaces c) <$> cp_clients payload).
Definition example_gateway_stats (paths : list Str) (clients : list GatewayClient) : RpcGatewayStats :=
  gateway_compute_stats (H := λ bytes, bytes) (H0 := example_gateway_json) (SU := stable_sort_unstable)
    (example_endpoint <$> paths) clients.
Lemma gateway_stats_deterministic_witness :
  example_gateway_stats [str "/a"; str "/b"] [example_client (str "x") [Eth; Net; Eth]; example_client (str "y") []] =
  example_gateway_stats [str "/b"; str "/a"] [example_client (str "y") []; example_client (str "x") [Net; Eth]] ∧
  rgs_total_requests (example_gateway_stats [] [example_client (str "x") []; example_client (str "y") []]) = 14.
Proof.
  split; [|reflexivity].
  apply (gateway_stats_deterministic (H := λ bytes, bytes) (H0 := example_gateway_json) stable_sort_unstable
    stable_sort_unstable _ _ _ _ [example_client (str "y") []; example_client (str "x") [Eth; Net; Eth]]).
  - apply Permutation_swap.
  - apply Permutation_swap.
  - constructor; [|constructor; [|constructor]]; split_and!; try reflexivity; cbn [example_client gc_allowed_namespaces];
      intros namespace; rewrite !elem_of_cons, elem_of_nil; tauto.
  - repeat constructor; done.
Defined.

(** ** What validation accepts *)

Lemma cors_errors_nil index seen origins :
  cors_errors index seen origins = [] ↔
  Forall (λ o, trim o ≠ [] ∧ is_valid_cors_origin (trim o) = true) origins ∧
  NoDup ((λ o, to_ascii_lowercase (trim o)) <$> origins) ∧
  Forall (λ o, to_ascii_lowercase (trim o) ∉ seen) origins.
Proof.
  revert index seen. induction origins as [|o l IH]; intros index seen; csimpl; [repeat constructor|].
  rewrite NoDup_cons, !Forall_cons. cbn [cors_errors]. case_bool_decide as Ht; [naive_solver|].
  rewrite !app_nil, !push_if_nil, negb_false_iff, bool_decide_eq_false, IH.
  rewrite (Forall_not_seen (λ o, to_ascii_lowercase (trim o))). naive_solver.
Qed.
(** A blocked client may call nothing, another one what it is allowed. *)
Lemma is_allowed_exact client namespace :
  GatewayClient_is_allowed client namespace = true ↔
  gc_blocked client = false ∧ namespace ∈ gc_allowed_namespaces client.
Proof.
  unfold GatewayClient_is_allowed. destruct (gc_blocked client); [naive_solver|]. rewrite bool_decide_eq_true. naive_solver.
Qed.
Example gateway_config_examples :
  RpcGatewayConfig_validate default_gateway_config = [] ∧
  fe_field <$> cors_errors 0 ∅ [str "https://a.io"; str " HTTPS://A.io "; str "ftp://b"; str "  "; str "*"] =
    [str "cors_origins[1]"; str "cors_origins[1]"; str "cors_origins[2]"; str "cors_origins[3]"].
Proof. by vm_compute. Qed.
