(* ===== verification/Bootnodes.v ===== *)
(** * Bootnode discovery ([eth2077-types/src/bootnode_discovery.rs])

    The configuration of peer discovery and its validation, the test for a healthy topology,
    and the statistics of bootnodes and peers with their commitment. *)
From S2P Require Import Prelude Validation Strings Metadata Floats Gateway.
Local Open Scope Z_scope.

(* eth2077-types/src/bootnode_discovery.rs:3-3 ETH2077_TESTNET_NODE_COUNT *)
Definition ETH2077_TESTNET_NODE_COUNT : Z := 48.
(* eth2077-types/src/bootnode_discovery.rs:4-4 DEFAULT_TARGET_PEER_COUNT *)
Definition DEFAULT_TARGET_PEER_COUNT : Z := 25.
(* eth2077-types/src/bootnode_discovery.rs:5-5 DEFAULT_MAX_PEER_COUNT *)
Definition DEFAULT_MAX_PEER_COUNT : Z := 50.
(* eth2077-types/src/bootnode_discovery.rs:6-6 DEFAULT_BOOTNODE_COUNT *)
Definition DEFAULT_BOOTNODE_COUNT : Z := 4.
(* eth2077-types/src/bootnode_discovery.rs:7-7 DEFAULT_REFRESH_INTERVAL_SECONDS *)
Definition DEFAULT_REFRESH_INTERVAL_SECONDS : Z := 30.
(* eth2077-types/src/bootnode_discovery.rs:8-8 DEFAULT_EVICTION_TIMEOUT_SECONDS *)
Definition DEFAULT_EVICTION_TIMEOUT_SECONDS : Z := 300.
(* eth2077-types/src/bootnode_discovery.rs:9-9 MAX_TARGET_PEER_COUNT_ALLOWED *)
Definition MAX_TARGET_PEER_COUNT_ALLOWED : Z := 128.
(* eth2077-types/src/bootnode_discovery.rs:10-10 MAX_PEER_COUNT_ALLOWED *)
Definition MAX_PEER_COUNT_ALLOWED : Z := 256.
(* eth2077-types/src/bootnode_discovery.rs:12-17 DiscoveryProtocol *)
Inductive DiscoveryProtocol := Discv4 | Discv5 | DnsDiscovery | StaticPeers.
#[export] Instance DiscoveryProtocol_eq_dec : EqDecision DiscoveryProtocol.
Proof. solve_decision. Defined.
(* eth2077-types/src/bootnode_discovery.rs:19-26 DiscoveryProtocol::as_str *)
Definition DiscoveryProtocol_as_str (self : DiscoveryProtocol) : Str :=
  match self with
  | Discv4 => str "discv4" | Discv5 => str "discv5"
  | DnsDiscovery => str "dns-discovery" | StaticPeers => str "static-peers"
  end.
(* eth2077-types/src/bootnode_discovery.rs:29-34 NodeReachability *)
Inductive NodeReachability := Public | BehindNat | Firewalled | UnknownReachability.
(* eth2077-types/src/bootnode_discovery.rs:36-43 NodeReachability::as_str *)
Definition NodeReachability_as_str (self : NodeReachability) : Str :=
  match self with
  | Public => str "public" | BehindNat => str "behind-nat"
  | Firewalled => str "firewalled" | UnknownReachability => str "unknown"
  end.
(* eth2077-types/src/bootnode_discovery.rs:44-46 NodeReachability::is_reachable *)
Definition NodeReachability_is_reachable (self : NodeReachability) : bool :=
  match self with Public | BehindNat => true | _ => false end.
(* eth2077-types/src/bootnode_discovery.rs:49-54 TopologyStrategy *)
Inductive TopologyStrategy := FullMesh | KademliaDht | StarTopology | HybridMesh.
(* eth2077-types/src/bootnode_discovery.rs:66-71 BootnodeHealth *)
Inductive BootnodeHealth := Online | DegradedBootnode | Offline | Syncing.
(* eth2077-types/src/bootnode_discovery.rs:73-80 BootnodeHealth::as_str *)
Definition BootnodeHealth_as_str (self : BootnodeHealth) : Str :=
  match self with
  | Online => str "online" | DegradedBootnode => str "degraded" | Offline => str "offline" | Syncing => str "syncing"
  end.
(* eth2077-types/src/bootnode_discovery.rs:81-83 BootnodeHealth::is_healthy *)
Definition BootnodeHealth_is_healthy (self : BootnodeHealth) : bool :=
  match self with Online | DegradedBootnode => true | _ => false end.
(* eth2077-types/src/bootnode_discovery.rs:86-97 Bootnode *)
Record Bootnode := {
  bn_id : Str;
  bn_enode_url : Str;
  bn_enr_record : Str;
  bn_ip_address : Str;
  bn_tcp_port : Z;
  bn_udp_port : Z;
  bn_health : BootnodeHealth;
  bn_region : Str;
  bn_connected_peers : Z;
  bn_uptime_seconds : Z;
}.
(* eth2077-types/src/bootnode_discovery.rs:102-104 Bootnode::endpoint *)
Definition Bootnode_endpoint (self : Bootnode) : Str := bn_ip_address self ++ str ":" ++ decimal (bn_tcp_port self).
(* eth2077-types/src/bootnode_discovery.rs:107-116 DiscoveredPeer *)
Record DiscoveredPeer := {
  dp_node_id : Str;
  dp_protocol : DiscoveryProtocol;
  dp_reachability : NodeReachability;
  dp_latency_ms : f64;
  dp_discovered_at_unix : Z;
  dp_last_seen_unix : Z;
  dp_client_version : Str;
  dp_capabilities : list Str;
}.
(* eth2077-types/src/bootnode_discovery.rs:121-123 DiscoveredPeer::has_valid_latency *)
Definition DiscoveredPeer_has_valid_latency (self : DiscoveredPeer) : bool :=
  f64_is_finite (dp_latency_ms self) && f64_le f64_zero (dp_latency_ms self).
(* eth2077-types/src/bootnode_discovery.rs:126-135 TopologySnapshot *)
Record TopologySnapshot := {
  ts_timestamp_unix : Z;
  ts_total_nodes : Z;
  ts_connected_pairs : Z;
  ts_avg_peer_count : f64;
  ts_min_peer_count : Z;
  ts_max_peer_count : Z;
  ts_network_diameter : Z;
  ts_partitioned : bool;
}.
(* eth2077-types/src/bootnode_discovery.rs:137-141 TopologySnapshot::max_possible_pairs *)
Definition TopologySnapshot_max_possible_pairs (self : TopologySnapshot) : Z :=
  u64_saturating_mul (ts_total_nodes self) (u64_saturating_sub (ts_total_nodes self) 1) / 2.
(* eth2077-types/src/bootnode_discovery.rs:142-149 TopologySnapshot::connectivity_ratio *)
Definition TopologySnapshot_connectivity_ratio (self : TopologySnapshot) : f64 :=
  let max_pairs := TopologySnapshot_max_possible_pairs self in
  if max_pairs =? 0 then f64_zero else f64_div (f64_of_u64 (ts_connected_pairs self)) (f64_of_u64 max_pairs).
(* eth2077-types/src/bootnode_discovery.rs:152-162 BootnodeDiscoveryConfig *)
Record BootnodeDiscoveryConfig := {
  bd_discovery_protocol : DiscoveryProtocol;
  bd_topology_strategy : TopologyStrategy;
  bd_target_peer_count : Z;
  bd_max_peer_count : Z;
  bd_bootnode_count : Z;
  bd_refresh_interval_seconds : Z;
  bd_eviction_timeout_seconds : Z;
  bd_dns_discovery_url : option Str;
  bd_enable_nat_traversal : bool;
}.
(* eth2077-types/src/bootnode_discovery.rs:164-167 BootnodeDiscoveryValidationError *)
Definition BootnodeDiscoveryValidationError : Type := FieldError.
(* eth2077-types/src/bootnode_discovery.rs:169-178 BootnodeDiscoveryStats *)
Record BootnodeDiscoveryStats := {
  bds_total_bootnodes : Z;
  bds_healthy_bootnodes : Z;
  bds_discovered_peers : Z;
  bds_reachable_peers : Z;
  bds_avg_latency_ms : f64;
  bds_avg_peer_count : f64;
  bds_network_partitioned : bool;
  bds_commitment : list Z;
}.
(* eth2077-types/src/bootnode_discovery.rs:190-204 BootnodeDiscoveryConfig::default *)
Definition default_discovery_config : BootnodeDiscoveryConfig :=
  {| bd_discovery_protocol := Discv5;
     bd_topology_strategy := KademliaDht;
     bd_target_peer_count := DEFAULT_TARGET_PEER_COUNT;
     bd_max_peer_count := DEFAULT_MAX_PEER_COUNT;
     bd_bootnode_count := DEFAULT_BOOTNODE_COUNT;
     bd_refresh_interval_seconds := DEFAULT_REFRESH_INTERVAL_SECONDS;
     bd_eviction_timeout_seconds := DEFAULT_EVICTION_TIMEOUT_SECONDS;
     bd_dns_discovery_url := None;
     bd_enable_nat_traversal := true |}.

(** ** Validation *)

(* eth2077-types/src/bootnode_discovery.rs:261-304 validate_peer_counts *)
Definition validate_peer_counts (config : BootnodeDiscoveryConfig) : list BootnodeDiscoveryValidationError :=
  push_if (bd_target_peer_count config =? 0)
    (field_error "target_peer_count" "target_peer_count must be greater than zero") ++
  push_if (MAX_TARGET_PEER_COUNT_ALLOWED <? bd_target_peer_count config)
    (field_error "target_peer_count" "target_peer_count must be <= 128 for bounded memory pressure") ++
  push_if (bd_max_peer_count config =? 0)
    (field_error "max_peer_count" "max_peer_count must be greater than zero") ++
  push_if (MAX_PEER_COUNT_ALLOWED <? bd_max_peer_count config)
    (field_error "max_peer_count" "max_peer_count must be <= 256 for bounded memory pressure") ++
  push_if (bd_max_peer_count config <? bd_target_peer_count config)
    (field_error "target_peer_count" "target_peer_count must be less than or equal to max_peer_count").
(* eth2077-types/src/bootnode_discovery.rs:305-332 validate_bootnode_count *)
Definition validate_bootnode_count (config : BootnodeDiscoveryConfig) : list BootnodeDiscoveryValidationError :=
  push_if (bd_bootnode_count config =? 0)
    (field_error "bootnode_count" "bootnode_count must be greater than zero") ++
  push_if (ETH2077_TESTNET_NODE_COUNT <? bd_bootnode_count config)
    (field_error "bootnode_count" "bootnode_count must be <= 48 for a 48-node public testnet") ++
  push_if (bd_max_peer_count config <? bd_bootnode_count config)
    (field_error "bootnode_count" "bootnode_count should not exceed max_peer_count").
(* eth2077-types/src/bootnode_discovery.rs:333-358 validate_timers *)
Definition validate_timers (config : BootnodeDiscoveryConfig) : list BootnodeDiscoveryValidationError :=
  push_if ((bd_refresh_interval_seconds config <? 5) || (3600 <? bd_refresh_interval_seconds config))
    (field_error "refresh_interval_seconds" "refresh_interval_seconds must be within [5, 3600]") ++
  push_if ((bd_eviction_timeout_seconds config <? 30) || (86400 <? bd_eviction_timeout_seconds config))
    (field_error "eviction_timeout_seconds" "eviction_timeout_seconds must be within [30, 86400]") ++
  push_if (bd_eviction_timeout_seconds config <=? bd_refresh_interval_seconds config)
    (field_error "eviction_timeout_seconds" "eviction_timeout_seconds must be greater than refresh_interval_seconds").
(* eth2077-types/src/bootnode_discovery.rs:451-471 validate_dns_url *)
Definition validate_dns_url (value : Str) : list BootnodeDiscoveryValidationError :=
  let trimmed := trim value in
  if bool_decide (trimmed = [])
  then [field_error "dns_discovery_url" "dns_discovery_url must not be empty"] else
  let has_valid_scheme :=
    starts_with (str "enrtree://") trimmed || starts_with (str "dns://") trimmed ||
    starts_with (str "https://") trimmed in
  push_if (negb has_valid_scheme)
    (field_error "dns_discovery_url" "dns_discovery_url must start with enrtree://, dns://, or https://").
(* eth2077-types/src/bootnode_discovery.rs:359-385 validate_dns_settings *)
Definition validate_dns_settings (config : BootnodeDiscoveryConfig) : list BootnodeDiscoveryValidationError :=
  match bd_discovery_protocol config, bd_dns_discovery_url config with
  | DnsDiscovery, None =>
      [field_error "dns_discovery_url" "dns_discovery_url is required when discovery_protocol is DnsDiscovery"]
  | DnsDiscovery, Some value => validate_dns_url value
  | _, Some value =>
      if bool_decide (trim value = [])
      then [field_error "dns_discovery_url" "dns_discovery_url must not be empty when provided"]
      else validate_dns_url value
  | _, None => []
  end.
(* eth2077-types/src/bootnode_discovery.rs:386-436 validate_topology_expectations *)
Definition validate_topology_expectations (config : BootnodeDiscoveryConfig)
  : list BootnodeDiscoveryValidationError :=
  match bd_topology_strategy config with
  | FullMesh =>
      let expected := u64_saturating_sub ETH2077_TESTNET_NODE_COUNT 1 in
      push_if (bd_target_peer_count config <? expected)
        {| fe_field := str "target_peer_count";
           fe_message := str "FullMesh expects target_peer_count >= " ++ decimal expected |}
  | KademliaDht =>
      push_if (bd_target_peer_count config <? 8)
        (field_error "target_peer_count" "KademliaDht expects target_peer_count >= 8")
  | StarTopology =>
      push_if (bd_bootnode_count config <? 1)
        (field_error "bootnode_count" "StarTopology requires at least one bootnode") ++
      push_if (bd_target_peer_count config <? 2)
        (field_error "target_peer_count" "StarTopology expects target_peer_count >= 2")
  | HybridMesh =>
      push_if (bd_target_peer_count config <? 12)
        (field_error "target_peer_count" "HybridMesh expects target_peer_count >= 12")
  end.
(* eth2077-types/src/bootnode_discovery.rs:437-450 validate_nat_settings *)
Definition validate_nat_settings (config : BootnodeDiscoveryConfig) : list BootnodeDiscoveryValidationError :=
  push_if (negb (bd_enable_nat_traversal config) && bool_decide (bd_discovery_protocol config = Discv5))
    (field_error "enable_nat_traversal" "enable_nat_traversal=false is not recommended with Discv5").
(* eth2077-types/src/bootnode_discovery.rs:206-215 BootnodeDiscoveryConfig::validate *)
Definition BootnodeDiscoveryConfig_validate (self : BootnodeDiscoveryConfig)
  : list BootnodeDiscoveryValidationError :=
  validate_peer_counts self ++ validate_bootnode_count self ++ validate_timers self ++
  validate_dns_settings self ++ validate_topology_expectations self ++ validate_nat_settings self.

(** ** Topology *)

(* eth2077-types/src/bootnode_discovery.rs:636-642 sanitize_f64 *)
Definition sanitize_f64 (value : f64) : f64 := if f64_is_finite value then value else f64_zero.
(* eth2077-types/src/bootnode_discovery.rs:643-651 healthy_diameter_ceiling *)
Definition healthy_diameter_ceiling (total_nodes : Z) : Z :=
  if total_nodes <=? 2 then 1 else
  if total_nodes <=? 8 then 3 else
  if total_nodes <=? 16 then 4 else
  if total_nodes <=? 32 then 6 else 8.
(** [f64::EPSILON] *)
Definition F64_EPSILON : f64 := dec 1 (2 ^ 52).
(* eth2077-types/src/bootnode_discovery.rs:243-260 is_healthy_network *)
Definition is_healthy_network (snapshot : TopologySnapshot) (min_connectivity : f64) : bool :=
  if negb (f64_is_finite min_connectivity) ||
     negb (f64_le f64_zero min_connectivity && f64_le min_connectivity (int 1)) then false else
  if (ts_total_nodes snapshot =? 0) || ts_partitioned snapshot then false else
  let ratio := TopologySnapshot_connectivity_ratio snapshot in
  if f64_lt (f64_add ratio F64_EPSILON) min_connectivity then false else
  let required_avg_peers :=
    f64_ceil (f64_mul (f64_of_u64 (u64_saturating_sub (ts_total_nodes snapshot) 1)) min_connectivity) in
  if f64_lt (f64_add (sanitize_f64 (ts_avg_peer_count snapshot)) F64_EPSILON) required_avg_peers then false else
  ts_network_diameter snapshot <=? healthy_diameter_ceiling (ts_total_nodes snapshot).

(** ** Statistics *)

(* eth2077-types/src/bootnode_discovery.rs:482-496 compute_average_latency *)
Definition compute_average_latency (peers : list DiscoveredPeer) : f64 :=
  let valid := filter (λ peer, DiscoveredPeer_has_valid_latency peer = true) peers in
  let sum := foldl (λ sum peer, f64_add sum (dp_latency_ms peer)) f64_zero valid in
  if len valid =? 0 then f64_zero else f64_div sum (f64_of_u64 (len valid)).
(* eth2077-types/src/bootnode_discovery.rs:497-506 resolve_average_peer_count *)
Definition resolve_average_peer_count (bootnodes : list Bootnode) (snapshot : option TopologySnapshot) : f64 :=
  match snapshot with
  | Some topology => sanitize_f64 (ts_avg_peer_count topology)
  | None =>
      if bool_decide (bootnodes = []) then f64_zero else
      let total_connected := foldl (λ sum node, u64_wrapping_add sum (bn_connected_peers node)) 0 bootnodes in
      f64_div (f64_of_u64 total_connected) (f64_of_u64 (len bootnodes))
  end.
(* eth2077-types/src/bootnode_discovery.rs:617-622 append_str *)
Definition append_str (key value : Str) : list Z := key ++ str "=" ++ value ++ str ";".
(* eth2077-types/src/bootnode_discovery.rs:623-625 append_usize *)
Definition append_usize (key : Str) (value : Z) : list Z := append_str key (decimal value).
(* eth2077-types/src/bootnode_discovery.rs:626-628 append_u64 *)
Definition append_u64 (key : Str) (value : Z) : list Z := append_str key (decimal value).
(* eth2077-types/src/bootnode_discovery.rs:629-632 append_f64 *)
Definition append_f64 (key : Str) (value : f64) : list Z := append_str key (f64_fixed 6 (sanitize_f64 value)).
(* eth2077-types/src/bootnode_discovery.rs:633-635 append_bool *)
Definition append_bool (key : Str) (value : bool) : list Z := append_str key (if value then str "1" else str "0").
(* eth2077-types/src/bootnode_discovery.rs:549-571 append_bootnodes *)
Definition append_bootnodes (bootnodes : list Bootnode) : list Z :=
  let ordered :=
    sort_by (λ left right, then_with (bytes_cmp (bn_id left) (bn_id right))
      (then_with (bytes_cmp (bn_ip_address left) (bn_ip_address right))
      (then_with (Z.compare (bn_tcp_port left) (bn_tcp_port right))
         (Z.compare (bn_udp_port left) (bn_udp_port right))))) bootnodes in
  append_usize (str "bootnodes.len") (len ordered) ++
  (ordered ≫= λ node,
     append_str (str "bootnode.id") (bn_id node) ++
     append_str (str "bootnode.enode_url") (bn_enode_url node) ++
     append_str (str "bootnode.enr_record") (bn_enr_record node) ++
     append_str (str "bootnode.ip_address") (bn_ip_address node) ++
     append_usize (str "bootnode.tcp_port") (bn_tcp_port node) ++
     append_usize (str "bootnode.udp_port") (bn_udp_port node) ++
     append_str (str "bootnode.health") (BootnodeHealth_as_str (bn_health node)) ++
     append_str (str "bootnode.region") (bn_region node) ++
     append_usize (str "bootnode.connected_peers") (bn_connected_peers node) ++
     append_u64 (str "bootnode.uptime_seconds") (bn_uptime_seconds node)).
(* eth2077-types/src/bootnode_discovery.rs:572-596 append_peers *)
Definition append_peers (peers : list DiscoveredPeer) : list Z :=
  let ordered :=
    sort_by (λ left right, then_with (bytes_cmp (dp_node_id left) (dp_node_id right))
      (then_with (bytes_cmp (DiscoveryProtocol_as_str (dp_protocol left)) (DiscoveryProtocol_as_str (dp_protocol right)))
         (Z.compare (dp_discovered_at_unix left) (dp_discovered_at_unix right)))) peers in
  append_usize (str "peers.len") (len ordered) ++
  (ordered ≫= λ peer,
     let capabilities := sort_by bytes_cmp (dp_capabilities peer) in
     append_str (str "peer.node_id") (dp_node_id peer) ++
     append_str (str "peer.protocol") (DiscoveryProtocol_as_str (dp_protocol peer)) ++
     append_str (str "peer.reachability") (NodeReachability_as_str (dp_reachability peer)) ++
     append_f64 (str "peer.latency_ms") (dp_latency_ms peer) ++
     append_u64 (str "peer.discovered_at_unix") (dp_discovered_at_unix peer) ++
     append_u64 (str "peer.last_seen_unix") (dp_last_seen_unix peer) ++
     append_str (str "peer.client_version") (dp_client_version peer) ++
     append_usize (str "peer.capabilities.len") (len capabilities) ++
     (capabilities ≫= append_str (str "peer.capability"))).
(* eth2077-types/src/bootnode_discovery.rs:597-616 append_snapshot *)
Definition append_snapshot (snapshot : option TopologySnapshot) : list Z :=
  match snapshot with
  | None => append_bool (str "snapshot.present") false
  | Some topology =>
      append_bool (str "snapshot.present") true ++
      append_u64 (str "snapshot.timestamp_unix") (ts_timestamp_unix topology) ++
      append_usize (str "snapshot.total_nodes") (ts_total_nodes topology) ++
      append_usize (str "snapshot.connected_pairs") (ts_connected_pairs topology) ++
      append_f64 (str "snapshot.avg_peer_count") (ts_avg_peer_count topology) ++
      append_usize (str "snapshot.min_peer_count") (ts_min_peer_count topology) ++
      append_usize (str "snapshot.max_peer_count") (ts_max_peer_count topology) ++
      append_usize (str "snapshot.network_diameter") (ts_network_diameter topology) ++
      append_bool (str "snapshot.partitioned") (ts_partitioned topology)
  end.
(** The statistics the commitment is computed from are the record without the commitment. *)
(* eth2077-types/src/bootnode_discovery.rs:507-548 compute_commitment *)
Definition discovery_compute_commitment `{Sha256} (bootnodes : list Bootnode) (peers : list DiscoveredPeer)
    (snapshot : option TopologySnapshot) (derived : BootnodeDiscoveryStats) : list Z :=
  sha256 (
    append_usize (str "stats.total_bootnodes") (bds_total_bootnodes derived) ++
    append_usize (str "stats.healthy_bootnodes") (bds_healthy_bootnodes derived) ++
    append_usize (str "stats.discovered_peers") (bds_discovered_peers derived) ++
    append_usize (str "stats.reachable_peers") (bds_reachable_peers derived) ++
    append_f64 (str "stats.avg_latency_ms") (bds_avg_latency_ms derived) ++
    append_f64 (str "stats.avg_peer_count") (bds_avg_peer_count derived) ++
    append_bool (str "stats.network_partitioned") (bds_network_partitioned derived) ++
    append_bootnodes bootnodes ++ append_peers peers ++ append_snapshot snapshot).
(* eth2077-types/src/bootnode_discovery.rs:217-242 compute_stats *)
Definition discovery_compute_stats `{Sha256} (bootnodes : list Bootnode) (peers : list DiscoveredPeer)
    (snapshot : option TopologySnapshot) : BootnodeDiscoveryStats :=
  let derived commitment :=
    {| bds_total_bootnodes := len bootnodes;
       bds_healthy_bootnodes := len (filter (λ node, BootnodeHealth_is_healthy (bn_health node) = true) bootnodes);
       bds_discovered_peers := len peers;
       bds_reachable_peers := len (filter (λ peer, NodeReachability_is_reachable (dp_reachability peer) = true) peers);
       bds_avg_latency_ms := compute_average_latency peers;
       bds_avg_peer_count := resolve_average_peer_count bootnodes snapshot;
       bds_network_partitioned := match snapshot with Some topology => ts_partitioned topology | None => false end;
       bds_commitment := commitment |} in
  derived (discovery_compute_commitment bootnodes peers snapshot (derived [])).

(** ** What validation accepts *)

Definition dns_url_ok (value : Str) : Prop :=
  starts_with (str "enrtree://") (trim value) = true ∨ starts_with (str "dns://") (trim value) = true ∨
  starts_with (str "https://") (trim value) = true.
Definition minimum_target (strategy : TopologyStrategy) : Z :=
  match strategy with FullMesh => 47 | KademliaDht => 8 | StarTopology => 2 | HybridMesh => 12 end.
Record discovery_config_ok (c : BootnodeDiscoveryConfig) : Prop := {
  ok_target : minimum_target (bd_topology_strategy c) ≤ bd_target_peer_count c ≤ 128;
  ok_max : bd_target_peer_count c ≤ bd_max_peer_count c ≤ 256;
  ok_bootnodes : 1 ≤ bd_bootnode_count c ≤ Z.min 48 (bd_max_peer_count c);
  ok_refresh : 5 ≤ bd_refresh_interval_seconds c ≤ 3600;
  ok_eviction : Z.max 30 (bd_refresh_interval_seconds c + 1) ≤ bd_eviction_timeout_seconds c ≤ 86400;
  ok_dns : match bd_dns_discovery_url c with
           | Some url => dns_url_ok url
           | None => bd_discovery_protocol c ≠ DnsDiscovery
           end;
  ok_nat : bd_discovery_protocol c = Discv5 → bd_enable_nat_traversal c = true;
}.
Lemma dns_url_errors_nil value : validate_dns_url value = [] ↔ dns_url_ok value.
Proof.
  unfold validate_dns_url, dns_url_ok. case_bool_decide as Ht.
  - rewrite Ht. split; [done|]. vm_compute. naive_solver.
  - rewrite push_if_nil, negb_false_iff, !orb_true_iff. tauto.
Qed.
Lemma dns_errors_nil c :
  validate_dns_settings c = [] ↔
  match bd_dns_discovery_url c with Some url => dns_url_ok url | None => bd_discovery_protocol c ≠ DnsDiscovery end.
Proof.
  unfold validate_dns_settings. destruct (bd_dns_discovery_url c) as [url|]; [|by destruct (bd_discovery_protocol c)].
  assert (∀ l : list FieldError, l ≠ [] → (if bool_decide (trim url = []) then l else validate_dns_url url) = [] ↔
    dns_url_ok url) as Hblank.
  { intros l Hl. rewrite <- dns_url_errors_nil. case_bool_decide as Ht; [|done].
    unfold validate_dns_url. rewrite Ht. naive_solver. }
  destruct (bd_discovery_protocol c); try by apply Hblank. apply dns_url_errors_nil.
Qed.
Lemma validate_discovery_exact c :
  is_u64 (bd_target_peer_count c) → is_u64 (bd_bootnode_count c) →
  BootnodeDiscoveryConfig_validate c = [] ↔ discovery_config_ok c.
Proof.
  intros Ht Hb.
  assert (validate_topology_expectations c = [] ↔
    (bd_topology_strategy c = StarTopology → 1 ≤ bd_bootnode_count c) ∧
    minimum_target (bd_topology_strategy c) ≤ bd_target_peer_count c) as Htopo.
  { unfold validate_topology_expectations. destruct (bd_topology_strategy c); cbn [minimum_target];
      rewrite ?app_nil, !push_if_nil, !Z.ltb_ge;
    change (u64_saturating_sub ETH2077_TESTNET_NODE_COUNT 1) with 47 in *; naive_solver lia. }
  unfold BootnodeDiscoveryConfig_validate, validate_peer_counts, validate_bootnode_count, validate_timers,
    validate_nat_settings, MAX_TARGET_PEER_COUNT_ALLOWED, MAX_PEER_COUNT_ALLOWED, ETH2077_TESTNET_NODE_COUNT.
  rewrite !app_nil, !push_if_nil, Htopo, dns_errors_nil, !orb_false_iff, !Z.eqb_neq, !Z.ltb_ge, Z.leb_gt.
  rewrite andb_false_iff, negb_false_iff, bool_decide_eq_false. split.
  - intros (? & ? & ? & ? & [Hstar Hmin] & Hnat). split; try sat_lia; [done|naive_solver].
  - intros [H1 H2 H3 H4 H5 H6 H7].
    assert (0 < minimum_target (bd_topology_strategy c)) by (by destruct (bd_topology_strategy c)).
    split_and!; try sat_lia; try done.
    destruct (decide (bd_discovery_protocol c = Discv5)); [left; by apply H7|by right].
Qed.
(** A network that passes for healthy has a node, is not partitioned, and has a diameter of at
    most eight. *)
Lemma healthy_network_safe snapshot min_connectivity :
  is_healthy_network snapshot min_connectivity = true →
  ts_total_nodes snapshot ≠ 0 ∧ ts_partitioned snapshot = false ∧
  ts_network_diameter snapshot ≤ healthy_diameter_ceiling (ts_total_nodes snapshot) ≤ 8.
Proof.
  unfold is_healthy_network. destruct (_ || negb _); [done|]. destruct (_ || ts_partitioned snapshot) eqn:Hp; [done|].
  apply orb_false_iff in Hp as [?%Z.eqb_neq ?]. destruct (f64_lt _ _); [done|]. destruct (f64_lt _ _); [done|].
  intros ?%Z.leb_le. split_and!; try done. unfold healthy_diameter_ceiling. repeat case_match; lia.
Qed.
Definition example_topology (pairs diameter : Z) (peers : f64) : TopologySnapshot :=
  {| ts_timestamp_unix := 1; ts_total_nodes := 48; ts_connected_pairs := pairs; ts_avg_peer_count := peers;
     ts_min_peer_count := 1; ts_max_peer_count := 47; ts_network_diameter := diameter; ts_partitioned := false |}.
Example healthy_network_examples :
  BootnodeDiscoveryConfig_validate default_discovery_config = [] ∧
  is_healthy_network (example_topology 564 8 (int 24)) (dec 1 2) = true ∧
  is_healthy_network (example_topology 563 8 (int 24)) (dec 1 2) = false ∧
  is_healthy_network (example_topology 564 8 (dec 239 10)) (dec 1 2) = false ∧
  is_healthy_network (example_topology 564 9 (int 24)) (dec 1 2) = false ∧
  is_healthy_network (example_topology 1128 1 (int 47)) (int 1) = true.
Proof. by vm_compute. Qed.
