(* ===== verification/SnapshotSync.v ===== *)
(** * Snapshot synchronisation ([eth2077-types/src/snapshot_sync.rs])

    Snapshots, checkpoints and the sessions that download them: the progress of a session,
    the configuration and its validation, and the statistics with their commitment.  The JSON
    of the commitment's payload is [serde_json]'s, a parameter. *)
From S2P Require Import Prelude Validation Strings Metadata Floats FloatFacts Bootnodes.
Local Open Scope Z_scope.

(* eth2077-types/src/snapshot_sync.rs:9-14 SnapshotFormat *)
Inductive SnapshotFormat := FullSnapshot | PrunedSnapshot | ArchiveSnapshot | DiffBased.
#[export] Instance SnapshotFormat_eq_dec : EqDecision SnapshotFormat.
Proof. solve_decision. Defined.
(* eth2077-types/src/snapshot_sync.rs:17-23 SyncPhase *)
Inductive SyncPhase := Discovery | Download | VerificationPhase | Application | Finalization.
#[export] Instance SyncPhase_eq_dec : EqDecision SyncPhase.
Proof. solve_decision. Defined.
(* eth2077-types/src/snapshot_sync.rs:26-31 RepairStrategy *)
Inductive RepairStrategy := Redownload | Reconstruct | PeerAssist | ManualIntervention.
(* eth2077-types/src/snapshot_sync.rs:34-39 CheckpointSource *)
Inductive CheckpointSource := Beacon | ExecutionLayer | ExternalOracle | BootstrapNode.
#[export] Instance CheckpointSource_eq_dec : EqDecision CheckpointSource.
Proof. solve_decision. Defined.
(* eth2077-types/src/snapshot_sync.rs:42-52 Snapshot *)
Record Snapshot := {
  sn_id : Str;
  sn_slot : Z;
  sn_state_root : list Z;
  sn_format : SnapshotFormat;
  sn_size_bytes : Z;
  sn_chunk_count : Z;
  sn_created_at_unix : Z;
  sn_source_node : Str;
  sn_signature : list Z;
}.
(* eth2077-types/src/snapshot_sync.rs:55-63 Checkpoint *)
Record Checkpoint := {
  ck_slot : Z;
  ck_block_root : list Z;
  ck_state_root : list Z;
  ck_source : CheckpointSource;
  ck_finalized : bool;
  ck_verified_by_count : Z;
  ck_timestamp_unix : Z;
}.
(* eth2077-types/src/snapshot_sync.rs:72-84 SyncSession *)
Record SyncSession := {
  ss_id : Str;
  ss_snapshot_id : Str;
  ss_phase : SyncPhase;
  ss_chunks_downloaded : Z;
  ss_chunks_verified : Z;
  ss_chunks_total : Z;
  ss_started_at_unix : Z;
  ss_ended_at_unix : option Z;
  ss_bandwidth_bytes_per_sec : f64;
  ss_repair_attempts : Z;
  ss_repair_strategy : option RepairStrategy;
}.
(* eth2077-types/src/snapshot_sync.rs:136-145 SnapshotSyncConfig *)
Record SnapshotSyncConfig := {
  sc_max_snapshot_age_slots : Z;
  sc_min_chunk_peers : Z;
  sc_max_concurrent_downloads : Z;
  sc_verification_parallelism : Z;
  sc_max_repair_attempts : Z;
  sc_preferred_format : SnapshotFormat;
  sc_checkpoint_sources : list CheckpointSource;
  sc_bandwidth_limit_mbps : option f64;
}.
(* eth2077-types/src/snapshot_sync.rs:148-151 SnapshotSyncValidationError *)
Definition SnapshotSyncValidationError : Type := FieldError.
(* eth2077-types/src/snapshot_sync.rs:154-163 SnapshotSyncStats *)
Record SnapshotSyncStats := {
  sst_snapshots_available : Z;
  sst_checkpoints_verified : Z;
  sst_sync_sessions_completed : Z;
  sst_avg_sync_duration_s : f64;
  sst_avg_bandwidth_mbps : f64;
  sst_repair_rate : f64;
  sst_total_data_synced_gb : f64;
  sst_commitment : list Z;
}.
(* eth2077-types/src/snapshot_sync.rs:165-178 SnapshotSyncConfig::default *)
Definition default_sync_config : SnapshotSyncConfig :=
  {| sc_max_snapshot_age_slots := 8192;
     sc_min_chunk_peers := 3;
     sc_max_concurrent_downloads := 8;
     sc_verification_parallelism := 4;
     sc_max_repair_attempts := 3;
     sc_preferred_format := FullSnapshot;
     sc_checkpoint_sources := [Beacon; ExecutionLayer];
     sc_bandwidth_limit_mbps := None |}.

(** ** Sessions *)

(* eth2077-types/src/snapshot_sync.rs:589-591 is_zero_32 *)
Definition is_zero_32 (value : list Z) : bool := forallb (Z.eqb 0) value.
(* eth2077-types/src/snapshot_sync.rs:66-68 Checkpoint::is_verified *)
Definition Checkpoint_is_verified (self : Checkpoint) : bool :=
  (0 <? ck_verified_by_count self) && negb (is_zero_32 (ck_block_root self)) && negb (is_zero_32 (ck_state_root self)).
(* eth2077-types/src/snapshot_sync.rs:87-89 SyncSession::is_completed *)
Definition SyncSession_is_completed (self : SyncSession) : bool := bool_decide (is_Some (ss_ended_at_unix self)).
(* eth2077-types/src/snapshot_sync.rs:91-94 SyncSession::duration_s *)
Definition SyncSession_duration_s (self : SyncSession) : option Z :=
  (λ ended, u64_saturating_sub ended (ss_started_at_unix self)) <$> ss_ended_at_unix self.
(* eth2077-types/src/snapshot_sync.rs:577-579 bytes_per_sec_to_mbps *)
Definition bytes_per_sec_to_mbps (bytes_per_sec : f64) : f64 :=
  f64_div (f64_mul bytes_per_sec (int 8)) (int 1000000).
(* eth2077-types/src/snapshot_sync.rs:96-102 SyncSession::bandwidth_mbps *)
Definition SyncSession_bandwidth_mbps (self : SyncSession) : f64 :=
  if negb (f64_is_finite (ss_bandwidth_bytes_per_sec self)) || f64_le (ss_bandwidth_bytes_per_sec self) f64_zero
  then f64_zero else bytes_per_sec_to_mbps (ss_bandwidth_bytes_per_sec self).
(* eth2077-types/src/snapshot_sync.rs:118-124 SyncSession::progress_pct *)
Definition phase_floor (phase : SyncPhase) : f64 :=
  match phase with
  | Discovery => f64_zero | Download => int 5 | VerificationPhase => int 40
  | Application => int 80 | Finalization => int 95
  end.
(* eth2077-types/src/snapshot_sync.rs:104-132 SyncSession::progress_pct *)
Definition SyncSession_progress_pct (self : SyncSession) : f64 :=
  let finished := bool_decide (ss_phase self = Finalization) && bool_decide (is_Some (ss_ended_at_unix self)) in
  if ss_chunks_total self =? 0 then if finished then int 100 else f64_zero else
  let ratio chunks := f64_div (f64_of_u64 (Z.min chunks (ss_chunks_total self))) (f64_of_u64 (ss_chunks_total self)) in
  let weighted_progress :=
    f64_add (f64_mul (ratio (ss_chunks_downloaded self)) (int 70)) (f64_mul (ratio (ss_chunks_verified self)) (int 30)) in
  let progress := f64_maximum weighted_progress (phase_floor (ss_phase self)) in
  let progress := if finished then int 100 else progress in
  f64_clamp progress f64_zero (int 100).

(** ** Validation *)

(* eth2077-types/src/snapshot_sync.rs:522-529 source_order *)
Definition source_order (source : CheckpointSource) : Z :=
  match source with Beacon => 0 | ExecutionLayer => 1 | ExternalOracle => 2 | BootstrapNode => 3 end.
(** The flags of the sources seen, as the set of their indices. *)
(* eth2077-types/src/snapshot_sync.rs:510-520 has_duplicate_checkpoint_sources *)
Fixpoint duplicate_sources (seen : gset Z) (sources : list CheckpointSource) : bool :=
  match sources with
  | [] => false
  | source :: sources =>
      if bool_decide (source_order source ∈ seen) then true
      else duplicate_sources ({[source_order source]} ∪ seen) sources
  end.
(* eth2077-types/src/snapshot_sync.rs:181-275 SnapshotSyncConfig::validate *)
Definition SnapshotSyncConfig_validate (self : SnapshotSyncConfig) : list SnapshotSyncValidationError :=
  push_if (sc_max_snapshot_age_slots self =? 0) (field_error "max_snapshot_age_slots" "must be greater than 0") ++
  push_if (sc_min_chunk_peers self =? 0) (field_error "min_chunk_peers" "must be greater than 0") ++
  push_if (sc_max_concurrent_downloads self =? 0)
    (field_error "max_concurrent_downloads" "must be greater than 0") ++
  push_if (sc_verification_parallelism self =? 0)
    (field_error "verification_parallelism" "must be greater than 0") ++
  push_if (sc_max_repair_attempts self =? 0) (field_error "max_repair_attempts" "must be greater than 0") ++
  push_if (u64_saturating_mul (sc_max_concurrent_downloads self) 4 <? sc_min_chunk_peers self)
    (field_error "min_chunk_peers" "is too high relative to max_concurrent_downloads") ++
  push_if (u64_saturating_mul (sc_max_concurrent_downloads self) 8 <? sc_verification_parallelism self)
    (field_error "verification_parallelism" "is too high relative to max_concurrent_downloads") ++
  push_if (bool_decide (sc_checkpoint_sources self = []))
    (field_error "checkpoint_sources" "must contain at least one source") ++
  push_if (duplicate_sources ∅ (sc_checkpoint_sources self))
    (field_error "checkpoint_sources" "must not contain duplicates") ++
  push_if (bool_decide (sc_preferred_format self = DiffBased) && (sc_min_chunk_peers self <? 2))
    (field_error "preferred_format" "DiffBased format requires min_chunk_peers >= 2") ++
  match sc_bandwidth_limit_mbps self with
  | None => []
  | Some limit =>
      push_if (negb (f64_is_finite limit) || f64_le limit f64_zero)
        (field_error "bandwidth_limit_mbps" "must be finite and greater than 0 when set") ++
      push_if (f64_lt (int 1000000) limit)
        (field_error "bandwidth_limit_mbps" "is unrealistically high; expected <= 1,000,000 Mbps")
  end.

(** ** Statistics *)

(* eth2077-types/src/snapshot_sync.rs:539-550 average_or_zero *)
Definition average_or_zero (samples : list f64) : f64 :=
  if bool_decide (samples = []) then f64_zero else
  let sum := f64_sum samples in
  if negb (f64_is_finite sum) then f64_zero else f64_div sum (f64_of_u64 (len samples)).
(* eth2077-types/src/snapshot_sync.rs:581-587 bytes_to_gigabytes *)
Definition bytes_to_gigabytes (bytes : f64) : f64 :=
  if negb (f64_is_finite bytes) || f64_le bytes f64_zero then f64_zero else f64_div bytes (int 1000000000).
(* eth2077-types/src/snapshot_sync.rs:552-575 estimate_synced_bytes *)
Definition estimate_synced_bytes (session : SyncSession) (snapshot_size_by_id : gmap Str Z) : f64 :=
  match snapshot_size_by_id !! ss_snapshot_id session with
  | None => f64_zero
  | Some size_bytes =>
      if size_bytes =? 0 then f64_zero else
      if ss_chunks_total session =? 0 then
        if SyncSession_is_completed session then f64_of_u64 size_bytes
        else f64_mul (f64_of_u64 size_bytes) (f64_div (SyncSession_progress_pct session) (int 100))
      else
        let completed_chunks :=
          Z.min (Z.max (ss_chunks_downloaded session) (ss_chunks_verified session)) (ss_chunks_total session) in
        let ratio := f64_div (f64_of_u64 completed_chunks) (f64_of_u64 (ss_chunks_total session)) in
        f64_mul (f64_of_u64 size_bytes) (f64_clamp ratio f64_zero (int 1))
  end.
(* eth2077-types/src/snapshot_sync.rs:375-388 SessionCommitmentView *)
Record SessionCommitmentView := {
  sv_session : SyncSession;
  sv_progress_pct : f64;
}.
(* eth2077-types/src/snapshot_sync.rs:402-407 CommitmentPayload *)
Record SyncCommitmentPayload := {
  spl_snapshots : list Snapshot;
  spl_checkpoints : list Checkpoint;
  spl_sessions : list SessionCommitmentView;
  spl_stats : SnapshotSyncStats;
}.
(** [serde_json::to_vec(&payload)], which does not fail on these types. *)
Class SyncJson := sync_json : SyncCommitmentPayload → list Z.

(* eth2077-types/src/snapshot_sync.rs:429-434 compute_commitment_payload *)
Definition snapshot_cmp (left right : Snapshot) : comparison :=
  then_with (bytes_cmp (sn_id left) (sn_id right))
    (then_with (Z.compare (sn_slot left) (sn_slot right))
       (Z.compare (sn_created_at_unix left) (sn_created_at_unix right))).
(* eth2077-types/src/snapshot_sync.rs:448-453 compute_commitment_payload *)
Definition checkpoint_cmp (left right : Checkpoint) : comparison :=
  then_with (Z.compare (ck_slot left) (ck_slot right))
    (then_with (Z.compare (source_order (ck_source left)) (source_order (ck_source right)))
       (Z.compare (ck_timestamp_unix left) (ck_timestamp_unix right))).
(* eth2077-types/src/snapshot_sync.rs:472-477 compute_commitment_payload *)
Definition session_cmp (left right : SessionCommitmentView) : comparison :=
  let l := sv_session left in let r := sv_session right in
  then_with (bytes_cmp (ss_id l) (ss_id r))
    (then_with (bytes_cmp (ss_snapshot_id l) (ss_snapshot_id r))
       (Z.compare (ss_started_at_unix l) (ss_started_at_unix r))).
(* eth2077-types/src/snapshot_sync.rs:457-470 compute_commitment_payload *)
Definition session_view (session : SyncSession) : SessionCommitmentView :=
  {| sv_session :=
       {| ss_id := ss_id session; ss_snapshot_id := ss_snapshot_id session; ss_phase := ss_phase session;
          ss_chunks_downloaded := ss_chunks_downloaded session; ss_chunks_verified := ss_chunks_verified session;
          ss_chunks_total := ss_chunks_total session; ss_started_at_unix := ss_started_at_unix session;
          ss_ended_at_unix := ss_ended_at_unix session;
          ss_bandwidth_bytes_per_sec := sanitize_f64 (ss_bandwidth_bytes_per_sec session);
          ss_repair_attempts := ss_repair_attempts session; ss_repair_strategy := ss_repair_strategy session |};
     sv_progress_pct := sanitize_f64 (SyncSession_progress_pct session) |}.
(** The statistics in the payload have no commitment. *)
(* eth2077-types/src/snapshot_sync.rs:409-501 compute_commitment_payload *)
Definition compute_commitment_payload `{Sha256} `{SyncJson} (snapshots : list Snapshot)
    (checkpoints : list Checkpoint) (sessions : list SyncSession) (stats : SnapshotSyncStats) : list Z :=
  sha256 (sync_json
    {| spl_snapshots := sort_by snapshot_cmp snapshots;
       spl_checkpoints := sort_by checkpoint_cmp checkpoints;
       spl_sessions := sort_by session_cmp (session_view <$> sessions);
       spl_stats :=
         {| sst_snapshots_available := sst_snapshots_available stats;
            sst_checkpoints_verified := sst_checkpoints_verified stats;
            sst_sync_sessions_completed := sst_sync_sessions_completed stats;
            sst_avg_sync_duration_s := sanitize_f64 (sst_avg_sync_duration_s stats);
            sst_avg_bandwidth_mbps := sanitize_f64 (sst_avg_bandwidth_mbps stats);
            sst_repair_rate := sanitize_f64 (sst_repair_rate stats);
            sst_total_data_synced_gb := sanitize_f64 (sst_total_data_synced_gb stats);
            sst_commitment := [] |} |}).
(** Collecting pairs into a [HashMap]: the last of the pairs with a key wins. *)
(* eth2077-types/src/snapshot_sync.rs:278-348 compute_stats *)
Definition snapshot_compute_stats `{Sha256} `{SyncJson} (snapshots : list Snapshot) (checkpoints : list Checkpoint)
    (sessions : list SyncSession) : SnapshotSyncStats :=
  let completed_sessions := filter (λ session, SyncSession_is_completed session = true) sessions in
  let duration_sum := Zsum ((λ session, default 0 (SyncSession_duration_s session)) <$> completed_sessions) in
  let bandwidth_samples :=
    filter (λ value, f64_is_finite value && f64_le f64_zero value = true) (SyncSession_bandwidth_mbps <$> sessions) in
  let repair_sessions := filter (λ session, 0 < ss_repair_attempts session) sessions in
  let snapshot_size_by_id : gmap Str Z :=
    foldl (λ m snapshot, <[sn_id snapshot := sn_size_bytes snapshot]> m) ∅ snapshots in
  let synced_bytes_total := f64_sum ((λ session, estimate_synced_bytes session snapshot_size_by_id) <$> sessions) in
  let base_stats commitment :=
    {| sst_snapshots_available := len snapshots;
       sst_checkpoints_verified := len (filter (λ checkpoint, Checkpoint_is_verified checkpoint = true) checkpoints);
       sst_sync_sessions_completed := len completed_sessions;
       sst_avg_sync_duration_s :=
         if bool_decide (completed_sessions = []) then f64_zero
         else f64_div (f64_of_u64 duration_sum) (f64_of_u64 (len completed_sessions));
       sst_avg_bandwidth_mbps := average_or_zero bandwidth_samples;
       sst_repair_rate :=
         if bool_decide (sessions = []) then f64_zero
         else f64_div (f64_of_u64 (len repair_sessions)) (f64_of_u64 (len sessions));
       sst_total_data_synced_gb := bytes_to_gigabytes synced_bytes_total;
       sst_commitment := commitment |} in
  base_stats (compute_commitment_payload snapshots checkpoints sessions (base_stats (zero_bytes 32))).

(** ** Progress *)

Record typed_session (s : SyncSession) : Prop := {
  typed_downloaded : is_u64 (ss_chunks_downloaded s);
  typed_verified : is_u64 (ss_chunks_verified s);
  typed_total : is_u64 (ss_chunks_total s);
}.
Lemma chunk_ratio_mag chunks total :
  is_u64 chunks → is_u64 total → total ≠ 0 → mag_le 67 (f64_div (f64_of_u64 (Z.min chunks total)) (f64_of_u64 total)).
Proof.
  intros Hc Ht Hne. assert (2 ^ 64 = u64_max + 1) as H64 by done.
  assert (mag_le 65 (f64_of_u64 (Z.min chunks total))) as Hm by (apply (f64_of_u64_mag _ 64); [rewrite H64; sat_lia|lia]).
  apply (f64_div_int_mag 65); [done|change (2 ^ 128) with (u128_max + 1); sat_lia|lia].
Qed.
Lemma int_mag z : 0 ≤ z < 256 → mag_le 9 (int z).
Proof. intros Hz. apply (f64_of_u64_mag z 8); [change (2 ^ 8) with 256; lia|lia]. Qed.
Lemma phase_floor_finite phase : finite_double (phase_floor phase).
Proof. destruct phase; by vm_compute. Qed.
Lemma percent_bounds :
  finite_double (int 100) ∧ units f64_zero ≤ units (int 100).
Proof. destruct (f64_of_u64_exact 100 ltac:(lia)) as [? ->]. split; [done|]. pose proof (Z.pow_pos_nonneg 2 1074).
  change (units f64_zero) with 0. lia. Qed.
Lemma clamped_percent x :
  finite_double x → f64_le f64_zero (f64_clamp x f64_zero (int 100)) = true ∧ f64_le (f64_clamp x f64_zero (int 100)) (int 100) = true.
Proof.
  intros Hx. destruct percent_bounds as [H100 Hle].
  destruct (f64_clamp_units x f64_zero (int 100)) as [Hf Hb]; [done..|].
  rewrite !f64_le_units by done. lia.
Qed.

(** The progress of a session is a number between 0 and 100, whatever the counters of
    chunks say, and it is exactly 100 once a session in its last phase has ended. *)
Theorem sync_progress_bounded session :
  typed_session session →
  f64_le f64_zero (SyncSession_progress_pct session) = true ∧
  f64_le (SyncSession_progress_pct session) (int 100) = true ∧
  (ss_phase session = Finalization → is_Some (ss_ended_at_unix session) →
   SyncSession_progress_pct session = int 100).
Proof.
  intros [Hd Hv Ht]. unfold SyncSession_progress_pct.
  destruct (bool_decide (ss_phase session = Finalization) && bool_decide (is_Some (ss_ended_at_unix session))) eqn:Hfin.
  { case_if_goal; split_and!; by vm_compute. }
  assert (ss_phase session = Finalization → is_Some (ss_ended_at_unix session) → False) as Hnot.
  { intros Hp He. by rewrite !bool_decide_eq_true_2 in Hfin by done. }
  destruct (Z.eqb_spec (ss_chunks_total session) 0) as [|Hne].
  { split_and!; [by vm_compute..|]. intros Hp He. by destruct (Hnot Hp He). }
  pose proof (f64_mul_mag _ _ _ _ (chunk_ratio_mag _ _ Hd Ht Hne) (int_mag 70 ltac:(lia)) ltac:(lia)) as H1.
  pose proof (f64_mul_mag _ _ _ _ (chunk_ratio_mag _ _ Hv Ht Hne) (int_mag 30 ltac:(lia)) ltac:(lia)) as H2.
  pose proof (f64_add_mag _ _ _ H1 H2 ltac:(lia)) as Hw%mag_le_finite.
  destruct (f64_maximum_units _ _ Hw (phase_floor_finite (ss_phase session))) as [Hm _].
  destruct (clamped_percent _ Hm) as [Hlo Hhi]. split_and!; [done..|]. intros Hp He. by destruct (Hnot Hp He).
Qed.
Definition example_session (phase : SyncPhase) (downloaded verified total : Z) (ended : option Z) : SyncSession :=
  {| ss_id := str "s"; ss_snapshot_id := str "n"; ss_phase := phase; ss_chunks_downloaded := downloaded;
     ss_chunks_verified := verified; ss_chunks_total := total; ss_started_at_unix := 10; ss_ended_at_unix := ended;
     ss_bandwidth_bytes_per_sec := int 1000; ss_repair_attempts := 0; ss_repair_strategy := None |}.
Lemma sync_progress_bounded_witness :
  let session := example_session Finalization 3 2 8 (Some 99) in
  f64_le f64_zero (SyncSession_progress_pct session) = true ∧
  f64_le (SyncSession_progress_pct session) (int 100) = true ∧
  (ss_phase session = Finalization → is_Some (ss_ended_at_unix session) →
   SyncSession_progress_pct session = int 100).
Proof. apply (sync_progress_bounded (example_session Finalization 3 2 8 (Some 99))). by split. Defined.
Example progress_examples :
  SyncSession_progress_pct (example_session Download 4 2 8 None) = dec 85 2 ∧
  SyncSession_progress_pct (example_session Application 4 2 8 None) = int 80 ∧
  SyncSession_progress_pct (example_session Download 9 9 8 None) = int 100 ∧
  SnapshotSyncConfig_validate default_sync_config = [].
Proof. by vm_compute. Qed.

(** ** What validation accepts *)

Lemma source_order_inj a b : source_order a = source_order b → a = b.
Proof. by destruct a, b. Qed.
Lemma duplicate_sources_exact seen sources :
  duplicate_sources seen sources = false ↔ NoDup sources ∧ Forall (λ s, source_order s ∉ seen) sources.
Proof.
  revert seen. induction sources as [|s l IH]; intros seen; cbn [duplicate_sources]; [repeat constructor|].
  rewrite NoDup_cons, Forall_cons. case_bool_decide as Hs; [naive_solver|]. rewrite IH, (Forall_not_seen source_order).
  assert (source_order s ∉ source_order <$> l ↔ s ∉ l) as ->; [|naive_solver].
  rewrite list_elem_of_fmap. split; [naive_solver|]. intros Hn (y & Hy%source_order_inj & Hin). by subst.
Qed.
Record sync_config_ok (c : SnapshotSyncConfig) : Prop := {
  ok_age : sc_max_snapshot_age_slots c ≠ 0;
  ok_chunk_peers : 1 ≤ sc_min_chunk_peers c ≤ u64_saturating_mul (sc_max_concurrent_downloads c) 4;
  ok_downloads : sc_max_concurrent_downloads c ≠ 0;
  ok_parallelism : 1 ≤ sc_verification_parallelism c ≤ u64_saturating_mul (sc_max_concurrent_downloads c) 8;
  ok_repairs : sc_max_repair_attempts c ≠ 0;
  ok_sources : sc_checkpoint_sources c ≠ [] ∧ NoDup (sc_checkpoint_sources c);
  ok_diff : sc_preferred_format c = DiffBased → 2 ≤ sc_min_chunk_peers c;
  ok_limit : ∀ limit, sc_bandwidth_limit_mbps c = Some limit →
    f64_is_finite limit = true ∧ f64_le limit f64_zero = false ∧ f64_lt (int 1000000) limit = false;
}.
Lemma validate_sync_exact c :
  is_u64 (sc_min_chunk_peers c) → is_u64 (sc_verification_parallelism c) →
  SnapshotSyncConfig_validate c = [] ↔ sync_config_ok c.
Proof.
  intros Hp Hv. unfold SnapshotSyncConfig_validate.
  assert (match sc_bandwidth_limit_mbps c with
    | None => []
    | Some limit =>
        push_if (negb (f64_is_finite limit) || f64_le limit f64_zero)
          (field_error "bandwidth_limit_mbps" "must be finite and greater than 0 when set") ++
        push_if (f64_lt (int 1000000) limit)
          (field_error "bandwidth_limit_mbps" "is unrealistically high; expected <= 1,000,000 Mbps")
    end = [] ↔ ∀ limit, sc_bandwidth_limit_mbps c = Some limit →
      f64_is_finite limit = true ∧ f64_le limit f64_zero = false ∧ f64_lt (int 1000000) limit = false) as Hlimit.
  { destruct (sc_bandwidth_limit_mbps c) as [x|]; [|naive_solver].
    rewrite app_nil, !push_if_nil, orb_false_iff, negb_false_iff. split; [by intros [[??]?] ? [= <-]|].
    intros Hx. destruct (Hx x eq_refl) as (?&?&?). done. }
  rewrite !app_nil, !push_if_nil, Hlimit, duplicate_sources_exact, andb_false_iff, !bool_decide_eq_false.
  rewrite !Z.eqb_neq, !Z.ltb_ge. pose proof (Forall_not_empty source_order (sc_checkpoint_sources c)) as Hempty. split.
  - intros (?&?&?&?&?&?&?&?&[? _]&Hdiff&?). split; try done; try sat_lia. intros Hf. by destruct Hdiff.
  - intros [H1 H2 H3 H4 H5 [H6 H6'] H7 H8]. split_and!; try done; try lia.
    destruct (decide (sc_preferred_format c = DiffBased)); [right; by apply H7|by left].
Qed.
