(* ===== verification/ChainSpec.v ===== *)
(** * Chain specifications ([eth2077-types/src/chain_spec.rs])

    The frozen description of a network: its validation, its statistics and the commitment to
    it.  Names of forks and EIPs are compared after the case mappings of Unicode, which are
    the class [UnicodeCase]. *)
From S2P Require Import Prelude Validation Strings Metadata.
Local Open Scope Z_scope.

(** [str::to_lowercase] and [str::to_uppercase]. *)
Class UnicodeCase := {
  to_lowercase : Str → Str;
  to_uppercase : Str → Str;
}.

(* eth2077-types/src/chain_spec.rs:22-35 NetworkKind *)
Inductive NetworkKind := Mainnet | Testnet | Devnet | ShadowNetwork | LocalNetwork | CustomNetwork.
#[export] Instance NetworkKind_eq_dec : EqDecision NetworkKind.
Proof. solve_decision. Defined.
(* eth2077-types/src/chain_spec.rs:39-52 ForkPhase *)
Inductive ForkPhase := Scheduled | Activated | DeprecatedFork | Cancelled | PendingFork | Emergency.
#[export] Instance ForkPhase_eq_dec : EqDecision ForkPhase.
Proof. solve_decision. Defined.
(* eth2077-types/src/chain_spec.rs:56-69 ConsensusType *)
Inductive ConsensusType := ProofOfStake | CitadelOob | Hybrid | ProofOfAuthority | Delegated | Experimental.
(* eth2077-types/src/chain_spec.rs:73-86 SpecStatus *)
Inductive SpecStatus := Draft | Frozen | Released | Superseded | Revoked | Archived.
(* eth2077-types/src/chain_spec.rs:90-103 ForkEntry *)
Record ForkEntry := {
  fe_name : Str;
  fe_phase : ForkPhase;
  fe_activation_epoch : Z;
  fe_eips : list Str;
  fe_consensus_change : bool;
  fe_metadata : gmap Str Str;
}.
(* eth2077-types/src/chain_spec.rs:107-126 ChainSpecConfig *)
Record ChainSpecConfig := {
  cs_chain_id : Z;
  cs_network : NetworkKind;
  cs_consensus : ConsensusType;
  cs_status : SpecStatus;
  cs_genesis_time : Z;
  cs_slots_per_epoch : Z;
  cs_seconds_per_slot : Z;
  cs_forks : list ForkEntry;
  cs_metadata : gmap Str Str;
}.
(* eth2077-types/src/chain_spec.rs:130-135 ChainSpecValidationError *)
Definition ChainSpecValidationError : Type := FieldError.
(* eth2077-types/src/chain_spec.rs:139-152 ChainSpecStats *)
Record ChainSpecStats := {
  css_total_forks : Z;
  css_active_forks : Z;
  css_pending_forks : Z;
  css_eip_count : Z;
  css_has_consensus_changes : bool;
  css_spec_version : Str;
}.

(* eth2077-types/src/chain_spec.rs:500-509 network_label *)
Definition network_label (value : NetworkKind) : Str :=
  match value with
  | Mainnet => str "mainnet" | Testnet => str "testnet" | Devnet => str "devnet"
  | ShadowNetwork => str "shadow" | LocalNetwork => str "local" | CustomNetwork => str "custom"
  end.
(* eth2077-types/src/chain_spec.rs:511-520 fork_phase_label *)
Definition fork_phase_label (value : ForkPhase) : Str :=
  match value with
  | Scheduled => str "scheduled" | Activated => str "activated" | DeprecatedFork => str "deprecated"
  | Cancelled => str "cancelled" | PendingFork => str "pending" | Emergency => str "emergency"
  end.
(** [{:?}] *)
Definition fork_phase_debug (value : ForkPhase) : Str :=
  match value with
  | Scheduled => str "Scheduled" | Activated => str "Activated" | DeprecatedFork => str "Deprecated"
  | Cancelled => str "Cancelled" | PendingFork => str "Pending" | Emergency => str "Emergency"
  end.
(* eth2077-types/src/chain_spec.rs:522-531 consensus_label *)
Definition consensus_label (value : ConsensusType) : Str :=
  match value with
  | ProofOfStake => str "proof_of_stake" | CitadelOob => str "citadel_oob" | Hybrid => str "hybrid"
  | ProofOfAuthority => str "proof_of_authority" | Delegated => str "delegated" | Experimental => str "experimental"
  end.
(* eth2077-types/src/chain_spec.rs:533-542 status_label *)
Definition status_label (value : SpecStatus) : Str :=
  match value with
  | Draft => str "draft" | Frozen => str "frozen" | Released => str "released"
  | Superseded => str "superseded" | Revoked => str "revoked" | Archived => str "archived"
  end.
(* eth2077-types/src/chain_spec.rs:157-211 default_chain_spec_config *)
Definition default_chain_spec_config : ChainSpecConfig :=
  {| cs_chain_id := 20770001;
     cs_network := Testnet;
     cs_consensus := ProofOfStake;
     cs_status := Draft;
     cs_genesis_time := 1766000000;
     cs_slots_per_epoch := 32;
     cs_seconds_per_slot := 12;
     cs_forks :=
       [{| fe_name := str "genesis-bootstrap"; fe_phase := Activated; fe_activation_epoch := 0;
           fe_eips := [str "EIP-1559"; str "EIP-4895"]; fe_consensus_change := false;
           fe_metadata := <[str "rollout" := str "genesis"]> (<[str "ticket" := str "ETH2077-BOOT"]> ∅) |};
        {| fe_name := str "citadel-oob-alpha"; fe_phase := Scheduled; fe_activation_epoch := 12000;
           fe_eips := [str "EIP-7002"; str "EIP-7251"]; fe_consensus_change := true;
           fe_metadata := <[str "rollout" := str "canary"]> (<[str "ticket" := str "ETH2077-CITADEL-01"]> ∅) |};
        {| fe_name := str "throughput-balance-v1"; fe_phase := PendingFork; fe_activation_epoch := 24000;
           fe_eips := [str "EIP-7623"]; fe_consensus_change := false;
           fe_metadata := <[str "rollout" := str "stage-1"]> (<[str "ticket" := str "ETH2077-THR-02"]> ∅) |}];
     cs_metadata :=
       <[str "profile" := str "freeze-candidate"]>
       (<[str "owner" := str "eth2077-core"]>
       (<[str "spec_version" := str "2026.1-testnet"]> ∅)) |}.

(** ** Validation *)

(** [metadata.get(key).map(|v| v.trim()).unwrap_or("")] *)
Definition trimmed_entry (metadata : gmap Str Str) (key : Str) : Str := default [] (trim <$> (metadata !! key)).
Definition has_blank_key `{HashOrder} (metadata : gmap Str Str) : bool :=
  existsb (λ e, bool_decide (trim e.1 = [])) (hash_iter metadata).
Definition chain_error (field : string) (message : Str) : ChainSpecValidationError :=
  {| fe_field := str field; fe_message := message |}.

Section validation.
Context `{UnicodeCase} `{HashOrder}.

(* eth2077-types/src/chain_spec.rs:333-355 validate_chain_spec_config *)
Fixpoint eip_errors (name : Str) (seen_eips : gset Str) (eips : list Str) : list ChainSpecValidationError :=
  match eips with
  | [] => []
  | eip :: eips =>
      let token := trim eip in
      if bool_decide (token = [])
      then chain_error "forks.eips" (str "fork '" ++ name ++ str "' contains an empty EIP entry") ::
           eip_errors name seen_eips eips
      else
        let normalized := to_uppercase token in
        push_if (bool_decide (normalized ∈ seen_eips))
          (chain_error "forks.eips" (str "fork '" ++ name ++ str "' contains duplicate EIP '" ++ token ++ str "'")) ++
        eip_errors name ({[normalized]} ∪ seen_eips) eips
  end.
(** The table of names seen maps to the index it was first seen at. *)
(* eth2077-types/src/chain_spec.rs:283-367 validate_chain_spec_config *)
Fixpoint fork_errors (index : Z) (seen_names : gmap Str Z) (previous_epoch : option Z) (forks : list ForkEntry)
  : list ChainSpecValidationError :=
  match forks with
  | [] => []
  | fork :: forks =>
      let name := trim (fe_name fork) in
      let normalized_name := to_lowercase name in
      push_if (bool_decide (name = [])) (field_error "forks.name" "fork names must not be empty") ++
      match seen_names !! normalized_name with
      | Some prior_index =>
          [chain_error "forks.name" (str "fork name '" ++ name ++ str "' is duplicated at indices " ++
             decimal prior_index ++ str " and " ++ decimal index)]
      | None => []
      end ++
      push_if ((bool_decide (fe_phase fork = Scheduled) || bool_decide (fe_phase fork = PendingFork)) &&
               (fe_activation_epoch fork =? 0))
        (chain_error "forks.activation_epoch" (str "fork '" ++ name ++ str "' in phase " ++
           fork_phase_debug (fe_phase fork) ++ str " must have activation_epoch > 0")) ++
      match previous_epoch with
      | Some prior =>
          push_if (fe_activation_epoch fork <? prior)
            (chain_error "forks.activation_epoch" (str "fork '" ++ name ++
               str "' has non-monotonic activation epoch " ++ decimal (fe_activation_epoch fork) ++
               str " (previous " ++ decimal prior ++ str ")"))
      | None => []
      end ++
      eip_errors name ∅ (fe_eips fork) ++
      push_if (has_blank_key (fe_metadata fork))
        (chain_error "forks.metadata" (str "fork '" ++ name ++ str "' contains an empty metadata key")) ++
      fork_errors (index + 1)
        (match seen_names !! normalized_name with
         | Some _ => seen_names
         | None => <[normalized_name := index]> seen_names
         end) (Some (fe_activation_epoch fork)) forks
  end.
(* eth2077-types/src/chain_spec.rs:227-374 validate_chain_spec_config *)
Definition validate_chain_spec_config (config : ChainSpecConfig) : result unit (list ChainSpecValidationError) :=
  errors_to_result (
    push_if (cs_chain_id config =? 0) (field_error "chain_id" "must be greater than zero") ++
    push_if (cs_genesis_time config =? 0) (field_error "genesis_time" "must be greater than zero") ++
    push_if (cs_slots_per_epoch config =? 0) (field_error "slots_per_epoch" "must be greater than zero") ++
    push_if (cs_seconds_per_slot config =? 0) (field_error "seconds_per_slot" "must be greater than zero") ++
    push_if (bool_decide (cs_forks config = [])) (field_error "forks" "must include at least one fork entry") ++
    push_if (bool_decide (trimmed_entry (cs_metadata config) (str "spec_version") = []))
      (field_error "metadata.spec_version" "must be present and non-empty") ++
    push_if (has_blank_key (cs_metadata config)) (field_error "metadata" "metadata keys must not be empty") ++
    push_if (bool_decide (cs_network config = CustomNetwork) &&
             bool_decide (trimmed_entry (cs_metadata config) (str "network_name") = []))
      (field_error "metadata.network_name" "is required when network is Custom") ++
    fork_errors 0 ∅ None (cs_forks config)).

(** ** Statistics and commitment *)

(* eth2077-types/src/chain_spec.rs:484-498 resolve_spec_version *)
Definition resolve_spec_version (config : ChainSpecConfig) : Str :=
  let fallback := status_label (cs_status config) ++ str "-" ++ decimal (cs_chain_id config) ++ str "-" ++
    decimal (len (cs_forks config)) in
  match cs_metadata config !! str "spec_version" with
  | Some version => if bool_decide (trim version = []) then fallback else trim version
  | None => fallback
  end.
(* eth2077-types/src/chain_spec.rs:379-413 compute_chain_spec_stats *)
Definition compute_chain_spec_stats (config : ChainSpecConfig) : ChainSpecStats :=
  let eips := cs_forks config ≫= fe_eips in
  {| css_total_forks := len (cs_forks config);
     css_active_forks := len (filter (λ fork, fe_phase fork = Activated) (cs_forks config));
     css_pending_forks :=
       len (filter (λ fork, fe_phase fork = PendingFork ∨ fe_phase fork = Scheduled) (cs_forks config));
     css_eip_count :=
       Z.of_nat (size (list_to_set (C := gset Str)
         (filter (λ normalized, normalized ≠ []) ((λ eip, to_uppercase (trim eip)) <$> eips))));
     css_has_consensus_changes := existsb fe_consensus_change (cs_forks config);
     css_spec_version := resolve_spec_version config |}.
End validation.

Definition line (key : string) (value : Str) : Str := str key ++ str "=" ++ value ++ [10].
(** The prefix [fork[i].]. *)
Definition fork_prefix (fork_index : nat) : Str := str "fork[" ++ decimal (Z.of_nat fork_index) ++ str "].".
(* eth2077-types/src/chain_spec.rs:439-440 compute_chain_spec_commitment *)
Definition pairs_by_key {SU : SortUnstable} {HO : HashOrder} (metadata : gmap Str Str) : list (Str * Str) :=
  sort_unstable_by (λ left right, bytes_cmp left.1 right.1) (hash_iter metadata).
(* eth2077-types/src/chain_spec.rs:439-443 compute_chain_spec_commitment *)
Definition metadata_lines {SU : SortUnstable} {HO : HashOrder} (prefix : Str) (metadata : gmap Str Str) : Str :=
  pairs_by_key metadata ≫= λ p, prefix ++ str "metadata." ++ p.1 ++ str "=" ++ p.2 ++ [10].
(* eth2077-types/src/chain_spec.rs:446-468 compute_chain_spec_commitment *)
Definition fork_lines {SU : SortUnstable} {HO : HashOrder} (fork_index : nat) (fork : ForkEntry) : Str :=
  let prefix := fork_prefix fork_index in
  prefix ++ line "name" (fe_name fork) ++
  prefix ++ line "phase" (fork_phase_label (fe_phase fork)) ++
  prefix ++ line "activation_epoch" (decimal (fe_activation_epoch fork)) ++
  prefix ++ line "consensus_change" (if fe_consensus_change fork then str "true" else str "false") ++
  concat (imap (λ eip_index eip, prefix ++ str "eip[" ++ decimal (Z.of_nat eip_index) ++ str "]=" ++ eip ++ [10])
    (fe_eips fork)) ++
  metadata_lines prefix (fe_metadata fork).
(* eth2077-types/src/chain_spec.rs:425-469 compute_chain_spec_commitment *)
Definition canonical_spec {SU : SortUnstable} {HO : HashOrder} (config : ChainSpecConfig) : Str :=
  line "chain_id" (decimal (cs_chain_id config)) ++
  line "network" (network_label (cs_network config)) ++
  line "consensus" (consensus_label (cs_consensus config)) ++
  line "status" (status_label (cs_status config)) ++
  line "genesis_time" (decimal (cs_genesis_time config)) ++
  line "slots_per_epoch" (decimal (cs_slots_per_epoch config)) ++
  line "seconds_per_slot" (decimal (cs_seconds_per_slot config)) ++
  line "spec_version" (resolve_spec_version config) ++
  metadata_lines [] (cs_metadata config) ++
  concat (imap fork_lines (cs_forks config)).
(* eth2077-types/src/chain_spec.rs:424-475 compute_chain_spec_commitment *)
Definition compute_chain_spec_commitment `{Sha256} {SU : SortUnstable} {HO : HashOrder} (config : ChainSpecConfig) : Str :=
  hex_of_bytes (sha256 (canonical_spec config)).

(** ** What validation accepts *)

Section accepted.
Context `{UnicodeCase}.

Record fork_ok (fork : ForkEntry) : Prop := {
  ok_name : trim (fe_name fork) ≠ [];
  ok_activation : fe_phase fork = Scheduled ∨ fe_phase fork = PendingFork → fe_activation_epoch fork ≠ 0;
  ok_eip_tokens : Forall (λ eip, trim eip ≠ []) (fe_eips fork);
  ok_eips_distinct : NoDup ((λ eip, to_uppercase (trim eip)) <$> fe_eips fork);
  ok_fork_keys : map_Forall (λ key _, trim key ≠ []) (fe_metadata fork);
}.
Record chain_spec_ok (config : ChainSpecConfig) : Prop := {
  ok_timing : cs_chain_id config ≠ 0 ∧ cs_genesis_time config ≠ 0 ∧ cs_slots_per_epoch config ≠ 0 ∧
    cs_seconds_per_slot config ≠ 0;
  ok_has_fork : cs_forks config ≠ [];
  ok_version : trimmed_entry (cs_metadata config) (str "spec_version") ≠ [];
  ok_keys : map_Forall (λ key _, trim key ≠ []) (cs_metadata config);
  ok_custom : cs_network config = CustomNetwork → trimmed_entry (cs_metadata config) (str "network_name") ≠ [];
  ok_forks : Forall fork_ok (cs_forks config);
  ok_names_distinct : NoDup ((λ fork, to_lowercase (trim (fe_name fork))) <$> cs_forks config);
  ok_schedule : Sorted Z.le (fe_activation_epoch <$> cs_forks config);
}.

Lemma has_blank_key_false `{HashOrder} metadata :
  has_blank_key metadata = false ↔ map_Forall (λ key _, trim key ≠ []) metadata.
Proof.
  unfold has_blank_key. rewrite <- not_true_iff_false, existsb_exists. split.
  - intros Hn k v Hkv Ht. apply Hn. exists (k, v). rewrite <- list_elem_of_In, elem_of_hash_iter.
    by rewrite bool_decide_eq_true.
  - intros Hm ([k v] & Hin & Ht%bool_decide_eq_true). apply list_elem_of_In, elem_of_hash_iter in Hin.
    by apply Hm in Hin.
Qed.
Lemma eip_errors_nil name seen eips :
  eip_errors name seen eips = [] ↔
  Forall (λ eip, trim eip ≠ []) eips ∧ NoDup ((λ eip, to_uppercase (trim eip)) <$> eips) ∧
  Forall (λ eip, to_uppercase (trim eip) ∉ seen) eips.
Proof.
  revert seen. induction eips as [|e l IH]; intros seen; csimpl; [repeat constructor|].
  rewrite NoDup_cons, !Forall_cons. cbn [eip_errors]. case_bool_decide as Ht; [naive_solver|].
  rewrite app_nil, push_if_nil, bool_decide_eq_false, IH, (Forall_not_seen (λ eip, to_uppercase (trim eip))).
  naive_solver.
Qed.
(** The schedule, after an epoch if there is one before it. *)
Definition after (previous : option Z) (l : list Z) : list Z :=
  match previous with Some p => p :: l | None => l end.
Lemma Sorted_after previous e l :
  Sorted Z.le (after previous (e :: l)) ↔ from_option (λ p, p ≤ e) True previous ∧ Sorted Z.le (e :: l).
Proof.
  destruct previous as [p|]; cbn [after from_option]; [|naive_solver]. split.
  - intros Hs. inversion_clear Hs as [|?? Hs' Hhd]. split; [by inversion_clear Hhd|done].
  - intros [Hp Hs]. constructor; [done|by constructor].
Qed.
Lemma Forall_insert_fresh {A : Type} (seen : gmap Str Z) (f : A → Str) k i l :
  Forall (λ x, <[k:=i]> seen !! f x = None) l ↔ k ∉ f <$> l ∧ Forall (λ x, seen !! f x = None) l.
Proof.
  rewrite !Forall_forall, list_elem_of_fmap. split.
  - intros Hx. split.
    + intros (x & -> & Hin). specialize (Hx _ Hin). by rewrite lookup_insert_eq in Hx.
    + intros x Hin. specialize (Hx _ Hin). by apply lookup_insert_None in Hx as [? _].
  - intros [Hk Hx] x Hin. apply lookup_insert_None. split; [by apply Hx|]. intros ->. apply Hk. by exists x.
Qed.
Lemma fork_errors_nil `{HashOrder} index seen previous forks :
  fork_errors index seen previous forks = [] ↔
  Forall fork_ok forks ∧ NoDup ((λ fork, to_lowercase (trim (fe_name fork))) <$> forks) ∧
  Forall (λ fork, seen !! to_lowercase (trim (fe_name fork)) = None) forks ∧
  Sorted Z.le (after previous (fe_activation_epoch <$> forks)).
Proof.
  revert index seen previous. induction forks as [|f l IH]; intros index seen previous.
  { cbn [fork_errors]. split; [|done]. intros _. split_and!; try by constructor. destruct previous; by repeat constructor. }
  csimpl. cbn [fork_errors]. rewrite NoDup_cons, !Forall_cons, Sorted_after.
  rewrite !app_nil, !push_if_nil, eip_errors_nil, has_blank_key_false, IH, bool_decide_eq_false.
  assert (match previous with
    | Some prior => push_if (fe_activation_epoch f <? prior)
        (chain_error "forks.activation_epoch" (str "fork '" ++ trim (fe_name f) ++
           str "' has non-monotonic activation epoch " ++ decimal (fe_activation_epoch f) ++
           str " (previous " ++ decimal prior ++ str ")"))
    | None => [] end = [] ↔ from_option (λ p, p ≤ fe_activation_epoch f) True previous) as Hprev.
  { destruct previous; cbn [from_option]; [by rewrite push_if_nil, Z.ltb_ge|done]. }
  rewrite Hprev. clear Hprev.
  assert ((bool_decide (fe_phase f = Scheduled) || bool_decide (fe_phase f = PendingFork)) &&
    (fe_activation_epoch f =? 0) = false ↔
    (fe_phase f = Scheduled ∨ fe_phase f = PendingFork → fe_activation_epoch f ≠ 0)) as ->.
  { rewrite andb_false_iff, orb_false_iff, !bool_decide_eq_false, Z.eqb_neq.
    destruct (decide (fe_phase f = Scheduled)), (decide (fe_phase f = PendingFork)); naive_solver. }
  assert (fork_ok f ↔ trim (fe_name f) ≠ [] ∧
    (fe_phase f = Scheduled ∨ fe_phase f = PendingFork → fe_activation_epoch f ≠ 0) ∧
    (Forall (λ eip, trim eip ≠ []) (fe_eips f) ∧ NoDup ((λ eip, to_uppercase (trim eip)) <$> fe_eips f) ∧
     Forall (λ eip, to_uppercase (trim eip) ∉ (∅ : gset Str)) (fe_eips f)) ∧
    map_Forall (λ key _, trim key ≠ []) (fe_metadata f)) as ->.
  { pose proof (Forall_not_empty (λ eip, to_uppercase (trim eip)) (fe_eips f)).
    split; [intros []; tauto|intros (?&?&(?&?&?)&?); by constructor]. }
  destruct (seen !! to_lowercase (trim (fe_name f))) as [i|] eqn:Hseen; [naive_solver|].
  rewrite (Forall_insert_fresh seen (λ g, to_lowercase (trim (fe_name g)))). cbn [after]. naive_solver.
Qed.
End accepted.

(** [validate_chain_spec_config] accepts exactly the specifications with positive timing
    parameters, a version, and a schedule that is not empty, whose epochs never decrease,
    whose forks have distinct names up to case, and in which every fork is well formed: no
    fork still to come at epoch 0, no blank or repeated EIP, no blank metadata key. *)
Theorem validate_chain_spec_exact `{UnicodeCase} `{HashOrder} config :
  validate_chain_spec_config config = Ok tt ↔ chain_spec_ok config.
Proof.
  unfold validate_chain_spec_config. rewrite errors_to_result_ok, !app_nil, !push_if_nil, fork_errors_nil.
  rewrite has_blank_key_false, andb_false_iff, !bool_decide_eq_false, !Z.eqb_neq. cbn [after].
  assert (Forall (λ fork, (∅ : gmap Str Z) !! to_lowercase (trim (fe_name fork)) = None) (cs_forks config)) as Hempty
    by (by apply Forall_forall).
  split.
  - intros (?&?&?&?&?&?&?&Hcustom&?&?&_&?). split; try done. intros Hn. by destruct Hcustom.
  - intros [(?&?&?&?) ?? ? Hcustom ???]. split_and!; try done.
    destruct (decide (cs_network config = CustomNetwork)); [right; by apply Hcustom|by left].
Qed.

(** The order of the hash maps and the sorting algorithm do not matter to the commitment. *)
Lemma pairs_by_key_unique (SU1 SU2 : SortUnstable) (HO1 HO2 : HashOrder) metadata :
  pairs_by_key (SU := SU1) (HO := HO1) metadata = pairs_by_key (SU := SU2) (HO := HO2) metadata.
Proof.
  pose proof (preorder_on (A := Str) (B := Str * Str) fst bytes_cmp) as Hpre. unfold pairs_by_key.
  apply (sorted_perm_unique _); [|by apply sort_unstable_sorted..|].
  - intros x y Hx Hy Heq%(cmp_eq bytes_cmp). rewrite sort_unstable_perm in Hx, Hy.
    refine (NoDup_key_eq fst _ x y _ Hx Hy Heq). apply NoDup_hash_iter.
  - rewrite !sort_unstable_perm. by rewrite (hash_iter_perm (HashOrder := HO1)), (hash_iter_perm (HashOrder := HO2)).
Qed.
Lemma chain_spec_commitment_deterministic `{Sha256} (SU1 SU2 : SortUnstable) (HO1 HO2 : HashOrder) config :
  compute_chain_spec_commitment (SU := SU1) (HO := HO1) config =
  compute_chain_spec_commitment (SU := SU2) (HO := HO2) config.
Proof.
  unfold compute_chain_spec_commitment. do 2 f_equal. unfold canonical_spec. do 9 f_equal.
  - unfold metadata_lines. by rewrite (pairs_by_key_unique SU1 SU2 HO1 HO2).
  - f_equal. apply imap_ext. intros i fork _. unfold fork_lines, metadata_lines.
    by rewrite (pairs_by_key_unique SU1 SU2 HO1 HO2).
Qed.

(** Case mappings of ASCII, for the examples. *)
#[local] Instance ascii_case : UnicodeCase :=
  {| to_lowercase := to_ascii_lowercase;
     to_uppercase := λ s, (λ b, if (97 <=? b) && (b <=? 122) then b - 32 else b) <$> s |}.
#[local] Existing Instance map_to_list_order.
#[local] Existing Instance stable_sort_unstable.
Definition two_forks (name1 name2 : Str) (epoch1 epoch2 : Z) (eips : list Str) : ChainSpecConfig :=
  {| cs_chain_id := 1; cs_network := Testnet; cs_consensus := Hybrid; cs_status := Frozen; cs_genesis_time := 1;
     cs_slots_per_epoch := 32; cs_seconds_per_slot := 12;
     cs_forks :=
       [{| fe_name := name1; fe_phase := Activated; fe_activation_epoch := epoch1; fe_eips := eips;
           fe_consensus_change := false; fe_metadata := ∅ |};
        {| fe_name := name2; fe_phase := Scheduled; fe_activation_epoch := epoch2; fe_eips := [];
           fe_consensus_change := true; fe_metadata := ∅ |}];
     cs_metadata := {[str "spec_version" := str "v1"]} |}.
Example chain_spec_examples :
  validate_chain_spec_config default_chain_spec_config = Ok tt ∧
  validate_chain_spec_config (two_forks (str "a") (str "b") 7 7 [str "EIP-1"; str "EIP-2"]) = Ok tt ∧
  is_ok (validate_chain_spec_config (two_forks (str "a") (str " A") 7 7 [])) = false ∧
  is_ok (validate_chain_spec_config (two_forks (str "a") (str "b") 8 7 [])) = false ∧
  is_ok (validate_chain_spec_config (two_forks (str "a") (str "b") 0 0 [])) = false ∧
  is_ok (validate_chain_spec_config (two_forks (str "a") (str "b") 7 7 [str "eip-1"; str "EIP-1 "])) = false ∧
  css_eip_count (compute_chain_spec_stats default_chain_spec_config) = 5.
Proof. by vm_compute. Qed.

(** The text is not escaped: a line break in a value starts a line of its own, and two
    specifications that differ have the same commitment. *)
Definition with_spec_metadata (m : gmap Str Str) : ChainSpecConfig :=
  {| cs_chain_id := 1; cs_network := Testnet; cs_consensus := Hybrid; cs_status := Frozen; cs_genesis_time := 1;
     cs_slots_per_epoch := 32; cs_seconds_per_slot := 12; cs_forks := cs_forks default_chain_spec_config;
     cs_metadata := <[str "spec_version" := str "v1"]> m |}.
Lemma chain_spec_commitment_ambiguous `{Sha256} :
  let one := with_spec_metadata {[str "a" := str "1" ++ [10] ++ str "metadata.b=2"]} in
  let two := with_spec_metadata {[str "a" := str "1"; str "b" := str "2"]} in
  validate_chain_spec_config one = Ok tt ∧ validate_chain_spec_config two = Ok tt ∧ one ≠ two ∧
  compute_chain_spec_commitment one = compute_chain_spec_commitment two.
Proof.
  intros one two. split_and!; [by vm_compute|by vm_compute|by intros [=]|].
  unfold compute_chain_spec_commitment. do 2 f_equal.
Qed.
