(* ===== verification/CitadelPort.v ===== *)
(** * The port of Citadel ([eth2077-types/src/citadel_port.rs])

    The migration of the consensus modules: what is left of each, on which other modules it
    depends, the search for a cycle among the dependencies, the validation of the plan and its
    statistics.  The JSON of the plan is [serde_json]'s, a parameter. *)
From S2P Require Import Prelude Validation Strings Floats.
Local Open Scope Z_scope.

(* eth2077-types/src/citadel_port.rs:5-16 CitadelModule *)
Inductive CitadelModule :=
| VoteAccumulator | ForkChoice | FinalizationModule | SlashingDetector | AttestationPool
| CommitteeShuffler | BlockProduction | StateTransition | EpochProcessing | SyncProtocol.
#[export] Instance CitadelModule_eq_dec : EqDecision CitadelModule.
Proof. solve_decision. Defined.
(* eth2077-types/src/citadel_port.rs:19-28 PlaceholderKind *)
Inductive PlaceholderKind :=
| AxiomPlaceholder | SorryPlaceholder | TodoPlaceholder | UnimplementedPlaceholder
| StubPlaceholder | MockReturn | HardcodedValue | SkippedValidation.
(* eth2077-types/src/citadel_port.rs:31-39 ProofStatus *)
Inductive ProofStatus :=
| ProofNotStarted | Sketched | PartialProof | FullProofDraft | FullProofReviewed | MachineChecked | ProofRejected.
#[export] Instance ProofStatus_eq_dec : EqDecision ProofStatus.
Proof. solve_decision. Defined.
(* eth2077-types/src/citadel_port.rs:42-51 MigrationPhase *)
Inductive MigrationPhase :=
| AnalysisPhase | InterfaceDesign | CorePort | TestMigration | PlaceholderElimination | ProofCompletion
| IntegrationTestPhase | ProductionReadyPhase.
#[export] Instance MigrationPhase_eq_dec : EqDecision MigrationPhase.
Proof. solve_decision. Defined.
(* eth2077-types/src/citadel_port.rs:54-60 PlaceholderEntry *)
Record PlaceholderEntry := {
  pe_location : Str;
  pe_kind : PlaceholderKind;
  pe_description : Str;
  pe_blocking_proofs : list Str;
  pe_severity : Z;
}.
(* eth2077-types/src/citadel_port.rs:63-71 ModuleMigration *)
Record ModuleMigration := {
  mm_module : CitadelModule;
  mm_phase : MigrationPhase;
  mm_placeholders : list PlaceholderEntry;
  mm_proof_status : ProofStatus;
  mm_lines_ported : Z;
  mm_lines_remaining : Z;
  mm_dependencies : list CitadelModule;
}.
(* eth2077-types/src/citadel_port.rs:74-80 CitadelPortConfig *)
Record CitadelPortConfig := {
  cpc_target_module : CitadelModule;
  cpc_migrations : list ModuleMigration;
  cpc_max_allowed_placeholders : Z;
  cpc_require_machine_checked : bool;
  cpc_max_severity_allowed : Z;
}.
(* eth2077-types/src/citadel_port.rs:83-89 CitadelPortValidationError *)
Inductive CitadelPortValidationError :=
| EmptyMigrations
| TooManyPlaceholders (count max : Z)
| HighSeverityPlaceholder (location : Str) (severity : Z)
| CyclicDependency (modules : list Str)
| ProofIncomplete (module : Str).
(* eth2077-types/src/citadel_port.rs:92-101 CitadelPortStats *)
Record CitadelPortStats := {
  cps_total_modules : Z;
  cps_modules_complete : Z;
  cps_total_placeholders : Z;
  cps_critical_placeholders : Z;
  cps_proof_coverage : f64;
  cps_migration_progress : f64;
  cps_estimated_remaining_work : f64;
  cps_blocking_issues : list Str;
}.
(** [{:?}] *)
Definition module_debug (m : CitadelModule) : Str :=
  match m with
  | VoteAccumulator => str "VoteAccumulator" | ForkChoice => str "ForkChoice"
  | FinalizationModule => str "Finalization" | SlashingDetector => str "SlashingDetector"
  | AttestationPool => str "AttestationPool" | CommitteeShuffler => str "CommitteeShuffler"
  | BlockProduction => str "BlockProduction" | StateTransition => str "StateTransition"
  | EpochProcessing => str "EpochProcessing" | SyncProtocol => str "SyncProtocol"
  end.
(* eth2077-types/src/citadel_port.rs:103-114 phase_index *)
Definition migration_phase_index (phase : MigrationPhase) : Z :=
  match phase with
  | AnalysisPhase => 0 | InterfaceDesign => 1 | CorePort => 2 | TestMigration => 3 | PlaceholderElimination => 4
  | ProofCompletion => 5 | IntegrationTestPhase => 6 | ProductionReadyPhase => 7
  end.
(* eth2077-types/src/citadel_port.rs:116-126 proof_score *)
Definition proof_score (status : ProofStatus) : f64 :=
  match status with
  | ProofNotStarted => f64_zero | Sketched => dec 15 100 | PartialProof => dec 35 100 | FullProofDraft => dec 55 100
  | FullProofReviewed => dec 75 100 | MachineChecked => int 1 | ProofRejected => f64_zero
  end.

(* eth2077-types/src/citadel_port.rs:192-269 default_citadel_port_config *)
Definition default_citadel_port_config : CitadelPortConfig :=
  {| cpc_target_module := VoteAccumulator;
     cpc_migrations :=
       [{| mm_module := VoteAccumulator; mm_phase := PlaceholderElimination;
           mm_placeholders :=
             [{| pe_location := str "citadel/vote_accumulator.rs:142"; pe_kind := TodoPlaceholder;
                 pe_description := str "Finalize tie-break logic for equal-weight votes";
                 pe_blocking_proofs := [str "vote_accumulator_safety"]; pe_severity := 3 |};
              {| pe_location := str "citadel/vote_accumulator.rs:219"; pe_kind := SkippedValidation;
                 pe_description := str "Temporary bypass for malformed quorum witness edge cases";
                 pe_blocking_proofs := [str "quorum_witness_soundness"; str "fork_choice_monotonicity"];
                 pe_severity := 4 |}];
           mm_proof_status := FullProofReviewed; mm_lines_ported := 980; mm_lines_remaining := 160;
           mm_dependencies := [] |};
        {| mm_module := ForkChoice; mm_phase := CorePort;
           mm_placeholders :=
             [{| pe_location := str "citadel/fork_choice.rs:87"; pe_kind := StubPlaceholder;
                 pe_description := str "Temporary stub for delayed attestations scoring";
                 pe_blocking_proofs := [str "fork_choice_liveness"]; pe_severity := 2 |}];
           mm_proof_status := PartialProof; mm_lines_ported := 530; mm_lines_remaining := 420;
           mm_dependencies := [VoteAccumulator] |};
        {| mm_module := FinalizationModule; mm_phase := ProductionReadyPhase; mm_placeholders := [];
           mm_proof_status := MachineChecked; mm_lines_ported := 1250; mm_lines_remaining := 0;
           mm_dependencies := [VoteAccumulator; ForkChoice] |};
        {| mm_module := SlashingDetector; mm_phase := TestMigration;
           mm_placeholders :=
             [{| pe_location := str "citadel/slashing_detector.rs:301"; pe_kind := HardcodedValue;
                 pe_description := str "Hardcoded replay window pending benchmark calibration";
                 pe_blocking_proofs := [str "slashing_completeness"]; pe_severity := 4 |}];
           mm_proof_status := Sketched; mm_lines_ported := 360; mm_lines_remaining := 560;
           mm_dependencies := [VoteAccumulator] |}];
     cpc_max_allowed_placeholders := 8;
     cpc_require_machine_checked := false;
     cpc_max_severity_allowed := 4 |}.

(** ** The search for a cycle *)

(* eth2077-types/src/citadel_port.rs:129-141 find_dependency_cycle *)
Definition dependency_adjacency (migrations : list ModuleMigration) : list (list nat) :=
  (λ migration, omap (λ dependency, fst <$> list_find (λ candidate, mm_module candidate = dependency) migrations)
     (mm_dependencies migration)) <$> migrations.

(** The colours of the nodes, 0, 1 on the stack and 2 done, and the stack. *)
Definition DfsState : Type := list nat * list nat.
(* eth2077-types/src/citadel_port.rs:163-167 dfs *)
Fixpoint dfs_each (visit : nat → DfsState → option (option (list nat) * DfsState)) (nodes : list nat) (s : DfsState)
  : option (option (list nat) * DfsState) :=
  match nodes with
  | [] => Some (None, s)
  | next :: nodes =>
      match visit next s with
      | Some (None, s) => dfs_each visit nodes s
      | r => r
      end
  end.
(** [None] when the fuel runs out.  Nodes are indices of the adjacency lists. *)
(* eth2077-types/src/citadel_port.rs:143-172 dfs *)
Fixpoint dfs (fuel : nat) (adjacency : list (list nat)) (node : nat) (s : DfsState)
  : option (option (list nat) * DfsState) :=
  match fuel with
  | O => None
  | S fuel =>
      let '(state, stack) := s in
      match default 0%nat (state !! node) with
      | 1%nat =>
          let start := default 0%nat (fst <$> list_find (λ entry, entry = node) stack) in
          Some (Some (drop start stack ++ [node]), s)
      | 2%nat => Some (None, s)
      | _ =>
          match dfs_each (dfs fuel adjacency) (default [] (adjacency !! node)) (<[node := 1%nat]> state, stack ++ [node]) with
          | Some (None, (state, stack)) => Some (None, (<[node := 2%nat]> state, take (pred (length stack)) stack))
          | r => r
          end
      end
  end.
(* eth2077-types/src/citadel_port.rs:176-178 find_dependency_cycle *)
Definition search_from (fuel : nat) (adjacency : list (list nat)) (index : nat) (s : DfsState)
  : option (option (list nat) * DfsState) :=
  if (default 0 (s.1 !! index) =? 0)%nat then dfs fuel adjacency index s else Some (None, s).
(** A search nests at most once per node, and one more call finds the last node on the stack. *)
(* eth2077-types/src/citadel_port.rs:174-189 find_dependency_cycle *)
Definition find_cycle_indices (adjacency : list (list nat)) : option (option (list nat)) :=
  fst <$> dfs_each (search_from (S (length adjacency)) adjacency) (seq 0 (length adjacency))
    (replicate (length adjacency) 0%nat, []).
(** [None] when the fuel runs out, which [dependency_search] excludes. *)
(* eth2077-types/src/citadel_port.rs:128-190 find_dependency_cycle *)
Definition find_dependency_cycle (migrations : list ModuleMigration) : option (option (list Str)) :=
  found ← find_cycle_indices (dependency_adjacency migrations);
  Some ((λ cycle : list nat, (λ entry, from_option (λ m, module_debug (mm_module m)) [] (migrations !! entry)) <$> cycle) <$> (found : option (list nat))).

(** ** The search is correct and ends *)

(** A walk along a relation, and one that comes back to where it starts. *)
Fixpoint walk (R : nat → nat → Prop) (l : list nat) : Prop :=
  match l with
  | i :: (j :: _) as rest => R i j ∧ walk R rest
  | _ => True
  end.
Definition closed_walk (R : nat → nat → Prop) (l : list nat) : Prop := walk R l ∧ ∃ i rest, l = i :: rest ++ [i].
Lemma walk_iff (R S : nat → nat → Prop) l : (∀ i j, R i j ↔ S i j) → walk R l ↔ walk S l.
Proof. intros Heq. induction l as [|i [|j l] IH]; [done|done|]. cbn [walk] in *. by rewrite Heq, IH. Qed.

Section search.
Context (adjacency : list (list nat)).
Abbreviation n := (length adjacency).
Definition edge (i j : nat) : Prop := ∃ deps, adjacency !! i = Some deps ∧ j ∈ deps.
Record search_inv (s : DfsState) : Prop := {
  inv_length : length s.1 = n;
  inv_colours : ∀ i c, s.1 !! i = Some c → c = 0%nat ∨ c = 1%nat ∨ c = 2%nat;
  inv_grey : ∀ i, s.1 !! i = Some 1%nat ↔ i ∈ s.2;
  inv_nodup : NoDup s.2;
  inv_path : walk edge s.2;
  inv_closed : ∀ i j, s.1 !! i = Some 2%nat → edge i j → s.1 !! j = Some 2%nat;
  inv_acyclic : ∀ i, s.1 !! i = Some 2%nat → ¬ tc edge i i;
}.
Definition nodes_valid : Prop := ∀ i j, edge i j → (j < n)%nat.

Lemma path_app_r l1 l2 : walk edge (l1 ++ l2) → walk edge l2.
Proof.
  induction l1 as [|i [|j l1] IH]; [done| |].
  - destruct l2; [done|]. by intros [_ ?].
  - intros [_ Hp]. by apply IH.
Qed.
Lemma path_snoc l i : walk edge l → (∀ j, last l = Some j → edge j i) → walk edge (l ++ [i]).
Proof.
  induction l as [|a [|b l] IH]; [done| |].
  - intros _ He. split; [by apply He|done].
  - intros [Hab Hp] He. split; [done|]. by apply IH.
Qed.
Lemma drop_from_first (i : nat) (l : list nat) :
  i ∈ l → ∃ rest, drop (default 0%nat (fst <$> list_find (λ entry, entry = i) l)) l = i :: rest.
Proof.
  intros Hi. destruct (list_find_elem_of (λ entry, entry = i) l i Hi eq_refl) as [[k x] Hf]. rewrite Hf. cbn.
  apply list_find_Some in Hf as (Hk & -> & _). exists (drop (S k) l). by apply drop_S.
Qed.
Lemma last_drop_nonempty (l : list nat) k : drop k l ≠ [] → last (drop k l) = last l.
Proof.
  intros Hne. rewrite <- (take_drop k l) at 2. rewrite last_app.
  destruct (last (drop k l)) eqn:E; [done|]. by apply last_None in E.
Qed.
Lemma closed_reach (P : nat → Prop) i j :
  (∀ a b, P a → edge a b → P b) → P i → tc edge i j → P j.
Proof. intros Hc Hi Ht. induction Ht as [a b Hab|a b c Hab _ IH]; [by eapply Hc|]. apply IH. by eapply Hc. Qed.

Lemma stack_bound s : search_inv s → (length s.2 ≤ n)%nat.
Proof.
  intros Hs. transitivity (length (seq 0 n)); [|by rewrite length_seq].
  apply submseteq_length, NoDup_submseteq; [apply (inv_nodup s Hs)|].
  intros i Hi%(inv_grey s Hs)%lookup_lt_Some. rewrite elem_of_seq, (inv_length s Hs) in *. lia.
Qed.

(** Pushing a white node that the top of the stack points to. *)
Lemma push_inv state stack node :
  search_inv (state, stack) → (node < n)%nat → state !! node = Some 0%nat →
  (∀ top, last stack = Some top → edge top node) →
  search_inv (<[node := 1%nat]> state, stack ++ [node]).
Proof.
  intros [Hlen Hcol Hgrey Hnd Hpath Hclosed Hacyc] Hnode Hwhite Htop. cbn [fst snd] in *.
  assert (∀ i, <[node:=1%nat]> state !! i = Some 2%nat ↔ state !! i = Some 2%nat) as Hblack.
  { intros i. destruct (decide (i = node)) as [->|Hne].
    - rewrite list_lookup_insert_eq by lia. naive_solver.
    - by rewrite list_lookup_insert_ne. }
  split; cbn [fst snd].
  - by rewrite length_insert.
  - intros i c. destruct (decide (i = node)) as [->|Hne].
    + rewrite list_lookup_insert_eq by lia. naive_solver.
    + rewrite list_lookup_insert_ne by done. apply Hcol.
  - intros i. rewrite elem_of_app, list_elem_of_singleton, <- Hgrey. destruct (decide (i = node)) as [->|Hne].
    + rewrite list_lookup_insert_eq by lia. naive_solver.
    + rewrite list_lookup_insert_ne by done. naive_solver.
  - apply NoDup_app. split_and!; [done| |apply NoDup_singleton]. intros i Hi%Hgrey ->%list_elem_of_singleton. congruence.
  - by apply path_snoc.
  - intros i j. rewrite !Hblack. apply Hclosed.
  - intros i. rewrite Hblack. apply Hacyc.
Qed.
(** Popping a node all of whose successors are done. *)
Lemma pop_inv state stack node :
  search_inv (state, stack ++ [node]) → (node < n)%nat → (∀ j, edge node j → state !! j = Some 2%nat) →
  search_inv (<[node := 2%nat]> state, stack).
Proof.
  intros [Hlen Hcol Hgrey Hnd Hpath Hclosed Hacyc] Hnode Hdone. cbn [fst snd] in *.
  apply NoDup_app in Hnd as (Hnd & Hfresh & _).
  assert (state !! node = Some 1%nat) as Hg by (apply Hgrey, elem_of_app; right; by apply list_elem_of_singleton).
  assert (∀ i, <[node:=2%nat]> state !! i = Some 2%nat ↔ i = node ∨ state !! i = Some 2%nat) as Hblack.
  { intros i. destruct (decide (i = node)) as [->|Hne].
    - rewrite list_lookup_insert_eq by lia. naive_solver.
    - rewrite list_lookup_insert_ne by done. naive_solver. }
  split; cbn [fst snd]; try done.
  - by rewrite length_insert.
  - intros i c. destruct (decide (i = node)) as [->|Hne].
    + rewrite list_lookup_insert_eq by lia. naive_solver.
    + rewrite list_lookup_insert_ne by done. apply Hcol.
  - intros i. destruct (decide (i = node)) as [->|Hne].
    + rewrite list_lookup_insert_eq by lia. split; [done|]. intros Hi. exfalso. apply (Hfresh _ Hi).
      by apply list_elem_of_singleton.
    + rewrite list_lookup_insert_ne by done. rewrite Hgrey, elem_of_app, list_elem_of_singleton. naive_solver.
  - clear -Hpath. induction stack as [|a [|b l] IH]; [done|done|]. destruct Hpath as [? ?]. split; [done|]. by apply IH.
  - intros i j. rewrite !Hblack. intros [->|Hi] Hij; right; [by apply Hdone|by eapply Hclosed].
  - intros i. rewrite Hblack. intros [->|Hi]; [|by apply Hacyc]. intros Hc.
    assert (state !! node = Some 2%nat) as Hb; [|congruence].
    inversion_clear Hc as [a b Hself|a j b Hj Hrest]; [by apply Hdone|].
    refine (closed_reach (λ k, state !! k = Some 2%nat) j node _ (Hdone _ Hj) Hrest). intros a b. apply Hclosed.
Qed.

(** What a visit leaves: a cycle, or everything it reached done and the stack as it was. *)
Definition visited (nodes : list nat) (s : DfsState) (r : option (list nat)) (s' : DfsState) : Prop :=
  match r with
  | Some cycle => closed_walk edge cycle
  | None => search_inv s' ∧ s'.2 = s.2 ∧ (∀ j, j ∈ nodes → s'.1 !! j = Some 2%nat) ∧
            (∀ i, s.1 !! i = Some 2%nat → s'.1 !! i = Some 2%nat)
  end.
Lemma dfs_each_correct visit nodes s :
  search_inv s →
  (∀ node s0, node ∈ nodes → search_inv s0 → s0.2 = s.2 →
    ∃ r s', visit node s0 = Some (r, s') ∧ visited [node] s0 r s') →
  ∃ r s', dfs_each visit nodes s = Some (r, s') ∧ visited nodes s r s'.
Proof.
  revert s. induction nodes as [|node nodes IH]; intros s Hs Hvisit.
  { exists None, s. split; [done|]. split_and!; try done. by intros j Hj%elem_of_nil. }
  cbn [dfs_each]. destruct (Hvisit node s) as (r & s1 & -> & Hr); [left|done|done|].
  destruct r as [cycle|]; [by exists (Some cycle), s1|]. destruct Hr as (Hs1 & Hst1 & Hdone1 & Hmono1).
  destruct (IH s1 Hs1) as (r & s2 & -> & Hr2).
  { intros m s0 Hm Hs0 Heq. apply Hvisit; [by right|done|congruence]. }
  exists r, s2. split; [done|]. destruct r as [cycle|]; [done|]. destruct Hr2 as (Hs2 & Hst2 & Hdone2 & Hmono2).
  split_and!; [done|congruence| |by auto].
  intros j [->|Hj]%elem_of_cons; [|by apply Hdone2]. apply Hmono2, Hdone1. by left.
Qed.
Lemma dfs_correct fuel node s :
  nodes_valid → search_inv s → (node < n)%nat → (∀ top, last s.2 = Some top → edge top node) →
  (n < fuel + length s.2)%nat →
  ∃ r s', dfs fuel adjacency node s = Some (r, s') ∧ visited [node] s r s'.
Proof.
  intros Hvalid. revert node s. induction fuel as [|fuel IH]; intros node [state stack] Hs Hnode Htop Hfuel.
  { apply stack_bound in Hs. simpl in *. lia. }
  cbn [dfs]. pose proof (inv_length _ Hs) as Hlen. cbn [fst snd] in *.
  destruct (lookup_lt_is_Some_2 state node) as [c Hc]; [by rewrite Hlen|]. rewrite Hc. cbn [default].
  destruct (inv_colours _ Hs node c Hc) as [-> | [-> | -> ]].
  - destruct (lookup_lt_is_Some_2 adjacency node Hnode) as [deps Hdeps]. rewrite Hdeps. cbn [default].
    pose proof (push_inv _ _ _ Hs Hnode Hc Htop) as Hpush.
    destruct (dfs_each_correct (dfs fuel adjacency) deps (<[node:=1%nat]> state, stack ++ [node]) Hpush) as (r & [st sk] & Heq & Hr).
    { intros next s0 Hnext Hs0 Hst0. assert (edge node next) as Hedge by by exists deps.
      apply IH; [done|by apply (Hvalid node)| |].
      - rewrite Hst0. cbn [snd]. rewrite last_snoc. by intros ? [= <-].
      - rewrite Hst0. cbn [snd]. rewrite length_app. simpl. lia. }
    unfold id. change (default [] (Some deps)) with deps. rewrite Heq. destruct r as [cycle|]; [by exists (Some cycle), (st, sk)|].
    destruct Hr as (Hs' & Hst & Hdone & Hmono). cbn [fst snd] in *. subst sk.
    rewrite length_app, Nat.add_1_r. cbn [pred]. rewrite take_app_length.
    exists None. eexists. split; [done|]. split_and!; cbn [fst snd]; [|done| |].
    + apply pop_inv; [done|done|]. intros j (deps' & Hdeps' & Hj). simplify_eq. by apply Hdone.
    + intros j ->%list_elem_of_singleton. rewrite list_lookup_insert_eq; [done|]. pose proof (inv_length _ Hs') as Hl. cbn [fst] in Hl. lia.
    + intros i Hi. destruct (decide (i = node)) as [->|Hne]; [congruence|]. rewrite list_lookup_insert_ne by done.
      apply Hmono. by rewrite list_lookup_insert_ne.
  - eexists (Some _), _. split; [done|]. apply (inv_grey _ Hs) in Hc. cbn [snd] in Hc.
    destruct (drop_from_first node stack Hc) as [rest Hdrop]. unfold default in Hdrop |- *. rewrite Hdrop. split.
    + apply path_snoc.
      * rewrite <- Hdrop. apply path_app_r with (take (default 0%nat (fst <$> list_find (λ entry, entry = node) stack)) stack).
        unfold default. rewrite take_drop. apply (inv_path _ Hs).
      * intros j Hj. apply Htop. rewrite <- Hj, <- Hdrop. symmetry. apply last_drop_nonempty. by rewrite Hdrop.
    + by exists node, rest.
  - exists None, (state, stack). split; [done|]. split_and!; try done. by intros j ->%list_elem_of_singleton.
Qed.

Lemma initial_inv : search_inv (replicate n 0%nat, []).
Proof.
  assert (∀ i c, replicate n 0%nat !! i = Some c → c = 0%nat) as H0 by (intros i c [? _]%lookup_replicate_1; done).
  split; cbn [fst snd].
  - apply length_replicate.
  - intros i c ->%H0. by left.
  - intros i. rewrite elem_of_nil. split; [|done]. by intros [=]%H0.
  - constructor.
  - done.
  - intros i j [=]%H0.
  - intros i [=]%H0.
Qed.
Lemma search_from_correct index s :
  nodes_valid → search_inv s → (index < n)%nat → s.2 = [] →
  ∃ r s', search_from (S n) adjacency index s = Some (r, s') ∧ visited [index] s r s'.
Proof.
  intros Hvalid Hs Hindex Hstack. unfold search_from.
  destruct (lookup_lt_is_Some_2 s.1 index) as [c Hc]; [by rewrite (inv_length _ Hs)|]. rewrite Hc. cbn [default].
  unfold id. destruct (inv_colours _ Hs index c Hc) as [-> | [-> | ->]]; cbn [default Nat.eqb].
  - apply dfs_correct; [done..| |lia]. rewrite Hstack. done.
  - apply (inv_grey _ Hs) in Hc. rewrite Hstack in Hc. by apply elem_of_nil in Hc.
  - exists None, s. split; [done|]. split_and!; try done. by intros j ->%list_elem_of_singleton.
Qed.
(** The search answers: with a closed walk, or when there is none. *)
Lemma find_cycle_correct :
  nodes_valid →
  ∃ r, find_cycle_indices adjacency = Some r ∧
    match r with Some cycle => closed_walk edge cycle | None => ∀ i, ¬ tc edge i i end.
Proof.
  intros Hvalid. unfold find_cycle_indices.
  destruct (dfs_each_correct (search_from (S n) adjacency) (seq 0 n) (replicate n 0%nat, [])) as (r & s & -> & Hr).
  - apply initial_inv.
  - intros node s0 Hnode Hs0 Hst0. apply search_from_correct; [done|done| |done]. apply elem_of_seq in Hnode. lia.
  - exists r. split; [done|]. destruct r as [cycle|]; [done|]. destruct Hr as (Hs & _ & Hdone & _).
    intros i Hc. refine (inv_acyclic _ Hs i _ Hc). apply Hdone, elem_of_seq.
    assert (∃ j, edge i j) as (j & deps & Hi%lookup_lt_Some & _); [|lia].
    inversion_clear Hc; by eexists.
Qed.
End search.

(** The entry at index [i] lists a module whose first entry is at index [j]. *)
Definition depends (migrations : list ModuleMigration) (i j : nat) : Prop :=
  ∃ migration dependency candidate, migrations !! i = Some migration ∧ dependency ∈ mm_dependencies migration ∧
    list_find (λ candidate, mm_module candidate = dependency) migrations = Some (j, candidate).
Lemma edge_depends migrations i j : edge (dependency_adjacency migrations) i j ↔ depends migrations i j.
Proof.
  unfold edge, depends, dependency_adjacency. setoid_rewrite list_lookup_fmap. split.
  - intros (deps & Hdeps & Hj). destruct (migrations !! i) as [m|]; [|done]. simplify_eq/=.
    apply list_elem_of_omap in Hj as (d & Hd & Hf). destruct (list_find _ _) as [[k c]|] eqn:Hk; [|done]. simplify_eq/=.
    by exists m, d, c.
  - intros (m & d & c & -> & Hd & Hf). eexists. split; [done|]. apply list_elem_of_omap. exists d. by rewrite Hf.
Qed.
Lemma depends_valid migrations : nodes_valid (dependency_adjacency migrations).
Proof.
  intros i j (m & d & c & _ & _ & Hf)%edge_depends. apply list_find_Some in Hf as (Hj%lookup_lt_Some & _).
  unfold dependency_adjacency. by rewrite length_fmap.
Qed.

Lemma tc_implied (R S : nat → nat → Prop) i j : (∀ a b, R a b → S a b) → tc R i j → tc S i j.
Proof.
  intros HRS Ht. induction Ht as [a b Hab|a b c Hab _ IH]; [by apply tc_once, HRS|]. apply tc_l with b; [by apply HRS|done].
Qed.

(** The search answers, with a cycle exactly when there is one. *)
Lemma dependency_search migrations :
  ∃ cycle, find_dependency_cycle migrations = Some cycle ∧
    match cycle with
    | Some names => ∃ entries, closed_walk (depends migrations) entries ∧
        names = (λ entry, from_option (λ m, module_debug (mm_module m)) [] (migrations !! entry)) <$> entries
    | None => ∀ i, ¬ tc (depends migrations) i i
    end.
Proof.
  destruct (find_cycle_correct _ (depends_valid migrations)) as (r & Hr & Hspec).
  unfold find_dependency_cycle. rewrite Hr. cbn [mbind option_bind]. eexists. split; [done|].
  destruct r as [cycle|]; cbn [fmap option_fmap option_map].
  - exists cycle. split; [|done]. destruct Hspec as [Hwalk Hends]. split; [|done].
    by apply (walk_iff _ _ _ (edge_depends migrations)).
  - intros i Hc. apply (Hspec i). refine (tc_implied _ _ _ _ _ Hc). intros a b. by rewrite edge_depends.
Qed.
(** C24: the search for a dependency cycle always ends with an answer, within the fuel of one
    step more than there are entries; it reports a cycle exactly when the modules of the plan
    depend on each other in a circle, and what it reports is such a circle: the names of the
    entries of a walk along the dependencies that ends where it starts. *)
Theorem find_dependency_cycle_exact migrations :
  ∃ cycle, find_dependency_cycle migrations = Some cycle ∧
    match cycle with
    | Some names => ∃ entries, closed_walk (depends migrations) entries ∧
        names = (λ entry, from_option (λ m, module_debug (mm_module m)) [] (migrations !! entry)) <$> entries
    | None => ∀ i, ¬ tc (depends migrations) i i
    end.
Proof. exact (dependency_search migrations). Qed.

(** ** Validation and statistics *)

(* eth2077-types/src/citadel_port.rs:271-323 validate_citadel_port *)
Definition validate_citadel_port (config : CitadelPortConfig) : option (result unit (list CitadelPortValidationError)) :=
  let total_placeholders := len (cpc_migrations config ≫= mm_placeholders) in
  cycle ← find_dependency_cycle (cpc_migrations config);
  Some (errors_to_result (
    push_if (bool_decide (cpc_migrations config = [])) EmptyMigrations ++
    push_if (cpc_max_allowed_placeholders config <? total_placeholders)
      (TooManyPlaceholders total_placeholders (cpc_max_allowed_placeholders config)) ++
    (cpc_migrations config ≫= λ migration, mm_placeholders migration ≫= λ placeholder,
       push_if (cpc_max_severity_allowed config <? pe_severity placeholder)
         (HighSeverityPlaceholder (pe_location placeholder) (pe_severity placeholder))) ++
    match cycle with Some cycle => [CyclicDependency cycle] | None => [] end ++
    (if cpc_require_machine_checked config then
       cpc_migrations config ≫= λ migration,
         push_if (negb (bool_decide (mm_proof_status migration = MachineChecked)))
           (ProofIncomplete (module_debug (mm_module migration)))
     else []))).

(* eth2077-types/src/citadel_port.rs:386-407 compute_citadel_port_stats *)
Definition migration_issues (migration : ModuleMigration) : list Str :=
  push_if (bool_decide (mm_proof_status migration = ProofRejected))
    (str "Rejected proof status for module " ++ module_debug (mm_module migration)) ++
  push_if (bool_decide (mm_phase migration = ProductionReadyPhase) && (0 <? mm_lines_remaining migration))
    (str "Module " ++ module_debug (mm_module migration) ++ str " marked ProductionReady with " ++
       decimal (mm_lines_remaining migration) ++ str " lines remaining") ++
  (mm_placeholders migration ≫= λ placeholder,
     push_if (4 <=? pe_severity placeholder)
       (str "High-severity placeholder (" ++ decimal (pe_severity placeholder) ++ str "): " ++ pe_location placeholder)).
(* eth2077-types/src/citadel_port.rs:375-382 compute_citadel_port_stats *)
Definition remaining_work (migration : ModuleMigration) : f64 :=
  let placeholder_penalty :=
    f64_sum ((λ placeholder, f64_add (int 25) (f64_mul (f64_of_u64 (pe_severity placeholder)) (int 10)))
               <$> mm_placeholders migration) in
  f64_add (f64_of_u64 (mm_lines_remaining migration)) placeholder_penalty.
(* eth2077-types/src/citadel_port.rs:325-426 compute_citadel_port_stats *)
Definition compute_citadel_port_stats (config : CitadelPortConfig) : option CitadelPortStats :=
  let migrations := cpc_migrations config in
  let total_modules := len migrations in
  let average l := if total_modules =? 0 then f64_zero else f64_div (f64_sum l) (f64_of_u64 total_modules) in
  cycle ← find_dependency_cycle migrations;
  Some {| cps_total_modules := total_modules;
     cps_modules_complete :=
       len (filter (λ migration, mm_phase migration = ProductionReadyPhase ∧ mm_placeholders migration = [] ∧
                      mm_proof_status migration = MachineChecked) migrations);
     cps_total_placeholders := len (migrations ≫= mm_placeholders);
     cps_critical_placeholders :=
       len (filter (λ placeholder, 4 ≤ pe_severity placeholder) (migrations ≫= mm_placeholders));
     cps_proof_coverage := average ((λ migration, proof_score (mm_proof_status migration)) <$> migrations);
     cps_migration_progress :=
       average ((λ migration, f64_div (f64_of_u64 (migration_phase_index (mm_phase migration))) (int 7)) <$> migrations);
     cps_estimated_remaining_work := f64_sum (remaining_work <$> migrations);
     cps_blocking_issues :=
       (migrations ≫= migration_issues) ++
       match cycle with
       | Some cycle => [str "Cyclic dependency detected: " ++ join (str " -> ") cycle]
       | None => []
       end |}.
(** [serde_json::to_vec(config)], which does not fail on this type. *)
Class CitadelJson := citadel_json : CitadelPortConfig → list Z.
(* eth2077-types/src/citadel_port.rs:428-438 compute_citadel_port_commitment *)
Definition compute_citadel_port_commitment `{Sha256} `{CitadelJson} (config : CitadelPortConfig) : list Z :=
  sha256 (str "ETH2077::CITADEL_PORT::V1" ++ citadel_json config).

Record citadel_port_ok (config : CitadelPortConfig) : Prop := {
  ok_migrations : cpc_migrations config ≠ [];
  ok_placeholders : len (cpc_migrations config ≫= mm_placeholders) ≤ cpc_max_allowed_placeholders config;
  ok_severity : ∀ migration placeholder, migration ∈ cpc_migrations config → placeholder ∈ mm_placeholders migration →
    pe_severity placeholder ≤ cpc_max_severity_allowed config;
  ok_acyclic : ∀ i, ¬ tc (depends (cpc_migrations config)) i i;
  ok_proofs : cpc_require_machine_checked config = true →
    Forall (λ migration, mm_proof_status migration = MachineChecked) (cpc_migrations config);
}.
Lemma walk_tc (R : nat → nat → Prop) i l j : walk R (i :: l ++ [j]) → tc R i j.
Proof.
  revert i. induction l as [|k l IH]; intros i; cbn [app].
  - intros [Hij _]. by apply tc_once.
  - intros [Hik Hw]. apply tc_l with k; [done|]. by apply IH.
Qed.
Lemma validate_citadel_port_exact config : validate_citadel_port config = Some (Ok tt) ↔ citadel_port_ok config.
Proof.
  unfold validate_citadel_port. destruct (dependency_search (cpc_migrations config)) as (cycle & -> & Hcycle).
  cbn [mbind option_bind]. rewrite (inj_iff Some), errors_to_result_ok, !app_nil, !push_if_nil, bool_decide_eq_false, Z.ltb_ge.
  assert ((cpc_migrations config ≫= λ migration, mm_placeholders migration ≫= λ placeholder,
       push_if (cpc_max_severity_allowed config <? pe_severity placeholder)
         (HighSeverityPlaceholder (pe_location placeholder) (pe_severity placeholder))) = [] ↔
    ∀ migration placeholder, migration ∈ cpc_migrations config → placeholder ∈ mm_placeholders migration →
      pe_severity placeholder ≤ cpc_max_severity_allowed config) as ->.
  { rewrite list_bind_nil, Forall_forall. split.
    - intros Hall m p Hm Hp. specialize (Hall m Hm). rewrite list_bind_nil, Forall_forall in Hall.
      specialize (Hall p Hp). by rewrite push_if_nil, Z.ltb_ge in Hall.
    - intros Hall m Hm. apply list_bind_nil, Forall_forall. intros p Hp. rewrite push_if_nil, Z.ltb_ge. by eapply Hall. }
  assert ((if cpc_require_machine_checked config then
       cpc_migrations config ≫= λ migration,
         push_if (negb (bool_decide (mm_proof_status migration = MachineChecked)))
           (ProofIncomplete (module_debug (mm_module migration)))
     else []) = [] ↔ (cpc_require_machine_checked config = true →
    Forall (λ migration, mm_proof_status migration = MachineChecked) (cpc_migrations config))) as ->.
  { destruct (cpc_require_machine_checked config); [|naive_solver]. rewrite list_bind_nil.
    assert (∀ m, push_if (negb (bool_decide (mm_proof_status m = MachineChecked)))
      (ProofIncomplete (module_debug (mm_module m))) = [] ↔ mm_proof_status m = MachineChecked) as Hm.
    { intros m. by rewrite push_if_nil, negb_false_iff, bool_decide_eq_true. }
    rewrite (Forall_iff _ _ _ Hm). naive_solver. }
  destruct cycle as [names|].
  - destruct Hcycle as (entries & [Hw (i & rest & ->)] & _). split; [naive_solver|]. intros [? ? ? Hno ?].
    by destruct (Hno i (walk_tc _ _ _ _ Hw)).
  - split; [intros (?&?&?&?&?); by constructor|intros []; tauto].
Qed.

Definition example_migration (m : CitadelModule) (dependencies : list CitadelModule) : ModuleMigration :=
  {| mm_module := m; mm_phase := CorePort; mm_placeholders := []; mm_proof_status := Sketched;
     mm_lines_ported := 10; mm_lines_remaining := 5; mm_dependencies := dependencies |}.
Example cycle_examples :
  find_dependency_cycle
    [example_migration VoteAccumulator []; example_migration ForkChoice [VoteAccumulator];
     example_migration FinalizationModule [VoteAccumulator; ForkChoice; SyncProtocol]] = Some None ∧
  find_dependency_cycle
    [example_migration VoteAccumulator [ForkChoice]; example_migration ForkChoice [FinalizationModule; SlashingDetector];
     example_migration FinalizationModule []; example_migration SlashingDetector [ForkChoice]] =
    Some (Some [str "ForkChoice"; str "SlashingDetector"; str "ForkChoice"]) ∧
  find_dependency_cycle [example_migration SyncProtocol [SyncProtocol]] = Some (Some [str "SyncProtocol"; str "SyncProtocol"]).
Proof. by vm_compute. Qed.
Example default_port_valid :
  validate_citadel_port default_citadel_port_config = Some (Ok tt) ∧
  cps_modules_complete <$> compute_citadel_port_stats default_citadel_port_config = Some 1 ∧
  (λ stats, len (cps_blocking_issues stats)) <$> compute_citadel_port_stats default_citadel_port_config = Some 2.
Proof. by vm_compute. Qed.
