(* ===== verification/LaunchReview.v ===== *)
(** * The launch: the integrity of claims and the go/no-go decision

    Part 1. The integrity of claims ([eth2077-types/src/claim_integrity.rs])

    Milestones, the signed artifacts that support them, the gate a milestone has reached, and
    the commitment to the artifacts.  The clock is an argument.

    Part 2. The launch decision ([eth2077-types/src/go_nogo_gate.rs])

    The checklist of a launch with its signed-off items and the verdicts of its gates, the
    policy it is held to, the decision whether it is ready, and the statistics with their
    commitment.  The JSON of the commitment's payload is [serde_json]'s, a parameter. *)
From S2P Require Import Prelude Validation Strings Floats Metadata.
Local Open Scope Z_scope.

(* eth2077-types/src/claim_integrity.rs:7-7 MAX_ARTIFACT_AGE_HOURS *)
Definition MAX_ARTIFACT_AGE_HOURS : Z := 24 * 30.
(* eth2077-types/src/claim_integrity.rs:10-17 ArtifactKind *)
Inductive ArtifactKind :=
| BenchmarkResult | FormalProofArtifact | TestVectorPass | HiveConformance | ShadowForkResult | CrossClientReplay.
#[export] Instance ArtifactKind_eq_dec : EqDecision ArtifactKind.
Proof. solve_decision. Defined.
#[export] Program Instance ArtifactKind_finite : Finite ArtifactKind :=
  {| enum := [BenchmarkResult; FormalProofArtifact; TestVectorPass; HiveConformance; ShadowForkResult; CrossClientReplay] |}.
Next Obligation. by apply (bool_decide_unpack _). Qed.
Next Obligation. intros []; set_solver. Qed.
(* eth2077-types/src/claim_integrity.rs:20-27 GateStatus *)
Inductive GateStatus := NotStarted | DraftGate | Partial | SpecComplete | InteropPassed | ProductionReady.
(* eth2077-types/src/claim_integrity.rs:30-35 SignatureScheme *)
Inductive SignatureScheme := Ed25519Signature | Secp256k1Signature | BLS12_381 | MultisigSignature.
#[export] Instance SignatureScheme_eq_dec : EqDecision SignatureScheme.
Proof. solve_decision. Defined.
(* eth2077-types/src/claim_integrity.rs:38-46 SignedArtifact *)
Record SignedArtifact := {
  sa_kind : ArtifactKind;
  sa_payload_hash : list Z;
  sa_signature_scheme : SignatureScheme;
  sa_signer_id : Str;
  sa_timestamp_unix : Z;
  sa_metadata : Str;
  sa_gate_status : GateStatus;
}.
(* eth2077-types/src/claim_integrity.rs:49-56 MilestoneGate *)
Record MilestoneGate := {
  mg_milestone_name : Str;
  mg_required_artifacts : list ArtifactKind;
  mg_achieved_artifacts : list SignedArtifact;
  mg_target_tps : f64;
  mg_measured_tps : option f64;
  mg_gate_status : GateStatus;
}.
(* eth2077-types/src/claim_integrity.rs:59-64 ClaimIntegrityConfig *)
Record ClaimIntegrityConfig := {
  ci_milestones : list MilestoneGate;
  ci_require_all_gates : bool;
  ci_min_signers : Z;
  ci_allowed_schemes : list SignatureScheme;
}.
(* eth2077-types/src/claim_integrity.rs:67-80 ClaimValidationError *)
Inductive ClaimValidationError :=
| EmptyMilestones
| NoSigners
| DuplicateArtifact
| InvalidSignatureScheme
| MissingRequiredArtifact (kind : ArtifactKind) (milestone : Str)
| StaleArtifact (age_hours max_hours : Z).
(* eth2077-types/src/claim_integrity.rs:83-91 ClaimIntegrityStats *)
Record ClaimIntegrityStats := {
  cis_total_milestones : Z;
  cis_gates_passed : Z;
  cis_gates_failed : Z;
  cis_coverage_ratio : f64;
  cis_strongest_gate : Str;
  cis_weakest_gate : Str;
  cis_overall_status : GateStatus;
}.
(* eth2077-types/src/claim_integrity.rs:93-131 default_claim_integrity_config *)
Definition default_claim_integrity_config : ClaimIntegrityConfig :=
  {| ci_milestones :=
       [{| mg_milestone_name := str "TPS 50k qualification";
           mg_required_artifacts := [BenchmarkResult; FormalProofArtifact; TestVectorPass];
           mg_achieved_artifacts := [];
           mg_target_tps := int 50000;
           mg_measured_tps := None;
           mg_gate_status := NotStarted |};
        {| mg_milestone_name := str "TPS 100k interop";
           mg_required_artifacts := [BenchmarkResult; HiveConformance; CrossClientReplay; ShadowForkResult];
           mg_achieved_artifacts := [];
           mg_target_tps := int 100000;
           mg_measured_tps := None;
           mg_gate_status := NotStarted |}];
     ci_require_all_gates := true;
     ci_min_signers := 2;
     ci_allowed_schemes := [Ed25519Signature; Secp256k1Signature; BLS12_381; MultisigSignature] |}.
(* eth2077-types/src/claim_integrity.rs:365-374 artifact_kind_discriminant *)
Definition artifact_kind_discriminant (kind : ArtifactKind) : Z :=
  match kind with
  | BenchmarkResult => 0 | FormalProofArtifact => 1 | TestVectorPass => 2 | HiveConformance => 3
  | ShadowForkResult => 4 | CrossClientReplay => 5
  end.
(* eth2077-types/src/claim_integrity.rs:376-383 signature_scheme_discriminant *)
Definition signature_scheme_discriminant (scheme : SignatureScheme) : Z :=
  match scheme with Ed25519Signature => 0 | Secp256k1Signature => 1 | BLS12_381 => 2 | MultisigSignature => 3 end.
(** The derived order of [GateStatus] is that of the discriminants. *)
(* eth2077-types/src/claim_integrity.rs:385-394 gate_status_discriminant *)
Definition gate_status_discriminant (status : GateStatus) : Z :=
  match status with
  | NotStarted => 0 | DraftGate => 1 | Partial => 2 | SpecComplete => 3 | InteropPassed => 4 | ProductionReady => 5
  end.
Definition gate_le (a b : GateStatus) : bool := gate_status_discriminant a <=? gate_status_discriminant b.
Definition gate_lt (a b : GateStatus) : bool := gate_status_discriminant a <? gate_status_discriminant b.

(** ** Validation *)

(* eth2077-types/src/claim_integrity.rs:157-180 validate_claim_config *)
Fixpoint artifact_errors (now_unix : Z) (allowed_schemes : list SignatureScheme)
    (seen : list (ArtifactKind * list Z * Str)) (artifacts : list SignedArtifact) : list ClaimValidationError :=
  match artifacts with
  | [] => []
  | artifact :: artifacts =>
      let identity := (sa_kind artifact, sa_payload_hash artifact, sa_signer_id artifact) in
      let age_hours := (now_unix - sa_timestamp_unix artifact) / 3600 in
      push_if (negb (bool_decide (sa_signature_scheme artifact ∈ allowed_schemes))) InvalidSignatureScheme ++
      push_if (bool_decide (identity ∈ seen)) DuplicateArtifact ++
      push_if ((sa_timestamp_unix artifact <? now_unix) && (MAX_ARTIFACT_AGE_HOURS <? age_hours))
        (StaleArtifact age_hours MAX_ARTIFACT_AGE_HOURS) ++
      artifact_errors now_unix allowed_schemes (identity :: seen) artifacts
  end.
(* eth2077-types/src/claim_integrity.rs:182-191 validate_claim_config *)
Definition missing_errors `{HashOrder} (gate : MilestoneGate) : list ClaimValidationError :=
  let achieved_kinds := sa_kind <$> mg_achieved_artifacts gate in
  if gate_le SpecComplete (mg_gate_status gate) then
    hash_set_iter (list_to_set (C := gset ArtifactKind) (mg_required_artifacts gate)) ≫= λ kind,
      push_if (negb (bool_decide (kind ∈ achieved_kinds))) (MissingRequiredArtifact kind (mg_milestone_name gate))
  else [].
(* eth2077-types/src/claim_integrity.rs:133-199 validate_claim_config *)
Definition validate_claim_config `{HashOrder} (now_unix : Z) (config : ClaimIntegrityConfig)
  : result unit (list ClaimValidationError) :=
  errors_to_result (
    push_if (bool_decide (ci_milestones config = [])) EmptyMilestones ++
    push_if (ci_min_signers config =? 0) NoSigners ++
    (ci_milestones config ≫= λ gate,
       artifact_errors now_unix (ci_allowed_schemes config) [] (mg_achieved_artifacts gate) ++ missing_errors gate)).

(** ** Gates *)

(* eth2077-types/src/claim_integrity.rs:263-321 evaluate_milestone_gate *)
Definition evaluate_milestone_gate (gate : MilestoneGate) (allowed_schemes : list SignatureScheme) (min_signers : Z)
  : GateStatus :=
  let required := list_to_set (C := gset ArtifactKind) (mg_required_artifacts gate) in
  let achieved_allowed :=
    filter (λ artifact, sa_signature_scheme artifact ∈ allowed_schemes) (mg_achieved_artifacts gate) in
  if bool_decide (achieved_allowed = []) then NotStarted else
  let signers := list_to_set (C := gset Str) (sa_signer_id <$> achieved_allowed) in
  let covered_required :=
    list_to_set (C := gset ArtifactKind) (filter (λ kind, kind ∈ required) (sa_kind <$> achieved_allowed)) in
  let coverage :=
    if bool_decide (required = ∅) then int 1
    else f64_div (f64_of_u64 (Z.of_nat (size covered_required))) (f64_of_u64 (Z.of_nat (size required))) in
  if f64_eq coverage f64_zero then DraftGate else
  if f64_lt coverage (int 1) then Partial else
  if Z.of_nat (size signers) <? min_signers then SpecComplete else
  let meets_tps := f64_le (mg_target_tps gate) (default f64_zero (mg_measured_tps gate)) in
  if negb meets_tps then SpecComplete else
  let all_production_ready :=
    forallb (λ artifact, gate_le ProductionReady (sa_gate_status artifact))
      (filter (λ artifact, sa_kind artifact ∈ required) achieved_allowed) in
  if all_production_ready && (u64_saturating_mul min_signers 2 <=? Z.of_nat (size signers))
  then ProductionReady else InteropPassed.

(** The name of the first gate that no other exceeds in the order. *)
(* eth2077-types/src/claim_integrity.rs:220-234 compute_claim_integrity_stats *)
Definition extreme_gate (better : GateStatus → GateStatus → bool) (named : list (Str * GateStatus)) : Str :=
  match named with
  | [] => []
  | first :: rest => (foldl (λ best p, if better p.2 best.2 then p else best) first rest).1
  end.
(* eth2077-types/src/claim_integrity.rs:201-261 compute_claim_integrity_stats *)
Definition compute_claim_integrity_stats (config : ClaimIntegrityConfig) : ClaimIntegrityStats :=
  let named :=
    (λ gate, (mg_milestone_name gate,
       evaluate_milestone_gate gate (ci_allowed_schemes config) (ci_min_signers config))) <$> ci_milestones config in
  let statuses := named.*2 in
  let total_milestones := len statuses in
  let gates_passed := len (filter (λ status, gate_le InteropPassed status = true) statuses) in
  let pick (better : GateStatus → GateStatus → bool) :=
    match statuses with [] => NotStarted | s :: rest => foldl (λ best t, if better t best then t else best) s rest end in
  {| cis_total_milestones := total_milestones;
     cis_gates_passed := gates_passed;
     cis_gates_failed := u64_saturating_sub total_milestones gates_passed;
     cis_coverage_ratio :=
       if total_milestones =? 0 then f64_zero
       else f64_div (f64_of_u64 gates_passed) (f64_of_u64 total_milestones);
     cis_strongest_gate := extreme_gate (λ a b, gate_lt b a) named;
     cis_weakest_gate := extreme_gate gate_lt named;
     cis_overall_status :=
       if ci_require_all_gates config then pick gate_lt else pick (λ a b, gate_lt b a) |}.

(** ** The commitment *)

(* eth2077-types/src/claim_integrity.rs:326-336 compute_claim_commitment *)
Definition artifact_preimage (artifact : SignedArtifact) : list Z :=
  [artifact_kind_discriminant (sa_kind artifact)] ++ sa_payload_hash artifact ++
  [signature_scheme_discriminant (sa_signature_scheme artifact)] ++
  encode_bytes (sa_signer_id artifact) ++ to_be_bytes 8 (sa_timestamp_unix artifact) ++
  encode_bytes (sa_metadata artifact) ++ [gate_status_discriminant (sa_gate_status artifact)].
(* eth2077-types/src/claim_integrity.rs:323-356 compute_claim_commitment *)
Definition compute_claim_commitment `{Sha256} {SU : SortUnstable} (artifacts : list SignedArtifact) : list Z :=
  let artifact_hashes :=
    sort_unstable_by bytes_cmp ((λ artifact, sha256 (artifact_preimage artifact)) <$> artifacts) in
  sha256 (str "eth2077-claim-integrity-v1" ++ to_be_bytes 8 (len artifact_hashes) ++ concat artifact_hashes).

(** ** When a gate is passed *)

Lemma coverage_ratio a b :
  (a ≤ b)%nat → (1 ≤ b ≤ 6)%nat →
  f64_eq (f64_div (f64_of_u64 (Z.of_nat a)) (f64_of_u64 (Z.of_nat b))) f64_zero = (a =? 0)%nat ∧
  f64_lt (f64_div (f64_of_u64 (Z.of_nat a)) (f64_of_u64 (Z.of_nat b))) (int 1) = (a <? b)%nat.
Proof.
  intros Hab Hb.
  assert (forallb (λ b, forallb (λ a, negb (a <=? b)%nat ||
     (Bool.eqb (f64_eq (f64_div (f64_of_u64 (Z.of_nat a)) (f64_of_u64 (Z.of_nat b))) f64_zero) (a =? 0)%nat &&
      Bool.eqb (f64_lt (f64_div (f64_of_u64 (Z.of_nat a)) (f64_of_u64 (Z.of_nat b))) (int 1)) (a <? b)%nat))
     (seq 0 7)) (seq 1 6) = true) as Hall by by vm_compute.
  rewrite forallb_forall in Hall. specialize (Hall b ltac:(rewrite <- list_elem_of_In, elem_of_seq; lia)).
  rewrite forallb_forall in Hall. specialize (Hall a ltac:(rewrite <- list_elem_of_In, elem_of_seq; lia)).
  rewrite (proj2 (Nat.leb_le a b) Hab) in Hall. apply andb_true_iff in Hall as [H1%eqb_prop H2%eqb_prop]. done.
Qed.

(** The artifacts that count for a gate, signed with an allowed scheme. *)
Definition counted (gate : MilestoneGate) (allowed_schemes : list SignatureScheme) : list SignedArtifact :=
  filter (λ artifact, sa_signature_scheme artifact ∈ allowed_schemes) (mg_achieved_artifacts gate).
(** Every required kind is among them. *)
Definition covered (gate : MilestoneGate) (allowed_schemes : list SignatureScheme) : Prop :=
  ∀ kind, kind ∈ mg_required_artifacts gate → ∃ artifact, artifact ∈ counted gate allowed_schemes ∧ sa_kind artifact = kind.
Definition signers (gate : MilestoneGate) (allowed_schemes : list SignatureScheme) : gset Str :=
  list_to_set (sa_signer_id <$> counted gate allowed_schemes).

Lemma gset_kind_size (X : gset ArtifactKind) : (size X ≤ 6)%nat.
Proof.
  transitivity (size (list_to_set (C := gset ArtifactKind) (enum ArtifactKind))); [|by vm_compute].
  apply subseteq_size. intros x _. apply elem_of_list_to_set, elem_of_enum.
Qed.

Definition required_set (gate : MilestoneGate) : gset ArtifactKind := list_to_set (mg_required_artifacts gate).
Definition covered_set (gate : MilestoneGate) (allowed_schemes : list SignatureScheme) : gset ArtifactKind :=
  list_to_set (filter (λ kind, kind ∈ required_set gate) (sa_kind <$> counted gate allowed_schemes)).
Lemma elem_of_covered_set gate schemes kind :
  kind ∈ covered_set gate schemes ↔
  kind ∈ mg_required_artifacts gate ∧ ∃ artifact, artifact ∈ counted gate schemes ∧ sa_kind artifact = kind.
Proof.
  unfold covered_set, required_set. rewrite elem_of_list_to_set, list_elem_of_filter, elem_of_list_to_set, list_elem_of_fmap.
  naive_solver.
Qed.
Lemma covered_iff gate schemes : covered gate schemes ↔ size (covered_set gate schemes) = size (required_set gate).
Proof.
  assert (covered_set gate schemes ⊆ required_set gate) as Hsub.
  { intros k [Hk _]%elem_of_covered_set. by apply elem_of_list_to_set. }
  split.
  - intros Hc. f_equal. apply set_eq. intros k. rewrite elem_of_covered_set. unfold required_set.
    rewrite elem_of_list_to_set. split; [by intros []|]. intros Hk. split; [done|by apply Hc].
  - intros Hsize k Hk. assert (k ∈ covered_set gate schemes) as Hin; [|by apply elem_of_covered_set in Hin as [_ ?]].
    assert (covered_set gate schemes = required_set gate) as -> by (apply set_subseteq_size_eq; [done|lia]).
    by apply elem_of_list_to_set.
Qed.
Lemma coverage_complete gate schemes :
  let coverage :=
    if bool_decide (required_set gate = ∅) then int 1
    else f64_div (f64_of_u64 (Z.of_nat (size (covered_set gate schemes)))) (f64_of_u64 (Z.of_nat (size (required_set gate)))) in
  f64_eq coverage f64_zero = false ∧ f64_lt coverage (int 1) = false ↔ covered gate schemes.
Proof.
  intros coverage. unfold coverage. clear coverage. rewrite covered_iff. case_bool_decide as Hempty.
  - split; [|by vm_compute]. intros _. apply Nat.le_antisymm; [|rewrite Hempty, size_empty; lia].
    apply subseteq_size. intros k [Hk _]%elem_of_covered_set. by apply elem_of_list_to_set.
  - assert (size (covered_set gate schemes) ≤ size (required_set gate))%nat as Hle.
    { apply subseteq_size. intros k [Hk _]%elem_of_covered_set. by apply elem_of_list_to_set. }
    assert (size (required_set gate) ≠ 0%nat) as Hne.
    { intros H0. apply Hempty. by apply size_empty_inv, leibniz_equiv in H0. }
    destruct (coverage_ratio _ _ Hle) as [-> ->]; [pose proof (gset_kind_size (required_set gate)); lia|].
    rewrite Nat.eqb_neq, Nat.ltb_ge. lia.
Qed.

(** A milestone passes its gate exactly when the artifacts signed with allowed schemes
    cover every required kind, come from at least the required number of distinct signers,
    and there is at least one, and the measured throughput reaches the target. *)
Theorem gate_passed_exact gate schemes min_signers :
  gate_le InteropPassed (evaluate_milestone_gate gate schemes min_signers) = true ↔
  counted gate schemes ≠ [] ∧ covered gate schemes ∧
  min_signers ≤ Z.of_nat (size (signers gate schemes)) ∧
  f64_le (mg_target_tps gate) (default f64_zero (mg_measured_tps gate)) = true.
Proof.
  pose proof (coverage_complete gate schemes) as Hcov. unfold evaluate_milestone_gate.
  fold (counted gate schemes). fold (signers gate schemes). fold (required_set gate).
  fold (covered_set gate schemes). cbv zeta in Hcov |- *.
  destruct (bool_decide (counted gate schemes = [])) eqn:Hcount.
  { apply bool_decide_eq_true in Hcount. split; [done|by intros []]. }
  apply bool_decide_eq_false in Hcount.
  destruct (f64_eq _ f64_zero); [split; [done|intros (_ & Hc & _); by apply Hcov in Hc as [? _]]|].
  destruct (f64_lt _ (int 1)); [split; [done|intros (_ & Hc & _); by apply Hcov in Hc as [_ ?]]|].
  assert (covered gate schemes) as Hc by by apply Hcov.
  destruct (Z.ltb_spec (Z.of_nat (size (signers gate schemes))) min_signers); [split; [done|intros (_ & _ & ? & _); lia]|].
  destruct (f64_le (mg_target_tps gate) _) eqn:Htps; cbn [negb]; [|split; [done|by intros (_ & _ & _ & ?)]].
  split; [done|]. intros _. by destruct (_ && _).
Qed.

(** The order of the artifacts does not matter to the commitment. *)
Lemma claim_commitment_order `{Sha256} (SU1 SU2 : SortUnstable) artifacts artifacts' :
  artifacts ≡ₚ artifacts' →
  compute_claim_commitment (SU := SU1) artifacts = compute_claim_commitment (SU := SU2) artifacts'.
Proof.
  intros Hp. unfold compute_claim_commitment.
  rewrite (sorted_strings_unique SU1 SU2 _ ((λ artifact, sha256 (artifact_preimage artifact)) <$> artifacts')) by by rewrite Hp.
  done.
Qed.

Definition example_artifact (kind : ArtifactKind) (signer : string) : SignedArtifact :=
  {| sa_kind := kind; sa_payload_hash := zero_bytes 32; sa_signature_scheme := BLS12_381; sa_signer_id := str signer;
     sa_timestamp_unix := 1; sa_metadata := []; sa_gate_status := ProductionReady |}.
Definition example_gate (artifacts : list SignedArtifact) (measured : option f64) : MilestoneGate :=
  {| mg_milestone_name := str "m"; mg_required_artifacts := [BenchmarkResult; TestVectorPass];
     mg_achieved_artifacts := artifacts; mg_target_tps := int 1000; mg_measured_tps := measured;
     mg_gate_status := Partial |}.
Example gate_examples :
  let two := [example_artifact BenchmarkResult "a"; example_artifact TestVectorPass "b"] in
  evaluate_milestone_gate (example_gate two (Some (int 1000))) [BLS12_381] 2 = InteropPassed ∧
  evaluate_milestone_gate (example_gate two (Some (int 1000))) [BLS12_381] 1 = ProductionReady ∧
  evaluate_milestone_gate (example_gate two (Some (int 999))) [BLS12_381] 1 = SpecComplete ∧
  evaluate_milestone_gate (example_gate two (Some (int 1000))) [Ed25519Signature] 1 = NotStarted ∧
  evaluate_milestone_gate (example_gate [example_artifact TestVectorPass "b"] None) [BLS12_381] 1 = Partial.
Proof. by vm_compute. Qed.

(** ** Part 2 *)

(* eth2077-types/src/go_nogo_gate.rs:8-13 GateVerdict *)
Inductive GateVerdict := Go | NoGo | ConditionalGo | Deferred.
#[export] Instance GateVerdict_eq_dec : EqDecision GateVerdict.
Proof. solve_decision. Defined.
(* eth2077-types/src/go_nogo_gate.rs:16-23 GateVerdict::as_str *)
Definition GateVerdict_as_str (self : GateVerdict) : Str :=
  match self with
  | Go => str "go" | NoGo => str "nogo" | ConditionalGo => str "conditional-go" | Deferred => str "deferred"
  end.
(* eth2077-types/src/go_nogo_gate.rs:27-34 ChecklistCategory *)
Inductive ChecklistCategory :=
| Security | Performance | ConsensusCategory | Infrastructure | GovernanceCategory | Testing.
#[export] Instance ChecklistCategory_eq_dec : EqDecision ChecklistCategory.
Proof. solve_decision. Defined.
(* eth2077-types/src/go_nogo_gate.rs:37-46 ChecklistCategory::as_str *)
Definition ChecklistCategory_as_str (self : ChecklistCategory) : Str :=
  match self with
  | Security => str "security" | Performance => str "performance" | ConsensusCategory => str "consensus"
  | Infrastructure => str "infrastructure" | GovernanceCategory => str "governance" | Testing => str "testing"
  end.
(* eth2077-types/src/go_nogo_gate.rs:50-55 SignoffStatus *)
Inductive SignoffStatus := PendingSignoff | Approved | RejectedSignoff | Waived.
#[export] Instance SignoffStatus_eq_dec : EqDecision SignoffStatus.
Proof. solve_decision. Defined.
(* eth2077-types/src/go_nogo_gate.rs:58-60 SignoffStatus::is_open *)
Definition SignoffStatus_is_open (self : SignoffStatus) : bool :=
  match self with PendingSignoff | RejectedSignoff => true | _ => false end.
(* eth2077-types/src/go_nogo_gate.rs:62-69 SignoffStatus::as_str *)
Definition SignoffStatus_as_str (self : SignoffStatus) : Str :=
  match self with
  | PendingSignoff => str "pending" | Approved => str "approved" | RejectedSignoff => str "rejected"
  | Waived => str "waived"
  end.
(* eth2077-types/src/go_nogo_gate.rs:73-79 RiskLevel *)
Inductive RiskLevel := Critical | High | Medium | Low | Negligible.
#[export] Instance RiskLevel_eq_dec : EqDecision RiskLevel.
Proof. solve_decision. Defined.
(* eth2077-types/src/go_nogo_gate.rs:82-90 RiskLevel::as_str *)
Definition RiskLevel_as_str (self : RiskLevel) : Str :=
  match self with
  | Critical => str "critical" | High => str "high" | Medium => str "medium" | Low => str "low"
  | Negligible => str "negligible"
  end.
(* eth2077-types/src/go_nogo_gate.rs:94-104 ChecklistItem *)
Record ChecklistItem := {
  ci_id : Str;
  ci_category : ChecklistCategory;
  ci_description : Str;
  ci_status : SignoffStatus;
  ci_assignee : Str;
  ci_risk_if_skipped : RiskLevel;
  ci_evidence_url : option Str;
  ci_signed_off_at_unix : option Z;
  ci_notes : option Str;
}.
(* eth2077-types/src/go_nogo_gate.rs:107-115 GateDecision *)
Record GateDecision := {
  gd_gate_name : Str;
  gd_verdict : GateVerdict;
  gd_decided_at_unix : Z;
  gd_decided_by : Str;
  gd_blocking_items : list Str;
  gd_conditions : list Str;
  gd_next_review_unix : option Z;
}.
(* eth2077-types/src/go_nogo_gate.rs:118-127 LaunchChecklist *)
Record LaunchChecklist := {
  lc_id : Str;
  lc_name : Str;
  lc_target_network : Str;
  lc_items : list ChecklistItem;
  lc_gates : list GateDecision;
  lc_created_at_unix : Z;
  lc_target_launch_unix : option Z;
  lc_final_verdict : option GateVerdict;
}.
(* eth2077-types/src/go_nogo_gate.rs:176-184 GoNogoGateConfig *)
Record GoNogoGateConfig := {
  gn_required_go_gates : Z;
  gn_max_conditional_gates : Z;
  gn_required_categories : list ChecklistCategory;
  gn_min_signoff_count : Z;
  gn_max_critical_risks_open : Z;
  gn_review_cadence_hours : Z;
  gn_auto_nogo_on_security_fail : bool;
}.
(* eth2077-types/src/go_nogo_gate.rs:222-225 GoNogoGateValidationError *)
Definition GoNogoGateValidationError : Type := FieldError.
(* eth2077-types/src/go_nogo_gate.rs:228-238 GoNogoGateStats *)
Record GoNogoGateStats := {
  gns_total_items : Z;
  gns_approved_items : Z;
  gns_rejected_items : Z;
  gns_pending_items : Z;
  gns_go_gates : Z;
  gns_nogo_gates : Z;
  gns_critical_risks_open : Z;
  gns_approval_rate : f64;
  gns_commitment : list Z;
}.
(* eth2077-types/src/go_nogo_gate.rs:186-204 GoNogoGateConfig::default *)
Definition default_gate_config : GoNogoGateConfig :=
  {| gn_required_go_gates := 5;
     gn_max_conditional_gates := 2;
     gn_required_categories := [Security; Performance; ConsensusCategory; Infrastructure; Testing];
     gn_min_signoff_count := 3;
     gn_max_critical_risks_open := 0;
     gn_review_cadence_hours := 24;
     gn_auto_nogo_on_security_fail := true |}.

(** ** The policy *)

(* eth2077-types/src/go_nogo_gate.rs:318-329 validate_required_go_gates *)
Definition validate_required_go_gates (config : GoNogoGateConfig) : list GoNogoGateValidationError :=
  push_if (gn_required_go_gates config =? 0)
    (field_error "required_go_gates" "required_go_gates must be greater than zero").
(* eth2077-types/src/go_nogo_gate.rs:331-342 validate_conditional_gate_budget *)
Definition validate_conditional_gate_budget (config : GoNogoGateConfig) : list GoNogoGateValidationError :=
  push_if (gn_required_go_gates config <? gn_max_conditional_gates config)
    (field_error "max_conditional_gates" "max_conditional_gates must be less than or equal to required_go_gates").
(* eth2077-types/src/go_nogo_gate.rs:344-373 validate_required_categories *)
Definition validate_required_categories (config : GoNogoGateConfig) : list GoNogoGateValidationError :=
  if bool_decide (gn_required_categories config = [])
  then [field_error "required_categories" "required_categories must include at least one category"]
  else push_if (negb (bool_decide (NoDup (gn_required_categories config))))
    (field_error "required_categories" "required_categories contains duplicate categories").
(* eth2077-types/src/go_nogo_gate.rs:375-386 validate_signoff_threshold *)
Definition validate_signoff_threshold (config : GoNogoGateConfig) : list GoNogoGateValidationError :=
  push_if (gn_min_signoff_count config =? 0)
    (field_error "min_signoff_count" "min_signoff_count must be greater than zero").
(* eth2077-types/src/go_nogo_gate.rs:388-404 validate_review_cadence *)
Definition validate_review_cadence (config : GoNogoGateConfig) : list GoNogoGateValidationError :=
  push_if (gn_review_cadence_hours config =? 0)
    (field_error "review_cadence_hours" "review_cadence_hours must be greater than zero") ++
  push_if (24 * 30 <? gn_review_cadence_hours config)
    (field_error "review_cadence_hours" "review_cadence_hours must be <= 720 hours (30 days)").
(* eth2077-types/src/go_nogo_gate.rs:406-421 validate_security_policy *)
Definition validate_security_policy (config : GoNogoGateConfig) : list GoNogoGateValidationError :=
  push_if (gn_auto_nogo_on_security_fail config && negb (bool_decide (Security ∈ gn_required_categories config)))
    (field_error "required_categories"
       "required_categories must include Security when auto_nogo_on_security_fail is true").
(* eth2077-types/src/go_nogo_gate.rs:207-218 GoNogoGateConfig::validate *)
Definition GoNogoGateConfig_validate (self : GoNogoGateConfig) : list GoNogoGateValidationError :=
  validate_required_go_gates self ++ validate_conditional_gate_budget self ++ validate_required_categories self ++
  validate_signoff_threshold self ++ validate_review_cadence self ++ validate_security_policy self.

(** ** Statistics *)

(* eth2077-types/src/go_nogo_gate.rs:579-596 CommitmentPayload *)
Record GatePayload := {
  gp_checklist_id : Str;
  gp_checklist_name : Str;
  gp_target_network : Str;
  gp_created_at_unix : Z;
  gp_target_launch_unix : option Z;
  gp_final_verdict : option Str;
  gp_stats : GoNogoGateStats;
  gp_item_signatures : list Str;
  gp_gate_signatures : list Str;
}.
(** [serde_json::to_vec(&payload)], which does not fail on this type. *)
Class GateJson := gate_json : GatePayload → list Z.
(* eth2077-types/src/go_nogo_gate.rs:574-576 option_u64_to_string *)
Definition option_u64_to_string (value : option Z) : Str := from_option decimal [] value.
(* eth2077-types/src/go_nogo_gate.rs:541-554 normalized_item_signature *)
Definition normalized_item_signature (item : ChecklistItem) : Str :=
  join (str "|")
    [ci_id item; ChecklistCategory_as_str (ci_category item); ci_description item; SignoffStatus_as_str (ci_status item);
     ci_assignee item; RiskLevel_as_str (ci_risk_if_skipped item); default [] (ci_evidence_url item);
     option_u64_to_string (ci_signed_off_at_unix item); default [] (ci_notes item)].

Section statistics.
Context {SU : SortUnstable} `{Sha256} `{GateJson}.

(* eth2077-types/src/go_nogo_gate.rs:556-572 normalized_gate_signature *)
Definition normalized_gate_signature (gate : GateDecision) : Str :=
  join (str "|")
    [gd_gate_name gate; GateVerdict_as_str (gd_verdict gate); decimal (gd_decided_at_unix gate); gd_decided_by gate;
     join (str ",") (sort_unstable_by bytes_cmp (gd_blocking_items gate));
     join (str ",") (sort_unstable_by bytes_cmp (gd_conditions gate)); option_u64_to_string (gd_next_review_unix gate)].
(** The statistics in the payload have no commitment. *)
(* eth2077-types/src/go_nogo_gate.rs:499-539 compute_commitment *)
Definition gate_compute_commitment (checklist : LaunchChecklist) (stats : GoNogoGateStats) : list Z :=
  sha256 (gate_json
    {| gp_checklist_id := lc_id checklist;
       gp_checklist_name := lc_name checklist;
       gp_target_network := lc_target_network checklist;
       gp_created_at_unix := lc_created_at_unix checklist;
       gp_target_launch_unix := lc_target_launch_unix checklist;
       gp_final_verdict := GateVerdict_as_str <$> lc_final_verdict checklist;
       gp_stats := stats;
       gp_item_signatures := sort_unstable_by bytes_cmp (normalized_item_signature <$> lc_items checklist);
       gp_gate_signatures := sort_unstable_by bytes_cmp (normalized_gate_signature <$> lc_gates checklist) |}).
(* eth2077-types/src/go_nogo_gate.rs:252-316 compute_stats *)
Definition gate_compute_stats (checklist : LaunchChecklist) : GoNogoGateStats :=
  let with_status s := len (filter (λ item, ci_status item = s) (lc_items checklist)) in
  let with_verdict v := len (filter (λ gate, gd_verdict gate = v) (lc_gates checklist)) in
  let total_items := len (lc_items checklist) in
  let derived commitment :=
    {| gns_total_items := total_items;
       gns_approved_items := with_status Approved;
       gns_rejected_items := with_status RejectedSignoff;
       gns_pending_items := with_status PendingSignoff;
       gns_go_gates := with_verdict Go;
       gns_nogo_gates := with_verdict NoGo;
       gns_critical_risks_open :=
         len (filter (λ item, ci_risk_if_skipped item = Critical ∧ SignoffStatus_is_open (ci_status item) = true)
                (lc_items checklist));
       gns_approval_rate :=
         if total_items =? 0 then f64_zero else f64_div (f64_of_u64 (with_status Approved)) (f64_of_u64 total_items);
       gns_commitment := commitment |} in
  derived (gate_compute_commitment checklist (derived [])).

(** ** The decision *)

(* eth2077-types/src/go_nogo_gate.rs:430-455 gate_verdict_counts *)
Definition gate_verdict_counts (checklist : LaunchChecklist) : Z * Z * Z * Z :=
  foldl (λ '(go, nogo, conditional, deferred) gate,
    match gd_verdict gate with
    | Go => (go + 1, nogo, conditional, deferred)
    | NoGo => (go, nogo + 1, conditional, deferred)
    | ConditionalGo => (go, nogo, conditional + 1, deferred)
    | Deferred => (go, nogo, conditional, deferred + 1)
    end) (0, 0, 0, 0) (lc_gates checklist).
(* eth2077-types/src/go_nogo_gate.rs:457-470 approved_signoff_count *)
Definition approved_signoff_count (checklist : LaunchChecklist) : Z :=
  let signers :=
    foldl (λ signers item,
      if negb (bool_decide (ci_status item = Approved)) then signers else
      let signer := trim (ci_assignee item) in
      if bool_decide (signer = []) then signers else {[signer]} ∪ signers) (∅ : gset Str) (lc_items checklist) in
  Z.of_nat (size signers).
(* eth2077-types/src/go_nogo_gate.rs:472-487 has_all_required_categories_approved *)
Definition has_all_required_categories_approved (checklist : LaunchChecklist)
    (required_categories : list ChecklistCategory) : bool :=
  let approved_categories := ci_category <$> filter (λ item, ci_status item = Approved) (lc_items checklist) in
  forallb (λ category, bool_decide (category ∈ approved_categories)) required_categories.
(* eth2077-types/src/go_nogo_gate.rs:489-493 has_rejected_security_item *)
Definition has_rejected_security_item (checklist : LaunchChecklist) : bool :=
  existsb (λ item, bool_decide (ci_category item = Security) && bool_decide (ci_status item = RejectedSignoff))
    (lc_items checklist).
(* eth2077-types/src/go_nogo_gate.rs:495-497 final_verdict_allows_launch *)
Definition final_verdict_allows_launch (verdict : option GateVerdict) : bool :=
  match verdict with Some (NoGo | Deferred) => false | _ => true end.
(* eth2077-types/src/go_nogo_gate.rs:130-172 LaunchChecklist::is_launch_ready *)
Definition LaunchChecklist_is_launch_ready (self : LaunchChecklist) (config : GoNogoGateConfig) : bool :=
  if negb (bool_decide (GoNogoGateConfig_validate config = [])) then false else
  if bool_decide (lc_items self = []) || bool_decide (lc_gates self = []) then false else
  if negb (final_verdict_allows_launch (lc_final_verdict self)) then false else
  let stats := gate_compute_stats self in
  let '(go_count, nogo_count, conditional_count, deferred_count) := gate_verdict_counts self in
  if go_count <? gn_required_go_gates config then false else
  if gn_max_conditional_gates config <? conditional_count then false else
  if (0 <? nogo_count) || (0 <? gns_nogo_gates stats) then false else
  if 0 <? deferred_count then false else
  if gn_max_critical_risks_open config <? gns_critical_risks_open stats then false else
  if approved_signoff_count self <? gn_min_signoff_count config then false else
  if negb (has_all_required_categories_approved self (gn_required_categories config)) then false else
  if gn_auto_nogo_on_security_fail config && has_rejected_security_item self then false else
  true.
End statistics.

(** *** What a launch needs *)

Definition verdict_count (checklist : LaunchChecklist) (verdict : GateVerdict) : Z :=
  len (filter (λ gate, gd_verdict gate = verdict) (lc_gates checklist)).
Lemma gate_verdict_counts_exact checklist :
  gate_verdict_counts checklist =
  (verdict_count checklist Go, verdict_count checklist NoGo, verdict_count checklist ConditionalGo,
   verdict_count checklist Deferred).
Proof.
  unfold gate_verdict_counts, verdict_count, len. generalize (lc_gates checklist). intros gates.
  assert (∀ a b c d, foldl (λ '(go, nogo, conditional, deferred) gate,
    match gd_verdict gate with
    | Go => (go + 1, nogo, conditional, deferred)
    | NoGo => (go, nogo + 1, conditional, deferred)
    | ConditionalGo => (go, nogo, conditional + 1, deferred)
    | Deferred => (go, nogo, conditional, deferred + 1)
    end) (a, b, c, d) gates =
    (a + Z.of_nat (length (filter (λ g, gd_verdict g = Go) gates)),
     b + Z.of_nat (length (filter (λ g, gd_verdict g = NoGo) gates)),
     c + Z.of_nat (length (filter (λ g, gd_verdict g = ConditionalGo) gates)),
     d + Z.of_nat (length (filter (λ g, gd_verdict g = Deferred) gates)))) as Hloop; [|by rewrite Hloop].
  induction gates as [|g gates IH]; intros a b c d; cbn [foldl]; [by rewrite !filter_nil, !Z.add_0_r|].
  rewrite !filter_cons. destruct (gd_verdict g) eqn:Hg; rewrite IH; repeat case_decide; try congruence;
    cbn [length]; repeat match goal with |- (_, _) = (_, _) => apply f_equal2 end; lia.
Qed.
(** The people who signed off an item. *)
Definition approvers (checklist : LaunchChecklist) : gset Str :=
  list_to_set (filter (λ signer, signer ≠ [])
    ((λ item, trim (ci_assignee item)) <$> filter (λ item, ci_status item = Approved) (lc_items checklist))).
Lemma approved_signoff_count_exact checklist : approved_signoff_count checklist = Z.of_nat (size (approvers checklist)).
Proof.
  unfold approved_signoff_count, approvers. do 2 f_equal. generalize (lc_items checklist). intros items.
  assert (∀ X : gset Str, foldl (λ signers item,
      if negb (bool_decide (ci_status item = Approved)) then signers else
      let signer := trim (ci_assignee item) in
      if bool_decide (signer = []) then signers else {[signer]} ∪ signers) X items =
    X ∪ list_to_set (filter (λ signer, signer ≠ [])
      ((λ item, trim (ci_assignee item)) <$> filter (λ item, ci_status item = Approved) items))) as Hloop.
  { induction items as [|item items IH]; intros X; cbn [foldl]; [set_solver|]. rewrite filter_cons.
    case_bool_decide as Ha; cbn [negb]; [rewrite decide_True by done|rewrite decide_False by done; apply IH].
    cbv zeta. rewrite IH. csimpl. rewrite filter_cons.
    case_bool_decide as Ht; [rewrite decide_False by naive_solver|rewrite decide_True by done]; set_solver. }
  rewrite Hloop. set_solver.
Qed.

Record gate_config_ok (c : GoNogoGateConfig) : Prop := {
  ok_go_gates : 1 ≤ gn_required_go_gates c;
  ok_conditional : gn_max_conditional_gates c ≤ gn_required_go_gates c;
  ok_categories : gn_required_categories c ≠ [] ∧ NoDup (gn_required_categories c);
  ok_signoffs : 1 ≤ gn_min_signoff_count c;
  ok_cadence : 1 ≤ gn_review_cadence_hours c ≤ 720;
  ok_security : gn_auto_nogo_on_security_fail c = true → Security ∈ gn_required_categories c;
}.
Lemma gate_config_exact c :
  is_u64 (gn_required_go_gates c) → is_u64 (gn_min_signoff_count c) → is_u64 (gn_review_cadence_hours c) →
  GoNogoGateConfig_validate c = [] ↔ gate_config_ok c.
Proof.
  intros H1 H2 H3. unfold GoNogoGateConfig_validate, validate_required_go_gates, validate_conditional_gate_budget,
    validate_signoff_threshold, validate_review_cadence, validate_security_policy.
  assert (validate_required_categories c = [] ↔ gn_required_categories c ≠ [] ∧ NoDup (gn_required_categories c)) as Hcat.
  { unfold validate_required_categories. case_bool_decide; [naive_solver|].
    rewrite push_if_nil, negb_false_iff, bool_decide_eq_true. naive_solver. }
  rewrite !app_nil, !push_if_nil, Hcat, andb_false_iff, negb_false_iff, bool_decide_eq_true, !Z.eqb_neq, !Z.ltb_ge.
  split.
  - intros (?&?&?&?&[??]&Hsec). split; try sat_lia; [done|]. intros Hauto. destruct Hsec; [congruence|done].
  - intros [? ? [? ?] ? ? Hsec]. split_and!; try sat_lia; try done.
    destruct (gn_auto_nogo_on_security_fail c); [right; by apply Hsec|by left].
Qed.

Lemma verdict_count_zero checklist verdict :
  verdict_count checklist verdict = 0 ↔ Forall (λ gate, gd_verdict gate ≠ verdict) (lc_gates checklist).
Proof.
  unfold verdict_count, len. destruct (filter (λ gate, gd_verdict gate = verdict) (lc_gates checklist)) as [|g l] eqn:Hf.
  - split; [|done]. intros _. by apply (proj1 (filter_nil_Forall _ _)) in Hf.
  - split; [simpl; lia|]. intros Hall. apply (proj2 (filter_nil_Forall _ _)) in Hall. congruence.
Qed.
Lemma no_blocking_verdict checklist :
  verdict_count checklist NoGo = 0 ∧ verdict_count checklist Deferred = 0 ↔
  Forall (λ gate, gd_verdict gate ≠ NoGo ∧ gd_verdict gate ≠ Deferred) (lc_gates checklist).
Proof. by rewrite !verdict_count_zero, Forall_and. Qed.
Lemma final_verdict_allows verdict : final_verdict_allows_launch verdict = true ↔ verdict ∉ [Some NoGo; Some Deferred].
Proof. rewrite !not_elem_of_cons. destruct verdict as [[]|]; simpl; set_solver. Qed.
Lemma categories_approved checklist required :
  has_all_required_categories_approved checklist required = true ↔
  ∀ category, category ∈ required → ∃ item, item ∈ lc_items checklist ∧ ci_category item = category ∧ ci_status item = Approved.
Proof.
  unfold has_all_required_categories_approved. rewrite forallb_forall. setoid_rewrite <- list_elem_of_In.
  apply forall_proper. intros category. rewrite bool_decide_eq_true, list_elem_of_fmap.
  setoid_rewrite list_elem_of_filter. naive_solver.
Qed.
Lemma security_clear checklist :
  has_rejected_security_item checklist = false ↔
  Forall (λ item, ci_category item = Security → ci_status item ≠ RejectedSignoff) (lc_items checklist).
Proof.
  unfold has_rejected_security_item. rewrite <- not_true_iff_false, existsb_exists, Forall_forall.
  setoid_rewrite <- list_elem_of_In. setoid_rewrite andb_true_iff. setoid_rewrite bool_decide_eq_true. naive_solver.
Qed.

Lemma guard_false (b c : bool) : (if b then false else c) = true ↔ b = false ∧ c = true.
Proof. destruct b; naive_solver. Qed.
Lemma verdict_count_nonneg checklist verdict : 0 ≤ verdict_count checklist verdict.
Proof. unfold verdict_count, len. lia. Qed.

(** A checklist is ready to launch exactly when the policy is valid, there are items and
    gates, the final verdict does not forbid it, no gate says no or defers, enough say go and
    not too many go on conditions, not too many critical risks are open, enough people have
    signed off, every required category has an approved item, and, where the policy asks for
    it, no security item has been rejected. *)
Theorem launch_ready_exact {SU : SortUnstable} `{Sha256} `{GateJson} checklist config :
  LaunchChecklist_is_launch_ready checklist config = true ↔
  GoNogoGateConfig_validate config = [] ∧ lc_items checklist ≠ [] ∧ lc_gates checklist ≠ [] ∧
  lc_final_verdict checklist ∉ [Some NoGo; Some Deferred] ∧
  Forall (λ gate, gd_verdict gate ≠ NoGo ∧ gd_verdict gate ≠ Deferred) (lc_gates checklist) ∧
  gn_required_go_gates config ≤ verdict_count checklist Go ∧
  verdict_count checklist ConditionalGo ≤ gn_max_conditional_gates config ∧
  len (filter (λ item, ci_risk_if_skipped item = Critical ∧ SignoffStatus_is_open (ci_status item) = true)
         (lc_items checklist)) ≤ gn_max_critical_risks_open config ∧
  gn_min_signoff_count config ≤ Z.of_nat (size (approvers checklist)) ∧
  (∀ category, category ∈ gn_required_categories config → ∃ item, item ∈ lc_items checklist ∧
     ci_category item = category ∧ ci_status item = Approved) ∧
  (gn_auto_nogo_on_security_fail config = true →
     Forall (λ item, ci_category item = Security → ci_status item ≠ RejectedSignoff) (lc_items checklist)).
Proof.
  unfold LaunchChecklist_is_launch_ready. rewrite gate_verdict_counts_exact, approved_signoff_count_exact.
  change (gns_nogo_gates (gate_compute_stats checklist)) with (verdict_count checklist NoGo).
  cbn [gns_critical_risks_open gate_compute_stats].
  rewrite <- categories_approved, <- security_clear, <- final_verdict_allows, <- no_blocking_verdict.
  rewrite !guard_false, !orb_false_iff, !negb_false_iff, !bool_decide_eq_true, !bool_decide_eq_false, !Z.ltb_ge,
    andb_false_iff.
  destruct (gn_auto_nogo_on_security_fail config), (has_rejected_security_item checklist);
    pose proof (verdict_count_nonneg checklist NoGo); pose proof (verdict_count_nonneg checklist Deferred);
    split; intros Hall; destruct_and?; split_and!; try done; try lia; naive_solver.
Qed.

Example default_gate_policy_valid : GoNogoGateConfig_validate default_gate_config = [].
Proof. vm_compute. reflexivity. Qed.
