(* ===== verification/QuickSlots.v ===== *)
(** * Quick slots ([eth2077-types/src/quick_slots.rs])

    What a shorter slot trades for what: validation of a slot configuration, the analysis of
    one, and the comparison of several. *)
From S2P Require Import Prelude Validation Strings Metadata Floats FloatFacts.
Local Open Scope Z_scope.

(* eth2077-types/src/quick_slots.rs:5-11 SlotDuration *)
Inductive SlotDuration := Standard12s | Fast8s | Quick6s | Rapid4s | Ultra2s.
#[export] Instance SlotDuration_eq_dec : EqDecision SlotDuration.
Proof. solve_decision. Defined.
(* eth2077-types/src/quick_slots.rs:14-23 FinalityMode *)
Inductive FinalityMode := EpochBased | ThreeSlotFinality | SingleSlotFinality | OobCitadel.
#[export] Instance FinalityMode_eq_dec : EqDecision FinalityMode.
Proof. solve_decision. Defined.
(* eth2077-types/src/quick_slots.rs:26-36 SlotConfig *)
Record SlotConfig := {
  sc_slot_duration : SlotDuration;
  sc_finality_mode : FinalityMode;
  sc_propagation_budget_ms : Z;
  sc_attestation_deadline_ms : Z;
  sc_max_validators_per_slot : Z;
  sc_network_latency_p95_ms : Z;
}.
(* eth2077-types/src/quick_slots.rs:39-52 SlotTradeoffAnalysis *)
Record SlotTradeoffAnalysis := {
  ta_slot_duration : SlotDuration;
  ta_finality_mode : FinalityMode;
  ta_inclusion_latency_avg_ms : f64;
  ta_finality_latency_ms : f64;
  ta_missed_slot_probability : f64;
  ta_throughput_multiplier : f64;
  ta_security_margin : f64;
  ta_bandwidth_overhead_factor : f64;
}.
(* eth2077-types/src/quick_slots.rs:55-60 QuickSlotValidationError *)
Inductive QuickSlotValidationError :=
| PropagationExceedsSlot (propagation_ms slot_ms : Z)
| AttestationExceedsSlot (attestation_ms slot_ms : Z)
| InsufficientSecurityMargin (margin : Str)
| TooManyValidators (count max : Z).
(* eth2077-types/src/quick_slots.rs:63-69 QuickSlotStats *)
Record QuickSlotStats := {
  qs_configs_evaluated : Z;
  qs_best_throughput_config : Str;
  qs_best_finality_config : Str;
  qs_avg_security_margin : f64;
  qs_total_bandwidth_overhead : f64;
}.

(* eth2077-types/src/quick_slots.rs:71-79 slot_duration_ms *)
Definition slot_duration_ms (slot : SlotDuration) : Z :=
  match slot with
  | Standard12s => 12000
  | Fast8s => 8000
  | Quick6s => 6000
  | Rapid4s => 4000
  | Ultra2s => 2000
  end.
(* eth2077-types/src/quick_slots.rs:81-90 default_slot_config *)
Definition default_slot_config : SlotConfig :=
  {| sc_slot_duration := Standard12s; sc_finality_mode := EpochBased; sc_propagation_budget_ms := 4000;
     sc_attestation_deadline_ms := 4000; sc_max_validators_per_slot := 32; sc_network_latency_p95_ms := 500 |}.
(* eth2077-types/src/quick_slots.rs:252-259 compute_security_margin *)
Definition compute_security_margin (config : SlotConfig) : f64 :=
  let slot_ms := f64_of_u64 (slot_duration_ms (sc_slot_duration config)) in
  if f64_eq slot_ms f64_zero then f64_zero else
  f64_sub (int 1)
    (f64_div (f64_of_u64 (u64_wrapping_add (sc_propagation_budget_ms config) (sc_attestation_deadline_ms config))) slot_ms).
(* eth2077-types/src/quick_slots.rs:261-269 validators_limit *)
Definition validators_limit (slot : SlotDuration) : Z :=
  match slot with
  | Standard12s => 128
  | Fast8s => 96
  | Quick6s => 72
  | Rapid4s => 48
  | Ultra2s => 32
  end.
(* eth2077-types/src/quick_slots.rs:242-250 estimate_oob_benefit *)
Definition estimate_oob_benefit (slot : SlotDuration) : f64 :=
  match slot with
  | Standard12s => dec 11 10
  | Fast8s => dec 13 10
  | Quick6s => dec 15 10
  | Rapid4s => dec 18 10
  | Ultra2s => dec 24 10
  end.
(* eth2077-types/src/quick_slots.rs:92-130 validate_slot_config *)
Definition validate_slot_config (config : SlotConfig) : result unit (list QuickSlotValidationError) :=
  let slot_ms := slot_duration_ms (sc_slot_duration config) in
  let security_margin := compute_security_margin config in
  let max_supported_validators := validators_limit (sc_slot_duration config) in
  errors_to_result (
    push_if (slot_ms <? sc_propagation_budget_ms config)
      (PropagationExceedsSlot (sc_propagation_budget_ms config) slot_ms) ++
    push_if (slot_ms <? sc_attestation_deadline_ms config)
      (AttestationExceedsSlot (sc_attestation_deadline_ms config) slot_ms) ++
    push_if (f64_le security_margin (dec 2 10)) (InsufficientSecurityMargin (f64_fixed 3 security_margin)) ++
    push_if (max_supported_validators <? sc_max_validators_per_slot config)
      (TooManyValidators (sc_max_validators_per_slot config) max_supported_validators)).

(* eth2077-types/src/quick_slots.rs:149-157 analyze_tradeoffs *)
Definition base_miss_probability (latency_ratio : f64) : f64 :=
  if f64_le latency_ratio (dec 5 10) then dec 1 100 else
  if f64_le latency_ratio (dec 75 100) then dec 3 100 else
  if f64_le latency_ratio (int 1) then dec 8 100 else
  f64_min (f64_add (dec 8 100) (f64_mul (f64_sub latency_ratio (int 1)) (dec 35 100))) (int 1).
(* eth2077-types/src/quick_slots.rs:132-174 analyze_tradeoffs *)
Definition analyze_tradeoffs (config : SlotConfig) : SlotTradeoffAnalysis :=
  let slot_ms := f64_of_u64 (slot_duration_ms (sc_slot_duration config)) in
  let throughput_multiplier := f64_div (int 12000) slot_ms in
  let security_margin := f64_clamp (compute_security_margin config) f64_zero (int 1) in
  let finality_latency_ms :=
    match sc_finality_mode config with
    | EpochBased => f64_mul (int 64) slot_ms
    | ThreeSlotFinality => f64_mul (int 3) slot_ms
    | SingleSlotFinality => slot_ms
    | OobCitadel => f64_div (f64_mul (int 3) slot_ms) (estimate_oob_benefit (sc_slot_duration config))
    end in
  let propagation_budget := f64_of_u64 (Z.max (sc_propagation_budget_ms config) 1) in
  let latency_ratio := f64_div (f64_of_u64 (sc_network_latency_p95_ms config)) propagation_budget in
  let headroom_penalty := f64_mul (f64_maximum (f64_sub (int 1) security_margin) f64_zero) (dec 6 100) in
  let missed_slot_probability :=
    f64_clamp (f64_add (base_miss_probability latency_ratio) headroom_penalty) f64_zero (int 1) in
  let bandwidth_overhead_factor :=
    f64_mul throughput_multiplier
      (f64_add (f64_add (int 1) (f64_mul (f64_min latency_ratio (int 2)) (dec 1 10)))
         (f64_mul missed_slot_probability (dec 1 10))) in
  {| ta_slot_duration := sc_slot_duration config;
     ta_finality_mode := sc_finality_mode config;
     ta_inclusion_latency_avg_ms := f64_div slot_ms (int 2);
     ta_finality_latency_ms := finality_latency_ms;
     ta_missed_slot_probability := missed_slot_probability;
     ta_throughput_multiplier := throughput_multiplier;
     ta_security_margin := security_margin;
     ta_bandwidth_overhead_factor := bandwidth_overhead_factor |}.

(** [{:?}] of the two enums. *)
Definition slot_debug (slot : SlotDuration) : Str :=
  match slot with
  | Standard12s => str "Standard12s"
  | Fast8s => str "Fast8s"
  | Quick6s => str "Quick6s"
  | Rapid4s => str "Rapid4s"
  | Ultra2s => str "Ultra2s"
  end.
Definition mode_debug (mode : FinalityMode) : Str :=
  match mode with
  | EpochBased => str "EpochBased"
  | ThreeSlotFinality => str "ThreeSlotFinality"
  | SingleSlotFinality => str "SingleSlotFinality"
  | OobCitadel => str "OobCitadel"
  end.
(* eth2077-types/src/quick_slots.rs:189-197 compare_configurations *)
Definition slot_labels (analyses : list SlotTradeoffAnalysis) : list ((SlotDuration * FinalityMode) * Str) :=
  (λ analysis, ((ta_slot_duration analysis, ta_finality_mode analysis),
     slot_debug (ta_slot_duration analysis) ++ str "+" ++ mode_debug (ta_finality_mode analysis))) <$> analyses.
(** [labels.get(key)]: the entry inserted last under the key. *)
(* eth2077-types/src/quick_slots.rs:224-231 compare_configurations *)
Definition label_of (analyses : list SlotTradeoffAnalysis) (best : option SlotTradeoffAnalysis) : Str :=
  default (str "N/A") (analysis ← best;
    snd <$> last (filter (λ entry, entry.1 = (ta_slot_duration analysis, ta_finality_mode analysis))
      (slot_labels analyses))).
(* eth2077-types/src/quick_slots.rs:199-206 compare_configurations *)
Definition throughput_cmp (a b : SlotTradeoffAnalysis) : comparison :=
  then_with (f64_total_cmp (ta_throughput_multiplier a) (ta_throughput_multiplier b))
    (f64_total_cmp (ta_missed_slot_probability b) (ta_missed_slot_probability a)).
(* eth2077-types/src/quick_slots.rs:208-212 compare_configurations *)
Definition finality_cmp (a b : SlotTradeoffAnalysis) : comparison :=
  then_with (f64_total_cmp (ta_finality_latency_ms a) (ta_finality_latency_ms b))
    (f64_total_cmp (ta_security_margin b) (ta_security_margin a)).
(* eth2077-types/src/quick_slots.rs:176-240 compare_configurations *)
Definition compare_configurations (configs : list SlotConfig) : QuickSlotStats :=
  if bool_decide (configs = []) then
    {| qs_configs_evaluated := 0; qs_best_throughput_config := str "N/A"; qs_best_finality_config := str "N/A";
       qs_avg_security_margin := f64_zero; qs_total_bandwidth_overhead := f64_zero |}
  else
    let analyses := analyze_tradeoffs <$> configs in
    {| qs_configs_evaluated := len configs;
       qs_best_throughput_config := label_of analyses (max_by throughput_cmp analyses);
       qs_best_finality_config := label_of analyses (min_by finality_cmp analyses);
       qs_avg_security_margin := f64_div (f64_sum (ta_security_margin <$> analyses)) (f64_of_u64 (len analyses));
       qs_total_bandwidth_overhead := f64_sum (ta_bandwidth_overhead_factor <$> analyses) |}.

(** ** What an analysis can say *)

(** What the parser or the type checker guarantees of a configuration. *)
Record typed_slot_config (c : SlotConfig) : Prop := {
  typed_propagation : is_u64 (sc_propagation_budget_ms c);
  typed_attestation : is_u64 (sc_attestation_deadline_ms c);
  typed_latency : is_u64 (sc_network_latency_p95_ms c);
}.
Lemma security_margin_mag c : mag_le 69 (compute_security_margin c).
Proof.
  unfold compute_security_margin. case_if_goal; [done|].
  apply (f64_sub_mag 67); [by apply (mag_le_weaken 2), (f64_of_u64_mag 1 1); lia| |lia].
  apply (f64_div_int_mag 65); [|destruct (sc_slot_duration c); cbn; lia|lia].
  apply (f64_of_u64_mag _ 64); [|lia]. unfold u64_wrapping_add.
  pose proof (Z.mod_pos_bound (sc_propagation_budget_ms c + sc_attestation_deadline_ms c) (u64_max + 1)). lia.
Qed.
Lemma base_miss_mag r : mag_le 67 r → mag_le 80 (base_miss_probability r).
Proof.
  intros Hr. unfold base_miss_probability. do 3 (case_if_goal; [const_mag|]).
  apply f64_min_mag; [|const_mag].
  assert (mag_le 4 (dec 8 100)) as H8 by const_mag. assert (mag_le 4 (dec 35 100)) as H35 by const_mag.
  assert (mag_le 4 (int 1)) as H1 by const_mag.
  pose proof (f64_sub_mag 67 r (int 1) Hr (mag_le_weaken 4 67 _ ltac:(lia) H1) ltac:(lia)) as Hs.
  pose proof (f64_mul_mag _ _ _ _ Hs H35 ltac:(lia)) as Hm.
  apply (mag_le_weaken (74 + 2)); [lia|]. apply f64_add_mag; [apply (mag_le_weaken 4); [lia|done]| |lia].
  by apply (mag_le_weaken (67 + 2 + 4 + 1)).
Qed.

(** Whatever the configuration, the analysis gives a probability for missed slots and a
    security margin, both between 0 and 1, although the ratios they are computed from can be
    as large as 2^64. *)
Theorem tradeoffs_bounded c :
  typed_slot_config c →
  f64_le f64_zero (ta_missed_slot_probability (analyze_tradeoffs c)) = true ∧
  f64_le (ta_missed_slot_probability (analyze_tradeoffs c)) (int 1) = true ∧
  f64_le f64_zero (ta_security_margin (analyze_tradeoffs c)) = true ∧
  f64_le (ta_security_margin (analyze_tradeoffs c)) (int 1) = true.
Proof.
  intros [Hp _ Hl]. unfold analyze_tradeoffs. cbn [ta_missed_slot_probability ta_security_margin]. cbv zeta.
  pose proof (mag_le_finite _ _ (security_margin_mag c)) as Hmargin.
  destruct (clamped_unit _ Hmargin) as (Hsec & Hlo & Hhi). cut
    (finite_double (f64_add (base_miss_probability (f64_div (f64_of_u64 (sc_network_latency_p95_ms c))
       (f64_of_u64 (Z.max (sc_propagation_budget_ms c) 1))))
       (f64_mul (f64_maximum (f64_sub (int 1) (f64_clamp (compute_security_margin c) f64_zero (int 1))) f64_zero)
          (dec 6 100)))).
  { intros Hf. destruct (clamped_unit _ Hf) as (_ & ? & ?). done. }
  assert (mag_le 80 (base_miss_probability (f64_div (f64_of_u64 (sc_network_latency_p95_ms c))
    (f64_of_u64 (Z.max (sc_propagation_budget_ms c) 1))))) as Hbase.
  { apply base_miss_mag. apply (f64_div_int_mag 65); [apply (f64_of_u64_mag _ 64); sat_lia|sat_lia|lia]. }
  set (margin := f64_clamp _ _ _) in *.
  assert (mag_le 69 margin) as Hm.
  { apply f64_clamp_mag; [apply security_margin_mag|const_mag|const_mag]. }
  assert (mag_le 71 (f64_maximum (f64_sub (int 1) margin) f64_zero)) as Hmax.
  { apply f64_maximum_mag; [|const_mag]. apply (f64_sub_mag 69); [const_mag|done|lia]. }
  pose proof (f64_mul_mag _ 4 _ (dec 6 100) Hmax ltac:(const_mag) ltac:(lia)) as Hpen.
  apply (mag_le_finite (80 + 2)), f64_add_mag; [done|by apply (mag_le_weaken (71 + 4 + 1))|lia].
Qed.
Lemma tradeoffs_bounded_witness :
  let analysis := analyze_tradeoffs {| sc_slot_duration := Ultra2s; sc_finality_mode := OobCitadel;
    sc_propagation_budget_ms := 0; sc_attestation_deadline_ms := u64_max; sc_max_validators_per_slot := 1;
    sc_network_latency_p95_ms := u64_max |} in
  f64_le (ta_missed_slot_probability analysis) (int 1) = true ∧ f64_le f64_zero (ta_security_margin analysis) = true.
Proof.
  intros analysis. destruct (tradeoffs_bounded {| sc_slot_duration := Ultra2s; sc_finality_mode := OobCitadel;
    sc_propagation_budget_ms := 0; sc_attestation_deadline_ms := u64_max; sc_max_validators_per_slot := 1;
    sc_network_latency_p95_ms := u64_max |}) as (_ & H1 & H2 & _); [by split; cbn|].
  split; [exact H1|exact H2].
Defined.

(** The labels of the comparison name configurations that were compared. *)
Lemma label_of_member analyses analysis :
  analysis ∈ analyses →
  label_of analyses (Some analysis) =
  slot_debug (ta_slot_duration analysis) ++ str "+" ++ mode_debug (ta_finality_mode analysis).
Proof.
  intros Hin. unfold label_of. cbn [mbind option_bind].
  set (key := (ta_slot_duration analysis, ta_finality_mode analysis)).
  set (entries := filter (λ entry, entry.1 = key) (slot_labels analyses)).
  assert (Forall (λ entry, entry.2 = slot_debug key.1 ++ str "+" ++ mode_debug key.2) entries) as Hall.
  { apply Forall_forall. intros [k v] [Hk Hkv]%list_elem_of_filter. cbn [fst] in Hk. subst k.
    unfold slot_labels in Hkv. apply list_elem_of_fmap in Hkv as (a & Ha & _). injection Ha as H1 H2 ->.
    cbn [fst snd key]. by rewrite H1, H2. }
  assert (entries ≠ []) as Hne.
  { intros Hnil. apply (not_elem_of_nil (A := (SlotDuration * FinalityMode) * Str))
      with (key, slot_debug key.1 ++ str "+" ++ mode_debug key.2).
    rewrite <- Hnil. apply list_elem_of_filter. split; [done|]. apply list_elem_of_fmap. by exists analysis. }
  destruct entries as [|entry rest _] using rev_ind; [done|]. rewrite last_snoc. simpl.
  by apply Forall_app in Hall as [_ [? _]%Forall_cons].
Qed.
Lemma best_labels configs :
  configs ≠ [] →
  ∃ fastest soonest, fastest ∈ configs ∧ soonest ∈ configs ∧
    qs_best_throughput_config (compare_configurations configs) =
      slot_debug (sc_slot_duration fastest) ++ str "+" ++ mode_debug (sc_finality_mode fastest) ∧
    qs_best_finality_config (compare_configurations configs) =
      slot_debug (sc_slot_duration soonest) ++ str "+" ++ mode_debug (sc_finality_mode soonest).
Proof.
  intros Hne. unfold compare_configurations. rewrite bool_decide_eq_false_2 by done.
  cbn [qs_best_throughput_config qs_best_finality_config]. set (analyses := analyze_tradeoffs <$> configs).
  assert (analyses ≠ []) as Hane by (by destruct configs).
  destruct (max_by_member throughput_cmp analyses Hane) as (f & -> & Hf).
  destruct (min_by_member finality_cmp analyses Hane) as (g & -> & Hg).
  rewrite !label_of_member by done.
  apply list_elem_of_fmap in Hf as (cf & -> & Hcf), Hg as (cg & -> & Hcg). by exists cf, cg.
Qed.
Example comparison_example :
  let stats := compare_configurations
    [default_slot_config; {| sc_slot_duration := Rapid4s; sc_finality_mode := OobCitadel; sc_propagation_budget_ms := 1000;
       sc_attestation_deadline_ms := 1000; sc_max_validators_per_slot := 32; sc_network_latency_p95_ms := 400 |}] in
  qs_best_throughput_config stats = str "Rapid4s+OobCitadel" ∧ qs_best_finality_config stats = str "Rapid4s+OobCitadel" ∧
  validate_slot_config default_slot_config = Ok tt.
Proof. vm_compute. split_and!; reflexivity. Qed.
