(* ===== verification/OneRoundFinality.v ===== *)
(** * One-round finality ([eth2077-types/src/one_round_finality.rs])

    Validation of a finality configuration, the estimate of its cost and of its safety, and
    the commitment to it and to the keys of its validators. *)
From S2P Require Import Prelude Validation Strings Metadata Floats FloatFacts.
Local Open Scope Z_scope.

(* eth2077-types/src/one_round_finality.rs:4-4 SLOT_TIME_MS *)
Definition SLOT_TIME_MS : f64 := int 12000.
(* eth2077-types/src/one_round_finality.rs:7-13 FinalityMode *)
Inductive FinalityMode := CasperFFG | SingleSlot | OneRound | Optimistic | Pipelined.
(* eth2077-types/src/one_round_finality.rs:16-21 SafetyProperty *)
Inductive SafetyProperty := AccountableSafety | ByzantineFaultTolerance | OptimisticSafety | EconomicSafety.
(* eth2077-types/src/one_round_finality.rs:24-33 OneRoundFinalityConfig *)
Record OneRoundFinalityConfig := {
  of_mode : FinalityMode;
  of_validator_count : Z;
  of_quorum_threshold : f64;
  of_message_complexity_bound : Z;
  of_expected_finality_slots : f64;
  of_safety_property : SafetyProperty;
  of_max_tolerable_byzantine_fraction : f64;
  of_signature_aggregation : bool;
}.
(* eth2077-types/src/one_round_finality.rs:36-42 FinalityValidationError *)
Inductive FinalityValidationError :=
| InsufficientValidators
| QuorumTooLow (value : f64)
| QuorumTooHigh (value : f64)
| ByzantineFractionInvalid (value : f64)
| FinalitySlotsTooHigh (value : f64).
(* eth2077-types/src/one_round_finality.rs:45-52 FinalityImpactStats *)
Record FinalityImpactStats := {
  fs_finality_time_ms : f64;
  fs_message_count : Z;
  fs_bandwidth_per_validator_bytes : Z;
  fs_safety_margin : f64;
  fs_liveness_probability : f64;
  fs_validator_overhead_factor : f64;
}.

(* eth2077-types/src/one_round_finality.rs:54-65 default_one_round_finality_config *)
Definition default_one_round_finality_config : OneRoundFinalityConfig :=
  {| of_mode := OneRound; of_validator_count := 8192; of_quorum_threshold := dec 67 100;
     of_message_complexity_bound := 200000; of_expected_finality_slots := int 1;
     of_safety_property := AccountableSafety; of_max_tolerable_byzantine_fraction := dec 33 100;
     of_signature_aggregation := true |}.
(* eth2077-types/src/one_round_finality.rs:307-315 min_validators_for_mode *)
Definition min_validators_for_mode (mode : FinalityMode) : Z :=
  match mode with
  | CasperFFG => 64
  | SingleSlot => 512
  | OneRound => 2048
  | Optimistic => 128
  | Pipelined => 256
  end.
(* eth2077-types/src/one_round_finality.rs:317-325 max_expected_slots_for_mode *)
Definition max_expected_slots_for_mode (mode : FinalityMode) : f64 :=
  match mode with
  | CasperFFG => int 64
  | SingleSlot => int 2
  | OneRound => dec 15 10
  | Optimistic => int 4
  | Pipelined => int 3
  end.
(* eth2077-types/src/one_round_finality.rs:327-335 baseline_slots_for_mode *)
Definition baseline_slots_for_mode (mode : FinalityMode) : f64 :=
  match mode with
  | CasperFFG => int 60
  | SingleSlot => int 1
  | OneRound => int 1
  | Optimistic => int 2
  | Pipelined => dec 15 10
  end.
(* eth2077-types/src/one_round_finality.rs:67-109 validate_finality_config *)
Definition validate_finality_config (config : OneRoundFinalityConfig) : result unit (list FinalityValidationError) :=
  let quorum := of_quorum_threshold config in
  let byzantine := of_max_tolerable_byzantine_fraction config in
  let slots := of_expected_finality_slots config in
  errors_to_result (
    push_if (of_validator_count config <? min_validators_for_mode (of_mode config)) InsufficientValidators ++
    push_if (negb (f64_is_finite quorum) || f64_lt quorum (dec 5 10)) (QuorumTooLow quorum) ++
    push_if (f64_lt (int 1) quorum) (QuorumTooHigh quorum) ++
    push_if (negb (f64_is_finite byzantine) || negb (f64_le f64_zero byzantine && f64_lt byzantine (dec 5 10)))
      (ByzantineFractionInvalid byzantine) ++
    push_if (negb (f64_is_finite slots) || f64_lt (max_expected_slots_for_mode (of_mode config)) slots)
      (FinalitySlotsTooHigh slots)).

(* eth2077-types/src/one_round_finality.rs:231-237 estimate_safety_margin *)
Definition estimate_safety_margin (quorum byzantine_fraction : f64) : f64 :=
  if negb (f64_is_finite quorum) || negb (f64_is_finite byzantine_fraction) then f64_zero else
  f64_clamp (f64_sub (f64_clamp quorum f64_zero (int 1))
    (f64_mul (int 2) (f64_clamp byzantine_fraction f64_zero (int 1)))) (f64_neg (int 1)) (int 1).
(* eth2077-types/src/one_round_finality.rs:239-248 estimate_liveness *)
Definition estimate_liveness (validator_count : Z) (byzantine_fraction : f64) : f64 :=
  if (validator_count =? 0) || negb (f64_is_finite byzantine_fraction) then f64_zero else
  let active_fraction := f64_clamp (f64_sub (int 1) byzantine_fraction) f64_zero (int 1) in
  let size_factor := f64_sub (int 1) (f64_div (int 1) (f64_add (int 1) (f64_sqrt (f64_of_u64 validator_count)))) in
  let baseline := f64_add (dec 45 100) (f64_mul (dec 55 100) size_factor) in
  f64_clamp (f64_mul baseline active_fraction) f64_zero (int 1).
(* eth2077-types/src/one_round_finality.rs:116-126 compute_finality_stats *)
Definition base_messages (mode : FinalityMode) (validator_count quorum_size : Z) : Z :=
  match mode with
  | CasperFFG => u64_saturating_mul quorum_size 2
  | SingleSlot => u64_saturating_add validator_count quorum_size
  | OneRound =>
      u64_saturating_add (u64_saturating_mul quorum_size 2)
        (u64_saturating_mul validator_count (u64_saturating_sub validator_count 1) / 16)
  | Optimistic => u64_saturating_add validator_count (quorum_size / 2)
  | Pipelined => u64_saturating_add (u64_saturating_mul validator_count 2) quorum_size
  end.
(* eth2077-types/src/one_round_finality.rs:150-155 compute_finality_stats *)
Definition safety_adjustment (safety : SafetyProperty) : f64 :=
  match safety with
  | AccountableSafety => dec 5 100
  | ByzantineFaultTolerance => dec 3 100
  | OptimisticSafety => f64_neg (dec 8 100)
  | EconomicSafety => f64_neg (dec 3 100)
  end.
(* eth2077-types/src/one_round_finality.rs:162-168 compute_finality_stats *)
Definition liveness_mode_adjustment (mode : FinalityMode) : f64 :=
  match mode with
  | CasperFFG => dec 3 100
  | SingleSlot => f64_neg (dec 4 100)
  | OneRound => f64_neg (dec 8 100)
  | Optimistic => dec 5 100
  | Pipelined => f64_neg (dec 2 100)
  end.
(* eth2077-types/src/one_round_finality.rs:178-184 compute_finality_stats *)
Definition mode_overhead_multiplier (mode : FinalityMode) : f64 :=
  match mode with
  | CasperFFG => dec 95 100
  | SingleSlot => dec 12 10
  | OneRound => dec 16 10
  | Optimistic => dec 105 100
  | Pipelined => dec 135 100
  end.
(* eth2077-types/src/one_round_finality.rs:111-202 compute_finality_stats *)
Definition compute_finality_stats (config : OneRoundFinalityConfig) : FinalityImpactStats :=
  let aggregation := of_signature_aggregation config in
  let validator_count := Z.max (of_validator_count config) 1 in
  let validators := f64_of_u64 validator_count in
  let quorum_size :=
    f64_to_u64 (f64_ceil (f64_mul validators (f64_clamp (of_quorum_threshold config) f64_zero (int 1)))) in
  let message_multiplier := if aggregation then dec 35 100 else int 1 in
  let adjusted_messages :=
    f64_to_u64 (f64_round (f64_mul (f64_of_u64 (base_messages (of_mode config) validator_count quorum_size))
      message_multiplier)) in
  let message_count := Z.min adjusted_messages (Z.max (of_message_complexity_bound config) 1) in
  let messages_each := f64_div (f64_of_u64 message_count) validators in
  let per_validator_messages := f64_maximum messages_each (if aggregation then int 1 else dec 15 10) in
  let bytes_per_message := if aggregation then int 112 else int 176 in
  let crypto_cost_multiplier := if aggregation then dec 75 100 else dec 11 10 in
  {| fs_finality_time_ms :=
       f64_mul (f64_maximum (f64_maximum (of_expected_finality_slots config) (baseline_slots_for_mode (of_mode config)))
         f64_zero) SLOT_TIME_MS;
     fs_message_count := message_count;
     fs_bandwidth_per_validator_bytes :=
       f64_to_u64 (f64_round (f64_mul (f64_mul per_validator_messages bytes_per_message) (dec 125 100)));
     fs_safety_margin :=
       f64_clamp (f64_add (estimate_safety_margin (of_quorum_threshold config) (of_max_tolerable_byzantine_fraction config))
         (safety_adjustment (of_safety_property config))) (f64_neg (int 1)) (int 1);
     fs_liveness_probability :=
       f64_clamp (f64_add (estimate_liveness validator_count (of_max_tolerable_byzantine_fraction config))
         (liveness_mode_adjustment (of_mode config))) f64_zero (int 1);
     fs_validator_overhead_factor :=
       f64_mul (f64_mul (f64_div messages_each (int 2)) (mode_overhead_multiplier (of_mode config)))
         crypto_cost_multiplier |}.

(* eth2077-types/src/one_round_finality.rs:278-286 mode_name *)
Definition mode_name (mode : FinalityMode) : Str :=
  match mode with
  | CasperFFG => str "CasperFFG"
  | SingleSlot => str "SingleSlotFinality"
  | OneRound => str "OneRoundFinality"
  | Optimistic => str "OptimisticFinality"
  | Pipelined => str "PipelinedFinality"
  end.
(* eth2077-types/src/one_round_finality.rs:204-229 compare_finality_modes *)
Definition compare_finality_modes (config : OneRoundFinalityConfig) : list (Str * FinalityImpactStats) :=
  (λ mode,
     let baseline := baseline_slots_for_mode mode in
     let slots := of_expected_finality_slots config in
     (mode_name mode, compute_finality_stats
        {| of_mode := mode; of_validator_count := of_validator_count config;
           of_quorum_threshold := of_quorum_threshold config;
           of_message_complexity_bound := of_message_complexity_bound config;
           of_expected_finality_slots := if f64_lt slots baseline then baseline else slots;
           of_safety_property := of_safety_property config;
           of_max_tolerable_byzantine_fraction := of_max_tolerable_byzantine_fraction config;
           of_signature_aggregation := of_signature_aggregation config |}))
  <$> [CasperFFG; SingleSlot; OneRound; Optimistic; Pipelined].

(* eth2077-types/src/one_round_finality.rs:288-296 mode_to_byte *)
Definition mode_to_byte (mode : FinalityMode) : Z :=
  match mode with CasperFFG => 0 | SingleSlot => 1 | OneRound => 2 | Optimistic => 3 | Pipelined => 4 end.
(* eth2077-types/src/one_round_finality.rs:298-305 safety_to_byte *)
Definition safety_to_byte (safety : SafetyProperty) : Z :=
  match safety with AccountableSafety => 0 | ByzantineFaultTolerance => 1 | OptimisticSafety => 2 | EconomicSafety => 3 end.
(** What the hasher is fed for a configuration and the keys. *)
(* eth2077-types/src/one_round_finality.rs:254-269 compute_finality_commitment *)
Definition finality_preimage {SU : SortUnstable} (committed : OneRoundFinalityConfig * list (list Z)) : list Z :=
  let '(config, keys) := committed in
  str "ORF-V1" ++ [mode_to_byte (of_mode config)] ++ [safety_to_byte (of_safety_property config)] ++
  to_le_bytes 8 (of_validator_count config) ++ to_le_bytes 8 (f64_to_bits (of_quorum_threshold config)) ++
  to_le_bytes 8 (of_message_complexity_bound config) ++
  to_le_bytes 8 (f64_to_bits (of_expected_finality_slots config)) ++
  to_le_bytes 8 (f64_to_bits (of_max_tolerable_byzantine_fraction config)) ++
  [if of_signature_aggregation config then 1 else 0] ++
  to_le_bytes 8 (len keys) ++ concat (sorted_keys keys).
(* eth2077-types/src/one_round_finality.rs:250-276 compute_finality_commitment *)
Definition compute_finality_commitment `{Sha256} {SU : SortUnstable} (config : OneRoundFinalityConfig)
    (validator_pubkeys : list (list Z)) : list Z := sha256 (finality_preimage (config, validator_pubkeys)).

(** ** Bounds *)

(** The messages stay within the bound; the safety margin is a number between -1 and 1,
    whatever the fractions of the configuration are. *)
Lemma message_count_bounded config :
  is_u64 (of_message_complexity_bound config) →
  fs_message_count (compute_finality_stats config) ≤ Z.max (of_message_complexity_bound config) 1.
Proof. intros Hb. cbn [fs_message_count compute_finality_stats]. lia. Qed.
Lemma minus_one_one :
  finite_double (f64_neg (int 1)) ∧ finite_double (int 1) ∧ units (f64_neg (int 1)) ≤ units (int 1).
Proof. split_and!; vm_compute; (reflexivity || discriminate). Qed.
Lemma safety_adjustment_mag s : mag_le 1 (safety_adjustment s).
Proof. destruct s; const_mag. Qed.
Lemma estimate_margin_mag q b :
  valid_binary 53 1024 q = true → valid_binary 53 1024 b = true → mag_le 6 (estimate_safety_margin q b).
Proof.
  intros Hq Hb. unfold estimate_safety_margin.
  destruct (f64_is_finite q) eqn:Hfq; [|exact I]. destruct (f64_is_finite b) eqn:Hfb; [|exact I]. cbn [negb orb].
  apply is_finite_double in Hq, Hb; [|done..].
  destruct (clamped_unit q Hq) as [Hcq _], (clamped_unit b Hb) as [Hcb _].
  apply f64_clamp_mag; [|const_mag..].
  apply (f64_sub_mag 4); [by apply (mag_le_weaken 1)| |lia].
  apply (f64_mul_mag 2 1); [const_mag|done|lia].
Qed.
Lemma safety_margin_bounded config :
  valid_binary 53 1024 (of_quorum_threshold config) = true →
  valid_binary 53 1024 (of_max_tolerable_byzantine_fraction config) = true →
  f64_le (f64_neg (int 1)) (fs_safety_margin (compute_finality_stats config)) = true ∧
  f64_le (fs_safety_margin (compute_finality_stats config)) (int 1) = true.
Proof.
  intros Hq Hb. destruct minus_one_one as (H1 & H2 & H3). cbn [fs_safety_margin compute_finality_stats].
  apply clamped_between; [|done..]. apply (mag_le_finite (6 + 2)), f64_add_mag; [by apply estimate_margin_mag| |lia].
  apply (mag_le_weaken 1); [lia|]. apply safety_adjustment_mag.
Qed.

(** ** Validation *)

Record typed_finality (c : OneRoundFinalityConfig) : Prop := {
  typed_count : is_u64 (of_validator_count c);
  typed_bound : is_u64 (of_message_complexity_bound c);
  typed_quorum : valid_binary 53 1024 (of_quorum_threshold c) = true;
  typed_slots : valid_binary 53 1024 (of_expected_finality_slots c) = true;
  typed_fraction : valid_binary 53 1024 (of_max_tolerable_byzantine_fraction c) = true;
}.
Record finality_config_ok (c : OneRoundFinalityConfig) : Prop := {
  ok_validator_count : min_validators_for_mode (of_mode c) ≤ of_validator_count c;
  ok_quorum_share : f64_le (dec 5 10) (of_quorum_threshold c) = true ∧ f64_le (of_quorum_threshold c) (int 1) = true;
  ok_byzantine : f64_le f64_zero (of_max_tolerable_byzantine_fraction c) = true ∧
    f64_lt (of_max_tolerable_byzantine_fraction c) (dec 5 10) = true;
  ok_finality_slots : f64_is_finite (of_expected_finality_slots c) = true ∧
    f64_le (of_expected_finality_slots c) (max_expected_slots_for_mode (of_mode c)) = true;
}.
Lemma max_slots_double mode : finite_double (max_expected_slots_for_mode mode).
Proof. by destruct mode. Qed.
Lemma validate_finality_exact c :
  typed_finality c → validate_finality_config c = Ok tt ↔ finality_config_ok c.
Proof.
  intros [_ _ Hq Hs Hb]. unfold validate_finality_config.
  rewrite errors_to_result_ok, !app_nil, !push_if_nil, Z.ltb_ge.
  assert (f64_is_finite (of_quorum_threshold c) = true ∧ f64_lt (of_quorum_threshold c) (dec 5 10) = false ∧
    f64_lt (int 1) (of_quorum_threshold c) = false ↔
    f64_le (dec 5 10) (of_quorum_threshold c) = true ∧ f64_le (of_quorum_threshold c) (int 1) = true) as Hquorum.
  { rewrite <- (range_check _ (dec 5 10) (int 1)) by done. rewrite !orb_false_iff, negb_false_iff. tauto. }
  assert (∀ x, f64_le f64_zero x = true ∧ f64_lt x (dec 5 10) = true → f64_is_finite x = true) as Hfin.
  { intros [|[]| |]; try done; intros [H1 H2]; vm_compute in H1, H2; done. }
  rewrite !orb_false_iff, !negb_false_iff, andb_true_iff. split.
  - intros (H1 & [H2 H3] & H4 & [H5 H6] & [H7 H8]). split; [done|by apply Hquorum|done|]. split; [done|].
    apply is_finite_double in Hs; [|done]. by rewrite f64_lt_not_le, negb_false_iff in H8 by (done || apply max_slots_double).
  - intros [H1 H2 H3 [H4 H5]]. apply Hquorum in H2 as (?&?&?). split_and!; try done; try apply H3; [by apply Hfin|].
    apply is_finite_double in Hs; [|done]. by rewrite f64_lt_not_le, negb_false_iff by (done || apply max_slots_double).
Qed.

(** ** The commitment *)

Lemma prefix_inj_bits_le : prefix_inj (λ x, valid_binary 53 1024 x = true) (λ x, to_le_bytes 8 (f64_to_bits x)).
Proof.
  intros x y r1 r2 Hx Hy Heq. apply prefix_inj_le_u64 in Heq as [Hbits ->]; [|by apply f64_to_bits_range..].
  split; [|done]. by apply f64_to_bits_inj.
Qed.
Lemma finality_preimage_inj (SU : SortUnstable) c1 k1 c2 k2 :
  typed_finality c1 → typed_finality c2 → Forall key32 k1 → Forall key32 k2 →
  is_u64 (len k1) → is_u64 (len k2) →
  finality_preimage (c1, k1) = finality_preimage (c2, k2) → c1 = c2 ∧ k1 ≡ₚ k2.
Proof.
  intros [? ? ? ? ?] [? ? ? ? ?] Hk1 Hk2 Hl1 Hl2. destruct c1 as [m1 ? ? ? ? s1 ? a1], c2 as [m2 ? ? ? ? s2 ? a2].
  cbn [of_validator_count of_message_complexity_bound of_quorum_threshold of_expected_finality_slots
    of_max_tolerable_byzantine_fraction] in *. unfold finality_preimage. cbn [of_mode of_validator_count
    of_quorum_threshold of_message_complexity_bound of_expected_finality_slots of_safety_property
    of_max_tolerable_byzantine_fraction of_signature_aggregation]. intros Heq%app_inv_head.
  apply (app_inj_1 [_] [_]) in Heq as [[= Hm] Heq]; [|done].
  apply (app_inj_1 [_] [_]) in Heq as [[= Hs] Heq]; [|done].
  apply prefix_inj_le_u64 in Heq as [-> Heq]; [|done..]. apply prefix_inj_bits_le in Heq as [-> Heq]; [|done..].
  apply prefix_inj_le_u64 in Heq as [-> Heq]; [|done..]. apply prefix_inj_bits_le in Heq as [-> Heq]; [|done..].
  apply prefix_inj_bits_le in Heq as [-> Heq]; [|done..].
  apply (app_inj_1 [_] [_]) in Heq as [[= Ha] Heq]; [|done].
  apply prefix_inj_le_u64 in Heq as [_ Heq]; [|done..]. split; [|by eapply sorted_keys_inj].
  assert (m1 = m2) as -> by (by destruct m1, m2). assert (s1 = s2) as -> by (by destruct s1, s2).
  by assert (a1 = a2) as -> by (by destruct a1, a2).
Qed.
(** The commitment binds the configuration, to the bit patterns of its fractions, and the
    keys of the validators with their multiplicities but not their order: equal commitments
    are of the same configuration and of permutations of the same keys, or collide. *)
Theorem finality_commitment_binding `{Sha256} {SU : SortUnstable} c1 k1 c2 k2 :
  typed_finality c1 → typed_finality c2 → Forall key32 k1 → Forall key32 k2 →
  is_u64 (len k1) → is_u64 (len k2) →
  compute_finality_commitment c1 k1 = compute_finality_commitment c2 k2 →
  binds finality_preimage (λ a b, a.1 = b.1 ∧ a.2 ≡ₚ b.2) (c1, k1) (c2, k2).
Proof. intros. apply binds_intro; [|done]. intros Heq. by eapply finality_preimage_inj. Qed.
(** With one hash function, permuted keys have one commitment. *)
Lemma finality_commitment_order `{Sha256} (SU1 SU2 : SortUnstable) c k1 k2 :
  k1 ≡ₚ k2 → compute_finality_commitment (SU := SU1) c k1 = compute_finality_commitment (SU := SU2) c k2.
Proof.
  intros Hp. unfold compute_finality_commitment, finality_preimage.
  rewrite (sorted_keys_unique SU1 SU2 k1 k2 Hp). unfold len. by rewrite Hp.
Qed.
Definition example_key (n : Z) : list Z := to_be_bytes 32 n.
Lemma finality_commitment_binding_witness :
  binds (H := λ bytes, bytes) (finality_preimage (SU := stable_sort_unstable)) (λ a b, a.1 = b.1 ∧ a.2 ≡ₚ b.2)
    (default_one_round_finality_config, [example_key 1; example_key 2])
    (default_one_round_finality_config, [example_key 2; example_key 1]).
Proof.
  apply (finality_commitment_binding (H := λ bytes, bytes) (SU := stable_sort_unstable));
    [split; (reflexivity || (split; vm_compute; discriminate))..
    |repeat constructor|repeat constructor|split; vm_compute; discriminate|split; vm_compute; discriminate|].
  vm_compute. reflexivity.
Defined.
Example default_finality_example :
  validate_finality_config default_one_round_finality_config = Ok tt ∧
  fs_message_count (compute_finality_stats default_one_round_finality_config) = 200000 ∧
  mode_name <$> [OneRound; Pipelined] = [str "OneRoundFinality"; str "PipelinedFinality"] ∧
  fst <$> compare_finality_modes default_one_round_finality_config =
    mode_name <$> [CasperFFG; SingleSlot; OneRound; Optimistic; Pipelined].
Proof. vm_compute. split_and!; reflexivity. Qed.
