(* ===== verification/Secrecy.v ===== *)
(** * Encrypted mempool and secret leader election ([eth2077-types/src/lucid_mempool.rs], [whisk_ssle.rs])

    Part 1. The encrypted mempool ([eth2077-types/src/lucid_mempool.rs])

    Encrypted transactions and the decryption shares of the committee: validation, the
    envelope hash, statistics.

    Part 2. Secret leader election ([eth2077-types/src/whisk_ssle.rs])

    Validation of a Whisk configuration, the size of its anonymity set and of its proofs,
    and the commitment to the trackers. *)
From S2P Require Import Prelude Validation Strings Floats FloatFacts Metadata.
Local Open Scope Z_scope.

(* eth2077-types/src/lucid_mempool.rs:6-11 EncryptionScheme *)
Inductive EncryptionScheme := ThresholdBLS | IdentityBased | CommitReveal | ShutterStyle.
#[export] Instance EncryptionScheme_eq_dec : EqDecision EncryptionScheme.
Proof. solve_decision. Defined.
(* eth2077-types/src/lucid_mempool.rs:14-19 DecryptionTrigger *)
Inductive DecryptionTrigger := BlockInclusion | SlotBoundary | ThresholdReached | TimeLock.
(* eth2077-types/src/lucid_mempool.rs:22-30 EncryptedTransaction *)
Record EncryptedTransaction := {
  et_envelope_hash : list Z;
  et_encrypted_payload : list Z;
  et_scheme : EncryptionScheme;
  et_decryption_trigger : DecryptionTrigger;
  et_sender_commitment : list Z;
  et_gas_ceiling : Z;
  et_priority_fee_ceiling : Z;
}.
(* eth2077-types/src/lucid_mempool.rs:33-37 DecryptionShare *)
Record DecryptionShare := { ds_committee_member : list Z; ds_share_data : list Z; ds_slot_number : Z }.
(* eth2077-types/src/lucid_mempool.rs:40-47 LucidConfig *)
Record LucidConfig := {
  lc_committee_size : Z;
  lc_threshold : Z;
  lc_default_scheme : EncryptionScheme;
  lc_default_trigger : DecryptionTrigger;
  lc_max_encrypted_size : Z;
  lc_decryption_timeout_slots : Z;
}.
(* eth2077-types/src/lucid_mempool.rs:50-57 LucidValidationError *)
Inductive LucidValidationError :=
| EmptyPayload
| PayloadTooLarge (size max : Z)
| InvalidCommitment
| InsufficientShares (provided required : Z)
| DuplicateCommitteeMember (member : list Z)
| GasCeilingZero.
(* eth2077-types/src/lucid_mempool.rs:60-67 LucidImpactStats *)
Record LucidImpactStats := {
  ls_total_encrypted_txs : Z;
  ls_total_payload_bytes : Z;
  ls_avg_gas_ceiling : f64;
  ls_scheme_distribution : list (Str * Z);
  ls_mev_protection_ratio : f64;
  ls_latency_overhead_ms : f64;
}.

(* eth2077-types/src/lucid_mempool.rs:69-76 scheme_discriminant *)
Definition encryption_scheme_discriminant (scheme : EncryptionScheme) : Z :=
  match scheme with ThresholdBLS => 0 | IdentityBased => 1 | CommitReveal => 2 | ShutterStyle => 3 end.
(* eth2077-types/src/lucid_mempool.rs:78-85 trigger_discriminant *)
Definition trigger_discriminant (trigger : DecryptionTrigger) : Z :=
  match trigger with BlockInclusion => 0 | SlotBoundary => 1 | ThresholdReached => 2 | TimeLock => 3 end.
(* eth2077-types/src/lucid_mempool.rs:87-94 latency_ms_for_scheme *)
Definition latency_ms_for_scheme (scheme : EncryptionScheme) : f64 :=
  match scheme with ThresholdBLS => int 2 | CommitReveal => f64_zero | IdentityBased => int 5 | ShutterStyle => int 3 end.
(* eth2077-types/src/lucid_mempool.rs:96-105 default_lucid_config *)
Definition default_lucid_config : LucidConfig :=
  {| lc_committee_size := 21; lc_threshold := 14; lc_default_scheme := ThresholdBLS;
     lc_default_trigger := BlockInclusion; lc_max_encrypted_size := 131072; lc_decryption_timeout_slots := 32 |}.
(* eth2077-types/src/lucid_mempool.rs:107-137 validate_encrypted_transaction *)
Definition validate_encrypted_transaction (tx : EncryptedTransaction) (config : LucidConfig)
  : result unit (list LucidValidationError) :=
  errors_to_result (
    push_if (bool_decide (et_encrypted_payload tx = [])) EmptyPayload ++
    push_if (lc_max_encrypted_size config <? len (et_encrypted_payload tx))
      (PayloadTooLarge (len (et_encrypted_payload tx)) (lc_max_encrypted_size config)) ++
    push_if (bool_decide (et_sender_commitment tx = replicate 32 0)) InvalidCommitment ++
    push_if (et_gas_ceiling tx =? 0) GasCeilingZero).
(* eth2077-types/src/lucid_mempool.rs:139-166 validate_decryption_shares *)
Definition validate_decryption_shares (shares : list DecryptionShare) (config : LucidConfig)
  : result unit (list LucidValidationError) :=
  let members : gset (list Z) := list_to_set (ds_committee_member <$> shares) in
  errors_to_result (
    duplicate_errors DuplicateCommitteeMember ∅ (ds_committee_member <$> shares) ++
    push_if (Z.of_nat (size members) <? lc_threshold config)
      (InsufficientShares (Z.of_nat (size members)) (lc_threshold config))).
(** What the hasher is fed. *)
(* eth2077-types/src/lucid_mempool.rs:169-174 compute_envelope_hash *)
Definition envelope_preimage (tx : EncryptedTransaction) : list Z :=
  [encryption_scheme_discriminant (et_scheme tx)] ++ [trigger_discriminant (et_decryption_trigger tx)] ++
  et_encrypted_payload tx ++ to_be_bytes 8 (et_gas_ceiling tx) ++ to_be_bytes 16 (et_priority_fee_ceiling tx).
(* eth2077-types/src/lucid_mempool.rs:168-180 compute_envelope_hash *)
Definition compute_envelope_hash `{Sha256} (tx : EncryptedTransaction) : list Z := sha256 (envelope_preimage tx).
(* eth2077-types/src/lucid_mempool.rs:236-242 estimate_mev_protection *)
Definition estimate_mev_protection (encrypted_count total_count : Z) : f64 :=
  if total_count =? 0 then f64_zero else f64_div (f64_of_u64 encrypted_count) (f64_of_u64 total_count).
(* eth2077-types/src/lucid_mempool.rs:182-234 compute_lucid_stats *)
Definition compute_lucid_stats (txs : list EncryptedTransaction) (config : LucidConfig) : LucidImpactStats :=
  let total_encrypted_txs := len txs in
  let total_gas := foldl (λ sum tx, (sum + et_gas_ceiling tx) mod (u128_max + 1)) 0 txs in
  let count scheme := len (filter (λ tx, et_scheme tx = scheme) txs) in
  {| ls_total_encrypted_txs := total_encrypted_txs;
     ls_total_payload_bytes := foldl (λ sum tx, u64_wrapping_add sum (len (et_encrypted_payload tx))) 0 txs;
     ls_avg_gas_ceiling :=
       if total_encrypted_txs =? 0 then f64_zero else f64_div (f64_of_u64 total_gas) (f64_of_u64 total_encrypted_txs);
     ls_scheme_distribution :=
       [(str "ThresholdBLS", count ThresholdBLS); (str "IdentityBased", count IdentityBased);
        (str "CommitReveal", count CommitReveal); (str "ShutterStyle", count ShutterStyle)];
     ls_mev_protection_ratio := estimate_mev_protection total_encrypted_txs total_encrypted_txs;
     ls_latency_overhead_ms := f64_sum ((λ tx, latency_ms_for_scheme (et_scheme tx)) <$> txs) |}.

(** ** What is accepted *)

Lemma validate_encrypted_exact tx c :
  validate_encrypted_transaction tx c = Ok tt ↔
  et_encrypted_payload tx ≠ [] ∧ len (et_encrypted_payload tx) ≤ lc_max_encrypted_size c ∧
  et_sender_commitment tx ≠ replicate 32 0 ∧ et_gas_ceiling tx ≠ 0.
Proof.
  unfold validate_encrypted_transaction.
  by rewrite errors_to_result_ok, !app_nil, !push_if_nil, !bool_decide_eq_false, Z.ltb_ge, Z.eqb_neq.
Qed.
(** Shares are accepted when no member of the committee gave two and there are enough. *)
Lemma validate_shares_exact shares c :
  validate_decryption_shares shares c = Ok tt ↔
  NoDup (ds_committee_member <$> shares) ∧ lc_threshold c ≤ len shares.
Proof.
  unfold validate_decryption_shares. rewrite errors_to_result_ok, app_nil, duplicate_errors_nil, push_if_nil, Z.ltb_ge.
  unfold len. split.
  - intros [[Hnd _] Hle]. split; [done|]. by rewrite size_list_to_set, length_fmap in Hle.
  - intros [Hnd Hle]. rewrite size_list_to_set, length_fmap by done. split; [|done]. split; [done|].
    apply Forall_forall. set_solver.
Qed.

(** ** The envelope hash *)

(** What the hash is of: everything but the sender's commitment and the hash field itself. *)
Definition envelope_content (tx : EncryptedTransaction) : EncryptionScheme * DecryptionTrigger * list Z * Z * Z :=
  (et_scheme tx, et_decryption_trigger tx, et_encrypted_payload tx, et_gas_ceiling tx, et_priority_fee_ceiling tx).
Lemma envelope_preimage_inj tx1 tx2 :
  is_u64 (et_gas_ceiling tx1) → is_u64 (et_gas_ceiling tx2) →
  is_u128 (et_priority_fee_ceiling tx1) → is_u128 (et_priority_fee_ceiling tx2) →
  envelope_preimage tx1 = envelope_preimage tx2 → envelope_content tx1 = envelope_content tx2.
Proof.
  intros Hg1 Hg2 Hp1 Hp2. unfold envelope_preimage, envelope_content.
  destruct tx1 as [? l1 s1 t1 ? g1 f1], tx2 as [? l2 s2 t2 ? g2 f2].
  cbn [et_encrypted_payload et_scheme et_decryption_trigger et_gas_ceiling et_priority_fee_ceiling] in *. intros Heq.
  apply (app_inj_1 [_] [_]) in Heq as [[= Hs] Heq]; [|done]. apply (app_inj_1 [_] [_]) in Heq as [[= Ht] Heq]; [|done].
  apply app_inj_2 in Heq as [-> Heq]; [|by rewrite !length_app, !length_to_be_bytes].
  apply prefix_inj_u64 in Heq as [-> Heq]; [|done..].
  apply to_be_bytes_inj in Heq as ->; [|change (256 ^ Z.of_nat 16) with (u128_max + 1); sat128_lia..].
  by assert (s1 = s2 ∧ t1 = t2) as [-> ->] by (split; [by destruct s1, s2|by destruct t1, t2]).
Qed.
(** The hash binds the payload, although its length is not hashed. *)
Lemma envelope_hash_binding `{Sha256} tx1 tx2 :
  is_u64 (et_gas_ceiling tx1) → is_u64 (et_gas_ceiling tx2) →
  is_u128 (et_priority_fee_ceiling tx1) → is_u128 (et_priority_fee_ceiling tx2) →
  compute_envelope_hash tx1 = compute_envelope_hash tx2 →
  binds envelope_preimage (λ a b, envelope_content a = envelope_content b) tx1 tx2.
Proof. intros. apply binds_intro; [|done]. by apply envelope_preimage_inj. Qed.
(** It does not bind who sent it: an envelope can be taken over under another commitment. *)
Lemma envelope_hash_ignores_sender `{Sha256} :
  let tx commitment := {| et_envelope_hash := []; et_encrypted_payload := [1]; et_scheme := ThresholdBLS;
    et_decryption_trigger := TimeLock; et_sender_commitment := replicate 32 commitment; et_gas_ceiling := 1;
    et_priority_fee_ceiling := 0 |} in
  validate_encrypted_transaction (tx 1) default_lucid_config = Ok tt ∧
  validate_encrypted_transaction (tx 2) default_lucid_config = Ok tt ∧ tx 1 ≠ tx 2 ∧
  compute_envelope_hash (tx 1) = compute_envelope_hash (tx 2).
Proof. intros tx. split_and!; [by vm_compute|by vm_compute|by intros [=]|done]. Qed.

(** ** Statistics *)

Lemma scheme_counts txs :
  Zsum (snd <$> ls_scheme_distribution (compute_lucid_stats txs default_lucid_config)) = len txs.
Proof.
  unfold compute_lucid_stats. cbn [ls_scheme_distribution fmap list_fmap snd Zsum]. unfold len.
  induction txs as [|tx txs IH]; [done|]. rewrite !filter_cons.
  destruct (et_scheme tx) eqn:Hs; repeat (case_decide; try congruence); cbn [length]; lia.
Qed.

(** ** Part 2 *)

(* eth2077-types/src/whisk_ssle.rs:6-11 LeaderElectionMode *)
Inductive LeaderElectionMode := Deterministic | WhiskSSLE | PartialWhisk | CommitteeWhisk.
#[export] Instance LeaderElectionMode_eq_dec : EqDecision LeaderElectionMode.
Proof. solve_decision. Defined.
(* eth2077-types/src/whisk_ssle.rs:14-19 WhiskPhase *)
Inductive WhiskPhase := ShufflingPhase | SelectionGap | ProposerRevealed | WhiskIdle.
(* eth2077-types/src/whisk_ssle.rs:22-30 WhiskConfig *)
Record WhiskConfig := {
  wk_mode : LeaderElectionMode;
  wk_candidate_trackers_count : Z;
  wk_proposer_trackers_count : Z;
  wk_validators_per_shuffle : Z;
  wk_epochs_per_shuffling_phase : Z;
  wk_proposer_selection_gap : Z;
  wk_curdleproofs_n_blinders : Z;
}.
(* eth2077-types/src/whisk_ssle.rs:33-52 WhiskValidationError *)
Inductive WhiskValidationError :=
| ZeroCandidateTrackers
| ZeroProposerTrackers
| ProposerExceedsCandidates (proposers candidates : Z)
| ZeroValidatorsPerShuffle
| ShuffleLargerThanCandidates (shuffle_size candidates : Z)
| SelectionGapTooLarge (gap shuffling_epochs : Z)
| IncompatibleMode (mode : Str).
(* eth2077-types/src/whisk_ssle.rs:55-63 WhiskImpactStats *)
Record WhiskImpactStats := {
  ws_dos_resistance_improvement : f64;
  ws_shuffling_overhead_per_epoch : f64;
  ws_proof_size_bytes : Z;
  ws_selection_entropy_bits : f64;
  ws_latency_overhead_ms : f64;
  ws_mode_comparison : list (Str * f64);
  ws_validator_anonymity_set : Z;
}.

(* eth2077-types/src/whisk_ssle.rs:65-72 mode_name *)
Definition mode_name (mode : LeaderElectionMode) : Str :=
  match mode with
  | Deterministic => str "Deterministic"
  | WhiskSSLE => str "WhiskSSLE"
  | PartialWhisk => str "PartialWhisk"
  | CommitteeWhisk => str "CommitteeWhisk"
  end.
(* eth2077-types/src/whisk_ssle.rs:74-81 mode_security_multiplier *)
Definition mode_security_multiplier (mode : LeaderElectionMode) : f64 :=
  match mode with
  | Deterministic => int 1
  | PartialWhisk => dec 85 100
  | WhiskSSLE => int 1
  | CommitteeWhisk => dec 12 10
  end.
(* eth2077-types/src/whisk_ssle.rs:83-90 mode_overhead_multiplier *)
Definition mode_overhead_multiplier (mode : LeaderElectionMode) : f64 :=
  match mode with
  | Deterministic => f64_zero
  | PartialWhisk => dec 7 10
  | WhiskSSLE => int 1
  | CommitteeWhisk => dec 135 100
  end.
(* eth2077-types/src/whisk_ssle.rs:92-94 is_whisk_enabled *)
Definition is_whisk_enabled (mode : LeaderElectionMode) : bool := negb (bool_decide (mode = Deterministic)).
(* eth2077-types/src/whisk_ssle.rs:96-98 safe_log2 *)
Definition safe_log2 `{Libm} (value : Z) : f64 := f64_log2 (f64_of_u64 (Z.max value 1)).
(* eth2077-types/src/whisk_ssle.rs:100-106 shuffle_density *)
Definition shuffle_density (config : WhiskConfig) : f64 :=
  if wk_candidate_trackers_count config =? 0 then f64_zero
  else f64_div (f64_of_u64 (wk_validators_per_shuffle config)) (f64_of_u64 (wk_candidate_trackers_count config)).
(* eth2077-types/src/whisk_ssle.rs:108-118 default_whisk_config *)
Definition default_whisk_config : WhiskConfig :=
  {| wk_mode := WhiskSSLE; wk_candidate_trackers_count := 16384; wk_proposer_trackers_count := 32;
     wk_validators_per_shuffle := 128; wk_epochs_per_shuffling_phase := 256; wk_proposer_selection_gap := 2;
     wk_curdleproofs_n_blinders := 4 |}.
(* eth2077-types/src/whisk_ssle.rs:120-180 validate_whisk_config *)
Definition validate_whisk_config (config : WhiskConfig) : result unit (list WhiskValidationError) :=
  let candidates := wk_candidate_trackers_count config in
  let proposers := wk_proposer_trackers_count config in
  let shuffle := wk_validators_per_shuffle config in
  let gap := wk_proposer_selection_gap config in
  let epochs := wk_epochs_per_shuffling_phase config in
  let blinders := wk_curdleproofs_n_blinders config in
  errors_to_result (
    push_if (candidates =? 0) ZeroCandidateTrackers ++
    push_if (proposers =? 0) ZeroProposerTrackers ++
    push_if (candidates <? proposers) (ProposerExceedsCandidates proposers candidates) ++
    push_if (shuffle =? 0) ZeroValidatorsPerShuffle ++
    push_if (candidates <? shuffle) (ShuffleLargerThanCandidates shuffle candidates) ++
    push_if (epochs <=? gap) (SelectionGapTooLarge gap epochs) ++
    push_if (bool_decide (wk_mode config = Deterministic) && ((0 <? gap) || (0 <? blinders)))
      (IncompatibleMode (str "Deterministic mode requires proposer_selection_gap=0 and curdleproofs_n_blinders=0")) ++
    push_if (is_whisk_enabled (wk_mode config) && (blinders =? 0))
      (IncompatibleMode (mode_name (wk_mode config) ++ str " mode requires curdleproofs_n_blinders > 0"))).

(* eth2077-types/src/whisk_ssle.rs:296-309 compute_anonymity_set *)
Definition compute_anonymity_set (config : WhiskConfig) : Z :=
  let candidates := Z.max (wk_candidate_trackers_count config) 1 in
  let proposers := Z.max (wk_proposer_trackers_count config) 1 in
  let shuffle := Z.max (wk_validators_per_shuffle config) 1 in
  match wk_mode config with
  | Deterministic => 1
  | WhiskSSLE => candidates
  | PartialWhisk => u64_saturating_add (candidates / 4) proposers
  | CommitteeWhisk => u64_saturating_add candidates (u64_saturating_mul shuffle proposers)
  end.
(* eth2077-types/src/whisk_ssle.rs:226-242 estimate_dos_resistance *)
Definition estimate_dos_resistance `{Libm} (config : WhiskConfig) : f64 :=
  if bool_decide (wk_mode config = Deterministic) then int 1 else
  let entropy_bits := f64_log2 (f64_of_u64 (Z.max (compute_anonymity_set config) 1)) in
  let shuffle_effect := f64_add (int 1) (f64_mul (f64_clamp (shuffle_density config) f64_zero (int 1)) (dec 75 100)) in
  let phase_stability :=
    f64_add (int 1) (f64_div (f64_sqrt (f64_of_u64 (Z.max (wk_epochs_per_shuffling_phase config) 1))) (int 20)) in
  let gap_penalty :=
    f64_div (int 1) (f64_add (int 1) (f64_mul (f64_of_u64 (wk_proposer_selection_gap config)) (dec 8 100))) in
  f64_mul (f64_mul (f64_mul (f64_mul (f64_add (int 1) (f64_div entropy_bits (int 4))) shuffle_effect) phase_stability)
    gap_penalty) (mode_security_multiplier (wk_mode config)).
(* eth2077-types/src/whisk_ssle.rs:244-268 estimate_proof_overhead *)
Definition estimate_proof_overhead (config : WhiskConfig) : Z :=
  if bool_decide (wk_mode config = Deterministic) then 0 else
  let shuffle := wk_validators_per_shuffle config in
  let blinders := wk_curdleproofs_n_blinders config in
  let proposers := wk_proposer_trackers_count config in
  let shuffle_statement_bytes := u64_saturating_mul shuffle 32 in
  let permutation_commitments_bytes := u64_saturating_mul shuffle 32 in
  let curdle_elements := u64_saturating_add (shuffle / 2) (u64_saturating_mul blinders 2) in
  let curdleproofs_bytes := u64_saturating_mul curdle_elements 48 in
  let k_commitments_bytes := u64_saturating_mul proposers 48 in
  let opening_proofs_bytes := u64_saturating_mul proposers (u64_saturating_add 32 (u64_saturating_mul blinders 8)) in
  let base :=
    u64_saturating_add (u64_saturating_add (u64_saturating_add (u64_saturating_add shuffle_statement_bytes
      permutation_commitments_bytes) curdleproofs_bytes) k_commitments_bytes) opening_proofs_bytes in
  f64_to_u64 (f64_round (f64_mul (f64_of_u64 base) (mode_overhead_multiplier (wk_mode config)))).
(* eth2077-types/src/whisk_ssle.rs:278-282 compare_election_modes *)
Definition mode_weighting (mode : LeaderElectionMode) : f64 :=
  match mode with
  | Deterministic => int 1
  | WhiskSSLE => int 1
  | PartialWhisk => dec 95 100
  | CommitteeWhisk => dec 105 100
  end.
(** [variant.mode = mode] *)
(* eth2077-types/src/whisk_ssle.rs:286-287 compare_election_modes *)
Definition with_mode (mode : LeaderElectionMode) (config : WhiskConfig) : WhiskConfig :=
  {| wk_mode := mode; wk_candidate_trackers_count := wk_candidate_trackers_count config;
     wk_proposer_trackers_count := wk_proposer_trackers_count config;
     wk_validators_per_shuffle := wk_validators_per_shuffle config;
     wk_epochs_per_shuffling_phase := wk_epochs_per_shuffling_phase config;
     wk_proposer_selection_gap := wk_proposer_selection_gap config;
     wk_curdleproofs_n_blinders := wk_curdleproofs_n_blinders config |}.
(* eth2077-types/src/whisk_ssle.rs:270-294 compare_election_modes *)
Definition compare_election_modes `{Libm} (config : WhiskConfig) : list (Str * f64) :=
  (λ mode, (mode_name mode, f64_mul (estimate_dos_resistance (with_mode mode config)) (mode_weighting mode)))
  <$> [Deterministic; WhiskSSLE; PartialWhisk; CommitteeWhisk].
(* eth2077-types/src/whisk_ssle.rs:182-224 compute_whisk_stats *)
Definition compute_whisk_stats `{Libm} (config : WhiskConfig) : WhiskImpactStats :=
  let proof_size_bytes := estimate_proof_overhead config in
  let validator_anonymity_set := Z.max (compute_anonymity_set config) 1 in
  let blinders := f64_of_u64 (wk_curdleproofs_n_blinders config) in
  let proofs := f64_of_u64 proof_size_bytes in
  let entropy_bonus := if is_whisk_enabled (wk_mode config) then f64_log2 (f64_add blinders (int 1)) else f64_zero in
  let off := bool_decide (wk_mode config = Deterministic) in
  {| ws_dos_resistance_improvement := estimate_dos_resistance config;
     ws_shuffling_overhead_per_epoch :=
       if off then f64_zero else
       let proof_term := f64_div proofs (int 1000000) in
       let cadence_term := f64_div (int 1) (f64_of_u64 (Z.max (wk_epochs_per_shuffling_phase config) 1)) in
       let base := f64_add (f64_add (f64_mul (shuffle_density config) (dec 8 10)) (f64_mul proof_term (dec 11 10)))
         (f64_mul cadence_term (dec 25 100)) in
       f64_mul base (mode_overhead_multiplier (wk_mode config));
     ws_proof_size_bytes := proof_size_bytes;
     ws_selection_entropy_bits := f64_add (safe_log2 validator_anonymity_set) entropy_bonus;
     ws_latency_overhead_ms :=
       if off then f64_zero else
       let proof_verification_ms :=
         f64_mul (f64_div proofs (int 1024)) (f64_add (dec 15 100) (f64_mul blinders (dec 3 100))) in
       let gap_cost_ms := f64_mul (f64_of_u64 (wk_proposer_selection_gap config)) (dec 35 10) in
       let scheduler_cost_ms := f64_mul (shuffle_density config) (int 20) in
       f64_mul (f64_add (f64_add proof_verification_ms gap_cost_ms) scheduler_cost_ms)
         (mode_overhead_multiplier (wk_mode config));
     ws_mode_comparison := compare_election_modes config;
     ws_validator_anonymity_set := validator_anonymity_set |}.
(** What the hasher is fed. *)
(* eth2077-types/src/whisk_ssle.rs:312-319 compute_whisk_commitment *)
Definition tracker_preimage {SU : SortUnstable} (trackers : list (list Z)) : list Z :=
  to_be_bytes 8 (len trackers) ++ concat (sorted_keys trackers).
(* eth2077-types/src/whisk_ssle.rs:311-325 compute_whisk_commitment *)
Definition compute_whisk_commitment `{Sha256} {SU : SortUnstable} (trackers : list (list Z)) : list Z :=
  sha256 (tracker_preimage trackers).

(** ** Validation *)

Record whisk_config_ok (c : WhiskConfig) : Prop := {
  ok_proposers : 0 < wk_proposer_trackers_count c ≤ wk_candidate_trackers_count c;
  ok_shuffle : 0 < wk_validators_per_shuffle c ≤ wk_candidate_trackers_count c;
  ok_gap : wk_proposer_selection_gap c < wk_epochs_per_shuffling_phase c;
  ok_deterministic : wk_mode c = Deterministic →
    wk_proposer_selection_gap c = 0 ∧ wk_curdleproofs_n_blinders c = 0;
  ok_blinders : wk_mode c ≠ Deterministic → 0 < wk_curdleproofs_n_blinders c;
}.
Record typed_whisk (c : WhiskConfig) : Prop := {
  typed_candidates : is_u64 (wk_candidate_trackers_count c);
  typed_proposers : is_u64 (wk_proposer_trackers_count c);
  typed_shuffle : is_u64 (wk_validators_per_shuffle c);
  typed_epochs : is_u64 (wk_epochs_per_shuffling_phase c);
  typed_gap : is_u64 (wk_proposer_selection_gap c);
  typed_blinders : is_u64 (wk_curdleproofs_n_blinders c);
}.
Lemma validate_whisk_exact c : typed_whisk c → validate_whisk_config c = Ok tt ↔ whisk_config_ok c.
Proof.
  intros [? ? ? ? ? ?]. unfold validate_whisk_config, is_whisk_enabled.
  rewrite errors_to_result_ok, !app_nil, !push_if_nil, !andb_false_iff, orb_false_iff, negb_false_iff, !Z.eqb_neq,
    !Z.ltb_ge, Z.leb_gt, bool_decide_eq_false, bool_decide_eq_true.
  destruct (decide (wk_mode c = Deterministic)) as [Hm|Hm]; split.
  - intros (?&?&?&?&?&?&[?|[? ?]]&?); [done|]. split; try sat_lia; (done || intros; sat_lia).
  - intros [? ? ? Hd _]. specialize (Hd Hm) as [? ?]. split_and!; try sat_lia; auto.
  - intros (?&?&?&?&?&?&?&[?|?]); [done|]. split; try sat_lia; (done || intros; sat_lia).
  - intros [? ? ? _ Hb]. specialize (Hb Hm). split_and!; try sat_lia; auto.
Qed.

(** ** The anonymity set *)

(** A valid election hides the leader among at least the candidates, or a quarter of them,
    and the committee variant among strictly more than the plain one. *)
Lemma anonymity_set_bounds c :
  typed_whisk c → whisk_config_ok c → wk_mode c ≠ Deterministic →
  wk_candidate_trackers_count c / 4 < compute_anonymity_set c ≤ u64_max ∧
  (wk_mode c = CommitteeWhisk → wk_candidate_trackers_count c < u64_max →
   wk_candidate_trackers_count c < compute_anonymity_set c).
Proof.
  intros [Hc Hp Hs _ _ _] [[? ?] [? ?] _ _ _] Hm. unfold compute_anonymity_set.
  rewrite !Z.max_l by lia. pose proof (Z.div_pos (wk_candidate_trackers_count c) 4 ltac:(lia) ltac:(lia)).
  assert (wk_candidate_trackers_count c / 4 < wk_candidate_trackers_count c) by (apply Z.div_lt; lia).
  assert (1 ≤ wk_validators_per_shuffle c * wk_proposer_trackers_count c) by nia.
  destruct (wk_mode c); [done|..]; (split; [sat_lia|intros; (done || sat_lia)]).
Qed.
(** The deterministic mode has no anonymity and no proofs. *)
Lemma deterministic_election c :
  wk_mode c = Deterministic → compute_anonymity_set c = 1 ∧ estimate_proof_overhead c = 0.
Proof. unfold compute_anonymity_set, estimate_proof_overhead. intros ->. done. Qed.

(** ** The commitment *)

(** The commitment binds the trackers as a multiset. *)
Lemma tracker_commitment_binding `{Sha256} {SU : SortUnstable} t1 t2 :
  Forall key32 t1 → Forall key32 t2 → is_u64 (len t1) → is_u64 (len t2) →
  compute_whisk_commitment t1 = compute_whisk_commitment t2 → binds tracker_preimage (≡ₚ) t1 t2.
Proof.
  intros ? ? Hl1 Hl2 Heq. apply binds_intro; [|done]. unfold tracker_preimage.
  intros [_ Hk]%prefix_inj_u64; [|done..]. by eapply sorted_keys_inj.
Qed.
Lemma tracker_commitment_order `{Sha256} (SU1 SU2 : SortUnstable) t1 t2 :
  t1 ≡ₚ t2 → compute_whisk_commitment (SU := SU1) t1 = compute_whisk_commitment (SU := SU2) t2.
Proof.
  intros Hp. unfold compute_whisk_commitment, tracker_preimage, len.
  by rewrite (sorted_keys_unique SU1 SU2 _ _ Hp), Hp.
Qed.
Example whisk_example :
  validate_whisk_config default_whisk_config = Ok tt ∧ estimate_proof_overhead default_whisk_config = 15232 ∧
  compute_anonymity_set (with_mode CommitteeWhisk default_whisk_config) = 20480.
Proof. vm_compute. split_and!; reflexivity. Qed.
