(* ===== verification/EcBroadcast.v ===== *)
(** * Erasure-coded broadcast ([eth2077-types/src/ec_broadcast.rs])

    Validation of a broadcast configuration, the estimate of its traffic and latency for
    each topology, and the commitment to it and to the hashes of the shards. *)
From S2P Require Import Prelude Validation Strings Metadata Floats FloatFacts.
Local Open Scope Z_scope.

(* eth2077-types/src/ec_broadcast.rs:4-4 MIN_REDUNDANCY_FACTOR *)
Definition MIN_REDUNDANCY_FACTOR : f64 := int 1.
(* eth2077-types/src/ec_broadcast.rs:5-5 MAX_REDUNDANCY_FACTOR *)
Definition MAX_REDUNDANCY_FACTOR : f64 := int 4.
(* eth2077-types/src/ec_broadcast.rs:6-6 MAX_BROADCAST_PAYLOAD_BYTES *)
Definition MAX_BROADCAST_PAYLOAD_BYTES : Z := 16 * 1024 * 1024.
(* eth2077-types/src/ec_broadcast.rs:9-14 ErasureCodingScheme *)
Inductive ErasureCodingScheme := ReedSolomon | LDPCCode | RaptorCode | FountainCode.
(* eth2077-types/src/ec_broadcast.rs:17-23 BroadcastTopology *)
Inductive BroadcastTopology := BroadcastFullMesh | GossipSub | TreeBroadcast | HybridPushPull | ErasureGossip.
(* eth2077-types/src/ec_broadcast.rs:26-35 EcBroadcastConfig *)
Record EcBroadcastConfig := {
  eb_coding_scheme : ErasureCodingScheme;
  eb_topology : BroadcastTopology;
  eb_shard_count : Z;
  eb_redundancy_factor : f64;
  eb_max_payload_bytes : Z;
  eb_fanout : Z;
  eb_target_latency_ms : f64;
  eb_node_count : Z;
}.
(* eth2077-types/src/ec_broadcast.rs:38-45 EcBroadcastValidationError *)
Inductive EcBroadcastValidationError :=
| ZeroShards
| RedundancyTooLow (value : f64)
| RedundancyTooHigh (value : f64)
| BroadcastPayloadTooLarge (size max : Z)
| FanoutExceedsNodes (fanout nodes : Z)
| InsufficientNodes.
(* eth2077-types/src/ec_broadcast.rs:48-56 EcBroadcastStats *)
Record EcBroadcastStats := {
  es_bandwidth_per_node_bytes : Z;
  es_total_network_bytes : Z;
  es_propagation_rounds : Z;
  es_estimated_latency_ms : f64;
  es_redundancy_overhead : f64;
  es_recovery_threshold : Z;
  es_coding_efficiency : f64;
}.

(* eth2077-types/src/ec_broadcast.rs:58-69 default_ec_broadcast_config *)
Definition default_ec_broadcast_config : EcBroadcastConfig :=
  {| eb_coding_scheme := ReedSolomon; eb_topology := ErasureGossip; eb_shard_count := 64;
     eb_redundancy_factor := dec 15 10; eb_max_payload_bytes := 1048576; eb_fanout := 6;
     eb_target_latency_ms := int 240; eb_node_count := 128 |}.
(* eth2077-types/src/ec_broadcast.rs:71-115 validate_ec_broadcast_config *)
Definition validate_ec_broadcast_config (config : EcBroadcastConfig) : result unit (list EcBroadcastValidationError) :=
  let redundancy := eb_redundancy_factor config in
  errors_to_result (
    push_if (eb_shard_count config =? 0) ZeroShards ++
    push_if (negb (f64_is_finite redundancy) || f64_lt redundancy MIN_REDUNDANCY_FACTOR) (RedundancyTooLow redundancy) ++
    push_if (f64_is_finite redundancy && f64_lt MAX_REDUNDANCY_FACTOR redundancy) (RedundancyTooHigh redundancy) ++
    push_if (MAX_BROADCAST_PAYLOAD_BYTES <? eb_max_payload_bytes config)
      (BroadcastPayloadTooLarge (eb_max_payload_bytes config) MAX_BROADCAST_PAYLOAD_BYTES) ++
    push_if ((eb_node_count config <? 2) || (eb_node_count config <? eb_shard_count config)) InsufficientNodes ++
    push_if ((0 <? eb_node_count config) && (eb_node_count config <=? eb_fanout config))
      (FanoutExceedsNodes (eb_fanout config) (eb_node_count config))).

(* eth2077-types/src/ec_broadcast.rs:220-226 sanitize_redundancy *)
Definition sanitize_redundancy (value : f64) : f64 :=
  if f64_is_finite value then f64_clamp value MIN_REDUNDANCY_FACTOR MAX_REDUNDANCY_FACTOR else MIN_REDUNDANCY_FACTOR.
(** [x.log(base)] is the quotient of the natural logarithms. *)
(* eth2077-types/src/ec_broadcast.rs:228-238 base_propagation_rounds *)
Definition base_propagation_rounds `{Libm} (node_count fanout : Z) : Z :=
  if node_count <=? 1 then 1 else
  if fanout <=? 1 then node_count - 1 else
  f64_to_u64 (f64_maximum (f64_ceil (f64_div (f64_ln (f64_of_u64 node_count)) (f64_ln (f64_of_u64 fanout)))) (int 1)).
(* eth2077-types/src/ec_broadcast.rs:240-248 topology_round_factor *)
Definition topology_round_factor (topology : BroadcastTopology) : f64 :=
  match topology with
  | BroadcastFullMesh => int 1
  | GossipSub => dec 12 10
  | TreeBroadcast => dec 85 100
  | HybridPushPull => dec 95 100
  | ErasureGossip => dec 9 10
  end.
(* eth2077-types/src/ec_broadcast.rs:250-258 topology_latency_factor *)
Definition topology_latency_factor (topology : BroadcastTopology) : f64 :=
  match topology with
  | BroadcastFullMesh => dec 122 100
  | GossipSub => int 1
  | TreeBroadcast => dec 88 100
  | HybridPushPull => dec 82 100
  | ErasureGossip => dec 75 100
  end.
(* eth2077-types/src/ec_broadcast.rs:260-275 topology_transmission_factor *)
Definition topology_transmission_factor (topology : BroadcastTopology) (fanout node_count : Z) : f64 :=
  let peer_limit := Z.max (u64_saturating_sub node_count 1) 1 in
  let effective_fanout := f64_of_u64 (Z.max (Z.min fanout peer_limit) 1) in
  match topology with
  | BroadcastFullMesh => f64_of_u64 peer_limit
  | GossipSub => f64_mul effective_fanout (dec 115 100)
  | TreeBroadcast => int 1
  | HybridPushPull => f64_mul effective_fanout (dec 75 100)
  | ErasureGossip => f64_mul effective_fanout (dec 6 10)
  end.
(* eth2077-types/src/ec_broadcast.rs:277-279 recovery_threshold *)
Definition recovery_threshold (shard_count : Z) (redundancy_factor : f64) : Z :=
  f64_to_u64 (f64_maximum (f64_ceil (f64_div (f64_of_u64 shard_count) redundancy_factor)) (int 1)).
(* eth2077-types/src/ec_broadcast.rs:169-179 estimate_coding_overhead *)
Definition estimate_coding_overhead (scheme : ErasureCodingScheme) (redundancy : f64) : f64 :=
  let additional_redundancy := f64_maximum (f64_sub (sanitize_redundancy redundancy) (int 1)) f64_zero in
  match scheme with
  | ReedSolomon => f64_add (dec 13 10) (f64_mul additional_redundancy (dec 42 100))
  | LDPCCode => f64_add (dec 108 100) (f64_mul additional_redundancy (dec 28 100))
  | RaptorCode => f64_add (dec 97 100) (f64_mul additional_redundancy (dec 2 10))
  | FountainCode => f64_add (int 1) (f64_mul additional_redundancy (dec 24 100))
  end.
(* eth2077-types/src/ec_broadcast.rs:117-153 compute_ec_broadcast_stats *)
Definition compute_ec_broadcast_stats `{Libm} (config : EcBroadcastConfig) : EcBroadcastStats :=
  let safe_shards := Z.max (eb_shard_count config) 1 in
  let safe_nodes := Z.max (eb_node_count config) 1 in
  let safe_fanout := Z.max (eb_fanout config) 1 in
  let safe_redundancy := sanitize_redundancy (eb_redundancy_factor config) in
  let bandwidth_per_node_bytes :=
    f64_to_u64 (f64_ceil (f64_div (f64_mul (f64_of_u64 (eb_max_payload_bytes config)) safe_redundancy)
      (f64_of_u64 safe_shards))) in
  let dissemination_factor :=
    f64_maximum (topology_transmission_factor (eb_topology config) safe_fanout safe_nodes) (int 1) in
  let base_rounds := base_propagation_rounds safe_nodes safe_fanout in
  let propagation_rounds :=
    Z.max (f64_to_u64 (f64_ceil (f64_mul (f64_of_u64 base_rounds) (topology_round_factor (eb_topology config))))) 1 in
  let coding_overhead := estimate_coding_overhead (eb_coding_scheme config) safe_redundancy in
  let per_round_budget_ms := f64_maximum (f64_div (eb_target_latency_ms config) (f64_of_u64 base_rounds)) (int 1) in
  {| es_bandwidth_per_node_bytes := bandwidth_per_node_bytes;
     es_total_network_bytes :=
       f64_to_u64 (f64_ceil (f64_mul (f64_mul (f64_of_u64 bandwidth_per_node_bytes) (f64_of_u64 safe_nodes))
         dissemination_factor));
     es_propagation_rounds := propagation_rounds;
     es_estimated_latency_ms :=
       f64_mul (f64_mul (f64_mul (f64_of_u64 propagation_rounds) per_round_budget_ms)
         (topology_latency_factor (eb_topology config))) coding_overhead;
     es_redundancy_overhead := f64_sub safe_redundancy (int 1);
     es_recovery_threshold := recovery_threshold safe_shards safe_redundancy;
     es_coding_efficiency := f64_clamp (f64_div (int 1) coding_overhead) f64_zero (int 1) |}.
(** [{topology:?}] *)
Definition topology_debug (topology : BroadcastTopology) : Str :=
  match topology with
  | BroadcastFullMesh => str "FullMesh"
  | GossipSub => str "GossipSub"
  | TreeBroadcast => str "TreeBroadcast"
  | HybridPushPull => str "HybridPushPull"
  | ErasureGossip => str "ErasureGossip"
  end.
(* eth2077-types/src/ec_broadcast.rs:210-218 all_topologies *)
Definition all_topologies : list BroadcastTopology :=
  [BroadcastFullMesh; GossipSub; TreeBroadcast; HybridPushPull; ErasureGossip].
(* eth2077-types/src/ec_broadcast.rs:155-167 compare_topologies *)
Definition compare_topologies `{Libm} (config : EcBroadcastConfig) : list (Str * EcBroadcastStats) :=
  (λ topology, (topology_debug topology, compute_ec_broadcast_stats
     {| eb_coding_scheme := eb_coding_scheme config; eb_topology := topology; eb_shard_count := eb_shard_count config;
        eb_redundancy_factor := eb_redundancy_factor config; eb_max_payload_bytes := eb_max_payload_bytes config;
        eb_fanout := eb_fanout config; eb_target_latency_ms := eb_target_latency_ms config;
        eb_node_count := eb_node_count config |})) <$> all_topologies.
(* eth2077-types/src/ec_broadcast.rs:281-288 coding_scheme_discriminant *)
Definition coding_scheme_discriminant (scheme : ErasureCodingScheme) : Z :=
  match scheme with ReedSolomon => 0 | LDPCCode => 1 | RaptorCode => 2 | FountainCode => 3 end.
(* eth2077-types/src/ec_broadcast.rs:290-298 topology_discriminant *)
Definition topology_discriminant (topology : BroadcastTopology) : Z :=
  match topology with BroadcastFullMesh => 0 | GossipSub => 1 | TreeBroadcast => 2 | HybridPushPull => 3 | ErasureGossip => 4 end.
(** What the hasher is fed. *)
(* eth2077-types/src/ec_broadcast.rs:185-202 compute_broadcast_commitment *)
Definition broadcast_preimage {SU : SortUnstable} (committed : EcBroadcastConfig * list (list Z)) : list Z :=
  let '(config, shard_hashes) := committed in
  str "eth2077-ec-broadcast-v1" ++ [coding_scheme_discriminant (eb_coding_scheme config)] ++
  [topology_discriminant (eb_topology config)] ++ to_be_bytes 8 (eb_shard_count config) ++
  to_be_bytes 8 (f64_to_bits (eb_redundancy_factor config)) ++ to_be_bytes 8 (eb_max_payload_bytes config) ++
  to_be_bytes 8 (eb_fanout config) ++ to_be_bytes 8 (f64_to_bits (eb_target_latency_ms config)) ++
  to_be_bytes 8 (eb_node_count config) ++ to_be_bytes 8 (len shard_hashes) ++ concat (sorted_keys shard_hashes).
(* eth2077-types/src/ec_broadcast.rs:181-208 compute_broadcast_commitment *)
Definition compute_broadcast_commitment `{Sha256} {SU : SortUnstable} (config : EcBroadcastConfig)
    (shard_hashes : list (list Z)) : list Z := sha256 (broadcast_preimage (config, shard_hashes)).

(** ** Validation *)

Record typed_broadcast (c : EcBroadcastConfig) : Prop := {
  typed_shards : is_u64 (eb_shard_count c);
  typed_redundancy : valid_binary 53 1024 (eb_redundancy_factor c) = true;
  typed_payload : is_u64 (eb_max_payload_bytes c);
  typed_fanout : is_u64 (eb_fanout c);
  typed_target : valid_binary 53 1024 (eb_target_latency_ms c) = true;
  typed_nodes : is_u64 (eb_node_count c);
}.
Record broadcast_config_ok (c : EcBroadcastConfig) : Prop := {
  ok_shards : 0 < eb_shard_count c ≤ eb_node_count c;
  ok_redundancy : f64_le (int 1) (eb_redundancy_factor c) = true ∧ f64_le (eb_redundancy_factor c) (int 4) = true;
  ok_payload : eb_max_payload_bytes c ≤ 16777216;
  ok_fanout : eb_fanout c < eb_node_count c;
  ok_nodes : 2 ≤ eb_node_count c;
}.
Lemma validate_broadcast_exact c : typed_broadcast c → validate_ec_broadcast_config c = Ok tt ↔ broadcast_config_ok c.
Proof.
  intros [Hs Hr Hp Hf _ Hn]. unfold validate_ec_broadcast_config.
  assert (negb (f64_is_finite (eb_redundancy_factor c)) || f64_lt (eb_redundancy_factor c) MIN_REDUNDANCY_FACTOR = false ∧
    f64_is_finite (eb_redundancy_factor c) && f64_lt MAX_REDUNDANCY_FACTOR (eb_redundancy_factor c) = false ↔
    f64_le (int 1) (eb_redundancy_factor c) = true ∧ f64_le (eb_redundancy_factor c) (int 4) = true) as Hred.
  { rewrite <- (range_check _ (int 1) (int 4)) by done. unfold MIN_REDUNDANCY_FACTOR, MAX_REDUNDANCY_FACTOR.
    destruct (f64_is_finite _); cbn [negb orb andb]; [by rewrite orb_false_iff|naive_solver]. }
  rewrite errors_to_result_ok, !app_nil, !push_if_nil, Z.eqb_neq, !Z.ltb_ge,
    (orb_false_iff (eb_node_count c <? 2)), (andb_false_iff (0 <? eb_node_count c)), !Z.ltb_ge, Z.leb_gt. change MAX_BROADCAST_PAYLOAD_BYTES with 16777216.
  split.
  - intros (?&?&?&?&[? ?]&?). split; try sat_lia. by apply Hred.
  - intros [? ?%Hred ? ? ?]. destruct_and!. split_and!; try sat_lia; done.
Qed.

(** ** Bounds *)

(** The redundancy the estimates use is between 1 and 4, whatever was configured. *)
Lemma sanitized_bounds r :
  valid_binary 53 1024 r = true →
  finite_double (sanitize_redundancy r) ∧ units (int 1) ≤ units (sanitize_redundancy r) ≤ units (int 4).
Proof.
  intros Hr. destruct (f64_of_u64_exact 1 ltac:(lia)) as [H1 Hu1], (f64_of_u64_exact 4 ltac:(lia)) as [H4 Hu4].
  assert (units (int 1) ≤ units (int 4)) by (rewrite Hu1, Hu4; pose proof (Z.pow_pos_nonneg 2 1074); lia).
  unfold sanitize_redundancy, MIN_REDUNDANCY_FACTOR, MAX_REDUNDANCY_FACTOR.
  destruct (f64_is_finite r) eqn:Hf; [|split; [done|lia]].
  apply f64_clamp_units; [by apply is_finite_double|done..].
Qed.
(** ** The commitment *)

Lemma broadcast_preimage_inj (SU : SortUnstable) c1 k1 c2 k2 :
  typed_broadcast c1 → typed_broadcast c2 → Forall key32 k1 → Forall key32 k2 →
  is_u64 (len k1) → is_u64 (len k2) →
  broadcast_preimage (c1, k1) = broadcast_preimage (c2, k2) → c1 = c2 ∧ k1 ≡ₚ k2.
Proof.
  intros [? ? ? ? ? ?] [? ? ? ? ? ?] Hk1 Hk2 Hl1 Hl2. destruct c1 as [s1 t1 ? ? ? ? ? ?], c2 as [s2 t2 ? ? ? ? ? ?].
  cbn [eb_shard_count eb_redundancy_factor eb_max_payload_bytes eb_fanout eb_target_latency_ms eb_node_count] in *.
  unfold broadcast_preimage. cbn [eb_coding_scheme eb_topology eb_shard_count eb_redundancy_factor eb_max_payload_bytes
    eb_fanout eb_target_latency_ms eb_node_count]. intros Heq%app_inv_head.
  apply (app_inj_1 [_] [_]) in Heq as [[= Hs] Heq]; [|done]. apply (app_inj_1 [_] [_]) in Heq as [[= Ht] Heq]; [|done].
  apply prefix_inj_u64 in Heq as [-> Heq]; [|done..]. apply prefix_inj_bits_be in Heq as [-> Heq]; [|done..].
  do 2 (apply prefix_inj_u64 in Heq as [-> Heq]; [|done..]). apply prefix_inj_bits_be in Heq as [-> Heq]; [|done..].
  apply prefix_inj_u64 in Heq as [-> Heq]; [|done..]. apply prefix_inj_u64 in Heq as [_ Heq]; [|done..].
  split; [|by eapply sorted_keys_inj].
  assert (s1 = s2) as -> by (by destruct s1, s2). by assert (t1 = t2) as -> by (by destruct t1, t2).
Qed.
(** The commitment binds the configuration and the hashes of the shards as a multiset. *)
Lemma broadcast_commitment_binding `{Sha256} {SU : SortUnstable} c1 k1 c2 k2 :
  typed_broadcast c1 → typed_broadcast c2 → Forall key32 k1 → Forall key32 k2 →
  is_u64 (len k1) → is_u64 (len k2) →
  compute_broadcast_commitment c1 k1 = compute_broadcast_commitment c2 k2 →
  binds broadcast_preimage (λ a b, a.1 = b.1 ∧ a.2 ≡ₚ b.2) (c1, k1) (c2, k2).
Proof. intros. apply binds_intro; [|done]. intros Heq. by eapply broadcast_preimage_inj. Qed.
Example broadcast_example :
  validate_ec_broadcast_config default_ec_broadcast_config = Ok tt ∧
  recovery_threshold 64 (dec 15 10) = 43 ∧ topology_debug <$> all_topologies !! 3%nat = Some (str "HybridPushPull").
Proof. vm_compute. split_and!; reflexivity. Qed.
