(* ===== verification/AttesterIncluder.v ===== *)
(** * Attester-includer separation ([eth2077-types/src/attester_includer.rs])

    Validation of a configuration that separates attesting from including, the scores of the
    separation models, and the commitment to the two sets of keys. *)
From S2P Require Import Prelude Validation Strings Metadata Floats FloatFacts.
Local Open Scope Z_scope.

(* eth2077-types/src/attester_includer.rs:5-5 REWARD_SUM_TARGET *)
Definition REWARD_SUM_TARGET : f64 := int 1.
(* eth2077-types/src/attester_includer.rs:6-6 REWARD_SUM_EPSILON *)
Definition REWARD_SUM_EPSILON : f64 := dec 1 1000000.
(* eth2077-types/src/attester_includer.rs:7-7 DEFAULT_MAX_DELAY_SLOTS *)
Definition DEFAULT_MAX_DELAY_SLOTS : Z := 8.
(* eth2077-types/src/attester_includer.rs:10-21 SeparationModel *)
Inductive SeparationModel := CurrentUnified | SoftSeparation | HardSeparation | CommitteeIncluder | AuctionedIncluder.
(* eth2077-types/src/attester_includer.rs:24-34 CensorshipResistance *)
Inductive CensorshipResistance := NoResistance | FocilStyle | ThresholdEncryption | ForcedInclusion | MultiProposer.
(* eth2077-types/src/attester_includer.rs:37-48 AISConfig *)
Record AISConfig := {
  ai_separation_model : SeparationModel;
  ai_censorship_resistance : CensorshipResistance;
  ai_attester_count : Z;
  ai_includer_count : Z;
  ai_inclusion_delay_slots : Z;
  ai_max_inclusion_list_size : Z;
  ai_attester_reward_share : f64;
  ai_includer_reward_share : f64;
}.
(* eth2077-types/src/attester_includer.rs:51-58 AISValidationError *)
Inductive AISValidationError :=
| ZeroAttesters
| ZeroIncluders
| RewardShareMismatch (total : Str)
| InclusionListTooLarge (size max : Z)
| IncompatibleModel (model resistance : Str)
| DelayTooHigh (slots max_slots : Z).
(* eth2077-types/src/attester_includer.rs:61-68 AISImpactStats *)
Record AISImpactStats := {
  as_censorship_resistance_score : f64;
  as_mev_extraction_difficulty : f64;
  as_attestation_overhead_ratio : f64;
  as_inclusion_latency_slots : f64;
  as_centralization_risk : f64;
  as_model_comparison : list (Str * f64);
}.

(* eth2077-types/src/attester_includer.rs:70-81 default_ais_config *)
Definition default_ais_config : AISConfig :=
  {| ai_separation_model := HardSeparation; ai_censorship_resistance := FocilStyle; ai_attester_count := 128;
     ai_includer_count := 16; ai_inclusion_delay_slots := 1; ai_max_inclusion_list_size := 256;
     ai_attester_reward_share := dec 7 10; ai_includer_reward_share := dec 3 10 |}.
(** [{:?}] of the two enums. *)
Definition model_debug (model : SeparationModel) : Str :=
  match model with
  | CurrentUnified => str "CurrentUnified"
  | SoftSeparation => str "SoftSeparation"
  | HardSeparation => str "HardSeparation"
  | CommitteeIncluder => str "CommitteeIncluder"
  | AuctionedIncluder => str "AuctionedIncluder"
  end.
Definition resistance_debug (resistance : CensorshipResistance) : Str :=
  match resistance with
  | NoResistance => str "None"
  | FocilStyle => str "FocilStyle"
  | ThresholdEncryption => str "ThresholdEncryption"
  | ForcedInclusion => str "ForcedInclusion"
  | MultiProposer => str "MultiProposer"
  end.
(* eth2077-types/src/attester_includer.rs:345-353 max_inclusion_list_limit *)
Definition max_inclusion_list_limit (resistance : CensorshipResistance) : Z :=
  match resistance with
  | NoResistance => 1024
  | FocilStyle => 4096
  | ThresholdEncryption => 2048
  | ForcedInclusion => 3072
  | MultiProposer => 4096
  end.
(* eth2077-types/src/attester_includer.rs:355-361 max_delay_for_config *)
Definition max_delay_for_config (config : AISConfig) : Z :=
  match ai_censorship_resistance config with
  | ThresholdEncryption => 10
  | ForcedInclusion => 12
  | _ => DEFAULT_MAX_DELAY_SLOTS
  end.
(* eth2077-types/src/attester_includer.rs:363-386 is_model_resistance_compatible *)
Definition is_model_resistance_compatible (model : SeparationModel) (resistance : CensorshipResistance) : bool :=
  match model, resistance with
  | CurrentUnified, FocilStyle
  | CurrentUnified, ThresholdEncryption
  | CurrentUnified, MultiProposer
  | SoftSeparation, ThresholdEncryption
  | AuctionedIncluder, MultiProposer => false
  | _, _ => true
  end.
(* eth2077-types/src/attester_includer.rs:423-425 clamp01 *)
Definition clamp01 (value : f64) : f64 := f64_clamp value f64_zero (int 1).
(* eth2077-types/src/attester_includer.rs:427-433 clamp_positive *)
Definition clamp_positive (value : f64) : f64 := if f64_lt value f64_zero then f64_zero else value.
(* eth2077-types/src/attester_includer.rs:83-136 validate_ais_config *)
Definition validate_ais_config (config : AISConfig) : result unit (list AISValidationError) :=
  let attesters := ai_attester_reward_share config in
  let includers := ai_includer_reward_share config in
  let reward_total := f64_add attesters includers in
  let valid_reward_bounds :=
    f64_is_finite attesters && f64_is_finite includers && f64_le f64_zero attesters && f64_le f64_zero includers &&
    f64_le attesters (int 1) && f64_le includers (int 1) in
  let max_inclusion_limit := max_inclusion_list_limit (ai_censorship_resistance config) in
  let max_delay := max_delay_for_config config in
  errors_to_result (
    push_if (ai_attester_count config =? 0) ZeroAttesters ++
    push_if (ai_includer_count config =? 0) ZeroIncluders ++
    push_if (negb valid_reward_bounds || f64_lt REWARD_SUM_EPSILON (f64_abs (f64_sub reward_total REWARD_SUM_TARGET)))
      (RewardShareMismatch (f64_fixed 6 reward_total)) ++
    push_if (max_inclusion_limit <? ai_max_inclusion_list_size config)
      (InclusionListTooLarge (ai_max_inclusion_list_size config) max_inclusion_limit) ++
    push_if (max_delay <? ai_inclusion_delay_slots config) (DelayTooHigh (ai_inclusion_delay_slots config) max_delay) ++
    push_if (negb (is_model_resistance_compatible (ai_separation_model config) (ai_censorship_resistance config)))
      (IncompatibleModel (model_debug (ai_separation_model config))
         (resistance_debug (ai_censorship_resistance config)))).

(* eth2077-types/src/attester_includer.rs:155-161 compute_ais_stats *)
Definition resistance_latency (resistance : CensorshipResistance) : f64 :=
  match resistance with
  | NoResistance => f64_zero
  | FocilStyle => dec 2 10
  | ThresholdEncryption => dec 6 10
  | ForcedInclusion => dec 4 10
  | MultiProposer => f64_neg (dec 2 10)
  end.
(* eth2077-types/src/attester_includer.rs:163-169 compute_ais_stats *)
Definition model_latency (model : SeparationModel) : f64 :=
  match model with
  | CurrentUnified => f64_neg (dec 1 10)
  | SoftSeparation => f64_zero
  | HardSeparation => dec 2 10
  | CommitteeIncluder => dec 3 10
  | AuctionedIncluder => dec 4 10
  end.
(* eth2077-types/src/attester_includer.rs:174-180 compute_ais_stats *)
Definition base_centralization_risk (model : SeparationModel) : f64 :=
  match model with
  | CurrentUnified => dec 55 100
  | SoftSeparation => dec 50 100
  | HardSeparation => dec 45 100
  | CommitteeIncluder => dec 40 100
  | AuctionedIncluder => dec 65 100
  end.
(** [(share / count.max(1)).min(1.5)], for attesters and includers. *)
(* eth2077-types/src/attester_includer.rs:182-183 compute_ais_stats *)
Definition concentration (share count : Z) : f64 :=
  f64_min (f64_div (f64_of_u64 share) (f64_of_u64 (Z.max count 1))) (dec 15 10).
(* eth2077-types/src/attester_includer.rs:216-247 estimate_censorship_resistance *)
Definition estimate_censorship_resistance (config : AISConfig) : f64 :=
  let model_base :=
    match ai_separation_model config with
    | CurrentUnified => dec 30 100
    | SoftSeparation => dec 45 100
    | HardSeparation => dec 65 100
    | CommitteeIncluder => dec 70 100
    | AuctionedIncluder => dec 60 100
    end in
  let resistance_bonus :=
    match ai_censorship_resistance config with
    | NoResistance => f64_zero
    | FocilStyle => dec 20 100
    | ThresholdEncryption => dec 25 100
    | ForcedInclusion => dec 22 100
    | MultiProposer => dec 18 100
    end in
  let delay_penalty :=
    f64_min (f64_mul (f64_of_u64 (u64_saturating_sub (ai_inclusion_delay_slots config) 1)) (dec 2 100)) (dec 20 100) in
  let decentralization_bonus :=
    f64_min (f64_mul (f64_div (f64_of_u64 (ai_includer_count config)) (f64_of_u64 (Z.max (ai_attester_count config) 1)))
      (dec 20 100)) (dec 10 100) in
  clamp01 (f64_sub (f64_add (f64_add model_base resistance_bonus) decentralization_bonus) delay_penalty).
(* eth2077-types/src/attester_includer.rs:249-280 estimate_mev_difficulty *)
Definition estimate_mev_difficulty `{Libm} (config : AISConfig) : f64 :=
  let model_base :=
    match ai_separation_model config with
    | CurrentUnified => dec 20 100
    | SoftSeparation => dec 35 100
    | HardSeparation => dec 60 100
    | CommitteeIncluder => dec 70 100
    | AuctionedIncluder => dec 50 100
    end in
  let resistance_bonus :=
    match ai_censorship_resistance config with
    | NoResistance => f64_zero
    | FocilStyle => dec 10 100
    | ThresholdEncryption => dec 25 100
    | ForcedInclusion => dec 15 100
    | MultiProposer => dec 12 100
    end in
  let includer_dispersion :=
    f64_min (f64_div (f64_log2 (f64_of_u64 (Z.max (ai_includer_count config) 1))) (int 8)) (dec 20 100) in
  let latency_bonus := f64_min (f64_mul (f64_of_u64 (ai_inclusion_delay_slots config)) (dec 3 100)) (dec 15 100) in
  let reward_balance :=
    f64_maximum (f64_mul (f64_sub (ai_attester_reward_share config) (dec 50 100)) (dec 20 100)) (f64_neg (dec 10 100)) in
  clamp01 (f64_add (f64_add (f64_add (f64_add model_base resistance_bonus) includer_dispersion) latency_bonus)
    reward_balance).
(* eth2077-types/src/attester_includer.rs:388-401 estimate_centralization_risk_for_compare *)
Definition estimate_centralization_risk_for_compare (config : AISConfig) : f64 :=
  clamp01 (f64_add (f64_add (base_centralization_risk (ai_separation_model config))
    (f64_mul (dec 20 100) (concentration 32 (ai_includer_count config))))
    (f64_mul (dec 10 100) (concentration 128 (ai_attester_count config)))).
(* eth2077-types/src/attester_includer.rs:403-421 estimate_latency_for_compare *)
Definition estimate_latency_for_compare (config : AISConfig) : f64 :=
  clamp_positive (f64_add (f64_add (f64_of_u64 (ai_inclusion_delay_slots config))
    (resistance_latency (ai_censorship_resistance config))) (model_latency (ai_separation_model config))).
(** [AISConfig { separation_model: model, ..config.clone() }] *)
(* eth2077-types/src/attester_includer.rs:294-297 compare_separation_models *)
Definition with_model (model : SeparationModel) (config : AISConfig) : AISConfig :=
  {| ai_separation_model := model; ai_censorship_resistance := ai_censorship_resistance config;
     ai_attester_count := ai_attester_count config; ai_includer_count := ai_includer_count config;
     ai_inclusion_delay_slots := ai_inclusion_delay_slots config;
     ai_max_inclusion_list_size := ai_max_inclusion_list_size config;
     ai_attester_reward_share := ai_attester_reward_share config;
     ai_includer_reward_share := ai_includer_reward_share config |}.
(* eth2077-types/src/attester_includer.rs:299-309 compare_separation_models *)
Definition effectiveness `{Libm} (config : AISConfig) : f64 :=
  clamp01 (f64_add (f64_add (f64_add
    (f64_mul (estimate_censorship_resistance config) (dec 40 100))
    (f64_mul (estimate_mev_difficulty config) (dec 35 100)))
    (f64_mul (f64_sub (int 1) (estimate_centralization_risk_for_compare config)) (dec 15 100)))
    (f64_mul (f64_clamp (f64_sub (int 1) (f64_div (estimate_latency_for_compare config) (int 6))) f64_zero (int 1))
       (dec 10 100))).
(** The order of [b.1.total_cmp(&a.1)], best first. *)
Definition score_cmp (a b : Str * f64) : comparison := f64_total_cmp b.2 a.2.
(* eth2077-types/src/attester_includer.rs:282-316 compare_separation_models *)
Definition compare_separation_models `{Libm} (config : AISConfig) : list (Str * f64) :=
  sort_by score_cmp ((λ model, (model_debug model, effectiveness (with_model model config))) <$>
    [CurrentUnified; SoftSeparation; HardSeparation; CommitteeIncluder; AuctionedIncluder]).
(* eth2077-types/src/attester_includer.rs:138-214 compute_ais_stats *)
Definition compute_ais_stats `{Libm} (config : AISConfig) : AISImpactStats :=
  let overhead_baseline :=
    match ai_separation_model config with
    | CurrentUnified => dec 98 100
    | SoftSeparation => dec 104 100
    | HardSeparation => dec 112 100
    | CommitteeIncluder => dec 118 100
    | AuctionedIncluder => dec 110 100
    end in
  let list_complexity :=
    f64_mul (f64_min (f64_div (f64_of_u64 (ai_max_inclusion_list_size config)) (int 1024)) (int 1)) (dec 18 100) in
  let delay_complexity := f64_mul (f64_of_u64 (ai_inclusion_delay_slots config)) (dec 2 100) in
  let resistance_adjustment :=
    match ai_censorship_resistance config with
    | NoResistance => dec 8 100
    | FocilStyle => f64_neg (dec 8 100)
    | ThresholdEncryption => f64_neg (dec 4 100)
    | ForcedInclusion => f64_neg (dec 6 100)
    | MultiProposer => f64_neg (dec 10 100)
    end in
  let reward_skew_penalty :=
    f64_add (f64_mul (f64_maximum (f64_sub (ai_includer_reward_share config) (dec 30 100)) f64_zero) (dec 50 100))
      (f64_mul (f64_maximum (f64_sub (dec 70 100) (ai_attester_reward_share config)) f64_zero) (dec 30 100)) in
  {| as_censorship_resistance_score := estimate_censorship_resistance config;
     as_mev_extraction_difficulty := estimate_mev_difficulty config;
     as_attestation_overhead_ratio := clamp_positive (f64_add (f64_add overhead_baseline list_complexity) delay_complexity);
     as_inclusion_latency_slots :=
       clamp_positive (f64_add (f64_add (f64_of_u64 (ai_inclusion_delay_slots config))
         (resistance_latency (ai_censorship_resistance config))) (model_latency (ai_separation_model config)));
     as_centralization_risk :=
       clamp01 (f64_add (f64_add (f64_add (f64_add (base_centralization_risk (ai_separation_model config))
         (f64_mul (dec 25 100) (concentration 32 (ai_includer_count config))))
         (f64_mul (dec 10 100) (concentration 128 (ai_attester_count config)))) resistance_adjustment)
         reward_skew_penalty);
     as_model_comparison := compare_separation_models config |}.
(** What the hasher is fed. *)
(* eth2077-types/src/attester_includer.rs:319-337 compute_ais_commitment *)
Definition roles_preimage {SU : SortUnstable} (roles : list (list Z) * list (list Z)) : list Z :=
  let '(attesters, includers) := roles in
  str "AIS-V1" ++ to_le_bytes 8 (len attesters) ++ concat ((λ key, [0xA1] ++ key) <$> sorted_keys attesters) ++
  to_le_bytes 8 (len includers) ++ concat ((λ key, [0xB2] ++ key) <$> sorted_keys includers).
(* eth2077-types/src/attester_includer.rs:318-343 compute_ais_commitment *)
Definition compute_ais_commitment `{Sha256} {SU : SortUnstable} (attesters includers : list (list Z)) : list Z :=
  sha256 (roles_preimage (attesters, includers)).

(** ** Validation *)

Record ais_config_ok (c : AISConfig) : Prop := {
  ok_attesters : 0 < ai_attester_count c;
  ok_includers : 0 < ai_includer_count c;
  ok_attester_share : f64_le f64_zero (ai_attester_reward_share c) = true ∧ f64_le (ai_attester_reward_share c) (int 1) = true;
  ok_includer_share : f64_le f64_zero (ai_includer_reward_share c) = true ∧ f64_le (ai_includer_reward_share c) (int 1) = true;
  ok_reward_sum : f64_lt REWARD_SUM_EPSILON
    (f64_abs (f64_sub (f64_add (ai_attester_reward_share c) (ai_includer_reward_share c)) (int 1))) = false;
  ok_list : ai_max_inclusion_list_size c ≤ max_inclusion_list_limit (ai_censorship_resistance c);
  ok_delay : ai_inclusion_delay_slots c ≤ max_delay_for_config c;
  ok_compatible : is_model_resistance_compatible (ai_separation_model c) (ai_censorship_resistance c) = true;
}.
Lemma share_finite x : f64_le f64_zero x = true ∧ f64_le x (int 1) = true → f64_is_finite x = true.
Proof. destruct x as [|[]| |]; try done; intros [H1 H2]; vm_compute in H1, H2; done. Qed.
Lemma validate_ais_exact c :
  is_u64 (ai_attester_count c) → is_u64 (ai_includer_count c) → validate_ais_config c = Ok tt ↔ ais_config_ok c.
Proof.
  intros Ha Hi. unfold validate_ais_config.
  rewrite errors_to_result_ok, !app_nil, !push_if_nil, !Z.eqb_neq, !Z.ltb_ge, orb_false_iff, !negb_false_iff, !andb_true_iff.
  split.
  - intros (?&?&[[[[[[? ?] ?] ?] ?] ?] ?]&?&?&?). split; (done || sat_lia).
  - intros [? ? Hs1 Hs2 ? ? ? ?]. pose proof (share_finite _ Hs1). pose proof (share_finite _ Hs2).
    destruct_and!. split_and!; (done || sat_lia).
Qed.

(** ** Scores *)

(** The score is between 0 and 1 whatever the counts and the delay are. *)
Lemma censorship_score_bounded c :
  is_u64 (ai_attester_count c) → is_u64 (ai_includer_count c) → is_u64 (ai_inclusion_delay_slots c) →
  f64_le f64_zero (estimate_censorship_resistance c) = true ∧
  f64_le (estimate_censorship_resistance c) (int 1) = true.
Proof.
  intros Ha Hi Hd. unfold estimate_censorship_resistance, clamp01. apply clamped_unit.
  set (base := match ai_separation_model c with CurrentUnified => _ | _ => _ end).
  set (bonus := match ai_censorship_resistance c with NoResistance => _ | _ => _ end).
  assert (mag_le 1 base) as Hbase by (unfold base; destruct (ai_separation_model c); const_mag).
  assert (mag_le 1 bonus) as Hbonus by (unfold bonus; destruct (ai_censorship_resistance c); const_mag).
  clearbody base bonus.
  assert (∀ z, is_u64 z → mag_le 65 (f64_of_u64 z)) as Hint by (intros z Hz; apply (f64_of_u64_mag z 64); sat_lia).
  assert (mag_le 70 (f64_min (f64_mul (f64_of_u64 (u64_saturating_sub (ai_inclusion_delay_slots c) 1)) (dec 2 100))
    (dec 20 100))) as Hpen.
  { apply f64_min_mag; [|const_mag]. apply (mag_le_weaken (65 + 1 + 1)); [lia|].
    apply f64_mul_mag; [apply Hint; sat_lia|const_mag|lia]. }
  assert (mag_le 70 (f64_min (f64_mul (f64_div (f64_of_u64 (ai_includer_count c))
    (f64_of_u64 (Z.max (ai_attester_count c) 1))) (dec 20 100)) (dec 10 100))) as Hdec.
  { apply f64_min_mag; [|const_mag]. apply (mag_le_weaken (65 + 2 + 1 + 1)); [lia|].
    apply f64_mul_mag; [|const_mag|lia]. apply f64_div_int_mag; [by apply Hint|sat_lia|lia]. }
  apply (mag_le_finite (72 + 2)), f64_sub_mag; [|by apply (mag_le_weaken 70)|lia].
  apply (f64_add_mag 70); [|done|lia]. apply (mag_le_weaken (1 + 2)); [lia|]. by apply f64_add_mag.
Qed.
(** The comparison ranks each of the five models once. *)
Lemma comparison_models `{Libm} c :
  fst <$> compare_separation_models c ≡ₚ
  model_debug <$> [CurrentUnified; SoftSeparation; HardSeparation; CommitteeIncluder; AuctionedIncluder].
Proof. unfold compare_separation_models. by rewrite sort_by_perm. Qed.

(** ** The commitment *)

Lemma concat_tagged (tag : Z) (l : list (list Z)) :
  Forall key32 l → length (concat ((λ key, [tag] ++ key) <$> l)) = (33 * length l)%nat.
Proof.
  induction 1 as [|k l Hk _ IH]; [done|]. rewrite fmap_cons. cbn [concat]. rewrite !length_app, IH, Hk. simpl. lia.
Qed.
Lemma concat_tagged_inj (tag : Z) (l1 l2 : list (list Z)) :
  Forall key32 l1 → Forall key32 l2 →
  concat ((λ key, [tag] ++ key) <$> l1) = concat ((λ key, [tag] ++ key) <$> l2) → l1 = l2.
Proof.
  intros H1 H2 Heq. apply (prefix_inj_concat key32 (λ key, [tag] ++ key)); [|done..].
  intros a b r1 r2 Ha Hb. simpl. intros [= [-> ->]%app_inj_1]; [done|congruence].
Qed.
Lemma roles_preimage_inj (SU : SortUnstable) a1 i1 a2 i2 :
  Forall key32 a1 → Forall key32 a2 → Forall key32 i1 → Forall key32 i2 →
  is_u64 (len a1) → is_u64 (len a2) → is_u64 (len i1) → is_u64 (len i2) →
  roles_preimage (a1, i1) = roles_preimage (a2, i2) → a1 ≡ₚ a2 ∧ i1 ≡ₚ i2.
Proof.
  intros Ha1 Ha2 Hi1 Hi2 ? ? ? ?. unfold roles_preimage, sorted_keys.
  pose proof (λ l, sort_unstable_perm bytes_cmp (A := list Z) l) as Hp.
  assert (∀ l, Forall key32 l → Forall key32 (sort_unstable_by bytes_cmp l)) as Hs by (intros l Hl; by rewrite Hp).
  intros [Hn Heq]%app_inv_head%prefix_inj_le_u64; [|done..].
  apply app_inj_1 in Heq as [Ha Heq]; [|rewrite !concat_tagged by auto; rewrite !Hp; unfold len in Hn; lia].
  apply prefix_inj_le_u64 in Heq as [_ Hi]; [|done..].
  apply concat_tagged_inj in Ha, Hi; [|auto..].
  by rewrite <- (Hp a1), <- (Hp a2), <- (Hp i1), <- (Hp i2), Ha, Hi.
Qed.
(** The commitment binds who attests and who includes: neither set can be moved to the other
    role. *)
Lemma roles_commitment_binding `{Sha256} {SU : SortUnstable} a1 i1 a2 i2 :
  Forall key32 a1 → Forall key32 a2 → Forall key32 i1 → Forall key32 i2 →
  is_u64 (len a1) → is_u64 (len a2) → is_u64 (len i1) → is_u64 (len i2) →
  compute_ais_commitment a1 i1 = compute_ais_commitment a2 i2 →
  binds roles_preimage (λ r s, r.1 ≡ₚ s.1 ∧ r.2 ≡ₚ s.2) (a1, i1) (a2, i2).
Proof. intros. apply binds_intro; [|done]. intros Heq. by eapply roles_preimage_inj. Qed.
Example ais_example :
  validate_ais_config default_ais_config = Ok tt ∧
  estimate_censorship_resistance default_ais_config = f64_add (f64_add (dec 65 100) (dec 20 100)) (dec 25 1000).
Proof. vm_compute. split; reflexivity. Qed.
