(* ===== verification/MigrationPlan.v ===== *)
(** * The Citadel migration plan ([eth2077-types/src/migration_plan.rs])

    The policy of a migration and its validation, the statistics of its steps, and the
    commitment to the policy. *)
From S2P Require Import Prelude Validation Strings Metadata Floats FloatFacts.
Local Open Scope Z_scope.

(* eth2077-types/src/migration_plan.rs:36-54 MigrationPhase *)
Inductive MigrationPhase := PhaseDiscovery | PhaseAnalysis | PhaseImplementation | PhaseTesting | PhaseStaging | PhaseProduction.
(* eth2077-types/src/migration_plan.rs:61-74 RiskLevel *)
Inductive RiskLevel := Negligible | LowRisk | MediumRisk | HighRisk | CriticalRisk | BlockingRisk.
#[export] Instance RiskLevel_eq_dec : EqDecision RiskLevel.
Proof. solve_decision. Defined.
(* eth2077-types/src/migration_plan.rs:81-94 RollbackStrategy *)
Inductive RollbackStrategy := Automatic | ManualApproval | FeatureFlag | BlueGreen | Canary | NoRollback.
(* eth2077-types/src/migration_plan.rs:102-115 DependencyKind *)
Inductive DependencyKind := HardBlock | SoftBlock | Advisory | TestOnly | BuildTime | RuntimeDependency.
(* eth2077-types/src/migration_plan.rs:124-141 MigrationStep *)
Record MigrationStep := {
  ms_id : Str;
  ms_module_name : Str;
  ms_phase : MigrationPhase;
  ms_risk : RiskLevel;
  ms_rollback : RollbackStrategy;
  ms_dependencies : list Str;
  ms_estimated_hours : f64;
  ms_metadata : gmap Str Str;
}.
(* eth2077-types/src/migration_plan.rs:149-164 MigrationPlanConfig *)
Record MigrationPlanConfig := {
  mp_max_parallel_migrations : Z;
  mp_risk_tolerance : RiskLevel;
  mp_require_rollback : bool;
  mp_staging_duration_hours : f64;
  mp_test_coverage_min_pct : f64;
  mp_approval_required : bool;
  mp_metadata : gmap Str Str;
}.
(* eth2077-types/src/migration_plan.rs:171-176 MigrationPlanValidationError *)
Definition MigrationPlanValidationError : Type := FieldError.
(* eth2077-types/src/migration_plan.rs:183-196 MigrationPlanStats *)
Record MigrationPlanStats := {
  mps_total_steps : Z;
  mps_by_phase : gmap Str Z;
  mps_avg_risk_score : f64;
  mps_total_estimated_hours : f64;
  mps_blocked_count : Z;
  mps_completion_pct : f64;
}.

(* eth2077-types/src/migration_plan.rs:208-223 default_migration_plan_config *)
Definition default_migration_plan_config : MigrationPlanConfig :=
  {| mp_max_parallel_migrations := 2; mp_risk_tolerance := MediumRisk; mp_require_rollback := true;
     mp_staging_duration_hours := int 72; mp_test_coverage_min_pct := int 90; mp_approval_required := true;
     mp_metadata :=
       <[str "program" := str "ETH2077-Citadel"]> (<[str "owner" := str "consensus-core"]>
       (<[str "mode" := str "safety-first"]> ∅)) |}.
(* eth2077-types/src/migration_plan.rs:234-316 validate_migration_plan_config *)
Definition validate_migration_plan_config {HO : HashOrder} (config : MigrationPlanConfig)
  : result unit (list MigrationPlanValidationError) :=
  let tolerance := mp_risk_tolerance config in
  let coverage := mp_test_coverage_min_pct config in
  let severe := bool_decide (tolerance = CriticalRisk) || bool_decide (tolerance = BlockingRisk) in
  errors_to_result (
    push_if (mp_max_parallel_migrations config =? 0) (field_error "max_parallel_migrations" "must be greater than zero") ++
    push_if (f64_lt (mp_staging_duration_hours config) f64_zero)
      (field_error "staging_duration_hours" "must be non-negative") ++
    push_if (f64_lt coverage f64_zero || f64_lt (int 100) coverage)
      (field_error "test_coverage_min_pct" "must be within [0, 100]") ++
    push_if (mp_require_rollback config && severe && f64_lt (mp_staging_duration_hours config) (int 24))
      (field_error "staging_duration_hours" "critical/blocking tolerance requires at least 24h staging") ++
    push_if (negb (mp_require_rollback config) && (bool_decide (tolerance = HighRisk) || severe))
      (field_error "require_rollback" "cannot be false when risk tolerance is high or above") ++
    push_if (negb (mp_approval_required config) && severe)
      (field_error "approval_required" "cannot be false when risk tolerance is critical or blocking") ++
    push_if (8 <? mp_max_parallel_migrations config)
      (field_error "max_parallel_migrations" "values above 8 are considered unsafe for consensus migration") ++
    push_if (existsb (λ entry, bool_decide (trim entry.1 = [])) (hash_iter (mp_metadata config)))
      (field_error "metadata" "metadata keys must not be empty")).

(* eth2077-types/src/migration_plan.rs:422-431 phase_label *)
Definition phase_label (phase : MigrationPhase) : Str :=
  match phase with
  | PhaseDiscovery => str "Discovery"
  | PhaseAnalysis => str "Analysis"
  | PhaseImplementation => str "Implementation"
  | PhaseTesting => str "Testing"
  | PhaseStaging => str "Staging"
  | PhaseProduction => str "Production"
  end.
(* eth2077-types/src/migration_plan.rs:437-446 risk_score *)
Definition risk_score (risk : RiskLevel) : f64 :=
  match risk with
  | Negligible => f64_zero
  | LowRisk => int 1
  | MediumRisk => int 2
  | HighRisk => int 3
  | CriticalRisk => int 4
  | BlockingRisk => int 5
  end.
(* eth2077-types/src/migration_plan.rs:449-458 phase_completion_weight *)
Definition phase_completion_weight (phase : MigrationPhase) : f64 :=
  match phase with
  | PhaseDiscovery => dec 10 100
  | PhaseAnalysis => dec 25 100
  | PhaseImplementation => dec 50 100
  | PhaseTesting => dec 70 100
  | PhaseStaging => dec 90 100
  | PhaseProduction => int 1
  end.
(* eth2077-types/src/migration_plan.rs:461-470 risk_label *)
Definition risk_label (risk : RiskLevel) : Str :=
  match risk with
  | Negligible => str "Negligible"
  | LowRisk => str "Low"
  | MediumRisk => str "Medium"
  | HighRisk => str "High"
  | CriticalRisk => str "Critical"
  | BlockingRisk => str "Blocking"
  end.
(** A step is blocked by a dependency that is no step of the plan, or by its risk. *)
(* eth2077-types/src/migration_plan.rs:352-360 compute_migration_plan_stats *)
Definition is_blocked (ids : gset Str) (step : MigrationStep) : bool :=
  existsb (λ dep, negb (bool_decide (dep ∈ ids))) (ms_dependencies step) || bool_decide (ms_risk step = BlockingRisk).
(* eth2077-types/src/migration_plan.rs:329-383 compute_migration_plan_stats *)
Definition compute_migration_plan_stats (steps : list MigrationStep) : MigrationPlanStats :=
  let total_steps := len steps in
  let ids : gset Str := list_to_set (ms_id <$> steps) in
  let total_risk_score := f64_sum ((λ step, risk_score (ms_risk step)) <$> steps) in
  let completion_total := f64_sum ((λ step, phase_completion_weight (ms_phase step)) <$> steps) in
  {| mps_total_steps := total_steps;
     mps_by_phase := foldl increment ∅ ((λ step, phase_label (ms_phase step)) <$> steps);
     mps_avg_risk_score := if total_steps =? 0 then f64_zero else f64_div total_risk_score (f64_of_u64 total_steps);
     mps_total_estimated_hours := f64_sum ((λ step, f64_maximum (ms_estimated_hours step) f64_zero) <$> steps);
     mps_blocked_count := len (filter (λ step, is_blocked ids step = true) steps);
     mps_completion_pct :=
       if total_steps =? 0 then f64_zero
       else f64_mul (f64_div completion_total (f64_of_u64 total_steps)) (int 100) |}.
Definition bool_text (b : bool) : Str := if b then str "true" else str "false".
(** What the hasher is fed. *)
(* eth2077-types/src/migration_plan.rs:391-411 compute_migration_plan_commitment *)
Definition plan_preimage {HO : HashOrder} (config : MigrationPlanConfig) : list Z :=
  str "max_parallel_migrations=" ++ decimal (mp_max_parallel_migrations config) ++
  str "|risk_tolerance=" ++ risk_label (mp_risk_tolerance config) ++
  str "|require_rollback=" ++ bool_text (mp_require_rollback config) ++
  str "|staging_duration_hours=" ++ f64_fixed 6 (mp_staging_duration_hours config) ++
  str "|test_coverage_min_pct=" ++ f64_fixed 6 (mp_test_coverage_min_pct config) ++
  str "|approval_required=" ++ bool_text (mp_approval_required config) ++ str "|" ++
  concat ((λ p, p.1 ++ str "=" ++ p.2 ++ str ";") <$> sort_by pair_cmp (hash_iter (mp_metadata config))).
(* eth2077-types/src/migration_plan.rs:390-419 compute_migration_plan_commitment *)
Definition compute_migration_plan_commitment `{Sha256} {HO : HashOrder} (config : MigrationPlanConfig) : Str :=
  hex_of_bytes (sha256 (plan_preimage config)).

(** ** Validation *)

Definition severe_risk (risk : RiskLevel) : Prop := risk = CriticalRisk ∨ risk = BlockingRisk.
Record plan_config_ok (c : MigrationPlanConfig) : Prop := {
  ok_parallel : 1 ≤ mp_max_parallel_migrations c ≤ 8;
  ok_staging : f64_lt (mp_staging_duration_hours c) f64_zero = false;
  ok_coverage : f64_lt (mp_test_coverage_min_pct c) f64_zero = false ∧ f64_lt (int 100) (mp_test_coverage_min_pct c) = false;
  ok_severe_staging : severe_risk (mp_risk_tolerance c) → f64_lt (mp_staging_duration_hours c) (int 24) = false;
  ok_rollback : mp_risk_tolerance c = HighRisk ∨ severe_risk (mp_risk_tolerance c) → mp_require_rollback c = true;
  ok_approval : severe_risk (mp_risk_tolerance c) → mp_approval_required c = true;
  ok_plan_metadata : map_Forall (λ key _, trim key ≠ []) (mp_metadata c);
}.
Lemma metadata_keys_ok {HO : HashOrder} (metadata : gmap Str Str) :
  existsb (λ entry, bool_decide (trim entry.1 = [])) (hash_iter metadata) = false ↔
  map_Forall (λ key _, trim key ≠ []) metadata.
Proof.
  rewrite <- not_true_iff_false, existsb_exists, map_Forall_lookup. setoid_rewrite <- list_elem_of_In.
  setoid_rewrite bool_decide_eq_true. split.
  - intros Hno key value Hin Htrim. apply Hno. exists (key, value). by rewrite elem_of_hash_iter.
  - intros Hall ([key value] & Hin%elem_of_hash_iter & Htrim). by apply (Hall key value).
Qed.
Lemma severe_exact risk :
  bool_decide (risk = CriticalRisk) || bool_decide (risk = BlockingRisk) = false ↔ ¬ severe_risk risk.
Proof. unfold severe_risk. rewrite orb_false_iff, !bool_decide_eq_false. tauto. Qed.
(** [validate_migration_plan_config] accepts exactly the policies that satisfy every
    guardrail: those of a risk tolerance only bind where it is that high. *)
Theorem validate_plan_exact {HO : HashOrder} c :
  is_u64 (mp_max_parallel_migrations c) → validate_migration_plan_config c = Ok tt ↔ plan_config_ok c.
Proof.
  intros Hp. unfold validate_migration_plan_config.
  rewrite errors_to_result_ok, !app_nil, !push_if_nil, metadata_keys_ok, Z.eqb_neq, Z.ltb_ge.
  destruct (bool_decide (mp_risk_tolerance c = CriticalRisk) || bool_decide (mp_risk_tolerance c = BlockingRisk)) eqn:Hs.
  - assert (severe_risk (mp_risk_tolerance c)) as Hsev.
    { apply orb_true_iff in Hs as [?%bool_decide_eq_true|?%bool_decide_eq_true]; [by left|by right]. }
    rewrite orb_true_r, !andb_true_r, orb_false_iff, andb_false_iff, !negb_false_iff. split.
    + intros (?&?&[? ?]&[?|?]&?&?&?&?); [congruence|]. split; (done || sat_lia).
    + intros [? ? [? ?] H4 H5 H6 ?]. specialize (H4 Hsev). specialize (H6 Hsev).
      assert (mp_require_rollback c = true) by (apply H5; by right). split_and!; (done || sat_lia || by right).
  - apply severe_exact in Hs. rewrite orb_false_r, !andb_false_r, andb_false_l, orb_false_iff, andb_false_iff, negb_false_iff,
      bool_decide_eq_false. split.
    + intros (?&?&[? ?]&_&Hr&_&?&?). split; try (done || sat_lia). intros [Hh|Hh]; [|done]. by destruct Hr.
    + intros [? ? [? ?] _ H5 _ ?]. split_and!; try (done || sat_lia).
      destruct (decide (mp_risk_tolerance c = HighRisk)); [left; apply H5; by left|by right].
Qed.
Lemma validate_plan_exact_witness :
  @validate_migration_plan_config map_to_list_order default_migration_plan_config = Ok tt ∧
  1 ≤ mp_max_parallel_migrations default_migration_plan_config ≤ 8.
Proof.
  assert (@validate_migration_plan_config map_to_list_order default_migration_plan_config = Ok tt) as Hok
    by (vm_compute; reflexivity).
  split; [exact Hok|]. apply validate_plan_exact in Hok; [|split; vm_compute; discriminate]. apply (ok_parallel _ Hok).
Defined.
(** The percentage is documented to be in [[0, 100]]; one that is not a number passes. *)
Lemma nan_coverage_accepted :
  let c := {| mp_max_parallel_migrations := 2; mp_risk_tolerance := MediumRisk; mp_require_rollback := true;
    mp_staging_duration_hours := S754_nan; mp_test_coverage_min_pct := S754_nan; mp_approval_required := true;
    mp_metadata := ∅ |} in
  @validate_migration_plan_config map_to_list_order c = Ok tt ∧
  f64_le f64_zero (mp_test_coverage_min_pct c) = false.
Proof. vm_compute. split; reflexivity. Qed.

(** ** Statistics *)

(** A step is free to start exactly when all it depends on is in the plan and its risk does
    not block it. *)
Lemma not_blocked_exact steps step :
  is_blocked (list_to_set (ms_id <$> steps)) step = false ↔
  (∀ dep, dep ∈ ms_dependencies step → ∃ other, other ∈ steps ∧ ms_id other = dep) ∧ ms_risk step ≠ BlockingRisk.
Proof.
  unfold is_blocked. rewrite orb_false_iff, bool_decide_eq_false, <- not_true_iff_false, existsb_exists.
  setoid_rewrite <- list_elem_of_In. setoid_rewrite negb_true_iff. setoid_rewrite bool_decide_eq_false.
  setoid_rewrite elem_of_list_to_set. setoid_rewrite list_elem_of_fmap. split.
  - intros [Hno Hr]. split; [|done]. intros dep Hdep.
    destruct (decide (dep ∈ ms_id <$> steps)) as [(o & -> & Ho)%list_elem_of_fmap|Hn]; [by exists o|].
    destruct Hno. exists dep. split; [done|]. intros (o & -> & Ho). apply Hn, list_elem_of_fmap. by exists o.
  - intros [Hall Hr]. split; [|done]. intros (dep & Hdep & Hn). destruct (Hall dep Hdep) as (o & Ho & <-).
    apply Hn. by exists o.
Qed.
Lemma by_phase_counts steps label :
  default 0 (mps_by_phase (compute_migration_plan_stats steps) !! label) =
  len (filter (λ step, phase_label (ms_phase step) = label) steps).
Proof.
  cbn [mps_by_phase compute_migration_plan_stats]. rewrite foldl_increment, lookup_empty. cbn [default].
  rewrite Z.add_0_l. unfold len. f_equal. induction steps as [|step steps IH]; [done|]. csimpl. rewrite !filter_cons.
  destruct (decide (phase_label (ms_phase step) = label)); simpl; by rewrite IH.
Qed.

(** ** The commitment *)

Lemma plan_commitment_order `{Sha256} (HO1 HO2 : HashOrder) c :
  compute_migration_plan_commitment (HO := HO1) c = compute_migration_plan_commitment (HO := HO2) c.
Proof.
  unfold compute_migration_plan_commitment, plan_preimage.
  assert (sort_by pair_cmp (hash_iter (HashOrder := HO1) (mp_metadata c)) =
    sort_by pair_cmp (hash_iter (HashOrder := HO2) (mp_metadata c))) as ->; [|done].
  apply (sort_by_order pair_cmp). by rewrite !hash_iter_perm.
Qed.
