(* ===== verification/Operations.v ===== *)
(** * The formal gate and the runbooks of operations ([eth2077-types/src/ci_formal_gate.rs], [sre_runbooks.rs])

    Part 1. The formal gate of continuous integration ([eth2077-types/src/ci_formal_gate.rs])

    A policy for placeholder proofs in critical modules: its validation, the verdict on a
    list of debts with the modules that explain it, and the commitment to the policy.

    Part 2. Runbooks and game days ([eth2077-types/src/sre_runbooks.rs])

    Runbooks with their freshness, game-day exercises, the policy and its validation, the
    statistics of a fleet; the derived JSON that is hashed is the class [RunbooksJson]. *)
From S2P Require Import Prelude Validation AccessList Strings Floats FloatFacts Metadata.
Local Open Scope Z_scope.

(* eth2077-types/src/ci_formal_gate.rs:25-38 GateMode *)
Inductive GateMode := AdvisoryMode | WarningMode | BlockingMode | StrictMode | ReleaseCandidate | EmergencyMode.
#[export] Instance GateMode_eq_dec : EqDecision GateMode.
Proof. solve_decision. Defined.
(* eth2077-types/src/ci_formal_gate.rs:42-55 PlaceholderDebtKind *)
Inductive PlaceholderDebtKind := AxiomDebt | SorryDebt | AdmitDebt | StubDebt | TodoProof | DeferredLemma.
(* eth2077-types/src/ci_formal_gate.rs:59-72 CriticalPathTier *)
Inductive CriticalPathTier :=
| Tier1Safety | Tier2Liveness | Tier3Performance | Tier4Convenience | Tier5Optional | Tier6Deprecated.
#[export] Instance CriticalPathTier_eq_dec : EqDecision CriticalPathTier.
Proof. solve_decision. Defined.
(* eth2077-types/src/ci_formal_gate.rs:76-89 GateVerdict *)
Inductive GateVerdict := Pass | ConditionalPass | SoftFail | HardFail | ErrorVerdict | Exempted.
#[export] Instance GateVerdict_eq_dec : EqDecision GateVerdict.
Proof. solve_decision. Defined.
(* eth2077-types/src/ci_formal_gate.rs:93-108 PlaceholderDebt *)
Record PlaceholderDebt := {
  pd_id : Str;
  pd_kind : PlaceholderDebtKind;
  pd_module_path : Str;
  pd_tier : CriticalPathTier;
  pd_introduced_commit : Str;
  pd_age_days : Z;
  pd_metadata : gmap Str Str;
}.
(* eth2077-types/src/ci_formal_gate.rs:121-129 CiFormalGateConfig *)
Record CiFormalGateConfig := {
  cg_mode : GateMode;
  cg_max_tier1_debt : Z;
  cg_max_tier2_debt : Z;
  cg_max_total_debt : Z;
  cg_strict_on_release_branch : bool;
  cg_exemption_list : list Str;
  cg_metadata : gmap Str Str;
}.
(* eth2077-types/src/ci_formal_gate.rs:133-136 CiFormalGateValidationError *)
Definition CiFormalGateValidationError : Type := FieldError.
(* eth2077-types/src/ci_formal_gate.rs:140-155 CiFormalGateStats *)
Record CiFormalGateStats := {
  cgs_total_debt : Z;
  cgs_tier1_count : Z;
  cgs_tier2_count : Z;
  cgs_tier3_count : Z;
  cgs_verdict : GateVerdict;
  cgs_oldest_debt_days : Z;
  cgs_blocked_modules : list Str;
}.

(* eth2077-types/src/ci_formal_gate.rs:172-189 default_ci_formal_gate_config *)
Definition default_ci_formal_gate_config : CiFormalGateConfig :=
  {| cg_mode := BlockingMode; cg_max_tier1_debt := 0; cg_max_tier2_debt := 2; cg_max_total_debt := 6;
     cg_strict_on_release_branch := true; cg_exemption_list := [];
     cg_metadata := <[str "policy_profile" := str "eth2077-formal-gate-v1"]> (<[str "owner" := str "eth2077-core"]> ∅) |}.

(** ** Validation *)

(** The loop over the exemptions, with the number of times each was seen. *)
(* eth2077-types/src/ci_formal_gate.rs:268-288 validate_ci_formal_gate_config *)
Fixpoint exemption_errors (seen : gmap Str Z) (exemptions : list Str) : list CiFormalGateValidationError :=
  match exemptions with
  | [] => []
  | exemption :: exemptions =>
      let normalized := trim exemption in
      if bool_decide (normalized = []) then
        field_error "exemption_list" "entries must not be empty or whitespace" :: exemption_errors seen exemptions
      else
        let count := default 0 (seen !! normalized) + 1 in
        push_if (1 <? count) {| fe_field := str "exemption_list";
          fe_message := str "duplicate exemption id `" ++ normalized ++ str "`" |} ++
        exemption_errors (<[normalized := count]> seen) exemptions
  end.
(* eth2077-types/src/ci_formal_gate.rs:290-305 validate_ci_formal_gate_config *)
Definition metadata_entry_errors (entry : Str * Str) : list CiFormalGateValidationError :=
  push_if (bool_decide (trim entry.1 = [])) (field_error "metadata" "metadata keys must not be empty or whitespace") ++
  push_if (bool_decide (trim entry.2 = [])) {| fe_field := str "metadata";
    fe_message := str "metadata value for key `" ++ entry.1 ++ str "` must not be empty" |}.
(* eth2077-types/src/ci_formal_gate.rs:202-312 validate_ci_formal_gate_config *)
Definition validate_ci_formal_gate_config {HO : HashOrder} (config : CiFormalGateConfig)
  : result unit (list CiFormalGateValidationError) :=
  let mode := cg_mode config in
  let zero_budgets := bool_decide (mode = StrictMode) || bool_decide (mode = ReleaseCandidate) in
  let must_be_zero field := field_error field "must be zero in strict or release-candidate mode" in
  errors_to_result (
    push_if (cg_max_total_debt config <? cg_max_tier1_debt config)
      (field_error "max_total_debt" "must be greater than or equal to max_tier1_debt") ++
    push_if (cg_max_total_debt config <? cg_max_tier2_debt config)
      (field_error "max_total_debt" "must be greater than or equal to max_tier2_debt") ++
    (if zero_budgets then
       push_if (negb (cg_max_tier1_debt config =? 0)) (must_be_zero "max_tier1_debt") ++
       push_if (negb (cg_max_tier2_debt config =? 0)) (must_be_zero "max_tier2_debt") ++
       push_if (negb (cg_max_total_debt config =? 0)) (must_be_zero "max_total_debt") ++
       push_if (negb (bool_decide (cg_exemption_list config = [])))
         (field_error "exemption_list" "must be empty in strict or release-candidate mode")
     else []) ++
    push_if (bool_decide (mode = ReleaseCandidate) && negb (cg_strict_on_release_branch config))
      (field_error "strict_on_release_branch" "must be true when mode is ReleaseCandidate") ++
    push_if (bool_decide (mode = EmergencyMode) && cg_strict_on_release_branch config)
      (field_error "strict_on_release_branch" "must be false in Emergency mode") ++
    exemption_errors ∅ (cg_exemption_list config) ++
    (entry ← hash_iter (cg_metadata config); metadata_entry_errors entry)).

(** ** The verdict *)

(* eth2077-types/src/ci_formal_gate.rs:445-454 build_exemption_lookup *)
Definition build_exemption_lookup (exemptions : list Str) : gmap Str bool :=
  foldl (λ lookup id,
    let normalized := trim id in
    if bool_decide (normalized = []) then lookup else <[normalized := true]> lookup) ∅ exemptions.
(* eth2077-types/src/ci_formal_gate.rs:456-465 normalized_exemptions *)
Definition normalized_exemptions (exemptions : list Str) : list Str :=
  filter (λ id, id ≠ []) (trim <$> exemptions).
(* eth2077-types/src/ci_formal_gate.rs:467-469 is_exempt *)
Definition is_exempt (id : Str) (exemptions : gmap Str bool) : bool := bool_decide (is_Some (exemptions !! trim id)).
(* eth2077-types/src/ci_formal_gate.rs:471-475 push_unique *)
Definition push_unique (values : list Str) (value : Str) : list Str :=
  if existsb (λ v, bool_decide (v = value)) values then values else values ++ [value].
(* eth2077-types/src/ci_formal_gate.rs:494-495 compute_verdict *)
Definition strict_enforced (config : CiFormalGateConfig) : bool :=
  bool_decide (cg_mode config = StrictMode)
  || (bool_decide (cg_mode config = ReleaseCandidate) && cg_strict_on_release_branch config).
(* eth2077-types/src/ci_formal_gate.rs:477-523 compute_verdict *)
Definition compute_verdict (config : CiFormalGateConfig) (total_debt tier1_count tier2_count : Z) (config_invalid : bool)
  : GateVerdict :=
  if config_invalid then ErrorVerdict else
  if bool_decide (cg_mode config = EmergencyMode) then Exempted else
  if total_debt =? 0 then Pass else
  if strict_enforced config then HardFail else
  let exceeds := (cg_max_tier1_debt config <? tier1_count) || (cg_max_tier2_debt config <? tier2_count)
    || (cg_max_total_debt config <? total_debt) in
  match cg_mode config with
  | AdvisoryMode => ConditionalPass
  | WarningMode => if exceeds then SoftFail else ConditionalPass
  | BlockingMode | ReleaseCandidate => if exceeds then HardFail else ConditionalPass
  | StrictMode => HardFail
  | EmergencyMode => Exempted
  end.
(** What the loop over the debts carries. *)
(* eth2077-types/src/ci_formal_gate.rs:327-335 compute_ci_formal_gate_stats *)
Record DebtTally := {
  dt_total_debt : Z;
  dt_tier1_count : Z;
  dt_tier2_count : Z;
  dt_tier3_count : Z;
  dt_oldest_debt_days : Z;
  dt_all_modules : list Str;
  dt_tier1_modules : list Str;
  dt_tier2_modules : list Str;
}.
Definition no_debts : DebtTally :=
  {| dt_total_debt := 0; dt_tier1_count := 0; dt_tier2_count := 0; dt_tier3_count := 0; dt_oldest_debt_days := 0;
     dt_all_modules := []; dt_tier1_modules := []; dt_tier2_modules := [] |}.
(* eth2077-types/src/ci_formal_gate.rs:337-362 compute_ci_formal_gate_stats *)
Definition tally_debt (exemptions : gmap Str bool) (t : DebtTally) (debt : PlaceholderDebt) : DebtTally :=
  if is_exempt (pd_id debt) exemptions then t else
  let path := pd_module_path debt in
  let at_tier tier := bool_decide (pd_tier debt = tier) in
  {| dt_total_debt := u64_wrapping_add (dt_total_debt t) 1;
     dt_tier1_count := if at_tier Tier1Safety then u64_wrapping_add (dt_tier1_count t) 1 else dt_tier1_count t;
     dt_tier2_count := if at_tier Tier2Liveness then u64_wrapping_add (dt_tier2_count t) 1 else dt_tier2_count t;
     dt_tier3_count := if at_tier Tier3Performance then u64_wrapping_add (dt_tier3_count t) 1 else dt_tier3_count t;
     dt_oldest_debt_days := Z.max (dt_oldest_debt_days t) (pd_age_days debt);
     dt_all_modules := push_unique (dt_all_modules t) path;
     dt_tier1_modules := if at_tier Tier1Safety then push_unique (dt_tier1_modules t) path else dt_tier1_modules t;
     dt_tier2_modules := if at_tier Tier2Liveness then push_unique (dt_tier2_modules t) path else dt_tier2_modules t |}.
(* eth2077-types/src/ci_formal_gate.rs:525-565 compute_blocked_modules *)
Definition compute_blocked_modules (config : CiFormalGateConfig) (verdict : GateVerdict) (t : DebtTally) : list Str :=
  if negb (bool_decide (verdict = SoftFail) || bool_decide (verdict = HardFail)) then [] else
  if strict_enforced config then AccessList.dedup (sort_by bytes_cmp (dt_all_modules t)) else
  let blocked := if cg_max_tier1_debt config <? dt_tier1_count t then foldl push_unique [] (dt_tier1_modules t) else [] in
  let blocked := if cg_max_tier2_debt config <? dt_tier2_count t then foldl push_unique blocked (dt_tier2_modules t) else blocked in
  let blocked := if cg_max_total_debt config <? dt_total_debt t then foldl push_unique blocked (dt_all_modules t) else blocked in
  sort_by bytes_cmp blocked.
(* eth2077-types/src/ci_formal_gate.rs:321-390 compute_ci_formal_gate_stats *)
Definition compute_ci_formal_gate_stats {HO : HashOrder} (debts : list PlaceholderDebt) (config : CiFormalGateConfig)
  : CiFormalGateStats :=
  let t := foldl (tally_debt (build_exemption_lookup (cg_exemption_list config))) no_debts debts in
  let config_invalid := negb (is_ok (validate_ci_formal_gate_config config)) in
  let verdict := compute_verdict config (dt_total_debt t) (dt_tier1_count t) (dt_tier2_count t) config_invalid in
  {| cgs_total_debt := dt_total_debt t; cgs_tier1_count := dt_tier1_count t; cgs_tier2_count := dt_tier2_count t;
     cgs_tier3_count := dt_tier3_count t; cgs_verdict := verdict; cgs_oldest_debt_days := dt_oldest_debt_days t;
     cgs_blocked_modules := compute_blocked_modules config verdict t |}.

(** ** The commitment *)

(* eth2077-types/src/ci_formal_gate.rs:567-576 gate_mode_label *)
Definition gate_mode_label (mode : GateMode) : Str :=
  match mode with
  | AdvisoryMode => str "advisory"
  | WarningMode => str "warning"
  | BlockingMode => str "blocking"
  | StrictMode => str "strict"
  | ReleaseCandidate => str "release_candidate"
  | EmergencyMode => str "emergency"
  end.
(** What the hasher is fed. *)
(* eth2077-types/src/ci_formal_gate.rs:403-433 compute_ci_formal_gate_commitment *)
Definition gate_preimage {HO : HashOrder} (config : CiFormalGateConfig) : list Z :=
  str "ci_formal_gate_config:v1" ++ [10] ++
  str "mode=" ++ gate_mode_label (cg_mode config) ++ [10] ++
  str "max_tier1_debt=" ++ decimal (cg_max_tier1_debt config) ++ [10] ++
  str "max_tier2_debt=" ++ decimal (cg_max_tier2_debt config) ++ [10] ++
  str "max_total_debt=" ++ decimal (cg_max_total_debt config) ++ [10] ++
  str "strict_on_release_branch=" ++ (if cg_strict_on_release_branch config then str "true" else str "false") ++ [10] ++
  (exemption ← AccessList.dedup (sort_by bytes_cmp (normalized_exemptions (cg_exemption_list config)));
   str "exemption=" ++ exemption ++ [10]) ++
  (key ← sort_by bytes_cmp (hash_iter (cg_metadata config)).*1;
   match cg_metadata config !! key with
   | Some value => str "metadata:" ++ key ++ str "=" ++ value ++ [10]
   | None => []
   end).
(* eth2077-types/src/ci_formal_gate.rs:400-436 compute_ci_formal_gate_commitment *)
Definition compute_ci_formal_gate_commitment `{Sha256} {HO : HashOrder} (config : CiFormalGateConfig) : Str :=
  hex_of_bytes (sha256 (gate_preimage config)).

(** ** Which policies are valid *)

Record gate_config_ok (c : CiFormalGateConfig) : Prop := {
  go_tier1 : cg_max_tier1_debt c <= cg_max_total_debt c;
  go_tier2 : cg_max_tier2_debt c <= cg_max_total_debt c;
  go_zero : cg_mode c = StrictMode ∨ cg_mode c = ReleaseCandidate →
    cg_max_tier1_debt c = 0 ∧ cg_max_tier2_debt c = 0 ∧ cg_max_total_debt c = 0 ∧ cg_exemption_list c = [];
  go_release : cg_mode c = ReleaseCandidate → cg_strict_on_release_branch c = true;
  go_emergency : cg_mode c = EmergencyMode → cg_strict_on_release_branch c = false;
  go_exemptions : Forall (λ id, trim id ≠ []) (cg_exemption_list c);
  go_unique : NoDup (trim <$> cg_exemption_list c);
  go_metadata : map_Forall (λ key value, trim key ≠ [] ∧ trim value ≠ []) (cg_metadata c);
}.
Lemma exemption_errors_nil seen l :
  map_Forall (λ _ n, 1 <= n) seen →
  exemption_errors seen l = [] ↔
  Forall (λ id, trim id ≠ []) l ∧ NoDup (trim <$> l) ∧ Forall (λ id, seen !! trim id = None) l.
Proof.
  revert seen. induction l as [|id l IH]; intros seen Hseen; cbn [exemption_errors]; [repeat constructor|].
  csimpl. case_bool_decide as Hid; [rewrite Forall_cons; naive_solver|]. rewrite app_nil, push_if_nil, Z.ltb_ge.
  assert (Hc : 0 <= default 0 (seen !! trim id)).
  { destruct (seen !! trim id) as [n|] eqn:Hn; [|done]. specialize (Hseen _ _ Hn). cbn in *. lia. }
  rewrite IH by (apply map_Forall_insert_2; [lia|done]). rewrite NoDup_cons, !Forall_cons, !Forall_forall.
  split.
  - intros (Hone & Hne & Hnd & Hnew).
    assert (Hnone : seen !! trim id = None).
    { destruct (seen !! trim id) as [n|] eqn:Hn; [|done]. specialize (Hseen _ _ Hn). cbn in *. lia. }
    assert (Hin : trim id ∉ trim <$> l).
    { rewrite list_elem_of_fmap. intros (x & Hx & Hxl). specialize (Hnew _ Hxl). rewrite Hx in Hnew.
      by rewrite lookup_insert_eq in Hnew. }
    split_and!; try done. intros x Hx. specialize (Hnew _ Hx). by apply lookup_insert_None in Hnew as [? _].
  - intros ([Hid' Hne] & [Hin Hnd] & [Hnone Hnew]). rewrite Hnone. split_and!; try done.
    intros x Hx. apply lookup_insert_None. split; [by apply Hnew|]. intros Heq. apply Hin, list_elem_of_fmap. by exists x.
Qed.
Lemma gate_metadata_ok {HO : HashOrder} (metadata : gmap Str Str) :
  (entry ← hash_iter metadata; metadata_entry_errors entry) = [] ↔
  map_Forall (λ key value, trim key ≠ [] ∧ trim value ≠ []) metadata.
Proof.
  rewrite list_bind_nil, Forall_forall, map_Forall_lookup. unfold metadata_entry_errors. split.
  - intros Hall key value Hin%elem_of_hash_iter. specialize (Hall _ Hin). cbn [fst snd] in Hall.
    by rewrite app_nil, !push_if_nil, !bool_decide_eq_false in Hall.
  - intros Hall [key value] Hin%elem_of_hash_iter. rewrite app_nil, !push_if_nil, !bool_decide_eq_false. by apply Hall.
Qed.
(** a policy is accepted exactly when its budgets are consistent, the modes that demand
    it have zero budgets and no exemptions, and exemptions and metadata are proper. *)
Theorem validate_gate_exact {HO : HashOrder} c :
  validate_ci_formal_gate_config c = Ok tt ↔ gate_config_ok c.
Proof.
  unfold validate_ci_formal_gate_config. rewrite errors_to_result_ok, !app_nil, gate_metadata_ok.
  rewrite exemption_errors_nil by apply map_Forall_empty.
  rewrite !push_if_nil, !Z.ltb_ge, !andb_false_iff, negb_false_iff, !bool_decide_eq_false.
  assert (Hz : ∀ A B : Prop, (if bool_decide (cg_mode c = StrictMode) || bool_decide (cg_mode c = ReleaseCandidate)
    then A else B) = (if decide (cg_mode c = StrictMode ∨ cg_mode c = ReleaseCandidate) then A else B)).
  { intros A B. destruct (cg_mode c); reflexivity. }
  destruct (bool_decide (cg_mode c = StrictMode) || bool_decide (cg_mode c = ReleaseCandidate)) eqn:Hmode.
  - assert (Hm : cg_mode c = StrictMode ∨ cg_mode c = ReleaseCandidate) by (by destruct (cg_mode c); auto).
    rewrite !app_nil, !push_if_nil, !negb_false_iff, !Z.eqb_eq, bool_decide_eq_true. split.
    + intros (?&?&(?&?&?&?)&?&?&(?&?&_)&?). split; try done; naive_solver.
    + intros [? ? Hzero Hrel ? ? ? ?]. destruct (Hzero Hm) as (?&?&?&?). split_and!; try done.
      * destruct (cg_mode c); auto.
      * destruct (cg_mode c); auto.
      * apply Forall_forall. intros. apply lookup_empty.
  - assert (Hm : cg_mode c ≠ StrictMode ∧ cg_mode c ≠ ReleaseCandidate) by (by destruct (cg_mode c)). split.
    + intros (?&?&_&?&?&(?&?&_)&?). split; try done; naive_solver.
    + intros [? ? _ Hrel Hem ? ? ?]. split_and!; try done.
      * destruct (cg_mode c); auto.
      * destruct (cg_mode c); auto.
      * apply Forall_forall. intros. apply lookup_empty.
Qed.

(** ** The verdict and what explains it *)

Lemma elem_of_push_unique values value x : x ∈ push_unique values value ↔ x ∈ values ∨ x = value.
Proof.
  unfold push_unique. destruct (existsb _ _) eqn:Hex; [|set_solver].
  apply existsb_exists in Hex as (v & Hv%list_elem_of_In & ->%bool_decide_eq_true). naive_solver.
Qed.
Lemma NoDup_push_unique values value : NoDup values → NoDup (push_unique values value).
Proof.
  intros Hnd. unfold push_unique. destruct (existsb _ _) eqn:Hex; [done|].
  apply NoDup_app. split_and!; [done| |apply NoDup_singleton]. intros x Hx ->%list_elem_of_singleton.
  assert (existsb (λ v, bool_decide (v = value)) values = true); [|congruence].
  apply existsb_exists. exists value. by rewrite <- list_elem_of_In, bool_decide_eq_true.
Qed.
Lemma elem_of_unique_fold values l x : x ∈ foldl push_unique values l ↔ x ∈ values ∨ x ∈ l.
Proof.
  revert values. induction l as [|y l IH]; intros values; cbn [foldl]; [set_solver|].
  rewrite IH, elem_of_push_unique. set_solver.
Qed.
Lemma NoDup_unique_fold values l : NoDup values → NoDup (foldl push_unique values l).
Proof. revert values. induction l as [|y l IH]; intros values Hnd; cbn [foldl]; auto using NoDup_push_unique. Qed.

Lemma exempt_exact id l : is_exempt id (build_exemption_lookup l) = true ↔ trim id ∈ normalized_exemptions l.
Proof.
  unfold is_exempt, build_exemption_lookup, normalized_exemptions. rewrite bool_decide_eq_true.
  set (step := λ (lookup : gmap Str bool) (id : Str), _).
  assert (H : ∀ m, is_Some (foldl step m l !! trim id) ↔ is_Some (m !! trim id) ∨ trim id ∈ filter (λ id, id ≠ []) (trim <$> l)).
  { induction l as [|x l IH]; intros m; cbn [foldl]; [set_solver|]. rewrite IH. unfold step. csimpl. rewrite filter_cons.
    case_bool_decide as Hx; [rewrite decide_False by tauto; done|]. rewrite decide_True, elem_of_cons by done.
    destruct (decide (trim id = trim x)) as [->|Hne]; [rewrite lookup_insert_eq; naive_solver|].
    rewrite lookup_insert_ne by done. naive_solver. }
  rewrite H, lookup_empty. rewrite is_Some_alt. tauto.
Qed.

Section evaluation.
Variable config : CiFormalGateConfig.
(** The debts that count. *)
Definition is_live (d : PlaceholderDebt) : Prop := trim (pd_id d) ∉ normalized_exemptions (cg_exemption_list config).
#[local] Instance is_live_dec d : Decision (is_live d).
Proof. unfold is_live. apply _. Defined.
Definition live (debts : list PlaceholderDebt) : list PlaceholderDebt := filter is_live debts.
Definition of_tier (tier : CriticalPathTier) (debts : list PlaceholderDebt) : list PlaceholderDebt :=
  filter (λ d, pd_tier d = tier) (live debts).

(** The tally of the live debts, read off the list. *)
Definition tally_of (debts : list PlaceholderDebt) (t : DebtTally) : DebtTally :=
  let count tier := len (of_tier tier debts) in
  let paths tier := pd_module_path <$> of_tier tier debts in
  {| dt_total_debt := dt_total_debt t + len (live debts);
     dt_tier1_count := dt_tier1_count t + count Tier1Safety;
     dt_tier2_count := dt_tier2_count t + count Tier2Liveness;
     dt_tier3_count := dt_tier3_count t + count Tier3Performance;
     dt_oldest_debt_days := foldl Z.max (dt_oldest_debt_days t) (pd_age_days <$> live debts);
     dt_all_modules := foldl push_unique (dt_all_modules t) (pd_module_path <$> live debts);
     dt_tier1_modules := foldl push_unique (dt_tier1_modules t) (paths Tier1Safety);
     dt_tier2_modules := foldl push_unique (dt_tier2_modules t) (paths Tier2Liveness) |}.
Lemma tally_exact debts t :
  0 <= dt_tier1_count t <= dt_total_debt t → 0 <= dt_tier2_count t <= dt_total_debt t →
  0 <= dt_tier3_count t <= dt_total_debt t → dt_total_debt t + len debts <= u64_max →
  foldl (tally_debt (build_exemption_lookup (cg_exemption_list config))) t debts = tally_of debts t.
Proof.
  revert t. induction debts as [|d debts IH]; intros t H1 H2 H3 Hmax.
  { destruct t. unfold tally_of, of_tier, live, len. cbn. by rewrite !Z.add_0_r. }
  assert (Hlen : len (d :: debts) = len debts + 1) by (unfold len; cbn [length]; lia).
  pose proof (Nat2Z.is_nonneg (length debts)) as Hpos. rewrite Hlen in Hmax. unfold len in Hmax. cbn [foldl].
  unfold tally_debt at 2. destruct (is_exempt _ _) eqn:Hex.
  - apply exempt_exact in Hex. rewrite IH by (unfold len; lia). unfold tally_of, of_tier, live. rewrite filter_cons_False by (unfold is_live; tauto). done.
  - assert (Hlive : is_live d) by (intros Hin; apply exempt_exact in Hin; congruence).
    unfold u64_wrapping_add. rewrite IH; cbn [dt_total_debt dt_tier1_count dt_tier2_count dt_tier3_count];
      rewrite ?(Z.mod_small (dt_total_debt t + 1)) by lia; [| | | |unfold len; lia].
    2-4: (destruct (bool_decide _); rewrite ?Z.mod_small by lia; lia).
    unfold tally_of, of_tier, live. rewrite filter_cons_True by done. cbn [dt_total_debt dt_tier1_count dt_tier2_count
      dt_tier3_count dt_oldest_debt_days dt_all_modules dt_tier1_modules dt_tier2_modules].
    csimpl. rewrite !filter_cons. unfold len.
    destruct (pd_tier d); cbn [bool_decide decide_rel CriticalPathTier_eq_dec decide length]; csimpl;
      rewrite ?Z.mod_small by lia; f_equal; cbn [length]; lia.
Qed.
End evaluation.

(** One more budget that may be exceeded. *)
Lemma elem_of_over_budget (over : bool) (blocked l : list Str) m :
  m ∈ (if over then foldl push_unique blocked l else blocked) ↔ m ∈ blocked ∨ (over = true ∧ m ∈ l).
Proof. destruct over; [rewrite elem_of_unique_fold|]; naive_solver. Qed.

Section verdict.
Context {HO : HashOrder}.
Variables (config : CiFormalGateConfig) (debts : list PlaceholderDebt).
Hypothesis few_debts : len debts <= u64_max.
Notation live_debts := (live config debts).
Notation tier1 := (of_tier config Tier1Safety debts).
Notation tier2 := (of_tier config Tier2Liveness debts).

(** A debt explains a failure: under zero tolerance, or its budget is exceeded. *)
Definition explains (d : PlaceholderDebt) : Prop :=
  strict_enforced config = true ∨
  (cg_max_tier1_debt config < len tier1 ∧ pd_tier d = Tier1Safety) ∨
  (cg_max_tier2_debt config < len tier2 ∧ pd_tier d = Tier2Liveness) ∨
  cg_max_total_debt config < len live_debts.
Definition fails (v : GateVerdict) : Prop := v = SoftFail ∨ v = HardFail.
Notation stats := (compute_ci_formal_gate_stats debts config).

Lemma gate_tally : foldl (tally_debt (build_exemption_lookup (cg_exemption_list config))) no_debts debts =
  tally_of config debts no_debts.
Proof. by apply tally_exact. Qed.
Lemma gate_blocked : cgs_blocked_modules stats =
  compute_blocked_modules config (cgs_verdict stats) (tally_of config debts no_debts).
Proof. unfold compute_ci_formal_gate_stats. by rewrite gate_tally. Qed.
Lemma blocked_sorted : StronglySorted (cmp_le bytes_cmp) (cgs_blocked_modules stats) ∧ NoDup (cgs_blocked_modules stats).
Proof.
  rewrite gate_blocked. unfold compute_blocked_modules. case_if_goal; [repeat constructor|]. case_if_goal.
  - split; [apply AccessList.dedup_sorted|apply AccessList.NoDup_dedup_sorted]; apply sort_by_sorted, _.
  - split; [apply sort_by_sorted, _|]. rewrite sort_by_perm.
    repeat case_if_goal; repeat apply NoDup_unique_fold; apply NoDup_nil_2.
Qed.
Lemma elem_of_blocked m : m ∈ cgs_blocked_modules stats ↔
  fails (cgs_verdict stats) ∧ ∃ d, d ∈ live_debts ∧ pd_module_path d = m ∧ explains d.
Proof.
  rewrite gate_blocked. set (v := cgs_verdict stats). unfold compute_blocked_modules.
  destruct (bool_decide (v = SoftFail) || bool_decide (v = HardFail)) eqn:Hv; cbn [negb].
  2: { unfold fails. apply orb_false_iff in Hv as [?%bool_decide_eq_false ?%bool_decide_eq_false]. set_solver. }
  assert (Hf : fails v) by (unfold fails; apply orb_true_iff in Hv as [?%bool_decide_eq_true|?%bool_decide_eq_true]; auto).
  cbn [tally_of no_debts dt_all_modules dt_tier1_modules dt_tier2_modules dt_total_debt dt_tier1_count dt_tier2_count].
  rewrite !Z.add_0_l. unfold explains. destruct (strict_enforced config).
  { rewrite AccessList.elem_of_dedup_list, sort_by_perm, elem_of_unique_fold, list_elem_of_fmap. set_solver. }
  rewrite sort_by_perm, !elem_of_over_budget, !elem_of_unique_fold, !list_elem_of_fmap, !Z.ltb_lt.
  assert (Htier : ∀ tier d, d ∈ of_tier config tier debts ↔ pd_tier d = tier ∧ d ∈ live_debts)
    by (intros; unfold of_tier; by rewrite list_elem_of_filter).
  repeat setoid_rewrite Htier. split.
  - intros [[[Hm|(Ho & [?|(d & -> & Ht & Hd)])]|(Ho & [?|(d & -> & Ht & Hd)])]|(Ho & [?|(d & -> & Hd)])]; try set_solver;
      (split; [done|]); exists d; tauto.
  - intros (_ & d & Hd & <- & [?|[[? ?]|[[? ?]|?]]]); [done|left; left; right|left; right|right]; (split; [done|]);
      right; by exists d.
Qed.

Lemma count_nonempty (l : list PlaceholderDebt) (n : Z) : n < len l → 0 <= n → ∃ d, d ∈ l.
Proof. intros Hlen Hn. destruct l as [|d l]; [unfold len in Hlen; simpl in Hlen; lia|]. exists d. left. Qed.
(** When the gate fails. *)
Lemma gate_fails :
  0 <= cg_max_tier1_debt config → 0 <= cg_max_tier2_debt config → 0 <= cg_max_total_debt config →
  fails (cgs_verdict stats) ↔ gate_config_ok config ∧ cg_mode config ≠ EmergencyMode ∧ cg_mode config ≠ AdvisoryMode ∧
    ∃ d, d ∈ live_debts ∧ explains d.
Proof.
  intros Hb1 Hb2 Hb. unfold compute_ci_formal_gate_stats. rewrite gate_tally. cbn [cgs_verdict].
  cbn [tally_of no_debts dt_total_debt dt_tier1_count dt_tier2_count]. rewrite !Z.add_0_l.
  rewrite <- validate_gate_exact. destruct (validate_ci_formal_gate_config config) as [[]|errors] eqn:Hval.
  2: { cbn. split; [by intros []|by intros [? _]]. }
  apply validate_gate_exact in Hval. pose proof (go_release _ Hval) as Hrel. unfold compute_verdict. cbn [is_ok negb].
  assert (Hex : ((cg_max_tier1_debt config <? len tier1) || (cg_max_tier2_debt config <? len tier2)
    || (cg_max_total_debt config <? len live_debts)) = true → ∃ d, d ∈ live_debts ∧ explains d).
  { intros [[H%Z.ltb_lt|H%Z.ltb_lt]%orb_true_iff|H%Z.ltb_lt]%orb_true_iff;
      (destruct (count_nonempty _ _ H ltac:(assumption)) as [d Hd]); exists d; unfold explains;
      [apply list_elem_of_filter in Hd as [? ?]..|]; tauto. }
  assert (Hno : ∀ d, strict_enforced config = false → explains d →
    ((cg_max_tier1_debt config <? len tier1) || (cg_max_tier2_debt config <? len tier2)
      || (cg_max_total_debt config <? len live_debts)) = true).
  { intros d Hs [?|[[? _]|[[? _]|?]]]; [congruence|..]; rewrite !orb_true_iff, !Z.ltb_lt; tauto. }
  destruct (Z.eqb_spec (len live_debts) 0) as [Hnil|Hne].
  { assert (Hl : live_debts = []) by (destruct live_debts; [done|unfold len in Hnil; simpl in Hnil; lia]).
    split; [case_bool_decide; by intros []|]. intros (_ & _ & _ & d & Hd & _). rewrite Hl in Hd. set_solver. }
  destruct (count_nonempty live_debts 0) as [d0 Hd0]; [unfold len in *; lia|lia|].
  set (over := _ || _ || _) in *. destruct (strict_enforced config) eqn:Hs.
  { assert (Hm : cg_mode config = StrictMode ∨ cg_mode config = ReleaseCandidate)
      by (revert Hs; unfold strict_enforced; destruct (cg_mode config); auto; discriminate).
    rewrite bool_decide_false by (destruct Hm; congruence). split; [intros _|by right].
    split; [done|]. split; [destruct Hm; congruence|]. split; [destruct Hm; congruence|]. exists d0. by split; [|left]. }
  destruct (cg_mode config) eqn:Hm.
  - split; [by intros []|]. by intros (_ & _ & ? & _).
  - rewrite bool_decide_false by done. destruct over; (split; [intros Hf|intros (_ & _ & _ & d & _ & Hd)]).
    + split_and!; auto.
    + by left.
    + by destruct Hf.
    + by apply Hno in Hd.
  - rewrite bool_decide_false by done. destruct over; (split; [intros Hf|intros (_ & _ & _ & d & _ & Hd)]).
    + split_and!; auto.
    + by right.
    + by destruct Hf.
    + by apply Hno in Hd.
  - unfold strict_enforced in Hs. by rewrite Hm in Hs.
  - unfold strict_enforced in Hs. by rewrite Hm, Hrel in Hs.
  - split; [by intros []|]. by intros (_ & ? & _).
Qed.
End verdict.

(** the gate fails exactly when the policy is valid, not advisory or suspended, and some
    live debt explains it: one of a zero-tolerance policy or one over a budget.  It then
    names, sorted and once each, exactly the modules of those debts; otherwise it names
    none.  It fails softly only in warning mode. *)
Theorem formal_gate_exact {HO : HashOrder} (config : CiFormalGateConfig) (debts : list PlaceholderDebt) :
  len debts <= u64_max → 0 <= cg_max_tier1_debt config → 0 <= cg_max_tier2_debt config → 0 <= cg_max_total_debt config →
  let stats := compute_ci_formal_gate_stats debts config in
  let blames d := d ∈ live config debts ∧ explains config debts d in
  cgs_total_debt stats = len (live config debts) ∧
  (fails (cgs_verdict stats) ↔ gate_config_ok config ∧ cg_mode config ≠ EmergencyMode ∧ cg_mode config ≠ AdvisoryMode ∧
     ∃ d, blames d) ∧
  (cgs_verdict stats = SoftFail → cg_mode config = WarningMode) ∧
  (∀ m, m ∈ cgs_blocked_modules stats ↔ fails (cgs_verdict stats) ∧ ∃ d, blames d ∧ pd_module_path d = m) ∧
  StronglySorted (cmp_le bytes_cmp) (cgs_blocked_modules stats) ∧ NoDup (cgs_blocked_modules stats).
Proof.
  intros Hlen H1 H2 H3. cbv zeta. split; [|split; [|split; [|split]]].
  - unfold compute_ci_formal_gate_stats. rewrite gate_tally by done. cbn [cgs_total_debt tally_of no_debts dt_total_debt]. lia.
  - by apply gate_fails.
  - unfold compute_ci_formal_gate_stats, compute_verdict. cbn [cgs_verdict].
    destruct (cg_mode config); repeat case_if_goal; done.
  - intros m. rewrite elem_of_blocked by done. split; intros [Hf (d & Hd)]; (split; [done|]); exists d; tauto.
  - by apply blocked_sorted.
Qed.
Definition example_debt (id module_path : string) (tier : CriticalPathTier) : PlaceholderDebt :=
  {| pd_id := str id; pd_kind := SorryDebt; pd_module_path := str module_path; pd_tier := tier;
     pd_introduced_commit := []; pd_age_days := 3; pd_metadata := ∅ |}.
Lemma formal_gate_exact_witness :
  fails (cgs_verdict (@compute_ci_formal_gate_stats map_to_list_order
    [example_debt "D1" "consensus" Tier1Safety; example_debt "D2" "rpc" Tier4Convenience] default_ci_formal_gate_config)) ∧
  str "consensus" ∈ cgs_blocked_modules (@compute_ci_formal_gate_stats map_to_list_order
    [example_debt "D1" "consensus" Tier1Safety; example_debt "D2" "rpc" Tier4Convenience] default_ci_formal_gate_config).
Proof.
  set (debts := [_; _]).
  destruct (@formal_gate_exact map_to_list_order default_ci_formal_gate_config debts
    ltac:(discriminate) ltac:(discriminate) ltac:(discriminate) ltac:(discriminate)) as (_ & _ & _ & Hm & _).
  assert (Hf : fails (cgs_verdict (@compute_ci_formal_gate_stats map_to_list_order debts default_ci_formal_gate_config)))
    by (right; vm_compute; reflexivity).
  split; [exact Hf|]. apply Hm. split; [exact Hf|]. exists (example_debt "D1" "consensus" Tier1Safety).
  split; [|reflexivity]. split; [vm_compute; left|]. right. left. split; reflexivity.
Defined.
Lemma foldl_max_perm l1 l2 acc : l1 ≡ₚ l2 → foldl Z.max acc l1 = foldl Z.max acc l2.
Proof.
  intros Hl. revert acc. induction Hl as [|x l1 l2 _ IH|x y l|l1 l2 l3 _ IH1 _ IH2]; intros acc; cbn [foldl]; auto.
  - f_equal. lia.
  - by rewrite IH1.
Qed.
(** Neither the order of the debts nor that of the hash maps shows in the statistics. *)
Lemma formal_gate_order (HO1 HO2 : HashOrder) config debts1 debts2 :
  len debts1 <= u64_max → debts1 ≡ₚ debts2 →
  @compute_ci_formal_gate_stats HO1 debts1 config = @compute_ci_formal_gate_stats HO2 debts2 config.
Proof.
  intros Hlen Hp. assert (Hlen2 : len debts2 <= u64_max) by (unfold len in *; by rewrite <- Hp).
  assert (Hlive : live config debts1 ≡ₚ live config debts2) by (unfold live; by rewrite Hp).
  assert (Htier : ∀ tier, len (of_tier config tier debts1) = len (of_tier config tier debts2))
    by (intros; unfold len, of_tier; by rewrite Hlive).
  assert (Hall : len (live config debts1) = len (live config debts2)) by (unfold len; by rewrite Hlive).
  assert (Hval : is_ok (@validate_ci_formal_gate_config HO1 config) = is_ok (@validate_ci_formal_gate_config HO2 config)).
  { pose proof (@validate_gate_exact HO1 config) as H1. pose proof (@validate_gate_exact HO2 config) as H2.
    destruct (@validate_ci_formal_gate_config HO1 config) as [[]|], (@validate_ci_formal_gate_config HO2 config) as [[]|];
      try done; exfalso; naive_solver. }
  assert (Hverdict : cgs_verdict (@compute_ci_formal_gate_stats HO1 debts1 config) =
    cgs_verdict (@compute_ci_formal_gate_stats HO2 debts2 config)).
  { unfold compute_ci_formal_gate_stats. rewrite !gate_tally by done. cbn [cgs_verdict tally_of no_debts dt_total_debt
      dt_tier1_count dt_tier2_count]. by rewrite Hval, Hall, !Htier. }
  assert (Hblocked : cgs_blocked_modules (@compute_ci_formal_gate_stats HO1 debts1 config) =
    cgs_blocked_modules (@compute_ci_formal_gate_stats HO2 debts2 config)).
  { destruct (@blocked_sorted HO1 config debts1) as [Hs1 Hn1], (@blocked_sorted HO2 config debts2) as [Hs2 Hn2]; [done..|].
    apply (sorted_perm_unique bytes_cmp); [intros; by apply (cmp_eq bytes_cmp)|done..|].
    apply NoDup_Permutation; [done..|]. intros m. rewrite !elem_of_blocked, Hverdict by done.
    assert (Hin : ∀ d, d ∈ live config debts1 ↔ d ∈ live config debts2) by (intros; by rewrite Hlive).
    unfold explains. setoid_rewrite Hin. by rewrite !Htier, Hall. }
  unfold compute_ci_formal_gate_stats in *. cbn [cgs_verdict cgs_blocked_modules] in Hverdict, Hblocked.
  rewrite Hverdict in *. rewrite Hblocked. rewrite !gate_tally by done. unfold tally_of. cbn [dt_total_debt dt_tier1_count
    dt_tier2_count dt_tier3_count dt_oldest_debt_days no_debts]. rewrite Hall, !Htier. f_equal.
  apply foldl_max_perm. by rewrite Hlive.
Qed.

(** ** Where the documentation and the code part *)

(** [ConditionalPass] is documented as "policy limits are respected"; in advisory mode it is
    given whatever the limits. *)
Lemma advisory_ignores_limits :
  let config := {| cg_mode := AdvisoryMode; cg_max_tier1_debt := 0; cg_max_tier2_debt := 0; cg_max_total_debt := 0;
    cg_strict_on_release_branch := false; cg_exemption_list := []; cg_metadata := ∅ |} in
  cgs_verdict (@compute_ci_formal_gate_stats map_to_list_order [example_debt "D1" "consensus" Tier1Safety] config) =
    ConditionalPass.
Proof. vm_compute. reflexivity. Qed.
(** A newline in an exemption: two policies that exempt different debts share the text that
    is hashed. *)
Lemma gate_commitment_ambiguous :
  let policy exemptions := {| cg_mode := BlockingMode; cg_max_tier1_debt := 0; cg_max_tier2_debt := 0;
    cg_max_total_debt := 0; cg_strict_on_release_branch := false; cg_exemption_list := exemptions; cg_metadata := ∅ |} in
  let one := policy [str "A" ++ [10] ++ str "exemption=B"] in
  let two := policy [str "A"; str "B"] in
  @validate_ci_formal_gate_config map_to_list_order one = Ok tt ∧
  @validate_ci_formal_gate_config map_to_list_order two = Ok tt ∧
  @gate_preimage map_to_list_order one = @gate_preimage map_to_list_order two ∧
  cgs_verdict (@compute_ci_formal_gate_stats map_to_list_order [example_debt "B" "consensus" Tier1Safety] one) = HardFail ∧
  cgs_verdict (@compute_ci_formal_gate_stats map_to_list_order [example_debt "B" "consensus" Tier1Safety] two) = Pass.
Proof. vm_compute. repeat split. Qed.

(** ** Part 2 *)

(* eth2077-types/src/sre_runbooks.rs:72-72 SECONDS_PER_DAY *)
Definition SECONDS_PER_DAY : Z := 86400.
Definition STATS_COMMITMENT_DOMAIN_STR : Str := str "ETH2077::SRE_RUNBOOKS_STATS::V1".
Definition MAX_REASONABLE_DETECTION_SECONDS : Z := 7200.
Definition MAX_REASONABLE_MITIGATION_SECONDS : Z := 172800.
Definition MAX_REASONABLE_TEST_INTERVAL_DAYS : Z := 365.
Definition MAX_REASONABLE_GAME_DAY_FREQUENCY_DAYS : Z := 365.
Definition MAX_REASONABLE_GAME_DAY_SCENARIOS : Z := 128.

(* eth2077-types/src/sre_runbooks.rs:82-87 IncidentSeverity *)
Inductive IncidentSeverity := Sev1Critical | Sev2Major | Sev3Minor | Sev4Info.
(* eth2077-types/src/sre_runbooks.rs:90-97 IncidentSeverity::rank *)
Definition IncidentSeverity_rank (severity : IncidentSeverity) : Z :=
  match severity with Sev1Critical => 1 | Sev2Major => 2 | Sev3Minor => 3 | Sev4Info => 4 end.
(* eth2077-types/src/sre_runbooks.rs:101-108 RunbookCategory *)
Inductive RunbookCategory :=
| NodeRecovery | ConsensusFailure | NetworkPartitionRunbook | StateCorruption | PerformanceDegradation | SecurityIncident.
(* eth2077-types/src/sre_runbooks.rs:111-117 GameDayPhase *)
Inductive GameDayPhase := PlanningPhase | InjectionPhase | ObservationPhase | MitigationPhase | PostMortem.
#[export] Instance GameDayPhase_eq_dec : EqDecision GameDayPhase.
Proof. solve_decision. Defined.
(* eth2077-types/src/sre_runbooks.rs:120-125 EscalationPolicy *)
Inductive EscalationPolicy := PagerDuty | SlackAlert | EmailChain | ManualEscalation.
#[export] Instance EscalationPolicy_eq_dec : EqDecision EscalationPolicy.
Proof. solve_decision. Defined.

(** ** Steps and runbooks *)

(* eth2077-types/src/sre_runbooks.rs:128-135 RunbookStep *)
Record RunbookStep := {
  rs_order : Z;
  rs_title : Str;
  rs_command : option Str;
  rs_expected_outcome : Str;
  rs_timeout_seconds : Z;
  rs_rollback_command : option Str;
}.
(** [value.as_ref().is_some_and(|v| !v.trim().is_empty())] *)
Definition some_text (value : option Str) : bool :=
  match value with Some value => negb (bool_decide (trim value = [])) | None => false end.
(* eth2077-types/src/sre_runbooks.rs:138-142 RunbookStep::has_command *)
Definition RunbookStep_has_command (step : RunbookStep) : bool := some_text (rs_command step).
(* eth2077-types/src/sre_runbooks.rs:144-148 RunbookStep::has_rollback *)
Definition RunbookStep_has_rollback (step : RunbookStep) : bool := some_text (rs_rollback_command step).
(* eth2077-types/src/sre_runbooks.rs:150-152 RunbookStep::timeout_with_floor *)
Definition RunbookStep_timeout_with_floor (step : RunbookStep) : Z := Z.max (rs_timeout_seconds step) 1.
(* eth2077-types/src/sre_runbooks.rs:154-156 RunbookStep::looks_well_formed *)
Definition RunbookStep_looks_well_formed (step : RunbookStep) : bool :=
  (0 <? rs_order step) && negb (bool_decide (trim (rs_title step) = []))
  && negb (bool_decide (trim (rs_expected_outcome step) = [])).
(* eth2077-types/src/sre_runbooks.rs:160-170 Runbook *)
Record Runbook := {
  rb_id : Str;
  rb_title : Str;
  rb_category : RunbookCategory;
  rb_severity_applies : list IncidentSeverity;
  rb_steps : list RunbookStep;
  rb_estimated_duration_minutes : Z;
  rb_last_tested_unix : option Z;
  rb_owner : Str;
  rb_version : Z;
}.
(* eth2077-types/src/sre_runbooks.rs:173-184 Runbook::is_stale *)
Definition Runbook_is_stale (runbook : Runbook) (now_unix max_age_days : Z) : bool :=
  let max_age_seconds := u64_saturating_mul max_age_days SECONDS_PER_DAY in
  match rb_last_tested_unix runbook with
  | Some last_tested_unix =>
      if now_unix <? last_tested_unix then false
      else max_age_seconds <? u64_saturating_sub now_unix last_tested_unix
  | None => true
  end.
(* eth2077-types/src/sre_runbooks.rs:186-188 Runbook::has_owner *)
Definition Runbook_has_owner (runbook : Runbook) : bool := negb (bool_decide (trim (rb_owner runbook) = [])).
(* eth2077-types/src/sre_runbooks.rs:190-195 Runbook::highest_priority_severity *)
Definition Runbook_highest_priority_severity (runbook : Runbook) : option IncidentSeverity :=
  min_by (λ a b, Z.compare (IncidentSeverity_rank a) (IncidentSeverity_rank b)) (rb_severity_applies runbook).
(* eth2077-types/src/sre_runbooks.rs:197-199 Runbook::step_timeout_budget_seconds *)
Definition Runbook_step_timeout_budget_seconds (runbook : Runbook) : Z :=
  foldl u64_wrapping_add 0 (RunbookStep_timeout_with_floor <$> rb_steps runbook).
(* eth2077-types/src/sre_runbooks.rs:201-203 Runbook::all_steps_well_formed *)
Definition Runbook_all_steps_well_formed (runbook : Runbook) : bool := forallb RunbookStep_looks_well_formed (rb_steps runbook).
(** The loop over the steps. *)
(* eth2077-types/src/sre_runbooks.rs:209-216 Runbook::has_ordered_steps *)
Fixpoint steps_ordered (expected_order : Z) (steps : list RunbookStep) : bool :=
  match steps with
  | [] => true
  | step :: steps =>
      if negb (rs_order step =? expected_order) then false else steps_ordered (u64_wrapping_add expected_order 1) steps
  end.
(* eth2077-types/src/sre_runbooks.rs:205-217 Runbook::has_ordered_steps *)
Definition Runbook_has_ordered_steps (runbook : Runbook) : bool :=
  if bool_decide (rb_steps runbook = []) then false else steps_ordered 1 (rb_steps runbook).

(** ** Game days *)

(* eth2077-types/src/sre_runbooks.rs:221-232 GameDayExercise *)
Record GameDayExercise := {
  gd_id : Str;
  gd_scenario_name : Str;
  gd_phase : GameDayPhase;
  gd_injected_faults : list Str;
  gd_participating_nodes : Z;
  gd_started_at_unix : Z;
  gd_ended_at_unix : option Z;
  gd_detection_time_seconds : option Z;
  gd_mitigation_time_seconds : option Z;
  gd_success : bool;
}.
(* eth2077-types/src/sre_runbooks.rs:235-237 GameDayExercise::is_complete *)
Definition GameDayExercise_is_complete (e : GameDayExercise) : bool :=
  bool_decide (is_Some (gd_ended_at_unix e)) || bool_decide (gd_phase e = PostMortem).
(* eth2077-types/src/sre_runbooks.rs:239-245 GameDayExercise::duration_seconds *)
Definition GameDayExercise_duration_seconds (e : GameDayExercise) : option Z :=
  ended ← gd_ended_at_unix e;
  if ended <? gd_started_at_unix e then None else Some (ended - gd_started_at_unix e).
(* eth2077-types/src/sre_runbooks.rs:247-249 GameDayExercise::has_timings *)
Definition GameDayExercise_has_timings (e : GameDayExercise) : bool :=
  bool_decide (is_Some (gd_detection_time_seconds e)) && bool_decide (is_Some (gd_mitigation_time_seconds e)).

(** ** The policy *)

(* eth2077-types/src/sre_runbooks.rs:253-261 SreRunbooksConfig *)
Record SreRunbooksConfig := {
  sc_max_detection_time_seconds : Z;
  sc_max_mitigation_time_seconds : Z;
  sc_min_runbook_test_interval_days : Z;
  sc_escalation_policy : EscalationPolicy;
  sc_game_day_frequency_days : Z;
  sc_required_game_day_scenarios : Z;
  sc_auto_rollback_enabled : bool;
}.
(* eth2077-types/src/sre_runbooks.rs:264-274 SreRunbooksConfig::default *)
Definition SreRunbooksConfig_default : SreRunbooksConfig :=
  {| sc_max_detection_time_seconds := 300; sc_max_mitigation_time_seconds := 1800;
     sc_min_runbook_test_interval_days := 30; sc_escalation_policy := PagerDuty; sc_game_day_frequency_days := 14;
     sc_required_game_day_scenarios := 5; sc_auto_rollback_enabled := true |}.
(* eth2077-types/src/sre_runbooks.rs:404-407 SreRunbooksValidationError *)
Definition SreRunbooksValidationError : Type := FieldError.
(* eth2077-types/src/sre_runbooks.rs:278-385 SreRunbooksConfig::validate *)
Definition SreRunbooksConfig_validate (c : SreRunbooksConfig) : list SreRunbooksValidationError :=
  let detection := sc_max_detection_time_seconds c in
  let mitigation := sc_max_mitigation_time_seconds c in
  push_if (detection =? 0) (field_error "max_detection_time_seconds" "must be greater than zero") ++
  push_if (MAX_REASONABLE_DETECTION_SECONDS <? detection)
    (field_error "max_detection_time_seconds" "is unrealistically high for incident detection") ++
  push_if (mitigation =? 0) (field_error "max_mitigation_time_seconds" "must be greater than zero") ++
  push_if (MAX_REASONABLE_MITIGATION_SECONDS <? mitigation)
    (field_error "max_mitigation_time_seconds" "is unrealistically high for mitigation") ++
  push_if (mitigation <? detection) (field_error "max_detection_time_seconds" "must not exceed max_mitigation_time_seconds") ++
  push_if (sc_min_runbook_test_interval_days c =? 0)
    (field_error "min_runbook_test_interval_days" "must be greater than zero") ++
  push_if (MAX_REASONABLE_TEST_INTERVAL_DAYS <? sc_min_runbook_test_interval_days c)
    (field_error "min_runbook_test_interval_days" "is too infrequent for production runbook hygiene") ++
  push_if (sc_game_day_frequency_days c =? 0) (field_error "game_day_frequency_days" "must be greater than zero") ++
  push_if (MAX_REASONABLE_GAME_DAY_FREQUENCY_DAYS <? sc_game_day_frequency_days c)
    (field_error "game_day_frequency_days" "is too infrequent for rehearsal cadence") ++
  push_if (sc_required_game_day_scenarios c =? 0) (field_error "required_game_day_scenarios" "must be greater than zero") ++
  push_if (MAX_REASONABLE_GAME_DAY_SCENARIOS <? sc_required_game_day_scenarios c)
    (field_error "required_game_day_scenarios" "is too high for a single planning cycle") ++
  push_if (bool_decide (sc_escalation_policy c = ManualEscalation) && (detection <=? 60))
    (field_error "escalation_policy" "manual escalation is incompatible with sub-minute detection goals") ++
  push_if (negb (sc_auto_rollback_enabled c) && (u64_saturating_mul detection 20 <? mitigation))
    (field_error "auto_rollback_enabled" "disabling auto rollback requires tighter mitigation bounds").
(* eth2077-types/src/sre_runbooks.rs:387-389 SreRunbooksConfig::stale_threshold_days *)
Definition SreRunbooksConfig_stale_threshold_days (c : SreRunbooksConfig) : Z := sc_min_runbook_test_interval_days c.
(* eth2077-types/src/sre_runbooks.rs:391-396 SreRunbooksConfig::uses_real_time_escalation *)
Definition SreRunbooksConfig_uses_real_time_escalation (c : SreRunbooksConfig) : bool :=
  match sc_escalation_policy c with PagerDuty | SlackAlert => true | _ => false end.
(* eth2077-types/src/sre_runbooks.rs:398-400 SreRunbooksConfig::requires_manual_escalation *)
Definition SreRunbooksConfig_requires_manual_escalation (c : SreRunbooksConfig) : bool :=
  bool_decide (sc_escalation_policy c = ManualEscalation).

(** ** Statistics *)

(* eth2077-types/src/sre_runbooks.rs:419-427 SreRunbooksStats *)
Record SreRunbooksStats := {
  sr_total_runbooks : Z;
  sr_stale_runbooks : Z;
  sr_game_days_run : Z;
  sr_avg_detection_time_s : f64;
  sr_avg_mitigation_time_s : f64;
  sr_game_day_success_rate : f64;
  sr_commitment : list Z;
}.
(* eth2077-types/src/sre_runbooks.rs:441-443 SreRunbooksStats::fresh_runbooks *)
Definition SreRunbooksStats_fresh_runbooks (s : SreRunbooksStats) : Z :=
  u64_saturating_sub (sr_total_runbooks s) (sr_stale_runbooks s).
(* eth2077-types/src/sre_runbooks.rs:445-447 SreRunbooksStats::success_rate_percent *)
Definition SreRunbooksStats_success_rate_percent (s : SreRunbooksStats) : f64 := f64_mul (sr_game_day_success_rate s) (int 100).
(* eth2077-types/src/sre_runbooks.rs:449-454 SreRunbooksStats::stale_ratio *)
Definition SreRunbooksStats_stale_ratio (s : SreRunbooksStats) : f64 :=
  if sr_total_runbooks s =? 0 then f64_zero
  else f64_div (f64_of_u64 (sr_stale_runbooks s)) (f64_of_u64 (sr_total_runbooks s)).
(** [bytes_to_lower_hex]: two lower-case digits a byte. *)
(* eth2077-types/src/sre_runbooks.rs:456-458 SreRunbooksStats::commitment_hex *)
Definition SreRunbooksStats_commitment_hex (s : SreRunbooksStats) : Str := hex_of_bytes (sr_commitment s).
(* eth2077-types/src/sre_runbooks.rs:519-531 mean_optional_u64 *)
Definition mean_optional_u64 (values : list (option Z)) : f64 :=
  let present := omap id values in
  if len present =? 0 then f64_zero else f64_div (f64_of_u64 (Zsum present)) (f64_of_u64 (len present)).
(* eth2077-types/src/sre_runbooks.rs:475-484 compute_stats *)
Definition bounded_time (value : option Z) : option Z :=
  v ← value; if (0 <? v) && (v <=? MAX_REASONABLE_MITIGATION_SECONDS) then Some v else None.
(* eth2077-types/src/sre_runbooks.rs:538-550 compute_stats_commitment *)
Record RunbooksPayload := {
  rp_domain : Str;
  rp_now_unix : Z;
  rp_runbooks : list Runbook;
  rp_exercises : list GameDayExercise;
  rp_total_runbooks : Z;
  rp_stale_runbooks : Z;
  rp_game_days_run : Z;
  rp_avg_detection_time_s : f64;
  rp_avg_mitigation_time_s : f64;
  rp_game_day_success_rate : f64;
}.
Class RunbooksJson := runbooks_json : RunbooksPayload → list Z.
(* eth2077-types/src/sre_runbooks.rs:461-513 compute_stats *)
Definition compute_stats `{Sha256} `{RunbooksJson} (runbooks : list Runbook) (exercises : list GameDayExercise) (now_unix : Z)
  : SreRunbooksStats :=
  let stale_days := sc_min_runbook_test_interval_days SreRunbooksConfig_default in
  let stale_runbooks := len (filter (λ r, Runbook_is_stale r now_unix stale_days = true) runbooks) in
  let detection := mean_optional_u64 ((λ e, bounded_time (gd_detection_time_seconds e)) <$> exercises) in
  let mitigation := mean_optional_u64 ((λ e, bounded_time (gd_mitigation_time_seconds e)) <$> exercises) in
  let rate := if len exercises =? 0 then f64_zero else
    f64_div (f64_of_u64 (len (filter (λ e, gd_success e = true) exercises))) (f64_of_u64 (len exercises)) in
  {| sr_total_runbooks := len runbooks; sr_stale_runbooks := stale_runbooks; sr_game_days_run := len exercises;
     sr_avg_detection_time_s := detection; sr_avg_mitigation_time_s := mitigation; sr_game_day_success_rate := rate;
     sr_commitment := sha256 (STATS_COMMITMENT_DOMAIN_STR ++ runbooks_json
       {| rp_domain := STATS_COMMITMENT_DOMAIN_STR; rp_now_unix := now_unix; rp_runbooks := runbooks;
          rp_exercises := exercises; rp_total_runbooks := len runbooks; rp_stale_runbooks := stale_runbooks;
          rp_game_days_run := len exercises; rp_avg_detection_time_s := detection;
          rp_avg_mitigation_time_s := mitigation; rp_game_day_success_rate := rate |}) |}.

(** ** The policy *)

Record runbooks_policy_ok (c : SreRunbooksConfig) : Prop := {
  po_detection : 0 < sc_max_detection_time_seconds c <= 7200;
  po_mitigation : sc_max_detection_time_seconds c <= sc_max_mitigation_time_seconds c <= 172800;
  po_interval : 0 < sc_min_runbook_test_interval_days c <= 365;
  po_frequency : 0 < sc_game_day_frequency_days c <= 365;
  po_scenarios : 0 < sc_required_game_day_scenarios c <= 128;
  po_manual : sc_escalation_policy c = ManualEscalation → 60 < sc_max_detection_time_seconds c;
  po_rollback : sc_auto_rollback_enabled c = false →
    sc_max_mitigation_time_seconds c <= 20 * sc_max_detection_time_seconds c;
}.
(** The policies without an error are those within every bound; in them the limit of twenty
    times the detection goal never saturates. *)
Lemma validate_runbooks_exact c :
  0 <= sc_max_detection_time_seconds c → 0 <= sc_max_mitigation_time_seconds c →
  0 <= sc_min_runbook_test_interval_days c → 0 <= sc_game_day_frequency_days c → 0 <= sc_required_game_day_scenarios c →
  SreRunbooksConfig_validate c = [] ↔ runbooks_policy_ok c.
Proof.
  intros. unfold SreRunbooksConfig_validate, MAX_REASONABLE_DETECTION_SECONDS, MAX_REASONABLE_MITIGATION_SECONDS,
    MAX_REASONABLE_TEST_INTERVAL_DAYS, MAX_REASONABLE_GAME_DAY_FREQUENCY_DAYS, MAX_REASONABLE_GAME_DAY_SCENARIOS.
  rewrite !app_nil, !push_if_nil, !andb_false_iff, !Z.eqb_neq, !Z.ltb_ge, Z.leb_gt, bool_decide_eq_false, negb_false_iff.
  unfold u64_saturating_mul. split.
  - intros (?&?&?&?&?&?&?&?&?&?&?&Hm&Hr). split; try lia.
    + intros Hman. destruct Hm; [done|lia].
    + intros Hroll. destruct Hr; [congruence|lia].
  - intros [? ? ? ? ? Hm Hr]. split_and!; try lia.
    + destruct (decide (sc_escalation_policy c = ManualEscalation)); [right; by apply Hm|by left].
    + destruct (sc_auto_rollback_enabled c); [by left|right]. specialize (Hr eq_refl). lia.
Qed.

(** ** Freshness and order *)

Lemma is_stale_exact r now days :
  is_u64 now → 0 <= days →
  Runbook_is_stale r now days = true ↔
  rb_last_tested_unix r = None ∨
  ∃ tested, rb_last_tested_unix r = Some tested ∧ tested <= now ∧ Z.min (86400 * days) u64_max < now - tested.
Proof.
  intros Hnow Hdays. unfold Runbook_is_stale, u64_saturating_mul, SECONDS_PER_DAY.
  destruct (rb_last_tested_unix r) as [tested|]; [|tauto].
  destruct (Z.ltb_spec now tested); [split; [done|]; intros [?|(? & [= <-] & ?)]; [done|lia]|].
  rewrite Z.ltb_lt. unfold u64_saturating_sub. split.
  - intros ?. right. exists tested. split; [done|]. lia.
  - intros [?|(? & [= <-] & ?)]; [done|lia].
Qed.
(** a runbook that is stale stays stale until it is tested again; a test makes it fresh,
    and it stays fresh for as long as the age is allowed. *)
Theorem staleness (r : Runbook) (now later days : Z) :
  is_u64 now → now <= later <= u64_max → 0 <= days →
  (Runbook_is_stale r now days = true → Runbook_is_stale r later days = true ∨
     ∃ tested, rb_last_tested_unix r = Some tested ∧ now < tested) ∧
  (rb_last_tested_unix r = Some now → (Runbook_is_stale r later days = true ↔ 86400 * days < later - now)) ∧
  (∀ more, days <= more → Runbook_is_stale r later more = true → Runbook_is_stale r later days = true).
Proof.
  intros Hnow Hlater Hdays. assert (Hl : is_u64 later) by sat_lia. split; [|split].
  - rewrite !is_stale_exact by done. intros [?|(t & ? & ? & ?)]; left; [by left|right]. exists t. split; [done|lia].
  - intros Ht. rewrite is_stale_exact, Ht by done. split.
    + intros [?|(? & [= <-] & ? & Hage)]; [done|]. unfold is_u64 in *. lia.
    + intros Hage. right. exists now. split; [done|lia].
  - intros more Hmore. rewrite !is_stale_exact by (done || lia). intros [?|(t & ? & ? & ?)]; [by left|right].
    exists t. split; [done|lia].
Qed.
Lemma steps_ordered_exact k steps :
  0 <= k → k + len steps <= u64_max → steps_ordered k steps = true ↔ rs_order <$> steps = seqZ k (len steps).
Proof.
  revert k. induction steps as [|step steps IH]; intros k Hk Hmax; [done|].
  unfold len in *. cbn [length steps_ordered] in *. rewrite Nat2Z.inj_succ, seqZ_cons by lia. csimpl.
  unfold u64_wrapping_add. rewrite Z.mod_small, Z.pred_succ by lia.
  destruct (Z.eqb_spec (rs_order step) k) as [->|Hne]; cbn [negb].
  - rewrite IH by lia. rewrite Z.add_1_r. split; [by intros ->|by intros [= ->]].
  - split; [done|]. by intros [= ? _].
Qed.
(** The steps are in order exactly when they are numbered 1, 2, ... and there is one. *)
Lemma ordered_steps_exact r :
  len (rb_steps r) < u64_max →
  Runbook_has_ordered_steps r = true ↔ rb_steps r ≠ [] ∧ rs_order <$> rb_steps r = seqZ 1 (len (rb_steps r)).
Proof.
  intros Hlen. unfold Runbook_has_ordered_steps. case_bool_decide; [naive_solver|].
  rewrite steps_ordered_exact by lia. tauto.
Qed.
(** The budget of a runbook is added up without a check: two steps can have a budget of 0. *)
Lemma step_budget_wraps :
  let step order timeout := {| rs_order := order; rs_title := str "wait"; rs_command := None;
    rs_expected_outcome := str "done"; rs_timeout_seconds := timeout; rs_rollback_command := None |} in
  let r := {| rb_id := []; rb_title := []; rb_category := NodeRecovery; rb_severity_applies := [];
    rb_steps := [step 1 u64_max; step 2 0]; rb_estimated_duration_minutes := 0; rb_last_tested_unix := None;
    rb_owner := []; rb_version := 1 |} in
  Runbook_all_steps_well_formed r = true ∧ Runbook_has_ordered_steps r = true ∧ Runbook_step_timeout_budget_seconds r = 0.
Proof. vm_compute. repeat split. Qed.

(** ** Statistics *)

Lemma omap_id_length {A} (l : list (option A)) : (length (omap id l) <= length l)%nat.
Proof. induction l as [|[x|] l IH]; cbn in *; lia. Qed.
Lemma Zsum_at_most l n : Forall (λ z, 0 <= z <= n) l → 0 <= Zsum l <= n * len l.
Proof. unfold len. induction 1 as [|z l Hz _ IH]; cbn [Zsum foldr length] in *; lia. Qed.
Lemma mean_between values :
  len values <= 2 ^ 35 → Forall (λ v, ∀ z, v = Some z → 0 <= z <= 172800) values →
  f64_le f64_zero (mean_optional_u64 values) = true ∧ f64_le (mean_optional_u64 values) (int 172800) = true.
Proof.
  intros Hlen Hall. unfold mean_optional_u64. pose proof (omap_id_length values) as Hle.
  assert (Hp : Forall (λ z, 0 <= z <= 172800) (omap id values)).
  { clear Hlen Hle. induction Hall as [|[z|] values Hz _ IH]; cbn; [constructor|constructor; [by apply Hz|done]|done]. }
  apply Zsum_at_most in Hp. set (present := omap id values) in *. unfold len in *.
  destruct (Z.eqb_spec (Z.of_nat (length present)) 0) as [|Hne]; [by vm_compute|].
  apply (quotient_between 172800); nia.
Qed.
(** over any runbooks and up to 2^35 game days: the stale runbooks are those whose last
    test, if any, is more than 30 days old; the mean times lie between 0 and the longest
    time that counts; the success rate is a fraction. *)
Theorem runbook_stats_bounded `{Sha256} `{RunbooksJson} (runbooks : list Runbook) (exercises : list GameDayExercise) now :
  len exercises <= 2 ^ 35 → is_u64 now →
  let stats := compute_stats runbooks exercises now in
  sr_stale_runbooks stats + SreRunbooksStats_fresh_runbooks stats = len runbooks ∧
  (sr_stale_runbooks stats = 0 ↔ Forall (λ r, ∃ tested, rb_last_tested_unix r = Some tested ∧ now - tested <= 2592000) runbooks) ∧
  f64_le f64_zero (sr_avg_detection_time_s stats) = true ∧ f64_le (sr_avg_detection_time_s stats) (int 172800) = true ∧
  f64_le f64_zero (sr_avg_mitigation_time_s stats) = true ∧ f64_le (sr_avg_mitigation_time_s stats) (int 172800) = true ∧
  f64_le f64_zero (sr_game_day_success_rate stats) = true ∧ f64_le (sr_game_day_success_rate stats) (int 1) = true.
Proof.
  intros Hlen Hnow. cbv zeta. unfold SreRunbooksStats_fresh_runbooks.
  cbn [compute_stats sr_total_runbooks sr_stale_runbooks sr_avg_detection_time_s sr_avg_mitigation_time_s sr_game_day_success_rate].
  change (sc_min_runbook_test_interval_days SreRunbooksConfig_default) with 30.
  assert (Htimes : ∀ get : GameDayExercise → option Z,
    Forall (λ v, ∀ z, v = Some z → 0 <= z <= 172800) ((λ e, bounded_time (get e)) <$> exercises)).
  { intros get. apply Forall_fmap, Forall_forall. intros e _ z. unfold compose, bounded_time.
    destruct (get e) as [v|]; cbn [mbind option_bind]; [|done]. unfold MAX_REASONABLE_MITIGATION_SECONDS.
    case_if_goal; [|done]. intros [= <-]. bool_to_prop. lia. }
  assert (Hlens : ∀ get : GameDayExercise → option Z, len ((λ e, bounded_time (get e)) <$> exercises) <= 2 ^ 35)
    by (intros; unfold len in *; by rewrite length_fmap).
  pose proof (length_filter (λ r, Runbook_is_stale r now 30 = true) runbooks) as Hf.
  pose proof (length_filter (λ e, gd_success e = true) exercises) as Hs.
  split; [unfold u64_saturating_sub, len; lia|]. split; [|split; [|split; [|split; [|split]]]].
  - assert (Hz : ∀ l : list Runbook, len l = 0 ↔ l = []) by (intros []; unfold len; cbn; split; (done || lia)).
    rewrite Hz, filter_nil_Forall. apply Forall_iff. intros r. rewrite is_stale_exact by done.
    change (Z.min (86400 * 30) u64_max) with 2592000. split.
    + intros Hn. destruct (rb_last_tested_unix r) as [t|]; [|naive_solver]. exists t. split; [done|].
      destruct (Z.le_gt_cases (now - t) 2592000); [done|]. destruct Hn. right. exists t. split; [done|]. lia.
    + intros (t & -> & Ht) [?|(? & [= <-] & ? & ?)]; [done|lia].
  - by apply mean_between.
  - by apply mean_between.
  - by apply mean_between.
  - by apply mean_between.
  - destruct (Z.eqb_spec (len exercises) 0) as [|Hne]; [by vm_compute|]. change (int 1) with (f64_of_u64 1).
    apply (quotient_between 1); unfold len in *; lia.
Qed.
Definition example_runbook (tested : option Z) : Runbook :=
  {| rb_id := str "R"; rb_title := str "recover"; rb_category := NodeRecovery; rb_severity_applies := [Sev2Major];
     rb_steps := []; rb_estimated_duration_minutes := 5; rb_last_tested_unix := tested; rb_owner := str "sre"; rb_version := 1 |}.
Lemma staleness_witness :
  Runbook_is_stale (example_runbook (Some 1000)) 2593001 30 = true ∧
  Runbook_is_stale (example_runbook (Some 1000)) 5000000 30 = true.
Proof.
  destruct (staleness (example_runbook (Some 1000)) 2593001 5000000 30 ltac:(split; discriminate)
    ltac:(split; discriminate) ltac:(discriminate)) as [H _].
  assert (Hs : Runbook_is_stale (example_runbook (Some 1000)) 2593001 30 = true) by reflexivity.
  split; [exact Hs|]. destruct (H Hs) as [Hlater|(t & Ht & Hlt)]; [exact Hlater|].
  injection Ht as <-. discriminate Hlt.
Defined.
Lemma runbook_stats_bounded_witness :
  ¬ sr_stale_runbooks (@compute_stats id (λ _, []) [example_runbook None] [] 1000) = 0.
Proof.
  destruct (@runbook_stats_bounded id (λ _, []) [example_runbook None] [] 1000 ltac:(discriminate) ltac:(split; discriminate))
    as (_ & Hstale & _).
  intros H%Hstale. inversion_clear H as [|?? (t & Ht & _) _]. discriminate Ht.
Defined.
