(* ===== verification/TestBed.v ===== *)
(** * The test network and the faults injected into it

    Part 1. The public testnet cluster ([eth2077-types/src/testnet_cluster.rs])

    The policy of a cluster of 48 nodes, its launch gates, the health derived from what is
    observed of the nodes, and the commitment to the policy.

    Part 2. Fault injection ([eth2077-types/src/fault_injection.rs])

    Scenarios of faults and their validation, the statistics of a campaign, and the
    commitment to it; the derived JSON that is hashed is the class [ScenarioJson]. *)
From S2P Require Import Prelude Validation Strings Floats FloatFacts Metadata.
Local Open Scope Z_scope.

(* eth2077-types/src/testnet_cluster.rs:27-40 NodeRole *)
Inductive NodeRole := RoleValidator | RoleFullNode | RoleBootNode | RoleArchive | RoleLightClient | RoleBridge.
#[export] Instance NodeRole_eq_dec : EqDecision NodeRole.
Proof. solve_decision. Defined.
(* eth2077-types/src/testnet_cluster.rs:44-57 ClusterHealth *)
Inductive ClusterHealth := Healthy | Degraded | Partitioned | Recovering | Launching | Stopped.
(* eth2077-types/src/testnet_cluster.rs:61-74 TopologyKind *)
Inductive TopologyKind := FullMesh | Ring | Star | RandomTopology | Geographic | Hierarchical.
(* eth2077-types/src/testnet_cluster.rs:78-91 ReadinessGate *)
Inductive ReadinessGate := SyncComplete | ValidatorQuorum | GenesisLocked | ForkScheduleSet | MonitoringUp | FaucetLive.
#[export] Instance ReadinessGate_eq_dec : EqDecision ReadinessGate.
Proof. solve_decision. Defined.
(* eth2077-types/src/testnet_cluster.rs:98-113 TestnetNode *)
Record TestnetNode := {
  tn_id : Str;
  tn_role : NodeRole;
  tn_region : Str;
  tn_peer_count : Z;
  tn_sync_pct : f64;
  tn_is_healthy : bool;
  tn_metadata : gmap Str Str;
}.
(* eth2077-types/src/testnet_cluster.rs:119-134 TestnetClusterConfig *)
Record TestnetClusterConfig := {
  tc_target_node_count : Z;
  tc_min_validators : Z;
  tc_topology : TopologyKind;
  tc_max_partition_tolerance : f64;
  tc_health_check_interval_s : Z;
  tc_launch_gates : list ReadinessGate;
  tc_metadata : gmap Str Str;
}.
(* eth2077-types/src/testnet_cluster.rs:138-143 TestnetClusterValidationError *)
Definition TestnetClusterValidationError : Type := FieldError.
(* eth2077-types/src/testnet_cluster.rs:147-162 TestnetClusterStats *)
Record TestnetClusterStats := {
  tcs_total_nodes : Z;
  tcs_validators : Z;
  tcs_full_nodes : Z;
  tcs_health : ClusterHealth;
  tcs_avg_sync_pct : f64;
  tcs_peer_density : f64;
  tcs_gates_passed : Z;
}.

(* eth2077-types/src/testnet_cluster.rs:172-197 default_testnet_cluster_config *)
Definition default_testnet_cluster_config : TestnetClusterConfig :=
  {| tc_target_node_count := 48;
     tc_min_validators := 32;
     tc_topology := Geographic;
     tc_max_partition_tolerance := dec 25 100;
     tc_health_check_interval_s := 30;
     tc_launch_gates := [SyncComplete; ValidatorQuorum; GenesisLocked; ForkScheduleSet; MonitoringUp; FaucetLive];
     tc_metadata :=
       <[str "network" := str "ETH2077-testnet"]> (<[str "stage" := str "public"]>
       (<[str "genesis_locked" := str "true"]> (<[str "fork_schedule_set" := str "true"]>
       (<[str "monitoring_up" := str "true"]> (<[str "faucet_live" := str "true"]> ∅))))) |}.
(* eth2077-types/src/testnet_cluster.rs:593-602 topology_label *)
Definition topology_label (topology : TopologyKind) : Str :=
  match topology with
  | FullMesh => str "FullMesh"
  | Ring => str "Ring"
  | Star => str "Star"
  | RandomTopology => str "Random"
  | Geographic => str "Geographic"
  | Hierarchical => str "Hierarchical"
  end.
(* eth2077-types/src/testnet_cluster.rs:605-614 readiness_gate_label *)
Definition readiness_gate_label (gate : ReadinessGate) : Str :=
  match gate with
  | SyncComplete => str "SyncComplete"
  | ValidatorQuorum => str "ValidatorQuorum"
  | GenesisLocked => str "GenesisLocked"
  | ForkScheduleSet => str "ForkScheduleSet"
  | MonitoringUp => str "MonitoringUp"
  | FaucetLive => str "FaucetLive"
  end.

(** The errors of one metadata entry. *)
(* eth2077-types/src/testnet_cluster.rs:277-288 validate_testnet_cluster_config *)
Definition cluster_metadata_errors (entry : Str * Str) : list TestnetClusterValidationError :=
  push_if (bool_decide (trim entry.1 = [])) (field_error "metadata" "metadata keys must not be empty") ++
  push_if (bool_decide (trim entry.2 = []))
    {| fe_field := str "metadata";
       fe_message := str "metadata value for key `" ++ entry.1 ++ str "` must not be empty" |}.
(* eth2077-types/src/testnet_cluster.rs:208-295 validate_testnet_cluster_config *)
Definition validate_testnet_cluster_config {HO : HashOrder} (config : TestnetClusterConfig)
  : result unit (list TestnetClusterValidationError) :=
  errors_to_result (
    push_if (negb (tc_target_node_count config =? 48))
      (field_error "target_node_count" "must be exactly 48 for the public testnet cluster") ++
    push_if (tc_min_validators config <? 16)
      (field_error "min_validators" "must be at least 16 for quorum resilience") ++
    push_if (tc_target_node_count config <? tc_min_validators config)
      (field_error "min_validators" "must be less than or equal to target_node_count") ++
    push_if (negb (f64_is_finite (tc_max_partition_tolerance config)) ||
             f64_lt (tc_max_partition_tolerance config) f64_zero ||
             f64_lt (dec 5 10) (tc_max_partition_tolerance config))
      (field_error "max_partition_tolerance" "must be finite and within [0.0, 0.5]") ++
    push_if ((tc_health_check_interval_s config <? 5) || (300 <? tc_health_check_interval_s config))
      (field_error "health_check_interval_s" "must be within [5, 300] seconds") ++
    push_if (len (tc_launch_gates config) <? 3)
      (field_error "launch_gates" "must include at least 3 readiness gates") ++
    duplicate_errors
      (λ label, {| fe_field := str "launch_gates"; fe_message := str "contains duplicate gate `" ++ label ++ str "`" |})
      ∅ (readiness_gate_label <$> tc_launch_gates config) ++
    (hash_iter (tc_metadata config) ≫= cluster_metadata_errors)).

(* eth2077-types/src/testnet_cluster.rs:404-415 compute_average_sync_pct *)
Definition compute_average_sync_pct (nodes : list TestnetNode) : f64 :=
  if bool_decide (nodes = []) then f64_zero else
  let total := f64_sum ((λ node, f64_clamp (tn_sync_pct node) f64_zero (int 100)) <$> nodes) in
  f64_div total (f64_of_u64 (len nodes)).
(* eth2077-types/src/testnet_cluster.rs:420-433 compute_peer_density *)
Definition compute_peer_density (nodes : list TestnetNode) : f64 :=
  let n := len nodes in
  if n <=? 1 then f64_zero else
  let max_peers_per_node := n - 1 in
  let observed_links := foldl u64_wrapping_add 0 ((λ node, Z.min (tn_peer_count node) max_peers_per_node) <$> nodes) in
  f64_div (f64_of_u64 observed_links) (f64_of_u64 (u64_wrapping_mul n max_peers_per_node)).
(* eth2077-types/src/testnet_cluster.rs:575-581 is_affirmative *)
Definition is_affirmative (value : Str) : bool :=
  bool_decide (to_ascii_lowercase (trim value) ∈
    [str "1"; str "true"; str "yes"; str "y"; str "up"; str "ready"; str "online"; str "locked"; str "live"]).
(* eth2077-types/src/testnet_cluster.rs:584-590 is_live *)
Definition is_live (value : Str) : bool :=
  bool_decide (to_ascii_lowercase (trim value) ∈ [str "live"; str "up"; str "ready"; str "online"; str "true"]).
(* eth2077-types/src/testnet_cluster.rs:567-572 metadata_truthy *)
Definition metadata_truthy (metadata : gmap Str Str) (key : Str) : bool := from_option is_affirmative false (metadata !! key).
(* eth2077-types/src/testnet_cluster.rs:436-489 is_gate_passed *)
Definition is_gate_passed (gate : ReadinessGate) (nodes : list TestnetNode) (config : TestnetClusterConfig)
    (avg_sync_pct : f64) (validators : Z) : bool :=
  match gate with
  | SyncComplete =>
      negb (bool_decide (nodes = [])) && f64_le (int 99) avg_sync_pct &&
      forallb (λ node, f64_le (int 97) (f64_clamp (tn_sync_pct node) f64_zero (int 100))) nodes
  | ValidatorQuorum =>
      let healthy_validators :=
        len (filter (λ node, tn_role node = RoleValidator ∧ tn_is_healthy node = true) nodes) in
      let minimum_healthy := (u64_wrapping_mul (tc_min_validators config) 2 + 2) / 3 in
      (tc_min_validators config <=? validators) && (minimum_healthy <=? healthy_validators)
  | GenesisLocked =>
      metadata_truthy (tc_metadata config) (str "genesis_locked") ||
      metadata_truthy (tc_metadata config) (str "genesis_lock")
  | ForkScheduleSet =>
      metadata_truthy (tc_metadata config) (str "fork_schedule_set") ||
      from_option (λ value, negb (bool_decide (trim value = []))) false (tc_metadata config !! str "fork_schedule")
  | MonitoringUp =>
      metadata_truthy (tc_metadata config) (str "monitoring_up") ||
      existsb (λ node, from_option is_affirmative false (tn_metadata node !! str "monitoring")) nodes
  | FaucetLive =>
      metadata_truthy (tc_metadata config) (str "faucet_live") ||
      from_option is_live false (tc_metadata config !! str "faucet_status")
  end.
(* eth2077-types/src/testnet_cluster.rs:544-564 min_expected_peers *)
Definition min_expected_peers (topology : TopologyKind) (total_nodes : Z) : Z :=
  if total_nodes <=? 1 then 0 else
  let max_peer_count := total_nodes - 1 in
  let share percent := f64_to_u64 (f64_ceil (f64_mul (f64_of_u64 total_nodes) (dec percent 100))) in
  match topology with
  | FullMesh => max_peer_count
  | Ring => Z.min 2 max_peer_count
  | Star => 1
  | RandomTopology => Z.min (Z.max (share 20) 3) max_peer_count
  | Geographic => Z.min (Z.max (share 15) 3) max_peer_count
  | Hierarchical => Z.min (Z.max (share 10) 2) max_peer_count
  end.
(* eth2077-types/src/testnet_cluster.rs:525-541 low_peer_fraction *)
Definition low_peer_fraction (nodes : list TestnetNode) (topology : TopologyKind) : f64 :=
  if bool_decide (nodes = []) then f64_zero else
  let min_expected := min_expected_peers topology (len nodes) in
  if min_expected =? 0 then f64_zero else
  let low_peer_nodes := len (filter (λ node, tn_peer_count node < min_expected) nodes) in
  f64_div (f64_of_u64 low_peer_nodes) (f64_of_u64 (len nodes)).
(* eth2077-types/src/testnet_cluster.rs:492-522 classify_cluster_health *)
Definition classify_cluster_health (nodes : list TestnetNode) (config : TestnetClusterConfig) (healthy_nodes : Z)
    (avg_sync_pct peer_density : f64) (gates_passed : Z) : ClusterHealth :=
  let total_nodes := len nodes in
  if (total_nodes =? 0) || (healthy_nodes =? 0) then Stopped else
  let low_peer_ratio := low_peer_fraction nodes (tc_topology config) in
  if f64_lt (tc_max_partition_tolerance config) low_peer_ratio || f64_lt peer_density (dec 20 100) then Partitioned else
  let healthy_ratio := f64_div (f64_of_u64 healthy_nodes) (f64_of_u64 total_nodes) in
  if (gates_passed <? len (tc_launch_gates config)) && f64_lt avg_sync_pct (int 99) then Launching else
  if f64_le (dec 95 100) healthy_ratio && f64_le (int 99) avg_sync_pct then Healthy else
  if f64_le (dec 75 100) healthy_ratio && f64_le (int 92) avg_sync_pct then Recovering else Degraded.
(* eth2077-types/src/testnet_cluster.rs:301-342 compute_testnet_cluster_stats *)
Definition compute_testnet_cluster_stats (nodes : list TestnetNode) (config : TestnetClusterConfig)
  : TestnetClusterStats :=
  let validators := len (filter (λ node, tn_role node = RoleValidator) nodes) in
  let full_nodes := len (filter (λ node, tn_role node = RoleFullNode) nodes) in
  let healthy_nodes := len (filter (λ node, tn_is_healthy node = true) nodes) in
  let avg_sync_pct := compute_average_sync_pct nodes in
  let peer_density := compute_peer_density nodes in
  let gates_passed :=
    len (filter (λ gate, is_gate_passed gate nodes config avg_sync_pct validators = true) (tc_launch_gates config)) in
  {| tcs_total_nodes := len nodes;
     tcs_validators := validators;
     tcs_full_nodes := full_nodes;
     tcs_health := classify_cluster_health nodes config healthy_nodes avg_sync_pct peer_density gates_passed;
     tcs_avg_sync_pct := avg_sync_pct;
     tcs_peer_density := peer_density;
     tcs_gates_passed := gates_passed |}.

(** What the hasher is fed. *)
(* eth2077-types/src/testnet_cluster.rs:352-381 compute_testnet_cluster_commitment *)
Definition cluster_preimage {SU : SortUnstable} {HO : HashOrder} (config : TestnetClusterConfig) : list Z :=
  str "target_node_count=" ++ decimal (tc_target_node_count config) ++
  str "|min_validators=" ++ decimal (tc_min_validators config) ++
  str "|topology=" ++ topology_label (tc_topology config) ++
  str "|max_partition_tolerance=" ++ f64_fixed 6 (tc_max_partition_tolerance config) ++
  str "|health_check_interval_s=" ++ decimal (tc_health_check_interval_s config) ++ str "|" ++
  concat ((λ label, label ++ str ";") <$> sort_unstable_by bytes_cmp (readiness_gate_label <$> tc_launch_gates config)) ++
  concat ((λ p, p.1 ++ str "=" ++ p.2 ++ str ";") <$> sort_by pair_cmp (hash_iter (tc_metadata config))).
(* eth2077-types/src/testnet_cluster.rs:351-389 compute_testnet_cluster_commitment *)
Definition compute_testnet_cluster_commitment `{Sha256} {SU : SortUnstable} {HO : HashOrder}
    (config : TestnetClusterConfig) : Str := hex_of_bytes (sha256 (cluster_preimage config)).

(** ** What validation accepts *)

(** What the documentation of [validate_testnet_cluster_config] lists. *)
Record cluster_config_ok (c : TestnetClusterConfig) : Prop := {
  ok_node_count : tc_target_node_count c = 48;
  ok_validators : 16 ≤ tc_min_validators c ≤ 48;
  ok_tolerance : f64_le f64_zero (tc_max_partition_tolerance c) = true ∧
    f64_le (tc_max_partition_tolerance c) (dec 5 10) = true;
  ok_interval : 5 ≤ tc_health_check_interval_s c ≤ 300;
  ok_gates : 3 ≤ len (tc_launch_gates c) ∧ NoDup (tc_launch_gates c);
  ok_cluster_metadata : map_Forall (λ key value, trim key ≠ [] ∧ trim value ≠ []) (tc_metadata c);
}.
Lemma readiness_gate_label_inj : Inj (=) (=) readiness_gate_label.
Proof. intros [] []; vm_compute; congruence. Qed.
Lemma cluster_metadata_errors_nil {HO : HashOrder} (metadata : gmap Str Str) :
  hash_iter metadata ≫= cluster_metadata_errors = [] ↔
  map_Forall (λ key value, trim key ≠ [] ∧ trim value ≠ []) metadata.
Proof.
  rewrite list_bind_nil, Forall_forall, map_Forall_lookup.
  assert (∀ entry, cluster_metadata_errors entry = [] ↔ trim entry.1 ≠ [] ∧ trim entry.2 ≠ []) as Hentry.
  { intros entry. unfold cluster_metadata_errors. by rewrite app_nil, !push_if_nil, !bool_decide_eq_false. }
  setoid_rewrite Hentry. split.
  - intros Hall key value Hin. by apply (Hall (key, value)), elem_of_hash_iter.
  - intros Hall [key value] Hin%elem_of_hash_iter. by apply Hall.
Qed.
(** [validate_testnet_cluster_config] accepts exactly the policies the documentation
    describes, whatever the order of the metadata. *)
Theorem validate_cluster_exact {HO : HashOrder} c :
  valid_binary 53 1024 (tc_max_partition_tolerance c) = true →
  validate_testnet_cluster_config c = Ok tt ↔ cluster_config_ok c.
Proof.
  intros Ht. unfold validate_testnet_cluster_config.
  rewrite errors_to_result_ok, !app_nil, !push_if_nil, cluster_metadata_errors_nil, duplicate_errors_nil.
  rewrite (range_check _ f64_zero (dec 5 10)), orb_false_iff, negb_false_iff, Z.eqb_eq, !Z.ltb_ge by done.
  assert (NoDup (readiness_gate_label <$> tc_launch_gates c) ↔ NoDup (tc_launch_gates c)) as ->.
  { split; [apply NoDup_fmap_1|]. pose proof readiness_gate_label_inj. apply NoDup_fmap_2; done. }
  split.
  - intros (H1 & H2 & H3 & H4 & H5 & H6 & [H7 _] & H8). split; try done; lia.
  - intros [H1 H2 H3 H4 [H5 H6] H7]. split_and!; try done; try lia; try apply H3. apply Forall_forall. set_solver.
Qed.
Lemma validate_cluster_exact_witness :
  @validate_testnet_cluster_config map_to_list_order default_testnet_cluster_config = Ok tt ∧
  3 ≤ len (tc_launch_gates default_testnet_cluster_config).
Proof.
  assert (@validate_testnet_cluster_config map_to_list_order default_testnet_cluster_config = Ok tt) as Hok
    by (vm_compute; reflexivity).
  split; [exact Hok|]. apply validate_cluster_exact in Hok; [|reflexivity]. apply (ok_gates _ Hok).
Defined.

(** ** The commitment *)

Lemma metadata_pairs_unique (HO1 HO2 : HashOrder) (metadata : gmap Str Str) :
  sort_by pair_cmp (hash_iter (HashOrder := HO1) metadata) = sort_by pair_cmp (hash_iter (HashOrder := HO2) metadata).
Proof. apply (sort_by_order pair_cmp). by rewrite !hash_iter_perm. Qed.
(** The commitment depends neither on the order of the gates nor on that of the metadata. *)
Lemma cluster_commitment_order `{Sha256} (SU1 SU2 : SortUnstable) (HO1 HO2 : HashOrder) c gates :
  gates ≡ₚ tc_launch_gates c →
  compute_testnet_cluster_commitment (SU := SU1) (HO := HO1) c =
  compute_testnet_cluster_commitment (SU := SU2) (HO := HO2)
    {| tc_target_node_count := tc_target_node_count c; tc_min_validators := tc_min_validators c;
       tc_topology := tc_topology c; tc_max_partition_tolerance := tc_max_partition_tolerance c;
       tc_health_check_interval_s := tc_health_check_interval_s c; tc_launch_gates := gates;
       tc_metadata := tc_metadata c |}.
Proof.
  intros Hg. unfold compute_testnet_cluster_commitment, cluster_preimage. simpl.
  rewrite (metadata_pairs_unique HO1 HO2), (sorted_strings_unique SU1 SU2 _ (readiness_gate_label <$> gates)); [done|].
  by rewrite Hg.
Qed.
(** The text is not escaped: policies with different metadata have one commitment. *)
Definition with_cluster_metadata (m : gmap Str Str) : TestnetClusterConfig :=
  {| tc_target_node_count := 48; tc_min_validators := 32; tc_topology := Ring; tc_max_partition_tolerance := dec 25 100;
     tc_health_check_interval_s := 30; tc_launch_gates := [SyncComplete; ValidatorQuorum; GenesisLocked];
     tc_metadata := m |}.
Lemma cluster_commitment_ambiguous `{Sha256} :
  let commit := compute_testnet_cluster_commitment (SU := stable_sort_unstable) (HO := map_to_list_order) in
  let one := with_cluster_metadata {[str "a" := str "1;b=2"]} in
  let two := with_cluster_metadata {[str "a" := str "1"; str "b" := str "2"]} in
  @validate_testnet_cluster_config map_to_list_order one = Ok tt ∧
  @validate_testnet_cluster_config map_to_list_order two = Ok tt ∧ one ≠ two ∧ commit one = commit two.
Proof.
  intros commit one two. split_and!; [by vm_compute|by vm_compute|by intros [=]|].
  unfold commit, compute_testnet_cluster_commitment. f_equal.
Qed.

(** ** Health *)

(** A healthy cluster has lost at most a twentieth of its nodes, is in sync on average, and
    does not look partitioned. *)
Lemma healthy_cluster nodes config :
  tcs_health (compute_testnet_cluster_stats nodes config) = Healthy →
  nodes ≠ [] ∧
  f64_lt (tc_max_partition_tolerance config) (low_peer_fraction nodes (tc_topology config)) = false ∧
  f64_lt (compute_peer_density nodes) (dec 20 100) = false ∧
  f64_le (dec 95 100)
    (f64_div (f64_of_u64 (len (filter (λ node, tn_is_healthy node = true) nodes))) (f64_of_u64 (len nodes))) = true ∧
  f64_le (int 99) (compute_average_sync_pct nodes) = true.
Proof.
  unfold compute_testnet_cluster_stats. cbn [tcs_health]. unfold classify_cluster_health.
  destruct ((len nodes =? 0) || _) eqn:Hz; [done|]. destruct (f64_lt _ _ || f64_lt _ _) eqn:Hp; [done|].
  destruct (_ && f64_lt _ _); [done|]. destruct (f64_le (dec 95 100) _ && _) eqn:Hh; [|case_if_goal; done].
  intros _. apply orb_false_iff in Hp as [??], Hz as [Hz _]. apply andb_true_iff in Hh as [??].
  split_and!; try done. intros ->. done.
Qed.
Definition example_node (role : NodeRole) (sync : f64) : TestnetNode :=
  {| tn_id := []; tn_role := role; tn_region := []; tn_peer_count := 40; tn_sync_pct := sync; tn_is_healthy := true;
     tn_metadata := ∅ |}.
(** A cluster of 48 nodes in sync is healthy and passes every gate. *)
Example healthy_example :
  let stats := compute_testnet_cluster_stats (replicate 48 (example_node RoleValidator (int 100)))
    default_testnet_cluster_config in
  tcs_health stats = Healthy ∧ tcs_gates_passed stats = 6.
Proof. vm_compute. split; reflexivity. Qed.
(** Percentages are said to be normalized to [[0, 100]]; one that is not a number is not,
    and makes the average, which every threshold then fails. *)
Lemma nan_sync_not_normalized :
  let nodes := example_node RoleValidator S754_nan :: replicate 47 (example_node RoleValidator (int 100)) in
  let stats := compute_testnet_cluster_stats nodes default_testnet_cluster_config in
  tcs_avg_sync_pct stats = S754_nan ∧ tcs_health stats = Degraded.
Proof. vm_compute. split; reflexivity. Qed.

(** ** Part 2 *)

(* eth2077-types/src/fault_injection.rs:5-16 FaultType *)
Inductive FaultType :=
| NetworkPartition | MessageDelay | MessageDrop | MessageReorder | EquivocationAttempt | ReplayAttack
| CrashFailure | ByzantineProposal | TimestampSkew | FaultResourceExhaustion.
#[export] Instance FaultType_eq_dec : EqDecision FaultType.
Proof. solve_decision. Defined.
(* eth2077-types/src/fault_injection.rs:19-28 InjectionTiming *)
Inductive InjectionTiming :=
| BeforeProposal | DuringVoting | AfterFinality | AtEpochBoundary | RandomInterval | Continuous | Bursty | Gradual.
#[export] Instance InjectionTiming_eq_dec : EqDecision InjectionTiming.
Proof. solve_decision. Defined.
(* eth2077-types/src/fault_injection.rs:31-40 RecoveryStrategy *)
Inductive RecoveryStrategy :=
| AutoRecover | ManualIntervention | GracefulDegradation | Failover | RollbackRecovery | StateReconstruction
| PeerAssisted | NoRecovery.
(* eth2077-types/src/fault_injection.rs:43-49 SeverityLevel *)
Inductive SeverityLevel := Minor | Moderate | MajorSeverity | CriticalSeverity | Catastrophic.
#[export] Instance SeverityLevel_eq_dec : EqDecision SeverityLevel.
Proof. solve_decision. Defined.
(* eth2077-types/src/fault_injection.rs:52-61 FaultScenario *)
Record FaultScenario := {
  fs_name : Str;
  fs_fault_type : FaultType;
  fs_timing : InjectionTiming;
  fs_severity : SeverityLevel;
  fs_duration_slots : Z;
  fs_affected_nodes_fraction : f64;
  fs_expected_recovery : RecoveryStrategy;
  fs_expected_impact : Str;
}.
(* eth2077-types/src/fault_injection.rs:64-72 FaultInjectionConfig *)
Record FaultInjectionConfig := {
  fi_scenarios : list FaultScenario;
  fi_total_nodes : Z;
  fi_max_concurrent_faults : Z;
  fi_byzantine_threshold : f64;
  fi_min_recovery_time_slots : Z;
  fi_require_safety_preservation : bool;
  fi_require_liveness_recovery : bool;
}.
(* eth2077-types/src/fault_injection.rs:75-82 FaultInjectionValidationError *)
Inductive FaultInjectionValidationError :=
| EmptyScenarios
| NodesTooFew (count : Z)
| ConcurrentFaultsExceedNodes (faults nodes : Z)
| ByzantineThresholdOutOfRange (value : f64)
| RecoveryTimeZero
| AffectedFractionInvalid (scenario : Str) (value : f64).
(* eth2077-types/src/fault_injection.rs:85-94 FaultInjectionStats *)
Record FaultInjectionStats := {
  fst_total_scenarios : Z;
  fst_critical_scenarios : Z;
  fst_avg_recovery_slots : f64;
  fst_worst_case_impact : Str;
  fst_safety_violations : Z;
  fst_liveness_violations : Z;
  fst_coverage_score : f64;
  fst_risk_summary : Str;
}.

(** [x.is_finite() && x >= 0.0 && x <= 1.0] *)
Definition is_fraction (x : f64) : bool := f64_is_finite x && f64_le f64_zero x && f64_le x (int 1).
(* eth2077-types/src/fault_injection.rs:181-235 validate_fault_injection *)
Definition validate_fault_injection (config : FaultInjectionConfig) : result unit (list FaultInjectionValidationError) :=
  let nodes := fi_total_nodes config in
  errors_to_result (
    push_if (bool_decide (fi_scenarios config = [])) EmptyScenarios ++
    push_if (nodes =? 0) (NodesTooFew nodes) ++
    push_if (nodes <? fi_max_concurrent_faults config) (ConcurrentFaultsExceedNodes (fi_max_concurrent_faults config) nodes) ++
    push_if (negb (is_fraction (fi_byzantine_threshold config)))
      (ByzantineThresholdOutOfRange (fi_byzantine_threshold config)) ++
    push_if (fi_min_recovery_time_slots config =? 0) RecoveryTimeZero ++
    (scenario ← fi_scenarios config;
     push_if (negb (is_fraction (fs_affected_nodes_fraction scenario)))
       (AffectedFractionInvalid (fs_name scenario) (fs_affected_nodes_fraction scenario)))).

(* eth2077-types/src/fault_injection.rs:342-350 severity_weight *)
Definition severity_weight (severity : SeverityLevel) : f64 :=
  match severity with
  | Minor => dec 2 10
  | Moderate => dec 4 10
  | MajorSeverity => dec 65 100
  | CriticalSeverity => dec 85 100
  | Catastrophic => int 1
  end.
(* eth2077-types/src/fault_injection.rs:352-363 recovery_multiplier *)
Definition recovery_multiplier (strategy : RecoveryStrategy) : f64 :=
  match strategy with
  | AutoRecover => int 1
  | GracefulDegradation => dec 11 10
  | Failover => dec 12 10
  | PeerAssisted => dec 13 10
  | StateReconstruction => dec 14 10
  | RollbackRecovery => dec 15 10
  | ManualIntervention => dec 18 10
  | NoRecovery => int 2
  end.
(* eth2077-types/src/fault_injection.rs:365-373 is_safety_fault *)
Definition is_safety_fault (fault_type : FaultType) : bool :=
  match fault_type with
  | EquivocationAttempt | ReplayAttack | ByzantineProposal | TimestampSkew => true
  | _ => false
  end.
(* eth2077-types/src/fault_injection.rs:375-385 is_liveness_fault *)
Definition is_liveness_fault (fault_type : FaultType) : bool :=
  match fault_type with
  | NetworkPartition | MessageDelay | MessageDrop | MessageReorder | CrashFailure | FaultResourceExhaustion => true
  | _ => false
  end.
Definition severity_in (severity : SeverityLevel) (levels : list SeverityLevel) : bool := bool_decide (severity ∈ levels).
(* eth2077-types/src/fault_injection.rs:242-245 compute_fault_stats *)
Definition is_critical (scenario : FaultScenario) : bool := severity_in (fs_severity scenario) [CriticalSeverity; Catastrophic].
(* eth2077-types/src/fault_injection.rs:268-271 compute_fault_stats *)
Definition risk_score (scenario : FaultScenario) : f64 :=
  f64_mul (f64_mul (severity_weight (fs_severity scenario)) (fs_affected_nodes_fraction scenario))
    (f64_add (int 1) (f64_div (f64_of_u64 (fs_duration_slots scenario)) (int 64))).
(* eth2077-types/src/fault_injection.rs:278-281 compute_fault_stats *)
Definition safety_alert (config : FaultInjectionConfig) (scenario : FaultScenario) : bool :=
  is_safety_fault (fs_fault_type scenario) &&
  (f64_lt (fi_byzantine_threshold config) (fs_affected_nodes_fraction scenario) || is_critical scenario).
(* eth2077-types/src/fault_injection.rs:286-291 compute_fault_stats *)
Definition liveness_alert (config : FaultInjectionConfig) (scenario : FaultScenario) : bool :=
  is_liveness_fault (fs_fault_type scenario) &&
  (f64_le (dec 2 10) (fs_affected_nodes_fraction scenario)
   || (u64_saturating_mul (fi_min_recovery_time_slots config) 2 <=? fs_duration_slots scenario)
   || severity_in (fs_severity scenario) [MajorSeverity; CriticalSeverity; Catastrophic]).
(** The score and the impact of the worst scenario so far. *)
(* eth2077-types/src/fault_injection.rs:273-276 compute_fault_stats *)
Definition worse (worst : f64 * Str) (scenario : FaultScenario) : f64 * Str :=
  if f64_lt worst.1 (risk_score scenario) then (risk_score scenario, fs_expected_impact scenario) else worst.
(** [if !v.contains(&x) { v.push(x) }] *)
Definition cover {A} `{EqDecision A} (covered : list A) (x : A) : list A :=
  if bool_decide (x ∈ covered) then covered else covered ++ [x].
(* eth2077-types/src/fault_injection.rs:308-310 compute_fault_stats *)
Definition coverage_of (fault_types timings : Z) : f64 :=
  f64_min (f64_add (f64_mul (f64_div (f64_of_u64 fault_types) (int 10)) (dec 7 10))
    (f64_mul (f64_div (f64_of_u64 timings) (int 8)) (dec 3 10))) (int 1).
(* eth2077-types/src/fault_injection.rs:237-328 compute_fault_stats *)
Definition compute_fault_stats (config : FaultInjectionConfig) : FaultInjectionStats :=
  let scenarios := fi_scenarios config in
  let total_scenarios := len scenarios in
  let critical_scenarios := len (filter (λ s, is_critical s = true) scenarios) in
  let safety_violations := len (filter (λ s, safety_alert config s = true) scenarios) in
  let liveness_violations := len (filter (λ s, liveness_alert config s = true) scenarios) in
  let covered_fault_types := foldl cover [] (fs_fault_type <$> scenarios) in
  let covered_timings := foldl cover [] (fs_timing <$> scenarios) in
  let coverage_score := coverage_of (len covered_fault_types) (len covered_timings) in
  {| fst_total_scenarios := total_scenarios;
     fst_critical_scenarios := critical_scenarios;
     fst_avg_recovery_slots :=
       if total_scenarios =? 0 then f64_zero else
       f64_div (f64_sum ((λ s, f64_mul (f64_of_u64 (Z.max (fs_duration_slots s) (fi_min_recovery_time_slots config)))
         (recovery_multiplier (fs_expected_recovery s))) <$> scenarios)) (f64_of_u64 total_scenarios);
     fst_worst_case_impact := (foldl worse (f64_neg (int 1), str "No scenarios configured.") scenarios).2;
     fst_safety_violations := safety_violations;
     fst_liveness_violations := liveness_violations;
     fst_coverage_score := coverage_score;
     fst_risk_summary :=
       decimal critical_scenarios ++ str " critical/catastrophic scenarios, " ++ decimal safety_violations ++
       str " safety alerts, " ++ decimal liveness_violations ++ str " liveness alerts, coverage " ++
       f64_fixed 1 (f64_mul coverage_score (int 100)) ++ str "%." |}.
(** The derived JSON of the configuration. *)
Class ScenarioJson := scenario_json : FaultInjectionConfig → list Z.
(* eth2077-types/src/fault_injection.rs:330-340 compute_fault_commitment *)
Definition compute_fault_commitment `{Sha256} `{ScenarioJson} (config : FaultInjectionConfig) : list Z :=
  sha256 (str "ETH2077::FAULT_INJECTION::V1" ++ scenario_json config).

(** ** Validation *)

Record campaign_ok (c : FaultInjectionConfig) : Prop := {
  co_scenarios : fi_scenarios c ≠ [];
  co_nodes : 0 < fi_total_nodes c;
  co_concurrent : fi_max_concurrent_faults c <= fi_total_nodes c;
  co_threshold : is_fraction (fi_byzantine_threshold c) = true;
  co_recovery : 0 < fi_min_recovery_time_slots c;
  co_fractions : Forall (λ s, is_fraction (fs_affected_nodes_fraction s) = true) (fi_scenarios c);
}.
(** A campaign is accepted exactly when it satisfies every condition. *)
Lemma validate_campaign_exact c :
  is_u64 (fi_total_nodes c) → is_u64 (fi_min_recovery_time_slots c) →
  validate_fault_injection c = Ok tt ↔ campaign_ok c.
Proof.
  intros Hn Hr. unfold validate_fault_injection.
  rewrite errors_to_result_ok, !app_nil, list_bind_nil, !push_if_nil, bool_decide_eq_false, !Z.eqb_neq, Z.ltb_ge, negb_false_iff.
  assert (Hs : Forall (λ s, push_if (negb (is_fraction (fs_affected_nodes_fraction s)))
      (AffectedFractionInvalid (fs_name s) (fs_affected_nodes_fraction s)) = []) (fi_scenarios c) ↔
    Forall (λ s, is_fraction (fs_affected_nodes_fraction s) = true) (fi_scenarios c)).
  { apply Forall_iff. intros s. by rewrite push_if_nil, negb_false_iff. }
  rewrite Hs. split; [intros (?&?&?&?&?&?); split; (done || sat_lia)|intros []; split_and!; (done || sat_lia)].
Qed.

(** ** The worst case *)

(** What [f64] calls a fraction lies between 0 and 1. *)
Lemma fraction_units x : valid_binary 53 1024 x = true → is_fraction x = true →
  finite_double x ∧ 0 <= units x <= 2 ^ 1074.
Proof.
  intros Hv Hx. unfold is_fraction in Hx. apply andb_true_iff in Hx as [[Hf H0]%andb_true_iff H1].
  pose proof (is_finite_double x Hv Hf) as Hfin. split; [done|]. destruct one_units as [Hof Hou].
  apply f64_le_units in H0; [|done..]. apply f64_le_units in H1; [|done..]. rewrite Hou in H1. exact (conj H0 H1).
Qed.
(** Rounding keeps the sign. *)
Lemma binary_round_aux_sign s m e l :
  match binary_round_aux 53 1024 s m e l with S754_finite s' _ _ => s' = s | _ => True end.
Proof. unfold binary_round_aux. repeat case_match; simplify_eq; done. Qed.
Lemma binary_round_nonneg p e : 0 <= units (binary_round 53 1024 false p e).
Proof.
  unfold binary_round. destruct (shl_align _ _ _) as [m e'].
  pose proof (binary_round_aux_sign false (Z.pos m) e' loc_Exact) as Hs.
  destruct (binary_round_aux _ _ _ _ _ _) as [s|s| |s q k]; try done. cbn iota in Hs. subst s. cbn [units].
  apply Z.mul_nonneg_nonneg; [done|]. apply Z.mul_nonneg_nonneg; [done|]. by apply Z.pow_nonneg.
Qed.
Lemma f64_add_nonneg x y : finite_double x → finite_double y → 0 <= units x → 0 <= units y → 0 <= units (f64_add x y).
Proof.
  intros Hx Hy Hux Huy. unfold f64_add.
  destruct x as [sx|sx| |sx mx ex], y as [sy|sy| |sy my ey]; try done; cbn [SFadd]; [by destruct sx, sy|].
  cbn [finite_double] in Hx, Hy. apply bounded_exponent in Hx as [Hex _], Hy as [Hey _].
  apply units_nonneg_sign in Hux as ->; [|lia]. apply units_nonneg_sign in Huy as ->; [|lia]. cbn [cond_Zopp].
  set (a := (shl_align mx ex _).1). set (b := (shl_align my ey _).1).
  change (Z.pos a + Z.pos b) with (Z.pos (a + b)). apply binary_round_nonneg.
Qed.
(** The risk of a proper scenario is a number and not negative. *)
Lemma risk_score_proper s :
  valid_binary 53 1024 (fs_affected_nodes_fraction s) = true → is_fraction (fs_affected_nodes_fraction s) = true →
  is_u64 (fs_duration_slots s) → finite_double (risk_score s) ∧ 0 <= units (risk_score s).
Proof.
  intros Hv Hf [Hd0 Hd1]. destruct (fraction_units _ Hv Hf) as [Hfin Hu]. unfold risk_score.
  set (d := f64_of_u64 (fs_duration_slots s)).
  assert (Hw : mag_le 1 (severity_weight (fs_severity s)) ∧ 0 <= units (severity_weight (fs_severity s)) <= 2 ^ 1074)
    by (destruct (fs_severity s); vm_compute; split_and!; (done || discriminate)).
  destruct Hw as [Hwm Hwu].
  destruct (f64_mul_unit 1 (severity_weight (fs_severity s)) (fs_affected_nodes_fraction s)) as [Hpf Hpu];
    [done|lia|done|lia|lia|].
  assert (Hdm : mag_le 65 d).
  { apply (f64_of_u64_mag _ 64); [|lia]. split; [done|]. apply Z.le_lt_trans with u64_max; [done|by vm_compute]. }
  assert (Hqm : mag_le 67 (f64_div d (int 64))) by exact (f64_div_int_mag 65 d 64 Hdm ltac:(lia) ltac:(lia)).
  assert (Hdu : 0 <= units d).
  { unfold d, f64_of_u64. destruct (fs_duration_slots s) as [|p|p]; [done|apply binary_round_nonneg|lia]. }
  assert (Hqu : 0 <= units (f64_div d (int 64))).
  { destruct (f64_div_below 65 d (int 64) d) as (_ & H & _); [done|lia|by vm_compute|by vm_compute|by eapply mag_le_finite|done|..|done].
    apply Z.mul_le_mono_nonneg_l; [done|]. vm_compute. discriminate. }
  assert (Hsm : mag_le 69 (f64_add (int 1) (f64_div d (int 64)))).
  { apply (f64_add_mag 67); [|done|lia]. eapply mag_le_weaken; [|apply (f64_of_u64_mag 1 1); lia]. lia. }
  destruct one_units as [H1 Hu1].
  assert (Hsu : 0 <= units (f64_add (int 1) (f64_div d (int 64)))).
  { apply f64_add_nonneg; [done|by eapply mag_le_finite|rewrite Hu1; by apply Z.pow_nonneg|done]. }
  rewrite f64_mul_comm. destruct (f64_mul_unit 69 (f64_add (int 1) (f64_div d (int 64)))
    (f64_mul (severity_weight (fs_severity s)) (fs_affected_nodes_fraction s))) as [Hrf Hru];
    [done|lia|done|done|lia|]. split; [done|lia].
Qed.

(** The impact reported is that of the first scenario of highest risk. *)
Definition worst_of (scenarios : list FaultScenario) (s : FaultScenario) : Prop :=
  ∃ before after, scenarios = before ++ s :: after ∧
    Forall (λ s', f64_lt (risk_score s') (risk_score s) = true) before ∧
    Forall (λ s', f64_le (risk_score s') (risk_score s) = true) after.
Lemma worse_exact scenarios worst impact :
  finite_double worst → Forall (λ s, finite_double (risk_score s)) scenarios →
  (Forall (λ s, f64_le (risk_score s) worst = true) scenarios ∧ foldl worse (worst, impact) scenarios = (worst, impact)) ∨
  ∃ s, worst_of scenarios s ∧ f64_lt worst (risk_score s) = true ∧
    foldl worse (worst, impact) scenarios = (risk_score s, fs_expected_impact s).
Proof.
  intros Hw Hs. revert worst impact Hw. induction Hs as [|s scenarios Hf Hs IH]; intros worst impact Hw; [by left|].
  cbn [foldl]. unfold worse at 2 4. cbn [fst]. destruct (f64_lt worst (risk_score s)) eqn:Hlt.
  - right. apply (f64_lt_units _ _ Hw Hf) in Hlt.
    destruct (IH (risk_score s) (fs_expected_impact s) Hf) as [[Hall ->]|(s' & (before & after & -> & Hb & Ha) & Hlt' & ->)].
    + exists s. split; [by exists [], scenarios|]. split; [|done]. by apply f64_lt_units.
    + exists s'. assert (Hf' : finite_double (risk_score s')) by (rewrite Forall_app, Forall_cons in Hs; tauto).
      split; [|split; [|done]].
      * exists (s :: before), after. split; [done|]. split; [by constructor|done].
      * apply (f64_lt_units _ _ Hf Hf') in Hlt'. apply f64_lt_units; [done..|lia].
  - rewrite f64_lt_not_le in Hlt by done. apply negb_false_iff in Hlt.
    destruct (IH worst impact Hw) as [[Hall ->]|(s' & (before & after & -> & Hb & Ha) & Hlt' & ->)].
    + left. split; [by constructor|done].
    + right. exists s'. assert (Hf' : finite_double (risk_score s')) by (rewrite Forall_app, Forall_cons in Hs; tauto).
      split; [|split; done]. exists (s :: before), after. split; [done|]. split; [|done]. constructor; [|done].
      apply (f64_le_units _ _ Hf Hw) in Hlt. apply (f64_lt_units _ _ Hw Hf') in Hlt'. apply f64_lt_units; [done..|lia].
Qed.
(** in a valid campaign the worst-case impact is that of the first scenario whose risk
    no other exceeds; no risk overflows or is not a number. *)
Theorem worst_case_exact c :
  is_u64 (fi_total_nodes c) → is_u64 (fi_min_recovery_time_slots c) →
  Forall (λ s, valid_binary 53 1024 (fs_affected_nodes_fraction s) = true ∧ is_u64 (fs_duration_slots s)) (fi_scenarios c) →
  validate_fault_injection c = Ok tt →
  Forall (λ s, finite_double (risk_score s)) (fi_scenarios c) ∧
  ∃ s, worst_of (fi_scenarios c) s ∧ fst_worst_case_impact (compute_fault_stats c) = fs_expected_impact s.
Proof.
  intros Hn Hr Hwf Hok%validate_campaign_exact; [|done..]. destruct Hok as [Hne _ _ _ _ Hfr].
  assert (Hproper : Forall (λ s, finite_double (risk_score s) ∧ 0 <= units (risk_score s)) (fi_scenarios c)).
  { rewrite Forall_forall in Hwf, Hfr |- *. intros s Hs. destruct (Hwf _ Hs) as [Hv Hd]. by apply risk_score_proper; [|apply Hfr|]. }
  assert (Hfin : Forall (λ s, finite_double (risk_score s)) (fi_scenarios c)) by (eapply Forall_impl; [exact Hproper|]; by intros ? []).
  split; [done|]. cbn [compute_fault_stats fst_worst_case_impact].
  assert (Hw : finite_double (f64_neg (int 1))) by by vm_compute.
  destruct (worse_exact (fi_scenarios c) (f64_neg (int 1)) (str "No scenarios configured.") Hw Hfin)
    as [[Hall _]|(s & Hs & _ & ->)]; [|by exists s].
  destruct (fi_scenarios c) as [|s scenarios]; [done|]. inversion_clear Hproper as [|?? [Hf Hu] _].
  inversion_clear Hall as [|?? Hle _]. apply (f64_le_units _ _ Hf Hw) in Hle.
  assert (units (f64_neg (int 1)) < 0) by by vm_compute. lia.
Qed.

(** ** Coverage and alerts *)

Lemma elem_of_cover_fold {A} `{EqDecision A} (covered l : list A) x : x ∈ foldl cover covered l ↔ x ∈ covered ∨ x ∈ l.
Proof.
  revert covered. induction l as [|y l IH]; intros covered; cbn [foldl]; [set_solver|].
  rewrite IH. unfold cover. case_bool_decide; set_solver.
Qed.
Lemma NoDup_cover_fold {A} `{EqDecision A} (covered l : list A) : NoDup covered → NoDup (foldl cover covered l).
Proof.
  revert covered. induction l as [|y l IH]; intros covered Hnd; cbn [foldl]; [done|]. apply IH. unfold cover.
  case_bool_decide; [done|]. apply NoDup_app. split_and!; [done|set_solver|apply NoDup_singleton].
Qed.
Definition all_fault_types : list FaultType :=
  [NetworkPartition; MessageDelay; MessageDrop; MessageReorder; EquivocationAttempt; ReplayAttack; CrashFailure;
   ByzantineProposal; TimestampSkew; FaultResourceExhaustion].
Definition all_timings : list InjectionTiming :=
  [BeforeProposal; DuringVoting; AfterFinality; AtEpochBoundary; RandomInterval; Continuous; Bursty; Gradual].
Lemma covered_all {A} `{EqDecision A} (all l : list A) :
  NoDup all → (∀ x, x ∈ all) → (length (foldl cover [] l) <= length all)%nat ∧
  (length (foldl cover [] l) = length all ↔ ∀ x, x ∈ l).
Proof.
  intros Hnd Hall. pose proof (NoDup_cover_fold [] l (NoDup_nil_2)) as Hc. split.
  - apply submseteq_length, NoDup_submseteq; [done|]. intros x _. apply Hall.
  - split.
    + intros Hlen x. assert (Hp : foldl cover [] l ≡ₚ all).
      { apply submseteq_length_Permutation; [|lia]. apply NoDup_submseteq; [done|]. intros y _. apply Hall. }
      assert (Hx : x ∈ foldl cover [] l) by (rewrite Hp; apply Hall). apply elem_of_cover_fold in Hx. set_solver.
    + intros Hl. apply Nat.le_antisymm; apply submseteq_length, NoDup_submseteq; try done.
      intros x _. apply elem_of_cover_fold. right. apply Hl.
Qed.
Lemma coverage_table fault_types timings :
  0 <= fault_types <= 10 → 0 <= timings <= 8 →
  f64_le f64_zero (coverage_of fault_types timings) = true ∧ f64_le (coverage_of fault_types timings) (int 1) = true ∧
  (f64_eq (coverage_of fault_types timings) (int 1) = true ↔ fault_types = 10 ∧ timings = 8).
Proof.
  intros Hf Ht.
  assert (Htable : forallb (λ f, forallb (λ t,
      f64_le f64_zero (coverage_of f t) && f64_le (coverage_of f t) (int 1) &&
      Bool.eqb (f64_eq (coverage_of f t) (int 1)) ((f =? 10) && (t =? 8))) (seqZ 0 9)) (seqZ 0 11) = true) by (vm_compute; reflexivity).
  rewrite forallb_forall in Htable. specialize (Htable fault_types). rewrite forallb_forall in Htable.
  setoid_rewrite <- list_elem_of_In in Htable. setoid_rewrite elem_of_seqZ in Htable.
  specialize (Htable ltac:(lia) timings ltac:(lia)). apply andb_true_iff in Htable as [[? ?]%andb_true_iff He%Bool.eqb_prop].
  split; [done|]. split; [done|]. by rewrite He, andb_true_iff, !Z.eqb_eq.
Qed.
(** the coverage score lies between 0 and 1, and is 1 exactly when every fault type and
    every timing occurs in some scenario. *)
Theorem coverage_exact c :
  let score := fst_coverage_score (compute_fault_stats c) in
  f64_le f64_zero score = true ∧ f64_le score (int 1) = true ∧
  (f64_eq score (int 1) = true ↔ (∀ t, ∃ s, s ∈ fi_scenarios c ∧ fs_fault_type s = t) ∧ (∀ t, ∃ s, s ∈ fi_scenarios c ∧ fs_timing s = t)).
Proof.
  cbv zeta. cbn [compute_fault_stats fst_coverage_score].
  destruct (covered_all all_fault_types (fs_fault_type <$> fi_scenarios c)) as [Hf Hfe];
    [apply (bool_decide_unpack _); by vm_compute|by intros []; apply (bool_decide_unpack _); vm_compute|].
  destruct (covered_all all_timings (fs_timing <$> fi_scenarios c)) as [Ht Hte];
    [apply (bool_decide_unpack _); by vm_compute|by intros []; apply (bool_decide_unpack _); vm_compute|].
  change (length all_fault_types) with 10%nat in *. change (length all_timings) with 8%nat in *. unfold len.
  destruct (coverage_table (Z.of_nat (length (foldl cover [] (fs_fault_type <$> fi_scenarios c))))
    (Z.of_nat (length (foldl cover [] (fs_timing <$> fi_scenarios c))))) as (H0 & H1 & He); [lia|lia|].
  split; [done|]. split; [done|]. rewrite He. setoid_rewrite list_elem_of_fmap in Hfe. setoid_rewrite list_elem_of_fmap in Hte.
  split.
  - intros [Ef Et]. split; intros t.
    + destruct (proj1 Hfe ltac:(lia) t) as (s & -> & Hs). by exists s.
    + destruct (proj1 Hte ltac:(lia) t) as (s & -> & Hs). by exists s.
  - intros [Hft Htm].
    assert (length (foldl cover [] (fs_fault_type <$> fi_scenarios c)) = 10%nat) as ->
      by (apply Hfe; intros t; destruct (Hft t) as (s & Hs & <-); by exists s).
    assert (length (foldl cover [] (fs_timing <$> fi_scenarios c)) = 8%nat) as ->
      by (apply Hte; intros t; destruct (Htm t) as (s & Hs & <-); by exists s).
    done.
Qed.
