(* ===== verification/ZkExecution.v ===== *)
(** * The RISC-V migration and the NTT precompiles

    Part 1. The migration to RISC-V ([eth2077-types/src/riscv_migration.rs])

    The phases of the migration and their validation, and the improvement of proving costs
    that a comparison of targets promises.

    Part 2. NTT precompiles for lattice signatures ([eth2077-types/src/ntt_crypto.rs])

    The gas estimates of the precompile strategies, the readiness score, the validation of a
    configuration and the commitment to it.  [log2] is the platform's ([Libm]); the score
    adds doubles in the order of a hash map. *)
From S2P Require Import Prelude Validation Strings Floats FloatFacts Metadata.
From stdpp Require Import finite.
Local Open Scope Z_scope.

(* eth2077-types/src/riscv_migration.rs:5-11 ExecutionTarget *)
Inductive ExecutionTarget := EvmBytecode | RiscV32 | RiscV64 | EvmInRiscV | DualMode.
#[export] Instance ExecutionTarget_eq_dec : EqDecision ExecutionTarget.
Proof. solve_decision. Defined.
#[export] Program Instance ExecutionTarget_finite : Finite ExecutionTarget :=
  {| enum := [EvmBytecode; RiscV32; RiscV64; EvmInRiscV; DualMode] |}.
Next Obligation. by apply (bool_decide_unpack _). Qed.
Next Obligation. intros []; set_solver. Qed.
(* eth2077-types/src/riscv_migration.rs:14-20 MigrationPhase *)
Inductive MigrationPhase := Phase0Research | Phase1DualDeploy | Phase2EvmWrapped | Phase3EvmDeprecated | Phase4RiscVNative.
#[export] Instance MigrationPhase_eq_dec : EqDecision MigrationPhase.
Proof. solve_decision. Defined.
#[export] Program Instance MigrationPhase_finite : Finite MigrationPhase :=
  {| enum := [Phase0Research; Phase1DualDeploy; Phase2EvmWrapped; Phase3EvmDeprecated; Phase4RiscVNative] |}.
Next Obligation. by apply (bool_decide_unpack _). Qed.
Next Obligation. intros []; set_solver. Qed.
(* eth2077-types/src/riscv_migration.rs:23-30 ArchitectureComparison *)
Record ArchitectureComparison := {
  ac_target : ExecutionTarget;
  ac_zk_proving_cost_relative : f64;
  ac_native_execution_speed_relative : f64;
  ac_compiler_maturity : f64;
  ac_backwards_compatible : bool;
  ac_syscall_overhead_ns : Z;
}.
(* eth2077-types/src/riscv_migration.rs:33-38 MigrationRisk *)
Record MigrationRisk := { mr_phase : MigrationPhase; mr_risk_description : Str; mr_severity : f64; mr_mitigation : Str }.
(* eth2077-types/src/riscv_migration.rs:41-47 MigrationStrategy *)
Record MigrationStrategy := {
  mst_phases : list MigrationPhase;
  mst_estimated_years_per_phase : list f64;
  mst_total_estimated_years : f64;
  mst_risks : list MigrationRisk;
  mst_breaking_changes : list Str;
}.
(* eth2077-types/src/riscv_migration.rs:50-56 MigrationValidationError *)
Inductive MigrationValidationError :=
| EmptyPhases
| PhasesOutOfOrder
| DuplicatePhase
| MismatchedPhaseYears (phases years : Z)
| UnrealisticTimeline (total_years : Str).
(* eth2077-types/src/riscv_migration.rs:59-66 MigrationEvalStats *)
Record MigrationEvalStats := {
  me_total_phases : Z;
  me_total_years : f64;
  me_total_risks : Z;
  me_avg_risk_severity : f64;
  me_max_zk_improvement : f64;
  me_breaking_change_count : Z;
}.

(* eth2077-types/src/riscv_migration.rs:68-76 phase_index *)
Definition phase_index (phase : MigrationPhase) : nat :=
  match phase with
  | Phase0Research => 0
  | Phase1DualDeploy => 1
  | Phase2EvmWrapped => 2
  | Phase3EvmDeprecated => 3
  | Phase4RiscVNative => 4
  end.
(* eth2077-types/src/riscv_migration.rs:78-87 default_evm_comparison *)
Definition default_evm_comparison : ArchitectureComparison :=
  {| ac_target := EvmBytecode; ac_zk_proving_cost_relative := int 1; ac_native_execution_speed_relative := int 1;
     ac_compiler_maturity := int 1; ac_backwards_compatible := true; ac_syscall_overhead_ns := 0 |}.
(* eth2077-types/src/riscv_migration.rs:89-98 default_riscv_comparison *)
Definition default_riscv_comparison : ArchitectureComparison :=
  {| ac_target := RiscV64; ac_zk_proving_cost_relative := dec 1 100; ac_native_execution_speed_relative := int 3;
     ac_compiler_maturity := dec 3 10; ac_backwards_compatible := false; ac_syscall_overhead_ns := 50 |}.
(* eth2077-types/src/riscv_migration.rs:100-148 default_migration_strategy *)
Definition default_migration_strategy : MigrationStrategy :=
  {| mst_phases := [Phase0Research; Phase1DualDeploy; Phase2EvmWrapped; Phase3EvmDeprecated; Phase4RiscVNative];
     mst_estimated_years_per_phase := [int 1; int 2; int 2; int 3; int 2];
     mst_total_estimated_years := int 10;
     mst_risks :=
       [{| mr_phase := Phase1DualDeploy; mr_severity := dec 6 10;
           mr_risk_description := str "Dual runtime divergence could create consensus edge-cases.";
           mr_mitigation := str "Use differential execution traces and client conformance test vectors." |};
        {| mr_phase := Phase2EvmWrapped; mr_severity := dec 8 10;
           mr_risk_description := str "Wrapper semantics may mis-handle EVM corner-cases and precompiles.";
           mr_mitigation := str "Ship compatibility suites and phase-gate legacy opcode parity." |};
        {| mr_phase := Phase3EvmDeprecated; mr_severity := dec 4 10;
           mr_risk_description := str "Developer tooling lag can slow migration of production contracts.";
           mr_mitigation := str "Fund compiler/tooling grants and provide long-lived migration SDKs." |}];
     mst_breaking_changes :=
       [str "Contract deployment defaults to RISC-V object format.";
        str "Gas accounting changes for memory and syscall-heavy workloads.";
        str "Low-level EVM bytecode introspection no longer available natively.";
        str "Legacy opcodes only available through compatibility wrapper entrypoints."] |}.

(** Whether a phase follows a later one. *)
(* eth2077-types/src/riscv_migration.rs:166-188 validate_migration_strategy *)
Fixpoint phases_out_of_order (previous_phase : option nat) (phases : list MigrationPhase) : bool :=
  match phases with
  | [] => false
  | phase :: phases =>
      let current := phase_index phase in
      match previous_phase with Some previous => (current <? previous)%nat | None => false end ||
      phases_out_of_order (Some current) phases
  end.
(* eth2077-types/src/riscv_migration.rs:150-201 validate_migration_strategy *)
Definition validate_migration_strategy (strategy : MigrationStrategy) : result unit (list MigrationValidationError) :=
  errors_to_result (
    push_if (bool_decide (mst_phases strategy = [])) EmptyPhases ++
    push_if (negb (len (mst_phases strategy) =? len (mst_estimated_years_per_phase strategy)))
      (MismatchedPhaseYears (len (mst_phases strategy)) (len (mst_estimated_years_per_phase strategy))) ++
    duplicate_errors (λ _, DuplicatePhase) ∅ (mst_phases strategy) ++
    push_if (phases_out_of_order None (mst_phases strategy)) PhasesOutOfOrder ++
    push_if (f64_le (int 20) (mst_total_estimated_years strategy))
      (UnrealisticTimeline (f64_fixed 2 (mst_total_estimated_years strategy)))).

(* eth2077-types/src/riscv_migration.rs:250-259 estimate_zk_improvement *)
Definition estimate_zk_improvement (current target : ArchitectureComparison) : f64 :=
  if f64_le (ac_zk_proving_cost_relative target) f64_zero then S754_infinity false
  else f64_div (ac_zk_proving_cost_relative current) (ac_zk_proving_cost_relative target).
(** The cheapest comparison of each target. *)
(* eth2077-types/src/riscv_migration.rs:214-224 compute_migration_stats *)
Definition cheapest_by_target (comparisons : list ArchitectureComparison) : gmap ExecutionTarget ArchitectureComparison :=
  foldl (λ by_target comparison,
    <[ac_target comparison :=
        match by_target !! ac_target comparison with
        | Some existing =>
            if f64_lt (ac_zk_proving_cost_relative comparison) (ac_zk_proving_cost_relative existing)
            then comparison else existing
        | None => comparison
        end]> by_target) ∅ comparisons.
(* eth2077-types/src/riscv_migration.rs:203-248 compute_migration_stats *)
Definition compute_migration_stats {HO : HashOrder} (strategy : MigrationStrategy)
    (comparisons : list ArchitectureComparison) : MigrationEvalStats :=
  let total_risks := len (mst_risks strategy) in
  let by_target := cheapest_by_target comparisons in
  let baseline := match by_target !! EvmBytecode with Some c => Some c | None => head comparisons end in
  {| me_total_phases := len (mst_phases strategy);
     me_total_years := mst_total_estimated_years strategy;
     me_total_risks := total_risks;
     me_avg_risk_severity :=
       if total_risks =? 0 then f64_zero
       else f64_div (f64_sum (mr_severity <$> mst_risks strategy)) (f64_of_u64 total_risks);
     me_max_zk_improvement :=
       match baseline with
       | Some current =>
           foldl f64_maximum (int 1) ((λ entry, estimate_zk_improvement current entry.2) <$> hash_iter by_target)
       | None => int 1
       end;
     me_breaking_change_count := len (mst_breaking_changes strategy) |}.

(** ** Validation *)

Lemma migration_phase_index_inj : Inj (=) (=) phase_index.
Proof. by intros [] []. Qed.
Lemma phases_in_order_exact previous phases :
  phases_out_of_order previous phases = false ↔
  Sorted (λ p q, (phase_index p ≤ phase_index q)%nat) phases ∧
  from_option (λ n, from_option (λ p, (n ≤ phase_index p)%nat) True (head phases)) True previous.
Proof.
  revert previous. induction phases as [|p l IH]; intros previous; cbn [phases_out_of_order].
  - split; [|done]. intros _. split; [constructor|by destruct previous].
  - rewrite orb_false_iff, IH. cbn [from_option head]. split.
    + intros [Hp [Hs Hh]]. split; [constructor; [done|destruct l; constructor; done]|].
      destruct previous; [|done]. apply Nat.ltb_ge in Hp. done.
    + intros [[Hs Hh]%Sorted_inv Hp]. split_and!; [|done|destruct Hh; done].
      destruct previous; [by apply Nat.ltb_ge|done].
Qed.
(** The phases of a strategy that validates are a selection of the five phases, in their
    order and without repetition. *)
Lemma validate_strategy_exact s :
  validate_migration_strategy s = Ok tt ↔
  mst_phases s ≠ [] ∧ length (mst_phases s) = length (mst_estimated_years_per_phase s) ∧
  StronglySorted (λ p q, (phase_index p < phase_index q)%nat) (mst_phases s) ∧
  f64_le (int 20) (mst_total_estimated_years s) = false.
Proof.
  unfold validate_migration_strategy.
  rewrite errors_to_result_ok, !app_nil, !push_if_nil, duplicate_errors_nil, phases_in_order_exact, bool_decide_eq_false,
    negb_false_iff, Z.eqb_eq. unfold len.
  assert (NoDup (mst_phases s) ∧ Sorted (λ p q, (phase_index p ≤ phase_index q)%nat) (mst_phases s) ↔
    StronglySorted (λ p q, (phase_index p < phase_index q)%nat) (mst_phases s)) as Hsorted.
  { generalize (mst_phases s). intros l. split.
    - intros [Hnd Hs]. apply Sorted_StronglySorted in Hs; [|intros ? ? ?; lia].
      induction Hs as [|p l Hs IH Hall]; [constructor|]. apply NoDup_cons in Hnd as [Hp Hnd].
      constructor; [by apply IH|]. rewrite Forall_forall in Hall |- *. intros q Hq. specialize (Hall q Hq).
      assert (phase_index p ≠ phase_index q) by (intros Heq%migration_phase_index_inj; congruence). lia.
    - intros Hs. split.
      + induction Hs as [|p l _ IH Hall]; constructor; [|done]. intros Hp. rewrite Forall_forall in Hall.
        specialize (Hall p Hp). lia.
      + apply StronglySorted_Sorted. induction Hs; constructor; [done|]. eapply Forall_impl; [done|]. simpl. lia. }
  rewrite <- Hsorted. split.
  - intros (?&?&[? _]&[? _]&?). split_and!; (done || lia).
  - intros (?&?&[??]&?). split_and!; try (done || lia). apply Forall_forall. set_solver.
Qed.

(** ** Statistics *)

(** The map keeps one comparison per target of the list, and one of the given. *)
Lemma cheapest_by_target_spec comparisons target :
  match cheapest_by_target comparisons !! target with
  | Some c => c ∈ comparisons ∧ ac_target c = target
  | None => ∀ c, c ∈ comparisons → ac_target c ≠ target
  end.
Proof.
  unfold cheapest_by_target. induction comparisons as [|c l IH] using rev_ind; [cbn [foldl]; rewrite lookup_empty; set_solver|].
  rewrite foldl_snoc. set (m := foldl _ _ _) in *. destruct (decide (ac_target c = target)) as [<-|Hne].
  - rewrite lookup_insert_eq. destruct (m !! ac_target c) as [e|].
    + destruct IH as [He Ht]. case_if_goal; set_solver.
    + set_solver.
  - rewrite lookup_insert_ne by done. destruct (m !! target); set_solver.
Qed.
Example migration_example :
  validate_migration_strategy default_migration_strategy = Ok tt ∧
  me_max_zk_improvement (@compute_migration_stats map_to_list_order default_migration_strategy
    [default_evm_comparison; default_riscv_comparison]) = int 100.
Proof. vm_compute. split; reflexivity. Qed.

(** ** Part 2 *)

(* eth2077-types/src/ntt_crypto.rs:5-5 MIN_MODULUS_BITS *)
Definition MIN_MODULUS_BITS : Z := 10.
(* eth2077-types/src/ntt_crypto.rs:8-17 NttScheme *)
Inductive NttScheme := Falcon512 | Falcon1024 | Dilithium2 | Dilithium3 | Dilithium5 | Kyber512 | Kyber768 | Kyber1024.
#[export] Instance NttScheme_eq_dec : EqDecision NttScheme.
Proof. solve_decision. Defined.
(* eth2077-types/src/ntt_crypto.rs:20-26 PrecompileStrategy *)
Inductive PrecompileStrategy := NoPrecompile | GenericNtt | SchemeSpecific | BatchedNtt | HardwareAccelerated.
(* eth2077-types/src/ntt_crypto.rs:29-37 NttConfig *)
Record NttConfig := {
  nc_target_scheme : NttScheme;
  nc_precompile_strategy : PrecompileStrategy;
  nc_ntt_degree : Z;
  nc_modulus_bits : Z;
  nc_batch_size : Z;
  nc_target_gas_per_verify : Z;
  nc_current_evm_gas : Z;
}.
(* eth2077-types/src/ntt_crypto.rs:40-46 NttValidationError *)
Inductive NttValidationError :=
| InvalidDegree (degree : Z)
| ModulusTooSmall (bits min : Z)
| GasBudgetZero
| BatchSizeZero
| IncompatibleSchemeAndDegree (scheme : Str) (degree : Z).
(* eth2077-types/src/ntt_crypto.rs:49-56 NttImpactStats *)
Record NttImpactStats := {
  ni_gas_reduction_factor : f64;
  ni_estimated_precompile_gas : Z;
  ni_ntt_operations_per_verify : Z;
  ni_post_quantum_readiness_score : f64;
  ni_strategy_comparison : list (Str * f64);
  ni_scheme_comparison : list (Str * Z);
}.
(* eth2077-types/src/ntt_crypto.rs:58-68 default_ntt_config *)
Definition default_ntt_config : NttConfig :=
  {| nc_target_scheme := Falcon512; nc_precompile_strategy := GenericNtt; nc_ntt_degree := 512; nc_modulus_bits := 12;
     nc_batch_size := 1; nc_target_gas_per_verify := 50000; nc_current_evm_gas := 600000 |}.

(** ** The tables *)

(* eth2077-types/src/ntt_crypto.rs:146-157 scheme_ntt_degree *)
Definition scheme_ntt_degree (scheme : NttScheme) : Z :=
  match scheme with Falcon512 => 512 | Falcon1024 => 1024 | _ => 256 end.
(* eth2077-types/src/ntt_crypto.rs:246-257 all_schemes *)
Definition all_schemes : list NttScheme :=
  [Falcon512; Falcon1024; Dilithium2; Dilithium3; Dilithium5; Kyber512; Kyber768; Kyber1024].
(* eth2077-types/src/ntt_crypto.rs:259-267 all_strategies *)
Definition all_strategies : list PrecompileStrategy :=
  [NoPrecompile; GenericNtt; SchemeSpecific; BatchedNtt; HardwareAccelerated].
(** The map of multipliers, looked up. *)
(* eth2077-types/src/ntt_crypto.rs:269-277 strategy_multipliers *)
Definition strategy_multiplier (strategy : PrecompileStrategy) : f64 :=
  match strategy with
  | NoPrecompile => dec 118 10
  | GenericNtt => int 1
  | SchemeSpecific => dec 84 100
  | BatchedNtt => dec 72 100
  | HardwareAccelerated => dec 45 100
  end.
(** The map of operation counts, looked up. *)
(* eth2077-types/src/ntt_crypto.rs:279-290 scheme_ntt_operations *)
Definition scheme_ntt_operations (scheme : NttScheme) : Z :=
  match scheme with
  | Falcon512 => 10
  | Falcon1024 | Kyber512 => 12
  | Dilithium2 | Kyber768 => 14
  | Dilithium3 | Kyber1024 => 16
  | Dilithium5 => 18
  end.
(* eth2077-types/src/ntt_crypto.rs:292-297 strategy_supported_schemes *)
Definition strategy_supported_schemes (strategy : PrecompileStrategy) (target : NttScheme) : list NttScheme :=
  match strategy with NoPrecompile => [target] | _ => all_schemes end.
(* eth2077-types/src/ntt_crypto.rs:299-310 scheme_name *)
Definition scheme_name (scheme : NttScheme) : Str :=
  match scheme with
  | Falcon512 => str "Falcon512"
  | Falcon1024 => str "Falcon1024"
  | Dilithium2 => str "Dilithium2"
  | Dilithium3 => str "Dilithium3"
  | Dilithium5 => str "Dilithium5"
  | Kyber512 => str "Kyber512"
  | Kyber768 => str "Kyber768"
  | Kyber1024 => str "Kyber1024"
  end.
(* eth2077-types/src/ntt_crypto.rs:312-320 strategy_name *)
Definition strategy_name (strategy : PrecompileStrategy) : Str :=
  match strategy with
  | NoPrecompile => str "NoPrecompile"
  | GenericNtt => str "GenericNtt"
  | SchemeSpecific => str "SchemeSpecific"
  | BatchedNtt => str "BatchedNtt"
  | HardwareAccelerated => str "HardwareAccelerated"
  end.
(* eth2077-types/src/ntt_crypto.rs:322-328 scheme_family *)
Definition scheme_family (scheme : NttScheme) : Str :=
  match scheme with
  | Falcon512 | Falcon1024 => str "falcon"
  | Dilithium2 | Dilithium3 | Dilithium5 => str "dilithium"
  | Kyber512 | Kyber768 | Kyber1024 => str "kyber"
  end.
(* eth2077-types/src/ntt_crypto.rs:330-341 scheme_discriminant *)
Definition scheme_discriminant (scheme : NttScheme) : Z :=
  match scheme with
  | Falcon512 => 0 | Falcon1024 => 1 | Dilithium2 => 2 | Dilithium3 => 3
  | Dilithium5 => 4 | Kyber512 => 5 | Kyber768 => 6 | Kyber1024 => 7
  end.
(* eth2077-types/src/ntt_crypto.rs:343-351 strategy_discriminant *)
Definition strategy_discriminant (strategy : PrecompileStrategy) : Z :=
  match strategy with
  | NoPrecompile => 0 | GenericNtt => 1 | SchemeSpecific => 2 | BatchedNtt => 3 | HardwareAccelerated => 4
  end.

(** ** Validation *)

(** [usize::is_power_of_two] *)
Definition is_power_of_two (n : Z) : bool := (0 <? n) && (Z.land n (n - 1) =? 0).
(* eth2077-types/src/ntt_crypto.rs:70-107 validate_ntt_config *)
Definition validate_ntt_config (c : NttConfig) : result unit (list NttValidationError) :=
  errors_to_result (
    push_if (negb (is_power_of_two (nc_ntt_degree c))) (InvalidDegree (nc_ntt_degree c)) ++
    push_if (nc_modulus_bits c <? MIN_MODULUS_BITS) (ModulusTooSmall (nc_modulus_bits c) MIN_MODULUS_BITS) ++
    push_if (nc_target_gas_per_verify c =? 0) GasBudgetZero ++
    push_if (nc_batch_size c =? 0) BatchSizeZero ++
    push_if (negb (nc_ntt_degree c =? scheme_ntt_degree (nc_target_scheme c)))
      (IncompatibleSchemeAndDegree (scheme_name (nc_target_scheme c)) (nc_ntt_degree c))).

(** ** Estimates *)

Section estimates.
Context `{LM : Libm}.

Definition with_strategy (strategy : PrecompileStrategy) (c : NttConfig) : NttConfig :=
  {| nc_target_scheme := nc_target_scheme c; nc_precompile_strategy := strategy; nc_ntt_degree := nc_ntt_degree c;
     nc_modulus_bits := nc_modulus_bits c; nc_batch_size := nc_batch_size c;
     nc_target_gas_per_verify := nc_target_gas_per_verify c; nc_current_evm_gas := nc_current_evm_gas c |}.
Definition with_scheme (scheme : NttScheme) (c : NttConfig) : NttConfig :=
  {| nc_target_scheme := scheme; nc_precompile_strategy := nc_precompile_strategy c;
     nc_ntt_degree := scheme_ntt_degree scheme; nc_modulus_bits := nc_modulus_bits c; nc_batch_size := nc_batch_size c;
     nc_target_gas_per_verify := nc_target_gas_per_verify c; nc_current_evm_gas := nc_current_evm_gas c |}.
(* eth2077-types/src/ntt_crypto.rs:235-241 estimate_precompile_gas_float *)
Definition batch_discount (strategy : PrecompileStrategy) (batch_size : f64) : f64 :=
  let amortised rate := f64_div (int 1) (f64_add (int 1) (f64_mul (f64_sqrt (f64_sub batch_size (int 1))) rate)) in
  match strategy with
  | NoPrecompile => int 1
  | BatchedNtt => amortised (dec 22 100)
  | HardwareAccelerated => amortised (dec 18 100)
  | _ => amortised (dec 12 100)
  end.
(* eth2077-types/src/ntt_crypto.rs:223-244 estimate_precompile_gas_float *)
Definition estimate_precompile_gas_float (c : NttConfig) : f64 :=
  let degree := f64_of_u64 (Z.max (nc_ntt_degree c) 1) in
  let complexity := f64_mul degree (f64_log2 degree) in
  let modulus_multiplier := f64_add (int 1) (f64_mul
    (f64_maximum (f64_sub (f64_of_u64 (nc_modulus_bits c)) (f64_of_u64 MIN_MODULUS_BITS)) f64_zero) (dec 4 100)) in
  let ntt_base := f64_add (int 350) (f64_mul (f64_mul complexity modulus_multiplier) (dec 95 100)) in
  let operation_count := f64_of_u64 (scheme_ntt_operations (nc_target_scheme c)) in
  let batch_size := f64_of_u64 (Z.max (nc_batch_size c) 1) in
  f64_maximum (f64_mul (f64_mul (f64_mul ntt_base operation_count) (strategy_multiplier (nc_precompile_strategy c)))
    (batch_discount (nc_precompile_strategy c) batch_size)) (int 1).
(* eth2077-types/src/ntt_crypto.rs:142-144 estimate_precompile_gas *)
Definition estimate_precompile_gas (c : NttConfig) : Z :=
  f64_to_u64 (f64_maximum (f64_round (estimate_precompile_gas_float c)) (int 1)).
(* eth2077-types/src/ntt_crypto.rs:159-171 compare_strategies *)
Definition compare_strategies (c : NttConfig) : list (Str * f64) :=
  (λ strategy, (strategy_name strategy, estimate_precompile_gas_float (with_strategy strategy c))) <$> all_strategies.
(* eth2077-types/src/ntt_crypto.rs:181-184 compute_pq_readiness *)
Definition family_capacity : gmap Str Z :=
  <[str "kyber" := 3]> (<[str "dilithium" := 3]> (<[str "falcon" := 2]> ∅)).
(** The set of schemes, each once; what is counted does not depend on its order. *)
(* eth2077-types/src/ntt_crypto.rs:186-189 compute_pq_readiness *)
Definition family_counts (unique : list NttScheme) : gmap Str Z := foldl increment ∅ (scheme_family <$> unique).
(** The depths of the families, summed in the order given. *)
(* eth2077-types/src/ntt_crypto.rs:192-199 compute_pq_readiness *)
Definition family_depth_ratio (families : list (Str * Z)) (counts : gmap Str Z) : f64 :=
  f64_div (f64_sum ((λ '(family, cap), f64_min (f64_div (f64_of_u64 (default 0 (counts !! family))) (f64_of_u64 cap)) (int 1))
    <$> families)) (f64_of_u64 (Z.of_nat (size family_capacity))).
(* eth2077-types/src/ntt_crypto.rs:179-201 compute_pq_readiness *)
Definition readiness_score (families : list (Str * Z)) (unique : Z) (counts : gmap Str Z) : f64 :=
  let coverage_ratio := f64_div (f64_of_u64 unique) (f64_of_u64 (len all_schemes)) in
  let family_coverage_ratio := f64_div (f64_of_u64 (Z.of_nat (size counts))) (f64_of_u64 (Z.of_nat (size family_capacity))) in
  f64_clamp (f64_add (f64_add (f64_mul (dec 5 10) coverage_ratio) (f64_mul (dec 3 10) family_coverage_ratio))
    (f64_mul (dec 2 10) (family_depth_ratio families counts))) f64_zero (int 1).
Context {HO : HashOrder}.
(* eth2077-types/src/ntt_crypto.rs:173-202 compute_pq_readiness *)
Definition compute_pq_readiness (schemes_supported : list NttScheme) : f64 :=
  if bool_decide (schemes_supported = []) then f64_zero else
  let unique := remove_dups schemes_supported in
  readiness_score (hash_iter family_capacity) (len unique) (family_counts unique).
(* eth2077-types/src/ntt_crypto.rs:109-140 compute_ntt_stats *)
Definition compute_ntt_stats (c : NttConfig) : NttImpactStats :=
  let estimated := estimate_precompile_gas c in
  {| ni_gas_reduction_factor := f64_div (f64_of_u64 (nc_current_evm_gas c)) (f64_of_u64 (Z.max estimated 1));
     ni_estimated_precompile_gas := estimated;
     ni_ntt_operations_per_verify := scheme_ntt_operations (nc_target_scheme c);
     ni_post_quantum_readiness_score :=
       compute_pq_readiness (strategy_supported_schemes (nc_precompile_strategy c) (nc_target_scheme c));
     ni_strategy_comparison := compare_strategies c;
     ni_scheme_comparison := (λ scheme, (scheme_name scheme, estimate_precompile_gas (with_scheme scheme c))) <$> all_schemes |}.
End estimates.

(** ** The commitment *)

(* eth2077-types/src/ntt_crypto.rs:206-215 compute_ntt_commitment *)
Definition ntt_preimage (c : NttConfig) (params : list Z) : list Z :=
  str "eth2077-ntt-v1" ++ [scheme_discriminant (nc_target_scheme c)] ++
  [strategy_discriminant (nc_precompile_strategy c)] ++
  to_be_bytes 8 (nc_ntt_degree c) ++ to_be_bytes 8 (nc_modulus_bits c) ++ to_be_bytes 8 (nc_batch_size c) ++
  to_be_bytes 8 (nc_target_gas_per_verify c) ++ to_be_bytes 8 (nc_current_evm_gas c) ++
  to_be_bytes 8 (len params) ++ params.
(* eth2077-types/src/ntt_crypto.rs:204-221 compute_ntt_commitment *)
Definition compute_ntt_commitment `{Sha256} (c : NttConfig) (params : list Z) : list Z := sha256 (ntt_preimage c params).

(** ** Validation *)

(** A degree that fits the scheme is a power of two: the first check is implied. *)
Lemma validate_ntt_exact c :
  validate_ntt_config c = Ok tt ↔
  nc_ntt_degree c = scheme_ntt_degree (nc_target_scheme c) ∧ 10 <= nc_modulus_bits c ∧
  nc_target_gas_per_verify c ≠ 0 ∧ nc_batch_size c ≠ 0.
Proof.
  unfold validate_ntt_config, MIN_MODULUS_BITS.
  rewrite errors_to_result_ok, !app_nil, !push_if_nil, !negb_false_iff, Z.ltb_ge, !Z.eqb_neq, Z.eqb_eq. split; [tauto|].
  intros (Hd & ? & ? & ?). split_and!; try done. rewrite Hd. by destruct (nc_target_scheme c).
Qed.

(** ** Estimates *)

(** A valid configuration finds its own estimates among those it is compared with. *)
Lemma comparisons_contain_own `{LM : Libm} {HO : HashOrder} c :
  let s := compute_ntt_stats c in
  (strategy_name (nc_precompile_strategy c), estimate_precompile_gas_float c) ∈ ni_strategy_comparison s ∧
  (nc_ntt_degree c = scheme_ntt_degree (nc_target_scheme c) →
   (scheme_name (nc_target_scheme c), ni_estimated_precompile_gas s) ∈ ni_scheme_comparison s).
Proof.
  cbv zeta. cbn [compute_ntt_stats ni_strategy_comparison ni_scheme_comparison ni_estimated_precompile_gas]. split.
  - apply list_elem_of_fmap. exists (nc_precompile_strategy c). split; [by destruct c|].
    destruct (nc_precompile_strategy c); repeat constructor.
  - intros Hd. apply list_elem_of_fmap. exists (nc_target_scheme c). split; [|destruct (nc_target_scheme c); repeat constructor].
    unfold with_scheme. rewrite <- Hd. by destruct c.
Qed.

(** ** The readiness score *)

Lemma increment_comm (m : gmap Str Z) a b : increment (increment m a) b = increment (increment m b) a.
Proof.
  unfold increment. destruct (decide (a = b)) as [->|Hne]; [done|].
  rewrite lookup_insert_ne, (lookup_insert_ne m b a) by done. by apply insert_insert_ne.
Qed.
Lemma foldl_increment_perm (l1 l2 : list Str) (m : gmap Str Z) : l1 ≡ₚ l2 → foldl increment m l1 = foldl increment m l2.
Proof.
  intros Hl. revert m. induction Hl as [|x l1 l2 _ IH|x y l|l1 l2 l3 _ IH1 _ IH2]; intros m; cbn [foldl]; auto.
  - by rewrite increment_comm.
  - by rewrite IH1.
Qed.
#[local] Instance spec_float_eq_dec : EqDecision spec_float.
Proof. solve_decision. Defined.
(** How many schemes of a family a set holds. *)
Definition of_family (family : Str) (l : list NttScheme) : Z := len (filter (λ s, scheme_family s = family) l).
Lemma family_bound family (all l : list NttScheme) :
  NoDup l → (∀ s, scheme_family s = family → s ∈ all) → 0 <= of_family family l <= len all.
Proof.
  intros Hl Hin. unfold of_family, len.
  assert (length (filter (λ s, scheme_family s = family) l) <= length all)%nat; [|lia].
  apply submseteq_length, NoDup_submseteq; [by apply NoDup_filter|].
  intros s [Hs _]%list_elem_of_filter. by apply Hin.
Qed.
Lemma family_total l : len l = of_family (str "falcon") l + of_family (str "dilithium") l + of_family (str "kyber") l.
Proof.
  unfold of_family, len. induction l as [|s l IH]; [done|]. rewrite !filter_cons.
  destruct s; cbn [scheme_family]; repeat match goal with
    | |- context [decide (?a = ?b)] => first [rewrite (decide_True (P := a = b)) by reflexivity
        | rewrite (decide_False (P := a = b)) by (intros Heq; vm_compute in Heq; discriminate Heq)]
    end; cbn [length]; lia.
Qed.
Lemma family_count l family : default 0 (family_counts l !! family) = of_family family l.
Proof.
  unfold family_counts. rewrite foldl_increment, lookup_empty. change (default 0 None) with 0. rewrite Z.add_0_l.
  unfold of_family, len. f_equal. induction l as [|s l IH]; [done|]. csimpl. rewrite !filter_cons.
  destruct (decide (scheme_family s = family)); cbn [length]; by rewrite IH.
Qed.
Lemma dom_foldl_increment (l : list Str) (m : gmap Str Z) : dom (foldl increment m l) = dom m ∪ list_to_set l.
Proof.
  revert m. induction l as [|x l IH]; intros m; cbn [foldl list_to_set]; [set_solver|].
  rewrite IH. unfold increment. rewrite dom_insert_L. set_solver.
Qed.
Definition present (n : Z) : Z := if 0 <? n then 1 else 0.
Lemma families_present l :
  Z.of_nat (size (family_counts l)) =
  present (of_family (str "falcon") l) + present (of_family (str "dilithium") l) + present (of_family (str "kyber") l).
Proof.
  unfold family_counts. rewrite <- size_dom, dom_foldl_increment, dom_empty_L, union_empty_l_L.
  set (shown family := if 0 <? of_family family l then [family] else []).
  assert (Hset : list_to_set (C := gset Str) (scheme_family <$> l) =
    list_to_set (shown (str "falcon") ++ shown (str "dilithium") ++ shown (str "kyber"))).
  { assert (Hin : ∀ family, family ∈ scheme_family <$> l ↔ 0 < of_family family l).
    { intros family. unfold of_family, len. rewrite list_elem_of_fmap. split.
      - intros (s & -> & Hs). destruct (filter _ l) eqn:Hf; [|cbn; lia].
        apply filter_nil_Forall in Hf. rewrite Forall_forall in Hf. by destruct (Hf s Hs).
      - intros Hpos. destruct (filter _ l) as [|s rest] eqn:Hf; [cbn in Hpos; lia|].
        assert (Hs : s ∈ filter (λ s, scheme_family s = family) l) by (rewrite Hf; left).
        apply list_elem_of_filter in Hs as [? ?]. by exists s. }
    apply set_eq. intros family. rewrite !elem_of_list_to_set, !elem_of_app, Hin.
    assert (Hshown : ∀ f, family ∈ shown f ↔ family = f ∧ 0 < of_family f l)
      by (intros f; unfold shown; destruct (Z.ltb_spec 0 (of_family f l)); set_solver by lia).
    rewrite !Hshown. split; [|naive_solver]. intros Hpos.
    assert (Hfam : ∃ s, s ∈ l ∧ scheme_family s = family)
      by (apply Hin, list_elem_of_fmap in Hpos as (s & -> & Hs); by exists s).
    destruct Hfam as (s & _ & <-). destruct s; cbn [scheme_family] in *; auto. }
  rewrite Hset. unfold shown, present.
  destruct (0 <? of_family (str "falcon") l), (0 <? of_family (str "dilithium") l), (0 <? of_family (str "kyber") l); vm_compute; reflexivity.
Qed.

(** The score from the depths of the families, in the order they are added. *)
Definition depth (have cap : Z) : f64 := f64_min (f64_div (f64_of_u64 have) (f64_of_u64 cap)) (int 1).
Definition score_of (depths : list f64) (unique families : Z) : f64 :=
  f64_clamp (f64_add (f64_add (f64_mul (dec 5 10) (f64_div (f64_of_u64 unique) (int 8)))
      (f64_mul (dec 3 10) (f64_div (f64_of_u64 families) (int 3))))
    (f64_mul (dec 2 10) (f64_div (f64_sum depths) (int 3)))) f64_zero (int 1).
Definition base_score (f d k : Z) : f64 :=
  score_of [depth f 2; depth d 3; depth k 3] (f + d + k) (present f + present d + present k).
Definition orders_agree (f d k : Z) : bool :=
  let x := depth f 2 in let y := depth d 3 in let z := depth k 3 in
  let base := score_of [x; y; z] (f + d + k) (present f + present d + present k) in
  forallb (λ depths, bool_decide (score_of depths (f + d + k) (present f + present d + present k) = base))
    [[y; x; z]; [x; z; y]; [z; x; y]; [y; z; x]; [z; y; x]] &&
  f64_le f64_zero base && f64_le base (int 1) && Bool.eqb (f64_eq base (int 1)) (f + d + k =? 8).
Lemma orders_agree_spec f d k : orders_agree f d k = true →
  (∀ depths, depths ≡ₚ [depth f 2; depth d 3; depth k 3] →
     score_of depths (f + d + k) (present f + present d + present k) = base_score f d k) ∧
  f64_le f64_zero (base_score f d k) = true ∧ f64_le (base_score f d k) (int 1) = true ∧
  f64_eq (base_score f d k) (int 1) = (f + d + k =? 8).
Proof.
  unfold orders_agree. fold (base_score f d k).
  assert (E0 : score_of [depth f 2; depth d 3; depth k 3] (f + d + k) (present f + present d + present k) = base_score f d k)
    by reflexivity.
  revert E0. generalize (base_score f d k). intros base E0 Htable. cbn [forallb] in Htable.
  rewrite !andb_true_iff, !bool_decide_eq_true in Htable.
  destruct Htable as [[[(E1 & E2 & E3 & E4 & E5 & _) H0] H1] He%Bool.eqb_prop]. split; [|done].
  intros depths Hdepths. symmetry in Hdepths. apply permutations_Permutation in Hdepths. cbn in Hdepths.
  rewrite !elem_of_cons in Hdepths. destruct Hdepths as [->|[->|[->|[->|[->|[->|[]%elem_of_nil]]]]]]; assumption.
Qed.
(** Adding the depths in another order gives another ratio, but never another score. *)
Lemma orders_table f d k : 0 <= f <= 2 → 0 <= d <= 3 → 0 <= k <= 3 → orders_agree f d k = true.
Proof.
  intros Hf Hd Hk.
  assert (Htable : forallb (λ f, forallb (λ d, forallb (orders_agree f d) (seqZ 0 4)) (seqZ 0 4)) (seqZ 0 3) = true)
    by (vm_compute; reflexivity).
  rewrite forallb_forall in Htable. specialize (Htable f). rewrite forallb_forall in Htable.
  specialize (Htable ltac:(by apply list_elem_of_In, elem_of_seqZ; lia) d). rewrite forallb_forall in Htable.
  apply Htable; apply list_elem_of_In, elem_of_seqZ; lia.
Qed.
Lemma family_capacity_perm `{HashOrder} :
  hash_iter family_capacity ≡ₚ [(str "falcon", 2); (str "dilithium", 3); (str "kyber", 3)].
Proof.
  rewrite hash_iter_perm. unfold family_capacity. rewrite !map_to_list_insert, map_to_list_empty;
    [solve_Permutation|..]; rewrite ?lookup_insert_ne by done; apply lookup_empty.
Qed.
Lemma size_family_capacity : Z.of_nat (size family_capacity) = 3.
Proof. unfold family_capacity. rewrite !map_size_insert_None, map_size_empty; [done|..]; rewrite ?lookup_insert_ne by done; apply lookup_empty. Qed.

Lemma readiness_base {HO : HashOrder} l :
  NoDup l →
  let f := of_family (str "falcon") l in let d := of_family (str "dilithium") l in let k := of_family (str "kyber") l in
  readiness_score (hash_iter family_capacity) (len l) (family_counts l) = base_score f d k ∧
  orders_agree f d k = true.
Proof.
  intros Hnd. cbv zeta.
  pose proof (family_bound (str "falcon") [Falcon512; Falcon1024] l Hnd ltac:(intros []; set_solver)) as Hf.
  pose proof (family_bound (str "dilithium") [Dilithium2; Dilithium3; Dilithium5] l Hnd ltac:(intros []; set_solver)) as Hd.
  pose proof (family_bound (str "kyber") [Kyber512; Kyber768; Kyber1024] l Hnd ltac:(intros []; set_solver)) as Hk.
  pose proof (orders_table _ _ _ Hf Hd Hk) as Htable. split; [|done].
  unfold readiness_score, family_depth_ratio. rewrite families_present, size_family_capacity, family_total.
  pose proof (family_count l (str "falcon")) as Cf. pose proof (family_count l (str "dilithium")) as Cd.
  pose proof (family_count l (str "kyber")) as Ck.
  set (f := of_family (str "falcon") l) in *. set (d := of_family (str "dilithium") l) in *. set (k := of_family (str "kyber") l) in *.
  assert (Hdepths : (λ '(family, cap), f64_min (f64_div (f64_of_u64 (default 0 (family_counts l !! family))) (f64_of_u64 cap)) (int 1))
      <$> hash_iter family_capacity ≡ₚ [depth f 2; depth d 3; depth k 3]).
  { rewrite family_capacity_perm. unfold depth. rewrite <- Cf, <- Cd, <- Ck. reflexivity. }
  set (depths := _ <$> _) in *. clearbody depths. clear Cf Cd Ck.
  apply orders_agree_spec in Htable as [Hall _]. by apply Hall.
Qed.
Lemma all_schemes_full s : s ∈ all_schemes.
Proof. apply (bool_decide_unpack _). by destruct s; vm_compute. Qed.
(** the readiness score does not depend on the order of the hash map it sums over,
    although the sum it uses does; it lies between 0 and 1, and is 1 exactly when every
    scheme is supported. *)
Theorem readiness_exact (HO1 HO2 : HashOrder) (schemes : list NttScheme) :
  let score := compute_pq_readiness (HO := HO1) schemes in
  score = compute_pq_readiness (HO := HO2) schemes ∧
  f64_le f64_zero score = true ∧ f64_le score (int 1) = true ∧
  (f64_eq score (int 1) = true ↔ ∀ s, s ∈ schemes).
Proof.
  cbv zeta. unfold compute_pq_readiness. case_bool_decide as Hnil.
  { subst. split; [done|]. split; [done|]. split; [done|]. split; [done|]. intros Hall. by destruct (not_elem_of_nil Kyber512). }
  pose proof (NoDup_remove_dups schemes) as Hnd.
  destruct (@readiness_base HO1 _ Hnd) as [E1 Htable]. destruct (@readiness_base HO2 _ Hnd) as [E2 _].
  cbv zeta in E1, E2, Htable. rewrite E1, E2. clear E1 E2.
  apply orders_agree_spec in Htable as (_ & H0 & H1 & He).
  split; [reflexivity|]. split; [exact H0|]. split; [exact H1|]. rewrite He, Z.eqb_eq.
  rewrite <- family_total. setoid_rewrite <- elem_of_remove_dups. set (l := remove_dups schemes) in *.
  assert (Hsub : l ⊆+ all_schemes) by (apply NoDup_submseteq; [done|]; intros s _; apply all_schemes_full). split.
  - intros Hlen s. assert (Hp : l ≡ₚ all_schemes) by (apply submseteq_length_Permutation; [done|unfold len in Hlen; cbn; lia]).
    rewrite Hp. apply all_schemes_full.
  - intros Hall. assert (Hp : l ≡ₚ all_schemes).
    { apply submseteq_length_Permutation; [done|]. apply submseteq_length, NoDup_submseteq; [|intros s _; apply Hall].
      apply (bool_decide_unpack _). by vm_compute. }
    unfold len. by rewrite Hp.
Qed.
(** The sum itself is not the same in every order. *)
Lemma depth_order_shows : f64_sum [depth 1 2; depth 1 3; depth 2 3] ≠ f64_sum [depth 1 2; depth 2 3; depth 1 3].
Proof. intros H. vm_compute in H. discriminate H. Qed.

(** ** The commitment *)

Lemma discriminants_inj s1 s2 : scheme_discriminant s1 = scheme_discriminant s2 → s1 = s2.
Proof. by destruct s1, s2. Qed.
Lemma strategy_discriminants_inj s1 s2 : strategy_discriminant s1 = strategy_discriminant s2 → s1 = s2.
Proof. by destruct s1, s2. Qed.
Record ntt_config_wf (c : NttConfig) : Prop := {
  nw_degree : is_u64 (nc_ntt_degree c);
  nw_bits : is_u64 (nc_modulus_bits c);
  nw_batch : is_u64 (nc_batch_size c);
  nw_target : is_u64 (nc_target_gas_per_verify c);
  nw_current : is_u64 (nc_current_evm_gas c);
}.
(** a commitment binds the configuration and the parameters, or SHA-256 collides. *)
Theorem ntt_commitment_binding `{Sha256} (c1 c2 : NttConfig) (params1 params2 : list Z) :
  ntt_config_wf c1 → ntt_config_wf c2 → is_u64 (len params1) → is_u64 (len params2) →
  compute_ntt_commitment c1 params1 = compute_ntt_commitment c2 params2 →
  binds (λ p, ntt_preimage p.1 p.2) eq (c1, params1) (c2, params2).
Proof.
  intros [] [] Hp1 Hp2 Hhash. apply binds_intro; [|exact Hhash]. cbn [fst snd]. unfold ntt_preimage. intros Heq.
  apply app_inv_head in Heq. apply app_inj_1 in Heq as [[= Hs%discriminants_inj] Heq]; [|done].
  apply app_inj_1 in Heq as [[= Hst%strategy_discriminants_inj] Heq]; [|done].
  do 5 (apply prefix_inj_u64 in Heq as [? Heq]; [|done..]).
  apply prefix_inj_u64 in Heq as [_ ->]; [|done..]. destruct c1, c2. cbn in *. congruence.
Qed.
Lemma ntt_commitment_binding_witness :
  binds (H := id) (λ p, ntt_preimage p.1 p.2) eq (default_ntt_config, [1]) (default_ntt_config, [1]).
Proof.
  apply (@ntt_commitment_binding id default_ntt_config default_ntt_config [1] [1]);
    [split; split; discriminate|split; split; discriminate|split; discriminate|split; discriminate|reflexivity].
Defined.
