(* ===== verification/DataScaling.v ===== *)
(** * Scaling data: partial statelessness, blob streaming, hyperscale state, shielded transfers

    Part 1. Partial statelessness ([eth2077-types/src/vops.rs])

    Which transactions need a witness when a node keeps only some categories of state, how
    much that saves, and the commitment to a witness requirement.

    Part 2. Blob streaming, hyperscale state and shielded transfers

    ([eth2077-types/src/blob_streaming.rs], [hyperscale_state.rs], [shielded_transfers.rs])

    Three proposals weighed by estimates in [f64]: streaming blobs with erasure coding and
    sampling, kinds of state with their costs, and privacy protocols; each with validation,
    estimates and a commitment. *)
From S2P Require Import Prelude Validation Strings Floats FloatFacts Metadata.
From stdpp Require Import finite.
Local Open Scope Z_scope.

(* eth2077-types/src/vops.rs:6-15 StatelessnessLevel *)
Inductive StatelessnessLevel := FullStateless | PartialVops | WeakStateless | CurrentStateful.
(* eth2077-types/src/vops.rs:18-31 StateCategory *)
Inductive StateCategory := AccountBalance | AccountNonce | ContractCode | StorageSlot | PaymasterState | ValidationCode.
#[export] Instance StateCategory_eq_dec : EqDecision StateCategory.
Proof. solve_decision. Defined.
#[export] Program Instance StateCategory_finite : Finite StateCategory :=
  {| enum := [AccountBalance; AccountNonce; ContractCode; StorageSlot; PaymasterState; ValidationCode] |}.
Next Obligation. apply (bool_decide_unpack _). by vm_compute. Qed.
Next Obligation. intros []; apply (bool_decide_unpack _); by vm_compute. Qed.
(* eth2077-types/src/vops.rs:34-43 VopsConfig *)
Record VopsConfig := {
  vo_retained_categories : gset StateCategory;
  vo_witness_size_budget_bytes : Z;
  vo_partial_state_size_mb : Z;
  vo_full_state_size_mb : Z;
  vo_max_witness_items_per_tx : Z;
}.
(* eth2077-types/src/vops.rs:46-53 WitnessRequirement *)
Record WitnessRequirement := {
  wr_tx_hash : list Z;
  wr_needed_state_keys : list (list Z);
  wr_witness_size_bytes : Z;
  wr_categories_accessed : gset StateCategory;
  wr_requires_witness : bool;
}.
(* eth2077-types/src/vops.rs:56-61 VopsValidationError *)
Inductive VopsValidationError :=
| WitnessTooLarge (size max : Z)
| TooManyWitnessItems (count max : Z)
| MissingRetainedState (category : StateCategory)
| EmptyRetainedCategories.
(* eth2077-types/src/vops.rs:64-74 VopsImpactStats *)
Record VopsImpactStats := {
  vs_total_transactions : Z;
  vs_witness_required_count : Z;
  vs_witness_free_count : Z;
  vs_total_witness_bytes : Z;
  vs_avg_witness_bytes_per_tx : f64;
  vs_bandwidth_reduction_percent : f64;
  vs_state_storage_reduction_percent : f64;
}.

(* eth2077-types/src/vops.rs:76-89 default_vops_config *)
Definition default_vops_config : VopsConfig :=
  {| vo_retained_categories := {[AccountBalance; AccountNonce; ContractCode; PaymasterState]};
     vo_witness_size_budget_bytes := 1024 * 1024; vo_partial_state_size_mb := 16 * 1024;
     vo_full_state_size_mb := 256 * 1024; vo_max_witness_items_per_tx := 64 |}.
(* eth2077-types/src/vops.rs:91-116 validate_witness_requirement *)
Definition validate_witness_requirement (req : WitnessRequirement) (config : VopsConfig)
  : result unit (list VopsValidationError) :=
  errors_to_result (
    push_if (vo_witness_size_budget_bytes config <? wr_witness_size_bytes req)
      (WitnessTooLarge (wr_witness_size_bytes req) (vo_witness_size_budget_bytes config)) ++
    push_if (vo_max_witness_items_per_tx config <? len (wr_needed_state_keys req))
      (TooManyWitnessItems (len (wr_needed_state_keys req)) (vo_max_witness_items_per_tx config))).
(* eth2077-types/src/vops.rs:118-122 classify_witness_need *)
Definition classify_witness_need {HO : HashOrder} (categories : gset StateCategory) (config : VopsConfig) : bool :=
  existsb (λ category, negb (bool_decide (category ∈ vo_retained_categories config))) (hash_set_iter categories).
(* eth2077-types/src/vops.rs:189-198 estimate_bandwidth_savings *)
Definition estimate_bandwidth_savings (full_witness_bytes vops_witness_bytes : Z) : f64 :=
  if full_witness_bytes =? 0 then f64_zero else
  let full := f64_of_u64 full_witness_bytes in
  f64_clamp (f64_mul (f64_div (f64_sub full (f64_of_u64 vops_witness_bytes)) full) (int 100)) f64_zero (int 100).
(* eth2077-types/src/vops.rs:124-169 compute_vops_stats *)
Definition compute_vops_stats {HO : HashOrder} (requirements : list WitnessRequirement) (config : VopsConfig)
  : VopsImpactStats :=
  let total_transactions := len requirements in
  let '(witness_required_count, total_witness_bytes, full_witness_bytes) :=
    foldl (λ '(required, bytes, full) req,
      let full := u64_wrapping_add full (wr_witness_size_bytes req) in
      if classify_witness_need (wr_categories_accessed req) config
      then (required + 1, u64_wrapping_add bytes (wr_witness_size_bytes req), full)
      else (required, bytes, full)) (0, 0, 0) requirements in
  {| vs_total_transactions := total_transactions;
     vs_witness_required_count := witness_required_count;
     vs_witness_free_count := u64_saturating_sub total_transactions witness_required_count;
     vs_total_witness_bytes := total_witness_bytes;
     vs_avg_witness_bytes_per_tx :=
       if total_transactions =? 0 then f64_zero
       else f64_div (f64_of_u64 total_witness_bytes) (f64_of_u64 total_transactions);
     vs_bandwidth_reduction_percent := estimate_bandwidth_savings full_witness_bytes total_witness_bytes;
     vs_state_storage_reduction_percent :=
       estimate_bandwidth_savings (vo_full_state_size_mb config) (vo_partial_state_size_mb config) |}.
(** What the hasher is fed. *)
(* eth2077-types/src/vops.rs:172-181 compute_witness_commitment *)
Definition requirement_preimage {SU : SortUnstable} (req : WitnessRequirement) : list Z :=
  wr_tx_hash req ++ concat (sorted_keys (wr_needed_state_keys req)) ++ to_le_bytes 8 (wr_witness_size_bytes req).
(* eth2077-types/src/vops.rs:171-187 compute_witness_commitment *)
Definition compute_witness_commitment `{Sha256} {SU : SortUnstable} (req : WitnessRequirement) : list Z :=
  sha256 (requirement_preimage req).

(** ** Who needs a witness *)

Lemma witness_need_exact {HO : HashOrder} categories c :
  classify_witness_need categories c = false ↔ categories ⊆ vo_retained_categories c.
Proof.
  unfold classify_witness_need. rewrite <- not_true_iff_false, existsb_exists. setoid_rewrite <- list_elem_of_In.
  setoid_rewrite elem_of_hash_set_iter. setoid_rewrite negb_true_iff. setoid_rewrite bool_decide_eq_false.
  split.
  - intros Hno x Hx. destruct (decide (x ∈ vo_retained_categories c)) as [|Hn]; [done|]. destruct Hno. by exists x.
  - intros Hsub (x & Hx & Hn). by apply Hn, Hsub.
Qed.
(** The statistics split the transactions into those that need a witness and those whose
    categories are all retained, whatever the order of the sets, and add up the bytes of the
    former. *)
Lemma vops_stats_exact {HO : HashOrder} requirements c :
  Forall (λ req, 0 ≤ wr_witness_size_bytes req) requirements →
  Zsum (wr_witness_size_bytes <$> requirements) ≤ u64_max →
  let needy := filter (λ req, ¬ wr_categories_accessed req ⊆ vo_retained_categories c) requirements in
  vs_witness_required_count (compute_vops_stats requirements c) = len needy ∧
  vs_witness_free_count (compute_vops_stats requirements c) = len requirements - len needy ∧
  vs_total_witness_bytes (compute_vops_stats requirements c) = Zsum (wr_witness_size_bytes <$> needy).
Proof.
  intros Hnn Hsum. cbv zeta.
  assert (∀ r b f, 0 ≤ b ≤ f → f + Zsum (wr_witness_size_bytes <$> requirements) ≤ u64_max →
    foldl (λ '(required, bytes, full) req,
      let full := u64_wrapping_add full (wr_witness_size_bytes req) in
      if classify_witness_need (wr_categories_accessed req) c
      then (required + 1, u64_wrapping_add bytes (wr_witness_size_bytes req), full)
      else (required, bytes, full)) (r, b, f) requirements =
    (r + len (filter (λ req, ¬ wr_categories_accessed req ⊆ vo_retained_categories c) requirements),
     b + Zsum (wr_witness_size_bytes <$>
       filter (λ req, ¬ wr_categories_accessed req ⊆ vo_retained_categories c) requirements),
     f + Zsum (wr_witness_size_bytes <$> requirements))) as Hloop.
  { clear Hsum. induction Hnn as [|req l Hreq Hl IH]; intros r b f Hb Hf; csimpl in *; [unfold len; simpl; f_equal; [f_equal|]; lia|].
    pose proof (Zsum_nonneg (wr_witness_size_bytes <$> l) ltac:(by apply Forall_fmap)).
    assert (∀ x, 0 ≤ x ≤ f → u64_wrapping_add x (wr_witness_size_bytes req) = x + wr_witness_size_bytes req) as Hadd.
    { intros x Hx. unfold u64_wrapping_add. rewrite Z.mod_small; lia. }
    rewrite filter_cons. destruct (classify_witness_need (wr_categories_accessed req) c) eqn:Hneed.
    - rewrite decide_True by (rewrite <- (witness_need_exact (HO := HO)); congruence).
      rewrite !Hadd, IH by lia. unfold len. csimpl. f_equal; [f_equal|]; lia.
    - rewrite decide_False by (rewrite <- (witness_need_exact (HO := HO)); tauto).
      rewrite !Hadd, IH by lia. f_equal; lia. }
  unfold compute_vops_stats. rewrite Hloop by lia.
  cbn [vs_witness_required_count vs_witness_free_count vs_total_witness_bytes].
  assert (len (filter (λ req, ¬ wr_categories_accessed req ⊆ vo_retained_categories c) requirements) ≤ len requirements).
  { unfold len. pose proof (length_filter (λ req, ¬ wr_categories_accessed req ⊆ vo_retained_categories c) requirements). lia. }
  split_and!; sat_lia.
Qed.

(** ** The commitment *)

Record typed_requirement (req : WitnessRequirement) : Prop := {
  typed_hash : key32 (wr_tx_hash req);
  typed_keys : Forall key32 (wr_needed_state_keys req);
  typed_bytes : is_u64 (wr_witness_size_bytes req);
}.
(** The commitment binds the transaction, the keys it needs, up to their order, and the size. *)
Lemma witness_commitment_binding `{Sha256} {SU : SortUnstable} r1 r2 :
  typed_requirement r1 → typed_requirement r2 →
  compute_witness_commitment r1 = compute_witness_commitment r2 →
  binds requirement_preimage (λ a b, wr_tx_hash a = wr_tx_hash b ∧
    wr_needed_state_keys a ≡ₚ wr_needed_state_keys b ∧ wr_witness_size_bytes a = wr_witness_size_bytes b) r1 r2.
Proof.
  intros [Hh1 Hk1 Hs1] [Hh2 Hk2 Hs2] Heq. apply binds_intro; [|done]. unfold requirement_preimage. clear Heq.
  intros [Hh Heq]%app_inj_1; [|congruence]. apply app_inj_2 in Heq as [Hk Hs]; [|by rewrite !length_to_le_bytes].
  split; [done|]. split; [by eapply sorted_keys_inj|].
  apply (prefix_inj_eq _ _ _ _ prefix_inj_le_u64) in Hs; done.
Qed.


(** ** Examples *)

Example vops_example :
  let req accessed size := {| wr_tx_hash := []; wr_needed_state_keys := []; wr_witness_size_bytes := size;
    wr_categories_accessed := accessed; wr_requires_witness := false |} in
  let stats := @compute_vops_stats map_to_list_order
    [req {[AccountBalance]} 100; req {[AccountNonce; StorageSlot]} 300] default_vops_config in
  vs_witness_free_count stats = 1 ∧ vs_total_witness_bytes stats = 300 ∧
  vs_bandwidth_reduction_percent stats = int 25 ∧ vs_state_storage_reduction_percent stats = dec 9375 100.
Proof. vm_compute. split_and!; reflexivity. Qed.

(** ** Part 2 *)

(** ** Blob streaming *)

(* eth2077-types/src/blob_streaming.rs:5-5 CHUNK_SIZE_BYTES *)
Definition CHUNK_SIZE_BYTES : Z := 4096.
(* eth2077-types/src/blob_streaming.rs:8-19 BlobPropagationMode *)
Inductive BlobPropagationMode := PostBlock | Sidecar | InterleavedStream | PushBased | DASampled.
(* eth2077-types/src/blob_streaming.rs:22-27 DASStrategy *)
Inductive DASStrategy := FullDownload | RowColumn2D | RandomSampling | PeerDAS.
(* eth2077-types/src/blob_streaming.rs:30-41 BlobStreamConfig *)
Record BlobStreamConfig := {
  bs_blobs_per_block : Z;
  bs_blob_size_bytes : Z;
  bs_propagation_mode : BlobPropagationMode;
  bs_das_strategy : DASStrategy;
  bs_target_da_bandwidth_mbps : f64;
  bs_max_blob_latency_ms : Z;
  bs_erasure_coding_rate : f64;
  bs_sample_count : Z;
}.
(* eth2077-types/src/blob_streaming.rs:44-60 BlobStreamValidationError *)
Inductive BlobStreamValidationError :=
| ZeroBlobs
| ZeroBlobSize
| BandwidthTooLow (required_mbps available_mbps : Str)
| InvalidErasureRate
| SampleCountExceedsTotal (samples total_chunks : Z)
| LatencyBudgetExceeded (estimated_ms max_ms : Str).
(* eth2077-types/src/blob_streaming.rs:63-71 BlobStreamStats *)
Record BlobStreamStats := {
  bss_total_da_bytes_per_block : Z;
  bss_effective_da_throughput_mbps : f64;
  bss_bandwidth_utilization : f64;
  bss_estimated_propagation_ms : f64;
  bss_das_security_bits : f64;
  bss_mode_comparison : list (Str * f64);
}.
(* eth2077-types/src/blob_streaming.rs:73-84 default_blob_stream_config *)
Definition default_blob_stream_config : BlobStreamConfig :=
  {| bs_blobs_per_block := 6; bs_blob_size_bytes := 131072; bs_propagation_mode := Sidecar; bs_das_strategy := PeerDAS;
     bs_target_da_bandwidth_mbps := int 10; bs_max_blob_latency_ms := 2000; bs_erasure_coding_rate := dec 5 10;
     bs_sample_count := 75 |}.
(** [{:?}] *)
Definition mode_debug (mode : BlobPropagationMode) : Str :=
  match mode with
  | PostBlock => str "PostBlock" | Sidecar => str "Sidecar" | InterleavedStream => str "InterleavedStream"
  | PushBased => str "PushBased" | DASampled => str "DASampled"
  end.
(* eth2077-types/src/blob_streaming.rs:241-249 all_modes *)
Definition all_modes : list BlobPropagationMode := [PostBlock; Sidecar; InterleavedStream; PushBased; DASampled].
(* eth2077-types/src/blob_streaming.rs:251-255 total_da_bytes_per_block *)
Definition total_da_bytes_per_block (c : BlobStreamConfig) : Z :=
  u64_saturating_mul (bs_blobs_per_block c) (bs_blob_size_bytes c).
(* eth2077-types/src/blob_streaming.rs:271-277 sanitize_erasure_rate *)
Definition sanitize_erasure_rate (rate : f64) : f64 :=
  if f64_is_finite rate && f64_lt f64_zero rate then f64_min rate (int 1) else int 1.
(* eth2077-types/src/blob_streaming.rs:257-259 encoded_da_bytes *)
Definition encoded_da_bytes (c : BlobStreamConfig) : f64 :=
  f64_div (f64_of_u64 (total_da_bytes_per_block c)) (sanitize_erasure_rate (bs_erasure_coding_rate c)).
Definition div_ceil (a b : Z) : Z := (a + b - 1) / b.
(* eth2077-types/src/blob_streaming.rs:261-269 total_erasure_chunks *)
Definition total_erasure_chunks (c : BlobStreamConfig) : Z :=
  if total_da_bytes_per_block c =? 0 then 0 else
  Z.max (div_ceil (f64_to_u64 (f64_ceil (encoded_da_bytes c))) CHUNK_SIZE_BYTES) 1.
(* eth2077-types/src/blob_streaming.rs:279-290 strategy_download_fraction *)
Definition strategy_download_fraction (c : BlobStreamConfig) : f64 :=
  let total_chunks := f64_of_u64 (Z.max (total_erasure_chunks c) 1) in
  let samples := f64_of_u64 (bs_sample_count c) in
  match bs_das_strategy c with
  | FullDownload => int 1
  | RowColumn2D => dec 6 10
  | RandomSampling => f64_clamp (f64_div samples total_chunks) (dec 2 100) (int 1)
  | PeerDAS => f64_clamp (f64_div (f64_mul samples (dec 125 100)) total_chunks) (dec 5 100) (dec 85 100)
  end.
(** The maps of constants are keyed by every mode: the defaults are not reached. *)
(* eth2077-types/src/blob_streaming.rs:292-302 mode_latency_factor *)
Definition mode_latency_factor (mode : BlobPropagationMode) : f64 :=
  match mode with
  | PostBlock => dec 135 100 | Sidecar => dec 110 100 | InterleavedStream => dec 90 100 | PushBased => dec 78 100
  | DASampled => dec 62 100
  end.
(* eth2077-types/src/blob_streaming.rs:304-314 per_blob_overhead_ms *)
Definition per_blob_overhead_ms (mode : BlobPropagationMode) : f64 :=
  match mode with
  | PostBlock => int 22 | Sidecar => int 14 | InterleavedStream => int 9 | PushBased => int 7 | DASampled => int 8
  end.
(* eth2077-types/src/blob_streaming.rs:316-323 strategy_base_overhead_ms *)
Definition strategy_base_overhead_ms (strategy : DASStrategy) : f64 :=
  match strategy with FullDownload => int 120 | RowColumn2D => int 92 | RandomSampling => int 70 | PeerDAS => int 95 end.
(* eth2077-types/src/blob_streaming.rs:325-332 strategy_security_weight *)
Definition strategy_security_weight (strategy : DASStrategy) : f64 :=
  match strategy with
  | FullDownload => int 2 | RowColumn2D => dec 135 100 | RandomSampling => int 1 | PeerDAS => dec 12 10
  end.
(* eth2077-types/src/blob_streaming.rs:334-340 required_bandwidth_mbps *)
Definition required_bandwidth_mbps (c : BlobStreamConfig) : f64 :=
  let budget_s := f64_div (f64_of_u64 (Z.max (bs_max_blob_latency_ms c) 1)) (int 1000) in
  let bytes_needed := f64_mul (encoded_da_bytes c) (strategy_download_fraction c) in
  f64_div (f64_mul (f64_mul bytes_needed (int 8)) (mode_latency_factor (bs_propagation_mode c)))
    (f64_mul budget_s (int 1000000)).
(* eth2077-types/src/blob_streaming.rs:160-174 estimate_propagation_latency *)
Definition estimate_propagation_latency (c : BlobStreamConfig) : f64 :=
  let target_mbps := f64_maximum (bs_target_da_bandwidth_mbps c) (dec 1 1000) in
  let transfer_megabits :=
    f64_div (f64_mul (f64_mul (encoded_da_bytes c) (strategy_download_fraction c)) (int 8)) (int 1000000) in
  let transfer_ms := f64_mul (f64_div transfer_megabits target_mbps) (int 1000) in
  let blob_scheduling_ms := f64_mul (per_blob_overhead_ms (bs_propagation_mode c)) (f64_of_u64 (bs_blobs_per_block c)) in
  let chunking_ms := f64_mul (f64_sqrt (f64_of_u64 (total_erasure_chunks c))) (dec 15 10) in
  f64_add (f64_add (f64_add (f64_mul transfer_ms (mode_latency_factor (bs_propagation_mode c))) blob_scheduling_ms)
    (strategy_base_overhead_ms (bs_das_strategy c))) chunking_ms.
(* eth2077-types/src/blob_streaming.rs:86-137 validate_blob_stream_config *)
Definition validate_blob_stream_config (c : BlobStreamConfig) : result unit (list BlobStreamValidationError) :=
  let rate := bs_erasure_coding_rate c in
  let total_chunks := total_erasure_chunks c in
  let required_mbps := required_bandwidth_mbps c in
  let available := bs_target_da_bandwidth_mbps c in
  let estimated_ms := estimate_propagation_latency c in
  let max_ms := f64_of_u64 (bs_max_blob_latency_ms c) in
  errors_to_result (
    push_if (bs_blobs_per_block c =? 0) ZeroBlobs ++
    push_if (bs_blob_size_bytes c =? 0) ZeroBlobSize ++
    push_if (negb (f64_is_finite rate) || f64_le rate f64_zero || f64_lt (int 1) rate) InvalidErasureRate ++
    push_if (total_chunks <? bs_sample_count c) (SampleCountExceedsTotal (bs_sample_count c) total_chunks) ++
    push_if (negb (f64_is_finite available) || f64_lt available required_mbps)
      (BandwidthTooLow (f64_fixed 3 required_mbps) (f64_fixed 3 available)) ++
    push_if (f64_lt max_ms estimated_ms) (LatencyBudgetExceeded (f64_fixed 2 estimated_ms) (f64_fixed 2 max_ms))).
(** Bytes in a time in milliseconds, as megabits per second. *)
(* eth2077-types/src/blob_streaming.rs:142-143 compute_blob_stream_stats *)
Definition throughput_mbps (c : BlobStreamConfig) (latency_ms : f64) : f64 :=
  f64_div (f64_div (f64_mul (f64_of_u64 (total_da_bytes_per_block c)) (int 8)) (f64_div latency_ms (int 1000))) (int 1000000).
Definition in_mode (mode : BlobPropagationMode) (c : BlobStreamConfig) : BlobStreamConfig :=
  {| bs_blobs_per_block := bs_blobs_per_block c; bs_blob_size_bytes := bs_blob_size_bytes c; bs_propagation_mode := mode;
     bs_das_strategy := bs_das_strategy c; bs_target_da_bandwidth_mbps := bs_target_da_bandwidth_mbps c;
     bs_max_blob_latency_ms := bs_max_blob_latency_ms c; bs_erasure_coding_rate := bs_erasure_coding_rate c;
     bs_sample_count := bs_sample_count c |}.
(* eth2077-types/src/blob_streaming.rs:193-215 compare_propagation_modes *)
Definition compare_propagation_modes (c : BlobStreamConfig) : list (Str * f64) :=
  (λ mode, (mode_debug mode,
     throughput_mbps (in_mode mode c) (f64_maximum (estimate_propagation_latency (in_mode mode c)) (int 1)))) <$> all_modes.
(* eth2077-types/src/blob_streaming.rs:176-191 compute_das_security *)
Definition compute_das_security `{Libm} (c : BlobStreamConfig) : f64 :=
  if bs_sample_count c =? 0 then f64_zero else
  let rate := sanitize_erasure_rate (bs_erasure_coding_rate c) in
  let hidden_fraction := f64_clamp (f64_sub (int 1) rate) (dec 1 100) (dec 99 100) in
  let effective_samples := f64_mul (f64_of_u64 (bs_sample_count c)) (strategy_security_weight (bs_das_strategy c)) in
  let miss_probability :=
    f64_clamp (f64_powf (f64_sub (int 1) hidden_fraction) effective_samples) (dec 1 (10 ^ 18)) (int 1) in
  f64_log2 (f64_div (int 1) miss_probability).
(* eth2077-types/src/blob_streaming.rs:139-158 compute_blob_stream_stats *)
Definition compute_blob_stream_stats `{Libm} (c : BlobStreamConfig) : BlobStreamStats :=
  let estimated_propagation_ms := f64_maximum (estimate_propagation_latency c) (int 1) in
  let effective := throughput_mbps c estimated_propagation_ms in
  {| bss_total_da_bytes_per_block := total_da_bytes_per_block c;
     bss_effective_da_throughput_mbps := effective;
     bss_bandwidth_utilization :=
       if f64_lt f64_zero (bs_target_da_bandwidth_mbps c) then f64_div effective (bs_target_da_bandwidth_mbps c) else f64_zero;
     bss_estimated_propagation_ms := estimated_propagation_ms;
     bss_das_security_bits := compute_das_security c;
     bss_mode_comparison := compare_propagation_modes c |}.
(* eth2077-types/src/blob_streaming.rs:229-233 compute_blob_commitment *)
Definition blobs_preimage `{Sha256} {SU : SortUnstable} (blobs : list (list Z)) : list Z :=
  to_be_bytes 8 (len blobs) ++ concat (sorted_keys (sha256 <$> blobs)).
(* eth2077-types/src/blob_streaming.rs:217-239 compute_blob_commitment *)
Definition compute_blob_commitment `{Sha256} {SU : SortUnstable} (blobs : list (list Z)) : list Z := sha256 (blobs_preimage blobs).

(** ** Hyperscale state *)

(* eth2077-types/src/hyperscale_state.rs:6-12 StateType *)
Inductive StateType := PermanentState | TemporaryMonthly | TemporaryWeekly | UtxoBased | EphemeralState.
#[export] Instance StateType_eq_dec : EqDecision StateType.
Proof. solve_decision. Defined.
(* eth2077-types/src/hyperscale_state.rs:15-22 StateUseCase *)
Inductive StateUseCase := UserAccount | DeFiHub | TokenBalance | NftOwnership | TempComputation | CrossTxData.
(* eth2077-types/src/hyperscale_state.rs:25-32 StateAllocation *)
Record StateAllocation := {
  sa_state_type : StateType;
  sa_use_case : StateUseCase;
  sa_cost_per_slot_gas : Z;
  sa_max_slots : Z;
  sa_retention_period_days : Z;
  sa_storage_size_gb : f64;
}.
(* eth2077-types/src/hyperscale_state.rs:35-41 HyperscaleConfig *)
Record HyperscaleConfig := {
  hc_allocations : list StateAllocation;
  hc_permanent_state_budget_gb : f64;
  hc_temporary_state_budget_gb : f64;
  hc_target_scaling_factor : f64;
  hc_monthly_pruning_enabled : bool;
}.
(* eth2077-types/src/hyperscale_state.rs:44-51 HyperscaleValidationError *)
Inductive HyperscaleValidationError :=
| EmptyAllocations
| NoPermanentState
| ExceedsPermanentBudget (used_gb budget_gb : Str)
| ExceedsTempBudget (used_gb budget_gb : Str)
| UnrealisticScaling (factor : Str)
| ZeroCostAllocation (state_type : Str).
(* eth2077-types/src/hyperscale_state.rs:54-62 HyperscaleStats *)
Record HyperscaleStats := {
  hs_total_state_types : Z;
  hs_permanent_storage_gb : f64;
  hs_temporary_storage_gb : f64;
  hs_total_storage_gb : f64;
  hs_avg_cost_per_slot : f64;
  hs_effective_scaling_factor : f64;
  hs_cost_reduction_vs_permanent : f64;
}.
(* eth2077-types/src/hyperscale_state.rs:64-66 slots_for_gb *)
Definition slots_for_gb (storage_size_gb : f64) : Z :=
  f64_to_u64 (f64_div (f64_mul storage_size_gb (int 1000000000)) (int 32)).
(* eth2077-types/src/hyperscale_state.rs:68-76 state_type_discriminant *)
Definition state_type_discriminant (state_type : StateType) : Z :=
  match state_type with PermanentState => 0 | TemporaryMonthly => 1 | TemporaryWeekly => 2 | UtxoBased => 3 | EphemeralState => 4 end.
(* eth2077-types/src/hyperscale_state.rs:78-87 state_use_case_discriminant *)
Definition state_use_case_discriminant (use_case : StateUseCase) : Z :=
  match use_case with
  | UserAccount => 0 | DeFiHub => 1 | TokenBalance => 2 | NftOwnership => 3 | TempComputation => 4 | CrossTxData => 5
  end.
(** [{:?}] *)
Definition state_type_debug (state_type : StateType) : Str :=
  match state_type with
  | PermanentState => str "Permanent" | TemporaryMonthly => str "TemporaryMonthly" | TemporaryWeekly => str "TemporaryWeekly"
  | UtxoBased => str "UtxoBased" | EphemeralState => str "Ephemeral"
  end.
(* eth2077-types/src/hyperscale_state.rs:89-91 format_decimal *)
Definition format_decimal (value : f64) : Str := f64_fixed 3 value.
(* eth2077-types/src/hyperscale_state.rs:94-135 default_hyperscale_config *)
Definition default_allocation (state_type : StateType) (use_case : StateUseCase) (cost days gb : Z) : StateAllocation :=
  {| sa_state_type := state_type; sa_use_case := use_case; sa_cost_per_slot_gas := cost;
     sa_max_slots := slots_for_gb (int gb); sa_retention_period_days := days; sa_storage_size_gb := int gb |}.
(* eth2077-types/src/hyperscale_state.rs:93-144 default_hyperscale_config *)
Definition default_hyperscale_config : HyperscaleConfig :=
  {| hc_allocations :=
       [default_allocation PermanentState UserAccount 20000 0 12;
        default_allocation TemporaryMonthly TokenBalance 200 30 4096;
        default_allocation TemporaryWeekly TempComputation 50 7 2048;
        default_allocation UtxoBased NftOwnership 100 30 1024;
        default_allocation EphemeralState CrossTxData 10 1 512];
     hc_permanent_state_budget_gb := int 16; hc_temporary_state_budget_gb := int 8192;
     hc_target_scaling_factor := int 1000; hc_monthly_pruning_enabled := true |}.
(* eth2077-types/src/hyperscale_state.rs:164-174 validate_hyperscale_config *)
Definition used_gb (permanent : bool) (allocations : list StateAllocation) : f64 :=
  f64_sum (sa_storage_size_gb <$> filter (λ a, bool_decide (sa_state_type a = PermanentState) = permanent) allocations).
(* eth2077-types/src/hyperscale_state.rs:146-210 validate_hyperscale_config *)
Definition validate_hyperscale_config (c : HyperscaleConfig) : result unit (list HyperscaleValidationError) :=
  let allocations := hc_allocations c in
  let permanent_used_gb := used_gb true allocations in
  let temp_used_gb := used_gb false allocations in
  let factor := hc_target_scaling_factor c in
  errors_to_result (
    push_if (bool_decide (allocations = [])) EmptyAllocations ++
    push_if (negb (existsb (λ a, bool_decide (sa_state_type a = PermanentState)) allocations)) NoPermanentState ++
    push_if (f64_lt (hc_permanent_state_budget_gb c) permanent_used_gb)
      (ExceedsPermanentBudget (format_decimal permanent_used_gb) (format_decimal (hc_permanent_state_budget_gb c))) ++
    push_if (f64_lt (hc_temporary_state_budget_gb c) temp_used_gb)
      (ExceedsTempBudget (format_decimal temp_used_gb) (format_decimal (hc_temporary_state_budget_gb c))) ++
    push_if (f64_le factor f64_zero || f64_le (int 10000) factor) (UnrealisticScaling (format_decimal factor)) ++
    (a ← allocations; push_if (sa_cost_per_slot_gas a =? 0) (ZeroCostAllocation (state_type_debug (sa_state_type a))))).
(** The sums of one pass over the allocations: what is stored for ever and for a time, the
    cost of the slots and, in [u128], their number. *)
(* eth2077-types/src/hyperscale_state.rs:213-229 compute_hyperscale_stats *)
Definition tally_allocation (t : f64 * f64 * f64 * Z) (a : StateAllocation) : f64 * f64 * f64 * Z :=
  let '(permanent, temporary, cost, slots) := t in
  let cost := f64_add cost (f64_mul (f64_of_u64 (sa_cost_per_slot_gas a)) (f64_of_u64 (sa_max_slots a))) in
  let slots := slots + sa_max_slots a in
  if bool_decide (sa_state_type a = PermanentState) then (f64_add permanent (sa_storage_size_gb a), temporary, cost, slots)
  else (permanent, f64_add temporary (sa_storage_size_gb a), cost, slots).
(* eth2077-types/src/hyperscale_state.rs:212-259 compute_hyperscale_stats *)
Definition compute_hyperscale_stats (c : HyperscaleConfig) : HyperscaleStats :=
  let '(permanent, temporary, cost, slots) :=
    foldl tally_allocation (f64_zero, f64_zero, f64_zero, 0) (hc_allocations c) in
  let avg_cost_per_slot := if slots =? 0 then f64_zero else f64_div cost (f64_of_u64 slots) in
  {| hs_total_state_types := len (remove_dups (sa_state_type <$> hc_allocations c));
     hs_permanent_storage_gb := permanent;
     hs_temporary_storage_gb := temporary;
     hs_total_storage_gb := f64_add permanent temporary;
     hs_avg_cost_per_slot := avg_cost_per_slot;
     hs_effective_scaling_factor :=
       if f64_eq avg_cost_per_slot f64_zero then f64_zero else f64_div (int 20000) avg_cost_per_slot;
     hs_cost_reduction_vs_permanent :=
       if f64_eq avg_cost_per_slot f64_zero then int 100
       else f64_mul (f64_sub (int 1) (f64_div avg_cost_per_slot (int 20000))) (int 100) |}.
(* eth2077-types/src/hyperscale_state.rs:261-275 recommend_state_type *)
Definition recommend_state_type (use_case : StateUseCase) : StateType :=
  match use_case with
  | UserAccount | DeFiHub => PermanentState
  | TokenBalance | NftOwnership => TemporaryMonthly
  | TempComputation => TemporaryWeekly
  | CrossTxData => EphemeralState
  end.
(* eth2077-types/src/hyperscale_state.rs:279-284 allocation_digest *)
Definition allocation_preimage (a : StateAllocation) : list Z :=
  [state_type_discriminant (sa_state_type a)] ++ [state_use_case_discriminant (sa_use_case a)] ++
  to_be_bytes 8 (sa_cost_per_slot_gas a) ++ to_be_bytes 8 (sa_max_slots a) ++ to_be_bytes 8 (sa_retention_period_days a) ++
  to_be_bytes 8 (f64_to_bits (sa_storage_size_gb a)).
(* eth2077-types/src/hyperscale_state.rs:277-290 allocation_digest *)
Definition allocation_digest `{Sha256} (a : StateAllocation) : list Z := sha256 (allocation_preimage a).
(* eth2077-types/src/hyperscale_state.rs:293-299 compute_state_commitment *)
Definition state_preimage `{Sha256} {SU : SortUnstable} (allocations : list StateAllocation) : list Z :=
  concat (sorted_keys (allocation_digest <$> allocations)).
(* eth2077-types/src/hyperscale_state.rs:292-305 compute_state_commitment *)
Definition compute_state_commitment `{Sha256} {SU : SortUnstable} (allocations : list StateAllocation) : list Z :=
  sha256 (state_preimage allocations).
(* eth2077-types/src/hyperscale_state.rs:307-321 estimate_monthly_pruning_savings *)
Definition estimate_monthly_pruning_savings (c : HyperscaleConfig) : f64 :=
  if negb (hc_monthly_pruning_enabled c) then f64_zero else
  f64_sum ((λ a, f64_mul (sa_storage_size_gb a) (f64_div (int 30) (f64_of_u64 (sa_retention_period_days a)))) <$>
    filter (λ a, 0 < sa_retention_period_days a) (hc_allocations c)).

(** ** Shielded transfers *)

(* eth2077-types/src/shielded_transfers.rs:4-4 MAX_PROOF_SIZE_BYTES *)
Definition MAX_PROOF_SIZE_BYTES : Z := 131072.
(* eth2077-types/src/shielded_transfers.rs:5-5 MAX_PROVING_TIME_MS *)
Definition MAX_PROVING_TIME_MS : f64 := int 20000.
(* eth2077-types/src/shielded_transfers.rs:6-6 MIN_ANONYMITY_SET *)
Definition MIN_ANONYMITY_SET : Z := 64.
(* eth2077-types/src/shielded_transfers.rs:9-16 PrivacyProtocol *)
Inductive PrivacyProtocol :=
| ZKShielded | RingSignature | StealthAddress | ConfidentialTransaction | MixerBased | FullHomomorphic.
(* eth2077-types/src/shielded_transfers.rs:19-25 PrivacyLevel *)
Inductive PrivacyLevel := Transparent | SenderPrivate | ReceiverPrivate | AmountPrivate | FullyShielded.
(* eth2077-types/src/shielded_transfers.rs:28-34 ComplianceMode *)
Inductive ComplianceMode := NoCompliance | ViewKeyOptIn | RegulatoryBackdoor | ZKCompliance | SelectiveDisclosure.
(* eth2077-types/src/shielded_transfers.rs:37-46 ShieldedTransferConfig *)
Record ShieldedTransferConfig := {
  sh_protocol : PrivacyProtocol;
  sh_privacy_level : PrivacyLevel;
  sh_compliance_mode : ComplianceMode;
  sh_proof_size_bytes : Z;
  sh_proving_time_ms : f64;
  sh_verification_time_ms : f64;
  sh_max_anonymity_set : Z;
  sh_supports_programmability : bool;
}.
(* eth2077-types/src/shielded_transfers.rs:49-54 ShieldedValidationError *)
Inductive ShieldedValidationError :=
| ProofSizeTooLarge (size max : Z)
| ProvingTimeTooHigh (ms max : f64)
| AnonymitySetTooSmall (size min : Z)
| IncompatibleComplianceMode (protocol mode : Str).
(* eth2077-types/src/shielded_transfers.rs:57-65 ShieldedStats *)
Record ShieldedStats := {
  shs_effective_anonymity_set : Z;
  shs_throughput_tps : f64;
  shs_proof_overhead_pct : f64;
  shs_privacy_score : f64;
  shs_compliance_compatible : bool;
  shs_bottleneck : Str;
  shs_gas_cost_estimate : Z;
}.
(* eth2077-types/src/shielded_transfers.rs:67-78 default_shielded_config *)
Definition default_shielded_config : ShieldedTransferConfig :=
  {| sh_protocol := ZKShielded; sh_privacy_level := FullyShielded; sh_compliance_mode := ZKCompliance;
     sh_proof_size_bytes := 12288; sh_proving_time_ms := int 1800; sh_verification_time_ms := int 35;
     sh_max_anonymity_set := 131072; sh_supports_programmability := true |}.
(** [{:?}] *)
Definition protocol_debug (protocol : PrivacyProtocol) : Str :=
  match protocol with
  | ZKShielded => str "ZKShielded" | RingSignature => str "RingSignature" | StealthAddress => str "StealthAddress"
  | ConfidentialTransaction => str "ConfidentialTransaction" | MixerBased => str "MixerBased"
  | FullHomomorphic => str "FullHomomorphic"
  end.
Definition compliance_debug (mode : ComplianceMode) : Str :=
  match mode with
  | NoCompliance => str "NoCompliance" | ViewKeyOptIn => str "ViewKeyOptIn" | RegulatoryBackdoor => str "RegulatoryBackdoor"
  | ZKCompliance => str "ZKCompliance" | SelectiveDisclosure => str "SelectiveDisclosure"
  end.
(* eth2077-types/src/shielded_transfers.rs:209-225 is_compliance_mode_compatible *)
Definition is_compliance_mode_compatible (protocol : PrivacyProtocol) (mode : ComplianceMode) : bool :=
  match mode with
  | NoCompliance => true
  | ViewKeyOptIn => match protocol with RingSignature => false | _ => true end
  | RegulatoryBackdoor => match protocol with MixerBased | FullHomomorphic => false | _ => true end
  | ZKCompliance => match protocol with ZKShielded | ConfidentialTransaction | FullHomomorphic => true | _ => false end
  | SelectiveDisclosure => match protocol with MixerBased => false | _ => true end
  end.
(* eth2077-types/src/shielded_transfers.rs:80-118 validate_shielded_config *)
Definition validate_shielded_config (c : ShieldedTransferConfig) : result unit (list ShieldedValidationError) :=
  errors_to_result (
    push_if (MAX_PROOF_SIZE_BYTES <? sh_proof_size_bytes c) (ProofSizeTooLarge (sh_proof_size_bytes c) MAX_PROOF_SIZE_BYTES) ++
    push_if (negb (f64_is_finite (sh_proving_time_ms c)) || f64_lt MAX_PROVING_TIME_MS (sh_proving_time_ms c))
      (ProvingTimeTooHigh (sh_proving_time_ms c) MAX_PROVING_TIME_MS) ++
    push_if (sh_max_anonymity_set c <? MIN_ANONYMITY_SET) (AnonymitySetTooSmall (sh_max_anonymity_set c) MIN_ANONYMITY_SET) ++
    push_if (negb (is_compliance_mode_compatible (sh_protocol c) (sh_compliance_mode c)))
      (IncompatibleComplianceMode (protocol_debug (sh_protocol c)) (compliance_debug (sh_compliance_mode c)))).
(* eth2077-types/src/shielded_transfers.rs:159-174 estimate_anonymity_set *)
Definition estimate_anonymity_set (protocol : PrivacyProtocol) (max_set : Z) : Z :=
  if max_set =? 0 then 0 else
  let share n d := f64_to_u64 (f64_round (f64_mul (f64_of_u64 max_set) (dec n d))) in
  let estimated :=
    match protocol with
    | ZKShielded => share 90 100
    | RingSignature => Z.min max_set 2048
    | StealthAddress => share 18 100
    | ConfidentialTransaction => share 30 100
    | MixerBased => share 72 100
    | FullHomomorphic => share 96 100
    end in
  Z.min (Z.max estimated 1) max_set.
(* eth2077-types/src/shielded_transfers.rs:227-236 protocol_parallelism_factor *)
Definition protocol_parallelism_factor (protocol : PrivacyProtocol) : f64 :=
  match protocol with
  | ZKShielded => dec 155 100 | RingSignature => dec 140 100 | StealthAddress => dec 210 100
  | ConfidentialTransaction => dec 165 100 | MixerBased => dec 180 100 | FullHomomorphic => dec 82 100
  end.
(* eth2077-types/src/shielded_transfers.rs:238-273 privacy_score *)
Definition privacy_score `{Libm} (c : ShieldedTransferConfig) (effective_anonymity_set : Z) : f64 :=
  let base :=
    match sh_privacy_level c with
    | Transparent => int 20 | SenderPrivate => int 45 | ReceiverPrivate => int 50 | AmountPrivate => int 70
    | FullyShielded => int 88
    end in
  let protocol_bonus :=
    match sh_protocol c with
    | ZKShielded => int 7 | RingSignature => int 5 | StealthAddress => int 3 | ConfidentialTransaction => int 6
    | MixerBased => int 4 | FullHomomorphic => int 9
    end in
  let anonymity_bonus :=
    f64_mul (f64_clamp (f64_div (f64_log2 (f64_of_u64 (Z.max effective_anonymity_set 1))) (int 16)) f64_zero (int 1)) (int 12) in
  let programmability_bonus := if sh_supports_programmability c then int 2 else f64_zero in
  let compliance_penalty :=
    match sh_compliance_mode c with
    | NoCompliance => f64_zero | ViewKeyOptIn => int 2 | RegulatoryBackdoor => int 12 | ZKCompliance => int 3
    | SelectiveDisclosure => int 6
    end in
  f64_clamp (f64_sub (f64_add (f64_add (f64_add base protocol_bonus) anonymity_bonus) programmability_bonus) compliance_penalty)
    f64_zero (int 100).
(** The pressures, that of the proving time first. *)
(* eth2077-types/src/shielded_transfers.rs:276-290 classify_bottleneck *)
Definition pressures (c : ShieldedTransferConfig) (effective_anonymity_set : Z) : list (Str * f64) :=
  [(str "ProvingTime", f64_div (f64_maximum (sh_proving_time_ms c) f64_zero) (int 4000));
   (str "ProofSize", f64_div (f64_of_u64 (sh_proof_size_bytes c)) (int 48000));
   (str "VerificationTime", f64_div (f64_maximum (sh_verification_time_ms c) f64_zero) (int 110));
   (str "AnonymitySet",
    if effective_anonymity_set =? 0 then int 2
    else f64_clamp (f64_div (f64_of_u64 MIN_ANONYMITY_SET) (f64_of_u64 effective_anonymity_set)) f64_zero (dec 15 10))].
(* eth2077-types/src/shielded_transfers.rs:285-296 classify_bottleneck *)
Definition greatest (best : Str * f64) (candidate : Str * f64) : Str * f64 :=
  if f64_lt best.2 candidate.2 then candidate else best.
(* eth2077-types/src/shielded_transfers.rs:275-299 classify_bottleneck *)
Definition classify_bottleneck (c : ShieldedTransferConfig) (effective_anonymity_set : Z) : Str :=
  match pressures c effective_anonymity_set with
  | first :: rest => (foldl greatest first rest).1
  | [] => []
  end.
(* eth2077-types/src/shielded_transfers.rs:301-327 estimate_gas_cost *)
Definition estimate_gas_cost (c : ShieldedTransferConfig) : Z :=
  let base_cost :=
    f64_add (f64_add (f64_add (int 21000) (f64_mul (f64_of_u64 (sh_proof_size_bytes c)) (dec 55 10)))
      (f64_mul (f64_maximum (sh_verification_time_ms c) f64_zero) (int 260)))
      (f64_mul (f64_maximum (sh_proving_time_ms c) f64_zero) (int 9)) in
  let protocol_multiplier :=
    match sh_protocol c with
    | ZKShielded => dec 210 100 | RingSignature => dec 170 100 | StealthAddress => dec 125 100
    | ConfidentialTransaction => dec 185 100 | MixerBased => dec 155 100 | FullHomomorphic => dec 340 100
    end in
  let compliance_multiplier :=
    match sh_compliance_mode c with
    | NoCompliance => int 1 | ViewKeyOptIn => dec 104 100 | RegulatoryBackdoor => dec 108 100 | ZKCompliance => dec 113 100
    | SelectiveDisclosure => dec 106 100
    end in
  f64_to_u64 (f64_round (f64_clamp (f64_mul (f64_mul base_cost protocol_multiplier) compliance_multiplier) f64_zero
    (f64_of_u64 u64_max))).
(* eth2077-types/src/shielded_transfers.rs:120-146 compute_shielded_stats *)
Definition compute_shielded_stats `{Libm} (c : ShieldedTransferConfig) : ShieldedStats :=
  let effective_anonymity_set := estimate_anonymity_set (sh_protocol c) (sh_max_anonymity_set c) in
  let proving_time_ms := f64_maximum (sh_proving_time_ms c) (int 1) in
  let verification_time_ms := f64_maximum (sh_verification_time_ms c) (dec 1 10) in
  let proof_size := f64_of_u64 (sh_proof_size_bytes c) in
  let pipeline_ms :=
    f64_add (f64_add (f64_mul proving_time_ms (dec 35 100)) (f64_mul verification_time_ms (dec 35 10)))
      (f64_div proof_size (int 1500)) in
  {| shs_effective_anonymity_set := effective_anonymity_set;
     shs_throughput_tps :=
       f64_maximum (f64_mul (f64_div (int 1000) (f64_maximum pipeline_ms (int 1))) (protocol_parallelism_factor (sh_protocol c)))
         (dec 1 100);
     shs_proof_overhead_pct := f64_maximum (f64_mul (f64_div proof_size (int 220)) (int 100)) f64_zero;
     shs_privacy_score := privacy_score c effective_anonymity_set;
     shs_compliance_compatible := is_compliance_mode_compatible (sh_protocol c) (sh_compliance_mode c);
     shs_bottleneck := classify_bottleneck c effective_anonymity_set;
     shs_gas_cost_estimate := estimate_gas_cost c |}.
(* eth2077-types/src/shielded_transfers.rs:198-207 all_privacy_protocols *)
Definition all_privacy_protocols : list PrivacyProtocol :=
  [ZKShielded; RingSignature; StealthAddress; ConfidentialTransaction; MixerBased; FullHomomorphic].
Definition with_protocol (protocol : PrivacyProtocol) (c : ShieldedTransferConfig) : ShieldedTransferConfig :=
  {| sh_protocol := protocol; sh_privacy_level := sh_privacy_level c; sh_compliance_mode := sh_compliance_mode c;
     sh_proof_size_bytes := sh_proof_size_bytes c; sh_proving_time_ms := sh_proving_time_ms c;
     sh_verification_time_ms := sh_verification_time_ms c; sh_max_anonymity_set := sh_max_anonymity_set c;
     sh_supports_programmability := sh_supports_programmability c |}.
(* eth2077-types/src/shielded_transfers.rs:148-157 compare_privacy_protocols *)
Definition compare_privacy_protocols `{Libm} (c : ShieldedTransferConfig) : list (Str * ShieldedStats) :=
  (λ protocol, (protocol_debug protocol, compute_shielded_stats (with_protocol protocol c))) <$> all_privacy_protocols.
(* eth2077-types/src/shielded_transfers.rs:329-338 privacy_protocol_discriminant *)
Definition privacy_protocol_discriminant (protocol : PrivacyProtocol) : Z :=
  match protocol with
  | ZKShielded => 0 | RingSignature => 1 | StealthAddress => 2 | ConfidentialTransaction => 3 | MixerBased => 4
  | FullHomomorphic => 5
  end.
(* eth2077-types/src/shielded_transfers.rs:340-348 privacy_level_discriminant *)
Definition privacy_level_discriminant (level : PrivacyLevel) : Z :=
  match level with Transparent => 0 | SenderPrivate => 1 | ReceiverPrivate => 2 | AmountPrivate => 3 | FullyShielded => 4 end.
(* eth2077-types/src/shielded_transfers.rs:350-358 compliance_mode_discriminant *)
Definition compliance_mode_discriminant (mode : ComplianceMode) : Z :=
  match mode with
  | NoCompliance => 0 | ViewKeyOptIn => 1 | RegulatoryBackdoor => 2 | ZKCompliance => 3 | SelectiveDisclosure => 4
  end.
(* eth2077-types/src/shielded_transfers.rs:178-190 compute_shielded_commitment *)
Definition shielded_preimage (c : ShieldedTransferConfig) : list Z :=
  str "ETH2077-SHIELDED-V1" ++ [privacy_protocol_discriminant (sh_protocol c)] ++
  [privacy_level_discriminant (sh_privacy_level c)] ++ [compliance_mode_discriminant (sh_compliance_mode c)] ++
  to_be_bytes 8 (sh_proof_size_bytes c) ++ to_be_bytes 8 (f64_to_bits (sh_proving_time_ms c)) ++
  to_be_bytes 8 (f64_to_bits (sh_verification_time_ms c)) ++ to_be_bytes 8 (sh_max_anonymity_set c) ++
  [if sh_supports_programmability c then 1 else 0].
(* eth2077-types/src/shielded_transfers.rs:176-196 compute_shielded_commitment *)
Definition compute_shielded_commitment `{Sha256} (c : ShieldedTransferConfig) : list Z := sha256 (shielded_preimage c).

(** ** Blob streaming: estimates and commitment *)

Lemma sanitized_rate rate : f64_le (sanitize_erasure_rate rate) (int 1) = true ∧ f64_lt f64_zero (sanitize_erasure_rate rate) = true.
Proof.
  unfold sanitize_erasure_rate. destruct (f64_is_finite rate) eqn:Hf; [|done]. destruct (f64_lt f64_zero rate) eqn:Hp; [|done].
  cbn [andb]. unfold f64_min. change (f64_is_nan (int 1)) with false.
  destruct (f64_is_nan rate) eqn:Hn; [by destruct rate|]. destruct (f64_lt rate (int 1)) eqn:Hlt; [|by vm_compute].
  split; [|done]. unfold f64_lt, f64_le, SFltb, SFleb in *. by destruct (SFcompare rate (int 1)) as [[]|].
Qed.
(** What is downloaded of the chunks is a fraction that is never nothing. *)
Lemma download_fraction_between c :
  is_u64 (bs_sample_count c) → is_u64 (total_erasure_chunks c) →
  f64_le (dec 2 100) (strategy_download_fraction c) = true ∧ f64_le (strategy_download_fraction c) (int 1) = true.
Proof.
  intros Hs Ht. unfold strategy_download_fraction.
  assert (Hmag : mag_le 65 (f64_of_u64 (bs_sample_count c))) by (apply (f64_of_u64_mag _ 64); [unfold is_u64 in Hs; lia|lia]).
  destruct (bs_das_strategy c); [(by vm_compute)..| |].
  - assert (Hfin : finite_double (f64_div (f64_of_u64 (bs_sample_count c)) (f64_of_u64 (Z.max (total_erasure_chunks c) 1)))).
    { eapply mag_le_finite, (f64_div_int_mag 65); [done|unfold is_u64 in Ht; clear -Ht; lia|lia]. }
    by destruct (clamped_between _ (dec 2 100) (int 1) Hfin) as (_ & ? & ?); [(by vm_compute)..|].
  - assert (Hfin : finite_double (f64_div (f64_mul (f64_of_u64 (bs_sample_count c)) (dec 125 100))
        (f64_of_u64 (Z.max (total_erasure_chunks c) 1)))).
    { eapply mag_le_finite, (f64_div_int_mag 67); [|unfold is_u64 in Ht; clear -Ht; lia|lia].
      apply (f64_mul_mag 65 1); [done|const_mag|lia]. }
    destruct (clamped_between _ (dec 5 100) (dec 85 100) Hfin) as (Hf & Hlo & Hhi); [(by vm_compute)..|].
    rewrite f64_le_units in Hlo, Hhi by (done || by vm_compute). rewrite !f64_le_units by (done || by vm_compute).
    split; [transitivity (units (dec 5 100)); [by vm_compute|done]|transitivity (units (dec 85 100)); [done|by vm_compute]].
Qed.
(** The throughput of a configuration is among those it is compared with. *)
Lemma own_mode_compared `{Libm} c :
  (mode_debug (bs_propagation_mode c), bss_effective_da_throughput_mbps (compute_blob_stream_stats c)) ∈
  bss_mode_comparison (compute_blob_stream_stats c).
Proof.
  apply list_elem_of_fmap. exists (bs_propagation_mode c). split; [by destruct c|].
  destruct (bs_propagation_mode c); repeat constructor.
Qed.
Section hash_lists.
Context `{Sha256} (sha256_length : ∀ bytes, length (sha256 bytes) = 32%nat).

Lemma hashes_key32 {A} (hash : A → list Z) (l : list A) :
  (∀ a, ∃ bytes, hash a = sha256 bytes) → Forall key32 (hash <$> l).
Proof. intros Hh. apply Forall_fmap, Forall_true. intros a. unfold key32. cbn. destruct (Hh a) as [bytes ->]. done. Qed.
(** the commitment to the blobs of a block depends on which blobs they are, not on their
    order or on how the unstable sort treats equal hashes; and blobs with one commitment have
    the same hashes, each as often, or SHA-256 collides. *)
Theorem blob_commitment_exact (SU1 SU2 : SortUnstable) (blobs1 blobs2 : list (list Z)) :
  is_u64 (len blobs1) → is_u64 (len blobs2) →
  (blobs1 ≡ₚ blobs2 → compute_blob_commitment (SU := SU1) blobs1 = compute_blob_commitment (SU := SU2) blobs2) ∧
  (compute_blob_commitment (SU := SU1) blobs1 = compute_blob_commitment (SU := SU2) blobs2 →
   sha256 <$> blobs1 ≡ₚ sha256 <$> blobs2 ∨
   (blobs_preimage (SU := SU1) blobs1 ≠ blobs_preimage (SU := SU2) blobs2 ∧
    sha256 (blobs_preimage (SU := SU1) blobs1) = sha256 (blobs_preimage (SU := SU2) blobs2))).
Proof.
  intros Hn1 Hn2. split.
  - intros Hp. unfold compute_blob_commitment, blobs_preimage, len.
    rewrite (sorted_keys_unique SU1 SU2 (sha256 <$> blobs1) (sha256 <$> blobs2)) by (by rewrite Hp). by rewrite Hp.
  - intros Hhash. destruct (decide (blobs_preimage (SU := SU1) blobs1 = blobs_preimage (SU := SU2) blobs2)) as [Heq|Hne];
      [left|by right]. unfold blobs_preimage in Heq. apply prefix_inj_u64 in Heq as [_ Heq]; [|done..].
    apply (sorted_keys_inj SU1 SU2); [apply hashes_key32; eauto..|done].
Qed.
Lemma allocation_preimage_inj a b :
  is_u64 (sa_cost_per_slot_gas a) → is_u64 (sa_max_slots a) → is_u64 (sa_retention_period_days a) →
  is_u64 (sa_cost_per_slot_gas b) → is_u64 (sa_max_slots b) → is_u64 (sa_retention_period_days b) →
  valid_binary 53 1024 (sa_storage_size_gb a) = true → valid_binary 53 1024 (sa_storage_size_gb b) = true →
  allocation_preimage a = allocation_preimage b → a = b.
Proof.
  destruct a as [ta ua ca sa ra ga], b as [tb ub cb sb rb gb].
  cbn [sa_state_type sa_use_case sa_cost_per_slot_gas sa_max_slots sa_retention_period_days sa_storage_size_gb].
  intros ???????? Heq. unfold allocation_preimage in Heq.
  cbn [sa_state_type sa_use_case sa_cost_per_slot_gas sa_max_slots sa_retention_period_days sa_storage_size_gb] in Heq.
  apply app_inj_1 in Heq as [[= Ht] Heq]; [|done]. apply app_inj_1 in Heq as [[= Hu] Heq]; [|done].
  do 3 (apply prefix_inj_u64 in Heq as [-> Heq]; [|done..]).
  apply (prefix_inj_eq _ _ _ _ prefix_inj_bits_be) in Heq as ->; [|done..].
  assert (ta = tb) as -> by (by destruct ta, tb). assert (ua = ub) as -> by (by destruct ua, ub). done.
Qed.
(** The commitment to the allocations, which has no length before the digests: their number
    shows in the number of bytes. *)
Lemma state_commitment_exact (SU1 SU2 : SortUnstable) (l1 l2 : list StateAllocation) :
  (l1 ≡ₚ l2 → compute_state_commitment (SU := SU1) l1 = compute_state_commitment (SU := SU2) l2) ∧
  (state_preimage (SU := SU1) l1 = state_preimage (SU := SU2) l2 → allocation_digest <$> l1 ≡ₚ allocation_digest <$> l2).
Proof.
  split.
  - intros Hp. unfold compute_state_commitment, state_preimage.
    by rewrite (sorted_keys_unique SU1 SU2 (allocation_digest <$> l1) (allocation_digest <$> l2)) by (by rewrite Hp).
  - unfold state_preimage. apply (sorted_keys_inj SU1 SU2); apply hashes_key32; unfold allocation_digest; eauto.
Qed.
End hash_lists.

(** ** Hyperscale state: validation *)

Lemma validate_hyperscale_exact c :
  validate_hyperscale_config c = Ok tt ↔
  (∃ a, a ∈ hc_allocations c ∧ sa_state_type a = PermanentState) ∧
  f64_lt (hc_permanent_state_budget_gb c) (used_gb true (hc_allocations c)) = false ∧
  f64_lt (hc_temporary_state_budget_gb c) (used_gb false (hc_allocations c)) = false ∧
  f64_le (hc_target_scaling_factor c) f64_zero = false ∧ f64_le (int 10000) (hc_target_scaling_factor c) = false ∧
  Forall (λ a, sa_cost_per_slot_gas a ≠ 0) (hc_allocations c).
Proof.
  unfold validate_hyperscale_config.
  rewrite errors_to_result_ok, !app_nil, !push_if_nil, bool_decide_eq_false, negb_false_iff, existsb_exists, orb_false_iff,
    list_bind_nil.
  assert (Hcost : Forall (λ a, push_if (sa_cost_per_slot_gas a =? 0) (ZeroCostAllocation (state_type_debug (sa_state_type a))) = [])
    (hc_allocations c) ↔ Forall (λ a, sa_cost_per_slot_gas a ≠ 0) (hc_allocations c)).
  { apply Forall_proper; [|done]. intros a. by rewrite push_if_nil, Z.eqb_neq. }
  rewrite Hcost. setoid_rewrite bool_decide_eq_true. setoid_rewrite <- list_elem_of_In.
  split; [tauto|]. intros ((a & Ha & Ht) & ?). split; [by destruct (hc_allocations c); set_solver|]. split; [by exists a|]. tauto.
Qed.
(** Every comparison with NaN is false: budgets and a factor that are no numbers pass. *)
Lemma nan_state_accepted :
  let a := {| sa_state_type := PermanentState; sa_use_case := UserAccount; sa_cost_per_slot_gas := 1; sa_max_slots := 1;
    sa_retention_period_days := 0; sa_storage_size_gb := S754_nan |} in
  validate_hyperscale_config {| hc_allocations := [a]; hc_permanent_state_budget_gb := int 16;
    hc_temporary_state_budget_gb := f64_zero; hc_target_scaling_factor := S754_nan; hc_monthly_pruning_enabled := true |} = Ok tt.
Proof. vm_compute. reflexivity. Qed.
(** Without slots, nothing is said to cost nothing and to save everything. *)
Lemma no_slots_save_everything c :
  Forall (λ a, sa_max_slots a = 0) (hc_allocations c) →
  hs_avg_cost_per_slot (compute_hyperscale_stats c) = f64_zero ∧ hs_cost_reduction_vs_permanent (compute_hyperscale_stats c) = int 100.
Proof.
  intros Hall. unfold compute_hyperscale_stats.
  assert (Hs : (foldl tally_allocation (f64_zero, f64_zero, f64_zero, 0) (hc_allocations c)).2 = 0).
  { assert (∀ t, t.2 = 0 → (foldl tally_allocation t (hc_allocations c)).2 = 0) as H; [|by apply H].
    induction Hall as [|a l Ha _ IH]; intros t Ht; [done|]. cbn [foldl]. apply IH. destruct t as [[[p q] r] s]. cbn in Ht. subst s.
    unfold tally_allocation. rewrite Ha. by case_bool_decide. }
  destruct (foldl _ _ _) as [[[p t] k] s]. cbn in Hs. subst s. by vm_compute.
Qed.

(** ** Shielded transfers *)

Lemma validate_shielded_exact c :
  validate_shielded_config c = Ok tt ↔
  sh_proof_size_bytes c <= 131072 ∧ f64_is_finite (sh_proving_time_ms c) = true ∧
  f64_lt (int 20000) (sh_proving_time_ms c) = false ∧ 64 <= sh_max_anonymity_set c ∧
  is_compliance_mode_compatible (sh_protocol c) (sh_compliance_mode c) = true.
Proof.
  unfold validate_shielded_config, MAX_PROOF_SIZE_BYTES, MAX_PROVING_TIME_MS, MIN_ANONYMITY_SET.
  rewrite errors_to_result_ok, !app_nil, !push_if_nil, orb_false_iff, !negb_false_iff, !Z.ltb_ge. tauto.
Qed.
(** The estimate of the anonymity set is between 1 and the set. *)
Lemma anonymity_set_between protocol max_set :
  0 < max_set → 1 <= estimate_anonymity_set protocol max_set <= max_set.
Proof. intros Hm. unfold estimate_anonymity_set. destruct (Z.eqb_spec max_set 0); lia. Qed.

(** The greatest of a list that holds no NaN. *)
Lemma greatest_spec (first : Str * f64) rest :
  finite_double first.2 → Forall (λ p : Str * f64, finite_double p.2) rest →
  let best := foldl greatest first rest in
  best ∈ first :: rest ∧ finite_double best.2 ∧ ∀ p, p ∈ first :: rest → f64_le p.2 best.2 = true.
Proof.
  intros Hf Hr. cbv zeta. revert first Hf. induction Hr as [|x rest Hx _ IH]; intros first Hf; cbn [foldl].
  - split; [left|]. split; [done|]. intros p ->%list_elem_of_singleton. rewrite f64_le_units by done. lia.
  - assert (Hg : finite_double (greatest first x).2) by (unfold greatest; by case_if_goal).
    destruct (IH _ Hg) as (Hin & Hfin & Hmax). split; [|split; [done|]].
    + apply elem_of_cons in Hin as [->|Hin]; [unfold greatest; case_if_goal; set_solver|set_solver].
    + assert (Hle : f64_le (greatest first x).2 (foldl greatest (greatest first x) rest).2 = true) by (apply Hmax; left).
      rewrite f64_le_units in Hle by done.
      assert (units first.2 <= units (greatest first x).2 ∧ units x.2 <= units (greatest first x).2) as [H1 H2].
      { unfold greatest. destruct (f64_lt first.2 x.2) eqn:E.
        - rewrite f64_lt_units in E by done. lia.
        - apply not_true_iff_false in E. rewrite f64_lt_units in E by done. lia. }
      intros p [->|[->|Hp]%elem_of_cons]%elem_of_cons; [rewrite f64_le_units by done; lia..|]. apply Hmax. by right.
Qed.
Lemma nonneg_part_mag K x : 0 <= K → mag_le K x → mag_le K (f64_maximum x f64_zero).
Proof. intros HK Hx. apply f64_maximum_mag; [done|]. by vm_compute. Qed.
Lemma pressures_finite c set :
  is_u64 (sh_proof_size_bytes c) → 0 <= set <= u64_max → mag_le 900 (sh_proving_time_ms c) → mag_le 900 (sh_verification_time_ms c) →
  Forall (λ p : Str * f64, finite_double p.2) (pressures c set).
Proof.
  intros Hs Hset Hp Hv. unfold pressures. repeat apply Forall_cons_2; [..|apply Forall_nil_2]; cbn [snd].
  - eapply mag_le_finite, (f64_div_int_mag 900); [by apply nonneg_part_mag|lia|lia].
  - eapply mag_le_finite, (f64_div_int_mag 65); [|lia|lia]. apply (f64_of_u64_mag _ 64); unfold is_u64 in Hs; lia.
  - eapply mag_le_finite, (f64_div_int_mag 900); [by apply nonneg_part_mag|lia|lia].
  - destruct (Z.eqb_spec set 0); [by vm_compute|].
    assert (finite_double (f64_div (f64_of_u64 MIN_ANONYMITY_SET) (f64_of_u64 set))) as Hd.
    { eapply mag_le_finite, (f64_div_int_mag 8); [apply (f64_of_u64_mag _ 7); unfold MIN_ANONYMITY_SET; lia|lia|lia]. }
    by destruct (clamped_between _ f64_zero (dec 15 10) Hd) as [? _]; [(by vm_compute)..|].
Qed.
(** the bottleneck named is a greatest of the pressures. *)
Theorem bottleneck_maximal (c : ShieldedTransferConfig) (set : Z) :
  is_u64 (sh_proof_size_bytes c) → 0 <= set <= u64_max → mag_le 900 (sh_proving_time_ms c) → mag_le 900 (sh_verification_time_ms c) →
  ∃ pressure, (classify_bottleneck c set, pressure) ∈ pressures c set ∧
    ∀ name other, (name, other) ∈ pressures c set → f64_le other pressure = true.
Proof.
  intros Hs Hset Hp Hv. pose proof (pressures_finite c set Hs Hset Hp Hv) as Hfin. unfold classify_bottleneck.
  destruct (pressures c set) as [|first rest] eqn:E; [discriminate E|]. clear E. apply Forall_cons in Hfin as [Hf Hr].
  destruct (greatest_spec first rest Hf Hr) as (Hin & _ & Hmax). destruct (foldl greatest first rest) as [name p].
  exists p. split; [done|]. intros name' other Ho. apply (Hmax (name', other) Ho).
Qed.
Record shielded_wf (c : ShieldedTransferConfig) : Prop := {
  sw_size : is_u64 (sh_proof_size_bytes c);
  sw_set : is_u64 (sh_max_anonymity_set c);
  sw_proving : valid_binary 53 1024 (sh_proving_time_ms c) = true;
  sw_verification : valid_binary 53 1024 (sh_verification_time_ms c) = true;
}.
Lemma shielded_preimage_inj c1 c2 : shielded_wf c1 → shielded_wf c2 → shielded_preimage c1 = shielded_preimage c2 → c1 = c2.
Proof.
  intros [] [] Heq. destruct c1 as [p1 l1 m1 s1 t1 v1 a1 b1], c2 as [p2 l2 m2 s2 t2 v2 a2 b2]. unfold shielded_preimage in Heq.
  cbn [sh_protocol sh_privacy_level sh_compliance_mode sh_proof_size_bytes sh_proving_time_ms sh_verification_time_ms
    sh_max_anonymity_set sh_supports_programmability] in *.
  apply app_inv_head in Heq. do 3 (apply app_inj_1 in Heq as [[= ?] Heq]; [|done]).
  apply prefix_inj_u64 in Heq as [-> Heq]; [|done..]. do 2 (apply prefix_inj_bits_be in Heq as [-> Heq]; [|done..]).
  apply prefix_inj_u64 in Heq as [-> Heq]; [|done..]. injection Heq as Hb.
  assert (p1 = p2) as -> by (by destruct p1, p2). assert (l1 = l2) as -> by (by destruct l1, l2).
  assert (m1 = m2) as -> by (by destruct m1, m2). assert (b1 = b2) as -> by (by destruct b1, b2). done.
Qed.

Lemma blob_commitment_exact_witness :
  let sha : Sha256 := λ _, zero_bytes 32 in
  (∀ (SU : SortUnstable), [[1]; [2]] ≡ₚ [[2]; [1]] →
   compute_blob_commitment (H := sha) (SU := SU) [[1]; [2]] = compute_blob_commitment (H := sha) (SU := SU) [[2]; [1]]).
Proof.
  intros sha SU. apply (@blob_commitment_exact sha (λ _, eq_refl) SU SU [[1]; [2]] [[2]; [1]]); split; discriminate.
Defined.
Lemma bottleneck_maximal_witness :
  classify_bottleneck default_shielded_config 117965 = str "ProvingTime" ∧
  ∃ pressure, (classify_bottleneck default_shielded_config 117965, pressure) ∈ pressures default_shielded_config 117965 ∧
    ∀ name other, (name, other) ∈ pressures default_shielded_config 117965 → f64_le other pressure = true.
Proof.
  split; [vm_compute; reflexivity|].
  apply bottleneck_maximal; [split; discriminate|split; discriminate|vm_compute; split; [reflexivity|discriminate]..].
Defined.
