(* ===== verification/ProofLedgers.v ===== *)
(** * Ledgers of proofs: placeholders and theorems

    ([eth2077-types/src/placeholder_elimination.rs], [theorem_taxonomy.rs])

    The elimination of placeholders, with the gates a replacement has passed, and the taxonomy
    of theorems with their tiers and families: the policies and their validation, the
    statistics, the commitments to the policies. *)
From S2P Require Import Prelude Validation Strings Floats FloatFacts Metadata.
Local Open Scope Z_scope.

(** ** Placeholders *)

(* eth2077-types/src/placeholder_elimination.rs:14-31 PlaceholderStatus *)
Inductive PlaceholderStatus := IdentifiedStatus | Analyzed | InProgressStatus | Replaced | VerifiedStatus | Certified.
#[export] Instance PlaceholderStatus_eq_dec : EqDecision PlaceholderStatus.
Proof. solve_decision. Defined.
#[export] Program Instance PlaceholderStatus_finite : Finite PlaceholderStatus :=
  {| enum := [IdentifiedStatus; Analyzed; InProgressStatus; Replaced; VerifiedStatus; Certified] |}.
Next Obligation. by apply (bool_decide_unpack _). Qed.
Next Obligation. intros []; set_solver. Qed.
(* eth2077-types/src/placeholder_elimination.rs:38-52 EliminationMethod *)
Inductive EliminationMethod := DirectPort | Rewrite | WrapperShim | FfiBinding | CodeGen | ManualProof.
(* eth2077-types/src/placeholder_elimination.rs:59-72 VerificationGate *)
Inductive VerificationGate := UnitTests | IntegrationTests | PropertyTests | FormalProof | FuzzSuite | PeerReview.
#[export] Instance VerificationGate_eq_dec : EqDecision VerificationGate.
Proof. solve_decision. Defined.
(* eth2077-types/src/placeholder_elimination.rs:79-92 ProofCompleteness *)
Inductive ProofCompleteness := NoProof | PartialProof | Substantial | NearComplete | CompleteProof | MachineCheckedProof.
#[export] Instance ProofCompleteness_eq_dec : EqDecision ProofCompleteness.
Proof. solve_decision. Defined.
(* eth2077-types/src/placeholder_elimination.rs:100-119 PlaceholderEntry *)
Record PlaceholderEntry := {
  pl_id : Str;
  pl_module_path : Str;
  pl_function_name : Str;
  pl_status : PlaceholderStatus;
  pl_method : EliminationMethod;
  pl_verification_gates : list VerificationGate;
  pl_proof_completeness : ProofCompleteness;
  pl_lines_of_code : Z;
  pl_metadata : gmap Str Str;
}.
(* eth2077-types/src/placeholder_elimination.rs:126-142 PlaceholderEliminationConfig *)
Record PlaceholderEliminationConfig := {
  pc_max_placeholder_age_days : Z;
  pc_required_gates : list VerificationGate;
  pc_min_proof_completeness : ProofCompleteness;
  pc_auto_certify : bool;
  pc_coverage_threshold_pct : f64;
  pc_fuzz_iterations : Z;
  pc_metadata : gmap Str Str;
}.
(* eth2077-types/src/placeholder_elimination.rs:160-173 PlaceholderEliminationStats *)
Record PlaceholderEliminationStats := {
  ps_total_placeholders : Z;
  ps_by_status : gmap PlaceholderStatus Z;
  ps_elimination_rate_pct : f64;
  ps_avg_proof_completeness : f64;
  ps_total_loc_replaced : Z;
  ps_gates_passed_pct : f64;
}.
(* eth2077-types/src/placeholder_elimination.rs:175-175 TOTAL_VERIFICATION_GATES *)
Definition TOTAL_VERIFICATION_GATES : Z := 6.
(* eth2077-types/src/placeholder_elimination.rs:186-209 default_placeholder_elimination_config *)
Definition default_placeholder_elimination_config : PlaceholderEliminationConfig :=
  {| pc_max_placeholder_age_days := 30;
     pc_required_gates := [UnitTests; IntegrationTests; PropertyTests; FuzzSuite; PeerReview];
     pc_min_proof_completeness := Substantial;
     pc_auto_certify := false;
     pc_coverage_threshold_pct := int 95;
     pc_fuzz_iterations := 100000;
     pc_metadata := <[str "owner" := str "eth2077-core"]>
       (<[str "policy_profile" := str "eth2077-placeholder-elimination-v1"]> ∅) |}.
(* eth2077-types/src/placeholder_elimination.rs:455-464 all_placeholder_statuses *)
Definition all_placeholder_statuses : list PlaceholderStatus :=
  [IdentifiedStatus; Analyzed; InProgressStatus; Replaced; VerifiedStatus; Certified].
(* eth2077-types/src/placeholder_elimination.rs:466-471 status_is_eliminated *)
Definition status_is_eliminated (status : PlaceholderStatus) : bool :=
  match status with Replaced | VerifiedStatus | Certified => true | _ => false end.
(* eth2077-types/src/placeholder_elimination.rs:477-486 proof_completeness_rank *)
Definition proof_completeness_rank (level : ProofCompleteness) : Z :=
  match level with
  | NoProof => 0 | PartialProof => 1 | Substantial => 2 | NearComplete => 3 | CompleteProof => 4 | MachineCheckedProof => 5
  end.
(* eth2077-types/src/placeholder_elimination.rs:473-475 proof_completeness_score *)
Definition proof_completeness_score (level : ProofCompleteness) : f64 := f64_of_u64 (proof_completeness_rank level).
(* eth2077-types/src/placeholder_elimination.rs:488-497 verification_gate_discriminant *)
Definition verification_gate_discriminant (gate : VerificationGate) : Z :=
  match gate with
  | UnitTests => 1 | IntegrationTests => 2 | PropertyTests => 3 | FormalProof => 4 | FuzzSuite => 5 | PeerReview => 6
  end.
(* eth2077-types/src/placeholder_elimination.rs:499-508 proof_completeness_discriminant *)
Definition proof_completeness_discriminant (level : ProofCompleteness) : Z :=
  match level with
  | NoProof => 1 | PartialProof => 2 | Substantial => 3 | NearComplete => 4 | CompleteProof => 5 | MachineCheckedProof => 6
  end.
(* eth2077-types/src/placeholder_elimination.rs:510-512 contains_gate *)
Definition contains_gate (gates : list VerificationGate) (target : VerificationGate) : bool :=
  existsb (λ gate, bool_decide (gate = target)) gates.
(* eth2077-types/src/placeholder_elimination.rs:514-523 find_duplicate_gate *)
Fixpoint find_duplicate_gate (gates : list VerificationGate) : option VerificationGate :=
  match gates with
  | [] => None
  | gate :: gates => if existsb (λ other, bool_decide (gate = other)) gates then Some gate else find_duplicate_gate gates
  end.
(** [if !unique.iter().any(..) { unique.push(..) }] *)
Definition push_new (unique : list VerificationGate) (gate : VerificationGate) : list VerificationGate :=
  if existsb (λ seen, bool_decide (seen = gate)) unique then unique else unique ++ [gate].
(* eth2077-types/src/placeholder_elimination.rs:525-535 unique_gate_count *)
Definition unique_gate_count (gates : list VerificationGate) : Z := len (foldl push_new [] gates).
(* eth2077-types/src/placeholder_elimination.rs:537-546 gate_label *)
Definition gate_label (gate : VerificationGate) : Str :=
  match gate with
  | UnitTests => str "UnitTests" | IntegrationTests => str "IntegrationTests" | PropertyTests => str "PropertyTests"
  | FormalProof => str "FormalProof" | FuzzSuite => str "FuzzSuite" | PeerReview => str "PeerReview"
  end.

(** The loop over the metadata ends at the first entry that is wrong. *)
(* eth2077-types/src/placeholder_elimination.rs:315-336 validate_placeholder_elimination_config *)
Fixpoint first_metadata_error (entries : list (Str * Str)) : list FieldError :=
  match entries with
  | [] => []
  | (key, value) :: entries =>
      if bool_decide (trim key = []) then [field_error "metadata" "metadata keys must be non-empty after trimming whitespace"]
      else if bool_decide (trim value = []) then
        [{| fe_field := str "metadata";
            fe_message := str "metadata value for key `" ++ key ++ str "` must be non-empty after trimming whitespace" |}]
      else first_metadata_error entries
  end.
(* eth2077-types/src/placeholder_elimination.rs:221-343 validate_placeholder_elimination_config *)
Definition validate_placeholder_elimination_config {HO : HashOrder} (c : PlaceholderEliminationConfig)
  : result unit (list FieldError) :=
  let gates := pc_required_gates c in
  let coverage := pc_coverage_threshold_pct c in
  let level := pc_min_proof_completeness c in
  errors_to_result (
    push_if (pc_max_placeholder_age_days c =? 0) (field_error "max_placeholder_age_days" "must be greater than zero") ++
    push_if (bool_decide (gates = [])) (field_error "required_gates" "must contain at least one verification gate") ++
    match find_duplicate_gate gates with
    | Some duplicate =>
        [{| fe_field := str "required_gates";
            fe_message := str "contains duplicate gate `" ++ gate_label duplicate ++
              str "`; each gate must appear at most once" |}]
    | None => []
    end ++
    push_if (negb (f64_is_finite coverage && f64_le f64_zero coverage && f64_le coverage (int 100)))
      (field_error "coverage_threshold_pct" "must be a finite percentage in the inclusive range 0..=100") ++
    push_if (contains_gate gates FuzzSuite && (pc_fuzz_iterations c =? 0))
      (field_error "fuzz_iterations" "must be greater than zero when FuzzSuite is required") ++
    push_if (bool_decide (level = MachineCheckedProof) && negb (contains_gate gates FormalProof))
      (field_error "required_gates" "must include FormalProof when min_proof_completeness is MachineChecked") ++
    push_if (contains_gate gates FormalProof && (proof_completeness_rank level <? proof_completeness_rank Substantial))
      (field_error "min_proof_completeness" "must be at least Substantial when FormalProof is required") ++
    (if pc_auto_certify c then
       push_if (proof_completeness_rank level <? proof_completeness_rank CompleteProof)
         (field_error "min_proof_completeness" "must be Complete or MachineChecked when auto_certify is enabled") ++
       push_if (negb (contains_gate gates PeerReview))
         (field_error "required_gates" "must include PeerReview when auto_certify is enabled")
     else []) ++
    first_metadata_error (hash_iter (pc_metadata c))).

Definition eliminated (entries : list PlaceholderEntry) : list PlaceholderEntry :=
  filter (λ entry, status_is_eliminated (pl_status entry) = true) entries.
(** Every status is counted, from 0. *)
(* eth2077-types/src/placeholder_elimination.rs:355-358 compute_placeholder_elimination_stats *)
Definition no_statuses : gmap PlaceholderStatus Z := foldl (λ m status, <[status := 0]> m) ∅ all_placeholder_statuses.
(* eth2077-types/src/placeholder_elimination.rs:352-407 compute_placeholder_elimination_stats *)
Definition compute_placeholder_elimination_stats (entries : list PlaceholderEntry) : PlaceholderEliminationStats :=
  let total_placeholders := len entries in
  if total_placeholders =? 0 then
    {| ps_total_placeholders := 0; ps_by_status := no_statuses; ps_elimination_rate_pct := f64_zero;
       ps_avg_proof_completeness := f64_zero; ps_total_loc_replaced := 0; ps_gates_passed_pct := f64_zero |}
  else
    let total_unique_gates :=
      foldl u64_wrapping_add 0 ((λ entry, unique_gate_count (pl_verification_gates entry)) <$> entries) in
    let max_possible_gates := u64_wrapping_mul total_placeholders TOTAL_VERIFICATION_GATES in
    let total := f64_of_u64 total_placeholders in
    {| ps_total_placeholders := total_placeholders;
       ps_by_status := foldl increment no_statuses (pl_status <$> entries);
       ps_elimination_rate_pct := f64_div (f64_mul (f64_of_u64 (len (eliminated entries))) (int 100)) total;
       ps_avg_proof_completeness :=
         f64_div (f64_sum ((λ entry, proof_completeness_score (pl_proof_completeness entry)) <$> entries)) total;
       ps_total_loc_replaced := foldl u64_saturating_add 0 (pl_lines_of_code <$> eliminated entries);
       ps_gates_passed_pct :=
         if max_possible_gates =? 0 then f64_zero
         else f64_div (f64_mul (f64_of_u64 total_unique_gates) (int 100)) (f64_of_u64 max_possible_gates) |}.

(** The keys in order, each with its value: the key is one of the map's. *)
(* eth2077-types/src/placeholder_elimination.rs:434-442 compute_placeholder_elimination_commitment *)
Definition key_pairs {HO : HashOrder} (metadata : gmap Str Str) : list (Str * Str) :=
  (λ key, (key, default [] (metadata !! key))) <$> sort_by bytes_cmp (hash_iter metadata).*1.
(* eth2077-types/src/placeholder_elimination.rs:419-447 compute_placeholder_elimination_commitment *)
Definition elimination_preimage {HO : HashOrder} (c : PlaceholderEliminationConfig) : list Z :=
  str "eth2077-placeholder-elimination-v1" ++ to_be_bytes 8 (pc_max_placeholder_age_days c) ++
  encode_list (λ gate, [verification_gate_discriminant gate]) (pc_required_gates c) ++
  [proof_completeness_discriminant (pc_min_proof_completeness c)] ++ [u8_of_bool (pc_auto_certify c)] ++
  to_be_bytes 8 (f64_to_bits (pc_coverage_threshold_pct c)) ++ to_be_bytes 8 (pc_fuzz_iterations c) ++
  encode_list (encode_pair encode_bytes encode_bytes) (key_pairs (pc_metadata c)).
(* eth2077-types/src/placeholder_elimination.rs:559-568 to_lower_hex *)
Definition to_lower_hex (bytes : list Z) : Str := hex_of_bytes bytes.
(* eth2077-types/src/placeholder_elimination.rs:418-453 compute_placeholder_elimination_commitment *)
Definition compute_placeholder_elimination_commitment `{Sha256} {HO : HashOrder} (c : PlaceholderEliminationConfig) : Str :=
  to_lower_hex (sha256 (elimination_preimage c)).

(** ** The taxonomy of theorems *)

(* eth2077-types/src/theorem_taxonomy.rs:29-42 TheoremFamily *)
Inductive TheoremFamily :=
| SafetyInvariant | LivenessGuarantee | PerformanceBound | FairnessProperty | PrivacyPreserving | ResourceBound.
#[export] Instance TheoremFamily_eq_dec : EqDecision TheoremFamily.
Proof. solve_decision. Defined.
#[export] Program Instance TheoremFamily_finite : Finite TheoremFamily :=
  {| enum := [SafetyInvariant; LivenessGuarantee; PerformanceBound; FairnessProperty; PrivacyPreserving; ResourceBound] |}.
Next Obligation. by apply (bool_decide_unpack _). Qed.
Next Obligation. intros []; set_solver. Qed.
(* eth2077-types/src/theorem_taxonomy.rs:50-63 TheoremTier *)
Inductive TheoremTier :=
| Tier1Critical | Tier2Important | Tier3Nice | Tier1Blocking | Tier2Regression | Tier3Advisory.
#[export] Instance TheoremTier_eq_dec : EqDecision TheoremTier.
Proof. solve_decision. Defined.
#[export] Program Instance TheoremTier_finite : Finite TheoremTier :=
  {| enum := [Tier1Critical; Tier2Important; Tier3Nice; Tier1Blocking; Tier2Regression; Tier3Advisory] |}.
Next Obligation. by apply (bool_decide_unpack _). Qed.
Next Obligation. intros []; set_solver. Qed.
(* eth2077-types/src/theorem_taxonomy.rs:71-84 AcceptanceCriteria *)
Inductive AcceptanceCriteria :=
| MachineCheckedEvidence | PeerReviewed | PropertyTested | FuzzVerified | BenchmarkBound | ManualAudit.
(* eth2077-types/src/theorem_taxonomy.rs:92-105 ProofStatus *)
Inductive ProofStatus :=
| ProvenStatus | ProofInProgress | ConjecturedStatus | AdmittedStatus | DisputedStatus | WithdrawnStatus.
#[export] Instance ProofStatus_eq_dec : EqDecision ProofStatus.
Proof. solve_decision. Defined.
(* eth2077-types/src/theorem_taxonomy.rs:112-134 TheoremEntry *)
Record TheoremEntry := {
  te_id : Str;
  te_family : TheoremFamily;
  te_tier : TheoremTier;
  te_name : Str;
  te_statement : Str;
  te_proof_status : ProofStatus;
  te_acceptance : list AcceptanceCriteria;
  te_dependencies : list Str;
  te_metadata : gmap Str Str;
}.
(* eth2077-types/src/theorem_taxonomy.rs:141-157 TheoremTaxonomyConfig *)
Record TheoremTaxonomyConfig := {
  tt_require_tier1_proven : bool;
  tt_max_admitted_tier1 : Z;
  tt_max_conjectured_tier2 : Z;
  tt_auto_promote_on_proof : bool;
  tt_review_period_days : Z;
  tt_namespace_prefix : Str;
  tt_metadata : gmap Str Str;
}.
(* eth2077-types/src/theorem_taxonomy.rs:176-189 TheoremTaxonomyStats *)
Record TheoremTaxonomyStats := {
  ts_total_theorems : Z;
  ts_by_tier : gmap TheoremTier Z;
  ts_proven_pct : f64;
  ts_admitted_count : Z;
  ts_avg_dependencies : f64;
  ts_coverage_by_family : gmap TheoremFamily f64;
}.
(* eth2077-types/src/theorem_taxonomy.rs:199-216 default_theorem_taxonomy_config *)
Definition default_theorem_taxonomy_config : TheoremTaxonomyConfig :=
  {| tt_require_tier1_proven := true; tt_max_admitted_tier1 := 0; tt_max_conjectured_tier2 := 2;
     tt_auto_promote_on_proof := true; tt_review_period_days := 30; tt_namespace_prefix := str "ETH2077-THM";
     tt_metadata := <[str "owner" := str "eth2077-formal-verification"]> (<[str "taxonomy_version" := str "1"]> ∅) |}.
(** [ch.is_ascii_alphanumeric() || ch == '_' || ch == '-'], false of every byte of a character
    outside ASCII. *)
(* eth2077-types/src/theorem_taxonomy.rs:240-244 validate_theorem_taxonomy_config *)
Definition is_prefix_char (b : Z) : bool :=
  ((48 <=? b) && (b <=? 57)) || ((65 <=? b) && (b <=? 90)) || ((97 <=? b) && (b <=? 122)) || (b =? 95) || (b =? 45).
(* eth2077-types/src/theorem_taxonomy.rs:279-307 validate_theorem_taxonomy_config *)
Definition taxonomy_metadata_errors (entry : Str * Str) : list FieldError :=
  let of_value := str "metadata." ++ entry.1 in
  push_if (bool_decide (trim entry.1 = [])) (field_error "metadata" "metadata key must not be empty") ++
  push_if (bool_decide (trim entry.2 = [])) {| fe_field := of_value; fe_message := str "metadata value must not be empty" |} ++
  push_if (128 <? len entry.1) (field_error "metadata" "metadata key length must be <= 128") ++
  push_if (4096 <? len entry.2) {| fe_field := of_value; fe_message := str "metadata value length must be <= 4096" |}.
(* eth2077-types/src/theorem_taxonomy.rs:228-314 validate_theorem_taxonomy_config *)
Definition validate_theorem_taxonomy_config {HO : HashOrder} (c : TheoremTaxonomyConfig) : result unit (list FieldError) :=
  errors_to_result (
    push_if (bool_decide (trim (tt_namespace_prefix c) = []))
      (field_error "namespace_prefix" "namespace prefix must not be empty") ++
    push_if (negb (forallb is_prefix_char (tt_namespace_prefix c)))
      (field_error "namespace_prefix" "namespace prefix must use ASCII letters, digits, '_' or '-'") ++
    push_if (tt_review_period_days c =? 0) (field_error "review_period_days" "review period must be at least one day") ++
    push_if (3650 <? tt_review_period_days c) (field_error "review_period_days" "review period must not exceed 3650 days") ++
    push_if (tt_require_tier1_proven c && (0 <? tt_max_admitted_tier1 c))
      (field_error "max_admitted_tier1" "must be zero when require_tier1_proven is enabled") ++
    push_if (10000 <? tt_max_conjectured_tier2 c)
      (field_error "max_conjectured_tier2" "must be less than or equal to 10000") ++
    (hash_iter (tt_metadata c) ≫= taxonomy_metadata_errors)).
(* eth2077-types/src/theorem_taxonomy.rs:452-461 all_theorem_tiers *)
Definition all_theorem_tiers : list TheoremTier :=
  [Tier1Critical; Tier2Important; Tier3Nice; Tier1Blocking; Tier2Regression; Tier3Advisory].
(* eth2077-types/src/theorem_taxonomy.rs:464-473 all_theorem_families *)
Definition all_theorem_families : list TheoremFamily :=
  [SafetyInvariant; LivenessGuarantee; PerformanceBound; FairnessProperty; PrivacyPreserving; ResourceBound].
Definition zeros {K} `{Countable K} (keys : list K) : gmap K Z := foldl (λ m key, <[key := 0]> m) ∅ keys.
(** [if let Some(count) = m.get_mut(&key) { *count += 1 }] *)
Definition increment_present {K} `{Countable K} (m : gmap K Z) (key : K) : gmap K Z := alter (λ count, count + 1) key m.
(* eth2077-types/src/theorem_taxonomy.rs:320-387 compute_theorem_taxonomy_stats *)
Definition compute_theorem_taxonomy_stats (theorems : list TheoremEntry) : TheoremTaxonomyStats :=
  let total_theorems := len theorems in
  let total := f64_of_u64 total_theorems in
  let with_status status := len (filter (λ t, te_proof_status t = status) theorems) in
  let family_counts := foldl increment_present (zeros all_theorem_families) (te_family <$> theorems) in
  let pct count := if total_theorems =? 0 then f64_zero else f64_mul (f64_div (f64_of_u64 count) total) (int 100) in
  {| ts_total_theorems := total_theorems;
     ts_by_tier := foldl increment_present (zeros all_theorem_tiers) (te_tier <$> theorems);
     ts_proven_pct := pct (with_status ProvenStatus);
     ts_admitted_count := with_status AdmittedStatus;
     ts_avg_dependencies :=
       if total_theorems =? 0 then f64_zero
       else f64_div (f64_of_u64 (foldl u64_wrapping_add 0 ((λ t, len (te_dependencies t)) <$> theorems))) total;
     ts_coverage_by_family :=
       foldl (λ m family, <[family := pct (default 0 (family_counts !! family))]> m) ∅ all_theorem_families |}.
(* eth2077-types/src/theorem_taxonomy.rs:427-430 update_len_prefixed_string *)
Definition update_len_prefixed_string (value : Str) : list Z := encode_bytes value.
(* eth2077-types/src/theorem_taxonomy.rs:400-420 compute_theorem_taxonomy_commitment *)
Definition taxonomy_preimage {SU : SortUnstable} {HO : HashOrder} (c : TheoremTaxonomyConfig) : list Z :=
  str "eth2077-theorem-taxonomy-config-v1" ++ [u8_of_bool (tt_require_tier1_proven c)] ++
  to_be_bytes 8 (tt_max_admitted_tier1 c) ++ to_be_bytes 8 (tt_max_conjectured_tier2 c) ++
  [u8_of_bool (tt_auto_promote_on_proof c)] ++ to_be_bytes 8 (tt_review_period_days c) ++
  update_len_prefixed_string (tt_namespace_prefix c) ++
  encode_list (encode_pair update_len_prefixed_string update_len_prefixed_string) (sorted_pairs (tt_metadata c)).
(* eth2077-types/src/theorem_taxonomy.rs:433-440 encode_hex_lower *)
Definition encode_hex_lower (bytes : list Z) : Str := hex_of_bytes bytes.
(* eth2077-types/src/theorem_taxonomy.rs:399-424 compute_theorem_taxonomy_commitment *)
Definition compute_theorem_taxonomy_commitment `{Sha256} {SU : SortUnstable} {HO : HashOrder} (c : TheoremTaxonomyConfig) : Str :=
  encode_hex_lower (sha256 (taxonomy_preimage c)).

(** ** Validation *)

Lemma contains_gate_iff gates target : contains_gate gates target = true ↔ target ∈ gates.
Proof.
  unfold contains_gate. rewrite existsb_exists. setoid_rewrite bool_decide_eq_true. setoid_rewrite <- list_elem_of_In. naive_solver.
Qed.
Lemma find_duplicate_gate_none gates : find_duplicate_gate gates = None ↔ NoDup gates.
Proof.
  induction gates as [|gate gates IH]; cbn [find_duplicate_gate]; [by split; [constructor|]|].
  rewrite NoDup_cons. destruct (existsb _ gates) eqn:E.
  - split; [done|]. intros [Hn _]. destruct Hn. apply existsb_exists in E as (g & Hg & ->%bool_decide_eq_true).
    by apply list_elem_of_In.
  - rewrite IH. split; [|by intros [_ ?]]. intros Hnd. split; [|done]. intros Hin. apply not_true_iff_false in E. apply E.
    apply existsb_exists. exists gate. by rewrite <- list_elem_of_In, bool_decide_eq_true.
Qed.
Lemma first_metadata_error_nil entries :
  first_metadata_error entries = [] ↔ Forall (λ p : Str * Str, trim p.1 ≠ [] ∧ trim p.2 ≠ []) entries.
Proof.
  induction entries as [|[key value] entries IH]; cbn [first_metadata_error]; [split; [constructor|done]|].
  rewrite Forall_cons, <- IH. cbn [fst snd]. case_bool_decide; [naive_solver|]. case_bool_decide; naive_solver.
Qed.
Lemma hash_iter_Forall {HO : HashOrder} (P : Str → Str → Prop) (m : gmap Str Str) :
  Forall (λ p, P p.1 p.2) (hash_iter m) ↔ map_Forall P m.
Proof. rewrite hash_iter_perm, map_Forall_to_list. apply Forall_proper; [by intros []|done]. Qed.
Lemma percentage_finite x : f64_le f64_zero x = true → f64_le x (int 100) = true → f64_is_finite x = true.
Proof. by destruct x as [|[]| |]. Qed.

(** a policy for placeholders is accepted exactly when it is coherent; what makes it so
    does not depend on the order of its metadata. *)
Theorem validate_elimination_exact {HO : HashOrder} (c : PlaceholderEliminationConfig) :
  let gates := pc_required_gates c in let rank := proof_completeness_rank (pc_min_proof_completeness c) in
  validate_placeholder_elimination_config c = Ok tt ↔
  pc_max_placeholder_age_days c ≠ 0 ∧ gates ≠ [] ∧ NoDup gates ∧
  f64_le f64_zero (pc_coverage_threshold_pct c) = true ∧ f64_le (pc_coverage_threshold_pct c) (int 100) = true ∧
  (FuzzSuite ∈ gates → pc_fuzz_iterations c ≠ 0) ∧
  (rank = 5 → FormalProof ∈ gates) ∧ (FormalProof ∈ gates → 2 <= rank) ∧
  (pc_auto_certify c = true → 4 <= rank ∧ PeerReview ∈ gates) ∧
  map_Forall (λ key value, trim key ≠ [] ∧ trim value ≠ []) (pc_metadata c).
Proof.
  cbv zeta. unfold validate_placeholder_elimination_config.
  rewrite errors_to_result_ok, !app_nil, !push_if_nil, first_metadata_error_nil, (hash_iter_Forall (λ key value, trim key ≠ [] ∧ trim value ≠ [])).
  assert (Hdup : ∀ f, match find_duplicate_gate (pc_required_gates c) with Some g => [f g : FieldError] | None => [] end = [] ↔
    NoDup (pc_required_gates c)) by (intros f; rewrite <- find_duplicate_gate_none; destruct (find_duplicate_gate _); naive_solver).
  rewrite Hdup, bool_decide_eq_false, Z.eqb_neq, negb_false_iff, !andb_true_iff, !andb_false_iff.
  assert (Hauto : (if pc_auto_certify c then
      push_if (proof_completeness_rank (pc_min_proof_completeness c) <? proof_completeness_rank CompleteProof)
        (field_error "min_proof_completeness" "must be Complete or MachineChecked when auto_certify is enabled") ++
      push_if (negb (contains_gate (pc_required_gates c) PeerReview))
        (field_error "required_gates" "must include PeerReview when auto_certify is enabled") else []) = [] ↔
    (pc_auto_certify c = true → 4 <= proof_completeness_rank (pc_min_proof_completeness c) ∧ PeerReview ∈ pc_required_gates c)).
  { destruct (pc_auto_certify c); [|naive_solver]. rewrite app_nil, !push_if_nil, negb_false_iff, contains_gate_iff, Z.ltb_ge.
    cbn [proof_completeness_rank]. naive_solver. }
  rewrite Hauto. clear Hauto Hdup. pose proof (percentage_finite (pc_coverage_threshold_pct c)) as Hfin.
  assert (Hc : ∀ g, contains_gate (pc_required_gates c) g = false ↔ g ∉ pc_required_gates c)
    by (intros g; by rewrite <- not_true_iff_false, contains_gate_iff).
  rewrite !Hc, !negb_false_iff, contains_gate_iff, Z.eqb_neq, Z.ltb_ge, bool_decide_eq_false. cbn [proof_completeness_rank].
  assert (Hm : proof_completeness_rank (pc_min_proof_completeness c) = 5 ↔ pc_min_proof_completeness c = MachineCheckedProof)
    by (destruct (pc_min_proof_completeness c); cbn; naive_solver lia).
  rewrite Hm.
  destruct (decide (FuzzSuite ∈ pc_required_gates c)), (decide (FormalProof ∈ pc_required_gates c)),
    (decide (pc_min_proof_completeness c = MachineCheckedProof)); tauto.
Qed.
Lemma default_elimination_valid :
  validate_placeholder_elimination_config (HO := map_to_list_order) default_placeholder_elimination_config = Ok tt.
Proof. vm_compute. reflexivity. Qed.

(** What is reported does depend on that order: one wrong entry, whichever comes first. *)
Definition reverse_order : HashOrder := {|
  hash_iter K V _ _ m := reverse (map_to_list m);
  hash_iter_perm K V _ _ m := reverse_Permutation (map_to_list m);
|}.
Lemma elimination_reports_one_entry :
  let c := {| pc_max_placeholder_age_days := 30; pc_required_gates := [UnitTests]; pc_min_proof_completeness := Substantial;
    pc_auto_certify := false; pc_coverage_threshold_pct := int 95; pc_fuzz_iterations := 0;
    pc_metadata := <[str "a" := []]> (<[str "b" := []]> ∅) |} in
  ∃ e1 e2, e1 ≠ e2 ∧ validate_placeholder_elimination_config (HO := map_to_list_order) c = Err [e1] ∧
    validate_placeholder_elimination_config (HO := reverse_order) c = Err [e2].
Proof.
  vm_compute. eexists _, _. split; [|split; reflexivity]. discriminate.
Qed.
(** a taxonomy policy is accepted exactly when its prefix, its review period, its budgets
    and its metadata are within the limits. *)
Theorem validate_taxonomy_exact {HO : HashOrder} (c : TheoremTaxonomyConfig) :
  is_u64 (tt_review_period_days c) → is_u64 (tt_max_admitted_tier1 c) →
  validate_theorem_taxonomy_config c = Ok tt ↔
  trim (tt_namespace_prefix c) ≠ [] ∧ Forall (λ b, is_prefix_char b = true) (tt_namespace_prefix c) ∧
  1 <= tt_review_period_days c <= 3650 ∧ (tt_require_tier1_proven c = true → tt_max_admitted_tier1 c = 0) ∧
  tt_max_conjectured_tier2 c <= 10000 ∧
  map_Forall (λ key value, trim key ≠ [] ∧ trim value ≠ [] ∧ len key <= 128 ∧ len value <= 4096) (tt_metadata c).
Proof.
  intros Hr Ha. unfold validate_theorem_taxonomy_config.
  rewrite errors_to_result_ok, !app_nil, !push_if_nil, bool_decide_eq_false, Z.eqb_neq, negb_false_iff, andb_false_iff, !Z.ltb_ge,
    list_bind_nil, <- (hash_iter_Forall (λ key value, trim key ≠ [] ∧ trim value ≠ [] ∧ len key <= 128 ∧ len value <= 4096)).
  assert (Hm : Forall (λ p, taxonomy_metadata_errors p = []) (hash_iter (tt_metadata c)) ↔
    Forall (λ p : Str * Str, trim p.1 ≠ [] ∧ trim p.2 ≠ [] ∧ len p.1 <= 128 ∧ len p.2 <= 4096) (hash_iter (tt_metadata c))).
  { apply Forall_proper; [|done]. intros p. unfold taxonomy_metadata_errors.
    by rewrite !app_nil, !push_if_nil, !bool_decide_eq_false, !Z.ltb_ge. }
  rewrite Hm, <- (Is_true_true (forallb _ _)), forallb_True. unfold is_u64 in *.
  assert (Hp : Forall (λ x, is_prefix_char x) (tt_namespace_prefix c) ↔ Forall (λ b, is_prefix_char b = true) (tt_namespace_prefix c))
    by (apply Forall_proper; [intros b; apply Is_true_true|done]).
  rewrite Hp. destruct (tt_require_tier1_proven c); [|intuition lia].
  assert (tt_max_admitted_tier1 c <= 0 ↔ tt_max_admitted_tier1 c = 0) by lia. intuition (try lia; try done).
Qed.

(** ** Statistics *)

Lemma unique_gate_count_bounds gates : 0 <= unique_gate_count gates <= TOTAL_VERIFICATION_GATES.
Proof.
  unfold unique_gate_count, TOTAL_VERIFICATION_GATES. split; [unfold len; lia|].
  assert (Hnd : NoDup (foldl push_new [] gates)).
  { apply foldl_preserves; [|constructor]. intros l g Hl. unfold push_new. destruct (existsb _ l) eqn:E; [done|].
    apply NoDup_app. split; [done|]. split; [|apply NoDup_singleton]. intros x Hx ->%list_elem_of_singleton.
    apply not_true_iff_false in E. apply E, existsb_exists. exists g. by rewrite <- list_elem_of_In, bool_decide_eq_true. }
  assert (length (foldl push_new [] gates) <= length [UnitTests; IntegrationTests; PropertyTests; FormalProof; FuzzSuite; PeerReview])%nat;
    [|unfold len; cbn in *; lia].
  apply submseteq_length, NoDup_submseteq; [done|]. intros [] _; set_solver.
Qed.
(** The gates counted are the different ones. *)
Lemma unique_gate_count_exact gates : unique_gate_count gates = len (remove_dups gates).
Proof.
  unfold unique_gate_count, len. f_equal. apply Permutation_length, NoDup_Permutation; [|apply NoDup_remove_dups|].
  - apply foldl_preserves; [|constructor]. intros l g Hl. unfold push_new. destruct (existsb _ l) eqn:E; [done|].
    apply NoDup_app. split; [done|]. split; [|apply NoDup_singleton]. intros x Hx ->%list_elem_of_singleton.
    apply not_true_iff_false in E. apply E, existsb_exists. exists g. by rewrite <- list_elem_of_In, bool_decide_eq_true.
  - intros g. rewrite elem_of_remove_dups.
    rewrite (foldl_accumulates push_new (λ l, g ∈ l) (λ x, x = g)).
    + rewrite Exists_exists. set_solver.
    + intros l x. unfold push_new. destruct (existsb _ l) eqn:E; [|set_solver].
      apply existsb_exists in E as (y & Hy & ->%bool_decide_eq_true). rewrite <- list_elem_of_In in Hy. set_solver.
Qed.
Lemma foldl_wrapping_small l acc :
  Forall (λ z, 0 <= z) l → 0 <= acc → acc + Zsum l <= u64_max → foldl u64_wrapping_add acc l = acc + Zsum l.
Proof.
  intros Hl. revert acc. induction Hl as [|z l Hz Hl IH]; intros acc Ha Hs; cbn [foldl Zsum] in *; [lia|].
  pose proof (Zsum_nonneg l Hl). unfold u64_wrapping_add at 2. rewrite Z.mod_small by lia. rewrite IH by lia. lia.
Qed.
Lemma increment_lookup {K} `{Countable K} (l : list K) (m : gmap K Z) k :
  is_Some (m !! k) → foldl increment m l !! k = Some (default 0 (m !! k) + len (filter (λ x, x = k) l)).
Proof.
  intros Hk. rewrite <- foldl_increment.
  assert (Hs : is_Some (foldl increment m l !! k)).
  { apply (foldl_preserves increment (λ m, is_Some (m !! k))); [|done]. intros m' x Hm. unfold increment.
    rewrite lookup_insert_is_Some. destruct (decide (x = k)); tauto. }
  destruct Hs as [v ->]. done.
Qed.
Lemma length_filter_status {A K} `{EqDecision K} (key : A → K) k (l : list A) :
  len (filter (λ x, x = k) (key <$> l)) = len (filter (λ a, key a = k) l).
Proof.
  unfold len. f_equal. induction l as [|a l IH]; [done|]. csimpl. rewrite !filter_cons.
  destruct (decide (key a = k)); cbn [length]; by rewrite IH.
Qed.
Lemma zsum_gates (entries : list PlaceholderEntry) :
  let l := (λ entry, unique_gate_count (pl_verification_gates entry)) <$> entries in
  Forall (λ z, 0 <= z) l ∧ 0 <= Zsum l <= 6 * len entries.
Proof.
  cbv zeta. unfold len. induction entries as [|e entries [IH1 IH2]]; [cbn; split; [constructor|lia]|].
  csimpl. pose proof (unique_gate_count_bounds (pl_verification_gates e)) as Hg. unfold TOTAL_VERIFICATION_GATES in Hg.
  split; [constructor; [lia|done]|]. cbn [Zsum length]. lia.
Qed.
(** of up to 2^40 placeholders, the statistics count every status, those without an entry
    too; the elimination rate and the share of the gates passed are percentages, repeated
    gates counting once. *)
Theorem elimination_stats_exact (entries : list PlaceholderEntry) :
  len entries <= 2 ^ 40 →
  let s := compute_placeholder_elimination_stats entries in
  (∀ status, ps_by_status s !! status = Some (len (filter (λ e, pl_status e = status) entries))) ∧
  f64_le f64_zero (ps_elimination_rate_pct s) = true ∧ f64_le (ps_elimination_rate_pct s) (int 100) = true ∧
  f64_le f64_zero (ps_gates_passed_pct s) = true ∧ f64_le (ps_gates_passed_pct s) (int 100) = true.
Proof.
  intros Hlen. cbv zeta. unfold compute_placeholder_elimination_stats.
  destruct (Z.eqb_spec (len entries) 0) as [Hz|Hz].
  { destruct entries; [|unfold len in Hz; cbn in Hz; lia]. split; [by intros []|]. done. }
  assert (Hpos : 0 < len entries) by (unfold len in *; lia).
  cbn [ps_by_status ps_elimination_rate_pct ps_gates_passed_pct]. split.
  { intros status. rewrite increment_lookup by (destruct status; vm_compute; by eexists).
    rewrite (length_filter_status pl_status). f_equal. by destruct status. }
  assert (Hel : 0 <= len (eliminated entries) <= len entries).
  { unfold eliminated, len. pose proof (length_filter (λ e, status_is_eliminated (pl_status e) = true) entries). lia. }
  destruct (zsum_gates entries) as [Hnn Hsum]. rewrite foldl_wrapping_small by (done || lia). rewrite Z.add_0_l.
  set (gates := Zsum _) in *. clearbody gates.
  assert (Hmax : u64_wrapping_mul (len entries) TOTAL_VERIFICATION_GATES = 6 * len entries).
  { unfold u64_wrapping_mul, TOTAL_VERIFICATION_GATES. rewrite Z.mod_small by lia. lia. }
  rewrite Hmax. destruct (Z.eqb_spec (6 * len entries) 0); [lia|].
  destruct (percent_between (len (eliminated entries)) (len entries)) as [H1 H2]; [done|lia|].
  destruct (percent_between gates (6 * len entries)) as [H3 H4]; [lia|lia|]. done.
Qed.
Definition example_entry (status : PlaceholderStatus) : PlaceholderEntry :=
  {| pl_id := str "p"; pl_module_path := str "m"; pl_function_name := str "f"; pl_status := status; pl_method := Rewrite;
     pl_verification_gates := [UnitTests; FuzzSuite; UnitTests]; pl_proof_completeness := Substantial; pl_lines_of_code := 10;
     pl_metadata := ∅ |}.
Lemma elimination_stats_exact_witness :
  let s := compute_placeholder_elimination_stats [example_entry Replaced; example_entry Analyzed] in
  ps_elimination_rate_pct s = int 50 ∧ f64_le (ps_gates_passed_pct s) (int 100) = true.
Proof.
  cbv zeta. split; [vm_compute; reflexivity|].
  apply (elimination_stats_exact [example_entry Replaced; example_entry Analyzed]). vm_compute. discriminate.
Defined.

Lemma increment_present_lookup {K} `{Countable K} (l : list K) (m : gmap K Z) k v :
  m !! k = Some v → foldl increment_present m l !! k = Some (v + len (filter (λ x, x = k) l)).
Proof.
  revert m v. induction l as [|x l IH]; intros m v Hk; cbn [foldl]; [rewrite Hk; f_equal; unfold len; cbn; lia|].
  rewrite filter_cons. unfold increment_present at 2. destruct (decide (x = k)) as [->|Hne].
  - rewrite (IH _ (v + 1)) by (rewrite lookup_alter_eq; by rewrite Hk). f_equal. unfold len. cbn [length]. lia.
  - rewrite (IH _ v); [done|]. by rewrite lookup_alter_ne.
Qed.
(** Of up to 2^53 theorems, the statistics count every tier, and the share proven and the
    coverage of each family are percentages. *)
Lemma taxonomy_stats_exact (theorems : list TheoremEntry) :
  len theorems <= 2 ^ 53 →
  let s := compute_theorem_taxonomy_stats theorems in
  (∀ tier, ts_by_tier s !! tier = Some (len (filter (λ t, te_tier t = tier) theorems))) ∧
  f64_le f64_zero (ts_proven_pct s) = true ∧ f64_le (ts_proven_pct s) (int 100) = true ∧
  (∀ family, ∃ pct, ts_coverage_by_family s !! family = Some pct ∧ f64_le f64_zero pct = true ∧ f64_le pct (int 100) = true).
Proof.
  intros Hlen. cbv zeta. unfold compute_theorem_taxonomy_stats. cbn [ts_by_tier ts_proven_pct ts_coverage_by_family].
  assert (Hpct : ∀ count, 0 <= count <= len theorems → let q := if len theorems =? 0 then f64_zero else
      f64_mul (f64_div (f64_of_u64 count) (f64_of_u64 (len theorems))) (int 100) in
    f64_le f64_zero q = true ∧ f64_le q (int 100) = true).
  { intros count Hc. cbv zeta. destruct (Z.eqb_spec (len theorems) 0); [done|].
    apply fraction_percent; [lia|unfold len in *; lia]. }
  split; [|split_and!].
  - intros tier. rewrite (increment_present_lookup _ _ _ 0) by (by destruct tier).
    rewrite (length_filter_status te_tier). done.
  - apply Hpct. unfold len. pose proof (length_filter (λ t, te_proof_status t = ProvenStatus) theorems). lia.
  - apply Hpct. unfold len. pose proof (length_filter (λ t, te_proof_status t = ProvenStatus) theorems). lia.
  - intros family. set (counts := foldl increment_present _ _).
    assert (Hc : 0 <= default 0 (counts !! family) <= len theorems).
    { unfold counts. rewrite (increment_present_lookup _ _ _ 0) by (by destruct family).
      rewrite (length_filter_status te_family). cbn. unfold len. pose proof (length_filter (λ t, te_family t = family) theorems). lia. }
    eexists. split; [|apply (Hpct _ Hc)]. clearbody counts. unfold all_theorem_families. cbn [foldl].
    destruct family; repeat (rewrite lookup_insert_eq || rewrite lookup_insert_ne by done); reflexivity.
Qed.

(** ** Commitments *)

Lemma elem_of_key_pairs {HO : HashOrder} (m : gmap Str Str) k v : (k, v) ∈ key_pairs m ↔ m !! k = Some v.
Proof.
  unfold key_pairs. rewrite list_elem_of_fmap. setoid_rewrite sort_by_perm. split.
  - intros (key & [= -> ->] & ([k' v'] & -> & Hk)%list_elem_of_fmap). apply elem_of_hash_iter in Hk. cbn. by rewrite Hk.
  - intros Hk. exists k. rewrite Hk. split; [done|]. apply list_elem_of_fmap. exists (k, v). split; [done|].
    by apply elem_of_hash_iter.
Qed.
Lemma key_pairs_inj {HO : HashOrder} m1 m2 : key_pairs m1 = key_pairs m2 → m1 = m2.
Proof. intros Heq. apply map_eq. intros k. apply option_eq. intros v. by rewrite <- !elem_of_key_pairs, Heq. Qed.
Lemma key_pairs_order (HO1 HO2 : HashOrder) m : key_pairs (HO := HO1) m = key_pairs (HO := HO2) m.
Proof.
  unfold key_pairs. f_equal. apply (sort_by_order bytes_cmp).
  by rewrite (hash_iter_perm (HashOrder := HO1)), (hash_iter_perm (HashOrder := HO2)).
Qed.
Definition typed_metadata (m : gmap Str Str) : Prop :=
  is_u64 (Z.of_nat (size m)) ∧ map_Forall (λ k v, is_u64 (len k) ∧ is_u64 (len v)) m.
Lemma typed_pairs {l : list (Str * Str)} {m : gmap Str Str} :
  typed_metadata m → length l = size m → (∀ k v, (k, v) ∈ l → m !! k = Some v) →
  Forall (both (λ k : Str, is_u64 (len k)) (λ v : Str, is_u64 (len v))) l ∧ is_u64 (len l).
Proof.
  intros [Hs Hm] Hl Hin. split; [|unfold len; by rewrite Hl].
  apply Forall_forall. intros [k v] Hkv%Hin. by apply Hm in Hkv.
Qed.
Lemma pairs_encoding_inj (l1 l2 : list (Str * Str)) (m1 m2 : gmap Str Str) :
  typed_metadata m1 → typed_metadata m2 → length l1 = size m1 → length l2 = size m2 →
  (∀ k v, (k, v) ∈ l1 → m1 !! k = Some v) → (∀ k v, (k, v) ∈ l2 → m2 !! k = Some v) →
  encode_list (encode_pair encode_bytes encode_bytes) l1 = encode_list (encode_pair encode_bytes encode_bytes) l2 → l1 = l2.
Proof.
  intros H1 H2 Hl1 Hl2 Hi1 Hi2 Heq.
  refine (prefix_inj_eq _ _ _ _ (prefix_inj_list _ _ (prefix_inj_pair _ _ _ _ prefix_inj_bytes prefix_inj_bytes)) _ _ Heq).
  - exact (typed_pairs H1 Hl1 Hi1).
  - exact (typed_pairs H2 Hl2 Hi2).
Qed.
Lemma length_key_pairs {HO : HashOrder} (m : gmap Str Str) : length (key_pairs m) = size m.
Proof.
  unfold key_pairs. by rewrite length_fmap, (Permutation_length (sort_by_perm _ _)), length_fmap, length_hash_iter.
Qed.
Lemma gates_prefix_inj : prefix_inj (λ _ : VerificationGate, True) (λ gate, [verification_gate_discriminant gate]).
Proof. by intros [] [] r1 r2 _ _ [= ?]. Qed.
Record elimination_wf (c : PlaceholderEliminationConfig) : Prop := {
  wf_age : is_u64 (pc_max_placeholder_age_days c);
  wf_gates : is_u64 (len (pc_required_gates c));
  wf_coverage : valid_binary 53 1024 (pc_coverage_threshold_pct c) = true;
  wf_fuzz : is_u64 (pc_fuzz_iterations c);
  wf_metadata : typed_metadata (pc_metadata c);
}.
Lemma elimination_preimage_inj {HO : HashOrder} c1 c2 :
  elimination_wf c1 → elimination_wf c2 → elimination_preimage c1 = elimination_preimage c2 → c1 = c2.
Proof.
  intros [Ha1 Hg1 Hc1 Hf1 Hm1] [Ha2 Hg2 Hc2 Hf2 Hm2] Heq. destruct c1 as [a1 g1 p1 o1 v1 f1 m1], c2 as [a2 g2 p2 o2 v2 f2 m2].
  unfold elimination_preimage in Heq.
  cbn [pc_max_placeholder_age_days pc_required_gates pc_min_proof_completeness pc_auto_certify pc_coverage_threshold_pct
    pc_fuzz_iterations pc_metadata] in *.
  apply app_inv_head in Heq. apply prefix_inj_u64 in Heq as [-> Heq]; [|done..].
  apply (prefix_inj_list _ _ gates_prefix_inj) in Heq as [-> Heq]; [|split; [by apply Forall_true|done]..].
  apply app_inj_1 in Heq as [[= Hp] Heq]; [|done]. apply app_inj_1 in Heq as [[= Ho%u8_of_bool_inj] Heq]; [|done].
  apply prefix_inj_bits_be in Heq as [-> Heq]; [|done..]. apply prefix_inj_u64 in Heq as [-> Heq]; [|done..].
  apply (pairs_encoding_inj _ _ m1 m2) in Heq; [|done|done|apply length_key_pairs|apply length_key_pairs|
    intros k v; apply elem_of_key_pairs|intros k v; apply elem_of_key_pairs].
  apply key_pairs_inj in Heq as ->. assert (p1 = p2) as -> by (by destruct p1, p2). by subst.
Qed.
(** The policy is bound by its commitment, whatever the order of the metadata. *)
Lemma elimination_commitment_binding `{Sha256} (HO1 HO2 : HashOrder) c1 c2 :
  (∀ bytes, Forall is_byte (sha256 bytes)) → elimination_wf c1 → elimination_wf c2 →
  compute_placeholder_elimination_commitment (HO := HO1) c1 = compute_placeholder_elimination_commitment (HO := HO2) c2 →
  binds (elimination_preimage (HO := HO1)) eq c1 c2.
Proof.
  intros Hbytes H1 H2 Heq. unfold compute_placeholder_elimination_commitment, to_lower_hex in Heq.
  apply hex_of_bytes_inj in Heq; [|apply Hbytes..].
  assert (elimination_preimage (HO := HO2) c2 = elimination_preimage (HO := HO1) c2) as E
    by (unfold elimination_preimage; by rewrite (key_pairs_order HO2 HO1)).
  rewrite E in Heq. apply binds_intro; [by apply elimination_preimage_inj|done].
Qed.
Record taxonomy_wf (c : TheoremTaxonomyConfig) : Prop := {
  wf_admitted : is_u64 (tt_max_admitted_tier1 c);
  wf_conjectured : is_u64 (tt_max_conjectured_tier2 c);
  wf_review : is_u64 (tt_review_period_days c);
  wf_prefix : is_u64 (len (tt_namespace_prefix c));
  wf_tags : typed_metadata (tt_metadata c);
}.
Lemma taxonomy_preimage_inj {SU : SortUnstable} {HO : HashOrder} c1 c2 :
  taxonomy_wf c1 → taxonomy_wf c2 → taxonomy_preimage c1 = taxonomy_preimage c2 → c1 = c2.
Proof.
  intros [] [] Heq. destruct c1 as [r1 a1 k1 o1 d1 n1 m1], c2 as [r2 a2 k2 o2 d2 n2 m2].
  unfold taxonomy_preimage, update_len_prefixed_string in Heq.
  cbn [tt_require_tier1_proven tt_max_admitted_tier1 tt_max_conjectured_tier2 tt_auto_promote_on_proof tt_review_period_days
    tt_namespace_prefix tt_metadata] in *.
  apply app_inv_head in Heq. apply app_inj_1 in Heq as [[= ->%u8_of_bool_inj] Heq]; [|done].
  do 2 (apply prefix_inj_u64 in Heq as [-> Heq]; [|done..]). apply app_inj_1 in Heq as [[= ->%u8_of_bool_inj] Heq]; [|done].
  apply prefix_inj_u64 in Heq as [-> Heq]; [|done..]. apply prefix_inj_bytes in Heq as [-> Heq]; [|done..].
  apply (pairs_encoding_inj _ _ m1 m2) in Heq; [|done|done|unfold sorted_pairs; by rewrite sort_unstable_perm, length_hash_iter..
    |intros k v; apply elem_of_sorted_pairs|intros k v; apply elem_of_sorted_pairs].
  by apply sorted_pairs_inj in Heq as ->.
Qed.
