(* ===== verification/Backends.v ===== *)
(** * Out-of-band backends ([eth2077-oob-consensus/src/traits.rs], [types.rs], [mock.rs], [consensus_execution.rs])

    The interface a chain asks of an out-of-band consensus service (submit a commitment,
    poll its finality, read the latest finalized proof), a verifier of commitments and a
    bridge to execution, with the implementations of the repository: a backend that finalizes
    after a number of polls, behind a lock that answers an error once it is poisoned.

    The contract of the backend is stated on the history of the calls; [backend_refines]
    shows that every run of the implementation answers what the contract says. *)
From S2P Require Import Prelude Strings Canonical.
Local Open Scope Z_scope.

(** ** Data and traits *)

(* eth2077-oob-consensus/src/types.rs:4-11 CommitmentEnvelope *)
Record CommitmentEnvelope := {
  env_block_hash : B256;
  env_block_number : Z;
  env_state_root : B256;
  env_timestamp : Z;
  env_signature : Bytes;
  env_proposer_index : Z;
}.
#[export] Instance CommitmentEnvelope_eq_dec : EqDecision CommitmentEnvelope.
Proof. solve_decision. Defined.
(* eth2077-oob-consensus/src/types.rs:14-18 FinalityProof *)
Record FinalityProof := { fp_commitment : CommitmentEnvelope; fp_proof_data : Bytes; fp_finalized_at : Z }.
(* eth2077-oob-consensus/src/types.rs:21-27 OobError *)
Inductive OobError := NetworkError | InvalidCommitment | VerificationFailed | Timeout | BackendUnavailable.
(* eth2077-oob-consensus/src/types.rs:30-34 FinalityStatus *)
Inductive FinalityStatus := Pending | Finalized (proof : FinalityProof) | Failed (e : OobError).

(** The calls take [&self]: what they change is behind a lock, so the state is threaded. *)
(* eth2077-oob-consensus/src/traits.rs:4-10 OobBackend *)
Class OobBackend (S : Type) := {
  submit_commitment : CommitmentEnvelope → S → result unit OobError * S;
  poll_finality : B256 → S → result FinalityStatus OobError * S;
  get_latest_finalized : S → result (option FinalityProof) OobError;
}.
(* eth2077-oob-consensus/src/traits.rs:12-14 OobVerifier *)
Class OobVerifier (V : Type) := { verify_commitment : V → CommitmentEnvelope → result unit OobError }.
(* eth2077-oob-consensus/src/consensus_execution.rs:3-11 ConsensusExecutionBridge *)
Class ConsensusExecutionBridge (X : Type) := {
  propose_block : X → Header → Z → result Block Str;
  validate_proposed_block : X → Block → Bytes → result B256 Str;
  finalize_block : X → B256 → Z → result unit Str;
}.

(** ** The backend that finalizes after some polls *)

(* eth2077-oob-consensus/src/mock.rs:8-14 MockState *)
Record MockState := {
  ms_commitments : list CommitmentEnvelope;
  ms_finalized_block_hashes : gset B256;
  ms_poll_counts : gmap B256 Z;
  ms_finality_delay : Z;
  ms_latest_finalized : option FinalityProof;
}.
(** [Arc<RwLock<MockState>>]: a lock is poisoned when a thread panicked while it wrote. *)
(* eth2077-oob-consensus/src/mock.rs:17-19 MockOobBackend *)
Record MockOobBackend := { mb_poisoned : bool; mb_state : MockState }.
(* eth2077-oob-consensus/src/mock.rs:22-34 MockOobBackend::new *)
Definition MockOobBackend_new (finality_delay : Z) : MockOobBackend :=
  {| mb_poisoned := false;
     mb_state := {| ms_commitments := []; ms_finalized_block_hashes := ∅; ms_poll_counts := ∅;
                    ms_finality_delay := finality_delay; ms_latest_finalized := None |} |}.

(** [self.state.write().map_err(|_| OobError::BackendUnavailable)?], then the body. *)
Definition with_lock {A} (body : MockState → result A OobError * MockState) (b : MockOobBackend) :
    result A OobError * MockOobBackend :=
  if mb_poisoned b then (Err BackendUnavailable, b)
  else let '(answer, state) := body (mb_state b) in (answer, {| mb_poisoned := false; mb_state := state |}).

(* eth2077-oob-consensus/src/mock.rs:38-45 submit_commitment *)
Definition Mock_submit (commitment : CommitmentEnvelope) : MockOobBackend → result unit OobError * MockOobBackend :=
  with_lock (λ s,
    (Ok tt,
     {| ms_commitments := ms_commitments s ++ [commitment];
        ms_finalized_block_hashes := ms_finalized_block_hashes s; ms_poll_counts := ms_poll_counts s;
        ms_finality_delay := ms_finality_delay s; ms_latest_finalized := ms_latest_finalized s |})).
(* eth2077-oob-consensus/src/mock.rs:53-59 poll_finality *)
Definition latest_commitment (commitments : list CommitmentEnvelope) (block_hash : B256) : option CommitmentEnvelope :=
  snd <$> list_find (λ c, env_block_hash c = block_hash) (reverse commitments).
(* eth2077-oob-consensus/src/mock.rs:68-72 poll_finality *)
Definition mock_proof (commitment : CommitmentEnvelope) (finality_delay : Z) : FinalityProof :=
  {| fp_commitment := commitment; fp_proof_data := [77; 79; 67; 75]; fp_finalized_at := finality_delay |}.
(* eth2077-oob-consensus/src/mock.rs:47-78 poll_finality *)
Definition Mock_poll (block_hash : B256) : MockOobBackend → result FinalityStatus OobError * MockOobBackend :=
  with_lock (λ s,
    match latest_commitment (ms_commitments s) block_hash with
    | None => (Err InvalidCommitment, s)
    | Some commitment =>
        let poll_count := u64_wrapping_add (default 0 (ms_poll_counts s !! block_hash)) 1 in
        let poll_counts := <[block_hash := poll_count]> (ms_poll_counts s) in
        if poll_count <? ms_finality_delay s then
          (Ok Pending,
           {| ms_commitments := ms_commitments s; ms_finalized_block_hashes := ms_finalized_block_hashes s;
              ms_poll_counts := poll_counts; ms_finality_delay := ms_finality_delay s;
              ms_latest_finalized := ms_latest_finalized s |})
        else
          let proof := mock_proof commitment (ms_finality_delay s) in
          (Ok (Finalized proof),
           {| ms_commitments := ms_commitments s;
              ms_finalized_block_hashes := {[block_hash]} ∪ ms_finalized_block_hashes s;
              ms_poll_counts := poll_counts; ms_finality_delay := ms_finality_delay s;
              ms_latest_finalized := Some proof |})
    end).
(* eth2077-oob-consensus/src/mock.rs:80-86 get_latest_finalized *)
Definition Mock_latest (b : MockOobBackend) : result (option FinalityProof) OobError :=
  if mb_poisoned b then Err BackendUnavailable else Ok (ms_latest_finalized (mb_state b)).
(* eth2077-oob-consensus/src/mock.rs:37-87 MockOobBackend *)
#[export] Instance Mock_backend : OobBackend MockOobBackend :=
  {| submit_commitment := Mock_submit; poll_finality := Mock_poll; get_latest_finalized := Mock_latest |}.

(* eth2077-oob-consensus/src/mock.rs:90 MockOobVerifier *)
Inductive MockOobVerifier := mock_verifier.
(* eth2077-oob-consensus/src/mock.rs:92-99 MockOobVerifier *)
#[export] Instance Mock_verifier : OobVerifier MockOobVerifier :=
  {| verify_commitment := λ _ commitment,
       if forallb (λ b, b =? 0) (env_signature commitment) then Err VerificationFailed else Ok tt |}.

(* eth2077-oob-consensus/src/consensus_execution.rs:14-16 MockConsensusExecutionBridge *)
Record MockConsensusExecutionBridge := { mx_proposed_block : option Block }.
(* eth2077-oob-consensus/src/consensus_execution.rs:24-44 MockConsensusExecutionBridge *)
#[export] Instance Mock_bridge `{Alloy} : ConsensusExecutionBridge MockConsensusExecutionBridge :=
  {| propose_block := λ x _ _,
       match mx_proposed_block x with
       | Some block => Ok block
       | None => Err (str "mock propose_block: no block configured")
       end;
     validate_proposed_block := λ _ block _, Ok (Block_hash block);
     finalize_block := λ _ _ _, Ok tt |}.

(** ** Clients *)

Inductive Call := Submit (c : CommitmentEnvelope) | Poll (h : B256) | Latest.
Inductive Answer :=
| Submitted (r : result unit OobError)
| Polled (r : result FinalityStatus OobError)
| LatestIs (r : result (option FinalityProof) OobError).

(** What a backend answers to a call, and to calls one after the other. *)
Section client.
Context {S : Type} `{OobBackend S}.
Definition perform (call : Call) (s : S) : Answer * S :=
  match call with
  | Submit c => let '(r, s) := submit_commitment c s in (Submitted r, s)
  | Poll h => let '(r, s) := poll_finality h s in (Polled r, s)
  | Latest => (LatestIs (get_latest_finalized s), s)
  end.
Fixpoint perform_all (calls : list Call) (s : S) : list Answer * S :=
  match calls with
  | [] => ([], s)
  | call :: calls =>
      let '(answer, s) := perform call s in
      let '(answers, s) := perform_all calls s in (answer :: answers, s)
  end.
End client.

(** ** The contract, on the history of the calls (the latest first) *)

Section contract.
Context (delay : Z).

(** The latest commitment to a block, the polls that found one, the answer to a poll. *)
Fixpoint submitted (past : list Call) (h : B256) : option CommitmentEnvelope :=
  match past with
  | [] => None
  | Submit c :: past => if decide (env_block_hash c = h) then Some c else submitted past h
  | _ :: past => submitted past h
  end.
Fixpoint polls (past : list Call) (h : B256) : Z :=
  match past with
  | [] => 0
  | Poll h' :: past =>
      (if bool_decide (h' = h) && bool_decide (is_Some (submitted past h)) then 1 else 0) + polls past h
  | _ :: past => polls past h
  end.
Definition poll_answer (past : list Call) (h : B256) : result FinalityStatus OobError :=
  match submitted past h with
  | None => Err InvalidCommitment
  | Some c => if polls past h + 1 <? delay then Ok Pending else Ok (Finalized (mock_proof c delay))
  end.
Fixpoint finalized (past : list Call) : option FinalityProof :=
  match past with
  | [] => None
  | Poll h :: past => match poll_answer past h with Ok (Finalized proof) => Some proof | _ => finalized past end
  | _ :: past => finalized past
  end.
Definition contract (past : list Call) (call : Call) : Answer :=
  match call with
  | Submit _ => Submitted (Ok tt)
  | Poll h => Polled (poll_answer past h)
  | Latest => LatestIs (Ok (finalized past))
  end.
Fixpoint contract_all (past calls : list Call) : list Answer :=
  match calls with
  | [] => []
  | call :: calls => contract past call :: contract_all (call :: past) calls
  end.
End contract.

(** ** The backend keeps the contract *)

Lemma latest_commitment_app commitments c h :
  latest_commitment (commitments ++ [c]) h = if decide (env_block_hash c = h) then Some c else latest_commitment commitments h.
Proof.
  unfold latest_commitment. rewrite reverse_app. cbn. case_decide; [done|]. by destruct (list_find _ _) as [[]|].
Qed.
Lemma polls_bounds past h : 0 <= polls past h <= len past.
Proof.
  induction past as [|[c|h'|] past IH]; unfold len in *; cbn [polls length] in *; try lia. case_if_goal; lia.
Qed.
Lemma polls_poll past h : is_Some (submitted past h) → polls (Poll h :: past) h = polls past h + 1.
Proof. intros Hs. cbn. rewrite !bool_decide_true by done. cbn. lia. Qed.
Lemma polls_other past h h' : h' ≠ h ∨ submitted past h = None → polls (Poll h' :: past) h = polls past h.
Proof.
  intros Hs. cbn. destruct Hs as [?| ->]; [by rewrite bool_decide_false|].
  by rewrite (bool_decide_false (is_Some None)), andb_false_r by apply is_Some_None.
Qed.

(** What the state of the backend holds after a history. *)
Record implements (delay : Z) (past : list Call) (b : MockOobBackend) : Prop := {
  im_unpoisoned : mb_poisoned b = false;
  im_delay : ms_finality_delay (mb_state b) = delay;
  im_commitments h : latest_commitment (ms_commitments (mb_state b)) h = submitted past h;
  im_polls h : default 0 (ms_poll_counts (mb_state b) !! h) = polls past h;
  im_hashes h : h ∈ ms_finalized_block_hashes (mb_state b) ↔ 0 < polls past h ∧ delay <= polls past h;
  im_latest : ms_latest_finalized (mb_state b) = finalized delay past;
}.
Lemma implements_new delay : implements delay [] (MockOobBackend_new delay).
Proof. split; try done. intros h. cbn. split; [set_solver|lia]. Qed.

#[local] Arguments latest_commitment : simpl never.
Lemma submit_refines delay past c b :
  implements delay past b →
  (perform (Submit c) b).1 = contract delay past (Submit c) ∧ implements delay (Submit c :: past) (perform (Submit c) b).2.
Proof.
  intros [Hp Hd Hc Hn Hh Hl]. cbn. unfold Mock_submit, with_lock. rewrite Hp. cbn. split; [done|].
  split; cbn; try done. intros h. rewrite latest_commitment_app. case_decide; [done|apply Hc].
Qed.
Lemma poll_refines delay past h b :
  implements delay past b → len past < u64_max →
  (perform (Poll h) b).1 = contract delay past (Poll h) ∧ implements delay (Poll h :: past) (perform (Poll h) b).2.
Proof.
  intros [Hp Hd Hc Hn Hh Hl] Hlen. cbn [perform poll_finality Mock_backend contract]. unfold Mock_poll, with_lock. rewrite Hp, Hc.
  pose proof (polls_bounds past h) as Hb. unfold poll_answer. destruct (submitted past h) as [c|] eqn:Hs; cbn.
  - rewrite Hn, Hd. unfold u64_wrapping_add. rewrite Z.mod_small by lia.
    assert (Hpolls : ∀ k, polls (Poll h :: past) k = polls past k + (if decide (k = h) then 1 else 0)).
    { intros k. case_decide as Hk; [subst; by rewrite polls_poll by (by rewrite Hs)|rewrite polls_other by naive_solver; lia]. }
    assert (Hcounts : ∀ k, default 0 (<[h := polls past h + 1]> (ms_poll_counts (mb_state b)) !! k) = polls (Poll h :: past) k).
    { intros k. rewrite Hpolls. case_decide as Hk; [subst; by rewrite lookup_insert_eq|].
      rewrite lookup_insert_ne by done. rewrite Hn. lia. }
    destruct (Z.ltb_spec (polls past h + 1) delay) as [Hlt|Hge]; cbn [fst snd]; (split; [done|]); split; try done.
    + intros k. rewrite Hpolls. cbn. rewrite Hh. case_decide; [subst; lia|by rewrite Z.add_0_r].
    + cbn. unfold poll_answer. rewrite Hs. by rewrite (proj2 (Z.ltb_lt _ _) Hlt).
    + intros k. rewrite Hpolls. cbn. rewrite elem_of_union, elem_of_singleton, Hh. case_decide as Hk; [subst; split; [intros _; lia|by left]|].
      rewrite Z.add_0_r. naive_solver.
    + cbn. unfold poll_answer. rewrite Hs. by rewrite (proj2 (Z.ltb_ge _ _) Hge).
  - split; [done|].
    assert (Hpolls : ∀ k, polls (Poll h :: past) k = polls past k).
    { intros k. apply polls_other. destruct (decide (h = k)) as [<-|]; [by right|by left]. }
    split; try done; [intros k; rewrite Hpolls; apply Hn|intros k; rewrite Hpolls; apply Hh|].
    cbn. unfold poll_answer. by rewrite Hs.
Qed.
Lemma perform_refines delay past call b :
  implements delay past b → len past < u64_max →
  (perform call b).1 = contract delay past call ∧ implements delay (call :: past) (perform call b).2.
Proof.
  intros Hi Hlen. destruct call as [c|h|]; [by apply submit_refines|by apply poll_refines|].
  destruct Hi as [Hp Hd Hc Hn Hh Hl]. cbn. unfold Mock_latest. rewrite Hp, Hl. done.
Qed.
Lemma perform_all_refines delay past calls b :
  implements delay past b → len past + len calls <= u64_max →
  (perform_all calls b).1 = contract_all delay past calls ∧ implements delay (reverse calls ++ past) (perform_all calls b).2.
Proof.
  revert past b. induction calls as [|call calls IH]; intros past b Hi Hlen; [done|].
  unfold len in *. cbn [length] in *. destruct (perform_refines delay past call b Hi) as [Ha Hi']; [unfold len; lia|].
  cbn [perform_all contract_all]. destruct (perform call b) as [answer b']. cbn [fst snd] in *.
  destruct (IH (call :: past) b' Hi') as [Has Hi'']; [cbn [length]; lia|].
  destruct (perform_all calls b') as [answers b'']. cbn [fst snd] in *.
  rewrite reverse_cons, <- app_assoc. split; [congruence|done].
Qed.

(** a backend with any delay answers any calls, up to 2^64 of them, as the contract says:
    a poll of a block without a commitment is an error; the polls of a block with one are
    pending up to the delay and finalized from then on, with the latest commitment; the
    latest finalized proof is the last one a poll answered.  The blocks recorded as
    finalized are those whose polls reached the delay. *)
Theorem backend_refines (delay : Z) (calls : list Call) :
  len calls <= u64_max →
  let '(answers, b) := perform_all calls (MockOobBackend_new delay) in
  answers = contract_all delay [] calls ∧
  ∀ h, h ∈ ms_finalized_block_hashes (mb_state b) ↔ 0 < polls (reverse calls) h ∧ delay <= polls (reverse calls) h.
Proof.
  intros Hlen. destruct (perform_all_refines delay [] calls _ (implements_new delay)) as [Ha Hi]; [done|].
  rewrite app_nil_r in Hi. destruct (perform_all calls _) as [answers b]. split; [done|apply Hi].
Qed.

Definition spares (h : B256) (call : Call) : Prop := ∀ c, call = Submit c → env_block_hash c ≠ h.
Lemma submitted_kept recent past h : Forall (spares h) recent → submitted (recent ++ past) h = submitted past h.
Proof.
  induction 1 as [|[c|h'|] recent Hcall _ IH]; cbn; try done. by rewrite decide_False by by apply Hcall.
Qed.
#[export] Instance Call_eq_dec : EqDecision Call.
Proof. solve_decision. Defined.
Definition polls_of (h : B256) (calls : list Call) : Z := len (filter (λ call, call = Poll h) calls).
Lemma polls_kept recent past h :
  Forall (spares h) recent → is_Some (submitted past h) → polls (recent ++ past) h = polls_of h recent + polls past h.
Proof.
  intros Hall Hs. unfold polls_of, len. induction Hall as [|call recent Hcall Hr IH]; [done|].
  rewrite filter_cons. destruct call as [c|h'|]; cbn [polls app].
  - rewrite decide_False by done. exact IH.
  - rewrite submitted_kept by done. rewrite (bool_decide_true (is_Some _)), andb_true_r by done.
    destruct (decide (h' = h)) as [->|Hne].
    + rewrite bool_decide_true, decide_True by done. cbn [length]. lia.
    + rewrite bool_decide_false, decide_False by congruence. cbn [length]. lia.
  - rewrite decide_False by done. exact IH.
Qed.
Lemma polls_of_reverse h calls : polls_of h (reverse calls) = polls_of h calls.
Proof. unfold polls_of, len. by rewrite (Permutation_length (filter_Permutation _ _ _ (reverse_Permutation calls))). Qed.

(** The answer to one more poll, whatever came before. *)
Lemma poll_after delay calls h :
  len calls < u64_max →
  (perform (Poll h) (perform_all calls (MockOobBackend_new delay)).2).1 = Polled (poll_answer delay (reverse calls) h).
Proof.
  intros Hlen. destruct (perform_all_refines delay [] calls _ (implements_new delay)) as [_ Hi]; [unfold len in *; cbn; lia|].
  rewrite app_nil_r in Hi. apply (perform_refines _ _ (Poll h)) in Hi as [Ha _]; [exact Ha|].
  unfold len in *. by rewrite length_reverse.
Qed.

(** finality comes and stays: once a commitment was submitted, and its block polled 
    least as often as the delay says, less one, the next poll answers the proof of th
    commitment, unless another commitment to the block was submitted since; and a poll
    answers finality only of a commitment to its block that was submitted. *)
Theorem finality_after_delay (delay : Z) (before since : list Call) (c : CommitmentEnvelope) :
  len (before ++ Submit c :: since) < u64_max →
  Forall (spares (env_block_hash c)) since →
  delay - 1 <= polls_of (env_block_hash c) since →
  let b := (perform_all (before ++ Submit c :: since) (MockOobBackend_new delay)).2 in
  (perform (Poll (env_block_hash c)) b).1 = Polled (Ok (Finalized (mock_proof c delay))).
Proof.
  intros Hlen Hsince Hpolls. cbv zeta. rewrite poll_after by done. rewrite reverse_app, reverse_cons, <- !app_assoc.
  set (past := [Submit c] ++ reverse before). assert (Hs : submitted past (env_block_hash c) = Some c).
  { subst past. cbn. by rewrite decide_True. }
  assert (Hr : Forall (spares (env_block_hash c)) (reverse since)) by by apply Forall_reverse.
  unfold poll_answer. rewrite submitted_kept, Hs by done. rewrite polls_kept, polls_of_reverse by (done || by rewrite Hs).
  pose proof (polls_bounds past (env_block_hash c)). by rewrite (proj2 (Z.ltb_ge _ _)) by lia.
Qed.

Lemma submitted_in past h c : submitted past h = Some c → Submit c ∈ past ∧ env_block_hash c = h.
Proof.
  induction past as [|[c'|h'|] past IH]; cbn; [done|case_decide; [intros [= ->]; split; [by constructor|done]|]|..];
    intros Hs; apply IH in Hs as [? ?]; (split; [by constructor|done]).
Qed.
Lemma polls_le_polls_of past h : polls past h <= polls_of h past.
Proof.
  unfold polls_of, len. induction past as [|call past IH]; [done|]. rewrite filter_cons.
  destruct call as [c|h'|]; cbn [polls]; [by rewrite decide_False..| |by rewrite decide_False].
  destruct (decide (h' = h)) as [->|Hne].
  - rewrite decide_True by done. cbn [length]. case_if_goal; lia.
  - rewrite bool_decide_false by done. rewrite decide_False by congruence. cbn. lia.
Qed.
(** a poll answers finality only with the proof of a commitment to its block that was
    submitted, and not before the delay is over. *)
Theorem finality_is_earned (delay : Z) (calls : list Call) (h : B256) (proof : FinalityProof) :
  len calls < u64_max →
  (perform (Poll h) (perform_all calls (MockOobBackend_new delay)).2).1 = Polled (Ok (Finalized proof)) →
  ∃ c, Submit c ∈ calls ∧ env_block_hash c = h ∧ proof = mock_proof c delay ∧ delay <= polls_of h calls + 1.
Proof.
  intros Hlen. rewrite poll_after by done. unfold poll_answer.
  destruct (submitted (reverse calls) h) as [c|] eqn:Hs; [|done].
  destruct (Z.ltb_spec (polls (reverse calls) h + 1) delay) as [|Hge]; [done|]. intros [= <-].
  apply submitted_in in Hs as [Hin Hh]. exists c. split; [by apply elem_of_reverse|]. do 2 (split; [done|]).
  pose proof (polls_le_polls_of (reverse calls) h) as Hle. rewrite polls_of_reverse in Hle. lia.
Qed.

(** A delay of 0 is a delay of 1: the first poll finalizes, but the proofs name the delay. *)
Lemma no_delay_first_poll delay c :
  delay <= 1 →
  (perform_all [Submit c; Poll (env_block_hash c); Latest] (MockOobBackend_new delay)).1 =
    [Submitted (Ok tt); Polled (Ok (Finalized (mock_proof c delay))); LatestIs (Ok (Some (mock_proof c delay)))].
Proof.
  intros Hd. destruct (perform_all_refines delay [] [Submit c; Poll (env_block_hash c); Latest] _ (implements_new delay)) as [-> _];
    [done|]. cbn. unfold poll_answer. cbn. rewrite decide_True by done. by rewrite (proj2 (Z.ltb_ge _ _)) by lia.
Qed.
(** Nothing holds the finalized commitment: another one to the same block takes its place. *)
Lemma finality_replaced c1 c2 :
  env_block_hash c1 = env_block_hash c2 →
  (perform_all [Submit c1; Poll (env_block_hash c1); Submit c2; Poll (env_block_hash c1); Latest] (MockOobBackend_new 1)).1 =
    [Submitted (Ok tt); Polled (Ok (Finalized (mock_proof c1 1))); Submitted (Ok tt);
     Polled (Ok (Finalized (mock_proof c2 1))); LatestIs (Ok (Some (mock_proof c2 1)))].
Proof.
  intros Hc. match goal with |- (perform_all ?calls _).1 = _ => destruct (perform_all_refines 1 [] calls _ (implements_new 1)) as [-> _]; [done|] end.
  cbn. unfold poll_answer. cbn. rewrite !Hc, !decide_True by done. rewrite !bool_decide_true by done. done.
Qed.
(** Once the lock is poisoned every call is answered by the same error, and changes nothing. *)
Lemma poisoned_unavailable b call :
  mb_poisoned b = true →
  perform call b = (match call with
                    | Submit _ => Submitted (Err BackendUnavailable)
                    | Poll _ => Polled (Err BackendUnavailable)
                    | Latest => LatestIs (Err BackendUnavailable)
                    end, b).
Proof.
  intros Hp. destruct call; cbn; unfold Mock_submit, Mock_poll, Mock_latest, with_lock; by rewrite Hp.
Qed.
(** The verifier accepts the signatures with a byte that is not zero. *)
Lemma mock_verifier_exact c :
  verify_commitment mock_verifier c = Ok tt ↔ Exists (λ b, b ≠ 0) (env_signature c).
Proof.
  cbn. destruct (forallb _ (env_signature c)) eqn:Hall; (split; [try done|]).
  - intros [b [Hb Hne]]%Exists_exists. rewrite forallb_forall in Hall. apply list_elem_of_In, Hall in Hb. by bool_to_prop.
  - intros _. apply not_Forall_Exists; [apply _|]. intros Hz. apply not_true_iff_false in Hall. apply Hall, forallb_forall.
    intros b Hb%list_elem_of_In. rewrite Forall_forall in Hz. apply Hz in Hb. by apply Z.eqb_eq.
  - done.
Qed.
(** A block the bridge proposes it also validates, with the hash of its header. *)
Lemma mock_bridge_validates `{Alloy} (x : MockConsensusExecutionBridge) parent height block hint :
  propose_block x parent height = Ok block →
  mx_proposed_block x = Some block ∧ validate_proposed_block x block hint = Ok (Header_hash (header block)).
Proof. cbn. destruct (mx_proposed_block x); [|done]. by intros [= ->]. Qed.

Definition example_envelope (n : Z) : CommitmentEnvelope :=
  {| env_block_hash := [n]; env_block_number := n; env_state_root := []; env_timestamp := 0; env_signature := [1];
     env_proposer_index := 0 |}.
Lemma backend_refines_witness :
  (perform_all [Submit (example_envelope 1); Poll [1]; Poll [2]; Poll [1]] (MockOobBackend_new 2)).1 =
    [Submitted (Ok tt); Polled (Ok Pending); Polled (Err InvalidCommitment);
     Polled (Ok (Finalized (mock_proof (example_envelope 1) 2)))].
Proof.
  pose proof (backend_refines 2 [Submit (example_envelope 1); Poll [1]; Poll [2]; Poll [1]] ltac:(discriminate)) as Href.
  destruct (perform_all _ _) as [answers b] eqn:Hrun. destruct Href as [-> _]. reflexivity.
Defined.
Lemma finality_after_delay_witness :
  (perform (Poll [1]) (perform_all ([] ++ [Submit (example_envelope 1); Poll [1]]) (MockOobBackend_new 2)).2).1 =
  Polled (Ok (Finalized (mock_proof (example_envelope 1) 2))).
Proof.
  apply (finality_after_delay 2 [] [Poll [1]] (example_envelope 1)); [reflexivity| |discriminate].
  constructor; [intros c [=]|constructor].
Defined.
Lemma finality_is_earned_witness :
  ∃ c, Submit c ∈ [Submit (example_envelope 1)] ∧ env_block_hash c = [1] ∧
    mock_proof (example_envelope 1) 1 = mock_proof c 1 ∧ 1 <= polls_of [1] [Submit (example_envelope 1)] + 1.
Proof. apply (finality_is_earned 1 [Submit (example_envelope 1)] [1]); reflexivity. Defined.
