(* ===== verification/Planning.v ===== *)
(** * Roadmaps: the items of the roadmap with the reviews of EIPs, and the strawmap

    Part 1. Roadmap items and EIP reviews ([eth2077-types/src/ef_architecture.rs], [eip_delta_review.rs])

    Actionable items with their dependencies: the filter that follows dependencies through a
    work list, the depth of the dependency graph by a memoised search, priorities, and the
    commitment to a set of items.  Reviews of changes to EIPs: validation, the impact of a
    change, coverage, statistics, and the commitment to the entries.

    Part 2. The strawmap ([eth2077-types/src/strawmap_port.rs], [strawmap_companion.rs])

    The ledger of items ported from the strawmap (module [Port]) and the mirror of the
    companion document with the gates of the items extracted from it (module [Companion]):
    configurations and their validation, statistics, when a mirror must be synchronised, and
    the commitments to the statistics; the derived JSON that is hashed is the classes
    [PortJson] and [CompanionJson]. *)
From S2P Require Import Prelude Validation Strings Floats FloatFacts Metadata.
Local Open Scope Z_scope.

(* eth2077-types/src/ef_architecture.rs:6-13 RoadmapTrack *)
Inductive RoadmapTrack := Surge | Verge | Purge | Scourge | Splurge | MergeTrack.
#[export] Instance RoadmapTrack_eq_dec : EqDecision RoadmapTrack.
Proof. solve_decision. Defined.
(* eth2077-types/src/ef_architecture.rs:16-23 ArchitectureLayer *)
Inductive ArchitectureLayer :=
| ExecutionLayer | ConsensusLayer | DataAvailability | NetworkingLayer | CryptographyLayer | StateManagement.
#[export] Instance ArchitectureLayer_eq_dec : EqDecision ArchitectureLayer.
Proof. solve_decision. Defined.
(* eth2077-types/src/ef_architecture.rs:26-34 ActionableItem *)
Record ActionableItem := {
  ai_title : Str;
  ai_track : RoadmapTrack;
  ai_layer : ArchitectureLayer;
  ai_priority : f64;
  ai_estimated_complexity : f64;
  ai_dependencies : list Str;
  ai_eth2077_relevant : bool;
}.
(* eth2077-types/src/ef_architecture.rs:37-43 EfArchitectureConfig *)
Record EfArchitectureConfig := {
  ea_tracks : list RoadmapTrack;
  ea_layers : list ArchitectureLayer;
  ea_min_priority : f64;
  ea_max_items : Z;
  ea_include_dependencies : bool;
}.
(* eth2077-types/src/ef_architecture.rs:46-53 EfArchitectureValidationError *)
Inductive EfArchitectureValidationError :=
| EmptyTracks
| EmptyLayers
| PriorityOutOfRange (value : f64)
| MaxItemsZero
| DuplicateTrack
| DuplicateLayer.
(* eth2077-types/src/ef_architecture.rs:56-64 EfArchitectureStats *)
Record EfArchitectureStats := {
  eas_total_items : Z;
  eas_relevant_items : Z;
  eas_items_by_track : list (Str * Z);
  eas_items_by_layer : list (Str * Z);
  eas_avg_priority : f64;
  eas_avg_complexity : f64;
  eas_dependency_depth : Z;
}.
(* eth2077-types/src/ef_architecture.rs:66-88 default_ef_architecture_config *)
Definition default_ef_architecture_config : EfArchitectureConfig :=
  {| ea_tracks := [Surge; Verge; Purge; Scourge; Splurge; MergeTrack];
     ea_layers := [ExecutionLayer; ConsensusLayer; DataAvailability; NetworkingLayer; CryptographyLayer; StateManagement];
     ea_min_priority := dec 5 10;
     ea_max_items := 64;
     ea_include_dependencies := true |}.
(* eth2077-types/src/ef_architecture.rs:349-358 roadmap_track_name *)
Definition roadmap_track_name (track : RoadmapTrack) : Str :=
  match track with
  | Surge => str "Surge" | Verge => str "Verge" | Purge => str "Purge" | Scourge => str "Scourge"
  | Splurge => str "Splurge" | MergeTrack => str "Merge"
  end.
(* eth2077-types/src/ef_architecture.rs:360-369 architecture_layer_name *)
Definition architecture_layer_name (layer : ArchitectureLayer) : Str :=
  match layer with
  | ExecutionLayer => str "Execution" | ConsensusLayer => str "Consensus" | DataAvailability => str "DataAvailability"
  | NetworkingLayer => str "Networking" | CryptographyLayer => str "Cryptography" | StateManagement => str "StateManagement"
  end.
(* eth2077-types/src/ef_architecture.rs:371-380 roadmap_track_rank *)
Definition roadmap_track_rank (track : RoadmapTrack) : Z :=
  match track with MergeTrack => 0 | Surge => 1 | Verge => 2 | Purge => 3 | Scourge => 4 | Splurge => 5 end.
(* eth2077-types/src/ef_architecture.rs:382-391 architecture_layer_rank *)
Definition architecture_layer_rank (layer : ArchitectureLayer) : Z :=
  match layer with
  | ExecutionLayer => 0 | ConsensusLayer => 1 | DataAvailability => 2 | NetworkingLayer => 3 | CryptographyLayer => 4
  | StateManagement => 5
  end.
#[export] Instance roadmap_track_rank_inj : Inj (=) (=) roadmap_track_rank.
Proof. by intros [] []. Qed.
#[export] Instance architecture_layer_rank_inj : Inj (=) (=) architecture_layer_rank.
Proof. by intros [] []. Qed.

(* eth2077-types/src/ef_architecture.rs:90-136 validate_ef_architecture_config *)
Definition validate_ef_architecture_config (config : EfArchitectureConfig) : result unit (list EfArchitectureValidationError) :=
  let priority := ea_min_priority config in
  errors_to_result (
    push_if (bool_decide (ea_tracks config = [])) EmptyTracks ++
    push_if (bool_decide (ea_layers config = [])) EmptyLayers ++
    push_if (negb (f64_is_finite priority) || negb (f64_le f64_zero priority && f64_le priority (int 1)))
      (PriorityOutOfRange priority) ++
    push_if (ea_max_items config =? 0) MaxItemsZero ++
    push_if (bool_decide (¬ NoDup (ea_tracks config))) DuplicateTrack ++
    push_if (bool_decide (¬ NoDup (ea_layers config))) DuplicateLayer).

(** ** Priorities *)

(* eth2077-types/src/ef_architecture.rs:193-208 prioritize_items *)
Definition priority_cmp (left right : ActionableItem) : comparison :=
  then_with (f64_total_cmp (ai_priority right) (ai_priority left))
    (then_with (f64_total_cmp (ai_estimated_complexity left) (ai_estimated_complexity right))
      (then_with (Z.compare (roadmap_track_rank (ai_track left)) (roadmap_track_rank (ai_track right)))
        (then_with (Z.compare (architecture_layer_rank (ai_layer left)) (architecture_layer_rank (ai_layer right)))
          (bytes_cmp (ai_title left) (ai_title right))))).
(* eth2077-types/src/ef_architecture.rs:193-208 prioritize_items *)
Definition prioritize_items (items : list ActionableItem) : list ActionableItem := sort_by priority_cmp items.

(** ** The filter *)

(** The last item with a title stands for it. *)
(* eth2077-types/src/ef_architecture.rs:227-230 filter_relevant_items *)
Definition by_title (items : list ActionableItem) : gmap Str ActionableItem :=
  foldl (λ m item, <[ai_title item := item]> m) ∅ items.
(* eth2077-types/src/ef_architecture.rs:217-224 filter_relevant_items *)
Definition directly_relevant (items : list ActionableItem) (config : EfArchitectureConfig) : list ActionableItem :=
  filter (λ item, ai_eth2077_relevant item = true ∧ ai_track item ∈ ea_tracks config ∧ ai_layer item ∈ ea_layers config ∧
    f64_le (ea_min_priority config) (ai_priority item) = true) items.
(** The work list is a stack, its top first: [extend] pushes the dependencies in order and
    [pop] takes the last.  One step of fuel is one turn of the loop; [None] is a loop that
    has not ended. *)
(* eth2077-types/src/ef_architecture.rs:239-248 filter_relevant_items *)
Fixpoint follow_dependencies (fuel : nat) (titles : gmap Str ActionableItem) (selected : list ActionableItem)
    (known : gset Str) (queue : list Str) : option (list ActionableItem) :=
  match queue with
  | [] => Some selected
  | dependency_title :: queue =>
      match fuel with
      | O => None
      | S fuel =>
          if bool_decide (dependency_title ∈ known) then follow_dependencies fuel titles selected known queue else
          match titles !! dependency_title with
          | Some dep_item =>
              follow_dependencies fuel titles (selected ++ [dep_item]) ({[dependency_title]} ∪ known)
                (reverse (ai_dependencies dep_item) ++ queue)
          | None => follow_dependencies fuel titles selected known queue
          end
      end
  end.
(** The dependencies waiting, and those of every item that can still be added. *)
Definition dependencies_of (items : list ActionableItem) : list Str := item ← items; ai_dependencies item.
Definition follow_fuel (titles : gmap Str ActionableItem) (queue : list Str) : nat :=
  length queue + length (dependencies_of (map_to_list titles).*2).
(* eth2077-types/src/ef_architecture.rs:227-249 filter_relevant_items *)
Definition with_dependencies (items selected : list ActionableItem) : option (list ActionableItem) :=
  let titles := by_title items in
  let known := list_to_set (ai_title <$> selected) in
  let queue := reverse (dependencies_of selected) in
  follow_dependencies (follow_fuel titles queue) titles selected known queue.
(* eth2077-types/src/ef_architecture.rs:210-255 filter_relevant_items *)
Definition filter_relevant_items (items : list ActionableItem) (config : EfArchitectureConfig)
  : option (list ActionableItem) :=
  let selected := directly_relevant items config in
  selected ← (if ea_include_dependencies config then with_dependencies items selected else Some selected);
  Some (take (Z.to_nat (ea_max_items config)) (prioritize_items selected)).

(** ** The depth of the dependencies *)

(** The depths found, and the items whose search has not ended. *)
Definition DepthState : Type := gmap nat Z * gset nat.
(* eth2077-types/src/ef_architecture.rs:258-262 compute_dependency_depth *)
Definition index_by_title (items : list ActionableItem) : gmap Str nat :=
  foldl (λ m '(index, item), <[ai_title item := index]> m) ∅ (imap pair items).
(** The items are indexed, and the recursive calls of the loop over the dependencies are
    [search].  A depth is at most the number of items ([dependency_depth_bounded]), so the
    addition cannot wrap. *)
(* eth2077-types/src/ef_architecture.rs:330-338 dependency_depth_from *)
Definition deepest (search : nat → DepthState → option (Z * DepthState)) (titles : gmap Str nat)
    (acc : option (Z * DepthState)) (dependency : Str) : option (Z * DepthState) :=
  '(best, st) ← acc;
  '(dep_depth, st) ← (match titles !! dependency with
    | Some dep_index => '(depth, st) ← search dep_index st; Some (1 + depth, st)
    | None => Some (1, st)
    end);
  Some (Z.max best dep_depth, st).
(** [None] only when the fuel runs out. *)
(* eth2077-types/src/ef_architecture.rs:315-342 dependency_depth_from *)
Fixpoint dependency_depth_from (fuel : nat) (items : list ActionableItem) (titles : gmap Str nat) (index : nat)
    (st : DepthState) : option (Z * DepthState) :=
  match fuel with
  | O => None
  | S fuel =>
      let '(memo, visiting) := st in
      match memo !! index with
      | Some cached => Some (cached, st)
      | None =>
          if bool_decide (index ∈ visiting) then Some (0, st) else
          let dependencies := from_option ai_dependencies [] (items !! index) in
          '(best, st) ← foldl (deepest (dependency_depth_from fuel items titles) titles)
            (Some (0, (memo, {[index]} ∪ visiting))) dependencies;
          let '(memo, visiting) := st in
          Some (best, (<[index := best]> memo, visiting ∖ {[index]}))
      end
  end.
(* eth2077-types/src/ef_architecture.rs:257-272 compute_dependency_depth *)
Definition compute_dependency_depth (items : list ActionableItem) : option Z :=
  fst <$> foldl (λ acc index,
      '(max_depth, st) ← acc;
      '(depth, st) ← dependency_depth_from (S (length items)) items (index_by_title items) index st;
      Some (Z.max max_depth depth, st))
    (Some (0, (∅, ∅))) (seq 0 (length items)).

(** ** Statistics and the commitment *)

Definition name_cmp (left right : Str * Z) : comparison := bytes_cmp left.1 right.1.
(* eth2077-types/src/ef_architecture.rs:138-191 compute_ef_architecture_stats *)
Definition compute_ef_architecture_stats {HO : HashOrder} (items : list ActionableItem) (config : EfArchitectureConfig)
  : option EfArchitectureStats :=
  filtered ← filter_relevant_items items config;
  if bool_decide (filtered = []) then
    Some {| eas_total_items := 0; eas_relevant_items := 0; eas_items_by_track := []; eas_items_by_layer := [];
            eas_avg_priority := f64_zero; eas_avg_complexity := f64_zero; eas_dependency_depth := 0 |}
  else
    depth ← compute_dependency_depth filtered;
    let track_counts := foldl increment ∅ ((λ item, roadmap_track_name (ai_track item)) <$> filtered) in
    let layer_counts := foldl increment ∅ ((λ item, architecture_layer_name (ai_layer item)) <$> filtered) in
    Some {| eas_total_items := len filtered;
            eas_relevant_items := len (filter (λ item, ai_eth2077_relevant item = true) filtered);
            eas_items_by_track := sort_by name_cmp (hash_iter track_counts);
            eas_items_by_layer := sort_by name_cmp (hash_iter layer_counts);
            eas_avg_priority := f64_div (f64_sum (ai_priority <$> filtered)) (f64_of_u64 (len filtered));
            eas_avg_complexity := f64_div (f64_sum (ai_estimated_complexity <$> filtered)) (f64_of_u64 (len filtered));
            eas_dependency_depth := depth |}.

(** [Vec<String>] compares lexicographically. *)
Fixpoint strings_cmp (a b : list Str) : comparison :=
  match a, b with
  | [], [] => Eq
  | [], _ :: _ => Lt
  | _ :: _, [] => Gt
  | x :: a, y :: b => then_with (bytes_cmp x y) (strings_cmp a b)
  end.
(* eth2077-types/src/ef_architecture.rs:276-289 compute_architecture_commitment *)
Definition item_cmp (left right : ActionableItem) : comparison :=
  then_with (Z.compare (roadmap_track_rank (ai_track left)) (roadmap_track_rank (ai_track right)))
    (then_with (Z.compare (architecture_layer_rank (ai_layer left)) (architecture_layer_rank (ai_layer right)))
      (then_with (f64_total_cmp (ai_priority left) (ai_priority right))
        (then_with (f64_total_cmp (ai_estimated_complexity left) (ai_estimated_complexity right))
          (then_with (bool_cmp (ai_eth2077_relevant left) (ai_eth2077_relevant right))
            (then_with (bytes_cmp (ai_title left) (ai_title right))
              (strings_cmp (ai_dependencies left) (ai_dependencies right))))))).
(* eth2077-types/src/ef_architecture.rs:344-347 hash_string *)
Definition hash_string (value : Str) : list Z := encode_bytes value.
(* eth2077-types/src/ef_architecture.rs:294-306 compute_architecture_commitment *)
Definition hash_item (item : ActionableItem) : list Z :=
  hash_string (ai_title item) ++ [roadmap_track_rank (ai_track item)] ++ [architecture_layer_rank (ai_layer item)] ++
  to_be_bytes 8 (f64_to_bits (ai_priority item)) ++ to_be_bytes 8 (f64_to_bits (ai_estimated_complexity item)) ++
  [u8_of_bool (ai_eth2077_relevant item)] ++ encode_list hash_string (ai_dependencies item).
(* eth2077-types/src/ef_architecture.rs:275-307 compute_architecture_commitment *)
Definition items_preimage (items : list ActionableItem) : list Z := encode_list hash_item (sort_by item_cmp items).
(* eth2077-types/src/ef_architecture.rs:274-313 compute_architecture_commitment *)
Definition compute_architecture_commitment `{Sha256} (items : list ActionableItem) : list Z := sha256 (items_preimage items).

(** ** The filter follows every dependency *)

Lemma not_not_NoDup {A} `{EqDecision A} (l : list A) : ¬ ¬ NoDup l ↔ NoDup l.
Proof. destruct (decide (NoDup l)); tauto. Qed.
Lemma unit_is_finite x : f64_le f64_zero x = true → f64_le x (int 1) = true → f64_is_finite x = true.
Proof. by destruct x as [|[]| |]. Qed.
Lemma validate_ef_architecture_exact config :
  validate_ef_architecture_config config = Ok tt ↔
  ea_tracks config ≠ [] ∧ ea_layers config ≠ [] ∧ NoDup (ea_tracks config) ∧ NoDup (ea_layers config) ∧
  ea_max_items config ≠ 0 ∧ f64_le f64_zero (ea_min_priority config) = true ∧ f64_le (ea_min_priority config) (int 1) = true.
Proof.
  unfold validate_ef_architecture_config.
  rewrite errors_to_result_ok, !app_nil, !push_if_nil, !bool_decide_eq_false, Z.eqb_neq, !not_not_NoDup.
  rewrite orb_false_iff, !negb_false_iff, !andb_true_iff. pose proof (unit_is_finite (ea_min_priority config)). tauto.
Qed.

Lemma by_title_snoc items item : by_title (items ++ [item]) = <[ai_title item := item]> (by_title items).
Proof. unfold by_title. by rewrite foldl_snoc. Qed.
Lemma by_title_some items t item : by_title items !! t = Some item → ai_title item = t ∧ item ∈ items.
Proof.
  induction items as [|x items IH] using rev_ind; [done|]. rewrite by_title_snoc, elem_of_app.
  intros [[<- <-]|[_ ?%IH]]%lookup_insert_Some; [set_solver|naive_solver].
Qed.
Lemma by_title_is_some items t : is_Some (by_title items !! t) ↔ t ∈ ai_title <$> items.
Proof.
  induction items as [|x items IH] using rev_ind; [split; [intros []; done|set_solver]|].
  rewrite by_title_snoc, fmap_app, elem_of_app, lookup_insert_is_Some, IH. csimpl. rewrite list_elem_of_singleton.
  destruct (decide (ai_title x = t)); naive_solver.
Qed.
(** With one item per title, an item is found under its title. *)
Lemma by_title_unique items item : NoDup (ai_title <$> items) → item ∈ items → by_title items !! ai_title item = Some item.
Proof.
  intros Hnd Hin. assert (is_Some (by_title items !! ai_title item)) as [x Hx]
    by (apply by_title_is_some, list_elem_of_fmap; eauto).
  rewrite Hx. f_equal. apply by_title_some in Hx as [Ht Hx].
  apply list_elem_of_lookup in Hx as [i Hi], Hin as [j Hj].
  assert (i = j) as ->; [|congruence].
  apply (NoDup_lookup _ i j (ai_title item) Hnd); rewrite list_lookup_fmap; [by rewrite Hi, <- Ht|by rewrite Hj].
Qed.

Section closure.
Context (titles : gmap Str ActionableItem) (roots : list ActionableItem).
Hypothesis titles_ok : ∀ t item, titles !! t = Some item → ai_title item = t.

(** The titles that the roots need, directly or through an item that is added. *)
Inductive needed : Str → Prop :=
| needed_root item t : item ∈ roots → t ∈ ai_dependencies item → needed t
| needed_added t item u : needed t → t ∉ ai_title <$> roots → titles !! t = Some item → u ∈ ai_dependencies item → needed u.
(** What is added: the items needed that are not selected already. *)
Definition added (item : ActionableItem) : Prop :=
  needed (ai_title item) ∧ ai_title item ∉ ai_title <$> roots ∧ titles !! ai_title item = Some item.
Record follow_inv (extra : list ActionableItem) (known : gset Str) (queue : list Str) : Prop := {
  fi_nodup : NoDup (ai_title <$> extra);
  fi_extra : Forall added extra;
  fi_known t : t ∈ known ↔ t ∈ ai_title <$> roots ∨ t ∈ ai_title <$> extra;
  fi_queue : Forall needed queue;
  fi_complete item t : item ∈ roots ∨ item ∈ extra → t ∈ ai_dependencies item →
    t ∈ queue ∨ t ∈ known ∨ titles !! t = None;
}.
(** The fuel an intermediate state needs: what waits, and what unknown items may add. *)
Definition waiting (known : gset Str) : nat :=
  length (dependencies_of (map_to_list (filter (λ p : Str * ActionableItem, p.1 ∉ known) titles)).*2).
Lemma length_dependencies_perm l1 l2 : l1 ≡ₚ l2 → length (dependencies_of l1) = length (dependencies_of l2).
Proof. intros Hl. apply Permutation_length. unfold dependencies_of. by apply bind_Permutation. Qed.
Lemma waiting_insert known t item :
  titles !! t = Some item → t ∉ known →
  waiting known = (length (ai_dependencies item) + waiting ({[t]} ∪ known))%nat.
Proof.
  clear titles_ok. intros Ht Hk. unfold waiting.
  assert (filter (λ p : Str * ActionableItem, p.1 ∉ known) titles =
    <[t := item]> (filter (λ p : Str * ActionableItem, p.1 ∉ {[t]} ∪ known) titles)) as ->.
  { apply map_eq. intros k. apply option_eq. intros x. rewrite lookup_insert_Some, !map_lookup_filter_Some. cbn [fst].
    destruct (decide (t = k)) as [->|Hne].
    - split; [|naive_solver]. intros [Hx _]. left. rewrite Ht in Hx. naive_solver.
    - rewrite not_elem_of_union, not_elem_of_singleton. naive_solver. }
  rewrite (length_dependencies_perm _ (item :: (map_to_list (filter (λ p : Str * ActionableItem, p.1 ∉ {[t]} ∪ known) titles)).*2)).
  - unfold dependencies_of. csimpl. by rewrite length_app.
  - rewrite map_to_list_insert; [done|]. apply map_lookup_filter_None. right. intros x _. cbn. set_solver.
Qed.
Lemma waiting_all : (waiting ∅ = length (dependencies_of (map_to_list titles).*2))%nat.
Proof. clear titles_ok. unfold waiting. f_equal. f_equal. f_equal. f_equal. apply map_filter_id. intros. cbn. set_solver. Qed.
Lemma waiting_mono known known' : known ⊆ known' → (waiting known' <= waiting known)%nat.
Proof.
  clear titles_ok. intros Hsub. unfold waiting.
  assert (∀ l1 l2 : list ActionableItem, l1 ⊆+ l2 → (length (dependencies_of l1) <= length (dependencies_of l2))%nat) as Hlen.
  { intros l1 l2 [k Hk]%submseteq_Permutation. rewrite (length_dependencies_perm _ _ Hk).
    unfold dependencies_of. rewrite bind_app, length_app. lia. }
  apply Hlen. apply fmap_submseteq, map_to_list_submseteq. apply map_subseteq_spec. intros k x.
  rewrite !map_lookup_filter_Some. cbn. set_solver.
Qed.
Lemma follow_spec fuel extra known queue :
  follow_inv extra known queue → (length queue + waiting known <= fuel)%nat →
  ∃ extra', follow_dependencies fuel titles (roots ++ extra) known queue = Some (roots ++ extra') ∧ follow_inv extra' 
    (list_to_set (ai_title <$> roots ++ extra')) [].
Proof.
  revert extra known queue. induction fuel as [|fuel IH]; intros extra known queue [Hnd He Hk Hq Hc] Hfuel.
  all: destruct queue as [|t queue]; cbn [follow_dependencies length] in *; [|try lia].
  1,2: exists extra; split; [done|]; split; [done|done| |constructor|];
    [intros t; by rewrite elem_of_list_to_set, fmap_app, elem_of_app|];
    intros item t Hi Ht; right; rewrite elem_of_list_to_set, fmap_app, elem_of_app, <- Hk;
    destruct (Hc item t Hi Ht) as [[]%elem_of_nil|?]; done.
  apply Forall_cons in Hq as [Ht Hq]. case_bool_decide as Hkt.
  - apply IH; [|lia]. split; try done. intros item u Hi Hu.
    destruct (Hc item u Hi Hu) as [[->|?]%elem_of_cons|?]; tauto.
  - destruct (titles !! t) as [item|] eqn:Et.
    + pose proof (titles_ok _ _ Et) as Hti. rewrite <- (app_assoc roots).
      assert (t ∉ ai_title <$> roots ∧ t ∉ ai_title <$> extra) as [Hr Hx] by (rewrite Hk in Hkt; tauto).
      apply IH.
      * split.
        -- rewrite fmap_app. apply NoDup_app. csimpl. rewrite Hti. split; [done|]. split; [|by repeat constructor; set_solver].
           intros u Hu ->%list_elem_of_singleton. done.
        -- apply Forall_app. split; [done|]. constructor; [|done]. unfold added. by rewrite Hti.
        -- intros u. rewrite elem_of_union, elem_of_singleton, Hk, fmap_app, elem_of_app. csimpl.
           rewrite list_elem_of_singleton, Hti. tauto.
        -- apply Forall_app. split; [|done]. apply Forall_forall. intros u Hu. rewrite elem_of_reverse in Hu.
           by eapply needed_added.
        -- intros it u Hi Hu. rewrite elem_of_app, elem_of_reverse, elem_of_union, elem_of_singleton.
           rewrite elem_of_app, list_elem_of_singleton in Hi.
           assert (it = item ∨ it ∈ roots ∨ it ∈ extra) as [->|Hi'] by tauto; [tauto|].
           destruct (Hc it u Hi' Hu) as [[->|?]%elem_of_cons|?]; tauto.
      * rewrite length_app, length_reverse. rewrite (waiting_insert known t item) in Hfuel by done. lia.
    + apply IH; [|lia]. split; try done. intros item u Hi Hu.
      destruct (Hc item u Hi Hu) as [[->|?]%elem_of_cons|?]; tauto.
Qed.
Lemma follow_end extra : follow_inv extra (list_to_set (ai_title <$> roots ++ extra)) [] → ∀ item, item ∈ extra ↔ added item.
Proof.
  intros [Hnd He Hk _ Hc]. rewrite Forall_forall in He.
  assert (∀ t, needed t → t ∈ ai_title <$> roots ∨ t ∈ ai_title <$> extra ∨ titles !! t = None) as Hall.
  { induction 1 as [item t Hi Ht|t item u Hn IH Hr Hit Hu].
    - destruct (Hc item t (or_introl Hi) Ht) as [[]%elem_of_nil|[Hin%Hk|?]]; tauto.
    - destruct IH as [?|[Hx|?]]; [done| |congruence].
      apply list_elem_of_fmap in Hx as (item' & -> & Hi'). destruct (He _ Hi') as (_ & _ & Hti).
      assert (item' = item) as -> by congruence.
      destruct (Hc item u (or_intror Hi') Hu) as [[]%elem_of_nil|[Hin%Hk|?]]; tauto. }
  intros item. split; [apply He|]. intros (Hn & Hr & Hti).
  destruct (Hall _ Hn) as [?|[Hx|?]]; [done| |congruence].
  apply list_elem_of_fmap in Hx as (item' & Heq & Hi'). destruct (He _ Hi') as (_ & _ & Hti').
  rewrite Heq in Hti. assert (item' = item) as <- by congruence. done.
Qed.
End closure.

Lemma with_dependencies_spec items selected :
  ∃ extra, with_dependencies items selected = Some (selected ++ extra) ∧ NoDup (ai_title <$> extra) ∧
    ∀ item, item ∈ extra ↔ added (by_title items) selected item.
Proof.
  unfold with_dependencies. set (queue := reverse (dependencies_of selected)).
  assert (follow_inv (by_title items) selected [] (list_to_set (ai_title <$> selected)) queue) as Hinv.
  { split; [constructor|done| | |].
    - intros t. rewrite elem_of_list_to_set. set_solver.
    - apply Forall_forall. unfold queue. intros t Ht. rewrite elem_of_reverse in Ht.
      apply list_elem_of_bind in Ht as (item & ? & ?). by eapply needed_root.
    - intros item t [Hi|[]%elem_of_nil] Ht. left. unfold queue. rewrite elem_of_reverse.
      apply list_elem_of_bind. eauto. }
  destruct (follow_spec (by_title items) selected (λ t item H, proj1 (by_title_some items t item H))
    (follow_fuel (by_title items) queue) [] _ queue Hinv) as (extra & Hf & He).
  { unfold follow_fuel. rewrite <- waiting_all. pose proof (waiting_mono (by_title items) ∅ (list_to_set (ai_title <$> selected)) ltac:(set_solver)). lia. }
  rewrite app_nil_r in Hf. exists extra. split; [done|]. split; [apply He|]. by apply follow_end.
Qed.

#[export] Instance priority_cmp_preorder : PreorderCmp priority_cmp.
Proof.
  unfold priority_cmp.
  pose proof (preorder_flip f64_total_cmp). pose proof (preorder_on ai_priority (λ x y, f64_total_cmp y x)).
  repeat apply then_with_preorder; [done|..];
    first [exact (preorder_on ai_estimated_complexity f64_total_cmp)
          |exact (preorder_on (λ x, roadmap_track_rank (ai_track x)) Z.compare)
          |exact (preorder_on (λ x, architecture_layer_rank (ai_layer x)) Z.compare)
          |exact (preorder_on ai_title bytes_cmp)].
Qed.
Lemma NoDup_fmap_sublist {A B} (f : A → B) l1 l2 : l1 `sublist_of` l2 → NoDup (f <$> l2) → NoDup (f <$> l1).
Proof. intros Hs Hnd. apply (sublist_NoDup _ _ Hnd). by apply fmap_sublist. Qed.
(** Distinct items of a list are no more than the list. *)
Lemma items_below (items kept : list ActionableItem) :
  NoDup (ai_title <$> kept) → (∀ item, item ∈ kept → item ∈ items) → len kept <= len items.
Proof.
  intros Hnd Hin. assert (length kept <= length items)%nat; [|unfold len; lia].
  apply submseteq_length, NoDup_submseteq; [by eapply NoDup_fmap_1|done].
Qed.

(** the search for dependencies ends, and without a limit on their number the items kept
    are the relevant ones with everything they need: what is added is exactly what a kept
    item names, directly or through others, and each title once; a dependency of a kept item
    that is among the items is kept; the items are in the order of priorities. *)
Theorem filter_exact (items : list ActionableItem) (config : EfArchitectureConfig) :
  ea_include_dependencies config = true →
  NoDup (ai_title <$> items) → len items <= ea_max_items config →
  let relevant := directly_relevant items config in
  ∃ kept, filter_relevant_items items config = Some kept ∧ StronglySorted (cmp_le priority_cmp) kept ∧
    NoDup (ai_title <$> kept) ∧
    (∀ item, item ∈ kept ↔ item ∈ items ∧ (item ∈ relevant ∨ needed (by_title items) relevant (ai_title item))) ∧
    (∀ item dependency, item ∈ kept → dependency ∈ ai_dependencies item → dependency ∈ ai_title <$> items →
       dependency ∈ ai_title <$> kept).
Proof.
  intros Hinc Hnd Hmax. cbv zeta. unfold filter_relevant_items. rewrite Hinc.
  assert (Hroot : directly_relevant items config `sublist_of` items) by apply sublist_filter.
  set (relevant := directly_relevant items config) in *. clearbody relevant.
  destruct (with_dependencies_spec items relevant) as (extra & -> & Hnde & He). cbn [mbind option_bind].
  assert (Hall : ∀ item, item ∈ relevant ++ extra ↔
    item ∈ items ∧ (item ∈ relevant ∨ needed (by_title items) relevant (ai_title item))).
  { intros item. rewrite elem_of_app, He. unfold added. split.
    - intros [Hr|(Hn & _ & Ht%by_title_some)]; [|naive_solver]. split; [by eapply sublist_subseteq|tauto].
    - intros [Hi [Hr|Hn]]; [by left|]. destruct (decide (ai_title item ∈ ai_title <$> relevant)) as [Hr|Hr].
      + left. apply list_elem_of_fmap in Hr as (item' & Ht & Hr). pose proof (sublist_subseteq _ _ Hroot _ Hr) as Hi'.
        pose proof (by_title_unique items item Hnd Hi). pose proof (by_title_unique items item' Hnd Hi'). congruence.
      + right. split; [done|]. split; [done|]. by apply by_title_unique. }
  assert (Hndk : NoDup (ai_title <$> relevant ++ extra)).
  { rewrite fmap_app. apply NoDup_app. split; [by eapply NoDup_fmap_sublist|]. split; [|done].
    intros t Ht (item & -> & (_ & Hr & _)%He)%list_elem_of_fmap. done. }
  eexists. split; [reflexivity|].
  rewrite take_ge by (rewrite (Permutation_length (sort_by_perm priority_cmp _));
    pose proof (items_below items _ Hndk (λ item H, proj1 (proj1 (Hall item) H))); unfold len in *; lia).
  split; [apply sort_by_sorted, _|].
  assert (Hp : prioritize_items (relevant ++ extra) ≡ₚ relevant ++ extra) by apply sort_by_perm.
  split; [by rewrite Hp|]. split; [intros item; by rewrite Hp|].
  intros item d Hi Hd Hin. rewrite Hp in Hi |- *. apply list_elem_of_fmap in Hin as (dep & -> & Hdep).
  apply list_elem_of_fmap. exists dep. split; [done|]. apply Hall. split; [done|].
  apply elem_of_app in Hi as [Hr|(Hn & Hr & Ht)%He]; right; [by eapply needed_root|by eapply needed_added].
Qed.

(** ** The depth is the length of the longest chain *)

Section depth.
Context (items : list ActionableItem).
Abbreviation titles := (index_by_title items).
Abbreviation n := (length items).
Definition dependencies_at (i : nat) : list Str := from_option ai_dependencies [] (items !! i).
Definition edge (i j : nat) : Prop := ∃ d, d ∈ dependencies_at i ∧ titles !! d = Some j.

(** A chain of dependencies from an item; a dependency that is no item ends it. *)
Inductive chain : nat → Z → Prop :=
| chain_nil i : chain i 0
| chain_missing i d : d ∈ dependencies_at i → titles !! d = None → chain i 1
| chain_step i d j k : d ∈ dependencies_at i → titles !! d = Some j → chain j k → chain i (1 + k).
Definition longest (i : nat) (k : Z) : Prop := chain i k ∧ ∀ k', chain i k' → k' <= k.
(** No cycle: the dependencies of an item rank below it. *)
Definition ranked (rank : nat → nat) : Prop := ∀ i j, edge i j → (rank j < rank i)%nat.

Record depth_wf (st : DepthState) : Prop := {
  dw_memo i v : st.1 !! i = Some v → (i < n)%nat ∧ i ∉ st.2 ∧ 0 <= v <= Z.of_nat (size st.1);
  dw_visiting i : i ∈ st.2 → (i < n)%nat;
}.
Definition depth_exact (st : DepthState) : Prop := ∀ i v, st.1 !! i = Some v → longest i v.
(** What a search that starts in [st] answers. *)
Record searched (st : DepthState) (v : Z) (st' : DepthState) : Prop := {
  se_wf : depth_wf st';
  se_visiting : st'.2 = st.2;
  se_memo : st.1 ⊆ st'.1;
  se_value : 0 <= v <= Z.of_nat (size st'.1);
}.
Definition exact_search (st : DepthState) (index : nat) (v : Z) (st' : DepthState) : Prop :=
  ∀ rank, ranked rank → (∀ i, i ∈ st.2 → (rank index < rank i)%nat) → depth_exact st → depth_exact st' ∧ longest index v.

Lemma memo_room st : depth_wf st → (size st.1 + size st.2 <= n)%nat.
Proof.
  intros [Hm Hv]. rewrite <- size_dom, <- size_union.
  - transitivity (size (set_seq (C := gset nat) 0 n)); [|rewrite size_set_seq; lia].
    apply subseteq_size. intros i. rewrite elem_of_union, elem_of_dom, elem_of_set_seq.
    intros [[v (? & _)%Hm]|?%Hv]; lia.
  - intros i [v (_ & ? & _)%Hm]%elem_of_dom. done.
Qed.
Lemma title_index t j : titles !! t = Some j → (j < n)%nat.
Proof.
  unfold index_by_title. assert (Forall (λ p : nat * ActionableItem, (p.1 < n)%nat) (imap pair items)) as Hl.
  { apply Forall_lookup. intros i [k x]. rewrite list_lookup_imap. intros (y & Hx & Heq)%fmap_Some. simplify_eq/=.
    by apply lookup_lt_Some in Hx. }
  revert Hl. generalize (imap pair items). intros l. induction l as [|[k x] l IH] using rev_ind; [done|].
  rewrite foldl_snoc, Forall_app, Forall_singleton. intros [Hl Hk].
  intros [[_ <-]|[_ ?]]%lookup_insert_Some; [done|by apply IH].
Qed.

Lemma deepest_none search l : foldl (deepest search titles) None l = None.
Proof. by induction l. Qed.
(** The loop over dependencies, given what each search answers. *)
Lemma deepest_spec search index visiting :
  (∀ j st, (j < n)%nat → depth_wf st → st.2 = visiting → ∃ v st',
     search j st = Some (v, st') ∧ searched st v st' ∧ exact_search st j v st') →
  ∀ l, (∀ d, d ∈ l → d ∈ dependencies_at index) → ∀ best st, depth_wf st → st.2 = visiting → 0 <= best <= Z.of_nat (size st.1) + 1 →
  ∃ best' st', foldl (deepest search titles) (Some (best, st)) l = Some (best', st') ∧
    depth_wf st' ∧ st'.2 = visiting ∧ st.1 ⊆ st'.1 ∧ 0 <= best' <= Z.of_nat (size st'.1) + 1 ∧
    (∀ rank, ranked rank → (∀ i, i ∈ visiting → (rank index <= rank i)%nat) → depth_exact st → chain index best →
       depth_exact st' ∧ chain index best' ∧ best <= best' ∧
       ∀ d, d ∈ l → 1 <= best' ∧ ∀ j k, titles !! d = Some j → chain j k → 1 + k <= best').
Proof.
  intros Hsearch l. induction l as [|d l IH]; intros Hl best st Hwf Hvis Hbest; cbn [foldl].
  { exists best, st. split_and!; try done; try lia. intros rank ? ? ? ?. split_and!; try done. by intros d ?%elem_of_nil. }
  unfold deepest at 2. cbn [mbind option_bind].
  assert (Hd : d ∈ dependencies_at index) by (apply Hl; left).
  destruct (titles !! d) as [j|] eqn:Ej.
  - destruct (Hsearch j st (title_index _ _ Ej) Hwf Hvis) as (v & st1 & -> & [Hwf1 Hv1 Hm1 Hval] & Hex). cbn [mbind option_bind].
    destruct (IH ltac:(intros; apply Hl; by right) (Z.max best (1 + v)) st1 Hwf1 ltac:(congruence)) as
      (best' & st' & -> & Hwf' & Hv' & Hm' & Hb' & Hrest).
    { pose proof (subseteq_size (dom st.1) (dom st1.1) ltac:(by apply subseteq_dom)) as Hs. rewrite !size_dom in Hs. lia. }
    exists best', st'. split_and!; try done; try lia; [by etrans|]. intros rank Hr Hvr He Hc.
    destruct (Hex rank Hr) as [He1 [Hcv Hmax]]; [|done|].
    { intros i Hi. rewrite Hvis in Hi. specialize (Hvr i Hi). specialize (Hr index j (ex_intro _ d (conj Hd Ej))). lia. }
    destruct (Hrest rank Hr Hvr He1) as (He' & Hc' & Hle & Hall).
    { destruct (Z.max_spec best (1 + v)) as [[_ ->]|[_ ->]]; [by eapply chain_step|done]. }
    split_and!; try done; try lia. intros d' [->|Hd']%elem_of_cons; [|by apply Hall].
    split; [lia|]. intros j' k Hj' Hk. assert (j' = j) as -> by congruence. specialize (Hmax _ Hk). lia.
  - cbn [mbind option_bind].
    destruct (IH ltac:(intros; apply Hl; by right) (Z.max best 1) st Hwf Hvis) as
      (best' & st' & -> & Hwf' & Hv' & Hm' & Hb' & Hrest); [lia|].
    exists best', st'. split_and!; try done; try lia. intros rank Hr Hvr He Hc.
    destruct (Hrest rank Hr Hvr He) as (He' & Hc' & Hle & Hall).
    { destruct (Z.max_spec best 1) as [[_ ->]|[_ ->]]; [by eapply chain_missing|done]. }
    split_and!; try done; try lia. intros d' [->|Hd']%elem_of_cons; [|by apply Hall].
    split; [lia|]. intros j k Hj. congruence.
Qed.
Lemma depth_from_spec fuel : ∀ index st,
  depth_wf st → (index < n)%nat → (n < fuel + size st.2)%nat →
  ∃ v st', dependency_depth_from fuel items titles index st = Some (v, st') ∧ searched st v st' ∧ exact_search st index v st'.
Proof.
  induction fuel as [|fuel IH]; intros index [memo visiting] Hwf Hi Hfuel.
  { pose proof (memo_room _ Hwf). cbn in *. lia. }
  cbn [dependency_depth_from]. destruct (memo !! index) as [c|] eqn:Ec.
  { exists c, (memo, visiting). pose proof (dw_memo _ Hwf _ _ Ec) as (_ & _ & ?).
    split; [done|]. split; [done|]. intros rank _ _ He. split; [done|]. by apply He. }
  case_bool_decide as Hvis.
  { exists 0, (memo, visiting). split; [done|]. split; [split; [done..|cbn; lia]|].
    intros rank _ Hv _. specialize (Hv index Hvis). lia. }
  assert (Hwf1 : depth_wf (memo, {[index]} ∪ visiting)).
  { destruct Hwf as [Hm Hv]. cbn in Hm, Hv. split; cbn.
    - intros i v Hiv. destruct (Hm i v Hiv) as (? & ? & ?). split_and!; try done; try lia. set_solver.
    - intros i [->%elem_of_singleton|?]%elem_of_union; auto. }
  destruct (deepest_spec (dependency_depth_from fuel items titles) index ({[index]} ∪ visiting)) with
    (l := dependencies_at index) (best := 0) (st := (memo, {[index]} ∪ visiting)) as
    (best & [memo' visiting'] & Hfold & Hwf' & Hv' & Hm' & Hb' & Hrest); [|done|done|done|cbn; lia|].
  { intros j st' Hj Hwf'' Hst'. apply IH; [done..|]. rewrite Hst', size_union by set_solver. rewrite size_singleton. cbn in Hfuel. lia. }
  change (from_option ai_dependencies [] (items !! index)) with (dependencies_at index).
  unfold DepthState in Hfold |- *. rewrite Hfold. cbn [mbind option_bind]. cbn [fst snd] in *. subst visiting'.
  assert (Hnew : memo' !! index = None).
  { destruct (memo' !! index) as [c|] eqn:E; [|done]. destruct (dw_memo _ Hwf' _ _ E) as (_ & Hni & _). cbn in Hni. set_solver. }
  assert (Hback : ({[index]} ∪ visiting) ∖ {[index]} = visiting) by set_solver. rewrite Hback.
  eexists _, _. split; [reflexivity|]. split.
  - split; cbn [fst snd]; [|done|by apply insert_subseteq_r_L || (etrans; [exact Hm'|by apply insert_subseteq])|].
    + destruct Hwf' as [Hm Hv]. cbn in Hm, Hv. split; cbn [fst snd].
      * intros i v. rewrite map_size_insert_None by done. intros [[<- <-]|[? (? & ? & ?)%Hm]]%lookup_insert_Some.
        -- split_and!; try done; lia.
        -- split_and!; try done; try lia. set_solver.
      * intros i ?. apply Hv. set_solver.
    + rewrite map_size_insert_None by done. lia.
  - intros rank Hr Hvr He. destruct (Hrest rank Hr) as (He' & Hc & _ & Hall); [|done|constructor|].
    { intros i [->%elem_of_singleton|Hin]%elem_of_union; [lia|]. specialize (Hvr i Hin). cbn in Hvr. lia. }
    assert (longest index best) as Hlong.
    { split; [done|]. intros k Hk. inversion Hk; subst.
      - lia.
      - by destruct (Hall d) as [? _].
      - destruct (Hall d) as [_ Hjk]; [done|]. by apply (Hjk j). }
    split; [|done]. intros i v. cbn [fst]. intros [[<- <-]|[_ Hiv]]%lookup_insert_Some; [done|by apply He'].
Qed.
End depth.

Lemma dependency_depth_spec (items : list ActionableItem) :
  ∃ depth, compute_dependency_depth items = Some depth ∧ 0 <= depth <= len items ∧
    ∀ rank, ranked items rank →
      (∀ i k, (i < length items)%nat → chain items i k → k <= depth) ∧
      (depth = 0 ∨ ∃ i, (i < length items)%nat ∧ chain items i depth).
Proof.
  unfold compute_dependency_depth. set (step := λ acc index, _).
  assert (∀ l, Forall (λ i, (i < length items)%nat) l → ∃ depth st, foldl step (Some (0, (∅, ∅))) l = Some (depth, st) ∧
    depth_wf items st ∧ st.2 = ∅ ∧ 0 <= depth <= len items ∧
    ∀ rank, ranked items rank → depth_exact items st ∧ (∀ i k, i ∈ l → chain items i k → k <= depth) ∧
      (depth = 0 ∨ ∃ i, i ∈ l ∧ chain items i depth)) as Hfold.
  { intros l. induction l as [|i l IH] using rev_ind; intros Hl.
    - exists 0, (∅, ∅). cbn [foldl]. split; [done|]. split; [split; cbn; [done|set_solver]|]. split; [done|].
      split; [unfold len; lia|]. intros rank _. split; [by intros ???|]. split; [intros ?? []%elem_of_nil|by left].
    - apply Forall_app in Hl as [Hl Hi]. rewrite Forall_singleton in Hi.
      destruct (IH Hl) as (depth & st & Hf & Hwf & Hv & Hb & Hrest). rewrite foldl_snoc, Hf. unfold step.
      cbn [mbind option_bind].
      destruct (depth_from_spec items (S (length items)) i st Hwf Hi) as (v & st' & -> & [Hwf' Hv' _ Hval] & Hex); [lia|].
      cbn [mbind option_bind]. exists (Z.max depth v), st'. split; [done|]. split; [done|]. split; [congruence|].
      pose proof (memo_room _ _ Hwf'). split; [unfold len in *; lia|]. intros rank Hr.
      destruct (Hrest rank Hr) as (He & Hmax & Hc). destruct (Hex rank Hr) as [He' [Hcv Hmv]]; [rewrite Hv; set_solver|done|].
      split; [done|]. split.
      + intros j k [Hj| ->%list_elem_of_singleton]%elem_of_app Hk; [specialize (Hmax j k Hj Hk)|specialize (Hmv k Hk)]; lia.
      + destruct (Z.max_spec depth v) as [[_ ->]|[_ ->]]; [right; exists i; set_solver|].
        destruct Hc as [->|(j & ? & ?)]; [by left|right; exists j; set_solver]. }
  destruct (Hfold (seq 0 (length items))) as (depth & st & -> & _ & _ & Hb & Hrest);
    [apply Forall_forall; intros i ?%elem_of_seq; lia|].
  exists depth. split; [done|]. split; [done|]. intros rank Hr. destruct (Hrest rank Hr) as (_ & Hmax & Hc). split.
  - intros i k Hi. apply Hmax, elem_of_seq. lia.
  - destruct Hc as [?|(i & ?%elem_of_seq & ?)]; [by left|right]. exists i. split; [lia|done].
Qed.
(** The sum [1 + depth] cannot wrap. *)
Lemma dependency_depth_bounded items depth : compute_dependency_depth items = Some depth → 0 <= depth <= len items.
Proof. destruct (dependency_depth_spec items) as (d & -> & ? & _). by intros [= <-]. Qed.
(** the memoised search for the depth of the dependencies ends; where they have no cycle
    it answers the length of a longest chain of dependencies, the last of which may be no
    item. *)
Theorem dependency_depth_exact (items : list ActionableItem) (rank : nat → nat) :
  ranked items rank →
  ∃ depth, compute_dependency_depth items = Some depth ∧
    (∀ i k, (i < length items)%nat → chain items i k → k <= depth) ∧
    (items ≠ [] → ∃ i, (i < length items)%nat ∧ chain items i depth).
Proof.
  intros Hr. destruct (dependency_depth_spec items) as (depth & -> & _ & Hex). exists depth. split; [done|].
  destruct (Hex rank Hr) as [Hmax Hc]. split; [done|]. intros Hne. destruct Hc as [->|?]; [|done].
  exists 0%nat. split; [destruct items; [done|cbn; lia]|constructor].
Qed.

Definition example_item (title : string) (dependencies : list string) : ActionableItem :=
  {| ai_title := str title; ai_track := Surge; ai_layer := ExecutionLayer; ai_priority := int 1;
     ai_estimated_complexity := int 1; ai_dependencies := str <$> dependencies; ai_eth2077_relevant := true |}.
Definition example_items : list ActionableItem := [example_item "C" ["B"; "X"]; example_item "A" []; example_item "B" ["A"]].
Lemma example_ranked : ranked example_items (λ i, nth i [2; 0; 1]%nat 0%nat).
Proof.
  intros i j (d & Hd & Hj). destruct i as [|[|[|i]]]; [..|by apply elem_of_nil in Hd];
    repeat (apply elem_of_cons in Hd as [->|Hd]); try (by apply elem_of_nil in Hd);
    vm_compute in Hj; try done; injection Hj as <-; cbn; lia.
Qed.
Lemma dependency_depth_exact_witness :
  compute_dependency_depth example_items = Some 2 ∧
  ∃ depth, compute_dependency_depth example_items = Some depth ∧
    (∀ i k, (i < 3)%nat → chain example_items i k → k <= depth) ∧
    (example_items ≠ [] → ∃ i, (i < 3)%nat ∧ chain example_items i depth).
Proof. split; [vm_compute; reflexivity|]. apply (dependency_depth_exact example_items _ example_ranked). Defined.
Lemma filter_exact_witness :
  let config := {| ea_tracks := [Surge]; ea_layers := [ExecutionLayer]; ea_min_priority := int 1; ea_max_items := 8;
    ea_include_dependencies := true |} in
  ∃ kept, filter_relevant_items example_items config = Some kept ∧ StronglySorted (cmp_le priority_cmp) kept ∧
    NoDup (ai_title <$> kept) ∧
    (∀ item, item ∈ kept ↔ item ∈ example_items ∧ (item ∈ directly_relevant example_items config ∨
       needed (by_title example_items) (directly_relevant example_items config) (ai_title item))) ∧
    (∀ item dependency, item ∈ kept → dependency ∈ ai_dependencies item → dependency ∈ ai_title <$> example_items →
       dependency ∈ ai_title <$> kept).
Proof.
  apply (filter_exact example_items); [reflexivity| |vm_compute; discriminate].
  apply (bool_decide_unpack _). vm_compute. exact I.
Defined.

(** What is found inside a cycle depends on where the search enters it. *)
Lemma cyclic_depth_depends_on_order :
  let a := example_item "A" ["B"] in let b := example_item "B" ["A"] in let c := example_item "C" ["B"] in
  compute_dependency_depth [a; b; c] = Some 2 ∧ compute_dependency_depth [b; a; c] = Some 3.
Proof. vm_compute. done. Qed.
(** The limit on the number of items cuts dependencies off again. *)
Lemma limit_drops_dependencies :
  let a := {| ai_title := str "A"; ai_track := Surge; ai_layer := ExecutionLayer; ai_priority := f64_zero;
    ai_estimated_complexity := int 1; ai_dependencies := []; ai_eth2077_relevant := true |} in
  let b := example_item "B" ["A"] in let c := example_item "C" [] in
  let config := {| ea_tracks := [Surge]; ea_layers := [ExecutionLayer]; ea_min_priority := int 1; ea_max_items := 2;
    ea_include_dependencies := true |} in
  filter_relevant_items [a; b; c] config = Some [b; c].
Proof. vm_compute. done. Qed.

(** ** The commitment *)

#[export] Instance strings_cmp_ord : OrdCmp strings_cmp.
Proof.
  split; [split|].
  - intros a. induction a as [|x a IH]; intros [|y b]; simpl; try done.
    rewrite (cmp_antisym bytes_cmp x y). destruct (bytes_cmp x y); simpl; [apply IH|done..].
  - intros a. induction a as [|x a IH]; intros [|y b] [|z c]; simpl; try done.
    intros H1 H2. unfold then_with in *.
    destruct (bytes_cmp x y) eqn:E1; [|..|done]; destruct (bytes_cmp y z) eqn:E2; try done.
    + rewrite (cmp_eq_trans bytes_cmp x y z) by done. by eapply IH.
    + rewrite (cmp_le_lt_trans bytes_cmp x y z); [done|by rewrite E1|done].
    + rewrite (cmp_lt_le_trans bytes_cmp x y z); [done|done|by rewrite E2].
    + rewrite (cmp_lt_le_trans bytes_cmp x y z); [done|done|by rewrite E2].
  - intros a. induction a as [|x a IH]; intros [|y b]; simpl; try done.
    intros [->%(cmp_eq bytes_cmp) ->%IH]%then_with_eq. done.
Qed.
#[export] Instance item_cmp_ord : OrdCmp item_cmp.
Proof.
  split.
  - unfold item_cmp. repeat apply then_with_preorder;
      first [exact (preorder_on (λ x, roadmap_track_rank (ai_track x)) Z.compare)
            |exact (preorder_on (λ x, architecture_layer_rank (ai_layer x)) Z.compare)
            |exact (preorder_on ai_priority f64_total_cmp)
            |exact (preorder_on ai_estimated_complexity f64_total_cmp)
            |exact (preorder_on ai_eth2077_relevant bool_cmp)
            |exact (preorder_on ai_title bytes_cmp)
            |exact (preorder_on ai_dependencies strings_cmp)].
  - intros [] []. unfold item_cmp. rewrite !then_with_eq. cbn.
    intros (H1%(cmp_eq _)%(inj _) & H2%(cmp_eq _)%(inj _) & H3%(cmp_eq _) & H4%(cmp_eq _) & H5%(cmp_eq _) & H6%(cmp_eq _) & H7%(cmp_eq _)).
    congruence.
Qed.
Record item_wf (item : ActionableItem) : Prop := {
  iw_title : is_u64 (len (ai_title item));
  iw_priority : valid_binary 53 1024 (ai_priority item) = true;
  iw_complexity : valid_binary 53 1024 (ai_estimated_complexity item) = true;
  iw_dependencies : Forall (λ d : Str, is_u64 (len d)) (ai_dependencies item) ∧ is_u64 (len (ai_dependencies item));
}.
Lemma hash_item_inj : prefix_inj item_wf hash_item.
Proof.
  intros [] [] r1 r2 [] []. unfold hash_item, hash_string.
  cbn [ai_title ai_track ai_layer ai_priority ai_estimated_complexity ai_dependencies ai_eth2077_relevant] in *. rewrite <- !app_assoc.
  intros [-> Heq]%prefix_inj_bytes; [|done..]. 
  apply app_inj_1 in Heq as [[= Ht%(inj _)] Heq]; [|done]. apply app_inj_1 in Heq as [[= Hl%(inj _)] Heq]; [|done].
  apply prefix_inj_bits_be in Heq as [-> Heq]; [|done..]. apply prefix_inj_bits_be in Heq as [-> Heq]; [|done..].
  apply app_inj_1 in Heq as [[= Hb] Heq]; [|done]. apply (prefix_inj_list _ _ prefix_inj_bytes) in Heq as [-> ->]; [|done..].
  assert (ai_eth2077_relevant0 = ai_eth2077_relevant1) as -> by (by destruct ai_eth2077_relevant0, ai_eth2077_relevant1).
  by subst.
Qed.
(** A list encoded in order tells its elements, up to their order. *)
Lemma sorted_encoding_inj {A} (P : A → Prop) enc c (l1 l2 : list A) :
  prefix_inj P enc → Forall P l1 → Forall P l2 → is_u64 (len l1) → is_u64 (len l2) →
  encode_list enc (sort_by c l1) = encode_list enc (sort_by c l2) → l1 ≡ₚ l2.
Proof.
  intros He H1 H2 Hn1 Hn2 Heq. rewrite <- (sort_by_perm c l1), <- (sort_by_perm c l2).
  assert (∀ l, Forall P l → is_u64 (len l) → Forall P (sort_by c l) ∧ is_u64 (len (sort_by c l))) as Hw.
  { intros l Hl Hn. unfold len in *. rewrite (Permutation_length (sort_by_perm c l)). split; [|done].
    eapply Forall_Permutation; [apply reflexivity| |exact Hl]. by rewrite (sort_by_perm c l). }
  enough (sort_by c l1 = sort_by c l2) as -> by done.
  by apply (prefix_inj_eq _ _ _ _ (prefix_inj_list _ _ He)); [apply Hw..|].
Qed.
(** the commitment is to the items whatever their order: permutations have one
    commitment, and lists with one commitment are permutations of each other, or SHA-256
    collides. *)
Theorem architecture_commitment_exact `{Sha256} (items1 items2 : list ActionableItem) :
  Forall item_wf items1 → Forall item_wf items2 → is_u64 (len items1) → is_u64 (len items2) →
  (items1 ≡ₚ items2 → compute_architecture_commitment items1 = compute_architecture_commitment items2) ∧
  (compute_architecture_commitment items1 = compute_architecture_commitment items2 →
   binds items_preimage (≡ₚ) items1 items2).
Proof.
  intros H1 H2 Hn1 Hn2. split.
  - intros Hp. unfold compute_architecture_commitment, items_preimage. by rewrite (sort_by_order item_cmp _ _ Hp).
  - apply binds_intro. exact (sorted_encoding_inj item_wf _ _ _ _ hash_item_inj H1 H2 Hn1 Hn2).
Qed.
Lemma example_wf : Forall item_wf example_items.
Proof.
  repeat apply Forall_cons_2; [..|apply Forall_nil_2]; (split; [split; discriminate|vm_compute; reflexivity..|]);
    (split; [|split; discriminate]); repeat apply Forall_cons_2; try apply Forall_nil_2; split; discriminate.
Qed.
Lemma architecture_commitment_exact_witness :
  (example_items ≡ₚ example_items →
   compute_architecture_commitment (H := id) example_items = compute_architecture_commitment (H := id) example_items) ∧
  (compute_architecture_commitment (H := id) example_items = compute_architecture_commitment (H := id) example_items →
   binds (H := id) items_preimage (≡ₚ) example_items example_items).
Proof. apply (@architecture_commitment_exact id); [exact example_wf|exact example_wf|split; discriminate|split; discriminate]. Defined.

(** ** EIP delta reviews ([eip_delta_review.rs]) *)

(* eth2077-types/src/eip_delta_review.rs:6-14 ChangeCategory *)
Inductive ChangeCategory :=
| Normative | Informational | Editorial | TestVector | SecurityCritical | GasScheduleChange | Deprecation.
#[export] Instance ChangeCategory_eq_dec : EqDecision ChangeCategory.
Proof. solve_decision. Defined.
#[export] Program Instance ChangeCategory_finite : Finite ChangeCategory :=
  {| enum := [Normative; Informational; Editorial; TestVector; SecurityCritical; GasScheduleChange; Deprecation] |}.
Next Obligation. by apply (bool_decide_unpack _). Qed.
Next Obligation. intros []; set_solver. Qed.
(* eth2077-types/src/eip_delta_review.rs:17-23 ImpactLevel *)
Inductive ImpactLevel := NoImpact | LowImpact | MediumImpact | HighImpact | CriticalImpact.
#[export] Instance ImpactLevel_eq_dec : EqDecision ImpactLevel.
Proof. solve_decision. Defined.
#[export] Program Instance ImpactLevel_finite : Finite ImpactLevel :=
  {| enum := [NoImpact; LowImpact; MediumImpact; HighImpact; CriticalImpact] |}.
Next Obligation. by apply (bool_decide_unpack _). Qed.
Next Obligation. intros []; set_solver. Qed.
(* eth2077-types/src/eip_delta_review.rs:26-32 ImplementationStatus *)
Inductive ImplementationStatus := NotStarted | InProgress | NeedsReview | Implemented | NotApplicable.
#[export] Instance ImplementationStatus_eq_dec : EqDecision ImplementationStatus.
Proof. solve_decision. Defined.
(* eth2077-types/src/eip_delta_review.rs:35-44 DeltaEntry *)
Record DeltaEntry := {
  de_eip_number : Z;
  de_pr_number : Z;
  de_category : ChangeCategory;
  de_impact : ImpactLevel;
  de_description : Str;
  de_affected_sections : list Str;
  de_implementation_status : ImplementationStatus;
  de_breaking : bool;
}.
(* eth2077-types/src/eip_delta_review.rs:47-52 DeltaReviewConfig *)
Record DeltaReviewConfig := {
  dr_auto_classify_threshold : f64;
  dr_require_test_vectors : bool;
  dr_max_entries_per_review : Z;
  dr_track_implementation : bool;
}.
(* eth2077-types/src/eip_delta_review.rs:55-61 DeltaReviewError *)
Inductive DeltaReviewError :=
| EmptyReview
| DuplicateEntry (eip pr : Z)
| MissingDescription (index : Z)
| TooManyEntries (count max : Z)
| InvalidEipNumber (eip : Z).
(* eth2077-types/src/eip_delta_review.rs:64-73 DeltaReviewStats *)
Record DeltaReviewStats := {
  drs_total_entries : Z;
  drs_normative_count : Z;
  drs_breaking_count : Z;
  drs_security_critical_count : Z;
  drs_implementation_coverage : f64;
  drs_category_distribution : list (Str * Z);
  drs_impact_distribution : list (Str * Z);
  drs_avg_impact_score : f64;
}.
(* eth2077-types/src/eip_delta_review.rs:75-82 default_review_config *)
Definition default_review_config : DeltaReviewConfig :=
  {| dr_auto_classify_threshold := dec 8 10; dr_require_test_vectors := true; dr_max_entries_per_review := 100;
     dr_track_implementation := true |}.
(* eth2077-types/src/eip_delta_review.rs:350-360 category_name *)
Definition category_name (category : ChangeCategory) : Str :=
  match category with
  | Normative => str "Normative" | Informational => str "Informational" | Editorial => str "Editorial"
  | TestVector => str "TestVector" | SecurityCritical => str "SecurityCritical" | GasScheduleChange => str "GasSchedule"
  | Deprecation => str "Deprecation"
  end.
(* eth2077-types/src/eip_delta_review.rs:362-370 impact_name *)
Definition impact_name (impact : ImpactLevel) : Str :=
  match impact with
  | NoImpact => str "None" | LowImpact => str "Low" | MediumImpact => str "Medium" | HighImpact => str "High"
  | CriticalImpact => str "Critical"
  end.
(* eth2077-types/src/eip_delta_review.rs:372-380 impact_score *)
Definition impact_score (impact : ImpactLevel) : Z :=
  match impact with NoImpact => 0 | LowImpact => 1 | MediumImpact => 2 | HighImpact => 3 | CriticalImpact => 4 end.
(* eth2077-types/src/eip_delta_review.rs:382-390 is_normative_category *)
Definition is_normative_category (category : ChangeCategory) : bool :=
  match category with Normative | SecurityCritical | GasScheduleChange | Deprecation => true | _ => false end.
(* eth2077-types/src/eip_delta_review.rs:392-402 category_rank *)
Definition category_rank (category : ChangeCategory) : Z :=
  match category with
  | SecurityCritical => 0 | Normative => 1 | GasScheduleChange => 2 | Deprecation => 3 | TestVector => 4
  | Informational => 5 | Editorial => 6
  end.
(* eth2077-types/src/eip_delta_review.rs:404-412 impact_rank *)
Definition impact_rank (impact : ImpactLevel) : Z :=
  match impact with NoImpact => 0 | LowImpact => 1 | MediumImpact => 2 | HighImpact => 3 | CriticalImpact => 4 end.
(* eth2077-types/src/eip_delta_review.rs:414-422 implementation_status_rank *)
Definition implementation_status_rank (status : ImplementationStatus) : Z :=
  match status with NotStarted => 0 | InProgress => 1 | NeedsReview => 2 | Implemented => 3 | NotApplicable => 4 end.
#[export] Instance category_rank_inj : Inj (=) (=) category_rank.
Proof. by intros [] []. Qed.
#[export] Instance impact_rank_inj : Inj (=) (=) impact_rank.
Proof. by intros [] []. Qed.
#[export] Instance implementation_status_rank_inj : Inj (=) (=) implementation_status_rank.
Proof. by intros [] []. Qed.

(* eth2077-types/src/eip_delta_review.rs:102-123 validate_delta_review *)
Fixpoint entry_errors (seen_pairs : gset (Z * Z)) (index : Z) (entries : list DeltaEntry) : list DeltaReviewError :=
  match entries with
  | [] => []
  | entry :: entries =>
      let key := (de_eip_number entry, de_pr_number entry) in
      push_if (de_eip_number entry =? 0) (InvalidEipNumber (de_eip_number entry)) ++
      push_if (bool_decide (trim (de_description entry) = [])) (MissingDescription index) ++
      push_if (bool_decide (key ∈ seen_pairs)) (DuplicateEntry (de_eip_number entry) (de_pr_number entry)) ++
      entry_errors ({[key]} ∪ seen_pairs) (index + 1) entries
  end.
(* eth2077-types/src/eip_delta_review.rs:84-129 validate_delta_review *)
Definition validate_delta_review (entries : list DeltaEntry) (config : DeltaReviewConfig)
  : result unit (list DeltaReviewError) :=
  errors_to_result (
    push_if (bool_decide (entries = [])) EmptyReview ++
    push_if (dr_max_entries_per_review config <? len entries) (TooManyEntries (len entries) (dr_max_entries_per_review config)) ++
    entry_errors ∅ 0 entries).

(** [str::contains] *)
Fixpoint contains (needle s : Str) : bool :=
  match strip_prefix needle s with
  | Some _ => true
  | None => match s with [] => false | _ :: s => contains needle s end
  end.
Definition consensus_keywords : list Str :=
  [str "consensus"; str "fork"; str "state transition"; str "block validity"; str "execution"; str "validator";
   str "signature"; str "finality"].
(* eth2077-types/src/eip_delta_review.rs:329-343 has_consensus_critical_keyword *)
Definition has_consensus_critical_keyword (section : Str) : bool :=
  let lower := to_ascii_lowercase section in
  existsb (λ keyword, contains keyword lower) consensus_keywords.
(* eth2077-types/src/eip_delta_review.rs:186-251 classify_impact *)
Definition classify_impact (category : ChangeCategory) (breaking : bool) (affected_sections : list Str) : ImpactLevel :=
  let touches_consensus_critical := existsb has_consensus_critical_keyword affected_sections in
  let broad_surface_area := 4 <=? len affected_sections in
  match category with
  | SecurityCritical => if breaking || touches_consensus_critical then CriticalImpact else HighImpact
  | GasScheduleChange => if breaking || touches_consensus_critical then HighImpact else MediumImpact
  | Normative =>
      if breaking && (touches_consensus_critical || broad_surface_area) then CriticalImpact
      else if breaking then HighImpact
      else if touches_consensus_critical || broad_surface_area then MediumImpact
      else LowImpact
  | Deprecation => if breaking then HighImpact else MediumImpact
  | TestVector => if breaking || touches_consensus_critical then MediumImpact else LowImpact
  | Informational => if breaking then MediumImpact else LowImpact
  | Editorial => if breaking then LowImpact else NoImpact
  end.

(* eth2077-types/src/eip_delta_review.rs:253-263 prioritize_entries *)
Definition review_cmp (left right : DeltaEntry) : comparison :=
  then_with (Z.compare (impact_rank (de_impact right)) (impact_rank (de_impact left)))
    (then_with (bool_cmp (de_breaking right) (de_breaking left))
      (then_with (Z.compare (category_rank (de_category left)) (category_rank (de_category right)))
        (then_with (Z.compare (de_eip_number left) (de_eip_number right))
          (then_with (Z.compare (de_pr_number left) (de_pr_number right))
            (bytes_cmp (de_description left) (de_description right)))))).
(* eth2077-types/src/eip_delta_review.rs:253-263 prioritize_entries *)
Definition prioritize_entries (entries : list DeltaEntry) : list DeltaEntry := sort_by review_cmp entries.

Definition normative_entries (entries : list DeltaEntry) : list DeltaEntry :=
  filter (λ entry, is_normative_category (de_category entry) = true) entries.
Definition is_covered (entry : DeltaEntry) : Prop :=
  de_implementation_status entry = Implemented ∨ de_implementation_status entry = NotApplicable.
#[export] Instance is_covered_dec entry : Decision (is_covered entry).
Proof. unfold is_covered. apply _. Defined.
(* eth2077-types/src/eip_delta_review.rs:265-286 compute_implementation_coverage *)
Definition compute_implementation_coverage (entries : list DeltaEntry) : f64 :=
  let normative := normative_entries entries in
  if bool_decide (normative = []) then int 1 else
  f64_div (f64_of_u64 (len (filter is_covered normative))) (f64_of_u64 (len normative)).

(* eth2077-types/src/eip_delta_review.rs:131-184 compute_review_stats *)
Definition compute_review_stats {HO : HashOrder} (entries : list DeltaEntry) : DeltaReviewStats :=
  let category_counts := foldl increment ∅ (de_category <$> entries) in
  let impact_counts := foldl increment ∅ (de_impact <$> entries) in
  let total_impact_score := foldl u64_wrapping_add 0 ((λ entry, impact_score (de_impact entry)) <$> entries) in
  {| drs_total_entries := len entries;
     drs_normative_count := len (normative_entries entries);
     drs_breaking_count := len (filter (λ entry, de_breaking entry = true) entries);
     drs_security_critical_count := len (filter (λ entry, de_category entry = SecurityCritical) entries);
     drs_implementation_coverage := compute_implementation_coverage entries;
     drs_category_distribution :=
       sort_by name_cmp ((λ '(category, count), (category_name category, count)) <$> hash_iter category_counts);
     drs_impact_distribution := sort_by name_cmp ((λ '(impact, count), (impact_name impact, count)) <$> hash_iter impact_counts);
     drs_avg_impact_score :=
       if bool_decide (entries = []) then f64_zero
       else f64_div (f64_of_u64 total_impact_score) (f64_of_u64 (len entries)) |}.

(* eth2077-types/src/eip_delta_review.rs:290-303 compute_review_commitment *)
Definition entry_cmp (left right : DeltaEntry) : comparison :=
  then_with (Z.compare (de_eip_number left) (de_eip_number right))
    (then_with (Z.compare (de_pr_number left) (de_pr_number right))
      (then_with (Z.compare (category_rank (de_category left)) (category_rank (de_category right)))
        (then_with (Z.compare (impact_rank (de_impact left)) (impact_rank (de_impact right)))
          (then_with (bool_cmp (de_breaking left) (de_breaking right))
            (then_with (Z.compare (implementation_status_rank (de_implementation_status left))
                (implementation_status_rank (de_implementation_status right)))
              (then_with (bytes_cmp (de_description left) (de_description right))
                (strings_cmp (de_affected_sections left) (de_affected_sections right)))))))).
(* eth2077-types/src/eip_delta_review.rs:309-320 compute_review_commitment *)
Definition hash_entry (entry : DeltaEntry) : list Z :=
  to_be_bytes 8 (de_eip_number entry) ++ to_be_bytes 8 (de_pr_number entry) ++ [category_rank (de_category entry)] ++
  [impact_rank (de_impact entry)] ++ [implementation_status_rank (de_implementation_status entry)] ++
  [u8_of_bool (de_breaking entry)] ++ hash_string (de_description entry) ++
  encode_list hash_string (de_affected_sections entry).
(* eth2077-types/src/eip_delta_review.rs:289-321 compute_review_commitment *)
Definition entries_preimage (entries : list DeltaEntry) : list Z := encode_list hash_entry (sort_by entry_cmp entries).
(* eth2077-types/src/eip_delta_review.rs:288-327 compute_review_commitment *)
Definition compute_review_commitment `{Sha256} (entries : list DeltaEntry) : list Z := sha256 (entries_preimage entries).

Definition entry_key (entry : DeltaEntry) : Z * Z := (de_eip_number entry, de_pr_number entry).
Lemma review_entry_errors_nil seen index entries :
  entry_errors seen index entries = [] ↔
  Forall (λ entry, de_eip_number entry ≠ 0 ∧ trim (de_description entry) ≠ []) entries ∧
  NoDup (entry_key <$> entries) ∧ Forall (λ entry, entry_key entry ∉ seen) entries.
Proof.
  revert seen index. induction entries as [|entry entries IH]; intros seen index; cbn [entry_errors].
  - split; [|done]. intros _. split; [constructor|]. split; constructor.
  - rewrite !app_nil, !push_if_nil, Z.eqb_neq, !bool_decide_eq_false, IH, !Forall_cons, fmap_cons, NoDup_cons, Forall_not_seen.
    unfold entry_key at 5. tauto.
Qed.
Lemma validate_delta_exact entries config :
  validate_delta_review entries config = Ok tt ↔
  entries ≠ [] ∧ len entries <= dr_max_entries_per_review config ∧
  Forall (λ entry, de_eip_number entry ≠ 0 ∧ trim (de_description entry) ≠ []) entries ∧ NoDup (entry_key <$> entries).
Proof.
  unfold validate_delta_review.
  rewrite errors_to_result_ok, !app_nil, !push_if_nil, bool_decide_eq_false, Z.ltb_ge, review_entry_errors_nil.
  pose proof (Forall_not_empty entry_key entries). tauto.
Qed.
(** More sections, or a breaking change, never lower the impact. *)
Lemma classify_monotone category breaking1 breaking2 sections1 sections2 :
  (breaking1 = true → breaking2 = true) → sections1 ⊆+ sections2 →
  impact_rank (classify_impact category breaking1 sections1) <= impact_rank (classify_impact category breaking2 sections2).
Proof.
  intros Hb Hs. unfold classify_impact.
  assert (existsb has_consensus_critical_keyword sections1 = true → existsb has_consensus_critical_keyword sections2 = true) as Ht.
  { rewrite !existsb_exists. intros (s & Hin & ?). exists s. split; [|done].
    apply list_elem_of_In. apply list_elem_of_In in Hin. by eapply elem_of_submseteq. }
  assert ((4 <=? len sections1) = true → (4 <=? len sections2) = true) as Hl.
  { rewrite !Z.leb_le. apply submseteq_length in Hs. unfold len. lia. }
  destruct (existsb _ sections1), (existsb _ sections2), (4 <=? len sections1), (4 <=? len sections2), breaking1, breaking2;
    try (by specialize (Ht eq_refl)); try (by specialize (Hl eq_refl)); try (by specialize (Hb eq_refl));
    destruct category; vm_compute; discriminate.
Qed.
(** The coverage is a fraction, and all of it where every normative change is covered. *)
Lemma coverage_between entries :
  len entries <= 2 ^ 53 →
  let coverage := compute_implementation_coverage entries in
  f64_le f64_zero coverage = true ∧ f64_le coverage (int 1) = true.
Proof.
  intros Hlen. cbv zeta. unfold compute_implementation_coverage. case_bool_decide as Hn; [done|].
  assert (len (normative_entries entries) <= len entries) by (unfold len; pose proof (length_filter (λ entry, is_normative_category (de_category entry) = true) entries); unfold normative_entries; lia).
  set (normative := normative_entries entries) in *.
  assert (len (filter is_covered normative) <= len normative) by (unfold len; pose proof (length_filter is_covered normative); lia).
  assert (0 < len normative) by (destruct normative; [done|unfold len; cbn; lia]).
  apply fraction_between; unfold len in *; lia.
Qed.

#[export] Instance entry_cmp_ord : OrdCmp entry_cmp.
Proof.
  split.
  - unfold entry_cmp. repeat apply then_with_preorder;
      first [exact (preorder_on de_eip_number Z.compare)
            |exact (preorder_on de_pr_number Z.compare)
            |exact (preorder_on (λ x, category_rank (de_category x)) Z.compare)
            |exact (preorder_on (λ x, impact_rank (de_impact x)) Z.compare)
            |exact (preorder_on de_breaking bool_cmp)
            |exact (preorder_on (λ x, implementation_status_rank (de_implementation_status x)) Z.compare)
            |exact (preorder_on de_description bytes_cmp)
            |exact (preorder_on de_affected_sections strings_cmp)].
  - intros [] []. unfold entry_cmp. rewrite !then_with_eq. cbn.
    intros (?%(cmp_eq _) & ?%(cmp_eq _) & ?%(cmp_eq _)%(inj _) & ?%(cmp_eq _)%(inj _) & ?%(cmp_eq _) & ?%(cmp_eq _)%(inj _)
      & ?%(cmp_eq _) & ?%(cmp_eq _)).
    congruence.
Qed.
Record entry_wf (entry : DeltaEntry) : Prop := {
  ew_eip : is_u64 (de_eip_number entry);
  ew_pr : is_u64 (de_pr_number entry);
  ew_description : is_u64 (len (de_description entry));
  ew_sections : Forall (λ s : Str, is_u64 (len s)) (de_affected_sections entry) ∧ is_u64 (len (de_affected_sections entry));
}.
Lemma hash_entry_inj : prefix_inj entry_wf hash_entry.
Proof.
  intros [] [] r1 r2 [] []. unfold hash_entry, hash_string.
  cbn [de_eip_number de_pr_number de_category de_impact de_description de_affected_sections de_implementation_status
    de_breaking] in *. rewrite <- !app_assoc.
  intros [-> Heq]%prefix_inj_u64; [|done..]. apply prefix_inj_u64 in Heq as [-> Heq]; [|done..].
  apply app_inj_1 in Heq as [[= Hc%(inj _)] Heq]; [|done]. apply app_inj_1 in Heq as [[= Hi%(inj _)] Heq]; [|done].
  apply app_inj_1 in Heq as [[= Hs%(inj _)] Heq]; [|done]. apply app_inj_1 in Heq as [[= Hb%u8_of_bool_inj] Heq]; [|done].
  apply prefix_inj_bytes in Heq as [-> Heq]; [|done..].
  apply (prefix_inj_list _ _ prefix_inj_bytes) in Heq as [-> ->]; [|done..]. by subst.
Qed.
(** the commitment of a review is to its entries whatever their order: permutations have
    one commitment, and reviews with one commitment have the same entries, each as often, or
    SHA-256 collides. *)
Theorem review_commitment_exact `{Sha256} (entries1 entries2 : list DeltaEntry) :
  Forall entry_wf entries1 → Forall entry_wf entries2 → is_u64 (len entries1) → is_u64 (len entries2) →
  (entries1 ≡ₚ entries2 → compute_review_commitment entries1 = compute_review_commitment entries2) ∧
  (compute_review_commitment entries1 = compute_review_commitment entries2 → binds entries_preimage (≡ₚ) entries1 entries2).
Proof.
  intros H1 H2 Hn1 Hn2. split.
  - intros Hp. unfold compute_review_commitment, entries_preimage. by rewrite (sort_by_order entry_cmp _ _ Hp).
  - apply binds_intro. exact (sorted_encoding_inj entry_wf _ _ _ _ hash_entry_inj H1 H2 Hn1 Hn2).
Qed.

(** ** The statistics do not depend on the order of the hash maps *)

#[export] Instance name_cmp_preorder : PreorderCmp name_cmp.
Proof. exact (preorder_on fst bytes_cmp). Qed.
Lemma sort_by_names (l1 l2 : list (Str * Z)) :
  NoDup l1.*1 → l1 ≡ₚ l2 → sort_by name_cmp l1 = sort_by name_cmp l2.
Proof.
  intros Hnd Hl. apply (sorted_perm_unique name_cmp); [|apply sort_by_sorted, _..|by rewrite !sort_by_perm].
  intros [a x] [b y]. rewrite !sort_by_perm. unfold name_cmp. cbn. intros Hx Hy ->%(cmp_eq bytes_cmp).
  apply list_elem_of_lookup in Hx as [i Hi], Hy as [j Hj]. assert (i = j) as ->; [|congruence].
  apply (NoDup_lookup _ i j b Hnd); by rewrite list_lookup_fmap, ?Hi, ?Hj.
Qed.
Lemma hash_iter_orders (HO1 HO2 : HashOrder) {K V} `{Countable K} (m : gmap K V) :
  hash_iter (HashOrder := HO1) m ≡ₚ hash_iter (HashOrder := HO2) m.
Proof. by rewrite !hash_iter_perm. Qed.
Lemma architecture_stats_order (HO1 HO2 : HashOrder) items config :
  compute_ef_architecture_stats (HO := HO1) items config = compute_ef_architecture_stats (HO := HO2) items config.
Proof.
  unfold compute_ef_architecture_stats. destruct (filter_relevant_items items config) as [filtered|]; [|done].
  cbn [mbind option_bind]. case_bool_decide; [done|]. destruct (compute_dependency_depth filtered); [|done].
  cbn [mbind option_bind]. f_equal. f_equal; (apply sort_by_names; [apply NoDup_hash_iter|apply (hash_iter_orders HO1 HO2)]).
Qed.
Lemma named_counts_order (HO1 HO2 : HashOrder) {K} `{Countable K} (name : K → Str) `{!Inj (=) (=) name} (m : gmap K Z) :
  sort_by name_cmp ((λ '(k, count), (name k, count)) <$> hash_iter (HashOrder := HO1) m) =
  sort_by name_cmp ((λ '(k, count), (name k, count)) <$> hash_iter (HashOrder := HO2) m).
Proof.
  apply sort_by_names; [|by rewrite (hash_iter_orders HO1 HO2)].
  rewrite <- list_fmap_compose.
  assert (fst ∘ (λ '(k, count), (name k, count)) <$> hash_iter (HashOrder := HO1) m = name <$> (hash_iter (HashOrder := HO1) m).*1) as ->.
  { rewrite <- list_fmap_compose. by apply list_fmap_ext; intros ? [] _. }
  apply NoDup_fmap; [done|apply NoDup_hash_iter].
Qed.
#[export] Instance category_name_inj : Inj (=) (=) category_name.
Proof. by intros [] []. Qed.
#[export] Instance impact_name_inj : Inj (=) (=) impact_name.
Proof. by intros [] []. Qed.
Lemma review_stats_order (HO1 HO2 : HashOrder) entries :
  compute_review_stats (HO := HO1) entries = compute_review_stats (HO := HO2) entries.
Proof. unfold compute_review_stats. by rewrite (named_counts_order HO1 HO2 category_name), (named_counts_order HO1 HO2 impact_name). Qed.

(** ** Part 2 *)

(** ** Arrays of counters *)

(** [counts[index] += 1] for each element; [usize] holds the length of any slice. *)
Definition count_slot (counts : list Z) (index : nat) : list Z := alter (Z.add 1) index counts.
Lemma count_slots {A} (index : A → nat) (l : list A) (counts : list Z) k z :
  counts !! k = Some z →
  foldl (λ counts x, count_slot counts (index x)) counts l !! k = Some (z + len (filter (λ x, index x = k) l)).
Proof.
  revert counts z. induction l as [|x l IH]; intros counts z Hk; cbn [foldl].
  - rewrite Hk. unfold len. cbn. by rewrite Z.add_0_r.
  - unfold count_slot at 2. rewrite filter_cons. case_decide as Hx.
    + subst. rewrite (IH _ (1 + z)) by (by rewrite list_lookup_alter_eq, Hk). unfold len. cbn [length]. f_equal. lia.
    + apply IH. by rewrite list_lookup_alter_ne.
Qed.
(** A field of an accumulator that each step updates on its own is a fold of its own. *)
Lemma foldl_field {S T A} (field : S → T) (step : S → A → S) (step' : T → A → T) s l :
  (∀ s x, field (step s x) = step' (field s) x) → field (foldl step s l) = foldl step' (field s) l.
Proof. intros Hstep. revert s. induction l as [|x l IH]; intros s; cbn; [done|]. by rewrite IH, Hstep. Qed.
Lemma foldl_count {A} (P : A → bool) l n :
  foldl (λ n x, if P x then n + 1 else n) n l = n + len (filter (λ x, P x = true) l).
Proof.
  revert n. induction l as [|x l IH]; intros n; cbn [foldl]; [unfold len; cbn; lia|].
  rewrite IH, filter_cons. unfold len. destruct (P x); [rewrite decide_True by done; cbn [length]; lia|by rewrite decide_False].
Qed.
Lemma filter_count_le {A} (P Q : A → bool) (l : list A) :
  (∀ x, P x = true → Q x = true) → len (filter (λ x, P x = true) l) <= len (filter (λ x, Q x = true) l).
Proof.
  intros HPQ. unfold len. induction l as [|x l IH]; [done|]. rewrite !filter_cons.
  destruct (P x) eqn:HP; [rewrite (HPQ x HP)|]; repeat case_decide; cbn [length]; try lia; done.
Qed.
Lemma filter_count_length {A} (P : A → bool) (l : list A) : len (filter (λ x, P x = true) l) <= len l.
Proof. unfold len. pose proof (length_filter (λ x, P x = true) l). lia. Qed.
Lemma filter_count_all {A} (P : A → bool) (l : list A) : len (filter (λ x, P x = true) l) = len l ↔ forallb P l = true.
Proof.
  unfold len. induction l as [|x l IH]; [done|]. cbn [forallb]. rewrite filter_cons, andb_true_iff.
  pose proof (filter_count_length P l) as Hle. unfold len in Hle.
  destruct (P x); [rewrite decide_True by done|rewrite decide_False by done]; cbn [length]; [|split; [lia|by intros []]].
  rewrite <- IH. split; [intros; split; [done|lia]|intros []; lia].
Qed.
Lemma filter_index_eq {A K} `{EqDecision K} (index : K → nat) `{!Inj (=) (=) index} (key : A → K) (l : list A) k :
  filter (λ x, index (key x) = index k) l = filter (λ x, key x = k) l.
Proof. apply list_filter_iff. intros x. split; [apply (inj index)|by intros ->]. Qed.

(** The counts by a key sum up to the length. *)
Lemma Zsum_counts {A K} `{EqDecision K} (key : A → K) (keys : list K) (l : list A) :
  NoDup keys → (∀ x, key x ∈ keys) → Zsum ((λ k, len (filter (λ x, key x = k) l)) <$> keys) = len l.
Proof.
  intros Hnd Hin. induction l as [|x l IH].
  - clear. induction keys as [|k keys IH]; [done|]. exact IH.
  - transitivity (Zsum ((λ k, len (filter (λ x, key x = k) l)) <$> keys) + 1); [|rewrite IH; unfold len; cbn [length]; lia].
    clear IH. specialize (Hin x). induction Hnd as [|k keys Hk Hnd IH]; [set_solver|]. rewrite !fmap_cons. cbn [Zsum foldr].
    assert (Hothers : ∀ ks, key x ∉ ks →
      Zsum ((λ k, len (filter (λ y, key y = k) (x :: l))) <$> ks) = Zsum ((λ k, len (filter (λ y, key y = k) l)) <$> ks)).
    { intros ks Hks. f_equal. apply list_fmap_ext. intros i k' Hi. apply list_elem_of_lookup_2 in Hi.
      rewrite filter_cons, decide_False; [done|congruence]. }
    unfold Zsum in *. rewrite filter_cons. case_decide as Hx.
    + subst. rewrite Hothers by done. unfold len. cbn [length]. lia.
    + rewrite IH by set_solver. unfold len. lia.
Qed.
(** A stable sort of elements with distinct keys, by a comparison that tells keys apart, does
    not depend on the order of the input. *)
Lemma sort_by_distinct {A K} (c : A → A → comparison) `{!PreorderCmp c} (key : A → K) l1 l2 :
  (∀ x y, c x y = Eq → key x = key y) → NoDup (key <$> l1) → l1 ≡ₚ l2 → sort_by c l1 = sort_by c l2.
Proof.
  intros Hkey Hnd Hl. apply (sorted_perm_unique c); [|apply sort_by_sorted, _..|by rewrite !sort_by_perm].
  intros x y. rewrite !sort_by_perm. intros Hx Hy Hxy%Hkey. by eapply NoDup_key_eq.
Qed.

(** ** Porting the strawmap ([strawmap_port.rs]) *)

Module Port.

(* eth2077-types/src/strawmap_port.rs:9-15 StrawmapDomain *)
Inductive StrawmapDomain := Execution | Consensus | DataAvailability | Networking | Cryptography.
(* eth2077-types/src/strawmap_port.rs:18-24 StrawmapDomain::ALL *)
Definition StrawmapDomain_ALL : list StrawmapDomain := [Execution; Consensus; DataAvailability; Networking; Cryptography].
(* eth2077-types/src/strawmap_port.rs:26-34 StrawmapDomain::index *)
Definition StrawmapDomain_index (d : StrawmapDomain) : nat :=
  match d with Execution => 0 | Consensus => 1 | DataAvailability => 2 | Networking => 3 | Cryptography => 4 end.
(* eth2077-types/src/strawmap_port.rs:38-46 PortingPhase *)
Inductive PortingPhase := Identified | Scoped | InProgress | Ported | Verified | Benchmarked | Integrated.
(* eth2077-types/src/strawmap_port.rs:49-57 PortingPhase::ALL *)
Definition PortingPhase_ALL : list PortingPhase := [Identified; Scoped; InProgress; Ported; Verified; Benchmarked; Integrated].
(* eth2077-types/src/strawmap_port.rs:59-69 PortingPhase::index *)
Definition PortingPhase_index (p : PortingPhase) : nat :=
  match p with
  | Identified => 0 | Scoped => 1 | InProgress => 2 | Ported => 3 | Verified => 4 | Benchmarked => 5 | Integrated => 6
  end.
(* eth2077-types/src/strawmap_port.rs:71-73 PortingPhase::rank *)
Definition PortingPhase_rank (p : PortingPhase) : Z := Z.of_nat (PortingPhase_index p).
(* eth2077-types/src/strawmap_port.rs:75-77 PortingPhase::is_at_least *)
Definition is_at_least (p target : PortingPhase) : bool := PortingPhase_rank target <=? PortingPhase_rank p.
(* eth2077-types/src/strawmap_port.rs:81-87 VerificationGate *)
Inductive VerificationGate := FormalProof | PropertyTest | FuzzTest | ManualReview | NotRequired.
#[export] Instance VerificationGate_eq_dec : EqDecision VerificationGate.
Proof. solve_decision. Defined.
(* eth2077-types/src/strawmap_port.rs:90-95 BenchmarkResult *)
Inductive BenchmarkResult := Passed | Marginal | Failed | Pending.
(** The derived [Ord], and the names the derived [Debug] prints. *)
Definition gate_order (g : VerificationGate) : Z :=
  match g with FormalProof => 0 | PropertyTest => 1 | FuzzTest => 2 | ManualReview => 3 | NotRequired => 4 end.
Definition gate_name (g : VerificationGate) : Str :=
  str match g with
      | FormalProof => "FormalProof" | PropertyTest => "PropertyTest" | FuzzTest => "FuzzTest"
      | ManualReview => "ManualReview" | NotRequired => "NotRequired"
      end.
Definition result_order (r : BenchmarkResult) : Z := match r with Passed => 0 | Marginal => 1 | Failed => 2 | Pending => 3 end.

(* eth2077-types/src/strawmap_port.rs:98-109 StrawmapItem *)
Record StrawmapItem := {
  si_id : Str;
  si_strawmap_ref : Str;
  si_title : Str;
  si_domain : StrawmapDomain;
  si_phase : PortingPhase;
  si_priority : Z;
  si_estimated_effort_days : f64;
  si_assigned_to : option Str;
  si_dependencies : list Str;
  si_notes : Str;
}.
(* eth2077-types/src/strawmap_port.rs:112-114 StrawmapItem::is_verified_or_better *)
Definition is_verified_or_better (item : StrawmapItem) : bool := is_at_least (si_phase item) Verified.
(* eth2077-types/src/strawmap_port.rs:116-118 StrawmapItem::is_benchmarked_or_better *)
Definition is_benchmarked_or_better (item : StrawmapItem) : bool := is_at_least (si_phase item) Benchmarked.
(* eth2077-types/src/strawmap_port.rs:120-122 StrawmapItem::is_integrated *)
Definition is_integrated (item : StrawmapItem) : bool := is_at_least (si_phase item) Integrated.
(* eth2077-types/src/strawmap_port.rs:143-153 PortingTask *)
Record PortingTask := {
  pk_item_id : Str;
  pk_eth2077_module : Str;
  pk_verification_gate : VerificationGate;
  pk_benchmark_result : BenchmarkResult;
  pk_proof_artifact : option Str;
  pk_benchmark_throughput : option f64;
  pk_benchmark_latency_ms : option f64;
  pk_started_at_unix : option Z;
  pk_completed_at_unix : option Z;
}.
(* eth2077-types/src/strawmap_port.rs:172-180 StrawmapPortConfig *)
Record StrawmapPortConfig := {
  po_required_verification_gates : list VerificationGate;
  po_min_benchmark_throughput : f64;
  po_max_benchmark_latency_ms : f64;
  po_max_parallel_ports : Z;
  po_phase_a_deadline_unix : option Z;
  po_require_all_domains : bool;
  po_auto_integrate_on_pass : bool;
}.
(* eth2077-types/src/strawmap_port.rs:183-196 StrawmapPortConfig::default *)
Definition StrawmapPortConfig_default : StrawmapPortConfig :=
  {| po_required_verification_gates := [FormalProof; PropertyTest]; po_min_benchmark_throughput := int 10000;
     po_max_benchmark_latency_ms := int 100; po_max_parallel_ports := 5; po_phase_a_deadline_unix := None;
     po_require_all_domains := true; po_auto_integrate_on_pass := false |}.

(* eth2077-types/src/strawmap_port.rs:532-534 is_finite_positive *)
Definition is_finite_positive (value : f64) : bool := f64_is_finite value && f64_lt f64_zero value.
(* eth2077-types/src/strawmap_port.rs:209-220 validate *)
Fixpoint repeated_gates (seen : list VerificationGate) (index : Z) (gates : list VerificationGate) : list FieldError :=
  match gates with
  | [] => []
  | gate :: gates =>
      push_if (bool_decide (gate ∈ seen))
        {| fe_field := str "required_verification_gates";
           fe_message := str "duplicate verification gate `" ++ gate_name gate ++ str "` at index " ++ decimal index |} ++
      repeated_gates (gate :: seen) (index + 1) gates
  end.
(* eth2077-types/src/strawmap_port.rs:200-265 StrawmapPortConfig::validate *)
Definition StrawmapPortConfig_validate (c : StrawmapPortConfig) : list FieldError :=
  let gates := po_required_verification_gates c in
  (if bool_decide (gates = []) then
     [field_error "required_verification_gates" "at least one verification gate is required"]
   else
     repeated_gates [] 0 gates ++
     push_if (bool_decide (NotRequired ∈ gates) && (1 <? len gates))
       (field_error "required_verification_gates" "`NotRequired` cannot be mixed with hard verification gates")) ++
  push_if (negb (is_finite_positive (po_min_benchmark_throughput c)))
    (field_error "min_benchmark_throughput" "must be finite and greater than zero") ++
  push_if (negb (is_finite_positive (po_max_benchmark_latency_ms c)))
    (field_error "max_benchmark_latency_ms" "must be finite and greater than zero") ++
  push_if (po_max_parallel_ports c =? 0) (field_error "max_parallel_ports" "must be at least 1") ++
  match po_phase_a_deadline_unix c with
  | Some deadline =>
      push_if (deadline =? 0) (field_error "phase_a_deadline_unix" "must be a valid unix timestamp greater than zero")
  | None => []
  end.

(** A NaN, which has no sign here, counts as positive. *)
(* eth2077-types/src/strawmap_port.rs:536-544 finite_bits *)
Definition finite_bits (value : f64) : Z :=
  if f64_is_finite value then f64_to_bits value
  else match value with
       | S754_infinity true => f64_to_bits (S754_infinity true)
       | _ => f64_to_bits (S754_infinity false)
       end.
(* eth2077-types/src/strawmap_port.rs:306-317 ItemCommitmentRecord *)
Record ItemCommitmentRecord := {
  ic_id : Str;
  ic_strawmap_ref : Str;
  ic_title : Str;
  ic_domain : StrawmapDomain;
  ic_phase : PortingPhase;
  ic_priority : Z;
  ic_estimated_effort_days_bits : Z;
  ic_assigned_to : option Str;
  ic_dependencies : list Str;
  ic_notes : Str;
}.
(* eth2077-types/src/strawmap_port.rs:124-139 StrawmapItem::commitment_record *)
Definition item_record (item : StrawmapItem) : ItemCommitmentRecord :=
  {| ic_id := si_id item; ic_strawmap_ref := si_strawmap_ref item; ic_title := si_title item; ic_domain := si_domain item;
     ic_phase := si_phase item; ic_priority := si_priority item;
     ic_estimated_effort_days_bits := finite_bits (si_estimated_effort_days item); ic_assigned_to := si_assigned_to item;
     ic_dependencies := sort_by bytes_cmp (si_dependencies item); ic_notes := si_notes item |}.
(* eth2077-types/src/strawmap_port.rs:326-336 TaskCommitmentRecord *)
Record TaskCommitmentRecord := {
  tc_item_id : Str;
  tc_eth2077_module : Str;
  tc_verification_gate : VerificationGate;
  tc_benchmark_result : BenchmarkResult;
  tc_proof_artifact : option Str;
  tc_benchmark_throughput_bits : option Z;
  tc_benchmark_latency_ms_bits : option Z;
  tc_started_at_unix : option Z;
  tc_completed_at_unix : option Z;
}.
(* eth2077-types/src/strawmap_port.rs:156-168 PortingTask::commitment_record *)
Definition task_record (task : PortingTask) : TaskCommitmentRecord :=
  {| tc_item_id := pk_item_id task; tc_eth2077_module := pk_eth2077_module task;
     tc_verification_gate := pk_verification_gate task; tc_benchmark_result := pk_benchmark_result task;
     tc_proof_artifact := pk_proof_artifact task; tc_benchmark_throughput_bits := finite_bits <$> pk_benchmark_throughput task;
     tc_benchmark_latency_ms_bits := finite_bits <$> pk_benchmark_latency_ms task;
     tc_started_at_unix := pk_started_at_unix task; tc_completed_at_unix := pk_completed_at_unix task |}.
(* eth2077-types/src/strawmap_port.rs:513-523 compare_item_records *)
Definition compare_item_records (left right : ItemCommitmentRecord) : comparison :=
  then_with (bytes_cmp (ic_id left) (ic_id right))
    (then_with (bytes_cmp (ic_strawmap_ref left) (ic_strawmap_ref right))
      (then_with (bytes_cmp (ic_title left) (ic_title right))
        (then_with (Z.compare (ic_priority left) (ic_priority right))
          (then_with (Z.compare (Z.of_nat (StrawmapDomain_index (ic_domain left))) (Z.of_nat (StrawmapDomain_index (ic_domain right))))
            (then_with (Z.compare (PortingPhase_rank (ic_phase left)) (PortingPhase_rank (ic_phase right)))
              (Z.compare (ic_estimated_effort_days_bits left) (ic_estimated_effort_days_bits right))))))).
(* eth2077-types/src/strawmap_port.rs:525-530 compare_task_records *)
Definition compare_task_records (left right : TaskCommitmentRecord) : comparison :=
  then_with (bytes_cmp (tc_item_id left) (tc_item_id right))
    (then_with (bytes_cmp (tc_eth2077_module left) (tc_eth2077_module right))
      (then_with (Z.compare (gate_order (tc_verification_gate left)) (gate_order (tc_verification_gate right)))
        (Z.compare (result_order (tc_benchmark_result left)) (result_order (tc_benchmark_result right))))).

(* eth2077-types/src/strawmap_port.rs:284-294 StrawmapPortStats *)
Record StrawmapPortStats := {
  pt_total_items : Z;
  pt_items_by_domain : list (StrawmapDomain * Z);
  pt_items_by_phase : list (PortingPhase * Z);
  pt_verified_count : Z;
  pt_benchmarked_count : Z;
  pt_integrated_count : Z;
  pt_avg_effort_days : f64;
  pt_completion_pct : f64;
  pt_commitment : list Z;
}.
(* eth2077-types/src/strawmap_port.rs:297-303 StrawmapDerivedStats *)
Record StrawmapDerivedStats := {
  dv_verified_count : Z;
  dv_benchmarked_count : Z;
  dv_integrated_count : Z;
  dv_avg_effort_days : f64;
  dv_completion_pct : f64;
}.
(** A [CountByDomainRecord] and a [CountByPhaseRecord] are pairs here. *)
(* eth2077-types/src/strawmap_port.rs:357-370 CommitmentPayload *)
Record PortPayload := {
  pp_version : Z;
  pp_total_items : Z;
  pp_total_tasks : Z;
  pp_counts_by_domain : list (StrawmapDomain * Z);
  pp_counts_by_phase : list (PortingPhase * Z);
  pp_verified_count : Z;
  pp_benchmarked_count : Z;
  pp_integrated_count : Z;
  pp_avg_effort_days_bits : Z;
  pp_completion_pct_bits : Z;
  pp_items : list ItemCommitmentRecord;
  pp_tasks : list TaskCommitmentRecord;
}.
(** [serde_json::to_vec(&payload).unwrap_or_default()] *)
Class PortJson := port_json : PortPayload → list Z.

(* eth2077-types/src/strawmap_port.rs:462-498 compute_commitment *)
Definition port_payload (items : list StrawmapItem) (tasks : list PortingTask) (items_by_domain : list (StrawmapDomain * Z))
    (items_by_phase : list (PortingPhase * Z)) (stats : StrawmapDerivedStats) : PortPayload :=
  {| pp_version := 1; pp_total_items := len items; pp_total_tasks := len tasks; pp_counts_by_domain := items_by_domain;
     pp_counts_by_phase := items_by_phase; pp_verified_count := dv_verified_count stats;
     pp_benchmarked_count := dv_benchmarked_count stats; pp_integrated_count := dv_integrated_count stats;
     pp_avg_effort_days_bits := finite_bits (dv_avg_effort_days stats);
     pp_completion_pct_bits := finite_bits (dv_completion_pct stats);
     pp_items := sort_by compare_item_records (item_record <$> items);
     pp_tasks := sort_by compare_task_records (task_record <$> tasks) |}.
(* eth2077-types/src/strawmap_port.rs:455-511 compute_commitment *)
Definition port_compute_commitment `{Sha256} `{PortJson} (items : list StrawmapItem) (tasks : list PortingTask)
    (items_by_domain : list (StrawmapDomain * Z)) (items_by_phase : list (PortingPhase * Z)) (stats : StrawmapDerivedStats) : list Z :=
  sha256 (str "eth2077-strawmap-port-v1" ++ encode_bytes (port_json (port_payload items tasks items_by_domain items_by_phase stats))).

(** What the loop over the items accumulates. *)
(* eth2077-types/src/strawmap_port.rs:373-381 compute_stats *)
Record PortTally := {
  ta_domain_counts : list Z;
  ta_phase_counts : list Z;
  ta_verified : Z;
  ta_benchmarked : Z;
  ta_integrated : Z;
  ta_effort_sum : f64;
  ta_effort_samples : Z;
}.
(* eth2077-types/src/strawmap_port.rs:397-400 compute_stats *)
Definition counted_effort (item : StrawmapItem) : bool :=
  f64_is_finite (si_estimated_effort_days item) && f64_le f64_zero (si_estimated_effort_days item).
(* eth2077-types/src/strawmap_port.rs:383-401 compute_stats *)
Definition tally_item (t : PortTally) (item : StrawmapItem) : PortTally :=
  {| ta_domain_counts := count_slot (ta_domain_counts t) (StrawmapDomain_index (si_domain item));
     ta_phase_counts := count_slot (ta_phase_counts t) (PortingPhase_index (si_phase item));
     ta_verified := if is_verified_or_better item then ta_verified t + 1 else ta_verified t;
     ta_benchmarked := if is_benchmarked_or_better item then ta_benchmarked t + 1 else ta_benchmarked t;
     ta_integrated := if is_integrated item then ta_integrated t + 1 else ta_integrated t;
     ta_effort_sum := if counted_effort item then f64_add (ta_effort_sum t) (si_estimated_effort_days item) else ta_effort_sum t;
     ta_effort_samples := if counted_effort item then ta_effort_samples t + 1 else ta_effort_samples t |}.
(* eth2077-types/src/strawmap_port.rs:373-401 compute_stats *)
Definition tally_items (items : list StrawmapItem) : PortTally :=
  foldl tally_item
    {| ta_domain_counts := replicate 5 0; ta_phase_counts := replicate 7 0; ta_verified := 0; ta_benchmarked := 0;
       ta_integrated := 0; ta_effort_sum := f64_zero; ta_effort_samples := 0 |} items.
(** [counts[key.index()]] for each key: the indices are those of the array. *)
Definition labelled {K} (index : K → nat) (keys : list K) (counts : list Z) : list (K * Z) :=
  (λ key, (key, default 0 (counts !! index key))) <$> keys.
(* eth2077-types/src/strawmap_port.rs:372-447 compute_stats *)
Definition port_compute_stats `{Sha256} `{PortJson} (items : list StrawmapItem) (tasks : list PortingTask) : StrawmapPortStats :=
  let t := tally_items items in
  let avg_effort_days :=
    if ta_effort_samples t =? 0 then f64_zero else f64_div (ta_effort_sum t) (f64_of_u64 (ta_effort_samples t)) in
  let completion_pct :=
    if bool_decide (items = []) then f64_zero
    else f64_mul (f64_div (f64_of_u64 (ta_verified t)) (f64_of_u64 (len items))) (int 100) in
  let items_by_domain := labelled StrawmapDomain_index StrawmapDomain_ALL (ta_domain_counts t) in
  let items_by_phase := labelled PortingPhase_index PortingPhase_ALL (ta_phase_counts t) in
  let derived := {| dv_verified_count := ta_verified t; dv_benchmarked_count := ta_benchmarked t;
                    dv_integrated_count := ta_integrated t; dv_avg_effort_days := avg_effort_days;
                    dv_completion_pct := completion_pct |} in
  {| pt_total_items := len items; pt_items_by_domain := items_by_domain; pt_items_by_phase := items_by_phase;
     pt_verified_count := ta_verified t; pt_benchmarked_count := ta_benchmarked t; pt_integrated_count := ta_integrated t;
     pt_avg_effort_days := avg_effort_days; pt_completion_pct := completion_pct;
     pt_commitment := port_compute_commitment items tasks items_by_domain items_by_phase derived |}.
(* eth2077-types/src/strawmap_port.rs:449-453 is_phase_a_complete *)
Definition is_phase_a_complete (items : list StrawmapItem) : bool := forallb (λ item, is_at_least (si_phase item) Verified) items.

(** *** Validation *)

Lemma repeated_gates_nil seen index gates :
  repeated_gates seen index gates = [] ↔ NoDup gates ∧ Forall (λ gate, gate ∉ seen) gates.
Proof.
  revert seen index. induction gates as [|gate gates IH]; intros seen index; cbn [repeated_gates].
  - split; [|done]. split; [apply NoDup_nil|]; constructor.
  - rewrite app_nil, push_if_nil, bool_decide_eq_false, IH, NoDup_cons, Forall_cons, !Forall_forall. set_solver.
Qed.
(** A configuration is accepted exactly when its gates are some, without repetition, and not
    a mixture of [NotRequired] with others, its bounds are finite and positive, it allows
    a port, and its deadline, if any, is not 0. *)
Lemma validate_port_exact c :
  StrawmapPortConfig_validate c = [] ↔
  po_required_verification_gates c ≠ [] ∧ NoDup (po_required_verification_gates c) ∧
  (NotRequired ∈ po_required_verification_gates c → po_required_verification_gates c = [NotRequired]) ∧
  is_finite_positive (po_min_benchmark_throughput c) = true ∧ is_finite_positive (po_max_benchmark_latency_ms c) = true ∧
  po_max_parallel_ports c ≠ 0 ∧ po_phase_a_deadline_unix c ≠ Some 0.
Proof.
  unfold StrawmapPortConfig_validate. rewrite !app_nil, !push_if_nil, !negb_false_iff, Z.eqb_neq.
  assert (Hd : match po_phase_a_deadline_unix c with
               | Some deadline => push_if (deadline =? 0)
                   (field_error "phase_a_deadline_unix" "must be a valid unix timestamp greater than zero")
               | None => []
               end = [] ↔ po_phase_a_deadline_unix c ≠ Some 0).
  { destruct (po_phase_a_deadline_unix c) as [d|]; [rewrite push_if_nil, Z.eqb_neq; naive_solver|done]. }
  rewrite Hd. case_bool_decide as Hg; [split; [by intros [[=] _]|tauto]|].
  rewrite app_nil, push_if_nil, repeated_gates_nil, andb_false_iff, bool_decide_eq_false, Z.ltb_ge.
  assert (Hs : Forall (λ gate, gate ∉ []) (po_required_verification_gates c)) by (apply Forall_forall; set_solver).
  assert (Hm : (NotRequired ∉ po_required_verification_gates c ∨ len (po_required_verification_gates c) <= 1) ↔
    (NotRequired ∈ po_required_verification_gates c → po_required_verification_gates c = [NotRequired])).
  { destruct (po_required_verification_gates c) as [|g [|h gates]]; [done|unfold len; cbn; set_solver|].
    unfold len. cbn [length]. split; [intros [?|?]; [done|lia]|]. intros Hone.
    destruct (decide (NotRequired ∈ g :: h :: gates)) as [Hin|]; [|by left]. by apply Hone in Hin. }
  rewrite Hm. tauto.
Qed.
Lemma default_strawmap_port_valid : StrawmapPortConfig_validate StrawmapPortConfig_default = [].
Proof. reflexivity. Qed.

(** *** Statistics *)

#[export] Instance StrawmapDomain_eq_dec : EqDecision StrawmapDomain.
Proof. solve_decision. Defined.
#[export] Instance PortingPhase_eq_dec : EqDecision PortingPhase.
Proof. solve_decision. Defined.
Definition domain_count (items : list StrawmapItem) (d : StrawmapDomain) : Z := len (filter (λ item, si_domain item = d) items).
Definition phase_count (items : list StrawmapItem) (p : PortingPhase) : Z := len (filter (λ item, si_phase item = p) items).

Lemma ta_verified_exact items : ta_verified (tally_items items) = len (filter (λ i, is_verified_or_better i = true) items).
Proof. unfold tally_items. rewrite (foldl_field ta_verified _ (λ n i, if is_verified_or_better i then n + 1 else n)) by done. by rewrite foldl_count. Qed.
Lemma ta_benchmarked_exact items : ta_benchmarked (tally_items items) = len (filter (λ i, is_benchmarked_or_better i = true) items).
Proof. unfold tally_items. rewrite (foldl_field ta_benchmarked _ (λ n i, if is_benchmarked_or_better i then n + 1 else n)) by done. by rewrite foldl_count. Qed.
Lemma ta_integrated_exact items : ta_integrated (tally_items items) = len (filter (λ i, is_integrated i = true) items).
Proof. unfold tally_items. rewrite (foldl_field ta_integrated _ (λ n i, if is_integrated i then n + 1 else n)) by done. by rewrite foldl_count. Qed.
#[export] Instance StrawmapDomain_index_inj : Inj (=) (=) StrawmapDomain_index.
Proof. by intros [] []. Qed.
#[export] Instance PortingPhase_index_inj : Inj (=) (=) PortingPhase_index.
Proof. by intros [] []. Qed.
Lemma domain_counts_exact items :
  labelled StrawmapDomain_index StrawmapDomain_ALL (ta_domain_counts (tally_items items)) =
  (λ d, (d, domain_count items d)) <$> StrawmapDomain_ALL.
Proof.
  unfold tally_items. rewrite (foldl_field ta_domain_counts _ (λ counts i, count_slot counts (StrawmapDomain_index (si_domain i))))
    by reflexivity. apply list_fmap_ext. intros i d _. f_equal.
  rewrite (count_slots (λ i, StrawmapDomain_index (si_domain i)) _ _ _ 0) by (by destruct d).
  unfold domain_count. rewrite <- (filter_index_eq StrawmapDomain_index). reflexivity.
Qed.
Lemma phase_counts_exact items :
  labelled PortingPhase_index PortingPhase_ALL (ta_phase_counts (tally_items items)) =
  (λ p, (p, phase_count items p)) <$> PortingPhase_ALL.
Proof.
  unfold tally_items. rewrite (foldl_field ta_phase_counts _ (λ counts i, count_slot counts (PortingPhase_index (si_phase i))))
    by reflexivity. apply list_fmap_ext. intros i p _. f_equal.
  rewrite (count_slots (λ i, PortingPhase_index (si_phase i)) _ _ _ 0) by (by destruct p).
  unfold phase_count. rewrite <- (filter_index_eq PortingPhase_index). reflexivity.
Qed.

(** the statistics of up to 2^53 items: the items by domain and by phase are counted
    exactly and each count sums up to the total; every integrated item is benchmarked and
    every benchmarked one verified; the completion is between 0 and 100 percent, and phase A
    is complete exactly when the verified items are all of them. *)
Theorem port_stats_exact `{Sha256} `{PortJson} (items : list StrawmapItem) (tasks : list PortingTask) :
  len items <= 2 ^ 53 →
  let s := port_compute_stats items tasks in
  pt_items_by_domain s = (λ d, (d, domain_count items d)) <$> StrawmapDomain_ALL ∧
  pt_items_by_phase s = (λ p, (p, phase_count items p)) <$> PortingPhase_ALL ∧
  Zsum (pt_items_by_domain s).*2 = pt_total_items s ∧ Zsum (pt_items_by_phase s).*2 = pt_total_items s ∧
  0 <= pt_integrated_count s <= pt_benchmarked_count s ∧ pt_benchmarked_count s <= pt_verified_count s <= pt_total_items s ∧
  f64_le f64_zero (pt_completion_pct s) = true ∧ f64_le (pt_completion_pct s) (int 100) = true ∧
  (is_phase_a_complete items = true ↔ pt_verified_count s = pt_total_items s).
Proof.
  intros Hlen. cbn [port_compute_stats pt_items_by_domain pt_items_by_phase pt_total_items pt_integrated_count
    pt_benchmarked_count pt_verified_count pt_completion_pct].
  rewrite domain_counts_exact, phase_counts_exact, ta_verified_exact, ta_benchmarked_exact, ta_integrated_exact.
  split; [done|]. split; [done|]. rewrite <- !list_fmap_compose.
  split; [apply (Zsum_counts si_domain); [apply (bool_decide_unpack _); by vm_compute|intros i; destruct (si_domain i); set_solver]|].
  split; [apply (Zsum_counts si_phase); [apply (bool_decide_unpack _); by vm_compute|intros i; destruct (si_phase i); set_solver]|].
  pose proof (filter_count_length is_verified_or_better items).
  split; [split; [unfold len; lia|apply filter_count_le; intros i; unfold is_integrated, is_benchmarked_or_better; by destruct (si_phase i)]|].
  split; [split; [apply filter_count_le; intros i; unfold is_verified_or_better, is_benchmarked_or_better; by destruct (si_phase i)|done]|].
  split; [|split]; [case_bool_decide as Hn; [by vm_compute|apply fraction_percent]..|]; try (unfold len in *; lia).
  1, 2: destruct items; [done|unfold len; cbn [length]; unfold len in Hlen; cbn [length] in Hlen; lia].
  symmetry. apply filter_count_all.
Qed.

(** *** The commitment *)

#[export] Instance compare_item_records_preorder : PreorderCmp compare_item_records.
Proof.
  unfold compare_item_records. repeat apply then_with_preorder;
    first [exact (preorder_on ic_id bytes_cmp)|exact (preorder_on ic_strawmap_ref bytes_cmp)|exact (preorder_on ic_title bytes_cmp)
          |exact (preorder_on ic_priority Z.compare)
          |exact (preorder_on (λ r, Z.of_nat (StrawmapDomain_index (ic_domain r))) Z.compare)
          |exact (preorder_on (λ r, PortingPhase_rank (ic_phase r)) Z.compare)
          |exact (preorder_on ic_estimated_effort_days_bits Z.compare)].
Qed.
#[export] Instance compare_task_records_preorder : PreorderCmp compare_task_records.
Proof.
  unfold compare_task_records. repeat apply then_with_preorder;
    first [exact (preorder_on tc_item_id bytes_cmp)|exact (preorder_on tc_eth2077_module bytes_cmp)
          |exact (preorder_on (λ r, gate_order (tc_verification_gate r)) Z.compare)
          |exact (preorder_on (λ r, result_order (tc_benchmark_result r)) Z.compare)].
Qed.
Definition task_key (task : PortingTask) : Str * Str := (pk_item_id task, pk_eth2077_module task).

(** the commitment of items with distinct identifiers and of tasks with distinct items
    and modules does not depend on their order, as long as the average effort, whose last
    bit may, is the same. *)
Theorem port_commitment_order `{Sha256} `{PortJson} (items1 items2 : list StrawmapItem) (tasks1 tasks2 : list PortingTask) :
  NoDup (si_id <$> items1) → NoDup (task_key <$> tasks1) → items1 ≡ₚ items2 → tasks1 ≡ₚ tasks2 →
  pt_avg_effort_days (port_compute_stats items1 tasks1) = pt_avg_effort_days (port_compute_stats items2 tasks2) →
  port_compute_stats items1 tasks1 = port_compute_stats items2 tasks2.
Proof.
  intros Hids Hkeys Hi Ht Havg.
  assert (Hlen : len items1 = len items2) by (unfold len; by rewrite Hi).
  assert (Hlent : len tasks1 = len tasks2) by (unfold len; by rewrite Ht).
  assert (Hcount : ∀ (P : StrawmapItem → Prop) `{!∀ x, Decision (P x)}, len (filter P items1) = len (filter P items2))
    by (intros P ?; unfold len; by rewrite Hi).
  assert (Hnil : bool_decide (items1 = []) = bool_decide (items2 = [])).
  { apply bool_decide_ext. destruct items1, items2; split; intros [=]; try done; unfold len in Hlen; cbn in Hlen; lia. }
  assert (Hitems : sort_by compare_item_records (item_record <$> items1) = sort_by compare_item_records (item_record <$> items2)).
  { apply (sort_by_distinct _ ic_id); [by intros ?? [->%(cmp_eq bytes_cmp) _]%then_with_eq| |by rewrite Hi].
    by rewrite <- list_fmap_compose. }
  assert (Htasks : sort_by compare_task_records (task_record <$> tasks1) = sort_by compare_task_records (task_record <$> tasks2)).
  { apply (sort_by_distinct _ (λ r, (tc_item_id r, tc_eth2077_module r))); [| |by rewrite Ht].
    - by intros x y [->%(cmp_eq bytes_cmp) [->%(cmp_eq bytes_cmp) _]%then_with_eq]%then_with_eq.
    - by rewrite <- list_fmap_compose. }
  unfold port_compute_stats in *. cbn [pt_avg_effort_days] in Havg.
  rewrite Havg, !domain_counts_exact, !phase_counts_exact, !ta_verified_exact, !ta_benchmarked_exact, !ta_integrated_exact, Hlen, Hnil, !Hcount.
  assert ((λ d, (d, domain_count items1 d)) <$> StrawmapDomain_ALL = (λ d, (d, domain_count items2 d)) <$> StrawmapDomain_ALL) as ->
    by (apply list_fmap_ext; intros ? d _; f_equal; apply Hcount).
  assert ((λ p, (p, phase_count items1 p)) <$> PortingPhase_ALL = (λ p, (p, phase_count items2 p)) <$> PortingPhase_ALL) as ->
    by (apply list_fmap_ext; intros ? p _; f_equal; apply Hcount).
  unfold port_compute_commitment, port_payload. by rewrite Hitems, Htasks, Hlen, Hlent.
Qed.

Definition example_item (id : string) (effort : f64) : StrawmapItem :=
  {| si_id := str id; si_strawmap_ref := []; si_title := []; si_domain := Execution; si_phase := Verified; si_priority := 1;
     si_estimated_effort_days := effort; si_assigned_to := None; si_dependencies := []; si_notes := [] |}.
(** The average is summed in the order of the items: listing the same items in another order
    changes its last bit, and with it the commitment that sorts them. *)
Lemma port_average_depends_on_order :
  let items1 := [example_item "a" (dec 1 10); example_item "b" (dec 2 10); example_item "c" (dec 3 10)] in
  let items2 := [example_item "c" (dec 3 10); example_item "b" (dec 2 10); example_item "a" (dec 1 10)] in
  let bits items := pp_avg_effort_days_bits (port_payload items [] [] []
    {| dv_verified_count := 0; dv_benchmarked_count := 0; dv_integrated_count := 0;
       dv_avg_effort_days := pt_avg_effort_days (@port_compute_stats id (λ _, []) items []); dv_completion_pct := f64_zero |}) in
  items1 ≡ₚ items2 ∧ bits items1 ≠ bits items2.
Proof.
  cbv zeta. split; [|by vm_compute]. apply (Permutation_rev [_; _; _]).
Qed.
Lemma port_stats_exact_witness :
  is_phase_a_complete [example_item "a" f64_zero] = true ∧
  pt_verified_count (@port_compute_stats id (λ _, []) [example_item "a" f64_zero] []) = 1.
Proof.
  destruct (@port_stats_exact id (λ _, []) [example_item "a" f64_zero] [] ltac:(discriminate))
    as (_ & _ & _ & _ & _ & _ & _ & _ & Hdone).
  split; [reflexivity|]. transitivity (len [example_item "a" f64_zero]); [|reflexivity]. apply Hdone. reflexivity.
Defined.
Lemma port_commitment_order_witness :
  @port_compute_stats id (λ _, []) [example_item "a" (int 1); example_item "b" (int 2)] [] =
  @port_compute_stats id (λ _, []) [example_item "b" (int 2); example_item "a" (int 1)] [].
Proof.
  apply (@port_commitment_order id (λ _, [])); [|constructor|apply Permutation_swap|constructor|reflexivity].
  apply (bool_decide_unpack _). by vm_compute.
Defined.

End Port.

(** ** The companion document ([strawmap_companion.rs]) *)

Module Companion.

(* eth2077-types/src/strawmap_companion.rs:8-16 DocumentSection *)
Inductive DocumentSection :=
| Overview | ExecutionUpgrades | ConsensusChanges | DataLayer | Cryptography | Networking | Governance.
(* eth2077-types/src/strawmap_companion.rs:18-28 DocumentSection::rank *)
Definition DocumentSection_rank (s : DocumentSection) : Z :=
  match s with
  | Overview => 0 | ExecutionUpgrades => 1 | ConsensusChanges => 2 | DataLayer => 3 | Cryptography => 4 | Networking => 5
  | Governance => 6
  end.
(* eth2077-types/src/strawmap_companion.rs:31-37 ExtractionStatus *)
Inductive ExtractionStatus := Identified | Extracted | Validated | Assigned | Completed.
#[export] Instance ExtractionStatus_eq_dec : EqDecision ExtractionStatus.
Proof. solve_decision. Defined.
(* eth2077-types/src/strawmap_companion.rs:39-45 ExtractionStatus::ORDERED *)
Definition ExtractionStatus_ORDERED : list ExtractionStatus := [Identified; Extracted; Validated; Assigned; Completed].
(* eth2077-types/src/strawmap_companion.rs:46-54 ExtractionStatus::rank *)
Definition ExtractionStatus_rank (s : ExtractionStatus) : nat :=
  match s with Identified => 0 | Extracted => 1 | Validated => 2 | Assigned => 3 | Completed => 4 end.
(* eth2077-types/src/strawmap_companion.rs:57-63 UpgradeComplexity *)
Inductive UpgradeComplexity := Trivial | Simple | Moderate | Complex | Epic.
#[export] Instance UpgradeComplexity_eq_dec : EqDecision UpgradeComplexity.
Proof. solve_decision. Defined.
(* eth2077-types/src/strawmap_companion.rs:65-71 UpgradeComplexity::ORDERED *)
Definition UpgradeComplexity_ORDERED : list UpgradeComplexity := [Trivial; Simple; Moderate; Complex; Epic].
(* eth2077-types/src/strawmap_companion.rs:72-80 UpgradeComplexity::rank *)
Definition UpgradeComplexity_rank (c : UpgradeComplexity) : nat :=
  match c with Trivial => 0 | Simple => 1 | Moderate => 2 | Complex => 3 | Epic => 4 end.
(* eth2077-types/src/strawmap_companion.rs:83-88 GateType *)
Inductive GateType := ProofGate | BenchGate | ReviewGate | IntegrationGate.
#[export] Instance GateType_eq_dec : EqDecision GateType.
Proof. solve_decision. Defined.
(* eth2077-types/src/strawmap_companion.rs:90-95 GateType::ORDERED *)
Definition GateType_ORDERED : list GateType := [ProofGate; BenchGate; ReviewGate; IntegrationGate].
(* eth2077-types/src/strawmap_companion.rs:96-103 GateType::rank *)
Definition GateType_rank (g : GateType) : nat :=
  match g with ProofGate => 0 | BenchGate => 1 | ReviewGate => 2 | IntegrationGate => 3 end.
(* eth2077-types/src/strawmap_companion.rs:106-113 CompanionSection *)
Record CompanionSection := {
  cs_section : DocumentSection;
  cs_title : Str;
  cs_content_hash : list Z;
  cs_item_count : Z;
  cs_last_synced_unix : Z;
  cs_source_url : Str;
}.
(* eth2077-types/src/strawmap_companion.rs:115-127 UpgradeItem *)
Record UpgradeItem := {
  ui_id : Str;
  ui_section : DocumentSection;
  ui_title : Str;
  ui_description : Str;
  ui_complexity : UpgradeComplexity;
  ui_status : ExtractionStatus;
  ui_linked_eips : list Z;
  ui_gates_required : list GateType;
  ui_gates_passed : list GateType;
  ui_assigned_to : option Str;
  ui_eth2077_ticket_id : option Str;
}.
(* eth2077-types/src/strawmap_companion.rs:129-137 CompanionMirror *)
Record CompanionMirror := {
  cm_id : Str;
  cm_source_url : Str;
  cm_mirrored_at_unix : Z;
  cm_sections : list CompanionSection;
  cm_total_items_extracted : Z;
  cm_document_hash : list Z;
  cm_version : Z;
}.
(* eth2077-types/src/strawmap_companion.rs:139-147 StrawmapCompanionConfig *)
Record StrawmapCompanionConfig := {
  co_source_url : Str;
  co_sync_interval_hours : Z;
  co_auto_extract : bool;
  co_required_gates : list GateType;
  co_min_review_count : Z;
  co_complexity_threshold_for_proof : UpgradeComplexity;
  co_max_open_items : Z;
}.
(* eth2077-types/src/strawmap_companion.rs:154-163 StrawmapCompanionStats *)
Record StrawmapCompanionStats := {
  ct_total_sections : Z;
  ct_total_items : Z;
  ct_items_by_status : list (ExtractionStatus * Z);
  ct_items_by_complexity : list (UpgradeComplexity * Z);
  ct_gates_completion_rate : f64;
  ct_avg_gates_per_item : f64;
  ct_completion_pct : f64;
  ct_commitment : list Z;
}.
(* eth2077-types/src/strawmap_companion.rs:165-179 StrawmapCompanionConfig::default *)
Definition StrawmapCompanionConfig_default : StrawmapCompanionConfig :=
  {| co_source_url := []; co_sync_interval_hours := 24; co_auto_extract := true;
     co_required_gates := [ProofGate; BenchGate; ReviewGate]; co_min_review_count := 2;
     co_complexity_threshold_for_proof := Complex; co_max_open_items := 50 |}.

(** [flags[index] = true] for each gate: the flags as the set of the gates seen. *)
(* eth2077-types/src/strawmap_companion.rs:497-507 has_duplicate_gate_types *)
Fixpoint has_duplicate_after (seen : list bool) (gates : list GateType) : bool :=
  match gates with
  | [] => false
  | gate :: gates =>
      if default false (seen !! GateType_rank gate) then true
      else has_duplicate_after (<[GateType_rank gate := true]> seen) gates
  end.
(* eth2077-types/src/strawmap_companion.rs:497-507 has_duplicate_gate_types *)
Definition has_duplicate_gate_types (gates : list GateType) : bool := has_duplicate_after (replicate 4 false) gates.
(* eth2077-types/src/strawmap_companion.rs:508-518 dedup_and_sort_gates *)
Definition dedup_and_sort_gates (gates : list GateType) : list GateType :=
  let flags := foldl (λ flags gate, <[GateType_rank gate := true]> flags) (replicate 4 false) gates in
  filter (λ gate, default false (flags !! GateType_rank gate) = true) GateType_ORDERED.
(* eth2077-types/src/strawmap_companion.rs:519-524 sorted_unique_u64 *)
Definition sorted_unique_u64 {SU : SortUnstable} (values : list Z) : list Z := dedup (sort_unstable_by Z.compare values).
(* eth2077-types/src/strawmap_companion.rs:525-531 ratio_or_zero *)
Definition ratio_or_zero (numerator denominator : Z) : f64 :=
  if denominator =? 0 then f64_zero else f64_div (f64_of_u64 numerator) (f64_of_u64 denominator).
(* eth2077-types/src/strawmap_companion.rs:532-534 is_zero_32 *)
Definition is_zero_32 (bytes : list Z) : bool := forallb (λ byte, byte =? 0) bytes.

(** A prefix of a string. *)
Definition begins (p : string) (s : Str) : bool := bool_decide (is_Some (strip_prefix (str p) s)).
(* eth2077-types/src/strawmap_companion.rs:182-266 StrawmapCompanionConfig::validate *)
Definition StrawmapCompanionConfig_validate (c : StrawmapCompanionConfig) : list FieldError :=
  let source := trim (co_source_url c) in
  (if bool_decide (source = []) then [field_error "source_url" "must not be empty"]
   else push_if (negb (begins "http://" source) && negb (begins "https://" source))
          (field_error "source_url" "must start with http:// or https://")) ++
  push_if (co_sync_interval_hours c =? 0) (field_error "sync_interval_hours" "must be greater than zero") ++
  push_if (744 <? co_sync_interval_hours c) (field_error "sync_interval_hours" "must not exceed 744 hours (31 days)") ++
  push_if (bool_decide (co_required_gates c = [])) (field_error "required_gates" "must include at least one gate") ++
  push_if (has_duplicate_gate_types (co_required_gates c)) (field_error "required_gates" "must not contain duplicate entries") ++
  push_if (co_min_review_count c =? 0) (field_error "min_review_count" "must be greater than zero") ++
  push_if (64 <? co_min_review_count c) (field_error "min_review_count" "is too high; expected <= 64") ++
  push_if (bool_decide (ReviewGate ∈ co_required_gates c) && (co_min_review_count c <? 2))
    (field_error "min_review_count" "must be at least 2 when ReviewGate is required") ++
  push_if (co_max_open_items c =? 0) (field_error "max_open_items" "must be greater than zero") ++
  push_if (100000 <? co_max_open_items c) (field_error "max_open_items" "is too high; expected <= 100000") ++
  push_if ((0 <? co_max_open_items c) && (co_max_open_items c <? co_min_review_count c))
    (field_error "max_open_items" "must be at least min_review_count") ++
  push_if (bool_decide (ProofGate ∈ co_required_gates c) && bool_decide (co_complexity_threshold_for_proof c = Trivial))
    (field_error "complexity_threshold_for_proof" "must be at least Simple when ProofGate is required").
(* eth2077-types/src/strawmap_companion.rs:267-286 StrawmapCompanionConfig::needs_sync *)
Definition needs_sync (c : StrawmapCompanionConfig) (mirror : CompanionMirror) (now_unix : Z) : bool :=
  if bool_decide (trim (co_source_url c) ≠ trim (cm_source_url mirror)) then true else
  if co_sync_interval_hours c =? 0 then true else
  if bool_decide (cm_sections mirror = []) && (cm_total_items_extracted mirror =? 0) then true else
  if is_zero_32 (cm_document_hash mirror) then true else
  if now_unix <=? cm_mirrored_at_unix mirror then false else
  let elapsed := now_unix - cm_mirrored_at_unix mirror in
  let interval := u64_saturating_mul (co_sync_interval_hours c) 3600 in
  interval <=? elapsed.

(** *** Statistics and their commitment *)

(** What the loop over the items accumulates. *)
(* eth2077-types/src/strawmap_companion.rs:291-295 compute_stats *)
Record CompanionTally := {
  ta_status_counts : list Z;
  ta_complexity_counts : list Z;
  ta_required : Z;
  ta_passed : Z;
  ta_completed : Z;
}.
(* eth2077-types/src/strawmap_companion.rs:302-309 compute_stats *)
Definition passed_required (item : UpgradeItem) : Z :=
  let passed := dedup_and_sort_gates (ui_gates_passed item) in
  len (filter (λ gate, gate ∈ passed) (dedup_and_sort_gates (ui_gates_required item))).
(* eth2077-types/src/strawmap_companion.rs:296-310 compute_stats *)
Definition tally_upgrade (t : CompanionTally) (item : UpgradeItem) : CompanionTally :=
  {| ta_status_counts := count_slot (ta_status_counts t) (ExtractionStatus_rank (ui_status item));
     ta_complexity_counts := count_slot (ta_complexity_counts t) (UpgradeComplexity_rank (ui_complexity item));
     ta_required := ta_required t + len (dedup_and_sort_gates (ui_gates_required item));
     ta_passed := ta_passed t + passed_required item;
     ta_completed := if bool_decide (ui_status item = Completed) then ta_completed t + 1 else ta_completed t |}.
(* eth2077-types/src/strawmap_companion.rs:291-310 compute_stats *)
Definition tally_upgrades (items : list UpgradeItem) : CompanionTally :=
  foldl tally_upgrade
    {| ta_status_counts := replicate 5 0; ta_complexity_counts := replicate 5 0; ta_required := 0; ta_passed := 0;
       ta_completed := 0 |} items.
(** [ORDERED.iter().enumerate()]: the index of a key is its place. *)
Definition enumerated {K} (keys : list K) (counts : list Z) : list (K * Z) :=
  imap (λ index key, (key, default 0 (counts !! index))) keys.
(** The views that are hashed keep the fields of what they show, in a canonical form; the view
    of the statistics leaves out the commitment, which is still zero. *)
(* eth2077-types/src/strawmap_companion.rs:388-392 CommitmentPayload *)
Record CompanionPayload := { cp_mirror : CompanionMirror; cp_items : list UpgradeItem; cp_stats : StrawmapCompanionStats }.
(** [serde_json::to_vec(&payload).unwrap_or_default()], without the commitment. *)
Class CompanionJson := companion_json : CompanionPayload → list Z.

(* eth2077-types/src/strawmap_companion.rs:424-433 canonicalize_mirror *)
Definition section_cmp (left right : CompanionSection) : comparison :=
  then_with (Z.compare (DocumentSection_rank (cs_section left)) (DocumentSection_rank (cs_section right)))
    (then_with (bytes_cmp (cs_title left) (cs_title right))
      (then_with (bytes_cmp (cs_source_url left) (cs_source_url right))
        (then_with (bytes_cmp (cs_content_hash left) (cs_content_hash right))
          (then_with (Z.compare (cs_item_count left) (cs_item_count right))
            (Z.compare (cs_last_synced_unix left) (cs_last_synced_unix right)))))).
(* eth2077-types/src/strawmap_companion.rs:411-443 canonicalize_mirror *)
Definition canonicalize_mirror (mirror : CompanionMirror) : CompanionMirror :=
  {| cm_id := cm_id mirror; cm_source_url := cm_source_url mirror; cm_mirrored_at_unix := cm_mirrored_at_unix mirror;
     cm_sections := sort_by section_cmp (cm_sections mirror);
     cm_total_items_extracted := cm_total_items_extracted mirror; cm_document_hash := cm_document_hash mirror;
     cm_version := cm_version mirror |}.
(* eth2077-types/src/strawmap_companion.rs:447-459 canonicalize_items *)
Definition canonical_item {SU : SortUnstable} (item : UpgradeItem) : UpgradeItem :=
  {| ui_id := ui_id item; ui_section := ui_section item; ui_title := ui_title item; ui_description := ui_description item;
     ui_complexity := ui_complexity item; ui_status := ui_status item; ui_linked_eips := sorted_unique_u64 (ui_linked_eips item);
     ui_gates_required := dedup_and_sort_gates (ui_gates_required item);
     ui_gates_passed := dedup_and_sort_gates (ui_gates_passed item); ui_assigned_to := ui_assigned_to item;
     ui_eth2077_ticket_id := ui_eth2077_ticket_id item |}.
(* eth2077-types/src/strawmap_companion.rs:461-469 canonicalize_items *)
Definition upgrade_cmp (left right : UpgradeItem) : comparison :=
  then_with (bytes_cmp (ui_id left) (ui_id right))
    (then_with (Z.compare (DocumentSection_rank (ui_section left)) (DocumentSection_rank (ui_section right)))
      (then_with (bytes_cmp (ui_title left) (ui_title right))
        (then_with (bytes_cmp (ui_description left) (ui_description right))
          (then_with (Z.compare (Z.of_nat (UpgradeComplexity_rank (ui_complexity left))) (Z.of_nat (UpgradeComplexity_rank (ui_complexity right))))
            (Z.compare (Z.of_nat (ExtractionStatus_rank (ui_status left))) (Z.of_nat (ExtractionStatus_rank (ui_status right)))))))).
(* eth2077-types/src/strawmap_companion.rs:444-471 canonicalize_items *)
Definition canonicalize_items {SU : SortUnstable} (items : list UpgradeItem) : list UpgradeItem :=
  sort_by upgrade_cmp (canonical_item <$> items).
(* eth2077-types/src/strawmap_companion.rs:472-476 canonicalize_stats *)
Definition rank_cmp {K} (rank : K → nat) (left right : K * Z) : comparison :=
  Z.compare (Z.of_nat (rank left.1)) (Z.of_nat (rank right.1)).
(* eth2077-types/src/strawmap_companion.rs:472-486 canonicalize_stats *)
Definition canonicalize_stats (stats : StrawmapCompanionStats) : StrawmapCompanionStats :=
  {| ct_total_sections := ct_total_sections stats; ct_total_items := ct_total_items stats;
     ct_items_by_status := sort_by (rank_cmp ExtractionStatus_rank) (ct_items_by_status stats);
     ct_items_by_complexity := sort_by (rank_cmp UpgradeComplexity_rank) (ct_items_by_complexity stats);
     ct_gates_completion_rate := ct_gates_completion_rate stats; ct_avg_gates_per_item := ct_avg_gates_per_item stats;
     ct_completion_pct := ct_completion_pct stats; ct_commitment := ct_commitment stats |}.
(* eth2077-types/src/strawmap_companion.rs:393-410 compute_commitment_payload *)
Definition compute_commitment_payload {SU : SortUnstable} `{Sha256} `{CompanionJson} (mirror : CompanionMirror)
    (items : list UpgradeItem) (stats : StrawmapCompanionStats) : list Z :=
  sha256 (companion_json {| cp_mirror := canonicalize_mirror mirror; cp_items := canonicalize_items items;
                            cp_stats := canonicalize_stats stats |}).
(* eth2077-types/src/strawmap_companion.rs:289-337 compute_stats *)
Definition base_stats (mirror : CompanionMirror) (items : list UpgradeItem) : StrawmapCompanionStats :=
  let t := tally_upgrades items in
  {| ct_total_sections := len (cm_sections mirror); ct_total_items := len items;
     ct_items_by_status := enumerated ExtractionStatus_ORDERED (ta_status_counts t);
     ct_items_by_complexity := enumerated UpgradeComplexity_ORDERED (ta_complexity_counts t);
     ct_gates_completion_rate := ratio_or_zero (ta_passed t) (ta_required t);
     ct_avg_gates_per_item := ratio_or_zero (ta_required t) (len items);
     ct_completion_pct :=
       if len items =? 0 then f64_zero
       else f64_div (f64_mul (int 100) (f64_of_u64 (ta_completed t))) (f64_of_u64 (len items));
     ct_commitment := replicate 32 0 |}.
(* eth2077-types/src/strawmap_companion.rs:288-343 compute_stats *)
Definition companion_compute_stats {SU : SortUnstable} `{Sha256} `{CompanionJson} (mirror : CompanionMirror)
    (items : list UpgradeItem) : StrawmapCompanionStats :=
  let base := base_stats mirror items in
  {| ct_total_sections := ct_total_sections base; ct_total_items := ct_total_items base;
     ct_items_by_status := ct_items_by_status base; ct_items_by_complexity := ct_items_by_complexity base;
     ct_gates_completion_rate := ct_gates_completion_rate base; ct_avg_gates_per_item := ct_avg_gates_per_item base;
     ct_completion_pct := ct_completion_pct base; ct_commitment := compute_commitment_payload mirror items base |}.

(** *** Gates *)

Lemma GateType_rank_bound g : (GateType_rank g < 4)%nat.
Proof. destruct g; cbn; lia. Qed.
#[export] Instance GateType_rank_inj : Inj (=) (=) GateType_rank.
Proof. by intros [] []. Qed.
Definition flagged (flags : list bool) (g : GateType) : Prop := default false (flags !! GateType_rank g) = true.
Lemma flagged_insert flags g h :
  length flags = 4%nat → flagged (<[GateType_rank g := true]> flags) h ↔ g = h ∨ flagged flags h.
Proof.
  intros Hlen. unfold flagged. pose proof (GateType_rank_bound g). destruct (decide (g = h)) as [->|Hne].
  - rewrite list_lookup_insert_eq by lia. cbn. tauto.
  - rewrite list_lookup_insert_ne by (intros ?%(inj _); done). naive_solver.
Qed.
Lemma no_flags g : ¬ flagged (replicate 4 false) g.
Proof. by destruct g. Qed.
Lemma has_duplicate_after_exact seen gates :
  length seen = 4%nat →
  has_duplicate_after seen gates = false ↔ NoDup gates ∧ Forall (λ g, ¬ flagged seen g) gates.
Proof.
  revert seen. induction gates as [|g gates IH]; intros seen Hlen; cbn [has_duplicate_after].
  - split; [|done]. split; [apply NoDup_nil|]; constructor.
  - rewrite NoDup_cons, Forall_cons. destruct (default false (seen !! GateType_rank g)) eqn:Hg.
    + split; [done|]. intros [_ [Hn _]]. by destruct Hn.
    + rewrite IH by (by rewrite length_insert). setoid_rewrite flagged_insert; [|done]. rewrite !Forall_forall.
      assert (¬ flagged seen g) by (unfold flagged; by rewrite Hg). split; [|naive_solver].
      intros [Hnd Hall]. split; [split; [intros Hin; by destruct (Hall g Hin); left|done]|]. split; [done|].
      intros x Hx Hf. destruct (Hall x Hx). by right.
Qed.
Lemma has_duplicate_exact gates : has_duplicate_gate_types gates = false ↔ NoDup gates.
Proof.
  unfold has_duplicate_gate_types. rewrite has_duplicate_after_exact by done. split; [by intros []|]. intros Hnd.
  split; [done|]. apply Forall_forall. intros g _. apply no_flags.
Qed.
Lemma flags_exact gates flags g :
  length flags = 4%nat →
  flagged (foldl (λ flags gate, <[GateType_rank gate := true]> flags) flags gates) g ↔ g ∈ gates ∨ flagged flags g.
Proof.
  revert flags. induction gates as [|h gates IH]; intros flags Hlen; cbn [foldl]; [set_solver|].
  rewrite IH by (by rewrite length_insert). rewrite flagged_insert, elem_of_cons by done. naive_solver.
Qed.
(** The gates without repetition, in the order of the kinds: only the set of them counts. *)
Lemma dedup_and_sort_gates_exact gates : dedup_and_sort_gates gates = filter (.∈ gates) GateType_ORDERED.
Proof.
  unfold dedup_and_sort_gates. apply list_filter_iff. intros g. fold (flagged
    (foldl (λ flags gate, <[GateType_rank gate := true]> flags) (replicate 4 false) gates) g).
  rewrite flags_exact by done. pose proof (no_flags g). tauto.
Qed.
Lemma dedup_and_sort_gates_ext gates1 gates2 :
  (∀ g, g ∈ gates1 ↔ g ∈ gates2) → dedup_and_sort_gates gates1 = dedup_and_sort_gates gates2.
Proof. intros Hg. rewrite !dedup_and_sort_gates_exact. by apply list_filter_iff. Qed.
Lemma dedup_and_sort_gates_length gates : 0 <= len (dedup_and_sort_gates gates) <= 4.
Proof.
  rewrite dedup_and_sort_gates_exact. pose proof (length_filter (.∈ gates) GateType_ORDERED). unfold len.
  change (length GateType_ORDERED) with 4%nat in *. lia.
Qed.

(** *** Validation and synchronisation *)

(** A configuration is accepted exactly when its source is a web address, it has gates without
    repetition, and its numbers are in their ranges: a review gate asks for two reviews and
    a proof gate for a threshold above trivial. *)
Lemma validate_companion_exact c :
  0 <= co_sync_interval_hours c → 0 <= co_min_review_count c → 0 <= co_max_open_items c →
  StrawmapCompanionConfig_validate c = [] ↔
  (begins "http://" (trim (co_source_url c)) = true ∨ begins "https://" (trim (co_source_url c)) = true) ∧
  1 <= co_sync_interval_hours c <= 744 ∧ co_required_gates c ≠ [] ∧ NoDup (co_required_gates c) ∧
  1 <= co_min_review_count c <= 64 ∧ (ReviewGate ∈ co_required_gates c → 2 <= co_min_review_count c) ∧
  co_min_review_count c <= co_max_open_items c <= 100000 ∧
  (ProofGate ∈ co_required_gates c → co_complexity_threshold_for_proof c ≠ Trivial).
Proof.
  intros Hs Hr Ho. unfold StrawmapCompanionConfig_validate. rewrite !app_nil, !push_if_nil, has_duplicate_exact.
  assert (Hsrc : (if bool_decide (trim (co_source_url c) = []) then [field_error "source_url" "must not be empty"]
    else push_if (negb (begins "http://" (trim (co_source_url c))) && negb (begins "https://" (trim (co_source_url c))))
      (field_error "source_url" "must start with http:// or https://")) = [] ↔
    (begins "http://" (trim (co_source_url c)) = true ∨ begins "https://" (trim (co_source_url c)) = true)).
  { case_bool_decide as Hn; [rewrite Hn; split; [done|by intros [?|?]]|].
    rewrite push_if_nil, andb_false_iff, !negb_false_iff. done. }
  rewrite Hsrc, !andb_false_iff, !bool_decide_eq_false, !Z.eqb_neq, !Z.ltb_ge.
  destruct (decide (ReviewGate ∈ co_required_gates c)), (decide (ProofGate ∈ co_required_gates c)),
    (decide (co_complexity_threshold_for_proof c = Trivial)); intuition lia.
Qed.
(** A mirror need not be synchronised exactly when it mirrors the configured source, is not
    empty, has a document, and is not older than the interval; a clock that is behind the
    mirror's counts as fresh. *)
Lemma needs_sync_exact c mirror now :
  needs_sync c mirror now = false ↔
  trim (co_source_url c) = trim (cm_source_url mirror) ∧ co_sync_interval_hours c ≠ 0 ∧
  (cm_sections mirror ≠ [] ∨ cm_total_items_extracted mirror ≠ 0) ∧ Exists (λ b, b ≠ 0) (cm_document_hash mirror) ∧
  (now <= cm_mirrored_at_unix mirror ∨ now - cm_mirrored_at_unix mirror < u64_saturating_mul (co_sync_interval_hours c) 3600).
Proof.
  unfold needs_sync, is_zero_32.
  assert (Hz : forallb (λ byte, byte =? 0) (cm_document_hash mirror) = false ↔ Exists (λ b, b ≠ 0) (cm_document_hash mirror)).
  { rewrite <- not_true_iff_false, forallb_forall. split.
    - intros Hn. apply not_Forall_Exists; [apply _|]. intros Hall. apply Hn. intros b Hb%list_elem_of_In.
      rewrite Forall_forall in Hall. by apply Z.eqb_eq, Hall.
    - intros (b & Hb & Hne)%Exists_exists Hall. apply list_elem_of_In, Hall in Hb. by bool_to_prop. }
  rewrite <- Hz. case_bool_decide as Hsrc; [split; [done|tauto]|].
  destruct (Z.eqb_spec (co_sync_interval_hours c) 0); [split; [done|tauto]|].
  destruct (bool_decide (cm_sections mirror = []) && (cm_total_items_extracted mirror =? 0)) eqn:He.
  { bool_to_prop. split; [done|tauto]. }
  apply andb_false_iff in He. rewrite bool_decide_eq_false, Z.eqb_neq in He.
  destruct (forallb _ _); [split; [done|intros (_ & _ & _ & [=] & _)]|].
  destruct (Z.leb_spec now (cm_mirrored_at_unix mirror)); [tauto|]. rewrite Z.leb_gt. intuition lia.
Qed.
(** Once a mirror must be synchronised it stays so until it is. *)
Lemma needs_sync_monotone c mirror now now' :
  now <= now' → needs_sync c mirror now = true → needs_sync c mirror now' = true.
Proof.
  intros Hle. rewrite <- !not_false_iff_true, !needs_sync_exact. intros Hn (?&?&?&?&Hage). apply Hn. do 4 (split; [done|]). lia.
Qed.

(** *** Statistics *)

Definition status_count (items : list UpgradeItem) (s : ExtractionStatus) : Z := len (filter (λ item, ui_status item = s) items).
Definition complexity_count (items : list UpgradeItem) (c : UpgradeComplexity) : Z :=
  len (filter (λ item, ui_complexity item = c) items).
#[export] Instance ExtractionStatus_rank_inj : Inj (=) (=) ExtractionStatus_rank.
Proof. by intros [] []. Qed.
#[export] Instance UpgradeComplexity_rank_inj : Inj (=) (=) UpgradeComplexity_rank.
Proof. by intros [] []. Qed.
Lemma status_counts_exact items :
  enumerated ExtractionStatus_ORDERED (ta_status_counts (tally_upgrades items)) =
  (λ s, (s, status_count items s)) <$> ExtractionStatus_ORDERED.
Proof.
  unfold tally_upgrades.
  rewrite (foldl_field ta_status_counts _ (λ counts i, count_slot counts (ExtractionStatus_rank (ui_status i)))) by done.
  unfold enumerated, status_count. cbn [ExtractionStatus_ORDERED imap fmap list_fmap compose].
  repeat (erewrite (count_slots (λ i, ExtractionStatus_rank (ui_status i)) items) by reflexivity).
  cbn [default from_option id]. rewrite !Z.add_0_l.
  by rewrite <- !(filter_index_eq ExtractionStatus_rank ui_status).
Qed.
Lemma complexity_counts_exact items :
  enumerated UpgradeComplexity_ORDERED (ta_complexity_counts (tally_upgrades items)) =
  (λ c, (c, complexity_count items c)) <$> UpgradeComplexity_ORDERED.
Proof.
  unfold tally_upgrades.
  rewrite (foldl_field ta_complexity_counts _ (λ counts i, count_slot counts (UpgradeComplexity_rank (ui_complexity i)))) by done.
  unfold enumerated, complexity_count. cbn [UpgradeComplexity_ORDERED imap fmap list_fmap compose].
  repeat (erewrite (count_slots (λ i, UpgradeComplexity_rank (ui_complexity i)) items) by reflexivity).
  cbn [default from_option id]. rewrite !Z.add_0_l.
  by rewrite <- !(filter_index_eq UpgradeComplexity_rank ui_complexity).
Qed.
Lemma foldl_Zsum {A} (f : A → Z) (l : list A) n : foldl (λ n x, n + f x) n l = n + Zsum (f <$> l).
Proof. revert n. induction l as [|x l IH]; intros n; cbn; [lia|]. rewrite IH. unfold Zsum. cbn. lia. Qed.
Lemma ta_required_exact items :
  ta_required (tally_upgrades items) = Zsum ((λ i, len (dedup_and_sort_gates (ui_gates_required i))) <$> items).
Proof.
  unfold tally_upgrades. rewrite (foldl_field ta_required _ (λ n i, n + len (dedup_and_sort_gates (ui_gates_required i)))) by done.
  by rewrite foldl_Zsum.
Qed.
Lemma ta_passed_exact items : ta_passed (tally_upgrades items) = Zsum (passed_required <$> items).
Proof. unfold tally_upgrades. rewrite (foldl_field ta_passed _ (λ n i, n + passed_required i)) by done. by rewrite foldl_Zsum. Qed.
Lemma ta_completed_exact items : ta_completed (tally_upgrades items) = status_count items Completed.
Proof.
  unfold tally_upgrades, status_count.
  rewrite (foldl_field ta_completed _ (λ n i, if bool_decide (ui_status i = Completed) then n + 1 else n)) by done.
  rewrite foldl_count. cbn [ta_completed]. rewrite Z.add_0_l. f_equal. apply list_filter_iff. intros i. apply bool_decide_eq_true.
Qed.
Lemma gates_bounds items :
  0 <= ta_passed (tally_upgrades items) <= ta_required (tally_upgrades items) ∧
  ta_required (tally_upgrades items) <= 4 * len items.
Proof.
  rewrite ta_required_exact, ta_passed_exact. induction items as [|i items IH]; [by vm_compute|].
  rewrite !fmap_cons. assert (len (i :: items) = len items + 1) by (unfold len; cbn [length]; lia). cbn [Zsum foldr]. pose proof (dedup_and_sort_gates_length (ui_gates_required i)).
  assert (0 <= passed_required i <= len (dedup_and_sort_gates (ui_gates_required i))).
  { unfold passed_required, len. split; [lia|]. apply Nat2Z.inj_le, length_filter. }
  lia.
Qed.
Lemma ratio_between n total count :
  0 <= n <= 2 ^ 53 → 0 <= total <= 2 ^ 53 → 0 <= count <= 2 ^ 53 → total <= n * count →
  f64_le f64_zero (ratio_or_zero total count) = true ∧ f64_le (ratio_or_zero total count) (int n) = true.
Proof.
  intros Hn Ht Hc Hle. unfold ratio_or_zero. destruct (Z.eqb_spec count 0) as [|Hne].
  - destruct (f64_of_u64_exact n) as [Hf Hu]; [lia|]. rewrite !f64_le_units by done. change (units f64_zero) with 0. rewrite Hu.
    split; [done|]. assert (0 < 2 ^ 1074) by by apply Z.pow_pos_nonneg. nia.
  - apply (quotient_between n); lia.
Qed.

(** the statistics of a companion of up to 2^46 items: the items by status and by
    complexity are counted exactly and sum up to the total; the rate of the gates passed is
    between 0 and 1, the gates of an item between 0 and 4, the completion between 0 and 100
    percent. *)
Theorem companion_stats_exact {SU : SortUnstable} `{Sha256} `{CompanionJson} (mirror : CompanionMirror) (items : list UpgradeItem) :
  len items <= 2 ^ 46 →
  let s := companion_compute_stats mirror items in
  ct_items_by_status s = (λ st, (st, status_count items st)) <$> ExtractionStatus_ORDERED ∧
  ct_items_by_complexity s = (λ c, (c, complexity_count items c)) <$> UpgradeComplexity_ORDERED ∧
  Zsum (ct_items_by_status s).*2 = ct_total_items s ∧ Zsum (ct_items_by_complexity s).*2 = ct_total_items s ∧
  f64_le f64_zero (ct_gates_completion_rate s) = true ∧ f64_le (ct_gates_completion_rate s) (int 1) = true ∧
  f64_le f64_zero (ct_avg_gates_per_item s) = true ∧ f64_le (ct_avg_gates_per_item s) (int 4) = true ∧
  f64_le f64_zero (ct_completion_pct s) = true ∧ f64_le (ct_completion_pct s) (int 100) = true.
Proof.
  intros Hlen. cbn [companion_compute_stats base_stats ct_items_by_status ct_items_by_complexity ct_total_items
    ct_gates_completion_rate ct_avg_gates_per_item ct_completion_pct].
  rewrite status_counts_exact, complexity_counts_exact, ta_completed_exact.
  destruct (gates_bounds items) as [Hp Hr]. assert (0 <= len items) by (unfold len; lia).
  split; [done|]. split; [done|]. rewrite <- !list_fmap_compose.
  split; [apply (Zsum_counts ui_status); [apply (bool_decide_unpack _); by vm_compute|intros i; destruct (ui_status i); set_solver]|].
  split; [apply (Zsum_counts ui_complexity); [apply (bool_decide_unpack _); by vm_compute|intros i; destruct (ui_complexity i); set_solver]|].
  destruct (ratio_between 1 (ta_passed (tally_upgrades items)) (ta_required (tally_upgrades items))); [lia..|].
  destruct (ratio_between 4 (ta_required (tally_upgrades items)) (len items)); [lia..|].
  do 4 (split; [done|]). destruct (Z.eqb_spec (len items) 0) as [|Hne]; [by vm_compute|]. rewrite f64_mul_comm.
  apply percent_between; [|lia]. unfold status_count, len. pose proof (length_filter (λ i, ui_status i = Completed) items).
  unfold len in *. lia.
Qed.

(** *** The commitment *)

(** Items that differ in the order and the repetitions of their gates and proposals. *)
Record alike (a b : UpgradeItem) : Prop := {
  al_id : ui_id a = ui_id b;
  al_section : ui_section a = ui_section b;
  al_title : ui_title a = ui_title b;
  al_description : ui_description a = ui_description b;
  al_complexity : ui_complexity a = ui_complexity b;
  al_status : ui_status a = ui_status b;
  al_eips : ∀ n, n ∈ ui_linked_eips a ↔ n ∈ ui_linked_eips b;
  al_required : ∀ g, g ∈ ui_gates_required a ↔ g ∈ ui_gates_required b;
  al_passed : ∀ g, g ∈ ui_gates_passed a ↔ g ∈ ui_gates_passed b;
  al_assigned : ui_assigned_to a = ui_assigned_to b;
  al_ticket : ui_eth2077_ticket_id a = ui_eth2077_ticket_id b;
}.
Lemma sorted_unique_ext (SU1 SU2 : SortUnstable) l1 l2 :
  (∀ n, n ∈ l1 ↔ n ∈ l2) → sorted_unique_u64 (SU := SU1) l1 = sorted_unique_u64 (SU := SU2) l2.
Proof.
  assert (Hs : ∀ (SU : SortUnstable) l, StronglySorted Z.lt (sorted_unique_u64 (SU := SU) l)).
  { intros SU l. apply dedup_increasing. assert (Hl : StronglySorted (cmp_le Z.compare) (sort_unstable_by Z.compare l))
      by apply sort_unstable_sorted, _.
    induction Hl as [|x l' _ IH Hx]; constructor; [done|]. eapply Forall_impl; [exact Hx|]. intros y Hy. apply Z.compare_ngt_iff in Hy. lia. }
  intros Hl. apply sorted_lt_unique; [apply Hs..|]. intros n. unfold sorted_unique_u64.
  rewrite !elem_of_dedup, !sort_unstable_perm. apply Hl.
Qed.
Lemma canonical_item_alike (SU1 SU2 : SortUnstable) a b :
  alike a b → canonical_item (SU := SU1) a = canonical_item (SU := SU2) b.
Proof.
  intros []. unfold canonical_item. f_equal; try done; [by apply sorted_unique_ext|by apply dedup_and_sort_gates_ext..].
Qed.
#[export] Instance section_cmp_ord : OrdCmp section_cmp.
Proof.
  split.
  - unfold section_cmp. repeat apply then_with_preorder;
      first [exact (preorder_on (λ s, DocumentSection_rank (cs_section s)) Z.compare)|exact (preorder_on cs_title bytes_cmp)
            |exact (preorder_on cs_source_url bytes_cmp)|exact (preorder_on cs_content_hash bytes_cmp)
            |exact (preorder_on cs_item_count Z.compare)|exact (preorder_on cs_last_synced_unix Z.compare)].
  - intros [] []. unfold section_cmp. rewrite !then_with_eq. cbn.
    intros (Hs%(cmp_eq _) & ?%(cmp_eq _) & ?%(cmp_eq _) & ?%(cmp_eq _) & ?%(cmp_eq _) & ?%(cmp_eq _)).
    assert (cs_section0 = cs_section1) by (by destruct cs_section0, cs_section1). congruence.
Qed.
#[export] Instance upgrade_cmp_preorder : PreorderCmp upgrade_cmp.
Proof.
  unfold upgrade_cmp. repeat apply then_with_preorder;
    first [exact (preorder_on ui_id bytes_cmp)|exact (preorder_on (λ i, DocumentSection_rank (ui_section i)) Z.compare)
          |exact (preorder_on ui_title bytes_cmp)|exact (preorder_on ui_description bytes_cmp)
          |exact (preorder_on (λ i, Z.of_nat (UpgradeComplexity_rank (ui_complexity i))) Z.compare)
          |exact (preorder_on (λ i, Z.of_nat (ExtractionStatus_rank (ui_status i))) Z.compare)].
Qed.
Lemma canonicalize_items_order (SU1 SU2 : SortUnstable) items1 items2 items3 :
  NoDup (ui_id <$> items1) → items1 ≡ₚ items2 → Forall2 alike items2 items3 →
  canonicalize_items (SU := SU1) items1 = canonicalize_items (SU := SU2) items3.
Proof.
  intros Hnd Hp Hall. unfold canonicalize_items.
  assert (canonical_item (SU := SU2) <$> items3 = canonical_item (SU := SU1) <$> items2) as ->.
  { clear -Hall. induction Hall as [|a b l m Hab _ IH]; [done|]. rewrite !fmap_cons, IH. f_equal. symmetry.
    by apply canonical_item_alike. }
  apply (sort_by_distinct _ ui_id); [by intros ?? [->%(cmp_eq bytes_cmp) _]%then_with_eq| |by rewrite Hp].
  by rewrite <- list_fmap_compose.
Qed.
(** What the statistics are made of depends on the items up to order and likeness. *)
Lemma fmap_alike {B} (f : UpgradeItem → B) items2 items3 :
  (∀ a b, alike a b → f a = f b) → Forall2 alike items2 items3 → f <$> items2 = f <$> items3.
Proof. intros Hf. induction 1 as [|a b l k Hab _ IH]; [done|]. rewrite !fmap_cons. f_equal; [by apply Hf|done]. Qed.
Lemma count_alike {K} `{EqDecision K} (f : UpgradeItem → K) k items2 items3 :
  (∀ a b, alike a b → f a = f b) → Forall2 alike items2 items3 →
  len (filter (λ i, f i = k) items2) = len (filter (λ i, f i = k) items3).
Proof.
  intros Hf. unfold len. induction 1 as [|a b l m Hab _ IH]; [done|]. rewrite !filter_cons, (Hf _ _ Hab).
  case_decide; cbn [length]; lia.
Qed.
Lemma base_stats_order mirror1 mirror2 items1 items2 items3 :
  cm_sections mirror1 ≡ₚ cm_sections mirror2 → items1 ≡ₚ items2 → Forall2 alike items2 items3 →
  base_stats mirror1 items1 = base_stats mirror2 items3.
Proof.
  intros Hm Hp Hall. unfold base_stats. rewrite !status_counts_exact, !complexity_counts_exact, !ta_completed_exact,
    !ta_required_exact, !ta_passed_exact.
  assert (len (cm_sections mirror1) = len (cm_sections mirror2)) as -> by (unfold len; by rewrite Hm).
  assert (len items1 = len items3) as -> by (unfold len; by rewrite Hp, (Forall2_length _ _ _ Hall)).
  assert (Hs : ∀ s, status_count items1 s = status_count items3 s).
  { intros s. unfold status_count at 1, len. rewrite Hp. apply (count_alike ui_status s); [by intros ?? []|done]. }
  assert (Hc : ∀ c, complexity_count items1 c = complexity_count items3 c).
  { intros c. unfold complexity_count at 1, len. rewrite Hp. apply (count_alike ui_complexity c); [by intros ?? []|done]. }
  assert (Hz : ∀ f : UpgradeItem → Z, (∀ a b, alike a b → f a = f b) → Zsum (f <$> items1) = Zsum (f <$> items3)).
  { intros f Hf. rewrite <- (fmap_alike f _ _ Hf Hall). clear -Hp. induction Hp; rewrite ?fmap_cons; cbn in *; lia. }
  rewrite Hs, (Hz (λ i, len (dedup_and_sort_gates (ui_gates_required i)))), (Hz passed_required).
  - f_equal; (apply list_fmap_ext; intros ? x _; f_equal; [apply Hs || apply Hc]).
  - intros a b []. unfold passed_required. rewrite (dedup_and_sort_gates_ext (ui_gates_required a) (ui_gates_required b)) by done.
    by rewrite (dedup_and_sort_gates_ext (ui_gates_passed a) (ui_gates_passed b)).
  - intros a b []. by rewrite (dedup_and_sort_gates_ext (ui_gates_required a) (ui_gates_required b)).
Qed.

(** the statistics of a companion and their commitment are of its content: the order of
    the sections and of items with distinct identifiers, the order and the repetitions of an
    item's gates and proposals, and the unstable sort of the machine, do not change them. *)
Theorem companion_commitment_order `{Sha256} `{CompanionJson} (SU1 SU2 : SortUnstable) (mirror : CompanionMirror)
    (sections : list CompanionSection) (items1 items2 items3 : list UpgradeItem) :
  cm_sections mirror ≡ₚ sections → NoDup (ui_id <$> items1) → items1 ≡ₚ items2 → Forall2 alike items2 items3 →
  companion_compute_stats (SU := SU1) mirror items1 =
  companion_compute_stats (SU := SU2)
    {| cm_id := cm_id mirror; cm_source_url := cm_source_url mirror; cm_mirrored_at_unix := cm_mirrored_at_unix mirror;
       cm_sections := sections; cm_total_items_extracted := cm_total_items_extracted mirror;
       cm_document_hash := cm_document_hash mirror; cm_version := cm_version mirror |} items3.
Proof.
  intros Hm Hnd Hp Hall. unfold companion_compute_stats, compute_commitment_payload.
  set (mirror' := {| cm_sections := sections |}).
  rewrite (base_stats_order mirror mirror' items1 items2 items3 Hm Hp Hall).
  rewrite (canonicalize_items_order SU1 SU2 items1 items2 items3 Hnd Hp Hall).
  assert (canonicalize_mirror mirror = canonicalize_mirror mirror') as ->; [|done].
  unfold canonicalize_mirror. cbn [mirror' cm_sections cm_id cm_source_url cm_mirrored_at_unix cm_total_items_extracted
    cm_document_hash cm_version]. by rewrite (sort_by_order section_cmp _ _ Hm).
Qed.

Definition example_upgrade (id : string) (eips : list Z) : UpgradeItem :=
  {| ui_id := str id; ui_section := Overview; ui_title := []; ui_description := []; ui_complexity := Simple;
     ui_status := Completed; ui_linked_eips := eips; ui_gates_required := [ProofGate; ProofGate]; ui_gates_passed := [ProofGate];
     ui_assigned_to := None; ui_eth2077_ticket_id := None |}.
Definition example_mirror : CompanionMirror :=
  {| cm_id := []; cm_source_url := []; cm_mirrored_at_unix := 0; cm_sections := []; cm_total_items_extracted := 0;
     cm_document_hash := []; cm_version := 0 |}.
Lemma companion_stats_exact_witness :
  ct_items_by_complexity (@companion_compute_stats stable_sort_unstable id (λ _, []) example_mirror [example_upgrade "a" []]) =
    [(Trivial, 0); (Simple, 1); (Moderate, 0); (Complex, 0); (Epic, 0)].
Proof.
  destruct (@companion_stats_exact stable_sort_unstable id (λ _, []) example_mirror [example_upgrade "a" []] ltac:(discriminate))
    as (_ & -> & _). reflexivity.
Defined.
Lemma companion_commitment_order_witness :
  @companion_compute_stats stable_sort_unstable id (λ _, []) example_mirror [example_upgrade "a" [2; 1]; example_upgrade "b" []] =
  @companion_compute_stats stable_sort_unstable id (λ _, []) example_mirror [example_upgrade "b" []; example_upgrade "a" [1; 2; 1]].
Proof.
  apply (@companion_commitment_order id (λ _, []) stable_sort_unstable stable_sort_unstable example_mirror []
    [example_upgrade "a" [2; 1]; example_upgrade "b" []] [example_upgrade "b" []; example_upgrade "a" [2; 1]]).
  - constructor.
  - apply (bool_decide_unpack _). by vm_compute.
  - apply Permutation_swap.
  - constructor; [split; done|]. constructor; [|constructor]. split; try done. cbn. set_solver.
Defined.

End Companion.
